(* ===== verification/_CoqProject ===== *)
-Q . S2P
Prelude.v
PyString.v
PyObject.v
Conversation.v
OpenAIProtocol.v
EngineUtils.v
StreamBase.v
EngineBase.v
Engine.v
Router.v
Quantization.v
QuantRegistry.v
Flags.v
Config.v
ModelConfigs.v
ModelPresets.v
NestedConfigs.v
ConfigInvariants.v
ModelRegistry.v
Loader.v
Templates.v
GenConfig.v
ConvertWeight.v
StandardLoader.v
ModelLoaders.v
LoaderCoverage.v
Kernel.v
MoeRouting.v
MoeMatmul.v
MoeLayer.v
SpecVerify.v
TopP.v
Sharding.v
Network.v
Shapes.v
NetsLlama.v
NetsQwen.v
NetsGPT.v
NetsGemma.v
Networks.v
NetSharding.v
NetPipeline.v
Embedding.v
Entrypoints.v
SyncEngine.v
Scalar.v
Triton.v
DeltaNet.v
DeltaChunk.v
DeltaLayer.v
Fp8Gemm.v
