(* ===== verification/Prelude.v ===== *)
(** A verification of mlc-llm ([python/mlc_llm]).

    * What the program does

    mlc-llm compiles language models and serves them behind an OpenAI-like
    interface. A request (chat messages or a prompt) is validated, turned into
    one prompt by a conversation template, cut into data for the engine,
    which runs in C++ and calls back with batches of new token ids. The Python
    side detokenizes these per generation, hands them to the generator of their
    request and wraps them into response chunks, which a non-streaming call
    gathers into one response. A router spreads requests over several servers,
    possibly with the prompt computed on one server and the answer on another.
    Before serving, a model goes through three commands: [gen_config] merges its
    configurations into the one of a chat, [convert_weight] loads, quantizes and
    checks its weights, [compile] (on demand by a child process) builds its
    network, cuts its parameters among devices and stages, and hands it to TVM.

    * Files: the language

    - [Prelude]: exceptions and results, the state-and-exception monad [stM],
      Python lists, dictionaries, floats and JSON values.
    - [PyString]: the string methods the program calls, [int(s)] and [str(n)].
    - [PyObject]: dynamic values, objects under construction, the statements of a
      [__post_init__].
    - [Kernel]: machine integers, loops, grids of threads and buffers, sums.
    - [Scalar]: exact scalars as the classes [Scalar] and [ScalarLaws], with the
      real numbers as an instance; sums of scalars and lists of stores. [Triton]:
      the loads, stores and tiles of Triton programs, and their launches.

    * Files: serving

    - [Conversation] ([protocol/conversation_protocol.py]): the template and
      [as_prompt], stripping of past reasoning, merging of adjacent texts.
    - [Templates] ([conversation_template/]): the registry and every template.
    - [OpenAIProtocol] ([protocol/openai_api_protocol.py],
      [protocol/debug_protocol.py]): requests and their validators, the checks
      of messages and of function calling.
    - [EngineUtils] ([serve/engine_utils.py], [protocol/generation_config.py]):
      generation configs, prompts as token lists, the clean-up scope.
    - [StreamBase] ([serve/data.py], [serve/engine_base.py]): stream objects,
      the state shared by the engine's callback and the generators, the two
      callbacks. The class [TextStreamer] is the interface of the detokenizer,
      [TextStreamerLaws] what its client relies on.
    - [EngineBase] ([serve/engine_base.py]): construction checks, the
      processing of requests and of stream outputs, usage, function calls,
      wrapped responses, metrics.
    - [Engine] ([serve/engine.py]): [_generate], [_abort], the handlers and the
      non-streaming completions of [AsyncMLCEngine] and [MLCEngine]. The class
      [Yields] is what a generator promises to a handler; both engines are
      instances, and the completions are proved against the class.
    - [SyncEngine] ([serve/sync_engine.py]): the synchronous test engine, whose
      [generate] steps the C++ engine until its own callback has seen every end.
    - [Router] ([router/router.py]): start-up, choice of an endpoint, the
      round-robin and the disaggregated dispatch, retries after preemption.
    - [Embedding] ([serve/embedding_engine.py]): the embedding engine. The class
      [Runtime] is the model's functions, the tokenizer and the arithmetic of
      vectors, [RuntimeLaws] what a decoder's cache promises.
    - [Entrypoints] ([serve/entrypoints/], [serve/server/server_context.py],
      [interface/serve.py]): the HTTP handlers over the engines, and the server's
      context; the client of a request is a record of answers.

    * Files: models and weights

    - [Config] ([support/config.py]): configuration classes and overrides.
      [ModelConfigs] and [NestedConfigs] are the classes of the models with their
      [__post_init__], [ConfigInvariants] what an accepted configuration
      satisfies, [ModelPresets] the presets.
    - [Quantization] ([quantization/group_quantization.py],
      [quantization/utils.py]): the configuration, the layers and the visitor,
      packing, quantization and dequantization. [QuantRegistry]
      ([quantization/quantization.py]): all methods and their checks.
    - [ModelRegistry] ([model/model.py], [quantization/model_quantization.py],
      [support/auto_config.py]): the registry of models, what each can be
      quantized with, the detection of model types.
    - [Loader] ([loader/]): mappings, loading order, the cache of files.
      [StandardLoader] and [ModelLoaders] build the mappings of the models,
      [LoaderCoverage] states what they map.
    - [GenConfig] ([interface/gen_config.py]), [ConvertWeight]
      ([interface/convert_weight.py]).
    - [Flags] ([interface/compiler_flags.py], [interface/jit.py],
      [support/argparse.py], [interface/compile.py]): optimization flags and
      overrides, their text, and just-in-time compilation.

    * Files: networks and kernels

    - [MoeRouting], [MoeMatmul] ([op/moe_misc.py], [op/moe_matmul.py]): the
      kernels of mixtures of experts; [MoeLayer] ([nn/expert.py],
      [model/mixtral/mixtral_model.py]) composes them.
    - [SpecVerify] ([op/batch_spec_verify.py]): speculative verification; [TopP]
      ([op/top_p_pivot.py]): the pivot and the renormalization of top-p sampling.
    - [DeltaNet] ([model/qwen35/qwen35_model.py]): the recurrent kernels of gated
      delta networks, their preparations and the causal convolution.
      [DeltaChunk] ([op/triton.py]): the chunked prefill in Triton, whose programs
      are lists of stores into flat memory. [DeltaLayer] ([nn/rnn_state.py] and
      the layer of [model/qwen35/qwen35_model.py]): the states of the sequences,
      the choice of the kernels by the environment, and the layer between its
      projections.
    - [Fp8Gemm] ([op/triton.py]): products in float8 with a scale per block, and
      their grouped version for experts.
    - [Sharding] ([support/tensor_parallel.py]): how a weight is cut.
    - [Network]: the modules and operators the networks are written in, as the
      class [NN]; [Shapes] has the laws [NNLaws] of their shapes and types and the
      tactics that derive those of a network.
    - [NetsLlama], [NetsQwen], [NetsGPT], [NetsGemma] ([model/*/*_model.py]): the
      networks of 25 models. A class of the source is a module: its attributes
      are the record [t], [__init__] is [init], [named_parameters()] is
      [parameters], the local functions [_set_tp] and [_set_pp] are [set_tp] and
      [set_pp], every method has its name.
    - [Networks] the models together, [NetSharding] their tensor parallelism,
      [NetPipeline] their pipeline stages and the check of [interface/compile.py].

    A kernel is a loop over the list of its threads, or a list of stores;
    synchronization inside a block is the order of its phases.

    Definitions keep the names of the code; a function of the code that is a
    loop with a large body is split into the body and the loop.

    * State, effects and time

    A call that may raise returns [result]; a call that also changes state is
    an [stM], which keeps the state of the effects performed before the
    exception. Stream objects, which the callback and the generators share,
    live in a store and are named by locations; so do the presets of the
    compiler flags, which are shared by name. A generator is the loop that
    consumes it: the consumer's body runs at each [yield], an exception of the
    body closes the generator there. The event loop is a schedule: a list of
    deliveries by the engine and resumptions of the consumer, over which the
    theorems quantify; so is the order of the threads of a grid. An empty queue
    makes the generator wait: a run whose schedule is exhausted returns [None],
    and [Engine.async_yields] states how many resumptions are enough for a
    result. Calls into the engine and to servers are recorded, and answered by
    parameters.

    Fuel occurs in [PyString.split_fuel] (the length of the text plus one is
    enough, [split_fuel_pieces] and [join_split]), in [MoeMatmul.group_gemm] (its
    fuel is enough for every block, by [group_gemm_spec]) and in
    [SpecVerify.batch_spec_verify] (one more than the nodes of the tree,
    [verification_walk]) and in [TopP.top_p_pivot] (some number suffices,
    [top_p_pivot_spec]). The attempts of [Router.handle_completion] are a list
    given by the environment ([Router.preempted_attempts_leak] states that the
    attempts after which it ends suffice). Everything else is structural.

    A network is built and run over any instance of [NN]: tensors are a type with
    a shape and an element type, operators are functions. Attributes of a
    configuration are read at their declared type. Sizes are divided as Python
    divides, but a division by a zero size is zero where the source raises; the
    condition [natural] of the theorems excludes it.

    * What the theorems show

    - Requests: the validators accept exactly the specified requests; a chat
      request becomes the prefix tokens and the tokens of the rendered
      conversation, or the error of a prompt that is too long; prompts keep
      order and tokens; generation configs carry the request's values.
    - Prompts: [as_prompt] renders the turns in order, with the separators and
      the substituted function description; stripping is limited to past
      assistant turns and idempotent; merging keeps every character and image;
      every registered template is valid.
    - Streams: items are delivered once, in order, under every interleaving;
      the callback delivers the chunks of a request to its own stream only, and
      the texts of a generation add up to the decoding of its tokens.
    - Engines: a generator feeds its consumer its own chunks in order, ends
      whenever enough resumptions are scheduled, and aborts its request in the
      engine exactly when the consumer fails; a completion returns the
      concatenated texts, the first finish reason and the usage, for both
      engines.
    - The synchronous engine: [generate] ends, with every text decoded, and the
      callback of the engine is restored, if every request asks for one generation
      without logprobs; on the usage of another request, which the engine also
      sends, it raises and leaves its callback in the engine.
    - Server: a chat over HTTP is answered with what the engine generated, a client
      that leaves makes the engine abort its request once, a stream sends every
      response in order; who needs the API key; one context at a time.
    - Embeddings: batches, packed sub-batches and chunks give every text with
      tokens the last state of its own tokens.
    - Router: the call sequence and the windows of a disaggregated request, the
      endpoint chosen, the balance of the load counters and where it is lost.
    - Configurations: what a generated chat configuration holds; windows, chunks
      and heads of an accepted model configuration; presets load.
    - Weights: the cache of the loader is transparent and bounded; a conversion
      that ends has written every parameter once with the declared shape; the
      loaders of the models map exactly their parameters, but for nine whose
      exceptions are stated.
    - Compilation: flags and overrides survive the way through the child's
      command line; shared presets; overrides of configurations.
    - Quantization: packing is inverted by unpacking; the error of a weight is
      at most half the scale of its group; the parameters have the declared
      shapes.
    - Kernels: the grouped product, the top-k and the shuffling plan against
      their references, whatever the order of the threads; the layer of experts
      against the weighted sum per token; speculative verification keeps the
      model's distribution; the search of the top-p pivot ends with a minimal set,
      up to its threshold.
    - Gated delta networks: every kernel computes the recurrence
      ([gdn_func_spec], [gdn_decode_agree], [causal_conv_spec]), the chunked
      kernels what the recurrent one does, given a buffer of zeros that no code
      makes or at most 16 tokens ([chunked_prefill_spec]), and under the same
      condition a layer the same on every path ([gdn_layer_spec]).
    - Products in float8 are those of the scaled matrices ([fp8_gemm_spec],
      [fp8_group_gemm_spec]), with every tile computed; scales in other types
      than float32 fail at the launch.
    - Networks: every function a network exports exists, with logits, hidden
      states and a cache of the shapes and types it promises
      ([networks_typed], within [Networks.limits] for four of them); tensor
      parallelism cuts every parameter of 21 of the 25 layers, some without biases
      only, into what the layer of a device declares, each element exactly once
      ([layers_sharded], [gen_tir_partition]; [layers_not_cut] has the layers that
      do not fit); pipeline stages ([stages_assigned], [stages_missing],
      [stages_uneven]) and the check before compilation ([preproc_spec]).

    * Not modelled

    The engine and the tokenizers (C++, behind foreign functions), pydantic's
    parsing and dumping, the event loop, threads and HTTP libraries themselves,
    TVM and what it makes of a graph (compiler passes, attention kernels), the
    argmax kernel and the unpacked output kernel [chunk_fwd_o] in Triton,
    process start-up, files and network. Of the networks: the mixtures of
    experts other than Mixtral's layer, MiniCPM, the multimodal models, BERT,
    Eagle, Medusa, RWKV, DeepSeek, the attention and vision layers of Qwen 3.5,
    and [to(dtype)]. What the operators compute is not modelled in the networks,
    only shapes and types. Rounding errors of floats are not modelled:
    quantization, sampling and speculative verification are over rationals, the
    kernels in Triton and the gated delta networks over any commutative ring
    with an exponential, a logarithm and roots, such as the real numbers of the
    Standard Library, whose axioms the development loads. Text is a sequence of
    8-bit characters; the methods that depend on Unicode classes are taken on
    ASCII. *)

From Stdlib Require Import QArith Lia.
From stdpp Require Import base gmap strings list option numbers.

#[export] Set Warnings "-register-all,-clear-no-such-hyp".
Close Scope Q_scope.
Open Scope stdpp_scope.

(** ** Exceptions and results *)

(** The exception classes the modelled code raises, lets escape or catches. *)
Inductive exn_class :=
  | ValueError
  | BadRequestError
  | ValidationError
  | AssertionError
  | RuntimeError
  | KeyError
  | IndexError
  | TypeError
  | AttributeError
  | SyntaxError
  | FileNotFoundError
  | NotImplementedError
  | SystemExit
  | CancelledError
  | GeneratorExit
  | OtherError.

#[export] Instance exn_class_eq_dec : EqDecision exn_class.
Proof. solve_decision. Defined.

(** An exception: its class and the text of its message. When the source
    builds the message with an f-string, the text is the format string, not
    interpolated. *)
Record exn := Exn { exn_cls : exn_class; exn_msg : string }.

#[export] Instance exn_eq_dec : EqDecision exn.
Proof. solve_decision. Defined.

(** [issubclass(cls, Exception)]: everything but the three classes Python
    derives directly from [BaseException]. *)
Definition is_Exception (c : exn_class) : bool :=
  match c with
  | SystemExit | CancelledError | GeneratorExit => false
  | _ => true
  end.

(** The result of a call: a value, or an exception that propagates. *)
Inductive result (A : Type) :=
  | Ok (a : A)
  | Err (e : exn).
Arguments Ok {A} a.
Arguments Err {A} e.

#[export] Instance result_eq_dec `{EqDecision A} : EqDecision (result A).
Proof. solve_decision. Defined.

#[export] Instance result_ret : MRet result := λ A a, Ok a.
#[export] Instance result_bind : MBind result := λ A B f m,
  match m with Ok a => f a | Err e => Err e end.
#[export] Instance result_fmap : FMap result := λ A B f m,
  match m with Ok a => Ok (f a) | Err e => Err e end.

Definition raise {A} (c : exn_class) (msg : string) : result A := Err (Exn c msg).

(** [assert b, msg]. *)
Definition py_assert (b : bool) (msg : string) : result unit :=
  if b then Ok tt else raise AssertionError msg.

(** [if b: raise c(msg)]. *)
Definition raise_when (b : bool) (c : exn_class) (msg : string) : result unit :=
  if b then raise c msg else Ok tt.

Definition is_ok {A} (r : result A) : bool :=
  match r with Ok _ => true | Err _ => false end.

Lemma bind_Ok {A B} (f : A → result B) m b :
  m ≫= f = Ok b ↔ ∃ a, m = Ok a ∧ f a = Ok b.
Proof.
  destruct m as [a|e]; split; [intros H; by exists a| |done|].
  - by intros (a' & [= ->] & ?).
  - by intros (a' & ? & ?).
Qed.

Lemma bind_Err {A B} (f : A → result B) m e :
  m ≫= f = Err e ↔ m = Err e ∨ ∃ a, m = Ok a ∧ f a = Err e.
Proof.
  destruct m as [a|e']; split.
  - intros H. right. by exists a.
  - by intros [?|(a' & [= ->] & ?)].
  - intros [= ->]. by left.
  - by intros [[= ->]|(a' & ? & ?)].
Qed.

Lemma py_assert_Ok b msg u : py_assert b msg = Ok u ↔ b = true.
Proof. by destruct u, b. Qed.

Lemma raise_when_Ok b c msg u : raise_when b c msg = Ok u ↔ b = false.
Proof. by destruct u, b. Qed.

(** Invert every hypothesis about a computation that returned [Ok]. *)
Ltac ok_inv :=
  repeat match goal with
  | H : Ok _ = Ok _ |- _ => injection H; clear H; intros; subst
  | H : Ok _ = Err _ |- _ => discriminate H
  | H : Err _ = Ok _ |- _ => discriminate H
  | H : Err _ = Err _ |- _ => injection H; clear H; intros; subst
  | H : raise _ _ = Ok _ |- _ => discriminate H
  | H : mret _ = Ok _ |- _ => unfold mret, result_ret in H
  | H : mbind _ _ = Ok _ |- _ =>
      apply bind_Ok in H; let a := fresh "a" in let H1 := fresh "H" in
      destruct H as (a & H1 & H)
  | H : py_assert _ _ = Ok _ |- _ => apply py_assert_Ok in H
  | H : raise_when _ _ _ = Ok _ |- _ => apply raise_when_Ok in H
  | a : unit |- _ => destruct a
  end.

(** Turn boolean hypotheses into propositions. *)
Ltac bool_inv :=
  repeat match goal with
  | H : negb _ = false |- _ => apply negb_false_iff in H
  | H : negb _ = true |- _ => apply negb_true_iff in H
  | H : _ && _ = true |- _ => apply andb_true_iff in H as [? ?]
  | H : _ || _ = false |- _ => apply orb_false_iff in H as [? ?]
  | H : bool_decide _ = true |- _ => apply bool_decide_eq_true in H
  | H : bool_decide _ = false |- _ => apply bool_decide_eq_false in H
  | H : (_ <? _)%Z = true |- _ => apply Z.ltb_lt in H
  | H : (_ <? _)%Z = false |- _ => apply Z.ltb_ge in H
  | H : (_ =? _)%Z = true |- _ => apply Z.eqb_eq in H
  | H : (_ =? _)%Z = false |- _ => apply Z.eqb_neq in H
  | H : (_ <=? _)%Z = true |- _ => apply Z.leb_le in H
  | H : (_ <=? _)%Z = false |- _ => apply Z.leb_gt in H
  end.

(** ** State and exceptions

    Python keeps the effects performed before an exception, so a computation
    returns the final state in both cases. *)
Definition stM (S A : Type) : Type := S → S * result A.

#[export] Instance stM_ret {S} : MRet (stM S) := λ A a s, (s, Ok a).
#[export] Instance stM_bind {S} : MBind (stM S) := λ A B f m s,
  match m s with
  | (s', Ok a) => f a s'
  | (s', Err e) => (s', Err e)
  end.

Definition st_get {S} : stM S S := λ s, (s, Ok s).
Definition st_put {S} (s' : S) : stM S unit := λ _, (s', Ok tt).
Definition st_modify {S} (f : S → S) : stM S unit := λ s, (f s, Ok tt).
Definition st_lift {S A} (r : result A) : stM S A := λ s, (s, r).

Lemma st_bind_Ok {S A B} (f : A → stM S B) (m : stM S A) s s' b :
  (m ≫= f) s = (s', Ok b) ↔ ∃ a s1, m s = (s1, Ok a) ∧ f a s1 = (s', Ok b).
Proof.
  unfold mbind, stM_bind. destruct (m s) as [s1 [a|e]]; split.
  - intros H. by exists a, s1.
  - by intros (a' & s1' & [= -> ->] & ?).
  - done.
  - by intros (a' & s1' & ? & ?).
Qed.

Lemma st_lift_Ok {S A} (r : result A) (s s' : S) a :
  st_lift r s = (s', Ok a) ↔ r = Ok a ∧ s' = s.
Proof. unfold st_lift. split; [intros [= <- <-]; done|intros [-> ->]; done]. Qed.

(** ** Numbers *)

(** A Python [float]: a finite value (taken exactly), an infinity or NaN. *)
Inductive pyfloat :=
  | Fin (q : Q)
  | Inf (neg : bool)
  | NaN.

(** [x < y] on floats; every comparison with NaN is false. *)
Definition float_lt (x y : pyfloat) : bool :=
  match x, y with
  | NaN, _ | _, NaN => false
  | Fin p, Fin q => negb (Qle_bool q p)
  | Inf true, Inf true => false
  | Inf true, _ => true
  | _, Inf true => false
  | Inf false, _ => false
  | Fin _, Inf false => true
  end.

(** [abs(x)] on floats. *)
Definition float_abs (x : pyfloat) : pyfloat :=
  match x with
  | Fin q => if Qle_bool 0 q then Fin q else Fin (- q)
  | Inf _ => Inf false
  | NaN => NaN
  end.

(** [bool(x)] on floats: zero is false, NaN is true. *)
Definition float_truthy (x : pyfloat) : bool :=
  match x with Fin q => negb (Qeq_bool q 0) | _ => true end.

(** [x] is in the closed interval, or is NaN. *)
Definition float_within (lo hi : Q) (x : pyfloat) : Prop :=
  match x with
  | Fin q => lo <= q ∧ q <= hi
  | Inf _ => False
  | NaN => True
  end%Q.

Lemma Qle_bool_false p q : Qle_bool p q = false ↔ (q < p)%Q.
Proof.
  split.
  - intros H. apply Qnot_le_lt. intros Hle. apply Qle_bool_iff in Hle. congruence.
  - intros H. destruct (Qle_bool p q) eqn:E; [|done].
    apply Qle_bool_iff in E. exfalso. by apply (Qlt_not_le q p).
Qed.

Lemma float_lt_Fin p q : float_lt (Fin p) (Fin q) = true ↔ (p < q)%Q.
Proof. simpl. rewrite negb_true_iff. apply Qle_bool_false. Qed.

Lemma float_not_lt_Fin p q : float_lt (Fin p) (Fin q) = false ↔ (q <= p)%Q.
Proof. simpl. rewrite negb_false_iff. apply Qle_bool_iff. Qed.

(** ** Lists *)

Section lists.
Context {A : Type}.

(** [l[i]] with a non-negative index: [IndexError] out of range. *)
Definition py_index (l : list A) (i : nat) : result A :=
  match l !! i with Some x => Ok x | None => raise IndexError "list index out of range" end.

(** [l[i] = x]: [IndexError] out of range. *)
Definition py_setitem (l : list A) (i : nat) (x : A) : result (list A) :=
  if decide (i < length l) then Ok (<[i:=x]> l)
  else raise IndexError "list assignment index out of range".

(** [enumerate(l)]. *)
Definition enumerate (l : list A) : list (nat * A) := imap pair l.

Lemma py_index_Ok l i x : py_index l i = Ok x ↔ l !! i = Some x.
Proof. unfold py_index. destruct (l !! i); split; intros; by simplify_eq. Qed.

Lemma py_setitem_Ok l i x l' :
  py_setitem l i x = Ok l' ↔ i < length l ∧ l' = <[i:=x]> l.
Proof.
  unfold py_setitem. case_decide; split; [by intros [= <-]|by intros [_ ->]|done|by intros [? _]].
Qed.

Lemma lookup_enumerate l i : enumerate l !! i = (λ x, (i, x)) <$> l !! i.
Proof. unfold enumerate. rewrite list_lookup_imap. by destruct (l !! i). Qed.

Lemma length_enumerate l : length (enumerate l) = length l.
Proof. apply length_imap. Qed.

(** [all(f(x) for x in l)] and [any(...)] are [forallb] and [existsb]. *)
Lemma forallb_Forall (f : A → bool) l : forallb f l = true ↔ Forall (λ x, f x = true) l.
Proof.
  induction l as [|x l IH]; simpl; [by split|].
  rewrite andb_true_iff, IH. split.
  - intros [? ?]. by constructor.
  - by inversion 1.
Qed.
End lists.

Lemma filter_all {A} (P : A → Prop) `{∀ x, Decision (P x)} (l : list A) : (∀ x, x ∈ l → P x) → filter P l = l.
Proof.
  induction l as [|x l IH]; intros H0; [done|]. rewrite filter_cons_True by (apply H0; left).
  f_equal. apply IH. intros y Hy. apply H0. by right.
Qed.
Lemma filter_none {A} (P : A → Prop) `{∀ x, Decision (P x)} (l : list A) : (∀ x, x ∈ l → ¬ P x) → filter P l = [].
Proof.
  induction l as [|x l IH]; intros H0; [done|]. rewrite filter_cons_False by (apply H0; left).
  apply IH. intros y Hy. apply H0. by right.
Qed.

Lemma imap_imap {A B C} (f : nat → B → C) (g : nat → A → B) l :
  imap f (imap g l) = imap (λ i x, f i (g i x)) l.
Proof.
  apply list_eq. intros i. rewrite !list_lookup_imap. by destruct (l !! i).
Qed.

Lemma imap_id {A} (f : nat → A → A) l :
  (∀ i x, l !! i = Some x → f i x = x) → imap f l = l.
Proof.
  intros H. apply list_eq. intros i. rewrite list_lookup_imap.
  destruct (l !! i) eqn:E; simpl; [by rewrite (H _ _ E)|done].
Qed.

(** A [for x in l: acc = body(acc, x)] loop whose body may raise. *)
Fixpoint fold_m {A B} (f : B → A → result B) (b : B) (l : list A) : result B :=
  match l with
  | [] => Ok b
  | x :: l => b' ← f b x; fold_m f b' l
  end.

(** A list comprehension whose element may raise. *)
Section map_m.
Context {A B : Type} (f : A → result B).
Fixpoint map_m (l : list A) : result (list B) :=
  match l with
  | [] => Ok []
  | x :: l => y ← f x; ys ← map_m l; Ok (y :: ys)
  end.
End map_m.

(** The same two loops, over a state that survives exceptions. *)
Fixpoint st_iter {S A} (f : A → stM S unit) (l : list A) : stM S unit :=
  match l with
  | [] => mret tt
  | x :: l => _ ← f x; st_iter f l
  end.

Lemma fold_m_app {A B} (f : B → A → result B) b l1 l2 :
  fold_m f b (l1 ++ l2) = (b' ← fold_m f b l1; fold_m f b' l2).
Proof.
  revert b. induction l1 as [|x l1 IH]; intros b; [done|]. simpl.
  destruct (f b x); simpl; [apply IH|done].
Qed.

(** An invariant of the accumulator is an invariant of the loop. *)
Lemma fold_m_invariant {A B} (I : B → Prop) (f : B → A → result B) l b b' :
  (∀ c x c', x ∈ l → I c → f c x = Ok c' → I c') →
  I b → fold_m f b l = Ok b' → I b'.
Proof.
  revert b. induction l as [|x l IH]; simpl; intros b Hstep Hb H; ok_inv; [done|].
  eapply IH; [|eapply Hstep; [|exact Hb|done]|done].
  - intros. eapply Hstep; [by right|done|done].
  - by left.
Qed.

Lemma map_m_Ok {A B} (f : A → result B) l ys :
  map_m f l = Ok ys ↔ Forall2 (λ x y, f x = Ok y) l ys.
Proof.
  revert ys. induction l as [|x l IH]; simpl; intros ys.
  - split; [intros [= <-]; constructor|by inversion 1].
  - split.
    + intros H. ok_inv. constructor; [done|]. by apply IH.
    + inversion 1 as [|??? ys' Hx Hl]; subst. apply IH in Hl. by rewrite Hx, Hl.
Qed.

Lemma map_m_length {A B} (f : A → result B) l ys : map_m f l = Ok ys → length ys = length l.
Proof. intros H%map_m_Ok. symmetry. by eapply Forall2_length. Qed.

Lemma map_m_total {A B} (f : A → result B) (g : A → B) l :
  (∀ x, x ∈ l → f x = Ok (g x)) → map_m f l = Ok (g <$> l).
Proof.
  intros H. apply map_m_Ok. induction l as [|x l IH]; simpl; constructor.
  - apply H. by left.
  - apply IH. intros y Hy. apply H. by right.
Qed.

(** ** JSON-like values

    The values of [Dict[str, Any]] arguments: what [json.loads] returns.
    Objects are association lists in insertion order. *)
Inductive pyval :=
  | PNone
  | PBool (b : bool)
  | PInt (z : Z)
  | PFloat (f : pyfloat)
  | PStr (s : string)
  | PList (l : list pyval)
  | PDict (d : list (string * pyval)).

(** Induction with hypotheses for the elements of lists and objects. *)
Lemma pyval_ind_nested (P : pyval → Prop) :
  P PNone → (∀ b, P (PBool b)) → (∀ z, P (PInt z)) → (∀ f, P (PFloat f)) → (∀ s, P (PStr s)) →
  (∀ l, Forall P l → P (PList l)) → (∀ d, Forall (λ kv, P kv.2) d → P (PDict d)) →
  ∀ v, P v.
Proof.
  intros H1 H2 H3 H4 H5 Hl Hd. fix IH 1. intros [|b|z|f|s|l|d];
    [exact H1|apply H2|apply H3|apply H4|apply H5| |].
  - apply Hl. induction l as [|x l IHl]; constructor; [apply IH|exact IHl].
  - apply Hd. induction d as [|[k x] d IHd]; constructor; [apply IH|exact IHd].
Qed.

(** [d[k]] and [k in d] on an association list. *)
Fixpoint dict_get {A} (k : string) (d : list (string * A)) : option A :=
  match d with
  | [] => None
  | (k', v) :: d => if decide (k = k') then Some v else dict_get k d
  end.

(** [d[k] = v]: replaces in place, or appends. *)
Fixpoint dict_set {A} (k : string) (v : A) (d : list (string * A)) : list (string * A) :=
  match d with
  | [] => [(k, v)]
  | (k', v') :: d => if decide (k = k') then (k, v) :: d else (k', v') :: dict_set k v d
  end.

Definition has_key {A} (k : string) (d : list (string * A)) : bool :=
  match dict_get k d with Some _ => true | None => false end.

Definition get_key {A} (k : string) (d : list (string * A)) : result A :=
  match dict_get k d with Some v => Ok v | None => raise KeyError k end.

Lemma dict_set_eq {A} k (v : A) d : dict_get k (dict_set k v d) = Some v.
Proof.
  induction d as [|[k' v'] d IH]; simpl; [by rewrite decide_True|].
  destruct (decide (k = k')) as [->|]; simpl; [by rewrite decide_True|by rewrite decide_False].
Qed.

Lemma dict_set_ne {A} k k' (v : A) d : k ≠ k' → dict_get k (dict_set k' v d) = dict_get k d.
Proof.
  intros Hne. induction d as [|[k1 v1] d IH]; simpl; [by rewrite decide_False|].
  destruct (decide (k' = k1)) as [<-|]; simpl.
  - by rewrite !decide_False.
  - destruct (decide (k = k1)); [done|apply IH].
Qed.

Lemma dict_set_keys {A} k (v : A) d :
  has_key k d = true → (dict_set k v d).*1 = d.*1.
Proof.
  unfold has_key. induction d as [|[k1 v1] d IH]; simpl; [done|].
  destruct (decide (k = k1)) as [->|]; simpl; [done|]. intros H. f_equal. by apply IH.
Qed.

Lemma dict_get_elem {A} k (v : A) d : dict_get k d = Some v → (k, v) ∈ d.
Proof.
  induction d as [|[k1 v1] d IH]; simpl; [done|].
  destruct (decide (k = k1)) as [->|]; [intros [= ->]; by left|intros; right; by apply IH].
Qed.

Lemma dict_get_None {A} k (d : list (string * A)) : dict_get k d = None ↔ k ∉ d.*1.
Proof.
  induction d as [|[k1 v1] d IH]; simpl; [set_solver|].
  destruct (decide (k = k1)) as [->|]; [set_solver|]. rewrite IH. set_solver.
Qed.

(** ** Automation

    The facts on Python lists and dictionaries that close side conditions. *)
Create HintDb py.
#[export] Hint Resolve dict_set_eq dict_set_ne dict_get_elem map_m_length : py.
#[export] Hint Rewrite @length_enumerate @lookup_enumerate @imap_imap @fold_m_app : py.
