(* ===== verification/PyString.v ===== *)
(** The Python [str] operations the program uses, on byte strings: search,
    [py_split], [rsplit(sep, 1)], [py_join], [replace], [lstrip], [startswith],
    ASCII [upper], decimal printing and parsing of integers. Every separator
    the program passes is a non-empty literal. *)

From Stdlib Require Import Ascii.
From stdpp Require Import base strings list numbers pretty.
From S2P Require Import Prelude.

#[global] Arguments String.append : simpl nomatch.

(** [s.startswith(p)], returning what follows the prefix. *)
Fixpoint strip_prefix (p s : string) : option string :=
  match p, s with
  | EmptyString, _ => Some s
  | String c p, String d s => if decide (c = d) then strip_prefix p s else None
  | String _ _, EmptyString => None
  end.

Definition startswith (s p : string) : bool :=
  match strip_prefix p s with Some _ => true | None => false end.

(** The text before and after the first occurrence of [sep] in [s]. *)
Fixpoint cut (sep s : string) : option (string * string) :=
  match strip_prefix sep s with
  | Some rest => Some (EmptyString, rest)
  | None =>
      match s with
      | EmptyString => None
      | String c s =>
          match cut sep s with
          | Some (a, b) => Some (String c a, b)
          | None => None
          end
      end
  end.

(** The text before and after the last occurrence of [sep] in [s]. *)
Fixpoint rcut (sep s : string) : option (string * string) :=
  match s with
  | EmptyString =>
      match strip_prefix sep s with Some rest => Some (EmptyString, rest) | None => None end
  | String c s' =>
      match rcut sep s' with
      | Some (a, b) => Some (String c a, b)
      | None =>
          match strip_prefix sep s with Some rest => Some (EmptyString, rest) | None => None end
      end
  end.

(** [sep in s]. *)
Definition contains (sep s : string) : bool :=
  match cut sep s with Some _ => true | None => false end.

(** [s.split(sep)]; the fuel bounds the number of pieces. *)
Fixpoint split_fuel (n : nat) (sep s : string) : list string :=
  match n with
  | O => [s]
  | S n =>
      match cut sep s with
      | None => [s]
      | Some (a, b) => a :: split_fuel n sep b
      end
  end.

Definition py_split (sep s : string) : list string := split_fuel (S (String.length s)) sep s.

(** [s.rsplit(sep, 1)]. *)
Definition rsplit1 (sep s : string) : list string :=
  match rcut sep s with None => [s] | Some (a, b) => [a; b] end.

(** [sep.py_join(l)]. *)
Fixpoint py_join (sep : string) (l : list string) : string :=
  match l with
  | [] => EmptyString
  | [x] => x
  | x :: l => x +:+ sep +:+ py_join sep l
  end.

(** [s.replace(old, new)] with a non-empty [old]. *)
Definition replace (old new s : string) : string := py_join new (py_split old s).

(** [s.lstrip(c)] for a single character [c]. *)
Fixpoint lstrip_char (c : ascii) (s : string) : string :=
  match s with
  | String d s' => if decide (c = d) then lstrip_char c s' else s
  | EmptyString => EmptyString
  end.

(** [s.strip()]: ASCII white space off both ends. *)
Definition is_space (c : ascii) : bool :=
  let n := nat_of_ascii c in bool_decide (n = 32 ∨ (9 ≤ n ∧ n ≤ 13) ∨ (28 ≤ n ∧ n ≤ 31)).
Fixpoint lstrip_space (s : string) : string :=
  match s with
  | String c s' => if is_space c then lstrip_space s' else s
  | EmptyString => EmptyString
  end.
Fixpoint rstrip_space (s : string) : string :=
  match s with
  | EmptyString => EmptyString
  | String c s' =>
      match rstrip_space s' with
      | EmptyString => if is_space c then EmptyString else String c EmptyString
      | r => String c r
      end
  end.
Definition py_strip (s : string) : string := rstrip_space (lstrip_space s).

(** [s[n:]]. *)
Fixpoint drop_chars (n : nat) (s : string) : string :=
  match n, s with
  | S n, String _ s => drop_chars n s
  | _, _ => s
  end.

Definition newline : ascii := ascii_of_nat 10.
Definition dquote : ascii := ascii_of_nat 34.

(** [s.upper()] and [s.lower()] on ASCII letters. *)
Definition upper_char (c : ascii) : ascii :=
  let n := nat_of_ascii c in
  if decide (97 ≤ n ∧ n ≤ 122) then ascii_of_nat (n - 32) else c.
Definition lower_char (c : ascii) : ascii :=
  let n := nat_of_ascii c in
  if decide (65 ≤ n ∧ n ≤ 90) then ascii_of_nat (n + 32) else c.
Fixpoint map_chars (f : ascii → ascii) (s : string) : string :=
  match s with EmptyString => EmptyString | String c s => String (f c) (map_chars f s) end.
Definition upper : string → string := map_chars upper_char.
Definition lower : string → string := map_chars lower_char.

(** The concatenation of a list of strings. *)
Definition concat_str (l : list string) : string := py_join EmptyString l.

(** ** Concatenation *)

Lemma append_assoc (a b c : string) : (a +:+ b) +:+ c = a +:+ b +:+ c.
Proof. induction a as [|x a IH]; simpl; [done|by rewrite IH]. Qed.

Lemma append_nil_r (a : string) : a +:+ "" = a.
Proof. induction a as [|x a IH]; simpl; [done|by rewrite IH]. Qed.

Lemma length_append (a b : string) :
  String.length (a +:+ b) = String.length a + String.length b.
Proof. induction a as [|x a IH]; simpl; [done|by rewrite IH]. Qed.

Lemma append_cancel_l (a b c : string) : a +:+ b = a +:+ c → b = c.
Proof. induction a as [|x a IH]; simpl; [done|intros [= H]; by apply IH]. Qed.

Lemma join_cons sep x l : l ≠ [] → py_join sep (x :: l) = x +:+ sep +:+ py_join sep l.
Proof. by destruct l. Qed.

Lemma concat_str_cons x l : concat_str (x :: l) = x +:+ concat_str l.
Proof. destruct l; simpl; [by rewrite append_nil_r|done]. Qed.

Lemma concat_str_app l1 l2 : concat_str (l1 ++ l2) = concat_str l1 +:+ concat_str l2.
Proof.
  induction l1 as [|x l1 IH]; [done|].
  change ((x :: l1) ++ l2) with (x :: (l1 ++ l2)).
  by rewrite !concat_str_cons, IH, append_assoc.
Qed.

(** ** Prefixes and occurrences *)

Lemma strip_prefix_Some p s r : strip_prefix p s = Some r ↔ s = p +:+ r.
Proof.
  revert s. induction p as [|c p IH]; intros s; simpl.
  - split; [by intros [= ->]|by intros ->].
  - destruct s as [|d s]; simpl; [done|].
    destruct (decide (c = d)) as [->|Hne]; [rewrite IH; split; [by intros ->|by intros [= ->]]|].
    split; [done|intros [= -> _]; done].
Qed.

Lemma startswith_spec s p : startswith s p = true ↔ ∃ r, s = p +:+ r.
Proof.
  unfold startswith. destruct (strip_prefix p s) as [r|] eqn:E.
  - split; [|done]. intros _. exists r. by apply strip_prefix_Some.
  - split; [done|]. intros [r Hr]. apply strip_prefix_Some in Hr. congruence.
Qed.

(** [p] occurs in [s]. *)
Definition occurs (p s : string) : Prop := ∃ a b, s = a +:+ p +:+ b.

Lemma cut_Some sep s a b : cut sep s = Some (a, b) → s = a +:+ sep +:+ b.
Proof.
  revert a. induction s as [|c s IH]; intros a; simpl.
  - destruct (strip_prefix sep "") eqn:E; [|done].
    intros [= <- <-]. by apply strip_prefix_Some in E.
  - destruct (strip_prefix sep (String c s)) eqn:E.
    + intros [= <- <-]. by apply strip_prefix_Some in E.
    + destruct (cut sep s) as [[a' b']|] eqn:E'; [|done].
      intros [= <- <-]. simpl. f_equal. by apply IH.
Qed.

Lemma cut_None sep s : cut sep s = None ↔ ¬ occurs sep s.
Proof.
  split.
  - intros H (a & b & ->). revert H. induction a as [|c a IH]; simpl.
    + assert (strip_prefix sep (sep +:+ b) = Some b) as Hs by by apply strip_prefix_Some.
      destruct (sep +:+ b) eqn:E; simpl; rewrite Hs; done.
    + destruct (strip_prefix _ _); [done|].
      destruct (cut sep (a +:+ sep +:+ b)) as [[]|] eqn:E; [done|]. intros _. by apply IH.
  - intros H. destruct (cut sep s) as [[a b]|] eqn:E; [|done].
    exfalso. apply H. exists a, b. by apply cut_Some.
Qed.

Lemma contains_spec sep s : contains sep s = true ↔ occurs sep s.
Proof.
  unfold contains. destruct (cut sep s) as [[a b]|] eqn:E.
  - split; [|done]. intros _. exists a, b. by apply cut_Some.
  - apply cut_None in E. split; [done|]. intros; exfalso; by apply E.
Qed.

Lemma contains_false sep s : contains sep s = false ↔ ¬ occurs sep s.
Proof. rewrite <-contains_spec. by destruct (contains sep s). Qed.

(** The piece [cut] returns ends before the first occurrence. *)
Lemma cut_before_no_occurrence sep s a b :
  sep ≠ "" → cut sep s = Some (a, b) → ¬ occurs sep a.
Proof.
  intros Hsep. revert a. induction s as [|c s IH]; intros a; simpl.
  - destruct (strip_prefix sep "") eqn:E; [|done]. intros [= <- <-].
    intros (u & v & Huv). destruct u, sep; simplify_eq/=.
  - destruct (strip_prefix sep (String c s)) eqn:E.
    { intros [= <- <-] (u & v & Huv). destruct u, sep; simplify_eq/=. }
    destruct (cut sep s) as [[a' b']|] eqn:E'; [|done]. intros [= <- <-] (u & v & Huv).
    destruct u as [|d u]; simplify_eq/=.
    + assert (strip_prefix sep (String c s) = Some (v +:+ sep +:+ b')) as Hs; [|congruence].
      apply strip_prefix_Some. apply cut_Some in E'. subst s.
      change (String c (a' +:+ sep +:+ b')) with (String c a' +:+ sep +:+ b').
      by rewrite Huv, append_assoc.
    + apply (IH (u +:+ sep +:+ v)); [done|]. by exists u, v.
Qed.

(** ** [py_split] and [py_join] *)

Lemma split_fuel_nonempty n sep s : split_fuel n sep s ≠ [].
Proof. destruct n; simpl; [done|]. by destruct (cut sep s) as [[]|]. Qed.

Lemma split_nonempty sep s : py_split sep s ≠ [].
Proof. apply split_fuel_nonempty. Qed.

Lemma join_split_fuel n sep s : py_join sep (split_fuel n sep s) = s.
Proof.
  revert s. induction n as [|n IH]; intros s; simpl; [done|].
  destruct (cut sep s) as [[a b]|] eqn:E; [|done].
  rewrite join_cons by apply split_fuel_nonempty. rewrite IH. symmetry. by apply cut_Some.
Qed.

Lemma join_split sep s : py_join sep (py_split sep s) = s.
Proof. apply join_split_fuel. Qed.

Lemma cut_length sep s a b :
  sep ≠ "" → cut sep s = Some (a, b) → String.length b < String.length s.
Proof.
  intros Hsep ->%cut_Some. rewrite !length_append. destruct sep; simpl in *; [done|lia].
Qed.

(** The fuel of [py_split] is enough: no piece contains the separator. *)
Lemma split_fuel_pieces n sep s :
  sep ≠ "" → String.length s < n → Forall (λ p, ¬ occurs sep p) (split_fuel n sep s).
Proof.
  intros Hsep. revert s. induction n as [|n IH]; intros s Hn; simpl; [lia|].
  destruct (cut sep s) as [[a b]|] eqn:E.
  - constructor; [by eapply cut_before_no_occurrence|]. apply IH.
    pose proof (cut_length _ _ _ _ Hsep E). lia.
  - constructor; [by apply cut_None|constructor].
Qed.

Lemma split_pieces sep s : sep ≠ "" → Forall (λ p, ¬ occurs sep p) (py_split sep s).
Proof. intros. apply split_fuel_pieces; [done|lia]. Qed.

Lemma split_no_occurrence sep s : ¬ occurs sep s → py_split sep s = [s].
Proof. intros H%cut_None. unfold py_split. simpl. by rewrite H. Qed.

Lemma replace_no_occurrence old new s : ¬ occurs old s → replace old new s = s.
Proof. intros H. unfold replace. by rewrite split_no_occurrence. Qed.

(** ** Words without self-overlap

    Every placeholder of the program starts with a brace that occurs nowhere
    else in it, so an occurrence cannot straddle a boundary. *)

Definition starts_uniquely (sep : string) : Prop :=
  ∃ c t, sep = String c t ∧ ¬ occurs (String c "") t.

Lemma starts_uniquely_char c : starts_uniquely (String c "").
Proof. exists c, "". split; [done|]. intros (a & b & E). by destruct a. Qed.

Lemma occurs_char_cons c d s : occurs (String c "") (String d s) ↔ c = d ∨ occurs (String c "") s.
Proof.
  split.
  - intros ([|e a] & b & H); simplify_eq/=; [by left|]. right. by exists a, b.
  - intros [->|(a & b & ->)]; [by exists "", s|]. by exists (String d a), b.
Qed.

Lemma occurs_char_app c a b :
  occurs (String c "") (a +:+ b) ↔ occurs (String c "") a ∨ occurs (String c "") b.
Proof.
  induction a as [|d a IH]; cbn [String.append].
  - split; [by right|]. intros [(u & v & E)|]; [|done]. by destruct u.
  - change (String d a +:+ b) with (String d (a +:+ b)). rewrite !occurs_char_cons, IH. tauto.
Qed.

(** Text without [c] that is followed by anything, inside [a] then [c]. *)
Lemma prefix_before_char c t r a w :
  t +:+ r = a +:+ String c w → ¬ occurs (String c "") t → ∃ a', a = t +:+ a'.
Proof.
  revert a. induction t as [|e t IH]; intros a E Hct; simpl in *; [by exists a|].
  rewrite occurs_char_cons in Hct. destruct a as [|f a]; simplify_eq/=.
  - exfalso. apply Hct. by left.
  - destruct (IH a) as [a' ->]; [done|tauto|]. by exists a'.
Qed.

(** The first occurrence of such a word after text that does not contain it. *)
Lemma cut_app sep a b :
  starts_uniquely sep → ¬ occurs sep a → cut sep (a +:+ sep +:+ b) = Some (a, b).
Proof.
  intros (c & t & -> & Hct). induction a as [|d a IH]; intros Ha.
  - simpl. rewrite decide_True by done.
    assert (strip_prefix t (t +:+ b) = Some b) as -> by by apply strip_prefix_Some. done.
  - simpl. simpl in IH. rewrite IH; last first.
    { intros (u & v & ->). apply Ha. by exists (String d u), v. }
    destruct (decide (c = d)) as [->|]; [|done].
    destruct (strip_prefix t _) as [r|] eqn:E; [|done]. exfalso.
    apply strip_prefix_Some in E. symmetry in E.
    apply prefix_before_char in E as [a' ->]; [|done].
    apply Ha. by exists "", a'.
Qed.

(** Replacing the only placeholder of a template. *)
Lemma replace_once old new a b :
  starts_uniquely old → ¬ occurs old a → ¬ occurs old b →
  replace old new (a +:+ old +:+ b) = a +:+ new +:+ b.
Proof.
  intros Hu Ha Hb. unfold replace, py_split. simpl. rewrite cut_app by done.
  destruct (a +:+ old +:+ b) as [|c s] eqn:E.
  - destruct Hu as (c & t & -> & _). by destruct a.
  - simpl. apply cut_None in Hb. by rewrite Hb.
Qed.

Lemma replace_pieces old new s :
  replace old new s = py_join new (py_split old s).
Proof. done. Qed.

(** ** [rsplit(sep, 1)] *)

Lemma rcut_Some sep s a b : rcut sep s = Some (a, b) → s = a +:+ sep +:+ b.
Proof.
  revert a. induction s as [|c s IH]; intros a; simpl.
  - destruct (strip_prefix sep "") eqn:E; [|done].
    intros [= <- <-]. by apply strip_prefix_Some in E.
  - destruct (rcut sep s) as [[a' b']|] eqn:E'.
    + intros [= <- <-]. simpl. f_equal. by apply IH.
    + destruct (strip_prefix sep (String c s)) eqn:E; [|done].
      intros [= <- <-]. by apply strip_prefix_Some in E.
Qed.

Lemma rcut_None sep s : rcut sep s = None ↔ ¬ occurs sep s.
Proof.
  split.
  - intros H (a & b & ->). revert H. induction a as [|c a IH]; simpl.
    + assert (strip_prefix sep (sep +:+ b) = Some b) as Hs by by apply strip_prefix_Some.
      destruct (sep +:+ b) eqn:E; simpl; rewrite Hs; [done|].
      by destruct (rcut sep _) as [[]|].
    + destruct (rcut sep (a +:+ sep +:+ b)) as [[]|] eqn:E; [done|]. intros _. by apply IH.
  - intros H. destruct (rcut sep s) as [[a b]|] eqn:E; [|done].
    exfalso. apply H. exists a, b. by apply rcut_Some.
Qed.

(** ** Stripping *)

Lemma lstrip_char_no_head c s t : lstrip_char c s ≠ String c t.
Proof.
  induction s as [|d s IH]; simpl; [done|].
  destruct (decide (c = d)) as [->|Hne]; [done|]. congruence.
Qed.

Lemma lstrip_char_id c s : (∀ t, s ≠ String c t) → lstrip_char c s = s.
Proof.
  destruct s as [|d s]; simpl; [done|]. intros H.
  destruct (decide (c = d)) as [->|]; [|done]. exfalso. by apply (H s).
Qed.

Lemma lstrip_char_suffix c s : ∃ a, s = a +:+ lstrip_char c s.
Proof.
  induction s as [|d s [a IH]]; simpl; [by exists ""|].
  destruct (decide (c = d)); [|by exists ""]. exists (String d a). simpl. by f_equal.
Qed.

Lemma occurs_suffix p a s : occurs p s → occurs p (a +:+ s).
Proof. intros (u & v & ->). exists (a +:+ u), v. by rewrite append_assoc. Qed.

Lemma rcut_app sep a b :
  starts_uniquely sep → ¬ occurs sep b → rcut sep (a +:+ sep +:+ b) = Some (a, b).
Proof.
  intros (c & t & -> & Hct) Hb. induction a as [|d a IH]; simpl in *; [|by rewrite IH].
  assert (rcut (String c t) (t +:+ b) = None) as ->.
  { apply rcut_None. intros (u & v & E). simpl in E.
    destruct (prefix_before_char _ _ _ _ _ E Hct) as [u' ->].
    apply Hb. exists u', v. rewrite append_assoc in E. by apply append_cancel_l in E. }
  rewrite decide_True by done.
  assert (strip_prefix t (t +:+ b) = Some b) as ->; [by apply strip_prefix_Some|done].
Qed.

Lemma rsplit1_app sep a b :
  starts_uniquely sep → ¬ occurs sep b → rsplit1 sep (a +:+ sep +:+ b) = [a; b].
Proof. intros. unfold rsplit1. by rewrite rcut_app. Qed.

Lemma py_join_last sep l : ∃ a, py_join sep l = a +:+ List.last l "".
Proof.
  induction l as [|x l [a IH]]; [by exists ""|]. destruct l as [|y l]; [by exists ""|].
  rewrite join_cons by done. rewrite IH. exists (x +:+ sep +:+ a).
  change (List.last (x :: y :: l) "") with (List.last (y :: l) "").
  by rewrite !append_assoc.
Qed.

(** The last piece of a split is a suffix of the text. *)
Lemma split_last_suffix sep s : ∃ a, s = a +:+ List.last (py_split sep s) "".
Proof. destruct (py_join_last sep (py_split sep s)) as [a H]. exists a. by rewrite join_split in H. Qed.

Lemma split_last_no_occurrence sep s :
  sep ≠ "" → ¬ occurs sep (List.last (py_split sep s) "").
Proof.
  intros Hsep. pose proof (split_pieces sep s Hsep) as H.
  pose proof (split_nonempty sep s) as Hne. revert H Hne.
  generalize (py_split sep s). intros l. induction l as [|x l IH]; [done|].
  intros H _. inversion H; subst. destruct l; [done|]. by apply IH.
Qed.

(** ** Splitting what was joined *)

Lemma split_fuel_join n sep l :
  starts_uniquely sep → Forall (λ p, ¬ occurs sep p) l → l ≠ [] → length l ≤ n →
  split_fuel n sep (py_join sep l) = l.
Proof.
  intros Hsep. revert l. induction n as [|n IH]; intros [|x l] Hl Hne Hlen; simpl in Hlen; try (done || lia).
  apply Forall_cons in Hl as [Hx Hl]. destruct l as [|y l].
  - cbn. by apply cut_None in Hx as ->.
  - rewrite join_cons by done. cbn [split_fuel]. rewrite cut_app by done.
    f_equal. apply IH; [done|done|simpl in *; lia].
Qed.

Lemma length_join sep l :
  sep ≠ "" → l ≠ [] → length l ≤ S (String.length (py_join sep l)).
Proof.
  intros Hsep. induction l as [|x l IH]; intros Hne; [done|]. destruct l as [|y l]; [simpl; lia|].
  rewrite join_cons by done. rewrite !length_append. specialize (IH ltac:(done)).
  destruct sep; [done|]. simpl in *. lia.
Qed.

Lemma split_join sep l :
  starts_uniquely sep → Forall (λ p, ¬ occurs sep p) l → l ≠ [] → py_split sep (py_join sep l) = l.
Proof.
  intros Hsep Hl Hne. apply split_fuel_join; [done..|]. apply length_join; [|done].
  destruct Hsep as (c & t & -> & _). done.
Qed.

(** ** Decimal integers *)

Definition is_digit (c : ascii) : bool :=
  let n := nat_of_ascii c in bool_decide (48 ≤ n ∧ n ≤ 57).

(** The digits of [int(s)]: single underscores may separate them. *)
Fixpoint digits (s : string) (acc : Z) (after_digit : bool) : option Z :=
  match s with
  | EmptyString => if after_digit then Some acc else None
  | String c s =>
      if is_digit c then digits s (acc * 10 + (Z.of_nat (nat_of_ascii c) - 48))%Z true
      else if bool_decide (c = "_"%char) && after_digit then digits s acc false
      else None
  end.

(** [int(s)]; [None] when it raises [ValueError]. *)
Definition py_int (s : string) : option Z :=
  match py_strip s with
  | String "-" r => Z.opp <$> digits r 0 false
  | String "+" r => digits r 0 false
  | r => digits r 0 false
  end.

Fixpoint all_chars (p : ascii → bool) (s : string) : bool :=
  match s with
  | EmptyString => true
  | String c s => p c && all_chars p s
  end.

Lemma all_chars_occurs p c s : p c = false → all_chars p s = true → ¬ occurs (String c "") s.
Proof.
  intros Hc. induction s as [|d s IH]; simpl.
  - intros _ (a & b & E). by destruct a.
  - intros [Hd Hs]%andb_true_iff [->|H]%occurs_char_cons; [congruence|]. by apply IH.
Qed.

Lemma strip_id s : all_chars (λ c, negb (is_space c)) s = true → py_strip s = s.
Proof.
  intros H. unfold py_strip.
  assert (lstrip_space s = s) as ->.
  { destruct s as [|c s]; [done|]. simpl in *. apply andb_true_iff in H as [H _].
    by apply negb_true_iff in H as ->. }
  induction s as [|c s IH]; [done|]. simpl in *. apply andb_true_iff in H as [Hc Hs].
  apply negb_true_iff in Hc. rewrite IH by done. destruct s; [by rewrite Hc|done].
Qed.

Lemma pretty_char_digit (x : N) :
  (x < 10)%N → is_digit (pretty_N_char x) = true ∧
  (Z.of_nat (nat_of_ascii (pretty_N_char x)) - 48 = Z.of_N x)%Z.
Proof.
  intros Hx. assert (x = 0 ∨ x = 1 ∨ x = 2 ∨ x = 3 ∨ x = 4 ∨ x = 5 ∨ x = 6 ∨ x = 7 ∨ x = 8 ∨ x = 9)%N
    as Hcases by lia.
  by repeat destruct Hcases as [->|Hcases]; [vm_compute..|subst; vm_compute].
Qed.

Lemma digits_pretty_go (x : N) s :
  (0 < x)%N → digits (pretty_N_go x s) 0 false = digits s (Z.of_N x) true.
Proof.
  revert s. induction (N.lt_wf_0 x) as [x _ IH]; intros s Hx. rewrite pretty_N_go_step by done.
  pose proof (N.mod_lt x 10 ltac:(done)) as Hmod. pose proof (N.div_mod x 10 ltac:(done)) as Hdm.
  destruct (pretty_char_digit (x `mod` 10) Hmod) as [Hd Hv].
  destruct (decide (x `div` 10 = 0)%N) as [E|E].
  - rewrite E, pretty_N_go_0. cbn [digits]. rewrite Hd, Hv. f_equal. lia.
  - rewrite IH; [|by apply N.div_lt|lia]. cbn [digits]. rewrite Hd, Hv. f_equal. lia.
Qed.

Lemma pretty_go_digits (x : N) s :
  all_chars is_digit s = true → all_chars is_digit (pretty_N_go x s) = true.
Proof.
  revert s. induction (N.lt_wf_0 x) as [x _ IH]; intros s Hs.
  destruct (decide (x = 0)%N) as [->|]; [by rewrite pretty_N_go_0|].
  rewrite pretty_N_go_step by lia. apply IH; [apply N.div_lt; lia|]. simpl.
  by rewrite (proj1 (pretty_char_digit _ (N.mod_lt x 10 ltac:(done)))).
Qed.

Lemma pretty_N_digits (x : N) :
  all_chars is_digit (pretty x) = true ∧ digits (pretty x) 0 false = Some (Z.of_N x).
Proof.
  unfold pretty, pretty_N. case_decide as E; [by subst|].
  split; [by apply pretty_go_digits|]. rewrite digits_pretty_go by lia. done.
Qed.

(** The characters of a printed integer. *)
Definition int_char (c : ascii) : bool := is_digit c || bool_decide (c = "-"%char).

Lemma all_chars_mono (p q : ascii → bool) s :
  (∀ c, p c = true → q c = true) → all_chars p s = true → all_chars q s = true.
Proof.
  intros H. induction s as [|c s IH]; simpl; [done|]. rewrite !andb_true_iff. naive_solver.
Qed.

Lemma pretty_Z_chars (z : Z) : all_chars int_char (pretty z) = true.
Proof.
  assert (∀ n : N, all_chars int_char (pretty n) = true) as Hn.
  { intros n. eapply all_chars_mono; [|apply pretty_N_digits].
    intros c Hc. unfold int_char. by rewrite Hc. }
  destruct z; [done|apply Hn|]. change (all_chars int_char (String "-" (pretty (N.pos p))) = true).
  cbn [all_chars]. by rewrite Hn.
Qed.

Lemma int_char_not_space c : int_char c = true → negb (is_space c) = true.
Proof. by destruct c as [[] [] [] [] [] [] [] []]. Qed.

(** [int(str(z)) == z]. *)
Lemma py_int_pretty (z : Z) : py_int (pretty z) = Some z.
Proof.
  unfold py_int.
  rewrite strip_id by (eapply all_chars_mono; [apply int_char_not_space|apply pretty_Z_chars]).
  assert (∀ n : N, match pretty n with
    | String "-" r => Z.opp <$> digits r 0 false
    | String "+" r => digits r 0 false
    | r => digits r 0 false end = Some (Z.of_N n)) as Hn.
  { intros n. destruct (pretty_N_digits n) as [Hd Hv]. rewrite <-Hv.
    destruct (pretty n) as [|c s]; [done|]. simpl in Hd. apply andb_true_iff in Hd as [Hc _].
    by destruct c as [[] [] [] [] [] [] [] []]. }
  destruct z as [|p|p]; [done|exact (Hn (N.pos p))|].
  change (Z.opp <$> digits (pretty (N.pos p)) 0 false = Some (Z.neg p)).
  destruct (pretty_N_digits (N.pos p)) as [_ ->]. done.
Qed.
