(* ===== verification/PyObject.v ===== *)
(** Python objects under construction: dynamic values with the operators the
    configuration classes use, and the statements of their [__post_init__]
    methods, as computations on the attributes and the [kwargs] of the object.

    A statement that raises leaves the object as it was at that point. *)

From Stdlib Require Import QArith Qround Lia ZArith.
From stdpp Require Import base gmap strings list.
From S2P Require Import Prelude PyString.
Close Scope Q_scope.

Declare Scope py_scope.
Delimit Scope py_scope with py.

(** ** Operators on values *)

(** [bool] is a subclass of [int]. *)
Definition as_int (v : pyval) : option Z :=
  match v with PInt z => Some z | PBool b => Some (if b then 1 else 0)%Z | _ => None end.

Definition as_num (v : pyval) : option pyfloat :=
  match v with
  | PFloat f => Some f
  | _ => (λ z, Fin (inject_Z z)) <$> as_int v
  end.

Definition float_eq (x y : pyfloat) : bool :=
  match x, y with
  | Fin p, Fin q => Qeq_bool p q
  | Inf a, Inf b => bool_decide (a = b)
  | _, _ => false
  end.

(** [a == b]: numbers by value, the rest by structure. Dictionaries are compared
    up to the order of their keys. *)
Fixpoint py_eqb (a b : pyval) {struct a} : bool :=
  let fix list_eqb (l m : list pyval) {struct l} : bool :=
    match l, m with
    | [], [] => true
    | x :: l, y :: m => py_eqb x y && list_eqb l m
    | _, _ => false
    end in
  let fix dict_sub (d e : list (string * pyval)) {struct d} : bool :=
    match d with
    | [] => true
    | (k, x) :: d =>
        match dict_get k e with Some y => py_eqb x y | None => false end && dict_sub d e
    end in
  match a, b with
  | PNone, PNone => true
  | PStr s, PStr t => bool_decide (s = t)
  | PList l, PList m => list_eqb l m
  | PDict d, PDict e => bool_decide (length d = length e) && dict_sub d e
  | _, _ =>
      match as_num a, as_num b with
      | Some x, Some y => float_eq x y
      | _, _ => false
      end
  end.

(** [a < b] and [a <= b] on numbers. *)
Definition py_ltb (a b : pyval) : result bool :=
  match as_int a, as_int b with
  | Some x, Some y => Ok (x <? y)%Z
  | _, _ =>
      match as_num a, as_num b with
      | Some x, Some y => Ok (float_lt x y)
      | _, _ => raise TypeError "'<' not supported between these instances"
      end
  end.
Definition float_le (x y : pyfloat) : bool :=
  match x, y with NaN, _ | _, NaN => false | _, _ => negb (float_lt y x) end.
Definition py_leb (a b : pyval) : result bool :=
  match as_int a, as_int b with
  | Some x, Some y => Ok (x <=? y)%Z
  | _, _ =>
      match as_num a, as_num b with
      | Some x, Some y => Ok (float_le x y)
      | _, _ => raise TypeError "'<=' not supported between these instances"
      end
  end.

(** Arithmetic on integers; a division by zero raises, the class of that
    exception is not one the program names. *)
Definition unsupported {A} : result A := raise TypeError "unsupported operand type(s)".
Definition py_floordiv (a b : pyval) : result pyval :=
  match as_int a, as_int b with
  | Some x, Some y => if (y =? 0)%Z then raise OtherError "division by zero" else Ok (PInt (x / y))
  | _, _ => unsupported
  end.
Definition py_mod (a b : pyval) : result pyval :=
  match as_int a, as_int b with
  | Some x, Some y => if (y =? 0)%Z then raise OtherError "modulo by zero" else Ok (PInt (x mod y))
  | _, _ => unsupported
  end.
(** A product with a finite float is exact, as for the small values that occur. *)
Definition py_mul (a b : pyval) : result pyval :=
  match as_int a, as_int b with
  | Some x, Some y => Ok (PInt (x * y))
  | _, _ =>
      match as_num a, as_num b with
      | Some (Fin x), Some (Fin y) => Ok (PFloat (Fin (x * y)%Q))
      | _, _ => unsupported
      end
  end.
Definition py_plus (a b : pyval) : result pyval :=
  match as_int a, as_int b with Some x, Some y => Ok (PInt (x + y)) | _, _ => unsupported end.
Definition py_minus (a b : pyval) : result pyval :=
  match as_int a, as_int b with Some x, Some y => Ok (PInt (x - y)) | _, _ => unsupported end.

(** [min(a, b)] and [max(a, b)] return the first of equal arguments. *)
Definition py_min2 (a b : pyval) : result pyval := lt ← py_ltb b a; Ok (if lt : bool then b else a).
Definition py_max2 (a b : pyval) : result pyval := lt ← py_ltb a b; Ok (if lt : bool then b else a).

(** [int(v)] truncates a float towards zero. *)
Definition truncate (q : Q) : Z := if Qle_bool 0 q then Qfloor q else Qceiling q.
Definition py_to_int (v : pyval) : result pyval :=
  match v with
  | PFloat (Fin q) => Ok (PInt (truncate q))
  | PStr s => match py_int s with Some z => Ok (PInt z) | None => raise ValueError "invalid literal for int()" end
  | _ => match as_int v with Some z => Ok (PInt z) | None => raise TypeError "int() argument" end
  end.

(** [bool(v)]. *)
Definition truthy (v : pyval) : bool :=
  match v with
  | PNone => false
  | PBool b => b
  | PInt z => negb (z =? 0)%Z
  | PFloat f => float_truthy f
  | PStr s => bool_decide (s ≠ "")
  | PList l => match l with [] => false | _ => true end
  | PDict d => match d with [] => false | _ => true end
  end.

(** [len(v)]. *)
Definition py_len (v : pyval) : result pyval :=
  match v with
  | PStr s => Ok (PInt (Z.of_nat (String.length s)))
  | PList l => Ok (PInt (Z.of_nat (length l)))
  | PDict d => Ok (PInt (Z.of_nat (length d)))
  | _ => raise TypeError "object has no len()"
  end.

Definition is_dict (v : pyval) : bool := match v with PDict _ => true | _ => false end.
Definition is_list (v : pyval) : bool := match v with PList _ => true | _ => false end.

(** [v[k]], [k in v] and [v.get(k, d)] on dictionaries. *)
Definition py_item (v : pyval) (k : string) : result pyval :=
  match v with PDict d => get_key k d | _ => raise TypeError "object is not subscriptable" end.
Definition py_contains (k : string) (v : pyval) : result bool :=
  match v with
  | PDict d => Ok (has_key k d)
  | PList l => Ok (existsb (py_eqb (PStr k)) l)
  | PStr s => Ok (contains k s)
  | _ => raise TypeError "argument is not iterable"
  end.
Definition py_dict_get (v : pyval) (k : string) (d : pyval) : result pyval :=
  match v with
  | PDict e => Ok (default d (dict_get k e))
  | _ => raise AttributeError "object has no attribute 'get'"
  end.

(** The elements a [for] loop goes through. *)
Definition py_iter (v : pyval) : result (list pyval) :=
  match v with
  | PList l => Ok l
  | PDict d => Ok ((λ p, PStr p.1) <$> d)
  | PStr s => Ok ((λ c, PStr (String c EmptyString)) <$> String.list_ascii_of_string s)
  | _ => raise TypeError "object is not iterable"
  end.

(** [range(a, b, c)]; a step of zero raises. *)
Definition py_range (start stop step : pyval) : result (list Z) :=
  match as_int start, as_int stop, as_int step with
  | Some a, Some b, Some c =>
      if (c =? 0)%Z then raise ValueError "range() arg 3 must not be zero"
      else let count := if (0 <? c)%Z then ((b - a + c - 1) / c)%Z else ((a - b - c - 1) / (- c))%Z in
        Ok ((λ i, a + Z.of_nat i * c)%Z <$> seq 0 (Z.to_nat count))
  | _, _, _ => raise TypeError "object cannot be interpreted as an integer"
  end.

(** [d.pop(k)] without its result. *)
Fixpoint dict_delete {A} (k : string) (d : list (string * A)) : list (string * A) :=
  match d with
  | [] => []
  | (k', v) :: d => if decide (k = k') then d else (k', v) :: dict_delete k d
  end.

(** ** Objects *)

Record obj := mkObj { attrs : gmap string pyval; kwargs : gmap string pyval }.

Abbreviation py := (stM obj).

Definition attr_error {A} : result A := raise AttributeError "object has no such attribute".

(** [self.k], [self.k = e]. *)
Definition self (k : string) : py pyval := λ o,
  (o, match attrs o !! k with Some v => Ok v | None => attr_error end).
Definition set_value (k : string) (v : pyval) : py unit := λ o,
  (mkObj (<[k := v]> (attrs o)) (kwargs o), Ok tt).
Definition set_attr (k : string) (e : py pyval) : py unit := v ← e; set_value k v.

(** [k in self.kwargs], [self.kwargs[k]], [self.kwargs.get(k, d)] and the two
    forms of [self.kwargs.pop]. *)
Definition in_kwargs (k : string) : py bool := λ o,
  (o, Ok (bool_decide (is_Some (kwargs o !! k)))).
Definition kwargs_item (k : string) : py pyval := λ o,
  (o, match kwargs o !! k with Some v => Ok v | None => raise KeyError k end).
Definition kwargs_get (k : string) (d : pyval) : py pyval := λ o,
  (o, Ok (default d (kwargs o !! k))).
Definition kwargs_pop (k : string) : py pyval := λ o,
  match kwargs o !! k with
  | Some v => (mkObj (attrs o) (delete k (kwargs o)), Ok v)
  | None => (o, raise KeyError k)
  end.
Definition kwargs_pop_default (k : string) (d : pyval) : py pyval := λ o,
  match kwargs o !! k with
  | Some v => (mkObj (attrs o) (delete k (kwargs o)), Ok v)
  | None => (o, Ok d)
  end.

(** [self.k[item] = e], on a dictionary. *)
Definition set_item (k item : string) (e : py pyval) : py unit :=
  x ← e; v ← self k;
  match v with
  | PDict d => set_value k (PDict (dict_set item x d))
  | _ => st_lift (raise TypeError "object does not support item assignment")
  end.

(** [self.k.pop(item)], on a dictionary. *)
Definition pop_item (k item : string) : py pyval :=
  v ← self k;
  match v with
  | PDict d =>
      match dict_get item d with
      | Some x => set_value k (PDict (dict_delete item d)) ;; mret x
      | None => st_lift (raise KeyError item)
      end
  | _ => st_lift (raise AttributeError "object has no such method")
  end.

(** [self.kwargs[k] = v]. *)
Definition set_kwargs (k : string) (v : pyval) : py unit := λ o,
  (mkObj (attrs o) (<[k := v]> (kwargs o)), Ok tt).

(** ** Expressions *)

Definition lit (v : pyval) : py pyval := mret v.
Definition int (z : Z) : py pyval := lit (PInt z).
Definition str (s : string) : py pyval := lit (PStr s).
Definition none : py pyval := lit PNone.
Definition lift1 {A} (f : pyval → result A) (a : py pyval) : py A := x ← a; st_lift (f x).
Definition lift2 {A} (f : pyval → pyval → result A) (a b : py pyval) : py A :=
  x ← a; y ← b; st_lift (f x y).
Definition as_value (b : py bool) : py pyval := x ← b; mret (PBool x).
Definition truth (e : py pyval) : py bool := x ← e; mret (truthy x).

Definition py_eq (a b : py pyval) : py bool := lift2 (λ x y, Ok (py_eqb x y)) a b.
Definition py_lt (a b : py pyval) : py bool := lift2 py_ltb a b.
Definition py_le (a b : py pyval) : py bool := lift2 py_leb a b.
Definition py_gt (a b : py pyval) : py bool := lift2 (λ x y, py_ltb y x) a b.
Definition py_ge (a b : py pyval) : py bool := lift2 (λ x y, py_leb y x) a b.
Definition py_not (b : py bool) : py bool := x ← b; mret (negb x).
Definition py_and (a b : py bool) : py bool := x ← a; if x : bool then b else mret false.
Definition py_or (a b : py bool) : py bool := x ← a; if x : bool then mret true else b.
Definition is_none (a : py pyval) : py bool :=
  x ← a; mret (match x with PNone => true | _ => false end).
Definition is_in (a : py pyval) (l : list pyval) : py bool :=
  x ← a; mret (existsb (py_eqb x) l).
Definition py_min (a b : py pyval) : py pyval := lift2 py_min2 a b.
Definition py_max (a b : py pyval) : py pyval := lift2 py_max2 a b.
Definition item (a : py pyval) (k : string) : py pyval := lift1 (λ x, py_item x k) a.
Definition has_item (k : string) (a : py pyval) : py bool := lift1 (py_contains k) a.
Definition get_item (a : py pyval) (k : string) (d : pyval) : py pyval :=
  lift1 (λ x, py_dict_get x k d) a.

(** [a if c else b], and [a or b] on values. *)
Definition ternary (c : py bool) (a b : py pyval) : py pyval := x ← c; if x : bool then a else b.
Definition or_value (a b : py pyval) : py pyval := x ← a; if truthy x then mret x else b.

Notation "a == b" := (py_eq a b) (at level 70, no associativity) : py_scope.
Notation "a != b" := (py_not (py_eq a b)) (at level 70, no associativity) : py_scope.
Notation "a <= b" := (py_le a b) : py_scope.
Notation "a > b" := (py_gt a b) : py_scope.
Notation "a >= b" := (py_ge a b) : py_scope.
Notation "a * b" := (lift2 py_mul a b) : py_scope.
Notation "a + b" := (lift2 py_plus a b) : py_scope.
Notation "a - b" := (lift2 py_minus a b) : py_scope.
Notation "a `floordiv` b" := (lift2 py_floordiv a b) (at level 35) : py_scope.
Notation "a `mod` b" := (lift2 py_mod a b) (at level 35) : py_scope.

(** ** Statements *)

Definition skip : py unit := mret tt.
Definition ifte (c : py bool) (t e : py unit) : py unit := b ← c; if b : bool then t else e.
Definition when (c : py bool) (t : py unit) : py unit := ifte c t skip.
Definition py_check (c : py bool) (msg : string) : py unit :=
  b ← c; st_lift (py_assert b msg).
Definition py_raise (c : exn_class) (msg : string) : py unit := st_lift (raise c msg).

(** A [for] loop with [break] and [else]. *)
Inductive flow := Next | Break.
Fixpoint for_break (l : list string) (body : string → py flow) (orelse : py unit) : py unit :=
  match l with
  | [] => orelse
  | x :: l => f ← body x; match f with Break => skip | Next => for_break l body orelse end
  end.

(** [for k, v in d.items()]. *)
Fixpoint for_items (d : list (string * pyval)) (body : string → pyval → py unit) : py unit :=
  match d with [] => skip | (k, v) :: d => body k v ;; for_items d body end.

(** A value computed without effects. *)
Definition pure {A} (r : result A) : py A := st_lift r.
