(* ===== verification/Conversation.v ===== *)
(** The conversation template and the prompt it renders:
    [python/mlc_llm/protocol/conversation_protocol.py].

    [Conversation.as_prompt] turns the template and the message history into a
    list of prompt items (text or images); the two helpers it calls,
    [_strip_reasoning_in_history] and [_combine_consecutive_messages], are
    separate definitions. Loading an image from a URL is a parameter. *)

From Stdlib Require Import Ascii.
From stdpp Require Import base gmap strings list.
From S2P Require Import Prelude PyString.

(** ** Data *)

Inductive MessagePlaceholders := SYSTEM | USER | ASSISTANT | TOOL | FUNCTION.

(** [placeholder.value]. *)
Definition placeholder_value (p : MessagePlaceholders) : string :=
  match p with
  | SYSTEM => "{system_message}"
  | USER => "{user_message}"
  | ASSISTANT => "{assistant_message}"
  | TOOL => "{tool_message}"
  | FUNCTION => "{function_string}"
  end.

(** [MessagePlaceholders[name]]. *)
Definition placeholder_of_name (name : string) : result MessagePlaceholders :=
  if decide (name = "SYSTEM") then Ok SYSTEM
  else if decide (name = "USER") then Ok USER
  else if decide (name = "ASSISTANT") then Ok ASSISTANT
  else if decide (name = "TOOL") then Ok TOOL
  else if decide (name = "FUNCTION") then Ok FUNCTION
  else raise KeyError name.

(** The content of a message: [Optional[Union[str, List[Dict]]]]. *)
Inductive content :=
  | CNone
  | CStr (s : string)
  | CItems (items : list pyval).

Abbreviation message := (string * content)%type.

Record Conversation := mkConversation {
  name : option string;
  system_template : string;
  system_message : string;
  system_prefix_token_ids : option (list Z);
  add_role_after_system_message : bool;
  roles : gmap string string;
  role_templates : gmap string string;
  messages : list message;
  seps : list string;
  role_content_sep : string;
  role_empty_sep : string;
  stop_str : list string;
  stop_token_ids : list Z;
  strip_reasoning_in_history : bool;
  function_string : string;
  use_function_calling : bool;
}.

(** The default role templates of [Conversation.__init__]. *)
Definition default_role_templates : gmap string string :=
  list_to_map [("user", placeholder_value USER);
               ("assistant", placeholder_value ASSISTANT);
               ("tool", placeholder_value TOOL)].

(** [check_message_seps]. *)
Definition check_message_seps (seps : list string) : result (list string) :=
  if decide (length seps = 0 ∨ 2 < length seps)
  then raise ValueError "seps should have size 1 or 2." else Ok seps.

(** [Conversation.__init__]: the given role templates override the defaults,
    then the fields are validated. [fields] carries the other arguments. *)
Definition init (rt : option (gmap string string)) (fields : Conversation) :
    result Conversation :=
  _ ← check_message_seps (seps fields);
  Ok {| name := name fields;
        system_template := system_template fields;
        system_message := system_message fields;
        system_prefix_token_ids := system_prefix_token_ids fields;
        add_role_after_system_message := add_role_after_system_message fields;
        roles := roles fields;
        role_templates :=
          match rt with
          | Some rt => rt ∪ default_role_templates
          | None => default_role_templates
          end;
        messages := messages fields;
        seps := seps fields;
        role_content_sep := role_content_sep fields;
        role_empty_sep := role_empty_sep fields;
        stop_str := stop_str fields;
        stop_token_ids := stop_token_ids fields;
        strip_reasoning_in_history := strip_reasoning_in_history fields;
        function_string := function_string fields;
        use_function_calling := use_function_calling fields |}.

(** The updates other components make to a template in place. *)
Definition with_messages (ms : list message) (c : Conversation) : Conversation :=
  mkConversation (name c) (system_template c) (system_message c) (system_prefix_token_ids c)
    (add_role_after_system_message c) (roles c) (role_templates c) ms (seps c)
    (role_content_sep c) (role_empty_sep c) (stop_str c) (stop_token_ids c)
    (strip_reasoning_in_history c) (function_string c) (use_function_calling c).
Definition with_system_message (m : string) (c : Conversation) : Conversation :=
  mkConversation (name c) (system_template c) m (system_prefix_token_ids c)
    (add_role_after_system_message c) (roles c) (role_templates c) (messages c) (seps c)
    (role_content_sep c) (role_empty_sep c) (stop_str c) (stop_token_ids c)
    (strip_reasoning_in_history c) (function_string c) (use_function_calling c).
Definition with_function_calling (use : bool) (fs : string) (c : Conversation) : Conversation :=
  mkConversation (name c) (system_template c) (system_message c) (system_prefix_token_ids c)
    (add_role_after_system_message c) (roles c) (role_templates c) (messages c) (seps c)
    (role_content_sep c) (role_empty_sep c) (stop_str c) (stop_token_ids c)
    (strip_reasoning_in_history c) fs use.

(** ** History clean-up *)

(** The index of the last user message ([last_user_idx], [None] for [-1]). *)
Definition last_user_idx (ms : list message) : option nat :=
  foldl (λ acc '(i, (role, _)), if decide (role = "user") then Some i else acc)
    None (enumerate ms).

Definition before_last_user (i : nat) (last : option nat) : bool :=
  match last with Some j => bool_decide (i < j) | None => false end.

(** [content.split("</think>")[-1].lstrip("\n")]. *)
Definition strip_think (s : string) : string :=
  lstrip_char newline (List.last (py_split "</think>" s) EmptyString).

Definition strip_message (last : option nat) (i : nat) (m : message) : message :=
  match m with
  | (role, CStr s) =>
      if bool_decide (role = "assistant") && before_last_user i last && contains "</think>" s
      then (role, CStr (strip_think s)) else m
  | _ => m
  end.

Definition _strip_reasoning_in_history (ms : list message) : list message :=
  imap (strip_message (last_user_idx ms)) ms.

(** ** Prompt items *)

Section prompt.
(** The type of [data.ImageData] and the loader [ImageData.from_url]. *)
Context {Img : Type} (from_url : string → list (string * pyval) → result Img).

Inductive prompt_item :=
  | PText (s : string)
  | PImage (im : Img).

Definition is_image (x : prompt_item) : bool :=
  match x with PImage _ => true | PText _ => false end.

(** The list is built in order; [combined_messages[-1] += message] appends to
    its last element. *)
Definition combine_step (acc : list prompt_item) (m : prompt_item) : list prompt_item :=
  match m, List.rev acc with
  | PText t, PText s :: acc' => List.rev acc' ++ [PText (s +:+ t)]
  | _, _ => acc ++ [m]
  end.

Definition _combine_consecutive_messages (ms : list prompt_item) : list prompt_item :=
  match ms with
  | [] => []
  | m :: ms => foldl combine_step [m] ms
  end.

(** [_get_url_from_item]. *)
Definition _get_url_from_item (item : list (string * pyval)) : result string :=
  _ ← py_assert (has_key "image_url" item) "Content item should have an image_url field";
  v ← get_key "image_url" item;
  match v with
  | PStr s => Ok s
  | PDict d =>
      _ ← py_assert (has_key "url" d)
            "Content image_url item should be a string or a dict with a url field";
      u ← get_key "url" d;
      match u with PStr s => Ok s | _ => raise AttributeError "startswith" end
  | _ => raise ValueError "Content image_url item type not supported. Should be a string or a dict with a url field."
  end.

(** [d[k]] on the role dictionaries. *)
Definition get_role (d : gmap string string) (role : string) : result string :=
  match d !! role with Some s => Ok s | None => raise KeyError role end.

(** [self.role_templates[role].replace(MessagePlaceholders[role.upper()].value, text)]. *)
Definition fill_template (c : Conversation) (role : string) (text : result string) :
    result string :=
  t ← get_role (role_templates c) role;
  p ← placeholder_of_name (upper role);
  text ← text;
  Ok (replace (placeholder_value p) text t).

(** [item["text"]], which [str.replace] requires to be a string. *)
Definition item_text (d : list (string * pyval)) : result string :=
  v ← get_key "text" d;
  match v with PStr s => Ok s | _ => raise TypeError "replace() argument 2 must be str" end.

Definition is_qwen3_5 (config : list (string * pyval)) : bool :=
  match dict_get "model_type" config with
  | Some (PStr s) => bool_decide (s = "qwen3_5")
  | _ => false
  end.

(** One element of a list content. *)
Definition render_item (c : Conversation) (config : option (list (string * pyval)))
    (role : string) (item : pyval) : result (list prompt_item) :=
  match item with
  | PDict d =>
      _ ← py_assert (has_key "type" d) "Content item should have a type field";
      ty ← get_key "type" d;
      match ty with
      | PStr ty =>
          if decide (ty = "text") then
            m ← fill_template c role (item_text d); Ok [PText m]
          else if decide (ty = "image_url") then
            match config with
            | None => raise AssertionError "Model config is required"
            | Some cfg =>
                url ← _get_url_from_item d;
                im ← from_url url cfg;
                Ok ((if is_qwen3_5 cfg then [PText "<|vision_start|>"] else []) ++
                    [PImage im] ++
                    (if is_qwen3_5 cfg then [PText "<|vision_end|>"] else []) ++
                    [PText (String newline EmptyString)])
            end
          else raise ValueError "Unsupported content type: {item['type']}"
      | _ => raise ValueError "Unsupported content type: {item['type']}"
      end
  | _ => raise AssertionError "Content should be a string or a list of dicts"
  end.

(** The system message after its placeholder is filled. *)
Definition system_msg (c : Conversation) : string :=
  replace (placeholder_value SYSTEM) (system_message c) (system_template c).

(** [separators]: a single separator serves both roles. *)
Definition separators (c : Conversation) : list string :=
  match seps c with [s] => [s; s] | l => l end.

(** The body of the loop over the messages: the items appended for message
    [i]. *)
Definition render_message (c : Conversation) (config : option (list (string * pyval)))
    (i : nat) (m : message) : result (list prompt_item) :=
  let '(role, ct) := m in
  match roles c !! role with
  | None => raise ValueError "Role {role} is not a supported role in {self.roles.keys()}"
  | Some prefix =>
      separator ← py_index (separators c) (if decide (role = "assistant") then 1 else 0);
      let role_prefix :=
        if negb (add_role_after_system_message c)
           && bool_decide (system_msg c ≠ "") && bool_decide (i = 0)
        then "" else prefix +:+ role_content_sep c in
      match ct with
      | CNone => Ok [PText (prefix +:+ role_empty_sep c)]
      | CStr text =>
          body ← fill_template c role (Ok text);
          Ok [PText (role_prefix +:+ body +:+ separator)]
      | CItems items =>
          body ← map_m (render_item c config role) items;
          Ok ([PText role_prefix] ++ mjoin body ++ [PText separator])
      end
  end.

(** The messages [as_prompt] renders. *)
Definition history (c : Conversation) : list message :=
  if strip_reasoning_in_history c then _strip_reasoning_in_history (messages c)
  else messages c.

(** [message_list] after the loop. *)
Definition message_list (c : Conversation) (config : option (list (string * pyval))) :
    result (list prompt_item) :=
  body ← map_m (λ '(i, m), render_message c config i m) (enumerate (history c));
  Ok ((if decide (system_msg c = "") then [] else [PText (system_msg c)]) ++ mjoin body).

(** The last function placeholder becomes the function string, the other
    ones disappear. *)
Definition subst_function (fs text : string) : string :=
  replace (placeholder_value FUNCTION) ""
    (py_join fs (rsplit1 (placeholder_value FUNCTION) text)).

Definition as_prompt (c : Conversation) (config : option (list (string * pyval))) :
    result (list prompt_item) :=
  ml ← message_list c config;
  let prompt := _combine_consecutive_messages ml in
  if existsb is_image ml then Ok prompt
  else
    p0 ← py_index prompt 0;
    match p0 with
    | PText t => py_setitem prompt 0 (PText (subst_function (function_string c) t))
    | PImage _ => raise AttributeError "rsplit"
    end.
End prompt.
Arguments prompt_item Img : clear implicits.
Arguments PText {Img} s.
Arguments PImage {Img} im.

(** ** The history clean-up *)

Lemma foldl_imap_ext {A B C} (g : C → B → C) (h1 h2 : nat → A → B) l acc :
  (∀ c i x, g c (h1 i x) = g c (h2 i x)) →
  foldl g acc (imap h1 l) = foldl g acc (imap h2 l).
Proof.
  revert h1 h2 acc. induction l as [|x l IH]; intros h1 h2 acc H; [done|].
  rewrite !imap_cons. simpl. rewrite H. apply IH. intros. apply H.
Qed.

Lemma strip_message_role last i m : (strip_message last i m).1 = m.1.
Proof. destruct m as [r [|s|l]]; simpl; [done| |done]. by destruct (_ && _). Qed.

(** Only the roles decide where the last user message is. *)
Lemma last_user_idx_strip last ms :
  last_user_idx (imap (strip_message last) ms) = last_user_idx ms.
Proof.
  unfold last_user_idx, enumerate. rewrite imap_imap. apply foldl_imap_ext.
  intros c i x. simpl. pose proof (strip_message_role last i x) as H.
  destruct (strip_message last i x), x. simpl in *. by subst.
Qed.

Lemma last_user_idx_snoc ms r ct :
  last_user_idx (ms ++ [(r, ct)]) =
    if decide (r = "user") then Some (length ms) else last_user_idx ms.
Proof.
  unfold last_user_idx, enumerate. rewrite imap_app, foldl_app. simpl.
  by rewrite Nat.add_0_r.
Qed.

(** [last_user_idx] is the index of the last user message. *)
Lemma last_user_idx_spec ms j :
  last_user_idx ms = Some j ↔
    (∃ ct, ms !! j = Some ("user", ct)) ∧
    ∀ k ct, j < k → ms !! k ≠ Some ("user", ct).
Proof.
  induction ms as [|[r ct] ms IH] using rev_ind.
  - split; [done|]. by intros [[ct Hj] _].
  - rewrite last_user_idx_snoc. destruct (decide (r = "user")) as [->|Hr].
    + split.
      * intros [= <-]. split; [exists ct; by rewrite list_lookup_middle|].
        intros k ct' Hk. rewrite lookup_ge_None_2; [done|]. rewrite length_app. simpl. lia.
      * intros [[ct' Hj] Hlast].
        destruct (decide (j < length ms)) as [Hlt|].
        { exfalso. apply (Hlast (length ms) ct Hlt). by rewrite list_lookup_middle. }
        apply lookup_lt_Some in Hj. rewrite length_app in Hj. simpl in Hj. f_equal. lia.
    + rewrite IH. split.
      * intros [[ct' Hj] Hlast]. pose proof (lookup_lt_Some _ _ _ Hj).
        split; [exists ct'; by rewrite lookup_app_l|].
        intros k ct'' Hk. destruct (decide (k < length ms)).
        { rewrite lookup_app_l by done. by apply Hlast. }
        destruct (decide (k = length ms)) as [->|]; [rewrite list_lookup_middle by done; congruence|].
        rewrite lookup_ge_None_2; [done|]. rewrite length_app. simpl. lia.
      * intros [[ct' Hj] Hlast].
        assert (j < length ms) as Hlt.
        { pose proof (lookup_lt_Some _ _ _ Hj) as Hl. rewrite length_app in Hl. simpl in Hl.
          destruct (decide (j = length ms)) as [->|]; [|lia].
          rewrite list_lookup_middle in Hj by done. congruence. }
        rewrite lookup_app_l in Hj by done. split; [by exists ct'|].
        intros k ct'' Hk Hms. apply (Hlast k ct'' Hk).
        rewrite lookup_app_l; [done|]. by eapply lookup_lt_Some.
Qed.

Lemma strip_think_suffix s : ∃ a, s = a +:+ strip_think s.
Proof.
  unfold strip_think. destruct (split_last_suffix "</think>" s) as [a Ha].
  destruct (lstrip_char_suffix newline (List.last (py_split "</think>" s) "")) as [b Hb].
  exists (a +:+ b). rewrite append_assoc. by rewrite <-Hb.
Qed.

Lemma strip_think_clean s : ¬ occurs "</think>" (strip_think s).
Proof.
  unfold strip_think. intros H.
  destruct (lstrip_char_suffix newline (List.last (py_split "</think>" s) "")) as [b Hb].
  apply (split_last_no_occurrence "</think>" s); [done|]. rewrite Hb. by apply occurs_suffix.
Qed.

Lemma strip_message_idemp last i m :
  strip_message last i (strip_message last i m) = strip_message last i m.
Proof.
  destruct m as [r [|s|l]]; simpl; [done| |done].
  destruct (bool_decide (r = "assistant") && before_last_user i last && contains "</think>" s) eqn:E;
    simpl; [|by rewrite E].
  replace (contains "</think>" (strip_think s)) with false; [by rewrite andb_false_r|].
  symmetry. apply contains_false, strip_think_clean.
Qed.

(** The reference: what happens to message [i]. *)
Definition stripped (is_hist : Prop) (ct ct' : content) : Prop :=
  match ct with
  | CStr s =>
      (is_hist ∧ occurs "</think>" s ∧
         ∃ a t, ct' = CStr t ∧ s = a +:+ t ∧ ¬ occurs "</think>" t ∧ ∀ u, t ≠ String newline u)
      ∨ (¬ (is_hist ∧ occurs "</think>" s) ∧ ct' = ct)
  | _ => ct' = ct
  end.

Lemma before_last_user_spec i ms :
  before_last_user i (last_user_idx ms) = true ↔ ∃ j u, i < j ∧ ms !! j = Some ("user", u).
Proof.
  unfold before_last_user. destruct (last_user_idx ms) as [j|] eqn:E.
  - apply last_user_idx_spec in E as [[u Hj] Hlast]. rewrite bool_decide_eq_true. split.
    + intros Hij. by exists j, u.
    + intros (k & u' & Hik & Hk). destruct (decide (i < j)); [done|].
      exfalso. apply (Hlast k u'); [lia|done].
  - split; [done|]. intros (j & u & _ & Hj). exfalso.
    induction ms as [|[r ct] ms IH] using rev_ind; [done|].
    rewrite last_user_idx_snoc in E. destruct (decide (r = "user")); [done|].
    destruct (decide (j < length ms)); [apply IH; [done|by rewrite lookup_app_l in Hj]|].
    apply lookup_app_Some in Hj as [Hj|[_ Hj]]; [by apply lookup_lt_Some in Hj|].
    apply list_lookup_singleton_Some in Hj as [_ Hj]. congruence.
Qed.

Lemma stripped_message last i r ct P :
  (before_last_user i last = true ↔ P) →
  ∃ ct', strip_message last i (r, ct) = (r, ct') ∧ stripped (r = "assistant" ∧ P) ct ct'.
Proof.
  intros HP. destruct ct as [|s|l]; simpl; [by eexists| |by eexists].
  destruct (_ && _) eqn:E.
  - rewrite !andb_true_iff, bool_decide_eq_true, HP, contains_spec in E.
    destruct E as [[Hr Hh] Ho]. eexists; split; [done|]. left. split_and!; [done..|].
    destruct (strip_think_suffix s) as [a Ha]. exists a, (strip_think s).
    split_and!; [done|done|apply strip_think_clean|]. intros u. apply lstrip_char_no_head.
  - eexists; split; [done|]. right. split; [|done]. intros [[Hr Hh] Ho].
    apply not_true_iff_false in E. apply E.
    by rewrite !andb_true_iff, bool_decide_eq_true, HP, contains_spec.
Qed.

(** [_strip_reasoning_in_history] keeps the messages, their order and
    their roles, is idempotent, and changes a content only when it is the
    string of an assistant message before some later user message and contains
    the closing think tag: it then keeps a suffix of the string that contains
    no closing tag and does not start with a newline. *)
Theorem strip_reasoning_correct ms :
  length (_strip_reasoning_in_history ms) = length ms ∧
  (∀ i role ct, ms !! i = Some (role, ct) →
     ∃ ct', _strip_reasoning_in_history ms !! i = Some (role, ct') ∧
       stripped (role = "assistant" ∧
                 ∃ j u, i < j ∧ ms !! j = Some ("user", u)) ct ct') ∧
  _strip_reasoning_in_history (_strip_reasoning_in_history ms)
    = _strip_reasoning_in_history ms.
Proof.
  unfold _strip_reasoning_in_history. split_and!.
  - apply length_imap.
  - intros i role ct Hi.
    destruct (stripped_message (last_user_idx ms) i role ct _ (before_last_user_spec i ms))
      as (ct' & Hs & H).
    exists ct'. split; [|done]. by rewrite list_lookup_imap, Hi, <-Hs.
  - rewrite last_user_idx_strip, imap_imap. apply list_eq. intros i.
    rewrite !list_lookup_imap. destruct (ms !! i); simpl; [|done].
    by rewrite strip_message_idemp.
Qed.

(** ** Combining consecutive texts *)

Section combine.
Context {Img : Type}.
Implicit Types (l acc : list (prompt_item Img)).

(** The characters and images of a prompt, in order. *)
Definition item_stream (x : prompt_item Img) : list (ascii + Img) :=
  match x with
  | PText s => inl <$> String.list_ascii_of_string s
  | PImage im => [inr im]
  end.
Definition stream l : list (ascii + Img) := l ≫= item_stream.

(** No two adjacent texts. *)
Fixpoint separated l : Prop :=
  match l with
  | PText _ :: (PText _ :: _) => False
  | _ :: l => separated l
  | [] => True
  end.

Lemma item_stream_app (s t : string) :
  item_stream (PText (s +:+ t)) = item_stream (PText s) ++ item_stream (PText t).
Proof. simpl. rewrite <-fmap_app. f_equal. induction s; simpl; [done|by f_equal]. Qed.

Lemma stream_app l1 l2 : stream (l1 ++ l2) = stream l1 ++ stream l2.
Proof. apply bind_app. Qed.

Lemma combine_step_snoc acc x m :
  combine_step (acc ++ [x]) m =
    match m, x with
    | PText t, PText s => acc ++ [PText (s +:+ t)]
    | _, _ => (acc ++ [x]) ++ [m]
    end.
Proof.
  unfold combine_step. rewrite List.rev_app_distr. simpl.
  destruct m, x; [|done..]. by rewrite List.rev_involutive.
Qed.

Lemma separated_snoc acc x m :
  separated (acc ++ [x]) → separated ((acc ++ [x]) ++ [m]) ∨
    (∃ s t, x = PText s ∧ m = PText t).
Proof.
  induction acc as [|y acc IH].
  - destruct x, m; simpl; eauto 10.
  - destruct acc as [|z acc]; [destruct y, x, m; simpl; eauto 10|].
    intros H. assert (separated ((z :: acc) ++ [x])) as H' by (destruct y, z; done).
    destruct (IH H') as [?|?]; [left|by right]. destruct y, z; done.
Qed.

Lemma separated_last acc x y :
  is_image x = is_image y → separated (acc ++ [x]) → separated (acc ++ [y]).
Proof.
  intros Hxy. induction acc as [|z acc IH]; simpl; [by destruct x, y|].
  intros H. assert (separated (acc ++ [x])) as H' by (destruct z; [destruct (acc ++ [x]) as [|[]]|]; done).
  specialize (IH H'). destruct acc as [|w acc]; [destruct z, x, y; done|].
  destruct z, w; done.
Qed.

Lemma combine_step_invariant acc m :
  acc ≠ [] → separated acc →
  combine_step acc m ≠ [] ∧ separated (combine_step acc m) ∧
  stream (combine_step acc m) = stream acc ++ item_stream m.
Proof.
  destruct acc as [|x acc _] using rev_ind; [done|]. intros _ Hsep.
  rewrite combine_step_snoc. destruct m as [t|im].
  - destruct x as [s|im].
    + split_and!; [by destruct acc|by eapply (separated_last _ (PText s))|].
      rewrite !stream_app. unfold stream. simpl. rewrite !app_nil_r.
      rewrite <-app_assoc. f_equal. apply item_stream_app.
    + split_and!; [by destruct acc| |by rewrite !stream_app; unfold stream; simpl; rewrite !app_nil_r].
      destruct (separated_snoc acc (PImage im) (PText t) Hsep) as [|(?&?&?&?)]; done.
  - assert (combine_step (acc ++ [x]) (PImage im) = (acc ++ [x]) ++ [PImage im]) as E
      by (rewrite combine_step_snoc; done).
    rewrite <-E, combine_step_snoc. split_and!; [by destruct acc| |].
    + destruct (separated_snoc acc x (PImage im) Hsep) as [|(?&?&?&?)]; done.
    + by rewrite !stream_app.
Qed.

Lemma combine_fold_invariant ms acc :
  acc ≠ [] → separated acc →
  separated (foldl combine_step acc ms) ∧
  stream (foldl combine_step acc ms) = stream acc ++ stream ms.
Proof.
  revert acc. induction ms as [|m ms IH]; intros acc Hne Hsep; simpl.
  - by rewrite app_nil_r.
  - destruct (combine_step_invariant acc m Hne Hsep) as (H1 & H2 & H3).
    destruct (IH _ H1 H2) as [H4 H5]. split; [done|]. rewrite H5, H3, <-app_assoc. done.
Qed.

(** [_combine_consecutive_messages] keeps the characters and images of
    the prompt in order and leaves no two adjacent texts. *)
Theorem combine_correct ms :
  separated (_combine_consecutive_messages ms) ∧
  stream (_combine_consecutive_messages ms) = stream ms.
Proof.
  destruct ms as [|m ms]; [done|]. simpl.
  destruct (combine_fold_invariant ms [m]) as [H1 H2]; [done|by destruct m|].
  split; [done|]. rewrite H2. unfold stream. simpl. by rewrite app_nil_r.
Qed.

(** A prompt of texts only becomes one text. *)
Lemma combine_texts s (l : list string) :
  _combine_consecutive_messages (PText s :: (PText <$> l))
  = [PText (concat_str (s :: l))] :> list (prompt_item Img).
Proof.
  simpl. revert s. induction l as [|t l IH]; intros s; [done|].
  change (foldl combine_step (combine_step ([] ++ [PText s]) (PText t)) (PText <$> l)
    = [PText (concat_str (s :: t :: l))] :> list (prompt_item Img)).
  rewrite combine_step_snoc. simpl app. rewrite IH.
  by rewrite !concat_str_cons, append_assoc.
Qed.

Lemma existsb_texts (l : list string) : existsb is_image ((PText <$> l) : list (prompt_item Img)) = false.
Proof. induction l; done. Qed.
End combine.

(** ** The rendered prompt *)

Section rendering.
Context {Img : Type} (from_url : string → list (string * pyval) → result Img).
Implicit Types (c : Conversation).

(** A message [as_prompt] can render as text. *)
Definition text_message c (m : message) : Prop :=
  match m.2 with
  | CNone => is_Some (roles c !! m.1)
  | CStr _ => is_Some (roles c !! m.1) ∧ is_Some (role_templates c !! m.1) ∧
              is_ok (placeholder_of_name (upper m.1)) = true
  | CItems _ => False
  end.

(** The reference rendering of turn [i]: the role, the separator between role
    and content, the filled template, the separator of the role. *)
Definition turn c (i : nat) (m : message) : string :=
  let role := default "" (roles c !! m.1) in
  let sep := if decide (m.1 = "assistant") then List.last (seps c) "" else List.hd "" (seps c) in
  match m.2 with
  | CStr text =>
      (if decide (i = 0 ∧ add_role_after_system_message c = false ∧ system_msg c ≠ "")
       then "" else role +:+ role_content_sep c)
      +:+ match placeholder_of_name (upper m.1) with
          | Ok p => replace (placeholder_value p) text (default "" (role_templates c !! m.1))
          | Err _ => ""
          end
      +:+ sep
  | _ => role +:+ role_empty_sep c
  end.

Lemma separators_index c (b : bool) sp :
  check_message_seps (seps c) = Ok sp →
  py_index (separators c) (if b then 1 else 0) =
    Ok (if b then List.last (seps c) "" else List.hd "" (seps c)).
Proof.
  unfold check_message_seps, separators. case_decide as H; [done|]. intros _.
  destruct (seps c) as [|a [|a' [|a'' l]]]; simpl in *; [lia| | |lia]; by destruct b.
Qed.

Lemma render_text_message c config i m sp :
  check_message_seps (seps c) = Ok sp → text_message c m →
  render_message from_url c config i m = Ok [PText (turn c i m)].
Proof.
  destruct m as [role ct]. intros Hsep Hm. unfold text_message in Hm. simpl in Hm.
  assert (is_Some (roles c !! role)) as [r Hr] by (destruct ct; naive_solver).
  unfold render_message, turn. cbn [fst snd]. rewrite Hr.
  pose proof (separators_index c (bool_decide (role = "assistant")) sp Hsep) as Hs.
  rewrite bool_decide_decide in Hs.
  assert (py_index (separators c) (if decide (role = "assistant") then 1 else 0) =
    Ok (if decide (role = "assistant") then List.last (seps c) "" else List.hd "" (seps c)))
    as -> by (by destruct (decide (role = "assistant"))).
  cbn [mbind result_bind]. clear Hs.
  destruct ct as [|text|items]; [done| |done].
  destruct Hm as (_ & [t Ht] & Hp). unfold fill_template, get_role. rewrite Ht.
  cbn [mbind result_bind]. destruct (placeholder_of_name (upper role)) as [p|]; [|done].
  cbn [mbind result_bind default from_option id]. do 3 f_equal.
  destruct (add_role_after_system_message c); simpl;
    repeat case_decide; repeat case_bool_decide; naive_solver.
Qed.

Lemma map_m_imap {A B} (f : nat * A → result B) (g : nat → A → B) l :
  (∀ i x, l !! i = Some x → f (i, x) = Ok (g i x)) →
  map_m f (enumerate l) = Ok (imap g l).
Proof.
  intros H. apply map_m_Ok, Forall2_same_length_lookup. split.
  - autorewrite with py. by rewrite length_imap.
  - intros i [j x] y. rewrite lookup_enumerate, list_lookup_imap.
    destruct (l !! i) eqn:E; intros; simplify_eq/=. by apply H.
Qed.

Lemma mjoin_imap_single {A B} (f : nat → A → B) (l : list A) :
  mjoin (imap (λ i x, [f i x]) l) = imap f l.
Proof.
  revert f. induction l as [|x l IH]; intros f; [done|].
  rewrite !imap_cons. simpl. f_equal. apply (IH (λ i, f (S i))).
Qed.
(** The texts of the prompt before they are combined. *)
Definition prompt_texts c : list string :=
  (if decide (system_msg c = "") then [] else [system_msg c]) ++ imap (turn c) (history c).

Lemma message_list_texts c config sp :
  check_message_seps (seps c) = Ok sp → Forall (text_message c) (history c) →
  message_list from_url c config = Ok (PText <$> prompt_texts c).
Proof.
  intros Hsep Hms. unfold message_list, prompt_texts.
  rewrite (map_m_imap _ (λ i m, [PText (turn c i m)])).
  - cbn [mbind result_bind]. rewrite mjoin_imap_single, fmap_app, fmap_imap.
    by case_decide.
  - intros i m Hi. eapply render_text_message; [done|]. by eapply Forall_lookup_1.
Qed.

Lemma concat_prompt_texts c :
  concat_str (prompt_texts c) = system_msg c +:+ concat_str (imap (turn c) (history c)).
Proof. unfold prompt_texts. case_decide as H; [by rewrite H|]. apply concat_str_cons. Qed.

Lemma prompt_texts_nil c : prompt_texts c = [] ↔ system_msg c = "" ∧ messages c = [].
Proof.
  unfold prompt_texts, history, _strip_reasoning_in_history.
  destruct (messages c), (strip_reasoning_in_history c); case_decide; simpl; naive_solver.
Qed.

(** The text a conversation renders to. *)
Definition prompt_text c : string :=
  subst_function (function_string c) (system_msg c +:+ concat_str (imap (turn c) (history c))).

Lemma as_prompt_rendered c config sp :
  check_message_seps (seps c) = Ok sp → Forall (text_message c) (history c) →
  prompt_texts c ≠ [] → as_prompt from_url c config = Ok [PText (prompt_text c)].
Proof.
  intros Hsep Hms Hne. unfold as_prompt, prompt_text.
  rewrite (message_list_texts c config sp) by done.
  cbn [mbind result_bind]. rewrite existsb_texts, <-concat_prompt_texts.
  destruct (prompt_texts c) as [|s l]; [done|]. by rewrite fmap_cons, combine_texts.
Qed.

(** C35. A conversation whose messages are all texts with supported roles
    renders to exactly one text: the system message followed by the turns,
    with the function placeholders substituted in the result. It fails with
    [IndexError] when there is nothing to render. *)
Theorem as_prompt_text c config sp :
  check_message_seps (seps c) = Ok sp → Forall (text_message c) (history c) →
  as_prompt from_url c config =
    if decide (system_msg c = "" ∧ messages c = [])
    then raise IndexError "list index out of range"
    else Ok [PText (subst_function (function_string c)
               (system_msg c +:+ concat_str (imap (turn c) (history c))))].
Proof.
  intros Hsep Hms. case_decide as Hd.
  - unfold as_prompt. rewrite (message_list_texts c config sp) by done.
    cbn [mbind result_bind]. rewrite existsb_texts. apply prompt_texts_nil in Hd. by rewrite Hd.
  - eapply as_prompt_rendered; [done..|]. by rewrite prompt_texts_nil.
Qed.

(** A successful rendering means that every rendered message has a
    supported role and that there was something to render. *)
Theorem as_prompt_safe c config p :
  as_prompt from_url c config = Ok p →
  p ≠ [] ∧ Forall (λ m, is_Some (roles c !! m.1)) (history c).
Proof.
  unfold as_prompt, message_list. intros H.
  apply bind_Ok in H as (ml & Hml & H). apply bind_Ok in Hml as (body & Hbody & Hml).
  injection Hml as <-. split.
  - destruct (existsb _ _) eqn:E.
    + injection H as <-. destruct (_ ++ _) as [|x l]; [done|]. simpl.
      destruct (combine_fold_invariant l [x]) as [_ Hst]; [done|by destruct x|].
      intros Hnil. rewrite Hnil in Hst.
      revert Hst E. unfold stream. simpl. destruct x as [s|im]; [|done].
      rewrite app_nil_r. intros [_ Hl]%eq_sym%app_nil E.
      revert E Hl. clear. simpl. induction l as [|[t|im] l IH]; simpl; [done| |done].
      intros E [_ Hl]%app_nil. by apply IH.
    + apply bind_Ok in H as ([t|] & H0 & H); [|done].
      apply py_setitem_Ok in H as [Hlt ->]. intros Hnil%(f_equal length).
      rewrite length_insert in Hnil. simpl in Hnil. lia.
  - apply map_m_Ok in Hbody. apply Forall_lookup_2. intros i [role ct] Hi.
    destruct (Forall2_lookup_l _ _ _ i (i, (role, ct)) Hbody) as (y & _ & Hy).
    { autorewrite with py. by rewrite Hi. }
    simpl in Hy. simpl. destruct (roles c !! role); [done|]. discriminate Hy.
Qed.
End rendering.

(** ** Function placeholders *)

Lemma FUNCTION_starts_uniquely : starts_uniquely (placeholder_value FUNCTION).
Proof.
  exists "{"%char, "function_string}". split; [done|]. apply contains_false. reflexivity.
Qed.

(** A text with one function placeholder: the function string takes its
    place and the rest of the text is unchanged. The placeholder is looked for
    in the rendered prompt, so it may come from a user's message. *)
Theorem subst_function_single fs a b :
  ¬ occurs (placeholder_value FUNCTION) b →
  ¬ occurs (placeholder_value FUNCTION) (a +:+ fs +:+ b) →
  subst_function fs (a +:+ placeholder_value FUNCTION +:+ b) = a +:+ fs +:+ b.
Proof.
  intros Hb Hall. unfold subst_function.
  rewrite rsplit1_app by (done || apply FUNCTION_starts_uniquely).
  simpl py_join. by apply replace_no_occurrence.
Qed.

(** A text without the placeholder is left alone. *)
Lemma subst_function_none fs text :
  ¬ occurs (placeholder_value FUNCTION) text → subst_function fs text = text.
Proof.
  intros H. unfold subst_function, rsplit1.
  apply rcut_None in H as Hr. rewrite Hr. simpl. by apply replace_no_occurrence.
Qed.

(** ** Witnesses *)

(** A ChatML-style template, as in
    [python/mlc_llm/conversation_template/hermes.py], with a short history. *)
Definition chatml (ms : list message) (fs : string) : Conversation := {|
  name := Some "chatml";
  system_template := "<|im_start|>system{system_message}<|im_end|>";
  system_message := "Be brief.";
  system_prefix_token_ids := None;
  add_role_after_system_message := true;
  roles := list_to_map [("user", "<|im_start|>user"); ("assistant", "<|im_start|>assistant")];
  role_templates := default_role_templates;
  messages := ms;
  seps := ["<|im_end|>"];
  role_content_sep := ":";
  role_empty_sep := ":";
  stop_str := ["<|im_end|>"];
  stop_token_ids := [2; 7]%Z;
  strip_reasoning_in_history := true;
  function_string := fs;
  use_function_calling := false;
|}.

Definition no_images : string → list (string * pyval) → result unit :=
  λ _ _, raise ValueError "Unsupported image URL format: {url}".

Definition short_history : list message :=
  [("user", CStr "hi"); ("assistant", CStr "<think>hm</think>hello"); ("user", CStr "bye");
   ("assistant", CNone)].

Lemma as_prompt_text_witness :
  as_prompt no_images (chatml short_history "") None = Ok [PText
    "<|im_start|>systemBe brief.<|im_end|><|im_start|>user:hi<|im_end|><|im_start|>assistant:hello<|im_end|><|im_start|>user:bye<|im_end|><|im_start|>assistant:"].
Proof.
  rewrite (as_prompt_text no_images (chatml short_history "") None ["<|im_end|>"]).
  - reflexivity.
  - reflexivity.
  - repeat constructor; eexists; reflexivity.
Defined.

Lemma as_prompt_safe_witness :
  Forall (λ m, is_Some (roles (chatml short_history "") !! m.1)) (history (chatml short_history "")).
Proof.
  destruct (as_prompt no_images (chatml short_history "") None) as [p|e] eqn:E;
    [|vm_compute in E; discriminate E].
  exact (proj2 (as_prompt_safe no_images _ _ _ E)).
Defined.

(** The words a user typed between braces are not sent to the model. *)
Lemma subst_function_single_witness :
  subst_function "" ("user: what does " +:+ placeholder_value FUNCTION +:+ " do?")
  = "user: what does  do?".
Proof.
  rewrite (subst_function_single "" "user: what does " " do?").
  - reflexivity.
  - apply contains_false. reflexivity.
  - apply contains_false. reflexivity.
Defined.
