(* ===== verification/OpenAIProtocol.v ===== *)
(** The OpenAI request protocol: [python/mlc_llm/protocol/openai_api_protocol.py]
    and [debug_protocol.py].

    The request and message classes as records, their validators, the checks
    on the chat messages and on function calling. Pydantic itself (parsing,
    type coercion, dumping to JSON) is not modelled: a record value is a
    request whose fields already have their declared types. *)

From Stdlib Require Import QArith.
From stdpp Require Import base gmap strings list.
From S2P Require Import Prelude PyString Conversation.
Close Scope Q_scope.

(** ** Data *)

Definition CHAT_COMPLETION_MAX_TOP_LOGPROBS : Z := 20.
Definition COMPLETION_MAX_TOP_LOGPROBS : Z := 5.

Record StreamOptions := { include_usage : option bool }.

Inductive DisaggKind := prepare_receive | remote_send | start_generation.

Record DisaggConfig := {
  kind : option DisaggKind;
  kv_append_metadata : option string;
  kv_window_begin : option Z;
  kv_window_end : option Z;
  dst_group_offset : option Z;
}.

Inductive SpecialRequest := query_engine_metrics.
Inductive GrammarExecutionMode := constraint | jump_forward.

Record DebugConfig := {
  ignore_eos : bool;
  pinned_system_prompt : bool;
  special_request : option SpecialRequest;
  grammar_execution_mode : GrammarExecutionMode;
  disagg_config : option DisaggConfig;
}.

Inductive ResponseFormatType := text_format | json_object.

Record RequestResponseFormat := {
  rf_type : ResponseFormatType;
  json_schema : option string;
}.

(** [Union[str, List[str]]] of the [stop] field. *)
Inductive stop_value :=
  | StopStr (s : string)
  | StopList (l : list string).

(** The logprobs and usage objects of the responses. *)
Record TopLogProbs := {
  tlp_token : string;
  tlp_logprob : pyfloat;
  tlp_bytes : option (list Z);
}.
Record LogProbsContent := {
  lp_token : string;
  lp_logprob : pyfloat;
  lp_bytes : option (list Z);
  lp_top_logprobs : list TopLogProbs;
}.
Record CompletionLogProbs := {
  text_offset : option (list Z);
  token_logprobs : list pyfloat;
  tokens : list string;
  top_logprobs_list : list (list (string * pyfloat));
}.
Record CompletionUsage := {
  prompt_tokens : Z;
  completion_tokens : Z;
  total_tokens : Z;
  extra : option (list (string * pyval));
}.

(** [Union[str, List[str], List[int], List[List[int]]]] of an embedding
    request. *)
Inductive EmbeddingInput :=
  | EStr (s : string)
  | EStrs (l : list string)
  | EToks (l : list Z)
  | ETokss (l : list (list Z)).

(** [EmbeddingRequest.validate_input]. *)
Definition validate_input (v : EmbeddingInput) : result EmbeddingInput :=
  match v with
  | EStrs [] | EToks [] | ETokss [] => raise ValueError "Input list must not be empty."
  | _ => Ok v
  end.

(** [prompt: Union[str, List[int]]]. *)
Inductive completion_prompt :=
  | CPStr (s : string)
  | CPTokens (l : list Z).

Record CompletionRequest := {
  c_model : option string;
  c_prompt : completion_prompt;
  c_best_of : Z;
  c_echo : bool;
  c_frequency_penalty : option pyfloat;
  c_presence_penalty : option pyfloat;
  c_logprobs : option Z;
  c_logit_bias : option (list (Z * pyfloat));
  c_max_tokens : option Z;
  c_n : nat;
  c_seed : option Z;
  c_stop : option stop_value;
  c_stream : bool;
  c_stream_options : option StreamOptions;
  c_suffix : option string;
  c_temperature : option pyfloat;
  c_top_p : option pyfloat;
  c_user : option string;
  c_response_format : option RequestResponseFormat;
  c_debug_config : option DebugConfig;
}.

Record ChatFunction := {
  fn_description : option string;
  fn_name : string;
  fn_parameters : list (string * pyval);
}.
Record ChatTool := {
  tool_type : string;
  tool_function : ChatFunction;
}.
Record ChatFunctionCall := {
  fc_name : string;
  fc_arguments : option (list (string * pyval));
}.
(** The id is random ([call_ ++ shortuuid.random()]). *)
Record ChatToolCall := {
  tc_id : string;
  tc_function : ChatFunctionCall;
}.

Record ChatCompletionMessage := {
  m_content : content;
  m_role : string;
  m_name : option string;
  m_tool_calls : option (list ChatToolCall);
  m_tool_call_id : option string;
}.

(** [Optional[Union[Literal["none", "auto"], Dict]]]. *)
Inductive tool_choice_value :=
  | TCNone
  | TCStr (s : string)
  | TCDict (d : list (string * pyval)).

Record ChatCompletionRequest := {
  r_messages : list ChatCompletionMessage;
  r_model : option string;
  r_frequency_penalty : option pyfloat;
  r_presence_penalty : option pyfloat;
  r_logprobs : bool;
  r_top_logprobs : Z;
  r_logit_bias : option (list (Z * pyfloat));
  r_max_tokens : option Z;
  r_n : nat;
  r_seed : option Z;
  r_stop : option stop_value;
  r_stream : bool;
  r_stream_options : option StreamOptions;
  r_temperature : option pyfloat;
  r_top_p : option pyfloat;
  r_tools : option (list ChatTool);
  r_tool_choice : tool_choice_value;
  r_user : option string;
  r_response_format : option RequestResponseFormat;
  r_debug_config : option DebugConfig;
}.

(** ** Validators *)

(** [check_penalty_range] (the same code in both request classes). *)
Definition check_penalty_range (v : option pyfloat) : result (option pyfloat) :=
  match v with
  | None => Ok v
  | Some x =>
      if float_truthy x && (float_lt x (Fin (-2)) || float_lt (Fin 2) x)
      then raise ValueError "Penalty value should be in range [-2, 2]."
      else Ok v
  end.

(** [check_logit_bias] (the same code in both request classes). *)
Definition check_logit_bias (v : option (list (Z * pyfloat))) :
    result (option (list (Z * pyfloat))) :=
  match v with
  | None => Ok None
  | Some l =>
      _ ← fold_m (λ (_ : unit) item,
            raise_when (float_lt (Fin 100) (float_abs item.2)) ValueError
              "Logit bias value should be in range [-100, 100], while value {bias} is given for token id {token_id}")
          tt l;
      Ok v
  end.

(** [CompletionRequest.check_logprobs]. *)
Definition c_check_logprobs (r : CompletionRequest) : result unit :=
  match c_logprobs r with
  | None => Ok tt
  | Some k =>
      raise_when ((k <? 0)%Z || (COMPLETION_MAX_TOP_LOGPROBS <? k)%Z) ValueError
        "logprobs must be in range [0, {COMPLETION_MAX_TOP_LOGPROBS}]"
  end.

(** [ChatCompletionRequest.check_logprobs]. *)
Definition r_check_logprobs (r : ChatCompletionRequest) : result unit :=
  _ ← raise_when ((r_top_logprobs r <? 0)%Z
                  || (CHAT_COMPLETION_MAX_TOP_LOGPROBS <? r_top_logprobs r)%Z) ValueError
        "top_logprobs must be in range [0, {CHAT_COMPLETION_MAX_TOP_LOGPROBS}]";
  raise_when (negb (r_logprobs r) && (0 <? r_top_logprobs r)%Z) ValueError
    "logprobs must be True to support top_logprobs".

Definition check_stream_options (r : ChatCompletionRequest) : result unit :=
  match r_stream_options r with
  | None => Ok tt
  | Some _ =>
      raise_when (negb (r_stream r)) ValueError
        "stream must be set to True when stream_options is present"
  end.

(** [not self.stream_options.include_usage]: [None] and [False]. *)
Definition wants_usage (o : option StreamOptions) : bool :=
  match o with
  | Some so => match include_usage so with Some b => b | None => false end
  | None => false
  end.

Definition check_debug_config (r : ChatCompletionRequest) : result unit :=
  match r_debug_config r with
  | None => Ok tt
  | Some d =>
      match special_request d with
      | None => Ok tt
      | Some _ =>
          _ ← raise_when (negb (r_stream r)) ValueError
                "DebugConfig.special_request requires stream=True";
          raise_when (negb (wants_usage (r_stream_options r))) ValueError
            "DebugConfig.special_request requires include_usage in stream_options"
      end
  end.

(** The validation of a whole request: field validators, then model
    validators in declaration order. *)
Definition validate_completion (r : CompletionRequest) : result unit :=
  _ ← check_penalty_range (c_frequency_penalty r);
  _ ← check_penalty_range (c_presence_penalty r);
  _ ← check_logit_bias (c_logit_bias r);
  c_check_logprobs r.

Definition validate_chat (r : ChatCompletionRequest) : result unit :=
  _ ← check_penalty_range (r_frequency_penalty r);
  _ ← check_penalty_range (r_presence_penalty r);
  _ ← check_logit_bias (r_logit_bias r);
  _ ← r_check_logprobs r;
  _ ← check_stream_options r;
  check_debug_config r.

(** ** Checks on the chat request *)

Definition is_list_content (c : content) : bool :=
  match c with CItems _ => true | _ => false end.

(** The body of the loop of [check_message_validity]. *)
Definition check_message (i : nat) (m : ChatCompletionMessage) : result unit :=
  _ ← raise_when (bool_decide (m_role m = "system") && negb (bool_decide (i = 0))) BadRequestError
        "System prompt at position {i} in the message list is invalid.";
  _ ← raise_when (bool_decide (is_Some (m_tool_call_id m)) && negb (bool_decide (m_role m = "tool")))
        BadRequestError "Non-tool message having `tool_call_id` is invalid.";
  _ ← raise_when (is_list_content (m_content m) && negb (bool_decide (m_role m = "user")))
        BadRequestError "Non-user message having a list of content is invalid.";
  match m_tool_calls m with
  | None => Ok tt
  | Some _ =>
      _ ← raise_when (negb (bool_decide (m_role m = "assistant"))) BadRequestError
            "Non-assistant message having `tool_calls` is invalid.";
      raise BadRequestError "Assistant message having `tool_calls` is not supported yet."
  end.

Definition check_message_validity (r : ChatCompletionRequest) : result unit :=
  fold_m (λ (_ : unit) im, check_message im.1 im.2) tt (enumerate (r_messages r)).

(** [len(v)] and [v[k]] on a dynamically typed value. *)
Definition py_len (v : pyval) : result nat :=
  match v with
  | PStr s => Ok (String.length s)
  | PList l => Ok (length l)
  | PDict d => Ok (length d)
  | _ => raise TypeError "object has no len()"
  end.
Definition py_getitem (v : pyval) (k : string) : result pyval :=
  match v with
  | PDict d => get_key k d
  | _ => raise TypeError "object is not subscriptable with a string"
  end.

Definition pyval_is_str (v : pyval) (s : string) : bool :=
  match v with PStr t => bool_decide (t = s) | _ => false end.

Section function_calling.
(** [model_dump_json] of one function, and [json.dumps] of the dumped
    functions of the tool list. *)
Context (function_json : ChatFunction → string) (functions_json : list ChatFunction → string).

(** The search of the tool named by [tool_choice["function"]["name"]]. *)
Fixpoint select_tool (tools : list ChatTool) (f : pyval) (conv : Conversation) :
    result Conversation :=
  match tools with
  | [] =>
      _ ← py_getitem f "name";
      raise BadRequestError
        "The tool_choice function {self.tool_choice['function']['name']} is not found in the tools list"
  | tool :: tools =>
      nm ← py_getitem f "name";
      if pyval_is_str nm (fn_name (tool_function tool))
      then Ok (with_function_calling true (function_json (tool_function tool)) conv)
      else select_tool tools f conv
  end.

(** [check_function_call_usage]: the template it updates, or an error
    raised before any update. *)
Definition check_function_call_usage (r : ChatCompletionRequest) (conv : Conversation) :
    result Conversation :=
  let off := with_function_calling false (function_string conv) conv in
  match r_tools r with
  | None => Ok off
  | Some tools =>
      match r_tool_choice r with
      | TCDict d =>
          ty ← get_key "type" d;
          _ ← raise_when (negb (pyval_is_str ty "function")) BadRequestError
                "Only 'function' tool choice is supported";
          f ← get_key "function" d;
          n ← py_len f;
          _ ← raise_when (bool_decide (1 < n)) BadRequestError
                "Only one tool is supported when tool_choice is specified";
          select_tool tools f conv
      | tc =>
          if match tc with TCStr s => bool_decide (s = "none") | _ => false end then Ok off
          else
            _ ← raise_when (match tc with TCStr s => negb (bool_decide (s = "auto")) | _ => false end)
                  BadRequestError "Invalid tool_choice value: {self.tool_choice}";
            fns ← fold_m (λ acc tool,
                    _ ← raise_when (negb (bool_decide (tool_type tool = "function")))
                          BadRequestError "Only 'function' tool type is supported";
                    Ok (acc ++ [tool_function tool])) [] tools;
            Ok (with_function_calling true (functions_json fns) conv)
      end
  end.
End function_calling.

(** ** Unsupported fields *)

(** The request protocols of the engine. *)
Inductive RequestProtocol :=
  | ReqCompletion (r : CompletionRequest)
  | ReqChat (r : ChatCompletionRequest).

(** [openai_api_get_unsupported_fields]: [best_of] exists on completion
    requests only. *)
Definition openai_api_get_unsupported_fields (req : RequestProtocol) : list string :=
  match req with
  | ReqCompletion r => if (c_best_of r =? 1)%Z then [] else ["best_of"]
  | ReqChat _ => []
  end.

(** ** What the validators accept *)

Lemma check_penalty_range_spec v :
  is_ok (check_penalty_range v) = true ↔
  match v with None => True | Some x => float_within (-2) 2 x end.
Proof.
  destruct v as [[q|[]|]|]; simpl; [|by split..].
  rewrite <-!Qle_bool_iff.
  destruct (Qeq_bool q 0) eqn:E0; simpl.
  { apply Qeq_bool_iff in E0. rewrite E0. done. }
  destruct (Qle_bool (-2) q), (Qle_bool q 2); simpl; naive_solver.
Qed.

Lemma bias_in_range x : float_lt (Fin 100) (float_abs x) = false ↔ float_within (-100) 100 x.
Proof.
  destruct x as [q|b|]; [|by destruct b|done].
  unfold float_within, float_abs. destruct (Qle_bool 0 q) eqn:E; rewrite float_not_lt_Fin.
  - apply Qle_bool_iff in E. split; [|by intros [_ ?]].
    intros H. split; [|done]. by apply (Qle_trans _ 0).
  - apply Qle_bool_false in E. split.
    + intros H. split; [|apply Qlt_le_weak; by apply (Qlt_trans _ 0)].
      apply Qopp_le_compat in H. by rewrite Qopp_opp in H.
    + intros [H _]. apply Qopp_le_compat in H. done.
Qed.

Lemma fold_check {A} (f : A → result unit) l u :
  fold_m (λ _ x, f x) u l = Ok tt ↔ Forall (λ x, f x = Ok tt) l.
Proof.
  revert u. induction l as [|x l IH]; intros u; simpl; [destruct u; by split|].
  rewrite Forall_cons, bind_Ok. split.
  - intros ([] & Hx & Hl). split; [done|by apply (IH tt)].
  - intros [Hx Hl]. exists tt. split; [done|by apply IH].
Qed.

Lemma check_logit_bias_spec v :
  is_ok (check_logit_bias v) = true ↔
  match v with None => True | Some l => Forall (λ p, float_within (-100) 100 p.2) l end.
Proof.
  destruct v as [l|]; simpl; [|done].
  transitivity (fold_m (λ (_ : unit) (item : Z * pyfloat),
    raise_when (float_lt (Fin 100) (float_abs item.2)) ValueError
    "Logit bias value should be in range [-100, 100], while value {bias} is given for token id {token_id}") tt l = Ok tt).
  - destruct (fold_m _ _ _) as [[]|]; simpl; split; done.
  - rewrite fold_check. apply Forall_iff. intros [k x]. rewrite raise_when_Ok. apply bias_in_range.
Qed.

Lemma bind_is_ok {A B} (m : result A) (k : result B) :
  is_ok (_ ← m; k) = true ↔ is_ok m = true ∧ is_ok k = true.
Proof. destruct m; simpl; naive_solver. Qed.

Lemma raise_when_is_ok b c msg : is_ok (raise_when b c msg) = true ↔ b = false.
Proof. by destruct b. Qed.

(** [temperature]-like options: absent, or inside the interval. *)
Definition opt_within (lo hi : Q) (v : option pyfloat) : Prop :=
  match v with None => True | Some x => float_within lo hi x end.

(** The checks both request classes share. *)
Definition sampling_ok (freq pres : option pyfloat) (bias : option (list (Z * pyfloat))) : Prop :=
  opt_within (-2) 2 freq ∧ opt_within (-2) 2 pres ∧
  match bias with None => True | Some l => Forall (λ p, float_within (-100) 100 p.2) l end.

(** A completion request is accepted exactly when its penalties are in
    [-2, 2], its logit biases in [-100, 100] and its number of logprobs in
    [0, 5] (NaN passes every range check). *)
Theorem validate_completion_spec r :
  is_ok (validate_completion r) = true ↔
  sampling_ok (c_frequency_penalty r) (c_presence_penalty r) (c_logit_bias r) ∧
  match c_logprobs r with None => True | Some k => (0 ≤ k ≤ 5)%Z end.
Proof.
  unfold validate_completion, sampling_ok, opt_within, c_check_logprobs.
  rewrite !bind_is_ok, !check_penalty_range_spec, check_logit_bias_spec.
  destruct (c_logprobs r) as [k|]; [|tauto].
  rewrite raise_when_is_ok, orb_false_iff, !Z.ltb_ge. unfold COMPLETION_MAX_TOP_LOGPROBS. tauto.
Qed.

Lemma r_check_logprobs_spec r :
  is_ok (r_check_logprobs r) = true ↔
  (0 ≤ r_top_logprobs r ≤ 20)%Z ∧ (r_logprobs r = false → r_top_logprobs r = 0%Z).
Proof.
  unfold r_check_logprobs, CHAT_COMPLETION_MAX_TOP_LOGPROBS.
  rewrite bind_is_ok, !raise_when_is_ok, orb_false_iff, andb_false_iff, negb_false_iff, !Z.ltb_ge.
  destruct (r_logprobs r); intuition (try lia; try congruence).
Qed.

Lemma check_stream_options_spec r :
  is_ok (check_stream_options r) = true ↔
  (is_Some (r_stream_options r) → r_stream r = true).
Proof.
  unfold check_stream_options. destruct (r_stream_options r) as [so|].
  - rewrite raise_when_is_ok, negb_false_iff. split; [done|]. intros H. apply H. by eexists.
  - split; [|done]. intros _ [? ?]. done.
Qed.

Lemma wants_usage_true o :
  wants_usage o = true ↔ ∃ so, o = Some so ∧ include_usage so = Some true.
Proof.
  destruct o as [[[[]|]]|]; simpl; split; try done; try (by intros (so & [= <-] & ?)).
  intros _. by eexists.
Qed.

Lemma check_debug_config_spec r :
  is_ok (check_debug_config r) = true ↔
  ∀ d, r_debug_config r = Some d → is_Some (special_request d) →
    ∃ so, r_stream r = true ∧ r_stream_options r = Some so ∧ include_usage so = Some true.
Proof.
  unfold check_debug_config. destruct (r_debug_config r) as [d|]; [|by split].
  destruct (special_request d) as [q|] eqn:Eq.
  - rewrite bind_is_ok, !raise_when_is_ok, !negb_false_iff, wants_usage_true. split.
    + intros [? (so & ? & ?)] d' [= <-] _. by exists so.
    + intros H. destruct (H d) as (so & ? & ? & ?); [done|by rewrite Eq|]. eauto.
  - split; [|done]. intros _ d' [= <-]. rewrite Eq. by intros [? ?].
Qed.

(** A chat request is accepted exactly when its penalties and biases are
    in range, [top_logprobs] is in [0, 20] and positive only together with
    [logprobs], [stream_options] is given only when streaming, and a special
    debug request asks for a usage chunk on a stream. *)
Theorem validate_chat_spec r :
  is_ok (validate_chat r) = true ↔
  sampling_ok (r_frequency_penalty r) (r_presence_penalty r) (r_logit_bias r) ∧
  (0 ≤ r_top_logprobs r ≤ 20)%Z ∧ (r_logprobs r = false → r_top_logprobs r = 0%Z) ∧
  (is_Some (r_stream_options r) → r_stream r = true) ∧
  (∀ d, r_debug_config r = Some d → is_Some (special_request d) →
     ∃ so, r_stream r = true ∧ r_stream_options r = Some so ∧ include_usage so = Some true).
Proof.
  unfold validate_chat, sampling_ok, opt_within.
  rewrite !bind_is_ok, !check_penalty_range_spec, check_logit_bias_spec.
  rewrite r_check_logprobs_spec, check_stream_options_spec, check_debug_config_spec. tauto.
Qed.

(** ** The chat messages *)

(** What the engine accepts as message [i]. *)
Record message_ok (i : nat) (m : ChatCompletionMessage) : Prop := {
  system_first : m_role m = "system" → i = 0;
  tool_call_id_role : is_Some (m_tool_call_id m) → m_role m = "tool";
  list_content_role : is_list_content (m_content m) = true → m_role m = "user";
  no_tool_calls : m_tool_calls m = None;
}.

Lemma andb_negb_decide_false b (P : Prop) `{Decision P} :
  b && negb (bool_decide P) = false ↔ (b = true → P).
Proof.
  rewrite andb_false_iff, negb_false_iff, bool_decide_eq_true.
  destruct b; intuition congruence.
Qed.

Lemma check_message_spec i m : is_ok (check_message i m) = true ↔ message_ok i m.
Proof.
  unfold check_message.
  rewrite !bind_is_ok, !raise_when_is_ok, !andb_negb_decide_false, !bool_decide_eq_true.
  split.
  - intros (H1 & H2 & H3 & H4). split; [done..|]. destruct (m_tool_calls m); [|done].
    rewrite bind_is_ok in H4. by destruct H4.
  - intros [H1 H2 H3 H4]. rewrite H4. done.
Qed.

Lemma result_unit_ok (x : result unit) : x = Ok tt ↔ is_ok x = true.
Proof. by destruct x as [[]|]. Qed.

(** [check_message_validity] accepts exactly the message lists in which a
    system message is the first one, tool call ids are on tool messages, list
    contents on user messages, and no message carries tool calls. *)
Theorem check_message_validity_spec r :
  check_message_validity r = Ok tt ↔
  ∀ i m, r_messages r !! i = Some m → message_ok i m.
Proof.
  unfold check_message_validity. rewrite fold_check, Forall_lookup. split.
  - intros H i m Hi. specialize (H i (i, m)). autorewrite with py in H. rewrite Hi in H.
    apply check_message_spec, result_unit_ok, H. done.
  - intros H i [j m]. autorewrite with py. intros Hi.
    destruct (r_messages r !! i) eqn:E; [|done]. simpl in Hi. simplify_eq/=.
    apply result_unit_ok, check_message_spec. by apply H.
Qed.

(** ** Function calling *)

Section function_calling_spec.
Context (function_json : ChatFunction → string) (functions_json : list ChatFunction → string).

(** The function string a successful check may install, and when it turns
    function calling on. *)
Inductive function_usage (r : ChatCompletionRequest) (old : string) : bool → string → Prop :=
  | usage_off :
      r_tools r = None ∨ r_tool_choice r = TCStr "none" →
      function_usage r old false old
  | usage_named tools d f tool :
      r_tools r = Some tools → r_tool_choice r = TCDict d →
      dict_get "type" d = Some (PStr "function") → dict_get "function" d = Some (PDict f) →
      dict_get "name" f = Some (PStr (fn_name (tool_function tool))) → tool ∈ tools →
      function_usage r old true (function_json (tool_function tool))
  | usage_all tools :
      r_tools r = Some tools → r_tool_choice r = TCNone ∨ r_tool_choice r = TCStr "auto" →
      Forall (λ t, tool_type t = "function") tools →
      function_usage r old true (functions_json (tool_function <$> tools)).

Lemma select_tool_ok tools f conv conv' :
  select_tool function_json tools f conv = Ok conv' →
  ∃ d tool, f = PDict d ∧ dict_get "name" d = Some (PStr (fn_name (tool_function tool))) ∧
    tool ∈ tools ∧ conv' = with_function_calling true (function_json (tool_function tool)) conv.
Proof.
  induction tools as [|tool tools IH]; simpl; intros H; ok_inv.
  destruct (pyval_is_str a (fn_name (tool_function tool))) eqn:E.
  - ok_inv. destruct f as [| | | | | |d]; try done. simpl in H0.
    unfold get_key in H0. destruct (dict_get "name" d) as [v|] eqn:Ed; [|done]. ok_inv.
    destruct a; try done. simpl in E. apply bool_decide_eq_true in E. subst.
    exists d, tool. split_and!; [done|done|by left|done].
  - destruct (IH H) as (d & t & ? & ? & ? & ?). exists d, t. split_and!; [done..|by right|done].
Qed.

Lemma collect_functions tools acc fns :
  fold_m (λ acc tool,
    _ ← raise_when (negb (bool_decide (tool_type tool = "function")))
          BadRequestError "Only 'function' tool type is supported";
    Ok (acc ++ [tool_function tool])) acc tools = Ok fns →
  fns = acc ++ (tool_function <$> tools) ∧ Forall (λ t, tool_type t = "function") tools.
Proof.
  revert acc. induction tools as [|t tools IH]; simpl; intros acc H; ok_inv.
  - by rewrite app_nil_r.
  - bool_inv. destruct (IH _ H) as [-> ?]. rewrite <-app_assoc. split; [done|]. by constructor.
Qed.

(** When [check_function_call_usage] succeeds, it changes the function
    fields of the template only: function calling is off (and the function
    string kept) without tools or with choice "none", the named tool is
    installed for a dict choice, and all the tools otherwise. *)
Theorem check_function_call_usage_ok r conv conv' :
  check_function_call_usage function_json functions_json r conv = Ok conv' →
  ∃ use fs, conv' = with_function_calling use fs conv ∧
    function_usage r (function_string conv) use fs.
Proof.
  unfold check_function_call_usage. intros H.
  destruct (r_tools r) as [tools|] eqn:Et; [|ok_inv; eexists _, _; split; [done|constructor; by left]].
  destruct (r_tool_choice r) as [|s|d] eqn:Ec.
  - simpl in H. ok_inv.
    match goal with Hf : fold_m _ _ _ = Ok _ |- _ => apply collect_functions in Hf as [-> ?] end.
    eexists _, _; split; [done|]. eapply usage_all; eauto.
  - case_bool_decide as Hs; ok_inv; [subst; eexists _, _; split; [done|constructor; by right]|].
    bool_inv. subst.
    match goal with Hf : fold_m _ _ _ = Ok _ |- _ => apply collect_functions in Hf as [-> ?] end.
    eexists _, _; split; [done|]. eapply usage_all; eauto.
  - unfold get_key in H. destruct (dict_get "type" d) as [ty|] eqn:Ety; [|done].
    destruct (dict_get "function" d) as [f|] eqn:Ef; ok_inv; bool_inv.
    match goal with Hs : pyval_is_str ?a _ = true |- _ =>
      destruct a; try done; simpl in Hs; bool_inv; subst end.
    apply select_tool_ok in H as (d' & tool & -> & ? & ? & ->).
    eexists _, _; split; [done|]. by eapply usage_named.
Qed.
End function_calling_spec.

(** ** Witnesses *)

Definition get_weather : ChatTool := {|
  tool_type := "function";
  tool_function := {| fn_description := None; fn_name := "get_weather"; fn_parameters := [] |};
|}.

(** A minimal chat request. *)
Definition chat_request (ms : list ChatCompletionMessage) (tools : option (list ChatTool))
    (choice : tool_choice_value) (stop : option stop_value) : ChatCompletionRequest := {|
  r_messages := ms; r_model := Some "m"; r_frequency_penalty := None;
  r_presence_penalty := None; r_logprobs := false; r_top_logprobs := 0; r_logit_bias := None;
  r_max_tokens := None; r_n := 1; r_seed := None; r_stop := stop; r_stream := false;
  r_stream_options := None; r_temperature := None; r_top_p := None; r_tools := tools;
  r_tool_choice := choice; r_user := None; r_response_format := None; r_debug_config := None;
|}.

Definition named_choice : tool_choice_value :=
  TCDict [("type", PStr "function"); ("function", PDict [("name", PStr "get_weather")])].

Lemma check_function_call_usage_ok_witness :
  let r := chat_request [] (Some [get_weather]) named_choice None in
  ∃ use fs, with_function_calling true "get_weather" (chatml [] "") =
              with_function_calling use fs (chatml [] "") ∧
    function_usage fn_name (λ _, "all") r "" use fs.
Proof.
  apply (check_function_call_usage_ok fn_name (λ _, "all")
    (chat_request [] (Some [get_weather]) named_choice None) (chatml [] "")).
  reflexivity.
Defined.
