(* ===== verification/EngineUtils.v ===== *)
(** Utilities of the serving engine: [python/mlc_llm/serve/engine_utils.py],
    with [protocol/generation_config.py].

    The generation config built from a request, prompt processing, the error
    clean-up scope, and the helpers that read embedding metadata. *)

From Stdlib Require Import QArith.
From stdpp Require Import base gmap strings list.
From S2P Require Import Prelude PyString Conversation OpenAIProtocol.
Close Scope Q_scope.

(** ** Generation configs *)

Record GenerationConfig := {
  g_n : nat;
  g_temperature : option pyfloat;
  g_top_p : option pyfloat;
  g_frequency_penalty : option pyfloat;
  g_presence_penalty : option pyfloat;
  g_repetition_penalty : option pyfloat;
  g_logprobs : bool;
  g_top_logprobs : Z;
  g_logit_bias : option (list (Z * pyfloat));
  g_max_tokens : Z;
  g_seed : option Z;
  g_stop_strs : option (list string);
  g_stop_token_ids : option (list Z);
  g_response_format : option RequestResponseFormat;
  g_debug_config : option DebugConfig;
}.

(** [getattr(request, name)] for a field both request classes have. *)
Definition req_field {A} (fc : CompletionRequest → A) (fr : ChatCompletionRequest → A)
    (req : RequestProtocol) : A :=
  match req with ReqCompletion r => fc r | ReqChat r => fr r end.

Definition req_stop : RequestProtocol → option stop_value := req_field c_stop r_stop.

(** [kwargs["stop_strs"]], when the key is set. *)
Definition stop_strs_arg (stop : option stop_value) : option (list string) :=
  match stop with
  | None => None
  | Some (StopStr s) => Some [s]
  | Some (StopList l) => Some l
  end.

(** [openai_api_get_generation_config]: the keyword arguments, as the config
    they build. *)
Definition openai_api_get_generation_config (req : RequestProtocol) : GenerationConfig := {|
  g_n := req_field c_n r_n req;
  g_temperature := req_field c_temperature r_temperature req;
  g_top_p := req_field c_top_p r_top_p req;
  g_frequency_penalty := req_field c_frequency_penalty r_frequency_penalty req;
  g_presence_penalty := req_field c_presence_penalty r_presence_penalty req;
  g_repetition_penalty := None;
  g_logprobs :=
    match req with
    | ReqChat r => r_logprobs r
    | ReqCompletion r => match c_logprobs r with Some _ => true | None => false end
    end;
  g_top_logprobs :=
    match req with
    | ReqChat r => r_top_logprobs r
    | ReqCompletion r => match c_logprobs r with Some k => k | None => 0%Z end
    end;
  g_logit_bias := req_field c_logit_bias r_logit_bias req;
  g_max_tokens :=
    match req_field c_max_tokens r_max_tokens req with Some k => k | None => (-1)%Z end;
  g_seed := req_field c_seed r_seed req;
  g_stop_strs := stop_strs_arg (req_stop req);
  g_stop_token_ids := None;
  g_response_format := req_field c_response_format r_response_format req;
  g_debug_config := req_field c_debug_config r_debug_config req;
|}.

(** [request.stop] after an in-place [+=] on the list stored there. *)
Definition c_set_stop (st : option stop_value) (r : CompletionRequest) : CompletionRequest :=
  Build_CompletionRequest (c_model r) (c_prompt r) (c_best_of r) (c_echo r)
    (c_frequency_penalty r) (c_presence_penalty r) (c_logprobs r) (c_logit_bias r)
    (c_max_tokens r) (c_n r) (c_seed r) st (c_stream r) (c_stream_options r) (c_suffix r)
    (c_temperature r) (c_top_p r) (c_user r) (c_response_format r) (c_debug_config r).
Definition r_set_stop (st : option stop_value) (r : ChatCompletionRequest) :
    ChatCompletionRequest :=
  Build_ChatCompletionRequest (r_messages r) (r_model r) (r_frequency_penalty r)
    (r_presence_penalty r) (r_logprobs r) (r_top_logprobs r) (r_logit_bias r) (r_max_tokens r)
    (r_n r) (r_seed r) st (r_stream r) (r_stream_options r) (r_temperature r) (r_top_p r)
    (r_tools r) (r_tool_choice r) (r_user r) (r_response_format r) (r_debug_config r).
Definition req_set_stop (st : option stop_value) (req : RequestProtocol) : RequestProtocol :=
  match req with
  | ReqCompletion r => ReqCompletion (c_set_stop st r)
  | ReqChat r => ReqChat (r_set_stop st r)
  end.

(** The in-place part of [stop_strs += extra_stop_str]: when [request.stop] is
    a list, [kwargs["stop_strs"]] is that very list. *)
Definition extend_stop (extra : option (list string)) (st : option stop_value) :
    option stop_value :=
  match st, extra with
  | Some (StopList l), Some e => Some (StopList (l ++ e))
  | _, _ => st
  end.

(** [kwargs.get(key, []) += extra] when [extra] is given. *)
Definition extend_opt {A} (l : option (list A)) (extra : option (list A)) : option (list A) :=
  match extra with None => l | Some e => Some (default [] l ++ e) end.

(** [get_generation_config]: the config, and the request object as the call
    leaves it. *)
Definition get_generation_config (req : RequestProtocol)
    (extra_stop_token_ids : option (list Z)) (extra_stop_str : option (list string)) :
    GenerationConfig * RequestProtocol :=
  let k := openai_api_get_generation_config req in
  ({| g_n := g_n k; g_temperature := g_temperature k; g_top_p := g_top_p k;
      g_frequency_penalty := g_frequency_penalty k;
      g_presence_penalty := g_presence_penalty k;
      g_repetition_penalty := g_repetition_penalty k;
      g_logprobs := g_logprobs k; g_top_logprobs := g_top_logprobs k;
      g_logit_bias := g_logit_bias k; g_max_tokens := g_max_tokens k; g_seed := g_seed k;
      g_stop_strs := extend_opt (g_stop_strs k) extra_stop_str;
      g_stop_token_ids := extend_opt (g_stop_token_ids k) extra_stop_token_ids;
      g_response_format := g_response_format k; g_debug_config := g_debug_config k |},
   req_set_stop (extend_stop extra_stop_str (req_stop req)) req).

(** [check_unsupported_fields]. *)
Definition check_unsupported_fields (req : RequestProtocol) : result unit :=
  raise_when (bool_decide (openai_api_get_unsupported_fields req ≠ [])) BadRequestError
    "Request fields {', '.join(unsupported_fields)} are not supported right now.".

(** ** Prompts *)

Section prompts.
Context {Img : Type}.

(** The dynamically typed prompt argument. *)
Inductive pyprompt :=
  | PrStr (s : string)
  | PrInt (z : Z)
  | PrList (l : list pyprompt)
  | PrImage (im : Img).

(** A processed prompt: token ids or an image. *)
Inductive prompt_data :=
  | Tokens (l : list Z)
  | ImagePrompt (im : Img).

(** [all(isinstance(x, int) for x in l)], returning the integers. *)
Fixpoint as_ints (l : list pyprompt) : option (list Z) :=
  match l with
  | [] => Some []
  | PrInt z :: l => match as_ints l with Some zs => Some (z :: zs) | None => None end
  | _ :: _ => None
  end.

Definition invalid_prompt {A} : result A :=
  raise BadRequestError "Invalid request prompt {input_prompts}".

(** One element of a list of prompts (case 3). *)
Definition process_prompt (ftokenize : string → list Z) (p : pyprompt) : result prompt_data :=
  match p with
  | PrStr s => Ok (Tokens (ftokenize s))
  | PrList l => match as_ints l with Some zs => Ok (Tokens zs) | None => invalid_prompt end
  | PrImage im => Ok (ImagePrompt im)
  | PrInt _ => invalid_prompt
  end.

Definition process_prompts (ftokenize : string → list Z) (p : pyprompt) :
    result (list prompt_data) :=
  match p with
  | PrStr s => Ok [Tokens (ftokenize s)]
  | PrList [] => invalid_prompt
  | PrList (PrInt z :: l) =>
      match as_ints (PrInt z :: l) with Some zs => Ok [Tokens zs] | None => invalid_prompt end
  | PrList l => map_m (process_prompt ftokenize) l
  | _ => raise AssertionError "isinstance(input_prompts, list)"
  end.

(** [len(prompt)]; [embed_size] is [ImageData.__len__]. *)
Definition prompt_len (embed_size : Img → nat) (p : prompt_data) : nat :=
  match p with Tokens l => length l | ImagePrompt im => embed_size im end.

Definition check_and_get_prompts_length (embed_size : Img → nat)
    (prompts : list prompt_data) (max_input_sequence_length : Z) : result Z :=
  let total_length := foldl (λ acc p, (acc + Z.of_nat (prompt_len embed_size p))%Z) 0%Z prompts in
  if (max_input_sequence_length <? total_length)%Z
  then raise BadRequestError "Request prompt has {total_length} tokens in total, larger than the model input length limit {max_input_sequence_length}."
  else Ok total_length.

(** The engine inputs of [serve/data.py]. *)
Inductive Data :=
  | TextData (text : string)
  | TokenData (token_ids : list Z)
  | ImageData (im : Img).

(** [convert_prompts_to_data]. *)
Fixpoint convert_prompts_to_data (p : pyprompt) : result (list Data) :=
  match p with
  | PrImage im => Ok [ImageData im]
  | PrStr s => Ok [TextData s]
  | PrInt _ => raise TypeError "'int' object is not subscriptable"
  | PrList [] => raise IndexError "list index out of range"
  | PrList (PrInt z :: l) =>
      match as_ints (PrInt z :: l) with
      | Some zs => Ok [TokenData zs]
      | None => raise AssertionError "isinstance(token_id, int)"
      end
  | PrList l =>
      map_m (λ x, d ← convert_prompts_to_data x; py_index d 0) l
  end.

(** A processed prompt as the argument it is passed back as. *)
Definition prompt_arg (p : prompt_data) : pyprompt :=
  match p with Tokens l => PrList (PrInt <$> l) | ImagePrompt im => PrImage im end.
End prompts.
Arguments pyprompt Img : clear implicits.
Arguments prompt_data Img : clear implicits.
Arguments Data Img : clear implicits.

(** ** The error clean-up scope *)

(** [with ErrorCleanupScope(cleanup): body]: [__exit__] runs the clean-up when
    the body leaves with an exception, which then goes on (an exception of the
    clean-up itself replaces it). *)
Definition error_cleanup_scope {S A} (cleanup : stM S unit) (body : stM S A) : stM S A := λ s,
  match body s with
  | (s1, Ok a) => (s1, Ok a)
  | (s1, Err e) =>
      match cleanup s1 with
      | (s2, Ok _) => (s2, Err e)
      | (s2, Err e') => (s2, Err e')
      end
  end.

(** ** Embedding models *)

(** [load_embedding_params]: the parameters in metadata order. [params] and
    [param_size] are what [tvmjs.load_tensor_cache] returns. *)
Definition load_embedding_params {T} (params : gmap string T) (param_size : nat)
    (param_names : list string) : result (list T) :=
  _ ← py_assert (bool_decide (length param_names = param_size))
        "len(param_names) == meta[ParamSize]";
  map_m (λ n, match params !! n with Some t => Ok t | None => raise KeyError n end) param_names.

(** [get_embedding_metadata]. *)
Definition get_embedding_metadata (config : list (string * pyval)) : option pyval :=
  match dict_get "model_task" config with
  | Some (PStr "embedding") => dict_get "embedding_metadata" config
  | _ => None
  end.

Inductive embedding_model_type := encoder | decoder.

(** [detect_embedding_model_type]; [implements] is [mod.implements_function]. *)
Definition detect_embedding_model_type (implements : string → bool) :
    result embedding_model_type :=
  if implements "embed" && implements "prefill_to_last_hidden_states" then Ok decoder
  else if implements "prefill" then Ok encoder
  else raise ValueError "Model does not support embedding inference. Expected 'embed' + 'prefill_to_last_hidden_states' (decoder) or 'prefill' (encoder).".

(** ** Generation configs *)

(** The stop strings a request asks for. *)
Definition requested_stops (req : RequestProtocol) : list string :=
  default [] (stop_strs_arg (req_stop req)).

Lemma extend_opt_Some {A} (l : option (list A)) e :
  extend_opt l (Some e) = Some (default [] l ++ e).
Proof. done. Qed.

(** The generation config of a request: the token limit defaults to -1,
    the conversation's stop token ids and stop strings are added after the
    request's own ones, logprobs are requested exactly when the request does,
    and the remaining sampling fields are copied. *)
Theorem generation_config_correct req ids strs :
  let g := (get_generation_config req (Some ids) (Some strs)).1 in
  g_n g = req_field c_n r_n req ∧
  g_max_tokens g = default (-1)%Z (req_field c_max_tokens r_max_tokens req) ∧
  g_stop_token_ids g = Some ids ∧
  g_stop_strs g = Some (requested_stops req ++ strs) ∧
  (g_logprobs g = true ↔
     match req with ReqCompletion r => is_Some (c_logprobs r) | ReqChat r => r_logprobs r = true end) ∧
  g_top_logprobs g =
    match req with ReqCompletion r => default 0%Z (c_logprobs r) | ReqChat r => r_top_logprobs r end ∧
  g_temperature g = req_field c_temperature r_temperature req ∧
  g_top_p g = req_field c_top_p r_top_p req ∧
  g_seed g = req_field c_seed r_seed req ∧
  g_logit_bias g = req_field c_logit_bias r_logit_bias req.
Proof.
  destruct req as [r|r]; simpl; split_and!; try done.
  destruct (c_logprobs r); split; try done; by intros [? ?].
Qed.

(** The stop list of a request is extended in place: building the config
    of the same request again adds the conversation's stop strings again. *)
Theorem generation_config_stop_aliasing req ids strs :
  let '(_, req') := get_generation_config req (Some ids) (Some strs) in
  let '(g2, _) := get_generation_config req' (Some ids) (Some strs) in
  g_stop_strs g2 = Some (requested_stops req ++ strs ++
    match req_stop req with Some (StopList _) => strs | _ => [] end).
Proof.
  destruct req as [r|r]; simpl; unfold req_stop, requested_stops; simpl.
  - destruct (c_stop r) as [[s|l]|]; simpl; by rewrite ?app_nil_r, <-?app_assoc.
  - destruct (r_stop r) as [[s|l]|]; simpl; by rewrite ?app_nil_r, <-?app_assoc.
Qed.

(** ** Prompts *)

Section prompt_facts.
Context {Img : Type}.
Implicit Types (p : pyprompt Img).


Lemma as_ints_fmap (zs : list Z) : as_ints (PrInt <$> zs : list (pyprompt Img)) = Some zs.
Proof. induction zs as [|z zs IH]; [done|]. rewrite fmap_cons. simpl. by rewrite IH. Qed.

Lemma as_ints_Some (l : list (pyprompt Img)) zs : as_ints l = Some zs ↔ l = PrInt <$> zs.
Proof.
  split; [|intros ->; apply as_ints_fmap].
  revert zs. induction l as [|[s|z|l'|im] l IH]; intros zs; simpl; try done.
  - by intros [= <-].
  - destruct (as_ints l) as [zs'|]; [|done]. intros [= <-]. rewrite fmap_cons. f_equal. by apply IH.
Qed.

(** What one prompt is processed to. *)
Inductive processed (tok : string → list Z) : pyprompt Img → prompt_data Img → Prop :=
  | processed_str s : processed tok (PrStr s) (Tokens (tok s))
  | processed_tokens zs : processed tok (PrList (PrInt <$> zs)) (Tokens zs)
  | processed_image im : processed tok (PrImage im) (ImagePrompt im).

Lemma process_prompt_Ok tok p d : process_prompt tok p = Ok d ↔ processed tok p d.
Proof.
  split.
  - destruct p as [s|z|l|im]; simpl; intros H; ok_inv; [constructor|done| |constructor].
    destruct (as_ints l) eqn:E; ok_inv; [|done]. apply as_ints_Some in E as ->. constructor.
  - destruct 1 as [s|zs|im]; simpl; [done| |done].
    by rewrite as_ints_fmap.
Qed.

Lemma process_prompts_mapped tok (x : pyprompt Img) l ds :
  (∀ z, x ≠ PrInt z) →
  process_prompts tok (PrList (x :: l)) = Ok ds ↔ Forall2 (processed tok) (x :: l) ds.
Proof.
  intros Hx.
  assert (process_prompts tok (PrList (x :: l)) = map_m (process_prompt tok) (x :: l)) as ->.
  { destruct x; try done. by destruct (Hx z). }
  rewrite map_m_Ok. split; intros H; (eapply Forall2_impl; [exact H|]); intros; by apply process_prompt_Ok.
Qed.

Lemma process_prompts_tokens tok z (l : list (pyprompt Img)) ds :
  process_prompts tok (PrList (PrInt z :: l)) = Ok ds ↔
  ∃ zs, PrInt z :: l = PrInt <$> zs ∧ ds = [Tokens zs].
Proof.
  change (process_prompts tok (PrList (PrInt z :: l))) with
    (match as_ints (PrInt z :: l) with Some zs => Ok [Tokens zs]
     | None => invalid_prompt end : result (list (prompt_data Img))).
  destruct (as_ints (PrInt z :: l)) as [zs|] eqn:E.
  - apply as_ints_Some in E. rewrite E. split; [intros [= <-]; by exists zs|].
    intros (zs' & H%(f_equal as_ints) & ->). rewrite !as_ints_fmap in H. by simplify_eq.
  - split; [done|]. intros (zs' & H & _). rewrite H, as_ints_fmap in E. done.
Qed.

Lemma processed_not_int tok z (l : list (pyprompt Img)) ds : ¬ Forall2 (processed tok) (PrInt z :: l) ds.
Proof. inversion 1 as [|??? ? Hx]; subst. inversion Hx. Qed.

(** [process_prompts] accepts a string, a non-empty list of token ids,
    or a non-empty list of strings, token lists and images, and returns the
    prompts in order: strings tokenized, tokens and images unchanged. *)
Theorem process_prompts_spec tok p ds :
  process_prompts tok p = Ok ds ↔
  (∃ s, p = PrStr s ∧ ds = [Tokens (tok s)]) ∨
  (∃ zs, zs ≠ [] ∧ p = PrList (PrInt <$> zs) ∧ ds = [Tokens zs]) ∨
  (∃ l, p = PrList l ∧ l ≠ [] ∧ Forall2 (processed tok) l ds).
Proof.
  destruct p as [s|z|[|x l]|im].
  - simpl. split; [intros [= <-]; left; by exists s|].
    by intros [(? & [= ->] & ->)|[(? & _ & [=] & _)|(? & [=] & _)]].
  - simpl. split; [done|]. by intros [(? & [=] & _)|[(? & _ & [=] & _)|(? & [=] & _)]].
  - simpl. split; [done|].
    by intros [(? & [=] & _)|[([] & ? & [=] & _)|(? & [= <-] & ? & _)]].
  - destruct (match x with PrInt z => Some z | _ => None end) as [z|] eqn:Ex.
    + destruct x as [|z'| |]; [done| |done..]. injection Ex as ->.
      rewrite process_prompts_tokens. split.
      * intros (zs & E & ->). right. left. exists zs. rewrite E. split; [by destruct zs|done].
      * intros [(? & [=] & _)|[(zs & ? & [= E] & ->)|(l' & [= <-] & _ & H)]]; [by exists zs|].
        by apply processed_not_int in H.
    + rewrite process_prompts_mapped by (intros z ->; done). split.
      * intros H. right. right. by exists (x :: l).
      * intros [(? & [=] & _)|[([|z zs] & ? & [= -> ->] & _)|(? & [= <-] & ? & ?)]]; done.
  - simpl. split; [done|]. by intros [(? & [=] & _)|[(? & _ & [=] & _)|(? & [=] & _)]].
Qed.

Lemma foldl_sum_acc (f : prompt_data Img → nat) l acc :
  foldl (λ acc x, (acc + Z.of_nat (f x))%Z) acc l = (acc + Z.of_nat (sum_list (f <$> l)))%Z.
Proof. revert acc. induction l as [|x l IH]; intros acc; [simpl; lia|]. cbn [foldl]. rewrite IH, fmap_cons. simpl. lia. Qed.

(** The prompt length check returns the total number of tokens and
    image embeddings, and fails with [BadRequestError] exactly when it is
    larger than the limit. *)
Theorem check_prompts_length_spec embed_size (prompts : list (prompt_data Img)) limit :
  let total := Z.of_nat (sum_list (prompt_len embed_size <$> prompts)) in
  match check_and_get_prompts_length embed_size prompts limit with
  | Ok n => n = total ∧ (total ≤ limit)%Z
  | Err e => exn_cls e = BadRequestError ∧ (limit < total)%Z
  end.
Proof.
  simpl. unfold check_and_get_prompts_length. rewrite foldl_sum_acc.
  destruct (limit <? _)%Z eqn:E; bool_inv; simpl; split; try done; lia.
Qed.

(** The engine input of a processed prompt. *)
Definition prompt_input (p : prompt_data Img) : Data Img :=
  match p with Tokens l => TokenData l | ImagePrompt im => ImageData im end.

Lemma convert_prompt_arg (p : prompt_data Img) :
  p ≠ Tokens [] → convert_prompts_to_data (prompt_arg p) = Ok [prompt_input p].
Proof.
  destruct p as [[|z l]|im]; [done| |done]. intros _.
  change (convert_prompts_to_data (prompt_arg (Tokens (z :: l)))) with
    (match as_ints (PrInt <$> (z :: l) : list (pyprompt Img)) with Some zs => Ok [TokenData zs]
     | None => raise AssertionError "isinstance(token_id, int)" end : result (list (Data Img))).
  by rewrite as_ints_fmap.
Qed.

Definition nonempty_prompt (p : prompt_data Img) : bool :=
  match p with Tokens [] => false | _ => true end.

Lemma convert_each (ps : list (prompt_data Img)) :
  map_m (λ x, d ← convert_prompts_to_data x; py_index d 0) (prompt_arg <$> ps) =
    if forallb nonempty_prompt ps then Ok (prompt_input <$> ps)
    else raise IndexError "list index out of range".
Proof.
  induction ps as [|p ps IH]; [done|]. rewrite !fmap_cons. cbn [map_m forallb].
  destruct (nonempty_prompt p) eqn:Hp; [|by destruct p as [[]|]].
  rewrite convert_prompt_arg by (by intros ->). cbn [mbind result_bind]. simpl py_index.
  cbn [mbind result_bind]. rewrite IH. simpl. by destruct (forallb nonempty_prompt ps).
Qed.

(** Processed prompts without an empty token list become engine inputs
    one for one, in order; an empty list of prompts or an empty token list
    fails with [IndexError]. *)
Theorem convert_processed_prompts (ps : list (prompt_data Img)) :
  convert_prompts_to_data (PrList (prompt_arg <$> ps)) =
    if bool_decide (ps ≠ []) && forallb nonempty_prompt ps then Ok (prompt_input <$> ps)
    else raise IndexError "list index out of range".
Proof.
  destruct ps as [|p ps]; [done|].
  assert (convert_prompts_to_data (PrList (prompt_arg <$> (p :: ps))) =
    map_m (λ x, d ← convert_prompts_to_data x; py_index d 0) (prompt_arg <$> (p :: ps))) as ->
    by (by destruct p).
  apply convert_each.
Qed.
End prompt_facts.

(** ** The clean-up scope and the embedding helpers *)

(** [ErrorCleanupScope] runs the clean-up exactly when the body raises:
    a body that returns is unchanged, and after an exception the state is the
    one the clean-up leaves and the exception goes on. *)
Theorem error_cleanup_scope_spec {S A} (cleanup : stM S unit) (body : stM S A) s :
  match body s with
  | (s1, Ok a) => error_cleanup_scope cleanup body s = (s1, Ok a)
  | (s1, Err e) => ∀ s2, cleanup s1 = (s2, Ok tt) →
      error_cleanup_scope cleanup body s = (s2, Err e)
  end.
Proof.
  unfold error_cleanup_scope. destruct (body s) as [s1 [a|e]]; [done|].
  intros s2 Hc. by rewrite Hc.
Qed.

(** Parameters come back in metadata order, one for each name. *)
Lemma load_embedding_params_ok {T} (params : gmap string T) size names ts :
  load_embedding_params params size names = Ok ts →
  length names = size ∧ Forall2 (λ n t, params !! n = Some t) names ts.
Proof.
  unfold load_embedding_params. intros H. ok_inv. bool_inv. split; [done|].
  apply map_m_Ok in H. eapply Forall2_impl; [exact H|].
  intros n t. simpl. destruct (params !! n); [by intros [= ->]|done].
Qed.
