(* ===== verification/StreamBase.v ===== *)
(** Streaming of engine outputs: the request output of
    [python/mlc_llm/serve/data.py], and [CallbackStreamOutput],
    [AsyncRequestStream] and [EngineState] of [serve/engine_base.py].

    Stream objects are shared between the callback, which pushes, and the
    request's generator, which consumes: they live in a store and are referred
    to by location. Detokenizers are an interface. *)

From stdpp Require Import base gmap strings list.
From S2P Require Import Prelude PyString.

(** ** The detokenizer interface *)

(** [TextStreamer] (C++ code behind an FFI): [put] and [finish] update the
    streamer and return the text that became available. The law states what
    streaming detokenization promises: whatever way the tokens are cut into
    non-empty chunks, the texts add up to the decoding of all tokens. *)
Class TextStreamer (T : Type) := {
  ts_new : T;
  ts_put : list Z → T → T * string;
  ts_finish : T → T * string;
  ts_decode : list Z → string;
}.

(** The texts of successive [put]s, and the streamer they leave. *)
Fixpoint ts_puts `{TextStreamer T} (chunks : list (list Z)) (t : T) : T * list string :=
  match chunks with
  | [] => (t, [])
  | c :: chunks =>
      let '(t, s) := ts_put c t in
      let '(t, ss) := ts_puts chunks t in (t, s :: ss)
  end.

Class TextStreamerLaws (T : Type) `{TextStreamer T} := {
  ts_law : ∀ chunks : list (list Z),
    let '(t, ss) := ts_puts chunks ts_new in
    concat_str ss +:+ (ts_finish t).2 = ts_decode (mjoin chunks);
}.

(** ** Engine outputs *)

Record SingleRequestStreamOutput := {
  delta_token_ids : list Z;
  so_logprob_json_strs : option (list string);
  so_finish_reason : option string;
  so_final_usage_json_str : option string;
  extra_prefix_string : string;
}.

(** The six fields [RequestStreamOutputUnpack] returns. *)
Record RequestStreamOutput := {
  f_request_id : string;
  f_delta_token_ids : list (list Z);
  f_logprob_json_strs : option (list (list string));
  f_finish_reasons : list (option string);
  f_final_usage_json_str : option string;
  f_extra_prefix_strings : list string;
}.

(** [zip(fields[1], fields[3], fields[5])]. *)
Definition zip3 {A B C} (la : list A) (lb : list B) (lc : list C) : list (A * B * C) :=
  zip (zip la lb) lc.

(** [RequestStreamOutput.unpack]. *)
Definition unpack (o : RequestStreamOutput) :
    result (string * list SingleRequestStreamOutput) :=
  match f_final_usage_json_str o with
  | Some u => Ok (f_request_id o, [Build_SingleRequestStreamOutput [] None None (Some u) ""])
  | None =>
      outs ← map_m (λ '(i, (ids, fr, prefix)),
        lps ← match f_logprob_json_strs o with
              | None => Ok None
              | Some l => ls ← py_index l i; Ok (Some ls)
              end;
        Ok (Build_SingleRequestStreamOutput ids lps fr None prefix))
        (enumerate (zip3 (f_delta_token_ids o) (f_finish_reasons o) (f_extra_prefix_strings o)));
      Ok (f_request_id o, outs)
  end.

Record CallbackStreamOutput := {
  delta_text : string;
  delta_logprob_json_strs : option (list string);
  finish_reason : option string;
  request_final_usage_json_str : option string;
}.

(** The chunk that carries the usage. *)
Definition usage_output (u : option string) : CallbackStreamOutput :=
  Build_CallbackStreamOutput "" None None u.

(** ** The asynchronous request stream *)

(** What the queue holds: outputs, an exception, or [StopIteration]. *)
Inductive queue_item :=
  | QOutputs (l : list CallbackStreamOutput)
  | QExn (e : exn)
  | QStop.

Record AsyncRequestStream := mkStream { sq_queue : list queue_item; sq_finished : bool }.

Definition new_stream : AsyncRequestStream := mkStream [] false.

Definition already_finished : exn :=
  Exn RuntimeError "The request has already finished. The stream is not supposed to accept new items.".

Definition stream_push (item : queue_item) (st : AsyncRequestStream) : AsyncRequestStream :=
  if sq_finished st
  then mkStream (sq_queue st ++ [QExn already_finished]) (sq_finished st)
  else mkStream (sq_queue st ++ [item]) (sq_finished st).

Definition stream_finish (st : AsyncRequestStream) : AsyncRequestStream :=
  mkStream (sq_queue st ++ [QStop]) true.

(** What [__anext__] does with the item it gets. *)
Inductive anext_result :=
  | AValue (l : list CallbackStreamOutput)
  | ARaise (e : exn)
  | AStop.

Definition anext_of (q : queue_item) : anext_result :=
  match q with
  | QStop => AStop
  | QExn e => ARaise e
  | QOutputs l => AValue l
  end.

(** [__anext__]; [None] when the queue is empty and the consumer waits. *)
Definition stream_anext (st : AsyncRequestStream) : option (AsyncRequestStream * anext_result) :=
  match sq_queue st with
  | [] => None
  | q :: qs => Some (mkStream qs (sq_finished st), anext_of q)
  end.

(** ** The engine state *)

Section state.
Context {T : Type} `{TextStreamer T}.

Record EngineState := mkState {
  trace_recorder : option (list (string * string));
  (** the stream objects, by location *)
  streams : gmap nat AsyncRequestStream;
  async_streamers : gmap string (nat * list T);
  sync_output_queue : list (list RequestStreamOutput);
  sync_text_streamers : list T;
}.

Definition set_trace (t : option (list (string * string))) (s : EngineState) : EngineState :=
  mkState t (streams s) (async_streamers s) (sync_output_queue s) (sync_text_streamers s).
Definition set_streams (m : gmap nat AsyncRequestStream) (s : EngineState) : EngineState :=
  mkState (trace_recorder s) m (async_streamers s) (sync_output_queue s) (sync_text_streamers s).
Definition set_streamers (m : gmap string (nat * list T)) (s : EngineState) : EngineState :=
  mkState (trace_recorder s) (streams s) m (sync_output_queue s) (sync_text_streamers s).
Definition set_sync (q : list (list RequestStreamOutput)) (l : list T) (s : EngineState) : EngineState :=
  mkState (trace_recorder s) (streams s) (async_streamers s) q l.

(** [EngineState.record_event]. *)
Definition record_event (request_id event : string) : stM EngineState unit :=
  st_modify (λ s,
    match trace_recorder s with
    | None => s
    | Some t => set_trace (Some (t ++ [(request_id, event)])) s
    end).

(** The text of one output: the prefix string, the detokenized tokens, and
    the flushed rest when the generation finishes. *)
Definition detokenize (o : SingleRequestStreamOutput) (t : T) : T * string :=
  let '(t1, body) :=
    if decide (0 < length (delta_token_ids o)) then ts_put (delta_token_ids o) t else (t, "") in
  match so_finish_reason o with
  | None => (t1, extra_prefix_string o +:+ body)
  | Some _ => let '(t2, tail) := ts_finish t1 in
              (t2, (extra_prefix_string o +:+ body) +:+ tail)
  end.

(** The loop over the outputs of one request, zipped with its streamers. The
    streamers beyond the zip are untouched. *)
Fixpoint callback_outputs (request_id : string) (outs : list SingleRequestStreamOutput)
    (ts : list T) : stM EngineState (list T * list CallbackStreamOutput) :=
  match outs, ts with
  | o :: outs, t :: ts =>
      _ ← record_event request_id "start detokenization";
      let '(t', text) := detokenize o t in
      _ ← record_event request_id "finish detokenization";
      rest ← callback_outputs request_id outs ts;
      mret (t' :: rest.1,
            Build_CallbackStreamOutput text (so_logprob_json_strs o) (so_finish_reason o) None
            :: rest.2)
  | _, _ => mret (ts, [])
  end.

(** The body of the loop of [_async_request_stream_callback_impl]. *)
Definition async_callback_one (d : RequestStreamOutput) : stM EngineState unit :=
  '(request_id, stream_outputs) ← st_lift (unpack d);
  s ← st_get;
  match async_streamers s !! request_id with
  | None => mret tt
  | Some (loc, text_streamers) =>
      _ ← record_event request_id "start callback";
      first ← st_lift (py_index stream_outputs 0);
      match so_final_usage_json_str first with
      | Some u =>
          st_modify (λ s,
            set_streamers (delete request_id (async_streamers s))
              (set_streams (alter (stream_finish ∘ stream_push (QOutputs [usage_output (Some u)]))
                              loc (streams s)) s))
      | None =>
          '(ts', outputs) ← callback_outputs request_id stream_outputs text_streamers;
          _ ← st_modify (λ s,
                set_streamers (<[request_id := (loc, ts')]> (async_streamers s))
                  (set_streams (alter (stream_push (QOutputs outputs)) loc (streams s)) s));
          record_event request_id "finish callback"
      end
  end.

Definition _async_request_stream_callback_impl (ds : list RequestStreamOutput) :
    stM EngineState unit := st_iter async_callback_one ds.

(** [_sync_request_stream_callback]. *)
Definition _sync_request_stream_callback (ds : list RequestStreamOutput) :
    stM EngineState unit :=
  st_modify (λ s, set_sync (sync_output_queue s ++ [ds]) (sync_text_streamers s) s).

(** [MLCEngine._request_stream_callback_impl] ([serve/engine.py]): the
    batches before the first final chunk, and its usage. *)
Fixpoint sync_callback (ds : list RequestStreamOutput) (acc : list (list CallbackStreamOutput)) :
    stM EngineState (list (list CallbackStreamOutput) * option string) :=
  match ds with
  | [] => mret (acc, None)
  | d :: ds =>
      '(request_id, stream_outputs) ← st_lift (unpack d);
      _ ← record_event request_id "start callback";
      first ← st_lift (py_index stream_outputs 0);
      match so_final_usage_json_str first with
      | Some u => mret (acc, Some u)
      | None =>
          s ← st_get;
          '(ts', outputs) ← callback_outputs request_id stream_outputs (sync_text_streamers s);
          _ ← st_modify (λ s, set_sync (sync_output_queue s) ts' s);
          _ ← record_event request_id "finish callback";
          sync_callback ds (acc ++ [outputs])
      end
  end.
Definition _request_stream_callback_impl (ds : list RequestStreamOutput) :
    stM EngineState (list (list CallbackStreamOutput) * option string) := sync_callback ds [].
End state.
Arguments EngineState T : clear implicits.

(** ** The stream is a FIFO that ends at [finish] *)

Inductive stream_op :=
  | OpPush (item : queue_item)
  | OpFinish
  | OpNext.

(** One operation, and what the consumer got. *)
Definition stream_step (st : AsyncRequestStream) (op : stream_op) :
    AsyncRequestStream * list anext_result :=
  match op with
  | OpPush item => (stream_push item st, [])
  | OpFinish => (stream_finish st, [])
  | OpNext => match stream_anext st with
              | None => (st, [])
              | Some (st', r) => (st', [r])
              end
  end.

Fixpoint stream_run (st : AsyncRequestStream) (ops : list stream_op) :
    AsyncRequestStream * list anext_result :=
  match ops with
  | [] => (st, [])
  | op :: ops =>
      let '(st1, r1) := stream_step st op in
      let '(st2, r2) := stream_run st1 ops in (st2, r1 ++ r2)
  end.

(** The pushes of an operation sequence that come before the first finish. *)
Fixpoint pushed_before_finish (ops : list stream_op) : list queue_item :=
  match ops with
  | [] => []
  | OpPush item :: ops => item :: pushed_before_finish ops
  | OpFinish :: _ => []
  | OpNext :: ops => pushed_before_finish ops
  end.

Fixpoint has_finish (ops : list stream_op) : bool :=
  match ops with
  | [] => false
  | OpFinish :: _ => true
  | _ :: ops => has_finish ops
  end.

Lemma stream_run_invariant ops st :
  let '(st', got) := stream_run st ops in
  ∃ late, got ++ (anext_of <$> sq_queue st') =
    (anext_of <$> sq_queue st) ++
    (if sq_finished st then late
     else (anext_of <$> pushed_before_finish ops) ++
          (if has_finish ops then AStop :: late else [])) .
Proof.
  revert st. induction ops as [|op ops IH]; intros st.
  - exists []. destruct (sq_finished st); simpl; by rewrite ?app_nil_r.
  - cbn [stream_run]. destruct (stream_step st op) as [st1 r1] eqn:E.
    specialize (IH st1). destruct (stream_run st1 ops) as [st2 r2].
    destruct IH as [late IH]. rewrite <-app_assoc, IH. clear IH.
    destruct op as [item| |]; simpl in E.
    + injection E as <- <-. unfold stream_push. destruct (sq_finished st); simpl.
      * exists (ARaise already_finished :: late). by rewrite fmap_app, <-app_assoc.
      * exists late. by rewrite fmap_app, <-app_assoc.
    + injection E as <- <-. simpl. rewrite fmap_app, <-app_assoc.
      destruct (sq_finished st); [by exists (AStop :: late)|by exists late].
    + unfold stream_anext in E. destruct (sq_queue st) as [|q qs] eqn:Eq;
        injection E as <- <-; exists late; simpl; by rewrite ?Eq.
Qed.

(** Whatever the interleaving of pushes, finishes and reads on a new
    stream, the consumer reads the items pushed before the first finish, each
    once and in order, and then the end of the stream: what it has read and
    what is still queued make up exactly that sequence, followed after the end
    by whatever was pushed too late. *)
Theorem stream_fifo ops :
  let '(st, got) := stream_run new_stream ops in
  ∃ late, got ++ (anext_of <$> sq_queue st) =
    (anext_of <$> pushed_before_finish ops) ++ (if has_finish ops then AStop :: late else []).
Proof. exact (stream_run_invariant ops new_stream). Qed.

(** ** Detokenization *)

Section detok.
Context {T : Type} `{TextStreamer T}.

Lemma ts_puts_app c1 c2 t :
  ts_puts (c1 ++ c2) t =
    let '(t1, s1) := ts_puts c1 t in
    let '(t2, s2) := ts_puts c2 t1 in (t2, s1 ++ s2).
Proof.
  revert t. induction c1 as [|c c1 IH]; intros t; simpl; [by destruct (ts_puts c2 t)|].
  destruct (ts_put c t) as [t1 s]. rewrite IH. destruct (ts_puts c1 t1) as [t2 s2].
  by destruct (ts_puts c2 t2).
Qed.

(** The loops without the trace. *)
Fixpoint outputs_pure (outs : list SingleRequestStreamOutput) (ts : list T) :
    list T * list CallbackStreamOutput :=
  match outs, ts with
  | o :: outs, t :: ts =>
      let '(t', text) := detokenize o t in
      let '(ts', rest) := outputs_pure outs ts in
      (t' :: ts',
       Build_CallbackStreamOutput text (so_logprob_json_strs o) (so_finish_reason o) None :: rest)
  | _, _ => (ts, [])
  end.

Fixpoint batches_pure (bs : list (list SingleRequestStreamOutput)) (ts : list T) :
    list T * list (list CallbackStreamOutput) :=
  match bs with
  | [] => (ts, [])
  | b :: bs =>
      let '(ts1, outs) := outputs_pure b ts in
      let '(ts2, rest) := batches_pure bs ts1 in (ts2, outs :: rest)
  end.

(** One generation on its own. *)
Fixpoint detok_run (os : list SingleRequestStreamOutput) (t : T) : T * list string :=
  match os with
  | [] => (t, [])
  | o :: os =>
      let '(t1, s) := detokenize o t in
      let '(t2, ss) := detok_run os t1 in (t2, s :: ss)
  end.

(** Two states that differ in their traces only. *)
Definition same_but_trace (s s' : EngineState T) : Prop :=
  ∃ t, s' = set_trace t s.

#[export] Instance same_but_trace_preorder : PreOrder same_but_trace.
Proof.
  split.
  - intros s. exists (trace_recorder s). by destruct s.
  - intros s1 s2 s3 [t ->] [t' ->]. by exists t'.
Qed.

Lemma record_event_same id ev s :
  ∃ s', record_event id ev s = (s', Ok tt) ∧ same_but_trace s s'.
Proof.
  unfold record_event, st_modify. eexists; split; [done|].
  destruct (trace_recorder s) eqn:E; [by eexists|]. reflexivity.
Qed.

Lemma callback_outputs_pure id outs ts s :
  ∃ s', callback_outputs id outs ts s = (s', Ok (outputs_pure outs ts)) ∧ same_but_trace s s'.
Proof.
  revert ts s. induction outs as [|o outs IH]; intros ts s; [by exists s|].
  destruct ts as [|t ts]; [by exists s|]. cbn [callback_outputs outputs_pure].
  unfold mbind, stM_bind.
  destruct (record_event_same id "start detokenization" s) as (s1 & -> & H1).
  destruct (detokenize o t) as [t' text].
  destruct (record_event_same id "finish detokenization" s1) as (s2 & -> & H2).
  destruct (IH ts s2) as (s3 & -> & H3). destruct (outputs_pure outs ts) as [ts' rest].
  exists s3. split; [done|]. by etrans; [|etrans].
Qed.

Lemma outputs_pure_length outs ts : length (outputs_pure outs ts).1 = length ts.
Proof.
  revert ts. induction outs as [|o outs IH]; intros [|t ts]; simpl; try done.
  destruct (detokenize o t). specialize (IH ts).
  destruct (outputs_pure outs ts). simpl in *. by f_equal.
Qed.

Lemma outputs_pure_lookup outs ts i o t :
  outs !! i = Some o → ts !! i = Some t →
  (outputs_pure outs ts).1 !! i = Some (detokenize o t).1 ∧
  (outputs_pure outs ts).2 !! i =
    Some (Build_CallbackStreamOutput (detokenize o t).2 (so_logprob_json_strs o)
            (so_finish_reason o) None).
Proof.
  revert ts i. induction outs as [|o' outs IH]; intros [|t' ts] i; try done.
  cbn [outputs_pure]. destruct i as [|i]; simpl.
  - intros [= ->] [= ->]. destruct (detokenize o t), (outputs_pure outs ts). done.
  - intros Ho Ht. destruct (IH ts i Ho Ht) as [H1 H2].
    destruct (detokenize o' t'), (outputs_pure outs ts). done.
Qed.

(** The outputs of generation [i] across the batches. *)
Definition column {A} (i : nat) (bs : list (list A)) : list A := omap (λ b, b !! i) bs.

Lemma batches_pure_column bs ts i t :
  Forall (λ b, length b = length ts) bs → ts !! i = Some t →
  delta_text <$> column i (batches_pure bs ts).2 = (detok_run (column i bs) t).2.
Proof.
  revert ts t. induction bs as [|b bs IH]; intros ts t Hlen Ht; [done|].
  inversion Hlen as [|?? Hb Hbs]; subst.
  destruct (lookup_lt_is_Some_2 b i) as [o Ho].
  { rewrite Hb. by eapply lookup_lt_Some. }
  destruct (outputs_pure_lookup b ts i o t Ho Ht) as [H1 H2].
  pose proof (outputs_pure_length b ts) as Hl.
  cbn [batches_pure]. unfold column in *. cbn [omap list_omap]. rewrite Ho.
  destruct (outputs_pure b ts) as [ts1 outs]. simpl in H1, H2, Hl.
  specialize (IH ts1 (detokenize o t).1). destruct (batches_pure bs ts1) as [ts2 rest].
  simpl. rewrite H2. simpl in IH. cbn [detok_run].
  destruct (detokenize o t) as [t1 s]. simpl in IH.
  simpl. destruct (detok_run _ t1) as [t2 ss] eqn:E. simpl. f_equal.
  apply IH; [by rewrite Hl|done].
Qed.

Lemma filter_nonempty_join (l : list (list Z)) :
  mjoin (filter (λ c, 0 < length c) l) = mjoin l.
Proof.
  induction l as [|c l IH]; [done|]. rewrite filter_cons.
  case_decide as Hc; simpl; [by rewrite IH|]. rewrite IH. destruct c; simpl in *; [done|lia].
Qed.

(** Outputs without a finish reason and without a prefix feed the streamer
    their non-empty token lists. *)
Lemma detok_run_puts os t :
  Forall (λ o, so_finish_reason o = None ∧ extra_prefix_string o = "") os →
  (detok_run os t).1 = (ts_puts (filter (λ c, 0 < length c) (delta_token_ids <$> os)) t).1 ∧
  concat_str (detok_run os t).2 =
    concat_str (ts_puts (filter (λ c, 0 < length c) (delta_token_ids <$> os)) t).2.
Proof.
  revert t. induction os as [|o os IH]; intros t Hos; [done|].
  inversion Hos as [|?? [Hf Hp] Hos']; subst. rewrite fmap_cons, filter_cons.
  cbn [detok_run]. unfold detokenize. rewrite Hf, Hp.
  case_decide as Hl.
  - cbn [ts_puts]. destruct (ts_put (delta_token_ids o) t) as [t1 s].
    specialize (IH t1 Hos'). destruct (detok_run os t1), (ts_puts _ t1).
    simpl fst in *. simpl snd in *. destruct IH as [-> IH]. split; [done|].
    rewrite !concat_str_cons. by rewrite IH.
  - specialize (IH t Hos'). destruct (detok_run os t), (ts_puts _ t).
    simpl fst in *. simpl snd in *. destruct IH as [-> IH]. split; [done|].
    by rewrite concat_str_cons.
Qed.

Lemma detok_run_app os1 os2 t :
  (detok_run (os1 ++ os2) t).2 =
    (detok_run os1 t).2 ++ (detok_run os2 (detok_run os1 t).1).2.
Proof.
  revert t. induction os1 as [|o os1 IH]; intros t; [done|]. cbn [detok_run app].
  destruct (detokenize o t) as [t1 s]. specialize (IH t1).
  destruct (detok_run (os1 ++ os2) t1), (detok_run os1 t1). simpl in *. by rewrite IH.
Qed.

(** The outputs of one generation: running, one that finishes, then nothing
    more. No prefix string is added. *)
Definition complete (os : list SingleRequestStreamOutput) : Prop :=
  ∃ os1 o os2, os = os1 ++ o :: os2 ∧
    Forall (λ o, so_finish_reason o = None) os1 ∧ is_Some (so_finish_reason o) ∧
    Forall (λ o, so_finish_reason o = None ∧ delta_token_ids o = []) os2 ∧
    Forall (λ o, extra_prefix_string o = "") os.

Lemma detok_run_idle os t :
  Forall (λ o, (so_finish_reason o = None ∧ delta_token_ids o = []) ∧ extra_prefix_string o = "") os →
  concat_str (detok_run os t).2 = "".
Proof.
  revert t. induction os as [|o os IH]; intros t Hos; [done|].
  inversion Hos as [|?? [[Hf Hd] Hp] Hos']; subst. cbn [detok_run]. unfold detokenize.
  rewrite Hf, Hd, Hp. simpl. specialize (IH t Hos').
  destruct (detok_run os t). simpl in *. by rewrite concat_str_cons, IH.
Qed.

(** The texts of a complete generation add up to the decoding of its
    tokens. *)
Lemma detok_complete `{!TextStreamerLaws T} os :
  complete os →
  concat_str (detok_run os ts_new).2 = ts_decode (T:=T) (mjoin (delta_token_ids <$> os)).
Proof.
  intros (os1 & o & os2 & -> & H1 & [r Hr] & H2 & Hp).
  apply Forall_app in Hp as [Hp1 Hp2]. inversion Hp2 as [|?? Hpo Hp3]; subst.
  assert (mjoin (delta_token_ids <$> (os1 ++ o :: os2)) =
    mjoin (filter (λ c, 0 < length c) (delta_token_ids <$> (os1 ++ [o])))) as ->.
  { rewrite filter_nonempty_join, !fmap_app, !join_app, fmap_cons. simpl. f_equal.
    rewrite app_nil_r. rewrite <-(app_nil_r (delta_token_ids o)) at 2. f_equal.
    clear -H2. induction H2 as [|o' os [_ Ho] _ IH]; [done|]. rewrite fmap_cons. simpl.
    by rewrite Ho, IH. }
  change (o :: os2) with ([o] ++ os2). rewrite app_assoc, detok_run_app, concat_str_app.
  rewrite (detok_run_idle os2), append_nil_r by (apply Forall_and; done).
  rewrite detok_run_app, concat_str_app.
  destruct (detok_run_puts os1 ts_new) as [Es Et]; [by apply Forall_and|].
  rewrite Es, Et. rewrite fmap_app, filter_app.
  pose proof (ts_law (filter (λ c, 0 < length c) (delta_token_ids <$> os1) ++
    filter (λ c, 0 < length c) (delta_token_ids <$> [o]))) as Hlaw.
  rewrite ts_puts_app in Hlaw.
  destruct (ts_puts _ ts_new) as [t1 ss1]. simpl fst in *. simpl snd in *.
  change (delta_token_ids <$> [o]) with [delta_token_ids o] in *.
  cbn [detok_run]. unfold detokenize. rewrite Hr, Hpo. rewrite filter_cons, filter_nil in *.
  case_decide as Hl; cbn [ts_puts] in Hlaw.
  - destruct (ts_put (delta_token_ids o) t1) as [t2 s]. rewrite <-Hlaw, concat_str_app.
    destruct (ts_finish t2) as [t3 tail]. simpl. by rewrite append_assoc.
  - rewrite <-Hlaw, app_nil_r. by destruct (ts_finish t1) as [t3 tail].
Qed.
End detok.

(** ** The callback *)

Section callback.
Context {T : Type} `{TextStreamer T}.
Implicit Types (s : EngineState T).

(** A chunk that is not the final one. *)
Definition normal_batch (b : list SingleRequestStreamOutput) : Prop :=
  ∃ o, b !! 0 = Some o ∧ so_final_usage_json_str o = None.

(** The state after a chunk of outputs. *)
Definition after_chunk (id : string) (loc : nat) (ts : list T)
    (outs : list CallbackStreamOutput) s : EngineState T :=
  set_streamers (<[id := (loc, ts)]> (async_streamers s))
    (set_streams (alter (stream_push (QOutputs outs)) loc (streams s)) s).

Lemma same_but_trace_after id loc ts outs s s' :
  same_but_trace s s' → same_but_trace (after_chunk id loc ts outs s) (after_chunk id loc ts outs s').
Proof. intros [t ->]. by exists t. Qed.

Lemma async_callback_chunk d id b s loc ts :
  unpack d = Ok (id, b) → normal_batch b → async_streamers s !! id = Some (loc, ts) →
  ∃ s', async_callback_one d s = (s', Ok tt) ∧
    same_but_trace (after_chunk id loc (outputs_pure b ts).1 (outputs_pure b ts).2 s) s'.
Proof.
  intros Hd (o & Ho & Hf) Hs. unfold async_callback_one, mbind, stM_bind, st_lift, st_get.
  rewrite Hd, Hs. destruct (record_event_same id "start callback" s) as (s1 & -> & H1).
  unfold py_index. rewrite Ho, Hf.
  destruct (callback_outputs_pure id b ts s1) as (s2 & -> & H2).
  destruct (outputs_pure b ts) as [ts' outs]. unfold st_modify at 1.
  destruct (record_event_same id "finish callback" (after_chunk id loc ts' outs s2)) as (s3 & E & H3).
  exists s3. split; [exact E|]. etrans; [|exact H3]. apply same_but_trace_after. by etrans.
Qed.

Lemma async_callback_final d id o u s loc ts :
  unpack d = Ok (id, [o]) → so_final_usage_json_str o = Some u →
  async_streamers s !! id = Some (loc, ts) →
  ∃ s', async_callback_one d s = (s', Ok tt) ∧
    same_but_trace (set_streamers (delete id (async_streamers s))
      (set_streams (alter (stream_finish ∘ stream_push (QOutputs [usage_output (Some u)]))
                      loc (streams s)) s)) s'.
Proof.
  intros Hd Hf Hs. unfold async_callback_one, mbind, stM_bind, st_lift, st_get.
  rewrite Hd, Hs. destruct (record_event_same id "start callback" s) as (s1 & -> & [t ->]).
  unfold py_index. simpl. rewrite Hf. eexists; split; [done|]. by exists t.
Qed.

(** A chunk for a request id without streamers (never added, finished
    or aborted) is dropped: the whole state is unchanged. *)
Theorem async_callback_unknown d id outs s :
  unpack d = Ok (id, outs) → async_streamers s !! id = None →
  _async_request_stream_callback_impl [d] s = (s, Ok tt).
Proof.
  intros Hd Hs. unfold _async_request_stream_callback_impl. cbn [st_iter].
  unfold async_callback_one, mbind, stM_bind, st_lift, st_get, mret, stM_ret.
  by rewrite Hd, Hs.
Qed.

Lemma st_iter_cons {A} (f : A → stM (EngineState T) unit) x l s s1 :
  f x s = (s1, Ok tt) → st_iter f (x :: l) s = st_iter f l s1.
Proof. intros Hx. cbn [st_iter]. unfold mbind, stM_bind. by rewrite Hx. Qed.

(** The chunks of one request followed by its final chunk. *)
Lemma async_callback_request ds bs d o u id loc st ts s :
  Forall2 (λ d b, unpack d = Ok (id, b) ∧ normal_batch b) ds bs →
  unpack d = Ok (id, [o]) → so_final_usage_json_str o = Some u →
  async_streamers s !! id = Some (loc, ts) → streams s !! loc = Some st →
  sq_finished st = false →
  ∃ s', _async_request_stream_callback_impl (ds ++ [d]) s = (s', Ok tt) ∧
    streams s' !! loc = Some (mkStream
      (sq_queue st ++ (QOutputs <$> (batches_pure bs ts).2) ++
       [QOutputs [usage_output (Some u)]; QStop]) true) ∧
    async_streamers s' = delete id (async_streamers s) ∧
    ∀ loc', loc' ≠ loc → streams s' !! loc' = streams s !! loc'.
Proof.
  unfold _async_request_stream_callback_impl.
  intros Hds Hd Hu. revert s ts st. induction Hds as [|d' b ds bs [Hb Hn] _ IH];
    intros s ts st Hs Hst Hfin.
  - cbn [app]. destruct (async_callback_final d id o u s loc ts Hd Hu Hs) as (s' & E & [t ->]).
    rewrite (st_iter_cons _ _ _ _ _ E). eexists; split; [done|]. simpl. split_and!; [|done|].
    + rewrite lookup_alter_eq, Hst. simpl. unfold stream_finish, stream_push. rewrite Hfin. simpl.
      by rewrite <-app_assoc.
    + intros loc' Hne. by apply lookup_alter_ne.
  - destruct (async_callback_chunk d' id b s loc ts Hb Hn Hs) as (s1 & E & [t ->]).
    cbn [app]. rewrite (st_iter_cons _ _ _ _ _ E).
    destruct (IH (set_trace t (after_chunk id loc (outputs_pure b ts).1 (outputs_pure b ts).2 s))
      (outputs_pure b ts).1 (stream_push (QOutputs (outputs_pure b ts).2) st))
      as (s' & -> & H1 & H2 & H3).
    + simpl. by rewrite lookup_insert_eq.
    + simpl. by rewrite lookup_alter_eq, Hst.
    + unfold stream_push. by rewrite Hfin.
    + exists s'. split; [done|]. split_and!.
      * rewrite H1. unfold stream_push. rewrite Hfin. cbn [batches_pure sq_queue].
        destruct (outputs_pure b ts) as [ts1 outs]. simpl.
        destruct (batches_pure bs ts1) as [ts2 rest]. simpl. by rewrite <-app_assoc.
      * rewrite H2. simpl. by rewrite delete_insert_eq.
      * intros loc' Hne. rewrite H3 by done. simpl. by apply lookup_alter_ne.
Qed.

Context `{!TextStreamerLaws T}.

(** C31. Streaming is lossless. When the engine sends the chunks of a
    request and then its final chunk, the request's stream receives one item
    per chunk, the usage and the end of the stream; the request is removed
    and no other stream is touched; and for every generation the delta texts
    add up to the decoding of all its tokens. *)
Theorem async_stream_complete n ds bs d o u id loc s :
  Forall2 (λ d b, unpack d = Ok (id, b) ∧ normal_batch b) ds bs →
  Forall (λ b, length b = n) bs →
  unpack d = Ok (id, [o]) → so_final_usage_json_str o = Some u →
  async_streamers s !! id = Some (loc, replicate n ts_new) →
  streams s !! loc = Some new_stream →
  (∀ i, i < n → complete (column i bs)) →
  ∃ s' outs, _async_request_stream_callback_impl (ds ++ [d]) s = (s', Ok tt) ∧
    streams s' !! loc = Some (mkStream
      ((QOutputs <$> outs) ++ [QOutputs [usage_output (Some u)]; QStop]) true) ∧
    async_streamers s' = delete id (async_streamers s) ∧
    (∀ loc', loc' ≠ loc → streams s' !! loc' = streams s !! loc') ∧
    ∀ i, i < n → concat_str (delta_text <$> column i outs) =
      ts_decode (T:=T) (mjoin (delta_token_ids <$> column i bs)).
Proof.
  intros Hds Hlen Hd Hu Hs Hst Hc.
  destruct (async_callback_request ds bs d o u id loc new_stream _ s Hds Hd Hu Hs Hst eq_refl)
    as (s' & E & H1 & H2 & H3).
  exists s', (batches_pure bs (replicate n ts_new)).2. split_and!; [done|exact H1|done|done|].
  intros i Hi. rewrite (batches_pure_column bs (replicate n ts_new) i ts_new).
  - apply detok_complete. by apply Hc.
  - eapply Forall_impl; [exact Hlen|]. intros b ->. by rewrite length_replicate.
  - by apply lookup_replicate_2.
Qed.
End callback.

(** ** Witnesses *)

(** A streamer that keeps the tokens back until two of them are there. *)
Fixpoint toy_decode (l : list Z) : string :=
  match l with [] => "" | z :: l => (if (z =? 0)%Z then "a" else "b") +:+ toy_decode l end.

#[local] Instance toy_streamer : TextStreamer (list Z) := {|
  ts_new := [];
  ts_put := λ l t, if decide (length (t ++ l) < 2) then (t ++ l, "") else ([], toy_decode (t ++ l));
  ts_finish := λ t, ([], toy_decode t);
  ts_decode := toy_decode;
|}.

Lemma toy_decode_app l1 l2 : toy_decode (l1 ++ l2) = toy_decode l1 +:+ toy_decode l2.
Proof. induction l1 as [|z l1 IH]; [done|]. simpl. by rewrite IH, append_assoc. Qed.

#[local] Instance toy_streamer_laws : TextStreamerLaws (list Z).
Proof.
  constructor. intros chunks. change (ts_decode (mjoin chunks)) with (toy_decode ([] ++ mjoin chunks)).
  change ts_new with ([] : list Z). generalize ([] : list Z) as t.
  induction chunks as [|c chunks IH]; intros t; [simpl; by rewrite app_nil_r|].
  cbn [ts_puts ts_put toy_streamer]. case_decide.
  - specialize (IH (t ++ c)). destruct (ts_puts chunks (t ++ c)) as [t' ss].
    rewrite concat_str_cons. simpl in *. by rewrite IH, app_assoc.
  - specialize (IH []). destruct (ts_puts chunks []) as [t' ss].
    rewrite concat_str_cons, append_assoc, IH. simpl. by rewrite <-toy_decode_app, app_assoc.
Qed.

Definition toy_chunk (ids : list Z) (fr : option string) : RequestStreamOutput :=
  Build_RequestStreamOutput "req" [ids] None [fr] None [""].
Definition toy_final : RequestStreamOutput :=
  Build_RequestStreamOutput "req" [] None [] (Some "{}") [].
Definition toy_state : EngineState (list Z) :=
  mkState (Some []) {[0 := new_stream]} {["req" := (0, [[]])]} [] [].

Lemma async_callback_unknown_witness :
  _async_request_stream_callback_impl [Build_RequestStreamOutput "other" [[1%Z]] None [None] None [""]]
    toy_state = (toy_state, Ok tt).
Proof.
  apply (async_callback_unknown _ "other"
    [Build_SingleRequestStreamOutput [1%Z] None None None ""]); reflexivity.
Defined.

Definition toy_out (ids : list Z) (fr : option string) : SingleRequestStreamOutput :=
  Build_SingleRequestStreamOutput ids None fr None "".

Lemma async_stream_complete_witness :
  ∃ s' outs, _async_request_stream_callback_impl
      ([toy_chunk [0; 1]%Z None; toy_chunk [1%Z] (Some "stop")] ++ [toy_final]) toy_state = (s', Ok tt) ∧
    streams s' !! 0 = Some (mkStream
      ((QOutputs <$> outs) ++ [QOutputs [usage_output (Some "{}")]; QStop]) true) ∧
    async_streamers s' = delete "req" (async_streamers toy_state) ∧
    (∀ loc', loc' ≠ 0 → streams s' !! loc' = streams toy_state !! loc') ∧
    ∀ i, i < 1 → concat_str (delta_text <$> column i outs) =
      ts_decode (T:=list Z) (mjoin (delta_token_ids <$>
        column i [[toy_out [0; 1]%Z None]; [toy_out [1%Z] (Some "stop")]])).
Proof.
  apply (async_stream_complete (T:=list Z) 1 _
    [[toy_out [0; 1]%Z None]; [toy_out [1%Z] (Some "stop")]] toy_final
    (Build_SingleRequestStreamOutput [] None None (Some "{}") "")).
  - repeat constructor; eexists; by split.
  - repeat constructor.
  - reflexivity.
  - reflexivity.
  - reflexivity.
  - reflexivity.
  - intros i Hi. assert (i = 0) as -> by lia.
    exists [toy_out [0; 1]%Z None], (toy_out [1%Z] (Some "stop")), [].
    split; [reflexivity|]. repeat constructor; by eexists.
Defined.
