(* ===== verification/EngineBase.v ===== *)
(** The engine base: [python/mlc_llm/serve/engine_base.py] without the
    streaming classes (file [StreamBase]).

    Engine construction checks, metrics text, the processing of chat and
    completion requests, of their stream outputs, of function-call outputs, and
    the wrapping of the non-streaming responses. *)

From Stdlib Require Import QArith.
From stdpp Require Import base gmap strings list.
From S2P Require Import Prelude PyString Conversation OpenAIProtocol EngineUtils StreamBase.
Close Scope Q_scope.

(** ** Engine construction *)

Record ModelInfo := { mi_model : string; mi_model_lib : option string }.

Inductive EngineMode := mode_local | mode_interactive | mode_server.

#[export] Instance engine_mode_eq_dec : EqDecision EngineMode.
Proof. solve_decision. Defined.

(** An additional model: a path, or a pair of path and library. *)
Inductive AdditionalModel :=
  | AMPath (model : string)
  | AMPair (model lib : string).

(** The fields of [EngineConfig] the base engine reads or writes. *)
Record EngineConfig := {
  ec_model : option string;
  ec_model_lib : option string;
  ec_additional_models : list AdditionalModel;
  ec_mode : option EngineMode;
  ec_kv_cache_page_size : Z;
  ec_max_num_sequence : option Z;
  ec_max_total_sequence_length : option Z;
  ec_max_single_sequence_length : option Z;
  ec_prefill_chunk_size : option Z;
  ec_sliding_window_size : option Z;
  ec_attention_sink_size : option Z;
  ec_tensor_parallel_shards : option Z;
  ec_pipeline_parallel_stages : option Z;
  ec_opt : option string;
}.

(** [_check_engine_config]; [experimental] is the environment variable
    [MLC_ALLOW_EXPERIMENTAL_KV_CACHE_PAGE_SIZE] ([None] when unset). *)
Definition _check_engine_config (experimental : option string) (model : string)
    (model_lib : option string) (mode : EngineMode) (c : EngineConfig) : result unit :=
  _ ← raise_when (bool_decide (is_Some (ec_model c)) && negb (bool_decide (ec_model c = Some model)))
        ValueError "The argument model of engine constructor differs from engine_config.model";
  _ ← raise_when (bool_decide (is_Some (ec_model_lib c)) && bool_decide (is_Some model_lib)
                  && negb (bool_decide (ec_model_lib c = model_lib)))
        ValueError "The argument model_lib of engine constructor differs from engine_config.model_lib";
  _ ← raise_when (bool_decide (is_Some (ec_mode c)) && negb (bool_decide (ec_mode c = Some mode)))
        ValueError "The argument mode of engine constructor differs from engine_config.mode";
  let allow_experimental_page_size := negb (bool_decide (default "0" experimental = "0")) in
  raise_when (negb (ec_kv_cache_page_size c =? 16)%Z && negb allow_experimental_page_size)
    ValueError "KV cache only supports page size 16".

(** [_parse_models]. *)
Definition _parse_models (model : string) (model_lib : option string)
    (additional_models : list AdditionalModel) : list ModelInfo :=
  Build_ModelInfo model model_lib ::
  ((λ a, match a with
         | AMPath m => Build_ModelInfo m None
         | AMPair m l => Build_ModelInfo m (Some l)
         end) <$> additional_models).

Section process_model_args.
(** [download_cache.get_or_download_model], the loaded configuration's
    template, [Path.is_file], and [jit.jit] with the compile overrides. *)
Context (get_or_download_model : string → result string)
  (load_conv_template : string → result Conversation)
  (is_file : string → bool)
  (jit : string → list (string * option Z) → option string → result string).

(** The overrides handed to the JIT compiler. *)
Definition model_compile_overrides (c : EngineConfig) : list (string * option Z) :=
  [("context_window_size", ec_max_single_sequence_length c);
   ("prefill_chunk_size", ec_prefill_chunk_size c);
   ("sliding_window_size", ec_sliding_window_size c);
   ("attention_sink_size", ec_attention_sink_size c);
   ("tensor_parallel_shards", ec_tensor_parallel_shards c);
   ("pipeline_parallel_stages", ec_pipeline_parallel_stages c);
   ("max_batch_size", ec_max_num_sequence c)].

(** The library of a model: a mock, an existing file, or a JIT compilation. *)
Definition model_library (c : EngineConfig) (model : ModelInfo) (model_path : string) :
    result string :=
  match mi_model_lib model with
  | Some lib =>
      if startswith lib "mock://" then Ok lib
      else if is_file lib then Ok lib
      else raise FileNotFoundError "The `model_lib` you passed in is not a file: {model.model_lib}."
  | None => jit model_path (model_compile_overrides c) (ec_opt c)
  end.

(** The nested [_convert_model_info], on the captured variables
    ([conversation], [config_file_paths]). *)
Definition _convert_model_info (c : EngineConfig) (model : ModelInfo) :
    stM (option Conversation * list string) (string * string) :=
  model_path ← st_lift (get_or_download_model (mi_model model));
  let mlc_config_path := model_path +:+ "/mlc-chat-config.json" in
  _ ← st_modify (λ s, (s.1, s.2 ++ [mlc_config_path]));
  conv ← st_lift (load_conv_template mlc_config_path);
  _ ← st_modify (λ s, (match s.1 with None => Some conv | Some c => Some c end, s.2));
  lib ← st_lift (model_library c model model_path);
  mret (model_path, lib).

(** A list comprehension over a stateful element. *)
Fixpoint st_map {S A B} (f : A → stM S B) (l : list A) : stM S (list B) :=
  match l with
  | [] => mret []
  | x :: l => y ← f x; ys ← st_map f l; mret (y :: ys)
  end.

Definition _process_model_args (models : list ModelInfo) (c : EngineConfig) :
    result (list (string * string) * list string * Conversation) :=
  match st_map (_convert_model_info c) models (None, []) with
  | (_, Err e) => Err e
  | ((Some conv, paths), Ok args) => Ok (args, paths, conv)
  | ((None, _), Ok _) => raise AssertionError "conversation is not None"
  end.
End process_model_args.

(** [min(max_single_sequence_length, max_total_sequence_length)]. *)
Definition max_input_sequence_length (single total : Z) : Z := Z.min single total.

(** ** Metrics *)

Section metrics.
(** [f"{value}"] on a number. *)
Context (show_number : pyval → string).

Definition tab : string := String (Ascii.ascii_of_nat 9) "".
Definition nl : string := String newline "".

(** [isinstance(value, numbers.Number)]: booleans are numbers in Python. *)
Definition is_number (v : pyval) : bool :=
  match v with PInt _ | PFloat _ | PBool _ => true | _ => false end.

(** The nested [traverse]: the lines it appends. *)
Fixpoint traverse (comment_scope key_prefix : string) (v : pyval) : list string :=
  match v with
  | PDict d =>
      (if decide (comment_scope = "") then [] else [nl +:+ "# " +:+ comment_scope]) ++
      mjoin ((λ '(k, x), if is_number x then [key_prefix +:+ k +:+ tab +:+ show_number x] else []) <$> d) ++
      mjoin ((λ '(k, x),
        match x with
        | PDict (_ :: _) => traverse (comment_scope +:+ "/" +:+ k) (key_prefix +:+ k +:+ "_") x
        | _ => []
        end) <$> d)
  | _ => []
  end.

Definition metrics_header : list string :=
  ["# NOTE: these metrics count token in the unit of serving model's tokenization";
   "# be careful when comparing them to client-side metrics that may use";
   "# different tokenization to standardize across models." +:+ nl].

(** [EngineMetrics.prometheus_text]. *)
Definition prometheus_text (metrics : pyval) : string :=
  py_join nl (metrics_header ++ traverse "" "" metrics).
End metrics.

(** ** Responses *)

Record ChatChoice := {
  cc_index : nat;
  cc_finish_reason : option string;
  cc_message : ChatCompletionMessage;
  cc_logprobs : option (list LogProbsContent);
}.
(** [ChatCompletionResponse] and [ChatCompletionStreamResponse] (the time and
    the constant fields left out). *)
Record ChatResponse := {
  cr_id : string;
  cr_choices : list ChatChoice;
  cr_model : option string;
  cr_usage : option CompletionUsage;
}.

Record CompletionChoice := {
  pc_index : nat;
  pc_finish_reason : option string;
  pc_logprobs : option CompletionLogProbs;
  pc_text : string;
}.
Record CompletionResponse := {
  pr_id : string;
  pr_choices : list CompletionChoice;
  pr_model : option string;
  pr_usage : option CompletionUsage;
}.

(** The [Literal] type of a finish reason: other strings fail validation. *)
Definition check_literal (allowed : list string) (fr : option string) : result (option string) :=
  match fr with
  | None => Ok None
  | Some r => if decide (r ∈ allowed) then Ok fr
              else raise ValidationError "literal_error"
  end.
Definition chat_reasons : list string := ["stop"; "length"; "tool_calls"; "error"].
Definition completion_reasons : list string := ["stop"; "length"; "preempt"].

(** [ChatCompletionMessage(role="assistant", content=text)]. *)
Definition assistant_message (text : string) : ChatCompletionMessage :=
  Build_ChatCompletionMessage (CStr text) "assistant" None None None.
Definition tool_call_message (calls : list ChatToolCall) : ChatCompletionMessage :=
  Build_ChatCompletionMessage CNone "assistant" None (Some calls) None.

Definition mk_chat_choice (i : nat) (fr : option string) (m : ChatCompletionMessage)
    (lp : option (list LogProbsContent)) : result ChatChoice :=
  fr ← check_literal chat_reasons fr; Ok (Build_ChatChoice i fr m lp).
Definition mk_completion_choice (i : nat) (fr : option string) (text : string)
    (lp : option CompletionLogProbs) : result CompletionChoice :=
  fr ← check_literal completion_reasons fr; Ok (Build_CompletionChoice i fr lp text).

(** ** Processing requests and outputs *)

Section processing.
Context {T Img : Type} `{TextStreamer T}.
(** The image loader and [ImageData.__len__]; the dumps of the tool functions;
    pydantic's parsing of the JSON strings the engine sends. *)
Context (from_url : string → list (string * pyval) → result Img) (embed_size : Img → nat)
  (function_json : ChatFunction → string) (functions_json : list ChatFunction → string)
  (parse_logprob : string → result LogProbsContent)
  (parse_usage : string → result CompletionUsage).

(** The state of a request being processed: the engine state and the
    [finish_reasons] list it updates in place. *)
Abbreviation proc := (stM (EngineState T * list (option string))).

Definition on_engine {A} (m : stM (EngineState T) A) : proc A := λ s,
  let '(e, r) := m s.1 in ((e, s.2), r).

(** The loop that adds the request's messages to the template. *)
Fixpoint add_messages (ms : list ChatCompletionMessage) (conv : Conversation) :
    result Conversation :=
  match ms with
  | [] => Ok conv
  | m :: ms =>
      if decide (m_role m = "system") then
        match m_content m with
        | CStr s => add_messages ms (with_system_message s conv)
        | _ => raise AssertionError "isinstance(content, str)"
        end
      else add_messages ms (with_messages (messages conv ++ [(m_role m, m_content m)]) conv)
  end.

(** A rendered prompt as the argument of [process_prompts]. *)
Definition item_prompt (x : prompt_item Img) : pyprompt Img :=
  match x with PText s => PrStr s | PImage im => PrImage im end.

(** The system prefix tokens, in front of the first token list or as a prompt
    of their own before an image. *)
Definition add_system_prefix (prefix : option (list Z)) (ps : list (prompt_data Img)) :
    result (list (prompt_data Img)) :=
  match prefix with
  | None => Ok ps
  | Some ids =>
      match ps with
      | [] => raise IndexError "list index out of range"
      | Tokens l :: ps => Ok (Tokens (ids ++ l) :: ps)
      | ps => Ok (Tokens ids :: ps)
      end
  end.

(** [process_chat_completion_request]: the prompts, the generation config, the
    function calling flag, the prompt length, and the request as the call
    leaves it. The template is the caller's deep copy. *)
Definition process_chat_completion_request (request : ChatCompletionRequest)
    (request_id : string) (model_config : list (string * pyval))
    (f_tokenize : string → list Z) (max_input_sequence_length : Z) (conv : Conversation) :
    stM (EngineState T)
      (list (prompt_data Img) * GenerationConfig * bool * Z * RequestProtocol) :=
  _ ← record_event request_id "receive request";
  _ ← st_lift (check_unsupported_fields (ReqChat request));
  _ ← st_lift (check_message_validity request);
  conv ← st_lift (check_function_call_usage function_json functions_json request conv);
  conv ← st_lift (add_messages (r_messages request) conv);
  let conv := with_messages (messages conv ++ [("assistant", CNone)]) conv in
  _ ← record_event request_id "start tokenization";
  rendered ← st_lift (as_prompt from_url conv (Some model_config));
  prompts ← st_lift (process_prompts f_tokenize (PrList (item_prompt <$> rendered)));
  _ ← record_event request_id "finish tokenization";
  prompts ← st_lift (add_system_prefix (system_prefix_token_ids conv) prompts);
  prompt_length ← st_lift (check_and_get_prompts_length embed_size prompts max_input_sequence_length);
  let '(cfg, request') := get_generation_config (ReqChat request)
                            (Some (stop_token_ids conv)) (Some (stop_str conv)) in
  mret (prompts, cfg, use_function_calling conv, prompt_length, request').

(** The finish reason of generation [i] after an output: set once. *)
Definition update_finish_reason (reason : string → string) (i : nat) (d : CallbackStreamOutput) :
    proc (option string * bool) := λ s,
  match finish_reason d with
  | None => (s, r ← py_index s.2 i; Ok (r, false))
  | Some fr =>
      match py_index s.2 i with
      | Err e => (s, Err e)
      | Ok (Some old) => (s, Ok (Some old, false))
      | Ok None => ((s.1, <[i := Some (reason fr)]> s.2), Ok (Some (reason fr), true))
      end
  end.

Definition st_bind_result {A B} (r : result A) (f : A → proc B) : proc B := x ← st_lift r; f x.

Definition parse_logprobs (l : option (list string)) : result (option (list LogProbsContent)) :=
  match l with None => Ok None | Some l => ls ← map_m parse_logprob l; Ok (Some ls) end.

(** The loop over the delta outputs of a chat chunk. [finish_reasons[i]] is
    read only when a finish reason arrives or a choice is built. *)
Fixpoint chat_choices (request_id : string) (use_function_calling : bool) (i : nat)
    (ds : list CallbackStreamOutput) : proc (list ChatChoice) :=
  match ds with
  | [] => mret []
  | d :: ds =>
      if bool_decide (finish_reason d = None) && bool_decide (delta_text d = "") then
        _ ← on_engine (record_event request_id "skip empty delta text");
        chat_choices request_id use_function_calling (S i) ds
      else
        '(fr, updated) ← update_finish_reason
           (λ r, if use_function_calling then "tool_calls" else r) i d;
        if negb updated && bool_decide (delta_text d = "") then
          _ ← on_engine (record_event request_id "skip empty delta text");
          chat_choices request_id use_function_calling (S i) ds
        else
          lps ← st_lift (parse_logprobs (delta_logprob_json_strs d));
          c ← st_lift (mk_chat_choice i fr (assistant_message (delta_text d)) lps);
          cs ← chat_choices request_id use_function_calling (S i) ds;
          mret (c :: cs)
  end.

Definition process_chat_completion_stream_output (delta_outputs : list CallbackStreamOutput)
    (request : ChatCompletionRequest) (request_id : string) (use_function_calling : bool) :
    proc (option ChatResponse) :=
  first ← st_lift (py_index delta_outputs 0);
  match request_final_usage_json_str first with
  | Some u =>
      _ ← st_lift (py_assert (bool_decide (length delta_outputs = 1)) "len(delta_outputs) == 1");
      _ ← on_engine (record_event request_id "yield final usage");
      usage ← st_lift (parse_usage u);
      let response := Build_ChatResponse request_id [] (r_model request) (Some usage) in
      if negb (r_stream request) then mret (Some response)
      else if wants_usage (r_stream_options request) then mret (Some response)
      else mret None
  | None =>
      _ ← st_lift (py_assert (bool_decide (length delta_outputs = r_n request))
                     "len(delta_outputs) == request.n");
      choices ← chat_choices request_id use_function_calling 0 delta_outputs;
      match choices with
      | [] => mret None
      | _ =>
          _ ← on_engine (record_event request_id "yield delta output");
          mret (Some (Build_ChatResponse request_id choices (r_model request) None))
      end
  end.

(** A completion prompt as the argument of [process_prompts]. *)
Definition completion_arg (p : completion_prompt) : pyprompt Img :=
  match p with CPStr s => PrStr s | CPTokens l => PrList (PrInt <$> l) end.

(** [process_completion_request]. *)
Definition process_completion_request (request : CompletionRequest) (request_id : string)
    (encode : string → list Z) (decode : list Z → string) (max_input_sequence_length : Z)
    (conv : Conversation) :
    stM (EngineState T)
      (list Z * GenerationConfig * Z * option CompletionResponse * RequestProtocol) :=
  _ ← record_event request_id "receive request";
  _ ← st_lift (check_unsupported_fields (ReqCompletion request));
  _ ← record_event request_id "start tokenization";
  prompts ← st_lift (process_prompts encode (completion_arg (c_prompt request)));
  _ ← record_event request_id "finish tokenization";
  prompt_length ← st_lift (check_and_get_prompts_length embed_size prompts max_input_sequence_length);
  p0 ← st_lift (py_index prompts 0);
  match p0 with
  | ImagePrompt _ => st_lift (raise AssertionError "isinstance(prompt, list)")
  | Tokens prompt =>
      let '(cfg, request') := get_generation_config (ReqCompletion request)
                                (Some (stop_token_ids conv)) (Some (stop_str conv)) in
      let echo_response :=
        if c_echo request then
          Some (Build_CompletionResponse request_id
                  ((λ i, Build_CompletionChoice i None None (decode prompt)) <$> seq 0 (g_n cfg))
                  (c_model request) None)
        else None in
      mret (prompt, cfg, prompt_length, echo_response, request')
  end.

(** [get_logprobs_from_delta]; a repeated top token keeps the last value. *)
Definition get_logprobs_from_delta (l : list string) : result CompletionLogProbs :=
  cs ← map_m parse_logprob l;
  Ok (Build_CompletionLogProbs None (lp_logprob <$> cs) (lp_token <$> cs)
        ((λ c, foldl (λ acc t, dict_set (tlp_token t) (tlp_logprob t) acc) [] (lp_top_logprobs c))
           <$> cs)).

Definition completion_logprobs (l : option (list string)) : result (option CompletionLogProbs) :=
  match l with None => Ok None | Some l => x ← get_logprobs_from_delta l; Ok (Some x) end.

(** The loop over the delta outputs of a completion chunk. *)
Fixpoint completion_choices (i : nat) (ds : list CallbackStreamOutput) :
    proc (list CompletionChoice) :=
  match ds with
  | [] => mret []
  | d :: ds =>
      if bool_decide (finish_reason d = None) && bool_decide (delta_text d = "") then
        completion_choices (S i) ds
      else
        '(fr, updated) ← update_finish_reason (λ r, r) i d;
        if negb updated && bool_decide (delta_text d = "") then completion_choices (S i) ds
        else
          lps ← st_lift (completion_logprobs (delta_logprob_json_strs d));
          c ← st_lift (mk_completion_choice i fr (delta_text d) lps);
          cs ← completion_choices (S i) ds;
          mret (c :: cs)
  end.

Definition process_completion_stream_output (delta_outputs : list CallbackStreamOutput)
    (request : CompletionRequest) (request_id : string) : proc (option CompletionResponse) :=
  first ← st_lift (py_index delta_outputs 0);
  match request_final_usage_json_str first with
  | Some u =>
      _ ← st_lift (py_assert (bool_decide (length delta_outputs = 1)) "len(delta_outputs) == 1");
      _ ← on_engine (record_event request_id "yield final usage");
      usage ← st_lift (parse_usage u);
      let response := Build_CompletionResponse request_id [] (c_model request) (Some usage) in
      if negb (c_stream request) then mret (Some response)
      else if wants_usage (c_stream_options request) then mret (Some response)
      else mret None
  | None =>
      _ ← st_lift (py_assert (bool_decide (length delta_outputs = c_n request))
                     "len(delta_outputs) == request.n");
      choices ← completion_choices 0 delta_outputs;
      match choices with
      | [] => mret None
      | _ =>
          _ ← on_engine (record_event request_id "yield delta output");
          mret (Some (Build_CompletionResponse request_id choices (c_model request) None))
      end
  end.

(** [create_completion_suffix_response]. *)
Definition create_completion_suffix_response (request : CompletionRequest) (request_id : string)
    (finish_reasons : list (option string)) : result (option CompletionResponse) :=
  match c_suffix request with
  | None => Ok None
  | Some suffix =>
      _ ← py_assert (forallb (λ r, bool_decide (is_Some r)) finish_reasons)
            "all(finish_reason is not None for finish_reason in finish_reasons)";
      choices ← map_m (λ '(i, fr), mk_completion_choice i fr suffix None) (enumerate finish_reasons);
      Ok (Some (Build_CompletionResponse request_id choices (c_model request) None))
  end.
End processing.

(** ** Function calls *)

Section function_calls.
(** Python's [ast] module: an expression node, [ast.parse(s, mode="eval")],
    [ast.literal_eval] of a string and of a node; the random call ids. *)
Context {Node : Type}.

(** The body of a parsed expression: a call of a plain name with its keywords
    ([None] is a double-starred argument), or anything else. *)
Inductive call_ast :=
  | NameCall (func : string) (keywords : list (option string * Node))
  | OtherBody.

Context (ast_parse : string → result call_ast) (literal_eval : string → result pyval)
  (literal_eval_node : Node → result pyval) (new_call_id : nat → nat → string).

(** A function call as the dict [{"name": .., "arguments": ..}]. *)
Record function_dict := { fd_name : string; fd_arguments : list (option string * pyval) }.

(** [arguments[keyword.arg] = ..] on a dict whose keys may be [None]. *)
Fixpoint odict_set (k : option string) (v : pyval) (d : list (option string * pyval)) :
    list (option string * pyval) :=
  match d with
  | [] => [(k, v)]
  | (k', v') :: d => if decide (k = k') then (k, v) :: d else (k', v') :: odict_set k v d
  end.

(** The nested [parse_function_call]. *)
Definition parse_function_call (call_str : pyval) : result (option function_dict) :=
  match call_str with
  | PStr s =>
      body ← ast_parse s;
      match body with
      | NameCall name kws =>
          args ← fold_m (λ d '(k, n), v ← literal_eval_node n; Ok (odict_set k v d)) [] kws;
          Ok (Some {| fd_name := name; fd_arguments := args |})
      | OtherBody => Ok None
      end
  | _ => raise TypeError "compile() arg 1 must be a string, bytes or AST object"
  end.

Fixpoint last_char (s : string) : option Ascii.ascii :=
  match s with
  | EmptyString => None
  | String c EmptyString => Some c
  | String _ s => last_char s
  end.

Definition lbracket : Ascii.ascii := Ascii.ascii_of_nat 91.
Definition rbracket : Ascii.ascii := Ascii.ascii_of_nat 93.

(** [stringified_calls[0] == "[" and stringified_calls[-1] == "]"]. *)
Definition looks_like_list (s : string) : result bool :=
  match s with
  | EmptyString => raise IndexError "string index out of range"
  | String c _ => Ok (bool_decide (c = lbracket) && bool_decide (last_char s = Some rbracket))
  end.

Definition convert_function_str_to_json (stringified_calls : string) :
    result (list (option function_dict)) :=
  is_list ← looks_like_list stringified_calls;
  calls ← (if is_list : bool then
             v ← literal_eval stringified_calls;
             match v with
             | PList l => Ok l
             | _ => raise TypeError "object is not iterable"
             end
           else Ok [PStr stringified_calls]);
  map_m parse_function_call calls.

(** [ChatFunctionCall(name=.., arguments=..)]: the keys must be strings. *)
Definition tool_call (id : string) (d : function_dict) : result ChatToolCall :=
  args ← map_m (λ '(k, v), match k with
                           | Some k => Ok (k, v)
                           | None => raise ValidationError "Input should be a valid string"
                           end) (fd_arguments d);
  Ok (Build_ChatToolCall id (Build_ChatFunctionCall (fd_name d) (Some args))).

(** The lists [process_function_call_output] works on. *)
Record CallOutput := {
  co_texts : list string;
  co_reasons : list (option string);
  co_calls : list (list ChatToolCall);
}.

Definition invalid_call_text : string := "Got an invalid function call output from model".

Definition set_reason (i : nat) (r : string) : stM CallOutput unit := λ s,
  match py_setitem (co_reasons s) i (Some r) with
  | Ok l => (Build_CallOutput (co_texts s) l (co_calls s), Ok tt)
  | Err e => (s, Err e)
  end.
Definition set_text (i : nat) (t : string) : stM CallOutput unit := λ s,
  match py_setitem (co_texts s) i t with
  | Ok l => (Build_CallOutput l (co_reasons s) (co_calls s), Ok tt)
  | Err e => (s, Err e)
  end.
Definition set_calls (i : nat) (cs : list ChatToolCall) : stM CallOutput unit := λ s,
  match py_setitem (co_calls s) i cs with
  | Ok l => (Build_CallOutput (co_texts s) (co_reasons s) l, Ok tt)
  | Err e => (s, Err e)
  end.

(** One iteration. A parse failure assigns the error text to the loop variable
    only, so the output text stays what the model wrote. *)
Definition process_call_text (i : nat) (output_text : string) : stM CallOutput unit :=
  match convert_function_str_to_json output_text with
  | Err e =>
      if decide (exn_cls e ∈ [SyntaxError; ValueError]) then set_reason i "error"
      else st_lift (Err e)
  | Ok fn_json_list =>
      calls ← st_lift (map_m (λ '(j, d), tool_call (new_call_id i j) d)
                         (enumerate (omap id fn_json_list)));
      _ ← set_calls i calls;
      match calls with
      | [] => _ ← set_text i invalid_call_text; set_reason i "error"
      | _ => set_reason i "tool_calls"
      end
  end.

Definition process_function_call_output (output_texts : list string)
    (finish_reasons : list (option string)) : CallOutput * result bool :=
  let start := Build_CallOutput output_texts finish_reasons (replicate (length output_texts) []) in
  let use_function_calling :=
    existsb (λ r, bool_decide (r = Some "tool_calls")) finish_reasons in
  (_ ← (if use_function_calling
        then st_iter (λ '(i, t), process_call_text i t) (enumerate output_texts)
        else mret tt);
   mret use_function_calling) start.
End function_calls.
Arguments call_ast Node : clear implicits.

(** ** Wrapping the non-streaming responses *)

(** [wrap_chat_completion_response]. *)
Definition wrap_chat_completion_response (request_id : string) (model : option string) (output_texts : list string)
    (finish_reasons : list (option string)) (tool_calls_list : list (list ChatToolCall))
    (logprob_results : option (list (list LogProbsContent))) (use_function_calling : bool)
    (usage : option CompletionUsage) : result ChatResponse :=
  choices ← map_m (λ '(i, (output_text, finish_reason, tool_calls)),
      fr ← py_index finish_reasons i;
      let message :=
        if negb use_function_calling || bool_decide (finish_reason = Some "error")
        then assistant_message output_text else tool_call_message tool_calls in
      lps ← match logprob_results with
            | Some l => x ← py_index l i; Ok (Some x)
            | None => Ok None
            end;
      mk_chat_choice i fr message lps)
    (enumerate (zip3 output_texts finish_reasons tool_calls_list));
  Ok (Build_ChatResponse request_id choices model usage).

(** [wrap_completion_response]. *)
Definition wrap_completion_response (request_id : string) (model : option string) (output_texts : list string)
    (finish_reasons : list (option string)) (logprob_results : list (option CompletionLogProbs))
    (usage : option CompletionUsage) : result CompletionResponse :=
  choices ← map_m (λ '(i, (output_text, finish_reason)),
      lps ← py_index logprob_results i;
      mk_completion_choice i finish_reason output_text lps)
    (enumerate (zip output_texts finish_reasons));
  Ok (Build_CompletionResponse request_id choices model usage).

(** ** Delta outputs: the specification *)

(** The finish reason of a generation after an output: the first one sticks. *)
Definition next_reason (f : string → string) (old : option string) (d : CallbackStreamOutput) :
    option string :=
  match old with Some r => Some r | None => f <$> finish_reason d end.

(** The output yields a choice: it carries text or the finish reason. *)
Definition emits (old : option string) (d : CallbackStreamOutput) : bool :=
  (bool_decide (old = None) && bool_decide (is_Some (finish_reason d)))
  || negb (bool_decide (delta_text d = "")).

(** The choices of a chunk, from generation [i] on. *)
Fixpoint expected_choices {C} (f : string → string)
    (g : nat → option string → CallbackStreamOutput → C) (i : nat)
    (cur : list (option string)) (ds : list CallbackStreamOutput) : list C :=
  match cur, ds with
  | old :: cur, d :: ds =>
      (if emits old d then [g i (next_reason f old d) d] else [])
      ++ expected_choices f g (S i) cur ds
  | _, _ => []
  end.

Section chunk_loop.
Context {T : Type} `{TextStreamer T} {C : Type}.

Abbreviation procT := (stM (EngineState T * list (option string))).

(** The loop the two stream functions share, by the tuning of the reason, the
    action on a skipped output and the construction of a choice. *)
Fixpoint choices_loop (f : string → string) (skip : procT unit)
    (mk : nat → option string → CallbackStreamOutput → result C) (i : nat)
    (ds : list CallbackStreamOutput) : procT (list C) :=
  match ds with
  | [] => mret []
  | d :: ds =>
      if bool_decide (finish_reason d = None) && bool_decide (delta_text d = "") then
        _ ← skip; choices_loop f skip mk (S i) ds
      else
        '(fr, updated) ← update_finish_reason f i d;
        if negb updated && bool_decide (delta_text d = "") then
          _ ← skip; choices_loop f skip mk (S i) ds
        else
          c ← st_lift (mk i fr d);
          cs ← choices_loop f skip mk (S i) ds;
          mret (c :: cs)
  end.

Context (f : string → string) (skip : procT unit)
  (mk : nat → option string → CallbackStreamOutput → result C)
  (g : nat → option string → CallbackStreamOutput → C).

(** Skipping only adds to the trace. *)
Definition skip_ok : Prop :=
  ∀ e frs, ∃ e', skip (e, frs) = ((e', frs), Ok tt) ∧ same_but_trace e e'.

Lemma update_finish_reason_spec (e : EngineState T) pre old cur d :
  update_finish_reason f (length pre) d (e, pre ++ old :: cur) =
    ((e, pre ++ next_reason f old d :: cur),
     Ok (next_reason f old d, bool_decide (old = None) && bool_decide (is_Some (finish_reason d)))).
Proof.
  unfold update_finish_reason, next_reason, py_index. cbn [snd fst].
  rewrite list_lookup_middle by done.
  destruct (finish_reason d) as [fr|] eqn:Efr, old as [r|]; try done.
  cbn. by rewrite insert_app_r_alt, Nat.sub_diag by lia.
Qed.

Lemma choices_loop_spec ds pre cur e :
  skip_ok → length cur = length ds →
  (∀ i old d, i < length ds → cur !! i = Some old → ds !! i = Some d → emits old d = true →
     mk (length pre + i) (next_reason f old d) d =
       Ok (g (length pre + i) (next_reason f old d) d)) →
  ∃ e', choices_loop f skip mk (length pre) ds (e, pre ++ cur) =
      ((e', pre ++ zip_with (next_reason f) cur ds),
       Ok (expected_choices f g (length pre) cur ds)) ∧ same_but_trace e e'.
Proof.
  intros Hskip. revert pre cur e. induction ds as [|d ds IH]; intros pre [|old cur] e Hl Hmk;
    try done; [by exists e|].
  assert (∀ e1 : EngineState T, ∃ e', choices_loop f skip mk (S (length pre)) ds
      (e1, pre ++ next_reason f old d :: cur) =
      ((e', pre ++ zip_with (next_reason f) (old :: cur) (d :: ds)),
       Ok (expected_choices f g (S (length pre)) cur ds)) ∧ same_but_trace e1 e') as IH'.
  { intros e1. destruct (IH (pre ++ [next_reason f old d]) cur e1) as (e' & He & Hs).
    - simpl in Hl. lia.
    - intros i o d' Hi Ho Hd Hem. rewrite length_app. cbn [length].
      replace (length pre + 1 + i) with (length pre + S i) by lia.
      apply Hmk; [simpl; lia|done..].
    - exists e'. split; [|done]. rewrite length_app, <-!app_assoc in He.
      simpl in He. rewrite Nat.add_1_r in He. exact He. }
  cbn [choices_loop expected_choices].
  specialize (Hmk 0 old d ltac:(simpl; lia) eq_refl eq_refl). rewrite Nat.add_0_r in Hmk.
  pose proof (update_finish_reason_spec e pre old cur d) as Hupd.
  unfold mbind, stM_bind. unfold emits in *.
  destruct (Hskip e (pre ++ next_reason f old d :: cur)) as (e1 & Hrun & Hs1).
  destruct (IH' e) as (e' & He' & Hs'), (IH' e1) as (e2 & He2 & Hs2).
  assert (bool_decide (finish_reason d = None) = negb (bool_decide (is_Some (finish_reason d))))
    as -> by (by destruct (finish_reason d)).
  revert Hupd He' He2 Hrun Hmk. unfold next_reason, st_lift, mret, stM_ret.
  destruct (bool_decide_reflect (delta_text d = "")), (finish_reason d) as [fr|], old as [r|];
    simpl; intros Hupd He' He2 Hrun Hmk; rewrite ?Hupd; simpl; rewrite ?Hrun, ?Hmk by done;
    first [by rewrite He2; exists e2; split; [|transitivity e1]|by rewrite He'; exists e'].
Qed.
End chunk_loop.

Section chunks.
Context {T : Type} `{TextStreamer T} (parse_logprob : string → result LogProbsContent)
  (parse_usage : string → result CompletionUsage).

(** A finish reason a response may carry. *)
Definition valid_reason (allowed : list string) (fr : option string) : Prop :=
  ∀ r, fr = Some r → r ∈ allowed.

(** The log probabilities of an output parse. *)
Definition logprobs_ok (d : CallbackStreamOutput) : Prop :=
  is_ok (parse_logprobs parse_logprob (delta_logprob_json_strs d)) = true.

Lemma check_literal_valid allowed fr : valid_reason allowed fr → check_literal allowed fr = Ok fr.
Proof. intros Hv. destruct fr as [r|]; [|done]. simpl. by rewrite decide_True by by apply Hv. Qed.

Lemma next_reason_valid allowed f old d :
  valid_reason allowed old → valid_reason allowed (f <$> finish_reason d) →
  valid_reason allowed (next_reason f old d).
Proof. by destruct old. Qed.

(** The reason a chat response reports. *)
Definition chat_reason (use_function_calling : bool) (r : string) : string :=
  if use_function_calling then "tool_calls" else r.

Definition parsed_logprobs (d : CallbackStreamOutput) : option (list LogProbsContent) :=
  match parse_logprobs parse_logprob (delta_logprob_json_strs d) with Ok l => l | Err _ => None end.

Definition chat_choice_of (i : nat) (fr : option string) (d : CallbackStreamOutput) : ChatChoice :=
  Build_ChatChoice i fr (assistant_message (delta_text d)) (parsed_logprobs d).

Definition parsed_completion_logprobs (d : CallbackStreamOutput) : option CompletionLogProbs :=
  match completion_logprobs parse_logprob (delta_logprob_json_strs d) with
  | Ok l => l | Err _ => None end.

Definition completion_choice_of (i : nat) (fr : option string) (d : CallbackStreamOutput) :
    CompletionChoice :=
  Build_CompletionChoice i fr (parsed_completion_logprobs d) (delta_text d).

Lemma completion_logprobs_ok d :
  logprobs_ok d →
  completion_logprobs parse_logprob (delta_logprob_json_strs d) = Ok (parsed_completion_logprobs d).
Proof.
  unfold logprobs_ok, parsed_completion_logprobs, completion_logprobs, parse_logprobs,
    get_logprobs_from_delta.
  destruct (delta_logprob_json_strs d) as [l|]; simpl; [|done].
  by destruct (map_m parse_logprob l).
Qed.

Definition chat_mk (i : nat) (fr : option string) (d : CallbackStreamOutput) : result ChatChoice :=
  lps ← parse_logprobs parse_logprob (delta_logprob_json_strs d);
  mk_chat_choice i fr (assistant_message (delta_text d)) lps.

Definition completion_mk (i : nat) (fr : option string) (d : CallbackStreamOutput) :
    result CompletionChoice :=
  lps ← completion_logprobs parse_logprob (delta_logprob_json_strs d);
  mk_completion_choice i fr (delta_text d) lps.

Lemma chat_choices_loop request_id use_fc i ds s :
  chat_choices (T:=T) parse_logprob request_id use_fc i ds s =
  choices_loop (chat_reason use_fc)
    (on_engine (record_event request_id "skip empty delta text")) chat_mk i ds s.
Proof.
  revert i s. induction ds as [|d ds IH]; intros i s; [done|].
  cbn [chat_choices choices_loop]. unfold mbind, stM_bind, chat_reason.
  destruct (_ && _).
  - destruct (on_engine _ _) as [s' [u|e]]; [apply IH|done].
  - destruct (update_finish_reason _ _ _ _) as [s' [[fr upd]|e]]; [|done].
    destruct (_ && _); [destruct (on_engine _ _) as [s1 [u|e]]; [apply IH|done]|].
    unfold st_lift, chat_mk.
    destruct (parse_logprobs _ _) as [lps|e]; simpl; [|done].
    destruct (mk_chat_choice _ _ _ _) as [c|e]; [|done]. by rewrite IH.
Qed.

Lemma completion_choices_loop i ds s :
  completion_choices (T:=T) parse_logprob i ds s =
  choices_loop (λ r, r) (mret tt) completion_mk i ds s.
Proof.
  revert i s. induction ds as [|d ds IH]; intros i s; [done|].
  cbn [completion_choices choices_loop]. unfold mbind, stM_bind.
  destruct (_ && _); [apply IH|].
  destruct (update_finish_reason _ _ _ _) as [s' [[fr upd]|e]]; [|done].
  destruct (_ && _); [apply IH|].
  unfold st_lift, completion_mk.
  destruct (completion_logprobs _ _) as [lps|e]; simpl; [|done].
  destruct (mk_completion_choice _ _ _ _) as [c|e]; [|done]. by rewrite IH.
Qed.

Lemma on_engine_record_event id ev (e : EngineState T) frs :
  ∃ e', on_engine (record_event id ev) (e, frs) = ((e', frs), Ok tt) ∧ same_but_trace e e'.
Proof.
  unfold on_engine. cbn [fst]. destruct (record_event_same id ev e) as (e' & -> & Hs). by exists e'.
Qed.

(** The chunk is a batch of outputs, one per generation, all parsable and
    with reasons the response type knows. *)
Record good_chunk (allowed : list string) (f : string → string) (n : nat)
    (frs : list (option string)) (ds : list CallbackStreamOutput) : Prop := {
  gc_len : length ds = n;
  gc_pos : 0 < n;
  gc_frs : length frs = n;
  gc_normal : Forall (λ d, request_final_usage_json_str d = None) ds;
  gc_logprobs : Forall logprobs_ok ds;
  gc_old : Forall (valid_reason allowed) frs;
  gc_new : Forall (λ d, valid_reason allowed (f <$> finish_reason d)) ds;
}.

(** A response with no choice is not sent. *)
Definition sent {A R} (wrap : list A → R) (choices : list A) : option R :=
  match choices with [] => None | _ => Some (wrap choices) end.

Lemma choices_loop_good {C} allowed f (skip : stM (EngineState T * list (option string)) unit)
    (mk : _ → _ → _ → result C) g n frs ds e :
  skip_ok skip → good_chunk allowed f n frs ds →
  (∀ i fr d, valid_reason allowed fr → logprobs_ok d → mk i fr d = Ok (g i fr d)) →
  ∃ e', choices_loop f skip mk 0 ds (e, frs) =
      ((e', zip_with (next_reason f) frs ds), Ok (expected_choices f g 0 frs ds))
    ∧ same_but_trace e e'.
Proof.
  intros Hskip [Hl Hp Hf Hn Hlp Hold Hnew] Hmk.
  apply (choices_loop_spec f skip mk g ds [] frs e Hskip); [congruence|].
  intros i old d Hi Ho Hd _. apply Hmk; [apply next_reason_valid|].
  - by eapply (Forall_lookup_1 _ frs).
  - by eapply (Forall_lookup_1 _ ds) in Hnew.
  - by eapply (Forall_lookup_1 _ ds).
Qed.

Lemma chat_chunk_run request request_id use_fc e frs ds :
  good_chunk chat_reasons (chat_reason use_fc) (r_n request) frs ds →
  ∃ e', process_chat_completion_stream_output (T:=T) parse_logprob parse_usage ds request
          request_id use_fc (e, frs) =
      ((e', zip_with (next_reason (chat_reason use_fc)) frs ds),
       Ok (sent (λ cs, Build_ChatResponse request_id cs (r_model request) None)
             (expected_choices (chat_reason use_fc) chat_choice_of 0 frs ds)))
    ∧ same_but_trace e e'.
Proof.
  intros Hg. pose proof Hg as [Hl Hp Hf Hn _ _ _].
  destruct ds as [|d ds]; [simpl in *; lia|].
  apply Forall_cons in Hn as [Hd _].
  destruct (choices_loop_good chat_reasons (chat_reason use_fc)
    (on_engine (record_event request_id "skip empty delta text")) chat_mk chat_choice_of
    _ _ _ e (λ e frs, on_engine_record_event _ _ e frs) Hg) as (e1 & Hrun & Hs1).
  { intros i fr d' Hv Hlp. unfold chat_mk, chat_choice_of, parsed_logprobs.
    unfold logprobs_ok in Hlp. destruct (parse_logprobs _ _); [|done].
    simpl. unfold mk_chat_choice. by rewrite (check_literal_valid _ _ Hv). }
  unfold process_chat_completion_stream_output, mbind, stM_bind, st_lift. simpl py_index.
  cbn [py_index lookup list_lookup]. unfold py_index. simpl lookup. rewrite Hd.
  rewrite bool_decide_true by done. cbn [py_assert]. rewrite chat_choices_loop, Hrun.
  destruct (expected_choices _ _ _ _ _) as [|c cs] eqn:Ecs; [by exists e1|].
  destruct (on_engine_record_event request_id "yield delta output" e1
    (zip_with (next_reason (chat_reason use_fc)) frs (d :: ds))) as (e2 & -> & Hs2).
  exists e2. split; [done|by transitivity e1].
Qed.

(** C32. A normal chunk of a chat request: the finish reason of each generation is
    set once, by the first output that carries one (or to [tool_calls] when
    the request uses function calling); the response has one choice, with the
    generation's index, text, logprobs and finish reason, for each output that
    has text or sets the reason; nothing is sent when there is no choice. *)
Theorem chat_chunk_spec request request_id use_fc e frs ds :
  good_chunk chat_reasons (chat_reason use_fc) (r_n request) frs ds →
  ∃ e', process_chat_completion_stream_output (T:=T) parse_logprob parse_usage ds request
          request_id use_fc (e, frs) =
      ((e', zip_with (next_reason (chat_reason use_fc)) frs ds),
       Ok (sent (λ cs, Build_ChatResponse request_id cs (r_model request) None)
             (expected_choices (chat_reason use_fc) chat_choice_of 0 frs ds)))
    ∧ same_but_trace e e'.
Proof. apply chat_chunk_run. Qed.

Lemma completion_chunk_run request request_id e frs ds :
  good_chunk completion_reasons (λ r, r) (c_n request) frs ds →
  ∃ e', process_completion_stream_output (T:=T) parse_logprob parse_usage ds request
          request_id (e, frs) =
      ((e', zip_with (next_reason (λ r, r)) frs ds),
       Ok (sent (λ cs, Build_CompletionResponse request_id cs (c_model request) None)
             (expected_choices (λ r, r) completion_choice_of 0 frs ds)))
    ∧ same_but_trace e e'.
Proof.
  intros Hg. pose proof Hg as [Hl Hp Hf Hn _ _ _].
  destruct ds as [|d ds]; [simpl in *; lia|].
  apply Forall_cons in Hn as [Hd _].
  destruct (choices_loop_good completion_reasons (λ r, r) (mret tt) completion_mk
    completion_choice_of _ _ _ e (λ e frs, ex_intro _ e (conj eq_refl (reflexivity e))) Hg)
    as (e1 & Hrun & Hs1).
  { intros i fr d' Hv Hlp. unfold completion_mk, completion_choice_of.
    rewrite (completion_logprobs_ok _ Hlp). simpl. unfold mk_completion_choice.
    by rewrite (check_literal_valid _ _ Hv). }
  unfold process_completion_stream_output, mbind, stM_bind, st_lift, py_index. simpl lookup.
  cbv iota beta. rewrite Hd.
  rewrite bool_decide_true by done. cbn [py_assert]. rewrite completion_choices_loop, Hrun.
  destruct (expected_choices _ _ _ _ _) as [|c cs] eqn:Ecs; [by exists e1|].
  destruct (on_engine_record_event request_id "yield delta output" e1
    (zip_with (next_reason (λ r, r)) frs (d :: ds))) as (e2 & -> & Hs2).
  exists e2. split; [done|by transitivity e1].
Qed.

(** The same for a completion request, whose reasons are kept as they are. *)
Theorem completion_chunk_spec request request_id e frs ds :
  good_chunk completion_reasons (λ r, r) (c_n request) frs ds →
  ∃ e', process_completion_stream_output (T:=T) parse_logprob parse_usage ds request
          request_id (e, frs) =
      ((e', zip_with (next_reason (λ r, r)) frs ds),
       Ok (sent (λ cs, Build_CompletionResponse request_id cs (c_model request) None)
             (expected_choices (λ r, r) completion_choice_of 0 frs ds)))
    ∧ same_but_trace e e'.
Proof. apply completion_chunk_run. Qed.

(** Whether the usage chunk of a request is sent to the client. *)
Definition usage_sent (stream : bool) (o : option StreamOptions) : bool :=
  negb stream || wants_usage o.

Lemma chat_usage_run request request_id use_fc e frs d u usage :
  request_final_usage_json_str d = Some u → parse_usage u = Ok usage →
  ∃ e', process_chat_completion_stream_output (T:=T) parse_logprob parse_usage [d] request
          request_id use_fc (e, frs) =
      ((e', frs), Ok (if usage_sent (r_stream request) (r_stream_options request)
                      then Some (Build_ChatResponse request_id [] (r_model request) (Some usage))
                      else None))
    ∧ same_but_trace e e'.
Proof.
  intros Hd Hu. unfold process_chat_completion_stream_output, mbind, stM_bind, st_lift, py_index.
  simpl lookup. cbv iota beta. rewrite Hd. rewrite bool_decide_true by done. cbn [py_assert].
  destruct (on_engine_record_event request_id "yield final usage" e frs) as (e1 & -> & Hs).
  rewrite Hu. exists e1. split; [|done]. unfold usage_sent.
  by destruct (r_stream request), (wants_usage _).
Qed.

(** The final chunk: the usage is always returned to a non-streaming request,
    and to a streaming one exactly when [stream_options.include_usage] asks for
    it. The finish reasons do not change. *)
Theorem chat_usage_spec request request_id use_fc e frs d u usage :
  request_final_usage_json_str d = Some u → parse_usage u = Ok usage →
  ∃ e', process_chat_completion_stream_output (T:=T) parse_logprob parse_usage [d] request
          request_id use_fc (e, frs) =
      ((e', frs), Ok (if usage_sent (r_stream request) (r_stream_options request)
                      then Some (Build_ChatResponse request_id [] (r_model request) (Some usage))
                      else None))
    ∧ same_but_trace e e'.
Proof. apply chat_usage_run. Qed.

Lemma completion_usage_run request request_id e frs d u usage :
  request_final_usage_json_str d = Some u → parse_usage u = Ok usage →
  ∃ e', process_completion_stream_output (T:=T) parse_logprob parse_usage [d] request
          request_id (e, frs) =
      ((e', frs), Ok (if usage_sent (c_stream request) (c_stream_options request)
                      then Some (Build_CompletionResponse request_id [] (c_model request) (Some usage))
                      else None))
    ∧ same_but_trace e e'.
Proof.
  intros Hd Hu. unfold process_completion_stream_output, mbind, stM_bind, st_lift, py_index.
  simpl lookup. cbv iota beta. rewrite Hd. rewrite bool_decide_true by done. cbn [py_assert].
  destruct (on_engine_record_event request_id "yield final usage" e frs) as (e1 & -> & Hs).
  rewrite Hu. exists e1. split; [|done]. unfold usage_sent.
  by destruct (c_stream request), (wants_usage _).
Qed.

(** The same for a completion request. *)
Theorem completion_usage_spec request request_id e frs d u usage :
  request_final_usage_json_str d = Some u → parse_usage u = Ok usage →
  ∃ e', process_completion_stream_output (T:=T) parse_logprob parse_usage [d] request
          request_id (e, frs) =
      ((e', frs), Ok (if usage_sent (c_stream request) (c_stream_options request)
                      then Some (Build_CompletionResponse request_id [] (c_model request) (Some usage))
                      else None))
    ∧ same_but_trace e e'.
Proof. apply completion_usage_run. Qed.
End chunks.

(** ** Function-call outputs *)

Section function_call_facts.
Context {Node : Type} (ast_parse : string → result (call_ast Node))
  (literal_eval : string → result pyval) (literal_eval_node : Node → result pyval)
  (new_call_id : nat → nat → string).

(** What the processing of one output text leaves: the text, the reason and the
    calls; [None] when an exception escapes. *)
Definition call_outcome (i : nat) (text : string) :
    option (string * string * list ChatToolCall) :=
  match convert_function_str_to_json ast_parse literal_eval literal_eval_node text with
  | Err e => if decide (exn_cls e ∈ [SyntaxError; ValueError])
             then Some (text, "error", []) else None
  | Ok ds =>
      match map_m (λ '(j, d), tool_call (new_call_id i j) d) (enumerate (omap id ds)) with
      | Ok [] => Some (invalid_call_text, "error", [])
      | Ok cs => Some (text, "tool_calls", cs)
      | Err _ => None
      end
  end.

Lemma set_reason_spec i r s : i < length (co_reasons s) → set_reason i r s =
  (Build_CallOutput (co_texts s) (<[i:=Some r]> (co_reasons s)) (co_calls s), Ok tt).
Proof. intros. unfold set_reason, py_setitem. by rewrite decide_True. Qed.

Lemma set_text_spec i t s : i < length (co_texts s) → set_text i t s =
  (Build_CallOutput (<[i:=t]> (co_texts s)) (co_reasons s) (co_calls s), Ok tt).
Proof. intros. unfold set_text, py_setitem. by rewrite decide_True. Qed.

Lemma set_calls_spec i cs s : i < length (co_calls s) → set_calls i cs s =
  (Build_CallOutput (co_texts s) (co_reasons s) (<[i:=cs]> (co_calls s)), Ok tt).
Proof. intros. unfold set_calls, py_setitem. by rewrite decide_True. Qed.

Lemma process_call_text_spec i text s t r cs :
  i < length (co_reasons s) → co_texts s !! i = Some text → co_calls s !! i = Some [] →
  call_outcome i text = Some (t, r, cs) →
  process_call_text ast_parse literal_eval literal_eval_node new_call_id i text s =
    (Build_CallOutput (<[i:=t]> (co_texts s)) (<[i:=Some r]> (co_reasons s))
       (<[i:=cs]> (co_calls s)), Ok tt).
Proof.
  intros Hr Ht Hc. unfold call_outcome, process_call_text.
  pose proof (lookup_lt_Some _ _ _ Ht). pose proof (lookup_lt_Some _ _ _ Hc).
  destruct (convert_function_str_to_json _ _ _ text) as [ds|e].
  - destruct (map_m _ _) as [[|c calls]|e] eqn:Em; intros [= <- <- <-];
      unfold mbind, stM_bind; cbn [st_lift]; unfold st_lift;
      rewrite set_calls_spec by done.
    + rewrite set_text_spec by done. by rewrite set_reason_spec.
    + rewrite set_reason_spec by done. cbn. by rewrite (list_insert_id _ _ _ Ht).
  - case_decide; [|done]. intros [= <- <- <-]. rewrite set_reason_spec by done.
    by rewrite (list_insert_id _ _ _ Ht), (list_insert_id _ _ _ Hc).
Qed.

Abbreviation step := (λ '(i, t), process_call_text ast_parse literal_eval literal_eval_node new_call_id i t).

Lemma process_texts_spec texts pt pr pc rs outs :
  length pr = length pt → length pc = length pt → length rs = length texts →
  imap (λ j t, call_outcome (length pt + j) t) texts = Some <$> outs →
  st_iter step (imap (λ j t, (length pt + j, t)) texts)
    (Build_CallOutput (pt ++ texts) (pr ++ rs) (pc ++ replicate (length texts) [])) =
  (Build_CallOutput (pt ++ outs.*1.*1) (pr ++ (Some <$> outs.*1.*2)) (pc ++ outs.*2), Ok tt).
Proof.
  revert pt pr pc rs outs. induction texts as [|t texts IH]; intros pt pr pc rs outs Hr Hc Hrs Hout.
  - destruct rs, outs; done.
  - destruct rs as [|r rs]; [done|]. destruct outs as [|[[t' r'] cs] outs]; [done|].
    injection Hrs as Hrs. simpl in Hout. injection Hout as Ho Hout. rewrite Nat.add_0_r in Ho.
    cbn [imap replicate length st_iter]. unfold mbind, stM_bind. rewrite Nat.add_0_r.
    rewrite (process_call_text_spec _ _ _ t' r' cs); cbn [co_texts co_reasons co_calls];
      [|rewrite length_app; simpl; lia|by rewrite list_lookup_middle
       |by rewrite list_lookup_middle|done].
    rewrite !insert_app_r_alt, Hr, Hc, Nat.sub_diag by lia. cbn [insert list_insert].
    specialize (IH (pt ++ [t']) (pr ++ [Some r']) (pc ++ [cs]) rs outs).
    rewrite !length_app, <-!app_assoc in IH. simpl in IH.
    rewrite (imap_ext (_ ∘ S) (λ j t, (length pt + 1 + j, t))) by (intros; simpl; f_equal; lia).
    apply IH; [lia|lia|done|]. change (Some <$> outs) with (list_fmap _ _ Some outs).
    rewrite <-Hout. apply imap_ext. intros; simpl; f_equal; lia.
Qed.

(** Every output text of a request that finished with a tool call is handled
    on its own, in place: a text that parses to calls keeps its text, finishes
    with [tool_calls] and carries the calls; a text that parses to no call is
    replaced by the error text and finishes with [error]; a text that does not
    parse finishes with [error] but keeps the model's text (the error text is
    assigned to the loop variable only). Without a tool call reason nothing
    changes. *)
Theorem process_function_call_output_spec texts frs outs :
  length frs = length texts →
  imap call_outcome texts = Some <$> outs →
  process_function_call_output ast_parse literal_eval literal_eval_node new_call_id texts frs =
    if existsb (λ r, bool_decide (r = Some "tool_calls")) frs
    then (Build_CallOutput outs.*1.*1 (Some <$> outs.*1.*2) outs.*2, Ok true)
    else (Build_CallOutput texts frs (replicate (length texts) []), Ok false).
Proof.
  intros Hl Hout. unfold process_function_call_output.
  destruct (existsb _ frs); [|done]. unfold mbind, stM_bind.
  pose proof (process_texts_spec texts [] [] [] frs outs eq_refl eq_refl Hl Hout) as H.
  change (imap _ texts) with (enumerate texts) in H. cbn [app] in H. by rewrite H.
Qed.
End function_call_facts.

(** A tiny parser for the witness: [f] is a call, [g] a name, the rest is a
    syntax error. *)
Definition toy_ast (s : string) : result (call_ast pyval) :=
  if decide (s = "f()") then Ok (NameCall "f" [])
  else if decide (s = "g") then Ok OtherBody else raise SyntaxError "invalid syntax".
Definition toy_call : ChatToolCall := Build_ChatToolCall "call_0" (Build_ChatFunctionCall "f" (Some [])).

Lemma process_function_call_output_spec_witness :
  length [Some "tool_calls"; Some "tool_calls"; Some "tool_calls"] = length ["f()"; "g"; "f("] ∧
  process_function_call_output toy_ast (λ _, raise ValueError "") (λ v, Ok v) (λ _ _, "call_0")
    ["f()"; "g"; "f("] [Some "tool_calls"; Some "tool_calls"; Some "tool_calls"] =
  (Build_CallOutput ["f()"; invalid_call_text; "f("]
     [Some "tool_calls"; Some "error"; Some "error"] [[toy_call]; []; []], Ok true).
Proof.
  split; [done|].
  exact (process_function_call_output_spec toy_ast (λ _, raise ValueError "") (λ v, Ok v)
    (λ _ _, "call_0") ["f()"; "g"; "f("] [Some "tool_calls"; Some "tool_calls"; Some "tool_calls"]
    [("f()", "tool_calls", [toy_call]); (invalid_call_text, "error", []); ("f(", "error", [])]
    eq_refl eq_refl).
Defined.

(** ** Requests *)

Section requests.
Context {T Img : Type} `{TextStreamer T}.
Context (from_url : string → list (string * pyval) → result Img) (embed_size : Img → nat)
  (function_json : ChatFunction → string) (functions_json : list ChatFunction → string).

(** The prompt tokens of a completion request; [None] for an empty token list. *)
Definition completion_prompt_tokens (encode : string → list Z) (p : completion_prompt) : option (list Z) :=
  match p with
  | CPStr s => Some (encode s)
  | CPTokens [] => None
  | CPTokens l => Some l
  end.

Lemma process_completion_arg encode p :
  process_prompts (Img:=Img) encode (completion_arg p) =
    match completion_prompt_tokens encode p with Some l => Ok [Tokens l] | None => invalid_prompt end.
Proof.
  destruct p as [s|[|z l]]; [done..|]. simpl. by rewrite as_ints_fmap.
Qed.

(** What a completion request becomes, or the error of a request that asks for
    unsupported fields, has no prompt, or is longer than the model's limit: the
    prompt tokens, the generation config with the template's stops, and with
    [echo] a response with the decoded prompt for each of the [n] generations.
    Every failure is a [BadRequestError]; only the trace of the engine changes. *)
Theorem completion_request_spec request request_id encode decode limit conv s :
  ∃ s' r, process_completion_request (T:=T) (Img:=Img) embed_size request request_id encode decode
      limit conv s = (s', r) ∧ same_but_trace s s' ∧
    match completion_prompt_tokens encode (c_prompt request) with
    | Some toks =>
        if decide (openai_api_get_unsupported_fields (ReqCompletion request) = []
                   ∧ (Z.of_nat (length toks) ≤ limit)%Z)
        then
          let out := get_generation_config (ReqCompletion request)
                       (Some (stop_token_ids conv)) (Some (stop_str conv)) in
          r = Ok (toks, out.1, Z.of_nat (length toks),
                  (if c_echo request
                   then Some (Build_CompletionResponse request_id
                          ((λ i, Build_CompletionChoice i None None (decode toks)) <$> seq 0 (c_n request))
                          (c_model request) None)
                   else None), out.2)
        else ∃ e, r = Err e ∧ exn_cls e = BadRequestError
    | None => ∃ e, r = Err e ∧ exn_cls e = BadRequestError
    end.
Proof.
  destruct (record_event_same request_id "receive request" s) as (s1 & R1 & H1).
  destruct (record_event_same request_id "start tokenization" s1) as (s2 & R2 & H2).
  destruct (record_event_same request_id "finish tokenization" s2) as (s3 & R3 & H3).
  assert (same_but_trace s s2) as H12 by by transitivity s1.
  assert (same_but_trace s s3) as H13 by by transitivity s2.
  unfold process_completion_request, mbind, stM_bind, st_lift. rewrite R1.
  unfold check_unsupported_fields. case_bool_decide as Hun; cbn [raise_when].
  { exists s1. eexists. split; [reflexivity|]. split; [done|].
    destruct (completion_prompt_tokens _ _); [rewrite decide_False by naive_solver|]; by eexists. }
  rewrite R2, process_completion_arg. destruct (completion_prompt_tokens _ _) as [toks|].
  2: { exists s2. eexists. split; [reflexivity|]. split; [done|by eexists]. }
  rewrite R3. unfold check_and_get_prompts_length. cbn [foldl prompt_len].
  destruct (limit <? _)%Z eqn:El; bool_inv; exists s3; eexists;
    (split; [reflexivity|]); (split; [done|]).
  - rewrite decide_False by lia. by eexists.
  - rewrite decide_True by (split; [done|lia]). destruct (c_echo request); simpl; by rewrite Z.add_0_l.
Qed.

(** The conversation a chat request renders: the last system message replaces
    the template's, the other messages are appended in order, and the turn of
    the assistant is opened. *)
Definition system_content (m : ChatCompletionMessage) : option string :=
  match m_content m with
  | CStr s => if decide (m_role m = "system") then Some s else None
  | _ => None
  end.

Definition chat_conversation (ms : list ChatCompletionMessage) (conv : Conversation) : Conversation :=
  with_messages
    (messages conv ++ ((λ m, (m_role m, m_content m)) <$> filter (λ m, m_role m ≠ "system") ms)
     ++ [("assistant", CNone)])
    (with_system_message (default (system_message conv) (last (omap system_content ms))) conv).

(** System messages are texts: other ones trip the assertion. *)
Definition system_texts (ms : list ChatCompletionMessage) : Prop :=
  Forall (λ m, m_role m = "system" → is_Some (system_content m)) ms.

Lemma with_messages_twice l l' c : with_messages l (with_messages l' c) = with_messages l c.
Proof. done. Qed.
Lemma with_messages_system l m m' c :
  with_messages l (with_system_message m (with_messages l (with_system_message m' c))) =
  with_messages l (with_system_message m c).
Proof. done. Qed.
Lemma with_same c : with_messages (messages c) (with_system_message (system_message c) c) = c.
Proof. by destruct c. Qed.

Lemma last_cons_default {A} (x y : A) l : default x (last (y :: l)) = default y (last l).
Proof. rewrite last_cons. by destruct (last l). Qed.

Lemma add_messages_spec ms conv :
  system_texts ms →
  add_messages ms conv = Ok (
    with_messages (messages conv ++
        ((λ m, (m_role m, m_content m)) <$> filter (λ m, m_role m ≠ "system") ms))
      (with_system_message (default (system_message conv) (last (omap system_content ms))) conv)).
Proof.
  unfold system_texts. revert conv. induction ms as [|m ms IH]; intros conv Hsys.
  - simpl. by rewrite app_nil_r, with_same.
  - apply Forall_cons in Hsys as [Hm Hms]. cbn [add_messages]. rewrite filter_cons.
    destruct (decide (m_role m = "system")) as [Hr|Hr].
    + destruct (Hm Hr) as [t Ht]. rewrite decide_False by naive_solver.
      assert (m_content m = CStr t) as Hc.
      { revert Ht. unfold system_content. destruct (m_content m); [done| |done].
        by rewrite decide_True by done; intros [= ->]. }
      rewrite Hc, IH by done. simpl. by rewrite Ht, last_cons_default.
    + rewrite decide_True, IH by done. simpl.
      assert (system_content m = None) as ->.
      { unfold system_content. destruct (m_content m); by rewrite ?decide_False. }
      rewrite <-app_assoc. done.
Qed.

Lemma add_system_prefix_tokens prefix l :
  add_system_prefix (Img:=Img) prefix [Tokens l] = Ok [Tokens (default [] prefix ++ l)].
Proof. by destruct prefix. Qed.

(** C27. The prompt of a chat request whose checks pass and whose messages are
    texts: one list of tokens, the template's prefix tokens followed by the
    tokens of the rendered conversation; the generation config carries the
    template's stops. A prompt over the limit is rejected with a
    [BadRequestError]. Only the trace of the engine changes. *)
Theorem chat_request_spec request request_id config tok limit conv conv1 sp s :
  openai_api_get_unsupported_fields (ReqChat request) = [] →
  check_message_validity request = Ok tt →
  check_function_call_usage function_json functions_json request conv = Ok conv1 →
  system_texts (r_messages request) →
  let final := chat_conversation (r_messages request) conv1 in
  check_message_seps (seps final) = Ok sp →
  Forall (text_message final) (history final) →
  let toks := default [] (system_prefix_token_ids final) ++ tok (prompt_text final) in
  let out := get_generation_config (ReqChat request)
               (Some (stop_token_ids final)) (Some (stop_str final)) in
  ∃ s' r, process_chat_completion_request (T:=T) from_url embed_size function_json functions_json
      request request_id config tok limit conv s = (s', r) ∧ same_but_trace s s' ∧
    if decide (Z.of_nat (length toks) ≤ limit)%Z
    then r = Ok ([Tokens toks], out.1, use_function_calling final, Z.of_nat (length toks), out.2)
    else ∃ e, r = Err e ∧ exn_cls e = BadRequestError.
Proof.
  intros Hun Hval Hfc Hsys final Hsep Htext toks out.
  destruct (record_event_same request_id "receive request" s) as (s1 & R1 & H1).
  destruct (record_event_same request_id "start tokenization" s1) as (s2 & R2 & H2).
  destruct (record_event_same request_id "finish tokenization" s2) as (s3 & R3 & H3).
  assert (same_but_trace s s3) as H13 by (transitivity s2; [by transitivity s1|done]).
  assert (as_prompt from_url final (Some config) = Ok [PText (prompt_text final)]) as Hprompt.
  { eapply as_prompt_rendered; [done..|]. rewrite prompt_texts_nil. intros [_ Hnil].
    revert Hnil. unfold final, chat_conversation. simpl. by destruct (messages conv1), (fmap _ _). }
  unfold process_chat_completion_request, mbind, stM_bind, st_lift. rewrite R1.
  unfold check_unsupported_fields. rewrite bool_decide_false by auto. cbn [raise_when].
  rewrite Hval, Hfc, add_messages_spec by done. cbv iota beta. rewrite R2.
  assert (with_messages (messages (with_messages (messages conv1 ++
     ((λ m, (m_role m, m_content m)) <$> filter (λ m, m_role m ≠ "system") (r_messages request)))
      (with_system_message (default (system_message conv1)
         (last (omap system_content (r_messages request)))) conv1)) ++ [("assistant", CNone)])
    (with_messages (messages conv1 ++
     ((λ m, (m_role m, m_content m)) <$> filter (λ m, m_role m ≠ "system") (r_messages request)))
      (with_system_message (default (system_message conv1)
         (last (omap system_content (r_messages request)))) conv1)) = final) as ->.
  { unfold final, chat_conversation. simpl. by rewrite <-app_assoc. }
  rewrite Hprompt. cbn [fmap list_fmap item_prompt process_prompts map_m process_prompt mbind result_bind].
  rewrite R3, add_system_prefix_tokens. fold toks.
  unfold check_and_get_prompts_length. cbn [foldl prompt_len]. rewrite Z.add_0_l.
  destruct (limit <? _)%Z eqn:El; bool_inv; exists s3; eexists;
    (split; [reflexivity|]); (split; [done|]).
  - rewrite decide_False by lia. by eexists.
  - by rewrite decide_True by lia.
Qed.
End requests.

(** ** Engine construction: specifications *)

(** The engine arguments are accepted exactly when they agree with the engine
    config wherever both are given, and the page size is 16 or the experimental
    variable allows another one. *)
Theorem check_engine_config_spec experimental model model_lib mode c :
  _check_engine_config experimental model model_lib mode c = Ok tt ↔
  (∀ m, ec_model c = Some m → m = model) ∧
  (∀ l l', ec_model_lib c = Some l → model_lib = Some l' → l = l') ∧
  (∀ m, ec_mode c = Some m → m = mode) ∧
  (ec_kv_cache_page_size c = 16%Z ∨ ∃ v, experimental = Some v ∧ v ≠ "0").
Proof.
  unfold _check_engine_config. split.
  - intros H. ok_inv.
    repeat match goal with
    | H : _ && _ = false |- _ => apply andb_false_iff in H
    end.
    repeat split.
    + intros m Hm. rewrite Hm in *. destruct H0; bool_inv; naive_solver.
    + intros l l' Hl Hl'. rewrite Hl, Hl' in *. rewrite !bool_decide_true in H1 by done.
      simpl in H1. destruct H1; bool_inv; naive_solver.
    + intros m Hm. rewrite Hm in *. destruct H2; bool_inv; naive_solver.
    + destruct H as [H|H]; bool_inv; [by left|right]. destruct experimental; naive_solver.
  - intros (Hm & Hl & Hmo & Hp).
    assert (∀ {A} `{EqDecision A} (o : option A) x, (∀ y, o = Some y → y = x) →
      bool_decide (is_Some o) && negb (bool_decide (o = Some x)) = false) as Haux.
    { intros A ? [y|] x Hx; [|done]. rewrite (Hx y) by done. by rewrite !bool_decide_true. }
    rewrite !Haux by done. cbn [raise_when mbind result_bind].
    assert (bool_decide (is_Some (ec_model_lib c)) && bool_decide (is_Some model_lib)
            && negb (bool_decide (ec_model_lib c = model_lib)) = false) as ->.
    { destruct (ec_model_lib c) as [l|], model_lib as [l'|]; try done.
      rewrite (Hl l l') by done. by rewrite !bool_decide_true. }
    cbn [raise_when mbind result_bind].
    destruct Hp as [->|(v & -> & Hv)]; [done|]. simpl. rewrite bool_decide_false by done.
    by rewrite andb_false_r.
Qed.

Section model_args.
Context (get_or_download_model : string → result string)
  (load_conv_template : string → result Conversation)
  (is_file : string → bool)
  (jit : string → list (string * option Z) → option string → result string).

(** One model on its own: its path, library and conversation template. *)
Definition resolve_model (c : EngineConfig) (m : ModelInfo) :
    result (string * string * Conversation) :=
  path ← get_or_download_model (mi_model m);
  conv ← load_conv_template (path +:+ "/mlc-chat-config.json");
  lib ← model_library is_file jit c m path;
  Ok (path, lib, conv).

Definition config_path (p : string) : string := p +:+ "/mlc-chat-config.json".

Lemma convert_model_info_spec c m conv paths :
  ∃ s, _convert_model_info get_or_download_model load_conv_template is_file jit c m (conv, paths) =
    match resolve_model c m with
    | Ok (p, l, cv) => ((Some (default cv conv), paths ++ [config_path p]), Ok (p, l))
    | Err e => (s, Err e)
    end.
Proof.
  unfold _convert_model_info, resolve_model, mbind, stM_bind, result_bind, st_lift, st_modify, config_path.
  destruct (get_or_download_model (mi_model m)) as [path|e]; [|by eexists].
  destruct (load_conv_template _) as [cv|e]; [|by eexists].
  destruct (model_library _ _ _ _ _) as [l|e]; [|by eexists].
  exists (conv, paths). by destruct conv.
Qed.

Lemma convert_models_spec c ms conv paths :
  ∃ s, st_map (_convert_model_info get_or_download_model load_conv_template is_file jit c) ms
      (conv, paths) =
    match map_m (resolve_model c) ms with
    | Ok rs => ((match conv with Some _ => conv | None => head rs.*2 end,
                 paths ++ (config_path <$> rs.*1.*1)), Ok rs.*1)
    | Err e => (s, Err e)
    end.
Proof.
  revert conv paths. induction ms as [|m ms IH]; intros conv paths.
  { exists (conv, paths). simpl. rewrite app_nil_r. by destruct conv. }
  cbn [st_map map_m]. unfold mbind at 1 2, stM_bind at 1 2.
  destruct (convert_model_info_spec c m conv paths) as (s & ->).
  destruct (resolve_model c m) as [[[p l] cv]|e]; [|by exists s].
  destruct (IH (Some (default cv conv)) (paths ++ [config_path p])) as (s' & ->).
  exists s'. simpl. destruct (map_m _ ms) as [rs|e]; [|done]. simpl.
  rewrite <-app_assoc. by destruct conv.
Qed.

(** The models are resolved in order, each to its path and library; the
    template is the one of the first model; the first failure is the result. *)
Theorem process_model_args_spec models c :
  _process_model_args get_or_download_model load_conv_template is_file jit models c =
    (rs ← map_m (resolve_model c) models;
     match rs with
     | [] => raise AssertionError "conversation is not None"
     | (_, conv) :: _ =>
         Ok (rs.*1, config_path <$> rs.*1.*1, conv)
     end).
Proof.
  unfold _process_model_args. destruct (convert_models_spec c models None []) as (s & ->).
  destruct (map_m _ models) as [[|[[p l] cv] rs]|e]; [done|done|]. simpl. by destruct s as [[]].
Qed.
End model_args.

(** ** Metrics: every number is reported once *)

Section metrics_spec.
Context (show_number : pyval → string).

(** The numeric leaves of a metrics tree, in the order of the tree, with the
    keys on their path joined by underscores. *)
Fixpoint metric_leaves (prefix : string) (v : pyval) : list (string * pyval) :=
  match v with
  | PDict d => mjoin ((λ '(k, x),
      if is_number x then [(prefix +:+ k, x)] else metric_leaves (prefix +:+ k +:+ "_") x) <$> d)
  | _ => []
  end.

Definition metric_line (kv : string * pyval) : string := kv.1 +:+ tab +:+ show_number kv.2.

(** The comments: one for each non-empty nested scope, with its path. *)
Fixpoint metric_comments (scope : string) (v : pyval) : list string :=
  match v with
  | PDict d => mjoin ((λ '(k, x),
      match x with
      | PDict (_ :: _) => (nl +:+ "# " +:+ scope +:+ "/" +:+ k) :: metric_comments (scope +:+ "/" +:+ k) x
      | _ => []
      end) <$> d)
  | _ => []
  end.

Lemma mjoin_partition {A B} (f g : A → list B) (l : list A) :
  mjoin (f <$> l) ++ mjoin (g <$> l) ≡ₚ mjoin ((λ x, f x ++ g x) <$> l).
Proof.
  induction l as [|x l IH]; [done|]. simpl. rewrite <-IH. solve_Permutation.
Qed.

Lemma mjoin_Permutation {A B} (f g : A → list B) (l : list A) :
  Forall (λ x, f x ≡ₚ g x) l → mjoin (f <$> l) ≡ₚ mjoin (g <$> l).
Proof. induction 1 as [|x l Hx Hl IH]; [done|]. simpl. by rewrite Hx, IH. Qed.

Lemma fmap_mjoin {A B C} (h : B → C) (f : A → list B) (l : list A) :
  h <$> mjoin (f <$> l) = mjoin ((λ x, h <$> f x) <$> l).
Proof. induction l as [|x l IH]; [done|]. simpl. rewrite fmap_app. f_equal. exact IH. Qed.

Lemma traverse_leaves v : ∀ scope prefix,
  traverse show_number scope prefix v ≡ₚ
    (match v with
     | PDict _ => if decide (scope = "") then [] else [nl +:+ "# " +:+ scope]
     | _ => [] end)
    ++ metric_comments scope v ++ (metric_line <$> metric_leaves prefix v).
Proof.
  induction v as [| | | | |l|d IH] using pyval_ind_nested; intros scope prefix; try done.
  cbn [traverse metric_comments metric_leaves]. apply Permutation_app_head.
  rewrite fmap_mjoin, !mjoin_partition.
  apply mjoin_Permutation. eapply Forall_impl; [exact IH|]. intros [k x] Hx.
  destruct x as [| | | | |l|[|kx d']];
    try (unfold metric_line; simpl; rewrite ?append_assoc; done).
  cbn [is_number app].
  rewrite (Hx (scope +:+ "/" +:+ k) (prefix +:+ k +:+ "_")).
  rewrite decide_False by (by destruct scope). done.
Qed.

(** The Prometheus text has three header lines, one comment per non-empty
    nested scope, and one line per numeric leaf of the metrics, with the keys on
    its path joined by underscores; nothing is dropped or reported twice. *)
Theorem prometheus_text_spec metrics :
  ∃ lines, prometheus_text show_number metrics = py_join nl (metrics_header ++ lines) ∧
    lines ≡ₚ metric_comments "" metrics ++ (metric_line <$> metric_leaves "" metrics).
Proof.
  eexists. split; [reflexivity|]. rewrite traverse_leaves. by destruct metrics.
Qed.
End metrics_spec.

(** ** Witnesses *)

Definition one_logprob : LogProbsContent := {| lp_token := "a"; lp_logprob := Fin 0;
  lp_bytes := None; lp_top_logprobs := [] |}.
Definition toy_logprob (s : string) : result LogProbsContent := Ok one_logprob.
Definition toy_usage_value : CompletionUsage := {| prompt_tokens := 1; completion_tokens := 2;
  total_tokens := 3; extra := None |}.
Definition toy_usage (s : string) : result CompletionUsage := Ok toy_usage_value.
Definition user_message (text : string) : ChatCompletionMessage :=
  Build_ChatCompletionMessage (CStr text) "user" None None None.
Definition toy_engine : EngineState unit := mkState None ∅ ∅ [] [].
Definition toy_delta (text : string) (fr : option string) : CallbackStreamOutput :=
  Build_CallbackStreamOutput text None fr None.

(** A detokenizer that prints nothing, to run the request functions. *)
#[local] Instance silent_streamer : TextStreamer unit := {|
  ts_new := tt; ts_put _ t := (t, ""); ts_finish t := (t, ""); ts_decode _ := "";
|}.

Lemma chat_chunk_spec_witness :
  ∃ e', process_chat_completion_stream_output (T:=unit) toy_logprob toy_usage
          [toy_delta "hi" (Some "stop")] (chat_request [user_message "a"] None TCNone None) "id" true
          (toy_engine, [None]) =
      ((e', [Some "tool_calls"]),
       Ok (Some (Build_ChatResponse "id"
             [Build_ChatChoice 0 (Some "tool_calls") (assistant_message "hi") None] (Some "m") None)))
    ∧ same_but_trace toy_engine e'.
Proof.
  apply (chat_chunk_spec toy_logprob toy_usage (chat_request [user_message "a"] None TCNone None)
    "id" true toy_engine [None] [toy_delta "hi" (Some "stop")]).
  split; [done|simpl; lia|done|repeat constructor|repeat constructor| |].
  - by repeat constructor.
  - constructor; [|constructor]. intros r [= <-]. cbn. set_solver.
Defined.

Definition completion_request (prompt : completion_prompt) (echo : bool) (suffix : option string)
    (stream : bool) : CompletionRequest := {|
  c_model := Some "m"; c_prompt := prompt; c_best_of := 1; c_echo := echo;
  c_frequency_penalty := None; c_presence_penalty := None; c_logprobs := None;
  c_logit_bias := None; c_max_tokens := None; c_n := 1; c_seed := None; c_stop := None;
  c_stream := stream; c_stream_options := None; c_suffix := suffix; c_temperature := None;
  c_top_p := None; c_user := None; c_response_format := None; c_debug_config := None;
|}.

Lemma completion_chunk_spec_witness :
  ∃ e', process_completion_stream_output (T:=unit) toy_logprob toy_usage
          [toy_delta "" (Some "length")] (completion_request (CPStr "a") false None true) "id"
          (toy_engine, [None]) =
      ((e', [Some "length"]),
       Ok (Some (Build_CompletionResponse "id"
             [Build_CompletionChoice 0 (Some "length") None ""] (Some "m") None)))
    ∧ same_but_trace toy_engine e'.
Proof.
  apply (completion_chunk_spec toy_logprob toy_usage (completion_request (CPStr "a") false None true)
    "id" toy_engine [None] [toy_delta "" (Some "length")]).
  split; [done|simpl; lia|done|repeat constructor|repeat constructor| |].
  - by repeat constructor.
  - constructor; [|constructor]. intros r [= <-]. cbn. set_solver.
Defined.

Lemma chat_usage_spec_witness :
  ∃ e', process_chat_completion_stream_output (T:=unit) toy_logprob toy_usage
          [usage_output (Some "{}")] (chat_request [user_message "a"] None TCNone None) "id" false
          (toy_engine, [Some "stop"]) =
      ((e', [Some "stop"]), Ok (Some (Build_ChatResponse "id" [] (Some "m") (Some toy_usage_value))))
    ∧ same_but_trace toy_engine e'.
Proof.
  apply (chat_usage_spec toy_logprob toy_usage (chat_request [user_message "a"] None TCNone None)
    "id" false toy_engine [Some "stop"] (usage_output (Some "{}")) "{}"); reflexivity.
Defined.

Lemma completion_usage_spec_witness :
  ∃ e', process_completion_stream_output (T:=unit) toy_logprob toy_usage
          [usage_output (Some "{}")] (completion_request (CPStr "a") false None true) "id"
          (toy_engine, [Some "stop"]) =
      ((e', [Some "stop"]), Ok None)
    ∧ same_but_trace toy_engine e'.
Proof.
  apply (completion_usage_spec toy_logprob toy_usage (completion_request (CPStr "a") false None true)
    "id" toy_engine [Some "stop"] (usage_output (Some "{}")) "{}" toy_usage_value); reflexivity.
Defined.

Lemma chat_request_spec_witness :
  ∃ s' cfg rq, process_chat_completion_request (T:=unit) no_images (λ _, 0) fn_name (λ _, "all")
      (chat_request [user_message "Hi"] None TCNone None) "id" [] (λ s, [Z.of_nat (String.length s)])
      100 (chatml [] "") toy_engine =
    (s', Ok ([Tokens [88%Z]], cfg, false, 1%Z, rq)) ∧ same_but_trace toy_engine s'.
Proof.
  destruct (chat_request_spec (T:=unit) no_images (λ _, 0) fn_name (λ _, "all")
    (chat_request [user_message "Hi"] None TCNone None) "id" []
    (λ s, [Z.of_nat (String.length s)]) 100 (chatml [] "")
    (with_function_calling false "" (chatml [] "")) ["<|im_end|>"] toy_engine)
    as (s' & r & Hr & Hs & Hspec).
  - reflexivity.
  - reflexivity.
  - reflexivity.
  - by repeat constructor.
  - reflexivity.
  - repeat constructor; by eexists.
  - rewrite Hr. vm_compute in Hspec. exists s'. rewrite Hspec. by do 2 eexists.
Defined.
