(* ===== verification/Engine.v ===== *)
(** The engines: [AsyncMLCEngine] and [MLCEngine] of
    [python/mlc_llm/serve/engine.py].

    A generator is modelled by the loop that consumes it: the consumer's body
    runs at each [yield], and an exception of the body is what closes the
    generator there. The environment of a generator is a schedule: what the
    engine's callback delivers and when the consumer resumes (asynchronous
    engine), or the entries the output queue receives (synchronous engine). *)

From stdpp Require Import base gmap strings list.
From S2P Require Import Prelude PyString Conversation OpenAIProtocol EngineUtils StreamBase EngineBase.

(** ** The world of an engine *)

(** The calls into the C++ engine. *)
Inductive ffi_call (Img : Type) :=
  | FCreate (request_id : string) (input : list (Data Img)) (cfg : GenerationConfig)
  | FAdd (request_id : string)
  | FAbort (request_id : string).
Arguments FCreate {Img}.
Arguments FAdd {Img}.
Arguments FAbort {Img}.

Section engine.
Context {T Img : Type} `{TextStreamer T}.

Record World := mkWorld {
  w_engine : EngineState T;
  w_ffi : list (ffi_call Img);
  w_terminated : bool;
}.

Definition set_engine (e : EngineState T) (w : World) : World :=
  mkWorld e (w_ffi w) (w_terminated w).
Definition on_state {A} (m : stM (EngineState T) A) : stM World A := λ w,
  let '(e, r) := m (w_engine w) in (set_engine e w, r).
Definition ffi (c : ffi_call Img) : stM World unit :=
  st_modify (λ w, mkWorld (w_engine w) (w_ffi w ++ [c]) (w_terminated w)).

(** [AsyncMLCEngine._abort] and [MLCEngine.abort]. *)
Definition _abort (request_id : string) : stM World unit :=
  _ ← on_state (st_modify (λ e, set_streamers (delete request_id (async_streamers e)) e));
  ffi (FAbort request_id).
Definition abort (request_id : string) : stM World unit := ffi (FAbort request_id).

(** ** Generators

    A run of a generator may be unfinished ([None]): it waits for outputs. *)
Section generate.
Context {L : Type} (body : list CallbackStreamOutput → stM (World * L) unit).

Definition run_with_cleanup (cleanup : stM World unit)
    (run : World * L → (World * L) * option (result unit)) : World * L → (World * L) * option (result unit) := λ s,
  match run s with
  | (s1, Some (Err e)) =>
      match cleanup s1.1 with
      | (w2, Ok _) => ((w2, s1.2), Some (Err e))
      | (w2, Err e') => ((w2, s1.2), Some (Err e'))
      end
  | out => out
  end.

(** What happens next in the event loop: a callback, or the consumer. *)
Inductive event :=
  | Deliver (ds : list RequestStreamOutput)
  | Resume.

(** [async for request_output in stream: yield request_output]. An exception in
    a callback is not seen by the consumer. *)
Fixpoint read_stream (loc : nat) (sched : list event) (s : World * L) :
    (World * L) * option (result unit) :=
  match sched with
  | [] => (s, None)
  | Deliver ds :: sched =>
      let '(e, _) := _async_request_stream_callback_impl ds (w_engine s.1) in
      read_stream loc sched (set_engine e s.1, s.2)
  | Resume :: sched =>
      match streams (w_engine s.1) !! loc with
      | None => (s, None)
      | Some st =>
          match stream_anext st with
          | None => read_stream loc sched s
          | Some (st', r) =>
              let e := w_engine s.1 in
              let s' := (set_engine (set_streams (<[loc := st']> (streams e)) e) s.1, s.2) in
              match r with
              | AStop => (s', Some (Ok tt))
              | ARaise ex => (s', Some (Err ex))
              | AValue l =>
                  match body l s' with
                  | (s'', Ok _) => read_stream loc sched s''
                  | (s'', Err ex) => (s'', Some (Err ex))
                  end
              end
          end
      end
  end.

Definition duplicate_id : exn := Exn RuntimeError
  "The request id {request_id} already exists. Please make sure the request id is unique.".

(** The part of [AsyncMLCEngine._generate] before its loop: the location of the
    request's stream. *)
Definition start_generate (prompt : pyprompt Img) (cfg : GenerationConfig) (request_id : string) :
    stM World nat :=
  w ← st_get;
  _ ← st_lift (raise_when (w_terminated w) ValueError "The AsyncThreadedEngine has terminated.");
  input_data ← st_lift (convert_prompts_to_data prompt);
  _ ← ffi (FCreate request_id input_data cfg);
  let e := w_engine w in
  let loc := fresh (dom (streams e)) in
  match async_streamers e !! request_id with
  | Some _ =>
      _ ← on_state (st_modify (λ e,
            set_streams (<[loc := stream_push (QExn duplicate_id) new_stream]> (streams e)) e));
      mret loc
  | None =>
      _ ← on_state (st_modify (λ e,
            set_streamers (<[request_id := (loc, replicate (g_n cfg) ts_new)]> (async_streamers e))
              (set_streams (<[loc := new_stream]> (streams e)) e)));
      _ ← ffi (FAdd request_id);
      mret loc
  end.

(** [AsyncMLCEngine._generate]. *)
Definition async_generate (sched : list event) (prompt : pyprompt Img) (cfg : GenerationConfig)
    (request_id : string) (s : World * L) : (World * L) * option (result unit) :=
  match start_generate prompt cfg request_id s.1 with
  | (w, Err e) => ((w, s.2), Some (Err e))
  | (w, Ok loc) => run_with_cleanup (_abort request_id) (read_stream loc sched) (w, s.2)
  end.

(** [for request_output in request_outputs: yield request_output]. *)
Definition yield_all (outs : list (list CallbackStreamOutput)) : stM (World * L) unit :=
  st_iter body outs.

(** The [while True] loop of [MLCEngine._generate], on the entries its output
    queue receives. *)
Fixpoint read_queue (arrivals : list (list RequestStreamOutput)) (s : World * L) :
    (World * L) * option (result unit) :=
  match arrivals with
  | [] => (s, None)
  | ds :: arrivals =>
      match _request_stream_callback_impl ds (w_engine s.1) with
      | (e, Err ex) => ((set_engine e s.1, s.2), Some (Err ex))
      | (e, Ok (outs, usage)) =>
          match yield_all outs (set_engine e s.1, s.2) with
          | (s', Err ex) => (s', Some (Err ex))
          | (s', Ok _) =>
              match usage with
              | None => read_queue arrivals s'
              | Some u =>
                  match body [usage_output (Some u)] s' with
                  | (s'', Ok _) => (s'', Some (Ok tt))
                  | (s'', Err ex) => (s'', Some (Err ex))
                  end
              end
          end
      end
  end.

(** [MLCEngine._generate]. *)
Definition sync_start (prompt : pyprompt Img) (cfg : GenerationConfig) (request_id : string) :
    stM World unit :=
  w ← st_get;
  _ ← st_lift (raise_when (w_terminated w) ValueError "The engine has terminated.");
  input_data ← st_lift (convert_prompts_to_data prompt);
  _ ← ffi (FCreate request_id input_data cfg);
  _ ← on_state (st_modify (set_sync [] (replicate (g_n cfg) ts_new)));
  ffi (FAdd request_id).

Definition sync_generate (arrivals : list (list RequestStreamOutput)) (prompt : pyprompt Img)
    (cfg : GenerationConfig) (request_id : string) (s : World * L) :
    (World * L) * option (result unit) :=
  match sync_start prompt cfg request_id s.1 with
  | (w, Err e) => ((w, s.2), Some (Err e))
  | (w, Ok _) => run_with_cleanup (abort request_id) (read_queue arrivals) (w, s.2)
  end.
End generate.
End engine.
Arguments World T Img : clear implicits.

(** ** Request handlers *)

Section handlers.
Context {T Img : Type} `{TextStreamer T}.
Context (from_url : string → list (string * pyval) → result Img) (embed_size : Img → nat)
  (function_json : ChatFunction → string) (functions_json : list ChatFunction → string)
  (parse_logprob : string → result LogProbsContent)
  (parse_usage : string → result CompletionUsage).
(** The engine object: the tokenizer, the model's configuration, its input
    limit and template. *)
Context (encode : string → list Z) (decode : list Z → string)
  (model_config : list (string * pyval)) (max_input_sequence_length : Z)
  (conv_template : Conversation).

(** A [_generate] method, for consumers with a local state [L]. *)
Definition generator : Type := ∀ L,
  (list CallbackStreamOutput → stM (World T Img * L) unit) → pyprompt Img → GenerationConfig →
  string → World T Img * L → (World T Img * L) * option (result unit).

Definition async_gen (sched : list event) : generator :=
  λ L body, async_generate body sched.
Definition sync_gen (arrivals : list (list RequestStreamOutput)) : generator :=
  λ L body, sync_generate body arrivals.

(** [response.usage.extra = None]. *)
Definition strip_usage (u : CompletionUsage) : CompletionUsage :=
  Build_CompletionUsage (prompt_tokens u) (completion_tokens u) (total_tokens u) None.
Definition strip_chat (include_extra : bool) (r : ChatResponse) : ChatResponse :=
  if include_extra then r
  else Build_ChatResponse (cr_id r) (cr_choices r) (cr_model r) (strip_usage <$> cr_usage r).
Definition strip_completion (include_extra : bool) (r : CompletionResponse) : CompletionResponse :=
  if include_extra then r
  else Build_CompletionResponse (pr_id r) (pr_choices r) (pr_model r) (strip_usage <$> pr_usage r).

Section consumer.
(** The client of the handler's generator: its state, and what it does with a
    response. *)
Context {C : Type}.

(** The state of a handler: the finish reasons, and its client's state. *)
Abbreviation local := (list (option string) * C)%type.

Definition deliver {R} (y : R → stM C unit) (r : R) : stM (World T Img * local) unit := λ s,
  let '(c, res) := y r s.2.2 in ((s.1, (s.2.1, c)), res).

(** The body of the chat handler's loop. *)
Definition chat_body (y : ChatResponse → stM C unit) (request : ChatCompletionRequest)
    (request_id : string) (use_function_calling include_extra : bool)
    (delta_outputs : list CallbackStreamOutput) : stM (World T Img * local) unit := λ s,
  let '((e, frs), r) := process_chat_completion_stream_output parse_logprob parse_usage
    delta_outputs request request_id use_function_calling (w_engine s.1, s.2.1) in
  let s := (set_engine e s.1, (frs, s.2.2)) in
  match r with
  | Err ex => (s, Err ex)
  | Ok None => (s, Ok tt)
  | Ok (Some response) => deliver y (strip_chat include_extra response) s
  end.

Definition completion_body (y : CompletionResponse → stM C unit) (request : CompletionRequest)
    (request_id : string) (include_extra : bool) (delta_outputs : list CallbackStreamOutput) :
    stM (World T Img * local) unit := λ s,
  let '((e, frs), r) := process_completion_stream_output parse_logprob parse_usage
    delta_outputs request request_id (w_engine s.1, s.2.1) in
  let s := (set_engine e s.1, (frs, s.2.2)) in
  match r with
  | Err ex => (s, Err ex)
  | Ok None => (s, Ok tt)
  | Ok (Some response) => deliver y (strip_completion include_extra response) s
  end.

(** Continue after a generator that ended normally. *)
Definition after_loop {S} (out : S * option (result unit)) (k : stM S unit) :
    S * option (result unit) :=
  match out with
  | (s, Some (Ok _)) => let '(s, r) := k s in (s, Some r)
  | out => out
  end.

Definition trace_event (request_id ev : string) : stM (World T Img * local) unit := λ s,
  let '(w, r) := on_state (record_event request_id ev) s.1 in ((w, s.2), r).

(** [_handle_chat_completion]; the synchronous engine keeps the usage as it
    is. *)
Definition _handle_chat_completion (gen : generator) (y : ChatResponse → stM C unit)
    (request : ChatCompletionRequest) (request_id : string) (include_extra : bool)
    (s : World T Img * C) : (World T Img * local) * option (result unit) :=
  match on_state (process_chat_completion_request from_url embed_size function_json functions_json
          request request_id model_config encode max_input_sequence_length conv_template) s.1 with
  | (w, Err ex) => ((w, ([], s.2)), Some (Err ex))
  | (w, Ok (prompts, generation_cfg, use_function_calling, _, _)) =>
      let '(s1, _) := trace_event request_id "invoke generate"
                        (w, (replicate (g_n generation_cfg) None, s.2)) in
      after_loop
        (gen local (chat_body y request request_id use_function_calling include_extra)
           (PrList (prompt_arg <$> prompts)) generation_cfg request_id s1)
        (trace_event request_id "finish")
  end.

(** [_handle_completion]. *)
Definition _handle_completion (gen : generator) (y : CompletionResponse → stM C unit)
    (request : CompletionRequest) (request_id : string) (include_extra : bool)
    (s : World T Img * C) : (World T Img * local) * option (result unit) :=
  match on_state (process_completion_request (Img:=Img) embed_size request request_id
          encode decode max_input_sequence_length conv_template) s.1 with
  | (w, Err ex) => ((w, ([], s.2)), Some (Err ex))
  | (w, Ok (prompt, generation_cfg, _, echo_response, _)) =>
      let s0 := (w, (replicate (g_n generation_cfg) None, s.2)) in
      match (match echo_response with Some r => deliver y r s0 | None => (s0, Ok tt) end) with
      | (s1, Err ex) => (s1, Some (Err ex))
      | (s1, Ok _) =>
          let '(s2, _) := trace_event request_id "invoke generate" s1 in
          after_loop
            (gen local (completion_body y request request_id include_extra)
               (PrList (PrInt <$> prompt)) generation_cfg request_id s2)
            (λ s, (suffix ← st_lift (create_completion_suffix_response request request_id s.2.1);
                   _ ← match suffix with Some r => deliver y r | None => mret tt end;
                   trace_event request_id "finish") s)
      end
  end.
End consumer.

(** ** Non-streaming responses *)

(** The accumulators of [_chat_completion]. *)
Record ChatAcc := mkChatAcc {
  ca_texts : list string;
  ca_reasons : list (option string);
  ca_logprobs : option (list (list LogProbsContent));
  ca_usage : option CompletionUsage;
}.

(** [output_texts[i] += text]. *)
Definition append_text (l : list string) (i : nat) (text : string) : result (list string) :=
  old ← py_index l i; py_setitem l i (old +:+ text).

(** Set the finish reason of generation [i] if it has none. *)
Definition set_first_reason (l : list (option string)) (i : nat) (fr : option string) :
    result (list (option string)) :=
  match fr with
  | None => Ok l
  | Some r =>
      old ← py_index l i;
      match old with None => py_setitem l i (Some r) | Some _ => Ok l end
  end.

Definition add_chat_choice (c : ChatChoice) (a : ChatAcc) : result ChatAcc :=
  match m_content (cc_message c) with
  | CStr text =>
      texts ← append_text (ca_texts a) (cc_index c) text;
      reasons ← set_first_reason (ca_reasons a) (cc_index c) (cc_finish_reason c);
      lps ← match cc_logprobs c with
            | None => Ok (ca_logprobs a)
            | Some ls =>
                match ca_logprobs a with
                | None => raise AssertionError "logprob_results is not None"
                | Some all => old ← py_index all (cc_index c);
                              all' ← py_setitem all (cc_index c) (old ++ ls); Ok (Some all')
                end
            end;
      Ok (mkChatAcc texts reasons lps (ca_usage a))
  | _ => raise AssertionError "isinstance(choice.delta.content, str)"
  end.

(** A pure update of the client's state that may raise. *)
Definition update_with {S A} (f : A → S → result S) (a : A) : stM S unit := λ s,
  match f a s with Ok s' => (s', Ok tt) | Err e => (s, Err e) end.

Definition consume_chat (r : ChatResponse) : stM ChatAcc unit :=
  match cr_usage r with
  | Some u => st_modify (λ a, mkChatAcc (ca_texts a) (ca_reasons a) (ca_logprobs a) (Some u))
  | None => st_iter (update_with add_chat_choice) (cr_choices r)
  end.

Context {Node : Type} (ast_parse : string → result (call_ast Node))
  (literal_eval : string → result pyval) (literal_eval_node : Node → result pyval)
  (new_call_id : nat → nat → string).

(** [_chat_completion] of a request that does not stream ([None]: it is still
    waiting for the engine). *)
Definition _chat_completion (gen : generator) (request : ChatCompletionRequest)
    (request_id : string) (w : World T Img) : World T Img * option (result ChatResponse) :=
  match validate_chat request with
  | Err ex => (w, Some (Err ex))
  | Ok _ =>
      let start := mkChatAcc (replicate (r_n request) "") (replicate (r_n request) None)
                     (if r_logprobs request then Some (replicate (r_n request) []) else None) None in
      match _handle_chat_completion gen consume_chat request request_id true (w, start) with
      | (s, None) => (s.1, None)
      | (s, Some (Err ex)) => (s.1, Some (Err ex))
      | (s, Some (Ok _)) =>
          let a := s.2.2 in
          (s.1, Some (
            _ ← py_assert (forallb (λ r, bool_decide (is_Some r)) (ca_reasons a))
                  "all(finish_reason is not None for finish_reason in finish_reasons)";
            let '(out, r) := process_function_call_output ast_parse literal_eval literal_eval_node
                               new_call_id (ca_texts a) (ca_reasons a) in
            use_function_calling ← r;
            wrap_chat_completion_response request_id (r_model request) (co_texts out)
              (co_reasons out) (co_calls out) (ca_logprobs a) use_function_calling (ca_usage a)))
      end
  end.

(** The accumulators of [_completion]. *)
Record CompletionAcc := mkCompletionAcc {
  pa_texts : list string;
  pa_reasons : list (option string);
  pa_logprobs : list (option CompletionLogProbs);
  pa_usage : option CompletionUsage;
}.

(** The logprobs of a chunk replace the earlier ones. *)
Definition add_completion_choice (c : CompletionChoice) (a : CompletionAcc) : result CompletionAcc :=
  texts ← append_text (pa_texts a) (pc_index c) (pc_text c);
  reasons ← set_first_reason (pa_reasons a) (pc_index c) (pc_finish_reason c);
  lps ← match pc_logprobs c with
        | None => Ok (pa_logprobs a)
        | Some l => py_setitem (pa_logprobs a) (pc_index c) (Some l)
        end;
  Ok (mkCompletionAcc texts reasons lps (pa_usage a)).

Definition consume_completion (r : CompletionResponse) : stM CompletionAcc unit :=
  match pr_usage r with
  | Some u => st_modify (λ a, mkCompletionAcc (pa_texts a) (pa_reasons a) (pa_logprobs a) (Some u))
  | None => st_iter (update_with add_completion_choice) (pr_choices r)
  end.

(** [_completion] of a request that does not stream. *)
Definition _completion (gen : generator) (request : CompletionRequest) (request_id : string)
    (w : World T Img) : World T Img * option (result CompletionResponse) :=
  match validate_completion request with
  | Err ex => (w, Some (Err ex))
  | Ok _ =>
      let start := mkCompletionAcc (replicate (c_n request) "") (replicate (c_n request) None)
                     (replicate (c_n request) None) None in
      match _handle_completion gen consume_completion request request_id true (w, start) with
      | (s, None) => (s.1, None)
      | (s, Some (Err ex)) => (s.1, Some (Err ex))
      | (s, Some (Ok _)) =>
          let a := s.2.2 in
          (s.1, Some (
            _ ← py_assert (forallb (λ r, bool_decide (is_Some r)) (pa_reasons a))
                  "all(finish_reason is not None for finish_reason in finish_reasons)";
            wrap_completion_response request_id (c_model request) (pa_texts a) (pa_reasons a)
              (pa_logprobs a) (pa_usage a)))
      end
  end.

(** The methods of [MLCEngine], which have the code of [AsyncMLCEngine]'s but
    read the output queue and keep the usage as it is. *)
Definition sync_handle_chat_completion {C} (arrivals : list (list RequestStreamOutput))
    (y : ChatResponse → stM C unit) (request : ChatCompletionRequest) (request_id : string) :=
  _handle_chat_completion (sync_gen arrivals) y request request_id true.
Definition sync_handle_completion {C} (arrivals : list (list RequestStreamOutput))
    (y : CompletionResponse → stM C unit) (request : CompletionRequest) (request_id : string) :=
  _handle_completion (sync_gen arrivals) y request request_id true.
Definition sync_chat_completion (arrivals : list (list RequestStreamOutput)) :=
  _chat_completion (sync_gen arrivals).
Definition sync_completion (arrivals : list (list RequestStreamOutput)) :=
  _completion (sync_gen arrivals).
End handlers.

(** ** The generators: specification *)

Section generator_spec.
Context {T Img : Type} `{TextStreamer T} {L : Type}.
Implicit Types (w : World T Img) (e : EngineState T).

(** Two worlds that differ in the engine's trace only. *)
Definition same_world w w' : Prop :=
  ∃ e', w' = set_engine e' w ∧ same_but_trace (w_engine w) e'.

#[export] Instance same_world_preorder : PreOrder same_world.
Proof.
  split.
  - intros w. exists (w_engine w). by destruct w.
  - intros w1 w2 w3 (e2 & -> & H2) (e3 & -> & H3). exists e3. split; [done|]. by transitivity e2.
Qed.

(** What a consumer makes of a sequence of items: its final state, and the
    exception it stopped with, if any. In any world it only adds to the
    trace. *)
Inductive runs (body : list CallbackStreamOutput → stM (World T Img * L) unit) :
    list (list CallbackStreamOutput) → L → L → result unit → Prop :=
  | runs_nil l : runs body [] l l (Ok tt)
  | runs_cons x xs l l1 l' r :
      (∀ w, ∃ w', body x (w, l) = ((w', l1), Ok tt) ∧ same_world w w') →
      runs body xs l1 l' r → runs body (x :: xs) l l' r
  | runs_stop x xs l l1 ex :
      (∀ w, ∃ w', body x (w, l) = ((w', l1), Err ex) ∧ same_world w w') →
      runs body (x :: xs) l l1 (Err ex).

Lemma runs_app body xs ys l l1 l' r :
  runs body xs l l1 (Ok tt) → runs body ys l1 l' r → runs body (xs ++ ys) l l' r.
Proof.
  intros Hx Hy. remember (Ok tt) as o eqn:Ho. induction Hx; simplify_eq; [done|].
  simpl. by eapply runs_cons; [|auto].
Qed.

(** The deliveries of a schedule, in order. *)
Fixpoint delivered (sched : list event) : list RequestStreamOutput :=
  match sched with
  | [] => []
  | Deliver ds :: sched => ds ++ delivered sched
  | Resume :: sched => delivered sched
  end.

(** A delivery for another request. *)
Definition foreign (id : string) (d : RequestStreamOutput) : Prop :=
  ∃ id' b, unpack d = Ok (id', b) ∧ id' ≠ id ∧ b ≠ [].

(** [ds] delivers the batches [bs] of request [id] in order, mixed with
    deliveries for other requests; [fin] tells whether the final chunk, with
    usage [u], is part of it. *)
Inductive delivers (id u : string) :
    list RequestStreamOutput → list (list SingleRequestStreamOutput) → Prop :=
  | delivers_final d o rest :
      unpack d = Ok (id, [o]) → so_final_usage_json_str o = Some u →
      Forall (foreign id) rest → delivers id u (d :: rest) []
  | delivers_chunk d b ds bs :
      unpack d = Ok (id, b) → normal_batch b → delivers id u ds bs →
      delivers id u (d :: ds) (b :: bs)
  | delivers_foreign d ds bs :
      foreign id d → delivers id u ds bs → delivers id u (d :: ds) bs.

(** No other request uses the stream at [loc]. *)
Definition owned id loc e : Prop :=
  ∀ id' loc' ts, id' ≠ id → async_streamers e !! id' = Some (loc', ts) → loc' ≠ loc.

(** The request is registered with its streamers and the queue of its stream
    holds the items [q]. *)
Definition registered id loc ts q e : Prop :=
  async_streamers e !! id = Some (loc, ts) ∧
  streams e !! loc = Some (mkStream (QOutputs <$> q) false) ∧ owned id loc e.

(** The final chunk was delivered: the queue ends with the end of stream. *)
Definition completed id loc q e : Prop :=
  async_streamers e !! id = None ∧
  streams e !! loc = Some (mkStream ((QOutputs <$> q) ++ [QStop]) true) ∧ owned id loc e.

Lemma registered_trace id loc ts q e e' :
  same_but_trace e e' → registered id loc ts q e → registered id loc ts q e'.
Proof. by intros [t ->]. Qed.
Lemma completed_trace id loc q e e' :
  same_but_trace e e' → completed id loc q e → completed id loc q e'.
Proof. by intros [t ->]. Qed.

(** A delivery for another request does not touch ours. *)
Lemma foreign_callback id loc d e :
  foreign id d → owned id loc e →
  ∃ e', async_callback_one d e = (e', Ok tt) ∧
    async_streamers e' !! id = async_streamers e !! id ∧
    streams e' !! loc = streams e !! loc ∧ owned id loc e'.
Proof.
  intros (id' & b & Hd & Hne & Hb) Hown. unfold async_callback_one, mbind, stM_bind, st_lift, st_get.
  rewrite Hd. destruct (async_streamers e !! id') as [[loc' ts]|] eqn:Es; [|by exists e].
  pose proof (Hown id' loc' ts Hne Es) as Hloc.
  destruct (record_event_same id' "start callback" e) as (e1 & -> & [t1 ->]).
  destruct b as [|o b]; [done|]. unfold py_index. cbn [lookup list_lookup].
  destruct (so_final_usage_json_str o) as [u|].
  - eexists; split; [done|]. simpl. split_and!; [by apply lookup_delete_ne|by apply lookup_alter_ne|].
    intros id2 loc2 ts2 Hne2. simpl. intros [_ Hl]%lookup_delete_Some. by eapply Hown.
  - destruct (callback_outputs_pure id' (o :: b) ts (set_trace t1 e)) as (e2 & -> & [t2 ->]).
    destruct (outputs_pure (o :: b) ts) as [ts' outs]. unfold st_modify at 1.
    destruct (record_event_same id' "finish callback"
      (after_chunk id' loc' ts' outs (set_trace t2 (set_trace t1 e)))) as (e3 & E & [t3 ->]).
    eexists; split; [exact E|]. simpl. split_and!; [by apply lookup_insert_ne|by apply lookup_alter_ne|].
    intros id2 loc2 ts2 Hne2. simpl. intros [[<- [= <- <-]]|[_ Hl]]%lookup_insert_Some; [done|].
    by eapply Hown.
Qed.

(** The invariant of the loop: the items still to be consumed, given what is
    still to be delivered, are in the queue or come from the deliveries. *)
Inductive pending id loc u : list RequestStreamOutput → EngineState T →
    list (list CallbackStreamOutput) → Prop :=
  | pending_open ds bs ts q e :
      delivers id u ds bs → registered id loc ts q e →
      pending id loc u ds e (q ++ (batches_pure bs ts).2 ++ [[usage_output (Some u)]])
  | pending_done ds q e :
      Forall (foreign id) ds → completed id loc q e → pending id loc u ds e q.

Lemma pending_trace id loc u ds e e' items :
  same_but_trace e e' → pending id loc u ds e items → pending id loc u ds e' items.
Proof.
  intros Hs Hp. revert Hs. destruct Hp as [ds' bs ts q e1 Hd Hr|ds' q e1 Hd Hr]; intros Hs.
  - apply pending_open; [done|]. by eapply registered_trace.
  - apply pending_done; [done|]. by eapply completed_trace.
Qed.

Lemma pending_callback id loc u d ds e items :
  pending id loc u (d :: ds) e items →
  ∃ e', async_callback_one d e = (e', Ok tt) ∧ pending id loc u ds e' items.
Proof.
  intros Hp. inversion Hp as [ds' bs ts q e1 Hd Hr|ds' q e1 Hd Hr]; subst.
  - destruct Hr as (Hs & Hq & Hown).
    inversion Hd as [d' o rest Hu Hf Hrest|d' b ds' bs' Hu Hn Hds|d' ds' bs' Hfor Hds]; subst.
    + destruct (async_callback_final d id o u e loc ts Hu Hf Hs) as (e' & -> & [t ->]).
      eexists; split; [done|]. cbn [batches_pure snd app]. apply pending_done; [done|].
      split_and!; simpl; [by apply lookup_delete_eq| |].
      * rewrite lookup_alter_eq, Hq. simpl. unfold stream_push, stream_finish. simpl.
        by rewrite fmap_app.
      * intros id2 loc2 ts2 Hne2. simpl. intros [_ Hl]%lookup_delete_Some. by eapply Hown.
    + destruct (async_callback_chunk d id b e loc ts Hu Hn Hs) as (e' & -> & [t ->]).
      eexists; split; [done|]. cbn [batches_pure].
      destruct (outputs_pure b ts) as [ts1 outs] eqn:Eo.
      replace (q ++ (let '(ts2, rest) := batches_pure bs' ts1 in (ts2, outs :: rest)).2
               ++ [[usage_output (Some u)]])
        with ((q ++ [outs]) ++ (batches_pure bs' ts1).2 ++ [[usage_output (Some u)]])
        by (destruct (batches_pure bs' ts1); by rewrite <-app_assoc).
      apply pending_open; [done|]. split_and!; simpl; [by rewrite lookup_insert_eq| |].
      * rewrite lookup_alter_eq, Hq. simpl. unfold stream_push. simpl. by rewrite fmap_app.
      * intros id2 loc2 ts2 Hne2. simpl. intros [[? _]|[_ Hl]]%lookup_insert_Some; [done|].
        by eapply Hown.
    + destruct (foreign_callback id loc d e Hfor Hown) as (e' & -> & H1 & H2 & H3).
      exists e'. split; [done|]. eapply pending_open; [done|]. split_and!; [by rewrite H1|by rewrite H2|done].
  - destruct Hr as (Hs & Hq & Hown). apply Forall_cons in Hd as [Hfor Hd].
    destruct (foreign_callback id loc d e Hfor Hown) as (e' & -> & H1 & H2 & H3).
    exists e'. split; [done|]. apply pending_done; [done|]. split_and!; [by rewrite H1|by rewrite H2|done].
Qed.

Lemma pending_callbacks id loc u ds rest e items :
  pending id loc u (ds ++ rest) e items →
  ∃ e', _async_request_stream_callback_impl ds e = (e', Ok tt) ∧ pending id loc u rest e' items.
Proof.
  revert e. induction ds as [|d ds IH]; intros e Hp; [by exists e|].
  destruct (pending_callback _ _ _ _ _ _ _ Hp) as (e1 & H1 & Hp1).
  destruct (IH e1 Hp1) as (e2 & H2 & Hp2). exists e2. split; [|done].
  unfold _async_request_stream_callback_impl in *. by rewrite (st_iter_cons _ _ _ _ _ H1).
Qed.

(** Reading the queue while an item is in it. *)
Lemma pending_next id loc u ds e items :
  pending id loc u ds e items →
  ∃ st, streams e !! loc = Some st ∧
    match stream_anext st with
    | None => items ≠ [] ∧ ds ≠ []
    | Some (st', AValue x) => ∃ items', items = x :: items' ∧
        pending id loc u ds (set_streams (<[loc := st']> (streams e)) e) items'
    | Some (_, AStop) => items = [] ∧ async_streamers e !! id = None
    | Some (_, ARaise _) => False
    end.
Proof.
  intros Hp. destruct Hp as [ds bs ts q e Hd (Hs & Hq & Hown)|ds q e Hd (Hs & Hq & Hown)];
    eexists; (split; [exact Hq|]); destruct q as [|x q]; simpl.
  - split; [by destruct (batches_pure bs ts).2|]. by destruct Hd.
  - eexists; split; [done|]. apply pending_open; [done|]. split_and!; [done| |done].
    simpl. by rewrite lookup_insert_eq.
  - done.
  - eexists; split; [done|]. apply pending_done; [done|]. split_and!; [done| |done].
    simpl. by rewrite lookup_insert_eq.
Qed.

(** The loop, with any interleaving of deliveries and resumptions. *)
Lemma read_stream_spec body id loc u sched w l items l' r :
  pending id loc u (delivered sched) (w_engine w) items → runs body items l l' r →
  match read_stream body loc sched (w, l) with
  | (s, Some r') => r' = r ∧ s.2 = l' ∧ (r = Ok tt → async_streamers (w_engine s.1) !! id = None) ∧
                    w_ffi s.1 = w_ffi w
  | (s, None) => w_ffi s.1 = w_ffi w
  end.
Proof.
  revert w l items. induction sched as [|[ds|] sched IH]; intros w l items Hp Hr; [done| |].
  - cbn [read_stream delivered] in *.
    destruct (pending_callbacks _ _ _ _ _ _ _ Hp) as (e1 & H1 & Hp1). cbn [fst snd]. rewrite H1.
    by specialize (IH (set_engine e1 w) l items Hp1 Hr).
  - cbn [read_stream delivered] in *. cbn [fst snd].
    destruct (pending_next _ _ _ _ _ _ Hp) as (st & Hst & Hnext). rewrite Hst.
    destruct (stream_anext st) as [[st' [x|ex|]]|]; [|done| |by eapply IH].
    + destruct Hnext as (items' & -> & Hp'). inversion Hr as [|? ? ? l1 ? ? Hx Hrest|? ? ? l1 ex Hx]; subst.
      * destruct (Hx (set_engine (set_streams (<[loc:=st']> (streams (w_engine w))) (w_engine w)) w))
          as (w1 & Hb & (e1 & -> & He1)). rewrite Hb.
        match goal with |- context [read_stream body loc sched (?w', l1)] =>
          apply (IH w' l1 items'); [|done] end.
        by eapply pending_trace.
      * destruct (Hx (set_engine (set_streams (<[loc:=st']> (streams (w_engine w))) (w_engine w)) w))
          as (w1 & Hb & (e1 & -> & He1)). by rewrite Hb.
    + destruct Hnext as [-> Hnone]. inversion Hr; subst. done.
Qed.

(** Enough resumptions after the last delivery end the loop. *)
Lemma read_stream_terminates body id loc u sched w l items l' r n :
  pending id loc u (delivered sched) (w_engine w) items → runs body items l l' r →
  length items < n →
  is_Some (read_stream body loc (sched ++ replicate n Resume) (w, l)).2.
Proof.
  intros Hp Hr Hn. revert w l items n Hp Hr Hn.
  induction sched as [|[ds|] sched IH]; intros w l items n Hp Hr Hn.
  - cbn [app]. revert w l items Hp Hr Hn. induction n as [|n IHn]; intros w l items Hp Hr Hn; [lia|].
    cbn [replicate read_stream]. cbn [fst snd delivered] in *.
    destruct (pending_next _ _ _ _ _ _ Hp) as (st & Hst & Hnext). rewrite Hst.
    destruct (stream_anext st) as [[st' [x|ex|]]|]; [|done|by eexists|by destruct Hnext].
    destruct Hnext as (items' & -> & Hp'). simpl in Hn.
    inversion Hr as [|? ? ? l1 ? ? Hx Hrest|? ? ? l1 ex Hx]; subst;
      destruct (Hx (set_engine (set_streams (<[loc:=st']> (streams (w_engine w))) (w_engine w)) w))
          as (w1 & Hb & (e1 & -> & He1)); rewrite Hb; [|by eexists].
    apply (IHn _ l1 items'); [|done|lia]. by eapply pending_trace.
  - cbn [read_stream delivered app] in *. 
    destruct (pending_callbacks _ _ _ _ _ _ _ Hp) as (e1 & H1 & Hp1). cbn [fst snd]. rewrite H1.
    by apply (IH _ l items).
  - cbn [read_stream delivered app] in *. cbn [fst snd].
    destruct (pending_next _ _ _ _ _ _ Hp) as (st & Hst & Hnext). rewrite Hst.
    destruct (stream_anext st) as [[st' [x|ex|]]|]; [|done|by eexists|by eapply IH].
    destruct Hnext as (items' & -> & Hp'). simpl in Hn.
    inversion Hr as [|? ? ? l1 ? ? Hx Hrest|? ? ? l1 ex Hx]; subst;
      destruct (Hx (set_engine (set_streams (<[loc:=st']> (streams (w_engine w))) (w_engine w)) w))
          as (w1 & Hb & (e1 & -> & He1)); rewrite Hb; [|by eexists].
    apply (IH _ l1 items'); [|done|lia]. by eapply pending_trace.
Qed.

(** The streams of the registered requests exist. *)
Definition wf_streams e : Prop :=
  ∀ id loc ts, async_streamers e !! id = Some (loc, ts) → is_Some (streams e !! loc).

(** The items a complete request delivers: the detokenized outputs of each
    batch, then the usage. *)
Definition chunk_items (n : nat) (bs : list (list SingleRequestStreamOutput)) (u : string) :
    list (list CallbackStreamOutput) :=
  (batches_pure bs (replicate n ts_new)).2 ++ [[usage_output (Some u)]].

Lemma fresh_stream e : streams e !! fresh (dom (streams e)) = None.
Proof. apply not_elem_of_dom, is_fresh. Qed.

Lemma start_generate_new prompt cfg id input u ds bs w :
  w_terminated w = false → convert_prompts_to_data prompt = Ok input →
  async_streamers (w_engine w) !! id = None → wf_streams (w_engine w) → delivers id u ds bs →
  ∃ loc w', start_generate prompt cfg id w = (w', Ok loc) ∧
    pending id loc u ds (w_engine w') (chunk_items (g_n cfg) bs u) ∧
    w_ffi w' = w_ffi w ++ [FCreate id input cfg; FAdd id].
Proof.
  intros Ht Hin Hid Hwf Hd. set (e := w_engine w). set (loc := fresh (dom (streams e))).
  unfold start_generate, mbind, stM_bind, st_get, st_lift. rewrite Ht, Hin. cbn [raise_when].
  unfold ffi at 1, st_modify at 1. fold e loc. subst e. rewrite Hid.
  exists loc. eexists. split; [reflexivity|]. cbn [w_engine w_ffi set_engine].
  split; [|by rewrite <-app_assoc].
  apply (pending_open id loc u ds bs (replicate (g_n cfg) ts_new) []); [done|].
  split_and!; simpl; [by rewrite lookup_insert_eq|by rewrite lookup_insert_eq|].
  intros id' loc' ts Hne. simpl. rewrite lookup_insert_ne by done. intros Hs ->.
  destruct (Hwf _ _ _ Hs) as [st Hst]. unfold loc in Hst. rewrite fresh_stream in Hst. done.
Qed.

Lemma async_generate_run body prompt cfg id input u bs sched w l l' r :
  w_terminated w = false → convert_prompts_to_data prompt = Ok input →
  async_streamers (w_engine w) !! id = None → wf_streams (w_engine w) →
  delivers id u (delivered sched) bs →
  runs body (chunk_items (g_n cfg) bs u) l l' r →
  match async_generate body sched prompt cfg id (w, l) with
  | (s, Some r') => r' = r ∧ s.2 = l' ∧ async_streamers (w_engine s.1) !! id = None ∧
      w_ffi s.1 = w_ffi w ++ [FCreate id input cfg; FAdd id] ++ (if is_ok r then [] else [FAbort id])
  | (s, None) => w_ffi s.1 = w_ffi w ++ [FCreate id input cfg; FAdd id]
  end.
Proof.
  intros Ht Hin Hid Hwf Hd Hr.
  destruct (start_generate_new prompt cfg id input u _ bs w Ht Hin Hid Hwf Hd)
    as (loc & w1 & Hs & Hp & Hffi).
  unfold async_generate. cbn [fst snd]. rewrite Hs. unfold run_with_cleanup.
  pose proof (read_stream_spec body id loc u sched w1 l _ l' r Hp Hr) as Hspec.
  destruct (read_stream body loc sched (w1, l)) as [[w2 l2] [[[]|ex]|]]; cbn [fst snd] in Hspec.
  - destruct Hspec as (<- & <- & Hnone & Hf). cbn [fst snd is_ok]. rewrite Hf, Hffi. auto.
  - destruct Hspec as (<- & <- & _ & Hf). simpl.
    rewrite Hf, Hffi, <-app_assoc. split_and!; [done..| |done]. apply lookup_delete_eq.
  - cbn [fst snd]. by rewrite Hspec.
Qed.

(** C15. The asynchronous [_generate] under any interleaving of callbacks (for this
    and for other requests) and resumptions: if the run ends, the consumer has
    seen exactly the detokenized chunks of this request, in order, and then the
    usage; the request is no longer registered; and the engine was told to abort
    it, once, exactly when the consumer stopped with an exception (a closed
    generator included). *)
Theorem async_generate_spec body prompt cfg id input u bs sched w l l' r :
  w_terminated w = false → convert_prompts_to_data prompt = Ok input →
  async_streamers (w_engine w) !! id = None → wf_streams (w_engine w) →
  delivers id u (delivered sched) bs →
  runs body (chunk_items (g_n cfg) bs u) l l' r →
  match async_generate body sched prompt cfg id (w, l) with
  | (s, Some r') => r' = r ∧ s.2 = l' ∧ async_streamers (w_engine s.1) !! id = None ∧
      w_ffi s.1 = w_ffi w ++ [FCreate id input cfg; FAdd id] ++ (if is_ok r then [] else [FAbort id])
  | (s, None) => w_ffi s.1 = w_ffi w ++ [FCreate id input cfg; FAdd id]
  end.
Proof. apply async_generate_run. Qed.

(** Whatever happened before, once all chunks of the request were delivered,
    finitely many resumptions of the consumer end the run. *)
Lemma async_generate_ends body prompt cfg id input u bs sched w l l' r n :
  w_terminated w = false → convert_prompts_to_data prompt = Ok input →
  async_streamers (w_engine w) !! id = None → wf_streams (w_engine w) →
  delivers id u (delivered sched) bs →
  runs body (chunk_items (g_n cfg) bs u) l l' r →
  length bs + 1 < n →
  is_Some (async_generate body (sched ++ replicate n Resume) prompt cfg id (w, l)).2.
Proof.
  intros Ht Hin Hid Hwf Hd Hr Hn.
  destruct (start_generate_new prompt cfg id input u _ bs w Ht Hin Hid Hwf Hd)
    as (loc & w1 & Hs & Hp & Hffi).
  unfold async_generate. cbn [fst snd]. rewrite Hs. unfold run_with_cleanup.
  assert (length (chunk_items (g_n cfg) bs u) = length bs + 1) as Hlen.
  { unfold chunk_items. rewrite length_app. f_equal. generalize (replicate (g_n cfg) ts_new).
    clear. induction bs as [|b bs IH]; intros ts; [done|]. cbn [batches_pure].
    destruct (outputs_pure b ts) as [ts1 outs]. specialize (IH ts1).
    destruct (batches_pure bs ts1). simpl in *. by rewrite IH. }
  destruct (read_stream_terminates body id loc u sched w1 l _ l' r n Hp Hr ltac:(lia)) as [o Ho].
  destruct (read_stream body loc _ (w1, l)) as [s [[[]|ex]|]]; simpl in Ho; simplify_eq; by eexists.
Qed.

(** A request id that is in use: the second call fails with the duplicate id,
    as intended, but its clean-up removes and aborts the first request. *)
Theorem async_generate_duplicate body prompt cfg id input loc0 ts0 sched w (l : L) :
  w_terminated w = false → convert_prompts_to_data prompt = Ok input →
  async_streamers (w_engine w) !! id = Some (loc0, ts0) →
  ∃ w', async_generate body (Resume :: sched) prompt cfg id (w, l) =
      ((w', l), Some (Err duplicate_id)) ∧
    async_streamers (w_engine w') = delete id (async_streamers (w_engine w)) ∧
    w_ffi w' = w_ffi w ++ [FCreate id input cfg; FAbort id].
Proof.
  intros Ht Hin Hid. unfold async_generate, start_generate, mbind, stM_bind, st_get, st_lift.
  cbn [fst snd]. rewrite Ht, Hin. cbn [raise_when]. unfold ffi at 1, st_modify at 1.
  rewrite Hid. unfold run_with_cleanup. cbn [read_stream]. simpl. rewrite lookup_insert_eq. simpl.
  eexists. split; [reflexivity|]. split; [done|]. simpl. by rewrite <-app_assoc.
Qed.

(** *** The synchronous generator *)

(** A chunk with batch [b], of whatever request: the synchronous engine does
    not look at the request id. *)
Definition chunk_of (d : RequestStreamOutput) (b : list SingleRequestStreamOutput) : Prop :=
  ∃ id, unpack d = Ok (id, b) ∧ normal_batch b.

Lemma sync_callback_chunk d b ds acc e :
  chunk_of d b →
  ∃ e', same_but_trace (set_sync (sync_output_queue e) (outputs_pure b (sync_text_streamers e)).1 e) e' ∧
    sync_callback (d :: ds) acc e =
    sync_callback ds (acc ++ [(outputs_pure b (sync_text_streamers e)).2]) e'.
Proof.
  intros (id & Hd & o & Ho & Hf). cbn [sync_callback]. unfold mbind, stM_bind, st_lift, st_get.
  rewrite Hd. destruct (record_event_same id "start callback" e) as (e1 & -> & [t1 ->]).
  unfold py_index. rewrite Ho, Hf. cbn [sync_text_streamers set_trace].
  destruct (callback_outputs_pure id b (sync_text_streamers e) (set_trace t1 e)) as (e2 & -> & [t2 ->]).
  destruct (outputs_pure b (sync_text_streamers e)) as [ts' outs]. unfold st_modify at 1.
  match goal with |- context [record_event id "finish callback" ?x] =>
    destruct (record_event_same id "finish callback" x) as (e3 & -> & [t3 ->]) end.
  eexists. split; [|reflexivity]. by exists t3.
Qed.

Lemma sync_callback_chunks ds bs rest acc e :
  Forall2 chunk_of ds bs →
  ∃ e', same_but_trace (set_sync (sync_output_queue e) (batches_pure bs (sync_text_streamers e)).1 e) e' ∧
    sync_callback (ds ++ rest) acc e =
    sync_callback rest (acc ++ (batches_pure bs (sync_text_streamers e)).2) e'.
Proof.
  intros Hds. revert acc e. induction Hds as [|d b ds bs Hd _ IH]; intros acc e.
  - exists e. split; [|by rewrite app_nil_r]. exists (trace_recorder e). by destruct e.
  - cbn [app]. destruct (sync_callback_chunk d b (ds ++ rest) acc e Hd) as (e1 & [t1 ->] & ->).
    match goal with |- context [sync_callback (ds ++ rest) ?a ?x] =>
      destruct (IH a x) as (e2 & [t2 ->] & ->) end.
    cbn [batches_pure sync_text_streamers set_trace set_sync sync_output_queue].
    destruct (outputs_pure b (sync_text_streamers e)) as [ts1 outs]. cbn [fst snd].
    destruct (batches_pure bs ts1) as [ts2 more]. cbn [fst snd].
    eexists. split; [|by rewrite <-app_assoc]. by exists t2.
Qed.

Lemma yield_all_runs body xs ys l l' r w :
  runs body (xs ++ ys) l l' r →
  (∃ l1 w', yield_all body xs (w, l) = ((w', l1), Ok tt) ∧ same_world w w' ∧ runs body ys l1 l' r) ∨
  (∃ ex w', yield_all body xs (w, l) = ((w', l'), Err ex) ∧ same_world w w' ∧ r = Err ex).
Proof.
  revert l w. induction xs as [|x xs IH]; intros l w Hr.
  - left. exists l, w. by split_and!.
  - inversion Hr as [|? ? ? l1 ? ? Hx Hrest|? ? ? l1 ex Hx]; subst;
      destruct (Hx w) as (w1 & Hb & Hs1); unfold yield_all; cbn [st_iter];
      unfold mbind, stM_bind; rewrite Hb; [|right; by exists ex, w1].
    destruct (IH l1 w1 Hrest) as [(l2 & w2 & Hy & Hs2 & Hr2)|(ex & w2 & Hy & Hs2 & ->)]; [left|right].
    + exists l2, w2. split_and!; [exact Hy|by transitivity w1|done].
    + exists ex, w2. split_and!; [exact Hy|by transitivity w1|done].
Qed.

Lemma batches_pure_app bs1 bs2 (ts : list T) :
  (batches_pure (bs1 ++ bs2) ts).2 =
    (batches_pure bs1 ts).2 ++ (batches_pure bs2 (batches_pure bs1 ts).1).2.
Proof.
  revert ts. induction bs1 as [|b bs1 IH]; intros ts; [done|]. cbn [app batches_pure].
  destruct (outputs_pure b ts) as [ts1 o]. specialize (IH ts1).
  destruct (batches_pure (bs1 ++ bs2) ts1), (batches_pure bs1 ts1). simpl in *. by rewrite IH.
Qed.

Lemma read_queue_spec body u arrivals ds d o id rest bs w l l' r :
  mjoin arrivals = ds ++ d :: rest → Forall2 chunk_of ds bs →
  unpack d = Ok (id, [o]) → so_final_usage_json_str o = Some u →
  runs body ((batches_pure bs (sync_text_streamers (w_engine w))).2 ++ [[usage_output (Some u)]]) l l' r →
  ∃ w', read_queue body arrivals (w, l) = ((w', l'), Some r) ∧ w_ffi w' = w_ffi w.
Proof.
  intros Hjoin Hds Hu Hf. revert ds bs w l Hjoin Hds.
  induction arrivals as [|a arrivals IH]; intros ds bs w l Hjoin Hds Hr; [by destruct ds|].
  cbn [read_queue fst snd]. change (mjoin (a :: arrivals)) with (a ++ mjoin arrivals) in Hjoin.
  assert ((∃ mid, a = ds ++ d :: mid) ∨
          (∃ ds2, ds = a ++ ds2 ∧ mjoin arrivals = ds2 ++ d :: rest)) as [[mid ->]|(ds2 & -> & Hj)].
  { apply app_eq_app in Hjoin as (mid & [[-> Hmid]|[-> Hmid]]); [|right; by exists mid].
    destruct mid as [|d' mid]; simplify_eq/=.
    - right. exists []. by rewrite !app_nil_r.
    - left. by exists mid. }
  - (* the final chunk is in this arrival *)
    unfold _request_stream_callback_impl.
    destruct (sync_callback_chunks ds bs (d :: mid) [] (w_engine w) Hds) as (e1 & [t1 ->] & ->).
    cbn [sync_callback app]. unfold mbind, stM_bind, st_lift. rewrite Hu.
    match goal with |- context [record_event id "start callback" ?x] =>
      destruct (record_event_same id "start callback" x) as (e2 & -> & [t2 ->]) end.
    unfold py_index. cbn [lookup list_lookup]. rewrite Hf. unfold mret, stM_ret.
    match goal with |- context [yield_all body ?xs (?w1, l)] =>
      destruct (yield_all_runs body xs _ l l' r w1 Hr)
        as [(l1 & w2 & -> & (e2 & -> & Hs2) & Hr1)|(ex & w2 & -> & (e2 & -> & Hs2) & ->)] end;
      [|by eexists].
    inversion Hr1 as [|? ? ? l2 ? ? Hx Hrest|? ? ? l2 ex Hx]; subst;
      match goal with |- context [body _ (?w2, l1)] => destruct (Hx w2) as (w3 & -> & (e3 & -> & Hs3)) end.
    + inversion Hrest; subst. by eexists.
    + by eexists.
  - apply Forall2_app_inv_l in Hds as (bs1 & bs2 & Hds1 & Hds2 & ->).
    rewrite batches_pure_app, <-app_assoc in Hr. unfold _request_stream_callback_impl.
    destruct (sync_callback_chunks a bs1 [] [] (w_engine w) Hds1) as (e1 & [t1 ->] & E).
    rewrite app_nil_r in E. rewrite E. cbn [sync_callback app]. unfold mret, stM_ret.
    match goal with |- context [yield_all body ?xs (?w1, l)] =>
      destruct (yield_all_runs body xs _ l l' r w1 Hr)
        as [(l1 & w2 & -> & (e2 & -> & [t2 ->]) & Hr1)|(ex & w2 & -> & (e2 & -> & Hs2) & ->)] end;
      [|by eexists].
    match goal with |- context [read_queue body arrivals (?w1, l1)] =>
      destruct (IH ds2 bs2 w1 l1 Hj Hds2 Hr1) as (w3 & -> & Hw3) end.
    by eexists.
Qed.

Lemma sync_generate_run body prompt cfg id input u arrivals ds d o id' rest bs w l l' r :
  w_terminated w = false → convert_prompts_to_data prompt = Ok input →
  mjoin arrivals = ds ++ d :: rest → Forall2 chunk_of ds bs →
  unpack d = Ok (id', [o]) → so_final_usage_json_str o = Some u →
  runs body (chunk_items (g_n cfg) bs u) l l' r →
  ∃ w', sync_generate body arrivals prompt cfg id (w, l) = ((w', l'), Some r) ∧
    w_ffi w' = w_ffi w ++ [FCreate id input cfg; FAdd id] ++ (if is_ok r then [] else [FAbort id]).
Proof.
  intros Ht Hin Hjoin Hds Hu Hf Hr.
  unfold sync_generate, sync_start, mbind, stM_bind, st_get, st_lift. cbn [fst snd].
  rewrite Ht, Hin. cbn [raise_when]. unfold ffi, on_state, st_modify, run_with_cleanup.
  match goal with |- context [read_queue body arrivals (?w1, l)] =>
    destruct (read_queue_spec body u arrivals ds d o id' rest bs w1 l l' r Hjoin Hds Hu Hf Hr)
      as (w2 & -> & Hffi) end.
  simpl in Hffi. rewrite <-app_assoc in Hffi. destruct r as [[]|ex]; eexists; (split; [reflexivity|]).
  - by rewrite Hffi.
  - simpl. by rewrite Hffi, <-app_assoc.
Qed.

(** The synchronous [_generate]: however the engine's outputs are grouped in
    the queue, the consumer sees the detokenized chunks in order and then the
    usage, and the run ends; the request is aborted exactly when the consumer
    stops with an exception. The outputs are not matched with the request id:
    what another request left behind would be taken for this one's. *)
Theorem sync_generate_spec body prompt cfg id input u arrivals ds d o id' rest bs w l l' r :
  w_terminated w = false → convert_prompts_to_data prompt = Ok input →
  mjoin arrivals = ds ++ d :: rest → Forall2 chunk_of ds bs →
  unpack d = Ok (id', [o]) → so_final_usage_json_str o = Some u →
  runs body (chunk_items (g_n cfg) bs u) l l' r →
  ∃ w', sync_generate body arrivals prompt cfg id (w, l) = ((w', l'), Some r) ∧
    w_ffi w' = w_ffi w ++ [FCreate id input cfg; FAdd id] ++ (if is_ok r then [] else [FAbort id]).
Proof. apply sync_generate_run. Qed.
End generator_spec.

(** ** The generator interface

    What both engines promise to the handlers: whatever the consumer, the run
    feeds it the items and ends as the consumer does. *)
Class Yields {T Img} `{TextStreamer T} (gen : generator (T:=T) (Img:=Img)) (id : string) (n : nat)
    (w : World T Img) (items : list (list CallbackStreamOutput)) : Prop := {
  yields : ∀ L body prompt cfg input (l l' : L) r w1,
    same_world w w1 → g_n cfg = n → convert_prompts_to_data prompt = Ok input →
    runs body items l l' r →
    ∃ w', gen L body prompt cfg id (w1, l) = ((w', l'), Some r) ∧
      w_ffi w' = w_ffi w ++ [FCreate id input cfg; FAdd id] ++ (if is_ok r then [] else [FAbort id]);
}.

Section implementations.
Context {T Img : Type} `{TextStreamer T}.
Implicit Types (w : World T Img).

Lemma same_world_start w w1 id :
  same_world w w1 → w_terminated w = false → async_streamers (w_engine w) !! id = None →
  wf_streams (w_engine w) →
  w_terminated w1 = false ∧ async_streamers (w_engine w1) !! id = None ∧ wf_streams (w_engine w1)
  ∧ w_ffi w1 = w_ffi w.
Proof. by intros (e' & -> & [t ->]). Qed.

Lemma async_implements id n w u bs sched k :
  w_terminated w = false → async_streamers (w_engine w) !! id = None → wf_streams (w_engine w) →
  delivers id u (delivered sched) bs → length bs + 1 < k →
  Yields (async_gen (sched ++ replicate k Resume)) id n w (chunk_items n bs u).
Proof.
  intros Ht Hid Hwf Hd Hk. constructor. intros L body prompt cfg input l l' r w1 Hw Hn Hin Hr.
  destruct (same_world_start w w1 id Hw Ht Hid Hwf) as (Ht1 & Hid1 & Hwf1 & Hf). subst n.
  assert (delivered (sched ++ replicate k Resume) = delivered sched) as Hdel.
  { clear. induction sched as [|[ds|] sched IH]; simpl; [|by rewrite IH|done]. by induction k. }
  unfold async_gen.
  destruct (async_generate_ends body prompt cfg id input u bs sched w1 l l' r k) as [r' He]; try done.
  pose proof (async_generate_run body prompt cfg id input u bs (sched ++ replicate k Resume) w1 l l' r
    Ht1 Hin Hid1 Hwf1 ltac:(by rewrite Hdel) Hr) as Hrun.
  destruct (async_generate _ _ _ _ _ _) as [[w2 l2] o]. simpl in He. subst o. simpl in Hrun.
  destruct Hrun as (-> & -> & _ & Hffi). rewrite Hf in Hffi. by eexists.
Qed.

(** C34. The asynchronous engine keeps the promise for a new request id, in every
    schedule that delivers the request's chunks, mixed with other requests' and
    with resumptions of the consumer, and then resumes it often enough. *)
Theorem async_yields id n w u bs sched k :
  w_terminated w = false → async_streamers (w_engine w) !! id = None → wf_streams (w_engine w) →
  delivers id u (delivered sched) bs → length bs + 1 < k →
  Yields (async_gen (sched ++ replicate k Resume)) id n w (chunk_items n bs u).
Proof. apply async_implements. Qed.

Lemma sync_implements id n w u arrivals ds d o id' rest bs :
  w_terminated w = false →
  mjoin arrivals = ds ++ d :: rest → Forall2 chunk_of ds bs →
  unpack d = Ok (id', [o]) → so_final_usage_json_str o = Some u →
  Yields (sync_gen (T:=T) (Img:=Img) arrivals) id n w (chunk_items n bs u).
Proof.
  intros Ht Hj Hds Hd Ho. constructor. intros L body prompt cfg input l l' r w1 (e' & -> & _) <- Hin Hr.
  apply (sync_generate_run body prompt cfg id input u arrivals ds d o id' rest bs
    (set_engine e' w) l l' r); done.
Qed.

(** The synchronous engine keeps it however its queue entries are cut. *)
Theorem sync_yields id n w u arrivals ds d o id' rest bs :
  w_terminated w = false →
  mjoin arrivals = ds ++ d :: rest → Forall2 chunk_of ds bs →
  unpack d = Ok (id', [o]) → so_final_usage_json_str o = Some u →
  Yields (sync_gen (T:=T) (Img:=Img) arrivals) id n w (chunk_items n bs u).
Proof. apply sync_implements. Qed.
End implementations.

(** ** Non-streaming responses: specification *)

(** What a client accumulates for one generation: its text, finish reason and
    logprobs (of some type, with an update by an output). *)
Record Gen (P : Type) := mkGen { gn_text : string; gn_reason : option string; gn_logprobs : P }.
Arguments mkGen {P}.
Arguments gn_text {P}.
Arguments gn_reason {P}.
Arguments gn_logprobs {P}.

Section accumulate.
Section generations.
Context {P : Type} (upd : P → CallbackStreamOutput → P).

(** One output. The logprobs of an output without text and without a finish
    reason are not sent. *)
Definition gen_step (f : string → string) (g : Gen P) (d : CallbackStreamOutput) : Gen P :=
  mkGen (gn_text g +:+ delta_text d) (next_reason f (gn_reason g) d)
    (if emits (gn_reason g) d then upd (gn_logprobs g) d else gn_logprobs g).

(** The generations after the batches [outs]. *)
Definition gens_after (f : string → string) (gs : list (Gen P))
    (outs : list (list CallbackStreamOutput)) : list (Gen P) :=
  foldl (zip_with (gen_step f)) gs outs.

(** An output that is not sent changes nothing. *)
Lemma gen_step_silent f g d : emits (gn_reason g) d = false → gen_step f g d = g.
Proof.
  intros Hem. unfold gen_step, next_reason. rewrite Hem. unfold emits in Hem.
  apply orb_false_iff in Hem as [Hr Ht%negb_false_iff%bool_decide_eq_true].
  rewrite Ht, append_nil_r. destruct g as [t [r|] ls]; [done|]. simpl in *.
  by destruct (finish_reason d).
Qed.

Lemma gen_step_valid allowed f n gs ds :
  length gs = n → length ds = n → Forall (λ g, valid_reason allowed (gn_reason g)) gs →
  Forall (λ d, valid_reason allowed (f <$> finish_reason d)) ds →
  length (zip_with (gen_step f) gs ds) = n ∧
  Forall (λ g, valid_reason allowed (gn_reason g)) (zip_with (gen_step f) gs ds) ∧
  gn_reason <$> zip_with (gen_step f) gs ds = zip_with (next_reason f) (gn_reason <$> gs) ds.
Proof.
  intros Hl Hd Hv Hg. split_and!.
  - rewrite length_zip_with. lia.
  - clear Hl Hd. revert ds Hg.
    induction gs as [|g gs IH]; intros [|d ds] Hg; simpl; [by constructor..|].
    apply Forall_cons in Hv as [Hg0 Hv]. apply Forall_cons in Hg as [Hd0 Hg].
    constructor; [by apply next_reason_valid|by apply IH].
  - clear. revert ds. induction gs as [|g gs IH]; intros [|d ds]; simpl; [done..|]. by rewrite IH.
Qed.

(** One generation on its own: its text is the concatenation of the delta
    texts, its finish reason the first one reported. *)
Definition gen_run (f : string → string) : Gen P → list CallbackStreamOutput → Gen P :=
  foldl (gen_step f).

Lemma gen_run_text f g ds :
  gn_text (gen_run f g ds) = gn_text g +:+ concat_str (delta_text <$> ds).
Proof.
  revert g. induction ds as [|d ds IH]; intros g; [by rewrite append_nil_r|].
  unfold gen_run in *. cbn [foldl]. rewrite IH. cbn [gn_text gen_step].
  by rewrite fmap_cons, concat_str_cons, append_assoc.
Qed.

Lemma gen_run_reason f g ds :
  gn_reason (gen_run f g ds) =
    match gn_reason g with Some r => Some r | None => f <$> head (omap finish_reason ds) end.
Proof.
  revert g. induction ds as [|d ds IH]; intros g; [by destruct g as [? []]|].
  unfold gen_run in *. cbn [foldl]. rewrite IH. cbn [gn_reason gen_step next_reason].
  unfold next_reason. destruct (gn_reason g); [done|]. cbn [omap list_omap].
  by destruct (finish_reason d).
Qed.

(** The text does not influence the rest. *)
Lemma gen_run_logprobs f g g' ds :
  gn_reason g = gn_reason g' → gn_logprobs g = gn_logprobs g' →
  gn_logprobs (gen_run f g ds) = gn_logprobs (gen_run f g' ds).
Proof.
  revert g g'. induction ds as [|d ds IH]; intros g g' Hr Hl; [done|].
  unfold gen_run in *. cbn [foldl]. apply IH; unfold gen_step; simpl; by rewrite Hr, ?Hl.
Qed.

Lemma gens_after_lookup f gs outs i g :
  Forall (λ ds, length ds = length gs) outs → gs !! i = Some g →
  gens_after f gs outs !! i = Some (gen_run f g (column i outs)).
Proof.
  intros Hl. unfold gens_after, gen_run. revert gs g Hl.
  induction outs as [|ds outs IH]; intros gs g Hl Hi; [done|].
  apply Forall_cons in Hl as [Hd Hl]. cbn [foldl].
  destruct (lookup_lt_is_Some_2 ds i) as [d Hdi].
  { rewrite Hd. by eapply lookup_lt_Some. }
  rewrite (IH _ (gen_step f g d)).
  - unfold column. cbn [omap list_omap]. by rewrite Hdi.
  - eapply Forall_impl; [exact Hl|]. intros ds' ->. rewrite length_zip_with. lia.
  - rewrite lookup_zip_with, Hi. simpl. by rewrite Hdi.
Qed.

Lemma gens_after_length f gs outs :
  Forall (λ ds, length ds = length gs) outs → length (gens_after f gs outs) = length gs.
Proof.
  unfold gens_after. revert gs. induction outs as [|ds outs IH]; intros gs Hl; [done|].
  apply Forall_cons in Hl as [Hd Hl]. cbn [foldl]. rewrite IH; rewrite length_zip_with; [lia|].
  eapply Forall_impl; [exact Hl|]. intros ds' ->. lia.
Qed.

(** The generations of a whole request, by index. *)
Lemma gens_after_replicate f n g outs :
  Forall (λ ds, length ds = n) outs →
  gens_after f (replicate n g) outs = (λ i, gen_run f g (column i outs)) <$> seq 0 n.
Proof.
  intros Hl. apply list_eq_same_length with (n:=n); [by rewrite length_fmap, length_seq| |].
  { rewrite gens_after_length; [apply length_replicate|]. by rewrite length_replicate. }
  intros i x y Hi. rewrite list_lookup_fmap, lookup_seq_lt by done.
  rewrite (gens_after_lookup _ _ _ _ g); [by intros [= <-] [= <-]| |by apply lookup_replicate_2].
  by rewrite length_replicate.
Qed.

End generations.

Context (parse_logprob : string → result LogProbsContent).

(** The chat client concatenates the logprobs; the completion client keeps the
    last ones. *)
Definition chat_upd (l : list LogProbsContent) (d : CallbackStreamOutput) : list LogProbsContent :=
  l ++ default [] (parsed_logprobs parse_logprob d).
Definition completion_upd (l : option CompletionLogProbs) (d : CallbackStreamOutput) :
    option CompletionLogProbs :=
  match parsed_completion_logprobs parse_logprob d with Some l => Some l | None => l end.

Definition empty_gen : Gen (list LogProbsContent) := mkGen "" None [].

(** The accumulators of the chat client for the generations [gs]. *)
Definition chat_acc (lp : bool) (gs : list (Gen (list LogProbsContent))) (u : option CompletionUsage) : ChatAcc :=
  mkChatAcc (gn_text <$> gs) (gn_reason <$> gs)
    (if lp then Some (gn_logprobs <$> gs) else None) u.

(** The outputs carry logprobs only when the request asked for them. *)
Definition logprobs_wanted (lp : bool) (d : CallbackStreamOutput) : Prop :=
  lp = true ∨ delta_logprob_json_strs d = None.

Lemma append_text_middle pre t post x :
  append_text (pre ++ t :: post) (length pre) x = Ok (pre ++ (t +:+ x) :: post).
Proof.
  unfold append_text, py_index, py_setitem. rewrite list_lookup_middle by done.
  cbn [mbind result_bind]. rewrite decide_True by (rewrite length_app; simpl; lia).
  by rewrite insert_app_r_alt, Nat.sub_diag by lia.
Qed.

Lemma set_first_reason_middle f pre old post d :
  set_first_reason (pre ++ old :: post) (length pre) (next_reason f old d) =
    Ok (pre ++ next_reason f old d :: post).
Proof.
  unfold set_first_reason, next_reason, py_index, py_setitem.
  destruct old as [r|].
  - rewrite list_lookup_middle by done. done.
  - destruct (finish_reason d) as [fr|]; [|done]. simpl. rewrite list_lookup_middle by done.
    cbn [mbind result_bind]. rewrite decide_True by (rewrite length_app; simpl; lia).
    by rewrite insert_app_r_alt, Nat.sub_diag by lia.
Qed.

Lemma add_chat_choice_step lp f pre g post d u :
  logprobs_wanted lp d → emits (gn_reason g) d = true →
  add_chat_choice (chat_choice_of parse_logprob (length pre) (next_reason f (gn_reason g) d) d)
    (chat_acc lp (pre ++ g :: post) u) = Ok (chat_acc lp (pre ++ gen_step chat_upd f g d :: post) u).
Proof.
  intros Hlp Hem. unfold add_chat_choice, chat_acc, chat_choice_of. cbn.
  rewrite !fmap_app, !fmap_cons. rewrite <-(length_fmap gn_text pre) at 1.
  rewrite append_text_middle. cbn [mbind result_bind].
  rewrite <-(length_fmap gn_reason pre) at 1. rewrite set_first_reason_middle.
  cbn [mbind result_bind].
  unfold gen_step, chat_upd. rewrite Hem. cbn [gn_text gn_reason gn_logprobs].
  destruct (parsed_logprobs parse_logprob d) as [ls|] eqn:El.
  - destruct Hlp as [->|Hn]; [|by unfold parsed_logprobs in El; rewrite Hn in El].
    unfold py_index, py_setitem. rewrite <-(length_fmap gn_logprobs pre) at 1.
    rewrite list_lookup_middle by done. cbn [mbind result_bind].
    rewrite decide_True by (rewrite length_app, length_fmap; simpl; lia). cbn [mbind result_bind].
    rewrite <-(length_fmap gn_logprobs pre) at 1.
    by rewrite insert_app_r_alt, Nat.sub_diag by lia.
  - simpl. rewrite app_nil_r. by destruct lp.
Qed.

Lemma consume_choices lp f pre gs ds u :
  length gs = length ds → Forall (logprobs_wanted lp) ds →
  st_iter (update_with add_chat_choice)
    (expected_choices f (chat_choice_of parse_logprob) (length pre) (gn_reason <$> gs) ds)
    (chat_acc lp (pre ++ gs) u) = (chat_acc lp (pre ++ zip_with (gen_step chat_upd f) gs ds) u, Ok tt).
Proof.
  revert pre ds. induction gs as [|g gs IH]; intros pre [|d ds] Hl Hlp; try done.
  apply Forall_cons in Hlp as [Hd Hlp]. injection Hl as Hl.
  specialize (IH (pre ++ [gen_step chat_upd f g d]) ds Hl Hlp).
  rewrite length_app, <-!app_assoc, Nat.add_1_r in IH. cbn [app] in IH.
  rewrite fmap_cons. cbn [expected_choices zip_with].
  destruct (emits (gn_reason g) d) eqn:Hem.
  - cbn [app st_iter]. unfold mbind, stM_bind, update_with at 1.
    rewrite add_chat_choice_step by done. exact IH.
  - assert (gen_step chat_upd f g d = g) as Hg by (by apply gen_step_silent).
    rewrite Hg in *. exact IH.
Qed.

Context {T Img : Type} `{TextStreamer T} (parse_usage : string → result CompletionUsage).

(** A batch of outputs of a running request: one per generation, not final,
    with parsable logprobs (only if wanted) and known finish reasons. *)
Record good_outputs (allowed : list string) (f : string → string) (n : nat) (lp : bool)
    (ds : list CallbackStreamOutput) : Prop := {
  go_len : length ds = n;
  go_normal : Forall (λ d, request_final_usage_json_str d = None) ds;
  go_parse : Forall (logprobs_ok parse_logprob) ds;
  go_wanted : Forall (logprobs_wanted lp) ds;
  go_reasons : Forall (λ d, valid_reason allowed (f <$> finish_reason d)) ds;
}.

Lemma good_outputs_chunk {P} allowed f n lp (gs : list (Gen P)) ds :
  0 < n → length gs = n → Forall (λ g, valid_reason allowed (gn_reason g)) gs →
  good_outputs allowed f n lp ds → good_chunk parse_logprob allowed f n (gn_reason <$> gs) ds.
Proof.
  intros Hn Hl Hv [H1 H2 H3 H4 H5]. split; try done; [by rewrite length_fmap|by apply Forall_fmap].
Qed.

Abbreviation chat_loop := (chat_body (T:=T) (Img:=Img) parse_logprob parse_usage consume_chat).

Lemma chat_body_chunk request id use_fc gs ds n w :
  r_n request = n → 0 < n → length gs = n →
  Forall (λ g, valid_reason chat_reasons (gn_reason g)) gs →
  good_outputs chat_reasons (chat_reason use_fc) n (r_logprobs request) ds →
  let gs' := zip_with (gen_step chat_upd (chat_reason use_fc)) gs ds in
  ∃ w', chat_loop request id use_fc true ds
      (w, (gn_reason <$> gs, chat_acc (r_logprobs request) gs None)) =
    ((w', (gn_reason <$> gs', chat_acc (r_logprobs request) gs' None)), Ok tt) ∧ same_world w w'.
Proof.
  intros Hn Hpos Hl Hv Hg gs'.
  destruct (gen_step_valid chat_upd _ _ _ _ _ Hl (go_len _ _ _ _ _ Hg) Hv (go_reasons _ _ _ _ _ Hg)) as (_ & _ & Hr).
  pose proof (consume_choices (r_logprobs request) (chat_reason use_fc) [] gs ds None
    ltac:(rewrite Hl; symmetry; by eapply go_len) (go_wanted _ _ _ _ _ Hg)) as Hc.
  cbn [app length] in Hc. fold gs' in Hc, Hr.
  destruct (chat_chunk_run parse_logprob parse_usage request id use_fc (w_engine w) (gn_reason <$> gs) ds)
    as (e' & Hrun & Hs); [rewrite Hn; by eapply good_outputs_chunk|].
  unfold chat_body. cbn [fst snd]. rewrite Hrun, <-Hr. exists (set_engine e' w).
  split; [|by exists e'].
  destruct (expected_choices _ _ _ _ _) as [|c cs] eqn:Ec; cbn [sent].
  - apply (f_equal fst) in Hc. cbn [fst st_iter mret stM_ret] in Hc.
    unfold mret, stM_ret in Hc. cbn [fst] in Hc. by rewrite <-Hc.
  - unfold deliver, consume_chat, strip_chat. cbn [cr_usage cr_choices fst snd]. by rewrite Hc.
Qed.

Lemma chat_loop_runs request id use_fc outs gs n u usage :
  r_n request = n → 0 < n → length gs = n → r_stream request = false →
  Forall (λ g, valid_reason chat_reasons (gn_reason g)) gs →
  Forall (good_outputs chat_reasons (chat_reason use_fc) n (r_logprobs request)) outs →
  parse_usage u = Ok usage →
  let gs' := gens_after chat_upd (chat_reason use_fc) gs outs in
  runs (chat_loop request id use_fc true) (outs ++ [[usage_output (Some u)]])
    (gn_reason <$> gs, chat_acc (r_logprobs request) gs None)
    (gn_reason <$> gs', chat_acc (r_logprobs request) gs' (Some usage)) (Ok tt).
Proof.
  intros Hn Hpos Hl Hst Hv Hg Hu. revert gs Hl Hv.
  induction Hg as [|ds outs Hds Houts IH]; intros gs Hl Hv; cbn [app].
  - eapply runs_cons; [|apply runs_nil]. intros w.
    destruct (chat_usage_run (T:=T) parse_logprob parse_usage request id use_fc (w_engine w)
      (gn_reason <$> gs) (usage_output (Some u)) u usage eq_refl Hu) as (e' & Hrun & Hs).
    exists (set_engine e' w). split; [|by exists e'].
    unfold chat_body. cbn [fst snd]. rewrite Hrun. unfold usage_sent. rewrite Hst. done.
  - destruct (gen_step_valid chat_upd _ _ _ _ _ Hl (go_len _ _ _ _ _ Hds) Hv (go_reasons _ _ _ _ _ Hds)) as (Hl' & Hv' & _).
    eapply runs_cons; [|apply (IH _ Hl' Hv')]. intros w. by apply (chat_body_chunk _ _ _ _ _ n).
Qed.

(** The texts, finish reasons and logprobs of the response to a request. *)
Definition final_texts (n : nat) (outs : list (list CallbackStreamOutput)) : list string :=
  (λ i, concat_str (delta_text <$> column i outs)) <$> seq 0 n.
Definition final_reasons (f : string → string) (n : nat)
    (outs : list (list CallbackStreamOutput)) : list (option string) :=
  (λ i, f <$> head (omap finish_reason (column i outs))) <$> seq 0 n.
Definition final_logprobs (f : string → string) (n : nat)
    (outs : list (list CallbackStreamOutput)) : list (list LogProbsContent) :=
  (λ i, gn_logprobs (gen_run chat_upd f empty_gen (column i outs))) <$> seq 0 n.

Lemma chat_acc_final f lp n outs u :
  Forall (λ ds, length ds = n) outs →
  chat_acc lp (gens_after chat_upd f (replicate n empty_gen) outs) u =
    mkChatAcc (final_texts n outs) (final_reasons f n outs)
      (if lp then Some (final_logprobs f n outs) else None) u.
Proof.
  intros Hl. unfold chat_acc. rewrite gens_after_replicate by done.
  rewrite <-!list_fmap_compose. f_equal.
  - apply list_fmap_ext. intros i j _. unfold compose. by rewrite gen_run_text.
  - apply list_fmap_ext. intros i j _. unfold compose. by rewrite gen_run_reason.
Qed.

(** *** The completion client *)

Definition completion_acc (gs : list (Gen (option CompletionLogProbs)))
    (u : option CompletionUsage) : CompletionAcc :=
  mkCompletionAcc (gn_text <$> gs) (gn_reason <$> gs) (gn_logprobs <$> gs) u.

Lemma add_completion_choice_step f pre g post d u :
  emits (gn_reason g) d = true →
  add_completion_choice (completion_choice_of parse_logprob (length pre) (next_reason f (gn_reason g) d) d)
    (completion_acc (pre ++ g :: post) u) =
    Ok (completion_acc (pre ++ gen_step completion_upd f g d :: post) u).
Proof.
  intros Hem. unfold add_completion_choice, completion_acc, completion_choice_of. cbn.
  rewrite !fmap_app, !fmap_cons. rewrite <-(length_fmap gn_text pre) at 1.
  rewrite append_text_middle. cbn [mbind result_bind].
  rewrite <-(length_fmap gn_reason pre) at 1. rewrite set_first_reason_middle.
  cbn [mbind result_bind].
  unfold gen_step, completion_upd. rewrite Hem. cbn [gn_text gn_reason gn_logprobs].
  destruct (parsed_completion_logprobs parse_logprob d) as [ls|]; [|done].
  unfold py_setitem.
  rewrite decide_True by (rewrite length_app, length_fmap; simpl; lia). cbn [mbind result_bind].
  rewrite <-(length_fmap gn_logprobs pre) at 1.
  by rewrite insert_app_r_alt, Nat.sub_diag by lia.
Qed.

Lemma consume_completion_choices f pre gs ds u :
  length gs = length ds →
  st_iter (update_with add_completion_choice)
    (expected_choices f (completion_choice_of parse_logprob) (length pre) (gn_reason <$> gs) ds)
    (completion_acc (pre ++ gs) u) =
    (completion_acc (pre ++ zip_with (gen_step completion_upd f) gs ds) u, Ok tt).
Proof.
  revert pre ds. induction gs as [|g gs IH]; intros pre [|d ds] Hl; try done.
  injection Hl as Hl. specialize (IH (pre ++ [gen_step completion_upd f g d]) ds Hl).
  rewrite length_app, <-!app_assoc, Nat.add_1_r in IH. cbn [app] in IH.
  rewrite fmap_cons. cbn [expected_choices zip_with].
  destruct (emits (gn_reason g) d) eqn:Hem.
  - cbn [app st_iter]. unfold mbind, stM_bind, update_with at 1.
    rewrite add_completion_choice_step by done. exact IH.
  - assert (gen_step completion_upd f g d = g) as Hg by (by apply gen_step_silent).
    rewrite Hg in *. exact IH.
Qed.

(** Choices that only carry text: the echo and the suffix. *)
Definition add_text (text : string) (g : Gen (option CompletionLogProbs)) :
    Gen (option CompletionLogProbs) :=
  mkGen (gn_text g +:+ text) (gn_reason g) (gn_logprobs g).

Lemma consume_text_choices text (fr : Gen (option CompletionLogProbs) → option string) pre gs u :
  (∀ g, g ∈ gs → fr g = None ∨ (fr g = gn_reason g)) →
  st_iter (update_with add_completion_choice)
    (imap (λ i g, Build_CompletionChoice (length pre + i) (fr g) None text) gs)
    (completion_acc (pre ++ gs) u) = (completion_acc (pre ++ (add_text text <$> gs)) u, Ok tt).
Proof.
  revert pre. induction gs as [|g gs IH]; intros pre Hfr; [done|].
  rewrite imap_cons. cbn [st_iter]. unfold mbind, stM_bind, update_with at 1.
  assert (add_completion_choice (Build_CompletionChoice (length pre + 0) (fr g) None text)
    (completion_acc (pre ++ g :: gs) u) = Ok (completion_acc (pre ++ add_text text g :: gs) u)) as ->.
  { rewrite Nat.add_0_r. unfold add_completion_choice, completion_acc. cbn.
    rewrite !fmap_app, !fmap_cons. rewrite <-(length_fmap gn_text pre) at 1.
    rewrite append_text_middle. cbn [mbind result_bind add_text gn_text gn_reason gn_logprobs].
    assert (set_first_reason ((gn_reason <$> pre) ++ gn_reason g :: (gn_reason <$> gs)) (length pre) (fr g)
      = Ok ((gn_reason <$> pre) ++ gn_reason g :: (gn_reason <$> gs))) as ->; [|done].
    destruct (Hfr g ltac:(by left)) as [->| ->]; [done|]. unfold set_first_reason, py_index.
    rewrite <-(length_fmap gn_reason pre). rewrite list_lookup_middle by done.
    cbn [mbind result_bind]. by destruct (gn_reason g). }
  specialize (IH (pre ++ [add_text text g])). rewrite length_app, <-!app_assoc in IH.
  cbn [app length] in IH. rewrite fmap_cons. cbn beta iota.
  rewrite (imap_ext (_ ∘ S) (λ i g, Build_CompletionChoice (length pre + 1 + i) (fr g) None text))
    by (intros; unfold compose; f_equal; lia).
  apply IH. intros g' Hg'. apply Hfr. by right.
Qed.

Abbreviation completion_loop :=
  (completion_body (T:=T) (Img:=Img) parse_logprob parse_usage consume_completion).

Lemma completion_body_chunk request id gs ds n w :
  c_n request = n → 0 < n → length gs = n →
  Forall (λ g, valid_reason completion_reasons (gn_reason g)) gs →
  good_outputs completion_reasons (λ r, r) n true ds →
  let gs' := zip_with (gen_step completion_upd (λ r, r)) gs ds in
  ∃ w', completion_loop request id true ds (w, (gn_reason <$> gs, completion_acc gs None)) =
    ((w', (gn_reason <$> gs', completion_acc gs' None)), Ok tt) ∧ same_world w w'.
Proof.
  intros Hn Hpos Hl Hv Hg gs'.
  destruct (gen_step_valid completion_upd _ _ _ _ _ Hl (go_len _ _ _ _ _ Hg) Hv (go_reasons _ _ _ _ _ Hg)) as (_ & _ & Hr).
  pose proof (consume_completion_choices (λ r, r) [] gs ds None
    ltac:(rewrite Hl; symmetry; by eapply go_len)) as Hc.
  cbn [app length] in Hc. fold gs' in Hc, Hr.
  destruct (completion_chunk_run parse_logprob parse_usage request id (w_engine w) (gn_reason <$> gs) ds)
    as (e' & Hrun & Hs); [rewrite Hn; by eapply good_outputs_chunk|].
  unfold completion_body. cbn [fst snd]. rewrite Hrun, <-Hr. exists (set_engine e' w).
  split; [|by exists e'].
  destruct (expected_choices _ _ _ _ _) as [|c cs] eqn:Ec; cbn [sent].
  - apply (f_equal fst) in Hc. cbn [fst st_iter mret stM_ret] in Hc.
    unfold mret, stM_ret in Hc. cbn [fst] in Hc. by rewrite <-Hc.
  - unfold deliver, consume_completion, strip_completion. cbn [pr_usage pr_choices fst snd]. by rewrite Hc.
Qed.

Lemma completion_loop_runs request id outs gs n u usage :
  c_n request = n → 0 < n → length gs = n → c_stream request = false →
  Forall (λ g, valid_reason completion_reasons (gn_reason g)) gs →
  Forall (good_outputs completion_reasons (λ r, r) n true) outs →
  parse_usage u = Ok usage →
  let gs' := gens_after completion_upd (λ r, r) gs outs in
  runs (completion_loop request id true) (outs ++ [[usage_output (Some u)]])
    (gn_reason <$> gs, completion_acc gs None)
    (gn_reason <$> gs', completion_acc gs' (Some usage)) (Ok tt) ∧
  Forall (λ g, valid_reason completion_reasons (gn_reason g)) gs'.
Proof.
  intros Hn Hpos Hl Hst Hv Hg Hu. revert gs Hl Hv.
  induction Hg as [|ds outs Hds Houts IH]; intros gs Hl Hv; cbn [app].
  - split; [|done]. eapply runs_cons; [|apply runs_nil]. intros w.
    destruct (completion_usage_run (T:=T) parse_logprob parse_usage request id (w_engine w)
      (gn_reason <$> gs) (usage_output (Some u)) u usage eq_refl Hu) as (e' & Hrun & Hs).
    exists (set_engine e' w). split; [|by exists e'].
    unfold completion_body. cbn [fst snd]. rewrite Hrun. unfold usage_sent. rewrite Hst. done.
  - destruct (gen_step_valid completion_upd _ _ _ _ _ Hl (go_len _ _ _ _ _ Hds) Hv (go_reasons _ _ _ _ _ Hds)) as (Hl' & Hv' & _).
    destruct (IH _ Hl' Hv') as [IHr IHv]. split; [|done].
    eapply runs_cons; [|exact IHr]. intros w. by apply (completion_body_chunk _ _ _ _ n).
Qed.
End accumulate.

Section responses.
Context {T Img : Type} `{TextStreamer T}.
Context (from_url : string → list (string * pyval) → result Img) (embed_size : Img → nat)
  (function_json : ChatFunction → string) (functions_json : list ChatFunction → string)
  (parse_logprob : string → result LogProbsContent)
  (parse_usage : string → result CompletionUsage)
  (encode : string → list Z) (decode : list Z → string)
  (model_config : list (string * pyval)) (max_input_sequence_length : Z)
  (conv_template : Conversation).
Implicit Types (w : World T Img) (e : EngineState T).

Lemma record_event_inv id ev (e : EngineState T) e' u :
  record_event id ev e = (e', Ok u) → same_but_trace e e'.
Proof.
  destruct (record_event_same id ev e) as (e1 & -> & Hs). by intros [= <- _].
Qed.

(** A chat request that was processed: only the trace changed, and the config
    asks for the request's number of generations. *)
Lemma chat_request_frame request id e e' prompts cfg use_fc len rq :
  process_chat_completion_request (T:=T) from_url embed_size function_json functions_json
    request id model_config encode max_input_sequence_length conv_template e =
    (e', Ok (prompts, cfg, use_fc, len, rq)) →
  same_but_trace e e' ∧ g_n cfg = r_n request.
Proof.
  unfold process_chat_completion_request. intros Hp.
  repeat match goal with
  | H : (mbind _ _) _ = (_, Ok _) |- _ => apply st_bind_Ok in H as (? & ? & ? & ?)
  | H : st_lift _ _ = (_, Ok _) |- _ => apply st_lift_Ok in H as [? ->]
  | H : record_event _ _ _ = (_, Ok _) |- _ => apply record_event_inv in H
  end.
  match goal with H : _ = (e', Ok _) |- _ => injection H as <- <- <- <- <- <- end.
  split; [|done]. by do 2 (etrans; [eassumption|]).
Qed.

Lemma trace_event_spec {C} id ev w (l : list (option string) * C) :
  ∃ w', trace_event id ev (w, l) = ((w', l), Ok tt) ∧ same_world w w'.
Proof.
  unfold trace_event, on_state. cbn [fst snd].
  destruct (record_event_same id ev (w_engine w)) as (e' & -> & Hs).
  exists (set_engine e' w). split; [done|by exists e'].
Qed.

Lemma same_world_engine w e' : same_but_trace (w_engine w) e' → same_world w (set_engine e' w).
Proof. intros Hs. by exists e'. Qed.

Lemma same_world_ffi w w' : same_world w w' → w_ffi w' = w_ffi w.
Proof. by intros (e' & -> & _). Qed.

Lemma final_reasons_set f n outs :
  (∀ i, i < n → ∃ d, d ∈ column i outs ∧ is_Some (finish_reason d)) →
  forallb (λ r, bool_decide (is_Some r)) (final_reasons f n outs) = true.
Proof.
  intros Hfin. apply forallb_Forall, Forall_fmap, Forall_lookup_2. intros i j [-> Hi]%lookup_seq.
  destruct (Hfin i Hi) as (d & Hd & [fr Hfr]). apply bool_decide_eq_true. cbn. apply fmap_is_Some.
  destruct (omap finish_reason (column i outs)) as [|x l] eqn:E; [|by eexists].
  exfalso. assert (fr ∈ omap finish_reason (column i outs)) as Hin' by (apply list_elem_of_omap; eauto).
  rewrite E in Hin'. by apply not_elem_of_nil in Hin'.
Qed.

Section chat.
Context {Node : Type} (ast_parse : string → result (call_ast Node))
  (literal_eval : string → result pyval) (literal_eval_node : Node → result pyval)
  (new_call_id : nat → nat → string).

(** C1. The response to a chat request that does not stream, whatever engine runs
    it: each choice has the concatenation of the delta texts of its generation,
    in order, its first finish reason and its logprobs; the usage is the one of
    the final chunk; function calls are extracted from the texts. The engine
    got one request and no abort. *)
Theorem chat_completion_spec gen request id w e1 prompts cfg use_fc len rq input outs u usage :
  let n := r_n request in
  let f := chat_reason use_fc in
  validate_chat request = Ok tt → r_stream request = false → 0 < n →
  process_chat_completion_request (T:=T) from_url embed_size function_json functions_json
    request id model_config encode max_input_sequence_length conv_template (w_engine w) =
    (e1, Ok (prompts, cfg, use_fc, len, rq)) →
  convert_prompts_to_data (PrList (prompt_arg <$> prompts)) = Ok input →
  Yields gen id n w (outs ++ [[usage_output (Some u)]]) →
  Forall (good_outputs parse_logprob chat_reasons f n (r_logprobs request)) outs →
  (∀ i, i < n → ∃ d, d ∈ column i outs ∧ is_Some (finish_reason d)) →
  parse_usage u = Ok usage →
  ∃ w', _chat_completion from_url embed_size function_json functions_json parse_logprob parse_usage
      encode model_config max_input_sequence_length conv_template
      ast_parse literal_eval literal_eval_node new_call_id gen request id w =
    (w', Some (
       let '(out, r) := process_function_call_output ast_parse literal_eval literal_eval_node
                          new_call_id (final_texts n outs) (final_reasons f n outs) in
       use_function_calling ← r;
       wrap_chat_completion_response id (r_model request) (co_texts out) (co_reasons out)
         (co_calls out)
         (if r_logprobs request then Some (final_logprobs parse_logprob f n outs) else None)
         use_function_calling (Some usage)))
    ∧ w_ffi w' = w_ffi w ++ [FCreate id input cfg; FAdd id].
Proof.
  intros n f Hval Hst Hpos Hproc Hin Hy Hg Hfin Hu.
  destruct (chat_request_frame _ _ _ _ _ _ _ _ _ Hproc) as [Hs1 Hn].
  assert (Forall (λ ds, length ds = n) outs) as Hlen.
  { eapply Forall_impl; [exact Hg|]. intros ds Hds. by eapply go_len. }
  unfold _chat_completion. rewrite Hval. unfold _handle_chat_completion, on_state. cbn [fst snd].
  rewrite Hproc, Hn. fold n.
  match goal with |- context [trace_event id "invoke generate" (?w1, ?l1)] =>
    destruct (trace_event_spec id "invoke generate" w1 l1) as (w2 & -> & Hs2) end.
  assert (same_world w w2) as Hw2.
  { etrans; [by apply same_world_engine|exact Hs2]. }
  pose proof (chat_loop_runs (T:=T) parse_logprob (Img:=Img) parse_usage request id use_fc outs
    (replicate n empty_gen) n u usage eq_refl Hpos (length_replicate _ _) Hst
    ltac:(apply Forall_replicate; done) Hg Hu) as Hruns.
  rewrite !fmap_replicate in Hruns. unfold chat_acc at 1 in Hruns. rewrite !fmap_replicate in Hruns.
  destruct (yields _ _ _ cfg input _ _ _ w2 Hw2 Hn Hin Hruns) as (w3 & Hgen & Hffi).
  cbn [empty_gen gn_reason gn_text gn_logprobs] in Hgen. rewrite Hgen. cbn [after_loop].
  match goal with |- context [trace_event id "finish" (w3, ?l1)] =>
    destruct (trace_event_spec id "finish" w3 l1) as (w4 & -> & Hs4) end.
  exists w4. cbn [fst snd]. split; [|by rewrite (same_world_ffi _ _ Hs4), Hffi].
  rewrite chat_acc_final by done. cbn [ca_reasons ca_texts ca_logprobs ca_usage].
  match goal with |- context [forallb ?p ?l] => assert (forallb p l = true) as -> end; [|done].
  by apply final_reasons_set.
Qed.
End chat.

(** *** Completions *)

Lemma completion_request_frame request id e e' toks cfg len echo rq :
  process_completion_request (T:=T) (Img:=Img) embed_size request id encode decode
    max_input_sequence_length conv_template e = (e', Ok (toks, cfg, len, echo, rq)) →
  same_but_trace e e' ∧ g_n cfg = c_n request ∧
  echo = if c_echo request then
           Some (Build_CompletionResponse id
             ((λ i, Build_CompletionChoice i None None (decode toks)) <$> seq 0 (c_n request))
             (c_model request) None)
         else None.
Proof.
  unfold process_completion_request. intros Hp.
  repeat match goal with
  | H : (mbind _ _) _ = (_, Ok _) |- _ => apply st_bind_Ok in H as (? & ? & ? & ?)
  | H : st_lift _ _ = (_, Ok _) |- _ => apply st_lift_Ok in H as [? ->]
  | H : record_event _ _ _ = (_, Ok _) |- _ => apply record_event_inv in H
  end.
  match goal with H : match ?p with _ => _ end _ = (e', Ok _) |- _ => destruct p as [l|]; [|done] end.
  match goal with H : _ = (e', Ok _) |- _ => injection H as <- <- <- <- <- <- end.
  split; [|split; [done|by destruct (c_echo request)]]. by do 2 (etrans; [eassumption|]).
Qed.

Lemma imap_const_seq {A B} (f : nat → B) (l : list A) n :
  length l = n → imap (λ i _, f i) l = f <$> seq 0 n.
Proof.
  intros <-. revert f. induction l as [|x l IH]; intros f; [done|].
  rewrite imap_cons. cbn [length seq]. rewrite fmap_cons, <-fmap_S_seq, <-list_fmap_compose.
  f_equal. apply (IH (f ∘ S)).
Qed.

(** The suffix is sent with the finish reason of each generation. *)
Lemma suffix_response request id (gs : list (Gen (option CompletionLogProbs))) :
  Forall (λ g, valid_reason completion_reasons (gn_reason g)) gs →
  forallb (λ r, bool_decide (is_Some r)) (gn_reason <$> gs) = true →
  create_completion_suffix_response request id (gn_reason <$> gs) =
    Ok ((λ suffix, Build_CompletionResponse id
           (imap (λ i g, Build_CompletionChoice i (gn_reason g) None suffix) gs)
           (c_model request) None) <$> c_suffix request).
Proof.
  intros Hv Hset. unfold create_completion_suffix_response.
  destruct (c_suffix request) as [suffix|]; [|done]. rewrite Hset. cbn [py_assert mbind result_bind].
  rewrite (map_m_imap _ (λ i fr, Build_CompletionChoice i fr None suffix)).
  - cbn [mbind result_bind fmap option_fmap option_map]. by rewrite imap_fmap.
  - intros i fr Hi. unfold mk_completion_choice. rewrite check_literal_valid; [done|].
    rewrite list_lookup_fmap in Hi. destruct (gs !! i) as [g|] eqn:Eg; [|done].
    injection Hi as <-. by eapply Forall_lookup_1 in Hv.
Qed.

Lemma wrap_completion_gens id model (gs : list (Gen (option CompletionLogProbs))) usage :
  Forall (λ g, valid_reason completion_reasons (gn_reason g)) gs →
  wrap_completion_response id model (gn_text <$> gs) (gn_reason <$> gs) (gn_logprobs <$> gs) usage =
    Ok (Build_CompletionResponse id
      (imap (λ i g, Build_CompletionChoice i (gn_reason g) (gn_logprobs g) (gn_text g)) gs) model usage).
Proof.
  intros Hv. unfold wrap_completion_response.
  assert (zip (gn_text <$> gs) (gn_reason <$> gs) = (λ g, (gn_text g, gn_reason g)) <$> gs) as ->.
  { clear. induction gs as [|g gs IH]; [done|]. rewrite !fmap_cons. cbn [zip zip_with]. by rewrite <-IH. }
  rewrite (map_m_imap _ (λ i p, Build_CompletionChoice i p.2
    (default None ((gn_logprobs <$> gs) !! i)) p.1)).
  - cbn [mbind result_bind]. do 2 f_equal. rewrite imap_fmap. apply list_eq. intros i.
    rewrite !list_lookup_imap, list_lookup_fmap. by destruct (gs !! i).
  - intros i [t fr] Hi. rewrite list_lookup_fmap in Hi. destruct (gs !! i) as [g|] eqn:Eg; [|done].
    injection Hi as <- <-. unfold py_index. rewrite list_lookup_fmap, Eg. simpl.
    unfold mk_completion_choice. rewrite check_literal_valid; [done|].
    by eapply Forall_lookup_1 in Hv.
Qed.

(** The text, finish reason and logprobs of generation [i] in the response to a
    completion request. *)
Definition completion_text (prefix suffix : string) (outs : list (list CallbackStreamOutput))
    (i : nat) : string := prefix +:+ concat_str (delta_text <$> column i outs) +:+ suffix.
Definition completion_reason (outs : list (list CallbackStreamOutput)) (i : nat) : option string :=
  head (omap finish_reason (column i outs)).
Definition completion_lps (outs : list (list CallbackStreamOutput)) (i : nat) :
    option CompletionLogProbs :=
  gn_logprobs (gen_run (completion_upd parse_logprob) (λ r, r) (mkGen "" None None) (column i outs)).

(** The state of the handler after the echo. *)
Lemma echo_delivered request id (prefix : string) n w (y := consume_completion) :
  deliver (T:=T) (Img:=Img) y
    (Build_CompletionResponse id ((λ i, Build_CompletionChoice i None None prefix) <$> seq 0 n)
       (c_model request) None)
    (w, (replicate n None, completion_acc (replicate n (mkGen "" None None)) None)) =
  ((w, (replicate n None, completion_acc (replicate n (mkGen prefix None None)) None)), Ok tt).
Proof.
  unfold deliver, y, consume_completion. cbn [pr_usage pr_choices fst snd].
  pose proof (consume_text_choices prefix (λ _, None) [] (replicate n (mkGen "" None None)) None
    ltac:(intros; by left)) as Hc. cbn [app length Nat.add] in Hc.
  rewrite (imap_const_seq (λ i, Build_CompletionChoice i None None prefix) _ n) in Hc
    by apply length_replicate.
  rewrite Hc, fmap_replicate. done.
Qed.

Lemma suffix_delivered request id suffix (gs : list (Gen (option CompletionLogProbs))) u w
    (y := consume_completion) :
  deliver (T:=T) (Img:=Img) y
    (Build_CompletionResponse id
       (imap (λ i g, Build_CompletionChoice i (gn_reason g) None suffix) gs) (c_model request) None)
    (w, (gn_reason <$> gs, completion_acc gs u)) =
  ((w, (gn_reason <$> gs, completion_acc (add_text suffix <$> gs) u)), Ok tt).
Proof.
  unfold deliver, y, consume_completion. cbn [pr_usage pr_choices fst snd].
  pose proof (consume_text_choices suffix gn_reason [] gs u ltac:(intros; by right)) as Hc.
  cbn [app length Nat.add] in Hc. by rewrite Hc.
Qed.

Lemma add_text_empty (gs : list (Gen (option CompletionLogProbs))) : add_text "" <$> gs = gs.
Proof.
  rewrite <-(list_fmap_id gs) at 2. apply list_fmap_ext. intros _ [t r l] _.
  unfold add_text. simpl. by rewrite append_nil_r.
Qed.

(** The end of the handler: the suffix, and the last trace event. *)
Lemma completion_ending request id (gs : list (Gen (option CompletionLogProbs))) u (w : World T Img) :
  Forall (λ g, valid_reason completion_reasons (gn_reason g)) gs →
  forallb (λ r, bool_decide (is_Some r)) (gn_reason <$> gs) = true →
  ∃ w', (suffix ← st_lift (create_completion_suffix_response request id (gn_reason <$> gs));
         _ ← match suffix with Some r => deliver consume_completion r | None => mret tt end;
         trace_event id "finish") (w, (gn_reason <$> gs, completion_acc gs u)) =
    ((w', (gn_reason <$> gs, completion_acc (add_text (default "" (c_suffix request)) <$> gs) u)), Ok tt)
    ∧ same_world w w'.
Proof.
  intros Hv Hset. rewrite suffix_response by done. unfold mbind, stM_bind, st_lift.
  destruct (c_suffix request) as [suffix|]; unfold fmap, option_fmap, option_map; cbv iota beta.
  - rewrite suffix_delivered.
    match goal with |- context [trace_event id "finish" (?w1, ?l1)] =>
      destruct (trace_event_spec id "finish" w1 l1) as (w' & -> & Hs) end. by exists w'.
  - unfold mret, stM_ret. rewrite add_text_empty.
    match goal with |- context [trace_event id "finish" (?w1, ?l1)] =>
      destruct (trace_event_spec id "finish" w1 l1) as (w' & -> & Hs) end. by exists w'.
Qed.

(** C2. The response to a completion request that does not stream, whatever engine
    runs it: one choice per generation, with the echoed prompt (if asked for),
    the concatenation of the delta texts of the generation in order, and the
    suffix (if any); its first finish reason; the logprobs of its last chunk
    that carried some; and the usage of the final chunk. *)
Theorem completion_spec gen request id w e1 toks cfg len echo rq input outs u usage :
  let n := c_n request in
  validate_completion request = Ok tt → c_stream request = false → 0 < n →
  process_completion_request (T:=T) (Img:=Img) embed_size request id encode decode
    max_input_sequence_length conv_template (w_engine w) = (e1, Ok (toks, cfg, len, echo, rq)) →
  convert_prompts_to_data (PrList (PrInt <$> toks)) = Ok input →
  Yields gen id n w (outs ++ [[usage_output (Some u)]]) →
  Forall (good_outputs parse_logprob completion_reasons (λ r, r) n true) outs →
  (∀ i, i < n → ∃ d, d ∈ column i outs ∧ is_Some (finish_reason d)) →
  parse_usage u = Ok usage →
  ∃ w', _completion (Img:=Img) embed_size parse_logprob parse_usage encode decode
      max_input_sequence_length conv_template gen request id w =
    (w', Some (Ok (Build_CompletionResponse id
       ((λ i, Build_CompletionChoice i (completion_reason outs i) (completion_lps outs i)
          (completion_text (if c_echo request then decode toks else "")
             (default "" (c_suffix request)) outs i)) <$> seq 0 n)
       (c_model request) (Some usage))))
    ∧ w_ffi w' = w_ffi w ++ [FCreate id input cfg; FAdd id].
Proof.
  intros n Hval Hst Hpos Hproc Hin Hy Hg Hfin Hu.
  destruct (completion_request_frame _ _ _ _ _ _ _ _ _ Hproc) as (Hs1 & Hn & Hecho).
  assert (Forall (λ ds, length ds = n) outs) as Hlen.
  { eapply Forall_impl; [exact Hg|]. intros ds Hds. by eapply go_len. }
  set (prefix := if c_echo request then decode toks else "").
  set (g0 := mkGen prefix None None : Gen (option CompletionLogProbs)).
  unfold _completion. rewrite Hval. unfold _handle_completion, on_state. cbn [fst snd].
  rewrite Hproc, Hn. fold n.
  match goal with |- context [match (match echo with _ => _ end) with _ => _ end] =>
    assert (∀ w0 : World T Img, match echo with
      | Some r => deliver consume_completion r (w0, (replicate n None,
          mkCompletionAcc (replicate n "") (replicate n None) (replicate n None) None))
      | None => ((w0, (replicate n None,
          mkCompletionAcc (replicate n "") (replicate n None) (replicate n None) None)), Ok tt) end =
      ((w0, (replicate n None, completion_acc (replicate n g0) None)), Ok tt)) as Hstart end.
  { intros w0. rewrite Hecho. pose proof (echo_delivered request id (decode toks) n w0) as He.
    unfold completion_acc at 1 in He. rewrite !fmap_replicate in He. cbn [gn_text gn_reason gn_logprobs] in He.
    unfold g0, prefix. destruct (c_echo request); [exact He|].
    unfold completion_acc. by rewrite !fmap_replicate. }
  rewrite Hstart. clear Hstart Hecho.
  match goal with |- context [trace_event id "invoke generate" (?w1, ?l1)] =>
    destruct (trace_event_spec id "invoke generate" w1 l1) as (w2 & -> & Hs2) end.
  assert (same_world w w2) as Hw2 by (etrans; [by apply same_world_engine|exact Hs2]).
  destruct (completion_loop_runs (T:=T) parse_logprob (Img:=Img) parse_usage request id outs
    (replicate n g0) n u usage eq_refl Hpos (length_replicate _ _) Hst
    ltac:(apply Forall_replicate; done) Hg Hu) as [Hruns Hv].
  rewrite fmap_replicate in Hruns.
  destruct (yields _ _ _ cfg input _ _ _ w2 Hw2 Hn Hin Hruns) as (w3 & Hgen & Hffi).
  cbn [g0 gn_reason] in Hgen. rewrite Hgen. cbn [after_loop]. clear Hgen Hruns.
  set (gs := gens_after (completion_upd parse_logprob) (λ r, r) (replicate n g0) outs) in *.
  assert (gs = (λ i, gen_run (completion_upd parse_logprob) (λ r, r) g0 (column i outs)) <$> seq 0 n)
    as Hgs by (by apply gens_after_replicate).
  assert (gn_reason <$> gs = final_reasons (λ r, r) n outs) as Hreasons.
  { rewrite Hgs, <-list_fmap_compose. apply list_fmap_ext. intros i j _. unfold compose.
    by rewrite gen_run_reason. }
  assert (forallb (λ r, bool_decide (is_Some r)) (gn_reason <$> gs) = true) as Hset.
  { rewrite Hreasons. by apply final_reasons_set. }
  destruct (completion_ending request id gs (Some usage) w3 Hv Hset) as (w4 & Hend & Hs4).
  cbn [fst snd] in *. rewrite Hend. exists w4. cbn [fst snd].
  split; [|by rewrite (same_world_ffi _ _ Hs4), Hffi]. clear Hend.
  set (gs' := add_text _ <$> gs).
  assert (Forall (λ g, valid_reason completion_reasons (gn_reason g)) gs') as Hv'
    by (by apply Forall_fmap).
  assert (gn_reason <$> gs' = gn_reason <$> gs) as Hr'
    by (unfold gs'; rewrite <-list_fmap_compose; by apply list_fmap_ext).
  unfold completion_acc. cbn [pa_reasons pa_texts pa_logprobs pa_usage].
  rewrite Hr', Hset. cbn [py_assert mbind result_bind]. rewrite <-Hr', wrap_completion_gens by done.
  do 4 f_equal. unfold gs'. rewrite Hgs, !imap_fmap.
  rewrite <-(imap_const_seq _ (seq 0 n) n) by apply length_seq.
  apply list_eq. intros i. rewrite !list_lookup_imap.
  destruct (seq 0 n !! i) as [j|] eqn:Ej; [|done]. apply lookup_seq in Ej as [-> _]. simpl.
  f_equal. unfold completion_reason, completion_lps, completion_text.
  rewrite gen_run_reason, gen_run_text. cbn [gn_reason gn_text g0].
  rewrite append_assoc, option_fmap_id. f_equal. unfold g0.
  apply (gen_run_logprobs _ _ (mkGen prefix None None) (mkGen "" None None)); done.
Qed.
End responses.

(** ** Witnesses *)

(** A detokenizer that prints each token as a character. *)
Fixpoint print_tokens (l : list Z) : string :=
  match l with
  | [] => ""
  | z :: l => String (Ascii.ascii_of_nat (Z.to_nat z)) (print_tokens l)
  end.
#[local] Instance char_streamer : TextStreamer unit := {|
  ts_new := tt; ts_put l t := (t, print_tokens l); ts_finish t := (t, ""); ts_decode := print_tokens;
|}.

Definition toy_world : World unit unit := mkWorld toy_engine [] false.
Definition toy_rso (id : string) (ids : list Z) (fr : option string) : RequestStreamOutput :=
  Build_RequestStreamOutput id [ids] None [fr] None [""].
Definition toy_usage_rso : RequestStreamOutput :=
  Build_RequestStreamOutput "req" [] None [] (Some "{}") [].
Definition toy_batches : list (list SingleRequestStreamOutput) :=
  [[toy_out [97%Z] None]; [toy_out [98%Z] (Some "stop")]].
Definition toy_schedule : list event :=
  [Deliver [toy_rso "req" [97%Z] None; toy_rso "other" [99%Z] None]; Resume;
   Deliver [toy_rso "req" [98%Z] (Some "stop")]; Deliver [toy_usage_rso]].
Definition toy_cfg : GenerationConfig :=
  (get_generation_config (ReqCompletion (completion_request (CPStr "a") false None false)) None None).1.
Definition collect (x : list CallbackStreamOutput) : stM (World unit unit * list (list CallbackStreamOutput)) unit :=
  λ s, ((s.1, s.2 ++ [x]), Ok tt).

Lemma toy_delivers : delivers "req" "{}" (delivered toy_schedule) toy_batches.
Proof.
  eapply delivers_chunk; [reflexivity|by eexists|].
  apply delivers_foreign; [by do 2 eexists|].
  eapply delivers_chunk; [reflexivity|by eexists|].
  by eapply delivers_final.
Qed.

Lemma collect_runs items l : runs collect items l (l ++ items) (Ok tt).
Proof.
  revert l. induction items as [|x items IH]; intros l; [rewrite app_nil_r; constructor|].
  specialize (IH (l ++ [x])). rewrite <-app_assoc in IH.
  eapply runs_cons; [|exact IH]. intros w. exists w. split; [done|reflexivity].
Qed.

Lemma toy_wf : wf_streams (w_engine toy_world).
Proof. intros id loc ts Hs. discriminate Hs. Qed.

Lemma async_generate_spec_witness :
  match async_generate collect (toy_schedule ++ [Resume; Resume; Resume]) (PrStr "a") toy_cfg "req"
          (toy_world, []) with
  | (s, Some r') => r' = Ok tt ∧ s.2 = chunk_items 1 toy_batches "{}" ∧
      async_streamers (w_engine s.1) !! "req" = None ∧
      w_ffi s.1 = [FCreate "req" [TextData "a"] toy_cfg; FAdd "req"]
  | (s, None) => w_ffi s.1 = [FCreate "req" [TextData "a"] toy_cfg; FAdd "req"]
  end.
Proof.
  apply (async_generate_spec collect (PrStr "a") toy_cfg "req" [TextData "a"] "{}" toy_batches
    (toy_schedule ++ [Resume; Resume; Resume]) toy_world [] _ (Ok tt)).
  - reflexivity.
  - reflexivity.
  - reflexivity.
  - exact toy_wf.
  - exact toy_delivers.
  - exact (collect_runs _ []).
Defined.

Lemma async_yields_witness :
  Yields (async_gen (Img:=unit) (toy_schedule ++ replicate 4 Resume)) "req" 1 toy_world
    (chunk_items 1 toy_batches "{}").
Proof.
  apply (async_yields "req" 1 toy_world "{}" toy_batches toy_schedule 4).
  - reflexivity.
  - reflexivity.
  - exact toy_wf.
  - exact toy_delivers.
  - simpl. lia.
Defined.

Definition toy_arrivals : list (list RequestStreamOutput) :=
  [[toy_rso "req" [97%Z] None]; [toy_rso "req" [98%Z] (Some "stop"); toy_usage_rso]].

Lemma toy_chunks : Forall2 chunk_of
  [toy_rso "req" [97%Z] None; toy_rso "req" [98%Z] (Some "stop")] toy_batches.
Proof. repeat constructor; (eexists; split; [reflexivity|by eexists]). Qed.

Lemma sync_yields_witness :
  Yields (sync_gen (Img:=unit) toy_arrivals) "req" 1 toy_world (chunk_items 1 toy_batches "{}").
Proof.
  apply (sync_yields "req" 1 toy_world "{}" toy_arrivals
    [toy_rso "req" [97%Z] None; toy_rso "req" [98%Z] (Some "stop")] toy_usage_rso
    (Build_SingleRequestStreamOutput [] None None (Some "{}") "") "req" [] toy_batches).
  - reflexivity.
  - reflexivity.
  - exact toy_chunks.
  - reflexivity.
  - reflexivity.
Defined.

Lemma async_generate_duplicate_witness :
  let w := mkWorld (mkState None {[0 := new_stream]} {["req" := (0, [tt])]} [] []) [] false in
  ∃ w', async_generate collect [Resume] (PrStr "a") toy_cfg "req" (w, []) =
      ((w', []), Some (Err duplicate_id)) ∧
    async_streamers (w_engine w') = delete "req" (async_streamers (w_engine w)) ∧
    w_ffi w' = [FCreate "req" [TextData "a"] toy_cfg; FAbort "req"].
Proof.
  apply (async_generate_duplicate collect (PrStr "a") toy_cfg "req" [TextData "a"] 0 [tt] []
    (mkWorld (mkState None {[0 := new_stream]} {["req" := (0, [tt])]} [] []) [] false) []).
  - reflexivity.
  - reflexivity.
  - reflexivity.
Defined.

(** The outputs both response witnesses run on. *)
Definition toy_outs : list (list CallbackStreamOutput) :=
  [[toy_delta "a" None]; [toy_delta "b" (Some "stop")]].

Lemma toy_outs_good lp allowed :
  "stop" ∈ allowed → Forall (good_outputs toy_logprob allowed (λ r, r) 1 lp) toy_outs.
Proof.
  intros Ha. constructor; [|constructor; [|constructor]];
    (split; [done|by repeat constructor|by repeat constructor
            |constructor; [by right|constructor]|constructor; [by intros r [= <-]|constructor]]).
Qed.

Lemma toy_finished i : i < 1 → ∃ d, d ∈ column i toy_outs ∧ is_Some (finish_reason d).
Proof.
  intros Hi. assert (i = 0) as -> by lia. exists (toy_delta "b" (Some "stop")).
  split; [|by eexists]. vm_compute. right. left.
Qed.

Lemma toy_yields :
  Yields (sync_gen (Img:=unit) toy_arrivals) "req" 1 toy_world (toy_outs ++ [[usage_output (Some "{}")]]).
Proof.
  assert (toy_outs ++ [[usage_output (Some "{}")]] = chunk_items 1 toy_batches "{}") as -> by reflexivity.
  apply (sync_implements "req" 1 toy_world "{}" toy_arrivals
    [toy_rso "req" [97%Z] None; toy_rso "req" [98%Z] (Some "stop")] toy_usage_rso
    (Build_SingleRequestStreamOutput [] None None (Some "{}") "") "req" [] toy_batches);
    [reflexivity|reflexivity|exact toy_chunks|reflexivity|reflexivity].
Qed.

Definition toy_chat : ChatCompletionRequest := chat_request [user_message "Hi"] None TCNone None.
Definition toy_encode (s : string) : list Z := [Z.of_nat (String.length s)].

Lemma chat_completion_spec_witness :
  ∃ w' input cfg, _chat_completion (T:=unit) no_images (λ _, 0) fn_name (λ _, "all") toy_logprob toy_usage
      toy_encode [] 100 (chatml [] "") toy_ast (λ _, raise ValueError "") (λ v, Ok v) (λ _ _, "call_0")
      (sync_gen toy_arrivals) toy_chat "req" toy_world =
    (w', Some (Ok (Build_ChatResponse "req"
       [Build_ChatChoice 0 (Some "stop") (assistant_message "ab") None] (Some "m")
       (Some toy_usage_value)))) ∧
    w_ffi w' = [FCreate "req" input cfg; FAdd "req"].
Proof.
  edestruct (chat_completion_spec (T:=unit) no_images (λ _, 0) fn_name (λ _, "all") toy_logprob toy_usage
      toy_encode [] 100 (chatml [] "") toy_ast (λ _, raise ValueError "") (λ v, Ok v) (λ _ _, "call_0")
      (sync_gen toy_arrivals) toy_chat "req" toy_world) as (w' & Hrun & Hffi).
  - reflexivity.
  - reflexivity.
  - simpl. lia.
  - lazy. reflexivity.
  - reflexivity.
  - exact toy_yields.
  - apply toy_outs_good. vm_compute. left.
  - exact toy_finished.
  - reflexivity.
  - exists w'. do 2 eexists. split; [|exact Hffi]. rewrite Hrun. reflexivity.
Defined.

Lemma completion_spec_witness :
  ∃ w' input cfg, _completion (T:=unit) (Img:=unit) (λ _, 0) toy_logprob toy_usage
      toy_encode (λ _, "Hi") 100 (chatml [] "")
      (sync_gen toy_arrivals) (completion_request (CPStr "Hi") true (Some "!") false) "req" toy_world =
    (w', Some (Ok (Build_CompletionResponse "req"
       [Build_CompletionChoice 0 (Some "stop") None "Hiab!"] (Some "m") (Some toy_usage_value)))) ∧
    w_ffi w' = [FCreate "req" input cfg; FAdd "req"].
Proof.
  edestruct (completion_spec (T:=unit) (Img:=unit) (λ _, 0) toy_logprob toy_usage
      toy_encode (λ _, "Hi") 100 (chatml [] "") (sync_gen toy_arrivals)
      (completion_request (CPStr "Hi") true (Some "!") false) "req" toy_world) as (w' & Hrun & Hffi).
  - reflexivity.
  - reflexivity.
  - simpl. lia.
  - lazy. reflexivity.
  - reflexivity.
  - exact toy_yields.
  - apply toy_outs_good. vm_compute. left.
  - exact toy_finished.
  - reflexivity.
  - exists w'. do 2 eexists. split; [|exact Hffi]. rewrite Hrun. reflexivity.
Defined.
