(* ===== verification/Router.v ===== *)
(** The router: [python/mlc_llm/router/router.py].

    The servers behind the router are an oracle that answers each HTTP call
    from the calls made so far. Generators are modelled by the loop that
    consumes them, as in [Engine]: an exception of the consumer closes them. *)

From Stdlib Require Import QArith Qround Qabs Lqa Lia.
From stdpp Require Import base gmap strings list.
From S2P Require Import Prelude PyString Conversation OpenAIProtocol EngineUtils StreamBase EngineBase.
Close Scope Q_scope.

(** ** Construction *)

(** What [start_server] passes for one server. *)
Record ServerConfig := {
  sc_host : string;
  sc_port : Z;
  sc_device : Z;
  sc_npes : Z;
  sc_pe_start : Z;
}.

Record Router := {
  router_mode : string;
  pd_balance_factor : Q;
  num_servers : nat;
  server_urls : list string;
  device_id_starts : list Z;
  servers : list ServerConfig;
}.

(** [device_id_starts]: the running sums of [num_gpus]. *)
Definition device_starts (num_gpus : list Z) : list Z :=
  foldl (λ acc g, acc ++ [(List.last acc 0 + g)%Z]) [0%Z] num_gpus.

Section init.
(** [f"{port}"]. *)
Context (show_int : Z → string).

(** [Router.__init__] ([num_running_requests] starts with zeros). *)
Definition init (hosts : option (list string)) (ports num_gpus : option (list Z))
    (mode : string) (factor : Q) : result (Router * list Z) :=
  let hosts := default ["127.0.0.1"] hosts in
  let ports := default [8080%Z] ports in
  let num_gpus := default [1%Z] num_gpus in
  let n := length hosts in
  _ ← py_assert (bool_decide (n = length ports) && bool_decide (length ports = length num_gpus))
        "self.num_servers == len(ports) == len(num_gpus)";
  let starts := device_starts num_gpus in
  configs ← map_m (λ '(i, (host, port)),
      start ← py_index starts i;
      Ok {| sc_host := host; sc_port := port; sc_device := start;
            sc_npes := List.last starts 0%Z; sc_pe_start := start |})
    (enumerate (zip hosts ports));
  Ok ({| router_mode := mode; pd_balance_factor := factor; num_servers := n;
         server_urls := zip_with (λ h p, "http://" +:+ h +:+ ":" +:+ show_int p) hosts ports;
         device_id_starts := starts; servers := configs |},
      replicate n 0%Z).
End init.

(** ** HTTP calls *)

Inductive payload :=
  | PCompletion (r : CompletionRequest)
  | PPrepRecv (r : CompletionRequest) (end_ : Z)
  | PRemoteSend (r : CompletionRequest) (begin end_ : Z) (kv_addr_info : pyval) (recv_rank : Z)
  | PStartGenerate (r : CompletionRequest) (begin : Z).

Record http_call := { hc_url : string; hc_body : payload }.

(** A line of a streamed body, or the exception reading it raises. *)
Inductive body_event := BLine (s : string) | BError (e : exn).

Inductive http_reply :=
  | ReplyError (e : exn)
  | Reply (status : Z) (lines : list body_event) (json : result pyval).

(** The state of a router: the running requests per server, and the calls made. *)
Record RouterState := mkRS { num_running_requests : list Z; calls : list http_call }.

Section router.
Context (self : Router) (server : list http_call → http_reply)
  (encode : string → list Z)
  (json_loads : string → result pyval)
  (parse_response : pyval → result CompletionResponse).
(** Rounding of a floating-point operation. *)
Context (rnd : Q → Q).

(** [_pick_endpoint]. *)
Definition pick_step (running : list Z) (acc : option nat * Z) (candidate : nat) :
    result (option nat * Z) :=
  x ← py_index running candidate;
  Ok (if (x <? acc.2)%Z then (Some candidate, x) else acc).
Definition _pick_endpoint (running : list Z) (endpoint_ids : list nat) : result nat :=
  acc ← fold_m (pick_step running) (None, 1000000000%Z) endpoint_ids;
  match acc.1 with
  | Some i => Ok i
  | None => raise AssertionError "endpoint_id != -1"
  end.

(** [self.num_running_requests[i] += d]. *)
Definition add_running (i : nat) (d : Z) : stM RouterState unit := λ s,
  match x ← py_index (num_running_requests s) i; py_setitem (num_running_requests s) i (x + d)%Z with
  | Ok l => (mkRS l (calls s), Ok tt)
  | Err e => (s, Err e)
  end.

(** [session.post(url, json=body)], up to the check of the status. *)
Definition post (url : string) (body : payload) : stM RouterState (list body_event * result pyval) := λ s,
  let log := calls s ++ [{| hc_url := url; hc_body := body |}] in
  (mkRS (num_running_requests s) log,
   match server log with
   | ReplyError e => Err e
   | Reply status lines json =>
       if (status =? 200)%Z then Ok (lines, json) else raise AssertionError "response.text()"
   end).

(** One line of the event stream: [None] for a line that carries no response. *)
Definition decode_line (chunk : string) : result (option CompletionResponse) :=
  let chunk := py_strip chunk in
  if decide (chunk = "" ∨ chunk = nl) then Ok None
  else
    let raw_data := py_strip (drop_chars 6 chunk) in
    if decide (raw_data = "[DONE]") then Ok None
    else data ← json_loads raw_data; r ← parse_response data; Ok (Some r).

Section consumer.
(** The consumer of the responses; [None] announces a preemption. *)
Context {C : Type} (y : option CompletionResponse → stM C unit).

Abbreviation RT := (stM (RouterState * C)).

Definition on_router {A} (m : stM RouterState A) : RT A := λ s,
  let '(r, x) := m s.1 in ((r, s.2), x).
Definition give (r : option CompletionResponse) : RT unit := λ s,
  let '(c, x) := y r s.2 in ((s.1, c), x).

Definition is_preempt (r : CompletionResponse) : bool :=
  match pr_choices r with
  | c :: _ => bool_decide (pc_finish_reason c = Some "preempt")
  | [] => false
  end.

(** A response goes to the consumer, after the announcement if preempted. *)
Definition yield_response (r : CompletionResponse) : RT unit :=
  _ ← (if is_preempt r then give None else mret tt);
  give (Some r).

(** The loop over the streamed lines. *)
Fixpoint stream_responses (lines : list body_event) : RT unit :=
  match lines with
  | [] => mret tt
  | BError e :: _ => st_lift (Err e)
  | BLine s :: lines =>
      r ← st_lift (decode_line s);
      match r with
      | None => stream_responses lines
      | Some r => _ ← yield_response r; stream_responses lines
      end
  end.

(** The body of a response, streamed or not. *)
Definition read_responses (stream : bool) (reply : list body_event * result pyval) : RT unit :=
  if stream then stream_responses reply.1
  else data ← st_lift reply.2; r ← st_lift (parse_response data); yield_response r.

(** The call of the round-robin handler and the loop over its responses. *)
Definition round_robin_steps (request : CompletionRequest) (cur_endpoint : nat) : RT unit :=
  url ← st_lift (py_index (server_urls self) cur_endpoint);
  reply ← on_router (post (url +:+ "/v1/completions") (PCompletion request));
  read_responses (c_stream request) reply.

(** [_handle_completion_round_robin]. *)
Definition _handle_completion_round_robin (request : CompletionRequest) : RT unit :=
  s ← st_get;
  cur_endpoint ← st_lift (_pick_endpoint (num_running_requests s.1) (seq 0 (num_servers self)));
  _ ← on_router (add_running cur_endpoint 1);
  _ ← round_robin_steps request cur_endpoint;
  on_router (add_running cur_endpoint (-1)).

Definition prompt_length (request : CompletionRequest) : Z :=
  match c_prompt request with
  | CPStr s => Z.of_nat (String.length s)
  | CPTokens l => Z.of_nat (length l)
  end.

(** The end of the window the prefill server computes, before the length of
    the prompt is added to a negative one ([int] truncates toward zero). *)
Definition trunc (q : Q) : Z := if Qle_bool 0 q then Qfloor q else Qceiling q.
Definition initial_kv_end (factor : Q) (n : Z) : Z :=
  if negb (Qle_bool (1 # 100000) (Qabs.Qabs factor)) then (-1)%Z
  else trunc (rnd (rnd (1 - factor) * inject_Z n)).

(** [original_request.user = request_id]. *)
Definition with_user (u : string) (r : CompletionRequest) : CompletionRequest :=
  Build_CompletionRequest (c_model r) (c_prompt r) (c_best_of r) (c_echo r) (c_frequency_penalty r)
    (c_presence_penalty r) (c_logprobs r) (c_logit_bias r) (c_max_tokens r) (c_n r) (c_seed r)
    (c_stop r) (c_stream r) (c_stream_options r) (c_suffix r) (c_temperature r) (c_top_p r)
    (Some u) (c_response_format r) (c_debug_config r).

Definition get_field (v : pyval) (k : string) : result pyval :=
  match v with PDict d => get_key k d | _ => raise TypeError "indices must be integers" end.

(** [send_prepare_receive]: the metadata and the matched length. *)
Definition send_prepare_receive (request : CompletionRequest) (end_ : Z) (url : string) :
    RT (pyval * Z) :=
  reply ← on_router (post (url +:+ "/microserving/prep_recv") (PPrepRecv request end_));
  data ← st_lift reply.2;
  metadata ← st_lift (get_field data "kv_append_metadata");
  len ← st_lift (get_field data "prefix_matched_length");
  match len with
  | PInt z => mret (metadata, z)
  | _ => st_lift (raise TypeError "'<=' not supported")
  end.

(** [send_remote_send]. *)
Definition send_remote_send (request : CompletionRequest) (begin end_ : Z) (addr : pyval) (rank : Z)
    (url : string) : RT unit :=
  reply ← on_router (post (url +:+ "/microserving/remote_send")
                       (PRemoteSend request begin end_ addr rank));
  _ ← st_lift reply.2; mret tt.

(** [send_start_generate], with the loop that consumes it. *)
Definition send_start_generate (request : CompletionRequest) (begin : Z) (url : string) : RT unit :=
  reply ← on_router (post (url +:+ "/microserving/start_generate") (PStartGenerate request begin));
  read_responses (c_stream request) reply.

(** The three steps of disaggregated serving: the body of the [try]. *)
Definition disagg_steps (request : CompletionRequest) (decode_id : nat) (kv_end0 : Z) : RT unit :=
  decode_url ← st_lift (py_index (server_urls self) decode_id);
  '(metadata, prefix_matched_length) ← send_prepare_receive request kv_end0 decode_url;
  let kv_end := (if kv_end0 <? 0 then prompt_length request + kv_end0 else kv_end0)%Z in
  _ ← st_lift (py_assert (prefix_matched_length <=? kv_end)%Z "prefix_matched_length <= kv_window_end");
  _ ← (if (prefix_matched_length <? kv_end)%Z then
         rank ← st_lift (py_index (device_id_starts self) decode_id);
         prefill_url ← st_lift (py_index (server_urls self) 0);
         send_remote_send request prefix_matched_length kv_end metadata rank prefill_url
       else mret tt);
  send_start_generate request kv_end decode_url.

(** The [try] statement of [_handle_completion_disagg]: [except Exception] lets
    [GeneratorExit] and [CancelledError] pass, without the decrement. *)
Definition releasing (i : nat) (body : RT unit) : RT unit := λ s,
  match body s with
  | (s, Ok _) => on_router (add_running i (-1)) s
  | (s, Err e) =>
      if is_Exception (exn_cls e)
      then match on_router (add_running i (-1)) s with
           | (s, Ok _) => (s, Err e)
           | (s, Err e') => (s, Err e')
           end
      else (s, Err e)
  end.

(** [_handle_completion_disagg]. *)
Definition _handle_completion_disagg (original_request : CompletionRequest) (request_id : string)
    (factor : Q) : RT unit :=
  let request := with_user request_id original_request in
  s ← st_get;
  decode_server_id ← st_lift (_pick_endpoint (num_running_requests s.1) (seq 1 (num_servers self - 1)));
  let kv_end := initial_kv_end factor (prompt_length request) in
  _ ← on_router (add_running decode_server_id 1);
  releasing decode_server_id (disagg_steps request decode_server_id kv_end).

(** [translate_request]. *)
Definition translate_request (request : CompletionRequest) (request_id : string) : RT unit :=
  if decide (router_mode self = "disagg") then
    _handle_completion_disagg request request_id (pd_balance_factor self)
  else if decide (router_mode self = "round-robin") then _handle_completion_round_robin request
  else st_lift (raise ValueError "Cannot reach here").
End consumer.

(** [DebugConfig()]. *)
Definition default_debug_config : DebugConfig :=
  {| ignore_eos := false; pinned_system_prompt := false; special_request := None;
     grammar_execution_mode := jump_forward; disagg_config := None |}.

(** The request [handle_completion] works with. *)
Definition prepare_request (r : CompletionRequest) : CompletionRequest :=
  Build_CompletionRequest (c_model r)
    (match c_prompt r with CPStr s => CPTokens (encode s) | p => p end)
    (c_best_of r) (c_echo r) (c_frequency_penalty r)
    (c_presence_penalty r) (c_logprobs r) (c_logit_bias r) (c_max_tokens r) (c_n r) (c_seed r)
    (c_stop r) (c_stream r) (c_stream_options r) (c_suffix r) (c_temperature r) (c_top_p r)
    (c_user r) (c_response_format r) (Some (default default_debug_config (c_debug_config r))).

Section handle.
Context {C : Type} (y : CompletionResponse → stM C unit).

Definition generator_exit : exn := Exn GeneratorExit "".

(** One iteration of the [while]: [None] breaks out of the inner loop, which
    closes the generator at its [yield None]. The flag is [not completed]. *)
Definition attempt_consumer (r : option CompletionResponse) : stM (C * bool) unit := λ s,
  match r with
  | None => ((s.1, true), Err generator_exit)
  | Some r => let '(c, x) := y r s.1 in ((c, s.2), x)
  end.

(** [handle_completion], with fuel for the [while] ([None]: out of fuel). *)
Fixpoint attempts (fuel : nat) (request : CompletionRequest) (request_id : string)
    (s : RouterState * C) : (RouterState * C) * option (result unit) :=
  match fuel with
  | 0 => (s, None)
  | S fuel =>
      match translate_request attempt_consumer request request_id (s.1, (s.2, false)) with
      | ((rs, (c, true)), _) => attempts fuel request request_id (rs, c)
      | ((rs, (c, false)), r) => ((rs, c), Some r)
      end
  end.
Definition handle_completion (fuel : nat) (request : CompletionRequest) (request_id : string) :
    RouterState * C → (RouterState * C) * option (result unit) :=
  attempts fuel (prepare_request request) request_id.
End handle.
End router.

(** ** The choice of a server *)

Section pick.
Implicit Types (running : list Z).

(** [i] is the first of the candidates with the fewest running requests. *)
Definition least_loaded running (ids : list nat) (i : nat) : Prop :=
  ∃ pre post x, ids = pre ++ i :: post ∧ running !! i = Some x ∧
    Forall (λ j, ∃ z, running !! j = Some z ∧ (x < z)%Z) pre ∧
    Forall (λ j, ∃ z, running !! j = Some z ∧ (x ≤ z)%Z) post.

(** The accumulator of the loop after the candidates [ids]. *)
Definition pick_inv running (ids : list nat) (acc : option nat * Z) : Prop :=
  match acc.1 with
  | None => acc.2 = 1000000000%Z ∧ Forall (λ j, ∃ z, running !! j = Some z ∧ (1000000000 ≤ z)%Z) ids
  | Some i => (acc.2 < 1000000000)%Z ∧ running !! i = Some acc.2 ∧
      ∃ pre post, ids = pre ++ i :: post ∧
        Forall (λ j, ∃ z, running !! j = Some z ∧ (acc.2 < z)%Z) pre ∧
        Forall (λ j, ∃ z, running !! j = Some z ∧ (acc.2 ≤ z)%Z) post
  end.

Lemma pick_inv_nil running : pick_inv running [] (None, 1000000000%Z).
Proof. split; [done|constructor]. Qed.

Lemma pick_step_inv running ids acc c acc' :
  pick_inv running ids acc → pick_step running acc c = Ok acc' → pick_inv running (ids ++ [c]) acc'.
Proof.
  unfold pick_step. intros Hinv H. ok_inv. apply py_index_Ok in H0.
  destruct acc as [[i|] m]; unfold pick_inv in *; cbn [fst snd] in *.
  - destruct Hinv as (Hm & Hi & pre & post & -> & Hpre & Hpost).
    destruct (a <? m)%Z eqn:E; bool_inv; cbn [fst snd].
    + split; [lia|]. split; [done|]. exists (pre ++ i :: post), []. split; [done|].
      split; [|constructor]. apply Forall_app. split; [|constructor].
      * eapply Forall_impl; [exact Hpre|]. intros j (z & Hz & ?). exists z. split; [done|lia].
      * by exists m.
      * eapply Forall_impl; [exact Hpost|]. intros j (z & Hz & ?). exists z. split; [done|lia].
    + split_and!; [done..|]. exists pre, (post ++ [c]). rewrite <-app_assoc. split_and!; [done..|].
      apply Forall_app. split; [done|]. constructor; [|constructor]. by exists a.
  - destruct Hinv as [-> Hall]. destruct (a <? 1000000000)%Z eqn:E; bool_inv; cbn [fst snd].
    + split; [lia|]. split; [done|]. exists ids, []. split_and!; [done| |constructor].
      eapply Forall_impl; [exact Hall|]. intros j (z & Hz & ?). exists z. split; [done|lia].
    + split; [done|]. apply Forall_app. split; [done|]. constructor; [|constructor]. by exists a.
Qed.

Lemma pick_fold_inv running ids0 acc ids acc' :
  pick_inv running ids0 acc → fold_m (pick_step running) acc ids = Ok acc' →
  pick_inv running (ids0 ++ ids) acc'.
Proof.
  revert ids0 acc. induction ids as [|c ids IH]; intros ids0 acc Hinv H.
  - simpl in H. ok_inv. by rewrite app_nil_r.
  - cbn [fold_m] in H. apply bind_Ok in H as (acc1 & H1 & H).
    pose proof (pick_step_inv _ _ _ _ _ Hinv H1) as Hinv1.
    specialize (IH _ _ Hinv1 H). by rewrite <-app_assoc in IH.
Qed.

Lemma pick_fold_total running ids acc :
  Forall (λ j, j < length running) ids → is_ok (fold_m (pick_step running) acc ids) = true.
Proof.
  intros Hids. revert acc. induction Hids as [|c ids Hc _ IH]; intros acc; [done|].
  cbn [fold_m]. assert (∃ acc', pick_step running acc c = Ok acc') as [acc' ->]; [|apply IH].
  unfold pick_step, py_index. destruct (lookup_lt_is_Some_2 running c Hc) as [x ->]. by eexists.
Qed.

(** [_pick_endpoint] returns the first of the least loaded candidates, and fails
    its assertion exactly when no candidate runs fewer than 10^9 requests. *)
Theorem pick_endpoint_spec running ids :
  Forall (λ j, j < length running) ids →
  match _pick_endpoint running ids with
  | Ok i => least_loaded running ids i
  | Err e => exn_cls e = AssertionError ∧
      Forall (λ j, ∃ z, running !! j = Some z ∧ (1000000000 ≤ z)%Z) ids
  end.
Proof.
  intros Hids. unfold _pick_endpoint.
  pose proof (pick_fold_total running ids (None, 1000000000%Z) Hids) as Hok.
  destruct (fold_m _ _ ids) as [acc|] eqn:E; [|done].
  pose proof (pick_fold_inv running [] _ ids acc (pick_inv_nil running) E) as Hinv.
  cbn [mbind result_bind app] in *. unfold pick_inv in Hinv. destruct acc as [[i|] m]; cbn [fst snd] in *.
  - destruct Hinv as (_ & Hi & pre & post & -> & Hpre & Hpost). by exists pre, post, m.
  - by destruct Hinv.
Qed.

Lemma pick_lt running ids i : _pick_endpoint running ids = Ok i → i < length running ∧ i ∈ ids.
Proof.
  unfold _pick_endpoint. intros H. apply bind_Ok in H as (acc & H1 & H).
  pose proof (pick_fold_inv running [] _ ids acc (pick_inv_nil running) H1) as Hinv.
  unfold pick_inv in Hinv. destruct acc as [[j|] m]; cbn [fst snd app] in *; [|done].
  injection H as <-. destruct Hinv as (_ & Hi & pre & post & -> & _).
  split; [by eapply lookup_lt_Some|]. apply elem_of_app. right. left.
Qed.
End pick.

(** ** The running requests *)

Create HintDb router.

Section accounting.
Context {C : Type}.
Implicit Types (s : RouterState * C).

(** The computation leaves a part of the router's state alone. *)
Definition keeps {X A} (f : RouterState → X) (m : stM (RouterState * C) A) : Prop :=
  ∀ s, f (m s).1.1 = f s.1.

Lemma keeps_ret {X A} (f : RouterState → X) (a : A) : keeps f (mret a).
Proof. by intros s. Qed.
Lemma keeps_lift {X A} (f : RouterState → X) (r : result A) : keeps f (st_lift r).
Proof. by intros s. Qed.
Lemma keeps_bind {X A B} (f : RouterState → X) (m : stM (RouterState * C) A)
    (k : A → stM (RouterState * C) B) :
  keeps f m → (∀ a, keeps f (k a)) → keeps f (m ≫= k).
Proof.
  intros Hm Hk s. specialize (Hm s). unfold mbind, stM_bind.
  destruct (m s) as [s1 [a|e]]; [|done]. by rewrite (Hk a s1).
Qed.
Lemma keeps_give {X} (f : RouterState → X) y r : keeps f (give (C:=C) y r).
Proof. intros s. unfold give. by destruct (y r s.2). Qed.
Lemma keeps_post server url body :
  keeps num_running_requests (on_router (C:=C) (post server url body)).
Proof. by intros s. Qed.

#[local] Hint Resolve keeps_ret keeps_lift keeps_bind keeps_give keeps_post : router.

(** Walk through a sequence of steps. *)
Ltac keeps_steps := repeat (apply keeps_bind; [auto with router|intros ?]); auto with router.

Context (self : Router) (server : list http_call → http_reply)
  (json_loads : string → result pyval) (parse_response : pyval → result CompletionResponse)
  (rnd : Q → Q) (y : option CompletionResponse → stM C unit).

Lemma keeps_yield {X} (f : RouterState → X) r : keeps f (yield_response y r).
Proof. unfold yield_response. destruct (is_preempt r); auto with router. Qed.
#[local] Hint Resolve keeps_yield : router.

Lemma keeps_stream {X} (f : RouterState → X) lines :
  keeps f (stream_responses json_loads parse_response y lines).
Proof.
  induction lines as [|[str|e] lines IH]; simpl; auto with router.
  apply keeps_bind; [auto with router|]. intros [r|]; auto with router.
Qed.
#[local] Hint Resolve keeps_stream : router.

Lemma keeps_read {X} (f : RouterState → X) stream reply :
  keeps f (read_responses json_loads parse_response y stream reply).
Proof. unfold read_responses. destruct stream; auto with router. Qed.
#[local] Hint Resolve keeps_read : router.

Lemma keeps_disagg request i kv :
  keeps num_running_requests (disagg_steps self server json_loads parse_response y request i kv).
Proof.
  unfold disagg_steps, send_prepare_receive, send_start_generate, send_remote_send.
  apply keeps_bind; [auto with router|]. intros url.
  apply keeps_bind.
  - repeat (apply keeps_bind; [auto with router|intros ?]). destruct _; auto with router.
  - intros [metadata len]. apply keeps_bind; [auto with router|]. intros _.
    apply keeps_bind; [|intros; keeps_steps]. destruct (_ <? _)%Z; keeps_steps.
Qed.

Lemma keeps_round_robin request i :
  keeps num_running_requests (round_robin_steps self server json_loads parse_response y request i).
Proof. unfold round_robin_steps. keeps_steps. Qed.

(** The counter of server [i] changed by [d]. *)
Definition bump (i : nat) (d : Z) : list Z → list Z := alter (λ x, (x + d)%Z) i.

Lemma add_running_spec i d (st : RouterState) :
  i < length (num_running_requests st) →
  add_running i d st = (mkRS (bump i d (num_running_requests st)) (calls st), Ok tt).
Proof.
  intros Hi. unfold add_running, py_index, py_setitem.
  destruct (lookup_lt_is_Some_2 _ _ Hi) as [x Hx]. rewrite Hx. cbn [mbind result_bind].
  rewrite decide_True by done. unfold bump. f_equal. f_equal.
  apply list_eq. intros j. destruct (decide (i = j)) as [<-|Hne].
  - by rewrite list_lookup_insert_eq, list_lookup_alter_eq, Hx.
  - by rewrite list_lookup_insert_ne, list_lookup_alter_ne.
Qed.

Lemma bump_length i d l : length (bump i d l) = length l.
Proof. apply length_alter. Qed.
Lemma bump_back i l : bump i (-1) (bump i 1 l) = l.
Proof.
  unfold bump. apply list_eq. intros j. destruct (decide (i = j)) as [<-|Hne].
  - rewrite !list_lookup_alter_eq. destruct (l !! i); [|done]. simpl. f_equal. lia.
  - by rewrite !list_lookup_alter_ne.
Qed.

(** An exception that [except Exception] does not catch. *)
Definition uncaught {A} (r : result A) : bool :=
  match r with Ok _ => false | Err e => negb (is_Exception (exn_cls e)) end.

Lemma disagg_run request id factor s :
  let '(s', r) := _handle_completion_disagg self server json_loads parse_response rnd y
                    request id factor s in
  match _pick_endpoint (num_running_requests s.1) (seq 1 (num_servers self - 1)) with
  | Err e => s' = s ∧ r = Err e
  | Ok i => num_running_requests s'.1 =
      if uncaught r then bump i 1 (num_running_requests s.1) else num_running_requests s.1
  end.
Proof.
  unfold _handle_completion_disagg, mbind, stM_bind, st_get, st_lift. cbn zeta.
  destruct (_pick_endpoint _ _) as [i|e] eqn:Ep; [|done].
  destruct (pick_lt _ _ _ Ep) as [Hi _]. unfold on_router at 1. rewrite add_running_spec by done.
  unfold releasing.
  match goal with |- context [disagg_steps ?a ?b ?c ?d ?e ?f ?g ?h ?s1] =>
    pose proof (keeps_disagg f g h s1) as Hk; destruct (disagg_steps a b c d e f g h s1) as [s2 r] end.
  cbn [fst num_running_requests] in Hk.
  assert (add_running i (-1) s2.1 = (mkRS (num_running_requests s.1) (calls s2.1), Ok tt)) as Hback.
  { rewrite add_running_spec by (by rewrite Hk, bump_length). by rewrite Hk, bump_back. }
  destruct r as [u|e]; cbn [uncaught].
  - unfold on_router. by rewrite Hback.
  - unfold on_router. rewrite Hback. destruct (is_Exception (exn_cls e)) eqn:Ee;
      unfold uncaught; rewrite Ee; [done|exact Hk].
Qed.

(** C37. Disaggregated serving: whatever the servers and the client do, the counter
    of the chosen decode server is back to its value when the call ends, except
    when it is closed or cancelled: then the request is counted forever. *)
Theorem disagg_accounting request id factor s :
  let '(s', r) := _handle_completion_disagg self server json_loads parse_response rnd y
                    request id factor s in
  match _pick_endpoint (num_running_requests s.1) (seq 1 (num_servers self - 1)) with
  | Err e => s' = s ∧ r = Err e
  | Ok i => num_running_requests s'.1 =
      if uncaught r then bump i 1 (num_running_requests s.1) else num_running_requests s.1
  end.
Proof. apply disagg_run. Qed.

Lemma round_robin_run request s :
  let '(s', r) := _handle_completion_round_robin self server json_loads parse_response y request s in
  match _pick_endpoint (num_running_requests s.1) (seq 0 (num_servers self)) with
  | Err e => s' = s ∧ r = Err e
  | Ok i => num_running_requests s'.1 =
      if is_ok r then num_running_requests s.1 else bump i 1 (num_running_requests s.1)
  end.
Proof.
  unfold _handle_completion_round_robin, mbind, stM_bind, st_get, st_lift.
  destruct (_pick_endpoint _ _) as [i|e] eqn:Ep; [|done].
  destruct (pick_lt _ _ _ Ep) as [Hi _]. unfold on_router at 1. rewrite add_running_spec by done.
  match goal with |- context [round_robin_steps ?a ?b ?c ?d ?e ?f ?g ?s1] =>
    pose proof (keeps_round_robin f g s1) as Hk; destruct (round_robin_steps a b c d e f g s1) as [s2 [u|e1]] end;
    [|done].
  cbn [fst num_running_requests] in Hk. unfold on_router.
  rewrite add_running_spec by (by rewrite Hk, bump_length). simpl. by rewrite Hk, bump_back.
Qed.

(** Round-robin serving: the counter is back to its value only when the call
    ends normally; after any exception the request is counted forever. *)
Theorem round_robin_accounting request s :
  let '(s', r) := _handle_completion_round_robin self server json_loads parse_response y request s in
  match _pick_endpoint (num_running_requests s.1) (seq 0 (num_servers self)) with
  | Err e => s' = s ∧ r = Err e
  | Ok i => num_running_requests s'.1 =
      if is_ok r then num_running_requests s.1 else bump i 1 (num_running_requests s.1)
  end.
Proof. apply round_robin_run. Qed.

Lemma on_router_post_inv url body s s' x :
  on_router (C:=C) (post server url body) s = (s', Ok x) →
  calls s'.1 = calls s.1 ++ [{| hc_url := url; hc_body := body |}] ∧ s'.2 = s.2.
Proof. unfold on_router, post. simpl. by intros [= <- _]. Qed.

(** The window of the prompt the prefill server is asked for, given what the
    decode server already has: a negative end counts from the end. *)
Definition resolve_end (n kv_end : Z) : Z := if (kv_end <? 0)%Z then (n + kv_end)%Z else kv_end.

(** Invert a computation that returned [Ok]. *)
Ltac st_inv :=
  repeat match goal with
  | H : (mbind _ _) _ = (_, Ok _) |- _ => apply st_bind_Ok in H as (? & ? & ? & ?)
  | H : st_lift _ _ = (_, Ok _) |- _ => apply st_lift_Ok in H as [? ->]
  | H : on_router (post _ _ _) _ = (_, Ok _) |- _ => apply on_router_post_inv in H as [? ?]
  | H : py_index _ _ = Ok _ |- _ => apply py_index_Ok in H
  | H : py_assert _ _ = Ok _ |- _ => apply py_assert_Ok in H
  | H : mret _ _ = (_, Ok _) |- _ => injection H as <- ?
  end.

Lemma send_prepare_receive_inv request kv url s s' r :
  send_prepare_receive (C:=C) server request kv url s = (s', Ok r) →
  calls s'.1 = calls s.1 ++
    [{| hc_url := url +:+ "/microserving/prep_recv"; hc_body := PPrepRecv request kv |}].
Proof.
  unfold send_prepare_receive. intros H. st_inv.
  match goal with H : match ?v with _ => _ end _ = _ |- _ => destruct v; try done end.
  st_inv. done.
Qed.

Lemma send_remote_send_inv request b e addr rank url s s' r :
  send_remote_send (C:=C) server request b e addr rank url s = (s', Ok r) →
  calls s'.1 = calls s.1 ++
    [{| hc_url := url +:+ "/microserving/remote_send"; hc_body := PRemoteSend request b e addr rank |}].
Proof. unfold send_remote_send. intros H. st_inv. done. Qed.

Lemma send_start_generate_inv request b url s s' r :
  send_start_generate server json_loads parse_response y request b url s = (s', Ok r) →
  calls s'.1 = calls s.1 ++
    [{| hc_url := url +:+ "/microserving/start_generate"; hc_body := PStartGenerate request b |}].
Proof.
  unfold send_start_generate. intros H. apply st_bind_Ok in H as (reply & s1 & Hp & Hr).
  apply on_router_post_inv in Hp as [Hp _]. rewrite <-Hp.
  pose proof (keeps_read calls (c_stream request) reply s1) as Hk. rewrite Hr in Hk. exact Hk.
Qed.

(** The calls of the three steps, when they succeed. *)
Definition window_calls (request : CompletionRequest) (i : nat) (kv_end : Z) (made : list http_call) : Prop :=
  let w := resolve_end (prompt_length request) kv_end in
  ∃ decode_url metadata prefix prefill,
    server_urls self !! i = Some decode_url ∧ (prefix ≤ w)%Z ∧
    made = {| hc_url := decode_url +:+ "/microserving/prep_recv"; hc_body := PPrepRecv request kv_end |}
      :: prefill ++
      [{| hc_url := decode_url +:+ "/microserving/start_generate"; hc_body := PStartGenerate request w |}] ∧
    if (prefix <? w)%Z
    then ∃ url rank, server_urls self !! 0 = Some url ∧ device_id_starts self !! i = Some rank ∧
      prefill = [{| hc_url := url +:+ "/microserving/remote_send";
                    hc_body := PRemoteSend request prefix w metadata rank |}]
    else prefill = [].

Lemma disagg_steps_calls request i kv_end s s' :
  disagg_steps self server json_loads parse_response y request i kv_end s = (s', Ok tt) →
  ∃ made, calls s'.1 = calls s.1 ++ made ∧ window_calls request i kv_end made.
Proof.
  unfold disagg_steps. intros H.
  apply st_bind_Ok in H as (url & s1 & Hu & H). apply st_lift_Ok in Hu as [Hu ->].
  apply py_index_Ok in Hu.
  apply st_bind_Ok in H as ([metadata prefix] & s1 & Hprep & H).
  apply send_prepare_receive_inv in Hprep.
  apply st_bind_Ok in H as (u1 & s2 & Ha & H). apply st_lift_Ok in Ha as [Ha ->].
  apply py_assert_Ok, Z.leb_le in Ha.
  apply st_bind_Ok in H as (u2 & s2 & Hsend & H). apply send_start_generate_inv in H.
  fold (resolve_end (prompt_length request) kv_end) in *.
  destruct (prefix <? _)%Z eqn:E.
  - st_inv. match goal with H : send_remote_send _ _ _ _ _ _ _ _ = _ |- _ =>
      apply send_remote_send_inv in H as Hs end.
    eexists. split; [by rewrite H, Hs, Hprep, <-!app_assoc|].
    exists url, metadata, prefix. eexists. split_and!; [done|done|done|].
    rewrite E. by do 2 eexists.
  - injection Hsend as <- _. eexists. split; [by rewrite H, Hprep, <-!app_assoc|].
    exists url, metadata, prefix, []. split_and!; [done|done|done|]. by rewrite E.
Qed.

(** A disaggregated request that succeeds has made exactly these calls: the
    least loaded decode server prepares the window of the prompt; the prefill
    server computes the part of the window after the prefix the decode server
    already has, if there is one; and the decode server generates from the end of
    the window on. *)
Theorem disagg_calls request id factor s s' :
  let request' := with_user id request in
  _handle_completion_disagg self server json_loads parse_response rnd y request id factor s = (s', Ok tt) →
  ∃ i made,
    _pick_endpoint (num_running_requests s.1) (seq 1 (num_servers self - 1)) = Ok i ∧
    calls s'.1 = calls s.1 ++ made ∧
    window_calls request' i (initial_kv_end rnd factor (prompt_length request)) made.
Proof.
  intros request'. unfold _handle_completion_disagg. cbn zeta. intros H.
  apply st_bind_Ok in H as (s0 & s1 & Hget & H). injection Hget as <- <-.
  apply st_bind_Ok in H as (i & s1 & Hpick & H). apply st_lift_Ok in Hpick as [Hpick ->].
  apply st_bind_Ok in H as (u1 & s1 & Hadd & H).
  destruct (pick_lt _ _ _ Hpick) as [Hi _].
  unfold on_router in Hadd. rewrite add_running_spec in Hadd by done. injection Hadd as <- <-.
  unfold releasing in H.
  match type of H with context [disagg_steps ?a ?b ?c ?d ?e ?f ?g ?h ?s1] =>
    destruct (disagg_steps a b c d e f g h s1) as [s2 [[]|e2]] eqn:Hsteps end.
  2: { destruct (is_Exception _); [|done]. by destruct (on_router _ _) as [? [?|?]]. }
  apply disagg_steps_calls in Hsteps as (made & Hc & Hw). exists i, made. split_and!; [done| |done].
  unfold on_router, add_running in H.
  destruct (x ← py_index _ _; py_setitem _ _ _); by injection H as <-.
Qed.
End accounting.

(** ** The window of the prompt *)

(** What IEEE rounding promises: it is monotone and exact on integers up to
    2^53. *)
Record rounding (rnd : Q → Q) : Prop := {
  rnd_mono : ∀ p q, (p <= q)%Q → (rnd p <= rnd q)%Q;
  rnd_int : ∀ z, (Z.abs z ≤ 2 ^ 53)%Z → (rnd (inject_Z z) == inject_Z z)%Q;
}.

(** The window the prefill server is asked for ends inside the prompt, and with
    a zero balance factor it leaves exactly the last token to the decode
    server. *)
Theorem kv_window_bounds rnd factor n :
  rounding rnd → (0 <= factor)%Q → (factor <= 1)%Q → (1 ≤ n ≤ 2 ^ 53)%Z →
  (0 ≤ resolve_end n (initial_kv_end rnd factor n) ≤ n)%Z ∧
  ((factor == 0)%Q → resolve_end n (initial_kv_end rnd factor n) = (n - 1)%Z).
Proof.
  intros [Hmono Hint] H0 H1 Hn. unfold initial_kv_end.
  destruct (Qle_bool (1 # 100000) (Qabs factor)) eqn:Ef; cbn [negb].
  - split.
    + assert (rnd 0 == 0)%Q as Hzero by exact (Hint 0%Z ltac:(lia)).
      assert (rnd 1 == 1)%Q as Hone by exact (Hint 1%Z ltac:(lia)).
      assert (0 <= inject_Z n)%Q as Hq by (change 0%Q with (inject_Z 0); rewrite <-Zle_Qle; lia).
      assert (0 <= rnd (1 - factor))%Q as Ha.
      { eapply Qle_trans; [|apply (Hmono 0%Q); lra]. rewrite Hzero. apply Qle_refl. }
      assert (rnd (1 - factor) <= 1)%Q as Hb.
      { eapply Qle_trans; [apply (Hmono _ 1%Q); lra|]. rewrite Hone. apply Qle_refl. }
      set (v := rnd (rnd (1 - factor) * inject_Z n)%Q).
      assert (0 <= v)%Q as Hv0.
      { eapply Qle_trans; [|apply (Hmono 0%Q); by apply Qmult_le_0_compat]. rewrite Hzero. apply Qle_refl. }
      assert (v <= inject_Z n)%Q as Hvn.
      { eapply Qle_trans; [apply (Hmono _ (inject_Z n))|rewrite Hint by lia; apply Qle_refl].
        apply (Qle_trans _ (1 * inject_Z n)%Q); [by apply Qmult_le_compat_r|].
        rewrite Qmult_1_l. apply Qle_refl. }
      assert (0 ≤ Qfloor v)%Z as Hf0 by (change 0%Z with (Qfloor 0); by apply Qfloor_resp_le).
      assert (Qfloor v ≤ n)%Z by (rewrite <-(Qfloor_Z n); by apply Qfloor_resp_le).
      unfold trunc. apply Qle_bool_iff in Hv0 as ->. unfold resolve_end.
      rewrite (proj2 (Z.ltb_ge _ _)) by lia. lia.
    + intros Hz. exfalso. apply Qle_bool_iff in Ef. rewrite Hz in Ef. by vm_compute in Ef.
  - unfold resolve_end. simpl. lia.
Qed.

(** ** Preemption and retries *)

Section retries.
Context (self : Router) (server : list http_call → http_reply) (encode : string → list Z)
  (json_loads : string → result pyval) (parse_response : pyval → result CompletionResponse)
  (rnd : Q → Q) {C : Type} (y : CompletionResponse → stM C unit).
Implicit Types (s : RouterState * (C * bool)).

Abbreviation translate :=
  (translate_request self server json_loads parse_response rnd (attempt_consumer y)).

(** The computation is interrupted by [GeneratorExit] if it sets the flag. *)
Definition breaks {A} (m : stM (RouterState * (C * bool)) A) : Prop :=
  ∀ s, s.2.2 = false → (m s).1.2.2 = true → (m s).2 = Err generator_exit.

Lemma breaks_flag {A} (m : stM (RouterState * (C * bool)) A) :
  (∀ s, (m s).1.2 = s.2) → breaks m.
Proof. intros Hm s Hs. rewrite Hm, Hs. done. Qed.
Lemma breaks_ret {A} (a : A) : breaks (mret a).
Proof. by apply breaks_flag. Qed.
Lemma breaks_lift {A} (r : result A) : breaks (st_lift r).
Proof. by apply breaks_flag. Qed.
Lemma breaks_router {A} (m : stM RouterState A) : breaks (on_router m).
Proof. apply breaks_flag. intros s. unfold on_router. by destruct (m s.1). Qed.
Lemma breaks_bind {A B} (m : stM (RouterState * (C * bool)) A)
    (k : A → stM (RouterState * (C * bool)) B) :
  breaks m → (∀ a, breaks (k a)) → breaks (m ≫= k).
Proof.
  intros Hm Hk s Hs. specialize (Hm s Hs). unfold mbind, stM_bind.
  destruct (m s) as [s1 [a|e]]; cbn [fst snd] in *.
  - destruct (s1.2.2) eqn:E1; [by specialize (Hm eq_refl)|]. by apply Hk.
  - intros Hf. specialize (Hm Hf). by injection Hm as ->.
Qed.
Lemma breaks_give r : breaks (give (attempt_consumer y) r).
Proof.
  intros s Hs. unfold give, attempt_consumer. destruct r as [r|]; [|done].
  destruct (y r s.2.1) as [c x]. simpl. by rewrite Hs.
Qed.
#[local] Hint Resolve breaks_ret breaks_lift breaks_router breaks_bind breaks_give : router.

Lemma breaks_yield r : breaks (yield_response (attempt_consumer y) r).
Proof. unfold yield_response. destruct (is_preempt r); auto with router. Qed.
#[local] Hint Resolve breaks_yield : router.

Lemma breaks_read stream reply :
  breaks (read_responses json_loads parse_response (attempt_consumer y) stream reply).
Proof.
  unfold read_responses. destruct stream; [|auto with router].
  induction reply.1 as [|[str|e] lines IH]; simpl; auto with router.
  apply breaks_bind; [auto with router|]. intros [r|]; auto with router.
Qed.
#[local] Hint Resolve breaks_read : router.

Ltac breaks_steps := repeat (apply breaks_bind; [auto with router|intros ?]); auto with router.

Lemma breaks_round_robin request i :
  breaks (round_robin_steps self server json_loads parse_response (attempt_consumer y) request i).
Proof. unfold round_robin_steps. breaks_steps. Qed.

Lemma breaks_disagg request i kv :
  breaks (disagg_steps self server json_loads parse_response (attempt_consumer y) request i kv).
Proof.
  unfold disagg_steps, send_prepare_receive, send_start_generate, send_remote_send.
  apply breaks_bind; [auto with router|]. intros url.
  apply breaks_bind.
  - repeat (apply breaks_bind; [auto with router|intros ?]). destruct _; auto with router.
  - intros [metadata len]. apply breaks_bind; [auto with router|]. intros _.
    apply breaks_bind; [|intros; breaks_steps]. destruct (_ <? _)%Z; breaks_steps.
Qed.

(** The total number of requests the router believes are running. *)
Definition total (l : list Z) : Z := foldr Z.add 0%Z l.

Lemma total_bump i d l : i < length l → total (bump i d l) = (total l + d)%Z.
Proof.
  unfold total, bump. revert i. induction l as [|x l IH]; intros i Hi; [simpl in Hi; lia|].
  destruct i as [|i]; [simpl; lia|].
  change (alter ?f (S i) (x :: l)) with (x :: alter f i l). simpl.
  rewrite IH by (simpl in Hi; lia). lia.
Qed.

Lemma breaks_releasing i body : breaks body → breaks (releasing i body).
Proof.
  intros Hb s Hs. specialize (Hb s Hs). unfold releasing.
  destruct (body s) as [s1 [a|e]]; cbn [fst snd] in Hb.
  - destruct (s1.2.2) eqn:E1; [by specialize (Hb eq_refl)|]. by apply breaks_router.
  - destruct (s1.2.2) eqn:E1.
    + specialize (Hb eq_refl). by injection Hb as ->.
    + destruct (is_Exception (exn_cls e)); [|cbn [fst snd]; by rewrite E1].
      pose proof (breaks_router (add_running i (-1)) s1 E1) as Hr.
      assert ((on_router (add_running i (-1)) s1).1.2.2 = false) as Hf.
      { unfold on_router. by destruct (add_running i (-1) s1.1). }
      destruct (on_router _ s1) as [s2 [u|e']]; cbn [fst snd] in *; by rewrite Hf.
Qed.

(** An attempt that the router's client breaks off, because it was preempted,
    leaves one more running request; one that ends normally leaves none. *)
Lemma translate_counts request id rs c :
  match translate request id (rs, (c, false)) with
  | ((rs', (_, true)), _) => total (num_running_requests rs') = (total (num_running_requests rs) + 1)%Z
  | ((rs', (_, false)), Ok _) => num_running_requests rs' = num_running_requests rs
  | _ => True
  end.
Proof.
  unfold translate_request. case_decide; [|case_decide; [|done]].
  - pose proof (disagg_run self server json_loads parse_response rnd (attempt_consumer y)
      request id (pd_balance_factor self) (rs, (c, false))) as Hrun.
    assert (breaks (_handle_completion_disagg self server json_loads parse_response rnd
      (attempt_consumer y) request id (pd_balance_factor self))) as Hb.
    { unfold _handle_completion_disagg. apply breaks_bind; [by apply breaks_flag|]. intros s0.
      apply breaks_bind; [auto with router|]. intros i. apply breaks_bind; [auto with router|].
      intros _. apply breaks_releasing, breaks_disagg. }
    specialize (Hb (rs, (c, false)) eq_refl).
    destruct (_handle_completion_disagg _ _ _ _ _ _ _ _ _ _) as [[rs' [c' [|]]] r]; cbn [fst snd] in *.
    + specialize (Hb eq_refl) as ->.
      destruct (_pick_endpoint _ _) as [i|e] eqn:Ep; [|by destruct Hrun].
      rewrite Hrun. cbn. apply total_bump. by apply (pick_lt _ _ _ Ep).
    + destruct r as [u|e]; [|done].
      destruct (_pick_endpoint _ _) as [i|e] eqn:Ep; [exact Hrun|by destruct Hrun].
  - pose proof (round_robin_run self server json_loads parse_response (attempt_consumer y)
      request (rs, (c, false))) as Hrun.
    assert (breaks (_handle_completion_round_robin self server json_loads parse_response
      (attempt_consumer y) request)) as Hb.
    { unfold _handle_completion_round_robin. apply breaks_bind; [by apply breaks_flag|]. intros s0.
      apply breaks_bind; [auto with router|]. intros i. apply breaks_bind; [auto with router|].
      intros _. apply breaks_bind; [apply breaks_round_robin|auto with router]. }
    specialize (Hb (rs, (c, false)) eq_refl).
    destruct (_handle_completion_round_robin _ _ _ _ _ _ _) as [[rs' [c' [|]]] r]; cbn [fst snd] in *.
    + specialize (Hb eq_refl) as ->.
      destruct (_pick_endpoint _ _) as [i|e] eqn:Ep; [|by destruct Hrun].
      rewrite Hrun. cbn. apply total_bump. by apply (pick_lt _ _ _ Ep).
    + destruct r as [u|e]; [|done].
      destruct (_pick_endpoint _ _) as [i|e] eqn:Ep; [exact Hrun|by destruct Hrun].
Qed.

(** [k] attempts are preempted, and the next one ends with [r]. *)
Inductive attempt_chain (request : CompletionRequest) (id : string) :
    nat → RouterState * C → RouterState * C → result unit → Prop :=
  | chain_last rs c rs' c' r :
      translate request id (rs, (c, false)) = ((rs', (c', false)), r) →
      attempt_chain request id 0 (rs, c) (rs', c') r
  | chain_retry k rs c rs1 c1 r1 (s' : RouterState * C) r :
      translate request id (rs, (c, false)) = ((rs1, (c1, true)), r1) →
      attempt_chain request id k (rs1, c1) s' r →
      attempt_chain request id (S k) (rs, c) s' r.

(** C36. A request whose first [k] attempts are preempted is retried until one is
    not, so the loop ends after [k + 1] attempts; when it then completes, the
    router counts [k] requests more than before, although none is running. *)
Theorem preempted_attempts_leak request id k (s s' : RouterState * C) :
  attempt_chain (prepare_request encode request) id k s s' (Ok tt) →
  handle_completion self server encode json_loads parse_response rnd y (S k) request id s =
    (s', Some (Ok tt)) ∧
  total (num_running_requests s'.1) = (total (num_running_requests s.1) + Z.of_nat k)%Z.
Proof.
  unfold handle_completion. intros Hc. remember (Ok tt) as r eqn:Hr. revert Hr.
  induction Hc as [rs c rs' c' r Ht|k rs c rs1 c1 r1 s' r Ht Hc IH]; intros ->.
  - pose proof (translate_counts (prepare_request encode request) id rs c) as Hk.
    cbn [attempts fst snd]. rewrite Ht in *. cbn [fst]. split; [done|]. rewrite Hk. lia.
  - pose proof (translate_counts (prepare_request encode request) id rs c) as Hk.
    destruct (IH eq_refl) as [IHa IHt]. cbn [attempts fst snd] in *. rewrite Ht in *.
    split; [exact IHa|]. rewrite IHt, Hk. lia.
Qed.
End retries.

(** ** Construction: the GPUs of the servers *)

Lemma device_starts_app l x :
  device_starts (l ++ [x]) = device_starts l ++ [(List.last (device_starts l) 0 + x)%Z].
Proof. unfold device_starts. by rewrite foldl_app. Qed.

Lemma device_starts_length l : length (device_starts l) = S (length l).
Proof.
  induction l as [|x l IH] using rev_ind; [done|].
  rewrite device_starts_app, !length_app, IH. simpl. lia.
Qed.

Lemma device_starts_step l i g :
  l !! i = Some g →
  ∃ a, device_starts l !! i = Some a ∧ device_starts l !! S i = Some (a + g)%Z.
Proof.
  induction l as [|x l IH] using rev_ind; [done|]. rewrite device_starts_app.
  pose proof (device_starts_length l) as Hlen. intros Hi.
  apply lookup_app_Some in Hi as [Hi|[Hge Hi]].
  - destruct (IH Hi) as (a & H1 & H2). exists a.
    rewrite !lookup_app_l by (apply lookup_lt_Some in H1, H2; lia). done.
  - destruct (i - length l) as [|j] eqn:Ei; [|done]. injection Hi as ->.
    assert (i = length l) as -> by lia.
    destruct (lookup_lt_is_Some_2 (device_starts l) (length l)) as [a Ha]; [lia|].
    exists a. rewrite lookup_app_l by lia. split; [done|].
    rewrite lookup_app_r by lia. rewrite Hlen, Nat.sub_diag. simpl. do 2 f_equal.
    clear -Ha Hlen. destruct (device_starts l) as [|y s] using rev_ind; [done|].
    rewrite List.last_last. rewrite length_app in Hlen. simpl in Hlen.
    rewrite lookup_app_r in Ha by lia. replace (length l - length s) with 0 in Ha by lia.
    by injection Ha as ->.
Qed.

(** The router starts one server per host, on consecutive and disjoint ranges of
    GPUs: server [i] starts where the GPUs of the servers before it end. It
    fails its assertion when the three lists differ in length. *)
Theorem init_spec show_int hosts ports gpus mode factor :
  (length hosts = length ports ∧ length ports = length gpus →
   ∃ self, init show_int (Some hosts) (Some ports) (Some gpus) mode factor =
       Ok (self, replicate (length hosts) 0%Z) ∧
     length (servers self) = length hosts ∧
     device_id_starts self !! 0 = Some 0%Z ∧
     ∀ i g, gpus !! i = Some g → ∃ a sc,
       device_id_starts self !! i = Some a ∧ device_id_starts self !! S i = Some (a + g)%Z ∧
       servers self !! i = Some sc ∧ sc_device sc = a ∧ sc_pe_start sc = a) ∧
  (¬ (length hosts = length ports ∧ length ports = length gpus) →
   ∃ e, init show_int (Some hosts) (Some ports) (Some gpus) mode factor = Err e ∧
     exn_cls e = AssertionError).
Proof.
  split.
  - intros [H1 H2]. unfold init. cbn [default from_option id]. rewrite !bool_decide_true by done.
    cbn [andb py_assert mbind result_bind].
    rewrite (map_m_imap _ (λ i hp, {| sc_host := hp.1; sc_port := hp.2;
        sc_device := default 0%Z (device_starts gpus !! i);
        sc_npes := List.last (device_starts gpus) 0%Z;
        sc_pe_start := default 0%Z (device_starts gpus !! i) |})).
    2: { intros i [h p] Hi. unfold py_index.
         destruct (lookup_lt_is_Some_2 (device_starts gpus) i) as [a ->]; [|done].
         apply lookup_lt_Some in Hi. rewrite length_zip_with in Hi. rewrite device_starts_length. lia. }
    cbn [mbind result_bind]. eexists. split; [reflexivity|]. cbn. split_and!.
    + rewrite length_imap, length_zip_with. lia.
    + clear. induction gpus as [|x l IH] using rev_ind; [done|].
      rewrite device_starts_app, lookup_app_l by (rewrite device_starts_length; lia). done.
    + intros i g Hi. destruct (device_starts_step gpus i g Hi) as (a & Ha & HS).
      destruct (lookup_lt_is_Some_2 (zip hosts ports) i) as [hp Hhp].
      { apply lookup_lt_Some in Hi. rewrite length_zip_with. lia. }
      exists a. eexists. split_and!; [done|done|by rewrite list_lookup_imap, Hhp|by simpl; rewrite Ha..].
  - intros Hne. unfold init. cbn [default from_option id].
    destruct (bool_decide (length hosts = length ports) && bool_decide (length ports = length gpus)) eqn:E;
      [|by eexists].
    exfalso. bool_inv. tauto.
Qed.

(** ** Witnesses *)

Definition toy_router (mode : string) : Router := {|
  router_mode := mode; pd_balance_factor := 0; num_servers := 2; server_urls := ["http://p"; "http://d"];
  device_id_starts := [0; 1; 2]%Z; servers := [];
|}.
Definition toy_response (reason : string) : CompletionResponse :=
  Build_CompletionResponse "id" [Build_CompletionChoice 0 (Some reason) None "x"] None None.

(** The decode server matched no prefix; it preempts the first generation. *)
Definition toy_server (log : list http_call) : http_reply :=
  match hc_body <$> last log with
  | Some (PPrepRecv _ _) => Reply 200 [] (Ok (PDict
      [("kv_append_metadata", PStr "kv"); ("prefix_matched_length", PInt 0)]))
  | Some (PStartGenerate _ _) =>
      Reply 200 [] (Ok (PStr (if decide (length log ≤ 3) then "preempt" else "stop")))
  | _ => Reply 200 [] (Ok PNone)
  end.
Definition toy_parse (v : pyval) : result CompletionResponse :=
  match v with PStr r => Ok (toy_response r) | _ => raise ValidationError "" end.
Definition toy_request : CompletionRequest := completion_request (CPTokens [1; 2; 3]%Z) false None false.
Definition toy_client (r : CompletionResponse) : stM (list CompletionResponse) unit :=
  st_modify (λ l, l ++ [r]).
Definition toy_start : RouterState := mkRS [0; 0]%Z [].

Lemma rounding_id : rounding (λ q, q).
Proof. split; [done|reflexivity]. Qed.

Lemma pick_endpoint_spec_witness :
  _pick_endpoint [5; 2; 2]%Z [0; 1; 2] = Ok 1 ∧ least_loaded [5; 2; 2]%Z [0; 1; 2] 1.
Proof.
  split; [reflexivity|].
  apply (pick_endpoint_spec [5; 2; 2]%Z [0; 1; 2]). repeat constructor; simpl; lia.
Defined.

Lemma kv_window_bounds_witness :
  let e := resolve_end 10%Z (initial_kv_end (λ q, q) (1 # 4)%Q 10%Z) in
  (0 ≤ e ≤ 10)%Z ∧ ((1 # 4 == 0)%Q → e = (10 - 1)%Z).
Proof.
  apply (kv_window_bounds (λ q, q) (1 # 4)%Q 10%Z).
  - exact rounding_id.
  - by apply Qle_bool_iff.
  - by apply Qle_bool_iff.
  - lia.
Defined.

Lemma preempted_attempts_leak_witness :
  ∃ s', handle_completion (toy_router "disagg") toy_server (λ _, []) (λ _, Ok PNone) toy_parse (λ q, q)
      toy_client 2 toy_request "req" (toy_start, []) = (s', Some (Ok tt)) ∧
    total (num_running_requests s'.1) = 1%Z ∧ s'.2 = [toy_response "stop"].
Proof.
  edestruct (preempted_attempts_leak (toy_router "disagg") toy_server (λ _, []) (λ _, Ok PNone)
    toy_parse (λ q, q) toy_client toy_request "req" 1 (toy_start, [])) as [Hrun Htotal].
  - eapply chain_retry; [vm_compute; reflexivity|].
    eapply chain_last. vm_compute. reflexivity.
  - eexists. split; [exact Hrun|]. split; [exact Htotal|reflexivity].
Defined.

Definition calm_server (log : list http_call) : http_reply :=
  match hc_body <$> last log with
  | Some (PStartGenerate _ _) => Reply 200 [] (Ok (PStr "stop"))
  | _ => toy_server log
  end.

Lemma disagg_calls_witness :
  ∃ i made,
    _pick_endpoint [0; 0]%Z (seq 1 1) = Ok i ∧ length made = 3 ∧
    window_calls (toy_router "disagg") (with_user "req" toy_request) i (-1)%Z made.
Proof.
  edestruct (disagg_calls (C:=unit) (toy_router "disagg") calm_server (λ _, Ok PNone) toy_parse (λ q, q)
    (λ _, mret tt) toy_request "req" 0%Q (toy_start, tt)) as (i & made & H1 & H2 & H3).
  - vm_compute. reflexivity.
  - exists i, made. split; [exact H1|]. split; [|exact H3].
    apply (f_equal length) in H2. rewrite length_app in H2. symmetry. exact H2.
Defined.
