(* ===== verification/Quantization.v ===== *)
(** Group quantization: [python/mlc_llm/quantization/group_quantization.py] and
    [quantization/utils.py].

    The tensor programs treat every row along the quantized axis in the same
    way, so a tensor is modelled by one such row. Integers of the storage type
    are [Z] with their wrap-around; model floats are rationals, taken exactly:
    the error of the floating-point operations themselves is not modelled. *)

From Stdlib Require Import QArith Qabs Qround Qminmax Lqa Lia ZArith.
From stdpp Require Import base gmap strings list pretty.
From S2P Require Import Prelude PyString.
Close Scope Q_scope.

(** ** The configuration *)

Inductive type_code := INT | UINT | FLOAT | BFLOAT | Float8E4M3FN | Float8E5M2 | OTHER_CODE.
#[export] Instance type_code_eq_dec : EqDecision type_code.
Proof. solve_decision. Defined.

(** [tvm.DataType]: what the code reads of it. *)
Record DataType := { code : type_code; bits : Z }.

Inductive layout := KN | NK.
#[export] Instance layout_eq_dec : EqDecision layout.
Proof. solve_decision. Defined.

Record GroupQuantize := {
  kind : string;
  group_size : Z;
  quantize_dtype : DataType;
  storage_dtype : DataType;
  model_dtype : DataType;
  linear_weight_layout : layout;
  quantize_embedding : bool;
  quantize_final_fc : bool;
  num_elem_per_storage : Z;
  num_storage_per_group : Z;
  max_int_value : Z;
  linear_quant_axis : Z;
  tensor_parallel_shards : Z;
}.

(** [__post_init__]. *)
Definition post_init (c : GroupQuantize) : result GroupQuantize :=
  _ ← py_assert (bool_decide (kind c = "group-quant")) "";
  _ ← py_assert (bool_decide (code (quantize_dtype c) = INT)) "";
  _ ← py_assert (bool_decide (code (storage_dtype c) = UINT)) "";
  _ ← py_assert (bool_decide (code (model_dtype c) = FLOAT ∨ code (model_dtype c) = BFLOAT)) "";
  _ ← raise_when (bits (storage_dtype c) <? bits (quantize_dtype c))%Z ValueError
        "Storage unit should be greater or equal to quantized element";
  let num_elem := (bits (storage_dtype c) / bits (quantize_dtype c))%Z in
  _ ← raise_when (negb (group_size c mod num_elem =? 0))%Z ValueError
        "Group size should be divisible by numbers of elements per storage";
  Ok {| kind := kind c; group_size := group_size c; quantize_dtype := quantize_dtype c;
        storage_dtype := storage_dtype c; model_dtype := model_dtype c;
        linear_weight_layout := linear_weight_layout c;
        quantize_embedding := quantize_embedding c; quantize_final_fc := quantize_final_fc c;
        num_elem_per_storage := num_elem;
        num_storage_per_group := (group_size c / num_elem)%Z;
        max_int_value := (2 ^ (bits (quantize_dtype c) - 1) - 1)%Z;
        linear_quant_axis := (if decide (linear_weight_layout c = KN) then 0 else 1)%Z;
        tensor_parallel_shards := tensor_parallel_shards c |}.

(** ** Which parameters are quantized *)

Definition endswith (s suffix : string) : bool :=
  bool_decide (drop_chars (String.length s - String.length suffix) s = suffix).

(** [is_final_fc]. *)
Definition is_final_fc (name : string) : bool :=
  bool_decide (name ∈ ["head"; "lm_head"; "lm_head.linear"; "embed_out"]).

(** A dimension; [None] when symbolic. *)
Definition dim : Type := option Z.

(** The node kinds the mutator distinguishes, with the shapes of their
    weights. *)
Inductive node_kind :=
  | NLinear (in_features : Z) (out_features : dim) (bias : bool)
  | NEmbedding (num : dim) (dimension : Z)
  | NMixtralExperts (num_local_experts in_features out_features : Z)
  | NOther.

(** [is_moe_gate]. *)
Definition is_moe_gate (name : string) (out_features : dim) : bool :=
  endswith name "gate" &&
  match out_features with Some n => (n <=? 256)%Z | None => false end.

(** [QuantizeMapping]: the parameters a weight becomes, and how. *)
Record QuantizeMapping := {
  param_map : gmap string (list string);
  map_func : gmap string bool;
}.

(** ** The quantized layers *)

(** The shapes of the parameters of a quantized layer. *)
Record layer := { q_weight : list dim; q_scale : list dim; layer_bias : option dim }.

(** [tirx.ceildiv]. *)
Definition ceildivZ (a b : Z) : Z := ((a + b - 1) / b)%Z.

(** [GroupQuantizeLinear.__init__]: the groups must be evenly distributed on the
    GPUs. *)
Definition GroupQuantizeLinear_init (c : GroupQuantize) (in_features : Z) (out_features : dim)
    (bias : bool) : result layer :=
  let num_group := ceildivZ in_features (group_size c) in
  let num_shards := tensor_parallel_shards c in
  let groups := (in_features * num_shards / group_size c)%Z in
  _ ← raise_when ((1 <? num_shards) && negb (groups mod num_shards =? 0))%Z ValueError
        ("The linear dimension " +:+ pretty (in_features * num_shards)%Z +:+ " has "
         +:+ pretty groups +:+ " groups under group size " +:+ pretty (group_size c)
         +:+ ". The groups cannot be evenly distributed on " +:+ pretty num_shards
         +:+ " GPUs." +:+ String newline EmptyString +:+ "Possible solutions: reduce number of GPUs, or use quantization with smaller group size.");
  let storage := Some (num_storage_per_group c * num_group)%Z in
  let bias := if bias then Some out_features else None in
  Ok (if decide (linear_weight_layout c = KN)
      then {| q_weight := [storage; out_features]; q_scale := [Some num_group; out_features];
              layer_bias := bias |}
      else {| q_weight := [out_features; storage]; q_scale := [out_features; Some num_group];
              layer_bias := bias |}).

(** [GroupQuantizeEmbedding.__init__]. *)
Definition GroupQuantizeEmbedding_init (c : GroupQuantize) (num : dim) (dimension : Z) : layer :=
  let num_group := ceildivZ dimension (group_size c) in
  {| q_weight := [num; Some (num_storage_per_group c * num_group)%Z];
     q_scale := [num; Some num_group]; layer_bias := None |}.

(** [GroupQuantizeMixtralExperts.__init__]. *)
Definition GroupQuantizeMixtralExperts_init (c : GroupQuantize)
    (num_local_experts in_features out_features : Z) : result layer :=
  let num_group := ceildivZ in_features (group_size c) in
  _ ← raise_when (bool_decide (linear_weight_layout c = KN)) NotImplementedError
        "GroupQuantizeMixtralExperts does not support KN layout now.";
  Ok {| q_weight := [Some num_local_experts; Some out_features;
                     Some (num_storage_per_group c * num_group)%Z];
        q_scale := [Some num_local_experts; Some out_features; Some num_group];
        layer_bias := None |}.

(** What [visit_module] returns: the node itself, its quantized version, or the
    node with its children visited. *)
Inductive visited := Kept | Quantized (l : layer) | Visited.

(** [_Mutator.visit_module]. The mapping is updated before the layer is built;
    [map_func] records whether the output is transposed. *)
Definition visit_module (c : GroupQuantize) (no_quantization : bool) (name : string)
    (node : node_kind) (m : QuantizeMapping) : QuantizeMapping * result visited :=
  let weight_name := name +:+ ".weight" in
  let add (transpose : bool) :=
    {| param_map := <[weight_name := [name +:+ ".q_weight"; name +:+ ".q_scale"]]> (param_map m);
       map_func := <[weight_name := transpose]> (map_func m) |} in
  let built (r : result layer) : result visited := l ← r; Ok (Quantized l) in
  if no_quantization then (m, Ok Kept)
  else match node with
  | NLinear in_features out_features bias =>
      if (negb (is_final_fc name) || quantize_final_fc c) && negb (is_moe_gate name out_features)
      then (add (bool_decide (linear_weight_layout c = KN)),
            built (GroupQuantizeLinear_init c in_features out_features bias))
      else (m, Ok Visited)
  | NEmbedding num dimension =>
      if quantize_embedding c
      then (add false, built (Ok (GroupQuantizeEmbedding_init c num dimension)))
      else (m, Ok Visited)
  | NMixtralExperts experts in_features out_features =>
      (add false, built (GroupQuantizeMixtralExperts_init c experts in_features out_features))
  | NOther => (m, Ok Visited)
  end.

(** ** Packing *)

Definition ceildiv (a b : nat) : nat := (a + b - 1) / b.

(** [w[i]] of a row (the programs guard the accesses outside). *)
Definition at_ {A} (d : A) (w : list A) (i : nat) : A := default d (w !! i).

Section packing.
(** The width of the storage type, and of an element. *)
Context (storage_bits elem_bits : Z).

(** A value of the storage type. *)
Definition wrap (z : Z) : Z := (z mod 2 ^ storage_bits)%Z.

(** The sum over the reduction axis of [pack_weight], for one storage unit. *)
Definition shifted (k num_elem : nat) (weight : list Z) (j r : nat) : Z :=
  if decide (j * num_elem + r < k)
  then wrap (Z.shiftl (at_ 0%Z weight (j * num_elem + r)) (Z.of_nat r * elem_bits))
  else 0%Z.
Definition pack_word (k num_elem : nat) (weight : list Z) (j : nat) : Z :=
  foldl (λ acc r, wrap (acc + shifted k num_elem weight j r)%Z) 0%Z (seq 0 num_elem).

(** [pack_weight] with [out_len] storage units. *)
Definition pack_weight (num_elem out_len : nat) (weight : list Z) : list Z :=
  pack_word (length weight) num_elem weight <$> seq 0 out_len.

(** [convert_uint_to_float]: element [i] of the unpacked row. *)
Definition convert_uint_to_float (num_elem : nat) (ft_reorder : bool) (weight : list Z) (i : nat) : Z :=
  let r := i mod num_elem in
  let position := if ft_reorder then r mod 2 * 4 + r / 2 else r in
  Z.land (Z.shiftr (at_ 0%Z weight (i / num_elem)) (Z.of_nat position * elem_bits))
    (Z.shiftl 1 elem_bits - 1)%Z.
End packing.

(** ** Quantization of a row *)

Section quantize.
Context (c : GroupQuantize).
(** The rounding intrinsic of the tensor language, and what it makes of the
    quotient 0/0 of a group of zeros. *)
Context (round : Q → Z) (nan : Z).

Definition gs : nat := Z.to_nat (group_size c).
Definition num_elem : nat := Z.to_nat (num_elem_per_storage c).
Definition num_group (k : nat) : nat := ceildiv k gs.

(** The largest absolute value of group [g] ([lo] is the least float, the
    value of the padding). *)
Definition max_abs (lo : Q) (weight : list Q) (g : nat) : Q :=
  foldl (λ acc r, Qmax acc
    (if decide (g * gs + r < length weight) then Qabs (at_ 0%Q weight (g * gs + r)) else lo))
    lo (seq 0 gs).

Definition scale (lo : Q) (weight : list Q) (g : nat) : Q :=
  (max_abs lo weight g / inject_Z (max_int_value c))%Q.

(** The scaled weight: shifted, rounded and clipped. *)
Definition scaled_weight (lo : Q) (weight : list Q) (i : nat) : Z :=
  let m := max_int_value c in
  let s := scale lo weight (i / gs) in
  let rounded := if Qeq_bool s 0 then nan else round (at_ 0%Q weight i / s + inject_Z m)%Q in
  Z.min (Z.max rounded 0) (m * 2).

(** [_quantize]: the packed weight and the scales of a row. *)
Definition _quantize (lo : Q) (weight : list Q) : list Z * list Q :=
  let k := length weight in
  (pack_weight (bits (storage_dtype c)) (bits (quantize_dtype c)) num_elem
     (Z.to_nat (num_storage_per_group c) * num_group k)
     (scaled_weight lo weight <$> seq 0 k),
   scale lo weight <$> seq 0 (num_group k)).

(** [topi.transpose] of a matrix of rows of length [n]. *)
Definition transpose {A} (d : A) (n : nat) (m : list (list A)) : list (list A) :=
  (λ j, (λ row, at_ d row j) <$> m) <$> seq 0 n.

(** [_quantize] of a matrix with rows of length [k], as [quantize_weight] calls
    it: along the last axis. *)
Definition quantize_weight (lo : Q) (output_transpose : bool) (k : nat) (weight : list (list Q)) :
    list (list Z) * list (list Q) :=
  let quantized_weight := (λ row, (_quantize lo row).1) <$> weight in
  let scale := (λ row, (_quantize lo row).2) <$> weight in
  if output_transpose
  then (transpose 0%Z (Z.to_nat (num_storage_per_group c) * num_group k) quantized_weight,
        transpose 0%Q (num_group k) scale)
  else (quantized_weight, scale).

(** [_dequantize]: element [i]. *)
Definition _dequantize (weight : list Z) (scales : list Q) (i : nat) : Q :=
  ((inject_Z (convert_uint_to_float (bits (quantize_dtype c)) num_elem false weight i)
    - inject_Z (max_int_value c)) * at_ 0%Q scales (i / gs)%nat)%Q.
End quantize.

(** ** Packing and unpacking *)

Section digits.
Context (b : Z) (Hb : (0 < b)%Z) (d : nat → Z) (Hd : ∀ r, (0 ≤ d r < 2 ^ b)%Z).

(** The number with the [n] base-[2^b] digits [d]. *)
Fixpoint value (n : nat) : Z :=
  match n with
  | O => 0%Z
  | S n => (value n + d n * 2 ^ (Z.of_nat n * b))%Z
  end.

Lemma value_bound n : (0 ≤ value n < 2 ^ (Z.of_nat n * b))%Z.
Proof.
  induction n as [|n IH]; [simpl; lia|]. cbn [value].
  replace (Z.of_nat (S n) * b)%Z with (b + Z.of_nat n * b)%Z by lia.
  rewrite Z.pow_add_r by lia. pose proof (Hd n). nia.
Qed.

Lemma value_digit n r :
  r < n → (value n / 2 ^ (Z.of_nat r * b) mod 2 ^ b = d r)%Z.
Proof.
  induction n as [|n IH]; [lia|]. intros Hr. cbn [value].
  assert (0 < 2 ^ (Z.of_nat r * b))%Z as Hpos by (apply Z.pow_pos_nonneg; lia).
  destruct (decide (r = n)) as [->|Hne].
  - rewrite Z.div_add by lia. rewrite (Z.div_small (value n)) by apply value_bound.
    rewrite Z.add_0_l. by apply Z.mod_small.
  - replace (Z.of_nat n * b)%Z with ((Z.of_nat (n - r - 1) * b + b) + Z.of_nat r * b)%Z by nia.
    rewrite !Z.pow_add_r by nia. rewrite Z.mul_assoc, Z.div_add by lia.
    rewrite !Z.mul_assoc, Z.mod_add by (apply Z.pow_nonzero; lia). apply IH. lia.
Qed.
End digits.

Section pack_facts.
Context (storage_bits elem_bits : Z) (num_elem : nat).
Context (Hb : (0 < elem_bits)%Z) (Hfit : (Z.of_nat num_elem * elem_bits ≤ storage_bits)%Z).

(** The values fit their width. *)
Definition fits (weight : list Z) : Prop := Forall (λ v, 0 ≤ v < 2 ^ elem_bits)%Z weight.

(** Element [r] of storage unit [j], padded with zeros. *)
Definition digit (weight : list Z) (j r : nat) : Z :=
  if decide (j * num_elem + r < length weight) then at_ 0%Z weight (j * num_elem + r) else 0%Z.

Lemma digit_fits weight j r : fits weight → (0 ≤ digit weight j r < 2 ^ elem_bits)%Z.
Proof.
  intros Hw. unfold digit. case_decide as Hlt; [|lia].
  destruct (lookup_lt_is_Some_2 _ _ Hlt) as [x Hx]. unfold at_. rewrite Hx.
  by eapply Forall_lookup_1 in Hw.
Qed.

Lemma pack_word_value weight j n :
  fits weight → n ≤ num_elem →
  foldl (λ acc r, wrap storage_bits (acc + shifted storage_bits elem_bits (length weight) num_elem weight j r)%Z)
    0%Z (seq 0 n) = value elem_bits (digit weight j) n.
Proof.
  intros Hw. induction n as [|n IH]; intros Hn; [done|].
  rewrite seq_S, foldl_app, IH by lia. cbn [foldl value Nat.add].
  pose proof (digit_fits weight j n Hw) as Hdn.
  pose proof (value_bound elem_bits Hb (digit weight j) (λ r, digit_fits weight j r Hw)) as Hval.
  assert (2 ^ (Z.of_nat (S n) * elem_bits) ≤ 2 ^ storage_bits)%Z as Hle
    by (apply Z.pow_le_mono_r; nia).
  pose proof (Hval n) as Hn1. pose proof (Hval (S n)) as Hn2. cbn [value] in Hn2.
  assert (shifted storage_bits elem_bits (length weight) num_elem weight j n =
    digit weight j n * 2 ^ (Z.of_nat n * elem_bits))%Z as ->.
  { unfold shifted. unfold digit in *. case_decide; [|lia].
    rewrite Z.shiftl_mul_pow2 by lia. unfold wrap. apply Z.mod_small. nia. }
  unfold wrap. apply Z.mod_small. lia.
Qed.

Lemma unpack_packed weight out_len i :
  fits weight → 0 < num_elem → length weight ≤ out_len * num_elem → i < length weight →
  convert_uint_to_float elem_bits num_elem false
    (pack_weight storage_bits elem_bits num_elem out_len weight) i = at_ 0%Z weight i.
Proof.
  intros Hw Hpos Hlen Hi. unfold convert_uint_to_float, pack_weight.
  assert (i / num_elem < out_len) as Hj by (apply Nat.Div0.div_lt_upper_bound; lia).
  assert (i mod num_elem < num_elem) as Hr by (apply Nat.mod_upper_bound; lia).
  unfold at_ at 1. rewrite list_lookup_fmap, lookup_seq_lt by done. cbn [fmap option_fmap option_map default].
  unfold pack_word. cbn [Nat.add from_option id]. rewrite pack_word_value by done.
  rewrite Z.shiftr_div_pow2 by lia. change (Z.shiftl 1 elem_bits - 1)%Z with (Z.pred (Z.shiftl 1 elem_bits)).
  fold (Z.ones elem_bits). rewrite Z.land_ones by lia.
  rewrite value_digit by (done || intros; by apply digit_fits).
  unfold digit. rewrite (Nat.mul_comm (i / num_elem)), <-Nat.div_mod_eq.
  by rewrite decide_True.
Qed.

(** C39. Unpacking gives back what was packed: for elements that fit their width,
    with as many per storage unit as fit it and enough storage units for the
    row, every element of the row is recovered. *)
Theorem unpack_pack weight out_len i :
  fits weight → 0 < num_elem → length weight ≤ out_len * num_elem → i < length weight →
  convert_uint_to_float elem_bits num_elem false
    (pack_weight storage_bits elem_bits num_elem out_len weight) i = at_ 0%Z weight i.
Proof. apply unpack_packed. Qed.
End pack_facts.

(** ** The configuration after [__post_init__] *)

(** What [__post_init__] establishes, for element types of at least two bits. *)
Lemma post_init_spec c0 c :
  post_init c0 = Ok c → (2 ≤ bits (quantize_dtype c0))%Z → (0 < group_size c0)%Z →
  (0 < num_elem_per_storage c)%Z ∧
  (num_elem_per_storage c * bits (quantize_dtype c) ≤ bits (storage_dtype c))%Z ∧
  (num_storage_per_group c * num_elem_per_storage c = group_size c)%Z ∧
  (0 < num_storage_per_group c)%Z ∧
  (1 ≤ max_int_value c)%Z ∧ (max_int_value c * 2 < 2 ^ bits (quantize_dtype c))%Z ∧
  bits (quantize_dtype c) = bits (quantize_dtype c0) ∧ group_size c = group_size c0.
Proof.
  unfold post_init. intros H Hb Hg. ok_inv. bool_inv.
  match goal with H : negb _ = false |- _ => apply negb_false_iff in H | _ => idtac end.
  bool_inv. cbn.
  set (sb := bits (storage_dtype c0)) in *. set (qb := bits (quantize_dtype c0)) in *.
  assert (0 < sb / qb)%Z by (apply Z.div_str_pos; lia).
  assert (sb / qb * qb ≤ sb)%Z by (rewrite Z.mul_comm; apply Z.mul_div_le; lia).
  assert (group_size c0 / (sb / qb) * (sb / qb) = group_size c0)%Z as Hgs.
  { rewrite Z.mul_comm. symmetry. apply Z.div_exact; lia. }
  assert (2 ^ qb = 2 * 2 ^ (qb - 1))%Z as Hpow.
  { replace qb with (1 + (qb - 1))%Z at 1 by lia. rewrite Z.pow_add_r by lia. lia. }
  assert (2 ^ 1 ≤ 2 ^ (qb - 1))%Z by (apply Z.pow_le_mono_r; lia).
  change (2 ^ 1)%Z with 2%Z in *.
  split_and!; try done; lia.
Qed.

(** ** The error of a quantized weight *)

Section error.
Context (c0 c : GroupQuantize) (round : Q → Z) (nan : Z) (lo : Q).
Context (Hc : post_init c0 = Ok c) (Hbits : (2 ≤ bits (quantize_dtype c0))%Z)
  (Hgroup : (0 < group_size c0)%Z).
(** The rounding intrinsic rounds to a nearest integer. *)
Context (Hround : ∀ q, (Qabs (inject_Z (round q) - q) <= 1 # 2)%Q).
Implicit Types (weight : list Q).

Lemma foldl_Qmax_ge (f : nat → Q) l acc :
  (acc <= foldl (λ acc r, Qmax acc (f r)) acc l)%Q ∧
  ∀ r, r ∈ l → (f r <= foldl (λ acc r, Qmax acc (f r)) acc l)%Q.
Proof.
  revert acc. induction l as [|x l IH]; intros acc; cbn [foldl].
  - split; [apply Qle_refl|]. intros r Hr. by apply not_elem_of_nil in Hr.
  - destruct (IH (Qmax acc (f x))) as [H1 H2]. split.
    + eapply Qle_trans; [apply Q.le_max_l|exact H1].
    + intros r [->|Hr]%elem_of_cons; [|by apply H2].
      eapply Qle_trans; [apply Q.le_max_r|exact H1].
Qed.

Lemma gs_pos : 0 < gs c.
Proof.
  destruct (post_init_spec c0 c Hc Hbits Hgroup) as (_ & _ & _ & _ & _ & _ & _ & Hg).
  unfold gs. rewrite Hg. lia.
Qed.

Lemma weight_le_max weight i :
  i < length weight → (Qabs (at_ 0%Q weight i) <= max_abs c lo weight (i / gs c))%Q.
Proof.
  intros Hi. unfold max_abs. pose proof gs_pos as Hgs.
  destruct (foldl_Qmax_ge (λ r, if decide (i / gs c * gs c + r < length weight)
    then Qabs (at_ 0%Q weight (i / gs c * gs c + r)) else lo) (seq 0 (gs c)) lo) as [_ H].
  assert (i / gs c * gs c + i mod gs c = i) as E by (rewrite Nat.mul_comm; symmetry; apply Nat.div_mod_eq).
  specialize (H (i mod gs c)). cbv beta in H. rewrite E, decide_True in H by done.
  apply H. apply elem_of_seq. split; [lia|]. apply Nat.mod_upper_bound. lia.
Qed.

Lemma ceildiv_ge k g : 0 < g → k ≤ ceildiv k g * g.
Proof.
  intros Hg. unfold ceildiv. pose proof (Nat.div_mod_eq (k + g - 1) g).
  pose proof (Nat.mod_upper_bound (k + g - 1) g). nia.
Qed.

Lemma scaled_weight_fits weight i :
  (0 ≤ scaled_weight c round nan lo weight i < 2 ^ bits (quantize_dtype c))%Z.
Proof.
  destruct (post_init_spec c0 c Hc Hbits Hgroup) as (_ & _ & _ & _ & Hm & Hm2 & _).
  unfold scaled_weight. lia.
Qed.

(** Unpacking a quantized row gives the scaled weights. *)
Lemma unpack_quantized weight i :
  i < length weight →
  convert_uint_to_float (bits (quantize_dtype c)) (num_elem c) false
    (_quantize c round nan lo weight).1 i = scaled_weight c round nan lo weight i.
Proof.
  intros Hi.
  destruct (post_init_spec c0 c Hc Hbits Hgroup) as (Hn & Hfit & Hgs & Hs & _ & _ & Hbe & Hge).
  unfold _quantize. cbn [fst]. rewrite unpack_packed.
  - unfold at_. rewrite list_lookup_fmap, lookup_seq_lt by done. done.
  - lia.
  - unfold num_elem. rewrite Z2Nat.id by lia. done.
  - apply Forall_fmap, Forall_forall. intros j _. apply scaled_weight_fits.
  - unfold num_elem. lia.
  - rewrite length_fmap, length_seq. pose proof (ceildiv_ge (length weight) (gs c) gs_pos).
    assert (Z.to_nat (num_storage_per_group c) * num_elem c = gs c) as Hgs'
      by (unfold num_elem, gs; rewrite <-Z2Nat.inj_mul by lia; by f_equal).
    unfold num_group. nia.
  - by rewrite length_fmap, length_seq.
Qed.

Lemma scaled_exact weight i :
  i < length weight → (0 < scale c lo weight (i / gs c))%Q →
  scaled_weight c round nan lo weight i =
    round (at_ 0 weight i / scale c lo weight (i / gs c) + inject_Z (max_int_value c))%Q.
Proof.
  intros Hi Hs. destruct (post_init_spec c0 c Hc Hbits Hgroup) as (_ & _ & _ & _ & Hm & _).
  pose proof (weight_le_max weight i Hi) as Hw. unfold scaled_weight.
  set (m := max_int_value c) in *. set (s := scale c lo weight (i / gs c)) in *.
  set (x := (at_ 0 weight i / s + inject_Z m)%Q).
  assert (max_abs c lo weight (i / gs c) == s * inject_Z m)%Q as Hmax.
  { unfold s, scale. fold m. field. change 0%Q with (inject_Z 0). rewrite inject_Z_injective. lia. }
  rewrite Hmax in Hw. apply Qabs_Qle_condition in Hw as [Hlo Hhi].
  assert (0 <= x)%Q as Hx0.
  { unfold x. assert (- inject_Z m <= at_ 0 weight i / s)%Q; [|lra].
    apply Qle_shift_div_l; [done|]. lra. }
  assert (x <= inject_Z (m * 2))%Q as Hx1.
  { unfold x. rewrite inject_Z_mult. change (inject_Z 2) with 2%Q.
    assert (at_ 0 weight i / s <= inject_Z m)%Q; [|lra].
    apply Qle_shift_div_r; [done|]. lra. }
  pose proof (Hround x) as Hr. apply Qabs_Qle_condition in Hr as [Hr1 Hr2].
  assert (-1 < round x)%Z.
  { rewrite Zlt_Qlt. change (inject_Z (-1)) with (-1)%Q. lra. }
  assert (round x < m * 2 + 1)%Z.
  { rewrite Zlt_Qlt, inject_Z_plus. change (inject_Z 1) with 1%Q. lra. }
  assert (Qeq_bool s 0 = false) as ->.
  { apply not_true_iff_false. rewrite Qeq_bool_iff. intros H0s. rewrite H0s in Hs. by apply Qlt_irrefl in Hs. }
  rewrite Z.max_l, Z.min_l; lia.
Qed.

(** C40. Quantizing and dequantizing changes a weight by at most half the scale of its
    group, in exact arithmetic. *)
Theorem quantization_error weight i :
  i < length weight →
  (Qabs (_dequantize c (_quantize c round nan lo weight).1 (_quantize c round nan lo weight).2 i
         - at_ 0 weight i) <= scale c lo weight (i / gs c) * (1 # 2))%Q.
Proof.
  intros Hi. destruct (post_init_spec c0 c Hc Hbits Hgroup) as (_ & _ & _ & _ & Hm & _).
  unfold _dequantize. rewrite unpack_quantized by done.
  pose proof (ceildiv_ge (length weight) (gs c) gs_pos) as Hceil.
  assert (i / gs c < num_group c (length weight)) as Hg.
  { unfold num_group. apply Nat.Div0.div_lt_upper_bound. nia. }
  unfold at_ at 1. unfold _quantize. cbn [snd].
  rewrite list_lookup_fmap, lookup_seq_lt by done. cbn [fmap option_fmap option_map default from_option id Nat.add].
  pose proof (weight_le_max weight i Hi) as Hw.
  set (s := scale c lo weight (i / gs c)) in *. set (m := max_int_value c) in *.
  assert (max_abs c lo weight (i / gs c) == s * inject_Z m)%Q as Hmax.
  { unfold s, scale. fold m. field. change 0%Q with (inject_Z 0). rewrite inject_Z_injective. lia. }
  rewrite Hmax in Hw.
  assert (0 <= s * inject_Z m)%Q as Hsm by (eapply Qle_trans; [apply Qabs_nonneg|exact Hw]).
  assert (0 < inject_Z m)%Q as Hmpos by (change 0%Q with (inject_Z 0); rewrite <-Zlt_Qlt; lia).
  destruct (Qlt_le_dec 0 s) as [Hs|Hs].
  - rewrite (scaled_exact weight i Hi Hs). fold s m.
    set (x := (at_ 0 weight i / s + inject_Z m)%Q).
    assert ((inject_Z (round x) - inject_Z m) * s - at_ 0 weight i == (inject_Z (round x) - x) * s)%Q as ->.
    { unfold x. field. intros H0. rewrite H0 in Hs. by apply Qlt_irrefl in Hs. }
    rewrite Qabs_Qmult, (Qabs_pos s) by lra. rewrite Qmult_comm.
    apply Qmult_le_l; [done|]. apply Hround.
  - assert (s == 0)%Q as Hs0.
    { apply Qle_antisym; [done|]. apply Qnot_lt_le. intros Hneg.
      nra. }
    rewrite Hs0 in Hw |- *. rewrite Qmult_0_l in Hw. apply Qabs_Qle_condition in Hw as [Hw1 Hw2].
    assert (at_ 0 weight i == 0)%Q as -> by (apply Qle_antisym; lra).
    match goal with |- (Qabs ?e <= _)%Q => assert (e == 0)%Q as -> by ring end.
    by apply Qle_bool_iff.
Qed.
End error.

(** ** The visitor *)

(** The weights the mutator quantizes. *)
Definition quantizes (c : GroupQuantize) (name : string) (node : node_kind) : Prop :=
  match node with
  | NLinear _ out _ =>
      (is_final_fc name = false ∨ quantize_final_fc c = true) ∧ is_moe_gate name out = false
  | NEmbedding _ _ => quantize_embedding c = true
  | NMixtralExperts _ _ _ => True
  | NOther => False
  end.

(** A node marked as not to be quantized is kept. Any other is quantized, or
    rejected, exactly when its kind, its name and the configuration say so, and
    exactly then its weight gets an entry in the mapping: the two packed
    parameters under the node's name. The other entries are kept. *)
Theorem visit_module_spec c no_quantization name node m :
  let '(m', v) := visit_module c no_quantization name node m in
  (no_quantization = true → m' = m ∧ v = Ok Kept) ∧
  (no_quantization = false → quantizes c name node →
     param_map m' !! (name +:+ ".weight") = Some [name +:+ ".q_weight"; name +:+ ".q_scale"] ∧
     is_Some (map_func m' !! (name +:+ ".weight")) ∧
     ((∃ l, v = Ok (Quantized l)) ∨ ∃ e, v = Err e)) ∧
  (no_quantization = false → ¬ quantizes c name node → m' = m ∧ v = Ok Visited) ∧
  (∀ other, other ≠ name +:+ ".weight" →
     param_map m' !! other = param_map m !! other ∧ map_func m' !! other = map_func m !! other).
Proof.
  unfold visit_module. destruct no_quantization; [naive_solver|].
  assert (∀ r : result layer, (∃ l, (x ← r; Ok (Quantized x)) = Ok (Quantized l)) ∨
                 ∃ e, (x ← r; Ok (Quantized x)) = Err e) as Hr.
  { intros [x|e]; simpl; eauto. }
  destruct node as [i out bi|n di|e i o|]; simpl.
  - destruct (is_final_fc name), (quantize_final_fc c), (is_moe_gate name out); simpl;
      rewrite ?lookup_insert_eq; repeat split; try naive_solver;
      intros; by rewrite lookup_insert_ne.
  - destruct (quantize_embedding c); simpl; rewrite ?lookup_insert_eq; repeat split; try naive_solver;
      intros; by rewrite lookup_insert_ne.
  - rewrite ?lookup_insert_eq. repeat split; try naive_solver;
      intros; by rewrite lookup_insert_ne.
  - naive_solver.
Qed.

(** ** The shapes of the quantized parameters *)

(** A matrix of [a] rows of length [b]. *)
Definition has_shape {A} (m : list (list A)) (a b : nat) : Prop :=
  length m = a ∧ Forall (λ row, length row = b) m.

Lemma transpose_shape {A} (d : A) n m : has_shape (transpose d n m) n (length m).
Proof.
  unfold transpose, has_shape. rewrite length_fmap, length_seq. split; [done|].
  apply Forall_fmap, Forall_forall. intros j _. simpl. by rewrite length_fmap.
Qed.

Lemma ceildivZ_nat a b : 0 < b → ceildivZ (Z.of_nat a) (Z.of_nat b) = Z.of_nat (ceildiv a b).
Proof.
  intros Hb. unfold ceildivZ, ceildiv. rewrite Nat2Z.inj_div. f_equal. lia.
Qed.

Lemma quantize_row_shape c round nan lo row :
  length (_quantize c round nan lo row).1 = Z.to_nat (num_storage_per_group c) * num_group c (length row) ∧
  length (_quantize c round nan lo row).2 = num_group c (length row).
Proof. unfold _quantize, pack_weight. simpl. by rewrite !length_fmap, !length_seq. Qed.

Lemma rows_shape c round nan lo k weight :
  Forall (λ row, length row = k) weight →
  has_shape ((λ row, (_quantize c round nan lo row).1) <$> weight) (length weight)
    (Z.to_nat (num_storage_per_group c) * num_group c k) ∧
  has_shape ((λ row, (_quantize c round nan lo row).2) <$> weight) (length weight) (num_group c k).
Proof.
  intros Hk. unfold has_shape. rewrite !length_fmap.
  split; (split; [done|]); apply Forall_fmap; eapply Forall_impl; try exact Hk;
    intros row <-; apply (quantize_row_shape c round nan lo row).
Qed.

(** The tensors that replace the weight of a linear layer have the shapes its
    quantized layer declares, in both layouts: [visit_module] transposes them
    exactly when the layer is declared transposed. *)
Theorem linear_shapes c round nan lo name m (out_features in_features : nat) bias weight m' l transposed :
  (0 < group_size c)%Z → (0 ≤ num_storage_per_group c)%Z →
  has_shape weight out_features in_features →
  visit_module c false name (NLinear (Z.of_nat in_features) (Some (Z.of_nat out_features)) bias) m
    = (m', Ok (Quantized l)) →
  map_func m' !! (name +:+ ".weight") = Some transposed →
  let '(w, s) := quantize_weight c round nan lo transposed in_features weight in
  ∃ a b a' b', has_shape w a b ∧ q_weight l = [Some (Z.of_nat a); Some (Z.of_nat b)] ∧
    has_shape s a' b' ∧ q_scale l = [Some (Z.of_nat a'); Some (Z.of_nat b')].
Proof.
  intros Hgs Hns [Hrows Hcols] Hv Ht. simpl in Hv. case_match; [|simplify_eq].
  simplify_eq. simpl in Ht. rewrite lookup_insert_eq in Ht.
  match goal with H : (_ ← _; _) = Ok _ |- _ => rename H into Hl end.
  unfold GroupQuantizeLinear_init in Hl. ok_inv.
  destruct (rows_shape c round nan lo in_features weight Hcols) as [Hw Hs].
  assert (ceildivZ (Z.of_nat in_features) (group_size c) = Z.of_nat (num_group c in_features)) as Hg.
  { rewrite <-(Z2Nat.id (group_size c)) by lia. apply ceildivZ_nat. unfold gs. lia. }
  assert (num_storage_per_group c * ceildivZ (Z.of_nat in_features) (group_size c) =
    Z.of_nat (Z.to_nat (num_storage_per_group c) * num_group c in_features))%Z as Hst
    by (rewrite Hg; lia).
  unfold quantize_weight. case_decide as Hlay; simplify_eq.
  - rewrite bool_decide_true by done. do 4 eexists. simpl. rewrite Hst, Hg.
    split_and!; [apply transpose_shape| |apply transpose_shape|]; by rewrite length_fmap.
  - rewrite bool_decide_false by done. do 4 eexists. simpl. rewrite Hst, Hg.
    split_and!; [exact Hw|done|exact Hs|done].
Qed.

(** ** Witnesses *)

(** The 4-bit configuration [q4f16_1] with groups of 32. *)
Definition q4 : GroupQuantize := {|
  kind := "group-quant"; group_size := 32; quantize_dtype := {| code := INT; bits := 4 |};
  storage_dtype := {| code := UINT; bits := 32 |}; model_dtype := {| code := FLOAT; bits := 16 |};
  linear_weight_layout := NK; quantize_embedding := true; quantize_final_fc := true;
  num_elem_per_storage := 8; num_storage_per_group := 4; max_int_value := 7;
  linear_quant_axis := 1; tensor_parallel_shards := 1;
|}.

(** Rounding half up. *)
Definition round_half_up (q : Q) : Z := Qfloor (q + (1 # 2)).

Lemma round_half_up_nearest q : (Qabs (inject_Z (round_half_up q) - q) <= 1 # 2)%Q.
Proof.
  unfold round_half_up. pose proof (Qfloor_le (q + (1 # 2))). pose proof (Qlt_floor (q + (1 # 2))).
  rewrite inject_Z_plus in H0. change (inject_Z 1) with 1%Q in H0.
  apply Qabs_Qle_condition. split; lra.
Qed.

Lemma linear_shapes_witness :
  let '(w, s) := quantize_weight q4 round_half_up 0 (-65504) false 3 [[1; 2; 3]%Q; [4; 5; 6]%Q] in
  ∃ a b a' b', has_shape w a b ∧ [Some 2; Some 4]%Z = [Some (Z.of_nat a); Some (Z.of_nat b)] ∧
    has_shape s a' b' ∧ [Some 2; Some 1]%Z = [Some (Z.of_nat a'); Some (Z.of_nat b')].
Proof.
  apply (linear_shapes q4 round_half_up 0 (-65504)%Q "q_proj" {| param_map := ∅; map_func := ∅ |} 2 3 false
    [[1; 2; 3]%Q; [4; 5; 6]%Q]
    {| param_map := <["q_proj.weight" := ["q_proj.q_weight"; "q_proj.q_scale"]]> ∅;
       map_func := <["q_proj.weight" := false]> ∅ |}
    {| q_weight := [Some 2; Some 4]%Z; q_scale := [Some 2; Some 1]%Z; layer_bias := None |}).
  - simpl. lia.
  - simpl. lia.
  - split; [done|]. by repeat constructor.
  - vm_compute. reflexivity.
  - vm_compute. reflexivity.
Defined.

Lemma unpack_pack_witness :
  (0 < 3)%Z ∧ convert_uint_to_float 3 10 false (pack_weight 32 3 10 2 [5; 0; 7; 1; 2; 3; 4; 5; 6; 7; 1]%Z) 10 = 1%Z.
Proof.
  split; [lia|].
  apply (unpack_pack 32 3 10 ltac:(lia) ltac:(lia) [5; 0; 7; 1; 2; 3; 4; 5; 6; 7; 1]%Z 2 10).
  - repeat constructor; lia.
  - lia.
  - simpl. lia.
  - simpl. lia.
Defined.

Lemma quantization_error_witness :
  (Qabs (_dequantize q4 (_quantize q4 round_half_up 0 (-65504) [1; -(1 # 3); 1 # 5]).1
           (_quantize q4 round_half_up 0 (-65504) [1; -(1 # 3); 1 # 5]).2 1 - (-(1 # 3)))
   <= scale q4 (-65504) [1; -(1 # 3); 1 # 5] 0 * (1 # 2))%Q.
Proof.
  apply (quantization_error q4 q4 round_half_up 0 (-65504)%Q).
  - reflexivity.
  - simpl. lia.
  - simpl. lia.
  - exact round_half_up_nearest.
  - simpl. lia.
Defined.
