(* ===== verification/QuantRegistry.v ===== *)
(** The quantization methods: the configurations of
    [python/mlc_llm/quantization/*_quantization.py] with their [__post_init__],
    and the registry [QUANTIZATION] of [quantization/quantization.py].

    [tvm.DataType], which parses the name of a type, and [tirx.max_value] are
    parameters. *)

From Stdlib Require Import Lia ZArith.
From stdpp Require Import base gmap strings list.
From S2P Require Import Prelude Quantization.

(** ** The configurations *)

Record NoQuantize := { no_kind : string; no_model_dtype : string }.
Definition NoQuantize_post_init (c : NoQuantize) : result NoQuantize :=
  _ ← py_assert (bool_decide (no_kind c = "no-quant")) ""; Ok c.

Record AWQQuantize := {
  awq_kind : string; awq_group_size : Z;
  awq_quantize_dtype : string; awq_storage_dtype : string; awq_model_dtype : string;
  awq_num_elem_per_storage : Z; awq_num_storage_per_group : Z; awq_max_int_value : Z;
}.

Record FTQuantize := {
  ft_kind : string; ft_quantize_dtype : string; ft_storage_dtype : string; ft_model_dtype : string;
  ft_group_size : option Z; ft_num_elem_per_storage : Z; ft_max_int_value : Z;
}.

Record PerTensorQuantize := {
  pt_kind : string; pt_activation_dtype : string; pt_weight_dtype : string;
  pt_storage_dtype : string; pt_model_dtype : string;
  pt_quantize_embedding : bool; pt_quantize_final_fc : bool; pt_quantize_linear : bool;
  pt_num_elem_per_storage : Z; pt_max_int_value : Z; pt_use_scale : bool;
  pt_calibration_mode : string; pt_tensor_parallel_shards : Z;
}.

Record BlockScaleQuantize := {
  bs_kind : string; bs_weight_dtype : string; bs_model_dtype : string; bs_quantize_linear : bool;
  bs_weight_block_size : option (Z * Z); bs_use_activation_scale : bool;
}.

(** [_make_divisible] and [_calculate_zeros_width] of the AWQ layers. *)
Definition _make_divisible (c divisor : Z) : Z := ((c + divisor - 1) / divisor)%Z.
Definition _calculate_zeros_width (in_features group_size pack_num : Z) : result Z :=
  size_multiplier ← (if (128 <=? group_size)%Z then Ok 1%Z
                     else if (group_size =? 64)%Z then Ok 2%Z
                     else if (group_size =? 32)%Z then Ok 4%Z
                     else raise NotImplementedError "");
  let base_width := _make_divisible (in_features / group_size) pack_num in
  Ok (_make_divisible base_width size_multiplier * size_multiplier)%Z.

(** The method of an entry of the registry. *)
Inductive method :=
  | MNo (c : NoQuantize)
  | MGroup (c : GroupQuantize)
  | MAWQ (c : AWQQuantize)
  | MFT (c : FTQuantize)
  | MPerTensor (c : PerTensorQuantize)
  | MBlockScale (c : BlockScaleQuantize).
Record Quantization := { qz_name : string; qz_method : method }.

(** [quantization.kind]. *)
Definition quantization_kind (q : Quantization) : string :=
  match qz_method q with
  | MNo c => no_kind c
  | MGroup c => kind c
  | MAWQ c => awq_kind c
  | MFT c => ft_kind c
  | MPerTensor c => pt_kind c
  | MBlockScale c => bs_kind c
  end.

Section registry.
Context (DataType_of : string → DataType) (max_value : string → Z).

Definition AWQQuantize_post_init (c : AWQQuantize) : result AWQQuantize :=
  _ ← py_assert (bool_decide (awq_kind c = "awq")) "";
  let quantize_dtype := DataType_of (awq_quantize_dtype c) in
  let storage_dtype := DataType_of (awq_storage_dtype c) in
  let model_dtype := DataType_of (awq_model_dtype c) in
  _ ← py_assert (bool_decide (code quantize_dtype = INT)) "";
  _ ← py_assert (bool_decide (code storage_dtype = UINT)) "";
  _ ← py_assert (bool_decide (code model_dtype = FLOAT)) "";
  _ ← raise_when (bits storage_dtype <? bits quantize_dtype)%Z ValueError
        "Storage unit should be greater or equal to quantized element";
  let num_elem := (bits storage_dtype / bits quantize_dtype)%Z in
  _ ← raise_when (negb (awq_group_size c mod num_elem =? 0))%Z ValueError
        "Group size should be divisible by numbers of elements per storage";
  Ok {| awq_kind := awq_kind c; awq_group_size := awq_group_size c;
        awq_quantize_dtype := awq_quantize_dtype c; awq_storage_dtype := awq_storage_dtype c;
        awq_model_dtype := awq_model_dtype c;
        awq_num_elem_per_storage := num_elem;
        awq_num_storage_per_group := (awq_group_size c / num_elem)%Z;
        awq_max_int_value := (2 ^ (bits quantize_dtype - 1) - 1)%Z |}.

Definition FTQuantize_post_init (c : FTQuantize) : result FTQuantize :=
  _ ← py_assert (bool_decide (ft_kind c = "ft-quant")) "";
  let quantize_dtype := DataType_of (ft_quantize_dtype c) in
  let storage_dtype := DataType_of (ft_storage_dtype c) in
  _ ← py_assert (bool_decide (ft_quantize_dtype c ∈ ["int4"; "int8"])) "";
  _ ← py_assert (bool_decide (code storage_dtype = INT)) "";
  _ ← py_assert (bool_decide (ft_model_dtype c = "float16")) "";
  _ ← py_assert (bool_decide (ft_group_size c ∈ [None; Some 64%Z; Some 128%Z])) "";
  _ ← raise_when (bits storage_dtype <? bits quantize_dtype)%Z ValueError
        "Storage unit should be greater or equal to quantized element";
  Ok {| ft_kind := ft_kind c; ft_quantize_dtype := ft_quantize_dtype c;
        ft_storage_dtype := ft_storage_dtype c; ft_model_dtype := ft_model_dtype c;
        ft_group_size := ft_group_size c;
        ft_num_elem_per_storage := (bits storage_dtype / bits quantize_dtype)%Z;
        ft_max_int_value := (2 ^ (bits quantize_dtype - 1) - 1)%Z |}.

Definition PerTensorQuantize_post_init (c : PerTensorQuantize) : result PerTensorQuantize :=
  _ ← py_assert (bool_decide (pt_kind c = "per-tensor-quant")) "";
  Ok {| pt_kind := pt_kind c; pt_activation_dtype := pt_activation_dtype c;
        pt_weight_dtype := pt_weight_dtype c; pt_storage_dtype := pt_storage_dtype c;
        pt_model_dtype := pt_model_dtype c; pt_quantize_embedding := pt_quantize_embedding c;
        pt_quantize_final_fc := pt_quantize_final_fc c; pt_quantize_linear := pt_quantize_linear c;
        pt_num_elem_per_storage :=
          (bits (DataType_of (pt_storage_dtype c)) / bits (DataType_of (pt_weight_dtype c)))%Z;
        pt_max_int_value := max_value (pt_weight_dtype c);
        pt_use_scale := pt_use_scale c; pt_calibration_mode := pt_calibration_mode c;
        pt_tensor_parallel_shards := pt_tensor_parallel_shards c |}.

Definition BlockScaleQuantize_post_init (c : BlockScaleQuantize) : result BlockScaleQuantize :=
  _ ← py_assert (bool_decide (bs_kind c = "block-scale-quant")) "";
  _ ← py_assert (bool_decide (code (DataType_of (bs_weight_dtype c)) ∈ [Float8E4M3FN; Float8E5M2])) "";
  _ ← py_assert (bool_decide (code (DataType_of (bs_model_dtype c)) ∈ [FLOAT; BFLOAT])) "";
  Ok c.

(** The constructor calls of the registry. *)
Definition no_quant (name dtype : string) : result Quantization :=
  c ← NoQuantize_post_init {| no_kind := "no-quant"; no_model_dtype := dtype |};
  Ok {| qz_name := name; qz_method := MNo c |}.

Definition group_quant (name : string) (group : Z) (quantize storage model : string) (l : layout)
    (embedding final_fc : bool) : result Quantization :=
  c ← post_init {|
    kind := "group-quant"; group_size := group; quantize_dtype := DataType_of quantize;
    storage_dtype := DataType_of storage; model_dtype := DataType_of model;
    linear_weight_layout := l; quantize_embedding := embedding; quantize_final_fc := final_fc;
    num_elem_per_storage := 0; num_storage_per_group := 0; max_int_value := 0;
    linear_quant_axis := 0; tensor_parallel_shards := 0 |};
  Ok {| qz_name := name; qz_method := MGroup c |}.

Definition awq_quant (name : string) (group : Z) (quantize storage model : string) : result Quantization :=
  c ← AWQQuantize_post_init {|
    awq_kind := "awq"; awq_group_size := group; awq_quantize_dtype := quantize;
    awq_storage_dtype := storage; awq_model_dtype := model; awq_num_elem_per_storage := 0;
    awq_num_storage_per_group := 0; awq_max_int_value := 0 |};
  Ok {| qz_name := name; qz_method := MAWQ c |}.

Definition ft_quant (name quantize storage model : string) (group : option Z) : result Quantization :=
  c ← FTQuantize_post_init {|
    ft_kind := "ft-quant"; ft_quantize_dtype := quantize; ft_storage_dtype := storage;
    ft_model_dtype := model; ft_group_size := group; ft_num_elem_per_storage := 0;
    ft_max_int_value := 0 |};
  Ok {| qz_name := name; qz_method := MFT c |}.

Definition per_tensor_quant (name dtype : string) (use_scale : bool) (mode : string) : result Quantization :=
  c ← PerTensorQuantize_post_init {|
    pt_kind := "per-tensor-quant"; pt_activation_dtype := dtype; pt_weight_dtype := dtype;
    pt_storage_dtype := dtype; pt_model_dtype := "float16"; pt_quantize_embedding := false;
    pt_quantize_final_fc := false; pt_quantize_linear := true; pt_num_elem_per_storage := 0;
    pt_max_int_value := 0; pt_use_scale := use_scale; pt_calibration_mode := mode;
    pt_tensor_parallel_shards := 1 |};
  Ok {| qz_name := name; qz_method := MPerTensor c |}.

Definition block_scale_quant (name weight model : string) (activation_scale : bool) : result Quantization :=
  c ← BlockScaleQuantize_post_init {|
    bs_kind := "block-scale-quant"; bs_weight_dtype := weight; bs_model_dtype := model;
    bs_quantize_linear := true; bs_weight_block_size := None;
    bs_use_activation_scale := activation_scale |};
  Ok {| qz_name := name; qz_method := MBlockScale c |}.

Definition QUANTIZATION : list (string * result Quantization) := [
  ("q0f16", no_quant "q0f16" "float16");
  ("q0bf16", no_quant "q0bf16" "bfloat16");
  ("q0f32", no_quant "q0f32" "float32");
  ("q3f16_0", group_quant "q3f16_0" 40 "int3" "uint32" "float16" KN true true);
  ("q3f16_1", group_quant "q3f16_1" 40 "int3" "uint32" "float16" NK true true);
  ("q4f16_0", group_quant "q4f16_0" 32 "int4" "uint32" "float16" KN true true);
  ("q4f16_1", group_quant "q4f16_1" 32 "int4" "uint32" "float16" NK true true);
  ("q4bf16_0", group_quant "q4bf16_0" 32 "int4" "uint32" "bfloat16" KN true true);
  ("q4bf16_1", group_quant "q4bf16_1" 32 "int4" "uint32" "bfloat16" NK true true);
  ("q4f32_1", group_quant "q4f32_1" 32 "int4" "uint32" "float32" NK true true);
  ("q4f16_2", group_quant "q4f16_2" 32 "int4" "uint32" "float16" NK false false);
  ("q4f16_autoawq", awq_quant "q4f16_autoawq" 128 "int4" "uint32" "float16");
  ("q4f16_ft", ft_quant "q4f16_ft" "int4" "int8" "float16" None);
  ("q4f16_ft64", ft_quant "q4f16_ft64" "int4" "int8" "float16" (Some 64%Z));
  ("e5m2_e5m2_f16", per_tensor_quant "e5m2_e5m2_f16" "float8_e5m2" false "inference");
  ("e4m3_e4m3_f16", per_tensor_quant "e4m3_e4m3_f16" "float8_e4m3fn" true "inference");
  ("e4m3_e4m3_f16_max_calibrate",
   per_tensor_quant "e4m3_e4m3_f16_max_calibrate" "float8_e4m3fn" true "max");
  ("fp8_e4m3fn_bf16_block_scale",
   block_scale_quant "fp8_e4m3fn_bf16_block_scale" "float8_e4m3fn" "bfloat16" false);
  ("fp8_e4m3fn_bf16_block_scale_static_activation",
   block_scale_quant "fp8_e4m3fn_bf16_block_scale_static_activation" "float8_e4m3fn" "bfloat16" true)].

(** [FTQuantize.fallback_group_quantize]. *)
Definition fallback_group_quantize (c : FTQuantize) : result GroupQuantize :=
  post_init {|
    kind := "group-quant"; group_size := 32; quantize_dtype := DataType_of (ft_quantize_dtype c);
    storage_dtype := DataType_of "uint32"; model_dtype := DataType_of (ft_model_dtype c);
    linear_weight_layout := NK; quantize_embedding := true; quantize_final_fc := true;
    num_elem_per_storage := 0; num_storage_per_group := 0; max_int_value := 0;
    linear_quant_axis := 0; tensor_parallel_shards := 0 |}.

(** ** What the registry promises *)

(** What [tvm.DataType] says of the names in the registry. *)
Definition dtype_names : list (string * DataType) := [
  ("int3", {| code := INT; bits := 3 |}); ("int4", {| code := INT; bits := 4 |});
  ("int8", {| code := INT; bits := 8 |}); ("uint32", {| code := UINT; bits := 32 |});
  ("float16", {| code := FLOAT; bits := 16 |}); ("float32", {| code := FLOAT; bits := 32 |});
  ("bfloat16", {| code := BFLOAT; bits := 16 |});
  ("float8_e4m3fn", {| code := Float8E4M3FN; bits := 8 |});
  ("float8_e5m2", {| code := Float8E5M2; bits := 8 |})].
Context (DataType_names : ∀ n t, (n, t) ∈ dtype_names → DataType_of n = t).

(** The names of the quantization functions a model can have. *)
Definition quantization_kinds : list string :=
  ["no-quant"; "group-quant"; "ft-quant"; "awq"; "per-tensor-quant"; "block-scale-quant"].

(** The derived fields of a packing configuration agree with its types: what the
    packing theorems of [Quantization] need. *)
Definition packs (quantize storage : DataType) (group num_elem per_group max_int : Z) : Prop :=
  (0 < bits quantize ∧ 0 < num_elem ∧ num_elem * bits quantize ≤ bits storage ∧
   per_group * num_elem = group ∧ 0 < max_int ∧ 2 * max_int < 2 ^ bits quantize)%Z.

Definition method_packs (m : method) : Prop :=
  match m with
  | MGroup c =>
      packs (quantize_dtype c) (storage_dtype c) (group_size c) (num_elem_per_storage c)
        (num_storage_per_group c) (max_int_value c)
  | MAWQ c =>
      packs (DataType_of (awq_quantize_dtype c)) (DataType_of (awq_storage_dtype c)) (awq_group_size c)
        (awq_num_elem_per_storage c) (awq_num_storage_per_group c) (awq_max_int_value c)
  | MFT c =>
      (ft_num_elem_per_storage c * bits (DataType_of (ft_quantize_dtype c)) ≤
         bits (DataType_of (ft_storage_dtype c)))%Z ∧
      ∃ g, fallback_group_quantize c = Ok g ∧
        packs (quantize_dtype g) (storage_dtype g) (group_size g) (num_elem_per_storage g)
          (num_storage_per_group g) (max_int_value g)
  | _ => True
  end.

Definition registered (name : string) (r : result Quantization) : Prop :=
  ∃ q, r = Ok q ∧ qz_name q = name ∧ quantization_kind q ∈ quantization_kinds ∧ method_packs (qz_method q).

(** A list membership of the registry, as an equation. *)
Lemma dtype_eq n t : dict_get n dtype_names = Some t → DataType_of n = t.
Proof. intros H. apply DataType_names. by apply dict_get_elem. Qed.

Ltac packs_solve := unfold packs; vm_compute; repeat split; discriminate.
Ltac registered_solve :=
  unfold registered, no_quant, group_quant, awq_quant, ft_quant, per_tensor_quant, block_scale_quant,
    AWQQuantize_post_init, FTQuantize_post_init, PerTensorQuantize_post_init,
    BlockScaleQuantize_post_init;
  cbn [awq_quantize_dtype awq_storage_dtype awq_model_dtype ft_quantize_dtype ft_storage_dtype
       pt_storage_dtype pt_weight_dtype bs_weight_dtype bs_model_dtype];
  repeat match goal with
  | |- context [DataType_of ?n] => rewrite (dtype_eq n _ eq_refl)
  end;
  eexists; split; [reflexivity|]; split; [reflexivity|];
  split; [by apply (bool_decide_unpack _); vm_compute|]; simpl.

Lemma group_registered name group quantize storage model l embedding final_fc q s m :
  dict_get quantize dtype_names = Some q → dict_get storage dtype_names = Some s →
  dict_get model dtype_names = Some m →
  (∃ c, post_init {|
    kind := "group-quant"; group_size := group; quantize_dtype := q; storage_dtype := s;
    model_dtype := m; linear_weight_layout := l; quantize_embedding := embedding;
    quantize_final_fc := final_fc; num_elem_per_storage := 0; num_storage_per_group := 0;
    max_int_value := 0; linear_quant_axis := 0; tensor_parallel_shards := 0 |} = Ok c ∧
    kind c = "group-quant" ∧
    packs (quantize_dtype c) (storage_dtype c) (group_size c) (num_elem_per_storage c)
      (num_storage_per_group c) (max_int_value c)) →
  registered name (group_quant name group quantize storage model l embedding final_fc).
Proof.
  intros Hq Hs Hm (c & Hc & Hk & Hp). unfold registered, group_quant.
  rewrite (dtype_eq _ _ Hq), (dtype_eq _ _ Hs), (dtype_eq _ _ Hm), Hc.
  eexists. split; [reflexivity|]. split; [done|]. split; [|done].
  unfold quantization_kind. simpl. rewrite Hk. by apply (bool_decide_unpack _); vm_compute.
Qed.

Lemma all_registered : Forall (λ p, registered p.1 p.2) QUANTIZATION.
Proof.
  unfold QUANTIZATION.
  repeat (apply Forall_cons; split; [cbn [fst snd]|]); try apply Forall_nil; try done;
  try (eapply group_registered; [reflexivity..|]; eexists; split; [reflexivity|]; split; [done|];
       packs_solve);
  registered_solve; try done.
  all: cbn [awq_quantize_dtype awq_storage_dtype awq_model_dtype ft_quantize_dtype ft_storage_dtype
       awq_group_size awq_num_elem_per_storage awq_num_storage_per_group awq_max_int_value
       ft_num_elem_per_storage];
  unfold fallback_group_quantize; cbn [ft_quantize_dtype ft_model_dtype];
  repeat match goal with
  | |- context [DataType_of ?n] => rewrite (dtype_eq n _ eq_refl)
  end.
  - packs_solve.
  - split; [done|]. eexists; split; [reflexivity|packs_solve].
  - split; [done|]. eexists; split; [reflexivity|packs_solve].
Qed.

(** Every entry of [QUANTIZATION] is accepted by its [__post_init__], is named by
    its key, has a kind for which models have quantization functions, and packs
    whole numbers of elements into its storage units; the fallback of the
    FasterTransformer entries is accepted too. *)
Theorem quantization_registry name r :
  (name, r) ∈ QUANTIZATION → registered name r.
Proof. intros H. pose proof all_registered as HF. rewrite Forall_forall in HF. exact (HF _ H). Qed.
End registry.

(** ** Witness *)

Definition known_DataType (n : string) : DataType :=
  default {| code := OTHER_CODE; bits := 0 |} (dict_get n dtype_names).

Lemma quantization_registry_witness :
  registered known_DataType "q4f16_1"
    (group_quant known_DataType "q4f16_1" 32 "int4" "uint32" "float16" NK true true).
Proof.
  apply (quantization_registry known_DataType (λ _, 448%Z)).
  - intros n t H. unfold dtype_names in H.
    repeat (apply elem_of_cons in H as [[= -> ->]|H]; [reflexivity|]). by apply not_elem_of_nil in H.
  - apply list_elem_of_In. simpl. tauto.
Defined.
