(* ===== verification/Flags.v ===== *)
(** Compiler flags and configuration overrides:
    [python/mlc_llm/interface/compiler_flags.py], the configuration classes of
    [support/config.py], and the just-in-time compilation of
    [interface/jit.py], which prints the flags for a child process that parses
    them again. *)

From Stdlib Require Import Lia ZArith.
From stdpp Require Import base gmap strings list pretty.
From S2P Require Import Prelude PyString.

(** ** Flag strings

    [from_str] of each flag class splits its source at semicolons, writes two
    dashes before each piece and leaves the rest to [argparse]. *)

Inductive flag_value := FInt (z : Z) | FBool (b : bool) | FStr (s : string).
#[export] Instance flag_value_eq_dec : EqDecision flag_value.
Proof. solve_decision. Defined.

(** [parser.add_argument(option, type=…)]; [convert] is [None] when the type
    function raises or the value is not among the choices. *)
Record argument := { opt_string : string; convert : string → option flag_value }.

(** How [argparse] classifies an argument that starts with two dashes: an
    option with or without an explicit value, a positional argument, or
    something it cannot use (an unknown option, an ambiguous prefix, a request
    for help). *)
Inductive classified :=
  | COption (a : argument) (explicit : option string)
  | CPositional
  | CUnusable.

Definition help_options : list string := ["-h"; "--help"].

Section argparse.
Context (args : list argument).

Definition find_option (o : string) : option argument :=
  snd <$> list_find (λ a, opt_string a = o) args.

(** The option strings an abbreviation stands for. *)
Definition candidates (prefix : string) : list string :=
  filter (λ o, startswith o prefix = true) (help_options ++ (opt_string <$> args)).

(** [ArgumentParser._parse_optional]. *)
Definition classify (arg : string) : classified :=
  let '(name, explicit) :=
    match cut "=" arg with Some (o, v) => (o, Some v) | None => (arg, None) end in
  match find_option arg, find_option name with
  | Some a, _ => COption a None
  | None, Some a => COption a explicit
  | None, None =>
      if bool_decide (name ∈ help_options) then CUnusable else
      match candidates name with
      | [] => if contains " " arg then CPositional else CUnusable
      | [o] => match find_option o with Some a => COption a explicit | None => CUnusable end
      | _ => CUnusable
      end
  end.

(** [ArgumentParser.error] of [support/argparse.py] and a request for help. *)
Definition parser_exit {A} : result A := raise SystemExit "".

(** [parse_args] without positional arguments: an option takes its explicit
    value, or the positional argument after it; the last value given counts. *)
Fixpoint parse_args (l : list string) (namespace : list (string * flag_value)) :
    result (list (string * flag_value)) :=
  match l with
  | [] => Ok namespace
  | arg :: rest =>
      match classify arg with
      | COption a (Some v) =>
          match convert a v with
          | Some x => parse_args rest ((opt_string a, x) :: namespace)
          | None => parser_exit
          end
      | COption a None =>
          match rest with
          | v :: rest =>
              match classify v, convert a v with
              | CPositional, Some x => parse_args rest ((opt_string a, x) :: namespace)
              | _, _ => parser_exit
              end
          | [] => parser_exit
          end
      | _ => parser_exit
      end
  end.

(** [parser.parse_args([f"--{i}" for i in source.split(";") if i])]. *)
Definition parse_source (source : string) : result (list (string * flag_value)) :=
  parse_args ((λ i, "--" +:+ i) <$> filter (λ i, i ≠ "") (py_split ";" source)) [].
End argparse.

(** [results.name]. *)
Definition result_of (namespace : list (string * flag_value)) (name : string) : option flag_value :=
  snd <$> (snd <$> list_find (λ p, p.1 = "--" +:+ name) namespace).
Definition result_bool (namespace : list (string * flag_value)) (name : string) (dflt : bool) : bool :=
  match result_of namespace name with Some (FBool b) => b | _ => dflt end.
Definition result_int (namespace : list (string * flag_value)) (name : string) : option Z :=
  match result_of namespace name with Some (FInt z) => Some z | _ => None end.

(** ** Optimization flags *)

Inductive IPCAllReduceStrategyType := NONE | ONESHOT | TWOSHOT | AUTO.
#[export] Instance IPCAllReduceStrategyType_eq_dec : EqDecision IPCAllReduceStrategyType.
Proof. solve_decision. Defined.

Definition strategy_name (s : IPCAllReduceStrategyType) : string :=
  match s with NONE => "NONE" | ONESHOT => "ONESHOT" | TWOSHOT => "TWOSHOT" | AUTO => "AUTO" end.
(** [IPCAllReduceStrategyType[name]], for the names [argparse] accepts. *)
Definition strategy_of_name (s : string) : option IPCAllReduceStrategyType :=
  snd <$> list_find (λ x, strategy_name x = s) [NONE; ONESHOT; TWOSHOT; AUTO].

Record OptimizationFlags := {
  flashinfer : bool;
  cublas_gemm : bool;
  faster_transformer : bool;
  cudagraph : bool;
  cutlass : bool;
  ipc_allreduce_strategy : IPCAllReduceStrategyType;
}.
#[export] Instance OptimizationFlags_eq_dec : EqDecision OptimizationFlags.
Proof. solve_decision. Defined.

Definition show_bit (b : bool) : string := if b then "1" else "0".

(** [OptimizationFlags.__repr__]. *)
Definition flags_repr (f : OptimizationFlags) : string :=
  "flashinfer=" +:+ show_bit (flashinfer f)
  +:+ ";cublas_gemm=" +:+ show_bit (cublas_gemm f)
  +:+ ";faster_transformer=" +:+ show_bit (faster_transformer f)
  +:+ ";cudagraph=" +:+ show_bit (cudagraph f)
  +:+ ";cutlass=" +:+ show_bit (cutlass f)
  +:+ ";ipc_allreduce_strategy=" +:+ strategy_name (ipc_allreduce_strategy f).

(** The presets, in the mutable table [OPT_FLAG_PRESET]. *)
Abbreviation preset_table := (gmap string OptimizationFlags).
Definition OPT_FLAG_PRESET : preset_table := list_to_map [
  ("O0", {| flashinfer := false; cublas_gemm := false; faster_transformer := false;
            cudagraph := false; cutlass := false; ipc_allreduce_strategy := NONE |});
  ("O1", {| flashinfer := false; cublas_gemm := true; faster_transformer := true;
            cudagraph := false; cutlass := true; ipc_allreduce_strategy := NONE |});
  ("O2", {| flashinfer := true; cublas_gemm := true; faster_transformer := false;
            cudagraph := true; cutlass := true; ipc_allreduce_strategy := NONE |});
  ("O3", {| flashinfer := true; cublas_gemm := true; faster_transformer := true;
            cudagraph := true; cutlass := true; ipc_allreduce_strategy := AUTO |})].

(** A flags object: one of the table, shared, or a fresh one. *)
Inductive flags_object := Shared (name : string) | Fresh (f : OptimizationFlags).
Definition deref (t : preset_table) (o : flags_object) : option OptimizationFlags :=
  match o with Shared n => t !! n | Fresh f => Some f end.

(** The type function [boolean]. *)
Definition boolean (value : string) : option flag_value :=
  if decide (value = "0") then Some (FBool false)
  else if decide (value = "1") then Some (FBool true)
  else None.

Definition flag_arguments : list argument := [
  {| opt_string := "--flashinfer"; convert := boolean |};
  {| opt_string := "--cublas_gemm"; convert := boolean |};
  {| opt_string := "--faster_transformer"; convert := boolean |};
  {| opt_string := "--cudagraph"; convert := boolean |};
  {| opt_string := "--cutlass"; convert := boolean |};
  {| opt_string := "--ipc_allreduce_strategy"; convert := λ v, (λ _, FStr v) <$> strategy_of_name v |}].

Definition result_strategy (namespace : list (string * flag_value)) : IPCAllReduceStrategyType :=
  match result_of namespace "ipc_allreduce_strategy" with
  | Some (FStr s) => default NONE (strategy_of_name s)
  | _ => NONE
  end.

(** [OptimizationFlags.from_str]: the preset object itself, or a new object. *)
Definition flags_from_str (t : preset_table) (source : string) : result flags_object :=
  match t !! source with
  | Some _ => Ok (Shared source)
  | None =>
      r ← parse_source flag_arguments source;
      Ok (Fresh {|
        flashinfer := result_bool r "flashinfer" true;
        cublas_gemm := result_bool r "cublas_gemm" false;
        faster_transformer := result_bool r "faster_transformer" false;
        cudagraph := result_bool r "cudagraph" false;
        cutlass := result_bool r "cutlass" false;
        ipc_allreduce_strategy := result_strategy r;
      |})
  end.

(** What [update] reads of the target: its kind and, for CUDA, the detected
    architectures. *)
Record target := { target_kind : string; arch_list : list Z }.

(** [OptimizationFlags.update], on a flags value. *)
Definition update_flags (f : OptimizationFlags) (t : target) (quantization : string) :
    OptimizationFlags :=
  let cuda := bool_decide (target_kind t = "cuda") in
  let new_flashinfer :=
    if negb (flashinfer f) then false
    else if negb cuda then false
    else if existsb (λ arch, (arch <? 80)%Z) (arch_list t) then false
    else true in
  let new_cublas_gemm :=
    if negb (bool_decide (target_kind t ∈ ["cuda"; "rocm"])) then false
    else if negb (bool_decide (quantization ∈ ["q0f16"; "q0bf16"; "q0f32"])
                  || contains "e4m3" quantization || contains "e5m2" quantization) then false
    else cublas_gemm f in
  {| flashinfer := new_flashinfer;
     cublas_gemm := new_cublas_gemm;
     faster_transformer := (if negb cuda then false else faster_transformer f);
     cudagraph := (if negb cuda then false else cudagraph f);
     cutlass := (if negb cuda then false else cutlass f);
     ipc_allreduce_strategy := ipc_allreduce_strategy f |}.

(** [self.opt.update(…)] of [CompileArgs.__post_init__]: on the object. *)
Definition update_object (p : preset_table) (o : flags_object) (t : target) (quantization : string) :
    preset_table * flags_object :=
  match o with
  | Shared n =>
      (match p !! n with
       | Some f => <[n := update_flags f t quantization]> p
       | None => p
       end, o)
  | Fresh f => (p, Fresh (update_flags f t quantization))
  end.

(** The flags of one compilation: parse the option, then build the compile
    arguments. *)
Definition compile_flags (p : preset_table) (opt : string) (t : target) (quantization : string) :
    preset_table * result (option OptimizationFlags) :=
  match flags_from_str p opt with
  | Ok o => let '(p', o') := update_object p o t quantization in (p', Ok (deref p' o'))
  | Err e => (p, Err e)
  end.

(** ** Configuration overrides *)

(** [ModelConfigOverride]. *)
Record ModelConfigOverride := {
  context_window_size : option Z;
  sliding_window_size : option Z;
  prefill_chunk_size : option Z;
  attention_sink_size : option Z;
  max_batch_size : option Z;
  tensor_parallel_shards : option Z;
  pipeline_parallel_stages : option Z;
  disaggregation : option bool;
}.
#[export] Instance ModelConfigOverride_eq_dec : EqDecision ModelConfigOverride.
Proof. solve_decision. Defined.

Definition int_argument (name : string) : argument :=
  {| opt_string := "--" +:+ name; convert := λ v, FInt <$> py_int v |}.

(** [lambda x: str(x).lower() in [...]]. *)
Definition truthy (v : string) : bool := bool_decide (lower v ∈ ["true"; "1"; "yes"; "True"]).

Definition disaggregation_argument : argument :=
  {| opt_string := "--disaggregation"; convert := λ v, Some (FBool (truthy v)) |}.

Definition override_arguments : list argument :=
  (int_argument <$> ["context_window_size"; "sliding_window_size"; "prefill_chunk_size";
                     "attention_sink_size"; "max_batch_size"; "tensor_parallel_shards";
                     "pipeline_parallel_stages"])
  ++ [disaggregation_argument].

(** [ModelConfigOverride.from_str]. *)
Definition overrides_from_str (source : string) : result ModelConfigOverride :=
  r ← parse_source override_arguments source;
  Ok {| context_window_size := result_int r "context_window_size";
        sliding_window_size := result_int r "sliding_window_size";
        prefill_chunk_size := result_int r "prefill_chunk_size";
        attention_sink_size := result_int r "attention_sink_size";
        max_batch_size := result_int r "max_batch_size";
        tensor_parallel_shards := result_int r "tensor_parallel_shards";
        pipeline_parallel_stages := result_int r "pipeline_parallel_stages";
        disaggregation :=
          match result_of r "disaggregation" with Some (FBool b) => Some b | _ => None end |}.

(** [f"{value}"]. *)
Definition show_bool (b : bool) : string := if b then "True" else "False".
Definition show_value (v : flag_value) : string :=
  match v with FInt z => pretty z | FBool b => show_bool b | FStr s => s end.

(** The fields with their values. *)
Definition override_fields (o : ModelConfigOverride) : list (string * option flag_value) := [
  ("context_window_size", FInt <$> context_window_size o);
  ("sliding_window_size", FInt <$> sliding_window_size o);
  ("prefill_chunk_size", FInt <$> prefill_chunk_size o);
  ("attention_sink_size", FInt <$> attention_sink_size o);
  ("max_batch_size", FInt <$> max_batch_size o);
  ("tensor_parallel_shards", FInt <$> tensor_parallel_shards o);
  ("pipeline_parallel_stages", FInt <$> pipeline_parallel_stages o);
  ("disaggregation", FBool <$> disaggregation o)].

(** [ModelConfigOverride.__repr__]: a missing value is printed as [None]. *)
Definition overrides_repr (o : ModelConfigOverride) : string :=
  py_join ";" ((λ p, p.1 +:+ "=" +:+ match p.2 with Some v => show_value v | None => "None" end)
               <$> override_fields o).

(** ** Just-in-time compilation *)

(** [dataclasses.fields(ModelConfigOverride)]. *)
Definition override_names : list string :=
  ["context_window_size"; "sliding_window_size"; "prefill_chunk_size"; "attention_sink_size";
   "max_batch_size"; "tensor_parallel_shards"; "pipeline_parallel_stages"; "disaggregation"].
Definition forbid_list : list string :=
  ["context_window_size"; "sliding_window_size"; "attention_sink_size"].

(** The overrides of an engine: the keys present with a value that is not
    [None]. *)
Abbreviation overrides := (gmap string flag_value).

(** [_get_overrides]. *)
Definition override_piece (ov : overrides) (name : string) : option string :=
  match ov !! name with
  | Some v =>
      if bool_decide (name ∈ forbid_list) && bool_decide (v = FInt (-1)) then None
      else Some (name +:+ "=" +:+ show_value v)
  | None => None
  end.
Definition _get_overrides (ov : overrides) : string :=
  py_join ";" (omap (override_piece ov) override_names).

(** [_get_optimization_flags]: pops the option from the caller's dictionary. *)
Definition _get_optimization_flags (p : preset_table) (ov : overrides) :
    result (overrides * string) :=
  opt ← match ov !! "opt" with
        | Some (FStr s) => Ok s
        | None => Ok "O2"
        | Some _ => raise AttributeError "object has no attribute 'split'"
        end;
  o ← flags_from_str p opt;
  Ok (delete "opt" ov, match deref p o with Some f => flags_repr f | None => "" end).

(** The command [_run_jit] runs. *)
Record command := { cmd_opt : string; cmd_overrides : string; cmd_output : string }.

Section jit.
(** The name of the library for the hash of the overrides and the flags, the
    files that exist, and whether a compilation leaves its output. *)
Context (library : string → string → string) (is_file : string → bool).
Context (produces : command → bool).

(** [_run_jit]: the commands run, and the library. *)
Definition _run_jit (opt ov dst : string) : list command * result string :=
  let c := {| cmd_opt := opt; cmd_overrides := ov; cmd_output := dst |} in
  ([c], if produces c then Ok dst
        else raise RuntimeError "Cannot find compilation output, compilation failed").

(** [jit], after the configuration has been read: the commands run, the
    caller's dictionary afterwards, and the library. *)
Definition jit (policy : string) (p : preset_table) (ov : overrides) :
    list command * overrides * result string :=
  if bool_decide (policy = "OFF")
  then ([], ov, raise RuntimeError "JIT is disabled by MLC_JIT_POLICY=OFF")
  else
  let overrides_str := _get_overrides ov in
  match _get_optimization_flags p ov with
  | Err e => ([], (if bool_decide (is_Some (ov !! "opt")) then delete "opt" ov else ov), Err e)
  | Ok (ov', opt) =>
      let dst := library overrides_str opt in
      if is_file dst && bool_decide (policy ∈ ["ON"; "READONLY"]) then ([], ov', Ok dst)
      else if bool_decide (policy = "READONLY")
      then ([], ov', raise RuntimeError
              "No cached model lib found, and JIT is disabled by MLC_JIT_POLICY=READONLY")
      else let '(cmds, r) := _run_jit opt overrides_str dst in (cmds, ov', r)
  end.
End jit.

(** ** Parsing what was printed *)

Lemma find_option_Some args o a : find_option args o = Some a → a ∈ args ∧ opt_string a = o.
Proof.
  unfold find_option. destruct (list_find _ args) as [[i x]|] eqn:E; [|done].
  intros [= ->]. apply list_find_Some in E as (Hi & Hx & _).
  split; [by eapply list_elem_of_lookup_2|done].
Qed.

(** An option with an explicit value. *)
Lemma classify_explicit args name a v :
  Forall (λ a, ¬ occurs "=" (opt_string a)) args →
  find_option args ("--" +:+ name) = Some a →
  classify args (("--" +:+ name) +:+ "=" +:+ v) = COption a (Some v).
Proof.
  intros Hargs Ha. destruct (find_option_Some _ _ _ Ha) as [Hin Hname].
  rewrite Forall_forall in Hargs. pose proof (Hargs a Hin) as Hno. rewrite Hname in Hno.
  unfold classify. rewrite cut_app; [|apply starts_uniquely_char|done].
  destruct (find_option args (("--" +:+ name) +:+ "=" +:+ v)) as [b|] eqn:Eb.
  - exfalso. apply find_option_Some in Eb as [Hb Hb2]. apply (Hargs b Hb).
    rewrite Hb2. by exists ("--" +:+ name), v.
  - by rewrite Ha.
Qed.

(** A piece of a printed flag string: the name, the printed value, the parsed
    value. *)
Definition piece : Type := string * string * flag_value.
Definition piece_str (x : piece) : string := x.1.1 +:+ "=" +:+ x.1.2.
Definition piece_entry (x : piece) : string * flag_value := ("--" +:+ x.1.1, x.2).

Definition piece_ok (args : list argument) (x : piece) : Prop :=
  ¬ occurs ";" (piece_str x) ∧
  ∃ a, find_option args ("--" +:+ x.1.1) = Some a ∧ convert a x.1.2 = Some x.2.

Lemma parse_args_pieces args l namespace :
  Forall (λ a, ¬ occurs "=" (opt_string a)) args → Forall (piece_ok args) l →
  parse_args args ((λ i, "--" +:+ i) <$> (piece_str <$> l)) namespace
    = Ok (rev (piece_entry <$> l) ++ namespace).
Proof.
  intros Hargs Hl. revert namespace. induction Hl as [|x l [_ (a & Ha & Hc)] Hl IH]; intros ns; [done|].
  cbn [fmap list_fmap parse_args].
  change ("--" +:+ piece_str x) with (("--" +:+ x.1.1) +:+ "=" +:+ x.1.2).
  rewrite (classify_explicit args x.1.1 a x.1.2) by done. rewrite Hc, IH. cbn [rev].
  rewrite <-app_assoc. simpl. unfold piece_entry.
  by destruct (find_option_Some _ _ _ Ha) as [_ ->].
Qed.

Lemma filter_pieces (l : list piece) : filter (λ i, i ≠ "") (piece_str <$> l) = piece_str <$> l.
Proof.
  induction l as [|[[n v] x] l IH]; [done|]. rewrite fmap_cons, filter_cons, IH.
  by destruct n.
Qed.

Lemma parse_source_pieces args l :
  Forall (λ a, ¬ occurs "=" (opt_string a)) args → Forall (piece_ok args) l →
  parse_source args (py_join ";" (piece_str <$> l)) = Ok (rev (piece_entry <$> l)).
Proof.
  intros Hargs Hl. unfold parse_source. destruct l as [|x l]; [done|].
  rewrite split_join; [|apply starts_uniquely_char| |done].
  - rewrite filter_pieces, parse_args_pieces by done. by rewrite app_nil_r.
  - apply Forall_fmap. eapply Forall_impl; [exact Hl|]. by intros y [Hy _].
Qed.

(** The options of both classes have no equals sign. *)
Lemma no_equals (l : list string) :
  forallb (λ o, negb (contains "=" o)) l = true → Forall (λ o, ¬ occurs "=" o) l.
Proof.
  rewrite forallb_forall. intros H. apply Forall_forall. intros o Ho.
  apply contains_false. apply negb_true_iff. apply H. by apply list_elem_of_In.
Qed.

Lemma override_arguments_plain : Forall (λ a, ¬ occurs "=" (opt_string a)) override_arguments.
Proof.
  apply (Forall_fmap opt_string (λ o, ¬ occurs "=" o)).
  apply no_equals. by vm_compute.
Qed.

(** ** Optimization flags *)

Lemma flags_repr_parsed f : flags_from_str OPT_FLAG_PRESET (flags_repr f) = Ok (Fresh f).
Proof. by destruct f as [[] [] [] [] [] []]; vm_compute. Qed.

(** The flags printed for the child process are parsed back as they were:
    [from_str(repr(f)) == f], and the result is a new object, not a preset. *)
Theorem flags_roundtrip f :
  flags_from_str OPT_FLAG_PRESET (flags_repr f) = Ok (Fresh f).
Proof. apply flags_repr_parsed. Qed.

Lemma flags_from_str_deref p s o : flags_from_str p s = Ok o → ∃ f, deref p o = Some f.
Proof.
  unfold flags_from_str. destruct (p !! s) as [f|] eqn:E; intros H; ok_inv; simpl; eauto.
Qed.

(** [f] has no flag that [g] has not. *)
Definition below (f g : OptimizationFlags) : Prop :=
  (flashinfer f = true → flashinfer g = true) ∧
  (cublas_gemm f = true → cublas_gemm g = true) ∧
  (faster_transformer f = true → faster_transformer g = true) ∧
  (cudagraph f = true → cudagraph g = true) ∧
  (cutlass f = true → cutlass g = true) ∧
  ipc_allreduce_strategy f = ipc_allreduce_strategy g.

Lemma update_flags_below f t q : below (update_flags f t q) f.
Proof.
  unfold update_flags, below. destruct f as [a b c d e s]; simpl.
  split_and!; try done; repeat case_match; try done; by destruct a, b.
Qed.

Lemma update_flags_idempotent f t q : update_flags (update_flags f t q) t q = update_flags f t q.
Proof.
  unfold update_flags. destruct f as [a b c d e s]; simpl. f_equal; repeat case_match; done.
Qed.

Lemma compile_flags_shared p n f t q :
  p !! n = Some f →
  compile_flags p n t q = (<[n := update_flags f t q]> p, Ok (Some (update_flags f t q))).
Proof.
  intros Hn. unfold compile_flags, flags_from_str. rewrite Hn. unfold update_object. rewrite Hn.
  cbn [deref]. by rewrite lookup_insert_eq.
Qed.

(** The options of a second compilation with the same preset, in the same
    process, are what the first target has left of them: [from_str] hands out
    the preset object, and [update] writes to it. A preset compiled twice for
    one target gives the same flags both times. *)
Theorem preset_shared p n f t1 q1 t2 q2 :
  p !! n = Some f →
  let '(p1, r1) := compile_flags p n t1 q1 in
  let '(p2, r2) := compile_flags p1 n t2 q2 in
  r1 = Ok (Some (update_flags f t1 q1)) ∧
  r2 = Ok (Some (update_flags (update_flags f t1 q1) t2 q2)) ∧
  below (update_flags (update_flags f t1 q1) t2 q2) (update_flags f t1 q1) ∧
  (t1 = t2 → q1 = q2 → r2 = r1).
Proof.
  intros Hn. rewrite (compile_flags_shared _ _ f) by done.
  rewrite (compile_flags_shared _ _ (update_flags f t1 q1)) by apply lookup_insert_eq.
  split_and!; [done..|apply update_flags_below|]. intros <- <-. by rewrite update_flags_idempotent.
Qed.

(** ** Overrides *)

(** The value [_get_overrides] writes for a field. *)
Definition override_value (ov : overrides) (name : string) : option flag_value :=
  match ov !! name with
  | Some v => if bool_decide (name ∈ forbid_list) && bool_decide (v = FInt (-1)) then None else Some v
  | None => None
  end.

(** The values have the types of the fields. *)
Definition typed (ov : overrides) : Prop :=
  ∀ name v, name ∈ override_names → ov !! name = Some v →
    if decide (name = "disaggregation") then ∃ b, v = FBool b else ∃ z, v = FInt z.

Definition override_pieces (ov : overrides) : list piece :=
  omap (λ name, (λ v, (name, show_value v, v)) <$> override_value ov name) override_names.

Lemma get_overrides_pieces ov : _get_overrides ov = py_join ";" (piece_str <$> override_pieces ov).
Proof.
  unfold _get_overrides, override_pieces. f_equal. rewrite list_fmap_omap.
  apply list_omap_ext. apply Forall_Forall2_diag, Forall_forall. intros name _.
  unfold override_piece, override_value. destruct (ov !! name); [|done]. by case_match.
Qed.

Lemma show_value_no_semicolon ov name v :
  typed ov → name ∈ override_names → ov !! name = Some v → ¬ occurs ";" (show_value v).
Proof.
  intros Ht Hn Hv. specialize (Ht name v Hn Hv). case_decide.
  - destruct Ht as [[] ->]; by apply contains_false.
  - destruct Ht as [z ->]. eapply (all_chars_occurs int_char); [done|apply pretty_Z_chars].
Qed.

Lemma override_value_Some ov name v : override_value ov name = Some v → ov !! name = Some v.
Proof. unfold override_value. destruct (ov !! name); [|done]. by case_match. Qed.

(** The option of each field, and what it makes of a printed value. *)
Lemma override_option name v :
  name ∈ override_names →
  (if decide (name = "disaggregation") then ∃ b, v = FBool b else ∃ z, v = FInt z) →
  ∃ a, find_option override_arguments ("--" +:+ name) = Some a ∧ convert a (show_value v) = Some v.
Proof.
  intros Hn Hv. unfold override_names in Hn.
  repeat (apply elem_of_cons in Hn as [->|Hn];
    [simpl in Hv; destruct Hv as [x ->];
     (eexists (int_argument _); split; [reflexivity|cbn [convert int_argument show_value]; by rewrite py_int_pretty])
     || (exists disaggregation_argument; split; [reflexivity|by destruct x])|]).
  by apply not_elem_of_nil in Hn.
Qed.

Lemma override_names_plain name : name ∈ override_names → contains ";" name = false.
Proof.
  intros Hn. unfold override_names in Hn.
  repeat (apply elem_of_cons in Hn as [->|Hn]; [done|]). by apply not_elem_of_nil in Hn.
Qed.

Lemma override_piece_ok ov :
  typed ov → Forall (piece_ok override_arguments) (override_pieces ov).
Proof.
  intros Ht. apply Forall_forall. intros x Hx. unfold override_pieces in Hx.
  apply list_elem_of_omap in Hx as (name & Hn & Hx). apply fmap_Some in Hx as (v & Hv & ->).
  apply override_value_Some in Hv. split.
  - unfold piece_str. cbn [fst snd]. rewrite !occurs_char_app. intros [H|[H|H]].
    + revert H. apply contains_false. by apply override_names_plain.
    + revert H. by apply contains_false.
    + revert H. by apply (show_value_no_semicolon ov name).
  - apply override_option; [done|]. by apply Ht.
Qed.

Lemma result_of_spec namespace name g :
  (∀ v, ("--" +:+ name, v) ∈ namespace ↔ g = Some v) → result_of namespace name = g.
Proof.
  intros H. unfold result_of. destruct (list_find _ namespace) as [[i [k v]]|] eqn:E; simpl.
  - apply list_find_Some in E as (Hi & Hk & _). simpl in Hk. subst k. symmetry. apply H.
    by eapply list_elem_of_lookup_2.
  - apply list_find_None in E. destruct g as [v|]; [|done]. exfalso.
    rewrite Forall_forall in E. apply (E ("--" +:+ name, v)); [|done]. by apply H.
Qed.

(** The results the child process reads are the values that were printed. *)
Lemma result_of_pieces ov name :
  name ∈ override_names →
  result_of (rev (piece_entry <$> override_pieces ov)) name = override_value ov name.
Proof.
  intros Hn. apply result_of_spec. intros v.
  rewrite list_elem_of_In, <-in_rev, <-list_elem_of_In, list_elem_of_fmap. split.
  - intros (x & Hx & Hin). apply list_elem_of_omap in Hin as (n & _ & Hin).
    apply fmap_Some in Hin as (w & Hw & ->). injection Hx as -> ->. done.
  - intros Hv. exists (name, show_value v, v). split; [done|].
    apply list_elem_of_omap. exists name. split; [done|]. by rewrite Hv.
Qed.

(** The flags of the child process that compiles a model: the overrides it
    parses are the caller's, without the window sizes that are [-1]. *)
Definition parsed (ov : overrides) : ModelConfigOverride :=
  let int name := match override_value ov name with Some (FInt z) => Some z | _ => None end in
  {| context_window_size := int "context_window_size";
     sliding_window_size := int "sliding_window_size";
     prefill_chunk_size := int "prefill_chunk_size";
     attention_sink_size := int "attention_sink_size";
     max_batch_size := int "max_batch_size";
     tensor_parallel_shards := int "tensor_parallel_shards";
     pipeline_parallel_stages := int "pipeline_parallel_stages";
     disaggregation := match override_value ov "disaggregation" with Some (FBool b) => Some b | _ => None end |}.

Lemma overrides_parsed ov :
  typed ov → overrides_from_str (_get_overrides ov) = Ok (parsed ov).
Proof.
  intros Ht. unfold overrides_from_str. rewrite get_overrides_pieces.
  rewrite parse_source_pieces; [|apply override_arguments_plain|by apply override_piece_ok].
  cbn [mbind result_bind]. unfold result_int, parsed.
  by rewrite !result_of_pieces by (apply (bool_decide_unpack _); by vm_compute).
Qed.

Lemma parsed_field ov name :
  typed ov → name ∈ override_names → (name, override_value ov name) ∈ override_fields (parsed ov).
Proof.
  intros Ht Hn. pose proof (Ht name) as Hty.
  assert (∀ v, override_value ov name = Some v →
    if decide (name = "disaggregation") then ∃ b, v = FBool b else ∃ z, v = FInt z) as Hval.
  { intros v Hv. apply Hty; [done|]. by apply override_value_Some. }
  unfold override_names in Hn. unfold parsed, override_fields. cbn.
  repeat (apply elem_of_cons in Hn as [->|Hn];
    [destruct (override_value ov _) as [v|] eqn:E; [destruct (Hval v eq_refl) as [x ->]|];
     simpl; rewrite ?E; set_solver|]).
  by apply not_elem_of_nil in Hn.
Qed.

Lemma get_optimization_flags_Ok p ov ov' s :
  _get_optimization_flags p ov = Ok (ov', s) →
  ov' = delete "opt" ov ∧
  ∃ opt o f, (ov !! "opt" = Some (FStr opt) ∨ ov !! "opt" = None ∧ opt = "O2") ∧
    flags_from_str p opt = Ok o ∧ deref p o = Some f ∧ s = flags_repr f.
Proof.
  unfold _get_optimization_flags. intros H.
  destruct (ov !! "opt") as [[z|b|opt]|]; try done; cbn [mbind result_bind] in H; ok_inv;
    (split; [done|]);
    match goal with Ho : flags_from_str p ?x = Ok ?o |- _ =>
      destruct (flags_from_str_deref p x o Ho) as [f Hf]; exists x, o, f; rewrite Hf; auto end.
Qed.

(** C38. What [jit] does: it never compiles when the policy is OFF or READONLY, it
    compiles at most once, and then runs a command whose flags the child parses
    as the flags of the caller's [opt] option and whose overrides it parses as
    the caller's, except for window sizes of -1. A library that exists is
    reused under ON and READONLY. *)
Theorem jit_spec library is_file produces policy p ov :
  typed ov →
  let '(cmds, ov', r) := jit library is_file produces policy p ov in
  length cmds ≤ 1 ∧
  (policy = "OFF" ∨ policy = "READONLY" → cmds = []) ∧
  (cmds = [] → ∀ dst, r = Ok dst → is_file dst = true ∧ (policy = "ON" ∨ policy = "READONLY")) ∧
  ∀ c, c ∈ cmds →
    (∃ opt o f, (ov !! "opt" = Some (FStr opt) ∨ ov !! "opt" = None ∧ opt = "O2") ∧
       flags_from_str p opt = Ok o ∧ deref p o = Some f ∧
       flags_from_str OPT_FLAG_PRESET (cmd_opt c) = Ok (Fresh f)) ∧
    overrides_from_str (cmd_overrides c) = Ok (parsed ov) ∧
    ov' = delete "opt" ov ∧
    (policy = "ON" → is_file (cmd_output c) = false) ∧
    (r = Ok (cmd_output c) ∧ produces c = true ∨ is_ok r = false ∧ produces c = false).
Proof.
  intros Ht. unfold jit. case_bool_decide as Hoff.
  { split_and!; simpl; [lia|done|done|]. intros c Hc. by apply not_elem_of_nil in Hc. }
  destruct (_get_optimization_flags p ov) as [[ov' opt]|e] eqn:Eopt.
  2:{ split_and!; simpl; [lia|done|done|]. intros c Hc. by apply not_elem_of_nil in Hc. }
  set (dst := library (_get_overrides ov) opt).
  destruct (is_file dst && bool_decide (policy ∈ ["ON"; "READONLY"])) eqn:Ecache;
    [|destruct (decide (policy = "READONLY")) as [Hro|Hro];
      [rewrite bool_decide_true by done|rewrite bool_decide_false by done]].
  - apply andb_true_iff in Ecache as [Hf Hp]. apply bool_decide_eq_true in Hp.
    split_and!; simpl; [lia|done| |].
    + intros _ d [= <-]. split; [done|]. set_solver.
    + intros c Hc. by apply not_elem_of_nil in Hc.
  - split_and!; simpl; [lia|done|done|]. intros c Hc. by apply not_elem_of_nil in Hc.
  - unfold _run_jit. split_and!; simpl; [lia|naive_solver|done|].
    intros c [->|Hc]%elem_of_cons; [|by apply not_elem_of_nil in Hc]. simpl.
    apply get_optimization_flags_Ok in Eopt as (-> & o' & o & f & Hopt & Ho & Hf & ->).
    split_and!.
    + exists o', o, f. by rewrite flags_repr_parsed.
    + by apply overrides_parsed.
    + done.
    + intros ->. by destruct (is_file dst).
    + destruct (produces _); auto.
Qed.

(** ** Witnesses *)

Definition cpu : target := {| target_kind := "llvm"; arch_list := [] |}.
Definition h100 : target := {| target_kind := "cuda"; arch_list := [90%Z] |}.

(** After a compilation for a CPU, the preset O2 has no flag left for a GPU. *)
Lemma preset_shared_witness :
  (compile_flags (compile_flags OPT_FLAG_PRESET "O2" cpu "q4f16_1").1 "O2" h100 "q0f16").2 =
    Ok (Some {| flashinfer := false; cublas_gemm := false; faster_transformer := false;
                cudagraph := false; cutlass := false; ipc_allreduce_strategy := NONE |}) ∧
  (compile_flags OPT_FLAG_PRESET "O2" h100 "q0f16").2 =
    Ok (Some {| flashinfer := true; cublas_gemm := true; faster_transformer := false;
                cudagraph := true; cutlass := true; ipc_allreduce_strategy := NONE |}).
Proof.
  split; [|reflexivity].
  pose proof (preset_shared OPT_FLAG_PRESET "O2"
    {| flashinfer := true; cublas_gemm := true; faster_transformer := false;
       cudagraph := true; cutlass := true; ipc_allreduce_strategy := NONE |}
    cpu "q4f16_1" h100 "q0f16" eq_refl) as H.
  destruct (compile_flags OPT_FLAG_PRESET "O2" cpu "q4f16_1") as [p1 r1]. cbn [fst].
  destruct (compile_flags p1 "O2" h100 "q0f16") as [p2 r2]. cbn [snd].
  destruct H as (_ & -> & _). reflexivity.
Defined.

Definition some_overrides : overrides :=
  list_to_map [("opt", FStr "O1"); ("context_window_size", FInt (-1)); ("prefill_chunk_size", FInt 2048);
               ("tensor_parallel_shards", FInt 2); ("disaggregation", FBool true)].

Lemma some_overrides_typed : typed some_overrides.
Proof.
  intros name v Hn Hv. unfold override_names in Hn.
  repeat (apply elem_of_cons in Hn as [->|Hn]; [vm_compute in Hv; simplify_eq; simpl; eauto|]).
  by apply not_elem_of_nil in Hn.
Qed.

Lemma jit_spec_witness :
  overrides_from_str "prefill_chunk_size=2048;tensor_parallel_shards=2;disaggregation=True" =
    Ok {| context_window_size := None; sliding_window_size := None;
          prefill_chunk_size := Some 2048%Z; attention_sink_size := None; max_batch_size := None;
          tensor_parallel_shards := Some 2%Z; pipeline_parallel_stages := None;
          disaggregation := Some true |}.
Proof.
  destruct (jit_spec (λ _ _, "lib.so") (λ _, false) (λ _, true) "ON" OPT_FLAG_PRESET some_overrides
    some_overrides_typed) as (_ & _ & _ & H).
  destruct (H {| cmd_opt := "flashinfer=0;cublas_gemm=1;faster_transformer=1;cudagraph=0;cutlass=1;ipc_allreduce_strategy=NONE";
                 cmd_overrides := "prefill_chunk_size=2048;tensor_parallel_shards=2;disaggregation=True";
                 cmd_output := "lib.so" |}) as (_ & Hov & _).
  - vm_compute. left.
  - exact Hov.
Defined.
