(* ===== verification/Config.v ===== *)
(** Configuration classes: [python/mlc_llm/support/config.py].

    A configuration class is a dataclass with a [kwargs] field for the keys of
    its source it does not declare. Classes are data here: their declared
    fields and their [__post_init__]. *)

From Stdlib Require Import Lia ZArith.
From stdpp Require Import base gmap strings list.
From S2P Require Import Prelude PyString PyObject Flags.

(** A subclass of [ConfigBase]: its fields other than [kwargs] with their
    defaults, the attributes of the class itself (names assigned in its body
    without an annotation), what its own [from_dict] does to the source, and its
    [__post_init__]. *)
Record config_class := {
  class_name : string;
  class_fields : list (string * option pyval);
  class_attrs : list (string * pyval);
  prepare : gmap string pyval → gmap string pyval;
  run_post_init : py unit;
}.

(** An instance: its attributes (those of the class included) and [kwargs]. *)
Record config := { config_class_of : config_class; values : gmap string pyval; kwargs : gmap string pyval }.

(** [dataclasses.fields(cls)]. *)
Definition fields_of (cls : config_class) : list string := (class_fields cls).*1.
Definition field_names (cls : config_class) : list string := fields_of cls ++ ["kwargs"].

(** The fields without a default. *)
Definition required (cls : config_class) : list string :=
  omap (λ p, match p.2 with None => Some p.1 | Some _ => None end) (class_fields cls).

(** The defaults. *)
Definition defaults (cls : config_class) : gmap string pyval :=
  list_to_map (omap (λ p, (λ v, (p.1, v)) <$> p.2) (class_fields cls)).

(** [__post_init__] on a new object with these fields. *)
Definition post_init (cls : config_class) (fields kw : gmap string pyval) :
    result (gmap string pyval * gmap string pyval) :=
  match run_post_init cls (mkObj (fields ∪ list_to_map (class_attrs cls)) kw) with
  | (o, Ok _) => Ok (attrs o, PyObject.kwargs o)
  | (_, Err e) => Err e
  end.

(** The constructor call [cls(fields, kwargs=kwargs)]. *)
Definition construct (cls : config_class) (fields kw : gmap string pyval) : result config :=
  _ ← raise_when (bool_decide (is_Some (fields !! "kwargs"))) TypeError
        "got multiple values for keyword argument 'kwargs'";
  _ ← raise_when (negb (forallb (λ k, bool_decide (is_Some (fields !! k))) (required cls))) TypeError
        "missing required positional arguments";
  '(vs, kw) ← (post_init cls (fields ∪ defaults cls) kw);
  Ok {| config_class_of := cls; values := vs; kwargs := kw |}.

(** [ConfigBase.from_dict], after the class's own preparation of the source. *)
Definition from_dict (cls : config_class) (source : gmap string pyval) : result config :=
  let source := prepare cls source in
  let fields := filter (λ p, p.1 ∈ field_names cls) source in
  let kw := filter (λ p, p.1 ∉ field_names cls) source in
  construct cls fields kw.

(** A configuration object as the value of an attribute of another one: a
    dictionary of its attributes and its [kwargs], marked with its class.
    [dataclasses.asdict] turns such objects into unmarked dictionaries,
    recursively. *)
Definition class_mark : string := "__class__".
Fixpoint plain (v : pyval) : pyval :=
  match v with
  | PList l => PList (plain <$> l)
  | PDict d =>
      let fix go (d : list (string * pyval)) :=
        match d with
        | [] => []
        | (k, x) :: d => if decide (k = class_mark) then go d else (k, plain x) :: go d
        end in
      PDict (go d)
  | _ => v
  end.

(** [ConfigBase.asdict]: the fields without [kwargs]. *)
Definition asdict (c : config) : gmap string pyval :=
  plain <$> filter (λ p, p.1 ∈ fields_of (config_class_of c)) (values c).

(** [ConfigOverrideBase.apply]: an override that is set replaces the value of a
    field the configuration has. *)
Definition apply_step (updated : gmap string pyval) (field : string * option pyval) : gmap string pyval :=
  match field.2 with
  | None => updated
  | Some v => match updated !! field.1 with Some _ => <[field.1 := v]> updated | None => updated end
  end.
Definition apply (overrides : list (string * option pyval)) (c : config) : result config :=
  from_dict (config_class_of c) (foldl apply_step (asdict c) overrides).

(** ** What the classes promise *)

(** An instance has a value for each field, no field is declared under the name
    [kwargs], and the class leaves sources that are its fields alone. *)
Definition wf_config (c : config) : Prop :=
  ("kwargs" ∉ fields_of (config_class_of c)) ∧
  (∀ k, k ∈ fields_of (config_class_of c) → is_Some (values c !! k)) ∧
  (∀ m, (∀ k, is_Some (m !! k) ↔ k ∈ fields_of (config_class_of c)) →
     prepare (config_class_of c) m = m).

(** The override of a field: the last one that is set. *)
Definition override_step (k : string) (acc : option pyval) (p : string * option pyval) : option pyval :=
  if decide (p.1 = k) then match p.2 with Some v => Some v | None => acc end else acc.
Definition override_of (overrides : list (string * option pyval)) (k : string) : option pyval :=
  foldl (override_step k) None overrides.

(** The fields of [c] with the overrides put in. *)
Definition overridden (overrides : list (string * option pyval)) (c : config) : gmap string pyval :=
  map_imap (λ k v, Some (default v (override_of overrides k))) (asdict c).

Lemma foldl_apply_lookup overrides vs k :
  foldl apply_step vs overrides !! k =
    v ← (vs !! k); Some (default v (override_of overrides k)).
Proof.
  induction overrides as [|[n ov] l IH] using rev_ind; [unfold override_of; simpl; destruct (vs !! k); reflexivity|].
  unfold override_of. rewrite !foldl_app. cbn [foldl]. fold (override_of l k).
  unfold apply_step at 1, override_step at 1. cbn [fst snd].
  destruct ov as [v|]; [|rewrite IH; by destruct (decide (n = k))].
  destruct (decide (n = k)) as [->|Hne].
  - rewrite IH. destruct (vs !! k) as [w|]; simpl; [by rewrite lookup_insert_eq|by rewrite IH].
  - destruct (foldl apply_step vs l !! n); [by rewrite lookup_insert_ne|done].
Qed.

Lemma foldl_apply overrides c :
  foldl apply_step (asdict c) overrides = overridden overrides c.
Proof.
  apply map_eq. intros k. unfold overridden, asdict.
  by rewrite foldl_apply_lookup, map_lookup_imap.
Qed.

Lemma asdict_dom c k :
  (∀ k, k ∈ fields_of (config_class_of c) → is_Some (values c !! k)) →
  is_Some (asdict c !! k) ↔ k ∈ fields_of (config_class_of c).
Proof.
  intros Hdom. unfold asdict. rewrite lookup_fmap, fmap_is_Some. split.
  - intros [v Hv]. by apply map_lookup_filter_Some in Hv as [_ ?].
  - intros Hk. destruct (Hdom k Hk) as [v Hv]. exists v. by apply map_lookup_filter_Some.
Qed.

Lemma overridden_dom overrides c :
  (∀ k, k ∈ fields_of (config_class_of c) → is_Some (values c !! k)) →
  ∀ k, is_Some (overridden overrides c !! k) ↔ k ∈ fields_of (config_class_of c).
Proof.
  intros Hdom k. rewrite <-asdict_dom by done. unfold overridden. rewrite map_lookup_imap.
  destruct (asdict c !! k); simpl; split; eauto.
Qed.

(** Reading back a dictionary that has a value for each field and nothing
    else. *)
Lemma from_dict_complete cls vs :
  "kwargs" ∉ fields_of cls → (∀ k, is_Some (vs !! k) ↔ k ∈ fields_of cls) → prepare cls vs = vs →
  from_dict cls vs =
    ('(vs', kw) ← post_init cls vs ∅; Ok {| config_class_of := cls; values := vs'; kwargs := kw |}).
Proof.
  intros Hkw Hdom Hprep. unfold from_dict, construct. rewrite Hprep.
  assert (filter (λ p, p.1 ∈ field_names cls) vs = vs) as ->.
  { apply map_filter_id. intros k v Hk. simpl. apply elem_of_app. left. apply Hdom. by eexists. }
  assert (filter (λ p, p.1 ∉ field_names cls) vs = ∅) as ->.
  { apply map_eq. intros k. rewrite lookup_empty. apply map_lookup_filter_None. right.
    intros v Hk H. apply H. apply elem_of_app. left. apply Hdom. by eexists. }
  rewrite bool_decide_false by (by rewrite Hdom). cbn [raise_when].
  assert (forallb (λ k, bool_decide (is_Some (vs !! k))) (required cls) = true) as ->.
  { apply forallb_forall. intros k Hk%list_elem_of_In. apply bool_decide_true, Hdom.
    unfold required in Hk. apply list_elem_of_omap in Hk as ([n d] & Hin & Hd).
    apply list_elem_of_fmap. exists (n, d). simpl in *. split; [by destruct d; simplify_eq|done]. }
  cbn [negb raise_when mbind result_bind].
  assert (vs ∪ defaults cls = vs) as ->; [|done].
  apply map_eq. intros k. rewrite lookup_union. destruct (vs !! k) as [v|] eqn:E.
  - by destruct (defaults cls !! k).
  - destruct (defaults cls !! k) as [d|] eqn:Ed; [|done]. exfalso.
    unfold defaults in Ed. apply elem_of_list_to_map_2 in Ed.
    apply list_elem_of_omap in Ed as ([n [e|]] & Hin & He); simplify_eq/=.
    assert (is_Some (vs !! k)) as [? ?]; [|congruence]. apply Hdom.
    apply list_elem_of_fmap. by exists (k, Some d).
Qed.

(** Applying overrides to a configuration builds a new configuration of its
    class from the fields with the set overrides put in: unset overrides and
    overrides of fields it does not have change nothing. The [kwargs] of the
    configuration are dropped. *)
Theorem apply_spec overrides c :
  wf_config c →
  apply overrides c =
    ('(vs, kw) ← post_init (config_class_of c) (overridden overrides c) ∅;
     Ok {| config_class_of := config_class_of c; values := vs; kwargs := kw |}).
Proof.
  intros (Hkw & Hdom & Hprep). unfold apply. rewrite foldl_apply.
  pose proof (overridden_dom overrides c Hdom) as Hov.
  apply from_dict_complete; auto.
Qed.

(** [from_dict] sorts the keys of its (prepared) source: declared ones become
    fields, the others [kwargs], before [__post_init__] runs. *)
Theorem from_dict_spec cls source c :
  from_dict cls source = Ok c →
  ("kwargs" ∉ dom (prepare cls source)) ∧ (∀ k, k ∈ required cls → k ∈ dom (prepare cls source)) ∧
  ∃ fields kw, post_init cls fields kw = Ok (values c, kwargs c) ∧ config_class_of c = cls ∧
    (∀ k v, prepare cls source !! k = Some v →
       (k ∈ fields_of cls → fields !! k = Some v ∧ kw !! k = None) ∧
       (k ∉ fields_of cls → kw !! k = Some v)) ∧
    (∀ k, prepare cls source !! k = None → fields !! k = defaults cls !! k ∧ kw !! k = None).
Proof.
  unfold from_dict, construct. generalize (prepare cls source) as src. intros src H. ok_inv.
  repeat match goal with H : raise_when _ _ _ = Ok _ |- _ => apply raise_when_Ok in H end.
  match goal with H : bool_decide _ = false |- _ => apply bool_decide_eq_false in H; rename H into Hkw end.
  match goal with H : negb _ = false |- _ => apply negb_false_iff in H; rewrite forallb_forall in H; rename H into Hreq end.
  destruct a1 as [vs kw']. ok_inv. simpl.
  assert ("kwargs" ∉ dom src) as Hno.
  { intros [v Hv]%elem_of_dom. apply Hkw. exists v. apply map_lookup_filter_Some. split; [done|].
    unfold field_names. simpl. set_solver. }
  split_and!; [done| |].
  - intros k Hk%list_elem_of_In%Hreq. apply bool_decide_eq_true in Hk as [v Hv].
    apply map_lookup_filter_Some in Hv as [Hv _]. by apply elem_of_dom_2 in Hv.
  - eexists _, _. split_and!; [done|done| |].
    + intros k v Hk. split; intros Hf.
      * split.
        -- apply lookup_union_Some_l, map_lookup_filter_Some. split; [done|]. simpl.
           unfold field_names. set_solver.
        -- apply map_lookup_filter_None. right. intros w _ Hw. apply Hw. simpl.
           unfold field_names. set_solver.
      * apply map_lookup_filter_Some. split; [done|]. simpl. unfold field_names.
        rewrite elem_of_app, list_elem_of_singleton. intros [?| ->]; [done|].
        apply Hno. by apply elem_of_dom_2 in Hk.
    + intros k Hk. split.
      * rewrite lookup_union.
        assert (filter (λ p : string * pyval, p.1 ∈ field_names cls) src !! k = None) as ->
          by (apply map_lookup_filter_None; by left).
        by destruct (defaults cls !! k).
      * apply map_lookup_filter_None. by left.
Qed.

(** The overrides of the compiler as values. *)
Definition flag_pyval (v : flag_value) : pyval :=
  match v with FInt z => PInt z | FBool b => PBool b | FStr s => PStr s end.
Definition override_values (o : ModelConfigOverride) : list (string * option pyval) :=
  (λ p : string * option flag_value, (p.1, flag_pyval <$> p.2)) <$> override_fields o.

(** ** Witnesses *)

(** A model configuration that takes its window from the source's
    [max_position_embeddings] when none is given. *)
Definition small_class : config_class := {|
  class_name := "SmallConfig";
  class_fields := [("hidden_size", None); ("context_window_size", Some (PInt 0));
                   ("prefill_chunk_size", Some (PInt 0))];
  class_attrs := []; prepare := λ m, m;
  run_post_init :=
    when (self "context_window_size" == int 0)%py
      (set_attr "context_window_size" (kwargs_pop "max_position_embeddings")) |}.

Definition small : config := {|
  config_class_of := small_class;
  values := list_to_map [("hidden_size", PInt 4096); ("context_window_size", PInt 2048);
                         ("prefill_chunk_size", PInt 0)];
  kwargs := list_to_map [("use_cache", PBool true)] |}.

Definition window_override : ModelConfigOverride := {|
  context_window_size := Some 8192%Z; sliding_window_size := Some 1024%Z;
  prefill_chunk_size := None; attention_sink_size := None; max_batch_size := None;
  tensor_parallel_shards := None; pipeline_parallel_stages := None; disaggregation := None |}.

Lemma small_wf : wf_config small.
Proof.
  split_and!.
  - apply (bool_decide_unpack _). by vm_compute.
  - intros k Hk. unfold fields_of in Hk. simpl in Hk.
    repeat (apply elem_of_cons in Hk as [->|Hk]; [by vm_compute; eauto|]).
    by apply not_elem_of_nil in Hk.
  - done.
Qed.

Lemma apply_spec_witness :
  apply (override_values window_override) small =
    Ok {| config_class_of := small_class;
          values := list_to_map [("hidden_size", PInt 4096); ("context_window_size", PInt 8192);
                                 ("prefill_chunk_size", PInt 0)];
          kwargs := ∅ |}.
Proof. rewrite (apply_spec (override_values window_override) small small_wf). reflexivity. Defined.

Lemma from_dict_spec_witness :
  ("kwargs" ∉ dom (list_to_map [("hidden_size", PInt 64); ("max_position_embeddings", PInt 512)] : gmap string pyval)).
Proof.
  refine (proj1 (from_dict_spec small_class
    (list_to_map [("hidden_size", PInt 64); ("max_position_embeddings", PInt 512)])
    {| config_class_of := small_class;
       values := list_to_map [("hidden_size", PInt 64); ("context_window_size", PInt 512);
                              ("prefill_chunk_size", PInt 0)];
       kwargs := ∅ |} _)).
  reflexivity.
Defined.
