(* ===== verification/ModelConfigs.v ===== *)
(** The configuration classes of the models: the dataclasses of
    [python/mlc_llm/model/*/*_model.py], each with its fields and its
    [__post_init__], and what an accepted configuration satisfies.

    Blocks that most classes repeat are shared definitions. Double quotes in
    messages are written as single quotes. Classes that hold another
    configuration are in [NestedConfigs]. *)

From Stdlib Require Import QArith Lia ZArith.
From stdpp Require Import base gmap strings list.
From S2P Require Import Prelude PyString PyObject Flags Config.
Close Scope Q_scope.

(** ** Repeated blocks *)

Definition no_window : string :=
  "Unable to determine the maximum sequence length, because none of `context_window_size`, `max_position_embeddings` or `max_sequence_length` is provided in `config.json`.".

(** [if name in self.kwargs: …; break], and the same without [break]. *)
Definition break_when (c : py bool) (s : py unit) : py flow :=
  b ← c; if b : bool then s ;; mret Break else mret Next.
Definition next_when (c : py bool) (s : py unit) : py flow :=
  b ← c; if b : bool then s ;; mret Next else mret Next.

(** The loop that takes the window from the first of several keys. *)
Definition window_from (names : list string) (orelse : py unit) : py unit :=
  for_break names
    (λ name, break_when (in_kwargs name) (set_attr "context_window_size" (kwargs_pop name))) orelse.

(** The prefill chunk defaults to the window, up to a limit, and does not exceed
    the window. *)
Definition clamp_prefill (limit : Z) : py unit := (
  ifte (self "prefill_chunk_size" == int 0)
    (set_attr "prefill_chunk_size" (py_min (self "context_window_size") (int limit)))
    (when (self "prefill_chunk_size" > self "context_window_size")
       (set_attr "prefill_chunk_size" (py_min (self "context_window_size") (int limit)))))%py.

(** The base of the rotary embedding. *)
Definition rope_base : py unit := (
  when (self "position_embedding_base" == int 0)
    (ifte (in_kwargs "rope_theta")
       (set_attr "position_embedding_base" (kwargs_pop "rope_theta"))
       (set_attr "position_embedding_base" (int 10000))))%py.

(** An assertion whose message looks something up when it is built. *)
Definition py_check_eval (c : py bool) (looked_up : py pyval) (msg : string) : py unit :=
  b ← c; if b : bool then skip else looked_up ;; py_raise AssertionError msg.

(** The minimum of the candidates and the limit: [min] of a single integer raises. *)
Definition min_star (candidates : list pyval) (limit : Z) : py pyval :=
  match candidates with
  | [] => st_lift (raise TypeError "'int' object is not iterable")
  | c :: cs => st_lift (fold_m py_min2 c (cs ++ [PInt limit]))
  end.

(** The candidates of the classes with a sliding window. *)
Definition prefill_candidates : py (list pyval) := (
  sliding ← self "sliding_window_size" != int (-1);
  sliding_value ← self "sliding_window_size";
  context ← self "context_window_size" != int (-1);
  context_value ← self "context_window_size";
  mret ((if sliding : bool then [sliding_value] else []) ++
        (if context : bool then [context_value] else [])))%py.
Definition sliding_prefill : py unit := (
  when (self "prefill_chunk_size" == int 0)
    (candidates ← prefill_candidates;
     set_attr "prefill_chunk_size" (min_star candidates 8192)))%py.

(** ** The classes *)

(** [model/baichuan/baichuan_model.py]. *)
Definition BaichuanConfig_post_init : py unit := (
  when (self "context_window_size" == int 0)
    (window_from ["max_position_embeddings"; "max_sequence_length"] (py_raise ValueError no_window)) ;;
  when (self "head_dim" == int 0)
    (set_attr "head_dim" ((self "hidden_size") `floordiv` (self "num_attention_heads"))) ;;
  py_check ((self "head_dim") * (self "num_attention_heads") == self "hidden_size") "" ;;
  clamp_prefill 8192)%py.

Definition BaichuanConfig : config_class := {|
  class_name := "BaichuanConfig";
  class_fields := [
    ("vocab_size", None); ("hidden_size", None); ("num_hidden_layers", None);
    ("num_attention_heads", None); ("initializer_range", None); ("intermediate_size", None);
    ("rms_norm_eps", None); ("use_cache", None); ("pad_token_id", None); ("bos_token_id", None);
    ("eos_token_id", None); ("tie_word_embeddings", None); ("context_window_size", Some (PInt 0));
    ("prefill_chunk_size", Some (PInt 0)); ("tensor_parallel_shards", Some (PInt 1));
    ("max_batch_size", Some (PInt 1)); ("head_dim", Some (PInt 0))];
  class_attrs := [];
  prepare := λ m, m;
  run_post_init := BaichuanConfig_post_init;
|}.

(** [model/bert/bert_model.py]. *)
Definition BertConfig_post_init : py unit := (
  when (py_or (is_none (self "intermediate_size")) (self "intermediate_size" == int (-1)))
    (set_attr "intermediate_size" ((int 4) * (self "hidden_size"))) ;;
  when (self "context_window_size" == int 0)
    (window_from ["max_position_embeddings"; "max_sequence_length"] (py_raise ValueError no_window)) ;;
  when (self "head_dim" == int 0)
    (set_attr "head_dim" ((self "hidden_size") `floordiv` (self "num_attention_heads"))) ;;
  py_check ((self "head_dim") * (self "num_attention_heads") == self "hidden_size") "" ;;
  ifte (self "prefill_chunk_size" == int 0)
    (set_attr "prefill_chunk_size" (self "context_window_size"))
    (when (self "prefill_chunk_size" > self "context_window_size")
       (set_attr "prefill_chunk_size" (self "context_window_size"))))%py.

Definition BertConfig : config_class := {|
  class_name := "BertConfig";
  class_fields := [
    ("vocab_size", None); ("hidden_size", None); ("num_hidden_layers", None);
    ("num_attention_heads", None); ("intermediate_size", None); ("hidden_act", None);
    ("layer_norm_eps", None); ("context_window_size", Some (PInt 0));
    ("prefill_chunk_size", Some (PInt 0)); ("tensor_parallel_shards", Some (PInt 1));
    ("type_vocab_size", Some (PInt 2)); ("pad_token_id", Some (PInt 0));
    ("position_offset", Some (PInt 0)); ("head_dim", Some (PInt 0));
    ("max_batch_size", Some (PInt 1))];
  class_attrs := [];
  prepare := λ m, m;
  run_post_init := BertConfig_post_init;
|}.

(** [model/chatglm3/chatglm3_model.py]. *)
Definition GLMConfig_post_init : py unit := (
  when (self "vocab_size" == int 0)
    (for_break ["padded_vocab_size"] (λ name,
       next_when (in_kwargs name) (set_attr "vocab_size" (kwargs_pop name))) skip) ;;
  when (self "context_window_size" == int 0)
    (window_from ["max_position_embeddings"; "seq_length"] (py_raise ValueError no_window)) ;;
  when (self "head_dim" == int 0)
    (set_attr "head_dim" ((self "hidden_size") `floordiv` (self "num_attention_heads"))) ;;
  py_check ((self "head_dim") * (self "num_attention_heads") == self "hidden_size") "" ;;
  clamp_prefill 8192)%py.

Definition GLMConfig : config_class := {|
  class_name := "GLMConfig";
  class_fields := [
    ("hidden_size", None); ("num_layers", None); ("kv_channels", None);
    ("num_attention_heads", None); ("ffn_hidden_size", None); ("layernorm_epsilon", None);
    ("post_layer_norm", None); ("rmsnorm", None); ("add_bias_linear", None);
    ("add_qkv_bias", None); ("apply_query_key_layer_scaling", None);
    ("multi_query_attention", None); ("multi_query_group_num", None);
    ("vocab_size", Some (PInt 0)); ("context_window_size", Some (PInt 0));
    ("prefill_chunk_size", Some (PInt 0)); ("tensor_parallel_shards", Some (PInt 1));
    ("head_dim", Some (PInt 0)); ("max_batch_size", Some (PInt 1))];
  class_attrs := [];
  prepare := λ m, m;
  run_post_init := GLMConfig_post_init;
|}.

(** [model/cohere/cohere_model.py]. *)
Definition CohereConfig_post_init : py unit := (
  when (self "position_embedding_base" == int 0)
    (ifte (in_kwargs "rope_theta")
       (set_attr "position_embedding_base" (kwargs_item "rope_theta"))
       (set_attr "position_embedding_base" (int 10000)) ;;
     when (self "context_window_size" == int 0)
       (window_from ["max_position_embeddings"; "max_sequence_length"] skip) ;;
     clamp_prefill 8192 ;;
     when (py_or (self "num_key_value_heads" == int 0) (is_none (self "num_key_value_heads")))
       (set_attr "num_key_value_heads" (self "num_attention_heads")) ;;
     when (self "head_dim" == int 0)
       (set_attr "head_dim" ((self "hidden_size") `floordiv` (self "num_attention_heads"))) ;;
     py_check ((self "head_dim") * (self "num_attention_heads") == self "hidden_size")
        "head_dim * num_attention_heads != hidden_size" ;;
     py_check ((self "num_attention_heads") `mod` (self "num_key_value_heads") == int 0)
        "num_attention_heads % num_key_value_heads != 0"))%py.

Definition CohereConfig : config_class := {|
  class_name := "CohereConfig";
  class_fields := [
    ("model_type", None); ("hidden_size", None); ("vocab_size", None);
    ("num_hidden_layers", None); ("num_attention_heads", None); ("num_key_value_heads", None);
    ("intermediate_size", None); ("layer_norm_eps", None);
    ("position_embedding_base", Some (PInt 0)); ("context_window_size", Some (PInt 0));
    ("prefill_chunk_size", Some (PInt 0)); ("head_dim", Some (PInt 0));
    ("tensor_parallel_shards", Some (PInt 1)); ("max_batch_size", Some (PInt 1))];
  class_attrs := [];
  prepare := λ m, m;
  run_post_init := CohereConfig_post_init;
|}.

(** [model/deepseek/deepseek_model.py]. *)
Definition DeepseekConfig_post_init : py unit := (
  when (self "context_window_size" == int 0)
    (window_from ["max_position_embeddings"; "max_sequence_length"] (py_raise ValueError no_window)) ;;
  when (self "head_dim" == int 0)
    (set_attr "head_dim" ((self "hidden_size") `floordiv` (self "num_attention_heads"))) ;;
  py_check ((self "head_dim") * (self "num_attention_heads") == self "hidden_size") "" ;;
  clamp_prefill 8192)%py.

Definition DeepseekConfig : config_class := {|
  class_name := "DeepseekConfig";
  class_fields := [
    ("vocab_size", None); ("hidden_size", None); ("intermediate_size", None);
    ("moe_intermediate_size", None); ("num_hidden_layers", None); ("num_attention_heads", None);
    ("num_key_value_heads", None); ("n_shared_experts", None); ("n_routed_experts", None);
    ("moe_layer_freq", None); ("first_k_dense_replace", None); ("hidden_act", None);
    ("norm_topk_prob", None); ("attention_bias", None); ("rms_norm_eps", None);
    ("use_cache", None); ("bos_token_id", None); ("eos_token_id", None);
    ("tie_word_embeddings", Some (PBool false)); ("rope_theta", Some (PInt 10000));
    ("context_window_size", Some (PInt 0)); ("prefill_chunk_size", Some (PInt 0));
    ("tensor_parallel_shards", Some (PInt 1)); ("head_dim", Some (PInt 0));
    ("max_batch_size", Some (PInt 1)); ("num_experts_per_tok", Some (PInt 0))];
  class_attrs := [];
  prepare := λ m, m;
  run_post_init := DeepseekConfig_post_init;
|}.

(** [model/deepseek_v2/deepseek_v2_model.py]. *)
Definition DeepseekV2Config_post_init : py unit := (
  when (in_kwargs "quantization_config")
    (quantization_config ← kwargs_get "quantization_config" PNone;
     ifte (py_and (lift1 (λ v, Ok (is_dict v)) (lit quantization_config))
        (py_and (get_item (lit quantization_config) "activation_scheme" (PStr "") == str "dynamic")
           (py_and (get_item (lit quantization_config) "fmt" (PStr "") == str "e4m3")
              (py_and (get_item (lit quantization_config) "quant_method" (PStr "") == str "fp8")
                 (has_item "weight_block_size" (lit quantization_config))))))
       (set_attr "weight_block_size" (get_item (lit quantization_config) "weight_block_size" PNone) ;;
        when (py_or (py_not (lift1 (λ v, Ok (is_list v)) (self "weight_block_size")))
           (lift1 py_len (self "weight_block_size") != int 2))
          (py_raise ValueError "Invalid DeepSeek model quantization config: weight_block_size must be a tuple of two integers, got {self.weight_block_size} of type {type(self.weight_block_size)}"))
       (py_raise ValueError "Invalid DeepSeek model quantization config: unrecognized quantization config: {quantization_config}")) ;;
  when (self "context_window_size" == int 0)
    (window_from ["max_position_embeddings"; "max_sequence_length"] (py_raise ValueError no_window)) ;;
  py_check ((self "num_attention_heads") `mod` (self "num_key_value_heads") == int 0) "" ;;
  clamp_prefill 2048)%py.

Definition DeepseekV2Config : config_class := {|
  class_name := "DeepseekV2Config";
  class_fields := [
    ("vocab_size", None); ("hidden_size", None); ("intermediate_size", None);
    ("moe_intermediate_size", None); ("num_hidden_layers", None); ("num_attention_heads", None);
    ("num_key_value_heads", None); ("n_shared_experts", None); ("n_routed_experts", None);
    ("num_experts_per_tok", None); ("norm_topk_prob", None); ("first_k_dense_replace", None);
    ("moe_layer_freq", None); ("routed_scaling_factor", None); ("scoring_func", None);
    ("topk_method", None); ("n_group", None); ("topk_group", None); ("attention_bias", None);
    ("kv_lora_rank", None); ("qk_rope_head_dim", None); ("v_head_dim", None);
    ("qk_nope_head_dim", None); ("rms_norm_eps", None); ("rope_theta", None);
    ("q_lora_rank", Some PNone); ("rope_scaling", Some PNone);
    ("context_window_size", Some (PInt 0)); ("prefill_chunk_size", Some (PInt 0));
    ("tensor_parallel_shards", Some (PInt 1)); ("dtype", Some (PStr "float32"));
    ("max_batch_size", Some (PInt 1)); ("weight_block_size", Some PNone)];
  class_attrs := [];
  prepare := λ m, m;
  run_post_init := DeepseekV2Config_post_init;
|}.

(** [model/llama/llama_model.py]. *)
Definition LlamaConfig_post_init : py unit := (
  rope_base ;;
  when (py_not (is_none (self "rope_scaling")))
    (ifte (py_not (has_item "rope_type" (self "rope_scaling")))
       (set_attr "rope_scaling" none)
       (py_check_eval (item (self "rope_scaling") "rope_type" == str "llama3")
          (item (self "rope_scaling") "rope_type")
             "Unsupported RoPE scaling type {self.rope_scaling['rope_type']} for Llama")) ;;
  when (self "context_window_size" == int 0)
    (window_from ["max_position_embeddings"; "max_sequence_length"] (py_raise ValueError no_window)) ;;
  when (py_or (self "pipeline_parallel_stages" <= int 0)
     (self "pipeline_parallel_stages" > self "num_hidden_layers"))
    (py_raise ValueError "Invalid 'pipeline_parallel_stages' value ({self.pipeline_parallel_stages}). ") ;;
  when (self "num_key_value_heads" == int 0)
    (set_attr "num_key_value_heads" (self "num_attention_heads")) ;;
  when (self "head_dim" == int 0)
    (set_attr "head_dim" ((self "hidden_size") `floordiv` (self "num_attention_heads"))) ;;
  py_check ((self "num_attention_heads") `mod` (self "num_key_value_heads") == int 0) "" ;;
  clamp_prefill 8192)%py.

Definition LlamaConfig : config_class := {|
  class_name := "LlamaConfig";
  class_fields := [
    ("hidden_size", None); ("intermediate_size", None); ("num_attention_heads", None);
    ("num_hidden_layers", None); ("rms_norm_eps", None); ("vocab_size", None);
    ("tie_word_embeddings", Some (PBool false)); ("position_embedding_base", Some (PInt 0));
    ("rope_scaling", Some PNone); ("context_window_size", Some (PInt 0));
    ("prefill_chunk_size", Some (PInt 0)); ("num_key_value_heads", Some (PInt 0));
    ("head_dim", Some (PInt 0)); ("tensor_parallel_shards", Some (PInt 1));
    ("pipeline_parallel_stages", Some (PInt 1)); ("max_batch_size", Some (PInt 1));
    ("disaggregation", Some (PBool false))];
  class_attrs := [];
  prepare := λ m, m;
  run_post_init := LlamaConfig_post_init;
|}.

(** [model/eagle/eagle_model.py]. *)
Definition EagleConfig : config_class := {|
  class_name := "EagleConfig";
  class_fields := class_fields LlamaConfig ++ [
    ("bias", Some (PBool true))];
  class_attrs := [];
  prepare := λ m, m;
  run_post_init := LlamaConfig_post_init;
|}.

(** [model/gemma/gemma_model.py]. *)
Definition GemmaConfig_post_init : py unit := (
  when (is_none (self "hidden_activation"))
    (set_attr "hidden_activation" (kwargs_get "hidden_act" PNone)) ;;
  when (py_not (is_in (self "hidden_activation") [PStr "gelu"; PStr "gelu_pytorch_tanh"]))
    (py_raise ValueError "Only GeLU is supported as the activation for gemma.") ;;
  when (truth (self "attention_bias"))
    (py_raise ValueError "Only 'False' attention_bias is supported for gemma") ;;
  rope_base ;;
  when (self "context_window_size" == int 0)
    (window_from ["max_position_embeddings"; "max_sequence_length"] (py_raise ValueError no_window)) ;;
  py_check ((self "num_attention_heads") `mod` (self "num_key_value_heads") == int 0) "" ;;
  clamp_prefill 8192)%py.

Definition GemmaConfig : config_class := {|
  class_name := "GemmaConfig";
  class_fields := [
    ("hidden_size", None); ("intermediate_size", None); ("attention_bias", None);
    ("num_attention_heads", None); ("num_key_value_heads", None); ("head_dim", None);
    ("num_hidden_layers", None); ("rms_norm_eps", None); ("vocab_size", None);
    ("hidden_activation", Some PNone); ("position_embedding_base", Some (PInt 0));
    ("context_window_size", Some (PInt 0)); ("prefill_chunk_size", Some (PInt 0));
    ("tensor_parallel_shards", Some (PInt 1)); ("max_batch_size", Some (PInt 1))];
  class_attrs := [];
  prepare := λ m, m;
  run_post_init := GemmaConfig_post_init;
|}.

(** [model/gemma2/gemma2_model.py]. *)
Definition Gemma2Config_post_init : py unit := (
  GemmaConfig_post_init ;;
  set_attr "context_window_size" (self "sliding_window"))%py.

Definition Gemma2Config : config_class := {|
  class_name := "Gemma2Config";
  class_fields := class_fields GemmaConfig ++ [
    ("attn_logit_softcapping", Some PNone); ("final_logit_softcapping", Some PNone);
    ("query_pre_attn_scalar", Some PNone); ("sliding_window", Some PNone)];
  class_attrs := [];
  prepare := λ m, m;
  run_post_init := Gemma2Config_post_init;
|}.

(** [model/gemma3/gemma3_model.py]. *)
Definition Gemma3TextConfig_post_init : py unit := (
  when (is_none (self "hidden_activation"))
    (set_attr "hidden_activation" (kwargs_get "hidden_act" PNone)) ;;
  when (is_none (self "sliding_window_size"))
    (set_attr "sliding_window_size" (kwargs_get "sliding_window" PNone)) ;;
  when (py_not (is_in (self "hidden_activation") [PStr "gelu"; PStr "gelu_pytorch_tanh"]))
    (py_raise ValueError "Only GeLU is supported as the activation for gemma.") ;;
  when (truth (self "attention_bias"))
    (py_raise ValueError "Only 'False' attention_bias is supported for gemma") ;;
  when (py_and (self "position_embedding_base" == int 1000000) (in_kwargs "rope_theta"))
    (set_attr "position_embedding_base" (kwargs_pop "rope_theta")) ;;
  when (self "context_window_size" == int 0)
    (window_from ["max_position_embeddings"; "max_sequence_length"] (py_raise ValueError no_window)) ;;
  py_check ((self "num_attention_heads") `mod` (self "num_key_value_heads") == int 0) "" ;;
  clamp_prefill 8192 ;;
  set_attr "context_window_size" (py_max (self "sliding_window_size") (int 8192)))%py.

Definition Gemma3TextConfig : config_class := {|
  class_name := "Gemma3TextConfig";
  class_fields := [
    ("hidden_size", None); ("intermediate_size", None); ("num_hidden_layers", None);
    ("attention_bias", Some (PBool false)); ("num_attention_heads", Some (PInt 8));
    ("num_key_value_heads", Some (PInt 4)); ("head_dim", Some (PInt 256));
    ("rms_norm_eps", Some (PFloat (Fin (4722366482869645 # 4722366482869645213696))));
    ("hidden_activation", Some (PStr "gelu_pytorch_tanh"));
    ("position_embedding_base", Some (PInt 1000000)); ("rope_scaling", Some (PInt 0));
    ("context_window_size", Some (PInt 131072)); ("prefill_chunk_size", Some (PInt 0));
    ("query_pre_attn_scalar", Some (PInt 256)); ("sliding_window_size", Some PNone)];
  class_attrs := [("sliding_window_pattern", PInt 6)];
  prepare := λ m, m;
  run_post_init := Gemma3TextConfig_post_init;
|}.

(** [model/gpt2/gpt2_model.py]. *)
Definition GPT2Config_post_init : py unit := (
  when (py_or (is_none (self "n_inner")) (self "n_inner" == int (-1)))
    (set_attr "n_inner" ((int 4) * (self "n_embd"))) ;;
  when (self "context_window_size" == int 0)
    (window_from ["n_positions"; "max_sequence_length"]
       (py_raise ValueError "Unable to determine the maximum sequence length, because none of `context_window_size`, `n_positions` or `max_sequence_length` is provided in `config.json`.")) ;;
  when (self "head_dim" == int 0)
    (set_attr "head_dim" ((self "n_embd") `floordiv` (self "n_head"))) ;;
  py_check ((self "head_dim") * (self "n_head") == self "n_embd") "" ;;
  clamp_prefill 8192)%py.

Definition GPT2Config : config_class := {|
  class_name := "GPT2Config";
  class_fields := [
    ("vocab_size", None); ("n_embd", None); ("n_layer", None); ("n_head", None);
    ("layer_norm_epsilon", None); ("n_inner", Some (PInt (-1)));
    ("context_window_size", Some (PInt 0)); ("prefill_chunk_size", Some (PInt 0));
    ("scale_attn_by_inverse_layer_idx", Some (PBool false));
    ("tensor_parallel_shards", Some (PInt 1)); ("head_dim", Some (PInt 0));
    ("max_batch_size", Some (PInt 1))];
  class_attrs := [];
  prepare := λ m, m;
  run_post_init := GPT2Config_post_init;
|}.

(** [model/gpt_bigcode/gpt_bigcode_model.py]. *)
Definition GPTBigCodeConfig_post_init : py unit := (
  when (self "context_window_size" == int 0)
    (ifte (self "n_positions" > int 0)
       (set_attr "context_window_size" (self "n_positions"))
       (py_raise ValueError no_window)) ;;
  clamp_prefill 8192)%py.

Definition GPTBigCodeConfig : config_class := {|
  class_name := "GPTBigCodeConfig";
  class_fields := [
    ("n_embd", None); ("n_inner", None); ("n_head", None); ("n_layer", None);
    ("n_positions", None); ("layer_norm_epsilon", None); ("vocab_size", None);
    ("context_window_size", Some (PInt 0)); ("prefill_chunk_size", Some (PInt 0));
    ("tensor_parallel_shards", Some (PInt 1)); ("max_batch_size", Some (PInt 1))];
  class_attrs := [];
  prepare := λ m, m;
  run_post_init := GPTBigCodeConfig_post_init;
|}.

(** [model/gpt_j/gpt_j_model.py]. *)
Definition GPTJConfig_post_init : py unit := (
  when (self "context_window_size" == int 0)
    (window_from ["max_position_embeddings"; "n_positions"] (py_raise ValueError no_window)) ;;
  when (self "head_dim" == int 0)
    (set_attr "head_dim" ((self "n_embd") `floordiv` (self "n_head"))) ;;
  py_check ((self "head_dim") * (self "n_head") == self "n_embd") "" ;;
  clamp_prefill 8192)%py.

Definition GPTJConfig : config_class := {|
  class_name := "GPTJConfig";
  class_fields := [
    ("vocab_size", None); ("n_embd", None); ("n_layer", None); ("n_head", None);
    ("layer_norm_epsilon", None); ("rotary_dim", None); ("activation_function", None);
    ("n_inner", Some (PInt (-1))); ("rope_scaling", Some PNone);
    ("context_window_size", Some (PInt 0)); ("prefill_chunk_size", Some (PInt 0));
    ("tensor_parallel_shards", Some (PInt 1)); ("max_batch_size", Some (PInt 1));
    ("head_dim", Some (PInt 0))];
  class_attrs := [];
  prepare := λ m, m;
  run_post_init := GPTJConfig_post_init;
|}.

(** [model/gpt_neox/gpt_neox_model.py]. *)
Definition GPTNeoXConfig_post_init : py unit := (
  when (self "context_window_size" == int 0)
    (window_from ["max_position_embeddings"; "max_sequence_length"] (py_raise ValueError no_window)) ;;
  rope_base ;;
  when (self "head_dim" == int 0)
    (set_attr "head_dim" ((self "hidden_size") `floordiv` (self "num_attention_heads"))) ;;
  py_check ((self "head_dim") * (self "num_attention_heads") == self "hidden_size") "" ;;
  clamp_prefill 8192)%py.

Definition GPTNeoXConfig : config_class := {|
  class_name := "GPTNeoXConfig";
  class_fields := [
    ("use_parallel_residual", None); ("hidden_size", None); ("intermediate_size", None);
    ("num_attention_heads", None); ("num_hidden_layers", None); ("layer_norm_eps", None);
    ("vocab_size", None); ("rotary_pct", None); ("position_embedding_base", Some (PInt 0));
    ("context_window_size", Some (PInt 0)); ("head_dim", Some (PInt 0));
    ("prefill_chunk_size", Some (PInt 0)); ("tensor_parallel_shards", Some (PInt 1));
    ("ffn_out_dtype", Some (PStr "float32")); ("max_batch_size", Some (PInt 1))];
  class_attrs := [];
  prepare := λ m, m;
  run_post_init := GPTNeoXConfig_post_init;
|}.

(** [model/internlm/internlm_model.py]. *)
Definition InternLMConfig_post_init : py unit := (
  when (self "context_window_size" == int 0)
    (window_from ["max_position_embeddings"; "max_sequence_length"] (py_raise ValueError no_window)) ;;
  when (self "head_dim" == int 0)
    (set_attr "head_dim" ((self "hidden_size") `floordiv` (self "num_attention_heads"))) ;;
  py_check ((self "head_dim") * (self "num_attention_heads") == self "hidden_size") "" ;;
  clamp_prefill 8192)%py.

Definition InternLMConfig : config_class := {|
  class_name := "InternLMConfig";
  class_fields := [
    ("vocab_size", None); ("hidden_size", None); ("num_hidden_layers", None);
    ("num_attention_heads", None); ("rms_norm_eps", None); ("intermediate_size", None);
    ("bias", None); ("use_cache", None); ("pad_token_id", None); ("bos_token_id", None);
    ("eos_token_id", None); ("context_window_size", Some (PInt 0));
    ("prefill_chunk_size", Some (PInt 0)); ("tensor_parallel_shards", Some (PInt 1));
    ("max_batch_size", Some (PInt 1)); ("head_dim", Some (PInt 0))];
  class_attrs := [];
  prepare := λ m, m;
  run_post_init := InternLMConfig_post_init;
|}.

(** [model/internlm2/internlm2_model.py]. *)
Definition InternLM2Config_post_init : py unit := (
  when (self "context_window_size" == int 0)
    (window_from ["max_position_embeddings"; "max_sequence_length"] (py_raise ValueError no_window)) ;;
  when (self "head_dim" == int 0)
    (set_attr "head_dim" ((self "hidden_size") `floordiv` (self "num_attention_heads"))) ;;
  py_check ((self "head_dim") * (self "num_attention_heads") == self "hidden_size") "" ;;
  clamp_prefill 2048)%py.

Definition InternLM2Config : config_class := {|
  class_name := "InternLM2Config";
  class_fields := [
    ("vocab_size", None); ("hidden_size", None); ("num_hidden_layers", None);
    ("num_attention_heads", None); ("num_key_value_heads", None); ("rms_norm_eps", None);
    ("intermediate_size", None); ("bias", None); ("use_cache", None); ("rope_theta", None);
    ("pad_token_id", None); ("bos_token_id", None); ("eos_token_id", None);
    ("context_window_size", Some (PInt 0)); ("prefill_chunk_size", Some (PInt 0));
    ("tensor_parallel_shards", Some (PInt 1)); ("max_batch_size", Some (PInt 1));
    ("head_dim", Some (PInt 0))];
  class_attrs := [];
  prepare := λ m, m;
  run_post_init := InternLM2Config_post_init;
|}.

(** [model/medusa/medusa_model.py]. *)
Definition MedusaConfig : config_class := {|
  class_name := "MedusaConfig";
  class_fields := [
    ("medusa_num_heads", None); ("medusa_num_layers", None); ("hidden_size", None);
    ("vocab_size", None); ("max_batch_size", Some (PInt 1));
    ("tensor_parallel_shards", Some (PInt 1)); ("prefill_chunk_size", Some (PInt (-1)));
    ("context_window_size", Some (PInt (-1)))];
  class_attrs := [];
  prepare := λ m, m;
  run_post_init := skip;
|}.

(** [model/minicpm/minicpm_model.py]. *)
Definition MiniCPMConfig_post_init : py unit := (
  when (self "context_window_size" == int 0)
    (window_from ["max_position_embeddings"; "max_sequence_length"] (py_raise ValueError no_window)) ;;
  when (self "head_dim" == int 0)
    (set_attr "head_dim" ((self "hidden_size") `floordiv` (self "num_attention_heads"))) ;;
  py_check ((self "head_dim") * (self "num_attention_heads") == self "hidden_size") "" ;;
  clamp_prefill 8192)%py.

Definition MiniCPMConfig : config_class := {|
  class_name := "MiniCPMConfig";
  class_fields := [
    ("vocab_size", None); ("hidden_size", None); ("num_hidden_layers", None);
    ("num_attention_heads", None); ("num_key_value_heads", None); ("hidden_act", None);
    ("rms_norm_eps", None); ("intermediate_size", None); ("scale_emb", None);
    ("scale_depth", None); ("dim_model_base", None); ("use_cache", None); ("bos_token_id", None);
    ("eos_token_id", None); ("tie_word_embeddings", Some (PBool false));
    ("rope_theta", Some (PInt 10000)); ("context_window_size", Some (PInt 0));
    ("prefill_chunk_size", Some (PInt 0)); ("tensor_parallel_shards", Some (PInt 1));
    ("head_dim", Some (PInt 0)); ("max_batch_size", Some (PInt 1));
    ("num_experts_per_tok", Some (PInt 0)); ("num_experts", Some (PInt 0))];
  class_attrs := [];
  prepare := λ m, m;
  run_post_init := MiniCPMConfig_post_init;
|}.

(** [model/mixtral/mixtral_model.py]. *)
Definition MixtralConfig : config_class := {|
  class_name := "MixtralConfig";
  class_fields := class_fields LlamaConfig ++ [
    ("num_local_experts", Some (PInt 0)); ("num_experts_per_tok", Some (PInt 0))];
  class_attrs := [];
  prepare := λ m, m;
  run_post_init := LlamaConfig_post_init;
|}.

(** [model/nemotron/nemotron_model.py]. *)
Definition NemotronConfig_post_init : py unit := (
  when (self "context_window_size" == int 0)
    (set_attr "context_window_size" (self "max_position_embeddings")) ;;
  when (self "head_dim" == int 0)
    (set_attr "head_dim" ((self "hidden_size") `floordiv` (self "num_attention_heads"))) ;;
  py_check ((self "head_dim") * (self "num_attention_heads") == self "hidden_size") "" ;;
  set_attr "rotary_dim" (lift1 py_to_int ((self "partial_rotary_factor") * (self "head_dim"))) ;;
  clamp_prefill 8192)%py.

Definition NemotronConfig : config_class := {|
  class_name := "NemotronConfig";
  class_fields := [
    ("vocab_size", None); ("max_position_embeddings", None); ("hidden_size", None);
    ("intermediate_size", None); ("num_hidden_layers", None); ("num_attention_heads", None);
    ("num_key_value_heads", None); ("rope_theta", Some (PInt 10000));
    ("partial_rotary_factor", Some (PFloat (Fin (1 # 2)))); ("rope_scaling", Some PNone);
    ("norm_eps", Some (PFloat (Fin (5902958103587057 # 590295810358705651712))));
    ("head_dim", Some (PInt 0)); ("tie_word_embeddings", Some (PBool false));
    ("mlp_bias", Some (PBool false)); ("context_window_size", Some (PInt 0));
    ("prefill_chunk_size", Some (PInt 0)); ("tensor_parallel_shards", Some (PInt 1));
    ("pipeline_parallel_stages", Some (PInt 1)); ("max_batch_size", Some (PInt 1));
    ("disaggregation", Some (PBool false))];
  class_attrs := [];
  prepare := λ m, m;
  run_post_init := NemotronConfig_post_init;
|}.

(** [model/olmo/olmo_model.py]. *)
Definition OLMoConfig_post_init : py unit := (
  when (self "num_key_value_heads" == int 0)
    (set_attr "num_key_value_heads" (self "num_attention_heads")) ;;
  when (self "head_dim" == int 0)
    (set_attr "head_dim" ((self "hidden_size") `floordiv` (self "num_attention_heads"))) ;;
  py_check ((self "num_attention_heads") `mod` (self "num_key_value_heads") == int 0) "" ;;
  rope_base ;;
  when (self "context_window_size" == int 0)
    (window_from ["max_position_embeddings"; "max_sequence_length"] (py_raise ValueError no_window)) ;;
  clamp_prefill 8192 ;;
  when (py_or (self "pipeline_parallel_stages" <= int 0)
     (self "pipeline_parallel_stages" > self "num_hidden_layers"))
    (py_raise ValueError "Invalid 'pipeline_parallel_stages' value({self.pipeline_parallel_stages}). ")
       ;;
  when (py_not (is_none (self "clip_qkv")))
    (when (self "clip_qkv" <= int 0)
       (py_raise ValueError "'clip_qkv'({self.clip_qkv}) should be non-negative")))%py.

Definition OLMoConfig : config_class := {|
  class_name := "OLMoConfig";
  class_fields := [
    ("vocab_size", Some PNone); ("hidden_size", Some PNone); ("num_attention_heads", Some PNone);
    ("num_key_value_heads", Some (PInt 0)); ("head_dim", Some (PInt 0));
    ("position_embedding_base", Some (PInt 0)); ("rope_scaling", Some PNone);
    ("intermediate_size", Some PNone); ("hidden_act", Some PNone);
    ("num_hidden_layers", Some PNone); ("tie_word_embeddings", Some (PBool false));
    ("context_window_size", Some (PInt 0)); ("prefill_chunk_size", Some (PInt 0));
    ("tensor_parallel_shards", Some (PInt 1)); ("pipeline_parallel_stages", Some (PInt 1));
    ("max_batch_size", Some (PInt 1)); ("clip_qkv", Some PNone)];
  class_attrs := [];
  prepare := λ m, m;
  run_post_init := OLMoConfig_post_init;
|}.

(** [model/olmo2/olmo2_model.py]. *)
Definition OLMo2Config_post_init : py unit := (
  when (self "num_key_value_heads" == int 0)
    (set_attr "num_key_value_heads" (self "num_attention_heads")) ;;
  when (self "head_dim" == int 0)
    (set_attr "head_dim" ((self "hidden_size") `floordiv` (self "num_attention_heads"))) ;;
  py_check ((self "num_attention_heads") `mod` (self "num_key_value_heads") == int 0) "" ;;
  rope_base ;;
  when (self "context_window_size" == int 0)
    (window_from ["max_position_embeddings"; "max_sequence_length"] (py_raise ValueError no_window)) ;;
  clamp_prefill 8192 ;;
  when (py_or (self "pipeline_parallel_stages" <= int 0)
     (self "pipeline_parallel_stages" > self "num_hidden_layers"))
    (py_raise ValueError "Invalid 'pipeline_parallel_stages' value({self.pipeline_parallel_stages}). "))%py.

Definition OLMo2Config : config_class := {|
  class_name := "OLMo2Config";
  class_fields := [
    ("vocab_size", Some PNone); ("hidden_size", Some PNone); ("num_attention_heads", Some PNone);
    ("num_key_value_heads", Some (PInt 0)); ("head_dim", Some (PInt 0));
    ("position_embedding_base", Some (PInt 0)); ("rope_scaling", Some PNone);
    ("intermediate_size", Some PNone); ("hidden_act", Some PNone);
    ("num_hidden_layers", Some PNone);
    ("rms_norm_eps", Some (PFloat (Fin (5902958103587057 # 590295810358705651712))));
    ("tie_word_embeddings", Some (PBool false)); ("context_window_size", Some (PInt 0));
    ("prefill_chunk_size", Some (PInt 0)); ("tensor_parallel_shards", Some (PInt 1));
    ("pipeline_parallel_stages", Some (PInt 1)); ("max_batch_size", Some (PInt 1))];
  class_attrs := [];
  prepare := λ m, m;
  run_post_init := OLMo2Config_post_init;
|}.

(** [model/orion/orion_model.py]. *)
Definition OrionConfig_post_init : py unit := (
  rope_base ;;
  when (self "context_window_size" == int 0)
    (window_from ["max_position_embeddings"; "max_sequence_length"] (py_raise ValueError no_window)) ;;
  when (self "num_key_value_heads" == int 0)
    (set_attr "num_key_value_heads" (self "num_attention_heads")) ;;
  when (self "head_dim" == int 0)
    (set_attr "head_dim" ((self "hidden_size") `floordiv` (self "num_attention_heads"))) ;;
  py_check ((self "head_dim") * (self "num_attention_heads") == self "hidden_size") "" ;;
  py_check ((self "num_attention_heads") `mod` (self "num_key_value_heads") == int 0) "" ;;
  clamp_prefill 8192)%py.

Definition OrionConfig : config_class := {|
  class_name := "OrionConfig";
  class_fields := [
    ("hidden_size", None); ("intermediate_size", None); ("num_attention_heads", None);
    ("num_hidden_layers", None); ("rms_norm_eps", None); ("vocab_size", None);
    ("position_embedding_base", Some (PInt 0)); ("context_window_size", Some (PInt 0));
    ("prefill_chunk_size", Some (PInt 0)); ("num_key_value_heads", Some (PInt 0));
    ("head_dim", Some (PInt 0)); ("tensor_parallel_shards", Some (PInt 1));
    ("max_batch_size", Some (PInt 1))];
  class_attrs := [];
  prepare := λ m, m;
  run_post_init := OrionConfig_post_init;
|}.

(** [model/phi/phi_model.py]. *)
Definition Phi1Config_post_init : py unit := (
  rope_base ;;
  when (self "context_window_size" == int 0)
    (window_from ["max_position_embeddings"; "max_sequence_length"] (py_raise ValueError no_window)) ;;
  clamp_prefill 8192 ;;
  when (py_or (self "num_key_value_heads" == int 0) (is_none (self "num_key_value_heads")))
    (set_attr "num_key_value_heads" (self "num_attention_heads")) ;;
  when (py_or (self "intermediate_size" == int 0) (is_none (self "intermediate_size")))
    (set_attr "intermediate_size" ((int 4) * (self "hidden_size"))) ;;
  when (self "head_dim" == int 0)
    (set_attr "head_dim" ((self "hidden_size") `floordiv` (self "num_attention_heads"))) ;;
  py_check ((self "head_dim") * (self "num_attention_heads") == self "hidden_size") "" ;;
  py_check ((self "num_attention_heads") `mod` (self "num_key_value_heads") == int 0) "")%py.

Definition Phi1Config : config_class := {|
  class_name := "Phi1Config";
  class_fields := [
    ("vocab_size", Some (PInt 51200)); ("hidden_size", Some (PInt 2048));
    ("intermediate_size", Some (PInt 8192)); ("num_hidden_layers", Some (PInt 24));
    ("num_attention_heads", Some (PInt 32));
    ("layer_norm_eps", Some (PFloat (Fin (5902958103587057 # 590295810358705651712))));
    ("position_embedding_base", Some (PInt 0));
    ("partial_rotary_factor", Some (PFloat (Fin (1 # 2))));
    ("num_key_value_heads", Some (PInt 0)); ("context_window_size", Some (PInt 0));
    ("prefill_chunk_size", Some (PInt 0)); ("head_dim", Some (PInt 0));
    ("tensor_parallel_shards", Some (PInt 1)); ("max_batch_size", Some (PInt 1))];
  class_attrs := [];
  prepare := λ m, m;
  run_post_init := Phi1Config_post_init;
|}.

(** [model/phi/phi_model.py]. *)
Definition PhiConfig_post_init : py unit := (
  rope_base ;;
  when (self "context_window_size" == int 0)
    (window_from ["max_position_embeddings"; "max_sequence_length"]
       (set_attr "context_window_size" (self "n_positions"))) ;;
  when (self "prefill_chunk_size" == int 0)
    (set_attr "prefill_chunk_size" (self "context_window_size")) ;;
  set_attr "prefill_chunk_size" (py_min (self "prefill_chunk_size") (self "context_window_size")) ;;
  when (py_or (self "n_head_kv" == int 0) (is_none (self "n_head_kv")))
    (set_attr "n_head_kv" (self "n_head")) ;;
  when (py_or (self "n_inner" == int 0) (is_none (self "n_inner")))
    (set_attr "n_inner" ((int 4) * (self "n_embd"))) ;;
  when (self "head_dim" == int 0)
    (set_attr "head_dim" ((self "n_embd") `floordiv` (self "n_head"))) ;;
  py_check ((self "head_dim") * (self "n_head") == self "n_embd") "" ;;
  py_check ((self "n_head") `mod` (self "n_head_kv") == int 0) "")%py.

Definition PhiConfig : config_class := {|
  class_name := "PhiConfig";
  class_fields := [
    ("model_type", None); ("vocab_size", Some (PInt 51200)); ("n_positions", Some (PInt 2048));
    ("n_embd", Some (PInt 2560)); ("n_layer", Some (PInt 32)); ("n_inner", Some (PInt 0));
    ("n_head", Some (PInt 32)); ("rotary_dim", Some (PInt 32));
    ("position_embedding_base", Some (PInt 0));
    ("layer_norm_epsilon", Some (PFloat (Fin (5902958103587057 # 590295810358705651712))));
    ("context_window_size", Some (PInt 0)); ("prefill_chunk_size", Some (PInt 0));
    ("n_head_kv", Some (PInt 0)); ("head_dim", Some (PInt 0));
    ("tensor_parallel_shards", Some (PInt 1))];
  class_attrs := [];
  prepare := λ m, m;
  run_post_init := PhiConfig_post_init;
|}.

(** [model/phi3/phi3_model.py]. *)
Definition Phi3Config_post_init : py unit := (
  rope_base ;;
  when (py_not (is_none (self "rope_scaling")))
    (ifte (py_not (has_item "type" (self "rope_scaling")))
       (set_attr "rope_scaling" none)
       (when (item (self "rope_scaling") "type" == str "su")
          (set_item "rope_scaling" "type" (str "longrope")) ;;
        py_check_eval (item (self "rope_scaling") "type" == str "longrope")
           (item (self "rope_scaling") "rope_type")
              "Unsupported RoPE scaling type {self.rope_scaling['rope_type']} for Phi3" ;;
        set_item "rope_scaling" "rope_type" (item (self "rope_scaling") "type") ;;
        set_item "rope_scaling" "max_position_embeddings" (self "max_position_embeddings") ;;
        set_item "rope_scaling" "original_max_position_embeddings"
           (self "original_max_position_embeddings"))) ;;
  when (self "context_window_size" == int 0)
    (set_attr "context_window_size" (self "max_position_embeddings")) ;;
  clamp_prefill 8192 ;;
  when (py_or (self "num_key_value_heads" == int 0) (is_none (self "num_key_value_heads")))
    (set_attr "num_key_value_heads" (self "num_attention_heads")) ;;
  when (self "head_dim" == int 0)
    (set_attr "head_dim" ((self "hidden_size") `floordiv` (self "num_attention_heads"))) ;;
  py_check ((self "head_dim") * (self "num_attention_heads") == self "hidden_size") "" ;;
  py_check ((self "num_attention_heads") `mod` (self "num_key_value_heads") == int 0) "")%py.

Definition Phi3Config : config_class := {|
  class_name := "Phi3Config";
  class_fields := [
    ("model_type", None); ("hidden_size", None); ("vocab_size", None);
    ("num_hidden_layers", None); ("num_attention_heads", None); ("intermediate_size", None);
    ("rms_norm_eps", None); ("num_key_value_heads", None); ("max_position_embeddings", None);
    ("position_embedding_base", Some (PInt 0)); ("rope_scaling", Some PNone);
    ("original_max_position_embeddings", Some (PInt 0)); ("context_window_size", Some (PInt 0));
    ("prefill_chunk_size", Some (PInt 0)); ("head_dim", Some (PInt 0));
    ("tensor_parallel_shards", Some (PInt 1)); ("max_batch_size", Some (PInt 1));
    ("tie_word_embeddings", Some (PBool false));
    ("partial_rotary_factor", Some (PFloat (Fin (1 # 1))))];
  class_attrs := [];
  prepare := λ m, m;
  run_post_init := Phi3Config_post_init;
|}.

(** [model/qwen/qwen_model.py]. *)
Definition QWenConfig_post_init : py unit := (
  when (self "context_window_size" == int 0)
    (window_from ["max_position_embeddings"; "max_sequence_length"] (py_raise ValueError no_window)) ;;
  when (self "head_dim" == int 0)
    (set_attr "head_dim" ((self "hidden_size") `floordiv` (self "num_attention_heads"))) ;;
  py_check ((self "head_dim") * (self "num_attention_heads") == self "hidden_size") "" ;;
  clamp_prefill 8192)%py.

Definition QWenConfig : config_class := {|
  class_name := "QWenConfig";
  class_fields := [
    ("vocab_size", None); ("hidden_size", None); ("num_hidden_layers", None);
    ("num_attention_heads", None); ("layer_norm_epsilon", None); ("scale_attn_weights", None);
    ("kv_channels", None); ("rotary_emb_base", None); ("intermediate_size", None);
    ("context_window_size", Some (PInt 0)); ("prefill_chunk_size", Some (PInt 0));
    ("tensor_parallel_shards", Some (PInt 1)); ("max_batch_size", Some (PInt 1));
    ("head_dim", Some (PInt 0))];
  class_attrs := [];
  prepare := λ m, m;
  run_post_init := QWenConfig_post_init;
|}.

(** [model/qwen2/qwen2_model.py]. *)
Definition QWen2Config_post_init : py unit := (
  when (self "context_window_size" == int 0)
    (window_from ["max_position_embeddings"; "max_sequence_length"] (py_raise ValueError no_window)) ;;
  when (self "head_dim" == int 0)
    (set_attr "head_dim" ((self "hidden_size") `floordiv` (self "num_attention_heads"))) ;;
  py_check ((self "head_dim") * (self "num_attention_heads") == self "hidden_size") "" ;;
  clamp_prefill 8192)%py.

Definition QWen2Config : config_class := {|
  class_name := "QWen2Config";
  class_fields := [
    ("hidden_act", None); ("hidden_size", None); ("intermediate_size", None);
    ("num_attention_heads", None); ("num_hidden_layers", None); ("num_key_value_heads", None);
    ("rms_norm_eps", None); ("rope_theta", None); ("vocab_size", None);
    ("tie_word_embeddings", Some (PBool false)); ("context_window_size", Some (PInt 0));
    ("prefill_chunk_size", Some (PInt 0)); ("tensor_parallel_shards", Some (PInt 1));
    ("head_dim", Some (PInt 0)); ("dtype", Some (PStr "float32"));
    ("max_batch_size", Some (PInt 1))];
  class_attrs := [];
  prepare := λ m, m;
  run_post_init := QWen2Config_post_init;
|}.

(** [model/qwen2_moe/qwen2_moe_model.py]. *)
Definition Qwen2MoeConfig : config_class := {|
  class_name := "Qwen2MoeConfig";
  class_fields := class_fields QWen2Config ++ [
    ("moe_intermediate_size", Some (PInt 0)); ("shared_expert_intermediate_size", Some (PInt 0));
    ("num_experts_per_tok", Some (PInt 0)); ("num_experts", Some (PInt 0));
    ("decoder_sparse_step", Some (PInt 0)); ("norm_topk_prob", Some (PBool false))];
  class_attrs := [];
  prepare := λ m, m;
  run_post_init := QWen2Config_post_init;
|}.

(** [model/qwen3/qwen3_model.py]. *)
Definition Qwen3Config_post_init : py unit := (
  when (in_kwargs "quantization_config")
    (quantization_config ← kwargs_get "quantization_config" PNone;
     ifte (py_and (lift1 (λ v, Ok (is_dict v)) (lit quantization_config))
        (py_and (get_item (lit quantization_config) "activation_scheme" (PStr "") == str "dynamic")
           (py_and (get_item (lit quantization_config) "fmt" (PStr "") == str "e4m3")
              (py_and (get_item (lit quantization_config) "quant_method" (PStr "") == str "fp8")
                 (has_item "weight_block_size" (lit quantization_config))))))
       (set_attr "weight_block_size" (get_item (lit quantization_config) "weight_block_size" PNone) ;;
        when (py_or (py_not (lift1 (λ v, Ok (is_list v)) (self "weight_block_size")))
           (lift1 py_len (self "weight_block_size") != int 2))
          (py_raise ValueError "Invalid DeepSeek model quantization config: weight_block_size must be a tuple of two integers, got {self.weight_block_size} of type {type(self.weight_block_size)}"))
       (py_raise ValueError "Invalid DeepSeek model quantization config: unrecognized quantization config: {quantization_config}")) ;;
  when (self "context_window_size" == int 0)
    (window_from ["max_position_embeddings"; "max_sequence_length"] (py_raise ValueError no_window)) ;;
  clamp_prefill 2048)%py.

Definition Qwen3Config : config_class := {|
  class_name := "Qwen3Config";
  class_fields := [
    ("hidden_act", None); ("hidden_size", None); ("intermediate_size", None);
    ("attention_bias", None); ("num_attention_heads", None); ("num_hidden_layers", None);
    ("num_key_value_heads", None); ("rms_norm_eps", None); ("rope_theta", None);
    ("vocab_size", None); ("tie_word_embeddings", Some (PBool false));
    ("context_window_size", Some (PInt 0)); ("prefill_chunk_size", Some (PInt 0));
    ("tensor_parallel_shards", Some (PInt 1)); ("head_dim", Some (PInt 0));
    ("dtype", Some (PStr "float32")); ("max_batch_size", Some (PInt 1));
    ("weight_block_size", Some PNone)];
  class_attrs := [];
  prepare := λ m, m;
  run_post_init := Qwen3Config_post_init;
|}.

(** [model/qwen3_moe/qwen3_moe_model.py]. *)
Definition Qwen3MoeConfig : config_class := {|
  class_name := "Qwen3MoeConfig";
  class_fields := class_fields Qwen3Config ++ [
    ("moe_intermediate_size", Some (PInt 0)); ("num_experts_per_tok", Some (PInt 0));
    ("num_experts", Some (PInt 0)); ("decoder_sparse_step", Some (PInt 0));
    ("norm_topk_prob", Some (PBool false))];
  class_attrs := [];
  prepare := λ m, m;
  run_post_init := Qwen3Config_post_init;
|}.

(** [model/rwkv5/rwkv5_model.py]. *)
Definition RWKV5Config_post_init : py unit := (
  when (self "model_version" != str "5_2")
    (py_raise ValueError "Only support RWKV v5_2, got {self.model_version}.") ;;
  set_attr "intermediate_size"
     (or_value (self "intermediate_size")
        (((lift1 py_to_int ((self "hidden_size") * (lit (PFloat (Fin (7 # 2)))))) `floordiv` (int 32))
           * (int 32))) ;;
  set_attr "num_heads" (ternary (self "num_heads" == int 0)
     ((self "hidden_size") `floordiv` (self "head_size")) (self "num_heads")) ;;
  when ((self "num_heads") * (self "head_size") != self "hidden_size")
    (py_raise ValueError "hidden_size ({self.hidden_size}) must be divisible by head_size ({self.head_size})") ;;
  when (self "tensor_parallel_shards" != int 1)
    (py_raise ValueError "Only support single device at this moment."))%py.

Definition RWKV5Config : config_class := {|
  class_name := "RWKV5Config";
  class_fields := [
    ("hidden_size", None); ("intermediate_size", None); ("num_hidden_layers", None);
    ("vocab_size", None); ("model_version", None); ("tensor_parallel_shards", Some (PInt 1));
    ("rescale_every", Some (PInt 0)); ("head_size", Some (PInt 64));
    ("layer_norm_epsilon", Some (PFloat (Fin (5902958103587057 # 590295810358705651712))));
    ("context_window_size", Some (PInt (-1))); ("prefill_chunk_size", Some (PInt 4096));
    ("num_heads", Some (PInt 0)); ("max_batch_size", Some (PInt 1))];
  class_attrs := [];
  prepare := λ m, m;
  run_post_init := RWKV5Config_post_init;
|}.

(** [model/rwkv6/rwkv6_model.py]. *)
Definition RWKV6Config_post_init : py unit := (
  when (self "model_version" != str "6_0")
    (py_raise ValueError "Only support RWKV v6_0, got {self.model_version}.") ;;
  set_attr "intermediate_size"
     (or_value (self "intermediate_size")
        (((lift1 py_to_int ((self "hidden_size") * (lit (PFloat (Fin (7 # 2)))))) `floordiv` (int 32))
           * (int 32))) ;;
  set_attr "num_heads" (ternary (self "num_heads" == int 0)
     ((self "hidden_size") `floordiv` (self "head_size")) (self "num_heads")) ;;
  when ((self "num_heads") * (self "head_size") != self "hidden_size")
    (py_raise ValueError "hidden_size ({self.hidden_size}) must be divisible by head_size ({self.head_size})") ;;
  when (self "tensor_parallel_shards" != int 1)
    (py_raise ValueError "Only support single device at this moment."))%py.

Definition RWKV6Config : config_class := {|
  class_name := "RWKV6Config";
  class_fields := [
    ("hidden_size", None); ("intermediate_size", None); ("num_hidden_layers", None);
    ("vocab_size", None); ("model_version", Some (PStr "6_0"));
    ("tensor_parallel_shards", Some (PInt 1)); ("rescale_every", Some (PInt 0));
    ("head_size", Some (PInt 64));
    ("layer_norm_epsilon", Some (PFloat (Fin (5902958103587057 # 590295810358705651712))));
    ("context_window_size", Some (PInt (-1))); ("prefill_chunk_size", Some (PInt 4096));
    ("num_heads", Some (PInt 0)); ("max_batch_size", Some (PInt 1))];
  class_attrs := [];
  prepare := λ m, m;
  run_post_init := RWKV6Config_post_init;
|}.

(** [model/stable_lm/stablelm_model.py]. *)
Definition StableLmConfig_post_init : py unit := (
  when (self "context_window_size" == int 0)
    (window_from ["max_position_embeddings"; "max_sequence_length"] (py_raise ValueError no_window)) ;;
  when (self "head_dim" == int 0)
    (set_attr "head_dim" ((self "hidden_size") `floordiv` (self "num_attention_heads"))) ;;
  py_check ((self "head_dim") * (self "num_attention_heads") == self "hidden_size") "" ;;
  clamp_prefill 8192)%py.

Definition StableLmConfig : config_class := {|
  class_name := "StableLmConfig";
  class_fields := [
    ("vocab_size", None); ("hidden_size", None); ("num_hidden_layers", None);
    ("num_attention_heads", None); ("num_key_value_heads", None); ("layer_norm_eps", None);
    ("partial_rotary_factor", None); ("rope_theta", None); ("intermediate_size", None);
    ("use_qkv_bias", Some (PBool false)); ("head_dim", Some (PInt 0));
    ("context_window_size", Some (PInt 0)); ("prefill_chunk_size", Some (PInt 0));
    ("tensor_parallel_shards", Some (PInt 1)); ("max_batch_size", Some (PInt 1))];
  class_attrs := [];
  prepare := λ m, m;
  run_post_init := StableLmConfig_post_init;
|}.

(** [model/starcoder2/starcoder2_model.py]. *)
Definition Starcoder2Config_post_init : py unit := (
  when (self "context_window_size" == int 0)
    (window_from ["max_position_embeddings"; "max_sequence_length"] (py_raise ValueError no_window)) ;;
  when (self "head_dim" == int 0)
    (set_attr "head_dim" ((self "hidden_size") `floordiv` (self "num_attention_heads"))) ;;
  py_check ((self "head_dim") * (self "num_attention_heads") == self "hidden_size") "" ;;
  clamp_prefill 8192)%py.

Definition Starcoder2Config : config_class := {|
  class_name := "Starcoder2Config";
  class_fields := [
    ("vocab_size", None); ("hidden_size", None); ("num_hidden_layers", None);
    ("num_attention_heads", None); ("num_key_value_heads", None); ("hidden_act", None);
    ("norm_epsilon", None); ("intermediate_size", None); ("rope_theta", None); ("use_bias", None);
    ("use_cache", None); ("bos_token_id", None); ("eos_token_id", None);
    ("context_window_size", Some (PInt 0)); ("prefill_chunk_size", Some (PInt 0));
    ("tensor_parallel_shards", Some (PInt 1)); ("max_batch_size", Some (PInt 1));
    ("head_dim", Some (PInt 0))];
  class_attrs := [];
  prepare := λ m, m;
  run_post_init := Starcoder2Config_post_init;
|}.

(** [model/vision/clip_vision.py]. *)
Definition CLIPVisionConfig : config_class := {|
  class_name := "CLIPVisionConfig";
  class_fields := [
    ("hidden_size", None); ("image_size", None); ("intermediate_size", None);
    ("num_attention_heads", None); ("num_hidden_layers", None); ("patch_size", None);
    ("projection_dim", None); ("vocab_size", None); ("num_channels", Some (PInt 3));
    ("layer_norm_eps", Some (PFloat (Fin (4722366482869645 # 4722366482869645213696))))];
  class_attrs := [];
  prepare := λ m, m;
  run_post_init := skip;
|}.

(** [model/mistral/mistral_model.py]. *)
Definition mistral_windows : py unit := (
  when (self "sliding_window_size" == int 0)
    (set_attr "sliding_window_size" (kwargs_pop_default "sliding_window" (PInt (-1)))) ;;
  when (is_none (self "sliding_window_size"))
    (set_attr "sliding_window_size" (int (-1))) ;;
  when (self "context_window_size" == int 0)
    (ifte (self "sliding_window_size" == int (-1))
       (window_from ["max_position_embeddings"; "max_sequence_length"] (py_raise ValueError no_window))
       (set_attr "context_window_size" (int (-1)))) ;;
  when (self "num_key_value_heads" == int 0)
    (set_attr "num_key_value_heads" (self "num_attention_heads")) ;;
  when (self "head_dim" == int 0)
    (set_attr "head_dim" ((self "hidden_size") `floordiv` (self "num_attention_heads"))) ;;
  py_check ((self "num_attention_heads") `mod` (self "num_key_value_heads") == int 0) "" ;;
  py_check (self "attention_sink_size" >= int 0) "" ;;
  sliding_prefill)%py.

Definition MistralConfig_post_init : py unit := rope_base ;; mistral_windows.

Definition MistralConfig : config_class := {|
  class_name := "MistralConfig";
  class_fields := [
    ("hidden_size", None); ("intermediate_size", None); ("num_attention_heads", None);
    ("num_hidden_layers", None); ("rms_norm_eps", None); ("vocab_size", None);
    ("position_embedding_base", Some (PInt 0)); ("num_key_value_heads", Some (PInt 0));
    ("head_dim", Some (PInt 0)); ("context_window_size", Some (PInt 0));
    ("sliding_window_size", Some (PInt 0)); ("prefill_chunk_size", Some (PInt 0));
    ("attention_sink_size", Some (PInt 4)); ("tensor_parallel_shards", Some (PInt 1));
    ("max_batch_size", Some (PInt 1))];
  class_attrs := [];
  prepare := λ m, m;
  run_post_init := MistralConfig_post_init;
|}.

(** [model/ministral3/ministral3_model.py]. Its [from_dict] moves the keys of a
    [text_config] dictionary to the top, but two keys of the top win. *)
Definition Ministral3Config_from_dict (source : gmap string pyval) : gmap string pyval :=
  match source !! "text_config" with
  | Some (PDict text_cfg) =>
      let merged := list_to_map text_cfg ∪ delete "text_config" source in
      let merged := match source !! "tie_word_embeddings" with
                    | Some v => <["tie_word_embeddings" := v]> merged | None => merged end in
      match source !! "dtype" with Some v => <["dtype" := v]> merged | None => merged end
  | _ => source
  end.

Definition ministral3_quantization (quantization_config : pyval) : py unit := (
  ifte (lift1 (λ v, Ok (is_dict v)) (lit quantization_config))
    (activation_scheme ← get_item (lit quantization_config) "activation_scheme" (PStr "");
     quant_method ← get_item (lit quantization_config) "quant_method" (PStr "");
     weight_block_size ← get_item (lit quantization_config) "weight_block_size" PNone;
     modules_to_not_convert ← get_item (lit quantization_config) "modules_to_not_convert" (PList []);
     when (lift1 (λ v, Ok (is_list v)) (lit modules_to_not_convert))
       (set_attr "modules_to_not_convert" (lit modules_to_not_convert)) ;;
     ifte (py_and (lit quant_method == str "fp8") (lit activation_scheme == str "static"))
       (ifte (py_not (is_none (lit weight_block_size)))
          (set_attr "weight_block_size" (lit weight_block_size) ;;
           when (py_or (py_not (lift1 (λ v, Ok (is_list v)) (self "weight_block_size")))
              (lift1 py_len (self "weight_block_size") != int 2))
             (py_raise ValueError "Invalid Ministral3 quantization config: "))
          (set_attr "weight_block_size" (lit (PList [PInt 128; PInt 128]))))
       (py_raise ValueError "Invalid Ministral 3 model quantization config: "))
    (py_raise ValueError "Invalid Ministral 3 model quantization config: "))%py.

Definition Ministral3Config_post_init : py unit := (
  when (in_kwargs "quantization_config")
    (quantization_config ← kwargs_pop "quantization_config";
     ministral3_quantization quantization_config) ;;
  when (self "position_embedding_base" == int 0)
    (ifte (py_and (py_not (is_none (self "rope_parameters"))) (has_item "rope_theta" (self "rope_parameters")))
       (set_attr "position_embedding_base" (pop_item "rope_parameters" "rope_theta"))
       (ifte (in_kwargs "rope_theta")
          (set_attr "position_embedding_base" (kwargs_pop "rope_theta"))
          (set_attr "position_embedding_base" (int 10000)))) ;;
  mistral_windows)%py.

Definition Ministral3Config : config_class := {|
  class_name := "Ministral3Config";
  class_fields := [
    ("hidden_size", None); ("intermediate_size", None); ("num_attention_heads", None);
    ("num_hidden_layers", None); ("rms_norm_eps", None); ("vocab_size", None);
    ("attention_sink_size", Some (PInt 0)); ("context_window_size", Some (PInt 0));
    ("dtype", Some (PStr "float32")); ("head_dim", Some (PInt 0)); ("hidden_act", Some (PStr "silu"));
    ("max_batch_size", Some (PInt 1)); ("num_key_value_heads", Some (PInt 0));
    ("position_embedding_base", Some (PInt 0)); ("prefill_chunk_size", Some (PInt 0));
    ("rope_parameters", Some PNone); ("sliding_window_size", Some (PInt 0));
    ("tensor_parallel_shards", Some (PInt 1)); ("tie_word_embeddings", Some (PBool false));
    ("weight_block_size", Some PNone); ("modules_to_not_convert", Some (PList []))];
  class_attrs := [];
  prepare := Ministral3Config_from_dict;
  run_post_init := Ministral3Config_post_init;
|}.
