(* ===== verification/ModelPresets.v ===== *)
(** The built-in models: [MODEL_PRESETS] of [python/mlc_llm/model/model_preset.py],
    one definition per entry. A float literal is the exact value of the double
    it denotes. *)

From Stdlib Require Import QArith ZArith.
From stdpp Require Import base strings list.
From S2P Require Import Prelude.
Close Scope Q_scope.

Definition preset_llama2_7b : list (string * pyval) := [
    ("architectures", PList [PStr "LlamaForCausalLM"]); ("bos_token_id", PInt 1);
    ("eos_token_id", PInt 2); ("hidden_act", PStr "silu"); ("hidden_size", PInt 4096);
    ("initializer_range", PFloat (Fin (5764607523034235 # 288230376151711744)));
    ("intermediate_size", PInt 11008); ("max_position_embeddings", PInt 2048);
    ("model_type", PStr "llama"); ("num_attention_heads", PInt 32);
    ("num_hidden_layers", PInt 32); ("num_key_value_heads", PInt 32); ("pad_token_id", PInt 0);
    ("pretraining_tp", PInt 1);
    ("rms_norm_eps", PFloat (Fin (5902958103587057 # 590295810358705651712)));
    ("rope_scaling", PNone); ("tie_word_embeddings", PBool false);
    ("torch_dtype", PStr "float16"); ("transformers_version", PStr "4.31.0.dev0");
    ("use_cache", PBool true); ("vocab_size", PInt 32000); ("context_window_size", PInt 2048);
    ("prefill_chunk_size", PInt 2048)].

Definition preset_llama2_13b : list (string * pyval) := [
    ("_name_or_path", PStr "meta-llama/Llama-2-13b-hf");
    ("architectures", PList [PStr "LlamaForCausalLM"]); ("bos_token_id", PInt 1);
    ("eos_token_id", PInt 2); ("hidden_act", PStr "silu"); ("hidden_size", PInt 5120);
    ("initializer_range", PFloat (Fin (5764607523034235 # 288230376151711744)));
    ("intermediate_size", PInt 13824); ("max_position_embeddings", PInt 2048);
    ("model_type", PStr "llama"); ("num_attention_heads", PInt 40);
    ("num_hidden_layers", PInt 40); ("num_key_value_heads", PInt 40); ("pad_token_id", PInt 0);
    ("pretraining_tp", PInt 2);
    ("rms_norm_eps", PFloat (Fin (5902958103587057 # 590295810358705651712)));
    ("rope_scaling", PNone); ("tie_word_embeddings", PBool false);
    ("torch_dtype", PStr "float16"); ("transformers_version", PStr "4.31.0.dev0");
    ("use_cache", PBool true); ("vocab_size", PInt 32000); ("context_window_size", PInt 2048);
    ("prefill_chunk_size", PInt 2048)].

Definition preset_llama2_70b : list (string * pyval) := [
    ("architectures", PList [PStr "LlamaForCausalLM"]); ("bos_token_id", PInt 1);
    ("eos_token_id", PInt 2); ("hidden_act", PStr "silu"); ("hidden_size", PInt 8192);
    ("initializer_range", PFloat (Fin (5764607523034235 # 288230376151711744)));
    ("intermediate_size", PInt 28672); ("max_position_embeddings", PInt 2048);
    ("model_type", PStr "llama"); ("num_attention_heads", PInt 64);
    ("num_hidden_layers", PInt 80); ("num_key_value_heads", PInt 8); ("pad_token_id", PInt 0);
    ("rms_norm_eps", PFloat (Fin (5902958103587057 # 590295810358705651712)));
    ("tie_word_embeddings", PBool false); ("torch_dtype", PStr "float16");
    ("transformers_version", PStr "4.31.0.dev0"); ("use_cache", PBool true);
    ("vocab_size", PInt 32000); ("context_window_size", PInt 2048);
    ("prefill_chunk_size", PInt 2048)].

Definition preset_codellama_7b : list (string * pyval) := [
    ("_name_or_path", PStr "codellama/CodeLlama-7b-hf");
    ("architectures", PList [PStr "LlamaForCausalLM"]); ("bos_token_id", PInt 1);
    ("eos_token_id", PInt 2); ("hidden_act", PStr "silu"); ("hidden_size", PInt 4096);
    ("initializer_range", PFloat (Fin (5764607523034235 # 288230376151711744)));
    ("intermediate_size", PInt 11008); ("max_position_embeddings", PInt 16384);
    ("model_type", PStr "llama"); ("num_attention_heads", PInt 32);
    ("num_hidden_layers", PInt 32); ("num_key_value_heads", PInt 32);
    ("pretraining_tp", PInt 1);
    ("rms_norm_eps", PFloat (Fin (5902958103587057 # 590295810358705651712)));
    ("rope_scaling", PNone); ("rope_theta", PInt 1000000); ("tie_word_embeddings", PBool false);
    ("torch_dtype", PStr "bfloat16"); ("transformers_version", PStr "4.33.0.dev0");
    ("use_cache", PBool true); ("vocab_size", PInt 32016); ("context_window_size", PInt 2048);
    ("prefill_chunk_size", PInt 2048)].

Definition preset_codellama_13b : list (string * pyval) := [
    ("architectures", PList [PStr "LlamaForCausalLM"]); ("bos_token_id", PInt 1);
    ("eos_token_id", PInt 2); ("hidden_act", PStr "silu"); ("hidden_size", PInt 5120);
    ("initializer_range", PFloat (Fin (5764607523034235 # 288230376151711744)));
    ("intermediate_size", PInt 13824); ("max_position_embeddings", PInt 16384);
    ("model_type", PStr "llama"); ("num_attention_heads", PInt 40);
    ("num_hidden_layers", PInt 40); ("num_key_value_heads", PInt 40);
    ("pretraining_tp", PInt 1);
    ("rms_norm_eps", PFloat (Fin (5902958103587057 # 590295810358705651712)));
    ("rope_scaling", PNone); ("rope_theta", PInt 1000000); ("tie_word_embeddings", PBool false);
    ("torch_dtype", PStr "bfloat16"); ("transformers_version", PStr "4.32.0.dev0");
    ("use_cache", PBool true); ("vocab_size", PInt 32016); ("context_window_size", PInt 2048);
    ("prefill_chunk_size", PInt 2048)].

Definition preset_codellama_34b : list (string * pyval) := [
    ("architectures", PList [PStr "LlamaForCausalLM"]); ("bos_token_id", PInt 1);
    ("eos_token_id", PInt 2); ("hidden_act", PStr "silu"); ("hidden_size", PInt 8192);
    ("initializer_range", PFloat (Fin (5764607523034235 # 288230376151711744)));
    ("intermediate_size", PInt 22016); ("max_position_embeddings", PInt 16384);
    ("model_type", PStr "llama"); ("num_attention_heads", PInt 64);
    ("num_hidden_layers", PInt 48); ("num_key_value_heads", PInt 8); ("pretraining_tp", PInt 1);
    ("rms_norm_eps", PFloat (Fin (5902958103587057 # 590295810358705651712)));
    ("rope_scaling", PNone); ("rope_theta", PInt 1000000); ("tie_word_embeddings", PBool false);
    ("torch_dtype", PStr "bfloat16"); ("transformers_version", PStr "4.32.0.dev0");
    ("use_cache", PBool true); ("vocab_size", PInt 32016); ("context_window_size", PInt 2048);
    ("prefill_chunk_size", PInt 2048)].

Definition preset_tinyllama_1b_chat_v0_4 : list (string * pyval) := [
    ("_name_or_path", PStr "/data/tianduo/tinyllama-ft/checkpoint-3890");
    ("architectures", PList [PStr "LlamaForCausalLM"]); ("bos_token_id", PInt 1);
    ("eos_token_id", PInt 2); ("hidden_act", PStr "silu"); ("hidden_size", PInt 2048);
    ("initializer_range", PFloat (Fin (5764607523034235 # 288230376151711744)));
    ("intermediate_size", PInt 5632); ("max_position_embeddings", PInt 2048);
    ("model_type", PStr "llama"); ("num_attention_heads", PInt 32);
    ("num_hidden_layers", PInt 22); ("num_key_value_heads", PInt 4); ("pretraining_tp", PInt 1);
    ("rms_norm_eps", PFloat (Fin (5902958103587057 # 590295810358705651712)));
    ("rope_scaling", PNone); ("rope_theta", PFloat (Fin (10000 # 1)));
    ("tie_word_embeddings", PBool false); ("torch_dtype", PStr "float32");
    ("transformers_version", PStr "4.33.1"); ("use_cache", PBool false);
    ("vocab_size", PInt 32003)].

Definition preset_tinyllama_1b_chat_v1_0 : list (string * pyval) := [
    ("architectures", PList [PStr "LlamaForCausalLM"]); ("attention_bias", PBool false);
    ("bos_token_id", PInt 1); ("eos_token_id", PInt 2); ("hidden_act", PStr "silu");
    ("hidden_size", PInt 2048);
    ("initializer_range", PFloat (Fin (5764607523034235 # 288230376151711744)));
    ("intermediate_size", PInt 5632); ("max_position_embeddings", PInt 2048);
    ("model_type", PStr "llama"); ("num_attention_heads", PInt 32);
    ("num_hidden_layers", PInt 22); ("num_key_value_heads", PInt 4); ("pretraining_tp", PInt 1);
    ("rms_norm_eps", PFloat (Fin (5902958103587057 # 590295810358705651712)));
    ("rope_scaling", PNone); ("rope_theta", PFloat (Fin (10000 # 1)));
    ("tie_word_embeddings", PBool false); ("torch_dtype", PStr "bfloat16");
    ("transformers_version", PStr "4.35.0"); ("use_cache", PBool true);
    ("vocab_size", PInt 32000)].

Definition preset_mistral_7b : list (string * pyval) := [
    ("architectures", PList [PStr "MistralForCausalLM"]); ("bos_token_id", PInt 1);
    ("eos_token_id", PInt 2); ("hidden_act", PStr "silu"); ("hidden_size", PInt 4096);
    ("initializer_range", PFloat (Fin (5764607523034235 # 288230376151711744)));
    ("intermediate_size", PInt 14336); ("max_position_embeddings", PInt 32768);
    ("model_type", PStr "mistral"); ("num_attention_heads", PInt 32);
    ("num_hidden_layers", PInt 32); ("num_key_value_heads", PInt 8);
    ("rms_norm_eps", PFloat (Fin (5902958103587057 # 590295810358705651712)));
    ("rope_theta", PFloat (Fin (10000 # 1))); ("tie_word_embeddings", PBool false);
    ("torch_dtype", PStr "bfloat16"); ("transformers_version", PStr "4.34.0.dev0");
    ("use_cache", PBool true); ("vocab_size", PInt 32000); ("sliding_window_size", PInt 4096);
    ("prefill_chunk_size", PInt 128); ("attention_sink_size", PInt 4)].

Definition preset_mistral_7b_v03 : list (string * pyval) := [
    ("architectures", PList [PStr "MistralForCausalLM"]);
    ("attention_dropout", PFloat (Fin (0 # 1))); ("bos_token_id", PInt 1);
    ("eos_token_id", PInt 2); ("hidden_act", PStr "silu"); ("hidden_size", PInt 4096);
    ("initializer_range", PFloat (Fin (5764607523034235 # 288230376151711744)));
    ("intermediate_size", PInt 14336); ("max_position_embeddings", PInt 32768);
    ("model_type", PStr "mistral"); ("num_attention_heads", PInt 32);
    ("num_hidden_layers", PInt 32); ("num_key_value_heads", PInt 8);
    ("rms_norm_eps", PFloat (Fin (5902958103587057 # 590295810358705651712)));
    ("rope_theta", PFloat (Fin (1000000 # 1))); ("sliding_window", PNone);
    ("tie_word_embeddings", PBool false); ("torch_dtype", PStr "bfloat16");
    ("transformers_version", PStr "4.42.0.dev0"); ("use_cache", PBool true);
    ("vocab_size", PInt 32768)].

Definition preset_ministral3_3b_2512 : list (string * pyval) := [
    ("architectures", PList [PStr "Mistral3ForConditionalGeneration"]);
    ("dtype", PStr "bfloat16"); ("image_token_index", PInt 10);
    ("model_type", PStr "ministral3"); ("multimodal_projector_bias", PBool false);
    ("projector_hidden_act", PStr "gelu"); ("spatial_merge_size", PInt 2);
    ("text_config", PDict [
      ("attention_dropout", PFloat (Fin (0 # 1))); ("head_dim", PInt 128);
      ("hidden_act", PStr "silu"); ("hidden_size", PInt 3072);
      ("initializer_range", PFloat (Fin (5764607523034235 # 288230376151711744)));
      ("intermediate_size", PInt 9216); ("max_position_embeddings", PInt 262144);
      ("model_type", PStr "ministral3"); ("num_attention_heads", PInt 32);
      ("num_hidden_layers", PInt 26); ("num_key_value_heads", PInt 8);
      ("rms_norm_eps", PFloat (Fin (5902958103587057 # 590295810358705651712)));
      ("rope_parameters", PDict [
        ("beta_fast", PFloat (Fin (32 # 1))); ("beta_slow", PFloat (Fin (1 # 1)));
        ("factor", PFloat (Fin (16 # 1)));
        ("llama_4_scaling_beta", PFloat (Fin (3602879701896397 # 36028797018963968)));
        ("mscale", PFloat (Fin (1 # 1))); ("mscale_all_dim", PFloat (Fin (1 # 1)));
        ("original_max_position_embeddings", PInt 16384);
        ("rope_theta", PFloat (Fin (1000000 # 1))); ("rope_type", PStr "yarn");
        ("type", PStr "yarn")]);
      ("sliding_window", PNone); ("tie_word_embeddings", PBool true); ("use_cache", PBool true);
      ("vocab_size", PInt 131072)]);
    ("transformers_version", PStr "5.0.0.dev0");
    ("vision_config", PDict [
      ("attention_dropout", PFloat (Fin (0 # 1))); ("head_dim", PInt 64);
      ("hidden_act", PStr "silu"); ("hidden_size", PInt 1024); ("image_size", PInt 1540);
      ("initializer_range", PFloat (Fin (5764607523034235 # 288230376151711744)));
      ("intermediate_size", PInt 4096); ("model_type", PStr "pixtral");
      ("num_attention_heads", PInt 16); ("num_channels", PInt 3);
      ("num_hidden_layers", PInt 24); ("patch_size", PInt 14);
      ("rope_parameters", PDict [
        ("rope_theta", PFloat (Fin (10000 # 1))); ("rope_type", PStr "default")]);
      ("rope_theta", PFloat (Fin (10000 # 1)))]);
    ("vision_feature_layer", PInt (-1))].

Definition preset_gpt2 : list (string * pyval) := [
    ("activation_function", PStr "gelu_new"); ("architectures", PList [PStr "GPT2LMHeadModel"]);
    ("attn_pdrop", PFloat (Fin (3602879701896397 # 36028797018963968)));
    ("bos_token_id", PInt 50256);
    ("embd_pdrop", PFloat (Fin (3602879701896397 # 36028797018963968)));
    ("eos_token_id", PInt 50256);
    ("initializer_range", PFloat (Fin (5764607523034235 # 288230376151711744)));
    ("layer_norm_epsilon", PFloat (Fin (5902958103587057 # 590295810358705651712)));
    ("model_type", PStr "gpt2"); ("n_ctx", PInt 1024); ("n_embd", PInt 768);
    ("n_head", PInt 12); ("n_layer", PInt 12); ("n_positions", PInt 1024);
    ("resid_pdrop", PFloat (Fin (3602879701896397 # 36028797018963968)));
    ("summary_activation", PNone);
    ("summary_first_dropout", PFloat (Fin (3602879701896397 # 36028797018963968)));
    ("summary_proj_to_labels", PBool true); ("summary_type", PStr "cls_index");
    ("summary_use_proj", PBool true);
    ("task_specific_params", PDict [
      ("text-generation", PDict [
        ("do_sample", PBool true); ("max_length", PInt 50)])]);
    ("vocab_size", PInt 50257)].

Definition preset_gpt2_medium : list (string * pyval) := [
    ("activation_function", PStr "gelu_new"); ("architectures", PList [PStr "GPT2LMHeadModel"]);
    ("attn_pdrop", PFloat (Fin (3602879701896397 # 36028797018963968)));
    ("bos_token_id", PInt 50256);
    ("embd_pdrop", PFloat (Fin (3602879701896397 # 36028797018963968)));
    ("eos_token_id", PInt 50256);
    ("initializer_range", PFloat (Fin (5764607523034235 # 288230376151711744)));
    ("layer_norm_epsilon", PFloat (Fin (5902958103587057 # 590295810358705651712)));
    ("model_type", PStr "gpt2"); ("n_ctx", PInt 1024); ("n_embd", PInt 1024);
    ("n_head", PInt 16); ("n_layer", PInt 24); ("n_positions", PInt 1024);
    ("n_special", PInt 0); ("predict_special_tokens", PBool true);
    ("resid_pdrop", PFloat (Fin (3602879701896397 # 36028797018963968)));
    ("summary_activation", PNone);
    ("summary_first_dropout", PFloat (Fin (3602879701896397 # 36028797018963968)));
    ("summary_proj_to_labels", PBool true); ("summary_type", PStr "cls_index");
    ("summary_use_proj", PBool true);
    ("task_specific_params", PDict [
      ("text-generation", PDict [
        ("do_sample", PBool true); ("max_length", PInt 50)])]);
    ("vocab_size", PInt 50257)].

Definition preset_gpt_bigcode : list (string * pyval) := [
    ("activation_function", PStr "gelu_pytorch_tanh");
    ("architectures", PList [PStr "GPTBigCodeForCausalLM"]);
    ("attention_softmax_in_fp32", PBool true); ("multi_query", PBool true);
    ("attn_pdrop", PFloat (Fin (3602879701896397 # 36028797018963968)));
    ("bos_token_id", PInt 49152);
    ("embd_pdrop", PFloat (Fin (3602879701896397 # 36028797018963968)));
    ("eos_token_id", PInt 49152);
    ("initializer_range", PFloat (Fin (5764607523034235 # 288230376151711744)));
    ("layer_norm_epsilon", PFloat (Fin (5902958103587057 # 590295810358705651712)));
    ("model_type", PStr "gpt_bigcode"); ("n_embd", PInt 2048); ("n_head", PInt 16);
    ("n_inner", PInt 8192); ("n_layer", PInt 24); ("n_positions", PInt 2048);
    ("resid_pdrop", PFloat (Fin (3602879701896397 # 36028797018963968)));
    ("runner_max_sequence_length", PNone); ("scale_attention_softmax_in_fp32", PBool true);
    ("scale_attn_weights", PBool true); ("summary_activation", PNone);
    ("summary_first_dropout", PFloat (Fin (3602879701896397 # 36028797018963968)));
    ("summary_proj_to_labels", PBool true); ("summary_type", PStr "cls_index");
    ("summary_use_proj", PBool true); ("transformers_version", PStr "4.28.0.dev0");
    ("use_cache", PBool true); ("vocab_size", PInt 49280)].

Definition preset_Mixtral_8x7B_v0_1 : list (string * pyval) := [
    ("architectures", PList [PStr "MixtralForCausalLM"]);
    ("attention_dropout", PFloat (Fin (0 # 1))); ("bos_token_id", PInt 1);
    ("eos_token_id", PInt 2); ("hidden_act", PStr "silu"); ("hidden_size", PInt 4096);
    ("initializer_range", PFloat (Fin (5764607523034235 # 288230376151711744)));
    ("intermediate_size", PInt 14336); ("max_position_embeddings", PInt 32768);
    ("model_type", PStr "mixtral"); ("num_attention_heads", PInt 32);
    ("num_experts_per_tok", PInt 2); ("num_hidden_layers", PInt 32);
    ("num_key_value_heads", PInt 8); ("num_local_experts", PInt 8);
    ("output_router_logits", PBool false);
    ("rms_norm_eps", PFloat (Fin (5902958103587057 # 590295810358705651712)));
    ("rope_theta", PFloat (Fin (1000000 # 1)));
    ("router_aux_loss_coef", PFloat (Fin (5764607523034235 # 288230376151711744)));
    ("sliding_window", PNone); ("tie_word_embeddings", PBool false);
    ("torch_dtype", PStr "bfloat16"); ("transformers_version", PStr "4.36.0.dev0");
    ("use_cache", PBool true); ("vocab_size", PInt 32000)].

Definition preset_redpajama_3b_v1 : list (string * pyval) := [
    ("_name_or_path", PStr "/root/fm/models/rp_3b_800b_real_fp16");
    ("architectures", PList [PStr "GPTNeoXForCausalLM"]); ("bos_token_id", PInt 0);
    ("eos_token_id", PInt 0); ("hidden_act", PStr "gelu"); ("hidden_size", PInt 2560);
    ("initializer_range", PFloat (Fin (5764607523034235 # 288230376151711744)));
    ("intermediate_size", PInt 10240);
    ("layer_norm_eps", PFloat (Fin (5902958103587057 # 590295810358705651712)));
    ("max_position_embeddings", PInt 2048); ("model_type", PStr "gpt_neox");
    ("num_attention_heads", PInt 32); ("num_hidden_layers", PInt 32);
    ("rotary_emb_base", PInt 10000); ("rotary_pct", PFloat (Fin (1 # 1)));
    ("tie_word_embeddings", PBool false); ("torch_dtype", PStr "float16");
    ("transformers_version", PStr "4.28.1"); ("use_cache", PBool true);
    ("use_parallel_residual", PBool false); ("vocab_size", PInt 50432)].

Definition preset_phi_1_5 : list (string * pyval) := [
    ("_name_or_path", PStr "microsoft/phi-1_5"); ("activation_function", PStr "gelu_new");
    ("architectures", PList [PStr "PhiForCausalLM"]); ("attn_pdrop", PFloat (Fin (0 # 1)));
    ("auto_map", PDict [
      ("AutoConfig", PStr "configuration_phi.PhiConfig");
      ("AutoModelForCausalLM", PStr "modeling_phi.PhiForCausalLM")]);
    ("embd_pdrop", PFloat (Fin (0 # 1))); ("flash_attn", PBool false);
    ("flash_rotary", PBool false); ("fused_dense", PBool false);
    ("initializer_range", PFloat (Fin (5764607523034235 # 288230376151711744)));
    ("layer_norm_epsilon", PFloat (Fin (5902958103587057 # 590295810358705651712)));
    ("model_type", PStr "phi-msft"); ("n_embd", PInt 2048); ("n_head", PInt 32);
    ("n_head_kv", PNone); ("n_inner", PNone); ("n_layer", PInt 24); ("n_positions", PInt 2048);
    ("resid_pdrop", PFloat (Fin (0 # 1))); ("rotary_dim", PInt 32);
    ("tie_word_embeddings", PBool false); ("torch_dtype", PStr "float16");
    ("transformers_version", PStr "4.34.1"); ("vocab_size", PInt 51200)].

Definition preset_phi_2 : list (string * pyval) := [
    ("_name_or_path", PStr "microsoft/phi-2"); ("activation_function", PStr "gelu_new");
    ("architectures", PList [PStr "PhiForCausalLM"]); ("attn_pdrop", PFloat (Fin (0 # 1)));
    ("auto_map", PDict [
      ("AutoConfig", PStr "configuration_phi.PhiConfig");
      ("AutoModelForCausalLM", PStr "modeling_phi.PhiForCausalLM")]);
    ("embd_pdrop", PFloat (Fin (0 # 1))); ("flash_attn", PBool false);
    ("flash_rotary", PBool false); ("fused_dense", PBool false); ("img_processor", PNone);
    ("initializer_range", PFloat (Fin (5764607523034235 # 288230376151711744)));
    ("layer_norm_epsilon", PFloat (Fin (5902958103587057 # 590295810358705651712)));
    ("model_type", PStr "phi-msft"); ("n_embd", PInt 2560); ("n_head", PInt 32);
    ("n_head_kv", PNone); ("n_inner", PNone); ("n_layer", PInt 32); ("n_positions", PInt 2048);
    ("resid_pdrop", PFloat (Fin (3602879701896397 # 36028797018963968)));
    ("rotary_dim", PInt 32); ("tie_word_embeddings", PBool false);
    ("torch_dtype", PStr "float16"); ("transformers_version", PStr "4.35.2");
    ("vocab_size", PInt 51200)].

Definition preset_phi_3_5 : list (string * pyval) := [
    ("_name_or_path", PStr "Phi-3.5-mini-instruct");
    ("architectures", PList [PStr "Phi3ForCausalLM"]);
    ("attention_dropout", PFloat (Fin (0 # 1)));
    ("auto_map", PDict [
      ("AutoConfig", PStr "configuration_phi3.Phi3Config");
      ("AutoModelForCausalLM", PStr "modeling_phi3.Phi3ForCausalLM")]);
    ("bos_token_id", PInt 1); ("embd_pdrop", PFloat (Fin (0 # 1)));
    ("eos_token_id", PInt 32000); ("hidden_act", PStr "silu"); ("hidden_size", PInt 3072);
    ("initializer_range", PFloat (Fin (5764607523034235 # 288230376151711744)));
    ("intermediate_size", PInt 8192); ("max_position_embeddings", PInt 131072);
    ("model_type", PStr "phi3"); ("num_attention_heads", PInt 32);
    ("num_hidden_layers", PInt 32); ("num_key_value_heads", PInt 32);
    ("original_max_position_embeddings", PInt 4096); ("pad_token_id", PInt 32000);
    ("resid_pdrop", PFloat (Fin (0 # 1)));
    ("rms_norm_eps", PFloat (Fin (5902958103587057 # 590295810358705651712)));
    ("rope_scaling", PDict [
      ("long_factor", PList [
        PFloat (Fin (9059697 # 8388608)); PFloat (Fin (9311355 # 8388608));
        PFloat (Fin (9563013 # 8388608)); PFloat (Fin (11240735 # 8388608));
        PFloat (Fin (6668943 # 4194304)); PFloat (Fin (13421773 # 8388608));
        PFloat (Fin (13589545 # 8388608)); PFloat (Fin (10989077 # 4194304));
        PFloat (Fin (6773801 # 2097152)); PFloat (Fin (6773801 # 2097152));
        PFloat (Fin (5022679 # 1048576)); PFloat (Fin (15518925 # 2097152));
        PFloat (Fin (16148071 # 2097152)); PFloat (Fin (2382889 # 262144));
        PFloat (Fin (12792627 # 1048576)); PFloat (Fin (9264169 # 524288));
        PFloat (Fin (12824085 # 524288)); PFloat (Fin (14978909 # 524288));
        PFloat (Fin (7974421 # 262144)); PFloat (Fin (16169043 # 524288));
        PFloat (Fin (4271637 # 131072)); PFloat (Fin (8632403 # 262144));
        PFloat (Fin (11093935 # 262144)); PFloat (Fin (11785995 # 262144));
        PFloat (Fin (6598165 # 131072)); PFloat (Fin (6612583 # 131072));
        PFloat (Fin (3771597 # 65536)); PFloat (Fin (15186003 # 262144));
        PFloat (Fin (15259403 # 262144)); PFloat (Fin (15765341 # 262144));
        PFloat (Fin (16412837 # 262144)); PFloat (Fin (8207729 # 131072));
        PFloat (Fin (16439051 # 262144)); PFloat (Fin (16551773 # 262144));
        PFloat (Fin (16551773 # 262144)); PFloat (Fin (4179231 # 65536));
        PFloat (Fin (16758867 # 262144)); PFloat (Fin (16766731 # 262144));
        PFloat (Fin (2096169 # 32768)); PFloat (Fin (2098135 # 32768));
        PFloat (Fin (8397783 # 131072)); PFloat (Fin (4199547 # 65536));
        PFloat (Fin (8404337 # 131072)); PFloat (Fin (2110587 # 32768));
        PFloat (Fin (8451523 # 131072)); PFloat (Fin (8455455 # 131072));
        PFloat (Fin (2114519 # 32768)); PFloat (Fin (2124677 # 32768))]);
      ("short_factor", PList [
        PFloat (Fin (1 # 1)); PFloat (Fin (2139095 # 2097152));
        PFloat (Fin (4320133 # 4194304)); PFloat (Fin (4320133 # 4194304));
        PFloat (Fin (4404019 # 4194304)); PFloat (Fin (4404019 # 4194304));
        PFloat (Fin (4404019 # 4194304)); PFloat (Fin (4404019 # 4194304));
        PFloat (Fin (4404019 # 4194304)); PFloat (Fin (4487905 # 4194304));
        PFloat (Fin (2306867 # 2097152)); PFloat (Fin (4655677 # 4194304));
        PFloat (Fin (304087 # 262144)); PFloat (Fin (304087 # 262144));
        PFloat (Fin (4907335 # 4194304)); PFloat (Fin (10821303 # 8388608));
        PFloat (Fin (11240733 # 8388608)); PFloat (Fin (3523215 # 2097152));
        PFloat (Fin (15015607 # 8388608)); PFloat (Fin (15267265 # 8388608));
        PFloat (Fin (15518923 # 8388608)); PFloat (Fin (15770581 # 8388608));
        PFloat (Fin (16022239 # 8388608)); PFloat (Fin (16273897 # 8388608));
        PFloat (Fin (16693327 # 8388608)); PFloat (Fin (8472493 # 4194304));
        PFloat (Fin (8472493 # 4194304)); PFloat (Fin (8472493 # 4194304));
        PFloat (Fin (8472493 # 4194304)); PFloat (Fin (8472493 # 4194304));
        PFloat (Fin (8472493 # 4194304)); PFloat (Fin (2128609 # 1048576));
        PFloat (Fin (2128609 # 1048576)); PFloat (Fin (2128609 # 1048576));
        PFloat (Fin (2128609 # 1048576)); PFloat (Fin (2128609 # 1048576));
        PFloat (Fin (2128609 # 1048576)); PFloat (Fin (2128609 # 1048576));
        PFloat (Fin (2128609 # 1048576)); PFloat (Fin (2128609 # 1048576));
        PFloat (Fin (8724151 # 4194304)); PFloat (Fin (4383047 # 2097152));
        PFloat (Fin (2296381 # 1048576)); PFloat (Fin (9311353 # 4194304));
        PFloat (Fin (10863245 # 4194304)); PFloat (Fin (715653 # 262144));
        PFloat (Fin (5767167 # 2097152)); PFloat (Fin (11911821 # 4194304))]);
      ("type", PStr "longrope")]);
    ("rope_theta", PFloat (Fin (10000 # 1))); ("sliding_window", PInt 262144);
    ("tie_word_embeddings", PBool false); ("torch_dtype", PStr "bfloat16");
    ("transformers_version", PStr "4.43.3"); ("use_cache", PBool true);
    ("attention_bias", PBool false); ("vocab_size", PInt 32064)].

Definition preset_phi_3_5_vision : list (string * pyval) := [
    ("_name_or_path", PStr "Phi-3.5-vision-instruct");
    ("architectures", PList [PStr "Phi3VForCausalLM"]);
    ("attention_dropout", PFloat (Fin (0 # 1)));
    ("auto_map", PDict [
      ("AutoConfig", PStr "configuration_phi3_v.Phi3VConfig");
      ("AutoModelForCausalLM", PStr "modeling_phi3_v.Phi3VForCausalLM")]);
    ("bos_token_id", PInt 1);
    ("embd_layer", PDict [
      ("embedding_cls", PStr "image"); ("hd_transform_order", PStr "sub_glb");
      ("projection_cls", PStr "mlp"); ("use_hd_transform", PBool true);
      ("with_learnable_separator", PBool true)]);
    ("embd_pdrop", PFloat (Fin (0 # 1))); ("eos_token_id", PInt 2); ("hidden_act", PStr "silu");
    ("hidden_size", PInt 3072);
    ("img_processor", PDict [
      ("image_dim_out", PInt 1024); ("model_name", PStr "openai/clip-vit-large-patch14-336");
      ("name", PStr "clip_vision_model"); ("num_img_tokens", PInt 144)]);
    ("initializer_range", PFloat (Fin (5764607523034235 # 288230376151711744)));
    ("intermediate_size", PInt 8192); ("max_position_embeddings", PInt 131072);
    ("model_type", PStr "phi3_v"); ("num_attention_heads", PInt 32);
    ("num_hidden_layers", PInt 32); ("num_key_value_heads", PInt 32);
    ("original_max_position_embeddings", PInt 4096); ("pad_token_id", PInt 32000);
    ("resid_pdrop", PFloat (Fin (0 # 1)));
    ("rms_norm_eps", PFloat (Fin (5902958103587057 # 590295810358705651712)));
    ("rope_scaling", PDict [
      ("long_factor", PList [
        PFloat (Fin (9059697 # 8388608)); PFloat (Fin (9311355 # 8388608));
        PFloat (Fin (9563013 # 8388608)); PFloat (Fin (11240735 # 8388608));
        PFloat (Fin (6668943 # 4194304)); PFloat (Fin (13421773 # 8388608));
        PFloat (Fin (13589545 # 8388608)); PFloat (Fin (10989077 # 4194304));
        PFloat (Fin (6773801 # 2097152)); PFloat (Fin (6773801 # 2097152));
        PFloat (Fin (5022679 # 1048576)); PFloat (Fin (15518925 # 2097152));
        PFloat (Fin (16148071 # 2097152)); PFloat (Fin (2382889 # 262144));
        PFloat (Fin (12792627 # 1048576)); PFloat (Fin (9264169 # 524288));
        PFloat (Fin (12824085 # 524288)); PFloat (Fin (14978909 # 524288));
        PFloat (Fin (7974421 # 262144)); PFloat (Fin (16169043 # 524288));
        PFloat (Fin (4271637 # 131072)); PFloat (Fin (8632403 # 262144));
        PFloat (Fin (11093935 # 262144)); PFloat (Fin (11785995 # 262144));
        PFloat (Fin (6598165 # 131072)); PFloat (Fin (6612583 # 131072));
        PFloat (Fin (3771597 # 65536)); PFloat (Fin (15186003 # 262144));
        PFloat (Fin (15259403 # 262144)); PFloat (Fin (15765341 # 262144));
        PFloat (Fin (16412837 # 262144)); PFloat (Fin (8207729 # 131072));
        PFloat (Fin (16439051 # 262144)); PFloat (Fin (16551773 # 262144));
        PFloat (Fin (16551773 # 262144)); PFloat (Fin (4179231 # 65536));
        PFloat (Fin (16758867 # 262144)); PFloat (Fin (16766731 # 262144));
        PFloat (Fin (2096169 # 32768)); PFloat (Fin (2098135 # 32768));
        PFloat (Fin (8397783 # 131072)); PFloat (Fin (4199547 # 65536));
        PFloat (Fin (8404337 # 131072)); PFloat (Fin (2110587 # 32768));
        PFloat (Fin (8451523 # 131072)); PFloat (Fin (8455455 # 131072));
        PFloat (Fin (2114519 # 32768)); PFloat (Fin (2124677 # 32768))]);
      ("short_factor", PList [
        PFloat (Fin (607985949695017 # 562949953421312));
        PFloat (Fin (2476979795053773 # 2251799813685248));
        PFloat (Fin (5089067578928661 # 4503599627370496));
        PFloat (Fin (1441151880758559 # 1125899906842624));
        PFloat (Fin (5899715511855351 # 4503599627370496));
        PFloat (Fin (6530219459687221 # 4503599627370496));
        PFloat (Fin (6530219459687221 # 4503599627370496));
        PFloat (Fin (8782019273372471 # 4503599627370496));
        PFloat (Fin (71424275340329 # 35184372088832));
        PFloat (Fin (170996048351723 # 70368744177664));
        PFloat (Fin (723390690146383 # 281474976710656));
        PFloat (Fin (415175590648215 # 140737488355328));
        PFloat (Fin (1049901663130737 # 281474976710656));
        PFloat (Fin (272327039967557 # 70368744177664));
        PFloat (Fin (294845038104409 # 70368744177664));
        PFloat (Fin (2499497793190597 # 562949953421312));
        PFloat (Fin (2612087783874857 # 562949953421312));
        PFloat (Fin (2803490768038099 # 562949953421312));
        PFloat (Fin (2904821759653933 # 562949953421312));
        PFloat (Fin (2972375754064489 # 562949953421312));
        PFloat (Fin (3242591731706713 # 562949953421312));
        PFloat (Fin (1657887612825741 # 281474976710656));
        PFloat (Fin (1657887612825741 # 281474976710656));
        PFloat (Fin (1680405610962593 # 281474976710656));
        PFloat (Fin (1714182608167871 # 281474976710656));
        PFloat (Fin (3535325707485789 # 562949953421312));
        PFloat (Fin (1905585592331113 # 281474976710656));
        PFloat (Fin (1939362589536391 # 281474976710656));
        PFloat (Fin (1000643542206367 # 140737488355328));
        PFloat (Fin (2006916583946947 # 281474976710656));
        PFloat (Fin (4041980665564959 # 562949953421312));
        PFloat (Fin (2051952580220651 # 281474976710656));
        PFloat (Fin (4132052658112367 # 562949953421312));
        PFloat (Fin (4255901647865053 # 562949953421312));
        PFloat (Fin (4289678645070331 # 562949953421312));
        PFloat (Fin (4334714641344035 # 562949953421312));
        PFloat (Fin (4436045632959869 # 562949953421312));
        PFloat (Fin (4436045632959869 # 562949953421312));
        PFloat (Fin (4436045632959869 # 562949953421312));
        PFloat (Fin (4469822630165147 # 562949953421312));
        PFloat (Fin (139857879053105 # 17592186044416));
        PFloat (Fin (4492340628301999 # 562949953421312));
        PFloat (Fin (4616189618054685 # 562949953421312));
        PFloat (Fin (4751297606875797 # 562949953421312));
        PFloat (Fin (1192046526369609 # 140737488355328));
        PFloat (Fin (151116878121531 # 17592186044416));
        PFloat (Fin (2479794544820839 # 281474976710656));
        PFloat (Fin (5066549580791725 # 562949953421312))]);
      ("type", PStr "su")]);
    ("rope_theta", PFloat (Fin (10000 # 1))); ("sliding_window", PInt 262144);
    ("tie_word_embeddings", PBool false); ("torch_dtype", PStr "bfloat16");
    ("transformers_version", PStr "4.38.1"); ("use_cache", PBool true);
    ("vocab_size", PInt 32064); ("_attn_implementation", PStr "flash_attention_2")].

Definition preset_phi_4 : list (string * pyval) := [
    ("_name_or_path", PStr "Phi-4-mini-instruct");
    ("architectures", PList [PStr "Phi3ForCausalLM"]); ("attention_bias", PBool false);
    ("attention_dropout", PFloat (Fin (0 # 1)));
    ("auto_map", PDict [
      ("AutoConfig", PStr "configuration_phi3.Phi3Config");
      ("AutoModelForCausalLM", PStr "modeling_phi3.Phi3ForCausalLM");
      ("AutoTokenizer", PStr "Xenova/gpt-4o")]);
    ("bos_token_id", PInt 199999); ("embd_pdrop", PFloat (Fin (0 # 1)));
    ("eos_token_id", PInt 199999); ("full_attn_mod", PInt 1); ("hidden_act", PStr "silu");
    ("hidden_size", PInt 3072);
    ("initializer_range", PFloat (Fin (5764607523034235 # 288230376151711744)));
    ("intermediate_size", PInt 8192); ("interpolate_factor", PInt 1);
    ("lm_head_bias", PBool false); ("max_position_embeddings", PInt 131072);
    ("mlp_bias", PBool false); ("model_type", PStr "phi3"); ("num_attention_heads", PInt 24);
    ("num_hidden_layers", PInt 32); ("num_key_value_heads", PInt 8);
    ("original_max_position_embeddings", PInt 4096); ("pad_token_id", PInt 199999);
    ("partial_rotary_factor", PFloat (Fin (3 # 4))); ("resid_pdrop", PFloat (Fin (0 # 1)));
    ("rms_norm_eps", PFloat (Fin (5902958103587057 # 590295810358705651712)));
    ("rope_scaling", PDict [
      ("long_factor", PList [
        PInt 1; PFloat (Fin (5036468561699923 # 4503599627370496));
        PFloat (Fin (2816193454513909 # 2251799813685248));
        PFloat (Fin (3149407355500067 # 2251799813685248));
        PFloat (Fin (7044094701278991 # 4503599627370496));
        PFloat (Fin (3938778360750017 # 2251799813685248));
        PFloat (Fin (8809634522128771 # 4503599627370496));
        PFloat (Fin (4925998201439281 # 2251799813685248));
        PFloat (Fin (2754422809356235 # 1125899906842624));
        PFloat (Fin (3080327967125921 # 1125899906842624));
        PFloat (Fin (1722397221176015 # 562949953421312));
        PFloat (Fin (7704769670389499 # 2251799813685248));
        PFloat (Fin (8616403195862203 # 2251799813685248));
        PFloat (Fin (2408975453628327 # 562949953421312));
        PFloat (Fin (5388014095879215 # 1125899906842624));
        PFloat (Fin (6025527545250315 # 1125899906842624));
        PFloat (Fin (3369236006668963 # 562949953421312));
        PFloat (Fin (7535772550361883 # 1125899906842624));
        PFloat (Fin (32919571183467 # 4398046511104));
        PFloat (Fin (589034191521605 # 70368744177664));
        PFloat (Fin (2634916451573035 # 281474976710656));
        PFloat (Fin (5893363071990953 # 562949953421312));
        PFloat (Fin (205958429746595 # 17592186044416));
        PFloat (Fin (3685241112484033 # 281474976710656));
        PFloat (Fin (8242562640141309 # 562949953421312));
        PFloat (Fin (1152228523769497 # 70368744177664));
        PFloat (Fin (5154243906360197 # 281474976710656));
        PFloat (Fin (1441024377519921 # 70368744177664));
        PFloat (Fin (6446109402695267 # 281474976710656));
        PFloat (Fin (3604408699302637 # 140737488355328));
        PFloat (Fin (8061769517455199 # 281474976710656));
        PFloat (Fin (1126955438005289 # 35184372088832));
        PFloat (Fin (4517673376206029 # 140737488355328));
        PFloat (Fin (4521895500856689 # 140737488355328));
        PFloat (Fin (4535969249692221 # 140737488355328));
        PFloat (Fin (4588042120383693 # 140737488355328));
        PFloat (Fin (2294724747633623 # 70368744177664));
        PFloat (Fin (2296835809958953 # 70368744177664));
        PFloat (Fin (1149121592421253 # 35184372088832));
        PFloat (Fin (2301057934609613 # 70368744177664));
        PFloat (Fin (4603523244102779 # 140737488355328));
        PFloat (Fin (4634485491540951 # 140737488355328));
        PFloat (Fin (1160028747768791 # 35184372088832));
        PFloat (Fin (1170935903116329 # 35184372088832));
        PFloat (Fin (4713298485019935 # 140737488355328)); PFloat (Fin (67 # 2));
        PFloat (Fin (1553741871442821 # 35184372088832));
        PFloat (Fin (6723029818734019 # 140737488355328))]);
      ("short_factor", PList [
        PFloat (Fin (1 # 1)); PFloat (Fin (1 # 1)); PFloat (Fin (1 # 1)); PFloat (Fin (1 # 1));
        PFloat (Fin (1 # 1)); PFloat (Fin (1 # 1)); PFloat (Fin (1 # 1)); PFloat (Fin (1 # 1));
        PFloat (Fin (1 # 1)); PFloat (Fin (1 # 1)); PFloat (Fin (1 # 1)); PFloat (Fin (1 # 1));
        PFloat (Fin (1 # 1)); PFloat (Fin (1 # 1)); PFloat (Fin (1 # 1)); PFloat (Fin (1 # 1));
        PFloat (Fin (1 # 1)); PFloat (Fin (1 # 1)); PFloat (Fin (1 # 1)); PFloat (Fin (1 # 1));
        PFloat (Fin (1 # 1)); PFloat (Fin (1 # 1)); PFloat (Fin (1 # 1)); PFloat (Fin (1 # 1));
        PFloat (Fin (1 # 1)); PFloat (Fin (1 # 1)); PFloat (Fin (1 # 1)); PFloat (Fin (1 # 1));
        PFloat (Fin (1 # 1)); PFloat (Fin (1 # 1)); PFloat (Fin (1 # 1)); PFloat (Fin (1 # 1));
        PFloat (Fin (1 # 1)); PFloat (Fin (1 # 1)); PFloat (Fin (1 # 1)); PFloat (Fin (1 # 1));
        PFloat (Fin (1 # 1)); PFloat (Fin (1 # 1)); PFloat (Fin (1 # 1)); PFloat (Fin (1 # 1));
        PFloat (Fin (1 # 1)); PFloat (Fin (1 # 1)); PFloat (Fin (1 # 1)); PFloat (Fin (1 # 1));
        PFloat (Fin (1 # 1)); PFloat (Fin (1 # 1)); PFloat (Fin (1 # 1)); PFloat (Fin (1 # 1))]);
      ("type", PStr "longrope")]);
    ("rope_theta", PFloat (Fin (10000 # 1))); ("sliding_window", PInt 262144);
    ("tie_word_embeddings", PBool true); ("torch_dtype", PStr "bfloat16");
    ("transformers_version", PStr "4.45.0"); ("use_cache", PBool true);
    ("vocab_size", PInt 200064)].

Definition preset_qwen : list (string * pyval) := [
    ("architectures", PList [PStr "QWenLMHeadModel"]);
    ("auto_map", PDict [
      ("AutoConfig", PStr "configuration_qwen.QWenConfig");
      ("AutoModelForCausalLM", PStr "modeling_qwen.QWenLMHeadModel")]);
    ("attn_dropout_prob", PFloat (Fin (0 # 1))); ("bf16", PBool false);
    ("emb_dropout_prob", PFloat (Fin (0 # 1))); ("hidden_size", PInt 2048);
    ("intermediate_size", PInt 11008);
    ("initializer_range", PFloat (Fin (5764607523034235 # 288230376151711744)));
    ("kv_channels", PInt 128);
    ("layer_norm_epsilon", PFloat (Fin (4722366482869645 # 4722366482869645213696)));
    ("max_position_embeddings", PInt 8192); ("model_type", PStr "qwen");
    ("no_bias", PBool true); ("num_attention_heads", PInt 16); ("num_hidden_layers", PInt 24);
    ("rotary_emb_base", PInt 10000); ("rotary_pct", PFloat (Fin (1 # 1)));
    ("scale_attn_weights", PBool true); ("seq_length", PInt 8192);
    ("tie_word_embeddings", PBool false); ("tokenizer_class", PStr "QWenTokenizer");
    ("transformers_version", PStr "4.32.0"); ("use_cache", PBool true);
    ("use_dynamic_ntk", PBool true); ("use_flash_attn", PStr "auto");
    ("use_logn_attn", PBool true); ("vocab_size", PInt 151936)].

Definition preset_qwen2 : list (string * pyval) := [
    ("_name_or_path", PStr "Qwen/Qwen1.5-1.8B-Chat");
    ("architectures", PList [PStr "Qwen2ForCausalLM"]);
    ("attention_dropout", PFloat (Fin (0 # 1))); ("bos_token_id", PInt 151643);
    ("eos_token_id", PInt 151645); ("hidden_act", PStr "silu"); ("hidden_size", PInt 2048);
    ("initializer_range", PFloat (Fin (5764607523034235 # 288230376151711744)));
    ("intermediate_size", PInt 5504); ("max_position_embeddings", PInt 4096);
    ("max_window_layers", PInt 21); ("model_type", PStr "qwen2");
    ("num_attention_heads", PInt 16); ("num_hidden_layers", PInt 24);
    ("num_key_value_heads", PInt 16);
    ("rms_norm_eps", PFloat (Fin (4722366482869645 # 4722366482869645213696)));
    ("rope_theta", PFloat (Fin (1000000 # 1))); ("sliding_window", PInt 32768);
    ("tie_word_embeddings", PBool true); ("torch_dtype", PStr "bfloat16");
    ("transformers_version", PStr "4.37.2"); ("use_cache", PBool true);
    ("use_sliding_window", PBool false); ("vocab_size", PInt 151936)].

Definition preset_qwen2moe : list (string * pyval) := [
    ("architectures", PList [PStr "Qwen2MoeForCausalLM"]);
    ("attention_dropout", PFloat (Fin (0 # 1))); ("bos_token_id", PInt 151643);
    ("eos_token_id", PInt 151645); ("hidden_act", PStr "silu"); ("hidden_size", PInt 2048);
    ("initializer_range", PFloat (Fin (5764607523034235 # 288230376151711744)));
    ("intermediate_size", PInt 5632); ("max_position_embeddings", PInt 32768);
    ("max_window_layers", PInt 21); ("model_type", PStr "qwen2_moe");
    ("num_attention_heads", PInt 16); ("num_hidden_layers", PInt 24);
    ("num_key_value_heads", PInt 16);
    ("rms_norm_eps", PFloat (Fin (4722366482869645 # 4722366482869645213696)));
    ("rope_theta", PFloat (Fin (1000000 # 1))); ("sliding_window", PInt 32768);
    ("tie_word_embeddings", PBool false); ("torch_dtype", PStr "bfloat16");
    ("transformers_version", PStr "4.39.0.dev0"); ("use_cache", PBool true);
    ("use_sliding_window", PBool false); ("vocab_size", PInt 151936);
    ("decoder_sparse_step", PInt 1); ("moe_intermediate_size", PInt 1408);
    ("shared_expert_intermediate_size", PInt 5632); ("num_experts_per_tok", PInt 4);
    ("num_experts", PInt 60); ("norm_topk_prob", PBool false);
    ("output_router_logits", PBool false);
    ("router_aux_loss_coef", PFloat (Fin (1152921504606847 # 1152921504606846976)))].

Definition preset_deepseek_v2_lite : list (string * pyval) := [
    ("architectures", PList [PStr "DeepseekV2ForCausalLM"]); ("attention_bias", PBool false);
    ("bos_token_id", PInt 100000); ("eos_token_id", PInt 100001);
    ("first_k_dense_replace", PInt 1); ("hidden_act", PStr "silu"); ("hidden_size", PInt 2048);
    ("initializer_range", PFloat (Fin (5764607523034235 # 288230376151711744)));
    ("intermediate_size", PInt 10944); ("kv_lora_rank", PInt 512);
    ("max_position_embeddings", PInt 163840); ("model_type", PStr "deepseek_v2");
    ("moe_intermediate_size", PInt 1408); ("moe_layer_freq", PInt 1); ("n_group", PInt 1);
    ("n_routed_experts", PInt 64); ("n_shared_experts", PInt 2);
    ("norm_topk_prob", PBool false); ("num_attention_heads", PInt 16);
    ("num_experts_per_tok", PInt 6); ("num_hidden_layers", PInt 27);
    ("num_key_value_heads", PInt 16); ("pretraining_tp", PInt 1);
    ("qk_nope_head_dim", PInt 128); ("qk_rope_head_dim", PInt 64);
    ("rms_norm_eps", PFloat (Fin (4722366482869645 # 4722366482869645213696)));
    ("rope_scaling", PDict [
      ("beta_fast", PInt 32); ("beta_slow", PInt 1); ("factor", PInt 40);
      ("mscale", PFloat (Fin (6368089873101881 # 9007199254740992)));
      ("mscale_all_dim", PFloat (Fin (6368089873101881 # 9007199254740992)));
      ("original_max_position_embeddings", PInt 4096); ("type", PStr "yarn")]);
    ("rope_theta", PInt 10000); ("routed_scaling_factor", PFloat (Fin (1 # 1)));
    ("scoring_func", PStr "softmax"); ("topk_group", PInt 1); ("topk_method", PStr "greedy");
    ("torch_dtype", PStr "bfloat16"); ("transformers_version", PStr "4.33.1");
    ("use_cache", PBool true); ("v_head_dim", PInt 128); ("vocab_size", PInt 102400)].

Definition preset_stablelm : list (string * pyval) := [
    ("architectures", PList [PStr "StableLmForCausalLM"]); ("bos_token_id", PInt 0);
    ("eos_token_id", PInt 0); ("hidden_act", PStr "silu"); ("hidden_size", PInt 2560);
    ("initializer_range", PFloat (Fin (5764607523034235 # 288230376151711744)));
    ("intermediate_size", PInt 6912); ("max_position_embeddings", PInt 4096);
    ("model_type", PStr "stablelm");
    ("layer_norm_eps", PFloat (Fin (5902958103587057 # 590295810358705651712)));
    ("num_attention_heads", PInt 32); ("num_hidden_layers", PInt 32);
    ("num_key_value_heads", PInt 32); ("partial_rotary_factor", PFloat (Fin (1 # 4)));
    ("rope_theta", PInt 10000); ("tie_word_embeddings", PBool false);
    ("torch_dtype", PStr "bfloat16"); ("transformers_version", PStr "4.38.0");
    ("use_cache", PBool true); ("use_qkv_bias", PBool false); ("vocab_size", PInt 50304)].

Definition preset_baichuan : list (string * pyval) := [
    ("architectures", PList [PStr "BaichuanForCausalLM"]);
    ("tokenizer_class", PStr "BaichuanTokenizer"); ("bos_token_id", PInt 1);
    ("eos_token_id", PInt 2); ("hidden_size", PInt 4096);
    ("initializer_range", PFloat (Fin (5764607523034235 # 288230376151711744)));
    ("intermediate_size", PInt 11008); ("max_position_embeddings", PInt 4096);
    ("model_max_length", PInt 4096); ("model_type", PStr "baichuan");
    ("num_attention_heads", PInt 32); ("num_hidden_layers", PInt 32); ("pad_token_id", PInt 0);
    ("rms_norm_eps", PFloat (Fin (4722366482869645 # 4722366482869645213696)));
    ("_from_model_config", PBool true); ("tie_word_embeddings", PBool false);
    ("torch_dtype", PStr "bfloat16"); ("transformers_version", PStr "4.29.2");
    ("use_cache", PBool true); ("vocab_size", PInt 125696)].

Definition preset_internlm : list (string * pyval) := [
    ("architectures", PList [PStr "InternLMForCausalLM"]); ("bias", PBool true);
    ("bos_token_id", PInt 1); ("eos_token_id", PInt 2); ("hidden_act", PStr "silu");
    ("hidden_size", PInt 4096);
    ("initializer_range", PFloat (Fin (5764607523034235 # 288230376151711744)));
    ("intermediate_size", PInt 11008); ("max_position_embeddings", PInt 2048);
    ("model_type", PStr "internlm"); ("num_attention_heads", PInt 32);
    ("num_hidden_layers", PInt 32); ("pad_token_id", PInt 2);
    ("rms_norm_eps", PFloat (Fin (4722366482869645 # 4722366482869645213696)));
    ("tie_word_embeddings", PBool false); ("torch_dtype", PStr "float16");
    ("transformers_version", PStr "4.33.2"); ("use_cache", PBool true);
    ("vocab_size", PInt 103168)].

Definition preset_gemma_2b : list (string * pyval) := [
    ("architectures", PList [PStr "GemmaForCausalLM"]); ("attention_bias", PBool false);
    ("attention_dropout", PFloat (Fin (0 # 1))); ("bos_token_id", PInt 2);
    ("eos_token_id", PInt 1); ("head_dim", PInt 256); ("hidden_act", PStr "gelu");
    ("hidden_size", PInt 2048);
    ("initializer_range", PFloat (Fin (5764607523034235 # 288230376151711744)));
    ("intermediate_size", PInt 16384); ("max_position_embeddings", PInt 8192);
    ("model_type", PStr "gemma"); ("num_attention_heads", PInt 8);
    ("num_hidden_layers", PInt 18); ("num_key_value_heads", PInt 1); ("pad_token_id", PInt 0);
    ("rms_norm_eps", PFloat (Fin (4722366482869645 # 4722366482869645213696)));
    ("rope_scaling", PNone); ("rope_theta", PFloat (Fin (10000 # 1)));
    ("torch_dtype", PStr "bfloat16"); ("transformers_version", PStr "4.38.0.dev0");
    ("use_cache", PBool true); ("vocab_size", PInt 256000)].

Definition preset_gemma2_2b : list (string * pyval) := [
    ("architectures", PList [PStr "Gemma2ForCausalLM"]); ("attention_bias", PBool false);
    ("attention_dropout", PFloat (Fin (0 # 1)));
    ("attn_logit_softcapping", PFloat (Fin (50 # 1))); ("bos_token_id", PInt 2);
    ("cache_implementation", PStr "hybrid"); ("eos_token_id", PList [PInt 1; PInt 107]);
    ("final_logit_softcapping", PFloat (Fin (30 # 1))); ("head_dim", PInt 256);
    ("hidden_act", PStr "gelu_pytorch_tanh"); ("hidden_activation", PStr "gelu_pytorch_tanh");
    ("hidden_size", PInt 2304);
    ("initializer_range", PFloat (Fin (5764607523034235 # 288230376151711744)));
    ("intermediate_size", PInt 9216); ("max_position_embeddings", PInt 8192);
    ("model_type", PStr "gemma2"); ("num_attention_heads", PInt 8);
    ("num_hidden_layers", PInt 26); ("num_key_value_heads", PInt 4); ("pad_token_id", PInt 0);
    ("query_pre_attn_scalar", PInt 256);
    ("rms_norm_eps", PFloat (Fin (4722366482869645 # 4722366482869645213696)));
    ("rope_theta", PFloat (Fin (10000 # 1))); ("sliding_window", PInt 4096);
    ("torch_dtype", PStr "bfloat16"); ("transformers_version", PStr "4.42.4");
    ("use_cache", PBool true); ("vocab_size", PInt 256000)].

Definition preset_gemma2_2b_jpn : list (string * pyval) := [
    ("architectures", PList [PStr "Gemma2ForCausalLM"]); ("attention_bias", PBool false);
    ("attention_dropout", PFloat (Fin (0 # 1)));
    ("attn_logit_softcapping", PFloat (Fin (50 # 1))); ("bos_token_id", PInt 2);
    ("cache_implementation", PStr "hybrid"); ("dtype", PStr "bfloat16");
    ("eos_token_id", PInt 1); ("final_logit_softcapping", PFloat (Fin (30 # 1)));
    ("head_dim", PInt 256); ("hidden_activation", PStr "gelu_pytorch_tanh");
    ("hidden_size", PInt 2304);
    ("initializer_range", PFloat (Fin (5764607523034235 # 288230376151711744)));
    ("intermediate_size", PInt 9216); ("max_position_embeddings", PInt 8192);
    ("model_type", PStr "gemma2"); ("num_attention_heads", PInt 8);
    ("num_hidden_layers", PInt 26); ("num_key_value_heads", PInt 4); ("pad_token_id", PInt 0);
    ("query_pre_attn_scalar", PInt 224);
    ("rms_norm_eps", PFloat (Fin (4722366482869645 # 4722366482869645213696)));
    ("rope_theta", PFloat (Fin (10000 # 1))); ("sliding_window", PInt 4096);
    ("torch_dtype", PStr "bfloat16"); ("transformers_version", PStr "4.44.2");
    ("use_cache", PBool true); ("vocab_size", PInt 256000)].

Definition preset_gemma2_9b : list (string * pyval) := [
    ("architectures", PList [PStr "Gemma2ForCausalLM"]); ("attention_bias", PBool false);
    ("attention_dropout", PFloat (Fin (0 # 1)));
    ("attn_logit_softcapping", PFloat (Fin (50 # 1))); ("bos_token_id", PInt 2);
    ("cache_implementation", PStr "hybrid"); ("eos_token_id", PInt 1);
    ("final_logit_softcapping", PFloat (Fin (30 # 1))); ("head_dim", PInt 256);
    ("hidden_act", PStr "gelu_pytorch_tanh"); ("hidden_activation", PStr "gelu_pytorch_tanh");
    ("hidden_size", PInt 3584);
    ("initializer_range", PFloat (Fin (5764607523034235 # 288230376151711744)));
    ("intermediate_size", PInt 14336); ("max_position_embeddings", PInt 8192);
    ("model_type", PStr "gemma2"); ("num_attention_heads", PInt 16);
    ("num_hidden_layers", PInt 42); ("num_key_value_heads", PInt 8); ("pad_token_id", PInt 0);
    ("query_pre_attn_scalar", PInt 256);
    ("rms_norm_eps", PFloat (Fin (4722366482869645 # 4722366482869645213696)));
    ("rope_theta", PFloat (Fin (10000 # 1))); ("sliding_window", PInt 4096);
    ("sliding_window_size", PInt 4096); ("torch_dtype", PStr "bfloat16");
    ("transformers_version", PStr "4.42.0.dev0"); ("use_cache", PBool true);
    ("vocab_size", PInt 256000)].

Definition preset_gemma3_1b_it : list (string * pyval) := [
    ("architectures", PList [PStr "Gemma3ForCausalLM"]); ("attention_bias", PBool false);
    ("attention_dropout", PFloat (Fin (0 # 1))); ("attn_logit_softcapping", PNone);
    ("bos_token_id", PInt 2); ("cache_implementation", PStr "hybrid");
    ("eos_token_id", PList [PInt 1; PInt 106]); ("final_logit_softcapping", PNone);
    ("head_dim", PInt 256); ("hidden_activation", PStr "gelu_pytorch_tanh");
    ("hidden_size", PInt 1152);
    ("initializer_range", PFloat (Fin (5764607523034235 # 288230376151711744)));
    ("intermediate_size", PInt 6912); ("max_position_embeddings", PInt 32768);
    ("model_type", PStr "gemma3_text"); ("num_attention_heads", PInt 4);
    ("num_hidden_layers", PInt 26); ("num_key_value_heads", PInt 1); ("pad_token_id", PInt 0);
    ("query_pre_attn_scalar", PInt 256);
    ("rms_norm_eps", PFloat (Fin (4722366482869645 # 4722366482869645213696)));
    ("rope_local_base_freq", PInt 10000); ("rope_scaling", PNone); ("rope_theta", PInt 1000000);
    ("sliding_window", PInt 512); ("sliding_window_pattern", PInt 6);
    ("torch_dtype", PStr "bfloat16"); ("transformers_version", PStr "4.50.0.dev0");
    ("use_cache", PBool true); ("vocab_size", PInt 262144)].

Definition preset_gemma2_27b : list (string * pyval) := [
    ("architectures", PList [PStr "Gemma2ForCausalLM"]); ("attention_bias", PBool false);
    ("attention_dropout", PFloat (Fin (0 # 1)));
    ("attn_logit_softcapping", PFloat (Fin (50 # 1))); ("bos_token_id", PInt 2);
    ("cache_implementation", PStr "hybrid"); ("eos_token_id", PInt 1);
    ("final_logit_softcapping", PFloat (Fin (30 # 1))); ("head_dim", PInt 128);
    ("hidden_act", PStr "gelu_pytorch_tanh"); ("hidden_activation", PStr "gelu_pytorch_tanh");
    ("hidden_size", PInt 4608);
    ("initializer_range", PFloat (Fin (5764607523034235 # 288230376151711744)));
    ("intermediate_size", PInt 36864); ("max_position_embeddings", PInt 8192);
    ("model_type", PStr "gemma2"); ("num_attention_heads", PInt 32);
    ("num_hidden_layers", PInt 46); ("num_key_value_heads", PInt 16); ("pad_token_id", PInt 0);
    ("query_pre_attn_scalar", PInt 144);
    ("rms_norm_eps", PFloat (Fin (4722366482869645 # 4722366482869645213696)));
    ("rope_theta", PFloat (Fin (10000 # 1))); ("sliding_window", PInt 4096);
    ("sliding_window_size", PInt 4096); ("torch_dtype", PStr "bfloat16");
    ("transformers_version", PStr "4.42.0.dev0"); ("use_cache", PBool true);
    ("vocab_size", PInt 256000); ("_attn_implementation", PStr "eager")].

Definition preset_rwkv5_3b : list (string * pyval) := [
    ("architectures", PList [PStr "RwkvForCausalLM"]);
    ("auto_map", PDict [
      ("AutoConfig", PStr "configuration_rwkv5.Rwkv5Config");
      ("AutoModelForCausalLM", PStr "modeling_rwkv5.RwkvForCausalLM")]);
    ("attention_hidden_size", PInt 2560); ("bos_token_id", PInt 0);
    ("context_length", PInt 4096); ("eos_token_id", PInt 0); ("head_size", PInt 64);
    ("hidden_size", PInt 2560); ("intermediate_size", PNone);
    ("layer_norm_epsilon", PFloat (Fin (5902958103587057 # 590295810358705651712)));
    ("model_type", PStr "rwkv5"); ("model_version", PStr "5_2"); ("num_hidden_layers", PInt 32);
    ("rescale_every", PInt 6); ("tie_word_embeddings", PBool true);
    ("transformers_version", PStr "4.34.0"); ("use_cache", PBool true);
    ("vocab_size", PInt 65536)].

Definition preset_orion : list (string * pyval) := [
    ("architectures", PList [PStr "OrionForCausalLM"]);
    ("auto_map", PDict [
      ("AutoConfig", PStr "configuration_orion.OrionConfig");
      ("AutoModelForCausalLM", PStr "modeling_orion.OrionForCausalLM")]);
    ("tokenizer_class", PStr "OrionTokenizer"); ("bos_token_id", PInt 1);
    ("eos_token_id", PInt 2); ("hidden_act", PStr "silu"); ("hidden_size", PInt 5120);
    ("model_type", PStr "orion");
    ("initializer_range", PFloat (Fin (5764607523034235 # 288230376151711744)));
    ("intermediate_size", PInt 15360); ("max_position_embeddings", PInt 4096);
    ("max_sequence_length", PInt 4096); ("num_attention_heads", PInt 40);
    ("num_hidden_layers", PInt 40); ("num_key_value_heads", PInt 40); ("pad_token_id", PInt 0);
    ("pretraining_tp", PInt 1);
    ("rms_norm_eps", PFloat (Fin (5902958103587057 # 590295810358705651712)));
    ("rope_scaling", PNone); ("rope_theta", PFloat (Fin (10000 # 1)));
    ("tie_word_embeddings", PBool false); ("torch_dtype", PStr "bfloat16");
    ("transformers_version", PStr "4.34.0"); ("use_cache", PBool true);
    ("vocab_size", PInt 84608)].

Definition preset_llava : list (string * pyval) := [
    ("architectures", PList [PStr "LlavaForConditionalGeneration"]);
    ("ignore_index", PInt (-100)); ("image_token_index", PInt 32000);
    ("model_type", PStr "llava"); ("pad_token_id", PInt 32001);
    ("projector_hidden_act", PStr "gelu");
    ("text_config", PDict [
      ("_name_or_path", PStr "meta-llama/Llama-2-7b-hf");
      ("architectures", PList [PStr "LlamaForCausalLM"]);
      ("max_position_embeddings", PInt 4096); ("model_type", PStr "llama");
      ("rms_norm_eps", PFloat (Fin (5902958103587057 # 590295810358705651712)));
      ("torch_dtype", PStr "float16"); ("vocab_size", PInt 32064)]);
    ("tie_word_embeddings", PBool false); ("torch_dtype", PStr "float16");
    ("transformers_version", PStr "4.36.0.dev0");
    ("vision_config", PDict [
      ("hidden_size", PInt 1024); ("image_size", PInt 336); ("intermediate_size", PInt 4096);
      ("model_type", PStr "clip_vision_model"); ("num_attention_heads", PInt 16);
      ("num_hidden_layers", PInt 24); ("patch_size", PInt 14); ("projection_dim", PInt 768);
      ("vocab_size", PInt 32000)]);
    ("vision_feature_layer", PInt (-2)); ("vision_feature_select_strategy", PStr "default");
    ("vocab_size", PInt 32064)].

Definition preset_chatglm : list (string * pyval) := [
    ("architectures", PList [PStr "ChatGLMModel"]); ("model_type", PStr "chatglm");
    ("add_bias_linear", PBool false); ("add_qkv_bias", PBool true);
    ("apply_query_key_layer_scaling", PBool true);
    ("apply_residual_connection_post_layernorm", PBool false);
    ("attention_dropout", PFloat (Fin (0 # 1))); ("attention_softmax_in_fp32", PBool true);
    ("bias_dropout_fusion", PBool true); ("ffn_hidden_size", PInt 13696);
    ("fp32_residual_connection", PBool false); ("hidden_dropout", PFloat (Fin (0 # 1)));
    ("hidden_size", PInt 4096); ("kv_channels", PInt 128);
    ("layernorm_epsilon", PFloat (Fin (5902958103587057 # 590295810358705651712)));
    ("multi_query_attention", PBool true); ("multi_query_group_num", PInt 2);
    ("num_attention_heads", PInt 32); ("num_layers", PInt 28); ("original_rope", PBool true);
    ("padded_vocab_size", PInt 65024); ("post_layer_norm", PBool true); ("rmsnorm", PBool true);
    ("seq_length", PInt 8192); ("use_cache", PBool true); ("torch_dtype", PStr "float16");
    ("transformers_version", PStr "4.30.2"); ("tie_word_embeddings", PBool false);
    ("eos_token_id", PInt 2); ("pad_token_id", PInt 0)].

Definition preset_llama3_1_8b : list (string * pyval) := [
    ("architectures", PList [PStr "LlamaForCausalLM"]); ("attention_bias", PBool false);
    ("attention_dropout", PFloat (Fin (0 # 1))); ("bos_token_id", PInt 128000);
    ("eos_token_id", PList [PInt 128001; PInt 128008; PInt 128009]);
    ("hidden_act", PStr "silu"); ("hidden_size", PInt 4096);
    ("initializer_range", PFloat (Fin (5764607523034235 # 288230376151711744)));
    ("intermediate_size", PInt 14336); ("max_position_embeddings", PInt 131072);
    ("mlp_bias", PBool false); ("model_type", PStr "llama"); ("num_attention_heads", PInt 32);
    ("num_hidden_layers", PInt 32); ("num_key_value_heads", PInt 8); ("pretraining_tp", PInt 1);
    ("rms_norm_eps", PFloat (Fin (5902958103587057 # 590295810358705651712)));
    ("rope_scaling", PDict [
      ("factor", PFloat (Fin (8 # 1))); ("low_freq_factor", PFloat (Fin (1 # 1)));
      ("high_freq_factor", PFloat (Fin (4 # 1)));
      ("original_max_position_embeddings", PInt 8192); ("rope_type", PStr "llama3")]);
    ("rope_theta", PFloat (Fin (500000 # 1))); ("tie_word_embeddings", PBool false);
    ("torch_dtype", PStr "bfloat16"); ("transformers_version", PStr "4.42.3");
    ("use_cache", PBool true); ("vocab_size", PInt 128256)].

Definition preset_llama3_1_70b : list (string * pyval) := [
    ("architectures", PList [PStr "LlamaForCausalLM"]); ("attention_bias", PBool false);
    ("attention_dropout", PFloat (Fin (0 # 1))); ("bos_token_id", PInt 128000);
    ("eos_token_id", PList [PInt 128001; PInt 128008; PInt 128009]);
    ("hidden_act", PStr "silu"); ("hidden_size", PInt 8192);
    ("initializer_range", PFloat (Fin (5764607523034235 # 288230376151711744)));
    ("intermediate_size", PInt 28672); ("max_position_embeddings", PInt 131072);
    ("mlp_bias", PBool false); ("model_type", PStr "llama"); ("num_attention_heads", PInt 64);
    ("num_hidden_layers", PInt 80); ("num_key_value_heads", PInt 8); ("pretraining_tp", PInt 1);
    ("rms_norm_eps", PFloat (Fin (5902958103587057 # 590295810358705651712)));
    ("rope_scaling", PDict [
      ("factor", PFloat (Fin (8 # 1))); ("low_freq_factor", PFloat (Fin (1 # 1)));
      ("high_freq_factor", PFloat (Fin (4 # 1)));
      ("original_max_position_embeddings", PInt 8192); ("rope_type", PStr "llama3")]);
    ("rope_theta", PFloat (Fin (500000 # 1))); ("tie_word_embeddings", PBool false);
    ("torch_dtype", PStr "bfloat16"); ("transformers_version", PStr "4.42.3");
    ("use_cache", PBool true); ("vocab_size", PInt 128256)].

Definition preset_llama3_2_1b : list (string * pyval) := [
    ("architectures", PList [PStr "LlamaForCausalLM"]); ("attention_bias", PBool false);
    ("attention_dropout", PFloat (Fin (0 # 1))); ("bos_token_id", PInt 128000);
    ("eos_token_id", PList [PInt 128001; PInt 128008; PInt 128009]); ("head_dim", PInt 64);
    ("hidden_act", PStr "silu"); ("hidden_size", PInt 2048);
    ("initializer_range", PFloat (Fin (5764607523034235 # 288230376151711744)));
    ("intermediate_size", PInt 8192); ("max_position_embeddings", PInt 131072);
    ("mlp_bias", PBool false); ("model_type", PStr "llama"); ("num_attention_heads", PInt 32);
    ("num_hidden_layers", PInt 16); ("num_key_value_heads", PInt 8); ("pretraining_tp", PInt 1);
    ("rms_norm_eps", PFloat (Fin (5902958103587057 # 590295810358705651712)));
    ("rope_scaling", PDict [
      ("factor", PFloat (Fin (32 # 1))); ("high_freq_factor", PFloat (Fin (4 # 1)));
      ("low_freq_factor", PFloat (Fin (1 # 1)));
      ("original_max_position_embeddings", PInt 8192); ("rope_type", PStr "llama3")]);
    ("rope_theta", PFloat (Fin (500000 # 1))); ("tie_word_embeddings", PBool true);
    ("torch_dtype", PStr "bfloat16"); ("transformers_version", PStr "4.45.0.dev0");
    ("use_cache", PBool true); ("vocab_size", PInt 128256)].

Definition preset_llama3_2_3b : list (string * pyval) := [
    ("architectures", PList [PStr "LlamaForCausalLM"]); ("attention_bias", PBool false);
    ("attention_dropout", PFloat (Fin (0 # 1))); ("bos_token_id", PInt 128000);
    ("eos_token_id", PList [PInt 128001; PInt 128008; PInt 128009]); ("head_dim", PInt 128);
    ("hidden_act", PStr "silu"); ("hidden_size", PInt 3072);
    ("initializer_range", PFloat (Fin (5764607523034235 # 288230376151711744)));
    ("intermediate_size", PInt 8192); ("max_position_embeddings", PInt 131072);
    ("mlp_bias", PBool false); ("model_type", PStr "llama"); ("num_attention_heads", PInt 24);
    ("num_hidden_layers", PInt 28); ("num_key_value_heads", PInt 8); ("pretraining_tp", PInt 1);
    ("rms_norm_eps", PFloat (Fin (5902958103587057 # 590295810358705651712)));
    ("rope_scaling", PDict [
      ("factor", PFloat (Fin (32 # 1))); ("high_freq_factor", PFloat (Fin (4 # 1)));
      ("low_freq_factor", PFloat (Fin (1 # 1)));
      ("original_max_position_embeddings", PInt 8192); ("rope_type", PStr "llama3")]);
    ("rope_theta", PFloat (Fin (500000 # 1))); ("tie_word_embeddings", PBool true);
    ("torch_dtype", PStr "bfloat16"); ("transformers_version", PStr "4.45.0.dev0");
    ("use_cache", PBool true); ("vocab_size", PInt 128256)].

Definition preset_snowflake_arctic_embed_m : list (string * pyval) := [
    ("architectures", PList [PStr "BertModel"]);
    ("attention_probs_dropout_prob", PFloat (Fin (3602879701896397 # 36028797018963968)));
    ("classifier_dropout", PNone); ("gradient_checkpointing", PBool false);
    ("hidden_act", PStr "gelu");
    ("hidden_dropout_prob", PFloat (Fin (3602879701896397 # 36028797018963968)));
    ("hidden_size", PInt 768);
    ("initializer_range", PFloat (Fin (5764607523034235 # 288230376151711744)));
    ("intermediate_size", PInt 3072);
    ("layer_norm_eps", PFloat (Fin (4951760157141521 # 4951760157141521099596496896)));
    ("max_position_embeddings", PInt 512); ("model_type", PStr "bert");
    ("num_attention_heads", PInt 12); ("num_hidden_layers", PInt 12); ("pad_token_id", PInt 0);
    ("position_embedding_type", PStr "absolute"); ("torch_dtype", PStr "float32");
    ("transformers_version", PStr "4.36.1"); ("type_vocab_size", PInt 2);
    ("use_cache", PBool true); ("vocab_size", PInt 30522)].

Definition preset_stablelm_2_zephyr_1_6b : list (string * pyval) := [
    ("architectures", PList [PStr "StableLmForCausalLM"]); ("bos_token_id", PInt 100257);
    ("eos_token_id", PInt 100257); ("hidden_act", PStr "silu"); ("hidden_size", PInt 2048);
    ("initializer_range", PFloat (Fin (5764607523034235 # 288230376151711744)));
    ("intermediate_size", PInt 5632); ("max_position_embeddings", PInt 4096);
    ("model_type", PStr "stablelm");
    ("layer_norm_eps", PFloat (Fin (5902958103587057 # 590295810358705651712)));
    ("num_attention_heads", PInt 32); ("num_hidden_layers", PInt 24);
    ("num_key_value_heads", PInt 32); ("partial_rotary_factor", PFloat (Fin (1 # 4)));
    ("rope_theta", PInt 10000); ("tie_word_embeddings", PBool false);
    ("torch_dtype", PStr "float16"); ("transformers_version", PStr "4.38.0");
    ("use_cache", PBool true); ("use_qkv_bias", PBool true); ("vocab_size", PInt 100352)].

Definition preset_qwen2_0_5b : list (string * pyval) := [
    ("architectures", PList [PStr "Qwen2ForCausalLM"]);
    ("attention_dropout", PFloat (Fin (0 # 1))); ("bos_token_id", PInt 151643);
    ("eos_token_id", PInt 151645); ("hidden_act", PStr "silu"); ("hidden_size", PInt 896);
    ("initializer_range", PFloat (Fin (5764607523034235 # 288230376151711744)));
    ("intermediate_size", PInt 4864); ("max_position_embeddings", PInt 32768);
    ("max_window_layers", PInt 24); ("model_type", PStr "qwen2");
    ("num_attention_heads", PInt 14); ("num_hidden_layers", PInt 24);
    ("num_key_value_heads", PInt 2);
    ("rms_norm_eps", PFloat (Fin (4722366482869645 # 4722366482869645213696)));
    ("rope_theta", PFloat (Fin (1000000 # 1))); ("sliding_window", PInt 32768);
    ("tie_word_embeddings", PBool true); ("torch_dtype", PStr "bfloat16");
    ("transformers_version", PStr "4.40.1"); ("use_cache", PBool true);
    ("use_sliding_window", PBool false); ("vocab_size", PInt 151936)].

Definition preset_qwen2_1_5b : list (string * pyval) := [
    ("architectures", PList [PStr "Qwen2ForCausalLM"]);
    ("attention_dropout", PFloat (Fin (0 # 1))); ("bos_token_id", PInt 151643);
    ("eos_token_id", PInt 151645); ("hidden_act", PStr "silu"); ("hidden_size", PInt 1536);
    ("initializer_range", PFloat (Fin (5764607523034235 # 288230376151711744)));
    ("intermediate_size", PInt 8960); ("max_position_embeddings", PInt 32768);
    ("max_window_layers", PInt 28); ("model_type", PStr "qwen2");
    ("num_attention_heads", PInt 12); ("num_hidden_layers", PInt 28);
    ("num_key_value_heads", PInt 2);
    ("rms_norm_eps", PFloat (Fin (4722366482869645 # 4722366482869645213696)));
    ("rope_theta", PFloat (Fin (1000000 # 1))); ("sliding_window", PInt 32768);
    ("tie_word_embeddings", PBool true); ("torch_dtype", PStr "bfloat16");
    ("transformers_version", PStr "4.40.1"); ("use_cache", PBool true);
    ("use_sliding_window", PBool false); ("vocab_size", PInt 151936)].

Definition preset_qwen2_5_3b : list (string * pyval) := [
    ("architectures", PList [PStr "Qwen2ForCausalLM"]);
    ("attention_dropout", PFloat (Fin (0 # 1))); ("bos_token_id", PInt 151643);
    ("eos_token_id", PInt 151645); ("hidden_act", PStr "silu"); ("hidden_size", PInt 2048);
    ("initializer_range", PFloat (Fin (5764607523034235 # 288230376151711744)));
    ("intermediate_size", PInt 11008); ("max_position_embeddings", PInt 32768);
    ("max_window_layers", PInt 70); ("model_type", PStr "qwen2");
    ("num_attention_heads", PInt 16); ("num_hidden_layers", PInt 36);
    ("num_key_value_heads", PInt 2);
    ("rms_norm_eps", PFloat (Fin (4722366482869645 # 4722366482869645213696)));
    ("rope_theta", PFloat (Fin (1000000 # 1))); ("sliding_window", PInt 32768);
    ("tie_word_embeddings", PBool true); ("torch_dtype", PStr "bfloat16");
    ("transformers_version", PStr "4.43.1"); ("use_cache", PBool true);
    ("use_sliding_window", PBool false); ("vocab_size", PInt 151936)].

Definition preset_qwen2_7b : list (string * pyval) := [
    ("architectures", PList [PStr "Qwen2ForCausalLM"]);
    ("attention_dropout", PFloat (Fin (0 # 1))); ("bos_token_id", PInt 151643);
    ("eos_token_id", PInt 151645); ("hidden_act", PStr "silu"); ("hidden_size", PInt 3584);
    ("initializer_range", PFloat (Fin (5764607523034235 # 288230376151711744)));
    ("intermediate_size", PInt 18944); ("max_position_embeddings", PInt 32768);
    ("max_window_layers", PInt 28); ("model_type", PStr "qwen2");
    ("num_attention_heads", PInt 28); ("num_hidden_layers", PInt 28);
    ("num_key_value_heads", PInt 4);
    ("rms_norm_eps", PFloat (Fin (4722366482869645 # 4722366482869645213696)));
    ("rope_theta", PFloat (Fin (1000000 # 1))); ("sliding_window", PInt 131072);
    ("tie_word_embeddings", PBool false); ("torch_dtype", PStr "bfloat16");
    ("transformers_version", PStr "4.41.2"); ("use_cache", PBool true);
    ("use_sliding_window", PBool false); ("vocab_size", PInt 152064)].

Definition preset_qwen3_0_6b : list (string * pyval) := [
    ("architectures", PList [PStr "Qwen3ForCausalLM"]); ("attention_bias", PBool false);
    ("attention_dropout", PFloat (Fin (0 # 1))); ("bos_token_id", PInt 151643);
    ("eos_token_id", PInt 151645); ("head_dim", PInt 128); ("hidden_act", PStr "silu");
    ("hidden_size", PInt 1024);
    ("initializer_range", PFloat (Fin (5764607523034235 # 288230376151711744)));
    ("intermediate_size", PInt 3072); ("max_position_embeddings", PInt 40960);
    ("max_window_layers", PInt 28); ("model_type", PStr "qwen3");
    ("num_attention_heads", PInt 16); ("num_hidden_layers", PInt 28);
    ("num_key_value_heads", PInt 8);
    ("rms_norm_eps", PFloat (Fin (4722366482869645 # 4722366482869645213696)));
    ("rope_scaling", PNone); ("rope_theta", PInt 1000000); ("sliding_window", PNone);
    ("tie_word_embeddings", PBool true); ("torch_dtype", PStr "bfloat16");
    ("transformers_version", PStr "4.51.0"); ("use_cache", PBool true);
    ("use_sliding_window", PBool false); ("vocab_size", PInt 151936)].

Definition preset_qwen3_1_7b : list (string * pyval) := [
    ("architectures", PList [PStr "Qwen3ForCausalLM"]); ("attention_bias", PBool false);
    ("attention_dropout", PFloat (Fin (0 # 1))); ("bos_token_id", PInt 151643);
    ("eos_token_id", PInt 151645); ("head_dim", PInt 128); ("hidden_act", PStr "silu");
    ("hidden_size", PInt 2048);
    ("initializer_range", PFloat (Fin (5764607523034235 # 288230376151711744)));
    ("intermediate_size", PInt 6144); ("max_position_embeddings", PInt 40960);
    ("max_window_layers", PInt 28); ("model_type", PStr "qwen3");
    ("num_attention_heads", PInt 16); ("num_hidden_layers", PInt 28);
    ("num_key_value_heads", PInt 8);
    ("rms_norm_eps", PFloat (Fin (4722366482869645 # 4722366482869645213696)));
    ("rope_scaling", PNone); ("rope_theta", PInt 1000000); ("sliding_window", PNone);
    ("tie_word_embeddings", PBool true); ("torch_dtype", PStr "bfloat16");
    ("transformers_version", PStr "4.51.0"); ("use_cache", PBool true);
    ("use_sliding_window", PBool false); ("vocab_size", PInt 151936)].

Definition preset_internlm2 : list (string * pyval) := [
    ("architectures", PList [PStr "InternLM2ForCausalLM"]);
    ("attn_implementation", PStr "eager"); ("bias", PBool false); ("bos_token_id", PInt 1);
    ("eos_token_id", PInt 2); ("hidden_act", PStr "silu"); ("hidden_size", PInt 4096);
    ("initializer_range", PFloat (Fin (5764607523034235 # 288230376151711744)));
    ("intermediate_size", PInt 14336); ("max_position_embeddings", PInt 32768);
    ("model_type", PStr "internlm2"); ("num_attention_heads", PInt 32);
    ("num_hidden_layers", PInt 32); ("num_key_value_heads", PInt 8); ("pad_token_id", PInt 2);
    ("rms_norm_eps", PFloat (Fin (5902958103587057 # 590295810358705651712)));
    ("rope_scaling", PNone); ("rope_theta", PInt 1000000); ("tie_word_embeddings", PBool false);
    ("torch_dtype", PStr "bfloat16"); ("transformers_version", PStr "4.37.1");
    ("use_cache", PBool true); ("vocab_size", PInt 92544)].

Definition preset_internlm2_5_7b : list (string * pyval) := [
    ("architectures", PList [PStr "InternLM2ForCausalLM"]);
    ("attn_implementation", PStr "eager"); ("bias", PBool false); ("bos_token_id", PInt 1);
    ("eos_token_id", PInt 2); ("hidden_act", PStr "silu"); ("hidden_size", PInt 4096);
    ("initializer_range", PFloat (Fin (5764607523034235 # 288230376151711744)));
    ("intermediate_size", PInt 14336); ("max_position_embeddings", PInt 32768);
    ("model_type", PStr "internlm2"); ("num_attention_heads", PInt 32);
    ("num_hidden_layers", PInt 32); ("num_key_value_heads", PInt 8); ("pad_token_id", PInt 2);
    ("rms_norm_eps", PFloat (Fin (5902958103587057 # 590295810358705651712)));
    ("rope_scaling", PDict [
      ("type", PStr "dynamic"); ("factor", PFloat (Fin (2 # 1)))]);
    ("rope_theta", PInt 1000000); ("tie_word_embeddings", PBool false);
    ("torch_dtype", PStr "bfloat16"); ("transformers_version", PStr "4.41.0");
    ("use_cache", PBool true); ("vocab_size", PInt 92544); ("pretraining_tp", PInt 1)].

Definition preset_starcoder2 : list (string * pyval) := [
    ("activation_function", PStr "gelu");
    ("architectures", PList [PStr "Starcoder2ForCausalLM"]);
    ("attention_dropout", PFloat (Fin (3602879701896397 # 36028797018963968)));
    ("residual_dropout", PFloat (Fin (3602879701896397 # 36028797018963968)));
    ("embedding_dropout", PFloat (Fin (3602879701896397 # 36028797018963968)));
    ("attention_softmax_in_fp32", PBool true); ("bos_token_id", PInt 0);
    ("eos_token_id", PInt 0); ("hidden_act", PStr "gelu_pytorch_tanh");
    ("hidden_size", PInt 4608);
    ("initializer_range", PFloat (Fin (5200252446529183 # 288230376151711744)));
    ("intermediate_size", PInt 18432);
    ("layer_norm_epsilon", PFloat (Fin (5902958103587057 # 590295810358705651712)));
    ("max_position_embeddings", PInt 16384); ("mlp_type", PStr "default");
    ("model_type", PStr "starcoder2");
    ("norm_epsilon", PFloat (Fin (5902958103587057 # 590295810358705651712)));
    ("norm_type", PStr "layer_norm"); ("num_attention_heads", PInt 36);
    ("num_hidden_layers", PInt 32); ("num_key_value_heads", PInt 4);
    ("rope_theta", PInt 1000000); ("scale_attention_softmax_in_fp32", PBool true);
    ("scale_attn_weights", PBool true); ("sliding_window", PInt 4096);
    ("torch_dtype", PStr "bfloat16"); ("transformers_version", PStr "4.37.0.dev0");
    ("use_bias", PBool true); ("use_cache", PBool true); ("vocab_size", PInt 49152)].

Definition preset_smollm_1_7b : list (string * pyval) := [
    ("_name_or_path", PStr "HuggingFaceTB/cosmo2-1.7B-webinst-sc2");
    ("architectures", PList [PStr "LlamaForCausalLM"]); ("attention_bias", PBool false);
    ("attention_dropout", PFloat (Fin (0 # 1))); ("bos_token_id", PInt 1);
    ("eos_token_id", PInt 2); ("hidden_act", PStr "silu"); ("hidden_size", PInt 2048);
    ("initializer_range", PFloat (Fin (5764607523034235 # 288230376151711744)));
    ("intermediate_size", PInt 8192); ("max_position_embeddings", PInt 2048);
    ("mlp_bias", PBool false); ("model_type", PStr "llama"); ("num_attention_heads", PInt 32);
    ("num_hidden_layers", PInt 24); ("num_key_value_heads", PInt 32); ("pad_token_id", PInt 2);
    ("pretraining_tp", PInt 1);
    ("rms_norm_eps", PFloat (Fin (5902958103587057 # 590295810358705651712)));
    ("rope_scaling", PNone); ("rope_theta", PFloat (Fin (10000 # 1)));
    ("tie_word_embeddings", PBool true); ("torch_dtype", PStr "bfloat16");
    ("transformers_version", PStr "4.42.3"); ("use_cache", PBool true);
    ("vocab_size", PInt 49152)].

Definition preset_smollm_360m : list (string * pyval) := [
    ("_name_or_path", PStr "HuggingFaceTB/cosmo2-350M-webinst-sc2");
    ("architectures", PList [PStr "LlamaForCausalLM"]); ("attention_bias", PBool false);
    ("attention_dropout", PFloat (Fin (0 # 1))); ("bos_token_id", PInt 1);
    ("eos_token_id", PInt 2); ("hidden_act", PStr "silu"); ("hidden_size", PInt 960);
    ("initializer_range", PFloat (Fin (5764607523034235 # 288230376151711744)));
    ("intermediate_size", PInt 2560); ("max_position_embeddings", PInt 2048);
    ("mlp_bias", PBool false); ("model_type", PStr "llama"); ("num_attention_heads", PInt 15);
    ("num_hidden_layers", PInt 32); ("num_key_value_heads", PInt 5); ("pad_token_id", PInt 2);
    ("pretraining_tp", PInt 1);
    ("rms_norm_eps", PFloat (Fin (5902958103587057 # 590295810358705651712)));
    ("rope_scaling", PNone); ("rope_theta", PFloat (Fin (10000 # 1)));
    ("tie_word_embeddings", PBool true); ("torch_dtype", PStr "bfloat16");
    ("transformers_version", PStr "4.42.3"); ("use_cache", PBool true);
    ("vocab_size", PInt 49152)].

Definition preset_smollm_135m : list (string * pyval) := [
    ("_name_or_path", PStr "HuggingFaceTB/cosmo2-135M-webinst-sc2");
    ("architectures", PList [PStr "LlamaForCausalLM"]); ("attention_bias", PBool false);
    ("attention_dropout", PFloat (Fin (0 # 1))); ("bos_token_id", PInt 1);
    ("eos_token_id", PInt 2); ("hidden_act", PStr "silu"); ("hidden_size", PInt 576);
    ("initializer_range", PFloat (Fin (5764607523034235 # 288230376151711744)));
    ("intermediate_size", PInt 1536); ("max_position_embeddings", PInt 2048);
    ("mlp_bias", PBool false); ("model_type", PStr "llama"); ("num_attention_heads", PInt 9);
    ("num_hidden_layers", PInt 30); ("num_key_value_heads", PInt 3); ("pad_token_id", PInt 2);
    ("pretraining_tp", PInt 1);
    ("rms_norm_eps", PFloat (Fin (5902958103587057 # 590295810358705651712)));
    ("rope_scaling", PNone); ("rope_theta", PFloat (Fin (10000 # 1)));
    ("tie_word_embeddings", PBool true); ("torch_dtype", PStr "bfloat16");
    ("transformers_version", PStr "4.42.3"); ("use_cache", PBool true);
    ("vocab_size", PInt 49152)].

Definition preset_smollm2_135m : list (string * pyval) := [
    ("architectures", PList [PStr "LlamaForCausalLM"]); ("attention_bias", PBool false);
    ("attention_dropout", PFloat (Fin (0 # 1))); ("bos_token_id", PInt 1);
    ("eos_token_id", PInt 2); ("hidden_act", PStr "silu"); ("hidden_size", PInt 576);
    ("initializer_range", PFloat (Fin (6004799503160661 # 144115188075855872)));
    ("intermediate_size", PInt 1536); ("is_llama_config", PBool true);
    ("max_position_embeddings", PInt 8192); ("mlp_bias", PBool false);
    ("model_type", PStr "llama"); ("num_attention_heads", PInt 9);
    ("num_hidden_layers", PInt 30); ("num_key_value_heads", PInt 3); ("pad_token_id", PInt 2);
    ("pretraining_tp", PInt 1);
    ("rms_norm_eps", PFloat (Fin (5902958103587057 # 590295810358705651712)));
    ("rope_interleaved", PBool false); ("rope_scaling", PNone); ("rope_theta", PInt 100000);
    ("tie_word_embeddings", PBool true); ("torch_dtype", PStr "bfloat16");
    ("transformers_version", PStr "4.42.3");
    ("transformers.js_config", PDict [
      ("kv_cache_dtype", PDict [
        ("q4f16", PStr "float16"); ("fp16", PStr "float16")])]);
    ("use_cache", PBool true); ("vocab_size", PInt 49152)].

Definition preset_smollm2_360m : list (string * pyval) := [
    ("architectures", PList [PStr "LlamaForCausalLM"]); ("attention_bias", PBool false);
    ("attention_dropout", PFloat (Fin (0 # 1))); ("bos_token_id", PInt 1);
    ("eos_token_id", PInt 2); ("hidden_act", PStr "silu"); ("hidden_size", PInt 960);
    ("initializer_range", PFloat (Fin (5764607523034235 # 288230376151711744)));
    ("intermediate_size", PInt 2560); ("is_llama_config", PBool true);
    ("max_position_embeddings", PInt 8192); ("mlp_bias", PBool false);
    ("model_type", PStr "llama"); ("num_attention_heads", PInt 15);
    ("num_hidden_layers", PInt 32); ("num_key_value_heads", PInt 5); ("pad_token_id", PInt 2);
    ("pretraining_tp", PInt 1);
    ("rms_norm_eps", PFloat (Fin (5902958103587057 # 590295810358705651712)));
    ("rope_interleaved", PBool false); ("rope_scaling", PNone); ("rope_theta", PInt 100000);
    ("tie_word_embeddings", PBool true); ("torch_dtype", PStr "bfloat16");
    ("transformers_version", PStr "4.42.3");
    ("transformers.js_config", PDict [
      ("kv_cache_dtype", PDict [
        ("q4f16", PStr "float16"); ("fp16", PStr "float16")])]);
    ("use_cache", PBool true); ("vocab_size", PInt 49152)].

Definition preset_aya_23 : list (string * pyval) := [
    ("architectures", PList [PStr "CohereForCausalLM"]); ("attention_bias", PBool false);
    ("attention_dropout", PFloat (Fin (0 # 1))); ("bos_token_id", PInt 5);
    ("eos_token_id", PInt 255001); ("hidden_act", PStr "silu"); ("hidden_size", PInt 4096);
    ("initializer_range", PFloat (Fin (5764607523034235 # 288230376151711744)));
    ("intermediate_size", PInt 14336);
    ("layer_norm_eps", PFloat (Fin (5902958103587057 # 590295810358705651712)));
    ("logit_scale", PFloat (Fin (1 # 16))); ("max_position_embeddings", PInt 8192);
    ("model_type", PStr "cohere"); ("num_attention_heads", PInt 32);
    ("num_hidden_layers", PInt 32); ("num_key_value_heads", PInt 8); ("pad_token_id", PInt 0);
    ("rope_theta", PInt 10000); ("torch_dtype", PStr "float16");
    ("transformers_version", PStr "4.40.0.dev0"); ("use_cache", PBool true);
    ("use_qk_norm", PBool false); ("vocab_size", PInt 256000)].

Definition preset_minicpm_2b : list (string * pyval) := [
    ("architectures", PList [PStr "MiniCPMForCausalLM"]); ("bos_token_id", PInt 1);
    ("eos_token_id", PInt 2); ("hidden_act", PStr "silu"); ("hidden_size", PInt 2304);
    ("initializer_range", PFloat (Fin (3602879701896397 # 36028797018963968)));
    ("intermediate_size", PInt 5760); ("max_position_embeddings", PInt 65536);
    ("max_length", PInt 131072); ("model_type", PStr "minicpm");
    ("num_attention_heads", PInt 36); ("num_hidden_layers", PInt 40);
    ("num_key_value_heads", PInt 36);
    ("rms_norm_eps", PFloat (Fin (5902958103587057 # 590295810358705651712)));
    ("rope_scaling", PDict [
      ("type", PStr "dynamic"); ("factor", PFloat (Fin (4 # 1)))]);
    ("torch_dtype", PStr "bfloat16"); ("transformers_version", PStr "4.36.0");
    ("use_cache", PBool true); ("vocab_size", PInt 122760); ("scale_emb", PInt 12);
    ("dim_model_base", PInt 256);
    ("scale_depth", PFloat (Fin (3152519739159347 # 2251799813685248)));
    ("tie_word_embeddings", PBool false); ("rope_theta", PFloat (Fin (1000000 # 1)))].

Definition preset_minicpm_2b_sft_bf16 : list (string * pyval) := [
    ("architectures", PList [PStr "MiniCPMForCausalLM"]); ("bos_token_id", PInt 1);
    ("eos_token_id", PInt 2); ("hidden_act", PStr "silu"); ("hidden_size", PInt 2304);
    ("initializer_range", PFloat (Fin (3602879701896397 # 36028797018963968)));
    ("intermediate_size", PInt 5760); ("max_position_embeddings", PInt 4096);
    ("model_type", PStr "minicpm"); ("num_attention_heads", PInt 36);
    ("num_hidden_layers", PInt 40); ("num_key_value_heads", PInt 36);
    ("rms_norm_eps", PFloat (Fin (5902958103587057 # 590295810358705651712)));
    ("torch_dtype", PStr "bfloat16"); ("tie_word_embeddings", PBool true);
    ("transformers_version", PStr "4.36.0"); ("use_cache", PBool true);
    ("vocab_size", PInt 122753); ("scale_emb", PInt 12); ("dim_model_base", PInt 256);
    ("scale_depth", PFloat (Fin (3152519739159347 # 2251799813685248)))].

Definition preset_minicpm_moe_8x2b : list (string * pyval) := [
    ("architectures", PList [PStr "MiniCPMForCausalLM"]); ("bos_token_id", PInt 1);
    ("eos_token_id", PInt 2); ("hidden_act", PStr "silu"); ("hidden_size", PInt 2304);
    ("initializer_range", PFloat (Fin (3602879701896397 # 36028797018963968)));
    ("intermediate_size", PInt 5760); ("max_position_embeddings", PInt 4096);
    ("model_type", PStr "minicpm"); ("num_attention_heads", PInt 36);
    ("num_hidden_layers", PInt 40); ("num_key_value_heads", PInt 36);
    ("rms_norm_eps", PFloat (Fin (5902958103587057 # 590295810358705651712)));
    ("rope_scaling", PNone); ("torch_dtype", PStr "bfloat16");
    ("tie_word_embeddings", PBool true); ("transformers_version", PStr "4.36.0");
    ("use_cache", PBool true); ("vocab_size", PInt 122753); ("scale_emb", PInt 12);
    ("dim_model_base", PInt 256);
    ("scale_depth", PFloat (Fin (3152519739159347 # 2251799813685248)));
    ("num_experts", PInt 8); ("num_experts_per_tok", PInt 2)].

Definition preset_deepseek : list (string * pyval) := [
    ("architectures", PList [PStr "DeepseekForCausalLM"]); ("attention_bias", PBool false);
    ("attention_dropout", PFloat (Fin (0 # 1))); ("bos_token_id", PInt 100000);
    ("eos_token_id", PInt 100001); ("first_k_dense_replace", PInt 1);
    ("hidden_act", PStr "silu"); ("hidden_size", PInt 2048);
    ("initializer_range", PFloat (Fin (5764607523034235 # 288230376151711744)));
    ("intermediate_size", PInt 10944); ("max_position_embeddings", PInt 4096);
    ("model_type", PStr "deepseek"); ("moe_intermediate_size", PInt 1408);
    ("moe_layer_freq", PInt 1); ("n_routed_experts", PInt 64); ("n_shared_experts", PInt 2);
    ("norm_topk_prob", PBool false); ("num_attention_heads", PInt 16);
    ("num_experts_per_tok", PInt 6); ("num_hidden_layers", PInt 28);
    ("num_key_value_heads", PInt 16); ("pretraining_tp", PInt 1);
    ("rms_norm_eps", PFloat (Fin (4722366482869645 # 4722366482869645213696)));
    ("rope_scaling", PNone); ("rope_theta", PInt 10000); ("scoring_func", PStr "softmax");
    ("tie_word_embeddings", PBool false); ("torch_dtype", PStr "bfloat16");
    ("transformers_version", PStr "4.36.2"); ("use_cache", PBool true);
    ("vocab_size", PInt 102400)].

Definition preset_gpt_j : list (string * pyval) := [
    ("activation_function", PStr "gelu_new"); ("architectures", PList [PStr "GPTJForCausalLM"]);
    ("attn_pdrop", PFloat (Fin (0 # 1))); ("bos_token_id", PInt 50256);
    ("embd_pdrop", PFloat (Fin (0 # 1))); ("eos_token_id", PInt 50256);
    ("initializer_range", PFloat (Fin (5764607523034235 # 288230376151711744)));
    ("layer_norm_epsilon", PFloat (Fin (5902958103587057 # 590295810358705651712)));
    ("model_type", PStr "gptj"); ("n_embd", PInt 4096); ("n_head", PInt 16); ("n_inner", PNone);
    ("n_layer", PInt 28); ("n_positions", PInt 2048); ("resid_pdrop", PFloat (Fin (0 # 1)));
    ("rotary", PBool true); ("rotary_dim", PInt 64); ("scale_attn_weights", PBool true);
    ("summary_activation", PNone);
    ("summary_first_dropout", PFloat (Fin (3602879701896397 # 36028797018963968)));
    ("summary_proj_to_labels", PBool true); ("summary_type", PStr "cls_index");
    ("summary_use_proj", PBool true);
    ("rope_scaling", PDict [
      ("rope_type", PStr "gptj")]);
    ("tie_word_embeddings", PBool false); ("tokenizer_class", PStr "GPT2Tokenizer");
    ("transformers_version", PStr "4.18.0.dev0"); ("use_cache", PBool true);
    ("vocab_size", PInt 50400)].

Definition preset_olmo2_7b : list (string * pyval) := [
    ("architectures", PList [PStr "Olmo2ForCausalLM"]); ("hidden_act", PStr "silu");
    ("hidden_size", PInt 4096); ("intermediate_size", PInt 11008);
    ("max_position_embeddings", PInt 4096); ("model_type", PStr "olmo2");
    ("num_attention_heads", PInt 32); ("num_hidden_layers", PInt 32);
    ("num_key_value_heads", PInt 32);
    ("rms_norm_eps", PFloat (Fin (4722366482869645 # 4722366482869645213696)));
    ("rope_theta", PFloat (Fin (500000 # 1))); ("tie_word_embeddings", PBool false);
    ("torch_dtype", PStr "float32"); ("transformers_version", PStr "4.47.0");
    ("use_cache", PBool true); ("vocab_size", PInt 100352)].

Definition preset_olmo2_13b : list (string * pyval) := [
    ("architectures", PList [PStr "Olmo2ForCausalLM"]); ("hidden_act", PStr "silu");
    ("hidden_size", PInt 5120); ("intermediate_size", PInt 13824);
    ("max_position_embeddings", PInt 4096); ("model_type", PStr "olmo2");
    ("num_attention_heads", PInt 40); ("num_hidden_layers", PInt 40);
    ("num_key_value_heads", PInt 40);
    ("rms_norm_eps", PFloat (Fin (4722366482869645 # 4722366482869645213696)));
    ("rope_theta", PFloat (Fin (500000 # 1))); ("tie_word_embeddings", PBool false);
    ("torch_dtype", PStr "float32"); ("transformers_version", PStr "4.47.0");
    ("use_cache", PBool true); ("vocab_size", PInt 100352)].

Definition preset_olmo2_32b : list (string * pyval) := [
    ("architectures", PList [PStr "Olmo2ForCausalLM"]); ("hidden_act", PStr "silu");
    ("hidden_size", PInt 5120); ("intermediate_size", PInt 27648);
    ("max_position_embeddings", PInt 4096); ("model_type", PStr "olmo2");
    ("num_attention_heads", PInt 40); ("num_hidden_layers", PInt 64);
    ("num_key_value_heads", PInt 8);
    ("rms_norm_eps", PFloat (Fin (4722366482869645 # 4722366482869645213696)));
    ("rope_theta", PFloat (Fin (500000 # 1))); ("tie_word_embeddings", PBool false);
    ("torch_dtype", PStr "float32"); ("transformers_version", PStr "4.49.0");
    ("use_cache", PBool true); ("vocab_size", PInt 100352)].

Definition MODEL_PRESETS : list (string * list (string * pyval)) := [
    ("llama2_7b", preset_llama2_7b); ("llama2_13b", preset_llama2_13b);
    ("llama2_70b", preset_llama2_70b); ("codellama_7b", preset_codellama_7b);
    ("codellama_13b", preset_codellama_13b); ("codellama_34b", preset_codellama_34b);
    ("tinyllama_1b_chat_v0.4", preset_tinyllama_1b_chat_v0_4);
    ("tinyllama_1b_chat_v1.0", preset_tinyllama_1b_chat_v1_0);
    ("mistral_7b", preset_mistral_7b); ("mistral_7b_v03", preset_mistral_7b_v03);
    ("ministral3_3b_2512", preset_ministral3_3b_2512); ("gpt2", preset_gpt2);
    ("gpt2_medium", preset_gpt2_medium); ("gpt_bigcode", preset_gpt_bigcode);
    ("Mixtral-8x7B-v0.1", preset_Mixtral_8x7B_v0_1);
    ("redpajama_3b_v1", preset_redpajama_3b_v1); ("phi-1_5", preset_phi_1_5);
    ("phi-2", preset_phi_2); ("phi-3_5", preset_phi_3_5);
    ("phi-3_5-vision", preset_phi_3_5_vision); ("phi-4", preset_phi_4); ("qwen", preset_qwen);
    ("qwen2", preset_qwen2); ("qwen2moe", preset_qwen2moe);
    ("deepseek_v2_lite", preset_deepseek_v2_lite); ("stablelm", preset_stablelm);
    ("baichuan", preset_baichuan); ("internlm", preset_internlm); ("gemma_2b", preset_gemma_2b);
    ("gemma2_2b", preset_gemma2_2b); ("gemma2_2b-jpn", preset_gemma2_2b_jpn);
    ("gemma2_9b", preset_gemma2_9b); ("gemma3_1b_it", preset_gemma3_1b_it);
    ("gemma2_27b", preset_gemma2_27b); ("rwkv5_3b", preset_rwkv5_3b); ("orion", preset_orion);
    ("llava", preset_llava); ("chatglm", preset_chatglm); ("llama3_1_8b", preset_llama3_1_8b);
    ("llama3_1_70b", preset_llama3_1_70b); ("llama3_2_1b", preset_llama3_2_1b);
    ("llama3_2_3b", preset_llama3_2_3b);
    ("snowflake-arctic-embed-m", preset_snowflake_arctic_embed_m);
    ("stablelm-2-zephyr-1_6b", preset_stablelm_2_zephyr_1_6b);
    ("qwen2_0_5b", preset_qwen2_0_5b); ("qwen2_1_5b", preset_qwen2_1_5b);
    ("qwen2.5_3b", preset_qwen2_5_3b); ("qwen2_7b", preset_qwen2_7b);
    ("qwen3_0.6b", preset_qwen3_0_6b); ("qwen3_1.7b", preset_qwen3_1_7b);
    ("internlm2", preset_internlm2); ("internlm2_5_7b", preset_internlm2_5_7b);
    ("starcoder2", preset_starcoder2); ("smollm_1_7b", preset_smollm_1_7b);
    ("smollm_360m", preset_smollm_360m); ("smollm_135m", preset_smollm_135m);
    ("smollm2_135m", preset_smollm2_135m); ("smollm2_360m", preset_smollm2_360m);
    ("aya-23", preset_aya_23); ("minicpm_2b", preset_minicpm_2b);
    ("minicpm_2b_sft_bf16", preset_minicpm_2b_sft_bf16);
    ("minicpm-moe-8x2b", preset_minicpm_moe_8x2b); ("deepseek", preset_deepseek);
    ("gpt_j", preset_gpt_j); ("olmo2_7b", preset_olmo2_7b); ("olmo2_13b", preset_olmo2_13b);
    ("olmo2_32b", preset_olmo2_32b)].
