(* ===== verification/NestedConfigs.v ===== *)
(** The configuration classes that hold another configuration or loop over
    their source: Llama 4, Gemma 3, LLaVA, Phi-3 vision and Qwen 3.5
    ([python/mlc_llm/model/llama4/llama4_model.py] and so on).

    A configuration object that is the value of an attribute is a dictionary of
    its fields and its [kwargs], marked with the name of its class. *)

From Stdlib Require Import QArith Lia ZArith.
From stdpp Require Import base gmap strings list.
From S2P Require Import Prelude PyString PyObject Flags Config ModelConfigs ModelPresets.
Close Scope Q_scope.

(** ** Objects as values *)

Definition object_of (c : config) : pyval :=
  PDict ((class_mark, PStr (class_name (config_class_of c))) ::
         omap (λ k, (λ v, (k, v)) <$> values c !! k) (fields_of (config_class_of c)) ++
         [("kwargs", PDict (map_to_list (Config.kwargs c)))]).

(** The name of the class, for an object. *)
Definition class_of (v : pyval) : option pyval :=
  match v with PDict d => dict_get class_mark d | _ => None end.

(** [isinstance(v, ConfigBase)] and [isinstance(v, cls)]; no class the program
    tests for has a subclass that occurs. *)
Definition is_config (v : pyval) : bool := bool_decide (is_Some (class_of v)).
Definition is_instance (cls : string) (v : pyval) : bool :=
  match class_of v with Some (PStr n) => bool_decide (n = cls) | _ => false end.

(** [dict(v)] of a dictionary: a copy. (Of the other values [json.loads] returns,
    [dict] only accepts empty ones and lists of pairs; they raise here.) *)
Definition dict_of (v : pyval) : result (list (string * pyval)) :=
  match v with
  | PDict d => if is_config v then raise TypeError "object is not iterable" else Ok d
  | _ => raise TypeError "object is not iterable"
  end.

(** [dataclasses.asdict(v)], which keeps [kwargs]. *)
Definition asdict_of (v : pyval) : list (string * pyval) :=
  match plain v with PDict d => d | _ => [] end.

(** [for k, v in d.pop("kwargs", {}).items(): d[k] = v]. *)
Definition merge_kwargs (d : list (string * pyval)) : result (list (string * pyval)) :=
  match dict_get "kwargs" d with
  | None => Ok d
  | Some (PDict kw) => Ok (foldl (λ d p, dict_set p.1 p.2 d) (dict_delete "kwargs" d) kw)
  | Some _ => raise AttributeError "object has no attribute 'items'"
  end.

(** [cls.from_dict(d)], as a value. *)
Definition load (cls : config_class) (d : gmap string pyval) : result pyval :=
  object_of <$> from_dict cls d.

(** [self.k.name] and [self.k.name = e], for an object. *)
Definition sub (k name : string) : py pyval := (
  v ← self k;
  pure (if is_config v then
          match v with
          | PDict d => match dict_get name d with Some x => Ok x | None => attr_error end
          | _ => attr_error
          end
        else attr_error)).
Definition set_sub (k name : string) (e : py pyval) : py unit := set_item k name e.

(** [for k in names: if getattr(self, k) <= 0: if hasattr(self.text_config, k): …]. *)
Definition has_attribute (v : pyval) (k : string) : bool :=
  is_config v && match v with PDict d => has_key k d | _ => false end.
Definition inherit_from_text (names : list string) : py unit :=
  st_iter (λ k,
    when (self k <= int 0)%py
      (when (v ← self "text_config"; mret (has_attribute v k))
         (set_attr k (sub "text_config" k)))) names.

(** [self.k = cls.from_dict(…)] with the source prepared as the classes do:
    [asdict] of an object or a copy of a dictionary, its [kwargs] merged. *)
Definition reload (cls : config_class) (is_object : pyval → bool) (k : string) : py unit := (
  v ← self k;
  d ← pure (if is_object v then Ok (asdict_of v) else dict_of v);
  d ← pure (merge_kwargs d);
  set_attr k (pure (load cls (list_to_map d)))).

(** ** Llama 4 *)

(** [[int((i + 1) % interval != 0) for i in range(n)]]. *)
Definition default_no_rope_layers (interval n : pyval) : result pyval :=
  layers ← py_range (PInt 0) n (PInt 1);
  PList <$> map_m (λ i : Z,
    m ← py_mod (PInt (i + 1)) interval;
    Ok (PInt (if py_eqb m (PInt 0) then 0 else 1))) layers.

(** [list(range(a, b, c))]. *)
Definition range_value (start stop step : pyval) : result pyval :=
  l ← py_range start stop step; Ok (PList (PInt <$> l)).

Definition Llama4TextConfig_post_init : py unit := (
  rope_base ;;
  when (py_not (is_none (self "rope_scaling")))
    (ifte (py_not (has_item "rope_type" (self "rope_scaling")))
       (set_attr "rope_scaling" none)
       (py_check_eval (item (self "rope_scaling") "rope_type" == str "llama3")
          (item (self "rope_scaling") "rope_type")
          "Unsupported RoPE scaling type {self.rope_scaling['rope_type']} for Llama")) ;;
  when (self "no_rope_layers" == lit (PList []))
    (set_attr "no_rope_layers" none) ;;
  default_layers ← lift2 default_no_rope_layers (self "no_rope_layer_interval") (self "num_hidden_layers");
  set_attr "no_rope_layers"
    (ternary (truth (self "no_rope_layers")) (self "no_rope_layers") (lit default_layers)) ;;
  set_attr "moe_layers"
    (ternary (py_not (is_none (self "moe_layers"))) (self "moe_layers")
       (step ← self "interleave_moe_layer_step";
        start ← pure (py_minus step (PInt 1));
        stop ← self "num_hidden_layers";
        pure (range_value start stop step))))%py.

Definition Llama4TextConfig : config_class := {|
  class_name := "Llama4TextConfig";
  class_fields := [
    ("hidden_size", None); ("intermediate_size", None); ("num_attention_heads", None);
    ("num_hidden_layers", None); ("rms_norm_eps", None); ("rope_theta", None);
    ("use_qk_norm", None); ("interleave_moe_layer_step", None); ("num_experts_per_tok", None);
    ("num_local_experts", None); ("hidden_act", None);
    ("tie_word_embeddings", Some (PBool false)); ("position_embedding_base", Some (PInt 0));
    ("rope_scaling", Some PNone); ("num_key_value_heads", Some (PInt 0)); ("head_dim", Some (PInt 0));
    ("attn_scale", Some (PFloat (Fin (3602879701896397 # 36028797018963968))));
    ("floor_scale", Some (PInt 8192)); ("vocab_size", Some (PInt 202048));
    ("attention_bias", Some (PBool false)); ("attn_temperature_tuning", Some (PBool true));
    ("no_rope_layers", Some PNone); ("no_rope_layer_interval", Some (PInt 4));
    ("moe_layers", Some PNone)];
  class_attrs := [];
  prepare := λ m, m;
  run_post_init := Llama4TextConfig_post_init;
|}.

Definition Llama4Config_post_init : py unit := (
  reload Llama4TextConfig is_config "text_config" ;;
  when (self "context_window_size" == int 0)
    (set_attr "context_window_size" (self "max_position_embeddings")) ;;
  when (sub "text_config" "num_key_value_heads" == int 0)
    (set_sub "text_config" "num_key_value_heads" (sub "text_config" "num_attention_heads")) ;;
  when (sub "text_config" "head_dim" == int 0)
    (set_sub "text_config" "head_dim"
       ((sub "text_config" "hidden_size") `floordiv` (sub "text_config" "num_attention_heads"))) ;;
  py_check ((sub "text_config" "num_attention_heads") `mod` (sub "text_config" "num_key_value_heads")
              == int 0) "" ;;
  clamp_prefill 8192)%py.

(** [max_position_embeddings] is assigned in the class without an annotation: it
    is not a field. *)
Definition Llama4Config : config_class := {|
  class_name := "Llama4Config";
  class_fields := [
    ("text_config", None); ("tensor_parallel_shards", Some (PInt 1));
    ("context_window_size", Some (PInt 0)); ("pipeline_parallel_stages", Some (PInt 1));
    ("prefill_chunk_size", Some (PInt 0)); ("max_batch_size", Some (PInt 1));
    ("disaggregation", Some (PBool false)); ("vocab_size", Some (PInt 202048))];
  class_attrs := [("max_position_embeddings", PInt 131072)];
  prepare := λ m, m;
  run_post_init := Llama4Config_post_init;
|}.

(** ** Gemma 3 *)

Definition Gemma3Config_post_init : py unit := (
  when (is_none (self "text_config"))
    (set_attr "is_text_model" (lit (PBool true)) ;;
     set_attr "text_config" (λ o, (o, load Gemma3TextConfig (PyObject.kwargs o)))) ;;
  reload Gemma3TextConfig (is_instance "Gemma3TextConfig") "text_config" ;;
  inherit_from_text ["context_window_size"; "prefill_chunk_size"; "sliding_window_size"])%py.

Definition Gemma3Config : config_class := {|
  class_name := "Gemma3Config";
  class_fields := [
    ("text_config", Some PNone); ("vocab_size", Some (PInt 262208));
    ("tensor_parallel_shards", Some (PInt 1)); ("max_batch_size", Some (PInt 1));
    ("context_window_size", Some (PInt (-1))); ("sliding_window_size", Some (PInt (-1)));
    ("prefill_chunk_size", Some (PInt (-1))); ("is_text_model", Some (PBool false))];
  class_attrs := [];
  prepare := λ m, m;
  run_post_init := Gemma3Config_post_init;
|}.

(** ** Phi-3 vision *)

Definition CLIPVISION_DEFAULT_CONFIG : list (string * pyval) := [
  ("hidden_size", PInt 1024); ("image_size", PInt 336); ("intermediate_size", PInt 4096);
  ("num_attention_heads", PInt 16); ("num_hidden_layers", PInt 24); ("patch_size", PInt 14);
  ("projection_dim", PInt 768);
  ("layer_norm_eps", PFloat (Fin (5902958103587057 # 590295810358705651712))); ("vocab_size", PNone)].

Definition phi3v_vision : py unit := (
  v ← self "vision_config";
  let d := if is_instance "CLIPVisionConfig" v then asdict_of v else CLIPVISION_DEFAULT_CONFIG in
  d ← pure (merge_kwargs d);
  set_attr "vision_config" (pure (load CLIPVisionConfig (list_to_map d))))%py.

Definition phi3v_rope_scaling : py unit := (
  when (py_not (is_none (self "rope_scaling")))
    (ifte (py_not (has_item "type" (self "rope_scaling")))
       (set_attr "rope_scaling" none)
       (when (item (self "rope_scaling") "type" == str "su")
          (set_item "rope_scaling" "type" (str "longrope")) ;;
        py_check_eval (item (self "rope_scaling") "type" == str "longrope")
          (item (self "rope_scaling") "rope_type")
          "Unsupported RoPE scaling type {self.rope_scaling['rope_type']} for Phi3" ;;
        set_item "rope_scaling" "rope_type" (item (self "rope_scaling") "type") ;;
        set_item "rope_scaling" "max_position_embeddings" (self "max_position_embeddings") ;;
        set_item "rope_scaling" "original_max_position_embeddings"
          (self "original_max_position_embeddings"))))%py.

Definition Phi3VConfig_post_init : py unit := (
  phi3v_vision ;;
  rope_base ;;
  phi3v_rope_scaling ;;
  when (self "context_window_size" == int 0)
    (set_attr "context_window_size" (self "max_position_embeddings")) ;;
  clamp_prefill 8192 ;;
  when (py_or (self "num_key_value_heads" == int 0) (is_none (self "num_key_value_heads")))
    (set_attr "num_key_value_heads" (self "num_attention_heads")) ;;
  when (self "head_dim" == int 0)
    (set_attr "head_dim" ((self "hidden_size") `floordiv` (self "num_attention_heads"))) ;;
  py_check ((self "head_dim") * (self "num_attention_heads") == self "hidden_size") "" ;;
  py_check ((self "num_attention_heads") `mod` (self "num_key_value_heads") == int 0) "")%py.

Definition Phi3VConfig : config_class := {|
  class_name := "Phi3VConfig";
  class_fields := [
    ("model_type", None); ("hidden_size", None); ("vocab_size", None); ("num_hidden_layers", None);
    ("num_attention_heads", None); ("intermediate_size", None); ("rms_norm_eps", None);
    ("num_key_value_heads", None); ("max_position_embeddings", None);
    ("vision_config", Some PNone); ("img_processor", Some PNone);
    ("position_embedding_base", Some (PInt 0)); ("rope_scaling", Some PNone);
    ("original_max_position_embeddings", Some (PInt 0)); ("context_window_size", Some (PInt 0));
    ("prefill_chunk_size", Some (PInt 0)); ("head_dim", Some (PInt 0));
    ("tensor_parallel_shards", Some (PInt 1)); ("max_batch_size", Some (PInt 1))];
  class_attrs := [];
  prepare := λ m, m;
  run_post_init := Phi3VConfig_post_init;
|}.

(** ** LLaVA *)

Section llava.
(** [AutoConfig.from_pretrained(name).to_dict()] of the transformers library:
    [None] when it raises [ImportError] or [OSError]. *)
Variable from_pretrained : pyval → result (option (list (string * pyval))).

Definition CONFIG_MAP : list (string * config_class) :=
  [("LlamaForCausalLM", LlamaConfig); ("MistralForCausalLM", MistralConfig)].

Definition preset_mapping : list (string * string) :=
  [("meta-llama/Llama-2-7b-hf", "llama2_7b"); ("meta-llama/Llama-2-13b-hf", "llama2_13b");
   ("lmsys/vicuna-7b-v1.5", "llama2_7b"); ("mistralai/Mistral-7B-v0.1", "mistral_7b")].

Definition get_hf_config (text_config_dict : list (string * pyval)) : result (list (string * pyval)) :=
  name ← get_key "_name_or_path" text_config_dict;
  loaded ← from_pretrained name;
  match loaded with
  | Some hf_config => Ok hf_config
  | None =>
      match name with
      | PStr s =>
          match dict_get s preset_mapping with
          | Some preset => get_key preset MODEL_PRESETS
          | None => raise ValueError "Unsupported text model"
          end
      | _ => raise ValueError "Unsupported text model"
      end
  end.

(** [d.update(e)]. *)
Definition dict_update (d e : list (string * pyval)) : list (string * pyval) :=
  foldl (λ d p, dict_set p.1 p.2 d) d e.

(** [architectures[0]] of a list of one architecture. *)
Definition sole_architecture (architectures : pyval) : result pyval :=
  n ← py_len architectures;
  _ ← py_assert (py_eqb n (PInt 1)) "";
  match architectures with
  | PList (a :: _) => Ok a
  | PStr s => Ok (PStr s)
  | _ => raise KeyError "0"
  end.

Definition llava_text_config : py unit := (
  v ← self "text_config";
  d ← pure (if is_config v then Ok (asdict_of v) else dict_of v);
  d ← (if has_key "_name_or_path" d then
         hf_config ← pure (get_hf_config d);
         let d := dict_update d hf_config in
         architectures ← pure (get_key "architectures" d);
         set_attr "text_architecture" (pure (sole_architecture architectures)) ;;
         mret d
       else pure (merge_kwargs d));
  architecture ← self "text_architecture";
  cls ← pure (match architecture with
              | PStr s => get_key s CONFIG_MAP
              | _ => raise KeyError "text_architecture"
              end);
  set_attr "text_config" (pure (load cls (list_to_map d))))%py.

Definition LlavaConfig_post_init : py unit := (
  reload CLIPVisionConfig (is_instance "CLIPVisionConfig") "vision_config" ;;
  llava_text_config ;;
  inherit_from_text ["context_window_size"; "sliding_window_size"; "prefill_chunk_size"])%py.

Definition LlavaConfig : config_class := {|
  class_name := "LlavaConfig";
  class_fields := [
    ("image_token_index", None); ("text_config", None); ("vision_config", None); ("vocab_size", None);
    ("context_window_size", Some (PInt (-1))); ("sliding_window_size", Some (PInt (-1)));
    ("prefill_chunk_size", Some (PInt (-1))); ("tensor_parallel_shards", Some (PInt 1));
    ("max_batch_size", Some (PInt 1)); ("text_architecture", Some (PStr "LlamaForCausalLM"))];
  class_attrs := [];
  prepare := λ m, m;
  run_post_init := LlavaConfig_post_init;
|}.
End llava.

(** ** Qwen 3.5 *)

Definition Qwen35Config_fields : list (string * option pyval) := [
  ("hidden_size", Some (PInt 0)); ("intermediate_size", Some (PInt 0));
  ("num_attention_heads", Some (PInt 0)); ("num_hidden_layers", Some (PInt 0));
  ("num_key_value_heads", Some (PInt 0));
  ("rms_norm_eps", Some (PFloat (Fin (4722366482869645 # 4722366482869645213696))));
  ("vocab_size", Some (PInt 0)); ("rope_theta", Some (PInt 10000000)); ("head_dim", Some (PInt 256));
  ("hidden_act", Some (PStr "silu")); ("attention_bias", Some (PBool false));
  ("tie_word_embeddings", Some (PBool false)); ("model_type", Some (PStr "qwen3_5"));
  ("image_token_id", Some (PInt 248056)); ("video_token_id", Some (PInt 248057));
  ("vision_start_token_id", Some (PInt 248053)); ("vision_end_token_id", Some (PInt 248054));
  ("vision_config", Some (PDict [])); ("mrope_section", Some PNone);
  ("mrope_interleaved", Some (PBool true));
  ("linear_key_head_dim", Some (PInt 128)); ("linear_value_head_dim", Some (PInt 128));
  ("linear_num_key_heads", Some (PInt 16)); ("linear_num_value_heads", Some (PInt 16));
  ("linear_conv_kernel_dim", Some (PInt 4)); ("full_attention_interval", Some (PInt 4));
  ("layer_type_pattern", Some PNone); ("partial_rotary_factor", Some (PFloat (Fin (1 # 4))));
  ("context_window_size", Some (PInt 0)); ("prefill_chunk_size", Some (PInt 0));
  ("tensor_parallel_shards", Some (PInt 1)); ("dtype", Some (PStr "float32"));
  ("max_batch_size", Some (PInt 1))].

(** The rotary parameters of a [rope_parameters] dictionary. *)
Definition qwen35_rope_parameters (rope_params : pyval) : py unit := (
  match rope_params with
  | PDict d =>
      match dict_get "rope_theta" d with Some v => set_value "rope_theta" v | None => skip end ;;
      match dict_get "partial_rotary_factor" d with
      | Some v => set_value "partial_rotary_factor" v | None => skip end ;;
      match dict_get "mrope_section" d with
      | Some v => set_attr "mrope_section" (pure (l ← py_iter v; PList <$> map_m py_to_int l))
      | None => skip end ;;
      match dict_get "mrope_interleaved" d with
      | Some v => set_value "mrope_interleaved" (PBool (PyObject.truthy v)) | None => skip end
  | _ => skip
  end)%py.

(** One key of the [text_config] of a vision-language model. *)
Definition qwen35_text_item (k : string) (v : pyval) : py unit :=
  if decide (k = "layer_types") then set_value "layer_type_pattern" v
  else if decide (k ∈ Qwen35Config_fields.*1 ∧ k ∉ ["kwargs"; "model_type"]) then set_value k v
  else set_kwargs k v.

Definition qwen35_text_config : py unit := (
  when (in_kwargs "text_config")
    (text_config ← kwargs_pop "text_config";
     match text_config with
     | PDict d =>
         for_items d qwen35_text_item ;;
         qwen35_rope_parameters (default (PDict []) (dict_get "rope_parameters" d))
     | _ => skip
     end))%py.

(** The layer types are made strings and checked. A value that is not a string is
    kept: its text is no layer type, so it is refused all the same. *)
Definition qwen35_check_layers : py unit := (
  pattern ← self "layer_type_pattern";
  match pattern with
  | PNone => skip
  | _ =>
      types ← pure (py_iter pattern);
      set_value "layer_type_pattern" (PList types) ;;
      n ← self "num_hidden_layers";
      when (mret (negb (py_eqb (PInt (Z.of_nat (length types))) n)))
        (py_raise ValueError "layer_types length must equal num_hidden_layers, got {len(self.layer_type_pattern)} vs {self.num_hidden_layers}.") ;;
      st_iter (λ t,
        when (py_not (is_in (lit t) [PStr "linear_attention"; PStr "full_attention"]))
          (py_raise ValueError "Unsupported Qwen3.5 layer type: {layer_type}.")) types
  end)%py.

Definition Qwen35Config_post_init : py unit := (
  qwen35_text_config ;;
  when (in_kwargs "vision_config")
    (vision_config ← kwargs_pop "vision_config";
     when (mret (is_dict vision_config)) (set_value "vision_config" vision_config)) ;;
  when (in_kwargs "layer_types")
    (set_attr "layer_type_pattern" (kwargs_pop "layer_types")) ;;
  when (in_kwargs "rope_parameters")
    (rope_params ← kwargs_pop "rope_parameters"; qwen35_rope_parameters rope_params) ;;
  when (py_and (py_not (is_none (self "mrope_section"))) (lift1 py_len (self "mrope_section") != int 3))
    (py_raise ValueError "mrope_section must contain 3 integers, got {self.mrope_section}.") ;;
  qwen35_check_layers ;;
  when (self "context_window_size" == int 0)
    (window_from ["max_position_embeddings"; "max_sequence_length"] (py_raise ValueError no_window)) ;;
  clamp_prefill 2048)%py.

Definition Qwen35Config : config_class := {|
  class_name := "Qwen35Config";
  class_fields := Qwen35Config_fields;
  class_attrs := [];
  prepare := λ m, m;
  run_post_init := Qwen35Config_post_init;
|}.

(** The type of each layer: the given pattern, or full attention at every
    [full_attention_interval]-th layer. *)
Definition Qwen35Config_layer_types : py (list pyval) := (
  pattern ← self "layer_type_pattern";
  match pattern with
  | PNone =>
      n ← self "num_hidden_layers";
      layers ← pure (py_range (PInt 0) n (PInt 1));
      interval ← self "full_attention_interval";
      pure (map_m (λ i : Z,
        m ← py_mod (PInt (i + 1)) interval;
        Ok (PStr (if py_eqb m (PInt 0) then "full_attention" else "linear_attention"))) layers)
  | _ => pure (py_iter pattern)
  end)%py.

(** [types.count(t)]. *)
Definition count_type (t : string) (types : list pyval) : nat :=
  length (filter (λ x, py_eqb x (PStr t) = true) types).
Definition num_linear_layers : py nat := types ← Qwen35Config_layer_types; mret (count_type "linear_attention" types).
Definition num_attention_layers : py nat := types ← Qwen35Config_layer_types; mret (count_type "full_attention" types).
