(* ===== verification/ConfigInvariants.v ===== *)
(** What accepted configurations satisfy: a small program logic for
    [__post_init__] methods, and the invariants of the configuration classes.

    [Keeps ks m] says that [m] leaves the attributes [ks] alone, [Establishes m Q]
    that [Q] holds when [m] returns. The rules go through a [__post_init__] to the
    statement that establishes a fact and past the statements that keep it. *)

From Stdlib Require Import QArith Lia ZArith.
From stdpp Require Import base gmap strings list.
From S2P Require Import Prelude PyString PyObject Flags Config ModelConfigs NestedConfigs.
Close Scope Q_scope.

(** ** Frame rules *)

Definition Keeps (ks : list string) {A} (m : py A) : Prop :=
  ∀ o k, k ∈ ks → attrs (m o).1 !! k = attrs o !! k.

Section keeps.
Context (ks : list string).

Lemma preserves_bind {A B} (m : py A) (f : A → py B) :
  Keeps ks m → (∀ a, Keeps ks (f a)) → Keeps ks (m ≫= f).
Proof.
  intros Hm Hf o k Hk. unfold mbind, stM_bind. specialize (Hm o k Hk).
  destruct (m o) as [o1 [a|e]]; simpl in *; [|done]. rewrite (Hf a o1 k Hk). exact Hm.
Qed.
Lemma preserves_ret {A} (a : A) : Keeps ks (mret a).
Proof. by intros o k _. Qed.
Lemma preserves_lift {A} (r : result A) : Keeps ks (st_lift r).
Proof. by intros o k _. Qed.
Lemma keeps_self k : Keeps ks (self k).
Proof. by intros o k' _. Qed.
Lemma keeps_in_kwargs k : Keeps ks (in_kwargs k).
Proof. by intros o k' _. Qed.
Lemma keeps_kwargs_item k : Keeps ks (kwargs_item k).
Proof. by intros o k' _. Qed.
Lemma keeps_kwargs_get k d : Keeps ks (kwargs_get k d).
Proof. by intros o k' _. Qed.
Lemma keeps_kwargs_pop k : Keeps ks (kwargs_pop k).
Proof. intros o k' _. unfold kwargs_pop. by destruct (PyObject.kwargs o !! k). Qed.
Lemma keeps_kwargs_pop_default k d : Keeps ks (kwargs_pop_default k d).
Proof. intros o k' _. unfold kwargs_pop_default. by destruct (PyObject.kwargs o !! k). Qed.
Lemma keeps_set_kwargs k v : Keeps ks (set_kwargs k v).
Proof. by intros o k' _. Qed.
Lemma keeps_set_value k v : bool_decide (k ∈ ks) = false → Keeps ks (set_value k v).
Proof.
  intros H%bool_decide_eq_false o k' Hk'. simpl. apply lookup_insert_ne. by intros ->.
Qed.
Lemma keeps_if {A} (b : bool) (m n : py A) : Keeps ks m → Keeps ks n → Keeps ks (if b then m else n).
Proof. by destruct b. Qed.
Lemma keeps_for_break l body orelse :
  (∀ x, Keeps ks (body x)) → Keeps ks orelse → Keeps ks (for_break l body orelse).
Proof.
  intros Hb He. induction l as [|x l IH]; simpl; [done|].
  apply preserves_bind; [done|]. intros [|]; [exact IH|apply preserves_ret].
Qed.
Lemma keeps_py_raise c msg : Keeps ks (py_raise c msg).
Proof. apply preserves_lift. Qed.
End keeps.

(** Unfold the combinators down to binds, and apply the rules. *)
Ltac unfold_py :=
  unfold window_from, clamp_prefill, rope_base, sliding_prefill, prefill_candidates, py_check_eval,
    min_star, break_when, next_when, set_attr, set_item, pop_item, ifte, when, py_check, skip, pure,
    lift1, lift2, as_value, truth, py_eq, py_lt, py_le, py_gt, py_ge, py_not, py_and, py_or, is_none,
    is_in, py_min, py_max, item, has_item, get_item, ternary, or_value, lit, int, str, none, lit.
Ltac keep :=
  repeat first
    [ apply preserves_bind; [|intros ?]
    | apply preserves_ret | apply preserves_lift | apply keeps_self | apply keeps_in_kwargs
    | apply keeps_kwargs_item | apply keeps_kwargs_get | apply keeps_kwargs_pop
    | apply keeps_kwargs_pop_default | apply keeps_set_kwargs | apply keeps_py_raise
    | apply keeps_set_value; vm_compute; reflexivity
    | apply keeps_for_break; [intros ?|]
    | apply keeps_if
    | match goal with |- Keeps _ (match ?x with _ => _ end) => destruct x end
    | progress unfold_py ].

(** ** Postconditions *)

Definition Establishes {A} (m : py A) (Q : obj → Prop) : Prop :=
  ∀ o o' a, m o = (o', Ok a) → Q o'.

(** [Q] reads the attributes [ks] only. *)
Definition Reads (ks : list string) (Q : obj → Prop) : Prop :=
  ∀ o o', (∀ k, k ∈ ks → attrs o' !! k = attrs o !! k) → Q o → Q o'.

Lemma est_last {A B} (m : py A) (f : A → py B) Q : (∀ a, Establishes (f a) Q) → Establishes (m ≫= f) Q.
Proof. intros H o o' b. rewrite st_bind_Ok. intros (a & o1 & _ & Hf). by eapply H. Qed.

Lemma est_first {A B} ks (m : py A) (f : A → py B) Q :
  Establishes m Q → Reads ks Q → (∀ a, Keeps ks (f a)) → Establishes (m ≫= f) Q.
Proof.
  intros Hm HQ Hf o o' b. rewrite st_bind_Ok. intros (a & o1 & H1 & H2). apply Hm in H1.
  eapply HQ; [|exact H1]. intros k Hk. specialize (Hf a o1 k Hk). by rewrite H2 in Hf.
Qed.

(** A configuration that was accepted satisfies what its [__post_init__]
    establishes. *)
Lemma accepted cls source c Q :
  Establishes (run_post_init cls) Q → from_dict cls source = Ok c →
  Q (mkObj (values c) (Config.kwargs c)).
Proof.
  intros HQ. unfold from_dict, construct, post_init. intros H. ok_inv. destruct a1 as [vs kw]. ok_inv.
  match goal with H : context [run_post_init cls ?o] |- _ =>
    destruct (run_post_init cls o) as [o' [u|e]] eqn:E; [|done] end.
  apply HQ in E. simplify_eq/=. by destruct o'.
Qed.

(** ** The prefill chunk is at most the window *)

Lemma py_ltb_asym a b : py_ltb a b = Ok true → py_ltb b a = Ok false.
Proof.
  unfold py_ltb. destruct (as_int a) as [x|] eqn:Ea, (as_int b) as [y|] eqn:Eb.
  1: { intros [= H]. f_equal. apply Z.ltb_ge. apply Z.ltb_lt in H. lia. }
  all: destruct (as_num a) as [f|], (as_num b) as [g|]; try done; intros [= H]; f_equal;
    destruct f as [p|[]|], g as [q|[]|]; simpl in *; try done;
    apply negb_true_iff in H; apply Qle_bool_false in H; apply negb_false_iff;
    apply Qle_bool_iff; by apply Qlt_le_weak.
Qed.

(** Both sides of a comparison are numbers, and no number is below itself. *)
Lemma py_ltb_numbers a b x : py_ltb a b = Ok x → is_Some (as_num a) ∧ is_Some (as_num b).
Proof.
  unfold py_ltb, as_num. destruct a, b; simpl; intros H; try done; split; by eexists.
Qed.
Lemma py_ltb_self a : is_Some (as_num a) → py_ltb a a = Ok false.
Proof.
  intros [f Hf]. unfold py_ltb. destruct (as_int a) as [z|]; [by rewrite Z.ltb_irrefl|].
  rewrite Hf. f_equal. destruct f as [q|[]|]; simpl; try done.
  apply negb_false_iff, Qle_bool_iff, Qle_refl.
Qed.

(** The smaller of two numbers is not above the first. *)
Lemma py_min2_le w l m : py_min2 w l = Ok m → py_ltb w m = Ok false.
Proof.
  unfold py_min2. intros H. ok_inv. destruct a.
  - by apply py_ltb_asym.
  - by apply py_ltb_self, (py_ltb_numbers l w false).
Qed.

(** [prefill_chunk_size] is not above [context_window_size]. *)
Definition clamped (o : obj) : Prop :=
  ∃ p w, attrs o !! "prefill_chunk_size" = Some p ∧ attrs o !! "context_window_size" = Some w ∧
    py_ltb w p = Ok false.

Lemma reads_clamped : Reads ["prefill_chunk_size"; "context_window_size"] clamped.
Proof.
  intros o o' H (p & w & Hp & Hw & Hle). exists p, w.
  rewrite !H by set_solver. done.
Qed.

Lemma self_Ok k o o' v : self k o = (o', Ok v) ↔ o' = o ∧ attrs o !! k = Some v.
Proof.
  unfold self. destruct (attrs o !! k) as [w|]; split.
  - by intros [= <- <-].
  - by intros [-> [= ->]].
  - done.
  - by intros [_ ?].
Qed.

(** Assigning the smaller of the window and a limit to the prefill chunk. *)
Lemma est_set_min limit :
  Establishes (set_attr "prefill_chunk_size" (py_min (self "context_window_size") (int limit))) clamped.
Proof.
  intros o o' u. unfold set_attr, py_min, lift2, int, lit. rewrite st_bind_Ok.
  intros (m & o1 & H & Hset). rewrite st_bind_Ok in H. destruct H as (w & o2 & [-> Hw]%self_Ok & H).
  rewrite st_bind_Ok in H. destruct H as (l & o3 & [= <- <-] & [Hm ->]%st_lift_Ok).
  injection Hset as <- _. exists m, w. simpl.
  rewrite lookup_insert_eq, lookup_insert_ne by done. split_and!; [done..|]. by apply py_min2_le in Hm.
Qed.

Lemma est_clamp_prefill limit : Establishes (clamp_prefill limit) clamped.
Proof.
  unfold clamp_prefill. unfold ifte at 1. apply est_last. intros [|]; [apply est_set_min|].
  unfold when, ifte. intros o o' u. rewrite st_bind_Ok. intros (b & o1 & Hb & H).
  destruct b; [by eapply est_set_min|]. injection H as <- _.
  unfold py_gt, lift2 in Hb. rewrite st_bind_Ok in Hb. destruct Hb as (p & o2 & [-> Hp]%self_Ok & Hb).
  rewrite st_bind_Ok in Hb. destruct Hb as (w & o3 & [-> Hw]%self_Ok & [Hlt ->]%st_lift_Ok).
  by exists p, w.
Qed.

(** Phi takes the smaller of the chunk and the window. *)
Lemma est_set_smaller :
  Establishes (set_attr "prefill_chunk_size"
    (py_min (self "prefill_chunk_size") (self "context_window_size"))) clamped.
Proof.
  intros o o' u. unfold set_attr, py_min, lift2. rewrite st_bind_Ok. intros (m & o1 & H & Hset).
  rewrite st_bind_Ok in H. destruct H as (p & o2 & [-> Hp]%self_Ok & H).
  rewrite st_bind_Ok in H. destruct H as (w & o3 & [-> Hw]%self_Ok & [Hm ->]%st_lift_Ok).
  injection Hset as <- _. exists m, w. simpl. rewrite lookup_insert_eq, lookup_insert_ne by done.
  split; [done|]. split; [exact Hw|]. unfold py_min2 in Hm. ok_inv. destruct a; [|done].
  by apply py_ltb_self, (py_ltb_numbers w p true).
Qed.

(** ** Attention heads *)

(** [a % b == 0], and [a * b == c], on attributes. *)
Definition divides (a b : string) (o : obj) : Prop :=
  ∃ x y z, attrs o !! a = Some x ∧ attrs o !! b = Some y ∧ py_mod x y = Ok z ∧ py_eqb z (PInt 0) = true.
Definition product (a b c : string) (o : obj) : Prop :=
  ∃ x y z t, attrs o !! a = Some x ∧ attrs o !! b = Some y ∧ attrs o !! c = Some t ∧
    py_mul x y = Ok z ∧ py_eqb z t = true.

Lemma reads_divides a b : Reads [a; b] (divides a b).
Proof.
  intros o o' H (x & y & z & Hx & Hy & Hz). exists x, y, z. rewrite !H by set_solver. done.
Qed.
Lemma reads_product a b c : Reads [a; b; c] (product a b c).
Proof.
  intros o o' H (x & y & z & t & Hx & Hy & Ht & Hz). exists x, y, z, t.
  rewrite !H by set_solver. done.
Qed.

Lemma est_check_divides a b msg :
  Establishes (py_check ((self a `mod` self b) == int 0)%py msg) (divides a b).
Proof.
  intros o o' u. unfold py_check, py_eq, lift2, int, lit. rewrite st_bind_Ok.
  intros (r & o1 & H & [Hr ->]%st_lift_Ok). rewrite py_assert_Ok in Hr. subst r.
  rewrite st_bind_Ok in H. destruct H as (z & o2 & H & H').
  rewrite st_bind_Ok in H. destruct H as (x & o3 & [-> Hx]%self_Ok & H).
  rewrite st_bind_Ok in H. destruct H as (y & o4 & [-> Hy]%self_Ok & [Hz ->]%st_lift_Ok).
  rewrite st_bind_Ok in H'. destruct H' as (w & o5 & [= <- <-] & [[= Heq] ->]%st_lift_Ok).
  by exists x, y, z.
Qed.

Lemma est_check_product a b c msg :
  Establishes (py_check (self a * self b == self c)%py msg) (product a b c).
Proof.
  intros o o' u. unfold py_check, py_eq, lift2. rewrite st_bind_Ok.
  intros (r & o1 & H & [Hr ->]%st_lift_Ok). rewrite py_assert_Ok in Hr. subst r.
  rewrite st_bind_Ok in H. destruct H as (z & o2 & H & H').
  rewrite st_bind_Ok in H. destruct H as (x & o3 & [-> Hx]%self_Ok & H).
  rewrite st_bind_Ok in H. destruct H as (y & o4 & [-> Hy]%self_Ok & [Hz ->]%st_lift_Ok).
  rewrite st_bind_Ok in H'. destruct H' as (t & o5 & [-> Ht]%self_Ok & [[= Heq] ->]%st_lift_Ok).
  by exists x, y, z, t.
Qed.

(** ** The classes *)

Ltac est rule reads :=
  first
    [ solve [rule]
    | eapply est_first; [solve [rule]|reads|intros; keep; fail]
    | apply est_last; intros ?; est rule reads ].
Ltac est_clamp :=
  est ltac:(first [apply est_clamp_prefill | apply est_set_smaller]) ltac:(apply reads_clamped).
Ltac est_divides := est ltac:(apply est_check_divides) ltac:(apply reads_divides).
Ltac est_product := est ltac:(apply est_check_product) ltac:(apply reads_product).

Ltac each_class :=
  cbn [fmap list_fmap app];
  repeat (apply Forall_cons; split; [cbn [run_post_init fst snd]|]); [..|by apply Forall_nil].

Definition clamping_classes : list config_class := [
  BaichuanConfig; GLMConfig; DeepseekConfig; DeepseekV2Config; LlamaConfig; EagleConfig; GemmaConfig;
  GPT2Config; GPTBigCodeConfig; GPTJConfig; GPTNeoXConfig; InternLMConfig; InternLM2Config;
  MiniCPMConfig; MixtralConfig; NemotronConfig; OLMoConfig; OLMo2Config; OrionConfig; Phi1Config;
  PhiConfig; Phi3Config; QWenConfig; QWen2Config; Qwen2MoeConfig; Qwen3Config; Qwen3MoeConfig;
  StableLmConfig; Starcoder2Config; Phi3VConfig; Qwen35Config; Llama4Config].

Lemma clamping : Forall (λ cls, Establishes (run_post_init cls) clamped) clamping_classes.
Proof. unfold clamping_classes. each_class. all: est_clamp. Qed.

(** The classes that check that the heads make up the hidden size: their head
    dimension, number of heads and hidden size. *)
Definition split_heads : list (config_class * (string * string * string)) :=
  ((λ cls, (cls, ("head_dim", "num_attention_heads", "hidden_size"))) <$>
    [BaichuanConfig; BertConfig; GLMConfig; DeepseekConfig; GPTNeoXConfig; InternLMConfig;
     InternLM2Config; MiniCPMConfig; NemotronConfig; OrionConfig; Phi1Config; Phi3Config; Phi3VConfig; QWenConfig;
     QWen2Config; Qwen2MoeConfig; StableLmConfig; Starcoder2Config]) ++
  ((λ cls, (cls, ("head_dim", "n_head", "n_embd"))) <$> [GPT2Config; GPTJConfig; PhiConfig]).

(** The classes that check that the query heads are shared evenly by the key-value
    heads. *)
Definition grouped_heads : list (config_class * (string * string)) :=
  ((λ cls, (cls, ("num_attention_heads", "num_key_value_heads"))) <$>
    [DeepseekV2Config; LlamaConfig; EagleConfig; MixtralConfig; GemmaConfig; Gemma2Config;
     Gemma3TextConfig; OLMoConfig; OLMo2Config; OrionConfig; Phi1Config; Phi3Config;
     Phi3VConfig; MistralConfig; Ministral3Config]) ++
  [(PhiConfig, ("n_head", "n_head_kv"))].

Lemma split :
  Forall (λ p, Establishes (run_post_init p.1) (product p.2.1.1 p.2.1.2 p.2.2)) split_heads.
Proof. unfold split_heads. each_class. all: est_product. Qed.

Lemma est_gemma : Establishes GemmaConfig_post_init (divides "num_attention_heads" "num_key_value_heads").
Proof. est_divides. Qed.

Lemma grouped :
  Forall (λ p, Establishes (run_post_init p.1) (divides p.2.1 p.2.2)) grouped_heads.
Proof. unfold grouped_heads. each_class.
  all: first [est_divides | est ltac:(apply est_gemma) ltac:(apply reads_divides)]. Qed.

(** ** The invariants *)

(** An accepted configuration of these classes never has a prefill chunk above its
    context window. *)
Theorem prefill_within_window cls source c :
  cls ∈ clamping_classes → from_dict cls source = Ok c →
  ∃ p w, values c !! "prefill_chunk_size" = Some p ∧ values c !! "context_window_size" = Some w ∧
    py_ltb w p = Ok false ∧ (∀ x y, p = PInt x → w = PInt y → (x ≤ y)%Z).
Proof.
  intros Hin Hc. pose proof clamping as HF. rewrite Forall_forall in HF.
  destruct (accepted _ _ _ _ (HF cls Hin) Hc) as (p & w & Hp & Hw & Hlt). exists p, w.
  split_and!; [done..|]. intros x y -> ->. unfold py_ltb in Hlt. simpl in Hlt.
  injection Hlt as Hlt. by apply Z.ltb_ge.
Qed.

(** In an accepted configuration of these classes the dimension and the number of
    the heads multiply to the hidden size, or the key-value heads divide the query
    heads: the checks are not undone by what follows them. *)
Theorem attention_heads cls source c :
  from_dict cls source = Ok c →
  (∀ d h s, (cls, (d, h, s)) ∈ split_heads → product d h s (mkObj (values c) (Config.kwargs c))) ∧
  (∀ h kv, (cls, (h, kv)) ∈ grouped_heads → divides h kv (mkObj (values c) (Config.kwargs c))).
Proof.
  intros Hc. split.
  - intros d h s Hin. pose proof split as HF. rewrite Forall_forall in HF.
    exact (accepted _ _ _ _ (HF _ Hin) Hc).
  - intros h kv Hin. pose proof grouped as HF. rewrite Forall_forall in HF.
    exact (accepted _ _ _ _ (HF _ Hin) Hc).
Qed.

(** ** Witnesses *)

Definition small_llama : gmap string pyval := list_to_map [
  ("hidden_size", PInt 64); ("intermediate_size", PInt 128); ("num_attention_heads", PInt 4);
  ("num_hidden_layers", PInt 2); ("rms_norm_eps", PFloat (Fin (1 # 100000))); ("vocab_size", PInt 100);
  ("num_key_value_heads", PInt 2); ("max_position_embeddings", PInt 256);
  ("prefill_chunk_size", PInt 512)].

Definition small_phi3 : gmap string pyval := list_to_map [
  ("model_type", PStr "phi3"); ("hidden_size", PInt 64); ("vocab_size", PInt 100);
  ("num_hidden_layers", PInt 2); ("num_attention_heads", PInt 4); ("intermediate_size", PInt 128);
  ("rms_norm_eps", PFloat (Fin (1 # 100000))); ("num_key_value_heads", PInt 2);
  ("max_position_embeddings", PInt 256)].

(** The configuration a source is accepted as. *)
Definition accepted_as (cls : config_class) (source : gmap string pyval) : Config.config :=
  match from_dict cls source with
  | Ok c => c
  | Err _ => {| config_class_of := cls; values := ∅; Config.kwargs := ∅ |}
  end.

Lemma prefill_within_window_witness :
  ∃ p w, values (accepted_as LlamaConfig small_llama) !! "prefill_chunk_size" = Some p ∧
    values (accepted_as LlamaConfig small_llama) !! "context_window_size" = Some w ∧
    py_ltb w p = Ok false ∧ (∀ x y, p = PInt x → w = PInt y → (x ≤ y)%Z).
Proof.
  apply (prefill_within_window LlamaConfig small_llama).
  - apply list_elem_of_In. simpl. tauto.
  - reflexivity.
Defined.

Lemma attention_heads_witness :
  product "head_dim" "num_attention_heads" "hidden_size"
    (mkObj (values (accepted_as Phi3Config small_phi3)) (Config.kwargs (accepted_as Phi3Config small_phi3))).
Proof.
  apply (proj1 (attention_heads Phi3Config small_phi3 (accepted_as Phi3Config small_phi3) eq_refl)).
  apply list_elem_of_In. simpl. tauto.
Defined.
