(* ===== verification/ModelRegistry.v ===== *)
(** The registry of models: [python/mlc_llm/model/model.py], the quantization
    functions of [quantization/model_quantization.py], and the detection of
    configurations, model types and quantizations of [support/auto_config.py].

    The network classes and the loader functions are named by strings; building
    and quantizing a network are recorded as calls. *)

From Stdlib Require Import QArith Lia ZArith.
From stdpp Require Import base gmap strings list.
From S2P Require Import Prelude PyString PyObject Flags Config ModelConfigs ModelPresets NestedConfigs.
From S2P Require QuantRegistry.
Close Scope Q_scope.

(** ** Quantization functions *)

(** The keyword arguments of [make_quantization_functions]. *)
Record support := {
  supports_group_quant : bool;
  supports_ft_quant : bool;
  supports_awq : bool;
  awq_unsupported_message : option string;
  supports_per_tensor : bool;
  supports_block_scale : bool;
}.

(** The defaults, and the changes the registry makes. *)
Definition standard : support := {|
  supports_group_quant := true; supports_ft_quant := true; supports_awq := false;
  awq_unsupported_message := None; supports_per_tensor := false; supports_block_scale := false |}.
Definition no_group (s : support) : support :=
  {| supports_group_quant := false; supports_ft_quant := supports_ft_quant s;
     supports_awq := supports_awq s; awq_unsupported_message := awq_unsupported_message s;
     supports_per_tensor := supports_per_tensor s; supports_block_scale := supports_block_scale s |}.
Definition no_ft (s : support) : support :=
  {| supports_group_quant := supports_group_quant s; supports_ft_quant := false;
     supports_awq := supports_awq s; awq_unsupported_message := awq_unsupported_message s;
     supports_per_tensor := supports_per_tensor s; supports_block_scale := supports_block_scale s |}.
Definition awq (s : support) : support :=
  {| supports_group_quant := supports_group_quant s; supports_ft_quant := supports_ft_quant s;
     supports_awq := true; awq_unsupported_message := awq_unsupported_message s;
     supports_per_tensor := supports_per_tensor s; supports_block_scale := supports_block_scale s |}.
Definition awq_message (m : string) (s : support) : support :=
  {| supports_group_quant := supports_group_quant s; supports_ft_quant := supports_ft_quant s;
     supports_awq := supports_awq s; awq_unsupported_message := Some m;
     supports_per_tensor := supports_per_tensor s; supports_block_scale := supports_block_scale s |}.
Definition per_tensor (s : support) : support :=
  {| supports_group_quant := supports_group_quant s; supports_ft_quant := supports_ft_quant s;
     supports_awq := supports_awq s; awq_unsupported_message := awq_unsupported_message s;
     supports_per_tensor := true; supports_block_scale := supports_block_scale s |}.
Definition block_scale (s : support) : support :=
  {| supports_group_quant := supports_group_quant s; supports_ft_quant := supports_ft_quant s;
     supports_awq := supports_awq s; awq_unsupported_message := awq_unsupported_message s;
     supports_per_tensor := supports_per_tensor s; supports_block_scale := true |}.

(** What a quantization function does, in order: it creates the network, converts
    it to the data type of the method, may set the number of shards on the
    registered method itself, and quantizes the network. *)
Inductive call :=
  | CreateModel
  | To (model_dtype : string)
  | SetShards (shards : pyval)
  | QuantizeModel (shards : option pyval).
Definition quant_fn : Type := Config.config → string → list call * result unit.

(** [hasattr] and [getattr] of [model_config]. *)
Definition shards_of (c : Config.config) : option pyval := values c !! "tensor_parallel_shards".

Definition _no_quant : quant_fn := λ _ dtype, ([CreateModel; To dtype], Ok tt).
Definition _group_quant : quant_fn := λ c dtype,
  match shards_of c with
  | None => ([CreateModel; To dtype], raise AttributeError
      "model_config is missing required attribute 'tensor_parallel_shards' for group quantization")
  | Some n => ([CreateModel; To dtype; SetShards n; QuantizeModel None], Ok tt)
  end.
Definition _ft_quant : quant_fn := λ _ dtype, ([CreateModel; To dtype; QuantizeModel None], Ok tt).
Definition _awq_quant (message : option string) : quant_fn := λ _ dtype,
  match message with
  | Some m => ([], raise NotImplementedError m)
  | None => ([CreateModel; To dtype; QuantizeModel None], Ok tt)
  end.
Definition _per_tensor_quant : quant_fn := λ c dtype,
  match shards_of c with
  | None => ([CreateModel; To dtype], raise AttributeError
      "model_config is missing required attribute 'tensor_parallel_shards' for per-tensor quantization")
  | Some n => ([CreateModel; To dtype; QuantizeModel (Some n)], Ok tt)
  end.
Definition _block_scale_quant : quant_fn := λ _ dtype,
  ([CreateModel; To dtype; QuantizeModel None], Ok tt).

Definition make_quantization_functions (s : support) : list (string * quant_fn) :=
  ("no-quant", _no_quant) ::
  (if supports_group_quant s then [("group-quant", _group_quant)] else []) ++
  (if supports_ft_quant s then [("ft-quant", _ft_quant)] else []) ++
  (if supports_awq s then [("awq", _awq_quant (awq_unsupported_message s))] else []) ++
  (if supports_per_tensor s then [("per-tensor-quant", _per_tensor_quant)] else []) ++
  (if supports_block_scale s then [("block-scale-quant", _block_scale_quant)] else []).

(** ** The registry *)

Record EmbeddingMetadata := { model_type : string; pooling_strategy : string; normalize : bool }.

Record Model := {
  name : string;
  config : config_class;
  model : string;
  source : list (string * string);
  quantize : list (string * quant_fn);
  model_task : string;
  embedding_metadata : option EmbeddingMetadata;
}.

(** [Model.__post_init__]. *)
Definition Model_post_init (m : Model) : result unit :=
  _ ← raise_when (bool_decide (model_task m = "embedding" ∧ embedding_metadata m = None)) ValueError
        "[Model] {self.name}: Embedding model must have embedding metadata.";
  raise_when (bool_decide (model_task m = "chat" ∧ embedding_metadata m ≠ None)) ValueError
    "[Model] {self.name}: Chat model not expected to have embedding metadata.".

Section registry.
(** The answer of the transformers library to [AutoConfig.from_pretrained]. *)
Context (from_pretrained : pyval → result (option (list (string * pyval)))).

Definition model_llama : Model := {|
  name := "llama"; config := LlamaConfig;
  model := "llama_model.LlamaForCausalLM";
  source := [("huggingface-torch", "llama_loader.huggingface"); ("huggingface-safetensor", "llama_loader.huggingface"); ("awq", "llama_loader.awq")];
  quantize := make_quantization_functions (per_tensor (awq standard));
  model_task := "chat"; embedding_metadata := None |}.

Definition model_llama4 : Model := {|
  name := "llama4"; config := Llama4Config;
  model := "llama4_model.Llama4ForCausalLM";
  source := [("huggingface-torch", "llama4_loader.huggingface"); ("huggingface-safetensor", "llama4_loader.huggingface")];
  quantize := make_quantization_functions (per_tensor standard);
  model_task := "chat"; embedding_metadata := None |}.

Definition model_mistral : Model := {|
  name := "mistral"; config := MistralConfig;
  model := "mistral_model.MistralForCausalLM";
  source := [("huggingface-torch", "mistral_loader.huggingface"); ("huggingface-safetensor", "mistral_loader.huggingface"); ("awq", "mistral_loader.awq")];
  quantize := make_quantization_functions standard;
  model_task := "chat"; embedding_metadata := None |}.

Definition model_ministral3 : Model := {|
  name := "ministral3"; config := Ministral3Config;
  model := "ministral3_model.Mistral3ForConditionalGeneration";
  source := [("huggingface-torch", "ministral3_loader.huggingface"); ("huggingface-safetensor", "ministral3_loader.huggingface")];
  quantize := make_quantization_functions (block_scale standard);
  model_task := "chat"; embedding_metadata := None |}.

Definition model_gemma : Model := {|
  name := "gemma"; config := GemmaConfig;
  model := "gemma_model.GemmaForCausalLM";
  source := [("huggingface-torch", "gemma_loader.huggingface"); ("huggingface-safetensor", "gemma_loader.huggingface")];
  quantize := make_quantization_functions (no_ft standard);
  model_task := "chat"; embedding_metadata := None |}.

Definition model_gemma2 : Model := {|
  name := "gemma2"; config := Gemma2Config;
  model := "gemma2_model.Gemma2ForCausalLM";
  source := [("huggingface-torch", "gemma2_loader.huggingface"); ("huggingface-safetensor", "gemma2_loader.huggingface")];
  quantize := make_quantization_functions (no_ft standard);
  model_task := "chat"; embedding_metadata := None |}.

Definition model_gemma3 : Model := {|
  name := "gemma3"; config := Gemma3Config;
  model := "gemma3_model.Gemma3ForCausalLM";
  source := [("huggingface-torch", "gemma3_loader.huggingface"); ("huggingface-safetensor", "gemma3_loader.huggingface")];
  quantize := make_quantization_functions (no_ft standard);
  model_task := "chat"; embedding_metadata := None |}.

Definition model_gemma3_text : Model := {|
  name := "gemma3_text"; config := Gemma3Config;
  model := "gemma3_model.Gemma3ForCausalLM";
  source := [("huggingface-torch", "gemma3_loader.huggingface"); ("huggingface-safetensor", "gemma3_loader.huggingface")];
  quantize := make_quantization_functions (no_ft standard);
  model_task := "chat"; embedding_metadata := None |}.

Definition model_gpt2 : Model := {|
  name := "gpt2"; config := GPT2Config;
  model := "gpt2_model.GPT2LMHeadModel";
  source := [("huggingface-torch", "gpt2_loader.huggingface"); ("huggingface-safetensor", "gpt2_loader.huggingface")];
  quantize := make_quantization_functions standard;
  model_task := "chat"; embedding_metadata := None |}.

Definition model_mixtral : Model := {|
  name := "mixtral"; config := MixtralConfig;
  model := "mixtral_model.MixtralForCausalLM";
  source := [("huggingface-torch", "mixtral_loader.huggingface"); ("huggingface-safetensor", "mixtral_loader.huggingface")];
  quantize := make_quantization_functions (per_tensor (awq_message "AWQ is not implemented for Mixtral models." (awq standard)));
  model_task := "chat"; embedding_metadata := None |}.

Definition model_gpt_neox : Model := {|
  name := "gpt_neox"; config := GPTNeoXConfig;
  model := "gpt_neox_model.GPTNeoXForCausalLM";
  source := [("huggingface-torch", "gpt_neox_loader.huggingface"); ("huggingface-safetensor", "gpt_neox_loader.huggingface")];
  quantize := make_quantization_functions standard;
  model_task := "chat"; embedding_metadata := None |}.

Definition model_gpt_bigcode : Model := {|
  name := "gpt_bigcode"; config := GPTBigCodeConfig;
  model := "gpt_bigcode_model.GPTBigCodeForCausalLM";
  source := [("huggingface-torch", "gpt_bigcode_loader.huggingface"); ("huggingface-safetensor", "gpt_bigcode_loader.huggingface")];
  quantize := make_quantization_functions standard;
  model_task := "chat"; embedding_metadata := None |}.

Definition model_phi_msft : Model := {|
  name := "phi-msft"; config := PhiConfig;
  model := "phi_model.PhiForCausalLM";
  source := [("huggingface-torch", "phi_loader.huggingface"); ("huggingface-safetensor", "phi_loader.huggingface")];
  quantize := make_quantization_functions standard;
  model_task := "chat"; embedding_metadata := None |}.

Definition model_phi : Model := {|
  name := "phi"; config := Phi1Config;
  model := "phi_model.PhiForCausalLM";
  source := [("huggingface-torch", "phi_loader.phi1_huggingface"); ("huggingface-safetensor", "phi_loader.phi1_huggingface")];
  quantize := make_quantization_functions standard;
  model_task := "chat"; embedding_metadata := None |}.

Definition model_phi3 : Model := {|
  name := "phi3"; config := Phi3Config;
  model := "phi3_model.Phi3ForCausalLM";
  source := [("huggingface-torch", "phi3_loader.phi3_huggingface"); ("huggingface-safetensor", "phi3_loader.phi3_huggingface")];
  quantize := make_quantization_functions standard;
  model_task := "chat"; embedding_metadata := None |}.

Definition model_phi3_v : Model := {|
  name := "phi3_v"; config := Phi3VConfig;
  model := "phi3v_model.Phi3VForCausalLM";
  source := [("huggingface-torch", "phi3v_loader.huggingface"); ("huggingface-safetensor", "phi3v_loader.huggingface")];
  quantize := make_quantization_functions standard;
  model_task := "chat"; embedding_metadata := None |}.

Definition model_qwen : Model := {|
  name := "qwen"; config := QWenConfig;
  model := "qwen_model.QWenLMHeadModel";
  source := [("huggingface-torch", "qwen_loader.huggingface"); ("huggingface-safetensor", "qwen_loader.huggingface")];
  quantize := make_quantization_functions standard;
  model_task := "chat"; embedding_metadata := None |}.

Definition model_qwen2 : Model := {|
  name := "qwen2"; config := QWen2Config;
  model := "qwen2_model.QWen2LMHeadModel";
  source := [("huggingface-torch", "qwen2_loader.huggingface"); ("huggingface-safetensor", "qwen2_loader.huggingface")];
  quantize := make_quantization_functions standard;
  model_task := "chat"; embedding_metadata := None |}.

Definition model_qwen2_moe : Model := {|
  name := "qwen2_moe"; config := Qwen2MoeConfig;
  model := "qwen2_moe_model.Qwen2MoeForCausalLM";
  source := [("huggingface-torch", "qwen2_moe_loader.huggingface"); ("huggingface-safetensor", "qwen2_moe_loader.huggingface")];
  quantize := make_quantization_functions standard;
  model_task := "chat"; embedding_metadata := None |}.

Definition model_qwen3 : Model := {|
  name := "qwen3"; config := Qwen3Config;
  model := "qwen3_model.Qwen3LMHeadModel";
  source := [("huggingface-torch", "qwen3_loader.huggingface"); ("huggingface-safetensor", "qwen3_loader.huggingface")];
  quantize := make_quantization_functions (block_scale standard);
  model_task := "chat"; embedding_metadata := None |}.

Definition model_qwen3_embedding : Model := {|
  name := "qwen3-embedding"; config := Qwen3Config;
  model := "qwen3_model.Qwen3EmbeddingModel";
  source := [("huggingface-torch", "qwen3_loader.huggingface_embedding"); ("huggingface-safetensor", "qwen3_loader.huggingface_embedding")];
  quantize := make_quantization_functions (block_scale standard);
  model_task := "embedding"; embedding_metadata := (Some {| model_type := "decoder"; pooling_strategy := "last"; normalize := true |}) |}.

Definition model_qwen3_5 : Model := {|
  name := "qwen3_5"; config := Qwen35Config;
  model := "qwen35_model.Qwen35LMHeadModel";
  source := [("huggingface-torch", "qwen35_loader.huggingface"); ("huggingface-safetensor", "qwen35_loader.huggingface")];
  quantize := make_quantization_functions standard;
  model_task := "chat"; embedding_metadata := None |}.

Definition model_qwen3_5_text : Model := {|
  name := "qwen3_5_text"; config := Qwen35Config;
  model := "qwen35_model.Qwen35LMHeadModel";
  source := [("huggingface-torch", "qwen35_loader.huggingface"); ("huggingface-safetensor", "qwen35_loader.huggingface")];
  quantize := make_quantization_functions standard;
  model_task := "chat"; embedding_metadata := None |}.

Definition model_qwen3_moe : Model := {|
  name := "qwen3_moe"; config := Qwen3MoeConfig;
  model := "qwen3_moe_model.Qwen3MoeForCausalLM";
  source := [("huggingface-torch", "qwen3_moe_loader.huggingface"); ("huggingface-safetensor", "qwen3_moe_loader.huggingface")];
  quantize := make_quantization_functions (block_scale standard);
  model_task := "chat"; embedding_metadata := None |}.

Definition model_deepseek_v2 : Model := {|
  name := "deepseek_v2"; config := DeepseekV2Config;
  model := "deepseek_v2_model.DeepseekV2ForCausalLM";
  source := [("huggingface-torch", "deepseek_v2_loader.huggingface"); ("huggingface-safetensor", "deepseek_v2_loader.huggingface")];
  quantize := make_quantization_functions standard;
  model_task := "chat"; embedding_metadata := None |}.

Definition model_deepseek_v3 : Model := {|
  name := "deepseek_v3"; config := DeepseekV2Config;
  model := "deepseek_v2_model.DeepseekV2ForCausalLM";
  source := [("huggingface-torch", "deepseek_v2_loader.huggingface"); ("huggingface-safetensor", "deepseek_v2_loader.huggingface")];
  quantize := make_quantization_functions (block_scale standard);
  model_task := "chat"; embedding_metadata := None |}.

Definition model_stablelm : Model := {|
  name := "stablelm"; config := StableLmConfig;
  model := "stablelm_model.StableLmForCausalLM";
  source := [("huggingface-torch", "stablelm_loader.huggingface"); ("huggingface-safetensor", "stablelm_loader.huggingface")];
  quantize := make_quantization_functions standard;
  model_task := "chat"; embedding_metadata := None |}.

Definition model_baichuan : Model := {|
  name := "baichuan"; config := BaichuanConfig;
  model := "baichuan_model.BaichuanForCausalLM";
  source := [("huggingface-torch", "baichuan_loader.huggingface"); ("huggingface-safetensor", "baichuan_loader.huggingface")];
  quantize := make_quantization_functions standard;
  model_task := "chat"; embedding_metadata := None |}.

Definition model_internlm : Model := {|
  name := "internlm"; config := InternLMConfig;
  model := "internlm_model.InternLMForCausalLM";
  source := [("huggingface-torch", "internlm_loader.huggingface"); ("huggingface-safetensor", "internlm_loader.huggingface")];
  quantize := make_quantization_functions standard;
  model_task := "chat"; embedding_metadata := None |}.

Definition model_internlm2 : Model := {|
  name := "internlm2"; config := InternLM2Config;
  model := "internlm2_model.InternLM2ForCausalLM";
  source := [("huggingface-torch", "internlm2_loader.huggingface"); ("huggingface-safetensor", "internlm2_loader.huggingface")];
  quantize := make_quantization_functions standard;
  model_task := "chat"; embedding_metadata := None |}.

Definition model_rwkv5 : Model := {|
  name := "rwkv5"; config := RWKV5Config;
  model := "rwkv5_model.RWKV5_ForCausalLM";
  source := [("huggingface-torch", "rwkv5_loader.huggingface"); ("huggingface-safetensor", "rwkv5_loader.huggingface")];
  quantize := make_quantization_functions standard;
  model_task := "chat"; embedding_metadata := None |}.

Definition model_orion : Model := {|
  name := "orion"; config := OrionConfig;
  model := "orion_model.OrionForCausalLM";
  source := [("huggingface-torch", "orion_loader.huggingface"); ("huggingface-safetensor", "orion_loader.huggingface")];
  quantize := make_quantization_functions (no_ft standard);
  model_task := "chat"; embedding_metadata := None |}.

Definition model_llava : Model := {|
  name := "llava"; config := (LlavaConfig from_pretrained);
  model := "llava_model.LlavaForCausalLM";
  source := [("huggingface-torch", "llava_loader.huggingface"); ("huggingface-safetensor", "llava_loader.huggingface"); ("awq", "llava_loader.awq")];
  quantize := make_quantization_functions (no_ft (awq standard));
  model_task := "chat"; embedding_metadata := None |}.

Definition model_rwkv6 : Model := {|
  name := "rwkv6"; config := RWKV6Config;
  model := "rwkv6_model.RWKV6_ForCausalLM";
  source := [("huggingface-torch", "rwkv6_loader.huggingface"); ("huggingface-safetensor", "rwkv6_loader.huggingface")];
  quantize := make_quantization_functions (no_ft standard);
  model_task := "chat"; embedding_metadata := None |}.

Definition model_chatglm : Model := {|
  name := "chatglm"; config := GLMConfig;
  model := "chatglm3_model.ChatGLMForCausalLM";
  source := [("huggingface-torch", "chatglm3_loader.huggingface"); ("huggingface-safetensor", "chatglm3_loader.huggingface")];
  quantize := make_quantization_functions (no_ft standard);
  model_task := "chat"; embedding_metadata := None |}.

Definition model_eagle : Model := {|
  name := "eagle"; config := EagleConfig;
  model := "eagle_model.EagleForCausalLM";
  source := [("huggingface-torch", "eagle_loader.huggingface"); ("huggingface-safetensor", "eagle_loader.huggingface"); ("awq", "eagle_loader.awq")];
  quantize := make_quantization_functions (awq standard);
  model_task := "chat"; embedding_metadata := None |}.

Definition model_bert : Model := {|
  name := "bert"; config := BertConfig;
  model := "bert_model.BertModel";
  source := [("huggingface-torch", "bert_loader.huggingface"); ("huggingface-safetensor", "bert_loader.huggingface")];
  quantize := make_quantization_functions standard;
  model_task := "embedding"; embedding_metadata := (Some {| model_type := "encoder"; pooling_strategy := "cls"; normalize := true |}) |}.

Definition model_medusa : Model := {|
  name := "medusa"; config := MedusaConfig;
  model := "medusa_model.MedusaModel";
  source := [("huggingface-torch", "medusa_loader.huggingface"); ("huggingface-safetensor", "medusa_loader.huggingface")];
  quantize := make_quantization_functions (no_ft (no_group standard));
  model_task := "chat"; embedding_metadata := None |}.

Definition model_starcoder2 : Model := {|
  name := "starcoder2"; config := Starcoder2Config;
  model := "starcoder2_model.Starcoder2ForCausalLM";
  source := [("huggingface-torch", "starcoder2_loader.huggingface"); ("huggingface-safetensor", "starcoder2_loader.huggingface")];
  quantize := make_quantization_functions standard;
  model_task := "chat"; embedding_metadata := None |}.

Definition model_cohere : Model := {|
  name := "cohere"; config := CohereConfig;
  model := "cohere_model.CohereForCausalLM";
  source := [("huggingface-torch", "cohere_loader.huggingface"); ("huggingface-safetensor", "cohere_loader.huggingface")];
  quantize := make_quantization_functions standard;
  model_task := "chat"; embedding_metadata := None |}.

Definition model_minicpm : Model := {|
  name := "minicpm"; config := MiniCPMConfig;
  model := "minicpm_model.MiniCPMForCausalLM";
  source := [("huggingface-torch", "minicpm_loader.huggingface"); ("huggingface-safetensor", "minicpm_loader.huggingface")];
  quantize := make_quantization_functions standard;
  model_task := "chat"; embedding_metadata := None |}.

Definition model_deepseek : Model := {|
  name := "deepseek"; config := DeepseekConfig;
  model := "deepseek_model.DeepseekForCausalLM";
  source := [("huggingface-torch", "deepseek_loader.huggingface"); ("huggingface-safetensor", "deepseek_loader.huggingface")];
  quantize := make_quantization_functions standard;
  model_task := "chat"; embedding_metadata := None |}.

Definition model_gptj : Model := {|
  name := "gptj"; config := GPTJConfig;
  model := "gpt_j_model.GPTJForCausalLM";
  source := [("huggingface-torch", "gpt_j_loader.huggingface"); ("huggingface-safetensor", "gpt_j_loader.huggingface")];
  quantize := make_quantization_functions standard;
  model_task := "chat"; embedding_metadata := None |}.

Definition model_olmo : Model := {|
  name := "olmo"; config := OLMoConfig;
  model := "olmo_model.OLMoForCausalLM";
  source := [("huggingface-torch", "olmo_loader.huggingface"); ("huggingface-safetensor", "olmo_loader.huggingface"); ("awq", "olmo_loader.awq")];
  quantize := make_quantization_functions (per_tensor (awq standard));
  model_task := "chat"; embedding_metadata := None |}.

Definition model_olmo2 : Model := {|
  name := "olmo2"; config := OLMo2Config;
  model := "olmo2_model.OLMo2ForCausalLM";
  source := [("huggingface-torch", "olmo2_loader.huggingface"); ("huggingface-safetensor", "olmo2_loader.huggingface")];
  quantize := make_quantization_functions (per_tensor standard);
  model_task := "chat"; embedding_metadata := None |}.

Definition model_nemotron : Model := {|
  name := "nemotron"; config := NemotronConfig;
  model := "nemotron_model.NemotronForCausalLM";
  source := [("huggingface-torch", "nemotron_loader.huggingface"); ("huggingface-safetensor", "nemotron_loader.huggingface")];
  quantize := make_quantization_functions (per_tensor (awq standard));
  model_task := "chat"; embedding_metadata := None |}.

Definition model_bert_bge : Model := {|
  name := "bert-bge"; config := BertConfig;
  model := "bert_model.BertModel";
  source := [("huggingface-torch", "bert_loader.huggingface_bge"); ("huggingface-safetensor", "bert_loader.huggingface_bge")];
  quantize := make_quantization_functions standard;
  model_task := "embedding"; embedding_metadata := (Some {| model_type := "encoder"; pooling_strategy := "cls"; normalize := true |}) |}.

Definition MODELS : list (string * Model) := [
  ("llama", model_llama); ("llama4", model_llama4); ("mistral", model_mistral);
  ("ministral3", model_ministral3); ("gemma", model_gemma); ("gemma2", model_gemma2);
  ("gemma3", model_gemma3); ("gemma3_text", model_gemma3_text); ("gpt2", model_gpt2);
  ("mixtral", model_mixtral); ("gpt_neox", model_gpt_neox);
  ("gpt_bigcode", model_gpt_bigcode); ("phi-msft", model_phi_msft); ("phi", model_phi);
  ("phi3", model_phi3); ("phi3_v", model_phi3_v); ("qwen", model_qwen);
  ("qwen2", model_qwen2); ("qwen2_moe", model_qwen2_moe); ("qwen3", model_qwen3);
  ("qwen3-embedding", model_qwen3_embedding); ("qwen3_5", model_qwen3_5);
  ("qwen3_5_text", model_qwen3_5_text); ("qwen3_moe", model_qwen3_moe);
  ("deepseek_v2", model_deepseek_v2); ("deepseek_v3", model_deepseek_v3);
  ("stablelm", model_stablelm); ("baichuan", model_baichuan); ("internlm", model_internlm);
  ("internlm2", model_internlm2); ("rwkv5", model_rwkv5); ("orion", model_orion);
  ("llava", model_llava); ("rwkv6", model_rwkv6); ("chatglm", model_chatglm);
  ("eagle", model_eagle); ("bert", model_bert); ("medusa", model_medusa);
  ("starcoder2", model_starcoder2); ("cohere", model_cohere); ("minicpm", model_minicpm);
  ("deepseek", model_deepseek); ("gptj", model_gptj); ("olmo", model_olmo);
  ("olmo2", model_olmo2); ("nemotron", model_nemotron); ("bert-bge", model_bert_bge)].


(** ** Detection *)

(** [detect_config]: a preset is written to a temporary file, tagged with its name;
    anything else is a path. *)
Inductive config_file :=
  | Dumped (content : list (string * pyval))
  | At (path : string).

Definition detect_config (exists_ is_dir : string → bool) (config : string) : result config_file :=
  match dict_get config MODEL_PRESETS with
  | Some content => Ok (Dumped (dict_set "model_preset_tag" (PStr config) content))
  | None =>
      _ ← raise_when (negb (exists_ config)) ValueError "{config_path} does not exist.";
      if is_dir config then
        let json := config +:+ "/config.json" in
        _ ← raise_when (negb (exists_ json)) ValueError "Fail to find config.json under {config_path}.";
        Ok (At json)
      else Ok (At config)
  end.

(** [detect_model_type] on the content of the configuration file. *)
Definition detect_model_type (model_type : string) (cfg : list (string * pyval)) : result Model :=
  model_type ← (if decide (model_type = "auto") then
                  match dict_get "model_type" cfg with
                  | Some t => Ok t
                  | None =>
                      match dict_get "model_config" cfg with
                      | None => raise ValueError "'model_type' not found in: {config}. "
                      | Some inner =>
                          found ← py_contains "model_type" inner;
                          _ ← raise_when (negb found) ValueError "'model_type' not found in: {config}. ";
                          py_item inner "model_type"
                      end
                  end
                else Ok (PStr model_type));
  let model_type := if py_eqb model_type (PStr "mixformer-sequential") then PStr "phi-msft" else model_type in
  match model_type with
  | PStr t =>
      match dict_get t MODELS with
      | Some m => Ok m
      | None => raise ValueError "Unknown model type: {model_type}. Available ones: {list(MODELS.keys())}"
      end
  | PList _ | PDict _ => raise TypeError "unhashable type"
  | _ => raise ValueError "Unknown model type: {model_type}. Available ones: {list(MODELS.keys())}"
  end.

(** What [cli] commands do with a preset: [detect_config], [detect_model_type] and
    [Model.config.from_file]. *)
Definition load_config (model_type : string) (cfg : list (string * pyval)) : result Config.config :=
  m ← detect_model_type model_type cfg;
  from_dict (config m) (list_to_map cfg).
Definition load_preset (preset : string) : result Config.config :=
  f ← detect_config (λ _, false) (λ _, false) preset;
  match f with Dumped content => load_config "auto" content | At _ => raise OtherError "not a preset" end.
End registry.

(** [detect_quantization]: the argument wins over the configuration file. *)
Definition detect_quantization {A} (QUANTIZATION : list (string * A)) (quantization_arg : option string)
    (cfg : list (string * pyval)) : result A :=
  match quantization_arg with
  | Some q => get_key q QUANTIZATION
  | None =>
      match dict_get "quantization" cfg with
      | Some (PStr q) => get_key q QUANTIZATION
      | Some (PList _ | PDict _) => raise TypeError "unhashable type"
      | Some _ => raise KeyError "quantization"
      | None => raise ValueError "'quantization' not found in: {config}. "
      end
  end.

(** ** The registry is consistent *)

(** [model.quantize[kind]]. *)
Definition quantize_function (m : Model) (kind : string) : result quant_fn := get_key kind (quantize m).

Definition hf_sources : list string := ["huggingface-torch"; "huggingface-safetensor"].

(** The conditions on an entry, as a test. *)
Definition entry_ok (key : string) (m : Model) : bool :=
  bool_decide (name m = key) && is_ok (Model_post_init m) &&
  bool_decide (key ∉ ["auto"; "mixformer-sequential"]) &&
  forallb (λ s, has_key s (source m)) hf_sources &&
  bool_decide (dict_get "huggingface-torch" (source m) = dict_get "huggingface-safetensor" (source m)) &&
  has_key "no-quant" (quantize m) &&
  forallb (λ k, bool_decide (k ∈ QuantRegistry.quantization_kinds)) (quantize m).*1.

Lemma entries_ok fp : forallb (λ p, entry_ok p.1 p.2) (MODELS fp) = true.
Proof. vm_compute. reflexivity. Qed.

Lemma keys_NoDup fp : NoDup (MODELS fp).*1.
Proof.
  assert ((MODELS fp).*1 = (MODELS (λ _, Ok None)).*1) as -> by reflexivity.
  apply (bool_decide_unpack _). vm_compute. exact I.
Qed.

Lemma dict_get_NoDup {A} k (v : A) d : NoDup d.*1 → (k, v) ∈ d → dict_get k d = Some v.
Proof.
  induction d as [|[k1 v1] d IH]; simpl; intros Hnd Hin; [by apply not_elem_of_nil in Hin|].
  apply NoDup_cons in Hnd as [Hnot Hnd].
  apply elem_of_cons in Hin as [[= -> ->]|Hin]; [by rewrite decide_True|].
  rewrite decide_False; [by apply IH|]. intros ->. apply Hnot.
  apply list_elem_of_fmap. by exists (k1, v).
Qed.

Lemma detect_registered fp key m cfg :
  (key, m) ∈ MODELS fp →
  detect_model_type fp key cfg = Ok m ∧
  (dict_get "model_type" cfg = Some (PStr key) → detect_model_type fp "auto" cfg = Ok m).
Proof.
  intros Hin. pose proof (entries_ok fp) as H. rewrite forallb_Forall, Forall_forall in H.
  specialize (H _ Hin). simpl in H. unfold entry_ok in H. bool_inv.
  match goal with H : key ∉ _ |- _ => rewrite !not_elem_of_cons in H; destruct H as (Ha & Hm & _) end.
  assert (dict_get key (MODELS fp) = Some m) as Hget by (apply dict_get_NoDup; [apply keys_NoDup|done]).
  assert (py_eqb (PStr key) (PStr "mixformer-sequential") = false) as Hmix
    by (simpl; by apply bool_decide_eq_false).
  unfold detect_model_type. split.
  - rewrite decide_False by done. cbn [mbind result_bind]. by rewrite Hmix, Hget.
  - intros ->. rewrite decide_True by done. cbn [mbind result_bind]. by rewrite Hmix, Hget.
Qed.

(** Every entry of [MODELS] is named by its key, passes the checks of [Model], can
    be read from both HuggingFace formats by the same loader, can be left
    unquantized, and is what detection finds for its type, given or read from the
    configuration. *)
Theorem models_consistent fp key m :
  (key, m) ∈ MODELS fp →
  name m = key ∧ Model_post_init m = Ok tt ∧
  (∃ loader, ∀ s, s ∈ hf_sources → dict_get s (source m) = Some loader) ∧
  (∀ c dtype, ∃ f, quantize_function m "no-quant" = Ok f ∧ f c dtype = ([CreateModel; To dtype], Ok tt)) ∧
  (∀ k, k ∈ (quantize m).*1 → k ∈ QuantRegistry.quantization_kinds) ∧
  (∀ cfg, detect_model_type fp key cfg = Ok m ∧
    (dict_get "model_type" cfg = Some (PStr key) → detect_model_type fp "auto" cfg = Ok m)).
Proof.
  intros Hin. pose proof (detect_registered fp key m) as Hdetect.
  pose proof (entries_ok fp) as H. rewrite forallb_Forall, Forall_forall in H.
  specialize (H _ Hin). simpl in H. unfold entry_ok in H. bool_inv.
  split_and!; [done| | | | |by intros; apply Hdetect].
  - by destruct (Model_post_init m) as [[]|].
  - match goal with H : forallb _ hf_sources = true |- _ => simpl in H; bool_inv end.
    unfold has_key in *. destruct (dict_get "huggingface-torch" (source m)) as [l|] eqn:E; [|done].
    exists l. intros s Hs. unfold hf_sources in Hs.
    apply elem_of_cons in Hs as [->|Hs]; [done|].
    apply elem_of_cons in Hs as [->|Hs]; [congruence|by apply not_elem_of_nil in Hs].
  - intros c dtype. clear - Hin. unfold MODELS in Hin.
    repeat (apply elem_of_cons in Hin as [[= -> ->]|Hin];
      [eexists; split; [reflexivity|reflexivity]|]).
    by apply not_elem_of_nil in Hin.
  - match goal with H : forallb _ (quantize m).*1 = true |- _ =>
      rewrite forallb_Forall, Forall_forall in H; rename H into Hk end.
    intros k Hin'. apply Hk in Hin'. by apply bool_decide_eq_true in Hin'.
Qed.

(** ** Presets *)

(** Without the transformers library. *)
Definition offline : pyval → result (option (list (string * pyval))) := λ _, Ok None.

(** The windows of an accepted configuration: positive, or [-1] for a sliding or
    recurrent model; the prefill chunk is positive and within a positive window. *)
Definition windows_ok (c : Config.config) : bool :=
  match values c !! "context_window_size", values c !! "prefill_chunk_size" with
  | Some (PInt w), Some (PInt p) => ((0 <? p) && ((w =? -1) || ((0 <? w) && (p <=? w))))%Z
  | _, _ => false
  end.

(** The same for the configuration with no overrides applied to it, and that it is
    the same configuration. *)
Definition same_fields (c d : Config.config) : bool :=
  forallb (λ k, match values c !! k, values d !! k with
                | Some x, Some y => py_eqb (plain x) (plain y)
                | _, _ => false
                end) (fields_of (config_class_of c)).

Definition preset_ok (preset : string) : bool :=
  match load_preset offline preset with
  | Ok c =>
      if decide (class_name (config_class_of c) = "Gemma2Config") then negb (windows_ok c)
      else windows_ok c && match apply [] c with Ok d => same_fields c d | Err _ => false end
  | Err _ => false
  end.

Lemma presets_ok : forallb preset_ok MODEL_PRESETS.*1 = true.
Proof. vm_compute. reflexivity. Qed.

Lemma windows_ok_spec c :
  windows_ok c = true ↔
  ∃ w p, values c !! "context_window_size" = Some (PInt w) ∧
    values c !! "prefill_chunk_size" = Some (PInt p) ∧ (0 < p)%Z ∧ (w = -1 ∨ 0 < w ∧ p ≤ w)%Z.
Proof.
  unfold windows_ok. split.
  - destruct (values c !! "context_window_size") as [[| |w| | | |]|]; try done.
    destruct (values c !! "prefill_chunk_size") as [[| |p| | | |]|]; try done.
    intros H. apply andb_true_iff in H as [Hp H]. apply Z.ltb_lt in Hp.
    exists w, p. split_and!; [done..|]. apply orb_true_iff in H as [H|H].
    + left. by apply Z.eqb_eq.
    + right. bool_inv. lia.
  - intros (w & p & -> & -> & Hp & H). apply andb_true_iff. split; [by apply Z.ltb_lt|].
    apply orb_true_iff. destruct H as [->|[? ?]]; [by left|right].
    apply andb_true_iff. split; [by apply Z.ltb_lt|by apply Z.leb_le].
Qed.

Lemma preset_ok_spec preset : preset ∈ MODEL_PRESETS.*1 → preset_ok preset = true.
Proof.
  intros H. pose proof presets_ok as HF. rewrite forallb_Forall, Forall_forall in HF. by apply HF.
Qed.

(** Every preset loads: its model type is registered and its class accepts it. But
    for Gemma 2, the windows are sane and applying no overrides changes nothing. *)
Theorem presets_load preset :
  preset ∈ MODEL_PRESETS.*1 →
  ∃ c, load_preset offline preset = Ok c ∧
    (class_name (config_class_of c) ≠ "Gemma2Config" →
     (∃ w p, values c !! "context_window_size" = Some (PInt w) ∧
        values c !! "prefill_chunk_size" = Some (PInt p) ∧ (0 < p)%Z ∧ (w = -1 ∨ 0 < w ∧ p ≤ w)%Z) ∧
     ∃ d, apply [] c = Ok d ∧ same_fields c d = true).
Proof.
  intros H%preset_ok_spec. unfold preset_ok in H.
  destruct (load_preset offline preset) as [c|]; [|done]. exists c. split; [done|]. intros Hc.
  rewrite decide_False in H by done. apply andb_true_iff in H as [Hw Ha].
  split; [by apply windows_ok_spec|]. destruct (apply [] c) as [d|]; [|done]. by exists d.
Qed.

(** The presets of Gemma 2 have a prefill chunk above their window: the window is
    replaced after the chunk was limited to it. *)
Theorem gemma2_presets_exceed preset c :
  preset ∈ MODEL_PRESETS.*1 → load_preset offline preset = Ok c →
  class_name (config_class_of c) = "Gemma2Config" → windows_ok c = false.
Proof.
  intros H%preset_ok_spec Hc Hg. unfold preset_ok in H. rewrite Hc, decide_True in H by done.
  by apply negb_true_iff.
Qed.

(** The text model of the LLaVA preset loses its vocabulary: the keys of the base
    model replace those of [text_config]. *)
Definition text_vocab (c : Config.config) : option pyval :=
  match values c !! "text_config" with Some (PDict d) => dict_get "vocab_size" d | _ => None end.
Lemma llava_vocabulary :
  match load_preset offline "llava" with
  | Ok c =>
      values c !! "vocab_size" = Some (PInt 32064) ∧
      dict_get "vocab_size" (match dict_get "text_config" preset_llava with Some (PDict d) => d | _ => [] end)
        = Some (PInt 32064) ∧
      text_vocab c = Some (PInt 32000)
  | Err _ => False
  end.
Proof. vm_compute. by split_and!. Qed.

(** ** AWQ *)

(** A model with a loader for AWQ weights. *)
Definition reads_awq (m : Model) : bool := has_key "awq" (source m).

(** Weights in AWQ format can be used with every model that has a loader for them,
    except Mistral: it has the loader but not the quantization function. *)
Theorem awq_models fp key m :
  (key, m) ∈ MODELS fp → reads_awq m = true →
  if decide (key = "mistral") then quantize_function m "awq" = raise KeyError "awq"
  else ∃ f, quantize_function m "awq" = Ok f ∧
    ∀ c dtype, f c dtype = ([CreateModel; To dtype; QuantizeModel None], Ok tt).
Proof.
  intros Hin Hawq. unfold MODELS in Hin.
  repeat (apply elem_of_cons in Hin as [[= -> ->]|Hin];
    [try discriminate Hawq; simpl; first [by eexists | reflexivity]|]).
  by apply not_elem_of_nil in Hin.
Qed.

(** ** Witnesses *)

Lemma models_consistent_witness : name (model_llama) = "llama".
Proof.
  refine (proj1 (models_consistent offline "llama" model_llama _)).
  apply list_elem_of_In. simpl. tauto.
Defined.

(** The configuration of a preset that loads. *)
Definition loaded (preset : string) : Config.config :=
  match load_preset offline preset with
  | Ok c => c
  | Err _ => {| config_class_of := LlamaConfig; values := ∅; Config.kwargs := ∅ |}
  end.
Lemma loaded_ok preset : is_ok (load_preset offline preset) = true → load_preset offline preset = Ok (loaded preset).
Proof. unfold loaded. by destruct (load_preset offline preset). Qed.

Lemma presets_load_witness :
  ∃ c, load_preset offline "llama2_7b" = Ok c ∧
    (class_name (config_class_of c) ≠ "Gemma2Config" →
     (∃ w p, values c !! "context_window_size" = Some (PInt w) ∧
        values c !! "prefill_chunk_size" = Some (PInt p) ∧ (0 < p)%Z ∧ (w = -1 ∨ 0 < w ∧ p ≤ w)%Z) ∧
     ∃ d, apply [] c = Ok d ∧ same_fields c d = true).
Proof. apply (presets_load "llama2_7b"). apply list_elem_of_In. simpl. tauto. Defined.

Lemma gemma2_presets_exceed_witness : windows_ok (loaded "gemma2_2b") = false.
Proof.
  apply (gemma2_presets_exceed "gemma2_2b").
  - apply list_elem_of_In. simpl. tauto.
  - apply loaded_ok. vm_compute. reflexivity.
  - vm_compute. reflexivity.
Defined.

Lemma awq_models_witness : quantize_function model_mistral "awq" = raise KeyError "awq".
Proof.
  refine (awq_models offline "mistral" model_mistral _ eq_refl).
  apply list_elem_of_In. simpl. tauto.
Defined.
