(* ===== verification/Loader.v ===== *)
(** Loading weights: the mappings of [python/mlc_llm/loader/mapping.py], the
    statistics of [loader/stats.py], and the HuggingFace loader with its cache of
    weight files ([loader/huggingface_loader.py], [loader/utils.py]).

    Arrays, tensors and the contents of files are parameters. Memory is counted in
    bytes, where the source counts gigabytes as floats. Python iterates over a set
    in an unspecified order: here in the order of first occurrence. *)

From Stdlib Require Import Lia ZArith.
From stdpp Require Import base gmap strings list pretty.
From S2P Require Import Prelude PyString PyObject.

(** ** Mappings *)

(** [ExternMapping]: dictionaries in insertion order. *)
Record ExternMapping (array : Type) := {
  param_map : list (string * list string);
  map_func : list (string * (list array → result array));
  unused_params : list string;
}.
Arguments param_map {array}. Arguments map_func {array}. Arguments unused_params {array}.
Arguments Build_ExternMapping {array}.

Definition empty_mapping {array} : ExternMapping array :=
  {| param_map := []; map_func := []; unused_params := [] |}.

Definition add_mapping {array} (map_from : string) (map_to : list string)
    (func : list array → result array) (m : ExternMapping array) : ExternMapping array :=
  {| param_map := dict_set map_from map_to (param_map m);
     map_func := dict_set map_from func (map_func m);
     unused_params := unused_params m |}.

Definition add_unused {array} (name : string) (m : ExternMapping array) : ExternMapping array :=
  {| param_map := param_map m; map_func := map_func m;
     unused_params := if decide (name ∈ unused_params m) then unused_params m
                      else unused_params m ++ [name] |}.

(** [QuantizeMapping]: the names a parameter is quantized to, and how. *)
Record QuantizeMapping (tensor : Type) := {
  q_param_map : list (string * list string);
  q_map_func : list (string * (tensor → result (list tensor)));
}.
Arguments q_param_map {tensor}. Arguments q_map_func {tensor}.

(** ** Statistics *)

Record Stats := {
  current_memory : Z;
  total_memory : Z;
  max_memory : Z;
  total_param_num : Z;
}.
Definition new_stats : Stats :=
  {| current_memory := 0; total_memory := 0; max_memory := 0; total_param_num := 0 |}.
Definition mem_add (nbytes : Z) (s : Stats) : Stats :=
  {| current_memory := current_memory s + nbytes; total_memory := total_memory s + nbytes;
     max_memory := Z.max (max_memory s) (current_memory s + nbytes);
     total_param_num := total_param_num s |}%Z.
Definition mem_rm (nbytes : Z) (s : Stats) : Stats :=
  {| current_memory := current_memory s - nbytes; total_memory := total_memory s;
     max_memory := max_memory s; total_param_num := total_param_num s |}%Z.
Definition count_params (n : Z) (s : Stats) : Stats :=
  {| current_memory := current_memory s; total_memory := total_memory s;
     max_memory := max_memory s; total_param_num := total_param_num s + n |}%Z.

(** ** Paths *)

(** [Path.suffix] and [path.parent / name]. *)
Definition path_suffix (p : string) : string :=
  let name := List.last (py_split "/" p) EmptyString in
  let pieces := py_split "." name in
  let ext := List.last pieces EmptyString in
  if bool_decide (2 ≤ length pieces) && bool_decide (ext ≠ "") &&
     bool_decide (String.concat "." (removelast pieces) ≠ "")
  then "." +:+ ext else "".
Definition sibling (p name : string) : string :=
  match removelast (py_split "/" p) with
  | [] => name
  | dirs => String.concat "/" dirs +:+ "/" +:+ name
  end.

(** [_sharded_param_name]. *)
Definition _sharded_param_name (param_name : string) (worker_id : nat) : string :=
  param_name +:+ "_shard-" +:+ pretty worker_id.

(** ** Checks and order *)

(** [check_parameter_usage]: unused weights are only reported. *)
Definition used_names {array} (m : ExternMapping array) : list string := concat (param_map m).*2.
Definition check_parameter_usage {array} (m : ExternMapping array) (extern_weights : list string) :
    result unit :=
  raise_when (negb (forallb (λ n, bool_decide (n ∈ extern_weights)) (used_names m))) ValueError
    "The following extern parameters do not exist in the weight files:".

(** [defaultdict(list)] with [d[k].append(v)]. *)
Definition dict_append {A} (k : string) (v : A) (d : list (string * list A)) : list (string * list A) :=
  dict_set k (default [] (dict_get k d) ++ [v]) d.

(** [_loading_order]: the parameters by the files of their sources. *)
Definition path_to_torch (torch_to_path : list (string * string)) : list (string * list string) :=
  foldl (λ d p, dict_append p.2 p.1 d) [] torch_to_path.
Definition torch_to_mlc (pm : list (string * list string)) : list (string * list string) :=
  foldl (λ d p, foldl (λ d torch_name, dict_append torch_name p.1 d) d p.2) [] pm.
Definition add_new (order : list string) (mlc_name : string) : list string :=
  if decide (mlc_name ∈ order) then order else order ++ [mlc_name].
Definition _loading_order (pm : list (string * list string)) (torch_to_path : list (string * string)) :
    list string :=
  foldl (λ order p,
    foldl (λ order torch_name,
      foldl add_new order (default [] (dict_get torch_name (torch_to_mlc pm)))) order p.2)
    [] (path_to_torch torch_to_path).

(** ** The loader *)

Section loader.
Context {array tensor : Type}.
Context (nbytes size : array → Z).
Context (as_tensor : array → tensor).

(** [load_safetensor_shard] or [load_torch_shard] of a file: what it yields, and how
    it ends. *)
Context (read_file : string → list (string * array) * result unit).

Abbreviation weights := (list (string * array)).

Record HuggingFaceLoader := {
  stats : Stats;
  extern_param_map : ExternMapping array;
  cached_files : list (string * weights);
  torch_to_path : list (string * string);
  quantize_param_map : option (QuantizeMapping tensor);
}.

Definition with_stats (s : Stats) (l : HuggingFaceLoader) : HuggingFaceLoader :=
  {| stats := s; extern_param_map := extern_param_map l; cached_files := cached_files l;
     torch_to_path := torch_to_path l; quantize_param_map := quantize_param_map l |}.
Definition with_cache (c : list (string * weights)) (l : HuggingFaceLoader) : HuggingFaceLoader :=
  {| stats := stats l; extern_param_map := extern_param_map l; cached_files := c;
     torch_to_path := torch_to_path l; quantize_param_map := quantize_param_map l |}.
Definition with_paths (p : list (string * string)) (l : HuggingFaceLoader) : HuggingFaceLoader :=
  {| stats := stats l; extern_param_map := extern_param_map l; cached_files := cached_files l;
     torch_to_path := p; quantize_param_map := quantize_param_map l |}.

(** [_load_file]. *)
Definition count_param (unused : list string) (s : Stats) (p : string * array) : Stats :=
  let s := mem_add (nbytes p.2) s in
  if decide (p.1 ∈ unused) then s else count_params (size p.2) s.
Definition _load_file (path : string) : stM HuggingFaceLoader unit := λ l,
  let '(params, e) := read_file path in
  let l1 := with_stats (foldl (count_param (unused_params (extern_param_map l))) (stats l) params) l in
  match e with
  | Err err => (l1, Err err)
  | Ok _ =>
      (with_cache (dict_set path (foldl (λ d p, dict_set p.1 p.2 d) [] params) (cached_files l1)) l1, Ok tt)
  end.

(** [_unload_file]. *)
Definition _unload_file (path : string) : stM HuggingFaceLoader unit := λ l,
  match dict_get path (cached_files l) with
  | None => (l, raise KeyError path)
  | Some params =>
      (with_cache (dict_delete path (cached_files l))
         (with_stats (foldl (λ s p, mem_rm (nbytes p.2) s) (stats l) params) l), Ok tt)
  end.

(** [__init__]. *)
Definition init (is_file : string → bool) (weight_map : string → result (list (string * string)))
    (path : string) (m : ExternMapping array) (q : option (QuantizeMapping tensor)) :
    result HuggingFaceLoader :=
  _ ← py_assert (is_file path) "Path {path} is not a file";
  let l := {| stats := new_stats; extern_param_map := m; cached_files := []; torch_to_path := [];
              quantize_param_map := q |} in
  l ← (if decide (path_suffix path ∈ [".bin"; ".safetensors"; ".pt"]) then
         match _load_file path l with
         | (l, Ok _) =>
             Ok (with_paths ((λ p, (p.1, path)) <$> default [] (dict_get path (cached_files l))) l)
         | (_, Err e) => Err e
         end
       else if decide (path_suffix path = ".json") then
         w ← weight_map path;
         Ok (with_paths ((λ p, (p.1, sibling path p.2)) <$> w) l)
       else raise FileNotFoundError "Unknown file suffix: {path}");
  _ ← check_parameter_usage m (torch_to_path l).*1;
  Ok l.

(** [_load_mlc_param]; its first two steps make the needed files available. *)
Definition subtract (l m : list string) : list string := filter (λ x, x ∉ m) l.
Definition collect (l : HuggingFaceLoader) (torch_name : string) : result array :=
  path ← get_key torch_name (torch_to_path l);
  file ← get_key path (cached_files l);
  get_key torch_name file.
Definition fetch_files (files_required : list string) : stM HuggingFaceLoader unit := (
  l ← st_get;
  let files_existing := (cached_files l).*1 in
  let files_to_load := subtract files_required files_existing in
  let files_to_unload := subtract files_existing files_required in
  (if decide (files_to_load = []) then mret tt else st_iter _unload_file files_to_unload);;
  st_iter _load_file files_to_load).
Definition _load_mlc_param (mlc_name : string) : stM HuggingFaceLoader tensor := (
  l ← st_get;
  torch_names ← st_lift (get_key mlc_name (param_map (extern_param_map l)));
  required ← st_lift (map_m (λ p, get_key p (torch_to_path l)) torch_names);
  fetch_files (remove_dups required);;
  l ← st_get;
  torch_params ← st_lift (map_m (collect l) torch_names);
  f ← st_lift (get_key mlc_name (map_func (extern_param_map l)));
  param ← st_lift (f torch_params);
  mret (as_tensor param)).

(** [_load_or_quantize]: what it yields ([zip] stops at the shorter list). *)
Definition _load_or_quantize (q : option (QuantizeMapping tensor)) (mlc_name : string) (param : tensor) :
    result (list (string * tensor)) :=
  match q with
  | Some qm =>
      match dict_get mlc_name (q_param_map qm) with
      | Some q_names =>
          f ← get_key mlc_name (q_map_func qm);
          q_params ← f param;
          Ok (zip q_names q_params)
      | None => Ok [(mlc_name, param)]
      end
  | None => Ok [(mlc_name, param)]
  end.

(** The items [load] yields for one of these, with presharding. *)
Definition sharded (preshard : option (list (string * (tensor → result (list tensor)))))
    (item : string * tensor) : result (list (string * tensor)) :=
  match preshard with
  | Some funcs =>
      match dict_get item.1 funcs with
      | Some f =>
          shards ← f item.2;
          Ok (imap (λ i p, (_sharded_param_name item.1 i, p)) shards)
      | None => Ok [item]
      end
  | None => Ok [item]
  end.

(** [load], with the body of the loop that consumes it: a consumer that raises
    closes the generator where it stands. *)
Section load.
Context {C : Type} (consume : string * tensor → stM C unit).

Definition on_loader {A} (m : stM HuggingFaceLoader A) : stM (HuggingFaceLoader * C) A := λ s,
  let '(l, r) := m s.1 in ((l, s.2), r).
Definition on_consumer {A} (m : stM C A) : stM (HuggingFaceLoader * C) A := λ s,
  let '(c, r) := m s.2 in ((s.1, c), r).

Definition load_one (preshard : option (list (string * (tensor → result (list tensor)))))
    (mlc_name : string) : stM (HuggingFaceLoader * C) unit := (
  param ← on_loader (_load_mlc_param mlc_name);
  s ← st_get;
  items ← st_lift (_load_or_quantize (quantize_param_map s.1) mlc_name param);
  st_iter (λ item, shards ← st_lift (sharded preshard item); st_iter (on_consumer ∘ consume) shards) items).

Definition load (preshard : option (list (string * (tensor → result (list tensor))))) :
    stM (HuggingFaceLoader * C) unit := (
  s ← st_get;
  st_iter (load_one preshard) (_loading_order (param_map (extern_param_map s.1)) (torch_to_path s.1));;
  s ← st_get;
  on_loader (st_iter _unload_file (cached_files s.1).*1)).
End load.
End loader.

(** ** Facts on dictionaries *)

Lemma st_bind_run {S A B} (f : A → stM S B) (m : stM S A) s s1 a : m s = (s1, Ok a) → (m ≫= f) s = f a s1.
Proof. unfold mbind, stM_bind. by intros ->. Qed.
Lemma st_lift_run {S A B} (f : A → stM S B) (r : result A) (s : S) a : r = Ok a → (st_lift r ≫= f) s = f a s.
Proof. by intros ->. Qed.

Section dicts.
Context {A : Type}.
Implicit Types (d : list (string * A)) (k : string).

Lemma dict_set_fresh k (v : A) d : dict_get k d = None → dict_set k v d = d ++ [(k, v)].
Proof.
  induction d as [|[k1 v1] d IH]; csimpl; [done|]. destruct (decide (k = k1)); [done|].
  intros H. by rewrite IH.
Qed.
Lemma dict_delete_perm k (v : A) d : dict_get k d = Some v → d ≡ₚ (k, v) :: dict_delete k d.
Proof.
  induction d as [|[k1 v1] d IH]; csimpl; [done|]. destruct (decide (k = k1)) as [->|].
  - by intros [= ->].
  - intros H. rewrite (IH H) at 1. constructor.
Qed.
Lemma dict_delete_keys k d : NoDup d.*1 → (dict_delete k d).*1 = filter (λ x, x ≠ k) d.*1.
Proof.
  induction d as [|[k1 v1] d IH]; csimpl; [done|]. intros [Hn Hd]%NoDup_cons.
  destruct (decide (k = k1)) as [->|Hk].
  - rewrite filter_cons_False by tauto. clear IH Hd. induction d as [|[k2 v2] d IH]; csimpl in *; [done|].
    rewrite filter_cons_True by set_solver. f_equal. apply IH. set_solver.
  - rewrite filter_cons_True by done. csimpl. by rewrite IH.
Qed.
Lemma dict_delete_sub k d p : p ∈ dict_delete k d → p ∈ d.
Proof.
  induction d as [|[k1 v1] d IH]; csimpl; [done|]. destruct (decide (k = k1)); set_solver.
Qed.
Lemma dict_get_Some_NoDup k (v : A) d : NoDup d.*1 → (k, v) ∈ d → dict_get k d = Some v.
Proof.
  induction d as [|[k1 v1] d IH]; csimpl; intros Hnd Hin; [by apply not_elem_of_nil in Hin|].
  apply NoDup_cons in Hnd as [Hnot Hnd].
  apply elem_of_cons in Hin as [[= -> ->]|Hin]; [by rewrite decide_True|].
  rewrite decide_False; [by apply IH|]. intros ->. apply Hnot.
  apply list_elem_of_fmap. by exists (k1, v).
Qed.
Lemma dict_get_app k d d' : dict_get k (d ++ d') = match dict_get k d with Some v => Some v | None => dict_get k d' end.
Proof.
  induction d as [|[k1 v1] d IH]; csimpl; [done|]. by destruct (decide (k = k1)).
Qed.
Lemma dict_get_key_elem k d : k ∈ d.*1 → ∃ v, dict_get k d = Some v.
Proof.
  intros H. destruct (dict_get k d) as [v|] eqn:E; [by exists v|]. by apply dict_get_None in E.
Qed.
Lemma foldl_dict_set_NoDup (l d : list (string * A)) :
  NoDup (d ++ l).*1 → foldl (λ d p, dict_set p.1 p.2 d) d l = d ++ l.
Proof.
  revert d. induction l as [|[k v] l IH]; intros d H; csimpl; [by rewrite app_nil_r|].
  assert (dict_get k d = None) as Hk.
  { apply dict_get_None. rewrite fmap_app in H. csimpl in H. apply NoDup_app in H as (_ & H & _).
    intros Hin. apply (H k Hin). set_solver. }
  rewrite dict_set_fresh by done. rewrite IH; rewrite <-app_assoc; [done|by csimpl].
Qed.

Lemma dict_append_get k k' (v : A) (d : list (string * list A)) :
  default [] (dict_get k' (dict_append k v d)) =
    default [] (dict_get k' d) ++ (if decide (k' = k) then [v] else []).
Proof.
  unfold dict_append. destruct (decide (k' = k)) as [->|Hne].
  - by rewrite dict_set_eq.
  - rewrite dict_set_ne by done. by rewrite app_nil_r.
Qed.
End dicts.

Lemma filter_ext_in {A} (P Q : A → Prop) `{∀ x, Decision (P x), ∀ x, Decision (Q x)} (l : list A) :
  (∀ x, x ∈ l → P x ↔ Q x) → filter P l = filter Q l.
Proof.
  induction l as [|x l IH]; intros Hl; [done|].
  assert (filter P l = filter Q l) as IHl by (apply IH; intros y Hy; apply Hl; by right).
  destruct (decide (P x)) as [Hx|Hx].
  - rewrite !filter_cons_True; [by f_equal| |done]. apply Hl; [by left|done].
  - rewrite !filter_cons_False; [done| |done]. rewrite <-Hl; [done|by left].
Qed.

(** Sums. *)
Definition zsum (l : list Z) : Z := foldr Z.add 0%Z l.
#[export] Instance zsum_proper : Proper ((≡ₚ) ==> (=)) zsum.
Proof. intros l l' H. induction H; csimpl; lia. Qed.
Lemma zsum_app l l' : zsum (l ++ l') = (zsum l + zsum l')%Z.
Proof. induction l; csimpl; lia. Qed.
Lemma zsum_nonneg l : Forall (λ z, 0 ≤ z)%Z l → (0 ≤ zsum l)%Z.
Proof. induction 1; csimpl; lia. Qed.
Lemma zsum_submseteq l l' : Forall (λ z, 0 ≤ z)%Z l' → l ⊆+ l' → (zsum l ≤ zsum l')%Z.
Proof.
  intros Hpos (k & Hk)%submseteq_Permutation. rewrite Hk, zsum_app.
  assert (0 ≤ zsum k)%Z; [|lia]. apply zsum_nonneg. rewrite Hk in Hpos. by apply Forall_app in Hpos as [_ ?].
Qed.

(** ** The loading order *)

Lemma path_to_torch_elem ttp acc path t :
  t ∈ default [] (dict_get path (foldl (λ d (p : string * string), dict_append p.2 p.1 d) acc ttp)) ↔
  t ∈ default [] (dict_get path acc) ∨ ((t, path) : string * string) ∈ ttp.
Proof.
  revert acc. induction ttp as [|[t1 p1] ttp IH]; intros acc; csimpl; [set_solver|].
  rewrite IH, dict_append_get. csimpl. destruct (decide (path = p1)) as [->|]; set_solver.
Qed.

Lemma dict_append_elem {A} k (v : A) d : ∀ p l,
  (p, l) ∈ dict_append k v d → (p, l) ∈ d ∨ p = k ∧ l = default [] (dict_get k d) ++ [v].
Proof.
  unfold dict_append. generalize (default [] (dict_get k d) ++ [v]) as w. intros w p l.
  induction d as [|[k1 v1] d IH]; csimpl; [set_solver|]. destruct (decide (k = k1)); set_solver.
Qed.
Lemma dict_set_NoDup {A} k (v : A) d : NoDup d.*1 → NoDup (dict_set k v d).*1.
Proof.
  destruct (dict_get k d) as [w|] eqn:E.
  - rewrite dict_set_keys; [done|]. unfold has_key. by rewrite E.
  - intros H. rewrite dict_set_fresh by done. rewrite fmap_app. apply NoDup_app.
    apply dict_get_None in E. split_and!; [done|set_solver|apply NoDup_singleton].
Qed.
Lemma path_to_torch_NoDup ttp : NoDup (path_to_torch ttp).*1.
Proof.
  unfold path_to_torch. assert (NoDup ([] : list (string * list string)).*1) as H by constructor.
  revert H. generalize ([] : list (string * list string)) as acc.
  induction ttp as [|[t p] ttp IH]; intros acc H; csimpl; [done|]. apply IH. by apply dict_set_NoDup.
Qed.

(** The files partition the weights. *)
Lemma path_to_torch_spec ttp t :
  (∃ path ts, (path, ts) ∈ path_to_torch ttp ∧ t ∈ ts) ↔ t ∈ ttp.*1.
Proof.
  split.
  - intros (path & ts & Hp & Ht). apply dict_get_Some_NoDup in Hp; [|apply path_to_torch_NoDup].
    pose proof (path_to_torch_elem ttp [] path t) as H. unfold path_to_torch in Hp. rewrite Hp in H.
    csimpl in H. apply H in Ht as [Ht|Ht]; [by apply not_elem_of_nil in Ht|].
    apply list_elem_of_fmap. by exists (t, path).
  - intros ([t' path] & -> & Ht)%list_elem_of_fmap. csimpl.
    pose proof (proj2 (path_to_torch_elem ttp [] path t') (or_intror Ht)) as H.
    fold (path_to_torch ttp) in H. destruct (dict_get path (path_to_torch ttp)) as [ts|] eqn:E.
    + exists path, ts. split; [by apply dict_get_elem|done].
    + by apply not_elem_of_nil in H.
Qed.

Lemma torch_to_mlc_inner (n : string) (ts : list string) acc t m :
  m ∈ default [] (dict_get t (foldl (λ d torch_name, dict_append torch_name n d) acc ts)) ↔
  m ∈ default [] (dict_get t acc) ∨ m = n ∧ t ∈ ts.
Proof.
  revert acc. induction ts as [|t1 ts IH]; intros acc; csimpl; [set_solver|].
  rewrite IH, dict_append_get. destruct (decide (t = t1)) as [->|]; set_solver.
Qed.
Lemma torch_to_mlc_spec (pm : list (string * list string)) t n :
  n ∈ default [] (dict_get t (torch_to_mlc pm)) ↔ ∃ ts, (n, ts) ∈ pm ∧ t ∈ ts.
Proof.
  unfold torch_to_mlc.
  assert (∀ acc, n ∈ default [] (dict_get t (foldl (λ d (p : string * list string), foldl (λ d torch_name, dict_append torch_name p.1 d) d p.2) acc pm)) ↔
    n ∈ default [] (dict_get t acc) ∨ ∃ ts, (n, ts) ∈ pm ∧ t ∈ ts) as H.
  { induction pm as [|[m ts] pm IH]; intros acc; csimpl; [set_solver|].
    rewrite IH, torch_to_mlc_inner. csimpl. set_solver. }
  rewrite H. csimpl. set_solver.
Qed.

Lemma add_new_elem l order n : n ∈ foldl add_new order l ↔ n ∈ order ∨ n ∈ l.
Proof.
  revert order. induction l as [|x l IH]; intros order; csimpl; [set_solver|].
  rewrite IH. unfold add_new. case_decide; set_solver.
Qed.
Lemma add_new_NoDup l order : NoDup order → NoDup (foldl add_new order l).
Proof.
  revert order. induction l as [|x l IH]; intros order H; csimpl; [done|]. apply IH.
  unfold add_new. case_decide; [done|]. apply NoDup_app. split_and!; [done|set_solver|apply NoDup_singleton].
Qed.

Section order.
Context (pm : list (string * list string)) (ttp : list (string * string)).

Abbreviation step := (λ order torch_name,
  foldl add_new order (default [] (dict_get torch_name (torch_to_mlc pm)))).

Lemma order_inner ts order n :
  n ∈ foldl step order ts ↔ n ∈ order ∨ ∃ t, t ∈ ts ∧ n ∈ default [] (dict_get t (torch_to_mlc pm)).
Proof.
  revert order. induction ts as [|t ts IH]; intros order; csimpl; [set_solver|].
  rewrite IH, add_new_elem. set_solver.
Qed.
Lemma order_outer (files : list (string * list string)) order n :
  n ∈ foldl (λ order p, foldl step order p.2) order files ↔
  n ∈ order ∨ ∃ path ts t, (path, ts) ∈ files ∧ t ∈ ts ∧ n ∈ default [] (dict_get t (torch_to_mlc pm)).
Proof.
  revert order. induction files as [|[path ts] files IH]; intros order; csimpl; [set_solver|].
  rewrite IH, order_inner. csimpl. split.
  - intros [[?|(t & ? & ?)]|(p & ts' & t & ? & ? & ?)]; [by left|right..].
    + exists path, ts, t. split_and!; [by left|done..].
    + exists p, ts', t. split_and!; [by right|done..].
  - intros [?|(p & ts' & t & Hin & ? & ?)]; [by left; left|].
    apply elem_of_cons in Hin as [[= -> ->]|Hin]; [left; right; by exists t|right; by exists p, ts', t].
Qed.

Lemma step_NoDup ts order : NoDup order → NoDup (foldl step order ts).
Proof.
  revert order. induction ts as [|t ts IH]; intros order H; csimpl; [done|].
  apply IH. by apply add_new_NoDup.
Qed.
Lemma outer_NoDup (files : list (string * list string)) order :
  NoDup order → NoDup (foldl (λ order p, foldl step order p.2) order files).
Proof.
  revert order. induction files as [|p files IH]; intros order H; csimpl; [done|].
  apply IH. by apply step_NoDup.
Qed.
Lemma order_NoDup : NoDup (_loading_order pm ttp).
Proof. apply outer_NoDup. constructor. Qed.

Lemma order_elem n :
  n ∈ _loading_order pm ttp ↔ ∃ ts t, (n, ts) ∈ pm ∧ t ∈ ts ∧ t ∈ ttp.*1.
Proof.
  unfold _loading_order. rewrite order_outer. split.
  - intros [H|(path & ts & t & Hp & Ht & Hn)]; [by apply not_elem_of_nil in H|].
    apply torch_to_mlc_spec in Hn as (ts' & ? & ?). exists ts', t. split_and!; [done..|].
    apply path_to_torch_spec. by exists path, ts.
  - intros (ts & t & ? & ? & Ht). right. apply path_to_torch_spec in Ht as (path & ts' & ? & ?).
    exists path, ts', t. split_and!; [done..|]. apply torch_to_mlc_spec. by exists ts.
Qed.
End order.

(** When the weight files have every source, the loading order has each parameter
    with a source exactly once, and no other name. *)
Theorem loading_order_complete {array} (m : ExternMapping array) ttp :
  check_parameter_usage m ttp.*1 = Ok tt →
  NoDup (_loading_order (param_map m) ttp) ∧
  ∀ n, n ∈ _loading_order (param_map m) ttp ↔ ∃ ts, (n, ts) ∈ param_map m ∧ ts ≠ [].
Proof.
  unfold check_parameter_usage. rewrite raise_when_Ok. intros H%negb_false_iff.
  rewrite forallb_Forall, Forall_forall in H. split; [apply order_NoDup|]. intros n.
  rewrite order_elem. split.
  - intros (ts & t & Hp & Ht & _). exists ts. split; [done|]. by intros ->; apply not_elem_of_nil in Ht.
  - intros ([|t ts] & Hp & Hne); [done|]. exists (t :: ts), t. split_and!; [done|by left|].
    eapply bool_decide_eq_true_1, (H t). unfold used_names. apply list_elem_of_In, in_concat.
    exists (t :: ts). split; [|by left]. apply list_elem_of_In, list_elem_of_fmap. by exists (n, t :: ts).
Qed.

(** ** The cache is transparent *)

Section cache.
Context {array tensor : Type}.
Context (nbytes size : array → Z).
Context (as_tensor : array → tensor).
Context (read_file : string → list (string * array) * result unit).

(** A file lists each of its weights once, and no weight has a negative size. *)
Context (read_NoDup : ∀ path, NoDup (read_file path).1.*1).
Context (nbytes_nonneg : ∀ a, (0 ≤ nbytes a)%Z).

Abbreviation weights := (list (string * array)).
Abbreviation Loader := (@HuggingFaceLoader array tensor).

(** What a file holds, read directly, and a parameter computed from the files. *)
Definition contents (path : string) : result weights :=
  match read_file path with (w, Ok _) => Ok w | (_, Err e) => Err e end.
Definition from_disk (ttp : list (string * string)) (torch_name : string) : result array :=
  path ← get_key torch_name ttp;
  file ← contents path;
  get_key torch_name file.
Definition direct (m : ExternMapping array) (ttp : list (string * string)) (mlc_name : string) : result tensor :=
  torch_names ← get_key mlc_name (param_map m);
  torch_params ← map_m (from_disk ttp) torch_names;
  f ← get_key mlc_name (map_func m);
  param ← f torch_params;
  Ok (as_tensor param).

(** The bytes of a file, and of the files a parameter needs. *)
Definition weight_bytes (w : weights) : Z := zsum ((λ p, nbytes p.2) <$> w).
Definition file_bytes (path : string) : Z := weight_bytes (read_file path).1.
Definition files_of (m : ExternMapping array) (ttp : list (string * string)) (mlc_name : string) : list string :=
  remove_dups (omap (λ t, dict_get t ttp) (default [] (dict_get mlc_name (param_map m)))).
Definition needed_bytes (m : ExternMapping array) (ttp : list (string * string)) (mlc_name : string) : Z :=
  zsum (file_bytes <$> files_of m ttp mlc_name).

(** What is true of the loader between two parameters: the cache has the contents
    of files, each once, and the statistics count them, up to the bound [B]. *)
Record cache_ok (m : ExternMapping array) (ttp : list (string * string))
    (q : option (QuantizeMapping tensor)) (B : Z) (l : Loader) : Prop := {
  ok_map : extern_param_map l = m;
  ok_paths : torch_to_path l = ttp;
  ok_quant : quantize_param_map l = q;
  ok_nodup : NoDup (cached_files l).*1;
  ok_contents : ∀ path w, (path, w) ∈ cached_files l → contents path = Ok w;
  ok_memory : current_memory (stats l) = zsum (file_bytes <$> (cached_files l).*1);
  ok_fits : (current_memory (stats l) ≤ B)%Z;
  ok_peak : (max_memory (stats l) ≤ B)%Z;
}.

Lemma file_bytes_nonneg path : (0 ≤ file_bytes path)%Z.
Proof. apply zsum_nonneg. apply Forall_forall. by intros z (p & -> & _)%list_elem_of_fmap. Qed.

Lemma files_bytes_sub ps qs : ps ⊆+ qs → (zsum (file_bytes <$> ps) ≤ zsum (file_bytes <$> qs))%Z.
Proof.
  intros H. apply zsum_submseteq.
  - apply Forall_forall. intros z (p & -> & _)%list_elem_of_fmap. apply file_bytes_nonneg.
  - by apply fmap_submseteq.
Qed.

(** Statistics of a file that is read, or dropped. *)
Lemma count_params_stats unused w s B :
  (current_memory s + weight_bytes w ≤ B)%Z → (max_memory s ≤ B)%Z →
  let s' := foldl (count_param nbytes size unused) s w in
  current_memory s' = (current_memory s + weight_bytes w)%Z ∧ (max_memory s' ≤ B)%Z.
Proof.
  unfold weight_bytes. revert s. induction w as [|[n a] w IH]; intros s Hc Hm; csimpl in *; [lia|].
  assert (0 ≤ zsum ((λ p, nbytes p.2) <$> w))%Z.
  { apply zsum_nonneg, Forall_forall. intros z (p & -> & _)%list_elem_of_fmap. apply nbytes_nonneg. }
  pose proof (nbytes_nonneg a).
  destruct (IH (count_param nbytes size unused s (n, a))) as [-> Hm'].
  - unfold count_param. case_decide; simpl; lia.
  - unfold count_param. case_decide; simpl; lia.
  - split; [|done]. unfold count_param. case_decide; simpl; lia.
Qed.
Lemma mem_rm_stats (w : weights) s :
  let s' := foldl (λ s p, mem_rm (nbytes p.2) s) s w in
  current_memory s' = (current_memory s - weight_bytes w)%Z ∧ max_memory s' = max_memory s.
Proof.
  unfold weight_bytes. revert s. induction w as [|[n a] w IH]; intros s; csimpl in *; [lia|].
  destruct (IH (mem_rm (nbytes a) s)) as [-> ->]. simpl. lia.
Qed.

Context (m : ExternMapping array) (ttp : list (string * string)) (q : option (QuantizeMapping tensor)) (B : Z).
Abbreviation ok := (cache_ok m ttp q B).

Lemma contents_bytes path w : contents path = Ok w → file_bytes path = weight_bytes w.
Proof.
  unfold contents, file_bytes. destruct (read_file path) as [w' [u|e]]; [by intros [= ->]|done].
Qed.

Lemma unload_run path l :
  ok l → path ∈ (cached_files l).*1 →
  ∃ l', _unload_file nbytes path l = (l', Ok tt) ∧ ok l' ∧
    (cached_files l').*1 = filter (λ x, x ≠ path) (cached_files l).*1.
Proof.
  intros Hok Hin. destruct (dict_get_key_elem _ _ Hin) as [w Hw].
  unfold _unload_file. rewrite Hw. eexists. split; [reflexivity|].
  pose proof (dict_delete_perm _ _ _ Hw) as Hp. pose proof (dict_get_elem _ _ _ Hw) as Hel.
  destruct (mem_rm_stats w (stats l)) as [Hcur Hmax].
  destruct Hok as [Hmap Hpath Hq Hnd Hcont Hmem Hfit Hpeak].
  pose proof (dict_delete_keys path _ Hnd) as Hkeys.
  assert (current_memory (stats l) - weight_bytes w = zsum (file_bytes <$> (dict_delete path (cached_files l)).*1))%Z as Hd.
  { rewrite Hmem.
    rewrite (zsum_proper _ _ (fmap_Permutation file_bytes _ _ (fmap_Permutation fst _ _ Hp))).
    csimpl. rewrite (contents_bytes path w) by (by apply Hcont). lia. }
  split; [|exact Hkeys]. constructor; simpl; [done..| | | | |].
  - rewrite Hkeys. by apply NoDup_filter.
  - intros p' w' H. apply Hcont. by eapply dict_delete_sub.
  - by rewrite Hcur.
  - rewrite Hcur. assert (0 ≤ weight_bytes w)%Z; [|lia].
    rewrite <-(contents_bytes path) by (by apply Hcont). apply file_bytes_nonneg.
  - by rewrite Hmax.
Qed.

Lemma unload_all ps l :
  ok l → NoDup ps → (∀ p, p ∈ ps → p ∈ (cached_files l).*1) →
  ∃ l', st_iter (_unload_file nbytes) ps l = (l', Ok tt) ∧ ok l' ∧
    (cached_files l').*1 = filter (λ x, x ∉ ps) (cached_files l).*1.
Proof.
  revert l. induction ps as [|p ps IH]; intros l Hok Hnd Hin; simpl.
  - exists l. split_and!; [done..|]. symmetry. apply filter_all. set_solver.
  - apply NoDup_cons in Hnd as [Hp Hnd].
    destruct (unload_run p l) as (l1 & Hrun & Hok1 & Hk1); [done|set_solver|].
    destruct (IH l1) as (l2 & Hrun2 & Hok2 & Hk2); [done..| |].
    + intros p' Hp'. rewrite Hk1. apply list_elem_of_filter. split; [|set_solver]. by intros ->.
    + exists l2. unfold mbind, stM_bind. rewrite Hrun. split_and!; [done..|].
      rewrite Hk2, Hk1, list_filter_filter. apply list_filter_iff. set_solver.
Qed.

Lemma load_run path w l :
  ok l → path ∉ (cached_files l).*1 → contents path = Ok w →
  (zsum (file_bytes <$> path :: (cached_files l).*1) ≤ B)%Z →
  ∃ l', _load_file nbytes size read_file path l = (l', Ok tt) ∧ ok l' ∧
    cached_files l' = cached_files l ++ [(path, w)].
Proof.
  intros Hok Hin Hw HB. csimpl in HB. pose proof (contents_bytes _ _ Hw) as Hbytes.
  unfold _load_file. unfold contents in Hw. pose proof (read_NoDup path) as Hnd.
  destruct (read_file path) as [params [u|e]] eqn:Hread; [|done]. injection Hw as ->.
  assert (contents path = Ok w) as Hcont by (unfold contents; by rewrite Hread).
  destruct Hok as [Hmap Hpath Hq Hnodup Hcontents Hmem Hfit Hpeak].
  destruct (count_params_stats (unused_params (extern_param_map l)) w (stats l) B) as [Hcur Hmax]; [lia|done|].
  exists (with_cache (cached_files l ++ [(path, w)])
    (with_stats (foldl (count_param nbytes size (unused_params (extern_param_map l))) (stats l) w) l)).
  split; [|split; [|done]].
  { cbn [with_stats cached_files]. rewrite foldl_dict_set_NoDup by done.
    rewrite dict_set_fresh by (by apply dict_get_None). done. }
  constructor;
    cbn [with_cache with_stats stats extern_param_map torch_to_path quantize_param_map cached_files];
    [done..| | | | |].
  - rewrite fmap_app. apply NoDup_app. split_and!; [done|set_solver|apply NoDup_singleton].
  - intros p' w' [H|H]%elem_of_app; [by apply Hcontents|]. apply list_elem_of_singleton in H. by simplify_eq.
  - rewrite Hcur, Hmem, !fmap_app, zsum_app. csimpl. lia.
  - lia.
  - done.
Qed.

Lemma load_fails path (l : Loader) e :
  contents path = Err e → ∃ l', _load_file nbytes size read_file path l = (l', Err e).
Proof.
  unfold contents, _load_file. destruct (read_file path) as [params [u|e']]; [done|]. intros [= ->]. by eexists.
Qed.

(** Loading several files succeeds exactly when each can be read. *)
Lemma load_all ps l :
  ok l → NoDup ps → (∀ p, p ∈ ps → p ∉ (cached_files l).*1) →
  (zsum (file_bytes <$> (cached_files l).*1 ++ ps) ≤ B)%Z →
  (∀ p, p ∈ ps → ∃ w, contents p = Ok w) →
  ∃ l', st_iter (_load_file nbytes size read_file) ps l = (l', Ok tt) ∧ ok l' ∧
    (cached_files l').*1 = (cached_files l).*1 ++ ps.
Proof.
  revert l. induction ps as [|p ps IH]; intros l Hok Hnd Hin HB Hw; simpl.
  { exists l. rewrite app_nil_r. done. }
  apply NoDup_cons in Hnd as [Hp Hnd]. destruct (Hw p) as [w Hpw]; [by left|].
  destruct (load_run p w l) as (l1 & Hrun & Hok1 & Hc1); [done|set_solver|done| |].
  { etransitivity; [|exact HB]. apply files_bytes_sub. rewrite (Permutation_app_comm _ (p :: ps)). simpl.
    apply submseteq_skip. by apply submseteq_inserts_l. }
  assert ((cached_files l1).*1 = (cached_files l).*1 ++ [p]) as Hk1 by (by rewrite Hc1, fmap_app).
  destruct (IH l1) as (l2 & Hrun2 & Hok2 & Hc2); [done..| | |set_solver|].
  - intros p' Hp'. rewrite Hk1. set_solver.
  - rewrite Hk1, <-app_assoc. exact HB.
  - exists l2. unfold mbind, stM_bind. rewrite Hrun. split_and!; [done..|].
    rewrite Hc2, Hk1, <-app_assoc. done.
Qed.

Lemma load_all_inv ps (l l' : Loader) :
  st_iter (_load_file nbytes size read_file) ps l = (l', Ok tt) →
  ∀ p, p ∈ ps → ∃ w, contents p = Ok w.
Proof.
  revert l. induction ps as [|p ps IH]; intros l; simpl; [set_solver|].
  rewrite st_bind_Ok. intros (u & l1 & H1 & H2) p' [->|Hp']%elem_of_cons; [|by eapply IH].
  destruct (contents p) as [w|e] eqn:E; [by exists w|]. destruct (load_fails p l e E) as [l3 H3].
  by rewrite H3 in H1.
Qed.

(** A weight read through the cache. *)
Lemma collect_from_disk l t path :
  ok l → dict_get t ttp = Some path → path ∈ (cached_files l).*1 → collect l t = from_disk ttp t.
Proof.
  intros Hok Ht Hin. unfold collect, from_disk, get_key. rewrite (ok_paths _ _ _ _ _ Hok), Ht. simpl.
  destruct (dict_get_key_elem _ _ Hin) as [w Hw]. rewrite Hw.
  rewrite (ok_contents _ _ _ _ _ Hok path w) by (by apply dict_get_elem). done.
Qed.

Lemma map_m_ext {X Y} (f g : X → result Y) l : (∀ x, x ∈ l → f x = g x) → map_m f l = map_m g l.
Proof.
  induction l as [|x l IH]; intros H; [done|]. simpl. rewrite (H x) by (by left).
  rewrite IH; [done|]. intros y Hy. apply H. by right.
Qed.

Lemma get_key_Ok {A} k (d : list (string * A)) v : get_key k d = Ok v ↔ dict_get k d = Some v.
Proof. unfold get_key. destruct (dict_get k d); split; intros; by simplify_eq. Qed.

(** The files of a parameter, from the point of view of [_load_mlc_param]. *)
Lemma required_files n torch_names required :
  dict_get n (param_map m) = Some torch_names → map_m (λ p, get_key p ttp) torch_names = Ok required →
  files_of m ttp n = remove_dups required ∧
  (∀ t, t ∈ torch_names → ∃ path, dict_get t ttp = Some path ∧ path ∈ required) ∧
  (∀ path, path ∈ required → ∃ t, t ∈ torch_names ∧ dict_get t ttp = Some path).
Proof.
  intros Hn Hr. unfold files_of. rewrite Hn. simpl. apply map_m_Ok in Hr.
  assert (omap (λ t, dict_get t ttp) torch_names = required) as ->.
  { clear Hn. induction Hr as [|t p ts ps Ht _ IH]; [done|]. apply get_key_Ok in Ht. cbn [omap list_omap].
    rewrite Ht. f_equal. exact IH. }
  split; [done|]. clear Hn. induction Hr as [|t p ts ps Ht _ [IH1 IH2]].
  - split; set_solver.
  - apply get_key_Ok in Ht. split.
    + intros t' [->|Ht']%elem_of_cons; [exists p; split; [done|by left]|].
      destruct (IH1 t' Ht') as (p' & ? & ?). exists p'. split; [done|by right].
    + intros p' [->|Hp']%elem_of_cons; [exists t; split; [by left|done]|].
      destruct (IH2 p' Hp') as (t' & ? & ?). exists t'. split; [by right|done].
Qed.

(** The files in the cache after a parameter: the ones it needs, or the ones
    before when nothing had to be loaded. *)
Lemma fetch_run l required :
  ok l → NoDup required → (zsum (file_bytes <$> required) ≤ B)%Z →
  (∀ p, p ∈ required → ∃ w, contents p = Ok w) →
  ∃ l', fetch_files nbytes size read_file required l = (l', Ok tt) ∧ ok l' ∧
    ∀ p, p ∈ required → p ∈ (cached_files l').*1.
Proof.
  intros Hok Hnd HB Hw. unfold fetch_files, st_get, mbind, stM_bind.
  set (to_load := subtract required (cached_files l).*1).
  set (to_unload := subtract (cached_files l).*1 required).
  case_decide as Hload.
  - exists l. rewrite Hload. simpl. split_and!; [done..|]. intros p Hp.
    destruct (decide (p ∈ (cached_files l).*1)) as [|Hno]; [done|].
    assert (p ∈ to_load) as H by (apply list_elem_of_filter; done).
    rewrite Hload in H. by apply not_elem_of_nil in H.
  - destruct (unload_all to_unload l) as (l1 & -> & Hok1 & Hk1); [done| | |].
    { apply NoDup_filter, (ok_nodup _ _ _ _ _ Hok). }
    { intros p Hp. by apply list_elem_of_filter in Hp as [_ ?]. }
    assert ((cached_files l1).*1 = filter (λ x, x ∈ required) (cached_files l).*1) as Hk1'.
    { rewrite Hk1. unfold to_unload, subtract. apply filter_ext_in. intros x Hx.
      rewrite list_elem_of_filter. destruct (decide (x ∈ required)); tauto. }
    destruct (load_all to_load l1) as (l2 & -> & Hok2 & Hk2); [done| | | | |].
    + by apply NoDup_filter.
    + intros p Hp. rewrite Hk1', list_elem_of_filter. apply list_elem_of_filter in Hp. tauto.
    + etransitivity; [|exact HB]. apply files_bytes_sub. rewrite Hk1'. apply NoDup_submseteq.
      * apply NoDup_app. split_and!.
        -- apply NoDup_filter, (ok_nodup _ _ _ _ _ Hok).
        -- intros p Hp Hp'. apply list_elem_of_filter in Hp, Hp'. tauto.
        -- by apply NoDup_filter.
      * intros p [Hp|Hp]%elem_of_app; apply list_elem_of_filter in Hp; tauto.
    + intros p Hp. apply Hw. by apply list_elem_of_filter in Hp as [_ ?].
    + exists l2. split_and!; [done..|]. intros p Hp. rewrite Hk2, Hk1', elem_of_app, !list_elem_of_filter.
      destruct (decide (p ∈ (cached_files l).*1)); [by left|right]. by apply list_elem_of_filter.
Qed.

Abbreviation load_param := (_load_mlc_param nbytes size as_tensor read_file).

(** When every file it needs can be read, loading a parameter is the direct
    computation. *)
Lemma load_param_run l n torch_names required :
  ok l → (needed_bytes m ttp n ≤ B)%Z →
  dict_get n (param_map m) = Some torch_names → map_m (λ p, get_key p ttp) torch_names = Ok required →
  (∀ p, p ∈ required → ∃ w, contents p = Ok w) →
  ∃ l', load_param n l = (l', direct m ttp n) ∧ ok l'.
Proof.
  intros Hok HB Hn Hr Hw. destruct (required_files n torch_names required Hn Hr) as (Hfiles & Hall & _).
  destruct (fetch_run l (remove_dups required)) as (l1 & Hrun & Hok1 & Hin).
  { done. } { apply NoDup_remove_dups. } { unfold needed_bytes in HB. by rewrite Hfiles in HB. }
  { intros p Hp. apply Hw. by rewrite elem_of_remove_dups in Hp. }
  exists l1. split; [|done]. unfold _load_mlc_param. rewrite (st_bind_run _ _ l l l) by done.
  rewrite (ok_map _ _ _ _ _ Hok), (ok_paths _ _ _ _ _ Hok).
  rewrite (st_lift_run _ _ _ torch_names) by (by apply get_key_Ok).
  rewrite (st_lift_run _ _ _ required) by done. rewrite (st_bind_run _ _ _ _ _ Hrun).
  rewrite (st_bind_run _ _ l1 l1 l1) by done. rewrite (ok_map _ _ _ _ _ Hok1).
  unfold direct. rewrite (proj2 (get_key_Ok n (param_map m) torch_names) Hn). cbn [mbind result_bind].
  rewrite (map_m_ext (collect l1) (from_disk ttp)).
  - destruct (map_m (from_disk ttp) torch_names) as [ps|]; [|done].
    rewrite (st_lift_run _ _ _ ps) by done. cbn [mbind result_bind].
    destruct (get_key n (map_func m)) as [f|]; [|done]. rewrite (st_lift_run _ _ _ f) by done.
    cbn [mbind result_bind]. by destruct (f ps).
  - intros t Ht. destruct (Hall t Ht) as (path & Htp & Hp). eapply collect_from_disk; [done..|].
    apply Hin. by apply elem_of_remove_dups.
Qed.

(** When loading returns, every file it needs could be read. *)
Lemma fetch_inv required l l' :
  ok l → fetch_files nbytes size read_file required l = (l', Ok tt) →
  ∀ p, p ∈ required → ∃ w, contents p = Ok w.
Proof.
  intros Hok H p Hp. unfold fetch_files in H. rewrite st_bind_Ok in H.
  destruct H as (l0 & l1 & [= <- <-] & H). rewrite st_bind_Ok in H.
  destruct H as (u & l2 & _ & H). pose proof (load_all_inv _ _ _ H) as Hload.
  destruct (decide (p ∈ (cached_files l).*1)) as [Hc|Hc].
  - destruct (dict_get_key_elem _ _ Hc) as [w Hw]. exists w.
    by apply (ok_contents _ _ _ _ _ Hok), dict_get_elem.
  - apply Hload. by apply list_elem_of_filter.
Qed.

Lemma load_param_spec l n t :
  ok l → (needed_bytes m ttp n ≤ B)%Z →
  (∀ l', load_param n l = (l', Ok t) → direct m ttp n = Ok t ∧ ok l') ∧
  (direct m ttp n = Ok t → ∃ l', load_param n l = (l', Ok t) ∧ ok l').
Proof.
  intros Hok HB. split.
  - intros l' Hrun. pose proof Hrun as H. unfold _load_mlc_param in H.
    rewrite st_bind_Ok in H. destruct H as (l0 & l1 & [= <- <-] & H).
    rewrite st_bind_Ok in H. destruct H as (ts & l2 & [Hn ->]%st_lift_Ok & H).
    rewrite st_bind_Ok in H. destruct H as (ps & l3 & [Hr ->]%st_lift_Ok & H).
    rewrite st_bind_Ok in H. destruct H as ([] & l4 & Hf & _).
    rewrite (ok_map _ _ _ _ _ Hok) in Hn. rewrite (ok_paths _ _ _ _ _ Hok) in Hr. apply get_key_Ok in Hn.
    destruct (load_param_run l n ts ps Hok HB Hn Hr) as (l5 & Hrun' & Hok').
    { intros p Hp. eapply fetch_inv; [done..|]. by apply elem_of_remove_dups. }
    rewrite Hrun' in Hrun. injection Hrun as -> Hd. done.
  - intros Hd. pose proof Hd as H. unfold direct in H. ok_inv.
    match goal with H : get_key n (param_map m) = Ok ?x |- _ => apply get_key_Ok in H; rename H into Hn; rename x into ts end.
    match goal with H : map_m (from_disk ttp) _ = Ok _ |- _ => apply map_m_Ok in H; rename H into Hps end.
    assert (∃ required, map_m (λ p, get_key p ttp) ts = Ok required ∧
      ∀ p, p ∈ required → ∃ w, contents p = Ok w) as (required & Hr & Hw).
    { clear - Hps. induction Hps as [|t' a ts ps Ht _ (required & IH & IHw)].
      - exists []. split; [done|set_solver].
      - unfold from_disk in Ht. ok_inv.
        match goal with H : get_key t' ttp = Ok ?path, H' : contents ?path = Ok ?w |- _ =>
          exists (path :: required); simpl; rewrite H, IH; split; [done|];
          intros p [->|Hp]%elem_of_cons; [by exists w|by apply IHw] end. }
    destruct (load_param_run l n ts required Hok HB Hn Hr Hw) as (l' & Hrun & Hok').
    exists l'. rewrite Hrun, Hd. done.
Qed.

(** ** The whole load *)

Section run.
Context {C : Type} (consume : string * tensor → stM C unit).
Context (preshard : option (list (string * (tensor → result (list tensor))))).

(** The items a parameter contributes, computed directly. *)
Definition outputs (n : string) : result (list (string * tensor)) :=
  param ← direct m ttp n;
  items ← _load_or_quantize q n param;
  shards ← map_m (sharded preshard) items;
  Ok (concat shards).

Lemma st_iter_app {S A} (f : A → stM S unit) xs ys s :
  st_iter f (xs ++ ys) s = match st_iter f xs s with (s', Ok _) => st_iter f ys s' | e => e end.
Proof.
  revert s. induction xs as [|x xs IH]; intros s; [done|]. simpl. unfold mbind, stM_bind.
  destruct (f x s) as [s1 [u|e]]; [apply IH|done].
Qed.

Lemma consume_iter xs (l : Loader) c :
  st_iter (on_consumer ∘ consume) xs (l, c) = (let '(c', r) := st_iter consume xs c in ((l, c'), r)).
Proof.
  revert c. induction xs as [|x xs IH]; intros c; [done|]. simpl. unfold mbind, stM_bind, on_consumer at 1. simpl.
  destruct (consume x c) as [c1 [u|e]]; [apply IH|done].
Qed.

Lemma items_iter items (l : Loader) c s' :
  st_iter (λ item, shards ← st_lift (sharded preshard item); st_iter (on_consumer ∘ consume) shards) items (l, c)
    = (s', Ok tt) ↔
  s'.1 = l ∧ ∃ ss, map_m (sharded preshard) items = Ok ss ∧ st_iter consume (concat ss) c = (s'.2, Ok tt).
Proof.
  revert c. induction items as [|i items IH]; intros c; simpl.
  { split; [intros [= <-]; split; [done|by exists []]|]. destruct s'. by intros (? & ? & [= <-] & [= ->]); simplify_eq/=. }
  unfold mbind at 1, stM_bind at 1, mbind at 1, stM_bind at 1, st_lift at 1.
  destruct (sharded preshard i) as [sh|e]; simpl.
  2: { split; [done|]. by intros (_ & ss & ? & _). }
  rewrite consume_iter. destruct (st_iter consume sh c) as [c1 [[]|e]] eqn:E.
  - rewrite IH. split; intros (Hl & ss & Hss & Hc); (split; [done|]).
    + exists (sh :: ss). rewrite Hss. simpl. split; [done|]. by rewrite st_iter_app, E.
    + destruct (map_m (sharded preshard) items) as [ss'|]; [|done]. simpl in Hss. simplify_eq.
      exists ss'. split; [done|]. simpl in Hc. by rewrite st_iter_app, E in Hc.
  - split; [done|]. intros (_ & ss & Hss & Hc). destruct (map_m (sharded preshard) items); [|done].
    simpl in Hss. simplify_eq. simpl in Hc. by rewrite st_iter_app, E in Hc.
Qed.

Lemma load_one_spec l c n :
  ok l → (needed_bytes m ttp n ≤ B)%Z →
  (∀ s', load_one nbytes size as_tensor read_file consume preshard n (l, c) = (s', Ok tt) →
     ok s'.1 ∧ ∃ outs, outputs n = Ok outs ∧ st_iter consume outs c = (s'.2, Ok tt)) ∧
  (∀ outs c', outputs n = Ok outs → st_iter consume outs c = (c', Ok tt) →
     ∃ l', load_one nbytes size as_tensor read_file consume preshard n (l, c) = ((l', c'), Ok tt) ∧ ok l').
Proof.
  intros Hok HB. split.
  - intros s' H. unfold load_one in H. rewrite st_bind_Ok in H. destruct H as (t & s1 & H1 & H).
    unfold on_loader in H1. simpl in H1. destruct (load_param n l) as [l1 r] eqn:Hload. injection H1 as <- ->.
    destruct (proj1 (load_param_spec l n t Hok HB) _ Hload) as [Hd Hok1].
    rewrite st_bind_Ok in H. destruct H as (s2 & s3 & [= <- <-] & H). simpl in H.
    rewrite (ok_quant _ _ _ _ _ Hok1) in H. rewrite st_bind_Ok in H.
    destruct H as (items & s4 & [Hi ->]%st_lift_Ok & H). apply items_iter in H as (Hl & ss & Hss & Hc).
    rewrite Hl. split; [done|]. exists (concat ss). unfold outputs. rewrite Hd. simpl. rewrite Hi. simpl.
    by rewrite Hss.
  - intros outs c' Ho Hc. unfold outputs in Ho. ok_inv.
    match goal with H : direct m ttp n = Ok ?t |- _ =>
      destruct (proj2 (load_param_spec l n t Hok HB) H) as (l1 & Hload & Hok1) end.
    exists l1. split; [|done]. unfold load_one. erewrite (st_bind_run _ _ _ (l1, c)).
    2: { unfold on_loader. simpl. by rewrite Hload. }
    erewrite (st_bind_run _ _ _ (l1, c)) by done. simpl. rewrite (ok_quant _ _ _ _ _ Hok1).
    erewrite st_lift_run by done. apply items_iter. split; [done|]. by eexists.
Qed.

Lemma load_names_spec names l c :
  ok l → (∀ n, n ∈ names → (needed_bytes m ttp n ≤ B)%Z) →
  (∀ s', st_iter (load_one nbytes size as_tensor read_file consume preshard) names (l, c) = (s', Ok tt) →
     ok s'.1 ∧ ∃ outs, map_m outputs names = Ok outs ∧ st_iter consume (concat outs) c = (s'.2, Ok tt)) ∧
  (∀ outs c', map_m outputs names = Ok outs → st_iter consume (concat outs) c = (c', Ok tt) →
     ∃ l', st_iter (load_one nbytes size as_tensor read_file consume preshard) names (l, c) = ((l', c'), Ok tt) ∧ ok l').
Proof.
  revert l c. induction names as [|n names IH]; intros l c Hok HB; simpl.
  { split; [intros s' [= <-]; split; [done|by exists []]|]. intros outs c' [= <-] [= <-]. by exists l. }
  destruct (load_one_spec l c n Hok) as [Hf Hb]; [apply HB; by left|].
  assert (∀ n, n ∈ names → (needed_bytes m ttp n ≤ B)%Z) as HB' by (intros; apply HB; by right).
  split.
  - intros s' H. rewrite st_bind_Ok in H. destruct H as ([] & [l1 c1] & H1 & H2).
    apply Hf in H1 as (Hok1 & outs & Ho & Hc).
    destruct (proj1 (IH l1 c1 Hok1 HB') _ H2) as (Hok2 & outs2 & Ho2 & Hc2). split; [done|].
    exists (outs :: outs2). rewrite Ho. simpl. rewrite Ho2. split; [done|]. simpl. by rewrite st_iter_app, Hc.
  - intros outs c' Ho Hc. ok_inv. simpl in Hc. rewrite st_iter_app in Hc.
    match goal with H : outputs n = Ok ?o |- _ => rename o into o1; rename H into Ho1 end.
    destruct (st_iter consume o1 c) as [c1 [[]|e]] eqn:E; [|done].
    destruct (Hb _ _ Ho1 E) as (l1 & Hrun & Hok1).
    match goal with H : map_m outputs names = Ok ?o |- _ =>
      destruct (proj2 (IH l1 c1 Hok1 HB') _ _ H Hc) as (l2 & Hrun2 & Hok2) end.
    exists l2. split; [|done]. by rewrite (st_bind_run _ _ _ _ _ Hrun).
Qed.

Abbreviation order := (_loading_order (param_map m) ttp).
Abbreviation run := (load nbytes size as_tensor read_file consume preshard).

Lemma load_run_spec l c :
  ok l → (∀ n, n ∈ order → (needed_bytes m ttp n ≤ B)%Z) →
  (∀ s', run (l, c) = (s', Ok tt) →
     (∃ outs, map_m outputs order = Ok outs ∧ st_iter consume (concat outs) c = (s'.2, Ok tt)) ∧
     cached_files s'.1 = [] ∧ current_memory (stats s'.1) = 0%Z ∧ (max_memory (stats s'.1) ≤ B)%Z) ∧
  (∀ outs c', map_m outputs order = Ok outs → st_iter consume (concat outs) c = (c', Ok tt) →
     ∃ l', run (l, c) = ((l', c'), Ok tt)).
Proof.
  intros Hok HB. destruct (load_names_spec order l c Hok HB) as [Hf Hb].
  assert (∀ l1 : Loader, ok l1 → ∃ l2, st_iter (_unload_file nbytes) (cached_files l1).*1 l1 = (l2, Ok tt) ∧
    ok l2 ∧ cached_files l2 = []) as Hunload.
  { intros l1 Hok1. destruct (unload_all (cached_files l1).*1 l1) as (l2 & Hrun & Hok2 & Hk); [done| |done|].
    - apply (ok_nodup _ _ _ _ _ Hok1).
    - exists l2. split_and!; [done..|].
      assert ((cached_files l2).*1 = []) as Hnil.
      { rewrite Hk. destruct (filter _ _) as [|x xs] eqn:E; [done|]. exfalso.
        assert (x ∈ filter (λ x, x ∉ (cached_files l1).*1) (cached_files l1).*1) as Hx by (rewrite E; by left).
        apply list_elem_of_filter in Hx. tauto. }
      by destruct (cached_files l2). }
  unfold load. split.
  - intros s' H. rewrite (st_bind_run _ _ _ (l, c) (l, c)) in H by done. simpl in H.
    rewrite (ok_map _ _ _ _ _ Hok), (ok_paths _ _ _ _ _ Hok) in H.
    rewrite st_bind_Ok in H. destruct H as ([] & [l1 c1] & H1 & H). apply Hf in H1 as (Hok1 & Houts).
    rewrite (st_bind_run _ _ _ (l1, c1) (l1, c1)) in H by done. simpl in *.
    destruct (Hunload l1 Hok1) as (l2 & Hrun & Hok2 & Hnil). unfold on_loader in H. simpl in H.
    rewrite Hrun in H. injection H as <-. simpl. split_and!; [done..| |].
    + rewrite (ok_memory _ _ _ _ _ Hok2), Hnil. done.
    + apply (ok_peak _ _ _ _ _ Hok2).
  - intros outs c' Ho Hc. destruct (Hb outs c' Ho Hc) as (l1 & Hrun & Hok1).
    destruct (Hunload l1 Hok1) as (l2 & Hun & _). exists l2.
    rewrite (st_bind_run _ _ _ (l, c) (l, c)) by done. simpl.
    rewrite (ok_map _ _ _ _ _ Hok), (ok_paths _ _ _ _ _ Hok). rewrite (st_bind_run _ _ _ _ _ Hrun).
    rewrite (st_bind_run _ _ _ (l1, c') (l1, c')) by done. unfold on_loader. simpl. by rewrite Hun.
Qed.
End run.

End cache.

(** ** From construction to the last parameter *)

Section from_init.
Context {array tensor : Type}.
Context (nbytes size : array → Z).
Context (as_tensor : array → tensor).
Context (read_file : string → list (string * array) * result unit).
Context (read_NoDup : ∀ path, NoDup (read_file path).1.*1).
Context (nbytes_nonneg : ∀ a, (0 ≤ nbytes a)%Z).
Context (is_file : string → bool) (weight_map : string → result (list (string * string))).
Context (m : ExternMapping array) (q : option (QuantizeMapping tensor)).

Lemma set_paths_ok ttp ttp' B (l : @HuggingFaceLoader array tensor) :
  cache_ok nbytes read_file m ttp q B l → cache_ok nbytes read_file m ttp' q B (with_paths ttp' l).
Proof. intros [? ? ? ? ? ? ? ?]. by constructor. Qed.

(** A new loader satisfies the invariant, and its files have every source. *)
Lemma init_ok B path l :
  init nbytes size read_file is_file weight_map path m q = Ok l →
  (0 ≤ B)%Z → (path_suffix path ≠ ".json" → (file_bytes nbytes read_file path ≤ B)%Z) →
  cache_ok nbytes read_file m (torch_to_path l) q B l ∧
  check_parameter_usage m (torch_to_path l).*1 = Ok tt.
Proof.
  intros H HB Hpath. unfold init in H. ok_inv. split; [|done].
  match goal with H : context [_load_file _ _ _ _ ?l0] |- _ => set (l0' := l0) in H; rename H into Hl end.
  assert (cache_ok nbytes read_file m [] q B l0') as Hok0
    by (constructor; simpl; try done; [constructor|set_solver]).
  destruct (decide (path_suffix path ∈ _)) as [Hsuf|_] in Hl.
  - assert (path_suffix path ≠ ".json") as Hne by (intros E; rewrite E in Hsuf; set_solver).
    destruct (contents read_file path) as [w|e] eqn:Hw.
    + destruct (load_run nbytes size read_file read_NoDup nbytes_nonneg m [] q B path w l0')
        as (l1 & Hrun & Hok1 & _); [done|set_solver|done| |].
      { simpl. specialize (Hpath Hne). lia. }
      rewrite Hrun in Hl. injection Hl as <-. simpl. by eapply set_paths_ok.
    + destruct (load_fails nbytes size read_file path l0' e Hw) as [l1 Hrun]. by rewrite Hrun in Hl.
  - case_decide; [|done]. ok_inv. simpl. by eapply set_paths_ok.
Qed.

(** ** Theorems *)

Section load.
Context {C : Type} (consume : string * tensor → stM C unit).
Context (preshard : option (list (string * (tensor → result (list tensor))))).
Context (path : string) (l : @HuggingFaceLoader array tensor).
Context (constructed : init nbytes size read_file is_file weight_map path m q = Ok l).

Abbreviation names := (_loading_order (param_map m) (torch_to_path l)).
Abbreviation run := (load nbytes size as_tensor read_file consume preshard).
Abbreviation needed := (needed_bytes nbytes read_file m (torch_to_path l)).

(** A bound that always exists: all the files of all the parameters. *)
Lemma bound_exists :
  ∃ B, (0 ≤ B)%Z ∧ (file_bytes nbytes read_file path ≤ B)%Z ∧ ∀ n, n ∈ names → (needed n ≤ B)%Z.
Proof.
  exists (file_bytes nbytes read_file path + zsum (needed <$> names))%Z.
  pose proof (file_bytes_nonneg nbytes read_file nbytes_nonneg path).
  assert (∀ n, 0 ≤ needed n)%Z as Hpos.
  { intros n. apply zsum_nonneg, Forall_forall. intros z (p & -> & _)%list_elem_of_fmap.
    by apply file_bytes_nonneg. }
  assert (0 ≤ zsum (needed <$> names))%Z.
  { apply zsum_nonneg, Forall_forall. intros z (p & -> & _)%list_elem_of_fmap. apply Hpos. }
  split_and!; [lia..|]. intros n Hn.
  assert (needed n ≤ zsum (needed <$> names))%Z; [|lia].
  apply elem_of_Permutation in Hn as [ns Hp].
  rewrite (zsum_proper _ _ (fmap_Permutation needed _ _ Hp)). csimpl.
  assert (0 ≤ zsum (needed <$> ns))%Z; [|lia].
  apply zsum_nonneg, Forall_forall. intros z (p & -> & _)%list_elem_of_fmap. apply Hpos.
Qed.

(** What a load that returns gave its consumer. *)
Lemma load_returns c c' l' :
  run (l, c) = ((l', c'), Ok tt) →
  ∃ outs, map_m (outputs as_tensor read_file m (torch_to_path l) q preshard) names = Ok outs ∧
     st_iter consume (concat outs) c = (c', Ok tt).
Proof.
  intros H. destruct bound_exists as (B & HB & Hfile & Hn).
  destruct (init_ok B path l constructed HB) as [Hok _]; [done|].
  destruct (load_run_spec nbytes size as_tensor read_file read_NoDup nbytes_nonneg m (torch_to_path l) q B
    consume preshard l c Hok Hn) as [Hf _].
  by destruct (Hf _ H) as (Houts & _).
Qed.

(** C13. The cache is transparent: a load hands its consumer, in the loading order, what
    each parameter is when computed directly from the files, quantized and sharded,
    and returns exactly when all of these can be computed and the consumer accepts
    them. *)
Theorem load_transparent c c' :
  (∃ l', run (l, c) = ((l', c'), Ok tt)) ↔
  (∃ outs, map_m (outputs as_tensor read_file m (torch_to_path l) q preshard) names = Ok outs ∧
     st_iter consume (concat outs) c = (c', Ok tt)).
Proof.
  destruct bound_exists as (B & HB & Hfile & Hn).
  destruct (init_ok B path l constructed HB) as [Hok _]; [done|].
  destruct (load_run_spec nbytes size as_tensor read_file read_NoDup nbytes_nonneg m (torch_to_path l) q B
    consume preshard l c Hok Hn) as [_ Hb]. split.
  - intros [l' H]. by eapply load_returns.
  - intros (outs & Ho & Hc). by eapply Hb.
Qed.

(** When a load returns, every file was dropped from the cache and its memory
    released, and the memory in use never exceeded what the largest set of files
    needed for one parameter takes. *)
Theorem load_memory B c s' :
  (0 ≤ B)%Z → (path_suffix path ≠ ".json" → (file_bytes nbytes read_file path ≤ B)%Z) →
  (∀ n, n ∈ names → (needed n ≤ B)%Z) →
  run (l, c) = (s', Ok tt) →
  cached_files s'.1 = [] ∧ current_memory (stats s'.1) = 0%Z ∧ (max_memory (stats s'.1) ≤ B)%Z.
Proof.
  intros HB Hfile Hn H. destruct (init_ok B path l constructed HB Hfile) as [Hok _].
  destruct (load_run_spec nbytes size as_tensor read_file read_NoDup nbytes_nonneg m (torch_to_path l) q B
    consume preshard l c Hok Hn) as [Hf _]. by destruct (Hf _ H) as (_ & ? & ? & ?).
Qed.
End load.
End from_init.

(** ** Witnesses *)

Module Example.
(** Two files of integers, and an index of them. *)
Definition read_file (path : string) : list (string * Z) * result unit :=
  if decide (path = "dir/a.safetensors") then ([("q", 1); ("k", 2)]%Z, Ok tt)
  else if decide (path = "dir/b.safetensors") then ([("v", 3); ("o", 4)]%Z, Ok tt)
  else ([], raise FileNotFoundError path).
Definition weight_map (_ : string) : result (list (string * string)) :=
  Ok [("q", "a.safetensors"); ("k", "a.safetensors"); ("v", "b.safetensors"); ("o", "b.safetensors")].
Definition nbytes (_ : Z) : Z := 4%Z.
Definition mapping : ExternMapping Z :=
  add_mapping "o_proj" ["o"] (λ l, Ok (foldr Z.add 0%Z l))
    (add_mapping "qkv" ["q"; "k"; "v"] (λ l, Ok (foldr Z.add 0%Z l)) empty_mapping).
Definition index : string := "dir/model.json".

(** The consumer keeps what it is given. *)
Definition keep (item : string * Z) : stM (list (string * Z)) unit := λ s, (s ++ [item], Ok tt).

Definition loader : result (@HuggingFaceLoader Z Z) :=
  init nbytes (λ _, 1%Z) read_file (λ _, true) weight_map index mapping None.
Definition built : @HuggingFaceLoader Z Z :=
  match loader with
  | Ok l => l
  | Err _ => {| stats := new_stats; extern_param_map := mapping; cached_files := [];
                torch_to_path := []; quantize_param_map := None |}
  end.

Lemma read_NoDup path : NoDup (read_file path).1.*1.
Proof.
  unfold read_file. do 2 (case_decide; [apply (bool_decide_unpack _); by vm_compute|]). constructor.
Qed.
Lemma nbytes_nonneg a : (0 ≤ nbytes a)%Z.
Proof. done. Qed.

Lemma load_transparent_witness :
  ∃ l', load nbytes (λ _, 1%Z) (λ x, x) read_file keep None (built, []) =
    ((l', [("qkv", 6%Z); ("o_proj", 4%Z)]), Ok tt).
Proof.
  apply (load_transparent nbytes (λ _, 1%Z) (λ x, x) read_file read_NoDup nbytes_nonneg
    (λ _, true) weight_map mapping None keep None index built eq_refl).
  eexists. split; reflexivity.
Defined.

Lemma load_memory_witness :
  (max_memory (stats (load nbytes (λ _, 1%Z) (λ x, x) read_file keep None (built, [])).1.1) ≤ 16)%Z.
Proof.
  refine (proj2 (proj2 (load_memory nbytes (λ _, 1%Z) (λ x, x) read_file read_NoDup nbytes_nonneg
    (λ _, true) weight_map mapping None keep None index built eq_refl 16 []
    (load nbytes (λ _, 1%Z) (λ x, x) read_file keep None (built, [])).1 _ _ _ _))).
  - lia.
  - done.
  - intros n Hn. assert (n ∈ ["qkv"; "o_proj"]) as H by exact Hn.
    apply elem_of_cons in H as [->|H]; [by vm_compute|].
    apply list_elem_of_singleton in H as ->. by vm_compute.
  - reflexivity.
Defined.

Lemma loading_order_complete_witness :
  "qkv" ∈ _loading_order (param_map mapping) (torch_to_path built).
Proof.
  apply (proj2 (loading_order_complete mapping (torch_to_path built) eq_refl)).
  exists ["q"; "k"; "v"]. split; [|done]. apply list_elem_of_In. simpl. tauto.
Defined.
End Example.
