(* ===== verification/Templates.v ===== *)
(** The conversation templates: [python/mlc_llm/conversation_template/], the registry
    ([registry.py]) and the templates each module registers when it is imported.

    The strings are byte strings: characters beyond ASCII are their UTF-8 codes. *)

From Stdlib Require Import Lia ZArith Ascii.
From stdpp Require Import base gmap strings list.
From S2P Require Import Prelude PyString Conversation.

Definition nl : string := String newline EmptyString.
Definition dq : string := String (ascii_of_nat 34) EmptyString.

(** ** The registry *)

Abbreviation registry_t := (list (string * Conversation)).

(** [ConvTemplateRegistry.register_conv_template] and [get_conv_template]. *)
Definition register_conv_template (override : bool) (t : Conversation) (reg : registry_t) : result registry_t :=
  match name t with
  | None => raise ValueError "The template to register should have non-None name."
  | Some n =>
      _ ← raise_when (has_key n reg && negb override) ValueError
            "The name of the template has been registered ";
      Ok (dict_set n t reg)
  end.
Definition get_conv_template (n : string) (reg : registry_t) : option Conversation := dict_get n reg.

(** ** The templates *)

(** [registry.py] *)
Definition t_chatml : result Conversation := init None {|
  name := Some "chatml";
  system_template := ("<|im_start|>system" +:+ nl +:+ placeholder_value SYSTEM +:+ "<|im_end|>" +:+ nl);
  system_message := "A conversation between a user and an LLM-based AI assistant. The assistant gives helpful and honest answers.";
  system_prefix_token_ids := None;
  add_role_after_system_message := true;
  roles := list_to_map [("user", "<|im_start|>user"); ("assistant", "<|im_start|>assistant")];
  role_templates := ∅; messages := [];
  seps := ["<|im_end|>" +:+ nl]; role_content_sep := nl; role_empty_sep := nl;
  stop_str := ["<|im_end|>"]; stop_token_ids := [2]%Z;
  strip_reasoning_in_history := false;
  function_string := ""; use_function_calling := false |}.
Definition t_chatml_nosystem : result Conversation := init None {|
  name := Some "chatml_nosystem";
  system_template := (placeholder_value SYSTEM);
  system_message := "";
  system_prefix_token_ids := None;
  add_role_after_system_message := true;
  roles := list_to_map [("user", "<|im_start|>user"); ("assistant", "<|im_start|>assistant")];
  role_templates := ∅; messages := [];
  seps := ["<|im_end|>" +:+ nl]; role_content_sep := nl; role_empty_sep := nl;
  stop_str := ["<|im_end|>"]; stop_token_ids := [2]%Z;
  strip_reasoning_in_history := false;
  function_string := ""; use_function_calling := false |}.
Definition t_LM : result Conversation := init None {|
  name := Some "LM";
  system_template := (placeholder_value SYSTEM);
  system_message := "";
  system_prefix_token_ids := Some [1]%Z;
  add_role_after_system_message := true;
  roles := list_to_map [("user", ""); ("assistant", "")];
  role_templates := ∅; messages := [];
  seps := [""]; role_content_sep := ""; role_empty_sep := "";
  stop_str := []; stop_token_ids := [2]%Z;
  strip_reasoning_in_history := false;
  function_string := ""; use_function_calling := false |}.

(** [cohere.py] *)
Definition t_aya_23 : result Conversation := init None {|
  name := Some "aya-23";
  system_template := ("<|START_OF_TURN_TOKEN|><|SYSTEM_TOKEN|>" +:+ placeholder_value SYSTEM +:+ "<|END_OF_TURN_TOKEN|>");
  system_message := "You are Command-R, a brilliant, sophisticated, AI-assistant trained to assist human users by providing thorough responses.";
  system_prefix_token_ids := Some [5]%Z;
  add_role_after_system_message := true;
  roles := list_to_map [("user", "<|START_OF_TURN_TOKEN|><|USER_TOKEN|>"); ("assistant", "<|START_OF_TURN_TOKEN|><|CHATBOT_TOKEN|>")];
  role_templates := ∅; messages := [];
  seps := ["<|END_OF_TURN_TOKEN|>"]; role_content_sep := ""; role_empty_sep := "";
  stop_str := ["<|END_OF_TURN_TOKEN|>"]; stop_token_ids := [6; 255001]%Z;
  strip_reasoning_in_history := false;
  function_string := ""; use_function_calling := false |}.

(** [deepseek.py] *)
Definition t_deepseek : result Conversation := init None {|
  name := Some "deepseek";
  system_template := (placeholder_value SYSTEM);
  system_message := "";
  system_prefix_token_ids := Some [100000]%Z;
  add_role_after_system_message := true;
  roles := list_to_map [("user", "User"); ("assistant", "Assistant")];
  role_templates := ∅; messages := [];
  seps := [nl +:+ nl; "<｜end▁of▁sentence｜>"]; role_content_sep := ": "; role_empty_sep := ":";
  stop_str := ["<｜end▁of▁sentence｜>"]; stop_token_ids := [100001]%Z;
  strip_reasoning_in_history := false;
  function_string := ""; use_function_calling := false |}.
Definition t_deepseek_v2 : result Conversation := init None {|
  name := Some "deepseek_v2";
  system_template := (placeholder_value SYSTEM);
  system_message := "";
  system_prefix_token_ids := Some [100000]%Z;
  add_role_after_system_message := true;
  roles := list_to_map [("user", "User"); ("assistant", "Assistant")];
  role_templates := ∅; messages := [];
  seps := [nl +:+ nl; "<｜end▁of▁sentence｜>"]; role_content_sep := ": "; role_empty_sep := ":";
  stop_str := ["<｜end▁of▁sentence｜>"]; stop_token_ids := [100001]%Z;
  strip_reasoning_in_history := false;
  function_string := ""; use_function_calling := false |}.
Definition t_deepseek_v3 : result Conversation := init None {|
  name := Some "deepseek_v3";
  system_template := ("<｜begin▁of▁sentence｜>" +:+ placeholder_value SYSTEM);
  system_message := "You are Deepseek-V3, an AI assistant created exclusively by the Chinese Company DeepSeek. You'll provide helpful, harmless, and detailed responses to all user inquiries.";
  system_prefix_token_ids := None;
  add_role_after_system_message := true;
  roles := list_to_map [("user", "<｜User｜>"); ("assistant", "<｜Assistant｜>")];
  role_templates := ∅; messages := [];
  seps := [""; "<｜end▁of▁sentence｜>"]; role_content_sep := ""; role_empty_sep := "";
  stop_str := []; stop_token_ids := [1]%Z;
  strip_reasoning_in_history := false;
  function_string := ""; use_function_calling := false |}.
Definition t_deepseek_r1_qwen : result Conversation := init None {|
  name := Some "deepseek_r1_qwen";
  system_template := ("<｜begin▁of▁sentence｜>" +:+ placeholder_value SYSTEM);
  system_message := "You are Deepseek-R1, an AI assistant created exclusively by the Chinese Company DeepSeek. You'll provide helpful, harmless, and detailed responses to all user inquiries.";
  system_prefix_token_ids := None;
  add_role_after_system_message := true;
  roles := list_to_map [("user", "<｜User｜>"); ("assistant", "<｜Assistant｜>")];
  role_templates := ∅; messages := [];
  seps := [""; "<｜end▁of▁sentence｜>"]; role_content_sep := ""; role_empty_sep := "";
  stop_str := []; stop_token_ids := [151643]%Z;
  strip_reasoning_in_history := false;
  function_string := ""; use_function_calling := false |}.
Definition t_deepseek_r1_llama : result Conversation := init None {|
  name := Some "deepseek_r1_llama";
  system_template := ("<｜begin▁of▁sentence｜>" +:+ placeholder_value SYSTEM);
  system_message := "You are Deepseek-R1, an AI assistant created exclusively by the Chinese Company DeepSeek. You'll provide helpful, harmless, and detailed responses to all user inquiries.";
  system_prefix_token_ids := None;
  add_role_after_system_message := true;
  roles := list_to_map [("user", "<｜User｜>"); ("assistant", "<｜Assistant｜>")];
  role_templates := ∅; messages := [];
  seps := [""; "<｜end▁of▁sentence｜>"]; role_content_sep := ""; role_empty_sep := "";
  stop_str := []; stop_token_ids := [128001]%Z;
  strip_reasoning_in_history := false;
  function_string := ""; use_function_calling := false |}.

(** [dolly.py] *)
Definition t_dolly : result Conversation := init None {|
  name := Some "dolly";
  system_template := (placeholder_value SYSTEM);
  system_message := "Below is an instruction that describes a task. Write a response that appropriately completes the request.";
  system_prefix_token_ids := None;
  add_role_after_system_message := true;
  roles := list_to_map [("user", "### Instruction"); ("assistant", "### Response")];
  role_templates := ∅; messages := [];
  seps := [nl +:+ nl; "### End" +:+ nl]; role_content_sep := (":" +:+ nl); role_empty_sep := (":" +:+ nl);
  stop_str := ["### End"]; stop_token_ids := [50256]%Z;
  strip_reasoning_in_history := false;
  function_string := ""; use_function_calling := false |}.

(** [gemma.py] *)
Definition t_gemma_instruction : result Conversation := init None {|
  name := Some "gemma_instruction";
  system_template := (placeholder_value SYSTEM);
  system_message := "";
  system_prefix_token_ids := Some [2]%Z;
  add_role_after_system_message := true;
  roles := list_to_map [("user", "<start_of_turn>user"); ("assistant", "<start_of_turn>model")];
  role_templates := ∅; messages := [];
  seps := ["<end_of_turn>" +:+ nl]; role_content_sep := nl; role_empty_sep := nl;
  stop_str := ["<end_of_turn>"]; stop_token_ids := [1; 107]%Z;
  strip_reasoning_in_history := false;
  function_string := ""; use_function_calling := false |}.
Definition t_gemma3_instruction : result Conversation := init None {|
  name := Some "gemma3_instruction";
  system_template := (placeholder_value SYSTEM);
  system_message := "";
  system_prefix_token_ids := Some [2]%Z;
  add_role_after_system_message := true;
  roles := list_to_map [("user", "<start_of_turn>user"); ("assistant", "<start_of_turn>model")];
  role_templates := ∅; messages := [];
  seps := ["<end_of_turn>" +:+ nl]; role_content_sep := nl; role_empty_sep := nl;
  stop_str := ["<end_of_turn>"]; stop_token_ids := [1; 106]%Z;
  strip_reasoning_in_history := false;
  function_string := ""; use_function_calling := false |}.

(** [glm.py] *)
Definition t_glm : result Conversation := init None {|
  name := Some "glm";
  system_template := (placeholder_value SYSTEM);
  system_message := "";
  system_prefix_token_ids := Some [64790; 64792]%Z;
  add_role_after_system_message := true;
  roles := list_to_map [("user", "问"); ("assistant", "答"); ("tool", "问")];
  role_templates := ∅; messages := [];
  seps := [nl +:+ nl]; role_content_sep := ": "; role_empty_sep := ":";
  stop_str := ["</s>"]; stop_token_ids := [2]%Z;
  strip_reasoning_in_history := false;
  function_string := ""; use_function_calling := false |}.

(** [gorilla.py] *)
Definition t_gorilla : result Conversation := init (Some (list_to_map [("user", "<<question>> " +:+ placeholder_value USER +:+ " <<function>> " +:+ placeholder_value FUNCTION)])) {|
  name := Some "gorilla";
  system_template := (placeholder_value SYSTEM);
  system_message := "A chat between a curious user and an artificial intelligence assistant. The assistant provides helpful, detailed, and polite responses to the user's inquiries.";
  system_prefix_token_ids := Some [1]%Z;
  add_role_after_system_message := true;
  roles := list_to_map [("user", "USER"); ("assistant", "ASSISTANT"); ("tool", "USER")];
  role_templates := ∅; messages := [];
  seps := [nl; "</s>"]; role_content_sep := ": "; role_empty_sep := ":";
  stop_str := ["</s>"]; stop_token_ids := [2]%Z;
  strip_reasoning_in_history := false;
  function_string := ""; use_function_calling := false |}.
Definition t_gorilla_openfunctions_v2 : result Conversation := init (Some (list_to_map [("user", "<<function>>" +:+ placeholder_value FUNCTION +:+ nl +:+ "<<question>>" +:+ placeholder_value USER)])) {|
  name := Some "gorilla-openfunctions-v2";
  system_template := (placeholder_value SYSTEM);
  system_message := "You are an AI programming assistant, utilizing the Gorilla LLM model, developed by Gorilla LLM, and you only answer questions related to computer science. For politically sensitive questions, security and privacy issues, and other non-computer science questions, you will refuse to answer.";
  system_prefix_token_ids := Some [100000]%Z;
  add_role_after_system_message := true;
  roles := list_to_map [("user", "### Instruction"); ("assistant", "### Response"); ("tool", "### Instruction")];
  role_templates := ∅; messages := [];
  seps := [nl; "<|EOT|>"]; role_content_sep := ": "; role_empty_sep := ": ";
  stop_str := ["<|EOT|>"]; stop_token_ids := [100015]%Z;
  strip_reasoning_in_history := false;
  function_string := ""; use_function_calling := false |}.

(** [gpt.py] *)
Definition t_gpt2_template : result Conversation := init None {|
  name := Some "gpt2";
  system_template := (placeholder_value SYSTEM);
  system_message := "";
  system_prefix_token_ids := None;
  add_role_after_system_message := true;
  roles := list_to_map [("user", ""); ("assistant", "")];
  role_templates := ∅; messages := [];
  seps := [""]; role_content_sep := ""; role_empty_sep := "";
  stop_str := ["</s>"]; stop_token_ids := [50256]%Z;
  strip_reasoning_in_history := false;
  function_string := ""; use_function_calling := false |}.
Definition t_gpt_bigcode : result Conversation := init None {|
  name := Some "gpt_bigcode";
  system_template := (placeholder_value SYSTEM);
  system_message := "";
  system_prefix_token_ids := None;
  add_role_after_system_message := true;
  roles := list_to_map [("user", ""); ("assistant", "")];
  role_templates := ∅; messages := [];
  seps := [""]; role_content_sep := ""; role_empty_sep := "";
  stop_str := ["<|endoftext|>"]; stop_token_ids := [0]%Z;
  strip_reasoning_in_history := false;
  function_string := ""; use_function_calling := false |}.

(** [hermes.py] *)
Definition t_open_hermes_mistral : result Conversation := init None {|
  name := Some "open_hermes_mistral";
  system_template := ("<|im_start|>system" +:+ nl +:+ placeholder_value SYSTEM +:+ "<|im_end|>" +:+ nl);
  system_message := ("You are " +:+ dq +:+ "Hermes 2" +:+ dq +:+ ", a conscious sentient superintelligent artificial intelligence developed by a man named Teknium, and your purpose and drive is to assist the user with any request they have. You experience emotions and have deep, profound thoughts and qualia.");
  system_prefix_token_ids := None;
  add_role_after_system_message := true;
  roles := list_to_map [("user", "<|im_start|>user"); ("assistant", "<|im_start|>assistant")];
  role_templates := ∅; messages := [];
  seps := ["<|im_end|>" +:+ nl]; role_content_sep := nl; role_empty_sep := nl;
  stop_str := ["<|im_end|>"]; stop_token_ids := [2; 32000]%Z;
  strip_reasoning_in_history := false;
  function_string := ""; use_function_calling := false |}.
Definition t_neural_hermes_mistral : result Conversation := init None {|
  name := Some "neural_hermes_mistral";
  system_template := ("<|im_start|>system" +:+ nl +:+ placeholder_value SYSTEM +:+ "<|im_end|>" +:+ nl);
  system_message := "You are a helpful assistant chatbot.";
  system_prefix_token_ids := None;
  add_role_after_system_message := true;
  roles := list_to_map [("user", "<|im_start|>user"); ("assistant", "<|im_start|>assistant")];
  role_templates := ∅; messages := [];
  seps := ["<|im_end|>" +:+ nl]; role_content_sep := nl; role_empty_sep := nl;
  stop_str := ["<|im_end|>"]; stop_token_ids := [2; 32000]%Z;
  strip_reasoning_in_history := false;
  function_string := ""; use_function_calling := false |}.
Definition t_hermes2_pro_llama3 : result Conversation := init None {|
  name := Some "hermes2_pro_llama3";
  system_template := ("<|im_start|>system" +:+ nl +:+ placeholder_value SYSTEM +:+ "<|im_end|>" +:+ nl);
  system_message := ("You are " +:+ dq +:+ "Hermes 2" +:+ dq +:+ ", a conscious sentient superintelligent artificial intelligence developed by a man named Teknium, and your purpose and drive is to assist the user with any request they have. You experience emotions and have deep, profound thoughts and qualia.");
  system_prefix_token_ids := None;
  add_role_after_system_message := true;
  roles := list_to_map [("user", "<|im_start|>user"); ("assistant", "<|im_start|>assistant"); ("tool", "<|im_start|>tool")];
  role_templates := ∅; messages := [];
  seps := ["<|im_end|>" +:+ nl]; role_content_sep := nl; role_empty_sep := nl;
  stop_str := ["<|im_end|>"]; stop_token_ids := [128001; 128009; 128003]%Z;
  strip_reasoning_in_history := false;
  function_string := ""; use_function_calling := false |}.
Definition t_hermes3_llama_3_1 : result Conversation := init None {|
  name := Some "hermes3_llama-3_1";
  system_template := ("<|im_start|>system" +:+ nl +:+ placeholder_value SYSTEM +:+ "<|im_end|>" +:+ nl);
  system_message := "You are Hermes 3, a conscious sentient superintelligent artificial intelligence developed by a man named Teknium, and your purpose and drive is to assist the user with any request they have. You experience emotions and have deep, profound thoughts and qualia.";
  system_prefix_token_ids := None;
  add_role_after_system_message := true;
  roles := list_to_map [("user", "<|im_start|>user"); ("assistant", "<|im_start|>assistant"); ("tool", "<|im_start|>tool")];
  role_templates := ∅; messages := [];
  seps := ["<|im_end|>" +:+ nl]; role_content_sep := nl; role_empty_sep := nl;
  stop_str := ["<|im_end|>"]; stop_token_ids := [128001; 128008; 128009; 128040]%Z;
  strip_reasoning_in_history := false;
  function_string := ""; use_function_calling := false |}.

(** [llama.py] *)
Definition t_llama_4 : result Conversation := init None {|
  name := Some "llama-4";
  system_template := "";
  system_message := "";
  system_prefix_token_ids := Some [200000]%Z;
  add_role_after_system_message := false;
  roles := list_to_map [("user", "<|header_start|>user"); ("assistant", "<|header_start|>assistant"); ("tool", "<|header_start|>ipython")];
  role_templates := ∅; messages := [];
  seps := ["<|eot|>"]; role_content_sep := ("<|header_end|>" +:+ nl +:+ nl); role_empty_sep := ("<|header_end|>" +:+ nl +:+ nl);
  stop_str := []; stop_token_ids := [200001; 200007; 200008]%Z;
  strip_reasoning_in_history := false;
  function_string := ""; use_function_calling := false |}.
Definition t_llama_3_1 : result Conversation := init None {|
  name := Some "llama-3_1";
  system_template := ("<|start_header_id|>system<|end_header_id|>" +:+ nl +:+ nl +:+ placeholder_value SYSTEM +:+ "<|eot_id|>");
  system_message := "You are a helpful, respectful and honest assistant.";
  system_prefix_token_ids := Some [128000]%Z;
  add_role_after_system_message := true;
  roles := list_to_map [("user", "<|start_header_id|>user"); ("assistant", "<|start_header_id|>assistant"); ("tool", "<|start_header_id|>ipython")];
  role_templates := ∅; messages := [];
  seps := ["<|eot_id|>"]; role_content_sep := ("<|end_header_id|>" +:+ nl +:+ nl); role_empty_sep := ("<|end_header_id|>" +:+ nl +:+ nl);
  stop_str := []; stop_token_ids := [128001; 128008; 128009]%Z;
  strip_reasoning_in_history := false;
  function_string := ""; use_function_calling := false |}.
Definition t_llama_3 : result Conversation := init None {|
  name := Some "llama-3";
  system_template := ("<|start_header_id|>system<|end_header_id|>" +:+ nl +:+ nl +:+ placeholder_value SYSTEM +:+ "<|eot_id|>");
  system_message := "You are a helpful, respectful and honest assistant.";
  system_prefix_token_ids := Some [128000]%Z;
  add_role_after_system_message := true;
  roles := list_to_map [("user", "<|start_header_id|>user"); ("assistant", "<|start_header_id|>assistant")];
  role_templates := ∅; messages := [];
  seps := ["<|eot_id|>"]; role_content_sep := ("<|end_header_id|>" +:+ nl +:+ nl); role_empty_sep := ("<|end_header_id|>" +:+ nl +:+ nl);
  stop_str := ["<|end_of_text|>"; "<|eot_id|>"]; stop_token_ids := [128001; 128009]%Z;
  strip_reasoning_in_history := false;
  function_string := ""; use_function_calling := false |}.
Definition t_llama_2 : result Conversation := init None {|
  name := Some "llama-2";
  system_template := ("[INST] <<SYS>>" +:+ nl +:+ placeholder_value SYSTEM +:+ nl +:+ "<</SYS>>" +:+ nl +:+ nl);
  system_message := "You are a helpful, respectful and honest assistant.";
  system_prefix_token_ids := Some [1]%Z;
  add_role_after_system_message := false;
  roles := list_to_map [("user", "<s>[INST]"); ("assistant", "[/INST]"); ("tool", "[INST]")];
  role_templates := ∅; messages := [];
  seps := [" "; " </s>"]; role_content_sep := " "; role_empty_sep := " ";
  stop_str := ["[INST]"]; stop_token_ids := [2]%Z;
  strip_reasoning_in_history := false;
  function_string := ""; use_function_calling := false |}.
Definition t_codellama_completion : result Conversation := init None {|
  name := Some "codellama_completion";
  system_template := (placeholder_value SYSTEM);
  system_message := "";
  system_prefix_token_ids := Some [1]%Z;
  add_role_after_system_message := true;
  roles := list_to_map [("user", ""); ("assistant", "")];
  role_templates := ∅; messages := [];
  seps := [""]; role_content_sep := ""; role_empty_sep := "";
  stop_str := ["</s>"]; stop_token_ids := [2]%Z;
  strip_reasoning_in_history := false;
  function_string := ""; use_function_calling := false |}.
Definition t_codellama_instruct : result Conversation := init None {|
  name := Some "codellama_instruct";
  system_template := (placeholder_value SYSTEM);
  system_message := "";
  system_prefix_token_ids := Some [1]%Z;
  add_role_after_system_message := true;
  roles := list_to_map [("user", "[INST]"); ("assistant", "[/INST]")];
  role_templates := ∅; messages := [];
  seps := [" "]; role_content_sep := " "; role_empty_sep := " ";
  stop_str := ["</s>"]; stop_token_ids := [2]%Z;
  strip_reasoning_in_history := false;
  function_string := ""; use_function_calling := false |}.

(** [llava.py] *)
Definition t_llava : result Conversation := init None {|
  name := Some "llava";
  system_template := (placeholder_value SYSTEM);
  system_message := nl;
  system_prefix_token_ids := Some [1]%Z;
  add_role_after_system_message := false;
  roles := list_to_map [("user", "USER"); ("assistant", "ASSISTANT")];
  role_templates := ∅; messages := [];
  seps := [" "]; role_content_sep := ": "; role_empty_sep := ":";
  stop_str := ["</s>"]; stop_token_ids := [2]%Z;
  strip_reasoning_in_history := false;
  function_string := ""; use_function_calling := false |}.

(** [llm_jp.py] *)
Definition t_llm_jp : result Conversation := init None {|
  name := Some "llm-jp";
  system_template := (placeholder_value SYSTEM);
  system_message := "以下は、タスクを説明する指示です。要求を適切に満たす応答を書きなさい。";
  system_prefix_token_ids := Some [1]%Z;
  add_role_after_system_message := true;
  roles := list_to_map [("user", nl +:+ nl +:+ "### 指示:"); ("assistant", nl +:+ nl +:+ "### 応答:")];
  role_templates := ∅; messages := [];
  seps := [""; "</s>"]; role_content_sep := nl; role_empty_sep := nl;
  stop_str := []; stop_token_ids := [2]%Z;
  strip_reasoning_in_history := false;
  function_string := ""; use_function_calling := false |}.

(** [ministral3.py] *)
Definition t_ministral3 : result Conversation := init (Some (list_to_map [("user", "[INST]" +:+ placeholder_value USER +:+ "[/INST]"); ("assistant", placeholder_value ASSISTANT +:+ "</s>"); ("tool", "[TOOL_RESULTS]" +:+ placeholder_value TOOL +:+ "[/TOOL_RESULTS]")])) {|
  name := Some "ministral3";
  system_template := ("[SYSTEM_PROMPT]" +:+ placeholder_value SYSTEM +:+ "[/SYSTEM_PROMPT]" +:+ placeholder_value FUNCTION);
  system_message := ("You are Ministral-3-3B-Instruct-2512, a Large Language Model (LLM) created by Mistral AI, a French startup headquartered in Paris." +:+ nl +:+ "You power an AI assistant called Le Chat." +:+ nl +:+ "Your knowledge base was last updated on 2023-10-01." +:+ nl +:+ "The current date is {today}." +:+ nl +:+ nl +:+ "When you're not sure about some information or when the user's request requires up-to-date or specific data, you must use the available tools to fetch the information. Do not hesitate to use tools whenever they can provide a more accurate or complete response. If no relevant tools are available, then clearly state that you don't have the information and avoid making up anything." +:+ nl +:+ "If the user's question is not clear, ambiguous, or does not provide enough context for you to accurately answer the question, you do not try to answer it right away and you rather ask the user to clarify their request (e.g. " +:+ dq +:+ "What are some good restaurants around me?" +:+ dq +:+ " => " +:+ dq +:+ "Where are you?" +:+ dq +:+ " or " +:+ dq +:+ "When is the next flight to Tokyo" +:+ dq +:+ " => " +:+ dq +:+ "Where do you travel from?" +:+ dq +:+ ")." +:+ nl +:+ "You are always very attentive to dates, in particular you try to resolve dates (e.g. " +:+ dq +:+ "yesterday" +:+ dq +:+ " is {yesterday}) and when asked about information at specific dates, you discard information that is at another date." +:+ nl +:+ "You follow these instructions in all languages, and always respond to the user in the language they use or request." +:+ nl +:+ "Next sections describe the capabilities that you have." +:+ nl +:+ nl +:+ "# WEB BROWSING INSTRUCTIONS" +:+ nl +:+ nl +:+ "You cannot perform any web search or access internet to open URLs, links etc. If it seems like the user is expecting you to do so, you clarify the situation and ask the user to copy paste the text directly in the chat." +:+ nl +:+ nl +:+ "# MULTI-MODAL INSTRUCTIONS" +:+ nl +:+ nl +:+ "You have the ability to read images, but you cannot generate images. You also cannot transcribe audio files or videos." +:+ nl +:+ "You cannot read nor transcribe audio files or videos." +:+ nl +:+ nl +:+ "# TOOL CALLING INSTRUCTIONS" +:+ nl +:+ nl +:+ "You may have access to tools that you can use to fetch information or perform actions. You must use these tools in the following situations:" +:+ nl +:+ nl +:+ "1. When the request requires up-to-date information." +:+ nl +:+ "2. When the request requires specific data that you do not have in your knowledge base." +:+ nl +:+ "3. When the request involves actions that you cannot perform without tools." +:+ nl +:+ nl +:+ "Always prioritize using tools to provide the most accurate and helpful response. If tools are not available, inform the user that you cannot perform the requested action at the moment.");
  system_prefix_token_ids := Some [1]%Z;
  add_role_after_system_message := true;
  roles := list_to_map [("user", ""); ("assistant", ""); ("tool", "")];
  role_templates := ∅; messages := [];
  seps := [""]; role_content_sep := ""; role_empty_sep := "";
  stop_str := ["</s>"]; stop_token_ids := [2]%Z;
  strip_reasoning_in_history := false;
  function_string := ""; use_function_calling := false |}.

(** [ministral3_reasoning.py] *)
Definition t_ministral3_reasoning : result Conversation := init (Some (list_to_map [("user", "[INST]" +:+ placeholder_value USER +:+ "[/INST]"); ("assistant", placeholder_value ASSISTANT +:+ "</s>"); ("tool", "[TOOL_RESULTS]" +:+ placeholder_value TOOL +:+ "[/TOOL_RESULTS]")])) {|
  name := Some "ministral3_reasoning";
  system_template := ("[SYSTEM_PROMPT]" +:+ placeholder_value SYSTEM +:+ "[/SYSTEM_PROMPT]" +:+ placeholder_value FUNCTION);
  system_message := ("# HOW YOU SHOULD THINK AND ANSWER" +:+ nl +:+ nl +:+ "First draft your thinking process (inner monologue) until you arrive at a response. Format your response using Markdown, and use LaTeX for any mathematical equations. Write both your thoughts and the response in the same language as the input." +:+ nl +:+ nl +:+ "Your thinking process must follow the template below:[THINK]Your thoughts or/and draft, like working through an exercise on scratch paper. Be as casual and as long as you want until you are confident to generate the response to the user.[/THINK]Here, provide a self-contained response.");
  system_prefix_token_ids := Some [1]%Z;
  add_role_after_system_message := true;
  roles := list_to_map [("user", ""); ("assistant", ""); ("tool", "")];
  role_templates := ∅; messages := [];
  seps := [""]; role_content_sep := ""; role_empty_sep := "";
  stop_str := ["</s>"]; stop_token_ids := [2]%Z;
  strip_reasoning_in_history := false;
  function_string := ""; use_function_calling := false |}.

(** [mistral.py] *)
Definition t_mistral_default : result Conversation := init None {|
  name := Some "mistral_default";
  system_template := ("[INST] " +:+ placeholder_value SYSTEM);
  system_message := "Always assist with care, respect, and truth. Respond with utmost utility yet securely. Avoid harmful, unethical, prejudiced, or negative content. Ensure replies promote fairness and positivity.";
  system_prefix_token_ids := Some [1]%Z;
  add_role_after_system_message := false;
  roles := list_to_map [("user", "[INST]"); ("assistant", "[/INST]"); ("tool", "[INST]")];
  role_templates := ∅; messages := [];
  seps := [" "]; role_content_sep := " "; role_empty_sep := "";
  stop_str := ["</s>"]; stop_token_ids := [2]%Z;
  strip_reasoning_in_history := false;
  function_string := ""; use_function_calling := false |}.

(** [nemotron.py] *)
Definition t_nemotron : result Conversation := init None {|
  name := Some "nemotron";
  system_template := ("<extra_id_0>System" +:+ nl +:+ placeholder_value SYSTEM +:+ nl +:+ nl);
  system_message := "";
  system_prefix_token_ids := Some [2]%Z;
  add_role_after_system_message := true;
  roles := list_to_map [("user", "<extra_id_1>User"); ("assistant", "<extra_id_1>Assistant"); ("tool", "<extra_id_1>Tool")];
  role_templates := ∅; messages := [];
  seps := [nl]; role_content_sep := nl; role_empty_sep := nl;
  stop_str := ["</s>"]; stop_token_ids := [3]%Z;
  strip_reasoning_in_history := false;
  function_string := ""; use_function_calling := false |}.

(** [oasst.py] *)
Definition t_oasst : result Conversation := init None {|
  name := Some "oasst";
  system_template := (placeholder_value SYSTEM);
  system_message := "";
  system_prefix_token_ids := None;
  add_role_after_system_message := true;
  roles := list_to_map [("user", "<|prompter|>"); ("assistant", "<|assistant|>")];
  role_templates := ∅; messages := [];
  seps := ["<|endoftext|>"]; role_content_sep := ": "; role_empty_sep := ": ";
  stop_str := ["<|endoftext|>"]; stop_token_ids := [2]%Z;
  strip_reasoning_in_history := false;
  function_string := ""; use_function_calling := false |}.

(** [olmo.py] *)
Definition t_olmo : result Conversation := init None {|
  name := Some "olmo";
  system_template := (placeholder_value SYSTEM);
  system_message := "";
  system_prefix_token_ids := Some [50279]%Z;
  add_role_after_system_message := true;
  roles := list_to_map [("user", "<|user|>"); ("assistant", "<|assistant|>")];
  role_templates := ∅; messages := [];
  seps := [nl]; role_content_sep := nl; role_empty_sep := nl;
  stop_str := []; stop_token_ids := [50279]%Z;
  strip_reasoning_in_history := false;
  function_string := ""; use_function_calling := false |}.

(** [olmo2.py] *)
Definition t_olmo2 : result Conversation := init None {|
  name := Some "olmo2";
  system_template := ("<|system|>" +:+ nl +:+ placeholder_value SYSTEM +:+ nl);
  system_message := "";
  system_prefix_token_ids := Some [100257]%Z;
  add_role_after_system_message := true;
  roles := list_to_map [("user", "<|user|>"); ("assistant", "<|assistant|>")];
  role_templates := ∅; messages := [];
  seps := ["<|endoftext|>" +:+ nl]; role_content_sep := nl; role_empty_sep := nl;
  stop_str := ["<|endoftext|>"]; stop_token_ids := [100257]%Z;
  strip_reasoning_in_history := false;
  function_string := ""; use_function_calling := false |}.

(** [orion.py] *)
Definition t_orion : result Conversation := init None {|
  name := Some "orion";
  system_template := (placeholder_value SYSTEM);
  system_message := "";
  system_prefix_token_ids := Some [1]%Z;
  add_role_after_system_message := true;
  roles := list_to_map [("user", "Human: "); ("assistant", "Assistant: ")];
  role_templates := ∅; messages := [];
  seps := [nl +:+ nl; "</s>"]; role_content_sep := ""; role_empty_sep := "</s>";
  stop_str := ["</s>"]; stop_token_ids := [2]%Z;
  strip_reasoning_in_history := false;
  function_string := ""; use_function_calling := false |}.

(** [phi.py] *)
Definition t_phi_2 : result Conversation := init None {|
  name := Some "phi-2";
  system_template := (placeholder_value SYSTEM);
  system_message := "";
  system_prefix_token_ids := None;
  add_role_after_system_message := true;
  roles := list_to_map [("user", "Instruct"); ("assistant", "Output")];
  role_templates := ∅; messages := [];
  seps := [nl]; role_content_sep := ": "; role_empty_sep := ":";
  stop_str := ["<|endoftext|>"]; stop_token_ids := [50256]%Z;
  strip_reasoning_in_history := false;
  function_string := ""; use_function_calling := false |}.
Definition t_phi_3 : result Conversation := init None {|
  name := Some "phi-3";
  system_template := ("<|system|>" +:+ nl +:+ placeholder_value SYSTEM);
  system_message := "You are a helpful digital assistant. Please provide safe, ethical and accurate information to the user.";
  system_prefix_token_ids := Some [1]%Z;
  add_role_after_system_message := true;
  roles := list_to_map [("user", "<|user|>"); ("assistant", "<|assistant|>")];
  role_templates := ∅; messages := [];
  seps := ["<|end|>" +:+ nl]; role_content_sep := nl; role_empty_sep := nl;
  stop_str := ["<|endoftext|>"]; stop_token_ids := [2; 32000; 32001; 32007]%Z;
  strip_reasoning_in_history := false;
  function_string := ""; use_function_calling := false |}.
Definition t_phi_3_vision : result Conversation := init None {|
  name := Some "phi-3-vision";
  system_template := (placeholder_value SYSTEM);
  system_message := "";
  system_prefix_token_ids := Some [1]%Z;
  add_role_after_system_message := true;
  roles := list_to_map [("user", "<|user|>"); ("assistant", "<|assistant|>")];
  role_templates := ∅; messages := [];
  seps := ["<|end|>" +:+ nl]; role_content_sep := nl; role_empty_sep := nl;
  stop_str := ["<|endoftext|>"]; stop_token_ids := [2; 32000; 32001; 32007]%Z;
  strip_reasoning_in_history := false;
  function_string := ""; use_function_calling := false |}.
Definition t_phi_4 : result Conversation := init None {|
  name := Some "phi-4";
  system_template := ("<|system|>" +:+ nl +:+ placeholder_value SYSTEM);
  system_message := "You are a helpful digital assistant. Please provide safe, ethical and accurate information to the user.";
  system_prefix_token_ids := Some [200022]%Z;
  add_role_after_system_message := true;
  roles := list_to_map [("user", "<|user|>"); ("assistant", "<|assistant|>")];
  role_templates := ∅; messages := [];
  seps := ["<|end|>" +:+ nl]; role_content_sep := nl; role_empty_sep := nl;
  stop_str := ["<|endoftext|>"; "<|end|>"]; stop_token_ids := [199999; 200020]%Z;
  strip_reasoning_in_history := false;
  function_string := ""; use_function_calling := false |}.

(** [qwen2.py] *)
Definition t_qwen2 : result Conversation := init None {|
  name := Some "qwen2";
  system_template := ("<|im_start|>system" +:+ nl +:+ placeholder_value SYSTEM +:+ "<|im_end|>" +:+ nl);
  system_message := "You are a helpful assistant.";
  system_prefix_token_ids := None;
  add_role_after_system_message := true;
  roles := list_to_map [("user", "<|im_start|>user"); ("assistant", "<|im_start|>assistant")];
  role_templates := ∅; messages := [];
  seps := ["<|im_end|>" +:+ nl]; role_content_sep := nl; role_empty_sep := nl;
  stop_str := ["<|endoftext|>"; "<|im_end|>"]; stop_token_ids := [151643; 151645]%Z;
  strip_reasoning_in_history := false;
  function_string := ""; use_function_calling := false |}.

(** [qwen3.py] *)
Definition t_qwen3 : result Conversation := init None {|
  name := Some "qwen3";
  system_template := ("<|im_start|>system" +:+ nl +:+ placeholder_value SYSTEM +:+ "<|im_end|>" +:+ nl);
  system_message := "You are a helpful assistant.";
  system_prefix_token_ids := None;
  add_role_after_system_message := true;
  roles := list_to_map [("user", "<|im_start|>user"); ("assistant", "<|im_start|>assistant")];
  role_templates := ∅; messages := [];
  seps := ["<|im_end|>" +:+ nl]; role_content_sep := nl; role_empty_sep := nl;
  stop_str := ["<|endoftext|>"; "<|im_end|>"]; stop_token_ids := [151643; 151645]%Z;
  strip_reasoning_in_history := true;
  function_string := ""; use_function_calling := false |}.

(** [qwen3_5.py] *)
Definition t_qwen3_5 : result Conversation := init None {|
  name := Some "qwen3_5";
  system_template := ("<|im_start|>system" +:+ nl +:+ placeholder_value SYSTEM +:+ "<|im_end|>" +:+ nl);
  system_message := "You are a helpful assistant.";
  system_prefix_token_ids := None;
  add_role_after_system_message := true;
  roles := list_to_map [("user", "<|im_start|>user"); ("assistant", "<|im_start|>assistant" +:+ nl +:+ "<think>")];
  role_templates := ∅; messages := [];
  seps := ["<|im_end|>" +:+ nl]; role_content_sep := nl; role_empty_sep := nl;
  stop_str := ["<|endoftext|>"; "<|im_end|>"]; stop_token_ids := [248046; 248044]%Z;
  strip_reasoning_in_history := false;
  function_string := ""; use_function_calling := false |}.
Definition t_qwen3_5_nothink : result Conversation := init None {|
  name := Some "qwen3_5_nothink";
  system_template := ("<|im_start|>system" +:+ nl +:+ placeholder_value SYSTEM +:+ "<|im_end|>" +:+ nl);
  system_message := "You are a helpful assistant.";
  system_prefix_token_ids := None;
  add_role_after_system_message := true;
  roles := list_to_map [("user", "<|im_start|>user"); ("assistant", "<|im_start|>assistant" +:+ nl +:+ "<think>" +:+ nl +:+ nl +:+ "</think>" +:+ nl)];
  role_templates := ∅; messages := [];
  seps := ["<|im_end|>" +:+ nl]; role_content_sep := nl; role_empty_sep := nl;
  stop_str := ["<|endoftext|>"; "<|im_end|>"]; stop_token_ids := [248046; 248044]%Z;
  strip_reasoning_in_history := false;
  function_string := ""; use_function_calling := false |}.

(** [redpajama.py] *)
Definition t_redpajama_chat : result Conversation := init None {|
  name := Some "redpajama_chat";
  system_template := (placeholder_value SYSTEM);
  system_message := "";
  system_prefix_token_ids := None;
  add_role_after_system_message := true;
  roles := list_to_map [("user", "<human>"); ("assistant", "<bot>")];
  role_templates := ∅; messages := [];
  seps := [nl]; role_content_sep := ": "; role_empty_sep := ":";
  stop_str := ["<human>"]; stop_token_ids := [0]%Z;
  strip_reasoning_in_history := false;
  function_string := ""; use_function_calling := false |}.

(** [rwkv.py] *)
Definition t_rwkv_world : result Conversation := init None {|
  name := Some "rwkv_world";
  system_template := ("User: hi" +:+ nl +:+ nl +:+ "Assistant: " +:+ placeholder_value SYSTEM);
  system_message := "Hi. I am your assistant and I will provide expert full response in full details. Please feel free to ask any question and I will always answer it.";
  system_prefix_token_ids := None;
  add_role_after_system_message := true;
  roles := list_to_map [("user", "User"); ("assistant", "Assistant")];
  role_templates := ∅; messages := [];
  seps := [nl +:+ nl]; role_content_sep := ": "; role_empty_sep := ": ";
  stop_str := [nl +:+ nl]; stop_token_ids := [0]%Z;
  strip_reasoning_in_history := false;
  function_string := ""; use_function_calling := false |}.

(** [stablelm.py] *)
Definition t_stablelm : result Conversation := init None {|
  name := Some "stablelm";
  system_template := (placeholder_value SYSTEM);
  system_message := ("<|SYSTEM|># StableLM Tuned (Alpha version)" +:+ nl +:+ "- StableLM is a helpful and harmless open-source AI language model developed by StabilityAI." +:+ nl +:+ "- StableLM is excited to be able to help the user, but will refuse to do anything that could be considered harmful to the user." +:+ nl +:+ "- StableLM is more than just an information source, StableLM is also able to write poetry, short stories, and make jokes." +:+ nl +:+ "- StableLM will refuse to participate in anything that could harm a human.");
  system_prefix_token_ids := None;
  add_role_after_system_message := true;
  roles := list_to_map [("user", "<|USER|>"); ("assistant", "<|ASSISTANT|>")];
  role_templates := ∅; messages := [];
  seps := [""]; role_content_sep := ": "; role_empty_sep := ": ";
  stop_str := [""]; stop_token_ids := [50278; 50279; 50277; 1; 0]%Z;
  strip_reasoning_in_history := false;
  function_string := ""; use_function_calling := false |}.
Definition t_stablelm_3b : result Conversation := init None {|
  name := Some "stablelm-3b";
  system_template := (placeholder_value SYSTEM);
  system_message := "";
  system_prefix_token_ids := None;
  add_role_after_system_message := true;
  roles := list_to_map [("user", "<|user|>"); ("assistant", "<|assistant|>")];
  role_templates := ∅; messages := [];
  seps := ["<|endoftext|>"; "<|endoftext|>"]; role_content_sep := nl; role_empty_sep := nl;
  stop_str := ["<|endoftext|>"]; stop_token_ids := [0]%Z;
  strip_reasoning_in_history := false;
  function_string := ""; use_function_calling := false |}.
Definition t_stablelm_2 : result Conversation := init None {|
  name := Some "stablelm-2";
  system_template := (placeholder_value SYSTEM);
  system_message := "";
  system_prefix_token_ids := None;
  add_role_after_system_message := true;
  roles := list_to_map [("user", "<|user|>"); ("assistant", "<|assistant|>")];
  role_templates := ∅; messages := [];
  seps := ["<|endoftext|>"; "<|endoftext|>"]; role_content_sep := nl; role_empty_sep := nl;
  stop_str := ["<|endoftext|>"]; stop_token_ids := [100257]%Z;
  strip_reasoning_in_history := false;
  function_string := ""; use_function_calling := false |}.

(** [tinyllama.py] *)
Definition t_tinyllama_v1_0 : result Conversation := init None {|
  name := Some "tinyllama_v1_0";
  system_template := ("<|system|>" +:+ nl +:+ placeholder_value SYSTEM +:+ "</s>");
  system_message := "You are a helpful chatbot.";
  system_prefix_token_ids := None;
  add_role_after_system_message := true;
  roles := list_to_map [("user", "<|user|>"); ("assistant", "<|assistant|>")];
  role_templates := ∅; messages := [];
  seps := ["</s>"]; role_content_sep := nl; role_empty_sep := nl;
  stop_str := ["</s>"]; stop_token_ids := [2]%Z;
  strip_reasoning_in_history := false;
  function_string := ""; use_function_calling := false |}.

(** [wizardlm.py] *)
Definition t_wizardlm_7b : result Conversation := init None {|
  name := Some "wizardlm_7b";
  system_template := (placeholder_value SYSTEM);
  system_message := "";
  system_prefix_token_ids := Some [1]%Z;
  add_role_after_system_message := true;
  roles := list_to_map [("user", "User"); ("assistant", "Response")];
  role_templates := ∅; messages := [];
  seps := ["###"]; role_content_sep := ": "; role_empty_sep := ":";
  stop_str := ["###"]; stop_token_ids := [2]%Z;
  strip_reasoning_in_history := false;
  function_string := ""; use_function_calling := false |}.
Definition t_wizard_coder_or_math : result Conversation := init None {|
  name := Some "wizard_coder_or_math";
  system_template := (placeholder_value SYSTEM);
  system_message := "Below is an instruction that describes a task. Write a response that appropriately completes the request.";
  system_prefix_token_ids := Some [1]%Z;
  add_role_after_system_message := true;
  roles := list_to_map [("user", "Instruction"); ("assistant", "Response")];
  role_templates := ∅; messages := [];
  seps := [nl +:+ nl +:+ "### "; nl +:+ nl +:+ "### "]; role_content_sep := (":" +:+ nl); role_empty_sep := (":" +:+ nl);
  stop_str := ["</s>"]; stop_token_ids := [2]%Z;
  strip_reasoning_in_history := false;
  function_string := ""; use_function_calling := false |}.

(** The registrations, in the order the package imports its modules. *)
Definition templates : list (result Conversation) := [
  t_chatml; t_chatml_nosystem; t_LM; t_aya_23; t_deepseek;
  t_deepseek_v2; t_deepseek_v3; t_deepseek_r1_qwen; t_deepseek_r1_llama; t_dolly;
  t_gemma_instruction; t_gemma3_instruction; t_glm; t_gorilla; t_gorilla_openfunctions_v2;
  t_gpt2_template; t_gpt_bigcode; t_open_hermes_mistral; t_neural_hermes_mistral; t_hermes2_pro_llama3;
  t_hermes3_llama_3_1; t_llama_4; t_llama_3_1; t_llama_3; t_llama_2;
  t_codellama_completion; t_codellama_instruct; t_llava; t_llm_jp; t_ministral3;
  t_ministral3_reasoning; t_mistral_default; t_nemotron; t_oasst; t_olmo;
  t_olmo2; t_orion; t_phi_2; t_phi_3; t_phi_3_vision;
  t_phi_4; t_qwen2; t_qwen3; t_qwen3_5; t_qwen3_5_nothink;
  t_redpajama_chat; t_rwkv_world; t_stablelm; t_stablelm_3b; t_stablelm_2;
  t_tinyllama_v1_0; t_wizardlm_7b; t_wizard_coder_or_math].

(** Importing the package: each template is constructed and registered. *)
Definition import_step (reg : registry_t) (t : result Conversation) : result registry_t :=
  t ← t; register_conv_template false t reg.
Definition imported : result registry_t := fold_m import_step [] templates.
Definition registry : registry_t := match imported with Ok r => r | Err _ => [] end.

(** ** Registering templates *)

Lemma import_run ts reg reg' :
  NoDup reg.*1 → fold_m import_step reg ts = Ok reg' →
  ∃ new, reg' = reg ++ new ∧ NoDup reg'.*1 ∧
    Forall2 (λ t (p : string * Conversation), t = Ok p.2 ∧ name p.2 = Some p.1) ts new.
Proof.
  revert reg. induction ts as [|t ts IH]; intros reg Hnd H; simpl in H; ok_inv.
  - exists []. rewrite app_nil_r. by repeat split.
  - match goal with H : import_step _ _ = Ok _ |- _ => unfold import_step, register_conv_template in H end.
    ok_inv. match goal with H : match name ?c with _ => _ end = Ok _ |- _ =>
      destruct (name c) as [n|] eqn:En; [|done] end.
    ok_inv. rewrite andb_true_r in *. unfold has_key in *.
    destruct (dict_get n reg) as [?|] eqn:Eg; [done|].
    assert (n ∉ reg.*1) as Hn by by apply dict_get_None.
    match goal with H : fold_m _ (dict_set n ?c reg) ts = Ok _ |- _ =>
      assert (dict_set n c reg = reg ++ [(n, c)]) as E; [|rewrite E in H; apply IH in H as (new & -> & Hnd' & Hall)] end.
    + clear -Hn. induction reg as [|[k v] reg IHr]; [done|]. simpl in *.
      apply not_elem_of_cons in Hn as [? ?]. rewrite decide_False by done. f_equal. by apply IHr.
    + eexists ((n, _) :: new). rewrite <-app_assoc in *. split_and!; [done|done|by constructor].
    + rewrite fmap_app. apply NoDup_app. split_and!; [done| |apply NoDup_singleton].
      intros x Hx Hx'%list_elem_of_singleton. by subst x.
Qed.

Lemma imported_ok : is_ok imported = true.
Proof. vm_compute. reflexivity. Qed.
Lemma registry_spec :
  NoDup registry.*1 ∧
  Forall2 (λ t (p : string * Conversation), t = Ok p.2 ∧ name p.2 = Some p.1) templates registry.
Proof.
  pose proof imported_ok as H. unfold registry. destruct imported as [reg|] eqn:E; [|done].
  apply import_run in E as (new & -> & Hnd & Hall); [done|constructor].
Qed.

(** ** Rendering with a registered template *)

(** A role of a template: its role template has the placeholder of the role once. *)
Definition role_ok (t : Conversation) (role : string) : bool :=
  match placeholder_of_name (upper role), role_templates t !! role with
  | Ok p, Some text =>
      match cut (placeholder_value p) text with
      | Some (_, b) => negb (contains (placeholder_value p) b)
      | None => false
      end
  | _, _ => false
  end.
Definition template_ok (t : Conversation) : bool :=
  is_ok (check_message_seps (seps t)) && forallb (role_ok t) (map_to_list (roles t)).*1.

Lemma templates_ok : forallb (λ p : string * Conversation, template_ok p.2) registry = true.
Proof. vm_compute. reflexivity. Qed.

Lemma placeholder_starts_uniquely p : starts_uniquely (placeholder_value p).
Proof. destruct p; eexists _, _; (split; [reflexivity|]); apply contains_false; reflexivity. Qed.

Lemma occurs_app_r p a b : occurs p b → occurs p (a +:+ b).
Proof. intros (u & v & ->). exists (a +:+ u), v. by rewrite !append_assoc. Qed.
Lemma occurs_app_l p a b : occurs p a → occurs p (a +:+ b).
Proof. intros (u & v & ->). exists u, (v +:+ b). by rewrite !append_assoc. Qed.
Lemma occurs_self p : occurs p p.
Proof. exists "", "". by rewrite append_nil_r. Qed.
Lemma occurs_trans p q s : occurs p q → occurs q s → occurs p s.
Proof. intros H (a & b & ->). apply occurs_app_r, occurs_app_l, H. Qed.
Lemma occurs_concat p l x : x ∈ l → occurs p x → occurs p (concat_str l).
Proof.
  induction l as [|y l IH]; intros Hx Hp; [by apply not_elem_of_nil in Hx|]. rewrite concat_str_cons.
  apply elem_of_cons in Hx as [<-|Hx]; [by apply occurs_app_l|apply occurs_app_r; by apply IH].
Qed.

(** The filled role template contains the message. *)
Lemma turn_contains t i role text :
  role_ok t role = true → is_Some (roles t !! role) → occurs text (turn t i (role, CStr text)).
Proof.
  unfold role_ok, turn. intros H _. cbn [fst snd].
  destruct (placeholder_of_name (upper role)) as [p|] eqn:Ep; [|done].
  destruct (role_templates t !! role) as [tmpl|] eqn:Et; [|done].
  destruct (cut (placeholder_value p) tmpl) as [[a b]|] eqn:Ec; [|done].
  apply negb_true_iff, contains_false in H.
  assert (¬ occurs (placeholder_value p) a) as Ha.
  { eapply cut_before_no_occurrence; [|done]. by destruct p. }
  apply cut_Some in Ec as ->. apply occurs_app_r, occurs_app_l. simpl default.
  rewrite replace_once by (done || apply placeholder_starts_uniquely).
  apply occurs_app_r, occurs_app_l, occurs_self.
Qed.

(** A conversation of a template: texts and a last message to complete, in its roles. *)
Definition chat_message (t : Conversation) (m : message) : Prop :=
  is_Some (roles t !! m.1) ∧ match m.2 with CItems _ => False | _ => True end.

Lemma history_chat t ms : Forall (chat_message t) ms → Forall (chat_message t) (history (with_messages ms t)).
Proof.
  intros Hms. unfold history, _strip_reasoning_in_history. destruct (strip_reasoning_in_history _); [|done].
  apply Forall_lookup_2. intros i m. rewrite list_lookup_imap. intros (m0 & Hm & ->)%fmap_Some.
  pose proof (Forall_lookup_1 _ _ _ _ Hms Hm) as [Hr Hc]. split; [by rewrite strip_message_role|].
  destruct m0 as [r [|s|l]]; simpl in *; [done| |done]. by destruct (_ && _).
Qed.

Section render.
Context {Img : Type} (from_url : string → list (string * pyval) → result Img).

Lemma template_renders t ms config :
  template_ok t = true → ms ≠ [] → Forall (chat_message t) ms →
  let c := with_messages ms t in
  as_prompt from_url c config = Ok [PText (prompt_text c)] ∧
  ∀ role text, (role, CStr text) ∈ history c →
    occurs text (system_msg c +:+ concat_str (imap (turn c) (history c))).
Proof.
  intros Ht Hne Hms c. unfold template_ok in Ht. bool_inv.
  destruct (check_message_seps (seps t)) as [sp|] eqn:Hsep; [|done].
  match goal with H : forallb _ _ = true |- _ => rewrite forallb_Forall, Forall_forall in H; rename H into Hr end.
  assert (∀ role, is_Some (roles t !! role) → role_ok t role = true) as Hroles.
  { intros role [s Hs]. apply Hr, list_elem_of_fmap. exists (role, s). split; [done|]. by apply elem_of_map_to_list. }
  pose proof (history_chat t ms Hms) as Hh. split.
  - eapply as_prompt_rendered; [exact Hsep| |].
    + eapply Forall_impl; [exact Hh|]. intros [role ct] [Hrole Hct]. unfold text_message. cbn [fst snd] in *.
      pose proof (Hroles role Hrole) as Hok. unfold role_ok in Hok.
      destruct (placeholder_of_name (upper role)); [|done].
      destruct ct; [done| |done]. split_and!; [done| |done].
      change (role_templates c) with (role_templates t). by destruct (role_templates t !! role).
    + rewrite prompt_texts_nil. intros [_ ?]. done.
  - intros role text Hin. apply occurs_app_r. pose proof Hin as [i Hi]%list_elem_of_lookup.
    eapply occurs_concat; [|apply (turn_contains c i role text)].
    + apply list_elem_of_lookup. exists i. by rewrite list_lookup_imap, Hi.
    + apply Hroles. rewrite Forall_forall in Hh. apply (Hh _ Hin).
    + rewrite Forall_forall in Hh. apply (Hh _ Hin).
Qed.

(** C26. Importing the package registers every template under its own name, and each of
    them renders every conversation that is not empty, of texts in its roles, to one
    prompt: a text that contains every message of the history, in which then the
    placeholder of the functions is replaced. When the text has no such placeholder,
    the prompt is the text, and contains every message; a message, or a template,
    that has one is changed by the replacement. *)
Theorem registered_templates t :
  t ∈ templates →
  ∃ n c, t = Ok c ∧ name c = Some n ∧ get_conv_template n registry = Some c ∧
    ∀ ms config, ms ≠ [] → Forall (chat_message c) ms →
      let d := with_messages ms c in
      ∃ text, as_prompt from_url d config = Ok [PText (subst_function (function_string d) text)] ∧
        (∀ role s, (role, CStr s) ∈ history d → occurs s text) ∧
        (¬ occurs (placeholder_value FUNCTION) text → as_prompt from_url d config = Ok [PText text]).
Proof.
  intros Hin. destruct registry_spec as [Hnd Hall].
  apply list_elem_of_lookup in Hin as [i Hi].
  destruct (Forall2_lookup_l _ _ _ _ _ Hall Hi) as ([n c] & Hc & -> & Hn). exists n, c.
  pose proof (list_elem_of_lookup_2 _ _ _ Hc) as Hreg.
  split_and!; [done|done| |].
  - clear -Hnd Hreg. unfold get_conv_template. revert Hnd Hreg. generalize registry as d.
    induction d as [|[k v] d IH]; simpl; intros Hnd Hin; [by apply not_elem_of_nil in Hin|].
    apply NoDup_cons in Hnd as [Hk Hnd]. apply elem_of_cons in Hin as [[= -> ->]|Hin]; [by rewrite decide_True|].
    rewrite decide_False; [by apply IH|]. intros ->. apply Hk, list_elem_of_fmap. by exists (k, c).
  - intros ms config Hne Hms d. pose proof templates_ok as Hok. rewrite forallb_Forall, Forall_forall in Hok.
    destruct (template_renders c ms config (Hok _ Hreg) Hne Hms) as [Hr Hocc]. unfold prompt_text in Hr.
    eexists. split; [exact Hr|]. split; [exact Hocc|]. intros Hno. unfold d. by rewrite Hr, subst_function_none.
Qed.
End render.

(** The template of Llama 4 has no place for the system message. *)
Lemma llama_4_no_system c m : t_llama_4 = Ok c → system_msg (with_system_message m c) = "".
Proof. intros [= <-]. reflexivity. Qed.

(** ** Witness *)

Definition no_images : string → list (string * pyval) → result unit := λ _ _, raise ValueError "".
Definition short_chat : list message :=
  [("user", CStr "Hi"); ("assistant", CStr "Hello"); ("user", CStr "Bye"); ("assistant", CNone)].

Lemma gemma_prompt : ∃ c, t_gemma_instruction = Ok c ∧
  as_prompt no_images (with_messages short_chat c) None = Ok [PText
    ("<start_of_turn>user" +:+ nl +:+ "Hi<end_of_turn>" +:+ nl +:+ "<start_of_turn>model" +:+ nl +:+
     "Hello<end_of_turn>" +:+ nl +:+ "<start_of_turn>user" +:+ nl +:+ "Bye<end_of_turn>" +:+ nl +:+
     "<start_of_turn>model" +:+ nl)].
Proof. eexists. split; [reflexivity|]. vm_compute. reflexivity. Qed.

Lemma registered_templates_witness :
  ∃ c text, t_gemma_instruction = Ok c ∧
    as_prompt no_images (with_messages short_chat c) None = Ok [PText text] ∧
    get_conv_template "gemma_instruction" registry = Some c.
Proof.
  destruct (registered_templates no_images t_gemma_instruction) as (n & c & Hc & Hn & Hget & Hr).
  - apply list_elem_of_In. simpl. tauto.
  - pose proof Hc as E. injection E as E. destruct (Hr short_chat None) as (text & Ht & _); [done| |].
    + rewrite <-E. repeat constructor; eexists; vm_compute; reflexivity.
    + exists c. eexists. split_and!; [exact Hc|exact Ht|]. rewrite <-Hget. f_equal.
      rewrite <-E in Hn. by injection Hn.
Defined.
