(* ===== verification/GenConfig.v ===== *)
(** Generating the configuration of a compiled model: [mlc-chat-config.json], from
    [python/mlc_llm/interface/gen_config.py] and [protocol/mlc_chat_config.py].

    The configuration under construction is an object of [PyObject]. Files, the
    tokenizer libraries and the conversion of vocabularies are parameters. *)

From Stdlib Require Import Lia ZArith QArith.
From stdpp Require Import base gmap strings list.
From S2P Require Import Prelude PyString PyObject Conversation Flags Config QuantRegistry ModelRegistry Templates.
Close Scope Q_scope.

(** ** [MLCChatConfig] *)

(** [MLC_CHAT_SYSTEM_DEFAULT]. *)
Definition MLC_CHAT_SYSTEM_DEFAULT : list (string * pyval) := [
  ("pad_token_id", PInt 0); ("bos_token_id", PInt 1); ("eos_token_id", PInt 2);
  ("temperature", PFloat (Fin 1)); ("presence_penalty", PFloat (Fin 0)); ("frequency_penalty", PFloat (Fin 0));
  ("repetition_penalty", PFloat (Fin 1)); ("top_p", PFloat (Fin 1))].

(** The integer fields every configuration is given, and the fields with a default. *)
Definition int_fields : list string := [
  "vocab_size"; "context_window_size"; "sliding_window_size"; "prefill_chunk_size"; "attention_sink_size";
  "tensor_parallel_shards"; "pipeline_parallel_stages"].
Definition default_fields : list (string * pyval) := [
  ("version", PStr "0.1.0"); ("temperature", PNone); ("presence_penalty", PNone); ("frequency_penalty", PNone);
  ("repetition_penalty", PNone); ("top_p", PNone); ("tokenizer_files", PList []); ("tokenizer_info", PDict []);
  ("pad_token_id", PNone); ("bos_token_id", PNone); ("eos_token_id", PNone)].

(** The declared fields given by [gen_config], with their aliases. *)
Definition given_fields : list (string * string) :=
  [("model_type", "field_model_type"); ("model_config", "field_model_config"); ("model_task", "field_model_task")] ++
  ((λ k, (k, k)) <$> ["quantization"; "vocab_size"; "active_vocab_size"; "context_window_size"; "sliding_window_size";
     "prefill_chunk_size"; "attention_sink_size"; "tensor_parallel_shards"; "pipeline_parallel_stages";
     "conv_template"; "embedding_metadata"]).

Definition given_attrs (given : list (string * pyval)) : list (string * pyval) :=
  omap (λ p : string * string, (λ v, (p.2, v)) <$> dict_get p.1 given) given_fields.

(** The constructor: arguments that are not declared are ignored. The values pydantic converts to an integer are refused here. *)
Definition MLCChatConfig (given : list (string * pyval)) : result obj :=
  _ ← raise_when (negb (forallb (λ k, match dict_get k given with Some (PInt _) => true | _ => false end) int_fields))
        ValidationError "Input should be a valid integer";
  _ ← raise_when (match dict_get "conv_template" given with Some (PDict _) => false | _ => true end)
        ValidationError "Input should be a valid dictionary or instance of Conversation";
  Ok (mkObj (list_to_map (given_attrs given) ∪ list_to_map default_fields) ∅).

(** [get_system_defaults_for_missing_fields] and [apply_system_defaults_for_missing_fields]. *)
Definition is_unset (v : option pyval) : bool := match v with Some PNone => true | _ => false end.
Definition get_system_defaults_for_missing_fields : py (list (string * pyval)) := λ o,
  (o, Ok (filter (λ p : string * pyval, is_unset (attrs o !! p.1) = true) MLC_CHAT_SYSTEM_DEFAULT)).
Definition apply_system_defaults_for_missing_fields : py unit :=
  l ← get_system_defaults_for_missing_fields;
  st_iter (λ p : string * pyval, set_value p.1 p.2) l.

(** [Conversation.to_json_dict]: the fields that are not [None]. *)
Definition strings (l : list string) : pyval := PList (PStr <$> l).
Definition string_map (m : gmap string string) : pyval := PDict ((λ p : string * string, (p.1, PStr p.2)) <$> map_to_list m).
Definition to_json_dict (c : Conversation) : list (string * pyval) :=
  (match Conversation.name c with Some n => [("name", PStr n)] | None => [] end) ++
  [("system_template", PStr (system_template c)); ("system_message", PStr (system_message c))] ++
  (match system_prefix_token_ids c with Some l => [("system_prefix_token_ids", PList (PInt <$> l))] | None => [] end) ++
  [("add_role_after_system_message", PBool (add_role_after_system_message c));
   ("roles", string_map (roles c)); ("role_templates", string_map (role_templates c));
   ("messages", PList ((λ m : message, PList [PStr m.1;
      match m.2 with CNone => PNone | CStr s => PStr s | CItems l => PList l end]) <$> messages c));
   ("seps", strings (seps c)); ("role_content_sep", PStr (role_content_sep c));
   ("role_empty_sep", PStr (role_empty_sep c)); ("stop_str", strings (stop_str c));
   ("stop_token_ids", PList (PInt <$> stop_token_ids c));
   ("strip_reasoning_in_history", PBool (strip_reasoning_in_history c));
   ("function_string", PStr (function_string c)); ("use_function_calling", PBool (use_function_calling c))].

(** ** Values of the configuration files *)

(** [for key, value in json.items(): if hasattr(c, key) and getattr(c, key) is None: …]. *)
Definition fill_one (p : string * pyval) : py unit := λ o,
  if is_unset (attrs o !! p.1) then set_value p.1 p.2 o else (o, Ok tt).
Definition fill (json : list (string * pyval)) : py unit := st_iter fill_one json.

Section files.
(** The JSON documents next to the configuration file: [None] for a missing file. *)
Context (json_file : string → option (result (list (string * pyval)))).

Definition fill_from (filename : string) : py unit :=
  match json_file filename with
  | None => mret tt
  | Some r => json ← st_lift r; fill json
  end.

(** [if key in d: target[name] = int(d[key])], on dictionaries. *)
Definition copy_int (d : pyval) (key name : string) (target : list (string * pyval)) :
    result (list (string * pyval)) :=
  there ← py_contains key d;
  if there : bool then v ← py_item d key; n ← py_to_int v; Ok (dict_set name n target) else Ok target.

(** [apply_qwen35_preprocessor_config]: the value of [vision_config] after it. *)
Definition preprocessor_limits (json : list (string * pyval)) (vision : list (string * pyval)) :
    result (list (string * pyval)) :=
  let size := default (PDict []) (dict_get "size" json) in
  vision ← copy_int size "shortest_edge" "min_pixels" vision;
  vision ← copy_int size "longest_edge" "max_pixels" vision;
  vision ← copy_int (PDict json) "patch_size" "patch_size" vision;
  vision ← copy_int (PDict json) "temporal_patch_size" "temporal_patch_size" vision;
  copy_int (PDict json) "merge_size" "spatial_merge_size" vision.
Definition apply_qwen35_preprocessor_config (cfg : Config.config) : result Config.config :=
  if negb (bool_decide (is_Some (values cfg !! "model_type") ∧
           py_eqb (default PNone (values cfg !! "model_type")) (PStr "qwen3_5") = true)) then Ok cfg
  else match values cfg !! "vision_config" with
  | Some (PDict d) =>
      match json_file "preprocessor_config.json" with
      | None => Ok cfg
      | Some r =>
          json ← r; d ← preprocessor_limits json d;
          Ok {| config_class_of := config_class_of cfg;
                values := <["vision_config" := PDict d]> (values cfg); Config.kwargs := Config.kwargs cfg |}
      end
  | _ => Ok cfg
  end.

(** [apply_qwen35_generation_defaults]. *)
Definition token_keys : list string := ["pad_token_id"; "bos_token_id"; "eos_token_id"].
Definition missing (key : string) (c : py unit) : py unit :=
  v ← self key; match v with PNone => c | _ => mret tt end.
Definition from_text_config (json : list (string * pyval)) (key : string) : py unit :=
  missing key (
    match dict_get key json with
    | Some v => set_value key v
    | None =>
        let text := default (PDict []) (dict_get "text_config" json) in
        there ← pure (py_contains key text);
        if there : bool then set_attr key (pure (py_item text key)) else mret tt
    end).
(** [token_to_id]: the contents that can name a token are strings. *)
Definition token_ids (added : list (string * pyval)) : result (list (string * pyval)) :=
  fold_m (λ d p, let '(token_id, info) := (p : string * pyval) in
    content ← py_dict_get info "content" PNone;
    match content with
    | PNone => Ok d
    | PStr s => n ← py_to_int (PStr token_id); Ok (dict_set s n d)
    | PList _ | PDict _ => n ← py_to_int (PStr token_id); raise TypeError "unhashable type"
    | _ => n ← py_to_int (PStr token_id); Ok d
    end) [] added.
Definition from_token (tokenizer_config token_to_id : list (string * pyval)) (keys : string * string) : py unit :=
  let '(token_key, id_key) := keys in
  missing id_key (
    match dict_get token_key tokenizer_config with
    | Some (PStr token) =>
        match dict_get token token_to_id with Some n => set_value id_key n | None => mret tt end
    | _ => mret tt
    end).
Definition apply_qwen35_generation_defaults : py unit :=
  json ← st_lift (match json_file "config.json" with Some r => r | None => raise FileNotFoundError "config.json" end);
  if negb (py_eqb (default PNone (dict_get "model_type" json)) (PStr "qwen3_5")) then mret tt
  else
    st_iter (from_text_config json) token_keys ;;
    match json_file "tokenizer_config.json" with
    | None => mret tt
    | Some r =>
        tokenizer_config ← st_lift r;
        added ← pure (match dict_get "added_tokens_decoder" tokenizer_config with
                      | None => Ok []
                      | Some (PDict d) => Ok d
                      | Some _ => raise AttributeError "object has no attribute 'items'"
                      end);
        ids ← pure (token_ids added);
        st_iter (from_token tokenizer_config ids)
          [("pad_token", "pad_token_id"); ("bos_token", "bos_token_id"); ("eos_token", "eos_token_id")]
    end.

(** ** [gen_config] *)

(** [TOKENIZER_FILES]. *)
Definition TOKENIZER_FILES : list string := [
  "tokenizer.model"; "tokenizer.json"; "vocab.json"; "merges.txt"; "added_tokens.json"; "tokenizer_config.json"].

(** What the directory and the libraries offer: which files exist, the RWKV
    vocabularies found and their conversion, the conversion of [tokenizer.model] by
    transformers, the tiktoken files and their conversion, the detection of the
    tokenizer's properties, and the length of the HuggingFace tokenizer. *)
Context (exists_file : string → bool).
Context (rwkv_vocabularies : list string) (convert_rwkv : string → result unit).
Context (save_tokenizer_json : result unit).
Context (has_tiktoken : bool) (convert_tiktoken : pyval → result unit).
Context (detect_tokenizer_info : result (list (string * pyval))).
Context (len_tokenizer : result Z).

(** [mlc_chat_config.tokenizer_files.append(f)]. *)
Definition append_file (f : string) : py unit :=
  v ← self "tokenizer_files";
  match v with PList l => set_value "tokenizer_files" (PList (l ++ [PStr f])) | _ => st_lift attr_error end.

(** [try: … except Exception: …], where only the log is written. *)
Definition attempt (c : py unit) : py unit := λ o,
  match c o with
  | (o', Ok u) => (o', Ok u)
  | (o', Err e) => (o', if is_Exception (exn_cls e) then Ok tt else Err e)
  end.

Definition copy_tokenizer (f : string) : py unit :=
  if exists_file f then append_file f else mret tt.
Definition convert_sentencepiece : py unit :=
  if exists_file "tokenizer.model" && negb (exists_file "tokenizer.json") then
    attempt (st_lift save_tokenizer_json ;; append_file "tokenizer.json")
  else mret tt.
Definition convert_from_tiktoken : py unit :=
  if negb (exists_file "tokenizer.json") && has_tiktoken then
    attempt (w ← self "context_window_size"; st_lift (convert_tiktoken w) ;;
             st_iter append_file ["tokenizer.json"; "vocab.json"; "merges.txt"; "special_tokens_map.json"])
  else mret tt.

(** The check for duplicated added tokens. *)
Definition check_added (tokens : list pyval) : result (list pyval) :=
  fold_m (λ seen t,
    content ← py_item t "content";
    _ ← raise_when (existsb (py_eqb content) seen) ValueError "Duplicated vocab in tokenizer.json";
    Ok (content :: seen)) [] tokens.
Definition check_added_tokens : py unit :=
  if exists_file "tokenizer.json" then
    match json_file "tokenizer.json" with
    | None => st_lift (raise FileNotFoundError "tokenizer.json")
    | Some r =>
        json ← st_lift r;
        match dict_get "added_tokens" json with
        | None => mret tt
        | Some v => tokens ← pure (py_iter v); _ ← pure (check_added tokens); mret tt
        end
    end
  else mret tt.
Definition detect_active_vocab : py unit :=
  if exists_file "tokenizer.json" then
    attempt (
      n ← st_lift len_tokenizer;
      v ← self "active_vocab_size";
      if negb (py_eqb v (PInt n)) then set_value "active_vocab_size" (PInt n) else mret tt)
  else mret tt.

(** [getattr(model_config, k, d)] and [model_config.k]. *)
Definition getattr (cfg : Config.config) (k : string) (d : pyval) : pyval := default d (values cfg !! k).
Definition attribute (cfg : Config.config) (k : string) : result pyval :=
  match values cfg !! k with Some v => Ok v | None => attr_error end.

(** The first step: the template, the configuration with its overrides, and the object. *)
Definition conversation (conv_template : string) : pyval :=
  match get_conv_template conv_template registry with
  | None => PStr conv_template
  | Some c => PDict (to_json_dict c)
  end.
Definition embedding_dict (m : Model) : pyval :=
  match embedding_metadata m with
  | None => PNone
  | Some e => PDict [("model_type", PStr (model_type e)); ("pooling_strategy", PStr (pooling_strategy e));
                     ("normalize", PBool (normalize e))]
  end.
Definition initial_config (m : Model) (quantization : Quantization) (conv_template : string) (cfg : Config.config) :
    result obj :=
  vocab_size ← attribute cfg "vocab_size";
  prefill ← attribute cfg "prefill_chunk_size";
  shards ← attribute cfg "tensor_parallel_shards";
  MLCChatConfig [
    ("model_type", PStr (ModelRegistry.name m)); ("quantization", PStr (qz_name quantization));
    ("model_config", PDict (map_to_list (asdict cfg))); ("vocab_size", vocab_size);
    ("active_vocab_size", getattr cfg "active_vocab_size" vocab_size);
    ("context_window_size", getattr cfg "context_window_size" (PInt (-1)));
    ("sliding_window_size", getattr cfg "sliding_window_size" (PInt (-1)));
    ("prefill_chunk_size", prefill);
    ("attention_sink_size", getattr cfg "attention_sink_size" (PInt (-1)));
    ("tensor_parallel_shards", shards);
    ("pipeline_parallel_stages", getattr cfg "pipeline_parallel_stages" (PInt 1));
    ("disaggregation", getattr cfg "disaggregation" (PBool false));
    ("conv_template", conversation conv_template); ("model_task", PStr (model_task m));
    ("embedding_metadata", embedding_dict m)].

(** The values for generation, the tokenizer, the defaults. *)
Definition fill_generation : py unit :=
  st_iter fill_from ["generation_config.json"; "config.json"] ;;
  apply_qwen35_generation_defaults.
Definition fill_tokenizer : py unit :=
  st_iter copy_tokenizer TOKENIZER_FILES ;;
  st_iter (λ v, st_lift (convert_rwkv v)) rwkv_vocabularies ;;
  convert_sentencepiece ;;
  convert_from_tiktoken ;;
  set_attr "tokenizer_info" (info ← st_lift detect_tokenizer_info; mret (PDict info)) ;;
  check_added_tokens.

(** The configuration that is dumped. *)
Definition gen_config (m : Model) (quantization : Quantization) (conv_template : string)
    (overrides : ModelConfigOverride) : result obj :=
  source ← (match json_file "config.json" with Some r => r | None => raise FileNotFoundError "config.json" end);
  cfg ← from_dict (ModelRegistry.config m) (list_to_map source);
  cfg ← apply (override_values overrides) cfg;
  cfg ← apply_qwen35_preprocessor_config cfg;
  o ← initial_config m quantization conv_template cfg;
  match (fill_generation ;; fill_tokenizer ;; apply_system_defaults_for_missing_fields ;; detect_active_vocab) o with
  | (o, Ok _) => Ok o
  | (_, Err e) => Err e
  end.
End files.

(** ** What a step changes *)

(** A computation changes no attribute but those [touched], and removes none, however
    it ends. *)
Definition Frame (touched : list string) {A} (c : py A) : Prop := ∀ o k,
  (k ∉ touched → attrs (c o).1 !! k = attrs o !! k) ∧
  (is_Some (attrs o !! k) → is_Some (attrs (c o).1 !! k)).

Section frame.
Context (touched : list string).

Lemma frame_pure {A} (c : py A) : (∀ o, (c o).1 = o) → Frame touched c.
Proof. intros H o k. by rewrite H. Qed.
Lemma frame_lift {A} (r : result A) : Frame touched (st_lift r).
Proof. by apply frame_pure. Qed.
Lemma frame_ret {A} (a : A) : Frame touched (mret a).
Proof. by apply frame_pure. Qed.
Lemma frame_self k : Frame touched (self k).
Proof. apply frame_pure. done. Qed.
Lemma frame_bind {A B} (c : py A) (f : A → py B) :
  Frame touched c → (∀ a, Frame touched (f a)) → Frame touched (c ≫= f).
Proof.
  intros Hc Hf o k. unfold mbind, stM_bind. specialize (Hc o k).
  destruct (c o) as [o1 [a|e]]; simpl in *; [|done].
  destruct Hc as [Hs Hd], (Hf a o1 k) as [Hs' Hd']. split; [|by auto].
  intros Hk. by rewrite Hs', Hs.
Qed.
Lemma frame_iter {A} (f : A → py unit) l : (∀ x, x ∈ l → Frame touched (f x)) → Frame touched (st_iter f l).
Proof.
  induction l as [|x l IH]; simpl; intros Hf; [apply frame_ret|].
  apply frame_bind; [apply Hf; by left|]. intros _. apply IH. intros y Hy. apply Hf. by right.
Qed.
Lemma frame_set k v : k ∈ touched → Frame touched (set_value k v).
Proof.
  intros Hk o k'. simpl. split; [intros Hk'; apply lookup_insert_ne; by intros ->|].
  intros Hs. destruct (decide (k = k')) as [->|]; [by rewrite lookup_insert_eq|by rewrite lookup_insert_ne].
Qed.
Lemma frame_attempt (c : py unit) : Frame touched c → Frame touched (attempt c).
Proof. intros Hc o k. unfold attempt. specialize (Hc o k). by destruct (c o) as [o' [[]|e]]. Qed.
End frame.

Ltac frame_head t := lazymatch t with ?f _ => frame_head f | _ => t end.
Ltac frame_step :=
  cbv beta zeta;
  lazymatch goal with
  | |- ∀ _, _ => intros ?
  | |- Frame _ (mret _) => apply frame_ret
  | |- Frame _ (st_lift _) => apply frame_lift
  | |- Frame _ (pure _) => apply frame_lift
  | |- Frame _ (self _) => apply frame_self
  | |- Frame _ (_ ≫= _) => apply frame_bind
  | |- Frame _ (st_iter _ _) => apply frame_iter
  | |- Frame _ (attempt _) => apply frame_attempt
  | |- Frame _ (set_value _ _) => apply frame_set; set_solver
  | |- Frame _ (match ?x with _ => _ end) => destruct x
  | |- Frame _ ?c => let h := frame_head c in unfold h
  end.
Ltac frame := repeat frame_step.

Lemma vocab_frame (exists_file : string → bool) (len_tokenizer : result Z) :
  Frame ["active_vocab_size"] (detect_active_vocab exists_file len_tokenizer).
Proof. frame. Qed.

Section frames.
Context (json_file : string → option (result (list (string * pyval)))).
Lemma qwen35_frame : Frame token_keys (apply_qwen35_generation_defaults json_file).
Proof. frame. Qed.
Context (exists_file : string → bool) (rwkv_vocabularies : list string) (convert_rwkv : string → result unit).
Context (save_tokenizer_json : result unit) (has_tiktoken : bool) (convert_tiktoken : pyval → result unit).
Context (detect_tokenizer_info : result (list (string * pyval))) (len_tokenizer : result Z).
Lemma tokenizer_frame : Frame ["tokenizer_files"; "tokenizer_info"]
  (fill_tokenizer json_file exists_file rwkv_vocabularies convert_rwkv save_tokenizer_json has_tiktoken
     convert_tiktoken detect_tokenizer_info).
Proof. frame. Qed.
End frames.

(** ** Filling fields *)

(** The first value of [k] that is not [None]. *)
Fixpoint first_value (k : string) (json : list (string * pyval)) : option pyval :=
  match json with
  | [] => None
  | (k', v) :: json =>
      if decide (k = k') then match v with PNone => first_value k json | _ => Some v end
      else first_value k json
  end.

Lemma fill_spec json o :
  ∃ o', fill json o = (o', Ok tt) ∧
    ∀ k, attrs o' !! k = if is_unset (attrs o !! k) then Some (default PNone (first_value k json)) else attrs o !! k.
Proof.
  unfold fill. revert o. induction json as [|[k' v] json IH]; intros o; simpl.
  - exists o. split; [done|]. intros k. unfold is_unset. destruct (attrs o !! k) as [[]|]; done.
  - unfold mbind, stM_bind, fill_one; cbn [fst snd].
    destruct (is_unset (attrs o !! k')) eqn:E; cbn [set_value];
      [destruct (IH (mkObj (<[k' := v]> (attrs o)) (PyObject.kwargs o))) as (o' & H & Hk)
      |destruct (IH o) as (o' & H & Hk)]; exists o'; (split; [exact H|]); intros k; rewrite Hk; cbn [attrs].
    + destruct (decide (k = k')) as [->|Hne]; [|by rewrite lookup_insert_ne].
      rewrite lookup_insert_eq, E. by destruct v.
    + destruct (decide (k = k')) as [->|Hne]; [by rewrite E|done].
Qed.

Lemma set_all_spec (l : list (string * pyval)) o :
  NoDup l.*1 →
  ∃ o', st_iter (λ p : string * pyval, set_value p.1 p.2) l o = (o', Ok tt) ∧
    ∀ k, attrs o' !! k = match dict_get k l with Some v => Some v | None => attrs o !! k end.
Proof.
  revert o. induction l as [|[k' v] l IH]; intros o Hnd; simpl.
  - by exists o.
  - apply NoDup_cons in Hnd as [Hk' Hnd]. unfold mbind, stM_bind. cbn [fst snd set_value].
    destruct (IH (mkObj (<[k' := v]> (attrs o)) (PyObject.kwargs o)) Hnd) as (o' & H & Hk).
    exists o'. split; [exact H|]. intros k. rewrite Hk. cbn [attrs].
    destruct (decide (k = k')) as [->|Hne]; [|by rewrite lookup_insert_ne].
    cbn [fst] in Hk'. rewrite (proj2 (dict_get_None k' l) Hk'). by rewrite lookup_insert_eq.
Qed.

Lemma dict_get_filter {A} (P : string * A → Prop) `{∀ p, Decision (P p)} k v l :
  NoDup l.*1 → (k, v) ∈ l → dict_get k (filter P l) = if decide (P (k, v)) then Some v else None.
Proof.
  induction l as [|[k' w] l IH]; intros Hnd Hin; [by apply not_elem_of_nil in Hin|].
  apply NoDup_cons in Hnd as [Hk Hnd]. apply elem_of_cons in Hin as [[= <- <-]|Hin].
  - rewrite filter_cons. destruct (decide (P (k, v))); [simpl; by rewrite decide_True|].
    apply dict_get_None. intros (q & -> & [_ Hq]%list_elem_of_filter)%list_elem_of_fmap.
    apply Hk, list_elem_of_fmap. by exists q.
  - assert (k ≠ k') as Hne by (intros ->; apply Hk, list_elem_of_fmap; by exists (k', v)).
    rewrite filter_cons. destruct (decide (P (k', w))); [simpl; rewrite decide_False by done|]; by apply IH.
Qed.

Lemma defaults_spec o :
  ∃ o', apply_system_defaults_for_missing_fields o = (o', Ok tt) ∧
    ∀ k d, (k, d) ∈ MLC_CHAT_SYSTEM_DEFAULT →
      attrs o' !! k = if is_unset (attrs o !! k) then Some d else attrs o !! k.
Proof.
  assert (NoDup MLC_CHAT_SYSTEM_DEFAULT.*1) as Hnd by (apply (bool_decide_unpack _); reflexivity).
  unfold apply_system_defaults_for_missing_fields, get_system_defaults_for_missing_fields.
  unfold mbind at 1, stM_bind at 1. set (P := λ p : string * pyval, is_unset (attrs o !! p.1) = true).
  destruct (set_all_spec (filter P MLC_CHAT_SYSTEM_DEFAULT) o) as (o' & H & Hk).
  { apply (sublist_NoDup _ MLC_CHAT_SYSTEM_DEFAULT.*1); [done|].
    apply fmap_sublist, sublist_filter. }
  exists o'. split; [exact H|]. intros k d Hin. rewrite Hk, (dict_get_filter P k d) by done.
  unfold P. simpl. destruct (is_unset (attrs o !! k)); done.
Qed.

(** ** The generated configuration *)

Lemma first_value_app k l1 l2 :
  first_value k (l1 ++ l2) = match first_value k l1 with Some v => Some v | None => first_value k l2 end.
Proof.
  induction l1 as [|[k' v] l1 IH]; simpl; [done|]. destruct (decide (k = k')); [|done]. by destruct v.
Qed.
Lemma first_value_unset k l : is_unset (Some (default PNone (first_value k l))) = bool_decide (first_value k l = None).
Proof.
  induction l as [|[k' v] l IH]; simpl; [done|]. destruct (decide (k = k')); [|done]. by destruct v.
Qed.

Lemma defaults_frame o o' :
  apply_system_defaults_for_missing_fields o = (o', Ok tt) →
  ∀ k, k ∉ MLC_CHAT_SYSTEM_DEFAULT.*1 → attrs o' !! k = attrs o !! k.
Proof.
  unfold apply_system_defaults_for_missing_fields, get_system_defaults_for_missing_fields.
  unfold mbind at 1, stM_bind at 1. intros H k Hk.
  match type of H with st_iter ?f ?l o = _ => assert (Frame MLC_CHAT_SYSTEM_DEFAULT.*1 (st_iter f l)) as Hf end.
  { apply frame_iter. intros p [_ Hp]%list_elem_of_filter. apply frame_set, list_elem_of_fmap. by exists p. }
  destruct (Hf o k) as [Hs _]. rewrite H in Hs. by apply Hs.
Qed.

Section generated.
Context (json_file : string → option (result (list (string * pyval)))).

(** The contents of a document that could be read. *)
Definition document (f : string) : list (string * pyval) :=
  match json_file f with Some (Ok json) => json | _ => [] end.
(** The value the files next to the configuration give for a generation field. *)
Definition given_value (k : string) : option pyval :=
  first_value k (document "generation_config.json" ++ document "config.json").

Lemma fill_from_spec f o o' :
  fill_from json_file f o = (o', Ok tt) →
  ∀ k, attrs o' !! k = if is_unset (attrs o !! k) then Some (default PNone (first_value k (document f)))
                       else attrs o !! k.
Proof.
  unfold fill_from, document. intros H k. destruct (json_file f) as [[json|e]|].
  - change (fill json o = (o', Ok tt)) in H. destruct (fill_spec json o) as (o1 & H1 & Hk).
    rewrite H1 in H. injection H as <-. apply Hk.
  - done.
  - injection H as <-. simpl. by destruct (attrs o !! k) as [[]|].
Qed.
Lemma fill_files_spec o o' :
  st_iter (fill_from json_file) ["generation_config.json"; "config.json"] o = (o', Ok tt) →
  ∀ k, attrs o' !! k = if is_unset (attrs o !! k) then Some (default PNone (given_value k)) else attrs o !! k.
Proof.
  cbn [st_iter]. intros H k. apply st_bind_Ok in H as ([] & o1 & H1 & H).
  apply st_bind_Ok in H as ([] & o2 & H2 & H). injection H as <-.
  rewrite (fill_from_spec _ _ _ H2), (fill_from_spec _ _ _ H1). unfold given_value. rewrite first_value_app.
  destruct (is_unset (attrs o !! k)) eqn:E; [|by rewrite E].
  rewrite first_value_unset. case_bool_decide as Hn; [by rewrite Hn|]. by destruct (first_value k _).
Qed.

(** The steps after the files, but for the defaults. *)
Lemma frame_Ok {A} touched (c : py A) o o' a k :
  Frame touched c → c o = (o', Ok a) →
  (k ∉ touched → attrs o' !! k = attrs o !! k) ∧ (is_Some (attrs o !! k) → is_Some (attrs o' !! k)).
Proof. intros Hf H. specialize (Hf o k). by rewrite H in Hf. Qed.

(** The object [MLCChatConfig] builds. *)
Lemma given_attrs_sublist given l :
  sublist (omap (λ p : string * string, (λ v, (p.2, v)) <$> dict_get p.1 given) l : list (string * pyval)).*1 l.*2.
Proof.
  induction l as [|[a b] l IH]; csimpl; [constructor|]. cbn [fst snd].
  destruct (dict_get a given); csimpl; by constructor.
Qed.
Lemma given_attrs_NoDup given : NoDup (given_attrs given).*1.
Proof.
  eapply sublist_NoDup; [|apply given_attrs_sublist]. apply (bool_decide_unpack _). reflexivity.
Qed.
Lemma MLCChatConfig_template given o v :
  MLCChatConfig given = Ok o → dict_get "conv_template" given = Some v →
  (∃ d, v = PDict d) ∧ attrs o !! "conv_template" = Some v.
Proof.
  intros H Hv. unfold MLCChatConfig in H. ok_inv. rewrite Hv in *. split.
  - destruct v; naive_solver.
  - cbn [attrs]. apply lookup_union_Some_l, elem_of_list_to_map_1; [apply given_attrs_NoDup|].
    apply list_elem_of_omap. exists ("conv_template", "conv_template"). cbn [fst snd]. rewrite Hv. split; [|done].
    apply list_elem_of_In. simpl. tauto.
Qed.
Lemma MLCChatConfig_default given o k v :
  MLCChatConfig given = Ok o → k ∉ given_fields.*2 → (k, v) ∈ default_fields → attrs o !! k = Some v.
Proof.
  intros H Hk Hv. unfold MLCChatConfig in H. ok_inv. cbn [attrs]. rewrite lookup_union_r.
  - change (list_to_map (M:=gmap string pyval) default_fields !! k = Some v). apply elem_of_list_to_map_1; [|done]. apply (bool_decide_unpack _). reflexivity.
  - apply not_elem_of_list_to_map_1. intros Hin. apply Hk.
    eapply (sublist_subseteq _ _ (given_attrs_sublist given given_fields)). exact Hin.
Qed.

Lemma initial_config_spec m q conv cfg o :
  initial_config m q conv cfg = Ok o →
  (∃ c, get_conv_template conv registry = Some c ∧ attrs o !! "conv_template" = Some (PDict (to_json_dict c))) ∧
  ∀ k d, (k, d) ∈ MLC_CHAT_SYSTEM_DEFAULT → attrs o !! k = Some PNone.
Proof.
  unfold initial_config. intros H. ok_inv. split.
  - eapply MLCChatConfig_template in H as [[d Hd] Ht]; [|cbn -[conversation]; reflexivity].
    unfold conversation in Hd, Ht. destruct (get_conv_template conv registry) as [c|]; [|done].
    by exists c.
  - intros k d Hin. eapply MLCChatConfig_default; [exact H| |];
      repeat (apply elem_of_cons in Hin as [[= -> ->]|Hin];
        [first [apply (bool_decide_unpack _); reflexivity | apply list_elem_of_In; simpl; tauto]|]);
      by apply not_elem_of_nil in Hin.
Qed.

Context (exists_file : string → bool) (rwkv_vocabularies : list string) (convert_rwkv : string → result unit).
Context (save_tokenizer_json : result unit) (has_tiktoken : bool) (convert_tiktoken : pyval → result unit).
Context (detect_tokenizer_info : result (list (string * pyval))) (len_tokenizer : result Z).
Abbreviation generated := (gen_config json_file exists_file rwkv_vocabularies convert_rwkv save_tokenizer_json
  has_tiktoken convert_tiktoken detect_tokenizer_info len_tokenizer).

(** The keys the tokenizer steps touch are not generation fields. *)
Definition other_fields : list string := ["tokenizer_files"; "tokenizer_info"; "active_vocab_size"].
Lemma default_not_other k d : (k, d) ∈ MLC_CHAT_SYSTEM_DEFAULT → k ∉ other_fields.
Proof.
  intros Hin. repeat (apply elem_of_cons in Hin as [[= -> ->]|Hin]; [apply (bool_decide_unpack _); reflexivity|]).
  by apply not_elem_of_nil in Hin.
Qed.
Lemma default_set k d : (k, d) ∈ MLC_CHAT_SYSTEM_DEFAULT → d ≠ PNone.
Proof.
  intros Hin. repeat (apply elem_of_cons in Hin as [[= -> ->]|Hin]; [done|]). by apply not_elem_of_nil in Hin.
Qed.

(** C25. A generated configuration has the registered template it was asked for; every
    generation field is set; and a field that is not a special token has the first
    value that [generation_config.json] or else [config.json] gives, or the system
    default. *)
Theorem gen_config_spec m q conv overrides o :
  generated m q conv overrides = Ok o →
  (∃ c, get_conv_template conv registry = Some c ∧ attrs o !! "conv_template" = Some (PDict (to_json_dict c))) ∧
  ∀ k d, (k, d) ∈ MLC_CHAT_SYSTEM_DEFAULT →
    (∃ v, attrs o !! k = Some v ∧ v ≠ PNone) ∧
    (k ∉ token_keys → attrs o !! k = Some (default d (given_value k))).
Proof.
  unfold gen_config, fill_generation. intros H. ok_inv.
  match goal with H : initial_config _ _ _ _ = Ok ?o0 |- _ => apply initial_config_spec in H as [(c & Hc & Htemplate) Hunset] end.
  match goal with H : (match ?c ?s with _ => _ end) = Ok _ |- _ => destruct (c s) as [o' [[]|e]] eqn:Hr; [injection H as <-|discriminate H] end.
  apply st_bind_Ok in Hr as ([] & o2 & Hgen & Hr). apply st_bind_Ok in Hgen as ([] & o1 & Hfiles & Hqwen).
  apply st_bind_Ok in Hr as ([] & o3 & Htok & Hr). apply st_bind_Ok in Hr as ([] & o4 & Hdef & Hvocab).
  pose proof (fill_files_spec _ _ Hfiles) as Hf.
  pose proof (λ k, frame_Ok _ _ _ _ _ k (qwen35_frame json_file) Hqwen) as Hq.
  pose proof (λ k, frame_Ok _ _ _ _ _ k (tokenizer_frame json_file exists_file rwkv_vocabularies convert_rwkv
    save_tokenizer_json has_tiktoken convert_tiktoken detect_tokenizer_info) Htok) as Ht.
  pose proof (λ k, frame_Ok _ _ _ _ _ k (vocab_frame exists_file len_tokenizer) Hvocab) as Hv.
  pose proof (defaults_frame _ _ Hdef) as Hd'. destruct (defaults_spec o3) as (o4' & Hdef' & Hd).
  rewrite Hdef in Hdef'. injection Hdef' as <-. split.
  - exists c. split; [exact Hc|]. clear Hc. rewrite (proj1 (Hv _)) by set_solver. rewrite Hd' by (apply (bool_decide_unpack _); reflexivity).
    rewrite (proj1 (Ht _)) by set_solver. rewrite (proj1 (Hq _)) by (unfold token_keys; set_solver).
    by rewrite Hf, Htemplate.
  - clear Hc. intros k d Hk. pose proof (default_not_other k d Hk) as Hother. unfold other_fields in Hother.
    rewrite (proj1 (Hv k)) by (clear -Hother; set_solver). rewrite (Hd k d Hk), (proj1 (Ht k)) by (clear -Hother; set_solver).
    specialize (Hf k). rewrite (Hunset k d Hk) in Hf. simpl in Hf. split.
    + destruct (proj2 (Hq k)) as [v Hv']; [by rewrite Hf|]. rewrite Hv'.
      destruct v; simpl; eauto. exists d. split; [done|by eapply default_set].
    + intros Hn. rewrite (proj1 (Hq k) Hn), Hf. unfold given_value. rewrite first_value_unset.
      case_bool_decide as E; [by rewrite E|]. by destruct (first_value k _).
Qed.
End generated.

(** ** Witness *)

Module Example.
Definition files (f : string) : option (result (list (string * pyval))) :=
  if decide (f = "config.json") then Some (Ok [
    ("model_type", PStr "llama"); ("hidden_size", PInt 64); ("intermediate_size", PInt 128);
    ("num_attention_heads", PInt 4); ("num_hidden_layers", PInt 2); ("rms_norm_eps", PFloat (Fin (1 # 100000)));
    ("vocab_size", PInt 1000); ("max_position_embeddings", PInt 2048); ("temperature", PFloat (Fin (1 # 2)));
    ("eos_token_id", PInt 7)])
  else if decide (f = "generation_config.json") then Some (Ok [("top_p", PFloat (Fin (9 # 10))); ("temperature", PNone)])
  else None.
Definition no_overrides : ModelConfigOverride := {|
  context_window_size := Some 1024%Z; sliding_window_size := None; prefill_chunk_size := None;
  attention_sink_size := None; max_batch_size := None; Flags.tensor_parallel_shards := None;
  pipeline_parallel_stages := None; disaggregation := None |}.
Definition unquantized : Quantization :=
  {| qz_name := "q0f16"; qz_method := MNo {| no_kind := "no-quant"; no_model_dtype := "float16" |} |}.
Definition generate (conv : string) : result obj :=
  gen_config files (λ f, bool_decide (f = "tokenizer.model")) [] (λ _, Ok tt) (raise OtherError "no transformers") false
    (λ _, Ok tt) (Ok [("token_postproc_method", PStr "byte_fallback")]) (Ok 1000%Z) model_llama unquantized conv no_overrides.
Definition field (k : string) (r : result obj) : option pyval :=
  match r with Ok o => attrs o !! k | Err _ => None end.

Lemma generated_fields : (λ k, field k (generate "llama-2")) <$>
    ["context_window_size"; "temperature"; "top_p"; "eos_token_id"; "pad_token_id"; "tokenizer_files"; "disaggregation"] =
  [Some (PInt 1024); Some (PFloat (Fin (1 # 2))); Some (PFloat (Fin (9 # 10))); Some (PInt 7); Some (PInt 0);
   Some (PList [PStr "tokenizer.model"]); None].
Proof. vm_compute. reflexivity. Qed.

(** A template the command line offers that is not registered. *)
Lemma llama_default_refused :
  generate "llama_default" = raise ValidationError "Input should be a valid dictionary or instance of Conversation".
Proof. vm_compute. reflexivity. Qed.

Lemma generate_ok : ∃ o, generate "llama-2" = Ok o.
Proof.
  assert (H : (if generate "llama-2" is Ok _ then true else false) = true) by (vm_compute; reflexivity).
  destruct (generate "llama-2") as [o|e]; [by exists o|discriminate H].
Qed.
Lemma gen_config_spec_witness : ∃ o, generate "llama-2" = Ok o ∧
  attrs o !! "temperature" = Some (default (PFloat (Fin 1)) (given_value files "temperature")).
Proof.
  destruct generate_ok as [o E]. exists o. split; [exact E|].
  unfold generate in E. pose proof (gen_config_spec _ _ _ _ _ _ _ _ _ _ _ _ _ _ E) as H. clear E.
  destruct H as [_ H].
  apply (H "temperature" (PFloat (Fin 1))); [apply list_elem_of_In; simpl; tauto|].
  apply (bool_decide_unpack _). reflexivity.
Defined.
Lemma given_temperature : given_value files "temperature" = Some (PFloat (Fin (1 # 2))).
Proof. reflexivity. Qed.
End Example.
