(* ===== verification/ConvertWeight.v ===== *)
(** Weight conversion: [python/mlc_llm/interface/convert_weight.py], with the names
    of presharded parameters ([support/preshard.py]).

    The conversion asks a model for its parameters and its quantization, loads the
    weights with the loader of [Loader], checks every parameter that is produced
    against the model and writes it. Networks and tensors are parameters; a shape
    dimension of a model that is a variable is [None]. *)

From Stdlib Require Import Lia ZArith.
From stdpp Require Import base gmap strings list pretty.
From S2P Require Import Prelude PyString PyObject Flags Config NestedConfigs ModelRegistry Loader.
From S2P Require QuantRegistry.

(** A parameter of a model: [shape], [dtype] and the name of the [shard_strategy] in
    its attributes. *)
Record param_spec := {
  shape : list (option Z);
  dtype : string;
  shard_strategy : option string;
}.

(** ** Presharding *)

(** The new parameters of [apply_preshard], and the strategies of the sharded ones. *)
Definition shard_names (n : nat) (p : string * param_spec) : list (string * param_spec) :=
  match shard_strategy p.2 with
  | Some _ => (λ i, (_sharded_param_name p.1 i, p.2)) <$> seq 0 n
  | None => [p]
  end.
Definition preshard_params (n : nat) (named_params : list (string * param_spec)) : list (string * param_spec) :=
  foldl (λ d p, foldl (λ d x, dict_set x.1 x.2 d) d (shard_names n p)) [] named_params.
Definition model_params (n : option Z) (named_params : list (string * param_spec)) : list (string * param_spec) :=
  match n with Some n => preshard_params (Z.to_nat n) named_params | None => named_params end.
Definition preshard_strategies (named_params : list (string * param_spec)) : list (string * string) :=
  omap (λ p, (λ s, (p.1, s)) <$> shard_strategy p.2) named_params.

Section convert.
Context {array tensor : Type}.

(** [param.shape] and [param.dtype] of a tensor, and [DataType(dtype).itemsize]. *)
Context (shape_of : tensor → list Z) (dtype_of : tensor → string) (itemsize : string → Z).

(** ** The checks *)

Record state := {
  named_params : list (string * param_spec);
  param_names : list string;
  total_bytes : Z;
  dumped : list (string * tensor);
}.

(** [_check_shape]. *)
Definition _check_shape (actual : list Z) (expect : list (option Z)) : bool :=
  bool_decide (length actual = length expect) &&
  forallb (λ p : Z * option Z, match p.2 with Some e => (p.1 =? e)%Z | None => true end) (zip actual expect).

(** [_check_param] without its [del]. *)
Definition _check_param (s : state) (name : string) (param : tensor) : result unit :=
  match dict_get name (named_params s) with
  | None => raise ValueError "Parameter not found in model: {name}"
  | Some spec =>
      _ ← raise_when (bool_decide (name ∈ param_names s)) ValueError
            "Duplication: Parameter {name} already computed";
      _ ← raise_when (negb (_check_shape (shape_of param) (shape spec))) ValueError
            "Parameter {name} has shape {param.shape}, but expected {expect_shape}";
      raise_when (negb (bool_decide (dtype_of param = dtype spec))) ValueError
        "Parameter {name} has dtype {param.dtype}, but expected {expect_dtype}"
  end.

(** One round of [_param_generator]; the writer keeps what it is given. *)
Definition tensor_bytes (param : tensor) : Z := (foldr Z.mul 1 (shape_of param) * itemsize (dtype_of param))%Z.
Definition param_generator (item : string * tensor) : stM state unit := λ s,
  match _check_param s item.1 item.2 with
  | Err e => (s, Err e)
  | Ok _ =>
      ({| named_params := dict_delete item.1 (named_params s);
          param_names := param_names s ++ [item.1];
          total_bytes := total_bytes s + tensor_bytes item.2;
          dumped := dumped s ++ [item] |}, Ok tt)
  end.

Definition start (params : list (string * param_spec)) : state :=
  {| named_params := params; param_names := []; total_bytes := 0; dumped := [] |}.

(** ** [_convert_args] *)

Context (nbytes size : array → Z) (as_tensor : array → tensor).
Context (read_file : string → list (string * array) * result unit).
Context (is_file : string → bool) (weight_map : string → result (list (string * string))).

(** What the calls of a quantization function build: the parameters of the network
    and the quantization mapping; the shard function of a strategy; the mapping a
    loader function returns. *)
Context (network : list call → Config.config → result (list (string * param_spec) * QuantizeMapping tensor)).
Context (shard_func : string → tensor → result (list tensor)).
Context (extern_mapping : string → Config.config → result (ExternMapping array)).

(** [LOADER]. *)
Definition LOADER : list string := ["huggingface-torch"; "huggingface-safetensor"; "awq"].

(** The writer: it drains the generator, then asks for the metadata, a division by
    the number of parameters; then nothing may be left. *)
Definition finish (total_params : Z) (s : state) : result unit :=
  _ ← raise_when (total_params =? 0)%Z OtherError "float division by zero";
  raise_when (negb (bool_decide (named_params s = []))) ValueError "Parameter not found in source: ".

Definition write (source source_format : string) (m : Model) (cfg : Config.config)
    (q : QuantizeMapping tensor) (preshard : option (list (string * (tensor → result (list tensor)))))
    (params : list (string * param_spec)) : state * result unit :=
  let setup :=
    _ ← raise_when (negb (bool_decide (source_format ∈ LOADER))) KeyError source_format;
    f ← get_key source_format (ModelRegistry.source m);
    em ← extern_mapping f cfg;
    init nbytes size read_file is_file weight_map source em (Some q) in
  match setup with
  | Err e => (start params, Err e)
  | Ok loader =>
      let '((loader, s), r) :=
        load nbytes size as_tensor read_file param_generator preshard (loader, start params) in
      match r with
      | Err e => (s, Err e)
      | Ok _ => (s, finish (total_param_num (stats loader)) s)
      end
  end.

(** [kind] and [model_dtype] of the quantization; [pre_shards_num] is the environment
    variable [MLC_INTERNAL_PRESHARD_NUM]. *)
Definition set_shards (v : pyval) (c : Config.config) : Config.config :=
  {| config_class_of := config_class_of c;
     values := <["tensor_parallel_shards" := v]> (values c); Config.kwargs := Config.kwargs c |}.

Definition _convert_args (m : Model) (cfg : Config.config) (kind model_dtype : string)
    (pre_shards_num : option string) (source source_format : string) : state * result unit :=
  let setup :=
    _ ← (if decide (kind = "ft-quant") then
           match shards_of cfg with
           | Some n => more ← py_ltb (PInt 1) n; raise_when more NotImplementedError ""
           | None => Ok tt
           end
         else Ok tt);
    n ← match pre_shards_num with
        | Some s => match py_int s with
                    | Some n => Ok (Some n) | None => raise ValueError "invalid literal for int()" end
        | None => Ok None
        end;
    let cfg := match n with Some n => set_shards (PInt n) cfg | None => cfg end in
    f ← quantize_function m kind;
    let '(calls, r) := f cfg model_dtype in
    _ ← (r : result unit);
    '(params, q) ← (network calls cfg);
    Ok (n, cfg, foldl (λ d p, dict_set p.1 p.2 d) [] params, q) in
  match setup with
  | Err e => (start [], Err e)
  | Ok (n, cfg, params, q) =>
      let preshard :=
        (λ _, (λ p : string * string, (p.1, shard_func p.2)) <$> preshard_strategies params) <$> n in
      write source source_format m cfg q preshard (model_params n params)
  end.

(** [convert_weight]: an adapter is merged into the base model first. *)
Definition convert_weight (merge : string → string → result (string * string)) (m : Model)
    (cfg : Config.config) (kind model_dtype : string) (pre_shards_num : option string)
    (source source_format : string) (lora_adapter : option string) : state * result unit :=
  match lora_adapter with
  | None => _convert_args m cfg kind model_dtype pre_shards_num source source_format
  | Some adapter =>
      let merged :=
        _ ← raise_when (negb (bool_decide (source_format ∈ hf_sources))) ValueError
              "`--lora-adapter` only supports source formats: {sorted(allowed_lora_source_formats)}";
        merge source adapter in
      match merged with
      | Err e => (start [], Err e)
      | Ok (source, source_format) =>
          _convert_args m cfg kind model_dtype pre_shards_num source source_format
      end
  end.

(** ** Every parameter is written once *)

Definition fits (spec : param_spec) (t : tensor) : Prop :=
  _check_shape (shape_of t) (shape spec) = true ∧ dtype_of t = dtype spec.

Lemma param_generator_Ok item s s' :
  param_generator item s = (s', Ok tt) →
  (∃ spec, dict_get item.1 (named_params s) = Some spec ∧ fits spec item.2) ∧
  s' = {| named_params := dict_delete item.1 (named_params s);
          param_names := param_names s ++ [item.1];
          total_bytes := total_bytes s + tensor_bytes item.2;
          dumped := dumped s ++ [item] |}.
Proof.
  unfold param_generator. destruct (_check_param s item.1 item.2) as [u|e] eqn:E; [|done].
  intros [= <-]. split; [|done]. unfold _check_param in E.
  destruct (dict_get item.1 (named_params s)) as [spec|]; [|done]. exists spec. split; [done|].
  ok_inv. bool_inv. by split.
Qed.

(** What draining the generator leaves: the parameters that were not produced. *)
Lemma drain items s s' :
  NoDup (named_params s).*1 → st_iter param_generator items s = (s', Ok tt) →
  (named_params s).*1 ≡ₚ items.*1 ++ (named_params s').*1 ∧
  Forall (λ item, ∃ spec, (item.1, spec) ∈ named_params s ∧ fits spec item.2) items ∧
  dumped s' = dumped s ++ items ∧
  total_bytes s' = (total_bytes s + zsum ((λ p, tensor_bytes p.2) <$> items))%Z.
Proof.
  revert s. induction items as [|item items IH]; intros s Hnd H; simpl in H.
  { injection H as <-. rewrite app_nil_r. csimpl. split_and!; [done|constructor|done|lia]. }
  rewrite st_bind_Ok in H. destruct H as ([] & s1 & [(spec & Hget & Hfit) ->]%param_generator_Ok & H).
  pose proof (dict_delete_perm _ _ _ Hget) as Hp.
  apply IH in H as (Hperm & Hall & Hd & Hb); cbn [named_params dumped total_bytes] in *.
  2: { rewrite dict_delete_keys by done. by apply NoDup_filter. }
  split_and!.
  - rewrite (fmap_Permutation fst _ _ Hp). csimpl. by rewrite Hperm.
  - constructor; [exists spec; split; [by apply dict_get_elem|done]|].
    eapply Forall_impl; [exact Hall|]. intros x (sp & Hin & Hf). exists sp. split; [|done].
    by eapply dict_delete_sub.
  - rewrite Hd. by rewrite <-app_assoc.
  - rewrite Hb. csimpl. lia.
Qed.

Context (read_NoDup : ∀ path, NoDup (read_file path).1.*1).
Context (nbytes_nonneg : ∀ a, (0 ≤ nbytes a)%Z).

(** What is written: each parameter once, as the model declares it. *)
Definition complete (params : list (string * param_spec)) (s : state) : Prop :=
  (dumped s).*1 ≡ₚ params.*1 ∧
  Forall (λ item, ∃ spec, (item.1, spec) ∈ params ∧ fits spec item.2) (dumped s) ∧
  total_bytes s = zsum ((λ p, tensor_bytes p.2) <$> dumped s).

(** What is written: for each parameter in the loading order, what it is computed
    from the weight files, quantized and sharded. *)
Definition computed (em : ExternMapping array) (q : QuantizeMapping tensor)
    (preshard : option (list (string * (tensor → result (list tensor))))) (s : state) : Prop :=
  ∃ ttp outs, map_m (outputs as_tensor read_file em ttp (Some q) preshard) (_loading_order (param_map em) ttp)
    = Ok outs ∧ dumped s = concat outs.

Lemma write_complete source source_format m cfg q preshard params s :
  NoDup params.*1 → write source source_format m cfg q preshard params = (s, Ok tt) →
  complete params s ∧
  ∃ f em, dict_get source_format (ModelRegistry.source m) = Some f ∧ extern_mapping f cfg = Ok em ∧
    computed em q preshard s.
Proof.
  intros Hnd H. unfold write in H.
  match goal with H : context [match ?setup with Ok _ => _ | Err _ => _ end] |- _ =>
    destruct setup as [loader|e] eqn:Hset; [|done] end.
  ok_inv. rename H into Hload.
  match goal with H : get_key source_format _ = Ok ?f, H' : extern_mapping ?f cfg = Ok ?em |- _ =>
    apply get_key_Ok in H; rename H into Hf; rename H' into Hem; rename em into em0 end.
  destruct (load nbytes size as_tensor read_file param_generator preshard (loader, start params))
    as [[l' s'] [[]|e]] eqn:Hrun; [|done].
  injection Hload as -> Hfin. unfold finish in Hfin. ok_inv. bool_inv.
  destruct (load_returns nbytes size as_tensor read_file read_NoDup nbytes_nonneg is_file
    weight_map em0 (Some q) param_generator preshard source loader Hset (start params) s l' Hrun) as (outs & Ho & Hc).
  apply drain in Hc as (Hperm & Hall & Hd & Hb); [|done]. cbn [named_params dumped total_bytes start] in *.
  rewrite app_nil_l in Hd. split.
  - unfold complete. rewrite Hd. split_and!; [|done|by rewrite Hb].
    rewrite Hperm. match goal with H : named_params s = [] |- _ => rewrite H end. by rewrite app_nil_r.
  - eexists _, em0. split_and!; [done..|]. by exists (torch_to_path loader), outs.
Qed.

Lemma foldl_dict_NoDup {A} (l d : list (string * A)) :
  NoDup d.*1 → NoDup (foldl (λ d p, dict_set p.1 p.2 d) d l).*1.
Proof. revert d. induction l as [|p l IH]; intros d H; simpl; [done|]. apply IH. by apply dict_set_NoDup. Qed.
Lemma preshard_NoDup n params : NoDup (preshard_params n params).*1.
Proof.
  unfold preshard_params. assert (NoDup ([] : list (string * param_spec)).*1) as H by constructor.
  revert H. generalize ([] : list (string * param_spec)) as d.
  induction params as [|p params IH]; intros d H; simpl; [done|]. apply IH. by apply foldl_dict_NoDup.
Qed.

(** C21. A conversion that ends normally has written every parameter of the (presharded)
    model exactly once, in its declared shape and type, computed from the weight
    files by the mapping of the source format and the quantization of the model. *)
Theorem convert_complete m cfg kind model_dtype pre_shards_num source source_format s :
  _convert_args m cfg kind model_dtype pre_shards_num source source_format = (s, Ok tt) →
  ∃ calls cfg' named q n f em,
    network calls cfg' = Ok (named, q) ∧
    complete (model_params n (foldl (λ d p, dict_set p.1 p.2 d) [] named)) s ∧
    dict_get source_format (ModelRegistry.source m) = Some f ∧ extern_mapping f cfg' = Ok em ∧
    ∃ preshard, computed em q preshard s.
Proof.
  intros H. unfold _convert_args in H.
  match goal with H : context [match ?setup with Ok _ => _ | Err _ => _ end] |- _ =>
    destruct setup as [[[[n cfg'] params] q]|e] eqn:Hset; [|done] end.
  ok_inv. rename H into Hwrite.
  match goal with H : (let '(_, _) := ?x in _) = Ok _ |- _ => destruct x as [calls r]; ok_inv end.
  match goal with H : (let '(_, _) := ?x in _) = Ok _ |- _ => destruct x as [named q0]; ok_inv end.
  apply write_complete in Hwrite as (Hcomplete & f & em & Hf & Hem & Hcomp).
  - eexists _, _, named, _, n, f, em. split_and!; [eassumption|done..|]. by eexists.
  - assert (NoDup (foldl (λ d p, dict_set p.1 p.2 d) [] named).*1) as Hnd
      by (apply foldl_dict_NoDup; constructor).
    destruct n; [apply preshard_NoDup|exact Hnd].
Qed.
End convert.

(** ** Witness *)

Module Example.
Import Loader.Example.

Definition vector : param_spec := {| shape := [Some 2%Z; None]; dtype := "float16"; shard_strategy := None |}.
Definition network (_ : list call) (_ : Config.config) :
    result (list (string * param_spec) * QuantizeMapping Z) :=
  Ok ([("qkv", vector); ("o_proj", vector)], {| q_param_map := []; q_map_func := [] |}).
Definition cfg : Config.config := {| config_class_of := ModelConfigs.LlamaConfig; values := ∅; Config.kwargs := ∅ |}.
Definition converted : @state Z * result unit :=
  _convert_args (λ _, [2; 3]%Z) (λ _, "float16") (λ _, 2%Z) nbytes (λ _, 1%Z) (λ x, x) read_file
    (λ _, true) weight_map network (λ _ _, Ok []) (λ _ _, Ok mapping) model_llama cfg "no-quant" "float16"
    None index "huggingface-safetensor".

Lemma converts : converted.2 = Ok tt ∧ dumped converted.1 = [("qkv", 6%Z); ("o_proj", 4%Z)].
Proof. by vm_compute. Qed.

Lemma convert_complete_witness :
  ∃ n named, (dumped converted.1).*1 ≡ₚ
    (model_params n (foldl (λ d p, dict_set p.1 p.2 d) [] named)).*1.
Proof.
  destruct (convert_complete (λ _, [2; 3]%Z) (λ _, "float16") (λ _, 2%Z) nbytes (λ _, 1%Z) (λ x, x) read_file
    (λ _, true) weight_map network (λ _ _, Ok []) (λ _ _, Ok mapping) read_NoDup nbytes_nonneg
    model_llama cfg "no-quant" "float16" None index "huggingface-safetensor" converted.1)
    as (calls & cfg' & named & q & n & f & em & _ & [H _] & _).
  - reflexivity.
  - exists n, named. exact H.
Defined.
End Example.
