(* ===== verification/StandardLoader.v ===== *)
(** The mapping of the common HuggingFace layout: [make_standard_hf_loader] of
    [python/mlc_llm/loader/standard_loader.py], with what every loader of a model
    uses: the exported parameters, arrays, and the construction of a mapping.

    The arrays of NumPy are an interface, [Numpy]; building and exporting a network
    is a parameter. *)

From Stdlib Require Import Lia ZArith.
From stdpp Require Import base gmap strings list pretty.
From S2P Require Import Prelude PyString PyObject Flags Config QuantRegistry Loader ConvertWeight.

(** ** Arrays *)

(** The sections of [np.split]: equal parts, or the indices to cut at. *)
Inductive sections := Equal (n : Z) | At (indices : list Z).

(** The operations of NumPy the loaders apply; [transpose] without axes reverses
    them. *)
Class Numpy (array : Type) := {
  np_shape : array → list Z;
  astype : string → array → result array;
  concatenate : Z → list array → result array;
  stack : Z → list array → result array;
  transpose : option (list Z) → array → result array;
  reshape : list Z → array → result array;
  split : sections → Z → array → result (list array);
  add_scalar : Z → array → array;
  div_scalar : Z → array → result array;
  np_exp : array → array;
  negative : array → array;
  allclose : array → array → result bool;
  full : list Z → array → string → result array;
  broadcast_to : list Z → array → result array;
  repeat_each : Z → array → result array;
}.

(** A function of a fixed number of positional arguments, called with a list. *)
Definition bad_arguments {A} : result A := raise TypeError "wrong number of positional arguments".
Definition of_1 {A} (f : A → result A) (l : list A) : result A :=
  match l with [x] => f x | _ => bad_arguments end.
Definition of_2 {A} (f : A → A → result A) (l : list A) : result A :=
  match l with [x; y] => f x y | _ => bad_arguments end.
Definition of_3 {A} (f : A → A → A → result A) (l : list A) : result A :=
  match l with [x; y; z] => f x y z | _ => bad_arguments end.
Definition of_4 {A} (f : A → A → A → A → result A) (l : list A) : result A :=
  match l with [x; y; z; w] => f x y z w | _ => bad_arguments end.

Section transforms.
Context `{Numpy array}.

(** A map function before its [dtype] is fixed. *)
Abbreviation transform := (string → list array → result array).

Definition cast : transform := λ dtype, of_1 (astype dtype).
Definition concat_qkv (axis : Z) : transform := λ dtype,
  of_3 (λ q k v, w ← concatenate axis [q; k; v]; astype dtype w).
Definition concat_gate_up (axis : Z) : transform := λ dtype,
  of_2 (λ gate up, w ← concatenate axis [gate; up]; astype dtype w).
End transforms.
Abbreviation transform array := (string → list array → result array).

(** ** Networks *)

(** How a loader builds the network whose parameters it maps: a class, moved to a
    type; quantized by AWQ; or by block scales. *)
Inductive build :=
  | Plain (cls : string) (to_dtype : option string)
  | Awq (cls : string)
  | BlockScaled (cls dtype : string).

(** The name of the parsed [model_dtype] of [Quantization.GroupQuantize], whose
    [__post_init__] admits these two codes only. *)
Definition dtype_name (t : Quantization.DataType) : string :=
  match Quantization.code t with Quantization.BFLOAT => "bfloat" | _ => "float" end
    +:+ pretty (Quantization.bits t).
Definition model_dtype (q : Quantization) : string :=
  match qz_method q with
  | MNo c => no_model_dtype c
  | MGroup c => dtype_name (Quantization.model_dtype c)
  | MAWQ c => awq_model_dtype c
  | MFT c => ft_model_dtype c
  | MPerTensor c => pt_model_dtype c
  | MBlockScale c => bs_model_dtype c
  end.
Definition block_scale (q : option Quantization) : option BlockScaleQuantize :=
  match q with Some {| qz_method := MBlockScale c |} => Some c | _ => None end.

(** [dict(l)]. *)
Definition to_dict {A} (l : list (string * A)) : list (string * A) :=
  foldl (λ d p, dict_set p.1 p.2 d) [] l.

Section networks.
(** The parameters [export_tvm] names, for the networks of the classes. *)
Context (built : build → Config.config → result (list (string * param_spec))).

(** [export_tvm] returns a pair, and with [allow_extern] a triple; the caller unpacks
    [n] values. *)
Definition exported (b : build) (cfg : Config.config) (allow_extern : bool) (n : nat) :
    result (list (string * param_spec)) :=
  named ← built b cfg;
  _ ← raise_when (negb (bool_decide (n = if allow_extern then 3 else 2))) ValueError
        "wrong number of values to unpack";
  Ok (to_dict named).
End networks.

(** [model_config.k], and [range(model_config.k)]. *)
Definition attribute (cfg : Config.config) (k : string) : result pyval :=
  match values cfg !! k with Some v => Ok v | None => attr_error end.
Definition range_of (n : pyval) : result (list Z) := py_range (PInt 0) n (PInt 1).

(** ** Building a mapping *)

Section building.
Context {array : Type}.
Abbreviation mapM := (stM (ExternMapping array)).
Context (named : list (string * param_spec)).

(** [mapping.add_mapping(name, sources, partial(f, dtype=named_parameters[name].dtype))]. *)
Definition map_as (param name : string) (sources : list string) (f : transform array) : mapM unit :=
  p ← st_lift (get_key param named);
  st_modify (add_mapping name sources (f (dtype p))).
Definition map_to (name : string) (sources : list string) (f : transform array) : mapM unit :=
  map_as name name sources f.
Definition unused (name : string) : mapM unit := st_modify (add_unused name).

(** [if name not in mapping.param_map: …]. *)
Definition unless_mapped (name : string) (c : mapM unit) : mapM unit :=
  m ← st_get; if has_key name (param_map m) then mret tt else c.

(** The loop over the parameters that are left. *)
Definition map_rest (source : string → string) (f : string → transform array) : mapM unit :=
  st_iter (λ p : string * param_spec, unless_mapped p.1 (map_to p.1 [source p.1] (f p.1))) named.

Definition run_mapping (c : mapM unit) : result (ExternMapping array) :=
  match c empty_mapping with (m, Ok _) => Ok m | (_, Err e) => Err e end.
End building.

(** ** [make_standard_hf_loader] *)

Record standard_options := {
  model_cls : string;
  layer_prefix : string;
  qkv_names : list string;
  qkv_concat_axis : Z;
  qkv_target_name : string;
  add_qkv_bias : bool;
  qkv_bias_optional : bool;
  gate_up_names : list string;
  gate_up_concat_axis : Z;
  gate_up_target_name : string;
  include_qkv : bool;
  include_gate_up : bool;
  unused_names : list string;
  hf_prefix : string;
  name_transform : option (string → string);
  num_layers_getter : option (Config.config → result pyval);
}.

(** The defaults. *)
Definition standard (cls : string) : standard_options := {|
  model_cls := cls; layer_prefix := "model.layers";
  qkv_names := ["q_proj"; "k_proj"; "v_proj"]; qkv_concat_axis := 0; qkv_target_name := "qkv_proj";
  add_qkv_bias := false; qkv_bias_optional := false;
  gate_up_names := ["gate_proj"; "up_proj"]; gate_up_concat_axis := 0;
  gate_up_target_name := "gate_up_proj"; include_qkv := true; include_gate_up := true;
  unused_names := []; hf_prefix := "model."; name_transform := None; num_layers_getter := None |}.

(** [name[6:] if name.startswith("model.") else name]. *)
Definition strip_model (name : string) : string := default name (strip_prefix "model." name).
Definition _default_name_transform (hf_prefix name : string) : string :=
  if decide (hf_prefix = "") then strip_model name else name.

Section standard_loader.
Context `{Numpy array}.
Context (o : standard_options).

Definition with_qkv : bool := include_qkv o && negb (bool_decide (qkv_names o = [])).
Definition with_gate_up : bool := include_gate_up o && negb (bool_decide (gate_up_names o = [])).
Definition name_transform_fn : string → string :=
  default (_default_name_transform (hf_prefix o)) (name_transform o).

Context (named : list (string * param_spec)).
Abbreviation mapM := (stM (ExternMapping array)).

(** The attention, the feed-forward and the unused parameters of a layer. *)
Definition map_qkv (attn : string) : mapM unit :=
  if with_qkv then
    map_to named (attn +:+ "." +:+ qkv_target_name o +:+ ".weight")
      ((λ n, name_transform_fn (attn +:+ "." +:+ n +:+ ".weight")) <$> qkv_names o)
      (concat_qkv (qkv_concat_axis o)) ;;
    let bias := attn +:+ "." +:+ qkv_target_name o +:+ ".bias" in
    if add_qkv_bias o && (negb (qkv_bias_optional o) || has_key bias named) then
      map_to named bias ((λ n, name_transform_fn (attn +:+ "." +:+ n +:+ ".bias")) <$> qkv_names o)
        (concat_qkv (qkv_concat_axis o))
    else mret tt
  else mret tt.
Definition map_gate_up (mlp : string) : mapM unit :=
  if with_gate_up then
    map_to named (mlp +:+ "." +:+ gate_up_target_name o +:+ ".weight")
      ((λ n, name_transform_fn (mlp +:+ "." +:+ n +:+ ".weight")) <$> gate_up_names o)
      (concat_gate_up (gate_up_concat_axis o))
  else mret tt.
Definition map_layer (i : Z) : mapM unit :=
  let attn := layer_prefix o +:+ "." +:+ pretty i +:+ ".self_attn" in
  map_qkv attn ;;
  map_gate_up (layer_prefix o +:+ "." +:+ pretty i +:+ ".mlp") ;;
  st_iter (λ n, unused (name_transform_fn (attn +:+ "." +:+ n))) (unused_names o).

(** The body of the loader function, after the export. *)
Definition map_standard (cfg : Config.config) : mapM unit :=
  (if with_qkv || with_gate_up || negb (bool_decide (unused_names o = [])) then
     layers ← st_lift (n ← match num_layers_getter o with
                           | None => attribute cfg "num_hidden_layers"
                           | Some getter => getter cfg
                           end;
                       range_of n);
     st_iter map_layer layers
   else mret tt) ;;
  map_rest named name_transform_fn (λ _, cast).
End standard_loader.

Definition loader_fn (array : Type) : Type :=
  Config.config → option Quantization → result (ExternMapping array).

Definition make_standard_hf_loader `{Numpy array}
    (built : build → Config.config → result (list (string * param_spec))) (o : standard_options) :
    loader_fn array := λ cfg q,
  named ← exported built (Plain (model_cls o) (model_dtype <$> q)) cfg true 3;
  run_mapping (map_standard o named cfg).
