(* ===== verification/ModelLoaders.v ===== *)
(** The loaders of the models: [python/mlc_llm/model/*/*_loader.py].

    A loader maps the parameters of a network to the weights of a checkpoint. The
    network is built and exported by the parameter [built] of [StandardLoader]; a
    parameter the mapping does not need to transform is mapped by name. The
    file [LoaderCoverage] states which parameters each loader maps. *)

From Stdlib Require Import Lia ZArith.
From stdpp Require Import base gmap strings list pretty.
From S2P Require Import Prelude PyString PyObject Flags Config NestedConfigs QuantRegistry ModelRegistry Loader ConvertWeight StandardLoader.

(** ** Strings and configurations *)

(** [s.replace(old, new, 1)] with a non-empty [old]. *)
Definition replace_first (old new s : string) : string :=
  match cut old s with Some (a, b) => a +:+ new +:+ b | None => s end.
(** [a.b], and [prefix.i]. *)
Definition dot (a b : string) : string := a +:+ "." +:+ b.
Definition nth_of (prefix : string) (i : Z) : string := dot prefix (pretty i).
Infix "./" := dot (at level 60, right associativity).

(** A property of the configuration, computed by one of its methods. *)
Definition eval_on {A} (cfg : Config.config) (c : py A) : result A :=
  (c (mkObj (values cfg) (Config.kwargs cfg))).2.
Definition has_text_layers (cfg : Config.config) : result pyval :=
  eval_on cfg (sub "text_config" "num_hidden_layers").

(** [for i in range(model_config.k)]. *)
Definition layers_of (cfg : Config.config) (k : string) : result (list Z) :=
  n ← attribute cfg k; range_of n.

Section loaders.
Context `{Numpy array}.
Context (built : build → Config.config → result (list (string * param_spec))).
Abbreviation mapM := (stM (ExternMapping array)).
Abbreviation named_t := (list (string * param_spec)).

Definition when_m (b : bool) (c : mapM unit) : mapM unit := if b then c else mret tt.
(** A loop whose range may raise. *)
Definition for_layers (r : result (list Z)) (body : Z → mapM unit) : mapM unit :=
  l ← st_lift r; st_iter body l.

(** A loader: build the network, export it, fill the mapping. *)
Definition mapped (b : build) (cfg : Config.config) (allow_extern : bool) (n : nat)
    (body : named_t → mapM unit) : result (ExternMapping array) :=
  named ← exported built b cfg allow_extern n; run_mapping (body named).
Definition plain_network (cls : string) (q : option Quantization) : build :=
  Plain cls (model_dtype <$> q).

(** The functions several loaders share. *)
Definition plus_one : transform array := λ dtype, of_1 (λ x, astype dtype (add_scalar 1 x)).
Definition stack_all : transform array := λ dtype l, w ← stack 0 l; astype dtype w.
Fixpoint concat_pairs (l : list array) : result (list array) :=
  match l with
  | [] => Ok []
  | [_] => raise IndexError "tuple index out of range"
  | x :: y :: l => w ← concatenate 0 [x; y]; ws ← concat_pairs l; Ok (w :: ws)
  end.
Definition combine_expert_gate_up : transform array := λ dtype l,
  ws ← concat_pairs l; w ← stack 0 ws; astype dtype w.

(** The names of the experts' weights; [reduce] refuses an empty list. *)
Definition expert_names (experts : list Z) (mlp a : string) : list string :=
  (λ e, nth_of (mlp ./ "experts") e ./ a ./ "weight") <$> experts.
Definition expert_pairs (experts : list Z) (mlp a b : string) : result (list string) :=
  match experts with
  | [] => raise TypeError "reduce() of empty iterable with no initial value"
  | _ => Ok (concat ((λ e, [nth_of (mlp ./ "experts") e ./ a ./ "weight";
                            nth_of (mlp ./ "experts") e ./ b ./ "weight"]) <$> experts))
  end.

Section named.
Context (named : named_t).

(** [_add]: a parameter from one source, as it is. *)
Definition _add (mlc_name hf_name : string) : mapM unit := map_to named mlc_name [hf_name] cast.
Definition rest : mapM unit := map_rest named (λ n, n) (λ _, cast).
Definition concat_at (mlc_name : string) (hf_names : list string) : mapM unit :=
  map_to named mlc_name hf_names (concat_qkv 0).
Definition gate_up_at (mlc_name : string) (hf_names : list string) : mapM unit :=
  map_to named mlc_name hf_names (concat_gate_up 0).
Definition qkv_sources (attn suffix : string) : list string :=
  (λ n, attn ./ n ./ suffix) <$> ["q_proj"; "k_proj"; "v_proj"].
Definition gate_up_sources (mlp suffix : string) : list string :=
  (λ n, mlp ./ n ./ suffix) <$> ["gate_proj"; "up_proj"].

(** ** AWQ *)

Definition awq_suffixes : list string := ["qweight"; "qzeros"; "scales"].
Definition assert_named (name : string) : mapM unit := st_lift (py_assert (has_key name named) "").
Definition awq_qkv (axis : Z) (attn suffix : string) : mapM unit :=
  assert_named (attn ./ "qkv_proj" ./ suffix) ;;
  map_to named (attn ./ "qkv_proj" ./ suffix) (qkv_sources attn suffix) (concat_qkv axis).
Definition awq_gate_up (axis : Z) (mlp suffix : string) : mapM unit :=
  assert_named (mlp ./ "gate_up_proj" ./ suffix) ;;
  map_to named (mlp ./ "gate_up_proj" ./ suffix) (gate_up_sources mlp suffix) (concat_gate_up axis).
Definition awq_layer (axis : Z) (prefix : string) (i : Z) : mapM unit :=
  let attn := nth_of prefix i ./ "self_attn" in
  let mlp := nth_of prefix i ./ "mlp" in
  st_iter (awq_qkv axis attn) awq_suffixes ;;
  st_iter (awq_gate_up axis mlp) awq_suffixes ;;
  unused (attn ./ "rotary_emb.inv_freq").
Definition awq_mapping (axis : Z) (prefix : string) (layers : result (list Z)) : mapM unit :=
  for_layers layers (awq_layer axis prefix) ;; rest.

(** [add_one] of the Gemma loaders. *)
Definition add_one (name source : string) : mapM unit := map_to named name [source] plus_one.

(** [add_weight_and_scale_mapping]: the scales of block quantization as the weight. *)
Definition add_weight_and_scale_mapping (q : option Quantization) (name : string)
    (sources : list string) (f : transform array) : mapM unit :=
  map_to named name sources f ;;
  when_m (bool_decide (is_Some (block_scale q)) && has_key (name +:+ "_scale_inv") named)
    (map_to named (name +:+ "_scale_inv") ((λ n, n +:+ "_scale_inv") <$> sources) f).
End named.

(** ** The standard layout *)

Definition rotary : list string := ["rotary_emb.inv_freq"].
Definition with_unused (o : standard_options) (l : list string) : standard_options := {|
  model_cls := model_cls o; layer_prefix := layer_prefix o; qkv_names := qkv_names o;
  qkv_concat_axis := qkv_concat_axis o; qkv_target_name := qkv_target_name o;
  add_qkv_bias := add_qkv_bias o; qkv_bias_optional := qkv_bias_optional o;
  gate_up_names := gate_up_names o; gate_up_concat_axis := gate_up_concat_axis o;
  gate_up_target_name := gate_up_target_name o; include_qkv := include_qkv o;
  include_gate_up := include_gate_up o; unused_names := l; hf_prefix := hf_prefix o;
  name_transform := name_transform o; num_layers_getter := num_layers_getter o |}.
Definition with_attention (o : standard_options) (prefix : string) (names : list string)
    (target : string) (include bias optional : bool) : standard_options := {|
  model_cls := model_cls o; layer_prefix := prefix; qkv_names := names;
  qkv_concat_axis := qkv_concat_axis o; qkv_target_name := target;
  add_qkv_bias := bias; qkv_bias_optional := optional;
  gate_up_names := gate_up_names o; gate_up_concat_axis := gate_up_concat_axis o;
  gate_up_target_name := gate_up_target_name o; include_qkv := include;
  include_gate_up := include_gate_up o; unused_names := unused_names o; hf_prefix := hf_prefix o;
  name_transform := name_transform o; num_layers_getter := num_layers_getter o |}.
Definition with_mlp (o : standard_options) (names : list string) (include : bool) : standard_options := {|
  model_cls := model_cls o; layer_prefix := layer_prefix o; qkv_names := qkv_names o;
  qkv_concat_axis := qkv_concat_axis o; qkv_target_name := qkv_target_name o;
  add_qkv_bias := add_qkv_bias o; qkv_bias_optional := qkv_bias_optional o;
  gate_up_names := names; gate_up_concat_axis := gate_up_concat_axis o;
  gate_up_target_name := gate_up_target_name o; include_qkv := include_qkv o;
  include_gate_up := include; unused_names := unused_names o; hf_prefix := hf_prefix o;
  name_transform := name_transform o; num_layers_getter := num_layers_getter o |}.
Definition with_names (o : standard_options) (f : option (string → string))
    (layers : option (Config.config → result pyval)) : standard_options := {|
  model_cls := model_cls o; layer_prefix := layer_prefix o; qkv_names := qkv_names o;
  qkv_concat_axis := qkv_concat_axis o; qkv_target_name := qkv_target_name o;
  add_qkv_bias := add_qkv_bias o; qkv_bias_optional := qkv_bias_optional o;
  gate_up_names := gate_up_names o; gate_up_concat_axis := gate_up_concat_axis o;
  gate_up_target_name := gate_up_target_name o; include_qkv := include_qkv o;
  include_gate_up := include_gate_up o; unused_names := unused_names o; hf_prefix := hf_prefix o;
  name_transform := f; num_layers_getter := layers |}.
Definition qkv_default : list string := ["q_proj"; "k_proj"; "v_proj"].
Definition gate_up_default : list string := ["gate_proj"; "up_proj"].

(** [_cohere_name_transform]. *)
Definition _cohere_name_transform (name : string) : string :=
  if contains "out_proj." name then replace "out_proj." "o_proj." name else name.

Definition llama_options := with_unused (standard "LlamaForCausalLM") rotary.
Definition mistral_options := with_unused (standard "MistralForCausalLM") rotary.
Definition orion_options := with_unused (standard "OrionForCausalLM") rotary.
Definition olmo_options := with_unused (standard "OLMoForCausalLM") rotary.
Definition olmo2_options := with_unused (standard "OLMo2ForCausalLM") rotary.
Definition eagle_options :=
  with_unused (with_attention (standard "EagleForCausalLM") "layers" qkv_default "qkv_proj" true false false) rotary.
Definition baichuan_options :=
  with_attention (standard "BaichuanForCausalLM") "model.layers" qkv_default "qkv_proj" false false false.
Definition gpt_bigcode_options :=
  with_mlp (with_attention (standard "GPTBigCodeForCausalLM") "model.layers" qkv_default "qkv_proj"
    false false false) gate_up_default false.
Definition medusa_options :=
  with_mlp (with_attention (standard "MedusaModel") "model.layers" qkv_default "qkv_proj"
    false false false) gate_up_default false.
Definition stablelm_options :=
  with_attention (standard "StableLmForCausalLM") "model.layers" qkv_default "qkv_proj" true true true.
Definition qwen2_options :=
  with_unused (with_attention (standard "QWen2LMHeadModel") "model.layers" qkv_default "c_attn"
    true true false) rotary.
Definition internlm_options :=
  with_unused (with_attention (standard "InternLMForCausalLM") "model.layers" qkv_default "wqkv_pack"
    true true true) rotary.
Definition qwen_options :=
  with_mlp (with_attention (standard "QWenLMHeadModel") "transformer.h" [] "qkv_proj"
    false false false) ["w1"; "w2"] true.
Definition nemotron_options :=
  with_mlp (with_unused (standard "NemotronForCausalLM") rotary) gate_up_default false.
Definition gpt_j_options :=
  with_names (with_mlp (with_attention (standard "GPTJForCausalLM") "transformer.h" qkv_default "c_attn"
    true false false) gate_up_default false) None (Some (λ cfg, attribute cfg "n_layer")).
Definition cohere_options :=
  with_names (with_mlp (standard "CohereForCausalLM") gate_up_default false)
    (Some _cohere_name_transform) None.
Definition llava_options :=
  with_names (with_unused (with_attention (standard "LlavaForCausalLM") "language_model.model.layers"
    qkv_default "qkv_proj" true false false) rotary) None (Some has_text_layers).

Definition standard_loader (o : standard_options) : loader_fn array := make_standard_hf_loader built o.

(** ** AWQ checkpoints *)

Definition llama_awq : loader_fn array := λ cfg q,
  mapped (Awq "LlamaForCausalLM") cfg true 3 (λ named,
    awq_mapping named 1 "model.layers" (layers_of cfg "num_hidden_layers")).
Definition eagle_awq : loader_fn array := λ cfg q,
  mapped (Awq "EagleForCausalLM") cfg true 3 (λ named,
    awq_mapping named 1 "layers" (layers_of cfg "num_hidden_layers")).
Definition olmo_awq : loader_fn array := λ cfg q,
  mapped (Awq "OLMoForCausalLM") cfg true 3 (λ named,
    awq_mapping named 1 "model.layers" (layers_of cfg "num_hidden_layers")).
(** These two concatenate along axis 0; the first unpacks a pair. *)
Definition mistral_awq : loader_fn array := λ cfg q,
  mapped (Awq "MistralForCausalLM") cfg true 2 (λ named,
    awq_mapping named 0 "model.layers" (layers_of cfg "num_hidden_layers")).
Definition llava_awq : loader_fn array := λ cfg q,
  mapped (Awq "LlavaForCausalLM") cfg false 2 (λ named,
    awq_mapping named 0 "language_model.model.layers" (n ← has_text_layers cfg; range_of n)).

Definition cohere_awq_layer (named : named_t) (i : Z) : mapM unit :=
  let attn := nth_of "model.layers" i ./ "self_attn" in
  let mlp := nth_of "model.layers" i ./ "mlp" in
  st_iter (λ suffix,
    awq_qkv named 1 attn suffix ;;
    _add named (attn ./ "out_proj" ./ suffix) (attn ./ "o_proj" ./ suffix)) awq_suffixes ;;
  st_iter (λ suffix,
    st_iter (λ proj, _add named (mlp ./ proj ./ suffix) (mlp ./ proj ./ suffix))
      ["up_proj"; "gate_proj"; "down_proj"]) awq_suffixes.
Definition cohere_awq : loader_fn array := λ cfg q,
  mapped (Awq "CohereForCausalLM") cfg true 3 (λ named,
    for_layers (layers_of cfg "num_hidden_layers") (cohere_awq_layer named) ;; rest named).

(** ** Gemma *)

Definition add_norms (named : named_t) (norms : list string) (i : Z) : mapM unit :=
  st_iter (λ n, let name := nth_of "model.layers" i ./ n ./ "weight" in add_one named name name) norms.
Definition gemma_huggingface : loader_fn array := λ cfg q,
  mapped (plain_network "GemmaForCausalLM" q) cfg true 3 (λ named,
    map_standard (standard "GemmaForCausalLM") named cfg ;;
    for_layers (layers_of cfg "num_hidden_layers")
      (add_norms named ["input_layernorm"; "post_attention_layernorm"]) ;;
    add_one named "model.norm.weight" "model.norm.weight").
Definition gemma2_huggingface : loader_fn array := λ cfg q,
  mapped (plain_network "Gemma2ForCausalLM" q) cfg true 3 (λ named,
    map_standard (standard "Gemma2ForCausalLM") named cfg ;;
    for_layers (layers_of cfg "num_hidden_layers")
      (add_norms named ["input_layernorm"; "post_attention_layernorm";
                        "pre_feedforward_layernorm"; "post_feedforward_layernorm"]) ;;
    add_one named "model.norm.weight" "model.norm.weight").

Definition gemma3_name_transform (hf_prefix name : string) : string :=
  hf_prefix +:+ default name (strip_prefix "language_model." name).
Definition gemma3_options (hf_prefix : string) : standard_options :=
  with_names (with_attention (standard "Gemma3ForCausalLM") "language_model.model.layers" qkv_default
    "qkv_proj" false false false) (Some (gemma3_name_transform hf_prefix)) (Some has_text_layers).
Definition gemma3_add_one (named : named_t) (hf_prefix name : string) : mapM unit :=
  let mlc := "language_model." +:+ name in
  add_one named mlc (gemma3_name_transform hf_prefix mlc).
Definition gemma3_huggingface : loader_fn array := λ cfg q,
  mapped (plain_network "Gemma3ForCausalLM" q) cfg true 3 (λ named,
    is_text ← st_lift (attribute cfg "is_text_model");
    let hf_prefix := if PyObject.truthy is_text then "" else "language_model." in
    map_standard (gemma3_options hf_prefix) named cfg ;;
    for_layers (n ← has_text_layers cfg; range_of n) (λ i,
      st_iter (λ n, gemma3_add_one named hf_prefix (nth_of "model.layers" i ./ n ./ "weight"))
        ["input_layernorm"; "post_attention_layernorm"; "pre_feedforward_layernorm";
         "post_feedforward_layernorm"; "self_attn.k_norm"; "self_attn.q_norm"]) ;;
    gemma3_add_one named hf_prefix "model.norm.weight").

(** ** GPT-2, GPT-NeoX, ChatGLM *)

Definition transposed : transform array := λ dtype, of_1 (λ x, y ← transpose None x; astype dtype y).
(** [mlc_name.split(".", 1)[1]]. *)
Definition after_dot (name : string) : result string :=
  match cut "." name with Some (_, b) => Ok b | None => raise IndexError "list index out of range" end.
Definition gpt2_layer (named : named_t) (i : Z) : mapM unit :=
  unused (nth_of "h" i ./ "attn.bias") ;;
  st_iter (λ conv, let src := nth_of "h" i ./ conv ./ "weight" in
    map_to named ("transformer" ./ src) [src] transposed)
    ["attn.c_attn"; "attn.c_proj"; "mlp.c_proj"; "mlp.c_fc"].
Definition gpt2_huggingface : loader_fn array := λ cfg q,
  mapped (plain_network "GPT2LMHeadModel" q) cfg true 3 (λ named,
    map_as named "transformer.wte.weight" "lm_head.weight" ["wte.weight"] cast ;;
    for_layers (layers_of cfg "n_layer") (gpt2_layer named) ;;
    st_iter (λ p : string * param_spec, unless_mapped p.1 (
      source ← st_lift (after_dot p.1); map_to named p.1 [source] cast)) named).

(** The rows of each head, from one group per head to one group per projection. *)
Definition transform_qkv_layout (heads head_dim : Z) : transform array := λ dtype, of_1 (λ w,
  x ← reshape [heads; 3 * head_dim; -1]%Z w;
  qkv ← split (Equal 3) 1 x;
  y ← concatenate 0 qkv;
  z ← reshape (np_shape w) y;
  astype dtype z).
(** Both values are read when a weight is transformed. *)
Definition int_of (v : pyval) : result Z :=
  match as_int v with Some z => Ok z | None => raise TypeError "object cannot be interpreted as an integer" end.
Definition gpt_neox_layout (cfg : Config.config) : transform array := λ dtype l,
  heads ← attribute cfg "num_attention_heads";
  head_dim ← attribute cfg "head_dim";
  heads ← int_of heads; head_dim ← int_of head_dim;
  transform_qkv_layout heads head_dim dtype l.
(** The bias of a feed-forward layer gets the type of its output. *)
Definition gpt_neox_rest (named : named_t) (cfg : Config.config) (p : string * param_spec) : mapM unit :=
  unless_mapped p.1 (
    if contains ".dense_h_to_4h.bias" p.1 || contains ".dense_4h_to_h.bias" p.1 then
      v ← st_lift (attribute cfg "ffn_out_dtype");
      t ← st_lift (match v with PStr t => Ok t | _ => raise TypeError "data type not understood" end);
      st_modify (add_mapping p.1 [p.1] (cast t))
    else map_to named p.1 [p.1] cast).
Definition gpt_neox_layer (named : named_t) (cfg : Config.config) (i : Z) : mapM unit :=
  let attn := nth_of "gpt_neox.layers" i ./ "attention" in
  unused (attn ./ "rotary_emb.inv_freq") ;;
  unused (attn ./ "masked_bias") ;;
  unused (attn ./ "bias") ;;
  st_iter (λ n, let name := attn ./ "query_key_value" ./ n in
    map_to named name [name] (gpt_neox_layout cfg)) ["weight"; "bias"].
Definition gpt_neox_huggingface : loader_fn array := λ cfg q,
  mapped (plain_network "GPTNeoXForCausalLM" q) cfg true 3 (λ named,
    for_layers (layers_of cfg "num_hidden_layers") (gpt_neox_layer named cfg) ;;
    st_iter (gpt_neox_rest named cfg) named).

Definition chatglm3_huggingface : loader_fn array := λ cfg q,
  mapped (plain_network "ChatGLMForCausalLM" q) cfg true 3 (λ named,
    _add named "transformer.embedding.weight" "transformer.embedding.word_embeddings.weight" ;;
    rest named).

(** ** RWKV *)

Definition decay : transform array := λ dtype, of_1 (λ x,
  y ← astype dtype x; Ok (np_exp (negative (np_exp y)))).
(** [x / 2 ** t]. *)
Definition rescaled (t : Z) : transform array := λ dtype, of_1 (λ x,
  y ← astype dtype x; div_scalar (2 ^ t) y).
Definition block_names (i : Z) (n : string) : string * string :=
  (nth_of "model.blocks" i ./ n, nth_of "rwkv.blocks" i ./ n).
Definition rwkv_rescale (named : named_t) (cfg : Config.config) (i : Z) : mapM unit :=
  every ← st_lift (attribute cfg "rescale_every");
  positive ← st_lift (py_ltb (PInt 0) every);
  when_m positive (st_iter (λ n,
    let '(mlc_name, hf_name) := block_names i n in
    _ ← st_lift (get_key mlc_name named);
    t ← st_lift (t ← py_floordiv (PInt i) every; int_of t);
    map_to named mlc_name [hf_name] (rescaled t))
    ["feed_forward.value.weight"; "attention.output.weight"]).
Definition rwkv_rest (named : named_t) : mapM unit :=
  map_rest named (replace "model" "rwkv") (λ _, cast).
Definition rwkv5_layer (named : named_t) (cfg : Config.config) (i : Z) : mapM unit :=
  let '(mlc_name, hf_name) := block_names i "attention.time_decay" in
  p ← st_lift (get_key mlc_name named);
  st_lift (raise_when (negb (bool_decide (dtype p = "float32"))) ValueError
    "RWKV5 time_decay should be float32, got {mlc_param.dtype}") ;;
  map_to named mlc_name [hf_name] decay ;;
  rwkv_rescale named cfg i.
Definition rwkv5_huggingface : loader_fn array := λ cfg q,
  mapped (plain_network "RWKV5_ForCausalLM" q) cfg false 2 (λ named,
    for_layers (layers_of cfg "num_hidden_layers") (rwkv5_layer named cfg) ;; rwkv_rest named).
Definition rwkv6_huggingface : loader_fn array := λ cfg q,
  mapped (plain_network "RWKV6_ForCausalLM" q) cfg false 2 (λ named,
    for_layers (layers_of cfg "num_hidden_layers") (rwkv_rescale named cfg) ;; rwkv_rest named).

(** ** Phi *)

(** The parts of a block, by its names in the network and in the checkpoint. *)
Definition add_parts (named : named_t) (prefix hf_prefix : string) (parts : list (string * string)) : mapM unit :=
  st_iter (λ p : string * string, _add named (prefix ./ p.1) (hf_prefix ./ p.2)) parts.
Definition same (l : list string) : list (string * string) := (λ n, (n, n)) <$> l.

Definition phi_layer (named : named_t) (i : Z) : mapM unit :=
  let layer := nth_of "layers" (i + 1) in
  add_parts named (nth_of "transformer.h" i) layer (same
    ["ln.weight"; "ln.bias"; "mixer.Wqkv.weight"; "mixer.Wqkv.bias"; "mixer.out_proj.weight";
     "mixer.out_proj.bias"; "mlp.fc1.weight"; "mlp.fc1.bias"; "mlp.fc2.weight"; "mlp.fc2.bias"]) ;;
  unused (layer ./ "mixer.rotary_emb.inv_freq").
Definition phi_mixformer (named : named_t) (cfg : Config.config) : mapM unit :=
  _add named "transformer.embd.weight" "layers.0.wte.weight" ;;
  for_layers (layers_of cfg "n_layer") (phi_layer named) ;;
  n ← st_lift (n ← attribute cfg "n_layer"; n ← py_plus n (PInt 1); int_of n);
  add_parts named "lm_head" (nth_of "layers" n) (same ["ln.weight"; "ln.bias"; "linear.weight"; "linear.bias"]).
Definition phi_huggingface : loader_fn array := λ cfg q,
  mapped (plain_network "PhiForCausalLM" q) cfg false 2 (λ named,
    t ← st_lift (attribute cfg "model_type");
    if py_eqb t (PStr "mixformer-sequential") then phi_mixformer named cfg
    else if py_eqb t (PStr "phi-msft") then
      _add named "transformer.embd.weight" "transformer.embd.wte.weight" ;; rest named
    else mret tt).

Definition phi1_layer (named : named_t) (i : Z) : mapM unit :=
  let h := nth_of "transformer.h" i in
  let layer := nth_of "model.layers" i in
  add_parts named h layer [("ln.weight", "input_layernorm.weight"); ("ln.bias", "input_layernorm.bias")] ;;
  st_iter (λ n, concat_at named (h ./ "mixer.Wqkv" ./ n) (qkv_sources (layer ./ "self_attn") n))
    ["weight"; "bias"] ;;
  add_parts named h layer
    [("mixer.out_proj.weight", "self_attn.dense.weight"); ("mixer.out_proj.bias", "self_attn.dense.bias");
     ("mlp.fc1.weight", "mlp.fc1.weight"); ("mlp.fc1.bias", "mlp.fc1.bias");
     ("mlp.fc2.weight", "mlp.fc2.weight"); ("mlp.fc2.bias", "mlp.fc2.bias")] ;;
  unused (layer ./ "mixer.rotary_emb.inv_freq").
Definition phi1_huggingface : loader_fn array := λ cfg q,
  mapped (plain_network "PhiForCausalLM" q) cfg false 2 (λ named,
    st_iter (λ p : string * string, _add named p.1 p.2)
      [("lm_head.linear.weight", "lm_head.weight"); ("lm_head.linear.bias", "lm_head.bias");
       ("lm_head.ln.weight", "model.final_layernorm.weight"); ("lm_head.ln.bias", "model.final_layernorm.bias");
       ("transformer.embd.weight", "model.embed_tokens.weight")] ;;
    for_layers (layers_of cfg "num_hidden_layers") (phi1_layer named)).

Definition phi3_layer (named : named_t) (prefix : string) (i : Z) : mapM unit :=
  add_parts named (nth_of prefix i) (nth_of "model.layers" i)
    [("ln.weight", "input_layernorm.weight"); ("mlp.down_proj.weight", "mlp.down_proj.weight");
     ("mlp.gate_up_proj.weight", "mlp.gate_up_proj.weight");
     ("post_attention_layernorm.weight", "post_attention_layernorm.weight");
     ("mixer.out_proj.weight", "self_attn.o_proj.weight"); ("mixer.qkv_proj.weight", "self_attn.qkv_proj.weight")].
(** [getattr(model_config, k, False)]. *)
Definition flag (cfg : Config.config) (k : string) : bool :=
  match values cfg !! k with Some v => PyObject.truthy v | None => false end.
Definition phi3_huggingface : loader_fn array := λ cfg q,
  mapped (plain_network "Phi3ForCausalLM" q) cfg false 2 (λ named,
    when_m (negb (flag cfg "tie_word_embeddings")) (_add named "lm_head.weight" "lm_head.weight") ;;
    _add named "transformer.norm.weight" "model.norm.weight" ;;
    _add named "transformer.embd.weight" "model.embed_tokens.weight" ;;
    for_layers (layers_of cfg "num_hidden_layers") (phi3_layer named "transformer.h")).

(** [_add_vision]. *)
Definition _add_vision (named : named_t) (name : string) : mapM unit := _add named name ("model" ./ name).
Definition clip : string := "vision_embed_tokens.img_processor.vision_model".
Definition vision_layer (named : named_t) (i : Z) : mapM unit :=
  st_iter (λ n, _add_vision named (nth_of (clip ./ "encoder.layers") i ./ n))
    ["layer_norm1.bias"; "layer_norm1.weight"; "layer_norm2.bias"; "layer_norm2.weight";
     "mlp.fc1.bias"; "mlp.fc1.weight"; "mlp.fc2.bias"; "mlp.fc2.weight";
     "self_attn.k_proj.bias"; "self_attn.k_proj.weight"; "self_attn.out_proj.bias"; "self_attn.out_proj.weight";
     "self_attn.q_proj.bias"; "self_attn.q_proj.weight"; "self_attn.v_proj.bias"; "self_attn.v_proj.weight"].
Definition vision_layers_of (cfg : Config.config) : result pyval :=
  eval_on cfg (sub "vision_config" "num_hidden_layers").
Definition phi3v_huggingface : loader_fn array := λ cfg q,
  mapped (plain_network "Phi3VForCausalLM" q) cfg false 2 (λ named,
    _add named "model.embd.weight" "model.embed_tokens.weight" ;;
    for_layers (layers_of cfg "num_hidden_layers") (phi3_layer named "model.h") ;;
    for_layers (n ← vision_layers_of cfg; range_of n) (vision_layer named) ;;
    st_iter (_add_vision named)
      ["vision_embed_tokens.sub_GN"; "vision_embed_tokens.glb_GN";
       clip ./ "embeddings.class_embedding"; clip ./ "embeddings.patch_embedding.weight";
       clip ./ "embeddings.position_embedding.weight"; clip ./ "post_layernorm.bias";
       clip ./ "post_layernorm.weight"; clip ./ "pre_layrnorm.bias"; clip ./ "pre_layrnorm.weight"] ;;
    add_parts named "vision_embed_tokens.img_projection" "model.vision_embed_tokens.img_projection"
      [("linear_1.bias", "0.bias"); ("linear_1.weight", "0.weight");
       ("linear_2.bias", "2.bias"); ("linear_2.weight", "2.weight")] ;;
    rest named ;;
    unused "model.embed_tokens.weight").

(** ** InternLM2, StarCoder2, BERT *)

(** The rows of each group, from query heads, key and value per group to all queries,
    all keys, all values. *)
Definition flatten_rows (x : array) : result array :=
  reshape [-1; List.last (np_shape x) 0]%Z x.
Definition _convert_wqkv_layout (cfg : Config.config) : transform array := λ dtype, of_1 (λ wqkv,
  heads ← attribute cfg "num_attention_heads"; kv ← attribute cfg "num_key_value_heads";
  groups ← py_floordiv heads kv; kv_groups ← int_of groups;
  size ← attribute cfg "hidden_size";
  d ← py_floordiv size heads; head_dim ← int_of d;
  x ← reshape [-1; 2 + kv_groups; head_dim; List.last (np_shape wqkv) 0]%Z wqkv;
  parts ← split (At [kv_groups; kv_groups + 1]%Z) 1 x;
  match parts with
  | [wq; wk; wv] =>
      wq ← flatten_rows wq; wk ← flatten_rows wk; wv ← flatten_rows wv;
      w ← concatenate 0 [wq; wk; wv]; astype dtype w
  | _ => raise ValueError "wrong number of values to unpack"
  end).
Definition internlm2_layer (named : named_t) (cfg : Config.config) (i : Z) : mapM unit :=
  let layer := nth_of "model.layers" i in
  let mlp := layer ./ "feed_forward" in
  gate_up_at named (mlp ./ "gate_up_proj.weight") [mlp ./ "w1.weight"; mlp ./ "w3.weight"] ;;
  let name := layer ./ "attention.wqkv.weight" in
  map_to named name [name] (_convert_wqkv_layout cfg).
Definition internlm2_huggingface : loader_fn array := λ cfg q,
  mapped (plain_network "InternLM2ForCausalLM" q) cfg true 3 (λ named,
    for_layers (layers_of cfg "num_hidden_layers") (internlm2_layer named cfg) ;; rest named).

Definition starcoder2_layer (named : named_t) (i : Z) : mapM unit :=
  let attn := nth_of "model.layers" i ./ "self_attn" in
  concat_at named (attn ./ "wqkv_pack.weight") (qkv_sources attn "weight") ;;
  when_m (has_key (attn ./ "wqkv_pack.bias") named)
    (concat_at named (attn ./ "wqkv_pack.bias") (qkv_sources attn "bias")).
Definition starcoder2_huggingface : loader_fn array := λ cfg q,
  mapped (plain_network "Starcoder2ForCausalLM" q) cfg true 3 (λ named,
    _add named "lm_head.weight" "model.embed_tokens.weight" ;;
    for_layers (layers_of cfg "num_hidden_layers") (starcoder2_layer named) ;; rest named).

Definition bert_layer (named : named_t) (hf_prefix : string) (i : Z) : mapM unit :=
  let attn := nth_of "encoder.layer" i ./ "attention.self" in
  st_iter (λ suffix,
    concat_at named (attn ./ "qkv" ./ suffix)
      ((λ n, hf_prefix +:+ (attn ./ n ./ suffix)) <$> ["query"; "key"; "value"])) ["weight"; "bias"].
Definition bert_mapping (named : named_t) (hf_prefix : string) (cfg : Config.config) : mapM unit :=
  for_layers (layers_of cfg "num_hidden_layers") (bert_layer named hf_prefix) ;;
  map_rest named (λ n, hf_prefix +:+ n) (λ _, cast) ;;
  when_m (negb (bool_decide (hf_prefix = "")))
    (unused (hf_prefix +:+ "pooler.dense.weight") ;; unused (hf_prefix +:+ "pooler.dense.bias")).
Definition bert_huggingface : loader_fn array := λ cfg q,
  mapped (plain_network "BertModel" q) cfg true 3 (λ named, bert_mapping named "" cfg).
Definition bert_huggingface_bge : loader_fn array := λ cfg q,
  mapped (plain_network "BertModel" q) cfg true 3 (λ named,
    bert_mapping named "" cfg ;;
    st_iter unused ["pooler.dense.weight"; "pooler.dense.bias"; "embeddings.position_ids"]).

(** ** Mixtures of experts *)

Definition experts_of (cfg : Config.config) (k : string) : mapM (list Z) := st_lift (layers_of cfg k).

Definition mixtral_layer (named : named_t) (cfg : Config.config) (i : Z) : mapM unit :=
  let layer := nth_of "model.layers" i in
  let attn := layer ./ "self_attn" in
  concat_at named (attn ./ "qkv_proj.weight") (qkv_sources attn "weight") ;;
  let mlp := layer ./ "block_sparse_moe" in
  let mlc_mlp := layer ./ "moe" in
  _ ← st_lift (get_key (mlc_mlp ./ "e1_e3.weight") named);
  experts ← experts_of cfg "num_local_experts";
  pairs ← st_lift (expert_pairs experts mlp "w1" "w3");
  map_to named (mlc_mlp ./ "e1_e3.weight") pairs combine_expert_gate_up ;;
  map_to named (mlc_mlp ./ "e2.weight") (expert_names experts mlp "w2") stack_all ;;
  _add named (mlc_mlp ./ "gate.weight") (mlp ./ "gate.weight") ;;
  unused (attn ./ "rotary_emb.inv_freq").
Definition mixtral_huggingface : loader_fn array := λ cfg q,
  mapped (plain_network "MixtralForCausalLM" q) cfg true 3 (λ named,
    for_layers (layers_of cfg "num_hidden_layers") (mixtral_layer named cfg) ;; rest named).

(** The experts of Qwen2-MoE and Deepseek: the combined weight gets the type of the
    parameter looked up before it, that of the shared expert. *)
Definition shared_experts (named : named_t) (cfg : Config.config) (k mlp shared : string) : mapM unit :=
  gate_up_at named (shared ./ "gate_up_proj.weight") (gate_up_sources shared "weight") ;;
  experts ← experts_of cfg k;
  pairs ← st_lift (expert_pairs experts mlp "gate_proj" "up_proj");
  map_as named (shared ./ "gate_up_proj.weight") (mlp ./ "moe_gate_up_proj.weight") pairs
    combine_expert_gate_up ;;
  map_to named (mlp ./ "moe_down_proj.weight") (expert_names experts mlp "down_proj") stack_all.
Definition qwen2_moe_layer (named : named_t) (cfg : Config.config) (i : Z) : mapM unit :=
  let attn := nth_of "model.layers" i ./ "self_attn" in
  st_iter (λ t, concat_at named (attn ./ "c_attn" ./ t) (qkv_sources attn t)) ["weight"; "bias"] ;;
  let mlp := nth_of "model.layers" i ./ "mlp" in
  shared_experts named cfg "num_experts" mlp (mlp ./ "shared_expert").
Definition qwen2_moe_huggingface : loader_fn array := λ cfg q,
  mapped (plain_network "Qwen2MoeForCausalLM" q) cfg true 3 (λ named,
    for_layers (layers_of cfg "num_hidden_layers") (qwen2_moe_layer named cfg) ;; rest named).

(** [i >= first_k_dense_replace and i % moe_layer_freq == 0]. *)
Definition is_moe_layer (cfg : Config.config) (i : Z) : result bool :=
  first ← attribute cfg "first_k_dense_replace";
  late ← py_leb first (PInt i);
  if late : bool then
    freq ← attribute cfg "moe_layer_freq"; m ← py_mod (PInt i) freq; Ok (py_eqb m (PInt 0))
  else Ok false.
Definition dense_mlp (named : named_t) (mlp : string) : mapM unit :=
  gate_up_at named (mlp ./ "gate_up_proj.weight") (gate_up_sources mlp "weight").
Definition wqkv_pack (named : named_t) (i : Z) : mapM unit :=
  let attn := nth_of "model.layers" i ./ "self_attn" in
  concat_at named (attn ./ "wqkv_pack.weight") (qkv_sources attn "weight").
Definition deepseek_mlp (named : named_t) (cfg : Config.config) (i : Z) : mapM unit :=
  let mlp := nth_of "model.layers" i ./ "mlp" in
  moe ← st_lift (is_moe_layer cfg i);
  if moe : bool then shared_experts named cfg "n_routed_experts" mlp (mlp ./ "shared_experts")
  else dense_mlp named mlp.
Definition deepseek_huggingface : loader_fn array := λ cfg q,
  mapped (plain_network "DeepseekForCausalLM" q) cfg true 3 (λ named,
    for_layers (layers_of cfg "num_hidden_layers") (wqkv_pack named) ;;
    for_layers (layers_of cfg "num_hidden_layers") (deepseek_mlp named cfg) ;; rest named).

Definition minicpm_experts (named : named_t) (cfg : Config.config) (i : Z) : mapM unit :=
  let mlp := nth_of "model.layers" i ./ "mlp" in
  _ ← st_lift (get_key (mlp ./ "e1_e3.weight") named);
  experts ← experts_of cfg "num_experts";
  pairs ← st_lift (expert_pairs experts mlp "w1" "w3");
  map_to named (mlp ./ "e1_e3.weight") pairs combine_expert_gate_up ;;
  map_to named (mlp ./ "e2.weight") (expert_names experts mlp "w2") stack_all ;;
  _add named (mlp ./ "gate.weight") (mlp ./ "gate.weight").
(** The head is left out when it is tied to the embedding. *)
Definition minicpm_rest (named : named_t) (cfg : Config.config) (p : string * param_spec) : mapM unit :=
  tied ← st_lift (if decide (p.1 = "lm_head.weight") then attribute cfg "tie_word_embeddings"
                  else Ok (PBool false));
  if PyObject.truthy tied then mret tt
  else unless_mapped p.1 (map_to named p.1 [p.1] cast).
Definition minicpm_huggingface : loader_fn array := λ cfg q,
  mapped (plain_network "MiniCPMForCausalLM" q) cfg true 3 (λ named,
    for_layers (layers_of cfg "num_hidden_layers") (wqkv_pack named) ;;
    n ← st_lift (attribute cfg "num_experts");
    (if py_eqb n (PInt 0) then
       for_layers (layers_of cfg "num_hidden_layers")
         (λ i, dense_mlp named (nth_of "model.layers" i ./ "mlp"))
     else for_layers (layers_of cfg "num_hidden_layers") (minicpm_experts named cfg)) ;;
    st_iter (minicpm_rest named cfg) named).

Definition llama4_layer (named : named_t) (i : Z) : mapM unit :=
  let mlp := nth_of "model.layers" i ./ "feed_forward" in
  let shared := mlp ./ "shared_expert" in
  gate_up_at named (shared ./ "gate_up_proj.weight") (gate_up_sources ("language_model" ./ shared) "weight") ;;
  _add named (mlp ./ "router.router.weight") ("language_model" ./ mlp ./ "router.weight") ;;
  st_iter (λ n, _add named (mlp ./ n) ("language_model" ./ mlp ./ n)) ["experts.gate_up_proj"; "experts.down_proj"].
Definition llama4_huggingface : loader_fn array := λ cfg q,
  mapped (plain_network "Llama4ForCausalLM" q) cfg true 3 (λ named,
    for_layers (n ← has_text_layers cfg; range_of n) (llama4_layer named) ;;
    map_rest named (λ n, "language_model" ./ n) (λ _, cast)).

(** ** Checkpoints quantized by blocks *)

(** The network of a model that may be block quantized, and the check that the
    quantization fits its configuration. *)
Definition block_network (cls : string) (cfg : Config.config) (q : option Quantization) : result build :=
  match block_scale q with
  | Some c =>
      size ← attribute cfg "weight_block_size";
      _ ← raise_when (match size with PNone => true | _ => false end) ValueError
            "The input model is not fp8 block quantized. Thus BlockScaleQuantize is not supported.";
      Ok (BlockScaled cls (bs_model_dtype c))
  | None => Ok (plain_network cls q)
  end.
Definition block_checked (cfg : Config.config) (q : option Quantization) : result unit :=
  match block_scale q with
  | Some _ => Ok tt
  | None =>
      size ← attribute cfg "weight_block_size";
      raise_when (match size with PNone => false | _ => true end) ValueError
        "The input model is fp8 block quantized. Please use BlockScaleQuantize for the model."
  end.
Definition block_mapped (cls : string) (cfg : Config.config) (q : option Quantization)
    (body : named_t → mapM unit) : result (ExternMapping array) :=
  b ← block_network cls cfg q;
  mapped b cfg true 3 (λ named, st_lift (block_checked cfg q) ;; body named).

Definition qwen3_to_hf (hf_prefix name : string) : string :=
  if decide (hf_prefix = "model.") then name else strip_model name.
Definition qwen3_bias (named : named_t) (cfg : Config.config) (to_hf : string → string) (attn : string) : mapM unit :=
  bias ← st_lift (attribute cfg "attention_bias");
  when_m (PyObject.truthy bias)
    (concat_at named (attn ./ "c_attn.bias") (to_hf <$> qkv_sources attn "bias")).
Definition qwen3_layer (named : named_t) (cfg : Config.config) (q : option Quantization)
    (to_hf : string → string) (i : Z) : mapM unit :=
  let attn := nth_of "model.layers" i ./ "self_attn" in
  let mlp := nth_of "model.layers" i ./ "mlp" in
  add_weight_and_scale_mapping named q (attn ./ "c_attn.weight") (to_hf <$> qkv_sources attn "weight") (concat_qkv 0) ;;
  qwen3_bias named cfg to_hf attn ;;
  add_weight_and_scale_mapping named q (mlp ./ "gate_up_proj.weight")
    (to_hf <$> gate_up_sources mlp "weight") (concat_gate_up 0).
Definition qwen3_with_prefix (hf_prefix : string) : loader_fn array := λ cfg q,
  let to_hf := qwen3_to_hf hf_prefix in
  block_mapped "Qwen3LMHeadModel" cfg q (λ named,
    for_layers (layers_of cfg "num_hidden_layers") (qwen3_layer named cfg q to_hf) ;;
    map_rest named to_hf (λ _, cast)).
Definition qwen3_huggingface : loader_fn array := qwen3_with_prefix "model.".
Definition qwen3_huggingface_embedding : loader_fn array := qwen3_with_prefix "".

Definition experts_with_scale (named : named_t) (cfg : Config.config) (q : option Quantization)
    (k mlp : string) : mapM unit :=
  experts ← experts_of cfg k;
  pairs ← st_lift (expert_pairs experts mlp "gate_proj" "up_proj");
  add_weight_and_scale_mapping named q (mlp ./ "moe_gate_up_proj.weight") pairs combine_expert_gate_up ;;
  add_weight_and_scale_mapping named q (mlp ./ "moe_down_proj.weight")
    (expert_names experts mlp "down_proj") stack_all.
Definition qwen3_moe_layer (named : named_t) (cfg : Config.config) (q : option Quantization) (i : Z) : mapM unit :=
  let attn := nth_of "model.layers" i ./ "self_attn" in
  add_weight_and_scale_mapping named q (attn ./ "c_attn.weight") (qkv_sources attn "weight") (concat_qkv 0) ;;
  qwen3_bias named cfg (λ n, n) attn ;;
  experts_with_scale named cfg q "num_experts" (nth_of "model.layers" i ./ "mlp").
Definition qwen3_moe_huggingface : loader_fn array := λ cfg q,
  block_mapped "Qwen3MoeForCausalLM" cfg q (λ named,
    for_layers (layers_of cfg "num_hidden_layers") (qwen3_moe_layer named cfg q) ;; rest named).

(** The two parts of [kv_b_proj], for weights ([rows = cols = 1]) or for the scales of
    blocks. *)
Definition kv_b_part (cfg : Config.config) (rows cols : Z) (second : bool) : transform array := λ dtype, of_1 (λ w,
  heads ← (v ← attribute cfg "num_key_value_heads"; int_of v);
  nope ← (v ← attribute cfg "qk_nope_head_dim"; int_of v);
  v_dim ← (v ← attribute cfg "v_head_dim"; int_of v);
  rank ← (v ← attribute cfg "kv_lora_rank"; int_of v);
  x ← reshape [heads; (nope + v_dim) / rows; rank / cols]%Z w;
  parts ← split (At [nope / rows]%Z) 1 x;
  p ← py_index parts (if second then 1 else 0);
  y ← (if second then Ok p else transpose (Some [0; 2; 1]%Z) p);
  astype dtype y).
Definition block_size (c : BlockScaleQuantize) : result (Z * Z) :=
  match bs_weight_block_size c with
  | Some (rows, cols) =>
      _ ← raise_when ((rows =? 0) || (cols =? 0))%Z OtherError "integer division or modulo by zero";
      Ok (rows, cols)
  | None => raise TypeError "'NoneType' object is not subscriptable"
  end.
Definition kv_b_scale (cfg : Config.config) (c : BlockScaleQuantize) (second : bool) : transform array := λ dtype l,
  '(rows, cols) ← block_size c; kv_b_part cfg rows cols second dtype l.
Definition map_kv_b (named : named_t) (cfg : Config.config) (q : option Quantization) (attn name : string)
    (second : bool) : mapM unit :=
  map_to named (attn ./ name) [attn ./ "kv_b_proj.weight"] (kv_b_part cfg 1 1 second) ;;
  match block_scale q with
  | Some c =>
      map_to named (attn ./ (name +:+ "_scale_inv")) [attn ./ "kv_b_proj.weight_scale_inv"] (kv_b_scale cfg c second)
  | None => mret tt
  end.
Definition deepseek_v2_mlp (named : named_t) (cfg : Config.config) (q : option Quantization) (i : Z) : mapM unit :=
  let mlp := nth_of "model.layers" i ./ "mlp" in
  moe ← st_lift (is_moe_layer cfg i);
  if moe : bool then
    let shared := mlp ./ "shared_experts" in
    add_weight_and_scale_mapping named q (shared ./ "gate_up_proj.weight")
      (gate_up_sources shared "weight") (concat_gate_up 0) ;;
    experts_with_scale named cfg q "n_routed_experts" mlp ;;
    topk ← st_lift (attribute cfg "topk_method");
    when_m (py_eqb topk (PStr "noaux_tc"))
      (_add named (mlp ./ "e_score_correction_bias") (mlp ./ "gate.e_score_correction_bias"))
  else
    add_weight_and_scale_mapping named q (mlp ./ "gate_up_proj.weight")
      (gate_up_sources mlp "weight") (concat_gate_up 0).
Definition deepseek_v2_layer (named : named_t) (cfg : Config.config) (q : option Quantization) (i : Z) : mapM unit :=
  deepseek_v2_mlp named cfg q i ;;
  let attn := nth_of "model.layers" i ./ "self_attn" in
  map_kv_b named cfg q attn "w_uk" false ;;
  map_kv_b named cfg q attn "w_uv" true.
Definition deepseek_v2_huggingface : loader_fn array := λ cfg q,
  block_mapped "DeepseekV2ForCausalLM" cfg q (λ named,
    for_layers (layers_of cfg "num_hidden_layers") (deepseek_v2_layer named cfg q) ;; rest named).

(** ** Qwen3.5 *)

Definition concat_4 : transform array := λ dtype, of_4 (λ a b c d,
  w ← concatenate 0 [a; b; c; d]; astype dtype w).
Definition plus_one_float : transform array := λ dtype, of_1 (λ x,
  y ← astype "float32" x; astype dtype (add_scalar 1 y)).
(** The prefixes of the text and of the vision weights. *)
Definition qwen35_prefixes (cfg : Config.config) : string * string :=
  if PyObject.truthy (default (PBool false) (Config.kwargs cfg !! "unsloth_fixed")) then
    ("model.language_model.language_model.language_model", "model.language_model.visual")
  else ("model.language_model", "model.visual").
Definition _mlc_to_hf (hf hf_visual name : string) : string :=
  if startswith "model." name then replace_first "model." (hf +:+ ".") name
  else if startswith "visual." name then replace_first "visual." (hf_visual +:+ ".") name
  else name.
(** [s.endswith(suffix)]. *)
Definition endswith (suffix s : string) : bool :=
  bool_decide (String.substring (String.length s - String.length suffix) (String.length suffix) s = suffix).
Definition _is_rmsnorm_weight (name : string) : bool :=
  endswith "input_layernorm.weight" name || endswith "post_attention_layernorm.weight" name ||
  endswith "q_norm.weight" name || endswith "k_norm.weight" name ||
  bool_decide (name = "model.norm.weight").
(** [if name in named_parameters: …]. *)
Definition map_if (named : named_t) (name : string) (sources : list string) (f : transform array) : mapM unit :=
  when_m (has_key name named) (map_to named name sources f).
Definition qwen35_linear (named : named_t) (mlc_lin hf_lin : string) : mapM unit :=
  map_if named (mlc_lin ./ "in_proj.weight")
    ((λ n, hf_lin ./ n ./ "weight") <$> ["in_proj_qkv"; "in_proj_z"; "in_proj_a"; "in_proj_b"]) concat_4 ;;
  st_iter (λ n, map_if named (mlc_lin ./ n) [hf_lin ./ n] cast) ["A_log"; "dt_bias"] ;;
  map_if named (mlc_lin ./ "conv1d_weight") [hf_lin ./ "conv1d.weight"] cast.
Definition qwen35_layer (named : named_t) (types : list pyval) (hf : string) (i : Z) : mapM unit :=
  let mlc_layer := nth_of "model.layers" i in
  let hf_layer := nth_of (hf ./ "layers") i in
  t ← st_lift (py_index types (Z.to_nat i));
  (if py_eqb t (PStr "full_attention") then
     map_if named (mlc_layer ./ "self_attn.c_attn.weight") (qkv_sources (hf_layer ./ "self_attn") "weight")
       (concat_qkv 0)
   else qwen35_linear named (mlc_layer ./ "linear_attn") (hf_layer ./ "linear_attn")) ;;
  map_if named (mlc_layer ./ "mlp.gate_up_proj.weight") (gate_up_sources (hf_layer ./ "mlp") "weight")
    (concat_gate_up 0).
Definition qwen35_huggingface : loader_fn array := λ cfg q,
  mapped (plain_network "Qwen35LMHeadModel" q) cfg true 3 (λ named,
    let '(hf, hf_visual) := qwen35_prefixes cfg in
    types ← st_lift (eval_on cfg Qwen35Config_layer_types);
    for_layers (layers_of cfg "num_hidden_layers") (qwen35_layer named types hf) ;;
    map_rest named (_mlc_to_hf hf hf_visual)
      (λ n, if _is_rmsnorm_weight n then plus_one_float else cast)).

(** ** Ministral 3 *)

(** A per-tensor scale, or one scale per source, spread over the expected shape. *)
Definition spread (expected : list Z) (keep_columns : bool) (dtype : string) (x : array) : result array :=
  if decide (np_shape x = expected) then Ok x
  else match np_shape x with
  | [] => full expected x dtype
  | [n] =>
      if (n =? 1)%Z && negb (bool_decide (expected = [1%Z])) then
        y ← broadcast_to expected x; astype dtype y
      else
        match expected with
        | rows :: more =>
            if (1 <? n)%Z && (negb keep_columns || negb (bool_decide (more = []))) && (rows mod n =? 0)%Z then
              y ← repeat_each (rows / n) x;
              z ← (if keep_columns then z ← reshape [rows; 1%Z] y; broadcast_to expected z
                   else reshape expected y);
              astype dtype z
            else raise ValueError "Unexpected scale shape"
        | [] => raise ValueError "Unexpected scale shape"
        end
  | _ => raise ValueError "Unexpected scale shape"
  end.
Definition at_least_1d (x : array) : result array :=
  match np_shape x with [] => reshape [1%Z] x | _ => Ok x end.
Definition _weight_scale_transform (expected : list Z) (f : transform array) : transform array := λ dtype l,
  processed ← map_m at_least_1d l;
  x ← f dtype processed; y ← astype dtype x; spread expected true dtype y.
Definition _activation_scale_transform (expected : list Z) (f : transform array) : transform array := λ dtype l,
  x ← f dtype l; y ← astype dtype x; spread expected false dtype y.
Definition make_shared_activation_transform : transform array := λ dtype l,
  match l with
  | [] => bad_arguments
  | first :: others =>
      _ ← fold_m (λ _ x, b ← allclose x first;
        raise_when (negb b) ValueError "Activation scales must be identical between concatenated sources.") tt others;
      astype dtype first
  end.
(** [tuple(int(dim) for dim in param.shape)]. *)
Definition int_shape (p : param_spec) : result (list Z) :=
  map_m (λ d, match d with Some z => Ok z | None => raise TypeError "int() argument" end) (shape p).
(** [name[: -len('.weight')]]. *)
Definition drop_weight (name : string) : string := String.substring 0 (String.length name - 7) name.

Definition map_scale (named : named_t) (name : string) (sources : list string)
    (f : list Z → transform array) : mapM unit :=
  when_m (has_key name named) (
    p ← st_lift (get_key name named);
    expected ← st_lift (int_shape p);
    map_to named name sources (f expected)).
Definition ministral3_add (named : named_t) (q : option Quantization) (name : string)
    (sources : list string) (f activation : transform array) : mapM unit :=
  map_to named name sources f ;;
  when_m (bool_decide (is_Some (block_scale q))) (
    map_scale named (name +:+ "_scale_inv") ((λ n, n +:+ "_scale_inv") <$> sources)
      (λ expected, _weight_scale_transform expected f) ;;
    map_scale named (drop_weight name ./ "activation_scale") ((λ n, drop_weight n ./ "activation_scale") <$> sources)
      (λ expected, _activation_scale_transform expected activation)).
Definition ministral3_layer (named : named_t) (q : option Quantization) (hf : string → string) (i : Z) : mapM unit :=
  let attn := nth_of "model.layers" i ./ "self_attn" in
  let mlp := nth_of "model.layers" i ./ "mlp" in
  ministral3_add named q (attn ./ "qkv_proj.weight") (hf <$> qkv_sources attn "weight") (concat_qkv 0)
    make_shared_activation_transform ;;
  ministral3_add named q (mlp ./ "gate_up_proj.weight") (hf <$> gate_up_sources mlp "weight") (concat_gate_up 0)
    make_shared_activation_transform ;;
  st_iter (λ n, ministral3_add named q n [hf n] cast cast) [attn ./ "o_proj.weight"; mlp ./ "down_proj.weight"] ;;
  unused (attn ./ "rotary_emb.inv_freq").
(** The names without the prefix of the language model. *)
Definition text_names (named : named_t) : named_t :=
  if existsb (λ p : string * param_spec, startswith "language_model." p.1) named then
    to_dict ((λ p : string * param_spec, (replace_first "language_model." "" p.1, p.2)) <$> named)
  else named.
Definition ministral3_huggingface : loader_fn array := λ cfg q,
  block_mapped "Mistral3ForConditionalGeneration" cfg q (λ raw,
    let named := text_names raw in
    let hf_prefix := if bool_decide (is_Some (Config.kwargs cfg !! "vision_config")) then "language_model." else "" in
    let hf := λ n, hf_prefix +:+ n in
    for_layers (layers_of cfg "num_hidden_layers") (ministral3_layer named q hf) ;;
    map_rest named hf (λ _, cast)).

(** ** The functions the registry names *)

Definition loaders : list (string * loader_fn array) := [
  ("llama_loader.huggingface", standard_loader llama_options); ("llama_loader.awq", llama_awq);
  ("mistral_loader.huggingface", standard_loader mistral_options); ("mistral_loader.awq", mistral_awq);
  ("eagle_loader.huggingface", standard_loader eagle_options); ("eagle_loader.awq", eagle_awq);
  ("olmo_loader.huggingface", standard_loader olmo_options); ("olmo_loader.awq", olmo_awq);
  ("llava_loader.huggingface", standard_loader llava_options); ("llava_loader.awq", llava_awq);
  ("cohere_loader.huggingface", standard_loader cohere_options); ("cohere_loader.awq", cohere_awq);
  ("olmo2_loader.huggingface", standard_loader olmo2_options);
  ("orion_loader.huggingface", standard_loader orion_options);
  ("baichuan_loader.huggingface", standard_loader baichuan_options);
  ("gpt_bigcode_loader.huggingface", standard_loader gpt_bigcode_options);
  ("medusa_loader.huggingface", standard_loader medusa_options);
  ("stablelm_loader.huggingface", standard_loader stablelm_options);
  ("qwen2_loader.huggingface", standard_loader qwen2_options);
  ("internlm_loader.huggingface", standard_loader internlm_options);
  ("qwen_loader.huggingface", standard_loader qwen_options);
  ("nemotron_loader.huggingface", standard_loader nemotron_options);
  ("gpt_j_loader.huggingface", standard_loader gpt_j_options);
  ("gemma_loader.huggingface", gemma_huggingface); ("gemma2_loader.huggingface", gemma2_huggingface);
  ("gemma3_loader.huggingface", gemma3_huggingface);
  ("gpt2_loader.huggingface", gpt2_huggingface); ("gpt_neox_loader.huggingface", gpt_neox_huggingface);
  ("chatglm3_loader.huggingface", chatglm3_huggingface);
  ("rwkv5_loader.huggingface", rwkv5_huggingface); ("rwkv6_loader.huggingface", rwkv6_huggingface);
  ("phi_loader.huggingface", phi_huggingface); ("phi_loader.phi1_huggingface", phi1_huggingface);
  ("phi3_loader.phi3_huggingface", phi3_huggingface); ("phi3v_loader.huggingface", phi3v_huggingface);
  ("internlm2_loader.huggingface", internlm2_huggingface);
  ("starcoder2_loader.huggingface", starcoder2_huggingface);
  ("bert_loader.huggingface", bert_huggingface); ("bert_loader.huggingface_bge", bert_huggingface_bge);
  ("mixtral_loader.huggingface", mixtral_huggingface); ("qwen2_moe_loader.huggingface", qwen2_moe_huggingface);
  ("deepseek_loader.huggingface", deepseek_huggingface); ("minicpm_loader.huggingface", minicpm_huggingface);
  ("llama4_loader.huggingface", llama4_huggingface);
  ("qwen3_loader.huggingface", qwen3_huggingface);
  ("qwen3_loader.huggingface_embedding", qwen3_huggingface_embedding);
  ("qwen3_moe_loader.huggingface", qwen3_moe_huggingface);
  ("deepseek_v2_loader.huggingface", deepseek_v2_huggingface);
  ("qwen35_loader.huggingface", qwen35_huggingface);
  ("ministral3_loader.huggingface", ministral3_huggingface)].
End loaders.
