(* ===== verification/LoaderCoverage.v ===== *)
(** What the loaders of the models map: every mapping a loader returns is well
    formed, its parameters are those of the network, each mapped once, but for nine
    loaders whose exceptions are stated. *)

From Stdlib Require Import Lia ZArith.
From stdpp Require Import base gmap strings list pretty.
From S2P Require Import Prelude PyString PyObject Flags Config NestedConfigs QuantRegistry ModelRegistry Loader ConvertWeight StandardLoader ModelLoaders.

(** ** The logic of mappings *)

Lemma dict_set_keys_fst {A B} k (v : A) (w : B) d e :
  d.*1 = e.*1 → (dict_set k v d).*1 = (dict_set k w e).*1.
Proof.
  revert e. induction d as [|[k1 v1] d IH]; intros [|[k2 v2] e]; simpl; try done.
  intros [= -> H]. case_decide; simpl; f_equal; auto.
Qed.
Lemma dict_set_elem {A} k (v : A) d k' : k' ∈ (dict_set k v d).*1 ↔ k' = k ∨ k' ∈ d.*1.
Proof.
  induction d as [|[k1 v1] d IH]; simpl; [set_solver|].
  case_decide; simpl; [set_solver|]. rewrite elem_of_cons, IH. set_solver.
Qed.

Section logic.
Context {array : Type}.
Abbreviation mapM := (stM (ExternMapping array)).

Definition keys (m : ExternMapping array) : list string := (param_map m).*1.
(** A parameter is mapped once, and has one function. *)
Definition well_formed (m : ExternMapping array) : Prop :=
  NoDup (keys m) ∧ (map_func m).*1 = keys m.

(** A computation only adds parameters, those [allowed]. *)
Definition Extends (allowed : string → Prop) {A} (c : mapM A) : Prop := ∀ m m' a,
  c m = (m', Ok a) → well_formed m →
  well_formed m' ∧ keys m ⊆ keys m' ∧ (∀ k, k ∈ keys m' → k ∈ keys m ∨ allowed k).
(** After it, the parameters [names] are mapped. *)
Definition Covers (names : list string) (c : mapM unit) : Prop := ∀ m m',
  c m = (m', Ok tt) → well_formed m → names ⊆ keys m'.

Section extends.
Context (allowed : string → Prop).

Lemma ext_ret {A} (a : A) : Extends allowed (mret a).
Proof. intros m m' a' [= <- _] Hm. split_and!; [done|done|by left]. Qed.
Lemma ext_lift {A} (r : result A) : Extends allowed (st_lift r).
Proof. intros m m' a H Hm. apply st_lift_Ok in H as [_ ->]. split_and!; [done|done|by left]. Qed.
Lemma ext_bind {A B} (c : mapM A) (f : A → mapM B) :
  Extends allowed c → (∀ a, Extends allowed (f a)) → Extends allowed (c ≫= f).
Proof.
  intros Hc Hf m m' b H Hm. apply st_bind_Ok in H as (a & m1 & H1 & H2).
  destruct (Hc _ _ _ H1 Hm) as (Hw1 & Hs1 & Ha1).
  destruct (Hf a _ _ _ H2 Hw1) as (Hw2 & Hs2 & Ha2). split_and!; [done|by etrans|].
  intros k Hk. destruct (Ha2 k Hk); [by apply Ha1|by right].
Qed.
(** A step that depends on a value looked up. *)
Lemma ext_bind_lift {A B} (r : result A) (f : A → mapM B) :
  (∀ a, r = Ok a → Extends allowed (f a)) → Extends allowed (st_lift r ≫= f).
Proof.
  intros Hf m m' b H. apply st_bind_Ok in H as (a & m1 & H1 & H2).
  apply st_lift_Ok in H1 as [-> ->]. by eapply Hf.
Qed.
Lemma ext_iter {A} (f : A → mapM unit) l : (∀ x, x ∈ l → Extends allowed (f x)) → Extends allowed (st_iter f l).
Proof.
  induction l as [|x l IH]; simpl; intros Hf; [apply ext_ret|].
  apply ext_bind; [apply Hf; by left|]. intros _. apply IH. intros y Hy. apply Hf. by right.
Qed.

Lemma ext_add name sources (f : list array → result array) :
  allowed name → Extends allowed (st_modify (add_mapping name sources f)).
Proof.
  intros Hn m m' [] [= <-] [Hd Hk]. unfold well_formed, keys in *; simpl. split_and!.
  - by apply dict_set_NoDup.
  - by apply dict_set_keys_fst.
  - intros k Hk'. apply dict_set_elem. by right.
  - intros k [->|Hk']%dict_set_elem; [by right|by left].
Qed.
Lemma ext_unused name : Extends allowed (unused name).
Proof. intros m m' [] [= <-] Hm. split_and!; [done|done|by left]. Qed.
Lemma ext_unless_mapped name (c : mapM unit) : Extends allowed c → Extends allowed (unless_mapped name c).
Proof.
  intros Hc m m' []. unfold unless_mapped, mbind, stM_bind, st_get; simpl.
  destruct (has_key name (param_map m)); [apply ext_ret|apply Hc].
Qed.
Lemma ext_when b (c : mapM unit) : Extends allowed c → Extends allowed (when_m b c).
Proof. destruct b; [done|intros; apply ext_ret]. Qed.
Lemma ext_for_layers r (f : Z → mapM unit) :
  (∀ i, Extends allowed (f i)) → Extends allowed (for_layers r f).
Proof. intros Hf. apply ext_bind; [apply ext_lift|]. intros l. by apply ext_iter. Qed.
End extends.
End logic.

(** ** Loaders stay within their network *)

Section within.
Context `{numpy : Numpy array}.
Context (named : list (string * param_spec)).
Abbreviation mapM := (stM (ExternMapping array)).
Definition within (k : string) : Prop := k ∈ named.*1.

Lemma get_key_within {A} k (d : list (string * A)) v : get_key k d = Ok v → k ∈ d.*1.
Proof.
  intros Hg%get_key_Ok%dict_get_elem. apply list_elem_of_fmap. by exists (k, v).
Qed.
Lemma ext_map_as (allowed : string → Prop) param name sources (f : transform array) :
  allowed name → Extends allowed (map_as named param name sources f).
Proof. intros Hn. apply ext_bind; [apply ext_lift|]. intros p. by apply ext_add. Qed.
Lemma ext_map_to (allowed : string → Prop) name sources (f : transform array) :
  (∀ k, within k → allowed k) → Extends allowed (map_to named name sources f).
Proof. intros Hw. apply ext_bind_lift. intros p Hp. apply ext_add, Hw. by eapply get_key_within. Qed.
End within.

(** The parameters that are mapped whether the network has them or not: the loaders
    look up the type of another one. *)
Definition extra (f k : string) : Prop :=
  (f = "gpt2_loader.huggingface" ∧ k = "lm_head.weight") ∨
  (f ∈ ["qwen2_moe_loader.huggingface"; "deepseek_loader.huggingface"] ∧
   ∃ mlp, k = mlp ./ "moe_gate_up_proj.weight").
Ltac extra_name :=
  right; first [by left | right; split; [set_solver|eexists; reflexivity]].
Ltac allowed_name :=
  first [ exact I | extra_name
        | left; unfold within; apply list_elem_of_fmap; eexists; split; [reflexivity|eassumption] ].
Ltac head_of t := lazymatch t with ?f _ => head_of f | _ => t end.
(** Take a computation apart down to the steps that add a parameter. *)
Ltac ext_step :=
  cbv beta zeta;
  lazymatch goal with
  | |- ∀ _, _ => intros ?
  | |- Extends _ (mret _) => apply ext_ret
  | |- Extends _ (st_lift _) => apply ext_lift
  | |- Extends _ (_ ≫= _) => apply ext_bind
  | |- Extends _ (st_iter _ _) => apply ext_iter
  | |- Extends _ (for_layers _ _) => apply ext_for_layers
  | |- Extends _ (when_m _ _) => apply ext_when
  | |- Extends _ (unused _) => apply ext_unused
  | |- Extends _ (unless_mapped _ _) => apply ext_unless_mapped
  | |- Extends _ (map_to _ _ _ _) => apply ext_map_to; solve [intros; first [exact I | by left]]
  | |- Extends _ (map_as _ _ _ _ _) => apply ext_map_as; allowed_name
  | |- Extends _ (st_modify (add_mapping _ _ _)) => apply ext_add; allowed_name
  | |- Extends _ (match ?x with _ => _ end) => destruct x
  | |- Extends _ ?c => let h := head_of c in unfold h
  end.
Ltac ext := repeat ext_step.

(** ** The loaders that go through all parameters *)

Section covers.
Context `{numpy : Numpy array}.
Abbreviation mapM := (stM (ExternMapping array)).

Lemma covers_iter {A} (names : A → list string) (f : A → mapM unit) l :
  (∀ x, x ∈ l → Extends (λ _, True) (f x)) → (∀ x, x ∈ l → Covers (names x) (f x)) →
  Covers (l ≫= names) (st_iter f l).
Proof.
  induction l as [|x l IH]; simpl; intros He Hc m m' Hr Hm; [intros ? []%not_elem_of_nil|].
  apply st_bind_Ok in Hr as (u & m1 & H1 & H2). destruct u.
  destruct (He x ltac:(by left) _ _ _ H1 Hm) as (Hw & _).
  assert (Extends (λ _, True) (st_iter f l)) as Hl by (apply ext_iter; intros y Hy; apply He; by right).
  destruct (Hl _ _ _ H2 Hw) as (_ & Hs & _).
  intros k [Hk|Hk]%elem_of_app.
  - apply Hs. by eapply (Hc x ltac:(by left)).
  - eapply IH; [| |exact H2|done|done]; intros y Hy; [apply He|apply Hc]; by right.
Qed.
Lemma covers_weaken names names' (c : mapM unit) : names' ⊆ names → Covers names c → Covers names' c.
Proof. intros Hs Hc m m' H Hm. etrans; [done|by eapply Hc]. Qed.
(** A loop over named things, some of which it may leave out. *)
Lemma covers_loop {A} (out : list string) (f : string * A → mapM unit) l :
  (∀ p, p ∈ l → Extends (λ _, True) (f p)) → (∀ p, p ∈ l → p.1 ∉ out → Covers [p.1] (f p)) →
  Covers (filter (λ k, k ∉ out) l.*1) (st_iter f l).
Proof.
  intros He Hc. eapply covers_weaken;
    [|apply (covers_iter (λ p : string * A, if decide (p.1 ∈ out) then [] else [p.1])); [done|]].
  - intros k [Hk (p & -> & Hp)%list_elem_of_fmap]%list_elem_of_filter.
    apply list_elem_of_bind. exists p. split; [|done]. rewrite decide_False by done. by left.
  - intros p Hp. case_decide; [intros m m' _ _ k []%not_elem_of_nil|by apply Hc].
Qed.

Lemma covers_rest {A} (f : string * A → stM (ExternMapping array) unit) (l : list (string * A)) :
  (∀ p, p ∈ l → Extends (λ _, True) (f p)) → (∀ p, p ∈ l → Covers [p.1] (f p)) → Covers l.*1 (st_iter f l).
Proof.
  intros He Hc. eapply covers_weaken; [|apply (covers_loop []); auto].
  intros k Hk. apply list_elem_of_filter. split; [apply not_elem_of_nil|done].
Qed.

Lemma covers_after {A} (allowed : string → Prop) names (c : mapM A) (d : A → mapM unit) :
  Extends allowed c → (∀ a, Covers names (d a)) → Covers names (c ≫= d).
Proof.
  intros Hc Hd m m' H Hm. apply st_bind_Ok in H as (a & m1 & H1 & H2).
  destruct (Hc _ _ _ H1 Hm) as (Hw & _). by eapply Hd.
Qed.
Lemma covers_before (allowed : string → Prop) names (c d : mapM unit) :
  Covers names c → Extends allowed c → Extends allowed d → Covers names (c ;; d).
Proof.
  intros Hc Hce Hd m m' H Hm. apply st_bind_Ok in H as ([] & m1 & H1 & H2).
  destruct (Hce _ _ _ H1 Hm) as (Hw & _). destruct (Hd _ _ _ H2 Hw) as (_ & Hs & _).
  etrans; [by eapply Hc|done].
Qed.

(** A parameter is mapped after [unless_mapped]. *)
Lemma covers_add name sources (f : list array → result array) :
  Covers [name] (st_modify (add_mapping name sources f)).
Proof.
  intros m m' [= <-] Hm k Hk%list_elem_of_singleton. unfold keys; simpl. rewrite dict_set_elem. by left.
Qed.
Lemma covers_unless name (c : mapM unit) : Covers [name] c → Covers [name] (unless_mapped name c).
Proof.
  intros Hc m m'. unfold unless_mapped, mbind, stM_bind, st_get; simpl.
  destruct (has_key name (param_map m)) eqn:E; [|apply Hc].
  intros [= <-] Hm k Hk%list_elem_of_singleton. subst k. unfold has_key in E.
  destruct (dict_get name (param_map m)) as [v|] eqn:E'; [|done].
  apply list_elem_of_fmap. exists (name, v). split; [done|]. by apply dict_get_elem.
Qed.
Lemma covers_lift {A} names (r : result A) (f : A → mapM unit) :
  (∀ a, Covers names (f a)) → Covers names (st_lift r ≫= f).
Proof. intros Hf. apply (covers_after (λ _, True)); [apply ext_lift|done]. Qed.
Lemma covers_map_to named name sources (f : transform array) :
  Covers [name] (map_to named name sources f).
Proof. apply covers_lift. intros p. apply covers_add. Qed.
Lemma covers_map_rest named source (f : string → transform array) :
  Covers named.*1 (map_rest named source f).
Proof.
  apply covers_rest; intros p _; [ext|apply covers_unless, covers_map_to].
Qed.
End covers.

(** ** Every loader *)

Section loaders.
Context `{numpy : Numpy array}.
Context (built : build → Config.config → result (list (string * param_spec))).

(** The names of the parameters the loader [f] maps, given those of its network. *)
Definition network_names (f : string) (named : list (string * param_spec)) : list (string * param_spec) :=
  if decide (f = "ministral3_loader.huggingface") then text_names named else named.
(** The parameter that is left out when it is tied to the embedding. *)
Definition skipped (f : string) : list string :=
  if decide (f = "minicpm_loader.huggingface") then ["lm_head.weight"] else [].
(** The loaders that list the parameters themselves. *)
Definition listing : list string :=
  ["phi_loader.huggingface"; "phi_loader.phi1_huggingface"; "phi3_loader.phi3_huggingface"].

Definition maps_network (f : string) (l : loader_fn array) : Prop := ∀ cfg q em, l cfg q = Ok em →
  ∃ b raw, built b cfg = Ok raw ∧
    let names := (network_names f (to_dict raw)).*1 in
    well_formed em ∧ (∀ k, k ∈ keys em → k ∈ names ∨ extra f k) ∧ (f ∉ listing → names ⊆ keys em ++ skipped f).

(** What the body of a loader must satisfy. *)
Definition body_ok (f : string) (body : list (string * param_spec) → stM (ExternMapping array) unit) : Prop :=
  ∀ named,
    Extends (λ k, k ∈ (network_names f named).*1 ∨ extra f k) (body named) ∧
    (f ∉ listing → Covers (filter (λ k, k ∉ skipped f) (network_names f named).*1) (body named)).

Lemma mapped_ok f b cfg e n body em :
  body_ok f body → mapped built b cfg e n body = Ok em →
  ∃ b raw, built b cfg = Ok raw ∧
    let names := (network_names f (to_dict raw)).*1 in
    well_formed em ∧ (∀ k, k ∈ keys em → k ∈ names ∨ extra f k) ∧ (f ∉ listing → names ⊆ keys em ++ skipped f).
Proof.
  intros Hb H. unfold mapped, exported in H. ok_inv.
  match goal with H : built b cfg = Ok ?raw |- _ => exists b, raw; split; [exact H|]; set (named := to_dict raw) in * end.
  unfold run_mapping in *. destruct (body named empty_mapping) as [m [[]|]] eqn:Hr; simplify_eq.
  destruct (Hb named) as [He Hc].
  assert (well_formed (@empty_mapping array)) as H0 by (split; [constructor|done]).
  destruct (He _ _ _ Hr H0) as (Hw & _ & Ha). split_and!; [done| |].
  - intros k Hk. destruct (Ha k Hk) as [Hk'%elem_of_nil|?]; done.
  - intros Hf k Hk. apply elem_of_app. destruct (decide (k ∈ skipped f)); [by right|left].
    eapply (Hc Hf); [done..|]. by apply list_elem_of_filter.
Qed.

(** A loader that ends with the loop over all parameters of its network. *)
Lemma complete_ok f body :
  f ∉ ["ministral3_loader.huggingface"] →
  (∀ named, Extends (λ k, within named k ∨ extra f k) (body named)) → (∀ named, Covers named.*1 (body named)) → body_ok f body.
Proof.
  intros Hf He Hc named. unfold network_names. rewrite decide_False by set_solver. split.
  - apply He.
  - intros _. eapply covers_weaken; [|apply Hc]. intros k Hk. by apply list_elem_of_filter in Hk as [_ ?].
Qed.

Ltac covers named :=
  cbv beta zeta;
  lazymatch goal with
  | |- Covers _ (map_rest _ _ _) => apply covers_map_rest
  | |- Covers _ (rest _) => apply covers_map_rest
  | |- Covers _ (map_standard _ _ _) => unfold map_standard; covers named
  | |- Covers _ (bert_mapping _ _ _) => unfold bert_mapping; covers named
  | |- Covers _ (awq_mapping _ _ _ _) => unfold awq_mapping; covers named
  | |- Covers _ (rwkv_rest _) => apply covers_map_rest
  | |- Covers _ (let '(_, _) := ?x in _) => destruct x; covers named
  | |- Covers _ (_ ≫= _) =>
      first [ solve [apply (covers_before (λ _, True)); [covers named|ext|ext]]
            | apply (covers_after (λ _, True)); [ext|intros ?; covers named] ]
  end.
(** A loader built by [mapped] or [make_standard_hf_loader] that ends with the loop
    over all parameters. *)
Ltac maps_all :=
  intros cfg q em; eapply mapped_ok; apply complete_ok;
  [ set_solver | intros named; ext | intros named; covers named ].

Lemma standard_maps f o :
  f ∉ ["ministral3_loader.huggingface"] → maps_network f (standard_loader built o).
Proof. intros Hf cfg q em. eapply mapped_ok. apply complete_ok; [done|intros named; ext|intros named; covers named]. Qed.
Lemma awq_maps f cls axis prefix layers e n :
  f ∉ ["ministral3_loader.huggingface"] →
  maps_network f (λ cfg q, mapped built (Awq cls) cfg e n (λ named, awq_mapping named axis prefix (layers cfg))).
Proof. intros Hf cfg q em. eapply mapped_ok. apply complete_ok; [done|intros named; ext|intros named; covers named]. Qed.
Lemma gemma_huggingface_maps : maps_network "gemma_loader.huggingface" (gemma_huggingface built).
Proof. maps_all. Qed.
Lemma gemma2_huggingface_maps : maps_network "gemma2_loader.huggingface" (gemma2_huggingface built).
Proof. maps_all. Qed.
Lemma gemma3_huggingface_maps : maps_network "gemma3_loader.huggingface" (gemma3_huggingface built).
Proof. maps_all. Qed.
Lemma chatglm3_huggingface_maps : maps_network "chatglm3_loader.huggingface" (chatglm3_huggingface built).
Proof. maps_all. Qed.
Lemma phi3v_huggingface_maps : maps_network "phi3v_loader.huggingface" (phi3v_huggingface built).
Proof. maps_all. Qed.
Lemma bert_huggingface_maps : maps_network "bert_loader.huggingface" (bert_huggingface built).
Proof. maps_all. Qed.
Lemma bert_huggingface_bge_maps : maps_network "bert_loader.huggingface_bge" (bert_huggingface_bge built).
Proof. maps_all. Qed.
Lemma mixtral_huggingface_maps : maps_network "mixtral_loader.huggingface" (mixtral_huggingface built).
Proof. maps_all. Qed.
Lemma qwen2_moe_huggingface_maps : maps_network "qwen2_moe_loader.huggingface" (qwen2_moe_huggingface built).
Proof. maps_all. Qed.
Lemma deepseek_huggingface_maps : maps_network "deepseek_loader.huggingface" (deepseek_huggingface built).
Proof. maps_all. Qed.
Lemma rwkv5_huggingface_maps : maps_network "rwkv5_loader.huggingface" (rwkv5_huggingface built).
Proof. maps_all. Qed.
Lemma rwkv6_huggingface_maps : maps_network "rwkv6_loader.huggingface" (rwkv6_huggingface built).
Proof. maps_all. Qed.
Lemma internlm2_huggingface_maps : maps_network "internlm2_loader.huggingface" (internlm2_huggingface built).
Proof. maps_all. Qed.
Lemma starcoder2_huggingface_maps : maps_network "starcoder2_loader.huggingface" (starcoder2_huggingface built).
Proof. maps_all. Qed.
Lemma llama4_huggingface_maps : maps_network "llama4_loader.huggingface" (llama4_huggingface built).
Proof. maps_all. Qed.
Lemma qwen35_huggingface_maps : maps_network "qwen35_loader.huggingface" (qwen35_huggingface built).
Proof. maps_all. Qed.
Lemma cohere_awq_maps : maps_network "cohere_loader.awq" (cohere_awq built).
Proof. maps_all. Qed.

(** The checkpoints quantized by blocks. *)
Lemma block_mapped_ok f cls body : body_ok f body → maps_network f (λ cfg q, block_mapped built cls cfg q body).
Proof.
  intros Hb cfg q em H. unfold block_mapped in H. ok_inv. eapply mapped_ok; [|done].
  intros named. destruct (Hb named) as [He Hc]. split.
  - apply ext_bind; [apply ext_lift|done].
  - intros Hf. apply covers_lift. intros _. by apply Hc.
Qed.
Ltac maps_block :=
  intros cfg q em; apply block_mapped_ok; apply complete_ok;
  [ set_solver | intros named; ext | intros named; covers named ].
Lemma qwen3_maps f hf_prefix : f ∉ ["ministral3_loader.huggingface"] → maps_network f (qwen3_with_prefix built hf_prefix).
Proof.
  intros Hf cfg q em. apply block_mapped_ok, complete_ok; [done|intros named; ext|intros named; covers named].
Qed.
Lemma qwen3_moe_maps : maps_network "qwen3_moe_loader.huggingface" (qwen3_moe_huggingface built).
Proof. maps_block. Qed.
Lemma deepseek_v2_maps : maps_network "deepseek_v2_loader.huggingface" (deepseek_v2_huggingface built).
Proof. maps_block. Qed.
Lemma ministral3_maps : maps_network "ministral3_loader.huggingface" (ministral3_huggingface built).
Proof.
  intros cfg q em. apply block_mapped_ok. intros named. unfold network_names. rewrite decide_True by done.
  cbv zeta. set (names := text_names named). split.
  - ext.
  - intros _. apply (covers_after (λ _, True)); [ext|]. intros _. eapply covers_weaken; [|apply covers_map_rest].
    intros k [_ ?]%list_elem_of_filter. done.
Qed.

(** The loaders that list the parameters. *)
Ltac maps_listed := intros cfg q em; eapply mapped_ok; intros named; split; [ext|set_solver].
Lemma phi_maps : maps_network "phi_loader.huggingface" (phi_huggingface built).
Proof. maps_listed. Qed.
Lemma phi1_maps : maps_network "phi_loader.phi1_huggingface" (phi1_huggingface built).
Proof. maps_listed. Qed.
Lemma phi3_maps : maps_network "phi3_loader.phi3_huggingface" (phi3_huggingface built).
Proof. maps_listed. Qed.

(** These loops choose what to do with a parameter. *)
Lemma gpt_neox_maps : maps_network "gpt_neox_loader.huggingface" (gpt_neox_huggingface built).
Proof.
  intros cfg q em. eapply mapped_ok. apply complete_ok; [set_solver| |].
  - intros named. ext.
  - intros named. apply (covers_after (λ _, True)); [ext|]. intros _.
    apply covers_rest; [intros p _; ext|]. intros p _. apply covers_unless.
    destruct (_ || _); [|apply covers_map_to]. do 2 (apply covers_lift; intros ?). apply covers_add.
Qed.
Lemma gpt2_maps : maps_network "gpt2_loader.huggingface" (gpt2_huggingface built).
Proof.
  intros cfg q em. eapply mapped_ok. apply complete_ok; [set_solver|intros named; ext|].
  intros named. do 2 (apply (covers_after (λ _, True)); [ext|intros _]).
  apply covers_rest; [intros p _; ext|]. intros p _. apply covers_unless, covers_lift.
  intros source. apply covers_map_to.
Qed.
Lemma minicpm_maps : maps_network "minicpm_loader.huggingface" (minicpm_huggingface built).
Proof.
  intros cfg q em. eapply mapped_ok. intros named. split; [ext|]. intros _.
  apply (covers_after (λ _, True)); [ext|intros _]. apply covers_lift. intros n.
  apply (covers_after (λ _, True)); [ext|intros _].
  apply (covers_loop ["lm_head.weight"]); [intros p _; ext|]. intros p _ Hp.
  unfold minicpm_rest. rewrite decide_False by set_solver. apply covers_unless, covers_map_to.
Qed.

Ltac maps_known :=
  lazymatch goal with |- maps_network _ ?l => lazymatch l with
  | standard_loader _ _ => apply standard_maps; set_solver
  | llama_awq _ => apply awq_maps; set_solver
  | mistral_awq _ => apply awq_maps; set_solver
  | eagle_awq _ => apply awq_maps; set_solver
  | olmo_awq _ => apply awq_maps; set_solver
  | llava_awq _ => apply awq_maps; set_solver
  | qwen3_huggingface _ => apply qwen3_maps; set_solver
  | qwen3_huggingface_embedding _ => apply qwen3_maps; set_solver
  | gemma_huggingface _ => exact gemma_huggingface_maps
  | gemma2_huggingface _ => exact gemma2_huggingface_maps
  | gemma3_huggingface _ => exact gemma3_huggingface_maps
  | chatglm3_huggingface _ => exact chatglm3_huggingface_maps
  | phi3v_huggingface _ => exact phi3v_huggingface_maps
  | bert_huggingface _ => exact bert_huggingface_maps
  | bert_huggingface_bge _ => exact bert_huggingface_bge_maps
  | mixtral_huggingface _ => exact mixtral_huggingface_maps
  | qwen2_moe_huggingface _ => exact qwen2_moe_huggingface_maps
  | deepseek_huggingface _ => exact deepseek_huggingface_maps
  | rwkv5_huggingface _ => exact rwkv5_huggingface_maps
  | rwkv6_huggingface _ => exact rwkv6_huggingface_maps
  | internlm2_huggingface _ => exact internlm2_huggingface_maps
  | starcoder2_huggingface _ => exact starcoder2_huggingface_maps
  | llama4_huggingface _ => exact llama4_huggingface_maps
  | qwen35_huggingface _ => exact qwen35_huggingface_maps
  | cohere_awq _ => exact cohere_awq_maps
  | qwen3_moe_huggingface _ => exact qwen3_moe_maps
  | deepseek_v2_huggingface _ => exact deepseek_v2_maps
  | ministral3_huggingface _ => exact ministral3_maps
  | phi_huggingface _ => exact phi_maps
  | phi1_huggingface _ => exact phi1_maps
  | phi3_huggingface _ => exact phi3_maps
  | gpt_neox_huggingface _ => exact gpt_neox_maps
  | gpt2_huggingface _ => exact gpt2_maps
  | minicpm_huggingface _ => exact minicpm_maps
  end end.
Lemma all_loaders_map : Forall (λ p : string * loader_fn array, maps_network p.1 p.2) (loaders built).
Proof. unfold loaders. repeat (apply List.Forall_cons; [cbn [fst snd]; maps_known|]). apply List.Forall_nil. Qed.

(** The loaders the registry names exist. *)
Lemma sources_registered fp :
  forallb (λ p : string * Model, forallb (λ s, bool_decide (s.2 ∈ (loaders built).*1)) (source p.2)) (MODELS fp) = true.
Proof. vm_compute. reflexivity. Qed.

(** The AWQ loader of Mistral unpacks the triple of [export_tvm] into a pair. *)
Lemma mistral_awq_fails cfg q em : mistral_awq built cfg q ≠ Ok em.
Proof.
  unfold mistral_awq, mapped, exported. destruct (built (Awq "MistralForCausalLM") cfg); done.
Qed.
Lemma mistral_awq_named l : dict_get "mistral_loader.awq" (loaders built) = Some l → l = mistral_awq built.
Proof. intros H. vm_compute in H. by injection H as <-. Qed.

(** The loaders that do not map exactly the parameters of their network, or never return. *)
Definition irregular : list string :=
  ["gpt2_loader.huggingface"; "qwen2_moe_loader.huggingface"; "deepseek_loader.huggingface"; "minicpm_loader.huggingface";
   "ministral3_loader.huggingface"; "mistral_loader.awq"] ++ listing.
(** A loader that returns maps each parameter of its network, and nothing else, once. *)
Definition maps_exactly (l : loader_fn array) : Prop := ∀ cfg q em, l cfg q = Ok em →
  ∃ b raw, built b cfg = Ok raw ∧ well_formed em ∧ ∀ k, k ∈ keys em ↔ k ∈ (to_dict raw).*1.
Lemma maps_regular f l : f ∉ irregular → maps_network f l → maps_exactly l.
Proof.
  unfold irregular. intros Hf Hl cfg q em Hem. destruct (Hl cfg q em Hem) as (b & raw & Hb & Hw & Hin & Hall). exists b, raw.
  split; [done|]. split; [done|]. unfold network_names, skipped in *.
  rewrite decide_False in Hin, Hall by set_solver. rewrite decide_False in Hall by set_solver. rewrite app_nil_r in Hall. intros k. split.
  - intros [?|Hx]%Hin; [done|]. exfalso. destruct Hx as [[-> _]|[Hx _]]; set_solver.
  - apply Hall. set_solver.
Qed.

(** C24. Every source of every model in the registry names a loader. Nine loaders apart, a loader that returns maps each
    parameter of its network, once and by one function, and nothing else. Of the nine, Mistral's for AWQ never
    returns; the others are well formed and map what [maps_network] says: GPT-2's head and the experts of Qwen2-MoE and
    Deepseek are mapped without being looked up in the network, MiniCPM may leave out the head, Ministral 3 maps the
    parameters by their names without the prefix of the language model, and the three loaders of Phi map what they list,
    which is in the network, perhaps not all of it. *)
Theorem loaders_cover fp key m format f :
  (key, m) ∈ MODELS fp → (format, f) ∈ source m →
  ∃ l, dict_get f (loaders built) = Some l ∧
    (f ∉ irregular → maps_exactly l) ∧ maps_network f l ∧ (f = "mistral_loader.awq" → ∀ cfg q em, l cfg q ≠ Ok em).
Proof.
  intros Hm Hs. pose proof (sources_registered fp) as H.
  rewrite forallb_Forall, Forall_forall in H. specialize (H _ Hm). simpl in H.
  rewrite forallb_Forall, Forall_forall in H. specialize (H _ Hs). cbn [snd] in H.
  apply bool_decide_eq_true in H.
  destruct (dict_get f (loaders built)) as [l|] eqn:E; [|by apply dict_get_None in E].
  exists l. split; [done|]. pose proof E as El. apply dict_get_elem in E.
  pose proof (proj1 (Forall_forall _ _) all_loaders_map _ E) as Hl. split_and!; [|done|].
  - intros Hf. by apply (maps_regular f).
  - intros -> cfg q em. apply mistral_awq_named in El as ->. apply mistral_awq_fails.
Qed.
End loaders.

(** ** Witness *)

Module Example.
(** Arrays of which only the operations on names matter. *)
#[local] Instance unit_arrays : Numpy unit := {|
  np_shape _ := []; astype _ _ := Ok tt; concatenate _ _ := Ok tt; stack _ _ := Ok tt;
  transpose _ _ := Ok tt; reshape _ _ := Ok tt; split _ _ _ := Ok [tt; tt; tt]; add_scalar _ _ := tt;
  div_scalar _ _ := Ok tt; np_exp _ := tt; negative _ := tt; allclose _ _ := Ok true;
  full _ _ _ := Ok tt; broadcast_to _ _ := Ok tt; repeat_each _ _ := Ok tt |}.

Definition half (shape : list Z) : param_spec :=
  {| shape := Some <$> shape; dtype := "float16"; shard_strategy := None |}.
(** A Llama network of one layer. *)
Definition one_layer (b : build) (_ : Config.config) : result (list (string * param_spec)) :=
  match b with
  | Plain "LlamaForCausalLM" (Some "float16") =>
      Ok [("model.embed_tokens.weight", half [10; 4]); ("model.layers.0.self_attn.qkv_proj.weight", half [8; 4]);
          ("model.layers.0.self_attn.o_proj.weight", half [4; 4]);
          ("model.layers.0.mlp.gate_up_proj.weight", half [12; 4]);
          ("model.layers.0.mlp.down_proj.weight", half [4; 6]);
          ("model.norm.weight", half [4]); ("lm_head.weight", half [10; 4])]%Z
  | _ => raise NotImplementedError ""
  end.
Definition cfg : Config.config :=
  {| config_class_of := ModelConfigs.LlamaConfig; values := {["num_hidden_layers" := PInt 1]}; Config.kwargs := ∅ |}.
Definition unquantized : Quantization :=
  {| qz_name := "q0f16"; qz_method := MNo {| no_kind := "no-quant"; no_model_dtype := "float16" |} |}.
Definition loaded : result (ExternMapping unit) :=
  standard_loader one_layer llama_options cfg (Some unquantized).
Lemma loaded_map : (param_map <$> loaded) = Ok [
  ("model.layers.0.self_attn.qkv_proj.weight",
    ["model.layers.0.self_attn.q_proj.weight"; "model.layers.0.self_attn.k_proj.weight";
     "model.layers.0.self_attn.v_proj.weight"]);
  ("model.layers.0.mlp.gate_up_proj.weight",
    ["model.layers.0.mlp.gate_proj.weight"; "model.layers.0.mlp.up_proj.weight"]);
  ("model.embed_tokens.weight", ["model.embed_tokens.weight"]);
  ("model.layers.0.self_attn.o_proj.weight", ["model.layers.0.self_attn.o_proj.weight"]);
  ("model.layers.0.mlp.down_proj.weight", ["model.layers.0.mlp.down_proj.weight"]);
  ("model.norm.weight", ["model.norm.weight"]); ("lm_head.weight", ["lm_head.weight"])].
Proof. vm_compute. reflexivity. Qed.

Lemma loaders_cover_witness :
  ∃ l, dict_get "llama_loader.huggingface" (loaders one_layer) = Some l ∧ maps_exactly one_layer l.
Proof.
  destruct (loaders_cover one_layer offline "llama" model_llama "huggingface-safetensor" "llama_loader.huggingface") as (l & Hl & Hex & _);
    [apply list_elem_of_In; simpl; tauto..|].
  exists l. split; [exact Hl|]. apply Hex. apply (bool_decide_unpack _). by vm_compute.
Defined.
End Example.
