(* ===== verification/Kernel.v ===== *)
(** Kernels: the machine integers, loops and grids of threads that the operators of
    [python/mlc_llm/op/] are written with, and sums.

    A buffer a kernel writes is a finite map from indices to values; the buffers it
    only reads are functions. A loop is a left fold over the list of its iterations;
    the threads of a grid are iterations whose order is not fixed. *)

From Stdlib Require Import Lia ZArith.
From stdpp Require Import base gmap list list_numbers numbers.
From S2P Require Import Prelude.
Open Scope Z_scope.

(** ** 32-bit integers *)

Definition i32 (z : Z) : Z := (z + 2 ^ 31) mod 2 ^ 32 - 2 ^ 31.
Lemma i32_small z : - 2 ^ 31 ≤ z < 2 ^ 31 → i32 z = z.
Proof. intros H. unfold i32. rewrite Z.mod_small; lia. Qed.
Lemma i32_bounds z : - 2 ^ 31 ≤ i32 z < 2 ^ 31.
Proof. unfold i32. pose proof (Z.mod_pos_bound (z + 2 ^ 31) (2 ^ 32)). lia. Qed.

(** [T.ceildiv]. *)
Definition ceildiv (a b : Z) : Z := (a + b - 1) / b.
Lemma ceildiv_spec a b : 0 < b → a ≤ ceildiv a b * b < a + b.
Proof.
  intros Hb. unfold ceildiv. pose proof (Z.div_mod (a + b - 1) b). pose proof (Z.mod_pos_bound (a + b - 1) b). nia.
Qed.
Lemma ceildiv_nonneg a b : 0 < b → 0 ≤ a → 0 ≤ ceildiv a b.
Proof. intros. unfold ceildiv. apply Z.div_pos; lia. Qed.

(** ** Ranges *)

Definition range (n : Z) : list Z := seqZ 0 n.
Lemma elem_of_range i n : i ∈ range n ↔ 0 ≤ i < n.
Proof. unfold range. rewrite elem_of_seqZ. lia. Qed.
Lemma range_NoDup n : NoDup (range n).
Proof. apply NoDup_seqZ. Qed.
Lemma length_range n : length (range n) = Z.to_nat n.
Proof. apply length_seqZ. Qed.
Lemma lookup_range n i : 0 ≤ i < n → range n !! Z.to_nat i = Some i.
Proof. intros H. unfold range. rewrite lookup_seqZ_lt by lia. f_equal. lia. Qed.
Lemma range_nonpos n : n ≤ 0 → range n = [].
Proof. intros H. unfold range, seqZ. by replace (Z.to_nat n) with 0%nat by lia. Qed.
Lemma range_app m n : 0 ≤ m → 0 ≤ n → range (m + n) = range m ++ (Z.add m <$> range n).
Proof. intros Hm Hn. unfold range. rewrite seqZ_app by lia. rewrite fmap_add_seqZ. f_equal. f_equal. lia. Qed.
Lemma range_S n : 0 ≤ n → range (n + 1) = range n ++ [n].
Proof. intros Hn. rewrite range_app by lia. unfold range at 2, seqZ. simpl. do 2 f_equal. lia. Qed.
Lemma seqZ_snoc a n : 0 ≤ n → seqZ a (n + 1) = seqZ a n ++ [a + n].
Proof. intros Hn. rewrite seqZ_app by lia. unfold seqZ at 2. simpl. do 2 f_equal; lia. Qed.
Lemma range_split n i : 0 ≤ i < n → range n = range i ++ i :: ((Z.add (i + 1)) <$> range (n - i - 1)).
Proof.
  intros H. replace n with ((i + 1) + (n - i - 1)) at 1 by lia. rewrite range_app, range_S by lia.
  by rewrite <-(assoc_L (++)).
Qed.

Lemma range_ind (P : Z → Prop) : (∀ n, n ≤ 0 → P n) → (∀ n, 0 ≤ n → P n → P (n + 1)) → ∀ n, P n.
Proof.
  intros H0 HS n. destruct (Z_le_gt_dec n 0) as [|Hn]; [by apply H0|].
  assert (0 ≤ n) as Hn' by lia. clear Hn. revert n Hn'. apply natlike_ind; [apply H0; lia|].
  intros n Hn IH. by apply HS.
Qed.

(** The rows of a flattened matrix. *)
Lemma range_blocks q n : 0 ≤ n → range q ≫= (λ i, (λ j, i * n + j) <$> range n) = range (q * n).
Proof.
  intros Hn. induction q as [q Hq|q Hq IH] using range_ind.
  - rewrite (range_nonpos q), (range_nonpos (q * n)) by nia. done.
  - rewrite range_S by done. rewrite bind_app, IH. cbn. rewrite app_nil_r.
    replace ((q + 1) * n) with (q * n + n) by lia. by rewrite range_app by nia.
Qed.
Lemma filter_range m n : n ≤ m → filter (λ t, t < n) (range m) = range n.
Proof.
  intros H. destruct (Z_le_gt_dec n 0) as [Hn|Hn].
  - rewrite (range_nonpos n) by done. apply filter_none. intros t Ht%elem_of_range. lia.
  - replace m with (n + (m - n)) by lia. rewrite range_app, list.filter_app by lia.
    rewrite filter_all, filter_none, app_nil_r; [done| |].
    + intros t (u & -> & Hu%elem_of_range)%list_elem_of_fmap. lia.
    + intros t Ht%elem_of_range. lia.
Qed.

(** ** Grids of threads *)

(** The threads [io * TX + ii] below [n] of the grid [ceildiv n TX] by [TX]. *)
Definition threads (n TX : Z) : list Z :=
  filter (λ t, t < n) (range (ceildiv n TX) ≫= (λ io, (λ ii, io * TX + ii) <$> range TX)).
Lemma threads_range n TX : 0 < TX → threads n TX = range n.
Proof.
  intros H. unfold threads. rewrite range_blocks by lia. apply filter_range. apply ceildiv_spec. done.
Qed.

(** ** Loops *)

Definition loop {S I} (l : list I) (body : I → S → S) (s : S) : S := foldl (λ s i, body i s) s l.

Section loops.
Context {S I : Type}.
Implicit Types (body : I → S → S) (l : list I).
Lemma loop_nil body s : loop [] body s = s.
Proof. done. Qed.
Lemma loop_app l1 l2 body s : loop (l1 ++ l2) body s = loop l2 body (loop l1 body s).
Proof. apply foldl_app. Qed.
Lemma loop_cons i l body s : loop (i :: l) body s = loop l body (body i s).
Proof. done. Qed.
Lemma loop_ext l body1 body2 s : (∀ i s, i ∈ l → body1 i s = body2 i s) → loop l body1 s = loop l body2 s.
Proof.
  revert s. induction l as [|i l IH]; intros s H; [done|]. rewrite !loop_cons, H by left.
  apply IH. intros j s' Hj. apply H. by right.
Qed.
Lemma loop_invariant (P : S → Prop) l body s :
  (∀ i s, i ∈ l → P s → P (body i s)) → P s → P (loop l body s).
Proof.
  revert s. induction l as [|i l IH]; intros s H Hs; [done|]. rewrite loop_cons.
  apply IH; [|by apply H; [left|]]. intros j s' Hj. apply H. by right.
Qed.
(** What one iteration establishes and the others keep holds at the end. *)
Lemma loop_establishes (P : S → Prop) l body s i :
  i ∈ l → (∀ s, P (body i s)) → (∀ j s, j ∈ l → P s → P (body j s)) → P (loop l body s).
Proof.
  intros Hi Hb Hk. apply list_elem_of_split in Hi as (l1 & l2 & ->).
  rewrite loop_app, loop_cons. apply loop_invariant; [|done].
  intros j s' Hj. apply Hk. set_solver.
Qed.
End loops.
Lemma loop_fmap {S I J} (f : J → I) (l : list J) (body : I → S → S) s :
  loop (f <$> l) body s = loop l (λ j, body (f j)) s.
Proof. revert s. induction l as [|j l IH]; intros s; [done|]. apply IH. Qed.
Lemma loop_bind {S I J} (f : J → list I) (l : list J) (body : I → S → S) s :
  loop (l ≫= f) body s = loop l (λ j, loop (f j) body) s.
Proof. revert s. induction l as [|j l IH]; intros s; [done|]. rewrite bind_cons, loop_app. apply IH. Qed.

(** [T.grid]: the iterations of nested loops. *)
Definition grid (m n : Z) : list (Z * Z) := range m ≫= (λ i, (λ j, (i, j)) <$> range n).
Lemma elem_of_grid m n i j : (i, j) ∈ grid m n ↔ 0 ≤ i < m ∧ 0 ≤ j < n.
Proof.
  unfold grid. rewrite list_elem_of_bind. split.
  - intros (i' & (j' & [= -> ->] & Hj%elem_of_range)%list_elem_of_fmap & Hi%elem_of_range). done.
  - intros [Hi Hj]. exists i. rewrite elem_of_range, list_elem_of_fmap. split; [|done].
    exists j. by rewrite elem_of_range.
Qed.

(** *** Loops of stores *)

Section stores.
Context {K : Type} `{Countable K} {V : Type} {I : Type}.
Implicit Types m : gmap K V.

(** Iteration [i] stores [v i] at [p i]. *)
Definition store_all (l : list I) (p : I → K) (v : I → V) (m : gmap K V) : gmap K V :=
  loop l (λ i, <[p i := v i]>) m.

Lemma store_all_lookup l p v m k :
  (∀ i j, i ∈ l → j ∈ l → p i = p j → v i = v j) →
  (∀ i, i ∈ l → p i = k → store_all l p v m !! k = Some (v i)) ∧
  ((∀ i, i ∈ l → p i ≠ k) → store_all l p v m !! k = m !! k).
Proof.
  intros Hinj. unfold store_all. split.
  - intros i Hi Hp. apply (loop_establishes (λ m, m !! k = Some (v i)) l _ _ i Hi).
    + intros m'. rewrite Hp. apply lookup_insert_eq.
    + intros j m' Hj Hm. destruct (decide (p j = k)) as [Hk|Hk].
      * rewrite Hk, lookup_insert_eq. f_equal. apply Hinj; congruence.
      * by rewrite lookup_insert_ne.
  - intros Hn. apply (loop_invariant (λ m', m' !! k = m !! k)); [|done].
    intros j m' Hj Hm. rewrite lookup_insert_ne; auto.
Qed.

(** The order of the stores does not matter when they do not conflict. *)
Lemma store_all_Permutation l1 l2 p v m :
  l1 ≡ₚ l2 → (∀ i j, i ∈ l1 → j ∈ l1 → p i = p j → v i = v j) →
  store_all l1 p v m = store_all l2 p v m.
Proof.
  intros Hp Hinj. assert (∀ i j, i ∈ l2 → j ∈ l2 → p i = p j → v i = v j) as Hinj'.
  { intros i j Hi Hj. apply Hinj; by rewrite Hp. }
  apply map_eq. intros k.
  destruct (decide (Exists (λ i, p i = k) l1)) as [He|He].
  - apply List.Exists_exists in He as (i & Hi%list_elem_of_In & Hk).
    rewrite (proj1 (store_all_lookup l1 p v m k Hinj) i Hi Hk).
    symmetry. apply (proj1 (store_all_lookup l2 p v m k Hinj') i); [by rewrite <-Hp|done].
  - assert (∀ i, i ∈ l1 → p i ≠ k) as Hn.
    { intros i Hi Hk. apply He, List.Exists_exists. exists i. by rewrite <-list_elem_of_In. }
    rewrite (proj2 (store_all_lookup l1 p v m k Hinj) Hn).
    symmetry. apply (proj2 (store_all_lookup l2 p v m k Hinj')). intros i Hi. apply Hn. by rewrite Hp.
Qed.
End stores.

(** ** Sums *)

Definition sumZ (f : Z → Z) (n : Z) : Z := foldr (λ i a, f i + a) 0 (range n).
Section sums.
Implicit Types f g : Z → Z.
Lemma foldr_sum f l a : foldr (λ i a, f i + a) a l = foldr (λ i a, f i + a) 0 l + a.
Proof. induction l as [|i l IH]; simpl; lia. Qed.
Lemma sumZ_nonpos f n : n ≤ 0 → sumZ f n = 0.
Proof. intros H. unfold sumZ. by rewrite range_nonpos. Qed.
Lemma sumZ_S f n : 0 ≤ n → sumZ f (n + 1) = sumZ f n + f n.
Proof. intros H. unfold sumZ. rewrite range_S, foldr_app by done. simpl. rewrite foldr_sum. lia. Qed.
Lemma sumZ_add f m n : 0 ≤ m → 0 ≤ n → sumZ f (m + n) = sumZ f m + sumZ (λ i, f (m + i)) n.
Proof.
  intros Hm. induction n as [n Hn|n Hn IH] using range_ind; intros Hn'.
  - assert (n = 0) as -> by lia. rewrite Z.add_0_r. rewrite (sumZ_nonpos (λ i, f (m + i)) 0); lia.
  - rewrite Z.add_assoc, !sumZ_S, IH by lia. lia.
Qed.
Lemma sumZ_ext f g n : (∀ i, 0 ≤ i < n → f i = g i) → sumZ f n = sumZ g n.
Proof.
  induction n as [n Hn|n Hn IH] using range_ind; intros H.
  - by rewrite !sumZ_nonpos.
  - rewrite !sumZ_S by done. rewrite IH, H; [done|lia|]. intros i Hi. apply H. lia.
Qed.
Lemma sumZ_nonneg f n : (∀ i, 0 ≤ i < n → 0 ≤ f i) → 0 ≤ sumZ f n.
Proof.
  induction n as [n Hn|n Hn IH] using range_ind; intros H.
  - by rewrite sumZ_nonpos.
  - rewrite sumZ_S by done. specialize (IH (λ i Hi, H i ltac:(lia))). specialize (H n). lia.
Qed.
Lemma sumZ_le f g n : (∀ i, 0 ≤ i < n → f i ≤ g i) → sumZ f n ≤ sumZ g n.
Proof.
  induction n as [n Hn|n Hn IH] using range_ind; intros H.
  - by rewrite !sumZ_nonpos.
  - rewrite !sumZ_S by done. specialize (IH (λ i Hi, H i ltac:(lia))). specialize (H n). lia.
Qed.
Lemma sumZ_const c n : 0 ≤ n → sumZ (λ _, c) n = n * c.
Proof.
  induction n as [n Hn|n Hn IH] using range_ind; intros H.
  - assert (n = 0) as -> by lia. rewrite sumZ_nonpos; lia.
  - rewrite sumZ_S, IH by lia. lia.
Qed.
Lemma sumZ_mono f m n : (∀ i, 0 ≤ i < n → 0 ≤ f i) → m ≤ n → sumZ f m ≤ sumZ f n.
Proof.
  intros H Hmn. destruct (Z_le_gt_dec m 0) as [|Hm].
  - rewrite (sumZ_nonpos f m) by done. by apply sumZ_nonneg.
  - replace n with (m + (n - m)) by lia. rewrite sumZ_add by lia.
    assert (0 ≤ sumZ (λ i, f (m + i)) (n - m)); [|lia]. apply sumZ_nonneg. intros i Hi. apply H. lia.
Qed.
(** The sum over a flattened matrix. *)
Lemma sumZ_blocks f q n : 0 ≤ n → sumZ f (q * n) = sumZ (λ i, sumZ (λ j, f (i * n + j)) n) q.
Proof.
  intros Hn. induction q as [q Hq|q Hq IH] using range_ind.
  - rewrite (sumZ_nonpos _ q), (sumZ_nonpos _ (q * n)) by nia. done.
  - rewrite sumZ_S, <-IH by done. replace ((q + 1) * n) with (q * n + n) by lia.
    by rewrite sumZ_add by nia.
Qed.
Lemma length_bind {A} (f : Z → list A) n :
  Z.of_nat (length (range n ≫= f)) = sumZ (λ i, Z.of_nat (length (f i))) n.
Proof.
  induction n as [n Hn|n Hn IH] using range_ind.
  - by rewrite range_nonpos, sumZ_nonpos.
  - rewrite range_S, bind_app, length_app, sumZ_S by done. cbn. rewrite app_nil_r. lia.
Qed.
End sums.

(** ** Accumulation in order *)

(** [acc = zero; for j in range(n): acc += f(j)], with the addition of the machine. *)
Definition accumulate {A} (add : A → A → A) (zero : A) (n : Z) (f : Z → A) : A :=
  loop (range n) (λ j acc, add acc (f j)) zero.

(** What a buffer holds, once it is full. *)
Definition tensor {A} `{Inhabited A} (m : gmap (Z * Z) A) : Z → Z → A := λ i j, m !!! (i, j).
