(* ===== verification/MoeRouting.v ===== *)
(** Routing tokens to experts: the kernels of [python/mlc_llm/op/moe_misc.py].

    [gating_topk] keeps the best scores of a row in two local buffers by insertion;
    [moe_cumsum], [get_indices] and [get_indptr] compute the shuffling plan of a batch,
    a counting sort of the activated experts; [scatter_output] undoes it. Tensors that
    are only read are functions of their indices; operators of the tensor library
    ([cumsum], [permute_dims], [reshape], [take]) are parameters with their laws. *)

From Stdlib Require Import Lia ZArith.
From stdpp Require Import base gmap list list_numbers numbers sorting strings.
From S2P Require Import Prelude Kernel.
Open Scope Z_scope.

(** ** Scores *)

(** The comparison of scores, a strict weak order, and the least value of their type. *)
Class Scores (score : Type) := {
  gt : score → score → bool;
  min_value : score;
  gt_asym x y : gt x y = true → gt y x = false;
  gt_cotrans x y z : gt x z = true → gt x y = true ∨ gt y z = true;
}.

(** ** Top-k *)

Section topk.
Context `{scores : Scores score}.

(** The local buffers; a cell that was never written is absent. *)
Record local_top := { local_top_k : gmap Z score; local_top_k_index : gmap Z Z }.
Definition on_top (f : gmap Z score → gmap Z score) (g : gmap Z Z → gmap Z Z) (m : local_top) : local_top :=
  {| local_top_k := f (local_top_k m); local_top_k_index := g (local_top_k_index m) |}.

(** [buffer_store(buf, buf[i], indices=[j])]. *)
Definition copy_cell {A} (j i : Z) (buf : gmap Z A) : gmap Z A := partial_alter (λ _, buf !! i) j buf.

(** The second loop stores [t] at the index [-1], outside of the buffer: here an entry under a key that nothing reads; what
    the store does to other memory is not modelled. *)
Definition _gating_topk_init_local_top_k (k_val : Z) (m : local_top) : local_top :=
  let m := loop (range k_val) (λ t, on_top <[t := min_value]> id) m in
  loop (range k_val) (λ t, on_top id <[-1 := t]>) m.

(** [for j in range(k_val - 1, i, -1)]. *)
Definition down_to (k_val i : Z) : list Z := reverse (seqZ (i + 1) (k_val - 1 - i)).
Definition shift_cells (k_val i : Z) (m : local_top) : local_top :=
  loop (down_to k_val i) (λ j, on_top (copy_cell j (j - 1)) (copy_cell j (j - 1))) m.

(** The nested conditionals of [_gating_topk_process_value]. *)
Fixpoint process_from (k_val : Z) (x : score) (vk : Z) (cells : list Z) (m : local_top) : local_top :=
  match cells with
  | [] => m
  | i :: cells =>
      match local_top_k m !! i with
      | None => m
      | Some v =>
          if gt x v then on_top <[i := x]> <[i := vk]> (shift_cells k_val i m)
          else process_from k_val x vk cells m
      end
  end.
Definition _gating_topk_process_value (k_val : Z) (x : score) (vk : Z) : local_top → local_top :=
  process_from k_val x vk (range k_val).

(** The block [top_k] of one row. *)
Definition topk_row (k_val num_local_experts : Z) (x : Z → score) : local_top :=
  loop (range num_local_experts) (λ vk, _gating_topk_process_value k_val (x vk) vk)
    (_gating_topk_init_local_top_k k_val {| local_top_k := ∅; local_top_k_index := ∅ |}).

(** [topk_func]: every thread has its row, and writes what its buffers hold. *)
Definition store_option {K V} `{Countable K} (k : K) (v : option V) (m : gmap K V) : gmap K V :=
  partial_alter (λ _, v) k m.
Definition output : Type := gmap (Z * Z) score * gmap (Z * Z) Z.
Definition write_row (k_val vi : Z) (m : local_top) (out : output) : output :=
  loop (range k_val) (λ vj out,
    (store_option (vi, vj) (local_top_k m !! vj) out.1,
     store_option (vi, vj) (local_top_k_index m !! vj) out.2)) out.
Definition topk_func (k_val num_local_experts batch_size : Z) (x : Z → Z → score) : output :=
  loop (threads batch_size 1024) (λ vi, write_row k_val vi (topk_row k_val num_local_experts (x vi))) (∅, ∅).
Definition gating_topk (batch_size num_local_experts : Z) (scores : Z → Z → score) (k : Z) :=
  topk_func k num_local_experts batch_size scores.

(** *** The reference: a stable insertion sort *)

Fixpoint insert_score {B} (p : score * B) (l : list (score * B)) : list (score * B) :=
  match l with
  | [] => [p]
  | q :: l => if gt p.1 q.1 then p :: q :: l else q :: insert_score p l
  end.
(** The experts whose score is above the least value. *)
Definition candidates (n : Z) (x : Z → score) : list Z := filter (λ e, gt (x e) min_value = true) (range n).
Definition ranked (n : Z) (x : Z → score) : list (score * Z) :=
  foldl (λ l e, insert_score (x e, e) l) [] (candidates n x).
(** Expert [e] comes before [e'] in the ranking. *)
Definition precedes (x : Z → score) (e e' : Z) : Prop :=
  gt (x e) (x e') = true ∨ (gt (x e') (x e) = false ∧ e < e').

(** *** The buffers hold a prefix of the ranking *)

Definition holds (l : list (score * option Z)) (m : local_top) : Prop :=
  ∀ i p, l !! i = Some p → local_top_k m !! Z.of_nat i = Some p.1 ∧ local_top_k_index m !! Z.of_nat i = p.2.

Lemma shift_loop_top js m :
  local_top_k (loop js (λ j, on_top (copy_cell j (j - 1)) (copy_cell j (j - 1))) m) =
    loop js (λ j, copy_cell j (j - 1)) (local_top_k m).
Proof. revert m. induction js as [|j js IH]; intros m; [done|]. rewrite !loop_cons. apply IH. Qed.
Lemma shift_loop_index js m :
  local_top_k_index (loop js (λ j, on_top (copy_cell j (j - 1)) (copy_cell j (j - 1))) m) =
    loop js (λ j, copy_cell j (j - 1)) (local_top_k_index m).
Proof. revert m. induction js as [|j js IH]; intros m; [done|]. rewrite !loop_cons. apply IH. Qed.

Lemma shift_buffer {A} (n : nat) i (buf : gmap Z A) j :
  loop (reverse (seqZ (i + 1) (Z.of_nat n))) (λ j, copy_cell j (j - 1)) buf !! j =
    if decide (i < j ≤ i + Z.of_nat n) then buf !! (j - 1) else buf !! j.
Proof.
  revert buf. induction n as [|n IH]; intros buf.
  - simpl. case_decide; [lia|done].
  - replace (Z.of_nat (S n)) with (Z.of_nat n + 1) by lia.
    rewrite seqZ_snoc, reverse_snoc, loop_cons, IH by lia. unfold copy_cell.
    repeat case_decide; try lia.
    + rewrite lookup_partial_alter_ne by lia. done.
    + replace j with (i + 1 + Z.of_nat n) by lia. by rewrite lookup_partial_alter_eq.
    + rewrite lookup_partial_alter_ne by lia. done.
Qed.

Lemma shift_cells_spec k_val i m j :
  i < k_val →
  local_top_k (shift_cells k_val i m) !! j =
    (if decide (i < j < k_val) then local_top_k m !! (j - 1) else local_top_k m !! j) ∧
  local_top_k_index (shift_cells k_val i m) !! j =
    (if decide (i < j < k_val) then local_top_k_index m !! (j - 1) else local_top_k_index m !! j).
Proof.
  intros Hi. unfold shift_cells, down_to. rewrite shift_loop_top, shift_loop_index.
  replace (k_val - 1 - i) with (Z.of_nat (Z.to_nat (k_val - 1 - i))) by lia.
  rewrite !shift_buffer. split; repeat case_decide; try done; lia.
Qed.

Lemma process_holds k_val x vk l1 l2 m :
  k_val = Z.of_nat (length l1 + length l2) → holds (l1 ++ l2) m →
  holds (l1 ++ take (length l2) (insert_score (x, Some vk) l2))
    (process_from k_val x vk (seqZ (Z.of_nat (length l1)) (Z.of_nat (length l2))) m).
Proof.
  revert l1 m. induction l2 as [|q l2 IH]; intros l1 m Hk Hm; [by simpl|].
  rewrite seqZ_cons by (simpl; lia). cbn [process_from].
  assert ((l1 ++ q :: l2) !! length l1 = Some q) as Hq by (by rewrite lookup_app_r, Nat.sub_diag by lia).
  rewrite (proj1 (Hm _ _ Hq)). cbn [insert_score fst]. destruct (gt x q.1) eqn:Hgt.
  - intros i p Hp. cbn [on_top local_top_k local_top_k_index length] in *.
    destruct (shift_cells_spec k_val (Z.of_nat (length l1)) m (Z.of_nat i)) as [Ht Hx]; [simpl in Hk; lia|].
    destruct (Nat.lt_trichotomy i (length l1)) as [Hlt|[->|Hgt']].
    + rewrite !lookup_insert_ne, Ht, Hx, !decide_False by lia. apply Hm.
      rewrite lookup_app_l in * by done. done.
    + rewrite lookup_app_r, Nat.sub_diag in Hp by lia. injection Hp as <-. by rewrite !lookup_insert_eq.
    + assert (i < length l1 + S (length l2))%nat as Hi.
      { apply lookup_lt_Some in Hp. rewrite length_app, length_take in Hp. lia. }
      rewrite !lookup_insert_ne, Ht, Hx, !decide_True by (simpl in Hk; lia).
      replace (Z.of_nat i - 1) with (Z.of_nat (i - 1)) by lia. apply Hm.
      rewrite lookup_app_r in Hp |- * by lia. replace (i - length l1)%nat with (S (i - 1 - length l1)) in Hp by lia.
      cbn in Hp. rewrite lookup_take_Some in Hp. tauto.
  - replace (l1 ++ take (length (q :: l2)) (q :: insert_score (x, Some vk) l2)) with
      ((l1 ++ [q]) ++ take (length l2) (insert_score (x, Some vk) l2)) by (by rewrite <-(assoc_L (++))).
    replace (Z.succ (Z.of_nat (length l1))) with (Z.of_nat (length (l1 ++ [q]))) by (rewrite length_app; simpl; lia).
    replace (Z.pred (Z.of_nat (length (q :: l2)))) with (Z.of_nat (length l2)) by (simpl; lia).
    apply IH; [rewrite length_app; simpl in *; lia|by rewrite <-(assoc_L (++))].
Qed.

Lemma process_value_holds k_val x vk l m :
  k_val = Z.of_nat (length l) → holds l m →
  holds (take (length l) (insert_score (x, Some vk) l)) (_gating_topk_process_value k_val x vk m).
Proof. intros -> Hm. by apply (process_holds _ _ _ [] l). Qed.

Lemma init_holds (k : nat) m :
  local_top_k_index m = ∅ →
  holds (replicate k (min_value, None)) (_gating_topk_init_local_top_k (Z.of_nat k) m).
Proof.
  intros Hm i p Hp. unfold _gating_topk_init_local_top_k.
  set (m1 := loop (range (Z.of_nat k)) (λ t, on_top <[t := min_value]> id) m).
  assert (local_top_k m1 = store_all (range (Z.of_nat k)) id (λ _, min_value) (local_top_k m) ∧ local_top_k_index m1 = ∅) as [Ht Hx].
  { unfold m1, store_all. rewrite <-Hm. generalize (range (Z.of_nat k)). clear. intros l. revert m.
    induction l as [|t l IH]; intros m; [done|]. rewrite !loop_cons. destruct (IH (on_top <[t:=min_value]> id m)) as [-> ->].
    done. }
  clearbody m1. apply lookup_replicate in Hp as [-> Hi].
  set (m2 := loop _ _ m1). assert (local_top_k m2 = local_top_k m1 ∧ local_top_k_index m2 !! Z.of_nat i = None) as [-> ->].
  { unfold m2. apply (loop_invariant (λ m, local_top_k m = local_top_k m1 ∧ local_top_k_index m !! Z.of_nat i = None)).
    - intros t m' _ [Ht' Hx']. split; [done|]. cbn. rewrite lookup_insert_ne by lia. done.
    - split; [done|]. by rewrite Hx. }
  split; [|done]. rewrite Ht. refine (proj1 (store_all_lookup (range (Z.of_nat k)) id _ _ _ _) _ _ _); [done| |done].
  apply elem_of_range. lia.
Qed.

(** The initial indices are stored outside of the buffer, whose cells stay unwritten. *)
Lemma init_stores_outside (k : nat) :
  local_top_k_index (_gating_topk_init_local_top_k (Z.of_nat (S k)) {| local_top_k := ∅; local_top_k_index := ∅ |}) =
    {[ -1 := Z.of_nat k ]}.
Proof.
  unfold _gating_topk_init_local_top_k. set (m := loop _ (λ t, on_top <[t := min_value]> id) _).
  assert (local_top_k_index m = ∅) as Hm.
  { apply (loop_invariant (λ m, local_top_k_index m = ∅)); [|done]. intros i m' _ Hm'. done. }
  clearbody m. replace (Z.of_nat (S k)) with (Z.of_nat k + 1) by lia. rewrite range_S, loop_app, loop_cons, loop_nil by lia.
  cbn. generalize (range (Z.of_nat k)) as l. intros l.
  assert (∃ m', local_top_k_index m' = ∅ ∧
    <[-1 := Z.of_nat k]> (local_top_k_index (loop l (λ t, on_top id <[-1 := t]>) m)) =
    <[-1 := Z.of_nat k]> (local_top_k_index m')) as (m' & Hm' & ->); [|by rewrite Hm'].
  revert m Hm. induction l as [|t l IH] using rev_ind; intros m Hm; [by exists m|].
  rewrite loop_app, loop_cons, loop_nil. cbn. rewrite insert_insert_eq. by apply IH.
Qed.

(** *** Truncated insertion *)

Lemma take_insert {B} k (p : score * B) l : take k (insert_score p (take k l)) = take k (insert_score p l).
Proof.
  revert k. induction l as [|q l IH]; intros [|k]; simpl; try done.
  destruct (gt p.1 q.1); simpl; [|by rewrite IH].
  f_equal. destruct k as [|k]; simpl; [done|]. f_equal. by rewrite take_take, Nat.min_l by lia.
Qed.
Lemma insert_score_pad {B} (p : score * B) l n (b : B) :
  gt p.1 min_value = true →
  insert_score p (l ++ replicate n (min_value, b)) = insert_score p l ++ replicate n (min_value, b).
Proof.
  intros Hp. induction l as [|q l IH]; simpl.
  - destruct n; simpl; [done|]. by rewrite Hp.
  - destruct (gt p.1 q.1); [done|]. simpl. by rewrite IH.
Qed.
(** A score that is not above the least value stays behind the cells of the initial buffer. *)
Lemma insert_score_low {B} (p : score * B) l n (b : B) :
  gt p.1 min_value = false → (∀ q, q ∈ l → gt q.1 min_value = true) →
  insert_score p (l ++ replicate n (min_value, b)) = (l ++ replicate n (min_value, b)) ++ [p].
Proof.
  intros Hp Hl. induction l as [|q l IH]; simpl.
  - induction n as [|n IHn]; simpl; [done|]. by rewrite Hp, IHn.
  - assert (gt p.1 q.1 = false) as ->.
    { destruct (gt p.1 q.1) eqn:E; [|done]. destruct (gt_cotrans p.1 min_value q.1 E) as [H|H%gt_asym]; [congruence|].
      by rewrite Hl in H by left. }
    rewrite IH; [done|]. intros r Hr. apply Hl. by right.
Qed.
Lemma insert_score_fmap {B C} (f : B → C) (p : score * B) l :
  insert_score (p.1, f p.2) (prod_map id f <$> l) = prod_map id f <$> insert_score p l.
Proof.
  destruct p as [x b]. induction l as [|[y c] l IH]; [done|]. csimpl. simpl in IH.
  destruct (gt x y); [done|]. rewrite IH. done.
Qed.

Lemma insert_score_perm {B} (p : score * B) l : insert_score p l ≡ₚ p :: l.
Proof.
  induction l as [|q l IH]; simpl; [done|]. destruct (gt p.1 q.1); [done|]. rewrite IH. apply Permutation_swap.
Qed.

(** *** The ranking *)

Lemma candidates_S n x : 0 ≤ n →
  candidates (n + 1) x = candidates n x ++ (if gt (x n) min_value then [n] else []).
Proof.
  intros Hn. unfold candidates. rewrite range_S, list.filter_app by done. f_equal.
  destruct (gt (x n) min_value) eqn:E; [by rewrite filter_cons_True|by rewrite filter_cons_False, filter_nil by (by rewrite E)].
Qed.
Lemma candidates_elem n x e : e ∈ candidates n x ↔ 0 ≤ e < n ∧ gt (x e) min_value = true.
Proof. unfold candidates. rewrite list_elem_of_filter, elem_of_range. tauto. Qed.
Lemma ranked_S n x : 0 ≤ n →
  ranked (n + 1) x = if gt (x n) min_value then insert_score (x n, n) (ranked n x) else ranked n x.
Proof.
  intros Hn. unfold ranked. rewrite candidates_S, foldl_app by done. by destruct (gt (x n) min_value).
Qed.
Lemma ranked_nonpos n x : n ≤ 0 → ranked n x = [].
Proof. intros Hn. unfold ranked, candidates. by rewrite range_nonpos. Qed.
Lemma ranked_perm n x : ranked n x ≡ₚ (λ e, (x e, e)) <$> candidates n x.
Proof.
  induction n as [n Hn|n Hn IH] using range_ind.
  - unfold candidates. by rewrite ranked_nonpos, range_nonpos.
  - rewrite ranked_S, candidates_S, fmap_app, <-IH by done. destruct (gt (x n) min_value); simpl.
    + rewrite insert_score_perm. apply Permutation_cons_append.
    + by rewrite app_nil_r.
Qed.
Lemma ranked_elem n x p : p ∈ ranked n x ↔ p = (x p.2, p.2) ∧ 0 ≤ p.2 < n ∧ gt (x p.2) min_value = true.
Proof.
  rewrite (ranked_perm n x), list_elem_of_fmap. split.
  - intros (e & -> & He%candidates_elem). done.
  - intros [Hp He]. exists p.2. by rewrite candidates_elem.
Qed.

Definition before (p q : score * Z) : Prop := gt p.1 q.1 = true ∨ (gt q.1 p.1 = false ∧ p.2 < q.2).
Lemma gt_irrefl x : gt x x = false.
Proof. destruct (gt x x) eqn:E; [|done]. by rewrite <-(gt_asym x x E). Qed.
Lemma before_insert p q r : gt p.1 q.1 = true → before q r → before p r.
Proof.
  intros Hpq Hqr. left. assert (gt r.1 q.1 = false) as Hn by (destruct Hqr as [?%gt_asym|[? _]]; done).
  destruct (gt_cotrans p.1 r.1 q.1 Hpq) as [|H]; [done|]. by rewrite H in Hn.
Qed.
Lemma insert_sorted p l :
  StronglySorted before l → (∀ q, q ∈ l → q.2 < p.2) → StronglySorted before (insert_score p l).
Proof.
  intros Hl. induction Hl as [|q l Hl IH Hq]; intros Hlt; simpl.
  - repeat constructor.
  - destruct (gt p.1 q.1) eqn:Hgt.
    + constructor; [by constructor|]. constructor; [by left|].
      eapply Forall_impl; [exact Hq|]. intros r. by apply before_insert.
    + constructor; [apply IH; intros r Hr; apply Hlt; by right|].
      rewrite insert_score_perm. constructor; [|done]. right. split; [done|]. apply Hlt. left.
Qed.
Lemma ranked_sorted n x : StronglySorted before (ranked n x).
Proof.
  induction n as [n Hn|n Hn IH] using range_ind.
  - rewrite ranked_nonpos by done. constructor.
  - rewrite ranked_S by done. destruct (gt (x n) min_value); [|done].
    apply insert_sorted; [done|]. intros q Hq%ranked_elem. simpl. lia.
Qed.

(** *** The rows of the kernel *)

Lemma topk_row_S k_val n x :
  0 ≤ n → topk_row k_val (n + 1) x = _gating_topk_process_value k_val (x n) n (topk_row k_val n x).
Proof. intros Hn. unfold topk_row. by rewrite range_S, loop_app by done. Qed.
Lemma topk_row_holds (k : nat) n x :
  holds (take k ((prod_map id Some <$> ranked n x) ++ replicate k (min_value, None))) (topk_row (Z.of_nat k) n x).
Proof.
  induction n as [n Hn|n Hn IH] using range_ind.
  - unfold topk_row. rewrite ranked_nonpos, range_nonpos by done. simpl. rewrite firstn_all2 by (rewrite length_replicate; lia).
    by apply init_holds.
  - rewrite ranked_S, topk_row_S by done.
    apply (process_value_holds (Z.of_nat k) (x n) n) in IH; [|rewrite length_take, length_app, length_replicate; lia].
    rewrite length_take, length_app, length_replicate, Nat.min_l, take_insert in IH by lia.
    destruct (gt (x n) min_value) eqn:E.
    + rewrite insert_score_pad in IH by done. by rewrite (insert_score_fmap Some (x n, n)) in IH.
    + rewrite insert_score_low in IH; [|done|].
      * rewrite take_app_le in IH by (rewrite length_app, length_replicate; lia).
        exact IH.
      * intros q (p & -> & (-> & _ & Hgt)%ranked_elem)%list_elem_of_fmap. done.
Qed.
Lemma topk_row_ranked (k : nat) n x i p :
  ranked n x !! i = Some p → (i < k)%nat →
  local_top_k (topk_row (Z.of_nat k) n x) !! Z.of_nat i = Some p.1 ∧
  local_top_k_index (topk_row (Z.of_nat k) n x) !! Z.of_nat i = Some p.2.
Proof.
  intros Hp Hi. destruct (topk_row_holds k n x i (prod_map id Some p)) as [-> ->]; [|by destruct p].
  rewrite lookup_take_lt by done. rewrite lookup_app_l by (rewrite length_fmap; by eapply lookup_lt_Some).
  by rewrite list_lookup_fmap, Hp.
Qed.

Lemma write_row_spec k_val vi m out b j :
  (write_row k_val vi m out).1 !! (b, j) =
    (if decide (b = vi ∧ 0 ≤ j < k_val) then local_top_k m !! j else out.1 !! (b, j)) ∧
  (write_row k_val vi m out).2 !! (b, j) =
    (if decide (b = vi ∧ 0 ≤ j < k_val) then local_top_k_index m !! j else out.2 !! (b, j)).
Proof.
  unfold write_row. induction k_val as [n Hn|n Hn IH] using range_ind.
  - rewrite range_nonpos by done. rewrite !decide_False by lia. done.
  - rewrite range_S, loop_app by done. destruct IH as [IH1 IH2].
    rewrite loop_cons, loop_nil. cbn [fst snd].
    match type of IH1 with (?o.1 !! _) = _ => set (out' := o) in * end. unfold store_option.
    destruct (decide ((vi, n) = (b, j))) as [[= -> ->]|Hne].
    + rewrite !lookup_partial_alter_eq, !decide_True by lia. done.
    + rewrite !lookup_partial_alter_ne, IH1, IH2 by done.
      split; repeat case_decide; try done; exfalso; apply Hne; f_equal; lia.
Qed.
Lemma write_rows_spec k_val batch (row : Z → local_top) b j :
  0 ≤ b < batch → 0 ≤ j < k_val →
  (loop (range batch) (λ vi, write_row k_val vi (row vi)) (∅, ∅)).1 !! (b, j) = local_top_k (row b) !! j ∧
  (loop (range batch) (λ vi, write_row k_val vi (row vi)) (∅, ∅)).2 !! (b, j) = local_top_k_index (row b) !! j.
Proof.
  intros Hb Hj.
  apply (loop_establishes (λ out : output, out.1 !! (b, j) = local_top_k (row b) !! j ∧
    out.2 !! (b, j) = local_top_k_index (row b) !! j) _ _ _ b).
  - by apply elem_of_range.
  - intros out. destruct (write_row_spec k_val b (row b) out b j) as [-> ->]. by rewrite !decide_True.
  - intros vi out _ [H1 H2]. destruct (write_row_spec k_val vi (row vi) out b j) as [-> ->].
    case_decide as Hd; [|done]. by destruct Hd as [-> _].
Qed.
Lemma topk_func_row k_val n batch x b j :
  0 ≤ b < batch → 0 ≤ j < k_val →
  (topk_func k_val n batch x).1 !! (b, j) = local_top_k (topk_row k_val n (x b)) !! j ∧
  (topk_func k_val n batch x).2 !! (b, j) = local_top_k_index (topk_row k_val n (x b)) !! j.
Proof.
  intros Hb Hj. unfold topk_func. rewrite threads_range by done.
  by apply (write_rows_spec k_val batch (λ b, topk_row k_val n (x b))).
Qed.

(** *** The chosen experts *)

Definition chosen (k : nat) (n : Z) (x : Z → score) : list Z := take k (ranked n x).*2.

Lemma chosen_candidate k n x e : e ∈ chosen k n x → e ∈ candidates n x.
Proof.
  intros (i & Hi%list_elem_of_lookup_2 & _)%elem_of_take. apply list_elem_of_fmap in Hi as (p & -> & Hp%ranked_elem).
  apply candidates_elem. tauto.
Qed.
Lemma chosen_length k n x : (k ≤ length (candidates n x))%nat → length (chosen k n x) = k.
Proof. intros Hk. unfold chosen. rewrite length_take, length_fmap, (ranked_perm n x), length_fmap. lia. Qed.
Lemma ranked_NoDup n x : NoDup (ranked n x).*2.
Proof.
  rewrite (ranked_perm n x), <-list_fmap_compose. rewrite (list_fmap_ext _ id) by done.
  rewrite list_fmap_id. apply NoDup_filter, range_NoDup.
Qed.
Lemma chosen_NoDup k n x : NoDup (chosen k n x).
Proof. eapply sublist_NoDup; [apply ranked_NoDup|]. apply sublist_take. Qed.
Lemma chosen_outputs batch n x (k : nat) b j e :
  0 ≤ b < batch → chosen k n (x b) !! j = Some e →
  (gating_topk batch n x (Z.of_nat k)).1 !! (b, Z.of_nat j) = Some (x b e) ∧
  (gating_topk batch n x (Z.of_nat k)).2 !! (b, Z.of_nat j) = Some e.
Proof.
  intros Hb [Hj Hk]%lookup_take_Some. apply list_lookup_fmap_Some in Hj as (p & -> & Hp).
  unfold gating_topk. destruct (topk_func_row (Z.of_nat k) n batch x b (Z.of_nat j) Hb) as [-> ->]; [lia|].
  destruct (topk_row_ranked k n (x b) j p Hp Hk) as [-> ->]. split; [|done].
  apply list_elem_of_lookup_2, ranked_elem in Hp as [-> _]. done.
Qed.
Lemma ranking_precedes n x : StronglySorted (precedes x) (ranked n x).*2.
Proof.
  assert (∀ p, p ∈ ranked n x → p.1 = x p.2) as Hp by by intros p [-> _]%ranked_elem.
  revert Hp. induction (ranked_sorted n x) as [|p l Hl IH Hb]; intros Hp; csimpl; constructor.
  - apply IH. intros q Hq. apply Hp. by right.
  - apply Forall_fmap, Forall_forall. intros q Hq. rewrite Forall_forall in Hb. specialize (Hb q Hq).
    unfold before in Hb. rewrite (Hp p), (Hp q) in Hb by set_solver. done.
Qed.
Lemma chosen_sorted k n x : StronglySorted (precedes x) (chosen k n x).
Proof.
  pose proof (ranking_precedes n x) as H. unfold chosen. rewrite <-(take_drop k (ranked n x).*2) in H.
  by apply StronglySorted_app_1_l in H.
Qed.
Lemma chosen_best k n x e e' :
  e ∈ chosen k n x → e' ∈ candidates n x → e' ∉ chosen k n x → precedes x e e'.
Proof.
  intros He Hr%candidates_elem He'. pose proof (ranking_precedes n x) as H. unfold chosen in *.
  rewrite <-(take_drop k (ranked n x).*2) in H.
  eapply StronglySorted_app_1_elem_of; [exact H|done|].
  assert (e' ∈ (ranked n x).*2) as Hin.
  { apply list_elem_of_fmap. exists (x e', e'). split; [done|]. by apply ranked_elem. }
  rewrite <-(take_drop k (ranked n x).*2) in Hin. apply elem_of_app in Hin as [|]; done.
Qed.

Lemma chosen_size k n x : length (chosen k n x) = Nat.min k (length (candidates n x)).
Proof. unfold chosen. by rewrite length_take, length_fmap, (ranked_perm n x), length_fmap. Qed.
Lemma chosen_rest batch n x (k : nat) b j :
  0 ≤ b < batch → (length (chosen k n (x b)) ≤ j < k)%nat →
  (gating_topk batch n x (Z.of_nat k)).1 !! (b, Z.of_nat j) = Some min_value ∧
  (gating_topk batch n x (Z.of_nat k)).2 !! (b, Z.of_nat j) = None.
Proof.
  intros Hb [Hj Hk]. unfold gating_topk. destruct (topk_func_row (Z.of_nat k) n batch x b (Z.of_nat j) Hb) as [-> ->]; [lia|].
  apply (topk_row_holds k n (x b) j (min_value, None)). unfold chosen in Hj. rewrite length_take, length_fmap in Hj.
  rewrite lookup_take_lt, lookup_app_r by (rewrite ?length_fmap; lia). apply lookup_replicate_2. rewrite length_fmap. lia.
Qed.

(** C19. The candidates of a row are the experts whose score is above the least value. The kernel chooses [k] of them, or
    all if there are fewer, and writes their scores and indices, the best first and of equal scores the smaller index
    first; every other candidate comes after them. The cells that are left hold the least value as the score, and an
    index that was never written. *)
Theorem gating_topk_spec batch n (x : Z → Z → score) (k : nat) b :
  0 ≤ b < batch →
  ∃ experts : list Z,
    length experts = Nat.min k (length (candidates n (x b))) ∧ NoDup experts ∧ (∀ e, e ∈ experts → e ∈ candidates n (x b)) ∧
    (∀ j e, experts !! j = Some e →
       (gating_topk batch n x (Z.of_nat k)).1 !! (b, Z.of_nat j) = Some (x b e) ∧
       (gating_topk batch n x (Z.of_nat k)).2 !! (b, Z.of_nat j) = Some e) ∧
    (∀ j, (length experts ≤ j < k)%nat →
       (gating_topk batch n x (Z.of_nat k)).1 !! (b, Z.of_nat j) = Some min_value ∧
       (gating_topk batch n x (Z.of_nat k)).2 !! (b, Z.of_nat j) = None) ∧
    StronglySorted (precedes (x b)) experts ∧
    ∀ e e', e ∈ experts → e' ∈ candidates n (x b) → e' ∉ experts → precedes (x b) e e'.
Proof.
  intros Hb. exists (chosen k n (x b)).
  split_and!; eauto using chosen_size, chosen_NoDup, chosen_candidate, chosen_outputs, chosen_rest, chosen_sorted, chosen_best.
Qed.
End topk.

(** [gating_softmax_topk]: with [norm_topk_prob] the kernel normalizes the chosen scores
    in 32-bit floats; without, it chooses from the softmax of the row. *)
Section softmax.
Context `{scores : Scores score} {f32 : Type} `{Inhabited f32}.
Context (to_f32 : score → f32) (of_f32 : f32 → score).
Context (exp : f32 → f32) (sub add div fmax : f32 → f32 → f32).
Context (softmax : Z → (Z → f32) → Z → f32).

(** The buffer of floats is given by its contents. *)
Definition _nested_max (k_val : Z) (local_top_k_f32 : Z → f32) : f32 :=
  loop (seqZ 1 (k_val - 1)) (λ i expr, fmax expr (local_top_k_f32 i)) (local_top_k_f32 0).
Definition _nested_sum (k_val : Z) (local_top_k_f32 : Z → f32) (local_top_k_max : f32) : f32 :=
  loop (seqZ 1 (k_val - 1)) (λ i expr, add expr (exp (sub (local_top_k_f32 i) local_top_k_max)))
    (exp (sub (local_top_k_f32 0) local_top_k_max)).
Definition softmax_weight (k_val : Z) (local_top_k_f32 : Z → f32) (v : f32) : score :=
  let local_top_k_max := _nested_max k_val local_top_k_f32 in
  of_f32 (div (exp (sub v local_top_k_max)) (_nested_sum k_val local_top_k_f32 local_top_k_max)).
(** The blocks [cast], [max] and [output] of one row. *)
Definition normalize (k_val : Z) (m : local_top) : local_top :=
  let local_top_k_f32 := to_f32 <$> local_top_k m in
  {| local_top_k := softmax_weight k_val (λ i, local_top_k_f32 !!! i) <$> local_top_k_f32;
     local_top_k_index := local_top_k_index m |}.
Definition topk_softmax_norm_func (k_val num_local_experts batch_size : Z) (x : Z → Z → score) : output :=
  loop (threads batch_size 1024) (λ vi,
    write_row k_val vi (normalize k_val (topk_row k_val num_local_experts (x vi)))) (∅, ∅).
Definition gating_softmax_topk (batch_size num_local_experts : Z) (x : Z → Z → score) (k : Z) (norm_topk_prob : bool) :
    output :=
  if norm_topk_prob then topk_softmax_norm_func k num_local_experts batch_size x
  else gating_topk batch_size num_local_experts (λ i, λ j, of_f32 (softmax num_local_experts (λ j, to_f32 (x i j)) j)) k.

Lemma softmax_norm_row k_val n batch x b j :
  0 ≤ b < batch → 0 ≤ j < k_val →
  (topk_softmax_norm_func k_val n batch x).1 !! (b, j) = local_top_k (normalize k_val (topk_row k_val n (x b))) !! j ∧
  (topk_softmax_norm_func k_val n batch x).2 !! (b, j) = local_top_k_index (topk_row k_val n (x b)) !! j.
Proof.
  intros Hb Hj. unfold topk_softmax_norm_func. rewrite threads_range by done.
  by apply (write_rows_spec k_val batch (λ b, normalize k_val (topk_row k_val n (x b)))).
Qed.

(** The chosen experts with the softmax of their scores. *)
Lemma softmax_weight_ext k f g v :
  (∀ i, 0 ≤ i < k → f i = g i) → 0 < k → softmax_weight k f v = softmax_weight k g v.
Proof.
  intros Hfg Hk. unfold softmax_weight.
  assert (_nested_max k f = _nested_max k g) as Hm.
  { unfold _nested_max. rewrite (Hfg 0) by lia. apply loop_ext. intros i e Hi%elem_of_seqZ. by rewrite Hfg by lia. }
  rewrite Hm. do 2 f_equal. unfold _nested_sum. rewrite (Hfg 0) by lia.
  apply loop_ext. intros i e Hi%elem_of_seqZ. by rewrite Hfg by lia.
Qed.
Lemma softmax_chosen batch n x (k : nat) b j e :
  0 ≤ b < batch → (k ≤ length (candidates n (x b)))%nat → chosen k n (x b) !! j = Some e →
  (topk_softmax_norm_func (Z.of_nat k) n batch x).2 !! (b, Z.of_nat j) = Some e ∧
  (topk_softmax_norm_func (Z.of_nat k) n batch x).1 !! (b, Z.of_nat j) =
    Some (softmax_weight (Z.of_nat k) (λ i, to_f32 (x b (chosen k n (x b) !!! Z.to_nat i))) (to_f32 (x b e))).
Proof.
  intros Hb Hk Hj. pose proof Hj as [_ Hjk]%lookup_take_Some.
  assert (∀ i e, chosen k n (x b) !! i = Some e →
    local_top_k (topk_row (Z.of_nat k) n (x b)) !! Z.of_nat i = Some (x b e) ∧
    local_top_k_index (topk_row (Z.of_nat k) n (x b)) !! Z.of_nat i = Some e) as Hrow.
  { intros i e' Hi. pose proof Hi as [_ Hik]%lookup_take_Some.
    destruct (chosen_outputs batch n x k b i e' Hb Hi) as [H1 H2]. unfold gating_topk in H1, H2.
    destruct (topk_func_row (Z.of_nat k) n batch x b (Z.of_nat i) Hb) as [E1 E2]; [lia|].
    rewrite E1 in H1. rewrite E2 in H2. done. }
  destruct (softmax_norm_row (Z.of_nat k) n batch x b (Z.of_nat j) Hb) as [-> ->]; [lia|].
  destruct (Hrow j e Hj) as [Hv He]. split; [done|]. unfold normalize. cbn [local_top_k].
  rewrite !lookup_fmap, Hv. simpl. f_equal. apply softmax_weight_ext; [|lia].
  intros i Hi. apply lookup_total_correct. rewrite lookup_fmap.
  assert (is_Some (chosen k n (x b) !! Z.to_nat i)) as [e' He'].
  { apply lookup_lt_is_Some_2. rewrite chosen_length; lia. }
  destruct (Hrow _ _ He') as [Hv' _]. rewrite Z2Nat.id in Hv' by lia. rewrite Hv'. simpl.
  by rewrite (list_lookup_total_correct _ _ _ He').
Qed.
End softmax.

(** ** The shuffling plan *)

(** Operators of the tensor library: the inclusive [cumsum] of 32-bit integers, the
    transpose, row-major [reshape]s, [take] along the rows and [split] of the columns. *)
Class RelaxOps := {
  cumsum : (Z → Z) → Z → Z;
  permute_dims {A} : (Z → Z → A) → Z → Z → A;
  reshape1 {A} : Z → (Z → Z → A) → Z → A;
  reshape2 {A} : Z → Z → (Z → Z → A) → Z → Z → A;
  unflatten {A} : Z → (Z → A) → Z → Z → A;
  merge_rows {A} : Z → (Z → Z → Z → A) → Z → Z → A;
  split_rows {A} : Z → (Z → Z → A) → Z → Z → Z → A;
  squeeze {A} : (Z → Z → Z → A) → Z → Z → A;
  take_rows {A} : (Z → Z → A) → (Z → Z) → Z → Z → A;
  split2 {A} : Z → (Z → Z → A) → (Z → Z → A) * (Z → Z → A);
  cumsum_spec v p : 0 ≤ p → cumsum v p = i32 (sumZ v (p + 1));
  permute_dims_spec {A} (x : Z → Z → A) i j : permute_dims x i j = x j i;
  reshape1_spec {A} n (x : Z → Z → A) i j : 0 ≤ i → 0 ≤ j < n → reshape1 n x (i * n + j) = x i j;
  reshape2_spec {A} n m (x : Z → Z → A) i j : 0 ≤ i → 0 ≤ j < m → 0 < n →
    reshape2 n m x i j = x ((i * m + j) / n) ((i * m + j) mod n);
  unflatten_spec {A} n (x : Z → A) i j : 0 ≤ i → 0 ≤ j < n → unflatten n x i j = x (i * n + j);
  merge_rows_spec {A} n (x : Z → Z → Z → A) i j k : 0 ≤ i → 0 ≤ j < n → merge_rows n x (i * n + j) k = x i j k;
  split_rows_spec {A} n (x : Z → Z → A) i j k : 0 ≤ i → 0 ≤ j < n → split_rows n x i j k = x (i * n + j) k;
  squeeze_spec {A} (x : Z → Z → Z → A) i k : squeeze x i k = x i 0 k;
  split2_spec {A} n (x : Z → Z → A) i j : 0 ≤ j < n → (split2 n x).1 i j = x i j ∧ (split2 n x).2 i j = x i (n + j);
  take_rows_spec {A} (x : Z → Z → A) idx i j : take_rows x idx i j = x (idx i) j;
}.

Section plan.
Context `{ops : RelaxOps}.
Context (batch_size experts_per_tok num_local_experts : Z) (expert_indices : Z → Z → Z).

Definition expert_mask (i j : Z) : Z :=
  if existsb (λ k, expert_indices i k =? j) (range experts_per_tok) then 1 else 0.
Definition moe_cumsum : Z → Z := cumsum (reshape1 batch_size (permute_dims expert_mask)).

(** [get_indices], for the threads in any order. *)
Definition indices_thread (cumsum : Z → Z) (t : Z) (out : gmap Z Z * gmap Z Z) : gmap Z Z * gmap Z Z :=
  let b := t / experts_per_tok in
  let j := t mod experts_per_tok in
  let e := expert_indices b j in
  let position := i32 (cumsum (i32 (i32 (e * batch_size) + b)) - 1) in
  (<[position := i32 (i32 (b * experts_per_tok) + j)]> out.1, <[position := b]> out.2).
Definition get_indices (order : list Z) (cumsum : Z → Z) : gmap Z Z * gmap Z Z :=
  loop order (indices_thread cumsum) (∅, ∅).
Definition indices_threads : list Z := threads (batch_size * experts_per_tok) 1024.

(** [get_indptr]. *)
Definition get_indptr (cumsum : Z → Z) (inclusive : bool) (i : Z) : Z :=
  if inclusive then cumsum ((i + 1) * batch_size - 1)
  else if decide (i > 0) then cumsum (i * batch_size - 1) else 0.

(** The reference: the slots [b * experts_per_tok + j], stably sorted by expert. *)
Definition slot_expert (s : Z) : Z := expert_indices (s / experts_per_tok) (s mod experts_per_tok).
Definition expert_slots (e : Z) : list Z := filter (λ s, slot_expert s = e) (range (batch_size * experts_per_tok)).
Definition plan : list Z := range num_local_experts ≫= expert_slots.
Definition row_slots (b : Z) : list Z := (λ j, b * experts_per_tok + j) <$> range experts_per_tok.

Hypothesis Hbatch : 0 ≤ batch_size.
Hypothesis Hk : 0 < experts_per_tok.
(** Every token is routed to different experts. *)
Hypothesis Hexperts : ∀ b j, 0 ≤ b < batch_size → 0 ≤ j < experts_per_tok → 0 ≤ expert_indices b j < num_local_experts.
Hypothesis Hdistinct : ∀ b j j', 0 ≤ b < batch_size → 0 ≤ j < experts_per_tok → 0 ≤ j' < experts_per_tok →
  expert_indices b j = expert_indices b j' → j = j'.
Hypothesis Hsmall : num_local_experts * batch_size < 2 ^ 31.
Hypothesis Hslots : batch_size * experts_per_tok < 2 ^ 31.

Lemma slot_div b j : 0 ≤ j < experts_per_tok → (b * experts_per_tok + j) / experts_per_tok = b.
Proof. intros H. rewrite Z.div_add_l by lia. rewrite Z.div_small; lia. Qed.
Lemma slot_mod b j : 0 ≤ j < experts_per_tok → (b * experts_per_tok + j) mod experts_per_tok = j.
Proof. intros H. rewrite Z.add_comm, Z.mod_add by lia. apply Z.mod_small. lia. Qed.
Lemma slot_expert_at b j : 0 ≤ j < experts_per_tok → slot_expert (b * experts_per_tok + j) = expert_indices b j.
Proof. intros H. unfold slot_expert. by rewrite slot_div, slot_mod. Qed.
Lemma slot_decompose s : 0 ≤ s < batch_size * experts_per_tok →
  ∃ b j, s = b * experts_per_tok + j ∧ 0 ≤ b < batch_size ∧ 0 ≤ j < experts_per_tok.
Proof.
  intros Hs. exists (s / experts_per_tok), (s mod experts_per_tok).
  pose proof (Z.div_mod s experts_per_tok). pose proof (Z.mod_pos_bound s experts_per_tok).
  split; [lia|]. split; [|lia]. split; [apply Z.div_pos; lia|apply Z.div_lt_upper_bound; lia].
Qed.

Lemma expert_mask_true b j : 0 ≤ j < experts_per_tok → expert_mask b (expert_indices b j) = 1.
Proof.
  intros Hj. unfold expert_mask. rewrite (proj2 (List.existsb_exists _ _)); [done|].
  exists j. rewrite <-list_elem_of_In, elem_of_range, Z.eqb_eq. done.
Qed.
Lemma expert_mask_false b e : (∀ j, 0 ≤ j < experts_per_tok → expert_indices b j ≠ e) → expert_mask b e = 0.
Proof.
  intros Hn. unfold expert_mask. destruct (existsb _ _) eqn:E; [|done]. exfalso.
  apply List.existsb_exists in E as (j & Hj%list_elem_of_In%elem_of_range & He%Z.eqb_eq). by apply (Hn j).
Qed.
Lemma expert_mask_bounds b e : 0 ≤ expert_mask b e ≤ 1.
Proof. unfold expert_mask. destruct (existsb _ _); lia. Qed.

Lemma filter_unique {A} (P : A → Prop) `{∀ x, Decision (P x)} (l : list A) x :
  NoDup l → x ∈ l → (∀ y, y ∈ l → P y ↔ y = x) → filter P l = [x].
Proof.
  intros Hl Hx HP. apply list_elem_of_split in Hx as (l1 & l2 & ->).
  apply NoDup_app in Hl as (_ & Hdis & [Hx2 _]%NoDup_cons).
  rewrite list.filter_app, filter_cons_True by (apply HP; set_solver).
  rewrite !filter_none; [done| |].
  - intros y Hy ->%HP; [done|set_solver].
  - intros y Hy ->%HP; [|set_solver]. apply (Hdis x Hy). left.
Qed.

(** The slots of a token for one expert. *)
Lemma row_slots_expert b j : 0 ≤ b < batch_size → 0 ≤ j < experts_per_tok →
  filter (λ s, slot_expert s = expert_indices b j) (row_slots b) = [b * experts_per_tok + j].
Proof.
  intros Hb Hj. apply filter_unique.
  - unfold row_slots. apply NoDup_fmap_2; [intros ???; lia|apply range_NoDup].
  - apply list_elem_of_fmap. exists j. by rewrite elem_of_range.
  - intros s (j' & -> & Hj'%elem_of_range)%list_elem_of_fmap. rewrite slot_expert_at by done. split.
    + intros He. by rewrite (Hdistinct b j' j).
    + intros Hs. by replace j' with j by lia.
Qed.
Lemma row_slots_length b e : 0 ≤ b < batch_size →
  Z.of_nat (length (filter (λ s, slot_expert s = e) (row_slots b))) = expert_mask b e.
Proof.
  intros Hb. destruct (decide (Exists (λ j, expert_indices b j = e) (range experts_per_tok))) as [He|He].
  - apply List.Exists_exists in He as (j & Hj%list_elem_of_In%elem_of_range & <-).
    by rewrite row_slots_expert, expert_mask_true.
  - assert (∀ j, 0 ≤ j < experts_per_tok → expert_indices b j ≠ e) as Hn.
    { intros j Hj Hje. apply He, List.Exists_exists. exists j. by rewrite <-list_elem_of_In, elem_of_range. }
    rewrite expert_mask_false by done. rewrite filter_none; [done|].
    intros s (j & -> & Hj%elem_of_range)%list_elem_of_fmap. rewrite slot_expert_at by done. by apply Hn.
Qed.

(** *** Positions in the plan *)

Lemma filter_bind_range {A} (P : A → Prop) `{∀ x, Decision (P x)} (f : Z → list A) n :
  filter P (range n ≫= f) = range n ≫= (λ i, filter P (f i)).
Proof.
  induction n as [n Hn|n Hn IH] using range_ind; [by rewrite range_nonpos|].
  rewrite range_S, !bind_app, list.filter_app, IH by done. cbn. by rewrite !app_nil_r.
Qed.
Lemma bind_range_split {A} (f : Z → list A) n i : 0 ≤ i < n →
  ∃ rest, range n ≫= f = (range i ≫= f) ++ f i ++ rest.
Proof. intros Hi. rewrite (range_split n i Hi), bind_app. cbn. eauto. Qed.

Lemma expert_slots_rows e :
  expert_slots e = range batch_size ≫= (λ b, filter (λ s, slot_expert s = e) (row_slots b)).
Proof. unfold expert_slots. rewrite <-range_blocks by lia. apply filter_bind_range. Qed.
(** The number of tokens of an expert, and of the slots before the expert's. *)
Definition expert_count (e : Z) : Z := sumZ (λ b, expert_mask b e) batch_size.
Lemma expert_slots_length e : Z.of_nat (length (expert_slots e)) = expert_count e.
Proof.
  rewrite expert_slots_rows, length_bind. apply sumZ_ext. intros b Hb. by apply row_slots_length.
Qed.
Lemma plan_prefix_length e : Z.of_nat (length (range e ≫= expert_slots)) = sumZ expert_count e.
Proof. rewrite length_bind. apply sumZ_ext. intros e' _. apply expert_slots_length. Qed.

Definition slot_position (b e : Z) : Z := sumZ expert_count e + sumZ (λ b', expert_mask b' e) b.

Lemma plan_position b j : 0 ≤ b < batch_size → 0 ≤ j < experts_per_tok →
  plan !! Z.to_nat (slot_position b (expert_indices b j)) = Some (b * experts_per_tok + j).
Proof.
  intros Hb Hj. set (e := expert_indices b j). assert (0 ≤ e < num_local_experts) as He by by apply Hexperts.
  unfold plan. destruct (bind_range_split expert_slots num_local_experts e He) as [rest ->].
  rewrite expert_slots_rows. destruct (bind_range_split (λ b, filter (λ s, slot_expert s = e) (row_slots b)) batch_size b Hb) as [rest' ->].
  pose proof (row_slots_expert b j Hb Hj) as Hrow. fold e in Hrow. rewrite Hrow. clear Hrow. unfold slot_position.
  replace (sumZ (λ b', expert_mask b' e) b) with
    (Z.of_nat (length (range b ≫= (λ b, filter (λ s, slot_expert s = e) (row_slots b))))).
  2: { rewrite length_bind. apply sumZ_ext. intros b' Hb'. apply row_slots_length. lia. }
  rewrite <-plan_prefix_length, <-Nat2Z.inj_add, Nat2Z.id.
  rewrite lookup_app_r, Nat.add_comm, Nat.add_sub by lia.
  rewrite <-!(assoc_L (++)), lookup_app_r, Nat.sub_diag by lia. done.
Qed.

Lemma mask_sum_bounds e n : 0 ≤ n → 0 ≤ sumZ (λ b, expert_mask b e) n ≤ n.
Proof.
  intros Hn. split.
  - apply sumZ_nonneg. intros i _. apply expert_mask_bounds.
  - etrans; [apply (sumZ_le _ (λ _, 1)); intros; apply expert_mask_bounds|]. rewrite sumZ_const; lia.
Qed.
Lemma count_sum_bounds e : 0 ≤ e → 0 ≤ sumZ expert_count e ≤ e * batch_size.
Proof.
  intros He. split.
  - apply sumZ_nonneg. intros i _. by apply mask_sum_bounds.
  - etrans; [apply (sumZ_le _ (λ _, batch_size)); intros; by apply mask_sum_bounds|]. rewrite sumZ_const; lia.
Qed.

(** The cumulative sum at the end of a row of the transposed mask, and inside of it. *)
Lemma moe_cumsum_at e b : 0 ≤ e < num_local_experts → 0 ≤ b < batch_size →
  moe_cumsum (e * batch_size + b) = slot_position b e + expert_mask b e.
Proof.
  intros He Hb. unfold moe_cumsum. rewrite cumsum_spec by nia.
  set (flat := reshape1 batch_size (permute_dims expert_mask)).
  assert (∀ e b, 0 ≤ e → 0 ≤ b < batch_size → flat (e * batch_size + b) = expert_mask b e) as Hflat.
  { intros e' b' He' Hb'. unfold flat. by rewrite reshape1_spec, permute_dims_spec. }
  assert (sumZ flat (e * batch_size + b + 1) = slot_position b e + expert_mask b e) as ->.
  { rewrite <-Z.add_assoc, sumZ_add, sumZ_blocks by nia. unfold slot_position.
    rewrite (sumZ_ext (λ i, flat (e * batch_size + i)) (λ b', expert_mask b' e)) by (intros i Hi; apply Hflat; lia).
    rewrite sumZ_S by lia. rewrite Z.add_assoc. f_equal. f_equal. apply sumZ_ext. intros e' He'.
    apply sumZ_ext. intros b' Hb'. apply Hflat; lia. }
  apply i32_small. unfold slot_position. pose proof (count_sum_bounds e). pose proof (mask_sum_bounds e b).
  pose proof (expert_mask_bounds b e). nia.
Qed.

Lemma get_indptr_exclusive e : 0 ≤ e ≤ num_local_experts → 0 < batch_size →
  get_indptr moe_cumsum false e = sumZ expert_count e.
Proof.
  intros He Hb. unfold get_indptr. case_decide as Hpos.
  - replace (e * batch_size - 1) with ((e - 1) * batch_size + (batch_size - 1)) by lia.
    rewrite moe_cumsum_at by lia. unfold slot_position.
    assert (sumZ expert_count e = sumZ expert_count (e - 1) + expert_count (e - 1)) as ->.
    { rewrite <-sumZ_S by lia. f_equal. lia. }
    assert (expert_count (e - 1) = sumZ (λ b, expert_mask b (e - 1)) (batch_size - 1) + expert_mask (batch_size - 1) (e - 1)) as ->.
    { unfold expert_count. rewrite <-(sumZ_S (λ b, expert_mask b (e - 1))) by lia. f_equal. lia. }
    lia.
  - assert (e = 0) as -> by lia. by rewrite sumZ_nonpos.
Qed.
Lemma get_indptr_inclusive e :
  0 ≤ e → get_indptr moe_cumsum true e = get_indptr moe_cumsum false (e + 1).
Proof. intros He. unfold get_indptr. rewrite decide_True by lia. done. Qed.

(** *** The kernel *)

Lemma indices_thread_stores order cs :
  get_indices order cs =
    (store_all order (λ t, i32 (cs (i32 (i32 (slot_expert t * batch_size) + t / experts_per_tok)) - 1))
       (λ t, i32 (i32 (t / experts_per_tok * experts_per_tok) + t mod experts_per_tok)) ∅,
     store_all order (λ t, i32 (cs (i32 (i32 (slot_expert t * batch_size) + t / experts_per_tok)) - 1))
       (λ t, t / experts_per_tok) ∅).
Proof.
  unfold get_indices, store_all. generalize (∅ : gmap Z Z) at 1 3 as m1. generalize (∅ : gmap Z Z) as m2.
  induction order as [|t order IH]; intros m2 m1; [done|]. rewrite !loop_cons. apply IH.
Qed.

Lemma slot_store b j : 0 ≤ b < batch_size → 0 ≤ j < experts_per_tok →
  i32 (moe_cumsum (i32 (i32 (expert_indices b j * batch_size) + b)) - 1) = slot_position b (expert_indices b j) ∧
  i32 (i32 (b * experts_per_tok) + j) = b * experts_per_tok + j.
Proof.
  intros Hb Hj. pose proof (Hexperts b j Hb Hj) as He.
  rewrite (i32_small (_ * batch_size)), (i32_small (_ * batch_size + b)), moe_cumsum_at by nia.
  rewrite (i32_small (b * _)), (i32_small (_ + j)) by nia.
  split; [|done]. rewrite expert_mask_true by done. rewrite i32_small; [lia|].
  unfold slot_position. pose proof (count_sum_bounds (expert_indices b j)).
  pose proof (mask_sum_bounds (expert_indices b j) b). nia.
Qed.

Lemma slot_position_inj b j b' j' : 0 ≤ b < batch_size → 0 ≤ j < experts_per_tok →
  0 ≤ b' < batch_size → 0 ≤ j' < experts_per_tok →
  slot_position b (expert_indices b j) = slot_position b' (expert_indices b' j') →
  b * experts_per_tok + j = b' * experts_per_tok + j'.
Proof.
  intros Hb Hj Hb' Hj' Heq. pose proof (plan_position b j Hb Hj) as H1. pose proof (plan_position b' j' Hb' Hj') as H2.
  rewrite Heq in H1. congruence.
Qed.

(** Whatever order the threads run in, each slot lands at its position of the plan. *)
Lemma get_indices_at order b j :
  order ≡ₚ indices_threads → 0 ≤ b < batch_size → 0 ≤ j < experts_per_tok →
  (get_indices order moe_cumsum).1 !! slot_position b (expert_indices b j) = Some (b * experts_per_tok + j) ∧
  (get_indices order moe_cumsum).2 !! slot_position b (expert_indices b j) = Some b.
Proof.
  intros Hord Hb Hj. unfold indices_threads in Hord. rewrite threads_range in Hord by done.
  set (t := b * experts_per_tok + j).
  assert (t ∈ order) as Ht.
  { rewrite Hord, elem_of_range. unfold t. nia. }
  assert (∀ t, t ∈ order → ∃ b j, t = b * experts_per_tok + j ∧ 0 ≤ b < batch_size ∧ 0 ≤ j < experts_per_tok ∧
    i32 (moe_cumsum (i32 (i32 (slot_expert t * batch_size) + t / experts_per_tok)) - 1) = slot_position b (expert_indices b j)
    ∧ i32 (i32 (t / experts_per_tok * experts_per_tok) + t mod experts_per_tok) = t ∧ t / experts_per_tok = b) as Hall.
  { intros t'. rewrite Hord, elem_of_range. intros (b' & j' & -> & Hb' & Hj')%slot_decompose. exists b', j'.
    rewrite slot_expert_at, slot_div, slot_mod by done. destruct (slot_store b' j' Hb' Hj') as [-> ->]. done. }
  assert (∀ t t', t ∈ order → t' ∈ order →
    i32 (moe_cumsum (i32 (i32 (slot_expert t * batch_size) + t / experts_per_tok)) - 1) =
    i32 (moe_cumsum (i32 (i32 (slot_expert t' * batch_size) + t' / experts_per_tok)) - 1) → t = t') as Hinj.
  { intros t1 t2 (b1 & j1 & E1 & Hb1 & Hj1 & P1 & _)%Hall (b2 & j2 & E2 & Hb2 & Hj2 & P2 & _)%Hall.
    rewrite P1, P2, E1, E2. by apply slot_position_inj. }
  rewrite indices_thread_stores. cbn [fst snd].
  destruct (Hall t Ht) as (b' & j' & E & Hb' & Hj' & P & V & D).
  assert (b' = b ∧ j' = j) as [-> ->].
  { split; [rewrite <-D; by apply slot_div|]. rewrite <-(slot_mod b' j'), <-E by done. by apply slot_mod. }
  split.
  - etrans; [|exact (f_equal Some V)].
    refine (proj1 (store_all_lookup order _ _ ∅ _ _) t Ht P). intros t1 t2 H1 H2 Hp. by rewrite (Hinj t1 t2 H1 H2 Hp).
  - etrans; [|exact (f_equal Some D)].
    refine (proj1 (store_all_lookup order _ _ ∅ _ _) t Ht P). intros t1 t2 H1 H2 Hp. by rewrite (Hinj t1 t2 H1 H2 Hp).
Qed.

Lemma plan_elem s : s ∈ plan ↔ 0 ≤ s < batch_size * experts_per_tok.
Proof.
  unfold plan, expert_slots. rewrite list_elem_of_bind. split.
  - intros (e & [_ Hs]%list_elem_of_filter & _). by apply elem_of_range.
  - intros Hs. exists (slot_expert s). rewrite list_elem_of_filter, !elem_of_range. split_and!; try done; try lia.
    all: destruct (slot_decompose s Hs) as (b & j & -> & Hb & Hj); rewrite slot_expert_at by done; by apply Hexperts.
Qed.
Lemma plan_NoDup : NoDup plan.
Proof.
  apply NoDup_bind; unfold expert_slots.
  - intros e1 e2 s _ _ [<- _]%list_elem_of_filter [<- _]%list_elem_of_filter. done.
  - intros e _. apply NoDup_filter, range_NoDup.
  - apply range_NoDup.
Qed.
Lemma plan_perm : plan ≡ₚ range (batch_size * experts_per_tok).
Proof.
  apply NoDup_Permutation; [apply plan_NoDup|apply range_NoDup|].
  intros s. by rewrite plan_elem, elem_of_range.
Qed.
Lemma plan_lookup p s : plan !! p = Some s →
  ∃ b j, s = b * experts_per_tok + j ∧ 0 ≤ b < batch_size ∧ 0 ≤ j < experts_per_tok ∧
         Z.of_nat p = slot_position b (expert_indices b j).
Proof.
  intros Hs. pose proof Hs as (b & j & -> & Hb & Hj)%list_elem_of_lookup_2%plan_elem%slot_decompose.
  exists b, j. split_and!; try done; try lia.
  rewrite <-(Z2Nat.id (slot_position b (expert_indices b j))).
  - f_equal. eapply NoDup_lookup; [apply plan_NoDup|exact Hs|by apply plan_position].
  - unfold slot_position. pose proof (count_sum_bounds (expert_indices b j)). pose proof (mask_sum_bounds (expert_indices b j) b).
    pose proof (Hexperts b j). lia.
Qed.
(** The slice of an expert in the plan. *)
Lemma plan_slice p s e : plan !! p = Some s → 0 ≤ e < num_local_experts →
  slot_expert s = e ↔ sumZ expert_count e ≤ Z.of_nat p < sumZ expert_count (e + 1).
Proof.
  intros (b & j & -> & Hb & Hj & ->)%plan_lookup He. rewrite slot_expert_at by done.
  pose proof (Hexperts b j Hb Hj) as Hr. set (e' := expert_indices b j) in *.
  assert (0 ≤ sumZ (λ b', expert_mask b' e') b < expert_count e') as Hin.
  { split; [apply mask_sum_bounds; lia|]. unfold expert_count.
    assert (sumZ (λ b', expert_mask b' e') (b + 1) ≤ sumZ (λ b', expert_mask b' e') batch_size) as Hm.
    { apply sumZ_mono; [|lia]. intros i _. apply expert_mask_bounds. }
    rewrite sumZ_S in Hm by lia. unfold e' at 2 in Hm. rewrite expert_mask_true in Hm by done. lia. }
  assert (∀ n m, 0 ≤ n ≤ m → sumZ expert_count n ≤ sumZ expert_count m) as Hmono.
  { intros n m Hnm. apply sumZ_mono; [|lia]. intros i _. by apply mask_sum_bounds. }
  assert (sumZ expert_count (e' + 1) = sumZ expert_count e' + expert_count e') as Hsum by (apply sumZ_S; lia).
  unfold slot_position. split.
  - intros <-. lia.
  - intros Hp. destruct (Z.lt_trichotomy e e') as [Hlt|[->|Hgt]]; [|done|].
    + pose proof (Hmono (e + 1) e'). lia.
    + pose proof (Hmono (e' + 1) e). lia.
Qed.

(** C20. The plan is a permutation of the routed slots; the kernel writes it and the
    token of every slot, in whatever order its threads run; and [indptr] delimits the
    slots of each expert. *)
Theorem shuffling_plan order :
  order ≡ₚ indices_threads → 0 < batch_size →
  plan ≡ₚ range (batch_size * experts_per_tok) ∧
  ∀ p s, plan !! p = Some s →
    (get_indices order moe_cumsum).1 !! Z.of_nat p = Some s ∧
    (get_indices order moe_cumsum).2 !! Z.of_nat p = Some (s / experts_per_tok) ∧
    ∀ e, 0 ≤ e < num_local_experts →
      slot_expert s = e ↔ get_indptr moe_cumsum false e ≤ Z.of_nat p < get_indptr moe_cumsum true e.
Proof.
  intros Hord Hb0. split; [apply plan_perm|]. intros p s Hs.
  pose proof (plan_lookup p s Hs) as (b & j & E & Hb & Hj & P). rewrite P.
  destruct (get_indices_at order b j Hord Hb Hj) as [-> ->]. subst s. rewrite slot_div by done.
  split_and!; try done. intros e He. rewrite get_indptr_inclusive, !get_indptr_exclusive, <-P by lia.
  by apply plan_slice.
Qed.
End plan.

(** ** Returning to the tokens *)

(** [scatter_output]. *)
Definition scatter_output {A} (indices_len hidden_size : Z) (x : Z → Z → A) (indices : Z → Z) : gmap (Z * Z) A :=
  loop (grid indices_len hidden_size) (λ p, <[(indices p.1, p.2) := x p.1 p.2]>) ∅.
Lemma scatter_output_spec {A} n h (x : Z → Z → A) indices i j :
  (∀ i i', 0 ≤ i < n → 0 ≤ i' < n → indices i = indices i' → i = i') → 0 ≤ i < n → 0 ≤ j < h →
  scatter_output n h x indices !! (indices i, j) = Some (x i j).
Proof.
  intros Hinj Hi Hj. unfold scatter_output.
  refine (proj1 (store_all_lookup (grid n h) _ _ ∅ _ _) (i, j) _ _); [|by apply elem_of_grid|done].
  intros [i1 j1] [i2 j2] [H1 _]%elem_of_grid [H2 _]%elem_of_grid [= Hi' ->]. simpl in *. by rewrite (Hinj i1 i2).
Qed.

(** [moe_sum] of a tensor with [experts_per_tok] in the second dimension; [op_sum] is the
    sum of the tensor library. *)
Definition moe_sum `{RelaxOps} {A} (add : A → A → A) (op_sum : Z → (Z → A) → A) (experts_per_tok : Z)
    (x : Z → Z → Z → A) : Z → Z → A :=
  if experts_per_tok =? 1 then squeeze x
  else if experts_per_tok =? 2 then (λ i, λ j, add (x i 0 j) (x i 1 j))
  else (λ i, λ j, op_sum experts_per_tok (λ k, x i k j)).

(** ** Group-limited top-k *)

Section group_limited.
Context `{scores_of : Scores score} `{Inhabited score} `{ops : RelaxOps}.
Context (add : score → score → score) (op_sum op_max : Z → (Z → score) → score).
Context (num_tokens top_k num_routed_experts n_group topk_group : Z).

Definition group_size : Z := num_routed_experts / n_group.
Definition scores_for_choice (scores : Z → Z → score) (noaux_tc : bool) (e_score_correction_bias : option (Z → score)) :
    result (Z → Z → score) :=
  if noaux_tc then
    match e_score_correction_bias with
    | None => raise AssertionError ""%string
    | Some bias => Ok (λ i, λ j, add (scores i j) (bias j))
    end
  else Ok scores.
Definition group_scores (noaux_tc : bool) (choice : Z → Z → score) : Z → Z → score :=
  let groups := reshape2 num_routed_experts group_size choice in
  unflatten n_group (λ r,
    if noaux_tc then op_sum 2 (tensor (gating_topk (num_tokens * n_group) group_size groups 2).1 r)
    else op_max group_size (groups r)).
Definition group_idx (noaux_tc : bool) (choice : Z → Z → score) : gmap (Z * Z) Z :=
  (gating_topk num_tokens n_group (group_scores noaux_tc choice) topk_group).2.

(** [group_limited_mask_scores], on a buffer full of the least 32-bit float. *)
Definition mask_cells : list ((Z * Z) * Z) := grid num_tokens topk_group ≫= (λ p, (λ vk, (p, vk)) <$> range group_size).
Definition group_limited_mask_scores (choice : Z → Z → score) (group_idx : gmap (Z * Z) Z) : Z → Z → score :=
  let output := loop mask_cells (λ c,
    let column := group_idx !!! c.1 * group_size + c.2 in
    <[(c.1.1, column) := choice c.1.1 column]>) (∅ : gmap (Z * Z) score) in
  λ i, λ j, default min_value (output !! (i, j)).
(** [gather_scores]. *)
Definition gather_scores (scores : Z → Z → score) (expert_indices : gmap (Z * Z) Z) : gmap (Z * Z) score :=
  loop (grid num_tokens top_k) (λ p, <[p := scores p.1 (expert_indices !!! p)]>) ∅.

Definition group_limited_greedy_topk (scores : Z → Z → score) (noaux_tc : bool)
    (e_score_correction_bias : option (Z → score)) : result output :=
  choice ← scores_for_choice scores noaux_tc e_score_correction_bias;
  let tmp_scores := group_limited_mask_scores choice (group_idx noaux_tc choice) in
  let out := gating_topk num_tokens num_routed_experts tmp_scores top_k in
  Ok (if noaux_tc then (gather_scores scores out.2, out.2) else out).

Hypothesis Hgroups : num_routed_experts = n_group * group_size.
Hypothesis Hgroup : 0 < group_size.

(** The groups chosen for a token. *)
Definition chosen_groups (noaux_tc : bool) (choice : Z → Z → score) (b : Z) : list Z :=
  chosen (Z.to_nat topk_group) n_group (group_scores noaux_tc choice b).

Lemma chosen_groups_length noaux choice b :
  0 ≤ topk_group ≤ Z.of_nat (length (candidates n_group (group_scores noaux choice b))) →
  Z.of_nat (length (chosen_groups noaux choice b)) = topk_group.
Proof. intros Ht. unfold chosen_groups. rewrite chosen_length; lia. Qed.
Lemma group_idx_chosen noaux choice b (vj : nat) g :
  0 ≤ b < num_tokens → 0 ≤ topk_group → chosen_groups noaux choice b !! vj = Some g →
  group_idx noaux choice !!! (b, Z.of_nat vj) = g.
Proof.
  intros Hb Ht Hg. apply lookup_total_correct. unfold group_idx. rewrite <-(Z2Nat.id topk_group) by done.
  by apply (chosen_outputs num_tokens n_group (group_scores noaux choice) (Z.to_nat topk_group) b).
Qed.

Lemma elem_of_mask_cells i vj vk :
  ((i, vj), vk) ∈ mask_cells ↔ 0 ≤ i < num_tokens ∧ 0 ≤ vj < topk_group ∧ 0 ≤ vk < group_size.
Proof.
  unfold mask_cells. rewrite list_elem_of_bind. split.
  - intros ([i' j'] & (k' & [= -> -> ->] & Hk%elem_of_range)%list_elem_of_fmap & [Hi Hj]%elem_of_grid). done.
  - intros (Hi & Hj & Hk). exists (i, vj). rewrite elem_of_grid, list_elem_of_fmap. split; [|done].
    exists vk. by rewrite elem_of_range.
Qed.

(** The masked scores: those of the chosen groups, and elsewhere the least value. *)
Lemma mask_scores_spec noaux choice b e :
  0 ≤ b < num_tokens → 0 ≤ e →
  0 ≤ topk_group ≤ Z.of_nat (length (candidates n_group (group_scores noaux choice b))) →
  group_limited_mask_scores choice (group_idx noaux choice) b e =
    if decide (e / group_size ∈ chosen_groups noaux choice b) then choice b e else min_value.
Proof.
  intros Hb He Ht. unfold group_limited_mask_scores.
  set (column := λ c : (Z * Z) * Z, group_idx noaux choice !!! c.1 * group_size + c.2).
  change (loop mask_cells _ ?m) with (store_all mask_cells (λ c, (c.1.1, column c)) (λ c, choice c.1.1 (column c)) m).
  assert (∀ c c', c ∈ mask_cells → c' ∈ mask_cells → (c.1.1, column c) = (c'.1.1, column c') →
    choice c.1.1 (column c) = choice c'.1.1 (column c')) as Hcompat by by intros c c' _ _ [= -> ->].
  destruct (store_all_lookup mask_cells _ _ ∅ (b, e) Hcompat) as [Hin Hout].
  case_decide as Hg.
  - apply list_elem_of_lookup in Hg as [vj Hvj].
    assert (column ((b, Z.of_nat vj), e mod group_size) = e) as Hc.
    { unfold column. simpl. rewrite (group_idx_chosen noaux choice b vj _ Hb ltac:(lia) Hvj).
      pose proof (Z.div_mod e group_size). lia. }
    rewrite (Hin ((b, Z.of_nat vj), e mod group_size)); simpl; [by rewrite Hc| |by rewrite Hc].
    apply elem_of_mask_cells. split; [done|]. pose proof (Z.mod_pos_bound e group_size Hgroup). split; [|lia].
    apply lookup_lt_Some in Hvj. pose proof (chosen_groups_length noaux choice b Ht). lia.
  - rewrite Hout; [done|]. intros [[i vj] vk] (Hi & Hj & Hk)%elem_of_mask_cells [= -> Hc]. apply Hg.
    assert (is_Some (chosen_groups noaux choice b !! Z.to_nat vj)) as [g Hgv].
    { apply lookup_lt_is_Some_2. pose proof (chosen_groups_length noaux choice b Ht). lia. }
    pose proof (group_idx_chosen noaux choice b _ g Hb ltac:(lia) Hgv) as Hx. rewrite Z2Nat.id in Hx by lia.
    unfold column in Hc. simpl in Hc. rewrite Hx in Hc. subst e.
    rewrite Z.div_add_l, Z.div_small, Z.add_0_r by lia. by eapply list_elem_of_lookup_2.
Qed.

(** The experts of some groups. *)
Definition experts_of (groups : list Z) : list Z := groups ≫= (λ g, (λ k, g * group_size + k) <$> range group_size).
Lemma experts_of_length groups : Z.of_nat (length (experts_of groups)) = Z.of_nat (length groups) * group_size.
Proof.
  unfold experts_of. induction groups as [|g groups IH]; [done|].
  rewrite bind_cons, length_app, length_fmap, length_range. simpl. lia.
Qed.
Lemma experts_of_NoDup groups : NoDup groups → NoDup (experts_of groups).
Proof.
  intros Hn. apply NoDup_bind; [| |done].
  - intros g g' e _ _ (k & -> & Hk%elem_of_range)%list_elem_of_fmap (k' & E & Hk'%elem_of_range)%list_elem_of_fmap.
    apply (f_equal (λ z, z / group_size)) in E. by rewrite !Z.div_add_l, !Z.div_small, !Z.add_0_r in E by lia.
  - intros g _. apply NoDup_fmap_2; [intros ???; lia|apply range_NoDup].
Qed.
Lemma elem_of_experts_of groups e : e ∈ experts_of groups → e / group_size ∈ groups.
Proof.
  intros (g & (k & -> & Hk%elem_of_range)%list_elem_of_fmap & Hg)%list_elem_of_bind.
  by rewrite Z.div_add_l, Z.div_small, Z.add_0_r by lia.
Qed.

Lemma masked_candidates noaux choice b :
  0 ≤ b < num_tokens → 0 ≤ n_group →
  0 ≤ topk_group ≤ Z.of_nat (length (candidates n_group (group_scores noaux choice b))) →
  (∀ e, 0 ≤ e < num_routed_experts → gt (choice b e) min_value = true) →
  let tmp := group_limited_mask_scores choice (group_idx noaux choice) in
  topk_group * group_size ≤ Z.of_nat (length (candidates num_routed_experts (tmp b))) ∧
  ∀ e, e ∈ candidates num_routed_experts (tmp b) ↔
    0 ≤ e < num_routed_experts ∧ e / group_size ∈ chosen_groups noaux choice b.
Proof.
  intros Hb Hn Ht Hall tmp.
  assert (∀ e, e ∈ candidates num_routed_experts (tmp b) ↔
    0 ≤ e < num_routed_experts ∧ e / group_size ∈ chosen_groups noaux choice b) as Hin.
  { intros e. rewrite candidates_elem. split.
    - intros [He Hg]. split; [done|]. unfold tmp in Hg. rewrite mask_scores_spec in Hg by (done || lia).
      case_decide; [done|]. by rewrite gt_irrefl in Hg.
    - intros [He Hg]. split; [done|]. unfold tmp. rewrite mask_scores_spec by (done || lia).
      rewrite decide_True by done. by apply Hall. }
  split; [|exact Hin].
  rewrite <-(chosen_groups_length noaux choice b Ht) at 1. rewrite <-experts_of_length. apply inj_le.
  apply submseteq_length, NoDup_submseteq; [apply experts_of_NoDup, chosen_NoDup|].
  intros e He. apply Hin. split; [|by apply elem_of_experts_of].
  apply list_elem_of_bind in He as (g & (k & -> & Hk%elem_of_range)%list_elem_of_fmap & Hg).
  apply chosen_candidate, candidates_elem in Hg as [Hg _]. nia.
Qed.

Lemma gather_scores_spec scores idx b j e :
  0 ≤ b < num_tokens → 0 ≤ j < top_k → idx !! (b, j) = Some e →
  gather_scores scores idx !! (b, j) = Some (scores b e).
Proof.
  intros Hb Hj He. unfold gather_scores.
  change (loop (grid num_tokens top_k) _ ?m) with
    (store_all (grid num_tokens top_k) id (λ p, scores p.1 (idx !!! p)) m).
  rewrite (proj1 (store_all_lookup (grid num_tokens top_k) id (λ p, scores p.1 (idx !!! p)) ∅ (b, j)
    (λ p q _ _ (E : p = q), f_equal (λ p, scores p.1 (idx !!! p)) E)) (b, j)); [|by apply elem_of_grid|done].
  simpl. by rewrite (lookup_total_correct _ _ _ He).
Qed.

(** Group-limited routing chooses [top_k] different experts of the groups that were
    chosen, no worse than the other experts of these groups by the scores of the choice,
    and gives them their scores without the correction bias. *)
Theorem group_limited_spec scores noaux bias choice b :
  scores_for_choice scores noaux bias = Ok choice →
  0 ≤ b < num_tokens → 0 ≤ n_group →
  0 ≤ topk_group ≤ Z.of_nat (length (candidates n_group (group_scores noaux choice b))) →
  0 ≤ top_k ≤ topk_group * group_size →
  (∀ e, 0 ≤ e < num_routed_experts → gt (choice b e) min_value = true) →
  ∃ out experts, group_limited_greedy_topk scores noaux bias = Ok out ∧
    length experts = Z.to_nat top_k ∧ NoDup experts ∧
    (∀ e, e ∈ experts → 0 ≤ e < num_routed_experts ∧ e / group_size ∈ chosen_groups noaux choice b) ∧
    (∀ j e, experts !! j = Some e →
       out.1 !! (b, Z.of_nat j) = Some (scores b e) ∧ out.2 !! (b, Z.of_nat j) = Some e) ∧
    ∀ e e', e ∈ experts → 0 ≤ e' < num_routed_experts → e' / group_size ∈ chosen_groups noaux choice b →
      e' ∉ experts → precedes (choice b) e e'.
Proof.
  intros Hc Hb Hn Ht Hk Hall. destruct (masked_candidates noaux choice b Hb Hn Ht Hall) as [Hlen Hin].
  set (tmp := group_limited_mask_scores choice (group_idx noaux choice)) in *.
  set (experts := chosen (Z.to_nat top_k) num_routed_experts (tmp b)).
  assert (∀ e, e ∈ candidates num_routed_experts (tmp b) → tmp b e = choice b e) as Htmp.
  { intros e [He Hg]%Hin. unfold tmp. by rewrite mask_scores_spec, decide_True by (done || lia). }
  unfold group_limited_greedy_topk. rewrite Hc. cbn [mbind result_bind].
  eexists _, experts. split; [done|].
  assert (∀ j e, experts !! j = Some e →
    (gating_topk num_tokens num_routed_experts tmp top_k).1 !! (b, Z.of_nat j) = Some (choice b e) ∧
    (gating_topk num_tokens num_routed_experts tmp top_k).2 !! (b, Z.of_nat j) = Some e) as Hout.
  { intros j e Hj. rewrite <-(Htmp e) by (eapply chosen_candidate, list_elem_of_lookup_2; exact Hj).
    rewrite <-(Z2Nat.id top_k) by lia. by apply chosen_outputs. }
  split_and!.
  - apply chosen_length. lia.
  - apply chosen_NoDup.
  - intros e He%chosen_candidate. by apply Hin.
  - intros j e Hj. destruct (Hout j e Hj) as [Hw Hi]. unfold scores_for_choice in Hc.
    destruct noaux; [|injection Hc as <-; done]. split; [|done].
    apply gather_scores_spec; [done| |done].
    apply lookup_lt_Some in Hj. unfold experts, chosen in Hj. rewrite length_take in Hj. lia.
  - intros e e' He He' Hg Hnot.
    assert (e' ∈ candidates num_routed_experts (tmp b)) as Hc' by by apply Hin.
    pose proof (chosen_best _ _ _ _ _ He Hc' Hnot) as Hp. unfold precedes in *.
    by rewrite !Htmp in Hp by (done || by eapply chosen_candidate).
Qed.
End group_limited.

(** ** Instances and witnesses *)

(** Scores that are integers, and the operators by their laws. *)
#[export] Program Instance Z_scores : Scores Z := { gt x y := y <? x; min_value := - 2 ^ 31 }.
Next Obligation. intros x y. rewrite Z.ltb_lt, Z.ltb_ge. lia. Qed.
Next Obligation. intros x y z. rewrite !Z.ltb_lt. lia. Qed.

#[local] Obligation Tactic := try done.
#[export] Program Instance reference_ops : RelaxOps := {
  cumsum v p := i32 (sumZ v (p + 1));
  permute_dims A x i j := x j i;
  reshape1 A n x p := x (p / n) (p mod n);
  reshape2 A n m x i j := x ((i * m + j) / n) ((i * m + j) mod n);
  unflatten A n x i j := x (i * n + j);
  merge_rows A n x p k := x (p / n) (p mod n) k;
  split_rows A n x i j k := x (i * n + j) k;
  squeeze A x i k := x i 0 k;
  take_rows A x idx i j := x (idx i) j;
  split2 A n x := (x, λ i, λ j, x i (n + j));
}.
Next Obligation. intros A n x i j Hi Hj. simpl. by rewrite Z.div_add_l, Z.div_small, Z.add_0_r, Z.add_comm, Z.mod_add, Z.mod_small by lia. Qed.
Next Obligation. intros A n x i j k Hi Hj. simpl. by rewrite Z.div_add_l, Z.div_small, Z.add_0_r, Z.add_comm, Z.mod_add, Z.mod_small by lia. Qed.

Module Example.
(** Four experts; the scores of expert 2 and 3 tie. *)
Definition scores (b e : Z) : Z := if e =? 0 then 5 + b else if e =? 1 then -7 else 6.
Lemma top_2 : (λ p, (gating_topk 2 4 scores 2).2 !! p) <$> [(0, 0); (0, 1); (1, 0); (1, 1)] =
  [Some 2; Some 3; Some 0; Some 2].
Proof. vm_compute. reflexivity. Qed.
(** A row with more candidates than places, and a row of which one score is above the least value. *)
Definition low (b e : Z) : Z := if e =? 2 then 3 else - 2 ^ 31.
Lemma gating_topk_spec_witness :
  (∃ e1 e2, (gating_topk 2 4 scores 2).2 !! (0, 0) = Some e1 ∧ (gating_topk 2 4 scores 2).2 !! (0, 1) = Some e2 ∧
     precedes (scores 0) e1 e2) ∧
  (gating_topk 1 4 low 2).2 !! (0, 1) = None.
Proof.
  destruct (gating_topk_spec 2 4 scores 2 0) as (experts & Hl & _ & _ & Hout & _ & Hs & _); [lia|].
  destruct (gating_topk_spec 1 4 low 2 0) as (few & Hf & _ & _ & _ & Hrest & _); [lia|]. split.
  - assert (length experts = 2%nat) as Hlen by (rewrite Hl; vm_compute; reflexivity).
    destruct experts as [|e1 [|e2 [|]]]; try discriminate Hlen. exists e1, e2.
    split; [exact (proj2 (Hout 0%nat e1 eq_refl))|]. split; [exact (proj2 (Hout 1%nat e2 eq_refl))|].
    apply StronglySorted_inv in Hs as [_ Hs]. by apply list.Forall_cons in Hs as [Hs _].
  - apply (Hrest 1%nat). assert (length few = 1%nat) as -> by (rewrite Hf; vm_compute; reflexivity). lia.
Defined.

(** Two groups of two experts, of which one is chosen. *)
Lemma group_limited_spec_witness : ∃ out experts,
  group_limited_greedy_topk Z.add (λ n f, sumZ f n) (λ n f, f 0) 2 2 4 2 1 scores true (Some (λ _, 1)) = Ok out ∧
  length experts = 2%nat ∧ ∀ j e, experts !! j = Some e → out.2 !! (0, Z.of_nat j) = Some e.
Proof.
  destruct (group_limited_spec Z.add (λ n f, sumZ f n) (λ n f, f 0) 2 2 4 2 1 eq_refl ltac:(vm_compute; reflexivity)
    scores true (Some (λ _, 1)) _ 0 eq_refl) as (out & experts & Hr & Hl & _ & _ & Ho & _).
  - lia.
  - lia.
  - vm_compute. split; discriminate.
  - vm_compute. split; discriminate.
  - intros e He. unfold scores. cbn. repeat case_match; lia.
  - exists out, experts. split_and!; [exact Hr|exact Hl|]. intros j e Hj. by apply Ho.
Defined.

(** Three tokens, each routed to two of three experts. *)
Definition routed (b j : Z) : Z := (b + j) mod 3.
Lemma routed_plan : plan 3 2 3 routed = [0; 5; 1; 2; 3; 4].
Proof. vm_compute. reflexivity. Qed.
Lemma shuffling_plan_witness :
  (get_indices 3 2 routed (reverse (indices_threads 3 2)) (moe_cumsum 3 2 routed)).1 !! 1 = Some 5.
Proof.
  destruct (shuffling_plan 3 2 3 routed ltac:(lia) ltac:(lia)
    ltac:(intros b j _ _; unfold routed; apply Z.mod_pos_bound; lia)
    ltac:(intros b j j' _ ? ?; unfold routed; intros; Z.to_euclidean_division_equations; lia)
    ltac:(lia) ltac:(lia) (reverse (indices_threads 3 2)) (reverse_Permutation _) ltac:(lia)) as [_ H].
  apply (H 1%nat 5). vm_compute. reflexivity.
Defined.
End Example.
