(* ===== verification/MoeMatmul.v ===== *)
(** Matrix products of experts: the kernels of [python/mlc_llm/op/moe_matmul.py].

    [gemv] multiplies the rows of one token by the weights of its experts;
    [group_gemm] multiplies the rows of a batch, sorted by expert, tile by tile: a fixed
    number of thread blocks walk over the tiles of all experts in strides. Elements are
    of any type with a machine addition and product, of which no law is assumed. *)

From Stdlib Require Import Lia ZArith Bool.
From stdpp Require Import base gmap list list_numbers numbers strings.
From S2P Require Import Prelude Kernel.
Open Scope Z_scope.

(** ** One token *)

Section gemv.
(** The types of the input, the weights and the output. *)
Context {A Y O : Type} `{Inhabited O} (zero : O) (add : O → O → O) (mul : A → Y → O).
Context (x_leading_dim out_features in_features experts_per_tok : Z).

Definition access_x (x : Z → Z → A) (e j : Z) : A := if x_leading_dim =? 1 then x 0 j else x e j.

(** The loops of the block [gemv]: [T.init] runs at the start of each reduction. *)
Definition gemv_step (x : Z → Z → A) (y : Z → Z → Y) (e : Z) (p : Z * Z) (o : gmap (Z * Z) O) : gmap (Z * Z) O :=
  let '(i, j) := p in
  let o := if j =? 0 then <[(e, i) := zero]> o else o in
  <[(e, i) := add (o !!! (e, i)) (mul (access_x x e j) (y i j))]> o.
Definition gemv_block (x : Z → Z → A) (y : Z → Z → Y) (e : Z) (o : gmap (Z * Z) O) : gmap (Z * Z) O :=
  loop (grid out_features in_features) (gemv_step x y e) o.

(** The kernel, for the weights [y e i j] its [e]-th expert is multiplied by. *)
Definition gemv_func (x : Z → Z → A) (y : Z → Z → Z → Y) (indptr : Z → Z → Z) : gmap (Z * Z) O :=
  loop (range experts_per_tok) (λ e, gemv_block x (y (indptr 0 e)) e) ∅.
Definition check_leading_dim : result unit :=
  py_assert ((x_leading_dim =? 1) || (x_leading_dim =? experts_per_tok)) ""%string.
Definition gemv (x : Z → Z → A) (w : Z → Z → Z → Y) (indptr : Z → Z → Z) : result (gmap (Z * Z) O) :=
  _ ← check_leading_dim;
  Ok (gemv_func x w indptr).

(** The accumulation of one output element. *)
Definition dot (n : Z) (f : Z → A) (g : Z → Y) : O := accumulate add zero n (λ j, mul (f j) (g j)).
Lemma dot_S n f g : 0 ≤ n → dot (n + 1) f g = add (dot n f g) (mul (f n) (g n)).
Proof. intros Hn. unfold dot, accumulate. by rewrite range_S, loop_app by done. Qed.
Lemma dot_0 f g : dot 0 f g = zero.
Proof. done. Qed.

Lemma gemv_row x y e i n o :
  0 < n →
  loop ((λ j, (i, j)) <$> range n) (gemv_step x y e) o =
  <[(e, i) := dot n (access_x x e) (y i)]> o.
Proof.
  rewrite loop_fmap. induction n as [n Hn|n Hn IH] using range_ind; intros Hpos; [lia|].
  rewrite range_S, loop_app, loop_cons, loop_nil, dot_S by done.
  destruct (decide (n = 0)) as [->|Hne].
  - rewrite dot_0. cbn. by rewrite lookup_total_insert_eq, insert_insert_eq.
  - rewrite IH by lia. unfold gemv_step. rewrite (proj2 (Z.eqb_neq n 0)) by done.
    by rewrite lookup_total_insert_eq, insert_insert_eq.
Qed.
Lemma gemv_block_stores x y e o :
  0 < in_features →
  gemv_block x y e o = store_all (range out_features) (λ i, (e, i)) (λ i, dot in_features (access_x x e) (y i)) o.
Proof.
  intros Hin. unfold gemv_block, grid, store_all. rewrite loop_bind. apply loop_ext. intros i o' _.
  by apply gemv_row.
Qed.
Lemma gemv_func_at x y indptr e i :
  0 < in_features → 0 ≤ e < experts_per_tok → 0 ≤ i < out_features →
  gemv_func x y indptr !! (e, i) = Some (dot in_features (access_x x e) (y (indptr 0 e) i)).
Proof.
  intros Hin He Hi. unfold gemv_func.
  assert (∀ e' o, (gemv_block x (y (indptr 0 e')) e' o) !! (e, i) =
    if decide (e' = e) then Some (dot in_features (access_x x e) (y (indptr 0 e) i)) else o !! (e, i)) as Hblock.
  { intros e' o. rewrite gemv_block_stores by done.
    destruct (store_all_lookup (range out_features) (λ i, (e', i)) (λ i, dot in_features (access_x x e') (y (indptr 0 e') i)) o (e, i)) as [H1 H2].
    - intros i1 i2 _ _ [= ->]. done.
    - case_decide as Hd.
      + subst e'. apply H1; [by apply elem_of_range|done].
      + apply H2. intros i' _ [= -> ->]. done. }
  apply (loop_establishes (λ o : gmap (Z * Z) O, o !! (e, i) = Some _) _ _ _ e).
  - by apply elem_of_range.
  - intros o. by rewrite Hblock, decide_True.
  - intros e' o _ Ho. rewrite Hblock. by case_decide.
Qed.
End gemv.

(** ** Groups of rows *)

Section group_gemm.
(** The type of the elements and of the accumulator, and how both are combined. *)
Context {A B : Type} (zero : A) (zero_acc : B) (mac : B → A → A → B) (stored : B → A).
(** The arithmetic of the index type. *)
Context (wrap : Z → Z).
Context (Ne N K : Z) (X : Z → Z → A) (W : Z → Z → Z → A) (indptr : Z → Z).

Definition BLK_M : Z := 8.
Definition BLK_N : Z := 128.
Definition CTA_COUNT : Z := 1024.
Definition tiles_per_row : Z := (N + BLK_N - 1) / BLK_N.

(** The local buffers of a thread block. *)
Record cta := { sum0 : Z; sum1 : Z; row0 : Z; row1 : Z; cur_e : Z; tile_id : Z }.
Definition cta_init (bx : Z) : cta := {|
  sum0 := 0; sum1 := wrap (ceildiv (indptr 1 - indptr 0) BLK_M * tiles_per_row);
  row0 := 0; row1 := wrap (indptr 1 - indptr 0); cur_e := 0; tile_id := bx |}.

(** [move to the current group]. *)
Definition advance_group (s : cta) : cta :=
  let e := cur_e s + 1 in
  if e <? Ne then
    let delta := indptr (e + 1) - indptr e in
    {| sum0 := sum1 s; sum1 := wrap (sum1 s + ceildiv delta BLK_M * tiles_per_row);
       row0 := row1 s; row1 := wrap (row1 s + delta); cur_e := e; tile_id := tile_id s |}
  else {| sum0 := sum0 s; sum1 := sum1 s; row0 := row0 s; row1 := row1 s; cur_e := e; tile_id := tile_id s |}.
Fixpoint seek (fuel : nat) (s : cta) : cta :=
  match fuel with
  | O => s
  | S fuel => if (sum1 s <=? tile_id s) && (cur_e s <? Ne) then seek fuel (advance_group s) else s
  end.

(** The blocks of the current tile. *)
Definition m_offset (s : cta) : Z := (tile_id s - sum0 s) / tiles_per_row * BLK_M + row0 s.
Definition n_offset (s : cta) : Z := (tile_id s - sum0 s) mod tiles_per_row * BLK_N.
Definition X_tile (s : cta) (i j : Z) : A := if m_offset s + i <? row1 s then X (m_offset s + i) j else zero.
Definition W_tile (s : cta) (i j : Z) : A := if n_offset s + i <? N then W (cur_e s) (n_offset s + i) j else zero.
Definition O_tile (s : cta) (i j : Z) : B :=
  loop (range K) (λ k acc, mac acc (X_tile s i k) (W_tile s j k)) zero_acc.
Definition store_tile (s : cta) (out : gmap (Z * Z) A) : gmap (Z * Z) A :=
  loop (grid BLK_M BLK_N) (λ p out,
    let '(i, j) := p in
    if (m_offset s + i <? row1 s) && (n_offset s + j <? N)
    then <[(m_offset s + i, n_offset s + j) := stored (O_tile s i j)]> out else out) out.

(** The outer loop of a thread block; [None] when the fuel is used up. *)
Definition next_tile (s : cta) : cta :=
  {| sum0 := sum0 s; sum1 := sum1 s; row0 := row0 s; row1 := row1 s; cur_e := cur_e s;
     tile_id := wrap (tile_id s + CTA_COUNT) |}.
Fixpoint run_cta (fuel : nat) (s : cta) (out : gmap (Z * Z) A) : option (gmap (Z * Z) A) :=
  match fuel with
  | O => None
  | S fuel =>
      if cur_e s <? Ne then
        let s := seek (Z.to_nat (Ne - cur_e s)) s in
        let out := if cur_e s <? Ne then store_tile s out else out in
        run_cta fuel (next_tile s) out
      else Some out
  end.
(** The kernel, for the thread blocks in some order. *)
Definition run_ctas (fuel : nat) (order : list Z) : option (gmap (Z * Z) A) :=
  foldl (λ out bx, out ≫= run_cta fuel (cta_init bx)) (Some ∅) order.

(** *** Tiles *)

Definition tiles (e : Z) : Z := ceildiv (indptr (e + 1) - indptr e) BLK_M * tiles_per_row.
Definition base (e : Z) : Z := sumZ tiles e.
(** The product of a row and a column, for the expert of the row. *)
Definition product (e r c : Z) : A := stored (loop (range K) (λ k acc, mac acc (X r k) (W e c k)) zero_acc).

Hypothesis Hne : 0 < Ne.
Hypothesis Hn : 0 < N.
Hypothesis Hindptr0 : indptr 0 = 0.
Hypothesis Hindptr : ∀ e, 0 ≤ e < Ne → indptr e ≤ indptr (e + 1).
Hypothesis Hsmall : base Ne + 2048 ≤ 2 ^ 31 ∧ indptr Ne < 2 ^ 31.
Hypothesis Hwrap : ∀ z, 0 ≤ z < 2 ^ 31 → wrap z = z.

Lemma tiles_per_row_pos : 0 < tiles_per_row.
Proof. unfold tiles_per_row, BLK_N. apply Z.div_str_pos. lia. Qed.
Lemma tiles_nonneg e : 0 ≤ e < Ne → 0 ≤ tiles e.
Proof.
  intros He. unfold tiles. apply Z.mul_nonneg_nonneg; [|pose proof tiles_per_row_pos; lia].
  apply ceildiv_nonneg; [done|]. pose proof (Hindptr e He). lia.
Qed.
Lemma base_S e : 0 ≤ e → base (e + 1) = base e + tiles e.
Proof. apply sumZ_S. Qed.
Lemma base_mono e e' : 0 ≤ e ≤ e' → e' ≤ Ne → base e ≤ base e'.
Proof. intros He He'. apply sumZ_mono; [|lia]. intros i Hi. apply tiles_nonneg. lia. Qed.
Lemma base_nonneg e : 0 ≤ e ≤ Ne → 0 ≤ base e.
Proof. intros He. apply (base_mono 0 e); lia. Qed.
Lemma indptr_mono e e' : 0 ≤ e ≤ e' → e' ≤ Ne → indptr e ≤ indptr e'.
Proof.
  intros [He Hle] Hle'. replace e' with (e + (e' - e)) in * by lia. assert (0 ≤ e' - e) as Hd by lia.
  revert Hd Hle'. generalize (e' - e) as d. clear Hle e'. intros d. induction d as [d Hd0|d Hd0 IH] using range_ind.
  - intros Hd _. by replace (e + d) with e by lia.
  - intros _ Hle. etrans; [apply IH; lia|]. rewrite Z.add_assoc. apply Hindptr. lia.
Qed.
(** There are no more tiles than one per row of the input and column of tiles. *)
Lemma ceildiv_le d b : 0 ≤ d → 0 < b → ceildiv d b ≤ d.
Proof.
  intros Hd Hb. unfold ceildiv. destruct (decide (d = 0)) as [->|Hne']; [rewrite Z.div_small; lia|].
  apply Z.div_le_upper_bound; [done|]. nia.
Qed.
Lemma base_bound e : 0 ≤ e ≤ Ne → base e ≤ indptr e * tiles_per_row.
Proof.
  induction e as [e He|e He IH] using range_ind; intros Hle.
  - assert (e = 0) as -> by lia. rewrite Hindptr0. done.
  - rewrite base_S by done. specialize (IH ltac:(lia)). specialize (Hindptr e ltac:(lia)). unfold tiles.
    pose proof (ceildiv_le (indptr (e + 1) - indptr e) BLK_M). pose proof tiles_per_row_pos. unfold BLK_M in *. nia.
Qed.
Lemma base_unique e e' t : 0 ≤ e < Ne → 0 ≤ e' < Ne →
  base e ≤ t < base (e + 1) → base e' ≤ t < base (e' + 1) → e = e'.
Proof.
  intros He He' Ht Ht'. destruct (Z.lt_trichotomy e e') as [H|[H|H]]; [|done|].
  - pose proof (base_mono (e + 1) e'). lia.
  - pose proof (base_mono (e' + 1) e). lia.
Qed.

(** *** Invariant of a thread block *)

Definition at_group (s : cta) : Prop :=
  0 ≤ cur_e s ≤ Ne ∧ 0 ≤ tile_id s ∧ base (cur_e s) ≤ tile_id s ∧
  (cur_e s < Ne → sum0 s = base (cur_e s) ∧ sum1 s = base (cur_e s + 1) ∧
                  row0 s = indptr (cur_e s) ∧ row1 s = indptr (cur_e s + 1) ∧ tile_id s < base Ne + 1024).

Lemma init_at_group bx : 0 ≤ bx < CTA_COUNT → at_group (cta_init bx).
Proof.
  unfold CTA_COUNT. intros Hbx. unfold at_group. cbn. pose proof (base_nonneg Ne).
  assert (base 0 = 0) as -> by done. split_and!; try lia. intros _. split_and!; try done; try lia.
  - rewrite (base_S 0) by lia. assert (base 0 = 0) as -> by done.
    change (ceildiv (indptr 1 - indptr 0) BLK_M * tiles_per_row) with (tiles 0).
    pose proof (base_mono 1 Ne). assert (base 1 = tiles 0) as E by (change 1 with (0 + 1); rewrite base_S by lia; done).
    pose proof (tiles_nonneg 0). rewrite Hwrap; lia.
  - change (0 + 1) with 1. pose proof (indptr_mono 0 1). pose proof (indptr_mono 1 Ne).
    rewrite Hindptr0, Z.sub_0_r. apply Hwrap. lia.
Qed.

Lemma advance_at_group s : at_group s → cur_e s < Ne → sum1 s ≤ tile_id s → at_group (advance_group s).
Proof.
  intros (He & Ht & Hb & Hg) Hlt Hle. destruct (Hg Hlt) as (E0 & E1 & R0 & R1 & Hbound).
  unfold advance_group. destruct (Z.ltb_spec (cur_e s + 1) Ne) as [Hnext|Hlast]; unfold at_group; cbn.
  - split_and!; try lia. intros _. split_and!; try lia.
    + rewrite E1. rewrite (base_S (cur_e s + 1)) by lia. unfold tiles.
      pose proof (base_mono (cur_e s + 1 + 1) Ne). pose proof (base_nonneg (cur_e s + 1)).
      rewrite (base_S (cur_e s + 1)) in * by lia. pose proof (tiles_nonneg (cur_e s + 1)). unfold tiles in *.
      apply Hwrap. lia.
    + rewrite R1. pose proof (indptr_mono (cur_e s + 1 + 1) Ne). pose proof (indptr_mono 0 (cur_e s + 1 + 1)).
      rewrite Hwrap; lia.
  - assert (cur_e s + 1 = Ne) as E by lia. rewrite E in *. split_and!; lia.
Qed.

Lemma seek_spec fuel s :
  at_group s → Ne - cur_e s ≤ Z.of_nat fuel →
  at_group (seek fuel s) ∧ tile_id (seek fuel s) = tile_id s ∧
  (cur_e (seek fuel s) < Ne → tile_id s < sum1 (seek fuel s)).
Proof.
  revert s. induction fuel as [|fuel IH]; intros s Hs Hf.
  - split_and!; [done|done|]. simpl. lia.
  - cbn [seek]. destruct (andb _ _) eqn:E.
    + apply andb_true_iff in E as [E1%Z.leb_le E2%Z.ltb_lt].
      assert (tile_id (advance_group s) = tile_id s ∧ cur_e (advance_group s) = cur_e s + 1) as [Et Ee].
      { unfold advance_group. by destruct (_ <? _). }
      destruct (IH (advance_group s)) as (H1 & H2 & H3); [by apply advance_at_group|lia|].
      rewrite Et in *. done.
    + split_and!; [done|done|]. intros Hlt. apply andb_false_iff in E as [E%Z.leb_gt|E%Z.ltb_ge]; lia.
Qed.

(** *** What a tile writes *)

Definition correct (out : gmap (Z * Z) A) : Prop := ∀ r c v, out !! (r, c) = Some v →
  0 ≤ c < N ∧ ∃ e, 0 ≤ e < Ne ∧ indptr e ≤ r < indptr (e + 1) ∧ v = product e r c.
Definition written (r c : Z) (out : gmap (Z * Z) A) : Prop := is_Some (out !! (r, c)).

Lemma offsets s : at_group s → cur_e s < Ne →
  row0 s ≤ m_offset s ∧ 0 ≤ n_offset s.
Proof.
  intros (He & _ & Hb & Hg) Hlt. destruct (Hg Hlt) as (E0 & E1 & R0 & R1 & _).
  unfold m_offset, n_offset, BLK_M, BLK_N. pose proof tiles_per_row_pos.
  pose proof (Z.div_pos (tile_id s - sum0 s) tiles_per_row). pose proof (Z.mod_pos_bound (tile_id s - sum0 s) tiles_per_row). lia.
Qed.
Lemma store_tile_correct s out : at_group s → cur_e s < Ne → correct out → correct (store_tile s out).
Proof.
  intros Hs Hlt Hout. pose proof Hs as (He & _ & _ & Hg). destruct (Hg Hlt) as (_ & _ & R0 & R1 & _).
  destruct (offsets s Hs Hlt) as [Hm Hn0].
  unfold store_tile. apply (loop_invariant correct); [|done]. intros [i j] out' [Hi Hj]%elem_of_grid Hout'.
  destruct (andb _ _) eqn:E; [|done]. apply andb_true_iff in E as [Er%Z.ltb_lt Ec%Z.ltb_lt].
  intros r c v [[[= <- <-] <-]|[_ Hv]]%lookup_insert_Some; [|by apply Hout'].
  split; [lia|]. exists (cur_e s). split; [lia|]. split; [lia|].
  unfold product, O_tile. f_equal. apply loop_ext. intros k acc _. unfold X_tile, W_tile.
  rewrite (proj2 (Z.ltb_lt _ _) Er), (proj2 (Z.ltb_lt _ _) Ec). done.
Qed.
Lemma store_tile_keeps s out r c : written r c out → written r c (store_tile s out).
Proof.
  intros Hw. unfold store_tile. apply (loop_invariant (written r c)); [|done]. intros [i j] out' _ Hw'.
  destruct (andb _ _); [|done]. unfold written. destruct (decide ((m_offset s + i, n_offset s + j) = (r, c))) as [->|].
  - by rewrite lookup_insert_eq.
  - by rewrite lookup_insert_ne.
Qed.

(** The tile a cell belongs to. *)
Definition tile_of (e r c : Z) : Z := base e + ((r - indptr e) / BLK_M * tiles_per_row + c / BLK_N).
Lemma tile_of_bounds e r c : 0 ≤ e < Ne → indptr e ≤ r < indptr (e + 1) → 0 ≤ c < N →
  base e ≤ tile_of e r c < base (e + 1) ∧ 0 ≤ c / BLK_N < tiles_per_row.
Proof.
  intros He Hr Hc. rewrite base_S by lia. unfold tile_of, tiles.
  assert (0 ≤ c / BLK_N < tiles_per_row) as Hcol.
  { unfold tiles_per_row, BLK_N. split; [apply Z.div_pos; lia|]. apply Z.div_lt_upper_bound; [lia|].
    pose proof (Z.div_mod (N + 128 - 1) 128). pose proof (Z.mod_pos_bound (N + 128 - 1) 128). lia. }
  assert (0 ≤ (r - indptr e) / BLK_M < ceildiv (indptr (e + 1) - indptr e) BLK_M) as Hrow.
  { unfold BLK_M. pose proof (ceildiv_spec (indptr (e + 1) - indptr e) 8). split; [apply Z.div_pos; lia|].
    apply Z.div_lt_upper_bound; lia. }
  split; [|done]. nia.
Qed.
Lemma store_tile_writes s out e r c :
  at_group s → cur_e s < Ne → tile_id s < sum1 s → 0 ≤ e < Ne → indptr e ≤ r < indptr (e + 1) → 0 ≤ c < N →
  tile_id s = tile_of e r c → written r c (store_tile s out).
Proof.
  intros Hs Hlt Ht He Hr Hc E. pose proof Hs as (He' & _ & Hb & Hg). destruct (Hg Hlt) as (S0 & S1 & R0 & R1 & _).
  destruct (tile_of_bounds e r c He Hr Hc) as [Hbounds Hcol].
  assert (cur_e s = e) as Ee by (apply (base_unique _ _ (tile_id s)); lia). rewrite Ee in *.
  assert (m_offset s = (r - indptr e) / BLK_M * BLK_M + indptr e ∧ n_offset s = c / BLK_N * BLK_N) as [Em En].
  { unfold m_offset, n_offset. rewrite E, S0, R0. unfold tile_of.
    replace (base e + _ - base e) with ((r - indptr e) / BLK_M * tiles_per_row + c / BLK_N) by lia.
    rewrite Z.div_add_l, (Z.div_small (c / BLK_N)) by lia.
    rewrite (Z.add_comm (_ * tiles_per_row)), Z.mod_add, (Z.mod_small (c / BLK_N)) by lia. lia. }
  assert (0 ≤ (r - indptr e) mod BLK_M < BLK_M ∧ 0 ≤ c mod BLK_N < BLK_N) as [Hi Hj] by (split; by apply Z.mod_pos_bound).
  pose proof (Z.div_mod (r - indptr e) BLK_M). pose proof (Z.div_mod c BLK_N).
  assert (m_offset s + (r - indptr e) mod BLK_M = r ∧ n_offset s + c mod BLK_N = c) as [Hr' Hc'] by (unfold BLK_M, BLK_N in *; lia).
  unfold store_tile. apply (loop_establishes (written r c) _ _ _ ((r - indptr e) mod BLK_M, c mod BLK_N)).
  - by apply elem_of_grid.
  - intros out'. rewrite Hr', Hc', R1, (proj2 (Z.ltb_lt r _)), (proj2 (Z.ltb_lt c _)) by lia.
    unfold written. simpl. by rewrite lookup_insert_eq.
  - intros [i j] out' _ Hw. destruct (andb _ _); [|done]. unfold written.
    destruct (decide ((m_offset s + i, n_offset s + j) = (r, c))) as [->|].
    + by rewrite lookup_insert_eq.
    + by rewrite lookup_insert_ne.
Qed.

(** *** A thread block *)

Lemma next_at_group s : at_group s → (cur_e s < Ne → tile_id s < sum1 s) →
  tile_id s < base Ne + 1024 → at_group (next_tile s) ∧ tile_id (next_tile s) = tile_id s + 1024.
Proof.
  intros (He & Ht & Hb & Hg) Hsum Hbound.
  assert (tile_id (next_tile s) = tile_id s + 1024) as E.
  { cbn. unfold CTA_COUNT. rewrite Hwrap; lia. }
  split; [|done]. unfold at_group. rewrite E. cbn. split_and!; try lia.
  intros Hlt. destruct (Hg Hlt) as (S0 & S1 & R0 & R1 & _). split_and!; try done.
  specialize (Hsum Hlt). pose proof (base_mono (cur_e s + 1) Ne). lia.
Qed.

Lemma run_cta_spec fuel s out :
  at_group s → tile_id s < base Ne + 1024 → (Z.to_nat (base Ne - tile_id s) + 2 ≤ fuel)%nat → correct out →
  ∃ out', run_cta fuel s out = Some out' ∧ correct out' ∧ (∀ r c, written r c out → written r c out') ∧
    ∀ e r c n, 0 ≤ e < Ne → indptr e ≤ r < indptr (e + 1) → 0 ≤ c < N → 0 ≤ n →
      cur_e s < Ne → tile_of e r c = tile_id s + n * 1024 → written r c out'.
Proof.
  revert s out. induction fuel as [|fuel IH]; intros s out Hs Hbound Hfuel Hout; [lia|].
  cbn [run_cta]. destruct (Z.ltb_spec (cur_e s) Ne) as [Hlt|Hge].
  2: { exists out. split_and!; try done. intros. lia. }
  destruct (seek_spec (Z.to_nat (Ne - cur_e s)) s Hs) as (Hs' & Et & Hsum); [lia|].
  set (s' := seek _ s) in *. set (out1 := if cur_e s' <? Ne then store_tile s' out else out).
  destruct (next_at_group s' Hs') as [Hnext En]; [rewrite Et; exact Hsum|lia|].
  assert (correct out1) as Hout1.
  { unfold out1. destruct (Z.ltb_spec (cur_e s') Ne); [by apply store_tile_correct|done]. }
  assert (∀ r c, written r c out → written r c out1) as Hkeep.
  { intros r c Hw. unfold out1. destruct (cur_e s' <? Ne); [by apply store_tile_keeps|done]. }
  destruct (Z.lt_ge_cases (cur_e s') Ne) as [Hlt'|Hge'].
  - specialize (Hsum Hlt'). pose proof Hs' as (He' & _ & Hb' & Hg'). destruct (Hg' Hlt') as (_ & S1 & _ & _ & _).
    assert (tile_id s < base Ne) as Htile by (pose proof (base_mono (cur_e s' + 1) Ne); lia).
    destruct (IH (next_tile s') out1 Hnext) as (out' & Hrun & Hc' & Hk' & Hw'); [lia|lia|done|].
    exists out'. split_and!; [done|done|by auto|].
    intros e r c n He Hr Hc Hn0 _ E. destruct (decide (n = 0)) as [->|Hn'].
    + apply Hk'. unfold out1. rewrite (proj2 (Z.ltb_lt _ _) Hlt').
      apply (store_tile_writes s' out e r c); try done; lia.
    + apply (Hw' e r c (n - 1)); try done; [lia|]. lia.
  - destruct fuel as [|fuel]; [lia|]. exists out1. cbn [run_cta].
    change (cur_e (next_tile s')) with (cur_e s'). rewrite (proj2 (Z.ltb_ge _ _) Hge'). split_and!; try done.
    intros e r c n He Hr Hc Hn0 _ E. exfalso.
    destruct (tile_of_bounds e r c He Hr Hc) as [Hbt _]. pose proof (base_mono (e + 1) Ne).
    destruct Hs' as (He' & _ & Hb' & _). assert (cur_e s' = Ne) as Ee by lia. rewrite Ee in Hb'. lia.
Qed.

(** *** The kernel *)

Definition enough_fuel : nat := Z.to_nat (base Ne) + 2.
Lemma run_ctas_spec fuel order :
  (enough_fuel ≤ fuel)%nat → order ≡ₚ range CTA_COUNT →
  ∃ out, run_ctas fuel order = Some out ∧ correct out ∧
    ∀ e r c, 0 ≤ e < Ne → indptr e ≤ r < indptr (e + 1) → 0 ≤ c < N → out !! (r, c) = Some (product e r c).
Proof.
  intros Hfuel Hord.
  assert (∀ l out0, (∀ bx, bx ∈ l → 0 ≤ bx < CTA_COUNT) → correct out0 →
    ∃ out, foldl (λ out bx, out ≫= run_cta fuel (cta_init bx)) (Some out0) l = Some out ∧ correct out ∧
      (∀ r c, written r c out0 → written r c out) ∧
      ∀ bx e r c n, bx ∈ l → 0 ≤ e < Ne → indptr e ≤ r < indptr (e + 1) → 0 ≤ c < N → 0 ≤ n →
        tile_of e r c = bx + n * 1024 → written r c out) as Hfold.
  { intros l. induction l as [|bx l IH]; intros out0 Hl Hout0.
    - exists out0. split_and!; try done. intros bx e r c n Hbx. by apply not_elem_of_nil in Hbx.
    - pose proof (base_nonneg Ne). assert (0 ≤ bx < CTA_COUNT) as Hbx by (apply Hl; left). unfold enough_fuel in Hfuel.
      destruct (run_cta_spec fuel (cta_init bx) out0) as (out1 & Hrun & Hc1 & Hk1 & Hw1);
        [by apply init_at_group|unfold CTA_COUNT in Hbx; simpl; lia|simpl; lia|done|].
      destruct (IH out1) as (out & Hf & Hc & Hk & Hw); [intros; apply Hl; by right|done|].
      exists out. cbn [foldl]. simpl in Hf |- *. rewrite Hrun. split_and!; [done|done|by auto|].
      intros bx' e r c n [->|Hin]%elem_of_cons He Hr Hcc Hn0 E; [|by eapply Hw].
      apply Hk. by apply (Hw1 e r c n). }
  destruct (Hfold order ∅) as (out & Hrun & Hc & _ & Hw).
  - intros bx Hbx. rewrite Hord in Hbx. by apply elem_of_range in Hbx.
  - intros r c v Hv. by rewrite lookup_empty in Hv.
  - exists out. split_and!; [done|done|]. intros e r c He Hr Hcc.
    destruct (tile_of_bounds e r c He Hr Hcc) as [Hbt _]. pose proof (base_nonneg e).
    set (t := tile_of e r c) in *. pose proof (Z.div_mod t 1024). pose proof (Z.mod_pos_bound t 1024).
    pose proof (Z.div_pos t 1024).
    assert (written r c out) as [v Hv].
    { apply (Hw (t mod 1024) e r c (t / 1024)); try done; try lia. rewrite Hord. apply elem_of_range. unfold CTA_COUNT. lia. }
    rewrite Hv. f_equal. destruct (Hc r c v Hv) as (_ & e' & He' & Hr' & ->). f_equal.
    destruct (Z.lt_trichotomy e e') as [Hlt|[->|Hgt]]; [|done|].
    + pose proof (indptr_mono (e + 1) e'). lia.
    + pose proof (indptr_mono (e' + 1) e). lia.
Qed.
End group_gemm.

(** ** The operators *)

(** *** Dequantized weights *)

Section dequantize.
Context {A : Type} `{Inhabited A} (zero : A) (add sub mul : A → A → A) (of_int : Z → A).
(** A packed weight: the word of the element, its digit, and the scale of its group. *)
Definition dequantize (quantize_dtype_bits num_elem_per_storage group_size : Z) (w : Z → Z → Z → Z) (s : Z → Z → Z → A)
    (e i j : Z) : A :=
  let tir_bin_mask := 2 ^ quantize_dtype_bits - 1 in
  let tir_max_int := of_int (2 ^ (quantize_dtype_bits - 1) - 1) in
  let word := w e i (j / num_elem_per_storage) in
  let scale := s e i (j / group_size) in
  let shift := j mod num_elem_per_storage * quantize_dtype_bits in
  mul (sub (of_int (Z.land (Z.shiftr word shift) tir_bin_mask)) tir_max_int) scale.
Definition dequantize_gemv (x_leading_dim out_features in_features experts_per_tok : Z)
    (storage_bits quantize_dtype_bits group_size : Z)
    (x : Z → Z → A) (w : Z → Z → Z → Z) (scale : Z → Z → Z → A) (indptr : Z → Z → Z) : result (gmap (Z * Z) A) :=
  let num_elem_per_storage := storage_bits / quantize_dtype_bits in
  _ ← check_leading_dim x_leading_dim experts_per_tok;
  Ok (gemv_func zero add mul x_leading_dim out_features in_features experts_per_tok x
        (dequantize quantize_dtype_bits num_elem_per_storage group_size w scale) indptr).

(** 8-bit floats: [reinterpret] reads a stored word, or a byte of it, as one. *)
Context (reinterpret : Z → A) (reinterpret_byte : Z → A).
Definition dequantize_float8 (quantize_dtype_bits num_elem_per_storage : Z) (w : Z → Z → Z → Z) (s : option (Z → A))
    (e i j : Z) : A :=
  let value :=
    if num_elem_per_storage =? 1 then reinterpret (w e i j)
    else
      let shift := j mod num_elem_per_storage * quantize_dtype_bits in
      reinterpret_byte (Z.land (Z.shiftr (w e i (j / num_elem_per_storage)) shift) (2 ^ quantize_dtype_bits - 1)) in
  match s with Some s => mul value (s 0) | None => value end.
Definition dequantize_float8_gemv (x_leading_dim out_features in_features experts_per_tok : Z)
    (storage_bits quantize_dtype_bits : Z)
    (x : Z → Z → A) (w : Z → Z → Z → Z) (scale : option (Z → A)) (indptr : Z → Z → Z) : gmap (Z * Z) A :=
  gemv_func zero add mul x_leading_dim out_features in_features experts_per_tok x
    (dequantize_float8 quantize_dtype_bits (storage_bits / quantize_dtype_bits) w scale) indptr.
End dequantize.

(** Blocks of 8-bit floats that share a scale; the products are cast to the output type. *)
Section block_scale.
Context {A W S O : Type} `{Inhabited O} (zero : O) (add : O → O → O) (mul : A → A → A) (of_weight : W → A) (of_scale : S → A)
  (astype : A → O).
Definition dequantize_block_scale_float8_gemv (x_leading_dim out_features in_features experts_per_tok : Z)
    (block_size : Z * Z) (x : Z → Z → A) (w : Z → Z → Z → W) (w_scale : Z → Z → Z → S) (expert_indices : Z → Z → Z) :
    result (gmap (Z * Z) O) :=
  _ ← py_assert (out_features mod block_size.1 =? 0) ""%string;
  _ ← py_assert (in_features mod block_size.2 =? 0) ""%string;
  Ok (gemv_func zero add (λ a y, astype (mul a y)) x_leading_dim out_features in_features experts_per_tok x
        (λ e, λ i, λ j, mul (of_weight (w e i j)) (of_scale (w_scale e (i / block_size.1) (j / block_size.2))))
        expert_indices).
End block_scale.

(** *** Grouped products *)

Section grouped.
Context {A : Type} (zero : A) (add sub mul : A → A → A) (of_int : Z → A).
Definition group_gemm (fuel : nat) (order : list Z) (Ne N K : Z) (x : Z → Z → A) (w : Z → Z → Z → A) (indptr : Z → Z) :
    option (gmap (Z * Z) A) :=
  run_ctas zero zero (λ acc a b, add acc (mul a b)) id i32 Ne N K x w indptr fuel order.

(** The accumulator is a 32-bit float; indices have the type of [indptr], which is padded
    when it lacks the first zero; [pad] is the library's. *)
Context {F : Type} (f32_zero : F) (f32_add : F → F → F) (to_f32 : A → F) (of_f32 : F → A).
Context (pad : (Z → Z) → Z → Z).
Definition i64 (z : Z) : Z := (z + 2 ^ 63) mod 2 ^ 64 - 2 ^ 63.
Definition dequantize_group_gemm (fuel : nat) (order : list Z) (Ne N K : Z) (storage_bits quantize_dtype_bits group_size : Z)
    (int64_indptr : bool) (x : Z → Z → A) (w : Z → Z → Z → Z) (scale : Z → Z → Z → A) (indptr : Z → Z) :
    option (gmap (Z * Z) A) :=
  run_ctas zero f32_zero (λ acc a b, f32_add acc (to_f32 (mul a b))) of_f32 (if int64_indptr then i64 else i32) Ne N K x
    (dequantize sub mul of_int quantize_dtype_bits (storage_bits / quantize_dtype_bits) group_size w scale)
    (if int64_indptr then pad indptr else indptr) fuel order.

(** C18. Whatever order the thread blocks run in, the grouped product ends, and gives to
    every row of a group and every column the product with the expert's weights, and to
    no other cell anything. *)
Theorem group_gemm_spec (Ne N K : Z) x w indptr fuel order :
  0 < Ne → 0 < N → indptr 0 = 0 → (∀ e, 0 ≤ e < Ne → indptr e ≤ indptr (e + 1)) →
  base N indptr Ne + 2048 ≤ 2 ^ 31 → indptr Ne < 2 ^ 31 →
  (enough_fuel Ne N indptr ≤ fuel)%nat → order ≡ₚ range CTA_COUNT →
  ∃ out, group_gemm fuel order Ne N K x w indptr = Some out ∧
    (∀ e r c, 0 ≤ e < Ne → indptr e ≤ r < indptr (e + 1) → 0 ≤ c < N →
       out !! (r, c) = Some (dot zero add mul K (x r) (w e c))) ∧
    ∀ r c, is_Some (out !! (r, c)) → 0 ≤ r < indptr Ne ∧ 0 ≤ c < N.
Proof.
  intros Hne Hn H0 Hmono Hs1 Hs2 Hfuel Hord.
  destruct (run_ctas_spec zero zero (λ acc a b, add acc (mul a b)) id i32 Ne N K x w indptr Hne Hn H0 Hmono
    (conj Hs1 Hs2) (λ z Hz, i32_small z ltac:(lia)) fuel order Hfuel Hord) as (out & Hrun & Hc & Hall).
  exists out. split_and!; [exact Hrun|exact Hall|].
  intros r c [v Hv]. destruct (Hc r c v Hv) as (Hcol & e & He & Hr & _). split; [|done].
  pose proof (indptr_mono Ne indptr Hmono 0 e). pose proof (indptr_mono Ne indptr Hmono (e + 1) Ne). lia.
Qed.
End grouped.

Module Example.
(** Two experts with one row each. *)
Definition indptr (e : Z) : Z := e.
Lemma group_gemm_spec_witness : ∃ out,
  group_gemm 0 Z.add Z.mul 4 (range CTA_COUNT) 2 1 1 (λ r k, 10 + r) (λ e n k, 3 + e) indptr = Some out ∧
  out !! (1, 0) = Some 44.
Proof.
  destruct (group_gemm_spec 0 Z.add Z.mul 2 1 1 (λ r k, 10 + r) (λ e n k, 3 + e) indptr 4 (range CTA_COUNT))
    as (out & Hr & Ha & _); [lia|lia|done|intros e _; unfold indptr; lia|vm_compute; discriminate|done|vm_compute; lia|done|].
  exists out. split; [exact Hr|]. rewrite (Ha 1 1 0); [reflexivity|lia|unfold indptr; lia|lia].
Defined.
End Example.
