(* ===== verification/MoeLayer.v ===== *)
(** The mixture of experts of Mixtral: [MixtralExperts] of [python/mlc_llm/nn/expert.py]
    and [MixtralMoE.forward] of [model/mixtral/mixtral_model.py], composed of the kernels
    of [MoeRouting] and [MoeMatmul], with the choice of external libraries of
    [op/extern.py]. The theorem: sorting the tokens by expert, the grouped products and
    the scatter compute, for every token, the weighted sum of what its experts compute
    for it alone. *)

From Stdlib Require Import Lia ZArith Bool.
From stdpp Require Import base gmap list list_numbers numbers strings.
From S2P Require Import Prelude Kernel MoeRouting MoeMatmul.
Open Scope Z_scope.

(** ** [ExternModuleStore] *)

Record ExternModuleStore := {
  configured : bool; flashinfer : bool; faster_transformer : bool; cutlass_group_gemm : bool; cutlass_gemm : bool;
}.
(** [enable]: CUTLASS needs one of two architectures, FasterTransformer is off. *)
Definition enable (target_kind arch : string) (flashinfer faster_transformer cutlass : bool) : ExternModuleStore :=
  let cutlass := cutlass && bool_decide (target_kind = "cuda"%string) &&
                 (bool_decide (arch = "sm_90a"%string) || bool_decide (arch = "sm_100a"%string)) in
  {| configured := false; flashinfer := flashinfer; faster_transformer := false;
     cutlass_group_gemm := cutlass; cutlass_gemm := cutlass |}.

Inductive dtype := float32 | float16 | bfloat16.
#[export] Instance dtype_eq_dec : EqDecision dtype.
Proof. solve_decision. Defined.

Section layer.
(** The elements, which are also the scores of the gate; 32-bit floats for the
    normalization of the scores. *)
Context `{scores_of : Scores A} `{Inhabited A} `{ops : RelaxOps}.
Context (zero : A) (add mul : A → A → A) (silu : A → A) (op_sum : Z → (Z → A) → A).
Context {f32 : Type} `{Inhabited f32} (to_f32 : A → f32) (of_f32 : f32 → A).
Context (exp : f32 → f32) (fsub fadd fdiv fmax : f32 → f32 → f32) (softmax : Z → (Z → f32) → Z → f32).

(** ** [MixtralExperts] *)

(** The index tensor of a product: the experts of one token, or where the rows of each
    expert begin, or (without the first zero, in 64-bit integers) where they end. *)
Inductive expert_ptr :=
  | PerToken (indptr : Z → Z → Z)
  | PerGroup (inclusive : bool) (indptr : Z → Z).

(** The external products, and the scheduling of the thread blocks of our own. *)
Context (store : ExternModuleStore) (model_dtype : dtype).
Context (cutlass_kernel ft_kernel : Z → Z → (Z → Z → A) → (Z → Z → Z → A) → (Z → Z) → gmap (Z * Z) A).
Context (cta_order : list Z).

Record MixtralExperts := {
  num_local_experts : Z; in_features : Z; out_features : Z; weight : Z → Z → Z → A;
}.
(** [MixtralExperts.forward] of [rows] rows. Each product asserts the form of [indptr]. *)
Definition experts_forward (m : MixtralExperts) (rows experts_per_tok : Z) (x : Z → Z → A) (indptr : expert_ptr) :
    result (Z → Z → A) :=
  match indptr with
  | PerToken indptr =>
      o ← gemv zero add mul rows (out_features m) (in_features m) experts_per_tok x (weight m) indptr;
      Ok (tensor o)
  | PerGroup inclusive indptr =>
      if cutlass_group_gemm store && bool_decide (model_dtype = float16 ∨ model_dtype = bfloat16) then
        _ ← py_assert inclusive ""%string;
        Ok (tensor (cutlass_kernel (out_features m) (in_features m) x (weight m) indptr))
      else if faster_transformer store && bool_decide (model_dtype = float16) then
        Ok (tensor (ft_kernel (out_features m) (in_features m) x (weight m) indptr))
      else
        _ ← py_assert (negb inclusive) ""%string;
        match group_gemm zero add mul (enough_fuel (num_local_experts m) (out_features m) indptr) cta_order
                (num_local_experts m) (out_features m) (in_features m) x (weight m) indptr with
        | Some o => Ok (tensor o)
        | None => raise OtherError "the kernel does not end"%string
        end
  end.

(** ** [MixtralMoE] *)

Context (local_experts experts_per_tok hidden_size intermediate_size : Z).
Context (gate : (Z → Z → A) → Z → Z → A) (w13 w2 : Z → Z → Z → A).
(** The order of the threads of [get_indices]. *)
Context (indices_order : Z → list Z).

Definition e1_e3 : MixtralExperts := {|
  num_local_experts := local_experts; in_features := hidden_size; out_features := 2 * intermediate_size; weight := w13 |}.
Definition e2 : MixtralExperts := {|
  num_local_experts := local_experts; in_features := intermediate_size; out_features := hidden_size; weight := w2 |}.

(** [_expert_forward]; the row of one token becomes [experts_per_tok] rows. *)
Definition _expert_forward (rows : Z) (x : Z → Z → A) (indptr : expert_ptr) : result (Z → Z → A) :=
  x1_x3 ← experts_forward e1_e3 rows experts_per_tok x indptr;
  let '(x1, x3) := split2 intermediate_size x1_x3 in
  experts_forward e2 (match indptr with PerToken _ => experts_per_tok | PerGroup _ _ => rows end) experts_per_tok
    (λ i, λ j, mul (silu (x1 i j)) (x3 i j)) indptr.

Definition use_ft : bool :=
  (cutlass_group_gemm store || faster_transformer store) && bool_decide (model_dtype = float16).
(** The branch of several tokens. *)
Definition routed_experts (num_tokens : Z) (expert_indices : Z → Z → Z) (x : Z → Z → A) : result (Z → Z → A) :=
  let cumsum := moe_cumsum num_tokens experts_per_tok expert_indices in
  let '(reverse_indices, token_indices) :=
    get_indices num_tokens experts_per_tok expert_indices (indices_order num_tokens) cumsum in
  let indptr := PerGroup use_ft (get_indptr num_tokens cumsum use_ft) in
  let x := take_rows x (λ p, token_indices !!! p) in
  x ← _expert_forward (num_tokens * experts_per_tok) x indptr;
  Ok (tensor (scatter_output (num_tokens * experts_per_tok) hidden_size x (λ p, reverse_indices !!! p))).

Definition forward (batch_size seq_len : Z) (x : Z → Z → Z → A) : result (Z → Z → Z → A) :=
  let num_tokens := batch_size * seq_len in
  let x := merge_rows seq_len x in
  let '(expert_weights, expert_indices) :=
    gating_softmax_topk to_f32 of_f32 exp fsub fadd fdiv fmax softmax num_tokens local_experts (gate x) experts_per_tok true in
  x ← (if num_tokens =? 1 then _expert_forward 1 x (PerToken (tensor expert_indices))
       else routed_experts num_tokens (tensor expert_indices) x);
  let x := split_rows experts_per_tok x in
  let x := moe_sum add op_sum experts_per_tok (λ t, λ j, λ h, mul (x t j h) (tensor expert_weights t j)) in
  Ok (split_rows seq_len x).

(** ** The reference *)

(** What expert [e] computes for one row. *)
Definition expert_hidden (e : Z) (v : Z → A) (i : Z) : A :=
  mul (silu (dot zero add mul hidden_size v (w13 e i)))
      (dot zero add mul hidden_size v (w13 e (intermediate_size + i))).
Definition expert_output (e : Z) (v : Z → A) (h : Z) : A :=
  dot zero add mul intermediate_size (expert_hidden e v) (w2 e h).
(** The experts of token [t] of the merged input, their weights, and the output. *)
Definition token_expert (x : Z → Z → A) (t j : Z) : Z :=
  chosen (Z.to_nat experts_per_tok) local_experts (gate x t) !!! Z.to_nat j.
Definition token_weight (x : Z → Z → A) (t j : Z) : A :=
  softmax_weight of_f32 exp fsub fadd fdiv fmax experts_per_tok
    (λ i, to_f32 (gate x t (token_expert x t i))) (to_f32 (gate x t (token_expert x t j))).
Definition token_output (x : Z → Z → A) (t h : Z) : A :=
  let product j := mul (expert_output (token_expert x t j) (x t) h) (token_weight x t j) in
  if experts_per_tok =? 1 then product 0
  else if experts_per_tok =? 2 then add (product 0) (product 1)
  else op_sum experts_per_tok product.

Lemma dot_ext n (f f' g : Z → A) :
  (∀ j, 0 ≤ j < n → f j = f' j) → dot zero add mul n f g = dot zero add mul n f' g.
Proof. intros Hf. unfold dot, accumulate. apply loop_ext. intros j acc Hj%elem_of_range. by rewrite Hf. Qed.

Hypothesis Hhidden : 0 < hidden_size.
Hypothesis Hinter : 0 < intermediate_size.
Hypothesis Hk : 0 < experts_per_tok.

(** *** One token *)

Lemma forward_per_token x idx : ∃ y,
  _expert_forward 1 x (PerToken idx) = Ok y ∧
  ∀ j h, 0 ≤ j < experts_per_tok → 0 ≤ h < hidden_size → y j h = expert_output (idx 0 j) (x 0) h.
Proof.
  unfold _expert_forward, experts_forward, gemv, check_leading_dim.
  cbn [out_features in_features weight e1_e3 e2 mbind result_bind py_assert Z.eqb Pos.eqb orb].
  set (o1 := gemv_func _ _ _ _ _ _ _ _ _ _).
  destruct (split2 intermediate_size (tensor o1)) as [x1 x3] eqn:E.
  rewrite Z.eqb_refl, orb_true_r. cbn. eexists. split; [done|].
  intros j h Hj Hh. unfold tensor at 1. apply lookup_total_correct. rewrite gemv_func_at by done. f_equal.
  assert (∀ i, 0 ≤ i < intermediate_size → mul (silu (x1 j i)) (x3 j i) = expert_hidden (idx 0 j) (x 0) i) as Hh13.
  { intros i Hi. destruct (split2_spec intermediate_size (tensor o1) j i Hi) as [E1 E3]. rewrite E in E1, E3. simpl in E1, E3.
    rewrite E1, E3. unfold tensor, expert_hidden. f_equal; [f_equal|];
      (apply lookup_total_correct; unfold o1; rewrite gemv_func_at by lia; done). }
  apply dot_ext. intros i Hi. unfold access_x.
  destruct (Z.eqb_spec experts_per_tok 1) as [E1|_]; [|by apply Hh13].
  assert (j = 0) as -> by lia. by apply Hh13.
Qed.

(** *** Several tokens *)

Hypothesis Hstore : cutlass_group_gemm store = false ∧ faster_transformer store = false.
Hypothesis Hctas : cta_order ≡ₚ range CTA_COUNT.
Hypothesis Hlocal : 0 < local_experts.

(** Rows grouped by expert. *)
Record grouped (rows : Z) (indptr expert_of : Z → Z) : Prop := {
  grouped_first : indptr 0 = 0;
  grouped_last : indptr local_experts = rows;
  grouped_mono e : 0 ≤ e < local_experts → indptr e ≤ indptr (e + 1);
  grouped_row p : 0 ≤ p < rows →
    0 ≤ expert_of p < local_experts ∧ indptr (expert_of p) ≤ p < indptr (expert_of p + 1);
}.

Lemma experts_forward_group m rows x indptr expert_of :
  grouped rows indptr expert_of → num_local_experts m = local_experts → 0 < out_features m →
  rows < 2 ^ 31 → rows * tiles_per_row (out_features m) + 2048 ≤ 2 ^ 31 →
  ∃ y, experts_forward m rows experts_per_tok x (PerGroup false indptr) = Ok y ∧
    ∀ p c, 0 ≤ p < rows → 0 ≤ c < out_features m →
      y p c = dot zero add mul (in_features m) (x p) (weight m (expert_of p) c).
Proof.
  intros [Hfst Hl Hm Hr] Hne Hout Hrows Hsmall. unfold experts_forward. destruct Hstore as [-> ->]. cbn.
  rewrite Hne. unfold group_gemm.
  pose proof (base_bound local_experts (out_features m) indptr Hout Hfst Hm local_experts) as Hbase. rewrite Hl in Hbase.
  destruct (run_ctas_spec zero zero (λ acc a b, add acc (mul a b)) id i32 local_experts (out_features m) (in_features m) x
    (weight m) indptr Hlocal Hout Hfst Hm ltac:(rewrite Hl; lia) (λ z Hz, i32_small z ltac:(lia))
    (enough_fuel local_experts (out_features m) indptr) cta_order (le_n _) Hctas) as (out & -> & _ & Hall).
  eexists. split; [done|]. intros p c Hp Hc. unfold tensor. apply lookup_total_correct.
  destruct (Hr p Hp) as [He Hs]. by apply (Hall (expert_of p)).
Qed.

Lemma expert_forward_group rows x indptr expert_of :
  grouped rows indptr expert_of → rows < 2 ^ 31 →
  rows * tiles_per_row (2 * intermediate_size) + 2048 ≤ 2 ^ 31 → rows * tiles_per_row hidden_size + 2048 ≤ 2 ^ 31 →
  ∃ y, _expert_forward rows x (PerGroup false indptr) = Ok y ∧
    ∀ p h, 0 ≤ p < rows → 0 ≤ h < hidden_size → y p h = expert_output (expert_of p) (x p) h.
Proof.
  intros Hg Hrows Hs1 Hs2. unfold _expert_forward.
  destruct (experts_forward_group e1_e3 rows x indptr expert_of Hg eq_refl) as (y1 & -> & Hy1); [simpl; lia|done|done|].
  cbn [mbind result_bind]. destruct (split2 intermediate_size y1) as [x1 x3] eqn:E.
  destruct (experts_forward_group e2 rows (λ i, λ j, mul (silu (x1 i j)) (x3 i j)) indptr expert_of Hg eq_refl)
    as (y2 & -> & Hy2); [simpl; lia|done|done|].
  exists y2. split; [done|]. intros p h Hp Hh. rewrite Hy2 by done. apply dot_ext. intros i Hi.
  destruct (split2_spec intermediate_size y1 p i Hi) as [E1 E3]. rewrite E in E1, E3. simpl in E1, E3.
  rewrite E1, E3, !Hy1 by (simpl; lia). done.
Qed.

Section tokens.
Context (num_tokens : Z) (x : Z → Z → A) (idx : Z → Z → Z).
Hypothesis Htokens : 0 < num_tokens.
Hypothesis Hrange : ∀ t j, 0 ≤ t < num_tokens → 0 ≤ j < experts_per_tok → 0 ≤ idx t j < local_experts.
Hypothesis Hdistinct : ∀ t j j', 0 ≤ t < num_tokens → 0 ≤ j < experts_per_tok → 0 ≤ j' < experts_per_tok →
  idx t j = idx t j' → j = j'.
Hypothesis Hexperts_small : local_experts * num_tokens < 2 ^ 31.
Hypothesis Hrows_small : num_tokens * experts_per_tok < 2 ^ 31.
Hypothesis Htiles1 : num_tokens * experts_per_tok * tiles_per_row (2 * intermediate_size) + 2048 ≤ 2 ^ 31.
Hypothesis Htiles2 : num_tokens * experts_per_tok * tiles_per_row hidden_size + 2048 ≤ 2 ^ 31.
Hypothesis Horder : indices_order num_tokens ≡ₚ indices_threads num_tokens experts_per_tok.

Abbreviation slots := (plan num_tokens experts_per_tok local_experts idx).
Abbreviation cs := (moe_cumsum num_tokens experts_per_tok idx).
Abbreviation indices := (get_indices num_tokens experts_per_tok idx (indices_order num_tokens) cs).

Lemma tokens_nonneg : 0 ≤ num_tokens.
Proof. lia. Qed.
Lemma slots_at p : 0 ≤ p < num_tokens * experts_per_tok → ∃ t j, slots !! Z.to_nat p = Some (t * experts_per_tok + j) ∧
  0 ≤ t < num_tokens ∧ 0 ≤ j < experts_per_tok ∧ indices.1 !! p = Some (t * experts_per_tok + j) ∧ indices.2 !! p = Some t ∧
  p = slot_position num_tokens experts_per_tok idx t (idx t j).
Proof.
  intros Hp. assert (is_Some (slots !! Z.to_nat p)) as [s Hs].
  { apply lookup_lt_is_Some_2. rewrite (plan_perm _ _ _ _ Hk Hrange), length_range. lia. }
  pose proof (plan_lookup _ _ _ _ tokens_nonneg Hk Hrange Hdistinct Hexperts_small Hrows_small _ _ Hs) as (t & j & -> & Ht & Hj & P).
  rewrite Z2Nat.id in P by lia. exists t, j.
  destruct (get_indices_at num_tokens experts_per_tok local_experts idx tokens_nonneg Hk Hrange Hdistinct Hexperts_small Hrows_small
    (indices_order num_tokens) t j Horder Ht Hj) as [E1 E2].
  rewrite <-P in E1, E2. split_and!; done || lia.
Qed.

Lemma routed_grouped :
  grouped (num_tokens * experts_per_tok) (get_indptr num_tokens cs false) (λ p, slot_expert experts_per_tok idx (indices.1 !!! p)).
Proof.
  assert (∀ e, 0 ≤ e ≤ local_experts →
    get_indptr num_tokens cs false e = sumZ (expert_count num_tokens experts_per_tok idx) e) as Hptr.
  { intros e He. apply (get_indptr_exclusive num_tokens experts_per_tok local_experts idx); try done; lia. }
  split.
  - done.
  - rewrite Hptr by lia. rewrite <-(plan_prefix_length num_tokens experts_per_tok local_experts idx tokens_nonneg Hk Hrange Hdistinct Hexperts_small Hrows_small local_experts).
    rewrite (plan_perm num_tokens experts_per_tok local_experts idx Hk Hrange), length_range. lia.
  - intros e He. rewrite !Hptr by lia. rewrite sumZ_S by lia.
    assert (0 ≤ expert_count num_tokens experts_per_tok idx e) by (apply mask_sum_bounds; lia). lia.
  - intros p Hp. destruct (slots_at p Hp) as (t & j & Hs & Ht & Hj & E1 & _ & _).
    rewrite (lookup_total_correct _ _ _ E1), slot_expert_at by done.
    assert (0 ≤ idx t j < local_experts) as He by by apply Hrange. split; [done|].
    rewrite !Hptr by lia. rewrite <-(Z2Nat.id p) by lia.
    apply (plan_slice num_tokens experts_per_tok local_experts idx tokens_nonneg Hk Hrange Hdistinct Hexperts_small Hrows_small _ _ (idx t j) Hs He).
    by apply slot_expert_at.
Qed.

Lemma routed_experts_spec : ∃ y,
  routed_experts num_tokens idx x = Ok y ∧
  ∀ t j h, 0 ≤ t < num_tokens → 0 ≤ j < experts_per_tok → 0 ≤ h < hidden_size →
    y (t * experts_per_tok + j) h = expert_output (idx t j) (x t) h.
Proof.
  unfold routed_experts, use_ft. destruct Hstore as [-> ->]. cbn [orb andb].
  pose proof slots_at as Hslots. pose proof routed_grouped as Hgrouped.
  destruct indices as [rev tok]. cbn [fst snd] in *.
  destruct (expert_forward_group _ (take_rows x (λ p, tok !!! p)) _ _ Hgrouped) as (y & Hy & Hrow); [done|done|done|].
  rewrite Hy. cbn [mbind result_bind]. eexists. split; [done|]. intros t j h Ht Hj Hh.
  set (p := slot_position num_tokens experts_per_tok idx t (idx t j)).
  pose proof (plan_position num_tokens experts_per_tok local_experts idx tokens_nonneg Hk Hrange Hdistinct Hexperts_small Hrows_small t j Ht Hj) as Hplan.
  fold p in Hplan.
  assert (0 ≤ p < num_tokens * experts_per_tok) as Hp.
  { split.
    - unfold p, slot_position. pose proof (Hrange t j Ht Hj). pose proof (count_sum_bounds num_tokens experts_per_tok idx tokens_nonneg (idx t j)).
      pose proof (mask_sum_bounds experts_per_tok idx (idx t j) t). lia.
    - apply lookup_lt_Some in Hplan. rewrite (plan_perm num_tokens experts_per_tok local_experts idx Hk Hrange), length_range in Hplan.
      lia. }
  destruct (Hslots p Hp) as (t' & j' & Hs & Ht' & Hj' & E1 & E2 & _). rewrite Hplan in Hs. injection Hs as Hs.
  assert (t' = t) as ->.
  { rewrite <-(slot_div experts_per_tok Hk t' j'), <-Hs by done. by apply slot_div. }
  assert (j' = j) as -> by lia.
  unfold tensor at 1. apply lookup_total_correct. rewrite <-(lookup_total_correct _ _ _ E1).
  rewrite (scatter_output_spec (num_tokens * experts_per_tok) hidden_size y (λ p, rev !!! p) p h).
  - rewrite Hrow, (lookup_total_correct _ _ _ E1), slot_expert_at by done. f_equal. unfold expert_output.
    apply dot_ext. intros i Hi. unfold expert_hidden. f_equal; [f_equal|]; apply dot_ext; intros i' Hi';
      by rewrite take_rows_spec, (lookup_total_correct _ _ _ E2).
  - intros p1 p2 Hp1 Hp2 Heq. destruct (Hslots p1 Hp1) as (t1 & j1 & S1 & _ & _ & R1 & _).
    destruct (Hslots p2 Hp2) as (t2 & j2 & S2 & _ & _ & R2 & _).
    rewrite (lookup_total_correct _ _ _ R1), (lookup_total_correct _ _ _ R2) in Heq. rewrite Heq in S1.
    apply Z2Nat.inj; [lia|lia|]. eapply NoDup_lookup; [apply (plan_NoDup num_tokens experts_per_tok local_experts idx)|exact S1|exact S2].
  - done.
  - done.
Qed.
End tokens.

(** *** The layer *)

Lemma token_expert_chosen x t j :
  (Z.to_nat experts_per_tok ≤ length (candidates local_experts (gate x t)))%nat → 0 ≤ j < experts_per_tok →
  chosen (Z.to_nat experts_per_tok) local_experts (gate x t) !! Z.to_nat j = Some (token_expert x t j).
Proof.
  intros Hc Hj. apply list_lookup_lookup_total_lt. rewrite chosen_length; lia.
Qed.

(** The kernel chooses the reference's experts and weights. *)
Lemma gating_spec num_tokens x t j :
  0 ≤ t < num_tokens → 0 ≤ j < experts_per_tok →
  (Z.to_nat experts_per_tok ≤ length (candidates local_experts (gate x t)))%nat →
  let out := gating_softmax_topk to_f32 of_f32 exp fsub fadd fdiv fmax softmax num_tokens local_experts (gate x) experts_per_tok true in
  tensor out.1 t j = token_weight x t j ∧ tensor out.2 t j = token_expert x t j.
Proof.
  intros Ht Hj Hc out. unfold out, gating_softmax_topk. clear out.
  pose proof (softmax_chosen to_f32 of_f32 exp fsub fadd fdiv fmax num_tokens local_experts (gate x) (Z.to_nat experts_per_tok)
    t (Z.to_nat j) (token_expert x t j) Ht Hc (token_expert_chosen x t j Hc Hj)) as [E2 E1].
  rewrite !Z2Nat.id in E1, E2 by lia. unfold tensor.
  by rewrite (lookup_total_correct _ _ _ E1), (lookup_total_correct _ _ _ E2).
Qed.
Lemma token_expert_range x t j :
  (Z.to_nat experts_per_tok ≤ length (candidates local_experts (gate x t)))%nat → 0 ≤ j < experts_per_tok →
  0 ≤ token_expert x t j < local_experts.
Proof.
  intros Hc Hj. pose proof (token_expert_chosen x t j Hc Hj) as Hin%list_elem_of_lookup_2.
  by apply chosen_candidate, candidates_elem in Hin as [? _].
Qed.
Lemma token_expert_distinct x t j j' :
  (Z.to_nat experts_per_tok ≤ length (candidates local_experts (gate x t)))%nat →
  0 ≤ j < experts_per_tok → 0 ≤ j' < experts_per_tok → token_expert x t j = token_expert x t j' → j = j'.
Proof.
  intros Hc Hj Hj' E. apply Z2Nat.inj; [lia|lia|].
  eapply NoDup_lookup; [apply (chosen_NoDup (Z.to_nat experts_per_tok) local_experts (gate x t))|by apply token_expert_chosen|].
  rewrite E. by apply token_expert_chosen.
Qed.

(** The sum over the experts of a token. *)
Lemma moe_sum_spec (f : Z → Z → Z → A) x t h :
  (∀ k g g', (∀ i, 0 ≤ i < k → g i = g' i) → op_sum k g = op_sum k g') →
  (∀ j, 0 ≤ j < experts_per_tok → f t j h = mul (expert_output (token_expert x t j) (x t) h) (token_weight x t j)) →
  moe_sum add op_sum experts_per_tok f t h = token_output x t h.
Proof.
  intros Hsum Hf. unfold moe_sum, token_output.
  destruct (Z.eqb_spec experts_per_tok 1) as [E|]; [by rewrite squeeze_spec, Hf by lia|].
  destruct (Z.eqb_spec experts_per_tok 2) as [E|]; [by rewrite !Hf by lia|]. by apply Hsum.
Qed.

(** C9. Without external libraries, whatever the order of the threads and thread blocks,
    the layer returns for every token the weighted sum of what its best experts compute
    for it alone, weighted by the softmax of their scores. *)
Theorem MixtralMoE_forward_spec batch_size seq_len x :
  let num_tokens := batch_size * seq_len in
  let tokens := merge_rows seq_len x in
  0 < batch_size → 0 < seq_len →
  (∀ t, 0 ≤ t < num_tokens → (Z.to_nat experts_per_tok ≤ length (candidates local_experts (gate tokens t)))%nat) →
  (∀ k g g', (∀ i, 0 ≤ i < k → g i = g' i) → op_sum k g = op_sum k g') →
  indices_order num_tokens ≡ₚ indices_threads num_tokens experts_per_tok →
  local_experts * num_tokens < 2 ^ 31 → num_tokens * experts_per_tok < 2 ^ 31 →
  num_tokens * experts_per_tok * tiles_per_row (2 * intermediate_size) + 2048 ≤ 2 ^ 31 →
  num_tokens * experts_per_tok * tiles_per_row hidden_size + 2048 ≤ 2 ^ 31 →
  ∃ y, forward batch_size seq_len x = Ok y ∧
    ∀ b s h, 0 ≤ b < batch_size → 0 ≤ s < seq_len → 0 ≤ h < hidden_size →
      y b s h = token_output tokens (b * seq_len + s) h.
Proof.
  intros num_tokens tokens Hb Hs Hc Hsum Hord H1 H2 H3 H4. unfold forward. fold num_tokens tokens.
  assert (0 < num_tokens) as Hn by (unfold num_tokens; nia).
  pose proof (λ t j Ht Hj, gating_spec num_tokens tokens t j Ht Hj (Hc t Ht)) as Hgate. cbv zeta in Hgate.
  destruct (gating_softmax_topk _ _ _ _ _ _ _ _ _ _ _ _ _) as [weights idx]. cbn [fst snd] in Hgate.
  set (routed := if num_tokens =? 1 then _ else _).
  assert (∃ y, routed = Ok y ∧ ∀ t j h, 0 ≤ t < num_tokens → 0 ≤ j < experts_per_tok → 0 ≤ h < hidden_size →
    y (t * experts_per_tok + j) h = expert_output (token_expert tokens t j) (tokens t) h) as (y & -> & Hy).
  { unfold routed. destruct (Z.eqb_spec num_tokens 1) as [E|_].
    - destruct (forward_per_token tokens (tensor idx)) as (y & Hrun & Hy). exists y. split; [exact Hrun|].
      intros t j h Ht Hj Hh. assert (t = 0) as -> by lia. rewrite Z.mul_0_l, Z.add_0_l, Hy by done.
      by rewrite (proj2 (Hgate 0 j Ht Hj)).
    - destruct (routed_experts_spec num_tokens tokens (tensor idx)) as (y & Hrun & Hy); try done.
      + intros t j Ht Hj. rewrite (proj2 (Hgate t j Ht Hj)). by apply token_expert_range; [apply Hc|].
      + intros t j j' Ht Hj Hj'. rewrite (proj2 (Hgate t j Ht Hj)), (proj2 (Hgate t j' Ht Hj')).
        by apply token_expert_distinct; [apply Hc| |].
      + exists y. split; [exact Hrun|]. intros t j h Ht Hj Hh. rewrite Hy by done. by rewrite (proj2 (Hgate t j Ht Hj)). }
  cbn [mbind result_bind]. eexists. split; [done|]. intros b s h Hb' Hs' Hh.
  assert (0 ≤ b * seq_len + s < num_tokens) as Ht by (unfold num_tokens; nia).
  rewrite split_rows_spec by lia. apply moe_sum_spec; [done|]. intros j Hj.
  rewrite split_rows_spec, Hy by lia. by rewrite (proj1 (Hgate _ j Ht Hj)).
Qed.
End layer.

(** With CUTLASS enabled, the product of 16-bit brain floats asserts the ends of the
    groups, but the layer passes their starts. *)
Lemma bfloat16_cutlass_fails `{scores_of : Scores A} `{Inhabited A} `{ops : RelaxOps} zero add mul silu
    store cutlass ft ctas experts_per_tok E hid int w13 w2 (indices_order : Z → list Z) n idx x :
  cutlass_group_gemm store = true →
  routed_experts (A := A) zero add mul silu store bfloat16 cutlass ft ctas E experts_per_tok hid int w13 w2 indices_order n idx x =
    raise AssertionError ""%string.
Proof.
  intros Hs. unfold routed_experts, use_ft. destruct (get_indices _ _ _ _ _) as [rev tok].
  unfold _expert_forward, experts_forward. rewrite Hs. by rewrite andb_false_r.
Qed.

(** ** Witness *)

Module Example.
(** Two tokens, three experts of which two are chosen, one channel. *)
Definition no_store : ExternModuleStore := enable "cuda" "sm_80" true true true.
Definition tokens (b s h : Z) : Z := 3 * s + 1.
Definition gate (x : Z → Z → Z) (t e : Z) : Z := if e =? t then 100 else x t 0 + e.
Definition kernel (N K : Z) (x : Z → Z → Z) (w : Z → Z → Z → Z) (indptr : Z → Z) : gmap (Z * Z) Z := ∅.
Definition run : result (Z → Z → Z → Z) :=
  forward 0 Z.add Z.mul Z.abs (λ k f, sumZ f k) id id id Z.sub Z.add Z.div Z.max (λ _ f, f)
    no_store float16 kernel kernel (range CTA_COUNT) 3 2 1 1 gate (λ e n k, e + n + 1) (λ e n k, 2 + e)
    (λ n, reverse (indices_threads n 2)) 1 2 tokens.
Lemma MixtralMoE_forward_spec_witness : ∃ y, run = Ok y ∧
  y 0 1 0 = token_output 0 Z.add Z.mul Z.abs (λ k f, sumZ f k) id id id Z.sub Z.add Z.div Z.max 3 2 1 1 gate
              (λ e n k, e + n + 1) (λ e n k, 2 + e) (merge_rows 2 tokens) 1 0.
Proof.
  destruct (MixtralMoE_forward_spec 0 Z.add Z.mul Z.abs (λ k f, sumZ f k) id id id Z.sub Z.add Z.div Z.max (λ _ f, f)
    no_store float16 kernel kernel (range CTA_COUNT) 3 2 1 1 gate (λ e n k, e + n + 1) (λ e n k, 2 + e)
    (λ n, reverse (indices_threads n 2)) ltac:(lia) ltac:(lia) ltac:(lia) (conj eq_refl eq_refl) (reflexivity _) ltac:(lia)
    1 2 tokens) as (y & Hrun & Hy).
  - lia.
  - lia.
  - intros t Ht. assert (t = 0 ∨ t = 1) as [-> | ->] by lia; vm_compute; lia.
  - intros k g g' Hg. by apply sumZ_ext.
  - apply reverse_Permutation.
  - lia.
  - lia.
  - vm_compute. discriminate.
  - vm_compute. discriminate.
  - exists y. split; [exact Hrun|]. apply (Hy 0 1 0); lia.
Defined.
End Example.
