(* ===== verification/SpecVerify.v ===== *)
(** Speculative decoding: the verification kernel of [python/mlc_llm/op/batch_spec_verify.py].

    A thread block walks down the tree of draft tokens of one request, accepting or
    rejecting each draft; a rejection replaces the model's distribution at the parent by
    the normalized excess over the draft's. Floats are exact rationals here: rounding is
    not modelled. The theorems: the walk ends, keeps every row a distribution, and the
    token chosen at a node has the model's distribution, up to the kernel's threshold. *)

From Stdlib Require Import Lia ZArith QArith Qminmax Qabs Lqa Bool.
From stdpp Require Import base list list_numbers numbers.
From S2P Require Import Prelude Kernel.
Close Scope Q_scope.
Open Scope Z_scope.

(** ** Sums of rationals *)

Definition sumQ (f : Z → Q) (n : Z) : Q := loop (range n) (λ i acc, (acc + f i)%Q) 0%Q.
Section sums.
Local Open Scope Q_scope.
Implicit Types f g : Z → Q.
Lemma sumQ_nonpos f n : (n <= 0)%Z → sumQ f n = 0.
Proof. intros Hn. unfold sumQ. by rewrite range_nonpos. Qed.
Lemma sumQ_S f n : (0 <= n)%Z → sumQ f (n + 1)%Z = sumQ f n + f n.
Proof. intros Hn. unfold sumQ. by rewrite range_S, loop_app by done. Qed.
Lemma sumQ_ext f g n : (∀ i, (0 <= i < n)%Z → f i == g i) → sumQ f n == sumQ g n.
Proof.
  induction n as [n Hn|n Hn IH] using range_ind; intros H; [by rewrite !sumQ_nonpos|].
  rewrite !sumQ_S by done. rewrite IH, H; [reflexivity|lia|]. intros i Hi. apply H. lia.
Qed.
Lemma sumQ_add f g n : sumQ (λ i, f i + g i) n == sumQ f n + sumQ g n.
Proof.
  induction n as [n Hn|n Hn IH] using range_ind; [rewrite !sumQ_nonpos by done; reflexivity|].
  rewrite !sumQ_S by done. rewrite IH. ring.
Qed.
Lemma sumQ_scale c f n : sumQ (λ i, c * f i) n == c * sumQ f n.
Proof.
  induction n as [n Hn|n Hn IH] using range_ind; [rewrite !sumQ_nonpos by done; ring|].
  rewrite !sumQ_S by done. rewrite IH. ring.
Qed.
Lemma sumQ_le f g n : (∀ i, (0 <= i < n)%Z → f i <= g i) → sumQ f n <= sumQ g n.
Proof.
  induction n as [n Hn|n Hn IH] using range_ind; intros H; [rewrite !sumQ_nonpos by done; apply Qle_refl|].
  rewrite !sumQ_S by done. apply Qplus_le_compat; [apply IH|apply H]; [|lia]. intros i Hi. apply H. lia.
Qed.
Lemma sumQ_zero n : sumQ (λ _, 0) n == 0.
Proof.
  induction n as [n Hn|n Hn IH] using range_ind; [by rewrite sumQ_nonpos|].
  rewrite sumQ_S by done. rewrite IH. ring.
Qed.
Lemma sumQ_nonneg f n : (∀ i, (0 <= i < n)%Z → 0 <= f i) → 0 <= sumQ f n.
Proof. intros H. rewrite <-(sumQ_zero n). by apply sumQ_le. Qed.
Lemma sumQ_app f m n : (0 <= m)%Z → (0 <= n)%Z → sumQ f (m + n)%Z == sumQ f m + sumQ (λ i, f (m + i)%Z) n.
Proof.
  intros Hm. induction n as [n Hn|n Hn IH] using range_ind; intros Hn'.
  - assert (n = 0)%Z as -> by lia. rewrite Z.add_0_r, (sumQ_nonpos (λ i, f (m + i)%Z)) by done. ring.
  - rewrite Z.add_assoc, !sumQ_S by lia. rewrite IH by done. ring.
Qed.
Lemma sumQ_blocks f q n : (0 <= n)%Z → sumQ f (q * n)%Z == sumQ (λ i, sumQ (λ j, f (i * n + j)%Z) n) q.
Proof.
  intros Hn. induction q as [q Hq|q Hq IH] using range_ind.
  - rewrite !sumQ_nonpos by nia. reflexivity.
  - rewrite sumQ_S by done. rewrite <-IH. replace ((q + 1) * n)%Z with (q * n + n)%Z by lia.
    rewrite sumQ_app by nia. reflexivity.
Qed.
Lemma sumQ_swap (f : Z → Z → Q) m n :
  sumQ (λ i, sumQ (f i) n) m == sumQ (λ j, sumQ (λ i, f i j) m) n.
Proof.
  induction m as [m Hm|m Hm IH] using range_ind.
  - rewrite (sumQ_nonpos _ m) by done. symmetry. rewrite (sumQ_ext _ (λ _, 0)); [apply sumQ_zero|].
    intros j _. by rewrite sumQ_nonpos.
  - rewrite sumQ_S by done. rewrite IH, <-sumQ_add. apply sumQ_ext. intros j _. by rewrite sumQ_S.
Qed.
(** A sum of which only the terms below [n] count. *)
Lemma sumQ_below f m n : (0 <= n <= m)%Z → sumQ (λ k, if (k <? n)%Z then f k else 0) m == sumQ f n.
Proof.
  intros H. replace m with (n + (m - n))%Z by lia. rewrite sumQ_app by lia.
  rewrite (sumQ_ext (λ k, if (k <? n)%Z then f k else 0) f n).
  2: { intros i Hi. rewrite (proj2 (Z.ltb_lt i n)) by lia. reflexivity. }
  assert (sumQ (λ i, if (n + i <? n)%Z then f (n + i)%Z else 0) (m - n)%Z == 0) as ->; [|ring].
  rewrite <-(sumQ_zero (m - n)). apply sumQ_ext. intros i Hi.
  rewrite (proj2 (Z.ltb_ge (n + i) n)) by lia. reflexivity.
Qed.
Lemma conditional_sum (P : Z → bool) f l a b : a == b →
  loop l (λ i acc, if P i then acc + f i else acc) a == loop l (λ i acc, acc + (if P i then f i else 0)) b.
Proof.
  revert a b. induction l as [|i l IH]; intros a b Hab; [done|]. rewrite !loop_cons. apply IH.
  destruct (P i); rewrite Hab; [reflexivity|ring].
Qed.
End sums.

(** ** The kernel *)

Section kernel.
Context (vocab_size : Z).
Definition TX : Z := 1024.
Definition threshold : Q := 1 # 10000000.

(** The excess of the model over the draft, the sum of a thread, and of the block. *)
Definition excess (p q : Z → Q) (k : Z) : Q := Qmax (p k - q k) 0.
Definition psum (p q : Z → Q) (tx : Z) : Q :=
  loop (range (ceildiv vocab_size TX)) (λ i acc,
    let k := i * TX + tx in if k <? vocab_size then (acc + excess p q k)%Q else acc) 0%Q.
Definition t0 (p q : Z → Q) : Q := sumQ (psum p q) TX.

Section tree.
Context (draft_probs : Z → Z → Q) (draft_tokens token_tree_first_child token_tree_next_sibling : Z → Z).
Context (uniform_samples : Z → Q).

(** The pointers of a thread block, and the distributions, which it updates in place. *)
Record walk := { parent_ptr : Z; child_ptr : Z; finished : bool; model_probs : Z → Z → Q }.
Definition move_to_child (s : walk) : walk :=
  {| parent_ptr := child_ptr s; child_ptr := token_tree_first_child (child_ptr s);
     finished := finished s; model_probs := model_probs s |}.
(** [p_child >= uniform_sample * q_child]. *)
Definition pred (s : walk) : bool :=
  let child_token := draft_tokens (child_ptr s) in
  Qle_bool (uniform_samples (child_ptr s) * draft_probs (child_ptr s) child_token)
           (model_probs s (parent_ptr s) child_token).
(** The new row at the parent: only the entries below [vocab_size] are written. *)
Definition residual (p q : Z → Q) (k : Z) : Q :=
  if (0 <=? k) && (k <? vocab_size) then (excess p q k / t0 p q)%Q else p k.
Definition renormalize (s : walk) : walk :=
  let p := model_probs s (parent_ptr s) in
  let q := draft_probs (child_ptr s) in
  {| parent_ptr := parent_ptr s; child_ptr := token_tree_next_sibling (child_ptr s); finished := finished s;
     model_probs := λ n, if n =? parent_ptr s then residual p q else model_probs s n |}.
Definition Qlt_bool (x y : Q) : bool := negb (Qle_bool y x).
Definition body (s : walk) : walk :=
  if child_ptr s =? -1 then
    {| parent_ptr := parent_ptr s; child_ptr := child_ptr s; finished := true; model_probs := model_probs s |}
  else if pred s then move_to_child s
  else if Qlt_bool (t0 (model_probs s (parent_ptr s)) (draft_probs (child_ptr s))) threshold then move_to_child s
  else renormalize s.
Fixpoint while (fuel : nat) (s : walk) : walk :=
  match fuel with
  | O => s
  | S fuel => if finished s then s else while fuel (body s)
  end.
Definition start (root : Z) (model_probs : Z → Z → Q) : walk :=
  {| parent_ptr := root; child_ptr := token_tree_first_child root; finished := false; model_probs := model_probs |}.

(** The whole grid: the blocks of the requests one after the other, and the new
    [token_tree_parent_ptr]. *)
Definition verify_one (fuel : nat) (b : Z) (st : (Z → Z) * (Z → Z → Q)) : (Z → Z) * (Z → Z → Q) :=
  let s := while fuel (start (st.1 b) st.2) in
  (λ b', if b' =? b then parent_ptr s else st.1 b', model_probs s).
Definition batch_spec_verify (fuel : nat) (nbatch : Z) (token_tree_parent_ptr : Z → Z) (model_probs : Z → Z → Q) :
    (Z → Z) * (Z → Z → Q) :=
  loop (range nbatch) (verify_one fuel) (token_tree_parent_ptr, model_probs).

(** ** Termination *)

(** Children and siblings come after their node. *)
Context (num_nodes : Z).
Hypothesis Hchild : ∀ n, 0 ≤ n < num_nodes → token_tree_first_child n = -1 ∨ n < token_tree_first_child n < num_nodes.
Hypothesis Hsibling : ∀ n, 0 ≤ n < num_nodes → token_tree_next_sibling n = -1 ∨ n < token_tree_next_sibling n < num_nodes.

Definition in_tree (s : walk) : Prop :=
  0 ≤ parent_ptr s < num_nodes ∧ (child_ptr s = -1 ∨ 0 ≤ child_ptr s < num_nodes).
Definition remaining (s : walk) : Z :=
  if finished s then 0 else if child_ptr s =? -1 then 1 else num_nodes - child_ptr s + 1.

(** The nodes the walk can reach from a root. *)
Inductive child_of (a : Z) : Z → Prop :=
  | first_child : token_tree_first_child a ≠ -1 → child_of a (token_tree_first_child a)
  | next_sibling c : child_of a c → token_tree_next_sibling c ≠ -1 → child_of a (token_tree_next_sibling c).
Inductive descendant (root : Z) : Z → Prop :=
  | at_root : descendant root root
  | of_child a c : descendant root a → child_of a c → descendant root c.
Definition on_path (root : Z) (s : walk) : Prop :=
  descendant root (parent_ptr s) ∧ (child_ptr s = -1 ∨ child_of (parent_ptr s) (child_ptr s)).
Lemma body_on_path root s : on_path root s → on_path root (body s).
Proof.
  intros [Hp Hc]. unfold body. destruct (Z.eqb_spec (child_ptr s) (-1)) as [E|E]; [by split|].
  destruct Hc as [|Hc]; [done|].
  assert (on_path root (move_to_child s)) as Hmove.
  { split; simpl; [by eapply of_child|].
    destruct (decide (token_tree_first_child (child_ptr s) = -1)); [by left|right; by constructor]. }
  destruct (pred s); [done|]. destruct (Qlt_bool _ _); [done|]. split; simpl; [done|].
  destruct (decide (token_tree_next_sibling (child_ptr s) = -1)); [by left|right; by constructor].
Qed.

Lemma body_in_tree s : in_tree s → in_tree (body s).
Proof.
  intros [Hp Hc]. unfold body. destruct (Z.eqb_spec (child_ptr s) (-1)) as [E|E]; [by split|].
  destruct Hc as [|Hc]; [done|]. pose proof (Hchild _ Hc). pose proof (Hsibling _ Hc).
  destruct (pred s); [split; simpl; lia|]. destruct (Qlt_bool _ _); split; simpl; lia.
Qed.
Lemma body_decreases s : in_tree s → finished s = false → 0 ≤ remaining (body s) < remaining s.
Proof.
  intros [Hp Hc] Hf. unfold remaining, body. rewrite Hf.
  destruct (Z.eqb_spec (child_ptr s) (-1)) as [E|E]; [simpl; lia|].
  destruct Hc as [|Hc]; [done|]. pose proof (Hchild _ Hc) as H1. pose proof (Hsibling _ Hc) as H2.
  destruct (pred s); [|destruct (Qlt_bool _ _)]; simpl; rewrite Hf;
    [destruct H1 as [->|?]|destruct H1 as [->|?]|destruct H2 as [->|?]]; simpl; repeat case_match; lia.
Qed.
Lemma while_finishes fuel s : in_tree s → remaining s ≤ Z.of_nat fuel →
  finished (while fuel s) = true ∧ in_tree (while fuel s).
Proof.
  revert s. induction fuel as [|fuel IH]; intros s Hs Hr; simpl.
  - split; [|done]. unfold remaining in Hr. destruct (finished s); [done|]. destruct Hs as [_ Hc].
    destruct (Z.eqb_spec (child_ptr s) (-1)); lia.
  - destruct (finished s) eqn:Hf; [done|]. pose proof (body_decreases s Hs Hf).
    apply IH; [by apply body_in_tree|lia].
Qed.

(** ** Distributions *)

Hypothesis Hvocab : 0 ≤ vocab_size.
Definition distribution (p : Z → Q) : Prop :=
  (∀ k, 0 ≤ k < vocab_size → (0 <= p k)%Q) ∧ (sumQ p vocab_size == 1)%Q.
Definition rows_ok (s : walk) : Prop := ∀ n, distribution (model_probs s n).
End tree.

Local Open Scope Q_scope.
Hypothesis Hvocab : (0 <= vocab_size)%Z.
Lemma excess_nonneg p q k : 0 <= excess p q k.
Proof. apply Q.le_max_r. Qed.
Lemma excess_le p q k : 0 <= p k → 0 <= q k → excess p q k <= p k.
Proof. intros Hp Hq. apply Q.max_lub; lra. Qed.
(** The block's sum is the sum over the vocabulary. *)
Lemma t0_sum p q : t0 p q == sumQ (excess p q) vocab_size.
Proof.
  unfold t0.
  assert (∀ tx, psum p q tx == sumQ (λ i, if (i * TX + tx <? vocab_size)%Z then excess p q (i * TX + tx)%Z else 0) (ceildiv vocab_size TX)) as Hpsum.
  { intros tx. apply conditional_sum. reflexivity. }
  etransitivity; [apply sumQ_ext; intros tx _; apply Hpsum|].
  etransitivity; [apply (sumQ_swap (λ tx i, if (i * TX + tx <? vocab_size)%Z then excess p q (i * TX + tx)%Z else 0))|].
  etransitivity; [symmetry; apply (sumQ_blocks (λ k, if (k <? vocab_size)%Z then excess p q k else 0) (ceildiv vocab_size TX) TX); done|].
  apply (sumQ_below (excess p q) (ceildiv vocab_size TX * TX) vocab_size).
  split; [done|]. by apply (ceildiv_spec vocab_size TX).
Qed.
#[local] Opaque t0 psum sumQ.
Lemma t0_bounds p q : distribution p → distribution q → 0 <= t0 p q <= 1.
Proof.
  intros [Hp Hp1] [Hq _]. rewrite t0_sum. split.
  - apply sumQ_nonneg. intros. apply excess_nonneg.
  - rewrite <-Hp1. apply sumQ_le. intros k Hk. apply excess_le; auto.
Qed.
Lemma small_false p q : Qlt_bool (t0 p q) threshold = false ↔ threshold <= t0 p q.
Proof. unfold Qlt_bool. rewrite negb_false_iff. apply Qle_bool_iff. Qed.
Lemma small_true p q : Qlt_bool (t0 p q) threshold = true ↔ t0 p q < threshold.
Proof.
  unfold Qlt_bool. rewrite negb_true_iff, <-not_true_iff_false, Qle_bool_iff. split; intros H; lra || (apply Qnot_le_lt; done).
Qed.
Lemma residual_at p q k : (0 <= k < vocab_size)%Z → residual p q k = excess p q k / t0 p q.
Proof. intros [H1 H2]. unfold residual. by rewrite (proj2 (Z.leb_le _ _) H1), (proj2 (Z.ltb_lt _ _) H2). Qed.
Lemma residual_distribution p q : threshold <= t0 p q → distribution (residual p q).
Proof.
  intros Ht. assert (0 < t0 p q) as Hpos by (unfold threshold in Ht; lra). split.
  - intros k Hk. rewrite residual_at by done. apply Qle_shift_div_l; [done|]. rewrite Qmult_0_l. apply excess_nonneg.
  - rewrite (sumQ_ext _ (λ k, / t0 p q * excess p q k)).
    + rewrite sumQ_scale, <-t0_sum. clear Ht. revert Hpos. generalize (t0 p q). intros r Hr. field. lra.
    + intros k Hk. rewrite residual_at by done. apply Qmult_comm.
Qed.

(** ** The law of the chosen token *)

(** What the block does with a draft token at one parent. *)
Definition accepts (p q : Z → Q) (token : Z) (u : Q) : bool :=
  Qle_bool (u * q token) (p token) || Qlt_bool (t0 p q) threshold.
(** For a uniform [u] of the unit interval, the probability of acceptance. *)
Definition accept_prob (p q : Z → Q) (token : Z) : Q :=
  if Qlt_bool (t0 p q) threshold then 1
  else if Qle_bool (q token) (p token) then 1 else p token / q token.
Lemma accept_prob_spec p q token u :
  0 <= p token → 0 < q token → 0 <= u <= 1 →
  0 <= accept_prob p q token <= 1 ∧ (accepts p q token u = true ↔ u <= accept_prob p q token).
Proof.
  intros Hp Hq Hu. unfold accepts, accept_prob. destruct (Qlt_bool (t0 p q) threshold).
  - rewrite orb_true_r. split; [lra|]. split; [lra|done].
  - rewrite orb_false_r, Qle_bool_iff. destruct (Qle_bool (q token) (p token)) eqn:E.
    + apply Qle_bool_iff in E. split; [lra|]. split; [lra|]. intros _. nra.
    + assert (p token < q token) as Hlt by (apply Qle_bool_false; done). split.
      * split; [apply Qle_shift_div_l; lra|apply Qle_shift_div_r; lra].
      * split; intros H.
        -- apply Qle_shift_div_l; [done|lra].
        -- assert (u * q token <= p token / q token * q token) as H' by (apply Qmult_le_compat_r; lra).
           assert (p token / q token * q token == p token) as E' by (field; lra). rewrite E' in H'. done.
Qed.

(** The distribution of the token chosen at a parent: each draft token is drawn from its
    draft distribution and accepted, or rejected for the next sibling; when there is none
    left, the token is sampled from the row that remains. *)
Fixpoint law (p : Z → Q) (drafts : list (Z → Q)) (v : Z) : Q :=
  match drafts with
  | [] => p v
  | q :: drafts =>
      q v * accept_prob p q v +
      (1 - sumQ (λ x, q x * accept_prob p q x) vocab_size) * law (residual p q) drafts v
  end.
(** No draft is accepted because of the threshold. *)
Fixpoint above_threshold (p : Z → Q) (drafts : list (Z → Q)) : Prop :=
  match drafts with
  | [] => True
  | q :: drafts => threshold <= t0 p q ∧ above_threshold (residual p q) drafts
  end.

Lemma accepted_mass p q k : threshold <= t0 p q → 0 <= p k → 0 <= q k →
  q k * accept_prob p q k == p k - excess p q k.
Proof.
  intros Ht Hp Hq. unfold accept_prob. rewrite (proj2 (small_false p q) Ht). unfold excess.
  destruct (Qle_bool (q k) (p k)) eqn:E.
  - apply Qle_bool_iff in E. rewrite Q.max_l by lra. ring.
  - apply Qle_bool_false in E. rewrite Q.max_r by lra. rewrite Qmult_div_r by lra. ring.
Qed.
Lemma rejected_mass p q : distribution p → distribution q → threshold <= t0 p q →
  1 - sumQ (λ x, q x * accept_prob p q x) vocab_size == t0 p q.
Proof.
  intros [Hp Hp1] [Hq _] Ht.
  rewrite (sumQ_ext _ (λ k, p k + -1 * excess p q k)).
  - rewrite (sumQ_add p), (sumQ_scale (-1) (excess p q)), <-(t0_sum p q), Hp1. generalize (t0 p q). intros r. ring.
  - intros k Hk. rewrite accepted_mass by auto. generalize (excess p q k). intros r. ring.
Qed.
Lemma accepted_all p q : distribution q → t0 p q < threshold →
  (∀ k, q k * accept_prob p q k == q k) ∧ 1 - sumQ (λ x, q x * accept_prob p q x) vocab_size == 0.
Proof.
  intros [_ Hq] Ht. assert (∀ k, q k * accept_prob p q k == q k) as H.
  { intros k. unfold accept_prob. rewrite (proj2 (small_true p q) Ht). ring. }
  split; [done|]. rewrite (sumQ_ext _ q) by auto. rewrite Hq. ring.
Qed.

(** The distance of two distributions, as sums of absolute differences. *)
Definition distance (p q : Z → Q) : Q := sumQ (λ k, Qabs (p k - q k)) vocab_size.
Lemma distance_excess p q : distribution p → distribution q → distance q p == 2 * t0 p q.
Proof.
  intros [Hp Hp1] [Hq Hq1]. unfold distance.
  rewrite (sumQ_ext _ (λ k, 2 * excess p q k + (q k + -1 * p k))).
  - rewrite !sumQ_add, !sumQ_scale, <-t0_sum, Hp1, Hq1. generalize (t0 p q). intros r. ring.
  - intros k _. unfold excess. destruct (Qlt_le_dec (p k - q k) 0) as [H|H].
    + rewrite Q.max_r, Qabs_pos by lra. ring.
    + rewrite Q.max_l by lra. rewrite Qabs_neg by lra. ring.
Qed.
Lemma law_step p q drafts v :
  distribution p → distribution q → threshold <= t0 p q → (0 <= v < vocab_size)%Z →
  law p (q :: drafts) v - p v == t0 p q * (law (residual p q) drafts v - residual p q v).
Proof.
  intros Hp Hq Ht Hv. cbn [law]. rewrite (rejected_mass p q) by done.
  rewrite (accepted_mass p q v Ht) by (apply Hp || apply Hq; done). rewrite (residual_at p q v Hv).
  assert (t0 p q * (excess p q v / t0 p q) == excess p q v) as E.
  { apply Qmult_div_r. unfold threshold in Ht. lra. }
  revert E. generalize (law (residual p q) drafts v) as l. generalize (excess p q v / t0 p q) as r.
  generalize (t0 p q) as t. generalize (excess p q v) as e. intros e t r l E.
  assert (t * (l - r) == t * l - t * r) as -> by ring. rewrite E. ring.
Qed.

Lemma law_close p drafts :
  distribution p → Forall distribution drafts →
  distance (law p drafts) p <= 2 * threshold ∧
  (above_threshold p drafts → ∀ v, (0 <= v < vocab_size)%Z → law p drafts v == p v).
Proof.
  intros Hp Hd. revert p Hp. induction Hd as [|q drafts Hq Hd IH]; intros p Hp.
  - split; [|done]. unfold distance. cbn [law]. rewrite (sumQ_ext _ (λ _, 0)).
    + rewrite sumQ_zero. unfold threshold. lra.
    + intros k _. assert (p k - p k == 0) as -> by ring. done.
  - destruct (Qlt_le_dec (t0 p q) threshold) as [Hsmall|Hlarge].
    + destruct (accepted_all p q Hq Hsmall) as [Hall Hrest]. split.
      * assert (distance (law p (q :: drafts)) p == distance q p) as ->.
        { apply sumQ_ext. intros k _. cbn [law]. rewrite Hrest, Hall.
          generalize (law (residual p q) drafts k) as l. intros l. assert (q k + 0 * l - p k == q k - p k) as -> by ring. done. }
        rewrite distance_excess by done. lra.
      * intros [Ht _]. lra.
    + destruct (IH (residual p q)) as [IH1 IH2]; [by apply residual_distribution|].
      destruct (t0_bounds p q Hp Hq) as [Ht0 Ht1]. split.
      * assert (distance (law p (q :: drafts)) p == t0 p q * distance (law (residual p q) drafts) (residual p q)) as ->.
        { unfold distance. rewrite <-sumQ_scale. apply sumQ_ext. intros k Hk.
          rewrite law_step by done. rewrite Qabs_Qmult, (Qabs_pos (t0 p q)) by done. reflexivity. }
        assert (0 <= distance (law (residual p q) drafts) (residual p q)) as H0 by (apply sumQ_nonneg; intros; apply Qabs_nonneg).
        revert Ht0 Ht1 IH1 H0. generalize (t0 p q) as t. generalize (distance (law (residual p q) drafts) (residual p q)) as d.
        intros d t. unfold threshold. nra.
      * intros [_ Habove] v Hv. pose proof (law_step p q drafts v Hp Hq Hlarge Hv) as E.
        rewrite (IH2 Habove v Hv) in E. revert E. generalize (law p (q :: drafts) v) as l. generalize (residual p q v) as r.
        generalize (t0 p q) as t. intros t r l E. assert (t * (r - r) == 0) as E' by ring. rewrite E' in E. lra.
Qed.
End kernel.

(** ** The walk *)

Section walk.
Context (vocab_size : Z) (draft_probs : Z → Z → Q) (draft_tokens token_tree_first_child token_tree_next_sibling : Z → Z).
Context (uniform_samples : Z → Q) (num_nodes : Z).
Hypothesis Hvocab : 0 ≤ vocab_size.
Hypothesis Hchild : ∀ n, 0 ≤ n < num_nodes → token_tree_first_child n = -1 ∨ n < token_tree_first_child n < num_nodes.
Hypothesis Hsibling : ∀ n, 0 ≤ n < num_nodes → token_tree_next_sibling n = -1 ∨ n < token_tree_next_sibling n < num_nodes.
Abbreviation step := (body vocab_size draft_probs draft_tokens token_tree_first_child token_tree_next_sibling uniform_samples).
Abbreviation walk_from := (while vocab_size draft_probs draft_tokens token_tree_first_child token_tree_next_sibling uniform_samples).
Abbreviation below := (descendant token_tree_first_child token_tree_next_sibling).
Abbreviation dist := (distribution vocab_size).

Lemma step_accepts s :
  child_ptr s ≠ -1 →
  step s = if accepts vocab_size (model_probs s (parent_ptr s)) (draft_probs (child_ptr s)) (draft_tokens (child_ptr s))
                (uniform_samples (child_ptr s))
           then move_to_child token_tree_first_child s
           else renormalize vocab_size draft_probs token_tree_next_sibling s.
Proof.
  intros Hc. unfold body, accepts, pred. rewrite (proj2 (Z.eqb_neq _ _) Hc).
  destruct (Qle_bool _ _); cbn [orb]; reflexivity.
Qed.

(** What the walk keeps: it stays below the root, stops without a child, keeps every row a
    distribution and the rows of other trees as they are. *)
Record keeps (root : Z) (before : Z → Z → Q) (s : walk) : Prop := {
  keeps_path : on_path token_tree_first_child token_tree_next_sibling root s;
  keeps_end : finished s = true → child_ptr s = -1;
  keeps_rows n : dist (model_probs s n);
  keeps_others n : ¬ below root n → model_probs s n = before n;
}.
Lemma step_keeps root before s : finished s = false → keeps root before s → keeps root before (step s).
Proof.
  intros Hf [Hpath _ Hrows Hothers].
  pose proof (body_on_path vocab_size draft_probs draft_tokens token_tree_first_child token_tree_next_sibling uniform_samples root s Hpath) as Hpath'.
  destruct (Z.eq_dec (child_ptr s) (-1)) as [Hc|Hc].
  - unfold body in *. rewrite (proj2 (Z.eqb_eq _ _) Hc) in *. by split.
  - rewrite step_accepts in * by done. destruct (accepts _ _ _ _ _) eqn:E.
    + split; simpl; [done|by rewrite Hf|done|done].
    + split; simpl; [done|by rewrite Hf| |].
      * intros n. destruct (n =? parent_ptr s); [|done]. apply residual_distribution; [done|].
        unfold accepts in E. apply orb_false_iff in E as [_ E]. by apply small_false.
      * intros n Hn. destruct (Z.eqb_spec n (parent_ptr s)) as [->|]; [|by apply Hothers].
        destruct Hpath as [Hp _]. done.
Qed.
Lemma walk_keeps fuel root before s : keeps root before s → keeps root before (walk_from fuel s).
Proof.
  revert s. induction fuel as [|fuel IH]; intros s Hs; simpl; [done|].
  destruct (finished s) eqn:Hf; [done|]. apply IH. by apply step_keeps.
Qed.

(** C23. The walk of a tree ends at a descendant of its root, of which every draft child
    was rejected, with distributions in every row, and without touching other trees. *)
Theorem verification_walk fuel root probs :
  0 ≤ root < num_nodes → (∀ n, dist (probs n)) → num_nodes + 1 ≤ Z.of_nat fuel →
  let s := walk_from fuel (start token_tree_first_child root probs) in
  finished s = true ∧ child_ptr s = -1 ∧ below root (parent_ptr s) ∧
  (∀ n, dist (model_probs s n)) ∧ ∀ n, ¬ below root n → model_probs s n = probs n.
Proof.
  intros Hroot Hrows Hfuel s.
  destruct (while_finishes vocab_size draft_probs draft_tokens token_tree_first_child token_tree_next_sibling uniform_samples
    num_nodes Hchild Hsibling fuel (start token_tree_first_child root probs)) as [Hf _].
  - split; [done|]. simpl. destruct (Hchild root Hroot); [by left|right; lia].
  - unfold remaining. simpl. case_match; [lia|]. destruct (Hchild root Hroot); lia.
  - assert (keeps root probs s) as [[Hp _] Hend Hr Ho].
    { apply walk_keeps. split; [|done|done|done]. split; simpl; [apply at_root|].
      destruct (decide (token_tree_first_child root = -1)); [by left|right; by constructor]. }
    split_and!; auto.
Qed.

(** C12. At a child that the draft can draw, the walk accepts with the probability of
    speculative sampling; and so the token chosen among the drafts of a node, or from
    the remaining row, has the model's distribution: exactly, when no draft is accepted
    because of the threshold, and always up to twice the threshold. *)
Theorem speculative_sampling p drafts :
  dist p → Forall dist drafts →
  (∀ s, let q := draft_probs (child_ptr s) in
     let token := draft_tokens (child_ptr s) in
     child_ptr s ≠ -1 → model_probs s (parent_ptr s) = p → (0 <= p token)%Q → (0 < q token)%Q →
     (0 <= uniform_samples (child_ptr s) <= 1)%Q →
     ((uniform_samples (child_ptr s) <= accept_prob vocab_size p q token)%Q →
        step s = move_to_child token_tree_first_child s) ∧
     ((accept_prob vocab_size p q token < uniform_samples (child_ptr s))%Q →
        step s = renormalize vocab_size draft_probs token_tree_next_sibling s)) ∧
  (distance vocab_size (law vocab_size p drafts) p <= 2 * threshold)%Q ∧
  (above_threshold vocab_size p drafts → ∀ v, 0 ≤ v < vocab_size → law vocab_size p drafts v == p v)%Q.
Proof.
  intros Hp Hd. split; [|by apply law_close].
  intros s q token Hc Hrow Hpt Hqt Hu. rewrite step_accepts by done. rewrite Hrow. fold q token.
  destruct (accept_prob_spec vocab_size p q token _ Hpt Hqt Hu) as [_ Hiff].
  destruct (accepts _ _ _ _ _); split; intros H; try done.
  - exfalso. apply (Qlt_not_le _ _ H). by apply Hiff.
  - exfalso. apply Hiff in H. done.
Qed.
End walk.

(** ** Witnesses *)

Module Example.
(** Two tokens; the root 0 has the children 1 and 2. *)
Definition first_child (n : Z) : Z := if n =? 0 then 1 else -1.
Definition next_sibling (n : Z) : Z := if n =? 1 then 2 else -1.
Definition half (k : Z) : Q := 1 # 2.
Definition sure (k : Z) : Q := if k =? 0 then 1%Q else 0%Q.
Lemma half_distribution : distribution 2 half.
Proof. split; [intros k _; unfold half; lra|vm_compute; reflexivity]. Qed.
Lemma sure_distribution : distribution 2 sure.
Proof. split; [intros k _; unfold sure; destruct (k =? 0); lra|vm_compute; reflexivity]. Qed.
Lemma verification_walk_witness :
  finished (while 2 (λ _, sure) (λ _, 0) first_child next_sibling (λ _, 1%Q) 4 (start first_child 0 (λ _, half))) = true.
Proof.
  apply (verification_walk 2 (λ _, sure) (λ _, 0) first_child next_sibling (λ _, 1%Q) 3 ltac:(lia)
    ltac:(intros n Hn; unfold first_child; destruct (Z.eqb_spec n 0); lia)
    ltac:(intros n Hn; unfold next_sibling; destruct (Z.eqb_spec n 1); lia) 4 0 (λ _, half)).
  - lia.
  - intros _. apply half_distribution.
  - lia.
Defined.
Lemma speculative_sampling_witness : (law 2 half [sure] 0 == half 0)%Q.
Proof.
  destruct (speculative_sampling 2 (λ _, sure) (λ _, 0) first_child next_sibling (λ _, 1%Q) ltac:(lia) half [sure]
    half_distribution ltac:(constructor; [apply sure_distribution|constructor])) as (_ & _ & H).
  apply H; [|lia]. split; [|done]. vm_compute. discriminate.
Defined.
End Example.
