(* ===== verification/TopP.v ===== *)
(** Top-p sampling: the kernels of [python/mlc_llm/op/top_p_pivot.py].

    A thread block searches the pivot of one probability vector: it sums the elements above each of [pN] candidate
    pivots, and takes one that is valid, or narrows the interval the candidates are spread in. A second kernel divides
    the elements above the pivot by their sum. Floats are exact rationals here: rounding is not modelled. *)

From Stdlib Require Import Lia ZArith QArith Qminmax Qround Lqa Bool.
From stdpp Require Import base gmap list list_numbers numbers.
From S2P Require Import Prelude Kernel SpecVerify.
Close Scope Q_scope.
#[local] Open Scope Z_scope.

(** ** The search of the pivot *)

Section kernel.
Context (TX pN N : Z) (prob : Z → Q) (top_p max_value : Q) (init_pivots : Z → Q).
Definition K : Z := 32.
Definition eps_LR : Q := 1 # 10000000.

(** The local variables of a thread, per candidate. *)
Record scanned := { total_sum : Q; lsum : Z → Q; lmin : Z → Q; cmin : Z → Z }.
Definition zero : scanned := {| total_sum := 0; lsum := λ _, 0%Q; lmin := λ _, max_value; cmin := λ _, 0 |}.
Definition visit (pivot : Z → Q) (q : Q) (s : scanned) : scanned := {|
  total_sum := total_sum s + q;
  lsum := λ p, if Qle_bool (pivot p) q then (lsum s p + q)%Q else lsum s p;
  lmin := λ p, if Qle_bool (pivot p) q && Qlt_bool q (lmin s p) then q else lmin s p;
  cmin := λ p, if Qle_bool (pivot p) q then
                 if Qlt_bool q (lmin s p) then 1 else if Qeq_bool (lmin s p) q then cmin s p + 1 else cmin s p
               else cmin s p |}.
Definition element (idx : Z) : Q := if idx <? N then prob idx else 0%Q.
(** Every [K] rounds: stop when what is left is below every candidate. *)
Definition early_stop (pivot : Z → Q) (s : Z → scanned) : bool :=
  Qlt_bool (1 - sumQ (λ tx, total_sum (s tx)) TX) (pivot (pN - 1)).
(** The rounds of the block, [n] at most; the threads run in lockstep. *)
Fixpoint scan_loop (pivot : Z → Q) (n : nat) (it : Z) (s : Z → scanned) : Z → scanned :=
  match n with
  | O => s
  | S n =>
      let s := λ tx, visit pivot (element (it * TX + tx)) (s tx) in
      let it := it + 1 in
      if (it mod K =? 0) && early_stop pivot s then s else scan_loop pivot n it s
  end.
Definition scan (pivot : Z → Q) : Z → scanned := scan_loop pivot (Z.to_nat (ceildiv N TX)) 0 (λ _, zero).

(** The reductions over the threads. *)
Definition lsum_reduce (s : Z → scanned) (p : Z) : Q := sumQ (λ tx, lsum (s tx) p) TX.
Definition lmin_reduce (s : Z → scanned) (p : Z) : Q :=
  loop (range (TX - 1)) (λ i m, Qmin m (lmin (s (i + 1)) p)) (lmin (s 0) p).
Definition cmin_reduce (s : Z → scanned) (p : Z) : Z :=
  sumZ (λ tx, if Qlt_bool (lmin_reduce s p) (lmin (s tx) p) then 0 else cmin (s tx) p) TX.

Definition valid (lsum lmin : Q) (cmin : Z) : bool := Qle_bool top_p lsum && Qlt_bool (lsum - inject_Z cmin * lmin) top_p.
(** The shared variables; the results are [None] until they are written. *)
Record search := { L : Q; R : Q; find_pivot : bool; final_pivot : option Q; final_lsum : option Q }.
(** The leader thread, for one candidate. *)
Definition check (s : Z → scanned) (pivot : Z → Q) (p : Z) (st : search) : search :=
  if find_pivot st then st
  else
    let l := lsum_reduce s p in let m := lmin_reduce s p in let c := cmin_reduce s p in
    if valid l m c then
      {| L := L st; R := R st; find_pivot := true; final_pivot := Some (pivot p); final_lsum := Some l |}
    else if Qle_bool top_p (l - m * inject_Z c) then
      {| L := L st; R := pivot p; find_pivot := false; final_pivot := final_pivot st; final_lsum := Some l |}
    else if Qlt_bool l top_p then
      {| L := pivot p; R := R st; find_pivot := false; final_pivot := final_pivot st; final_lsum := final_lsum st |}
    else st.
Definition update (s : Z → scanned) (pivot : Z → Q) (st : search) : search := loop (range pN) (check s pivot) st.
Definition spread (st : search) (p : Z) : Q := (L st - inject_Z (p + 1) * (L st - R st) / inject_Z (pN + 1))%Q.
(** The loop; [last] is [lsum[pN - 1]]. [None] when the fuel is not enough. *)
Fixpoint iterate (fuel : nat) (st : search) (pivot : Z → Q) (last : Q) : option (search * Q) :=
  if Qlt_bool eps_LR (L st - R st) && negb (find_pivot st) then
    match fuel with
    | O => None
    | S fuel =>
        let s := scan pivot in
        let st := update s pivot st in
        iterate fuel st (spread st) (lsum_reduce s (pN - 1))
    end
  else Some (st, last).
(** The pivot and the sum a block writes. *)
Definition top_p_pivot (fuel : nat) : option (option Q * option Q) :=
  let st := {| L := 1 - top_p; R := eps_LR; find_pivot := false; final_pivot := None; final_lsum := None |} in
  if Qle_bool (L st - R st) eps_LR then Some (Some 0%Q, Some 1%Q)
  else match iterate fuel st init_pivots 0 with
       | None => None
       | Some (st, last) =>
           Some (if find_pivot st then (final_pivot st, final_lsum st)
                 else (Some (R st), if Qeq_bool (R st) eps_LR then Some last else final_lsum st))
       end.
End kernel.

(** ** The renormalization *)

Section renorm.
Context (TX B N : Z) (prob : Z → Z → Q) (final_pivot final_lsum : Z → Q).
Definition CTA_COUNT : Z := 512.
Definition BX : Z := ceildiv CTA_COUNT B.
(** The places a thread writes, and all of them, block by block. *)
Definition indices (bx tx : Z) : list Z :=
  filter (λ idx, idx < N) ((λ i, i * BX * TX + bx * TX + tx) <$> range (ceildiv N (BX * TX))).
Definition places : list (Z * Z) :=
  range B ≫= λ by_, range BX ≫= λ bx, range TX ≫= λ tx, pair by_ <$> indices bx tx.
Definition renormed (p : Z * Z) : Q :=
  if Qle_bool (final_pivot p.1) (prob p.1 p.2) then (prob p.1 p.2 / final_lsum p.1)%Q else 0%Q.
Definition top_p_renorm (renorm_prob : gmap (Z * Z) Q) : gmap (Z * Z) Q := store_all places id renormed renorm_prob.
End renorm.

(** ** One scan *)

#[local] Open Scope Q_scope.
Lemma Qlt_bool_iff x y : Qlt_bool x y = true ↔ x < y.
Proof. unfold Qlt_bool. rewrite negb_true_iff, <-not_true_iff_false, Qle_bool_iff. split; [apply Qnot_le_lt|apply Qlt_not_le]. Qed.
Lemma Qlt_bool_false x y : Qlt_bool x y = false ↔ y <= x.
Proof. unfold Qlt_bool. rewrite negb_false_iff. apply Qle_bool_iff. Qed.
Lemma Qle_bool_lt x y : Qle_bool x y = false ↔ y < x.
Proof. rewrite <-not_true_iff_false, Qle_bool_iff. split; [apply Qnot_le_lt|apply Qlt_not_le]. Qed.
Lemma Qeq_bool_false x y : Qeq_bool x y = false ↔ ¬ x == y.
Proof. rewrite <-not_true_iff_false. by rewrite Qeq_bool_iff. Qed.
(** Case analysis on the comparisons of a goal. *)
Ltac q_case :=
  match goal with
  | |- context [Qle_bool ?x ?y] =>
      let E := fresh "E" in destruct (Qle_bool x y) eqn:E; [apply Qle_bool_iff in E|apply Qle_bool_lt in E]
  | |- context [Qlt_bool ?x ?y] =>
      let E := fresh "E" in destruct (Qlt_bool x y) eqn:E; [apply Qlt_bool_iff in E|apply Qlt_bool_false in E]
  | |- context [Qeq_bool ?x ?y] =>
      let E := fresh "E" in destruct (Qeq_bool x y) eqn:E; [apply Qeq_bool_iff in E|apply Qeq_bool_false in E]
  end; cbn [andb orb negb].

Lemma sumQ_upto f m n : (0 <= m <= n)%Z → (∀ i, (m <= i < n)%Z → f i == 0) → sumQ f n == sumQ f m.
Proof.
  intros Hm Hz. replace n with (m + (n - m))%Z by lia. rewrite sumQ_app by lia.
  rewrite (sumQ_ext (λ i, f (m + i)%Z) (λ _, 0)), sumQ_zero; [ring|]. intros i Hi. apply Hz. lia.
Qed.
Lemma sumQ_part f n i : (∀ j, (0 <= j < n)%Z → 0 <= f j) → (0 <= i < n)%Z → f i <= sumQ f n.
Proof.
  intros Hf Hi. replace n with ((i + 1) + (n - i - 1))%Z by lia. rewrite sumQ_app, sumQ_S by lia.
  assert (0 <= sumQ f i) by (apply sumQ_nonneg; intros j Hj; apply Hf; lia).
  assert (0 <= sumQ (λ j, f (i + 1 + j)%Z) (n - i - 1)) by (apply sumQ_nonneg; intros j Hj; apply Hf; lia). lra.
Qed.

(** What a scan has counted of the elements [f 0], ..., [f (n - 1)] above [x]. *)
Record counted (max_value x : Q) (f : Z → Q) (n : Z) (l m : Q) (c : Z) : Prop := {
  co_sum : l == sumQ (λ i, if Qle_bool x (f i) then f i else 0) n;
  co_lower : ∀ i, (0 <= i < n)%Z → x <= f i → m <= f i;
  co_attained : m == max_value ∨ ∃ i, (0 <= i < n)%Z ∧ x <= f i ∧ m == f i;
  co_count : c = sumZ (λ i, if Qle_bool x (f i) && Qeq_bool (f i) m then 1 else 0)%Z n;
}.
Lemma counted_visit max_value pivot p f n s :
  (0 <= n)%Z → counted max_value (pivot p) f n (lsum s p) (lmin s p) (cmin s p) →
  let s' := visit pivot (f n) s in counted max_value (pivot p) f (n + 1) (lsum s' p) (lmin s' p) (cmin s' p).
Proof.
  intros Hn [Hs Hl Ha Hc] s'. subst s'. cbn [visit lsum lmin cmin].
  assert (∀ i, (0 <= i < n + 1)%Z ↔ (0 <= i < n)%Z ∨ i = n) as Hi by lia.
  split.
  - rewrite sumQ_S by done. q_case; rewrite Hs; [reflexivity|ring].
  - intros i [Hi'| ->]%Hi Hx; repeat q_case; try (specialize (Hl i Hi' Hx)); lra.
  - assert (lmin s p == max_value ∨ ∃ i, (0 <= i < n + 1)%Z ∧ pivot p <= f i ∧ lmin s p == f i) as Hold.
    { destruct Ha as [Ha|(i & Hi' & Hx & Ha)]; [by left|right]. exists i. split; [lia|done]. }
    repeat q_case; try done. right. exists n. split; [lia|]. split; [done|reflexivity].
  - rewrite sumZ_S by done. destruct (Qle_bool (pivot p) (f n)) eqn:Ex; cbn [andb]; [|rewrite Hc; lia].
    apply Qle_bool_iff in Ex. destruct (Qlt_bool (f n) (lmin s p)) eqn:Elt.
    + apply Qlt_bool_iff in Elt. rewrite (proj2 (Qeq_bool_iff _ _) (Qeq_refl _)).
      rewrite (sumZ_ext _ (λ _, 0%Z)), sumZ_const by done || (intros i Hi'; q_case; [|done]; q_case; [specialize (Hl i Hi' E); lra|done]). lia.
    + rewrite Hc. destruct (Qeq_bool (lmin s p) (f n)) eqn:Eeq.
      * apply Qeq_bool_iff in Eeq. rewrite (proj2 (Qeq_bool_iff _ _) (Qeq_sym _ _ Eeq)). lia.
      * apply Qeq_bool_false in Eeq. q_case; [by destruct Eeq; symmetry|lia].
Qed.
Lemma sumZ_swap (f : Z → Z → Z) m n : sumZ (λ i, sumZ (f i) n) m = sumZ (λ j, sumZ (λ i, f i j) m) n.
Proof.
  induction m as [m Hm|m Hm IH] using range_ind.
  - rewrite (sumZ_nonpos _ m) by done. induction n as [n Hn|n Hn IHn] using range_ind; [by rewrite sumZ_nonpos|].
    by rewrite sumZ_S, <-IHn, sumZ_nonpos by done.
  - rewrite sumZ_S by done. rewrite IH. clear IH. induction n as [n Hn|n Hn IHn] using range_ind; [by rewrite !sumZ_nonpos by done|].
    rewrite !sumZ_S by done. rewrite <-IHn. lia.
Qed.

Section scan.
Context (TX pN N : Z) (prob : Z → Q) (top_p max_value : Q).
Hypothesis HTX : (0 < TX)%Z.
Abbreviation element := (element N prob).
Abbreviation scan := (scan TX pN N prob max_value).
Abbreviation lsum_reduce := (lsum_reduce TX).
Abbreviation lmin_reduce := (lmin_reduce TX).
Abbreviation cmin_reduce := (cmin_reduce TX).
(** The element thread [tx] sees in round [i]. *)
Definition seen (tx i : Z) : Q := element (i * TX + tx)%Z.
Record block_ok (pivot : Z → Q) (it : Z) (s : Z → scanned) : Prop := {
  bo_total : ∀ tx, (0 <= tx < TX)%Z → total_sum (s tx) == sumQ (seen tx) it;
  bo_counted : ∀ tx p, (0 <= tx < TX)%Z → counted max_value (pivot p) (seen tx) it (lsum (s tx) p) (lmin (s tx) p) (cmin (s tx) p);
}.
Lemma total_blocks it : (0 <= it)%Z → sumQ (λ tx, sumQ (seen tx) it) TX == sumQ element (it * TX).
Proof. intros Hit. rewrite sumQ_blocks by lia. symmetry. apply (sumQ_swap (λ i tx, seen tx i)). Qed.
Lemma scan_loop_ok pivot n it s :
  (0 <= it)%Z → block_ok pivot it s →
  ∃ it', (it <= it')%Z ∧ block_ok pivot it' (scan_loop TX pN N prob pivot n it s) ∧
    ((it' = it + Z.of_nat n)%Z ∨ 1 - sumQ element (it' * TX) < pivot (pN - 1)%Z).
Proof.
  revert it s. induction n as [|n IH]; intros it s Hit Hs; cbn [scan_loop].
  - exists it. split; [lia|]. split; [done|left; lia].
  - set (s' := λ tx, visit pivot (element (it * TX + tx)) (s tx)).
    assert (block_ok pivot (it + 1) s') as Hs'.
    { destruct Hs as [H1 H2]. split.
      - intros tx Htx. unfold s'. cbn [visit total_sum]. rewrite sumQ_S, H1 by done. reflexivity.
      - intros tx p Htx. apply (counted_visit max_value pivot p (seen tx)); [done|by apply H2]. }
    destruct (((it + 1) mod K =? 0)%Z && early_stop TX pN pivot s') eqn:E.
    + exists (it + 1)%Z. split; [lia|]. split; [done|right]. apply andb_true_iff in E as [_ E]. unfold early_stop in E.
      apply Qlt_bool_iff in E. rewrite <-total_blocks by lia. eapply Qle_lt_trans; [|exact E]. apply Qle_lteq. right.
      apply Qplus_comp; [reflexivity|]. apply Qopp_comp. symmetry. apply sumQ_ext. intros tx Htx. by apply (bo_total _ _ _ Hs').
    + destruct (IH (it + 1)%Z s') as (it' & Hle & Hok & Hor); [lia|done|]. exists it'. split; [lia|]. split; [done|].
      destruct Hor as [->|?]; [left; lia|by right].
Qed.
Lemma scan_ok pivot : (0 <= N)%Z →
  ∃ it, (0 <= it)%Z ∧ block_ok pivot it (scan pivot) ∧ ((N <= it * TX)%Z ∨ 1 - sumQ element (it * TX) < pivot (pN - 1)%Z).
Proof.
  intros HN. destruct (scan_loop_ok pivot (Z.to_nat (ceildiv N TX)) 0 (λ _, zero max_value)) as (it & Hit & Hok & Hor).
  - done.
  - split; [intros tx Htx; by rewrite sumQ_nonpos|]. intros tx p Htx. cbn [zero lsum lmin cmin]. split.
    + by rewrite sumQ_nonpos.
    + lia.
    + by left.
    + by rewrite sumZ_nonpos.
  - exists it. split; [done|]. split; [done|]. destruct Hor as [->|?]; [left|by right].
    pose proof (ceildiv_spec N TX HTX). pose proof (ceildiv_nonneg N TX HTX HN). rewrite Z2Nat.id by done. lia.
Qed.

(** The reductions count the elements of all threads. *)
Lemma lmin_reduce_spec s p :
  (∀ tx, (0 <= tx < TX)%Z → lmin_reduce s p <= lmin (s tx) p) ∧ ∃ tx, (0 <= tx < TX)%Z ∧ lmin_reduce s p == lmin (s tx) p.
Proof.
  unfold lmin_reduce.
  assert (∀ n, (0 <= n)%Z → let m := loop (range n) (λ i m, Qmin m (lmin (s (i + 1)%Z) p)) (lmin (s 0%Z) p) in
    (∀ tx, (0 <= tx < n + 1)%Z → m <= lmin (s tx) p) ∧ ∃ tx, (0 <= tx < n + 1)%Z ∧ m == lmin (s tx) p) as Hn.
  { induction n as [n Hn|n Hn IH] using range_ind; intros Hn'.
    - rewrite range_nonpos by done. cbn. split; [intros tx Htx; assert (tx = 0)%Z as -> by lia; apply Qle_refl|exists 0%Z; split; [lia|reflexivity]].
    - destruct (IH Hn) as [Hle (tx & Htx & Heq)]. cbv zeta. rewrite range_S, loop_app by done. unfold loop at 1 3. cbn [foldl].
      set (m := loop (range n) _ _) in *. split.
      + intros tx' Htx'. destruct (decide (tx' = n + 1)%Z) as [->|]; [apply Q.le_min_r|].
        eapply Qle_trans; [apply Q.le_min_l|apply Hle; lia].
      + destruct (Qlt_le_dec (lmin (s (n + 1)%Z) p) m) as [Hlt|Hge].
        * exists (n + 1)%Z. split; [lia|]. apply Q.min_r. lra.
        * exists tx. split; [lia|]. rewrite <-Heq. by apply Q.min_l. }
  specialize (Hn (TX - 1)%Z). replace (TX - 1 + 1)%Z with TX in Hn by lia. apply Hn. lia.
Qed.
Lemma reduce_counted pivot it s p : (0 <= it)%Z → block_ok pivot it s →
  counted max_value (pivot p) element (it * TX) (lsum_reduce s p) (lmin_reduce s p) (cmin_reduce s p).
Proof.
  intros Hit [_ Hc]. destruct (lmin_reduce_spec s p) as [Hle (tx0 & Htx0 & Heq)].
  assert (∀ j, (0 <= j < it * TX)%Z → ∃ i tx, (0 <= i < it)%Z ∧ (0 <= tx < TX)%Z ∧ j = (i * TX + tx)%Z) as Hsplit.
  { intros j Hj. exists (j / TX)%Z, (j mod TX)%Z. pose proof (Z.div_mod j TX). pose proof (Z.mod_pos_bound j TX).
    split_and!; try lia; [apply Z.div_pos; lia|apply Z.div_lt_upper_bound; lia]. }
  split.
  - unfold lsum_reduce. rewrite sumQ_blocks by lia.
    etransitivity; [apply sumQ_ext; intros tx Htx; apply (co_sum _ _ _ _ _ _ _ (Hc tx p Htx))|].
    symmetry. apply (sumQ_swap (λ i tx, if Qle_bool (pivot p) (seen tx i) then seen tx i else 0)).
  - intros j Hj Hx. destruct (Hsplit j Hj) as (i & tx & Hi & Htx & ->). eapply Qle_trans; [by apply Hle|].
    by apply (co_lower _ _ _ _ _ _ _ (Hc tx p Htx) i).
  - destruct (co_attained _ _ _ _ _ _ _ (Hc tx0 p Htx0)) as [Ha|(i & Hi & Hx & Ha)]; [left; by rewrite Heq|right].
    exists (i * TX + tx0)%Z. split; [nia|]. split; [done|]. by rewrite Heq.
  - unfold cmin_reduce. rewrite sumZ_blocks, sumZ_swap by lia. apply sumZ_ext. intros tx Htx.
    destruct (Hc tx p Htx) as [_ Hlow _ Hcount]. specialize (Hle tx Htx). q_case.
    + rewrite (sumZ_ext _ (λ _, 0%Z)), sumZ_const by done || (intros i Hi; repeat q_case; try done; specialize (Hlow i Hi); unfold seen in Hlow; lra). lia.
    + rewrite Hcount. apply sumZ_ext. intros i Hi. change (element (i * TX + tx)%Z) with (seen tx i). repeat q_case; try done; lra.
Qed.
End scan.

(** ** Pivots

    A pivot keeps the elements that are not below it. It is valid if they have the mass [top_p], and without
    the smallest of them they have not. *)

Lemma sumQ_count (b : Z → bool) m n : sumQ (λ i, if b i then m else 0) n == inject_Z (sumZ (λ i, if b i then 1 else 0)%Z n) * m.
Proof.
  induction n as [n Hn|n Hn IH] using range_ind; [rewrite sumQ_nonpos, sumZ_nonpos by done; unfold inject_Z; ring|].
  rewrite sumQ_S, sumZ_S, inject_Z_plus, IH by done. destruct (b n); unfold inject_Z; ring.
Qed.
Lemma sumZ_upto f m n : (0 <= m <= n)%Z → (∀ i, (m <= i < n)%Z → f i = 0%Z) → sumZ f n = sumZ f m.
Proof.
  intros Hm Hz. replace n with (m + (n - m))%Z by lia. rewrite sumZ_add by lia.
  rewrite (sumZ_ext (λ i, f (m + i)%Z) (λ _, 0%Z)), sumZ_const; [lia|lia|]. intros i Hi. apply Hz. lia.
Qed.

Section pivots.
Context (TX pN N : Z) (prob : Z → Q) (top_p max_value : Q).
Hypothesis HTX : (0 < TX)%Z.
Hypothesis HpN : (0 < pN)%Z.
Hypothesis HN : (0 <= N)%Z.
Hypothesis Hprob : ∀ i, (0 <= i < N)%Z → 0 <= prob i.
Hypothesis Hmass : sumQ prob N == 1.
Hypothesis Hmax : ∀ i, (0 <= i < N)%Z → prob i < max_value.
Hypothesis Htop : 0 < top_p.

Definition mass_from (x : Q) : Q := sumQ (λ i, if Qle_bool x (prob i) then prob i else 0) N.
Definition mass_above (m : Q) : Q := sumQ (λ i, if Qlt_bool m (prob i) then prob i else 0) N.
Definition smallest_kept (x : Q) (i : Z) : Prop :=
  (0 <= i < N)%Z ∧ x <= prob i ∧ ∀ j, (0 <= j < N)%Z → x <= prob j → prob i <= prob j.
Definition valid_pivot (x : Q) : Prop := top_p <= mass_from x ∧ ∃ i, smallest_kept x i ∧ mass_above (prob i) < top_p.
(** It keeps an element it could do without; it keeps too little. *)
Definition too_small (x : Q) : Prop := ∃ i, (0 <= i < N)%Z ∧ x <= prob i ∧ top_p <= mass_above (prob i).
Definition too_large (x : Q) : Prop := mass_from x < top_p.

Lemma mass_from_anti x y : x <= y → mass_from y <= mass_from x.
Proof. intros Hxy. apply sumQ_le. intros i Hi. specialize (Hprob i Hi). repeat q_case; lra. Qed.
Lemma mass_above_from m x : x <= m → mass_above m <= mass_from x.
Proof. intros Hxm. apply sumQ_le. intros i Hi. specialize (Hprob i Hi). repeat q_case; lra. Qed.
Lemma mass_above_anti x y : x <= y → mass_above y <= mass_above x.
Proof. intros Hxy. apply sumQ_le. intros i Hi. specialize (Hprob i Hi). repeat q_case; lra. Qed.
Lemma too_large_up x y : x <= y → too_large x → too_large y.
Proof. intros Hxy Hx. unfold too_large in *. pose proof (mass_from_anti x y Hxy). lra. Qed.
Lemma too_small_down x y : y <= x → too_small x → too_small y.
Proof. intros Hxy (i & Hi & Hx & Hm). exists i. split_and!; try done; [lia..|lra]. Qed.
Lemma not_small_large x : too_large x → ¬ too_small x.
Proof. intros Hl (i & Hi & Hx & Hm). pose proof (mass_above_from (prob i) x Hx). unfold too_large in Hl. lra. Qed.
Lemma too_small_enough x : too_small x → top_p <= mass_from x.
Proof. intros (i & Hi & Hx & Hm). pose proof (mass_above_from (prob i) x Hx). lra. Qed.
(** Nothing above [1 - top_p] is too small. *)
Lemma too_small_bound x : too_small x → x <= 1 - top_p.
Proof.
  intros (i & Hi & Hx & Hm).
  assert (mass_above (prob i) + prob i <= 1); [|lra]. rewrite <-Hmass.
  assert (sumQ (λ j, if (j =? i)%Z then prob j else 0) N == prob i) as Hone.
  { rewrite (sumQ_upto _ (i + 1) N) by (lia || intros j Hj; by rewrite (proj2 (Z.eqb_neq j i)) by lia).
    rewrite sumQ_S, Z.eqb_refl by lia. rewrite (sumQ_ext _ (λ _, 0)), sumQ_zero; [ring|].
    intros j Hj. by rewrite (proj2 (Z.eqb_neq j i)) by lia. }
  rewrite <-Hone at 2. unfold mass_above. rewrite <-sumQ_add. apply sumQ_le. intros j Hj. specialize (Hprob j Hj).
  destruct (Z.eqb_spec j i) as [->|]; q_case; lra.
Qed.

(** What a scan finds. *)
Lemma scan_counted pivot p : 0 < pivot p → pivot (pN - 1)%Z <= pivot p →
  let s := scan TX pN N prob max_value pivot in
  counted max_value (pivot p) prob N (lsum_reduce TX s p) (lmin_reduce TX s p) (cmin_reduce TX s p).
Proof.
  intros Hpos Hlast s. destruct (scan_ok TX pN N prob max_value HTX pivot HN) as (it & Hit & Hok & Hcover).
  destruct (reduce_counted TX N prob max_value HTX pivot it _ p Hit Hok) as [Hs Hl Ha Hc]. fold s in Hs, Hl, Ha, Hc.
  set (M := (it * TX)%Z) in *. assert (0 <= M)%Z as HM by (unfold M; nia).
  assert (∀ i, (i < N)%Z → element N prob i = prob i) as Hel by (intros i Hi; unfold element; by rewrite (proj2 (Z.ltb_lt i N))).
  assert (∀ i, (0 <= i)%Z → pivot p <= element N prob i → (i < M)%Z ∧ (i < N)%Z) as Hsel.
  { intros i Hi Hx. assert (i < N)%Z as HiN.
    { destruct (Z.ltb_spec i N) as [|E]; [done|]. unfold element in Hx. rewrite (proj2 (Z.ltb_ge i N) E) in Hx. lra. }
    split; [|done]. destruct Hcover as [?|Hc']; [lia|]. destruct (Z.lt_ge_cases i M) as [|HMi]; [done|exfalso].
    rewrite Hel in Hx by done. assert (sumQ (element N prob) M + prob i <= 1); [|lra]. rewrite <-Hmass.
    rewrite (sumQ_ext (element N prob) prob) by (intros j Hj; rewrite Hel by lia; reflexivity).
    replace N with (M + (N - M))%Z by lia. rewrite sumQ_app by lia. apply Qplus_le_r.
    pose proof (sumQ_part (λ j, prob (M + j)%Z) (N - M) (i - M)) as Hpart. cbv beta in Hpart.
    replace (M + (i - M))%Z with i in Hpart by lia. apply Hpart; [intros j Hj; apply Hprob; lia|lia]. }
  split.
  - rewrite Hs. rewrite <-(sumQ_upto _ M (Z.max M N)), (sumQ_upto _ N (Z.max M N)); try lia.
    + apply sumQ_ext. intros i Hi. rewrite Hel by lia. reflexivity.
    + intros i Hi. q_case; [|reflexivity]. apply Hsel in E; lia.
    + intros i Hi. q_case; [|reflexivity]. apply Hsel in E; lia.
  - intros i Hi Hx. rewrite <-(Hel i) in Hx |- * by lia. apply Hl; [|done]. destruct (Hsel i); [lia|done|lia].
  - destruct Ha as [?|(i & Hi & Hx & Ha)]; [by left|right]. destruct (Hsel i) as [_ HiN]; [lia|done|].
    exists i. rewrite Hel in Hx, Ha by done. split_and!; [lia..|done|done].
  - rewrite Hc. rewrite <-(sumZ_upto _ M (Z.max M N)), (sumZ_upto _ N (Z.max M N)); try lia.
    + apply sumZ_ext. intros i Hi. rewrite Hel by lia. reflexivity.
    + intros i Hi. q_case; [|done]. apply Hsel in E; lia.
    + intros i Hi. q_case; [|done]. apply Hsel in E; lia.
Qed.

(** The smallest kept elements, counted, are what separates the two masses. *)
Lemma counted_split x l m c : counted max_value x prob N l m c →
  l == mass_from x ∧
  ((∀ i, (0 <= i < N)%Z → prob i < x) ∧ c = 0%Z ∨
   ∃ i, smallest_kept x i ∧ l - inject_Z c * m == mass_above (prob i)).
Proof.
  intros [Hs Hl Ha Hc]. split; [done|]. destruct Ha as [Ha|(i & Hi & Hx & Ha)].
  - left. assert (∀ i, (0 <= i < N)%Z → prob i < x) as Hnone.
    { intros i Hi. destruct (Qlt_le_dec (prob i) x) as [|Hx]; [done|]. specialize (Hl i Hi Hx). specialize (Hmax i Hi). lra. }
    split; [done|]. rewrite Hc, (sumZ_ext _ (λ _, 0%Z)), sumZ_const; [lia|done|]. intros i Hi. specialize (Hnone i Hi). q_case; [lra|done].
  - right. exists i. split; [split; [done|]; split; [done|]; intros j Hj Hxj; rewrite <-Ha; by apply Hl|].
    assert (l == inject_Z c * m + mass_above (prob i)) as ->; [|ring]. rewrite Hs, Hc, <-sumQ_count. unfold mass_above. rewrite <-sumQ_add.
    apply sumQ_ext. intros j Hj. specialize (Hl j Hj). repeat q_case; lra.
Qed.
Abbreviation scanned_by pivot := (scan TX pN N prob max_value pivot).
Lemma verdict pivot p : 0 < pivot p → pivot (pN - 1)%Z <= pivot p →
  let s := scanned_by pivot in let l := lsum_reduce TX s p in let m := lmin_reduce TX s p in let c := cmin_reduce TX s p in
  l == mass_from (pivot p) ∧
  if valid top_p l m c then valid_pivot (pivot p)
  else if Qle_bool top_p (l - m * inject_Z c) then too_small (pivot p) else Qlt_bool l top_p = true ∧ too_large (pivot p).
Proof.
  intros Hpos Hlast s l m c. destruct (counted_split _ _ _ _ (scan_counted pivot p Hpos Hlast)) as [Hl Hcase].
  fold s l m c in Hl, Hcase. split; [done|]. unfold valid, valid_pivot, too_small, too_large.
  assert (m * inject_Z c == inject_Z c * m) as Hcomm by ring.
  destruct Hcase as [[Hnone ->]|(i & Hi & Hm)].
  - assert (mass_from (pivot p) == 0) as Hzero.
    { unfold mass_from. rewrite (sumQ_ext _ (λ _, 0)), sumQ_zero; [done|]. intros i Hi. specialize (Hnone i Hi). q_case; [lra|done]. }
    unfold inject_Z in *. repeat q_case; lra.
  - pose proof (mass_above_from (prob i) (pivot p) (proj1 (proj2 Hi))) as Hfrom.
    assert (mass_above (prob i) < top_p → valid_pivot (pivot p) ∨ mass_from (pivot p) < top_p) as Hvalid.
    { intros Hm'. destruct (Qlt_le_dec (mass_from (pivot p)) top_p); [by right|left]. split; [done|by exists i]. }
    assert (top_p <= mass_above (prob i) → too_small (pivot p)) as Hsmall.
    { intros Hm'. exists i. destruct Hi as (Hi & Hx & _). split; [done|]. by split. }
    unfold valid_pivot, too_small in *. repeat q_case; try (exfalso; lra); try (split; [done|lra]); try (apply Hsmall; lra).
    destruct Hvalid as [?|?]; [lra|done|lra].
Qed.

(** ** The search *)

Definition descending (pivot : Z → Q) : Prop := ∀ i j, (0 <= i <= j)%Z → (j < pN)%Z → pivot j <= pivot i.
Definition found (st : search) : Prop :=
  find_pivot st = true ∧ ∃ x l, final_pivot st = Some x ∧ final_lsum st = Some l ∧ valid_pivot x ∧ l == mass_from x.
(** What the first [n] candidates have made of a state, when none of them was valid. *)
Definition narrowed (pivot : Z → Q) (n : Z) (st st' : search) : Prop :=
  let y := pivot (n - 1)%Z in
  find_pivot st' = false ∧
  (too_large y ∧ L st' = y ∧ R st' = R st ∧ final_lsum st' = final_lsum st ∨
   too_small y ∧ R st' = y ∧ (∃ l, final_lsum st' = Some l ∧ l == mass_from y) ∧
     (L st' = L st ∨ ∃ k, (0 <= k < n)%Z ∧ L st' = pivot k ∧ too_large (pivot k))).
Abbreviation check_by pivot := (check TX top_p (scanned_by pivot) pivot).
Lemma check_found pivot p st : found st → found (check_by pivot p st).
Proof. intros Hf. unfold check. by rewrite (proj1 Hf). Qed.
Lemma check_narrows pivot p st st0 :
  0 < pivot (pN - 1)%Z → descending pivot → (0 <= p < pN)%Z → find_pivot st = false →
  (p = 0%Z ∧ st = st0 ∨ (0 < p)%Z ∧ narrowed pivot p st0 st) →
  found (check_by pivot p st) ∨ narrowed pivot (p + 1) st0 (check_by pivot p st).
Proof.
  intros Hpos Hdesc Hp Hfind Hst. assert (pivot (pN - 1)%Z <= pivot p) as Hlast by (apply Hdesc; lia).
  destruct (verdict pivot p) as [Hl Hv]; [lra|done|]. cbv zeta in Hl, Hv. unfold check. rewrite Hfind.
  destruct (valid _ _ _ _) eqn:Ev.
  { left. split; [done|]. cbn [final_pivot final_lsum]. by do 2 eexists. }
  right. unfold narrowed. replace (p + 1 - 1)%Z with p by lia.
  destruct (Qle_bool top_p _) eqn:Es.
  - split; [done|]. right. split; [done|]. split; [done|]. cbn [L R final_lsum]. split; [by eexists|].
    destruct Hst as [[-> ->]|(Hp0 & _ & [(Hy & -> & _)|(Hy & _ & _ & [->|(k & Hk & -> & Hlk)])])].
    + by left.
    + right. exists (p - 1)%Z. split_and!; [lia..|done|done].
    + by left.
    + right. exists k. split_and!; [lia..|done|done].
  - destruct Hv as [-> Hlarge]. split; [done|]. left. split; [done|]. split; [done|]. cbn [L R final_lsum].
    destruct Hst as [[-> ->]|(Hp0 & _ & [(Hy & _ & -> & ->)|(Hy & _)])]; [done|done|]. exfalso.
    apply (not_small_large (pivot p)); [done|]. apply (too_small_down (pivot (p - 1)%Z)); [apply Hdesc; lia|done].
Qed.
Lemma update_ok pivot st :
  0 < pivot (pN - 1)%Z → descending pivot → find_pivot st = false →
  let st' := update TX pN top_p (scanned_by pivot) pivot st in found st' ∨ narrowed pivot pN st st'.
Proof.
  intros Hpos Hdesc Hfind. cbv zeta. unfold update.
  assert (∀ n, (0 <= n <= pN)%Z → let st' := loop (range n) (check_by pivot) st in
    found st' ∨ (n = 0%Z ∧ st' = st ∨ (0 < n)%Z ∧ narrowed pivot n st st')) as Hn.
  { induction n as [n Hn|n Hn IH] using range_ind; intros Hn'; cbv zeta.
    - right. left. assert (n = 0)%Z as -> by lia. done.
    - rewrite range_S, loop_app by done. change (loop [n] ?b ?s) with (b n s). cbv zeta in IH.
      destruct IH as [Hf|Hst]; [lia|left; by apply check_found|].
      destruct (find_pivot (loop (range n) (check_by pivot) st)) eqn:Ef.
      { destruct Hst as [[_ E]|(_ & E & _)]; [rewrite E in Ef; congruence|congruence]. }
      destruct (check_narrows pivot n _ st Hpos Hdesc ltac:(lia) Ef Hst) as [?|?]; [by left|right; right; split; [lia|done]]. }
  destruct (Hn pN) as [?|[[? _]|[_ ?]]]; [lia|by left|lia|by right].
Qed.

(** A state after some rounds that have found nothing: nothing above [L] is too small, [R] is, unless it is where it
    was at the start, and the last candidate is one of the two. *)
Record open (st : search) (last : Q) : Prop := {
  op_find : find_pivot st = false;
  op_upper : ∀ x, L st < x → ¬ too_small x;
  op_pos : 0 < R st;
  op_lower : R st = eps_LR ∨ too_small (R st) ∧ ∃ l, final_lsum st = Some l ∧ l == mass_from (R st);
  op_last : ∃ y, last == mass_from y ∧ (y = L st ∨ y = R st);
}.
Lemma round_ok pivot st last :
  0 < pivot (pN - 1)%Z → descending pivot → find_pivot st = false → (∀ x, L st < x → ¬ too_small x) → 0 < R st →
  (R st = eps_LR ∨ too_small (R st) ∧ ∃ l, final_lsum st = Some l ∧ l == mass_from (R st)) →
  last = lsum_reduce TX (scanned_by pivot) (pN - 1) →
  let st' := update TX pN top_p (scanned_by pivot) pivot st in
  found st' ∨ open st' last ∧ (L st' = pivot (pN - 1)%Z ∧ R st' = R st ∨
    R st' = pivot (pN - 1)%Z ∧ (L st' = L st ∨ ∃ k, (0 <= k < pN)%Z ∧ L st' = pivot k)).
Proof.
  intros Hpos Hdesc Hfind Hup HR Hlow ->. cbv zeta.
  destruct (verdict pivot (pN - 1)) as [Hl _]; [done|apply Qle_refl|].
  destruct (update_ok pivot st Hpos Hdesc Hfind) as [?|(Hf & Hcase)]; [by left|right].
  destruct Hcase as [(Hy & HL & HR' & Hs)|(Hy & HR' & Hs & HL)]; (split; [split; [done|..]|]).
  - intros x Hx. rewrite HL in Hx. apply not_small_large. apply (too_large_up (pivot (pN - 1)%Z)); [lra|done].
  - by rewrite HR'.
  - by rewrite HR', Hs.
  - exists (pivot (pN - 1)%Z). split; [done|by left].
  - left. by split.
  - intros x Hx. destruct HL as [HL|(k & Hk & HL & Hlk)]; rewrite HL in Hx; [by apply Hup|].
    apply not_small_large. apply (too_large_up (pivot k)); [lra|done].
  - by rewrite HR'.
  - right. by rewrite HR'.
  - exists (pivot (pN - 1)%Z). split; [done|by right].
  - right. split; [done|]. destruct HL as [?|(k & Hk & HL & _)]; [by left|right]. by exists k.
Qed.

(** Candidates between [R] and [L], evenly spread. *)
Lemma pN_pos : 0 < inject_Z (pN + 1).
Proof. change 0 with (inject_Z 0). rewrite <-Zlt_Qlt. lia. Qed.
Lemma spread_bounds st p : R st <= L st → (0 <= p < pN)%Z →
  let d := (L st - R st) / inject_Z (pN + 1) in R st + d <= spread pN st p <= L st - d.
Proof.
  intros Hw Hp d. pose proof pN_pos as HpN1. assert (spread pN st p == L st - inject_Z (p + 1) * d) as ->.
  { unfold spread, d. field. lra. }
  assert (L st - R st == inject_Z (pN + 1) * d) as HW by (unfold d; field; lra).
  assert (0 <= d) as Hd by (unfold d; apply Qle_shift_div_l; lra).
  assert (1 <= inject_Z (p + 1)) by (change 1 with (inject_Z 1); rewrite <-Zle_Qle; lia).
  assert (inject_Z (p + 1) + 1 <= inject_Z (pN + 1)).
  { change 1 with (inject_Z 1). rewrite <-inject_Z_plus, <-Zle_Qle. lia. }
  split; nra.
Qed.
Lemma spread_descending st : R st <= L st → descending (spread pN st).
Proof.
  intros Hw i j Hi Hj. unfold spread. pose proof pN_pos as HpN1.
  assert (inject_Z (i + 1) <= inject_Z (j + 1)) as Hij by (rewrite <-Zle_Qle; lia).
  assert (∀ z, inject_Z z * (L st - R st) / inject_Z (pN + 1) == inject_Z z * ((L st - R st) / inject_Z (pN + 1))) as E by (intros z; field; lra).
  assert (0 <= (L st - R st) / inject_Z (pN + 1)) by (apply Qle_shift_div_l; lra). rewrite !E. nra.
Qed.
Definition delta : Q := eps_LR / inject_Z (pN + 1).
Lemma delta_pos : 0 < delta.
Proof. apply Qlt_shift_div_l; [apply pN_pos|]. unfold eps_LR. lra. Qed.
Abbreviation iterated := (iterate TX pN N prob top_p max_value).
(** The result of the loop. *)
Definition ended (st : search) (last : Q) : Prop := found st ∨ open st last ∧ L st - R st <= eps_LR.
Lemma iterate_stops fuel st pivot last :
  find_pivot st = true ∨ L st - R st <= eps_LR → iterated fuel st pivot last = Some (st, last).
Proof.
  intros Hs. destruct fuel; cbn [iterate]; (destruct (Qlt_bool eps_LR (L st - R st)) eqn:E; [|done]);
    apply Qlt_bool_iff in E; (destruct Hs as [->|?]; [done|lra]).
Qed.
Lemma iterate_goes fuel st pivot last :
  find_pivot st = false → eps_LR < L st - R st →
  iterated (S fuel) st pivot last =
    (let st' := update TX pN top_p (scanned_by pivot) pivot st in
     iterated fuel st' (spread pN st') (lsum_reduce TX (scanned_by pivot) (pN - 1))).
Proof. intros Hf Hw. cbn [iterate]. by rewrite (proj2 (Qlt_bool_iff _ _) Hw), Hf. Qed.
(** The interval shrinks by [delta] in every round, so the loop ends. *)
Lemma iterate_ok n st last : open st last → L st - R st <= inject_Z (Z.of_nat n) * delta →
  ∃ st' last', (∀ fuel, (n <= fuel)%nat → iterated fuel st (spread pN st) last = Some (st', last')) ∧ ended st' last'.
Proof.
  revert st last. induction n as [|n IH]; intros st last Ho Hw.
  - exists st, last. assert (L st - R st <= eps_LR) as Hle by (change (inject_Z (Z.of_nat 0)) with 0 in Hw; unfold eps_LR; lra).
    split; [|by right]. intros fuel _. apply iterate_stops. by right.
  - destruct (Qlt_le_dec eps_LR (L st - R st)) as [Hlt|Hle].
    2: { exists st, last. split; [|by right]. intros fuel _. apply iterate_stops. by right. }
    assert (R st <= L st) as HLR by (unfold eps_LR in Hlt; lra). pose proof (op_pos _ _ Ho) as HR.
    assert (delta <= (L st - R st) / inject_Z (pN + 1)) as Hd.
    { unfold delta. apply Qmult_le_compat_r; [lra|]. apply Qlt_le_weak, Qinv_lt_0_compat, pN_pos. }
    pose proof delta_pos as Hdp. pose proof (spread_bounds st (pN - 1) HLR ltac:(lia)) as Hy. cbv zeta in Hy.
    destruct (round_ok (spread pN st) st _ ltac:(lra) (spread_descending st HLR) (op_find _ _ Ho) (op_upper _ _ Ho) HR (op_lower _ _ Ho) eq_refl)
      as [Hf|(Ho' & Hcase)].
    + eexists _, _. split; [|by left]. intros [|fuel] Hfuel; [lia|]. rewrite iterate_goes by (done || apply Ho). apply iterate_stops. left. apply Hf.
    + destruct (IH _ _ Ho') as (st' & last' & Hrun & Hend).
      { rewrite Nat2Z.inj_succ, <-Z.add_1_r, inject_Z_plus in Hw. change (inject_Z 1) with 1 in Hw.
        assert (L (update TX pN top_p (scanned_by (spread pN st)) (spread pN st) st) - R (update TX pN top_p (scanned_by (spread pN st)) (spread pN st) st) <= L st - R st - delta); [|lra].
        destruct Hcase as [[-> ->]|[-> [->|(k & Hk & ->)]]]; [lra|lra|].
        pose proof (spread_bounds st k HLR Hk) as Hk'. cbv zeta in Hk'. lra. }
      exists st', last'. split; [|done]. intros [|fuel] Hfuel; [lia|]. rewrite iterate_goes by (done || apply Ho). apply Hrun. lia.
Qed.

(** The masses from two numbers of at most [2 * eps_LR] on are close: they differ by elements that small. *)
Lemma mass_close x y : x <= 2 * eps_LR → mass_from y - mass_from x <= inject_Z N * (2 * eps_LR).
Proof.
  intros Hx. assert (mass_from y <= mass_from x + sumQ (λ _, 2 * eps_LR) N) as Hle.
  { unfold mass_from. rewrite <-sumQ_add. apply sumQ_le. intros i Hi. specialize (Hprob i Hi). unfold eps_LR in *. repeat q_case; lra. }
  pose proof (sumQ_count (λ _, true) (2 * eps_LR) N) as E. cbn beta iota in E. rewrite E in Hle.
  rewrite (sumZ_const 1 N HN), Z.mul_1_r in Hle. lra.
Qed.
Lemma mass_from_all : mass_from 0 == 1.
Proof. unfold mass_from. rewrite <-Hmass. apply sumQ_ext. intros i Hi. specialize (Hprob i Hi). q_case; [done|lra]. Qed.
(** The kernel's result: the mass from the pivot on, with nothing to find, a valid pivot, or one that is too small by less
    than [eps_LR]; or the least pivot, with the mass from the last candidate on. *)
Definition pivot_result (x l : Q) : Prop :=
  l == mass_from x ∧
    (1 - top_p <= 2 * eps_LR ∧ x = 0 ∨ valid_pivot x ∨ too_small x ∧ ∀ y, x + eps_LR < y → ¬ too_small y) ∨
  x == eps_LR ∧ (∀ y, 2 * eps_LR < y → ¬ too_small y) ∧ (∃ y, y <= 2 * eps_LR ∧ l == mass_from y) ∧
    - (inject_Z N * (2 * eps_LR)) <= l - mass_from x <= inject_Z N * (2 * eps_LR).
Definition written (st : search) (last : Q) : option Q * option Q :=
  if find_pivot st then (final_pivot st, final_lsum st)
  else (Some (R st), if Qeq_bool (R st) eps_LR then Some last else final_lsum st).
Lemma ended_result st last : ended st last → ∃ x l, written st last = (Some x, Some l) ∧ pivot_result x l.
Proof.
  unfold written. intros [(Hf & x & l & Hx & Hl & Hv & E)|(Ho & Hw)].
  - rewrite Hf. exists x, l. rewrite Hx, Hl. split; [done|]. left. split; [done|]. right. by left.
  - destruct Ho as [Hf Hup _ Hlow (y & Hy & HyLR)]. rewrite Hf. destruct (Qeq_bool (R st) eps_LR) eqn:E.
    + apply Qeq_bool_iff in E. exists (R st), last. split; [done|]. right. split; [done|].
      assert (y <= 2 * eps_LR) as Hy2 by (destruct HyLR as [->| ->]; unfold eps_LR in *; lra). split_and!.
      * intros z Hz. apply Hup. lra.
      * by exists y.
      * pose proof (mass_close y (R st) Hy2). rewrite Hy. lra.
      * pose proof (mass_close (R st) y). rewrite Hy. unfold eps_LR in *. lra.
    + apply Qeq_bool_false in E. destruct Hlow as [Hlow|(Hs & l & Hl & Em)]; [rewrite Hlow in E; by destruct E|].
      exists (R st), l. rewrite Hl. split; [done|]. left. split; [done|]. do 2 right. split; [done|]. intros z Hz. apply Hup. lra.
Qed.
(** C14. On a vector of probabilities, the search ends, whatever positive, descending candidates it starts with: with a valid
    pivot, with one that is too small by less than [eps_LR], with 0 when [top_p] is so near to 1 that nothing is searched,
    or with the least pivot. But for the last, the sum that is written is that of the elements from the pivot on. With the
    least pivot it is that of the elements from the last candidate on, which is at most twice as large: it may leave out,
    or have in it, elements of at most [2 * eps_LR] each, against the description of [final_lsum]. *)
Theorem top_p_pivot_spec init_pivots : 0 < init_pivots (pN - 1)%Z → descending init_pivots →
  ∃ n x l, pivot_result x l ∧
    ∀ fuel, (n <= fuel)%nat → top_p_pivot TX pN N prob top_p max_value init_pivots fuel = Some (Some x, Some l).
Proof.
  intros Hpos Hdesc. unfold top_p_pivot. cbn [L R]. destruct (Qle_bool (1 - top_p - eps_LR) eps_LR) eqn:E.
  { apply Qle_bool_iff in E. exists O, 0, 1. split; [left; split; [by rewrite mass_from_all|left; split; [lra|done]]|done]. }
  apply Qle_bool_lt in E. set (st0 := {| L := 1 - top_p; R := eps_LR; find_pivot := false; final_pivot := None; final_lsum := None |}).
  assert (∀ x, L st0 < x → ¬ too_small x) as Hup by (intros x Hx Hs%too_small_bound; cbn in Hx; lra).
  assert (∃ n st' last', (∀ fuel, (n <= fuel)%nat → iterated fuel st0 init_pivots 0 = Some (st', last')) ∧ ended st' last')
    as (n & st' & last' & Hrun & Hend).
  { destruct (round_ok init_pivots st0 _ Hpos Hdesc eq_refl Hup ltac:(done) ltac:(by left) eq_refl) as [Hf|(Ho & _)].
    - exists 1%nat. eexists _, _. split; [|by left]. intros [|fuel] Hfuel; [lia|]. rewrite iterate_goes by done.
      apply iterate_stops. left. apply Hf.
    - set (st1 := update TX pN top_p (scanned_by init_pivots) init_pivots st0) in *.
      pose proof delta_pos as Hdp. set (n := Z.to_nat (Qceiling ((L st1 - R st1) / delta))).
      destruct (iterate_ok n st1 _ Ho) as (st' & last' & Hrun & Hend).
      { assert ((L st1 - R st1) / delta <= inject_Z (Z.of_nat n)) as Hn.
        { eapply Qle_trans; [apply Qle_ceiling|]. rewrite <-Zle_Qle. lia. }
        assert ((L st1 - R st1) / delta * delta == L st1 - R st1) as E' by (field; lra). nra. }
      exists (S n), st', last'. split; [|done]. intros [|fuel] Hfuel; [lia|]. rewrite iterate_goes by done. apply Hrun. lia. }
  destruct (ended_result st' last' Hend) as (x & l & Hw & Hr). exists n, x, l. split; [done|]. intros fuel Hfuel.
  rewrite Hrun by done. unfold written in Hw. by rewrite Hw.
Qed.
End pivots.

(** ** The renormalized row *)

Section renormalized.
Context (TX B N : Z) (prob : Z → Z → Q) (final_pivot final_lsum : Z → Q).
Hypothesis HTX : (0 < TX)%Z.
Hypothesis HB : (0 < B)%Z.
Lemma BX_pos : (0 < BX B)%Z.
Proof. unfold BX, CTA_COUNT. pose proof (ceildiv_spec 512 B HB). nia. Qed.
(** The threads write every place of the matrix and no other. *)
Lemma elem_of_places b i : (b, i) ∈ places TX B N ↔ (0 <= b < B)%Z ∧ (0 <= i < N)%Z.
Proof.
  pose proof BX_pos as HBX. unfold places. rewrite list_elem_of_bind. split.
  - intros (b' & Hp & Hb). apply elem_of_range in Hb. apply list_elem_of_bind in Hp as (bx & Hp & Hbx). apply elem_of_range in Hbx.
    apply list_elem_of_bind in Hp as (tx & Hp & Htx). apply elem_of_range in Htx. apply list_elem_of_fmap in Hp as (j & [= -> ->] & Hj).
    unfold indices in Hj. apply list_elem_of_filter in Hj as [HjN Hj]. apply list_elem_of_fmap in Hj as (q & -> & Hq). apply elem_of_range in Hq.
    split; [lia|nia].
  - intros [Hb Hi]. exists b. split; [|by apply elem_of_range].
    pose proof (Z.div_mod i (BX B * TX)) as Hd. pose proof (Z.mod_pos_bound i (BX B * TX) ltac:(nia)) as Hm. set (r := (i mod (BX B * TX))%Z) in *.
    pose proof (Z.div_mod r TX) as Hd'. pose proof (Z.mod_pos_bound r TX HTX) as Hm'.
    apply list_elem_of_bind. exists (r / TX)%Z. split; [|apply elem_of_range; split; [apply Z.div_pos; lia|apply Z.div_lt_upper_bound; lia]].
    apply list_elem_of_bind. exists (r mod TX)%Z. split; [|by apply elem_of_range]. apply list_elem_of_fmap. exists i. split; [done|].
    unfold indices. apply list_elem_of_filter. split; [lia|]. apply list_elem_of_fmap. exists (i / (BX B * TX))%Z. split; [nia|].
    apply elem_of_range. split; [apply Z.div_pos; nia|]. apply Z.div_lt_upper_bound; [nia|]. pose proof (ceildiv_spec N (BX B * TX) ltac:(nia)). nia.
Qed.
Abbreviation renorm := (top_p_renorm TX B N prob final_pivot final_lsum).
Abbreviation value := (renormed prob final_pivot final_lsum).
(** The kernel writes every element of the matrix, to zero below the pivot of its row and to its share of the row's sum from it on,
    and nothing else; a row whose sum is that of the elements it keeps becomes a distribution. *)
Theorem top_p_renorm_spec m :
  (∀ b i, (0 <= b < B)%Z → (0 <= i < N)%Z → renorm m !! (b, i) = Some (value (b, i))) ∧
  (∀ b i, ¬ ((0 <= b < B)%Z ∧ (0 <= i < N)%Z) → renorm m !! (b, i) = m !! (b, i)) ∧
  (∀ b, final_lsum b == mass_from N (prob b) (final_pivot b) → 0 < final_lsum b → sumQ (λ i, value (b, i)) N == 1).
Proof.
  assert (∀ p q, p ∈ places TX B N → q ∈ places TX B N → id p = id q → value p = value q) as Hsame by (intros p q _ _; unfold id; congruence).
  split_and!.
  - intros b i Hb Hi. apply (proj1 (store_all_lookup (places TX B N) id value m (b, i) Hsame) (b, i)); [|done].
    by apply elem_of_places.
  - intros b i Hout. apply (proj2 (store_all_lookup (places TX B N) id value m (b, i) Hsame)).
    intros p Hp E. unfold id in E. subst p. by apply elem_of_places in Hp.
  - intros b Hl Hpos. unfold renormed. cbn [fst snd].
    rewrite (sumQ_ext _ (λ i, / final_lsum b * (if Qle_bool (final_pivot b) (prob b i) then prob b i else 0))).
    + rewrite sumQ_scale. change (sumQ (λ i, if Qle_bool (final_pivot b) (prob b i) then prob b i else 0) N) with (mass_from N (prob b) (final_pivot b)).
      rewrite <-Hl. field. lra.
    + intros i _. q_case; field; lra.
Qed.
End renormalized.

(** ** Runs *)

Module Example.
Definition row (l : list Q) (i : Z) : Q := nth (Z.to_nat i) l 0.
Definition fifth : list Q := [1 # 2; 1 # 5; 3 # 20; 1 # 10; 1 # 20].
Definition candidates : Z → Q := row [1 # 5; 1 # 20].
Definition huge : Q := inject_Z (2 ^ 127).

(** Of one half, one fifth and less, top-p 0.8 keeps the first three. *)
Lemma top_p_pivot_spec_witness :
  (∃ n x l, pivot_result 5 (row fifth) (4 # 5) x l ∧
    ∀ fuel, (n <= fuel)%nat → top_p_pivot 2 2 5 (row fifth) (4 # 5) huge candidates fuel = Some (Some x, Some l)) ∧
  ∃ x l, top_p_pivot 2 2 5 (row fifth) (4 # 5) huge candidates 10 = Some (Some x, Some l) ∧ x == 3 # 20 ∧ l == 17 # 20.
Proof.
  split.
  - apply (top_p_pivot_spec 2 2 5 (row fifth) (4 # 5) huge).
    + lia.
    + lia.
    + lia.
    + intros i Hi. unfold row, fifth. destruct (Z.to_nat i) as [|[|[|[|[|k]]]]]; try done. cbn. by destruct k.
    + reflexivity.
    + intros i Hi. unfold row, fifth. destruct (Z.to_nat i) as [|[|[|[|[|k]]]]]; try done. cbn. by destruct k.
    + reflexivity.
    + reflexivity.
    + intros i j Hi Hj. assert (i = 0 ∧ j = 0 ∨ i = 0 ∧ j = 1 ∨ i = 1 ∧ j = 1)%Z as [[-> ->]|[[-> ->]|[-> ->]]] by lia; done.
  - do 2 eexists. split; [vm_compute; reflexivity|]. vm_compute. by split_and!.
Defined.
Lemma top_p_renorm_spec_witness :
  sumQ (λ i, renormed (λ _, row fifth) (λ _, 1 # 8) (λ _, 17 # 20) (0%Z, i)) 5 == 1.
Proof.
  apply (proj2 (proj2 (top_p_renorm_spec 2 1 5 (λ _, row fifth) (λ _, 1 # 8) (λ _, 17 # 20) eq_refl eq_refl ∅)) 0%Z); reflexivity.
Defined.

(** Ten elements of 1.5e-7 and the rest in one: at the least pivot all are kept, and the sum that is written is that of the
    large one alone, so the row becomes more than a distribution. *)
Definition tail : Q := 15 # 100000000.
Definition long : list Q := (1 - 10 * tail) :: replicate 10 tail.
Lemma sum_at_least_pivot : ∃ l,
  top_p_pivot 2 1 11 (row long) (1 - (3 # 10000000)) huge (λ _, 2 # 10000000) 5 = Some (Some eps_LR, Some l) ∧
  l == 1 - 10 * tail ∧ mass_from 11 (row long) eps_LR == 1 ∧
  1 < sumQ (λ i, renormed (λ _, row long) (λ _, eps_LR) (λ _, l) (0%Z, i)) 11.
Proof. eexists. split; [vm_compute; reflexivity|]. vm_compute. by split_and!. Qed.
End Example.
