(* ===== verification/Sharding.v ===== *)
(** [support/tensor_parallel.py]: how a weight is cut into the shards of the devices.

    [gen_tir] is the program [ShardSingleDim.gen_tir] builds out of [te.compute] and the
    reshape, transpose and concatenation of [topi], run on tensors given by their elements.
    The theorems say which element of the weight each element of a shard is, and that every
    element of the weight goes to exactly one place of one shard. *)

From Stdlib Require Import Lia ZArith.
From stdpp Require Import base strings list list_numbers numbers.
From S2P Require Import Prelude.
Open Scope Z_scope.

(** [ShardSingleDim]. *)
Record ShardSingleDim := { shard_name : string; shard_dim : Z; segs : option (list Z) }.

(** ** Tensors by their elements *)

Definition product (s : list Z) : Z := foldr Z.mul 1 s.

Section tensors.
Context {E : Type}.

Record tensor := { sizes_of : list Z; elt : list Z → E }.

(** Row-major positions. *)
Fixpoint flat (s idx : list Z) : Z :=
  match s, idx with _ :: s, i :: idx => i * product s + flat s idx | _, _ => 0 end.
Fixpoint unflat (s : list Z) (n : Z) : list Z :=
  match s with [] => [] | _ :: s => n / product s :: unflat s (n mod product s) end.
(** [topi.reshape], [topi.transpose] and [topi.concatenate]. *)
Definition topi_reshape (t : tensor) (s : list Z) : tensor :=
  {| sizes_of := s; elt idx := elt t (unflat (sizes_of t) (flat s idx)) |}.
Fixpoint position (j : nat) (axes : list nat) : nat :=
  match axes with [] => 0 | a :: axes => if decide (a = j) then 0 else S (position j axes) end.
Definition topi_transpose (t : tensor) (axes : list nat) : tensor := {|
  sizes_of := (λ a, default 0 (sizes_of t !! a)) <$> axes;
  elt idx := elt t ((λ j, default 0 (idx !! position j axes)) <$> seq 0 (length axes)) |}.
Fixpoint pick (ws : list tensor) (axis : nat) (idx : list Z) (first : tensor) : E :=
  match ws with
  | [] => elt first idx
  | w :: ws =>
      let n := default 0 (sizes_of w !! axis) in let i := default 0 (idx !! axis) in
      if i <? n then elt w idx else pick ws axis (<[axis := i - n]> idx) first
  end.
Definition sumz (l : list Z) : Z := foldr Z.add 0 l.
Definition topi_concatenate (ws : list tensor) (axis : nat) : result tensor :=
  match ws with
  | [] => raise ValueError "concatenate takes at least one tensor"
  | w :: _ => Ok {|
      sizes_of := <[axis := sumz ((λ w, default 0 (sizes_of w !! axis)) <$> ws)]> (sizes_of w);
      elt idx := pick ws axis idx w |}
  end.

(** ** The program *)

(** [_compute_in_shape]. *)
Definition _compute_in_shape (dim : nat) (shards : Z) (shape : list Z) : list Z :=
  take dim shape ++ [default 0 (shape !! dim) * shards] ++ drop (S dim) shape.
(** A segment: cut along the dimension, the cuts moved to the front. *)
Definition segment (dim : nat) (shards : Z) (shape : list Z) (w : list Z → E) (sub_seg offset : Z) : tensor :=
  let compute := {|
    sizes_of := take dim shape ++ [sub_seg * shards] ++ drop (S dim) shape;
    elt idx := w (take dim idx ++ [default 0 (idx !! dim) + offset] ++ drop (S dim) idx) |} in
  let reshaped := topi_reshape compute (take dim shape ++ [shards; sub_seg] ++ drop (S dim) shape) in
  topi_transpose reshaped ([dim] ++ seq 0 dim ++ seq (dim + 1) (length shape + 1 - (dim + 1))).
(** The loop over the segments. *)
Fixpoint segments (dim : nat) (shards : Z) (shape : list Z) (w : list Z → E) (segs : list Z) (offset : Z) : list tensor :=
  match segs with
  | [] => []
  | sub_seg :: segs =>
      segment dim shards shape w sub_seg offset :: segments dim shards shape w segs (offset + sub_seg * shards)
  end.
Definition segs_of (self : ShardSingleDim) (shape : list Z) : list Z :=
  match segs self with Some (s :: l) => s :: l | _ => [default 0 (shape !! Z.to_nat (shard_dim self))] end.
(** A dimension is from 0 on, as in every strategy of the models: counting from the end is not modelled. *)
Definition gen_tir (self : ShardSingleDim) (shards : Z) (shape : list Z) (w : list Z → E) : result tensor :=
  let dim := Z.to_nat (shard_dim self) in
  let segs := segs_of self shape in
  _ ← py_assert (sumz segs =? default 0 (shape !! dim)) "";
  topi_concatenate (segments dim shards shape w segs 0) (1 + dim).

(** Where an element of a shard is in the weight: along the dimension, the segments of the
    weight are [shards] times as long, and a shard has its part of each. *)
Fixpoint source_index (segs : list Z) (shards offset r i : Z) : Z :=
  match segs with
  | [] => i + offset
  | s :: segs => if i <? s then r * s + i + offset else source_index segs shards (offset + s * shards) r (i - s)
  end.
Definition source (dim : nat) (segs : list Z) (shards : Z) (p : list Z) : list Z :=
  match p with
  | [] => []
  | r :: idx => take dim idx ++ [source_index segs shards 0 r (default 0 (idx !! dim))] ++ drop (S dim) idx
  end.
Definition in_box (s idx : list Z) : Prop := Forall2 (λ i d, 0 ≤ i < d) idx s.

(** ** Positions *)

Lemma product_app s s' : product (s ++ s') = product s * product s'.
Proof. induction s as [|d s IH]; cbn [product foldr app]; [unfold product; lia|]. unfold product in *. rewrite IH. lia. Qed.
Lemma product_cons d s : product (d :: s) = d * product s.
Proof. done. Qed.
Lemma flat_bounds s idx : in_box s idx → 0 ≤ flat s idx < product s.
Proof.
  induction 1 as [|i d idx s Hi _ IH]; [done|]. rewrite product_cons. cbn [flat]. nia.
Qed.
Lemma unflat_flat s idx : in_box s idx → unflat s (flat s idx) = idx.
Proof.
  induction 1 as [|i d idx s Hi H IH]; [done|]. cbn [flat unflat]. pose proof (flat_bounds _ _ H).
  rewrite Z.div_add_l, Z.div_small, Z.add_0_r by lia. f_equal.
  rewrite Z.add_comm, Z.mod_add, Z.mod_small by lia. done.
Qed.
(** Cutting a dimension in two does not move elements. *)
Lemma flat_split pre post a b n m r j :
  length a = length pre → flat (pre ++ [n; m] ++ post) (a ++ [r; j] ++ b) = flat (pre ++ [m * n] ++ post) (a ++ [r * m + j] ++ b).
Proof.
  revert a. induction pre as [|d pre IH]; intros [|i a] H; try done.
  - cbn [app flat]. rewrite product_cons. lia.
  - cbn [app flat]. injection H as H. cbn [app] in IH. rewrite (IH _ H), !product_app, !product_cons. lia.
Qed.
Lemma position_in (k i n : nat) l : (i ≤ k < i + n)%nat → position k (seq i n ++ l) = (k - i)%nat.
Proof.
  revert i. induction n as [|n IH]; intros i Hk; [lia|]. cbn. case_decide as Hi; [subst; lia|].
  rewrite IH by lia. lia.
Qed.
Lemma position_out (k i n : nat) l : ¬ (i ≤ k < i + n)%nat → position k (seq i n ++ l) = (n + position k l)%nat.
Proof.
  revert i. induction n as [|n IH]; intros i Hk; [done|]. cbn. rewrite decide_False by lia. by rewrite IH by lia.
Qed.

(** Moving the new dimension to the front. *)
Lemma permuted (a b : list Z) (r j : Z) :
  (λ k, default 0 ((r :: a ++ [j] ++ b) !! position k ([length a] ++ seq 0 (length a) ++ seq (length a + 1) (1 + length b))))
    <$> seq 0 (2 + length a + length b) = a ++ [r; j] ++ b.
Proof.
  apply list_eq. intros k. rewrite list_lookup_fmap.
  destruct (decide (k < 2 + length a + length b)%nat) as [Hk|Hk].
  2: { rewrite (proj2 (lookup_ge_None _ _)) by (rewrite length_seq; lia). cbn.
       symmetry. apply lookup_ge_None. rewrite !length_app. cbn. lia. }
  rewrite lookup_seq_lt by done. cbn [fmap option_fmap option_map Nat.add position]. cbn [app position].
  destruct (decide (k < length a)%nat) as [Ha|Ha]; [|destruct (decide (k = length a)) as [->|Hn]].
  - rewrite decide_False, position_in by lia. rewrite Nat.sub_0_r. destruct (lookup_lt_is_Some_2 a k Ha) as [x Hx].
    change (Some (default 0 ((a ++ j :: b) !! k)) = (a ++ r :: j :: b) !! k).
    by rewrite !(lookup_app_l_Some a _ k x Hx).
  - rewrite decide_True by done. by rewrite list_lookup_middle.
  - rewrite decide_False, position_out by lia. rewrite <-(app_nil_r (seq _ _)), position_in by lia. cbn [lookup list_lookup].
    replace (length a + (k - (length a + 1)))%nat with (k - 1)%nat by lia.
    rewrite (lookup_app_r a _ (k - 1)), (lookup_app_r a _ k) by lia.
    replace (k - length a)%nat with (S (k - 1 - length a)) by lia. cbn.
    destruct (lookup_lt_is_Some_2 (j :: b) (k - 1 - length a)) as [x Hx]; [cbn; lia|].
    by rewrite Hx.
Qed.

(** ** The elements of a shard *)

Lemma in_box_split (pre post : list Z) n idx :
  in_box (pre ++ [n] ++ post) idx →
  ∃ a i b, idx = a ++ [i] ++ b ∧ in_box pre a ∧ 0 ≤ i < n ∧ in_box post b.
Proof.
  intros (a & r & Ha & Hr & ->)%Forall2_app_inv_r. apply Forall2_app_inv_r in Hr as (i & b & Hi & Hb & ->).
  apply Forall2_cons_inv_r in Hi as (x & l & Hx & Hl & ->). apply Forall2_nil_inv_r in Hl as ->. by exists a, x, b.
Qed.
Lemma in_box_app pre post a b : in_box pre a → in_box post b → in_box (pre ++ post) (a ++ b).
Proof. apply Forall2_app. Qed.
Lemma in_box_length s idx : in_box s idx → length idx = length s.
Proof. apply Forall2_length. Qed.

Lemma drop_middle (pre post : list Z) n : drop (S (length pre)) (pre ++ [n] ++ post) = post.
Proof. rewrite app_assoc. apply drop_app_length'. rewrite length_app. cbn. lia. Qed.
Lemma lookup_middle (pre post : list Z) n : (pre ++ [n] ++ post) !! length pre = Some n.
Proof. by apply list_lookup_middle. Qed.
Lemma insert_middle (a b : list Z) i x : <[length a := x]> (a ++ [i] ++ b) = a ++ [x] ++ b.
Proof. by rewrite insert_app_r_alt, Nat.sub_diag by done. Qed.

Section shards.
Context (pre post : list Z) (shards : Z).

Lemma slice (p q r : list Z) : (λ k, default 0 ((p ++ q ++ r) !! k)) <$> seq (length p) (length q) = q.
Proof.
  apply list_eq. intros k. rewrite list_lookup_fmap. destruct (decide (k < length q)%nat) as [Hk|Hk].
  - rewrite lookup_seq_lt by done. cbn [fmap option_fmap option_map].
    destruct (lookup_lt_is_Some_2 q k Hk) as [x Hx].
    rewrite lookup_app_r by lia. replace (length p + k - length p)%nat with k by lia.
    by rewrite (lookup_app_l_Some q r k x Hx), Hx.
  - rewrite (proj2 (lookup_ge_None (seq _ _) _)) by (rewrite length_seq; lia). cbn.
    symmetry. apply lookup_ge_None. lia.
Qed.
(** The axes of the transposition. *)
Lemma axes_length n :
  (length (pre ++ [n] ++ post) + 1 - (length pre + 1) = S (length post))%nat.
Proof. rewrite !length_app. cbn. lia. Qed.
Lemma segment_sizes n w s offset :
  sizes_of (segment (length pre) shards (pre ++ [n] ++ post) w s offset) = shards :: pre ++ [s] ++ post.
Proof.
  unfold segment, topi_transpose, topi_reshape. cbn [sizes_of]. rewrite drop_middle, take_app_length, axes_length.
  rewrite !fmap_app. change (shards :: ?l) with ([shards] ++ l). f_equal; [cbn; by rewrite list_lookup_middle|].
  f_equal; [apply (slice [] pre)|].
  etrans; [|apply (slice (pre ++ [shards]) ([s] ++ post) [])].
  rewrite length_app, <-(app_assoc pre). cbn [app length]. by rewrite app_nil_r.
Qed.
Lemma segment_elt n (w : list Z → E) s offset r a j b :
  in_box pre a → in_box post b → 0 ≤ r < shards → 0 ≤ j < s →
  elt (segment (length pre) shards (pre ++ [n] ++ post) w s offset) (r :: a ++ [j] ++ b)
  = w (a ++ [r * s + j + offset] ++ b).
Proof.
  intros Ha Hb Hr Hj. pose proof (in_box_length _ _ Ha) as La. pose proof (in_box_length _ _ Hb) as Lb.
  unfold segment, topi_transpose, topi_reshape. cbn [elt sizes_of]. rewrite drop_middle, take_app_length, axes_length.
  replace (length ([length pre] ++ seq 0 (length pre) ++ seq (length pre + 1) (S (length post)))) with (2 + length a + length b)%nat
    by (rewrite !length_app, !length_seq; cbn; lia).
  rewrite <-Lb, <-La, permuted, flat_split, unflat_flat; [|by apply in_box_app; [|constructor; [nia|]]|done].
  by rewrite take_app_length, lookup_middle, drop_middle.
Qed.
(** All segments: the piece an index falls into. *)
Lemma pick_segments n (w : list Z → E) l r a i b offset first :
  in_box pre a → in_box post b → 0 ≤ r < shards → 0 ≤ i < sumz l → Forall (Z.le 0) l →
  pick (segments (length pre) shards (pre ++ [n] ++ post) w l offset) (S (length pre)) (r :: a ++ [i] ++ b) first
  = w (a ++ [source_index l shards offset r i] ++ b).
Proof.
  intros Ha Hb Hr. pose proof (in_box_length _ _ Ha) as La.
  revert i offset. induction l as [|s l IH]; intros i offset Hi Hl; [cbn in Hi; lia|].
  apply Forall_cons_1 in Hl as [Hs Hl]. cbn [sumz foldr] in Hi. fold (sumz l) in Hi. cbn [segments pick source_index].
  rewrite segment_sizes. change ((shards :: ?l) !! S ?k) with (l !! k). rewrite lookup_middle.
  change ((r :: ?l) !! S ?k) with (l !! k). rewrite <-La, lookup_middle at 1. cbn [default]. unfold id.
  destruct (Z.ltb_spec i s).
  - by rewrite segment_elt by (done || lia).
  - rewrite <-(IH (i - s)) by (done || lia). f_equal. rewrite <-La.
    change (r :: <[length a := default 0 ((a ++ [i] ++ b) !! length a) - s]> (a ++ [i] ++ b) = r :: a ++ [i - s] ++ b).
    by rewrite insert_middle, lookup_middle.
Qed.
Lemma segments_sizes n (w : list Z → E) l offset :
  (λ t, default 0 (sizes_of t !! S (length pre))) <$> segments (length pre) shards (pre ++ [n] ++ post) w l offset = l.
Proof.
  revert offset. induction l as [|s l IH]; intros offset; [done|]. cbn [segments fmap list_fmap].
  rewrite segment_sizes, IH. change ((shards :: ?l) !! S ?k) with (l !! k). by rewrite lookup_middle.
Qed.
End shards.

(** ** Every element goes to one place *)

Lemma sumz_nonneg l : Forall (Z.le 0) l → 0 ≤ sumz l.
Proof. induction 1; cbn; unfold sumz in *; lia. Qed.
Lemma source_index_range l shards offset r i :
  Forall (Z.le 0) l → 0 ≤ r < shards → 0 ≤ i < sumz l →
  offset ≤ source_index l shards offset r i < offset + shards * sumz l.
Proof.
  intros Hl Hr. revert offset i. induction Hl as [|s l Hs Hl IH]; intros offset i Hi; [cbn in Hi; lia|].
  apply sumz_nonneg in Hl. cbn [sumz foldr source_index] in *. fold (sumz l) in *. destruct (Z.ltb_spec i s); [nia|].
  specialize (IH (offset + s * shards) (i - s)). nia.
Qed.
Lemma source_index_onto l shards offset k :
  Forall (Z.le 0) l → 0 < shards → offset ≤ k < offset + shards * sumz l →
  ∃ r i, 0 ≤ r < shards ∧ 0 ≤ i < sumz l ∧ source_index l shards offset r i = k.
Proof.
  intros Hl Hn. revert offset k. induction Hl as [|s l Hs Hl IH]; intros offset k Hk; [cbn in Hk; lia|].
  apply sumz_nonneg in Hl.
  cbn [sumz foldr source_index] in *. fold (sumz l) in *. destruct (decide (k - offset < s * shards)) as [Hlt|Hge].
  - exists ((k - offset) / s), ((k - offset) mod s). assert (0 < s) by nia.
    pose proof (Z.mod_pos_bound (k - offset) s ltac:(lia)). pose proof (Z.div_mod (k - offset) s ltac:(lia)).
    assert (0 ≤ (k - offset) / s < shards) by (split; [apply Z.div_pos; lia|apply Z.div_lt_upper_bound; lia]).
    split_and!; try lia. destruct (Z.ltb_spec ((k - offset) mod s) s); lia.
  - destruct (IH (offset + s * shards) k) as (r & i & Hr & Hi & E1); [nia|].
    exists r, (i + s). split_and!; try lia. destruct (Z.ltb_spec (i + s) s); [lia|]. rewrite <-E1. f_equal. lia.
Qed.
Lemma source_index_inj l shards offset r i r' i' :
  Forall (Z.le 0) l → 0 ≤ r < shards → 0 ≤ i < sumz l → 0 ≤ r' < shards → 0 ≤ i' < sumz l →
  source_index l shards offset r i = source_index l shards offset r' i' → r = r' ∧ i = i'.
Proof.
  intros Hl Hr. revert offset i i'. induction Hl as [|s l Hs Hl IH]; intros offset i i' Hi Hr' Hi' E1; [cbn in Hi; lia|].
  cbn [sumz foldr source_index] in *. fold (sumz l) in *.
  pose proof (source_index_range l shards (offset + s * shards) r (i - s) Hl Hr) as R.
  pose proof (source_index_range l shards (offset + s * shards) r' (i' - s) Hl Hr') as R'.
  assert (∀ x, 0 ≤ x < shards → 0 ≤ x * s ∧ x * s + s ≤ s * shards) as B by (intros; nia).
  pose proof (B r Hr). pose proof (B r' Hr').
  destruct (Z.ltb_spec i s), (Z.ltb_spec i' s); [|lia..|].
  { destruct (Z.lt_trichotomy r r') as [?|[->|?]]; [nia|lia|nia]. }
  destruct (IH (offset + s * shards) (i - s) (i' - s)); lia.
Qed.

Lemma segs_of_nonempty self shape : segs_of self shape ≠ [].
Proof. unfold segs_of. destruct (segs self) as [[|]|]; done. Qed.
Lemma concatenated (pre post : list Z) shards n (w : list Z → E) l :
  l ≠ [] → Forall (Z.le 0) l →
  ∃ o, topi_concatenate (segments (length pre) shards (pre ++ [n] ++ post) w l 0) (S (length pre)) = Ok o ∧
    sizes_of o = shards :: pre ++ [sumz l] ++ post ∧
    ∀ r a i b, in_box pre a → in_box post b → 0 ≤ r < shards → 0 ≤ i < sumz l →
      elt o (r :: a ++ [i] ++ b) = w (a ++ [source_index l shards 0 r i] ++ b).
Proof.
  intros Hl Hpos. pose proof (segments_sizes pre post shards n w l 0) as Hs.
  pose proof (λ r a i b first, pick_segments pre post shards n w l r a i b 0 first) as Hp.
  destruct l as [|s l]; [done|]. cbn [segments] in *. eexists. split; [done|]. cbn [sizes_of elt]. split.
  - rewrite Hs, segment_sizes. change (<[S ?k := ?x]> (shards :: ?l)) with (shards :: <[k := x]> l). by rewrite insert_middle.
  - intros. by apply Hp.
Qed.

(** A program that makes of the weight one part per device, and loses and doubles no element. *)
Definition partitions (self : ShardSingleDim) (shards : Z) (shape : list Z) (w : list Z → E) : Prop :=
  let dim := Z.to_nat (shard_dim self) in
  ∃ o, gen_tir self shards shape w = Ok o ∧ sizes_of o = shards :: shape ∧
    (∀ p, in_box (shards :: shape) p →
      in_box (_compute_in_shape dim shards shape) (source dim (segs_of self shape) shards p) ∧
      elt o p = w (source dim (segs_of self shape) shards p)) ∧
    ∀ q, in_box (_compute_in_shape dim shards shape) q →
      exists! p, in_box (shards :: shape) p ∧ source dim (segs_of self shape) shards p = q.
Lemma gen_tir_parts (self : ShardSingleDim) (shards : Z) (shape : list Z) (w : list Z → E) :
  let dim := Z.to_nat (shard_dim self) in
  0 < shards → (dim < length shape)%nat → Forall (Z.le 0) (segs_of self shape) →
  sumz (segs_of self shape) = default 0 (shape !! dim) → partitions self shards shape w.
Proof.
  intros dim Hn Hdim Hpos Hsum. unfold partitions, gen_tir. fold dim. fold (segs_of self shape).
  destruct (lookup_lt_is_Some_2 shape dim Hdim) as [n Hlook]. rewrite Hlook in Hsum |- *. cbn [default] in Hsum |- *. unfold id in *.
  pose proof (take_drop_middle shape dim n Hlook) as Hshape. change (n :: ?l) with ([n] ++ l) in Hshape.
  assert (length (take dim shape) = dim) as Ldim by (rewrite length_take; lia).
  set (pre := take dim shape) in *. set (post := drop (S dim) shape) in *. set (l := segs_of self shape) in *.
  assert (_compute_in_shape dim shards shape = pre ++ [n * shards] ++ post) as ->.
  { unfold _compute_in_shape. by rewrite Hlook. }
  destruct (concatenated pre post shards n w l (segs_of_nonempty _ _) Hpos) as (o & Ho & Hsz & Helt).
  exists o. rewrite Hshape, Ldim in Ho. rewrite Hsum, Hshape in Hsz. rewrite Hsum, Z.eqb_refl. split_and!; [exact Ho|exact Hsz| |].
  - intros p Hp. apply Forall2_cons_inv_r in Hp as (r & idx & Hr & Hidx & ->).
    rewrite <-Hshape in Hidx. apply in_box_split in Hidx as (a & i & b & -> & Ha & Hi & Hb).
    pose proof (in_box_length _ _ Ha) as La. rewrite Ldim in La.
    unfold source. rewrite <-La, take_app_length, lookup_middle, drop_middle. cbn [default]. unfold id. split.
    + apply in_box_app; [done|]. constructor; [|done].
      pose proof (source_index_range l shards 0 r i Hpos Hr). lia.
    + apply Helt; try done. lia.
  - intros q Hq. apply in_box_split in Hq as (a & k & b & -> & Ha & Hk & Hb).
    pose proof (in_box_length _ _ Ha) as La. rewrite Ldim in La.
    destruct (source_index_onto l shards 0 k Hpos Hn) as (r & i & Hr & Hi & Hsrc); [lia|].
    exists (r :: a ++ [i] ++ b). split; [split|].
    + constructor; [done|]. rewrite <-Hshape. apply in_box_app; [done|]. constructor; [lia|done].
    + unfold source. rewrite <-La, take_app_length, lookup_middle, drop_middle. cbn [default]. unfold id. by rewrite Hsrc.
    + intros p [Hp Hpq]. apply Forall2_cons_inv_r in Hp as (r' & idx & Hr' & Hidx & ->).
      rewrite <-Hshape in Hidx. apply in_box_split in Hidx as (a' & i' & b' & -> & Ha' & Hi' & Hb').
      pose proof (in_box_length _ _ Ha') as La'. rewrite Ldim in La'.
      unfold source in Hpq. rewrite <-La', take_app_length, lookup_middle, drop_middle in Hpq. cbn [default] in Hpq. unfold id in Hpq.
      apply app_inj_1 in Hpq as [-> [= Hpq ->]]; [|lia]. rewrite <-Hsrc in Hpq.
      apply source_index_inj in Hpq as [-> ->]; try done; lia.
Qed.
(** C11. Sharding a weight by a dimension gives a tensor with one part per device, of the shape of the
    sharded parameter. Every element of a part is an element of the weight, and every
    element of the weight is in one part, at one place. *)
Theorem gen_tir_partition (self : ShardSingleDim) (shards : Z) (shape : list Z) (w : list Z → E) :
  let dim := Z.to_nat (shard_dim self) in
  0 < shards → (dim < length shape)%nat → Forall (Z.le 0) (segs_of self shape) →
  sumz (segs_of self shape) = default 0 (shape !! dim) →
  ∃ o, gen_tir self shards shape w = Ok o ∧ sizes_of o = shards :: shape ∧
    (∀ p, in_box (shards :: shape) p →
      in_box (_compute_in_shape dim shards shape) (source dim (segs_of self shape) shards p) ∧
      elt o p = w (source dim (segs_of self shape) shards p)) ∧
    ∀ q, in_box (_compute_in_shape dim shards shape) q →
      exists! p, in_box (shards :: shape) p ∧ source dim (segs_of self shape) shards p = q.
Proof. intros dim. apply gen_tir_parts. Qed.
End tensors.
Arguments tensor : clear implicits.

Module Example.
(** A weight of twelve rows for two devices, in segments of four and two rows per device. *)
Definition qkv : ShardSingleDim := {| shard_name := "_shard_qkv"; shard_dim := 0; segs := Some [4; 2] |}.
Example second_device : source 0 (segs_of qkv [6; 3]) 2 [1; 4; 2] = [10; 2].
Proof. reflexivity. Qed.
Lemma gen_tir_partition_witness :
  ∃ o, gen_tir qkv 2 [6; 3] id = Ok o ∧ sizes_of o = [2; 6; 3] ∧ elt o [1; 4; 2] = [10; 2].
Proof.
  destruct (gen_tir_partition qkv 2 [6; 3] id) as (o & Ho & Hs & He & _); [done|cbn; lia|repeat constructor; lia|done|].
  exists o. split; [exact Ho|]. split; [exact Hs|]. apply (He [1; 4; 2]). repeat constructor; lia.
Defined.
End Example.
