(* ===== verification/Network.v ===== *)
(** The vocabulary of the networks: the modules and operators of TVM's frontend
    ([tvm.relax.frontend.nn]) the model definitions are written in, the key-value cache of
    [nn/kv_cache.py], [model/model_utils.py], and what an exported network promises.

    TVM is not part of the repository: its operators are the class [NN], and the shapes
    and types its documentation gives them the class [NNLaws]. The laws say nothing about
    operands that do not fit, so the shape of a result can only be derived when all
    operands fit. *)

From Stdlib Require Import Lia ZArith.
From stdpp Require Import base gmap strings list list_numbers numbers pretty.
From S2P Require Import Prelude PyString PyObject Kernel Config Sharding.
Open Scope Z_scope.

(** ** Python numbers *)

(** The arithmetic of floats a network is built with, unevaluated. *)
Inductive number :=
  | Num (z : Z) | Lit (text : string) | Val (v : pyval)
  | Pow (a b : number) | Times (a b : number) | Over (a b : number) | Plus (a b : number) | Minus (a b : number) | Opp (a : number)
  | Call (f : string) (args : list number).

Definition is_none_num (n : number) : bool := match n with Val PNone => true | _ => false end.

(** ** Configurations *)

(** The attributes of a configuration, with the values of the symbolic sizes. Their types are
    those the dataclass declares. *)
Record settings := { fields : gmap string pyval; symbolic : string → Z }.
Definition int_of (c : settings) (k : string) : Z := match fields c !! k with Some (PInt z) => z | _ => 0 end.
Definition bool_of (c : settings) (k : string) : bool := match fields c !! k with Some (PBool b) => b | _ => false end.
Definition str_of (c : settings) (k : string) : string := match fields c !! k with Some (PStr s) => s | _ => "" end.
Definition is_none_val (v : pyval) : bool := match v with PNone => true | _ => false end.
Definition val_entries (v : pyval) : list (string * pyval) := match v with PDict d => d | _ => [] end.
Definition val_get (v : pyval) (k : string) : option pyval := dict_get k (val_entries v).
Definition val_append (v w : pyval) : pyval := match v, w with PList l, PList m => PList (l ++ m) | _, _ => PNone end.
Definition val_of (c : settings) (k : string) : pyval := default PNone (fields c !! k).
Notation "c .[ k ]" := (int_of c k) (at level 1, left associativity, format "c .[ k ]").
Notation "c .?[ k ]" := (bool_of c k) (at level 1, left associativity, format "c .?[ k ]").

(** Names of attributes along a path of modules. *)
Definition at_path (a b : string) : string := a +:+ "." +:+ b.
Infix "./" := at_path (at level 60, right associativity).

(** ** Operators *)

Inductive activation := Silu | Relu | Sigmoid | Tanh | Square | Gelu (approximate : pyval).
(** [ACT2FN], the table most models have: the names of activations. *)
Definition ACT2FN : list (string * activation) :=
  [("gelu", Gelu (PBool false)); ("relu", Relu); ("silu", Silu); ("swish", Silu); ("gelu_new", Gelu (PBool true))].
Inductive arithmetic := Add | Mul | Sub | Div | Maximum | Minimum.

(** The arguments of [mlc.create_paged_kv_cache_generic]. *)
Record cache_args := {
  attn_kind : pyval; max_batch_size : Z; max_total_seq_len : Z; prefill_chunk_size : Z; page_size : Z;
  support_sliding_window : Z; layer_partition : list Z; num_hidden_layers : Z; num_attention_heads : Z;
  num_key_value_heads : Z; qk_head_dim : Z; v_head_dim : Z; mla_original_qk_head_dim : Z;
  mla_original_v_head_dim : Z; rope_mode : string; rope_scale : number; rope_theta : number;
  rope_scaling : pyval; rope_ext_factors : pyval; rotary_dim : Z; enable_disaggregation : bool; dtype : string;
}.

Class NN := {
  T : Type;                                   (* tensors *)
  Cache : Type;                               (* the object of a key-value cache *)
  Elem : Type;                                (* elements of a tensor *)
  shape : T → list Z;
  dtype_of : T → string;
  at_ : T → list Z → Elem;
  (* a parameter: where it is in the module, its shape, a type of its own *)
  parameter : string → list Z → option string → T;
  (* reading an attribute that was not set *)
  undefined : T;
  linear : T → option T → option string → T → T;
  embedding : T → T → T;
  rms_norm : T → Z → number → option T → T → T;
  layer_norm : Z → number → option T → option T → T → T;
  activate : activation → T → T;
  arith : arithmetic → T → T → T;
  arith_scalar : arithmetic → T → number → T;
  matmul : T → T → option string → T;
  permute_dims : T → list Z → T;
  reshape : T → list Z → T;
  split_part : T → Z → Z → Z → T;             (* axis, first index, past the last index *)
  concat_tensors : list T → Z → T;
  take : T → T → Z → T;
  astype : T → string → T;
  broadcast_to : T → list Z → T;
  tensor_expr_op : string → list T → list Z → (list Z → Elem) → T;
  ccl_broadcast_from_worker0 : T → T;
  ccl_allreduce : T → string → T;
  pipeline_stage_boundary_op : T → T;
  (* the cache *)
  create_paged_kv_cache_generic : cache_args → Cache;
  layout : Cache → cache_args;
  attention_with_fused_qkv : Cache → Z → T → Z → number → T * Cache;
  get_query_positions : Cache → Z → T;
  int_of_number : number → Z;                 (* [int] of a float *)
}.

Declare Scope net_scope.
Delimit Scope net_scope with net.
Notation "x ⊕ y" := (arith Add x y) (at level 50, left associativity) : net_scope.
Notation "x ⊗ y" := (arith Mul x y) (at level 40, left associativity) : net_scope.
Notation "x ⊕' n" := (arith_scalar Add x n) (at level 50, left associativity) : net_scope.
Notation "x ⊗' n" := (arith_scalar Mul x n) (at level 40, left associativity) : net_scope.
Notation "x ⊘' n" := (arith_scalar Div x n) (at level 40, left associativity) : net_scope.
Open Scope net_scope.

Section operators.
Context {nn : NN}.

(** [x.shape], read as that many sizes. *)
Definition dim (x : T) (i : nat) : Z := default 0 (shape x !! i).
Definition dims2 (x : T) : Z * Z := (dim x 0, dim x 1).
Definition dims3 (x : T) : Z * Z * Z := (dim x 0, dim x 1, dim x 2).
(** The size of a dimension counted from the end. *)
Definition dim_at (x : T) (axis : Z) : Z :=
  default 0 (shape x !! Z.to_nat (if axis <? 0 then Z.of_nat (length (shape x)) + axis else axis)).
(** [op.split] into equal sections, and at indices. *)
Definition split2 (x : T) (axis : Z) : T * T :=
  let h := dim_at x axis / 2 in (split_part x axis 0 h, split_part x axis h (2 * h)).
Definition split_at2 (x : T) (i j axis : Z) : T * T * T :=
  (split_part x axis 0 i, split_part x axis i j, split_part x axis j (dim_at x axis)).

(** [index_last_token] of [model/model_utils.py]. *)
Definition index_last_token (x : T) : T :=
  let '(b, s, d) := dims3 x in
  tensor_expr_op "index" [x] [b; 1; d] (λ idx,
    match idx with [i; _; k] => at_ x [i; s - 1; k] | _ => at_ x idx end).
(** [pipeline_stage_boundary] of [op/pipeline_parallel.py], for one tensor. *)
Definition pipeline_stage_boundary (x : T) : T := pipeline_stage_boundary_op x.

(** [PagedKVCache.create_generic], with the arguments that have defaults optional. The flag of the
    environment for the layout of the cache that one path of Qwen3.5 reads is left out. *)
Definition create_generic (attn_kind : pyval)
    (max_batch_size max_total_seq_len prefill_chunk_size page_size support_sliding_window : Z)
    (num_hidden_layers num_attention_heads num_key_value_heads qk_head_dim v_head_dim : Z)
    (rope_mode : string) (rope_scale rope_theta : number) (dtype : string)
    (rotary_dim : option Z) (rope_scaling rope_ext_factors : pyval) (layer_partition : option (list Z))
    (enable_disaggregation : bool) : Cache :=
  create_paged_kv_cache_generic {|
    attn_kind := attn_kind; max_batch_size := max_batch_size; max_total_seq_len := max_total_seq_len;
    prefill_chunk_size := prefill_chunk_size; page_size := page_size; support_sliding_window := support_sliding_window;
    layer_partition := default [0; num_hidden_layers] layer_partition;
    num_hidden_layers := num_hidden_layers; num_attention_heads := num_attention_heads;
    num_key_value_heads := num_key_value_heads; qk_head_dim := qk_head_dim; v_head_dim := v_head_dim;
    mla_original_qk_head_dim := 0; mla_original_v_head_dim := 0;
    rope_mode := rope_mode; rope_scale := rope_scale; rope_theta := rope_theta;
    rope_scaling := (match rope_scaling with PNone => PDict [] | v => v end);
    rope_ext_factors := rope_ext_factors; rotary_dim := default qk_head_dim rotary_dim;
    enable_disaggregation := enable_disaggregation; dtype := dtype |}.

(** Parameters by name, below a module. *)
Definition params : Type := list (string * T).
Definition under (name : string) (l : params) : params := prod_map (at_path name) id <$> l.
(** [a // b]. *)
Definition floordiv (a b : Z) : result Z := if b =? 0 then raise OtherError "integer division or modulo by zero" else Ok (a / b).
(** A list of modules. *)
Definition list_params {L} (name : string) (f : L → params) (l : list L) : params :=
  concat (imap (λ i m, under (name ./ pretty (Z.of_nat i)) (f m)) l).
(** [nn.ModuleList([build for _ in range(n)])], and the loop over it. *)
Definition module_list {L} (path : string) (n : Z) (build : Z → string → result L) : result (list L) :=
  map_m (λ i, build i (path ./ pretty i)) (range n).
Definition for_layers {L S} (l : list L) (body : Z → L → S → S) (s : S) : S :=
  foldl (λ s p, body (Z.of_nat p.1) p.2 s) s (imap pair l).
End operators.

#[global] Arguments dims2 : simpl never.
#[global] Arguments dims3 : simpl never.
#[global] Arguments split2 : simpl never.
#[global] Arguments split_at2 : simpl never.
#[global] Arguments index_last_token : simpl never.
#[global] Arguments pipeline_stage_boundary : simpl never.
#[global] Arguments for_layers : simpl never.

(** ** The modules of the frontend *)

Module Linear.
Section linear.
Context {nn : NN}.
Record t := { weight : T; bias : option T; out_dtype : option string }.
Definition init (path : string) (in_features out_features : Z) (bias : bool) (dtype out_dtype : option string) : t := {|
  weight := parameter (path ./ "weight") [out_features; in_features] dtype;
  bias := if bias then Some (parameter (path ./ "bias") [out_features] (match out_dtype with Some d => Some d | None => dtype end)) else None;
  out_dtype := out_dtype |}.
Definition forward (self : t) (x : T) : T := linear self.(weight) self.(bias) self.(out_dtype) x.
Definition parameters (self : t) : params :=
  ("weight", self.(weight)) :: match self.(bias) with Some b => [("bias", b)] | None => [] end.
End linear.
End Linear.

Module Embedding.
Section embedding.
Context {nn : NN}.
Record t := { weight : T }.
Definition init (path : string) (num dim : Z) : t := {| weight := parameter (path ./ "weight") [num; dim] None |}.
Definition forward (self : t) (x : T) : T := embedding self.(weight) x.
Definition parameters (self : t) : params := [("weight", self.(weight))].
End embedding.
End Embedding.

Module RMSNorm.
Section norm.
Context {nn : NN}.
Record t := { weight : T; bias : option T; epsilon : number; axes : Z }.
Definition init (path : string) (hidden_size axes : Z) (epsilon : number) (bias : bool) : t := {|
  weight := parameter (path ./ "weight") [hidden_size] None;
  bias := if bias then Some (parameter (path ./ "bias") [hidden_size] None) else None;
  epsilon := epsilon; axes := axes |}.
Definition forward (self : t) (x : T) : T := rms_norm self.(weight) self.(axes) self.(epsilon) self.(bias) x.
Definition parameters (self : t) : params :=
  ("weight", self.(weight)) :: match self.(bias) with Some b => [("bias", b)] | None => [] end.
End norm.
End RMSNorm.

Module LayerNorm.
Section norm.
Context {nn : NN}.
Record t := { weight : option T; bias : option T; normalized_shape : Z; eps : number }.
Definition init (path : string) (normalized_shape : Z) (eps : number) (elementwise_affine : bool) : t := {|
  weight := if elementwise_affine then Some (parameter (path ./ "weight") [normalized_shape] None) else None;
  bias := if elementwise_affine then Some (parameter (path ./ "bias") [normalized_shape] None) else None;
  normalized_shape := normalized_shape; eps := eps |}.
Definition forward (self : t) (x : T) : T := layer_norm self.(normalized_shape) self.(eps) self.(weight) self.(bias) x.
Definition parameters (self : t) : params :=
  match self.(weight) with Some w => [("weight", w)] | None => [] end ++
  match self.(bias) with Some b => [("bias", b)] | None => [] end.
End norm.
End LayerNorm.

#[global] Arguments Linear.init : simpl never.
#[global] Arguments Linear.forward : simpl never.
#[global] Arguments Embedding.init : simpl never.
#[global] Arguments Embedding.forward : simpl never.
#[global] Arguments RMSNorm.init : simpl never.
#[global] Arguments RMSNorm.forward : simpl never.
#[global] Arguments LayerNorm.init : simpl never.
#[global] Arguments LayerNorm.forward : simpl never.

(** [shard_bias] of [support/tensor_parallel.py]: the bias a linear layer has meanwhile. *)
Definition shard_bias {nn : NN} (linear : Linear.t) (tensor_parallel_shards : Z) : Linear.t :=
  if tensor_parallel_shards >? 1 then
    {| Linear.weight := linear.(Linear.weight);
       Linear.bias := (λ b, b ⊘' Num tensor_parallel_shards) <$> linear.(Linear.bias);
       Linear.out_dtype := linear.(Linear.out_dtype) |}
  else linear.
#[global] Arguments shard_bias : simpl never.

(** ** Exported functions *)

(** [nn.spec]: the arguments of a function. *)
Inductive size := Fixed (n : Z) | Named (name : string).
Inductive arg_spec := STensor (sizes : list size) (dtype : string) | SObject | SInt.
Record method_spec := { arg_specs : list (string * arg_spec); param_mode : string; effect_mode : string }.
Definition mod_spec : Type := list (string * method_spec).
Definition packed (args : list (string * arg_spec)) : method_spec :=
  {| arg_specs := args; param_mode := "packed"; effect_mode := "none" |}.
Definition unpacked (args : list (string * arg_spec)) : method_spec :=
  {| arg_specs := args; param_mode := "none"; effect_mode := "none" |}.
(** Arguments and results, and a function with the names of its parameters. *)
Inductive value {nn : NN} := VTensor (t : T) | VCache (c : Cache) | VInt (z : Z).
Record method {nn : NN} := Method { arg_names : list string; run : list value → option (list value) }.
Arguments Method {nn} _ _.

Section methods.
Context {nn : NN}.
Definition method_t (f : T → T) : list value → option (list value) := λ vs,
  match vs with [VTensor x] => Some [VTensor (f x)] | _ => None end.
Definition method_tt (f : T → T → T) : list value → option (list value) := λ vs,
  match vs with [VTensor x; VTensor y] => Some [VTensor (f x y)] | _ => None end.
Definition method_tc (f : T → Cache → T * Cache) : list value → option (list value) := λ vs,
  match vs with
  | [VTensor x; VCache c] => let '(o, c) := f x c in Some [VTensor o; VCache c]
  | _ => None
  end.
Definition method_ttc (f : T → T → Cache → T * Cache) : list value → option (list value) := λ vs,
  match vs with
  | [VTensor x; VTensor y; VCache c] => let '(o, c) := f x y c in Some [VTensor o; VCache c]
  | _ => None
  end.
Definition method_ints (f : Z → Z → Z → Z → Z → Cache) : list value → option (list value) := λ vs,
  match vs with
  | [VInt a; VInt b; VInt c; VInt d; VInt e] => Some [VCache (f a b c d e)]
  | _ => None
  end.
End methods.
