(* ===== verification/Shapes.v ===== *)
(** What the operators of [Network] promise about shapes, and the tactics that derive the
    shapes of a network from it. *)

From Stdlib Require Import Lia ZArith.
From stdpp Require Import base gmap strings list list_numbers numbers pretty.
From S2P Require Import Prelude PyString PyObject Kernel Config Sharding Network.
Open Scope Z_scope.

(** ** What the operators promise *)

(** The shape of two tensors combined element by element. *)
Fixpoint broadcast_rev (s s' : list Z) : option (list Z) :=
  match s, s' with
  | [], s' => Some s'
  | s, [] => Some s
  | d :: s, d' :: s' =>
      l ← broadcast_rev s s';
      if d =? d' then Some (d :: l) else if d =? 1 then Some (d' :: l) else if d' =? 1 then Some (d :: l) else None
  end.
Definition broadcast (s s' : list Z) : option (list Z) := reverse <$> broadcast_rev (reverse s) (reverse s').
(** The position of an axis that may be counted from the end, and a shape with another
    size there. *)
Definition axis_of (s : list Z) (axis : Z) : nat := Z.to_nat (if axis <? 0 then Z.of_nat (length s) + axis else axis).
Definition resize (s : list Z) (axis n : Z) : list Z := <[axis_of s axis := n]> s.
Definition size_at (s : list Z) (axis : Z) : Z := default 0 (s !! axis_of s axis).
Fixpoint replace_last (s : list Z) (n : Z) : list Z :=
  match s with [] => [] | [_] => [n] | d :: s => d :: replace_last s n end.
Fixpoint last_size (s : list Z) : Z := match s with [] => 0 | [d] => d | _ :: s => last_size s end.

(** The part of its arguments a cache checks its uses against. *)
Record heads := { n_layers : Z; q_heads : Z; kv_heads : Z; head_size : Z; value_size : Z }.
Definition heads_of (l : cache_args) : heads := {|
  n_layers := num_hidden_layers l; q_heads := num_attention_heads l; kv_heads := num_key_value_heads l;
  head_size := qk_head_dim l; value_size := v_head_dim l |}.

Class NNLaws (nn : NN) : Prop := {
  shape_parameter n s d : shape (parameter n s d) = s;
  shape_linear w b dt x o i :
    shape w = [o; i] → (∀ v, b = Some v → shape v = [o]) → last_size (shape x) = i →
    shape (linear w b dt x) = replace_last (shape x) o;
  shape_embedding w x v h : shape w = [v; h] → shape (embedding w x) = shape x ++ [h];
  shape_rms_norm w eps b x h :
    shape w = [h] → (∀ v, b = Some v → shape v = [h]) → last_size (shape x) = h → shape (rms_norm w (-1) eps b x) = shape x;
  shape_layer_norm h eps w b x :
    (∀ v, w = Some v → shape v = [h]) → (∀ v, b = Some v → shape v = [h]) → last_size (shape x) = h →
    shape (layer_norm h eps w b x) = shape x;
  shape_activate f x : shape (activate f x) = shape x;
  shape_arith o x y s : broadcast (shape x) (shape y) = Some s → shape (arith o x y) = s;
  shape_arith_scalar o x n : shape (arith_scalar o x n) = shape x;
  shape_matmul x w dt i o : shape w = [i; o] → last_size (shape x) = i → shape (matmul x w dt) = replace_last (shape x) o;
  shape_transpose x m n : shape x = [m; n] → shape (permute_dims x []) = [n; m];
  shape_reshape x s : product s = product (shape x) → shape (reshape x s) = s;
  shape_split_part x axis i j : 0 ≤ i ≤ j → j ≤ size_at (shape x) axis → shape (split_part x axis i j) = resize (shape x) axis (j - i);
  shape_concat3 x y z axis :
    resize (shape y) axis 0 = resize (shape x) axis 0 → resize (shape z) axis 0 = resize (shape x) axis 0 →
    shape (concat_tensors [x; y; z] axis) =
      resize (shape x) axis (size_at (shape x) axis + size_at (shape y) axis + size_at (shape z) axis);
  shape_take x i axis n : shape i = [n] → shape (take x i axis) = resize (shape x) axis n;
  shape_astype x d : shape (astype x d) = shape x;
  shape_tensor_expr_op name l s f : shape (tensor_expr_op name l s f) = s;
  shape_ccl_broadcast x : shape (ccl_broadcast_from_worker0 x) = shape x;
  shape_ccl_allreduce x o : shape (ccl_allreduce x o) = shape x;
  shape_pipeline x : shape (pipeline_stage_boundary_op x) = shape x;
  layout_create a : layout (create_paged_kv_cache_generic a) = a;
  attention_shape c i qkv n scale b s o c' k :
    attention_with_fused_qkv c i qkv n scale = (o, c') → heads_of (layout c) = k → 0 ≤ i < n_layers k → n = q_heads k →
    shape qkv = [b; s; q_heads k + kv_heads k + kv_heads k; head_size k] →
    shape o = [b; s; q_heads k; value_size k] ∧ layout c' = layout c;
  shape_query_positions c n : shape (get_query_positions c n) = [n];
  dtype_astype x d : dtype_of (astype x d) = d;
  dtype_matmul x w d : dtype_of (matmul x w (Some d)) = d;
  dtype_linear w b x d : dtype_of (linear w b (Some d) x) = d;
  dtype_activate f x : dtype_of (activate f x) = dtype_of x;
  dtype_arith_scalar o x n : dtype_of (arith_scalar o x n) = dtype_of x;
}.

(** ** Rules *)

(** The laws in the form in which they are applied: from the shapes of the operands. *)
Section rules.
Context {nn : NN} {laws : NNLaws nn}.

Lemma linear_rule w b dt o i x s r :
  shape w = [o; i] → (∀ v, b = Some v → shape v = [o]) → shape x = s → last_size s = i → r = replace_last s o →
  shape (linear w b dt x) = r.
Proof. intros Hw Hb Hx Hi ->. rewrite <-Hx. eapply shape_linear; [done|done|by rewrite Hx]. Qed.
Lemma linear_forward path i o bias dt od x s r :
  shape x = s → last_size s = i → r = replace_last s o → shape (Linear.forward (Linear.init path i o bias dt od) x) = r.
Proof.
  intros. eapply linear_rule; [apply shape_parameter| |done..].
  intros v. cbn. destruct bias; [intros [= <-]; apply shape_parameter|done].
Qed.
Lemma biased_forward path i o bias dt od tp x s r :
  shape x = s → last_size s = i → r = replace_last s o →
  shape (Linear.forward (shard_bias (Linear.init path i o bias dt od) tp) x) = r.
Proof.
  intros. unfold shard_bias. destruct (tp >? 1); [|by eapply linear_forward].
  eapply linear_rule; [apply shape_parameter| |done..].
  intros v. cbn. destruct bias; [|done]. intros [= <-]. rewrite shape_arith_scalar. apply shape_parameter.
Qed.
Lemma embedding_forward path n h x s r :
  shape x = s → r = s ++ [h] → shape (Embedding.forward (Embedding.init path n h) x) = r.
Proof. intros <- ->. eapply shape_embedding, shape_parameter. Qed.
Lemma rms_norm_forward path h eps b x s :
  shape x = s → last_size s = h → shape (RMSNorm.forward (RMSNorm.init path h (-1) eps b) x) = s.
Proof.
  intros <- Hs. eapply shape_rms_norm; [apply shape_parameter| |done].
  intros v. cbn. destruct b; [intros [= <-]; apply shape_parameter|done].
Qed.
Lemma layer_norm_forward path h eps a x s :
  shape x = s → last_size s = h → shape (LayerNorm.forward (LayerNorm.init path h eps a) x) = s.
Proof.
  intros <- Hs. apply shape_layer_norm; [| |done]; intros v; cbn; (destruct a; [intros [= <-]; apply shape_parameter|done]).
Qed.
Lemma layer_norm_rule h eps w x s :
  shape w = [h] → shape x = s → last_size s = h → shape (layer_norm h eps (Some w) None x) = s.
Proof. intros Hw <- Hs. apply shape_layer_norm; [by intros v [= <-]|done|done]. Qed.
Lemma activate_rule f x s : shape x = s → shape (activate f x) = s.
Proof. intros <-. apply shape_activate. Qed.
Lemma arith_scalar_rule o x n s : shape x = s → shape (arith_scalar o x n) = s.
Proof. intros <-. apply shape_arith_scalar. Qed.
Lemma broadcast_same s : broadcast s s = Some s.
Proof.
  unfold broadcast. assert (∀ l, broadcast_rev l l = Some l) as ->; [|by rewrite <-(reverse_involutive s) at 2].
  induction l as [|d l IH]; [done|]. cbn. by rewrite IH, Z.eqb_refl.
Qed.
Lemma arith_rule o x y s : shape x = s → shape y = s → shape (arith o x y) = s.
Proof. intros Hx Hy. apply shape_arith. rewrite Hx, Hy. apply broadcast_same. Qed.
(** Rows added to each sequence. *)
Lemma arith_rows_rule o x y b s h : shape x = [b; s; h] → shape y = [s; h] → shape (arith o x y) = [b; s; h].
Proof.
  intros Hx Hy. apply shape_arith. rewrite Hx, Hy. unfold broadcast. cbn. by rewrite !Z.eqb_refl.
Qed.
Lemma matmul_transposed w x dt i o s r :
  shape w = [o; i] → shape x = s → last_size s = i → r = replace_last s o → shape (matmul x (permute_dims w []) dt) = r.
Proof. intros Hw Hx Hi ->. rewrite <-Hx. eapply shape_matmul; [by eapply shape_transpose|by rewrite Hx]. Qed.
Lemma embedding_weight path n h : shape (Embedding.weight (Embedding.init path n h)) = [n; h].
Proof. apply shape_parameter. Qed.
Lemma reshape_rule x s s' r : shape x = s → product s' = product s → r = s' → shape (reshape x s') = r.
Proof. intros <- H ->. by apply shape_reshape. Qed.
Lemma attention_rule c i qkv n scale b s m d o c' k :
  attention_with_fused_qkv c i qkv n scale = (o, c') → heads_of (layout c) = k → 0 ≤ i < n_layers k → n = q_heads k →
  shape qkv = [b; s; m; d] → m = q_heads k + kv_heads k + kv_heads k → d = head_size k →
  shape o = [b; s; q_heads k; value_size k] ∧ layout c' = layout c.
Proof. intros E Hk Hi Hn Hs -> ->. by eapply attention_shape. Qed.
Lemma split_part_rule x axis i j s r :
  shape x = s → 0 ≤ i ≤ j → j ≤ size_at s axis → r = resize s axis (j - i) → shape (split_part x axis i j) = r.
Proof. intros <- Hi Hj ->. by apply shape_split_part. Qed.
Lemma dim_at_size (x : T) axis : dim_at x axis = size_at (shape x) axis.
Proof. done. Qed.
Lemma split2_rule x axis s k a b :
  split2 x axis = (a, b) → shape x = s → size_at s axis = 2 * k → 0 ≤ k →
  shape a = resize s axis k ∧ shape b = resize s axis k.
Proof.
  unfold split2. intros [= <- <-] Hx Hk H. rewrite dim_at_size, Hx, Hk, Z.mul_comm, Z.div_mul by done.
  split; (eapply split_part_rule; [exact Hx|lia|rewrite Hk; lia|f_equal; lia]).
Qed.
Lemma split_at2_rule x i j axis s a b d :
  split_at2 x i j axis = (a, b, d) → shape x = s → 0 ≤ i ≤ j → j ≤ size_at s axis →
  shape a = resize s axis i ∧ shape b = resize s axis (j - i) ∧ shape d = resize s axis (size_at s axis - j).
Proof.
  unfold split_at2. intros [= <- <- <-] Hx Hi Hj. rewrite dim_at_size, Hx.
  split_and!; (eapply split_part_rule; [exact Hx|lia|lia|f_equal; lia]).
Qed.
Lemma concat3_rule x y z axis s1 s2 s3 r :
  shape x = s1 → shape y = s2 → shape z = s3 → resize s2 axis 0 = resize s1 axis 0 → resize s3 axis 0 = resize s1 axis 0 →
  r = resize s1 axis (size_at s1 axis + size_at s2 axis + size_at s3 axis) → shape (concat_tensors [x; y; z] axis) = r.
Proof. intros <- <- <- H1 H2 ->. by apply shape_concat3. Qed.
Lemma take_rule x i axis n s r : shape x = s → shape i = [n] → r = resize s axis n → shape (take x i axis) = r.
Proof. intros <- Hi ->. by apply shape_take. Qed.
Lemma astype_rule x d s : shape x = s → shape (astype x d) = s.
Proof. intros <-. apply shape_astype. Qed.
Lemma index_last_rule x b s d : shape x = [b; s; d] → shape (index_last_token x) = [b; 1; d].
Proof. intros Hx. unfold index_last_token, dims3, dim. rewrite Hx. apply shape_tensor_expr_op. Qed.
Lemma ccl_broadcast_rule x s : shape x = s → shape (ccl_broadcast_from_worker0 x) = s.
Proof. intros <-. apply shape_ccl_broadcast. Qed.
Lemma ccl_allreduce_rule x o s : shape x = s → shape (ccl_allreduce x o) = s.
Proof. intros <-. apply shape_ccl_allreduce. Qed.
Lemma pipeline_rule x s : shape x = s → shape (pipeline_stage_boundary x) = s.
Proof. intros <-. apply shape_pipeline. Qed.

(** ** Modules *)

(** The sizes of a configuration are no negative numbers, and those something is divided by
    are not zero. *)
Definition size_fields : list string := [
  "hidden_size"; "intermediate_size"; "num_attention_heads"; "num_key_value_heads"; "head_dim"; "tensor_parallel_shards";
  "num_hidden_layers"; "n_embd"; "n_head"; "n_inner"; "n_layer"; "n_head_kv"; "ffn_hidden_size"; "num_layers";
  "multi_query_group_num"; "moe_intermediate_size"; "shared_expert_intermediate_size"; "num_experts"; "num_experts_per_tok";
  "num_local_experts"; "n_routed_experts"; "n_shared_experts"].
Definition divisors : list string := ["tensor_parallel_shards"; "pipeline_parallel_stages"; "num_attention_heads"; "n_head"].
Definition natural (config : settings) : Prop :=
  (∀ k, k ∈ size_fields → 0 ≤ config.[k]) ∧ (∀ k, k ∈ divisors → config.[k] = 0 → fields config !! k = None).

(** A module that keeps the shape, a layer that reads and writes the cache at its index,
    and a network that runs its layers on a cache. *)
Definition maps_shape (h h' : Z) (f : T → T) : Prop := ∀ x b s, shape x = [b; s; h] → shape (f x) = [b; s; h'].
Definition attends (h : Z) (k : heads) (f : T → Cache → Z → T * Cache) : Prop := ∀ x c i b s o c',
  f x c i = (o, c') → shape x = [b; s; h] → heads_of (layout c) = k → 0 ≤ i < n_layers k →
  shape o = [b; s; h] ∧ layout c' = layout c.
Definition runs (h : Z) (k : heads) (f : T → Cache → T * Cache) : Prop := ∀ x c b s o c',
  f x c = (o, c') → shape x = [b; s; h] → heads_of (layout c) = k → shape o = [b; s; h] ∧ layout c' = layout c.

Lemma maps_use h h' f x b s : maps_shape h h' f → shape x = [b; s; h] → shape (f x) = [b; s; h'].
Proof. intros Hf. apply Hf. Qed.

Lemma dtype_converted x d : dtype_of (if negb (bool_decide (dtype_of x = d)) then astype x d else x) = d.
Proof. case_bool_decide; [done|]. apply dtype_astype. Qed.

Lemma attends_use h k f x c i b s o c' :
  f x c i = (o, c') → attends h k f → shape x = [b; s; h] → heads_of (layout c) = k → 0 ≤ i < n_layers k →
  shape o = [b; s; h] ∧ layout c' = layout c.
Proof. intros E Hf. by eapply Hf. Qed.
Lemma runs_use h k f x c b s o c' :
  f x c = (o, c') → runs h k f → shape x = [b; s; h] → heads_of (layout c) = k →
  shape o = [b; s; h] ∧ layout c' = layout c.
Proof. intros E Hf. by eapply Hf. Qed.

Lemma module_list_Ok {L} path n (build : Z → string → result L) l :
  module_list path n build = Ok l → Z.of_nat (length l) = Z.max 0 n ∧
  ∀ i m, l !! i = Some m → build (Z.of_nat i) (path ./ pretty (Z.of_nat i)) = Ok m.
Proof.
  unfold module_list. intros H. split.
  - apply map_m_length in H. rewrite H. unfold range. rewrite length_seqZ. lia.
  - intros i m Hm. apply map_m_Ok in H. destruct (Forall2_lookup_r _ _ _ _ _ H Hm) as (j & Hj & E).
    unfold range in Hj. apply lookup_seqZ in Hj as [-> _]. done.
Qed.
Lemma for_layers_ok {L S} (l : list L) (body : Z → L → S → S) (P : S → Prop) s :
  P s → (∀ i m s, l !! i = Some m → P s → P (body (Z.of_nat i) m s)) → P (for_layers l body s).
Proof.
  unfold for_layers. intros Hs Hb.
  assert (∀ p, p ∈ imap pair l → l !! p.1 = Some p.2) as Hl.
  { intros [i m] H. apply elem_of_lookup_imap in H as (j & y & [= <- <-] & H). done. }
  revert s Hs. induction (imap pair l) as [|[i m] k IH]; intros s Hs; [done|]. cbn. apply IH.
  - intros p Hp. apply Hl. by right.
  - apply (Hb i m); [|done]. apply (Hl (i, m)). by left.
Qed.
Lemma py_assert_eqb (a b : Z) msg u : py_assert (a =? b) msg = Ok u → a = b.
Proof. unfold py_assert. destruct (Z.eqb_spec a b); done. Qed.

(** ** Exported functions *)

Definition size_of (sym : string → Z) (s : size) : Z := match s with Fixed n => n | Named k => sym k end.
(** An argument as the specification has it; a cache must have the layers and heads of the
    network's own. *)
Definition conforms (sym : string → Z) (k : heads) (a : arg_spec) (v : value) : Prop :=
  match a, v with
  | STensor l d, VTensor t => shape t = size_of sym <$> l ∧ dtype_of t = d
  | SObject, VCache c => heads_of (layout c) = k
  | SInt, VInt _ => True
  | _, _ => False
  end.
(** What an exported function returns: a tensor whose last size is the vocabulary (in 32-bit
    floats) or the hidden size, with the cache if it has one, or a new cache. *)
Inductive result_spec := Logits (l : list size) | Hidden (l : list size) | NewCache.
Definition results_of : list (string * result_spec) := [
  ("embed", Hidden [Named "seq_len"]);
  ("get_logits", Logits [Named "seq_len"]);
  ("batch_select_last_hidden_states", Hidden [Named "batch_size"]);
  ("prefill", Logits [Fixed 1; Fixed 1]);
  ("decode", Logits [Fixed 1; Fixed 1]);
  ("batch_prefill", Logits [Fixed 1; Named "batch_size"]);
  ("batch_decode", Logits [Named "batch_size"; Fixed 1]);
  ("batch_verify", Logits [Fixed 1; Named "seq_len"]);
  ("prefill_to_last_hidden_states", Hidden [Fixed 1; Named "seq_len"]);
  ("decode_to_last_hidden_states", Hidden [Fixed 1; Fixed 1]);
  ("batch_prefill_to_last_hidden_states", Hidden [Fixed 1; Named "seq_len"]);
  ("batch_decode_to_last_hidden_states", Hidden [Named "batch_size"; Fixed 1]);
  ("batch_verify_to_last_hidden_states", Hidden [Fixed 1; Named "seq_len"]);
  ("create_paged_kv_cache", NewCache)].
Definition returns (sym : string → Z) (h v : Z) (k : heads) (r : result_spec) (vs : list value) : Prop :=
  match r, vs with
  | Logits l, VTensor t :: rest =>
      shape t = (size_of sym <$> l) ++ [v] ∧ dtype_of t = "float32" ∧
      match rest with [] => True | [VCache c] => heads_of (layout c) = k | _ => False end
  | Hidden l, VTensor t :: rest =>
      shape t = (size_of sym <$> l) ++ [h] ∧
      match rest with [] => True | [VCache c] => heads_of (layout c) = k | _ => False end
  | NewCache, [VCache c] => heads_of (layout c) = k
  | _, _ => False
  end.
(** Every function of the specification is a method with the parameters it names, and
    arguments as it has them give the results above. *)
Definition well_typed (h v : Z) (k : heads) (spec : mod_spec) (methods : list (string * method)) : Prop :=
  ∀ f sp, (f, sp) ∈ spec → ∃ m r,
    dict_get f methods = Some m ∧ dict_get f results_of = Some r ∧ arg_names m = (arg_specs sp).*1 ∧
    ∀ sym vs, Forall2 (conforms sym k) (arg_specs sp).*2 vs → match run m vs with Some rs => returns sym h v k r rs | None => False end.
End rules.

(** ** Tactics *)

(** The sizes of a shape, equal as integers. *)
Ltac natural_size :=
  lazymatch goal with
  | |- 0 ≤ _ * _ => apply Z.mul_nonneg_nonneg; natural_size
  | |- 0 ≤ _ + _ => apply Z.add_nonneg_nonneg; natural_size
  | |- 0 ≤ _ / _ => apply Z_div_nonneg_nonneg; natural_size
  | H : natural ?c |- 0 ≤ ?c.[_] => apply (proj1 H); apply (bool_decide_unpack _); vm_compute; exact I
  | |- _ => lia
  end.
Ltac sizes :=
  unfold id, size_at, resize;
  repeat match goal with
  | |- context [axis_of ?s ?a] => let n := eval vm_compute in (axis_of s a) in change (axis_of s a) with n
  end;
  cbn -[Z.mul Z.add Z.sub Z.div Z.modulo int_of];
  repeat match goal with E : int_of ?c ?k = _ |- context [int_of ?c ?k] => rewrite E end; rewrite ?Z.div_1_r;
  lazymatch goal with
  | |- @eq (list Z) _ _ => repeat (first [reflexivity | f_equal]); first [reflexivity | lia | ring]
  | |- @eq Z _ _ => first [reflexivity | lia | ring | congruence]
  | |- 0 ≤ _ => natural_size
  | |- 0 ≤ _ ≤ _ => split; [natural_size|]; first [lia | apply Z.le_0_sub; ring_simplify; natural_size]
  | |- _ ≤ _ => first [lia | apply Z.le_0_sub; ring_simplify; natural_size]
  | |- _ => done
  end.
Create HintDb modules.
(** The shape of an expression. *)
Ltac infer :=
  cbv beta iota zeta delta [negb andb orb];
  lazymatch goal with
  | H : shape ?x = _ |- shape ?x = _ => exact H
  | |- shape (if ?b then _ else _) = _ => destruct b; infer
  | |- shape (match (if ?b then _ else _) with Some _ => _ | None => _ end) = _ => destruct b; infer
  | |- shape (match ?x with Some _ => _ | None => _ end) = _ => destruct x; infer
  | |- shape (Linear.forward (Linear.init _ _ _ _ _ _) _) = _ => eapply linear_forward; [infer|sizes|sizes]
  | |- shape (Linear.forward (shard_bias _ _) _) = _ => eapply biased_forward; [infer|sizes|sizes]
  | |- shape (Embedding.forward _ _) = _ => eapply embedding_forward; [infer|sizes]
  | |- shape (RMSNorm.forward _ _) = _ => eapply rms_norm_forward; [infer|sizes]
  | |- shape (LayerNorm.forward _ _) = _ => eapply layer_norm_forward; [infer|sizes]
  | |- shape (layer_norm _ _ (Some _) None _) = _ => eapply layer_norm_rule; [infer|infer|sizes]
  | |- shape (activate _ _) = _ => eapply activate_rule; infer
  | |- shape (arith_scalar _ _ _) = _ => eapply arith_scalar_rule; infer
  | |- shape (arith _ _ _) = _ => first [eapply arith_rule; [infer|infer] | eapply arith_rows_rule; [infer|infer]]
  | |- shape (matmul _ (permute_dims _ []) _) = _ => eapply matmul_transposed; [apply embedding_weight|infer|sizes|sizes]
  | |- shape (reshape _ _) = _ => eapply reshape_rule; [infer|sizes|sizes]
  | |- shape (split_part _ _ _ _) = _ => eapply split_part_rule; [infer|sizes|sizes|sizes]
  | |- shape (concat_tensors _ _) = _ => eapply concat3_rule; [infer|infer|infer|sizes|sizes|sizes]
  | |- shape (take _ _ _) = _ => eapply take_rule; [infer|infer|sizes]
  | |- shape (astype _ _) = _ => eapply astype_rule; infer
  | |- shape (index_last_token _) = _ => eapply index_last_rule; infer
  | |- shape (ccl_broadcast_from_worker0 _) = _ => eapply ccl_broadcast_rule; infer
  | |- shape (ccl_allreduce _ _) = _ => eapply ccl_allreduce_rule; infer
  | |- shape (pipeline_stage_boundary _) = _ => eapply pipeline_rule; infer
  | |- shape (parameter _ _ _) = _ => apply shape_parameter
  | |- shape (get_query_positions _ _) = _ => apply shape_query_positions
  | |- shape (_ _ _) = _ => eapply maps_use; [solve [eauto with modules]|infer]
  end.
(** Build a module: its parts and the record of its attributes. *)
Ltac built H :=
  repeat match type of H with
  | (let _ := _ in _) = Ok _ => cbv zeta in H
  | _ ≫= _ = Ok _ => let a := fresh "m" in let Ha := fresh "Hm" in apply bind_Ok in H as (a & Ha & H)
  end; injection H as <-;
  repeat match goal with Ha : py_assert (_ =? _) _ = Ok _ |- _ => apply py_assert_eqb in Ha end.
(** What a step of a computation gives, from the equation that binds its results. *)
Ltac use E :=
  lazymatch type of E with
  | split2 _ _ = _ =>
      eapply split2_rule in E as [? ?];
      [|infer|cbn; first [eassumption | reflexivity | apply Z.mul_comm]|sizes]
  | split_at2 _ _ _ _ = _ => eapply split_at2_rule in E as (? & ? & ?); [|infer|sizes|sizes]
  | attention_with_fused_qkv _ _ _ _ _ = _ =>
      eapply attention_rule in E as [? ?]; [|first [eassumption | congruence]|eassumption|sizes|infer|sizes|sizes]
  | _ ?a = _ =>
      lazymatch type of a with
      | Z => eapply attends_use in E as [? ?]; [|solve [eauto with modules]|infer|first [eassumption | congruence]|eassumption]
      | _ => eapply runs_use in E as [? ?]; [|solve [eauto with modules]|infer|first [eassumption | congruence]]
      end
  end.
(** Follow the steps of a computation, the innermost first. *)
Ltac innermost e k := lazymatch e with match ?e' with (_, _) => _ end => innermost e' k | _ => k e end.
Ltac step e := innermost e ltac:(fun e => let E := fresh "E" in destruct e eqn:E; try lazymatch type of E with split_at2 _ _ _ _ = (?p, _) => destruct p end; use E).
Ltac walk :=
  repeat (cbv beta zeta;
  lazymatch goal with
  | |- context [let '(_, _) := (_, _) in _] => cbn beta iota
  | H : shape ?x = _ |- context [dim ?x ?i] => change (dim x i) with (default 0 (shape x !! i)); rewrite H; cbn [default lookup list_lookup]
  | H : shape ?x = _ |- context [dims3 ?x] => unfold dims3, dim; rewrite H; cbn [default lookup list_lookup]
  | |- context [match ?e with (_, _) => _ end] =>
      step e
  | |- context [fst (_, _)] => cbn [fst snd]
  | |- context [fst ?e] => step e
  end).
(** A module without a cache, one with a cache, and the layers of a network. *)
Ltac module_maps := intros x b s Hx; cbn; walk; infer.
Ltac results := lazymatch goal with |- (_, _) = _ → _ => intros [= <- <-]; split; [infer|congruence] end.
Ltac module_attends := intros x c i b s o c' E Hx Hc Hi; revert E; cbn; walk;
  first [results | let E := fresh "E" in intros E; use E; split; [assumption|congruence]].
Ltac rewrite_dim :=
  repeat match goal with
  | H : shape ?x = _ |- context [dim ?x ?i] => change (dim x i) with (default 0 (shape x !! i)); rewrite H; cbn [default lookup list_lookup]
  end.
(** The loop over the layers, which [H] built. *)
Ltac layers H b s h :=
  lazymatch goal with
  | |- context [for_layers ?l ?body (?x, ?c)] =>
      let E := fresh "E" in let P := fresh "P" in
      assert (shape (for_layers l body (x, c)).1 = [b; s; h] ∧ layout (for_layers l body (x, c)).2 = layout c) as P;
      [ apply (for_layers_ok l body (λ r, shape r.1 = [b; s; h] ∧ layout r.2 = layout c));
        [ cbn; split; [infer|reflexivity]
        | let Hlen := fresh "Hlen" in let Hl := fresh "Hl" in let j := fresh "j" in let m := fresh "m" in
          let y := fresh "y" in let d := fresh "d" in let Hm := fresh "Hm" in let Hy := fresh "Hy" in let Hd := fresh "Hd" in
          apply module_list_Ok in H as [Hlen Hl]; intros j m [y d] Hm [Hy Hd]; cbn in Hy, Hd;
          pose proof (Hl _ _ Hm); apply lookup_lt_Some in Hm;
          lazymatch goal with
          | Hk : heads_of (layout c) = ?k |- _ => assert (0 ≤ Z.of_nat j < n_layers k) by (cbn; lia)
          end; cbn beta iota; walk; cbn; split; [infer|congruence] ]
      | destruct (for_layers l body (x, c)) as [? ?] eqn:E; cbn in P; destruct P; clear E ]
  end.
Ltac module_runs H :=
  intros x c b s o c' E Hx Hc; revert E; cbn; rewrite_dim;
  lazymatch goal with |- _ → shape _ = [_; _; ?h] ∧ _ => layers H b s h end; walk; results.
Ltac module_runs_inner := intros x c b s o c' E Hx Hc; revert E; cbn; walk;
  first [results | let E := fresh "E" in intros E; use E; split; [assumption|congruence]].
(** The type of an expression. *)
Ltac infer_dtype :=
  cbv beta iota zeta;
  lazymatch goal with
  | |- dtype_of (if negb (bool_decide (dtype_of ?x = ?d)) then astype ?x ?d else ?x) = ?d => apply dtype_converted
  | |- dtype_of (if ?b then _ else _) = _ => destruct b; cbn [negb]; infer_dtype
  | |- dtype_of (arith_scalar _ _ _) = _ => rewrite dtype_arith_scalar; infer_dtype
  | |- dtype_of (activate _ _) = _ => rewrite dtype_activate; infer_dtype
  | |- dtype_of (astype _ _) = _ => apply dtype_astype
  | |- dtype_of (matmul _ _ (Some _)) = _ => apply dtype_matmul
  | |- _ => solve [eauto with modules]
  end.
(** The arguments of a call. *)
Ltac arguments H :=
  repeat lazymatch type of H with
  | Forall2 _ (_ :: _) _ =>
      let v := fresh "v" in let vs := fresh "vs" in let Hv := fresh "Hv" in
      apply Forall2_cons_inv_l in H as (v & vs & Hv & H & ->);
      destruct v; cbn in Hv; try done;
      lazymatch type of Hv with _ ∧ _ => let Hd := fresh "Hd" in destruct Hv as [Hv Hd] | _ => idtac end
  | Forall2 _ [] _ => apply Forall2_nil_inv_l in H as ->
  end.
(** The cases of a network's specification. *)
Ltac functions :=
  intros f sp Hin;
  repeat (apply elem_of_cons in Hin as [[= -> ->]|Hin];
    [eexists _, _; split; [reflexivity|split; [reflexivity|split; [reflexivity|]]];
     let H := fresh "H" in intros sym vs H; cbn in H; arguments H|]);
  [..|by apply elem_of_nil in Hin].
Ltac exported :=
  cbn; repeat match goal with
    | E : _ = Embedding.init _ _ _ |- _ => rewrite E; clear E
    | E : _ = Linear.init _ _ _ _ _ _ |- _ => rewrite E; clear E
    end; walk; cbn;
  lazymatch goal with
  | |- shape _ = _ ∧ dtype_of _ = _ ∧ _ => split; [infer|split; [infer_dtype|first [done | congruence]]]
  | |- shape _ = _ ∧ _ => split; [infer|first [done | congruence]]
  | |- _ => unfold create_generic; rewrite layout_create; reflexivity
  end.
