(* ===== verification/NetsLlama.v ===== *)
(** The networks of [model/]: Llama and the networks built like it. Each class is a module with its record, [init], the
    parameters it has, the methods of the source, and for the exported class the specification
    [get_default_spec] and the table of its methods; after a network come the shapes of its parts. *)

From Stdlib Require Import Lia ZArith.
From stdpp Require Import base gmap strings list list_numbers numbers pretty.
From S2P Require Import Prelude PyString PyObject Kernel Config Sharding Network Shapes.
Open Scope Z_scope.

(** ** [model/llama/llama_model.py] *)

Module Llama.
(** The layers and heads of the cache [create_paged_kv_cache] makes. *)
Definition Llama_heads (config : settings) : heads := {|
  n_layers := config.["num_hidden_layers"]; q_heads := (config.["num_attention_heads"] / config.["tensor_parallel_shards"]);
  kv_heads := (config.["num_key_value_heads"] / config.["tensor_parallel_shards"]); head_size := config.["head_dim"]; value_size := config.["head_dim"] |}.

(** [LlamaFFN]. *)
Module LlamaFFN.
Section network.
Context {nn : NN}.
Record t := { intermediate_size : Z; gate_up_proj : Linear.t; down_proj : Linear.t }.
Definition init (config : settings) (path : string) : result t :=
  _ ← raise_when (negb (config.["intermediate_size"] mod config.["tensor_parallel_shards"] =? 0)) ValueError
      ("Cannot split MLP intermediate size " +:+ pretty config.["intermediate_size"] +:+ " evenly to " +:+ pretty
      config.["tensor_parallel_shards"] +:+ " GPUs.");
  let intermediate_size := config.["intermediate_size"] / config.["tensor_parallel_shards"] in
  let gate_up_proj := Linear.init (path ./ "gate_up_proj") config.["hidden_size"] (2 * intermediate_size) false None
      None in
  let down_proj := Linear.init (path ./ "down_proj") intermediate_size config.["hidden_size"] false None None in
  Ok {| intermediate_size := intermediate_size; gate_up_proj := gate_up_proj; down_proj := down_proj |}.
Definition parameters (self : t) : params :=
  under "gate_up_proj" (Linear.parameters self.(gate_up_proj)) ++ under "down_proj" (Linear.parameters
      self.(down_proj)).
Definition forward (self : t) (x : T) : T :=
  let concat_x1_x2 := Linear.forward self.(gate_up_proj) x in
  let '(x1, x2) := split2 concat_x1_x2 (-1) in
  Linear.forward self.(down_proj) ((activate Silu x1) ⊗ x2).
End network.
End LlamaFFN.

(** [LlamaEmbedding]. *)
Module LlamaEmbedding.
Section network.
Context {nn : NN}.
Definition t : Type := Embedding.t.
Definition init : string → Z → Z → t := Embedding.init.
Definition forward : t → T → T := Embedding.forward.
Definition parameters : t → params := Embedding.parameters.
Definition lm_head_forward (self : t) (x : T) : T :=
  let weight := permute_dims self.(Embedding.weight) [] in
  matmul x weight (Some "float32").
End network.
End LlamaEmbedding.

(** [LlamaAttention]. *)
Module LlamaAttention.
Section network.
Context {nn : NN}.
Record t := { head_dim : Z; num_q_heads : Z; num_kv_heads : Z; qkv_proj : Linear.t; o_proj : Linear.t }.
Definition init (config : settings) (path : string) : result t :=
  let head_dim := config.["head_dim"] in
  let num_q_heads := config.["num_attention_heads"] / config.["tensor_parallel_shards"] in
  _ ← py_assert (config.["num_key_value_heads"] mod config.["tensor_parallel_shards"] =? 0) ("num_kv_heads(" +:+
      pretty config.["num_key_value_heads"] +:+ ") must be divisible by tensor_parallel_shards");
  _ ← py_assert (config.["num_key_value_heads"] >=? config.["tensor_parallel_shards"])
      ("Too large tensor_parallel_shards, must be smaller than " +:+ pretty config.["num_key_value_heads"]);
  let num_kv_heads := config.["num_key_value_heads"] / config.["tensor_parallel_shards"] in
  let qkv_proj := Linear.init (path ./ "qkv_proj") config.["hidden_size"] ((num_q_heads + (2 * num_kv_heads)) *
      head_dim) false None None in
  let o_proj := Linear.init (path ./ "o_proj") (num_q_heads * head_dim) config.["hidden_size"] false None None in
  Ok {| head_dim := head_dim; num_q_heads := num_q_heads; num_kv_heads := num_kv_heads; qkv_proj := qkv_proj; o_proj
      := o_proj |}.
Definition parameters (self : t) : params :=
  under "qkv_proj" (Linear.parameters self.(qkv_proj)) ++ under "o_proj" (Linear.parameters self.(o_proj)).
Definition forward (self : t) (hidden_states : T) (paged_kv_cache : Cache) (layer_id : Z) : T * Cache :=
  let d := self.(head_dim) in let h_q := self.(num_q_heads) in let h_kv := self.(num_kv_heads) in
  let '(b, s, _) := dims3 hidden_states in
  let qkv := Linear.forward self.(qkv_proj) hidden_states in
  let qkv := reshape qkv [b; s; (h_q + h_kv) + h_kv; d] in
  let '(attn_output, paged_kv_cache) := attention_with_fused_qkv paged_kv_cache layer_id qkv self.(num_q_heads) (Pow
      (Num self.(head_dim)) (Lit "-0.5")) in
  let output := reshape attn_output [b; s; h_q * d] in
  (Linear.forward self.(o_proj) output, paged_kv_cache).
End network.
End LlamaAttention.

(** [LlamaDecoderLayer]. *)
Module LlamaDecoderLayer.
Section network.
Context {nn : NN}.
Record t := { self_attn : LlamaAttention.t; mlp : LlamaFFN.t; input_layernorm : RMSNorm.t; post_attention_layernorm :
    RMSNorm.t; tensor_parallel_shards : Z }.
Definition init (config : settings) (path : string) : result t :=
  let rms_norm_eps := (Val (val_of config "rms_norm_eps")) in
  self_attn ← LlamaAttention.init config (path ./ "self_attn");
  mlp ← LlamaFFN.init config (path ./ "mlp");
  let input_layernorm := RMSNorm.init (path ./ "input_layernorm") config.["hidden_size"] (-1) rms_norm_eps false in
  let post_attention_layernorm := RMSNorm.init (path ./ "post_attention_layernorm") config.["hidden_size"] (-1)
      rms_norm_eps false in
  let tensor_parallel_shards := config.["tensor_parallel_shards"] in
  Ok {| self_attn := self_attn; mlp := mlp; input_layernorm := input_layernorm; post_attention_layernorm :=
      post_attention_layernorm; tensor_parallel_shards := tensor_parallel_shards |}.
Definition parameters (self : t) : params :=
  under "self_attn" (LlamaAttention.parameters self.(self_attn)) ++ under "mlp" (LlamaFFN.parameters self.(mlp)) ++
      under "input_layernorm" (RMSNorm.parameters self.(input_layernorm)) ++ under "post_attention_layernorm"
      (RMSNorm.parameters self.(post_attention_layernorm)).
Definition set_tp (config : settings) (self : t) : list (string * ShardSingleDim) :=
  let hd := config.["head_dim"] in
  let q := self.(self_attn).(LlamaAttention.num_q_heads) * hd in
  let k := self.(self_attn).(LlamaAttention.num_kv_heads) * hd in
  let v := self.(self_attn).(LlamaAttention.num_kv_heads) * hd in
  let i := self.(mlp).(LlamaFFN.intermediate_size) in
  [("self_attn.qkv_proj.weight", {| shard_name := "_shard_qkv"; shard_dim := 0; segs := Some [q; k; v] |});
   ("self_attn.o_proj.weight", {| shard_name := "_shard_o"; shard_dim := 1; segs := None |});
   ("mlp.gate_up_proj.weight", {| shard_name := "_shard_mlp_up"; shard_dim := 0; segs := Some [i; i] |});
   ("mlp.down_proj.weight", {| shard_name := "_shard_mlp_down"; shard_dim := 1; segs := None |})].
Definition _apply_residual (self : t) (out : T) (residual : T) : T :=
  if (self.(tensor_parallel_shards) >? 1) then
    (ccl_allreduce out "sum") ⊕ residual
  else
    out ⊕ residual.
Definition forward (self : t) (hidden_states : T) (paged_kv_cache : Cache) (layer_id : Z) : T * Cache :=
  let '(out, paged_kv_cache) := LlamaAttention.forward self.(self_attn) (RMSNorm.forward self.(input_layernorm)
      hidden_states) paged_kv_cache layer_id in
  let hidden_states := _apply_residual self out hidden_states in
  let out := LlamaFFN.forward self.(mlp) (RMSNorm.forward self.(post_attention_layernorm) hidden_states) in
  let hidden_states := _apply_residual self out hidden_states in
  (hidden_states, paged_kv_cache).
End network.
End LlamaDecoderLayer.

(** [LlamaModel]. *)
Module LlamaModel.
Section network.
Context {nn : NN}.
Record t := { embed_tokens : LlamaEmbedding.t; layers : list LlamaDecoderLayer.t; norm : RMSNorm.t;
    num_layers_per_stage : Z; layer_partition : list Z }.
Definition init (config : settings) (path : string) : result t :=
  _ ← py_assert (config.["hidden_size"] mod config.["num_attention_heads"] =? 0) "";
  let embed_tokens := LlamaEmbedding.init (path ./ "embed_tokens") (symbolic config "vocab_size")
      config.["hidden_size"] in
  layers ← module_list (path ./ "layers") config.["num_hidden_layers"] (λ _ path, LlamaDecoderLayer.init config path);
  let norm := RMSNorm.init (path ./ "norm") config.["hidden_size"] (-1) (Val (val_of config "rms_norm_eps")) false in
  let num_layers_per_stage := ((config.["num_hidden_layers"] + config.["pipeline_parallel_stages"]) - 1) /
      config.["pipeline_parallel_stages"] in
  let layers_per_stage := ((config.["num_hidden_layers"] + config.["pipeline_parallel_stages"]) - 1) /
      config.["pipeline_parallel_stages"] in
  let layer_partition := ((λ i, i * layers_per_stage) <$> range config.["pipeline_parallel_stages"]) ++
      [config.["num_hidden_layers"]] in
  Ok {| embed_tokens := embed_tokens; layers := layers; norm := norm; num_layers_per_stage := num_layers_per_stage;
      layer_partition := layer_partition |}.
Definition parameters (self : t) : params :=
  under "embed_tokens" (LlamaEmbedding.parameters self.(embed_tokens)) ++ list_params "layers"
      LlamaDecoderLayer.parameters self.(layers) ++ under "norm" (RMSNorm.parameters self.(norm)).
Definition forward (self : t) (input_embed : T) (paged_kv_cache : Cache) : T * Cache :=
  let hidden_states := input_embed in
  let '(hidden_states, paged_kv_cache) :=
    for_layers self.(layers) (λ layer_id layer '(hidden_states, paged_kv_cache),
      let hidden_states := if ((negb (layer_id =? 0)) && (bool_decide (layer_id ∈ self.(layer_partition)))) then
          pipeline_stage_boundary hidden_states else hidden_states in
      LlamaDecoderLayer.forward layer hidden_states paged_kv_cache layer_id) (hidden_states, paged_kv_cache) in
  let hidden_states := RMSNorm.forward self.(norm) hidden_states in
  (hidden_states, paged_kv_cache).
End network.
End LlamaModel.

(** [LlamaForCausalLM]. *)
Module LlamaForCausalLM.
Section network.
Context {nn : NN}.
Record t := { model : LlamaModel.t; tie_word_embeddings : bool; lm_head : option Linear.t; num_hidden_layers : Z;
    num_attention_heads : Z; num_key_value_heads : Z; head_dim : Z; hidden_size : Z; vocab_size : Z; rope_scaling :
    pyval; rope_theta : Z; tensor_parallel_shards : Z; disaggregation : bool; dtype : string }.
Definition init (config : settings) (path : string) : result t :=
  model ← LlamaModel.init config (path ./ "model");
  let tie_word_embeddings := config.?["tie_word_embeddings"] in
  let lm_head := if negb config.?["tie_word_embeddings"] then Some (Linear.init (path ./ "lm_head")
      config.["hidden_size"] (symbolic config "vocab_size") false None None) else None in
  let num_hidden_layers := config.["num_hidden_layers"] in
  let num_attention_heads := config.["num_attention_heads"] in
  let num_key_value_heads := config.["num_key_value_heads"] in
  let head_dim := config.["head_dim"] in
  let hidden_size := config.["hidden_size"] in
  let vocab_size := config.["vocab_size"] in
  let rope_scaling := val_of config "rope_scaling" in
  let rope_theta := config.["position_embedding_base"] in
  let tensor_parallel_shards := config.["tensor_parallel_shards"] in
  let disaggregation := config.?["disaggregation"] in
  let dtype := "float32" in
  Ok {| model := model; tie_word_embeddings := tie_word_embeddings; lm_head := lm_head; num_hidden_layers :=
      num_hidden_layers; num_attention_heads := num_attention_heads; num_key_value_heads := num_key_value_heads;
      head_dim := head_dim; hidden_size := hidden_size; vocab_size := vocab_size; rope_scaling := rope_scaling;
      rope_theta := rope_theta; tensor_parallel_shards := tensor_parallel_shards; disaggregation := disaggregation;
      dtype := dtype |}.
Definition parameters (self : t) : params :=
  under "model" (LlamaModel.parameters self.(model)) ++ under "lm_head" (match self.(lm_head) with Some m =>
      Linear.parameters m | None => [] end).
Definition set_pp (config : settings) (self : t) : result (list (string * list Z)) :=
  hidden_layers ← map_m (λ layer_id,
    layers_per_stage ← floordiv config.["num_hidden_layers"] config.["pipeline_parallel_stages"];
    stage ← floordiv layer_id layers_per_stage;
    layer ← py_index self.(model).(LlamaModel.layers) (Z.to_nat layer_id);
    Ok ((λ p, ("model" ./ "layers" ./ pretty layer_id ./ p.1, [stage])) <$> LlamaDecoderLayer.parameters layer))
    (range config.["num_hidden_layers"]);
  let last_stage := config.["pipeline_parallel_stages"] - 1 in
  let all_stages := range config.["pipeline_parallel_stages"] in
  Ok (concat hidden_layers ++ [("model.norm.weight", [last_stage])] ++ [("model.embed_tokens.weight", all_stages)] ++
    if negb config.?["tie_word_embeddings"] then [("lm_head.weight", all_stages)] else []).
Definition get_logits (self : t) (hidden_states : T) : T :=
  let logits := if self.(tie_word_embeddings) then LlamaEmbedding.lm_head_forward
      self.(model).(LlamaModel.embed_tokens) hidden_states else (match self.(lm_head) with Some m => Linear.forward m
      hidden_states | None => undefined end) in
  if negb (bool_decide (dtype_of logits = "float32")) then astype logits "float32" else logits.
Definition batch_forward (self : t) (input_embeds : T) (paged_kv_cache : Cache) (logit_positions : option T) : T *
    Cache :=
  let '(hidden_states, paged_kv_cache) := LlamaModel.forward self.(model) input_embeds paged_kv_cache in
  let hidden_states :=
    match logit_positions with
    | Some logit_positions =>
        let logit_positions := if (self.(tensor_parallel_shards) >? 1) then ccl_broadcast_from_worker0
            logit_positions else logit_positions in
        take hidden_states logit_positions 1
    | None => hidden_states
    end in
  (get_logits self hidden_states, paged_kv_cache).
Definition batch_forward_to_last_hidden_states (self : t) (input_embeds : T) (paged_kv_cache : Cache) : T * Cache :=
  LlamaModel.forward self.(model) input_embeds paged_kv_cache.
Definition embed (self : t) (input_ids : T) : T :=
  let input_ids := if (self.(tensor_parallel_shards) >? 1) then ccl_broadcast_from_worker0 input_ids else input_ids in
  LlamaEmbedding.forward self.(model).(LlamaModel.embed_tokens) input_ids.
Definition batch_select_last_hidden_states (self : t) (hidden_states : T) (logit_positions : T) : T :=
  let logit_positions := if (self.(tensor_parallel_shards) >? 1) then ccl_broadcast_from_worker0 logit_positions else
      logit_positions in
  take hidden_states logit_positions 0.
Definition prefill (self : t) (input_embed : T) (paged_kv_cache : Cache) : T * Cache :=
  let '(hidden_states, paged_kv_cache) := LlamaModel.forward self.(model) input_embed paged_kv_cache in
  let hidden_states := index_last_token hidden_states in
  let logits := get_logits self hidden_states in
  (logits, paged_kv_cache).
Definition decode (self : t) (input_embed : T) (paged_kv_cache : Cache) : T * Cache :=
  let '(hidden_states, paged_kv_cache) := LlamaModel.forward self.(model) input_embed paged_kv_cache in
  let logits := get_logits self hidden_states in
  (logits, paged_kv_cache).
Definition prefill_to_last_hidden_states (self : t) (input_embed : T) (paged_kv_cache : Cache) : T * Cache :=
  LlamaModel.forward self.(model) input_embed paged_kv_cache.
Definition decode_to_last_hidden_states (self : t) (input_embed : T) (paged_kv_cache : Cache) : T * Cache :=
  LlamaModel.forward self.(model) input_embed paged_kv_cache.
Definition batch_prefill (self : t) (input_embeds : T) (logit_positions : T) (paged_kv_cache : Cache) : T * Cache :=
  batch_forward self input_embeds paged_kv_cache (Some logit_positions).
Definition batch_decode (self : t) (input_embeds : T) (paged_kv_cache : Cache) : T * Cache :=
  batch_forward self input_embeds paged_kv_cache None.
Definition batch_verify (self : t) (input_embeds : T) (paged_kv_cache : Cache) : T * Cache :=
  batch_forward self input_embeds paged_kv_cache None.
Definition batch_prefill_to_last_hidden_states (self : t) (input_embeds : T) (paged_kv_cache : Cache) : T * Cache :=
  batch_forward_to_last_hidden_states self input_embeds paged_kv_cache.
Definition batch_decode_to_last_hidden_states (self : t) (input_embeds : T) (paged_kv_cache : Cache) : T * Cache :=
  batch_forward_to_last_hidden_states self input_embeds paged_kv_cache.
Definition batch_verify_to_last_hidden_states (self : t) (input_embeds : T) (paged_kv_cache : Cache) : T * Cache :=
  batch_forward_to_last_hidden_states self input_embeds paged_kv_cache.
Definition create_paged_kv_cache (self : t) (max_batch_size : Z) (max_total_seq_len : Z) (prefill_chunk_size : Z)
    (page_size : Z) (support_sliding_window : Z) : Cache :=
  create_generic (PStr "mha") max_batch_size max_total_seq_len prefill_chunk_size page_size support_sliding_window
      self.(num_hidden_layers) (self.(num_attention_heads) / self.(tensor_parallel_shards))
      (self.(num_key_value_heads) / self.(tensor_parallel_shards)) self.(head_dim) self.(head_dim) "NORMAL" (Num 1)
      (Num self.(rope_theta)) self.(dtype) None self.(rope_scaling) PNone (Some
      self.(model).(LlamaModel.layer_partition)) self.(disaggregation).
Definition get_default_spec (self : t) : mod_spec := [
  ("embed", packed [("input_ids", STensor [Named "seq_len"] "int32")]);
  ("get_logits", packed [("hidden_states", STensor [Named "seq_len"; Fixed self.(hidden_size)] self.(dtype))]);
  ("batch_select_last_hidden_states", unpacked [("hidden_states", STensor [Named "seq_len"; Fixed self.(hidden_size)]
      self.(dtype)); ("logit_positions", STensor [Named "batch_size"] "int32")]);
  ("prefill", packed [("input_embed", STensor [Fixed 1; Named "seq_len"; Fixed self.(hidden_size)] self.(dtype));
      ("paged_kv_cache", SObject)]);
  ("decode", packed [("input_embed", STensor [Fixed 1; Fixed 1; Fixed self.(hidden_size)] self.(dtype));
      ("paged_kv_cache", SObject)]);
  ("prefill_to_last_hidden_states", packed [("input_embed", STensor [Fixed 1; Named "seq_len"; Fixed
      self.(hidden_size)] self.(dtype)); ("paged_kv_cache", SObject)]);
  ("decode_to_last_hidden_states", packed [("input_embed", STensor [Fixed 1; Fixed 1; Fixed self.(hidden_size)]
      self.(dtype)); ("paged_kv_cache", SObject)]);
  ("batch_prefill", packed [("input_embeds", STensor [Fixed 1; Named "seq_len"; Fixed self.(hidden_size)]
      self.(dtype)); ("logit_positions", STensor [Named "batch_size"] "int32"); ("paged_kv_cache", SObject)]);
  ("batch_decode", packed [("input_embeds", STensor [Named "batch_size"; Fixed 1; Fixed self.(hidden_size)]
      self.(dtype)); ("paged_kv_cache", SObject)]);
  ("batch_verify", packed [("input_embeds", STensor [Fixed 1; Named "seq_len"; Fixed self.(hidden_size)]
      self.(dtype)); ("paged_kv_cache", SObject)]);
  ("batch_prefill_to_last_hidden_states", packed [("input_embeds", STensor [Fixed 1; Named "seq_len"; Fixed
      self.(hidden_size)] self.(dtype)); ("paged_kv_cache", SObject)]);
  ("batch_decode_to_last_hidden_states", packed [("input_embeds", STensor [Named "batch_size"; Fixed 1; Fixed
      self.(hidden_size)] self.(dtype)); ("paged_kv_cache", SObject)]);
  ("batch_verify_to_last_hidden_states", packed [("input_embeds", STensor [Fixed 1; Named "seq_len"; Fixed
      self.(hidden_size)] self.(dtype)); ("paged_kv_cache", SObject)]);
  ("create_paged_kv_cache", unpacked [("max_batch_size", SInt); ("max_total_seq_len", SInt); ("prefill_chunk_size",
      SInt); ("page_size", SInt); ("support_sliding_window", SInt)])].
Definition methods (self : t) : list (string * method) := [
  ("embed", Method ["input_ids"] (method_t (embed self)));
  ("get_logits", Method ["hidden_states"] (method_t (get_logits self)));
  ("batch_select_last_hidden_states", Method ["hidden_states"; "logit_positions"] (method_tt
      (batch_select_last_hidden_states self)));
  ("prefill", Method ["input_embed"; "paged_kv_cache"] (method_tc (prefill self)));
  ("decode", Method ["input_embed"; "paged_kv_cache"] (method_tc (decode self)));
  ("prefill_to_last_hidden_states", Method ["input_embed"; "paged_kv_cache"] (method_tc
      (prefill_to_last_hidden_states self)));
  ("decode_to_last_hidden_states", Method ["input_embed"; "paged_kv_cache"] (method_tc (decode_to_last_hidden_states
      self)));
  ("batch_prefill", Method ["input_embeds"; "logit_positions"; "paged_kv_cache"] (method_ttc (batch_prefill self)));
  ("batch_decode", Method ["input_embeds"; "paged_kv_cache"] (method_tc (batch_decode self)));
  ("batch_verify", Method ["input_embeds"; "paged_kv_cache"] (method_tc (batch_verify self)));
  ("batch_prefill_to_last_hidden_states", Method ["input_embeds"; "paged_kv_cache"] (method_tc
      (batch_prefill_to_last_hidden_states self)));
  ("batch_decode_to_last_hidden_states", Method ["input_embeds"; "paged_kv_cache"] (method_tc
      (batch_decode_to_last_hidden_states self)));
  ("batch_verify_to_last_hidden_states", Method ["input_embeds"; "paged_kv_cache"] (method_tc
      (batch_verify_to_last_hidden_states self)));
  ("create_paged_kv_cache", Method ["max_batch_size"; "max_total_seq_len"; "prefill_chunk_size"; "page_size";
      "support_sliding_window"] (method_ints (create_paged_kv_cache self)))].
End network.
End LlamaForCausalLM.

(** The shapes of its parts. *)
Section Llama_shapes.
Context {nn : NN} {laws : NNLaws nn}.
Lemma LlamaFFN_maps config path self :
  natural config → LlamaFFN.init config path = Ok self →
  maps_shape config.["hidden_size"] config.["hidden_size"] (LlamaFFN.forward self).
Proof. intros P H. unfold LlamaFFN.init in H. built H. unfold LlamaFFN.forward. module_maps. Qed.
#[local] Hint Resolve LlamaFFN_maps : modules.
Lemma LlamaAttention_attends config path self :
  natural config → LlamaAttention.init config path = Ok self →
  attends config.["hidden_size"] (Llama_heads config) (LlamaAttention.forward self).
Proof. intros P H. unfold LlamaAttention.init in H. built H. unfold LlamaAttention.forward. module_attends. Qed.
#[local] Hint Resolve LlamaAttention_attends : modules.
Lemma LlamaDecoderLayer_attends config path self :
  natural config → LlamaDecoderLayer.init config path = Ok self →
  attends config.["hidden_size"] (Llama_heads config) (LlamaDecoderLayer.forward self).
Proof. intros P H. unfold LlamaDecoderLayer.init in H. built H. unfold LlamaDecoderLayer.forward, LlamaDecoderLayer._apply_residual. module_attends. Qed.
#[local] Hint Resolve LlamaDecoderLayer_attends : modules.
Lemma LlamaModel_runs config path self :
  natural config → LlamaModel.init config path = Ok self →
  runs config.["hidden_size"] (Llama_heads config) (LlamaModel.forward self).
Proof.
  intros P H. unfold LlamaModel.init in H. built H.
  unfold LlamaModel.forward.
  match goal with Hl : module_list _ _ _ = Ok _ |- _ => module_runs Hl end.
Qed.
#[local] Hint Resolve LlamaModel_runs : modules.
Lemma LlamaModel_embed_tokens config path self : LlamaModel.init config path = Ok self →
  self.(LlamaModel.embed_tokens) = Embedding.init (path ./ "embed_tokens") (symbolic config "vocab_size") config.["hidden_size"].
Proof. intros H. unfold LlamaModel.init in H. built H. reflexivity. Qed.
Lemma LlamaForCausalLM_typed config path self :
  natural config → LlamaForCausalLM.init config path = Ok self →
  well_typed config.["hidden_size"] (symbolic config "vocab_size") (Llama_heads config) (LlamaForCausalLM.get_default_spec self) (LlamaForCausalLM.methods self).
Proof.
  intros P H. unfold LlamaForCausalLM.init in H. built H.
  match goal with Hm : LlamaModel.init _ _ = Ok _ |- _ => pose proof (LlamaModel_embed_tokens _ _ _ Hm) as Hemb_embed_tokens end.
  functions; unfold LlamaForCausalLM.create_paged_kv_cache, LlamaForCausalLM.batch_verify_to_last_hidden_states, LlamaForCausalLM.batch_decode_to_last_hidden_states, LlamaForCausalLM.batch_prefill_to_last_hidden_states, LlamaForCausalLM.batch_verify, LlamaForCausalLM.batch_decode, LlamaForCausalLM.batch_prefill, LlamaForCausalLM.decode_to_last_hidden_states, LlamaForCausalLM.prefill_to_last_hidden_states, LlamaForCausalLM.decode, LlamaForCausalLM.prefill, LlamaForCausalLM.batch_select_last_hidden_states, LlamaForCausalLM.embed, LlamaForCausalLM.batch_forward_to_last_hidden_states, LlamaForCausalLM.batch_forward, LlamaForCausalLM.get_logits, LlamaEmbedding.forward, LlamaEmbedding.init, LlamaEmbedding.lm_head_forward; exported.
Qed.
End Llama_shapes.
End Llama.

(** ** [model/mistral/mistral_model.py] *)

Module Mistral.
(** The layers and heads of the cache [create_paged_kv_cache] makes. *)
Definition Mistral_heads (config : settings) : heads := {|
  n_layers := config.["num_hidden_layers"]; q_heads := (config.["num_attention_heads"] / config.["tensor_parallel_shards"]);
  kv_heads := (config.["num_key_value_heads"] / config.["tensor_parallel_shards"]); head_size := config.["head_dim"]; value_size := config.["head_dim"] |}.

(** [MistralMLP]. *)
Module MistralMLP.
Section network.
Context {nn : NN}.
Record t := { intermediate_size : Z; gate_up_proj : Linear.t; down_proj : Linear.t }.
Definition init (config : settings) (path : string) : result t :=
  _ ← raise_when (negb (config.["intermediate_size"] mod config.["tensor_parallel_shards"] =? 0)) ValueError
      ("Cannot split MLP intermediate size " +:+ pretty config.["intermediate_size"] +:+ " evenly to " +:+ pretty
      config.["tensor_parallel_shards"] +:+ " GPUs.");
  let intermediate_size := config.["intermediate_size"] / config.["tensor_parallel_shards"] in
  let gate_up_proj := Linear.init (path ./ "gate_up_proj") config.["hidden_size"] (2 * intermediate_size) false None
      None in
  let down_proj := Linear.init (path ./ "down_proj") intermediate_size config.["hidden_size"] false None None in
  Ok {| intermediate_size := intermediate_size; gate_up_proj := gate_up_proj; down_proj := down_proj |}.
Definition parameters (self : t) : params :=
  under "gate_up_proj" (Linear.parameters self.(gate_up_proj)) ++ under "down_proj" (Linear.parameters
      self.(down_proj)).
Definition forward (self : t) (x : T) : T :=
  let concat_x1_x2 := Linear.forward self.(gate_up_proj) x in
  let '(x1, x2) := split2 concat_x1_x2 (-1) in
  Linear.forward self.(down_proj) ((activate Silu x1) ⊗ x2).
End network.
End MistralMLP.

(** [MistralAttention]. *)
Module MistralAttention.
Section network.
Context {nn : NN}.
Record t := { head_dim : Z; num_q_heads : Z; num_kv_heads : Z; qkv_proj : Linear.t; o_proj : Linear.t }.
Definition init (config : settings) (path : string) : result t :=
  let head_dim := config.["head_dim"] in
  _ ← raise_when (negb (config.["num_key_value_heads"] mod config.["tensor_parallel_shards"] =? 0)) ValueError
      ("Cannot split " +:+ pretty config.["num_key_value_heads"] +:+ " key-value attention heads evenly to " +:+
      pretty config.["tensor_parallel_shards"] +:+ " GPUs.");
  let num_q_heads := config.["num_attention_heads"] / config.["tensor_parallel_shards"] in
  let num_kv_heads := config.["num_key_value_heads"] / config.["tensor_parallel_shards"] in
  let qkv_proj := Linear.init (path ./ "qkv_proj") config.["hidden_size"] ((num_q_heads + (2 * num_kv_heads)) *
      head_dim) false None None in
  let o_proj := Linear.init (path ./ "o_proj") (num_q_heads * head_dim) config.["hidden_size"] false None None in
  Ok {| head_dim := head_dim; num_q_heads := num_q_heads; num_kv_heads := num_kv_heads; qkv_proj := qkv_proj; o_proj
      := o_proj |}.
Definition parameters (self : t) : params :=
  under "qkv_proj" (Linear.parameters self.(qkv_proj)) ++ under "o_proj" (Linear.parameters self.(o_proj)).
Definition forward (self : t) (hidden_states : T) (paged_kv_cache : Cache) (layer_id : Z) : T * Cache :=
  let d := self.(head_dim) in let h_q := self.(num_q_heads) in let h_kv := self.(num_kv_heads) in
  let '(b, s, _) := dims3 hidden_states in
  let qkv := Linear.forward self.(qkv_proj) hidden_states in
  let qkv := reshape qkv [b; s; (h_q + h_kv) + h_kv; d] in
  let '(attn_output, paged_kv_cache) := attention_with_fused_qkv paged_kv_cache layer_id qkv self.(num_q_heads) (Pow
      (Num self.(head_dim)) (Lit "-0.5")) in
  let output := reshape attn_output [b; s; h_q * d] in
  (Linear.forward self.(o_proj) output, paged_kv_cache).
End network.
End MistralAttention.

(** [MistralDecoderLayer]. *)
Module MistralDecoderLayer.
Section network.
Context {nn : NN}.
Record t := { self_attn : MistralAttention.t; mlp : MistralMLP.t; input_layernorm : RMSNorm.t;
    post_attention_layernorm : RMSNorm.t; tensor_parallel_shards : Z }.
Definition init (config : settings) (path : string) : result t :=
  let rms_norm_eps := (Val (val_of config "rms_norm_eps")) in
  self_attn ← MistralAttention.init config (path ./ "self_attn");
  mlp ← MistralMLP.init config (path ./ "mlp");
  let input_layernorm := RMSNorm.init (path ./ "input_layernorm") config.["hidden_size"] (-1) rms_norm_eps false in
  let post_attention_layernorm := RMSNorm.init (path ./ "post_attention_layernorm") config.["hidden_size"] (-1)
      rms_norm_eps false in
  let tensor_parallel_shards := config.["tensor_parallel_shards"] in
  Ok {| self_attn := self_attn; mlp := mlp; input_layernorm := input_layernorm; post_attention_layernorm :=
      post_attention_layernorm; tensor_parallel_shards := tensor_parallel_shards |}.
Definition parameters (self : t) : params :=
  under "self_attn" (MistralAttention.parameters self.(self_attn)) ++ under "mlp" (MistralMLP.parameters self.(mlp))
      ++ under "input_layernorm" (RMSNorm.parameters self.(input_layernorm)) ++ under "post_attention_layernorm"
      (RMSNorm.parameters self.(post_attention_layernorm)).
Definition set_tp (config : settings) (self : t) : list (string * ShardSingleDim) :=
  let hd := config.["head_dim"] in
  let q := self.(self_attn).(MistralAttention.num_q_heads) * hd in
  let k := self.(self_attn).(MistralAttention.num_kv_heads) * hd in
  let v := self.(self_attn).(MistralAttention.num_kv_heads) * hd in
  let i := self.(mlp).(MistralMLP.intermediate_size) in
  [("self_attn.qkv_proj.weight", {| shard_name := "_shard_qkv"; shard_dim := 0; segs := Some [q; k; v] |});
   ("self_attn.o_proj.weight", {| shard_name := "_shard_o"; shard_dim := 1; segs := None |});
   ("mlp.gate_up_proj.weight", {| shard_name := "_shard_mlp_up"; shard_dim := 0; segs := Some [i; i] |});
   ("mlp.down_proj.weight", {| shard_name := "_shard_mlp_down"; shard_dim := 1; segs := None |})].
Definition _apply_residual (self : t) (out : T) (residual : T) : T :=
  if (self.(tensor_parallel_shards) >? 1) then
    (ccl_allreduce out "sum") ⊕ residual
  else
    out ⊕ residual.
Definition forward (self : t) (hidden_states : T) (paged_kv_cache : Cache) (layer_id : Z) : T * Cache :=
  let '(out, paged_kv_cache) := MistralAttention.forward self.(self_attn) (RMSNorm.forward self.(input_layernorm)
      hidden_states) paged_kv_cache layer_id in
  let hidden_states := _apply_residual self out hidden_states in
  let out := MistralMLP.forward self.(mlp) (RMSNorm.forward self.(post_attention_layernorm) hidden_states) in
  let hidden_states := _apply_residual self out hidden_states in
  (hidden_states, paged_kv_cache).
End network.
End MistralDecoderLayer.

(** [MistralModel]. *)
Module MistralModel.
Section network.
Context {nn : NN}.
Record t := { embed_tokens : Embedding.t; layers : list MistralDecoderLayer.t; norm : RMSNorm.t;
    tensor_parallel_shards : Z }.
Definition init (config : settings) (path : string) : result t :=
  _ ← py_assert (config.["hidden_size"] mod config.["num_attention_heads"] =? 0) "";
  let embed_tokens := Embedding.init (path ./ "embed_tokens") (symbolic config "vocab_size") config.["hidden_size"] in
  layers ← module_list (path ./ "layers") config.["num_hidden_layers"] (λ _ path, MistralDecoderLayer.init config
      path);
  let norm := RMSNorm.init (path ./ "norm") config.["hidden_size"] (-1) (Val (val_of config "rms_norm_eps")) false in
  let tensor_parallel_shards := config.["tensor_parallel_shards"] in
  Ok {| embed_tokens := embed_tokens; layers := layers; norm := norm; tensor_parallel_shards :=
      tensor_parallel_shards |}.
Definition parameters (self : t) : params :=
  under "embed_tokens" (Embedding.parameters self.(embed_tokens)) ++ list_params "layers"
      MistralDecoderLayer.parameters self.(layers) ++ under "norm" (RMSNorm.parameters self.(norm)).
Definition forward (self : t) (input_embed : T) (paged_kv_cache : Cache) : T * Cache :=
  let hidden_states := input_embed in
  let '(hidden_states, paged_kv_cache) :=
    for_layers self.(layers) (λ layer_id layer '(hidden_states, paged_kv_cache),
      MistralDecoderLayer.forward layer hidden_states paged_kv_cache layer_id) (hidden_states, paged_kv_cache) in
  let hidden_states := RMSNorm.forward self.(norm) hidden_states in
  (hidden_states, paged_kv_cache).
End network.
End MistralModel.

(** [MistralForCausalLM]. *)
Module MistralForCausalLM.
Section network.
Context {nn : NN}.
Record t := { model : MistralModel.t; lm_head : Linear.t; num_hidden_layers : Z; num_attention_heads : Z;
    num_key_value_heads : Z; head_dim : Z; hidden_size : Z; vocab_size : Z; rope_theta : Z; tensor_parallel_shards :
    Z; sliding_window_size : Z; dtype : string }.
Definition init (config : settings) (path : string) : result t :=
  model ← MistralModel.init config (path ./ "model");
  let lm_head := Linear.init (path ./ "lm_head") config.["hidden_size"] (symbolic config "vocab_size") false None
      None in
  let num_hidden_layers := config.["num_hidden_layers"] in
  let num_attention_heads := config.["num_attention_heads"] in
  let num_key_value_heads := config.["num_key_value_heads"] in
  let head_dim := config.["head_dim"] in
  let hidden_size := config.["hidden_size"] in
  let vocab_size := config.["vocab_size"] in
  let rope_theta := config.["position_embedding_base"] in
  let tensor_parallel_shards := config.["tensor_parallel_shards"] in
  let sliding_window_size := config.["sliding_window_size"] in
  let dtype := "float32" in
  Ok {| model := model; lm_head := lm_head; num_hidden_layers := num_hidden_layers; num_attention_heads :=
      num_attention_heads; num_key_value_heads := num_key_value_heads; head_dim := head_dim; hidden_size :=
      hidden_size; vocab_size := vocab_size; rope_theta := rope_theta; tensor_parallel_shards :=
      tensor_parallel_shards; sliding_window_size := sliding_window_size; dtype := dtype |}.
Definition parameters (self : t) : params :=
  under "model" (MistralModel.parameters self.(model)) ++ under "lm_head" (Linear.parameters self.(lm_head)).
Definition batch_forward (self : t) (input_embeds : T) (paged_kv_cache : Cache) (logit_positions : option T) : T *
    Cache :=
  let '(hidden_states, paged_kv_cache) := MistralModel.forward self.(model) input_embeds paged_kv_cache in
  let hidden_states :=
    match logit_positions with
    | Some logit_positions =>
        take hidden_states logit_positions 1
    | None => hidden_states
    end in
  let logits := Linear.forward self.(lm_head) hidden_states in
  let logits := if negb (bool_decide (dtype_of logits = "float32")) then astype logits "float32" else logits in
  (logits, paged_kv_cache).
Definition embed (self : t) (input_ids : T) : T :=
  let input_ids := if (self.(tensor_parallel_shards) >? 1) then ccl_broadcast_from_worker0 input_ids else input_ids in
  Embedding.forward self.(model).(MistralModel.embed_tokens) input_ids.
Definition prefill (self : t) (input_embed : T) (paged_kv_cache : Cache) : T * Cache :=
  let '(hidden_states, paged_kv_cache) := MistralModel.forward self.(model) input_embed paged_kv_cache in
  let hidden_states := index_last_token hidden_states in
  let logits := Linear.forward self.(lm_head) hidden_states in
  let logits := if negb (bool_decide (dtype_of logits = "float32")) then astype logits "float32" else logits in
  (logits, paged_kv_cache).
Definition decode (self : t) (input_embed : T) (paged_kv_cache : Cache) : T * Cache :=
  let '(hidden_states, paged_kv_cache) := MistralModel.forward self.(model) input_embed paged_kv_cache in
  let logits := Linear.forward self.(lm_head) hidden_states in
  let logits := if negb (bool_decide (dtype_of logits = "float32")) then astype logits "float32" else logits in
  (logits, paged_kv_cache).
Definition batch_prefill (self : t) (input_embeds : T) (logit_positions : T) (paged_kv_cache : Cache) : T * Cache :=
  let logit_positions := if (self.(tensor_parallel_shards) >? 1) then ccl_broadcast_from_worker0 logit_positions else
      logit_positions in
  batch_forward self input_embeds paged_kv_cache (Some logit_positions).
Definition batch_decode (self : t) (input_embeds : T) (paged_kv_cache : Cache) : T * Cache :=
  batch_forward self input_embeds paged_kv_cache None.
Definition batch_verify (self : t) (input_embeds : T) (paged_kv_cache : Cache) : T * Cache :=
  batch_forward self input_embeds paged_kv_cache None.
Definition create_paged_kv_cache (self : t) (max_batch_size : Z) (max_total_seq_len : Z) (prefill_chunk_size : Z)
    (page_size : Z) (support_sliding_window : Z) : Cache :=
  create_generic (PStr "mha") max_batch_size max_total_seq_len prefill_chunk_size page_size support_sliding_window
      self.(num_hidden_layers) (self.(num_attention_heads) / self.(tensor_parallel_shards))
      (self.(num_key_value_heads) / self.(tensor_parallel_shards)) self.(head_dim) self.(head_dim) "NORMAL" (Num 1)
      (Num self.(rope_theta)) self.(dtype) None PNone PNone None false.
Definition get_default_spec (self : t) : mod_spec := [
  ("embed", packed [("input_ids", STensor [Named "seq_len"] "int32")]);
  ("prefill", packed [("input_embed", STensor [Fixed 1; Named "seq_len"; Fixed self.(hidden_size)] self.(dtype));
      ("paged_kv_cache", SObject)]);
  ("decode", packed [("input_embed", STensor [Fixed 1; Fixed 1; Fixed self.(hidden_size)] self.(dtype));
      ("paged_kv_cache", SObject)]);
  ("batch_prefill", packed [("input_embeds", STensor [Fixed 1; Named "seq_len"; Fixed self.(hidden_size)]
      self.(dtype)); ("logit_positions", STensor [Named "batch_size"] "int32"); ("paged_kv_cache", SObject)]);
  ("batch_decode", packed [("input_embeds", STensor [Named "batch_size"; Fixed 1; Fixed self.(hidden_size)]
      self.(dtype)); ("paged_kv_cache", SObject)]);
  ("batch_verify", packed [("input_embeds", STensor [Fixed 1; Named "seq_len"; Fixed self.(hidden_size)]
      self.(dtype)); ("paged_kv_cache", SObject)]);
  ("create_paged_kv_cache", unpacked [("max_batch_size", SInt); ("max_total_seq_len", SInt); ("prefill_chunk_size",
      SInt); ("page_size", SInt); ("support_sliding_window", SInt)])].
Definition methods (self : t) : list (string * method) := [
  ("embed", Method ["input_ids"] (method_t (embed self)));
  ("prefill", Method ["input_embed"; "paged_kv_cache"] (method_tc (prefill self)));
  ("decode", Method ["input_embed"; "paged_kv_cache"] (method_tc (decode self)));
  ("batch_prefill", Method ["input_embeds"; "logit_positions"; "paged_kv_cache"] (method_ttc (batch_prefill self)));
  ("batch_decode", Method ["input_embeds"; "paged_kv_cache"] (method_tc (batch_decode self)));
  ("batch_verify", Method ["input_embeds"; "paged_kv_cache"] (method_tc (batch_verify self)));
  ("create_paged_kv_cache", Method ["max_batch_size"; "max_total_seq_len"; "prefill_chunk_size"; "page_size";
      "support_sliding_window"] (method_ints (create_paged_kv_cache self)))].
End network.
End MistralForCausalLM.

(** The shapes of its parts. *)
Section Mistral_shapes.
Context {nn : NN} {laws : NNLaws nn}.
Lemma MistralMLP_maps config path self :
  natural config → MistralMLP.init config path = Ok self →
  maps_shape config.["hidden_size"] config.["hidden_size"] (MistralMLP.forward self).
Proof. intros P H. unfold MistralMLP.init in H. built H. unfold MistralMLP.forward. module_maps. Qed.
#[local] Hint Resolve MistralMLP_maps : modules.
Lemma MistralAttention_attends config path self :
  natural config → MistralAttention.init config path = Ok self →
  attends config.["hidden_size"] (Mistral_heads config) (MistralAttention.forward self).
Proof. intros P H. unfold MistralAttention.init in H. built H. unfold MistralAttention.forward. module_attends. Qed.
#[local] Hint Resolve MistralAttention_attends : modules.
Lemma MistralDecoderLayer_attends config path self :
  natural config → MistralDecoderLayer.init config path = Ok self →
  attends config.["hidden_size"] (Mistral_heads config) (MistralDecoderLayer.forward self).
Proof. intros P H. unfold MistralDecoderLayer.init in H. built H. unfold MistralDecoderLayer.forward, MistralDecoderLayer._apply_residual. module_attends. Qed.
#[local] Hint Resolve MistralDecoderLayer_attends : modules.
Lemma MistralModel_runs config path self :
  natural config → MistralModel.init config path = Ok self →
  runs config.["hidden_size"] (Mistral_heads config) (MistralModel.forward self).
Proof.
  intros P H. unfold MistralModel.init in H. built H.
  unfold MistralModel.forward.
  match goal with Hl : module_list _ _ _ = Ok _ |- _ => module_runs Hl end.
Qed.
#[local] Hint Resolve MistralModel_runs : modules.
Lemma MistralModel_embed_tokens config path self : MistralModel.init config path = Ok self →
  self.(MistralModel.embed_tokens) = Embedding.init (path ./ "embed_tokens") (symbolic config "vocab_size") config.["hidden_size"].
Proof. intros H. unfold MistralModel.init in H. built H. reflexivity. Qed.
Lemma MistralForCausalLM_typed config path self :
  natural config → MistralForCausalLM.init config path = Ok self →
  well_typed config.["hidden_size"] (symbolic config "vocab_size") (Mistral_heads config) (MistralForCausalLM.get_default_spec self) (MistralForCausalLM.methods self).
Proof.
  intros P H. unfold MistralForCausalLM.init in H. built H.
  match goal with Hm : MistralModel.init _ _ = Ok _ |- _ => pose proof (MistralModel_embed_tokens _ _ _ Hm) as Hemb_embed_tokens end.
  functions; unfold MistralForCausalLM.create_paged_kv_cache, MistralForCausalLM.batch_verify, MistralForCausalLM.batch_decode, MistralForCausalLM.batch_prefill, MistralForCausalLM.decode, MistralForCausalLM.prefill, MistralForCausalLM.embed, MistralForCausalLM.batch_forward; exported.
Qed.
End Mistral_shapes.
End Mistral.

(** ** [model/ministral3/ministral3_model.py] *)

Module Ministral3.
(** The layers and heads of the cache [create_paged_kv_cache] makes. *)
Definition Ministral3_heads (config : settings) : heads := {|
  n_layers := config.["num_hidden_layers"]; q_heads := (config.["num_attention_heads"] / config.["tensor_parallel_shards"]);
  kv_heads := (config.["num_key_value_heads"] / config.["tensor_parallel_shards"]); head_size := config.["head_dim"]; value_size := config.["head_dim"] |}.

(** [Ministral3Embedding]. *)
Module Ministral3Embedding.
Section network.
Context {nn : NN}.
Definition t : Type := Embedding.t.
Definition init : string → Z → Z → t := Embedding.init.
Definition forward : t → T → T := Embedding.forward.
Definition parameters : t → params := Embedding.parameters.
Definition lm_head_forward (self : t) (x : T) : T :=
  let weight := permute_dims self.(Embedding.weight) [] in
  matmul x weight (Some "float32").
End network.
End Ministral3Embedding.

(** [Ministral3MLP]. *)
Module Ministral3MLP.
Section network.
Context {nn : NN}.
Record t := { intermediate_size : Z; gate_up_proj : Linear.t; down_proj : Linear.t; act_fn : activation }.
Definition init (config : settings) (path : string) : result t :=
  _ ← raise_when (negb (config.["intermediate_size"] mod config.["tensor_parallel_shards"] =? 0)) ValueError
      ("Cannot split MLP intermediate size " +:+ pretty config.["intermediate_size"] +:+ " evenly to " +:+ pretty
      config.["tensor_parallel_shards"] +:+ " GPUs.");
  let intermediate_size := config.["intermediate_size"] / config.["tensor_parallel_shards"] in
  let gate_up_proj := Linear.init (path ./ "gate_up_proj") config.["hidden_size"] (2 * intermediate_size) false None
      None in
  let down_proj := Linear.init (path ./ "down_proj") intermediate_size config.["hidden_size"] false None None in
  act_fn ← get_key (str_of config "hidden_act") ACT2FN;
  Ok {| intermediate_size := intermediate_size; gate_up_proj := gate_up_proj; down_proj := down_proj; act_fn :=
      act_fn |}.
Definition parameters (self : t) : params :=
  under "gate_up_proj" (Linear.parameters self.(gate_up_proj)) ++ under "down_proj" (Linear.parameters
      self.(down_proj)).
Definition forward (self : t) (x : T) : T :=
  let concat_x1_x2 := Linear.forward self.(gate_up_proj) x in
  let '(x1, x2) := split2 concat_x1_x2 (-1) in
  Linear.forward self.(down_proj) ((activate self.(act_fn) x1) ⊗ x2).
End network.
End Ministral3MLP.

(** [Ministral3Attention]. *)
Module Ministral3Attention.
Section network.
Context {nn : NN}.
Definition val_le_one (v : pyval) : bool :=
  match v with PInt z => z <=? 1 | PBool _ => true | PFloat NaN => false
  | PFloat f => negb (float_lt (Fin (QArith_base.Qmake 1 1)) f) | _ => false end.
Definition yarn_get_sm_scale (scale mscale : pyval) : number :=
  if val_le_one scale then Lit "1.0"
  else Plus (Times (Times (Lit "0.1") (Val mscale)) (Call "math.log" [Val scale])) (Lit "1.0").
Record t := { head_dim : Z; num_q_heads : Z; num_kv_heads : Z; qkv_proj : Linear.t; o_proj : Linear.t; softmax_scale
    : number }.
Definition init (config : settings) (path : string) : result t :=
  let head_dim := config.["head_dim"] in
  _ ← raise_when (negb (config.["num_key_value_heads"] mod config.["tensor_parallel_shards"] =? 0)) ValueError
      ("Cannot split " +:+ pretty config.["num_key_value_heads"] +:+ " key-value attention heads evenly to " +:+
      pretty config.["tensor_parallel_shards"] +:+ " GPUs.");
  let num_q_heads := config.["num_attention_heads"] / config.["tensor_parallel_shards"] in
  let num_kv_heads := config.["num_key_value_heads"] / config.["tensor_parallel_shards"] in
  let qkv_proj := Linear.init (path ./ "qkv_proj") config.["hidden_size"] ((num_q_heads + (2 * num_kv_heads)) *
      head_dim) false None None in
  let o_proj := Linear.init (path ./ "o_proj") (num_q_heads * head_dim) config.["hidden_size"] false None None in
  let softmax_scale := (Pow (Num head_dim) (Lit "-0.5")) in
  softmax_scale ← (match val_of config "rope_parameters" with | PNone => Ok softmax_scale | rope_parameters => let
      mscale_all_dim := default (PInt 0) (val_get rope_parameters "mscale_all_dim") in scaling_factor ← get_key
      "factor" (val_entries rope_parameters); if truthy mscale_all_dim then let sm_scale := yarn_get_sm_scale
      scaling_factor mscale_all_dim in Ok (Times (Times softmax_scale sm_scale) sm_scale) else Ok softmax_scale end);
  Ok {| head_dim := head_dim; num_q_heads := num_q_heads; num_kv_heads := num_kv_heads; qkv_proj := qkv_proj; o_proj
      := o_proj; softmax_scale := softmax_scale |}.
Definition parameters (self : t) : params :=
  under "qkv_proj" (Linear.parameters self.(qkv_proj)) ++ under "o_proj" (Linear.parameters self.(o_proj)).
Definition forward (self : t) (hidden_states : T) (paged_kv_cache : Cache) (layer_id : Z) : T * Cache :=
  let d := self.(head_dim) in let h_q := self.(num_q_heads) in let h_kv := self.(num_kv_heads) in
  let '(b, s, _) := dims3 hidden_states in
  let qkv := Linear.forward self.(qkv_proj) hidden_states in
  let qkv := reshape qkv [b; s; (h_q + h_kv) + h_kv; d] in
  let '(attn_output, paged_kv_cache) := attention_with_fused_qkv paged_kv_cache layer_id qkv self.(num_q_heads)
      self.(softmax_scale) in
  let output := reshape attn_output [b; s; h_q * d] in
  (Linear.forward self.(o_proj) output, paged_kv_cache).
End network.
End Ministral3Attention.

(** [Ministral3DecoderLayer]. *)
Module Ministral3DecoderLayer.
Section network.
Context {nn : NN}.
Record t := { self_attn : Ministral3Attention.t; mlp : Ministral3MLP.t; input_layernorm : RMSNorm.t;
    post_attention_layernorm : RMSNorm.t; tensor_parallel_shards : Z }.
Definition init (config : settings) (path : string) : result t :=
  let rms_norm_eps := (Val (val_of config "rms_norm_eps")) in
  self_attn ← Ministral3Attention.init config (path ./ "self_attn");
  mlp ← Ministral3MLP.init config (path ./ "mlp");
  let input_layernorm := RMSNorm.init (path ./ "input_layernorm") config.["hidden_size"] (-1) rms_norm_eps false in
  let post_attention_layernorm := RMSNorm.init (path ./ "post_attention_layernorm") config.["hidden_size"] (-1)
      rms_norm_eps false in
  let tensor_parallel_shards := config.["tensor_parallel_shards"] in
  Ok {| self_attn := self_attn; mlp := mlp; input_layernorm := input_layernorm; post_attention_layernorm :=
      post_attention_layernorm; tensor_parallel_shards := tensor_parallel_shards |}.
Definition parameters (self : t) : params :=
  under "self_attn" (Ministral3Attention.parameters self.(self_attn)) ++ under "mlp" (Ministral3MLP.parameters
      self.(mlp)) ++ under "input_layernorm" (RMSNorm.parameters self.(input_layernorm)) ++ under
      "post_attention_layernorm" (RMSNorm.parameters self.(post_attention_layernorm)).
Definition set_tp (config : settings) (self : t) : list (string * ShardSingleDim) :=
  let hd := config.["head_dim"] in
  let q := self.(self_attn).(Ministral3Attention.num_q_heads) * hd in
  let k := self.(self_attn).(Ministral3Attention.num_kv_heads) * hd in
  let v := self.(self_attn).(Ministral3Attention.num_kv_heads) * hd in
  let i := self.(mlp).(Ministral3MLP.intermediate_size) in
  [("self_attn.qkv_proj.weight", {| shard_name := "_shard_qkv"; shard_dim := 0; segs := Some [q; k; v] |});
   ("self_attn.o_proj.weight", {| shard_name := "_shard_o"; shard_dim := 1; segs := None |});
   ("mlp.gate_up_proj.weight", {| shard_name := "_shard_mlp_up"; shard_dim := 0; segs := Some [i; i] |});
   ("mlp.down_proj.weight", {| shard_name := "_shard_mlp_down"; shard_dim := 1; segs := None |})].
Definition _apply_residual (self : t) (out : T) (residual : T) : T :=
  if (self.(tensor_parallel_shards) >? 1) then
    (ccl_allreduce out "sum") ⊕ residual
  else
    out ⊕ residual.
Definition forward (self : t) (hidden_states : T) (paged_kv_cache : Cache) (layer_id : Z) : T * Cache :=
  let '(out, paged_kv_cache) := Ministral3Attention.forward self.(self_attn) (RMSNorm.forward self.(input_layernorm)
      hidden_states) paged_kv_cache layer_id in
  let hidden_states := _apply_residual self out hidden_states in
  let out := Ministral3MLP.forward self.(mlp) (RMSNorm.forward self.(post_attention_layernorm) hidden_states) in
  let hidden_states := _apply_residual self out hidden_states in
  (hidden_states, paged_kv_cache).
End network.
End Ministral3DecoderLayer.

(** [Ministral3Model]. *)
Module Ministral3Model.
Section network.
Context {nn : NN}.
Record t := { embed_tokens : Ministral3Embedding.t; layers : list Ministral3DecoderLayer.t; norm : RMSNorm.t;
    tensor_parallel_shards : Z }.
Definition init (config : settings) (path : string) : result t :=
  _ ← py_assert (config.["hidden_size"] mod config.["num_attention_heads"] =? 0) "";
  let embed_tokens := Ministral3Embedding.init (path ./ "embed_tokens") config.["vocab_size"] config.["hidden_size"]
      in
  layers ← module_list (path ./ "layers") config.["num_hidden_layers"] (λ _ path, Ministral3DecoderLayer.init config
      path);
  let norm := RMSNorm.init (path ./ "norm") config.["hidden_size"] (-1) (Val (val_of config "rms_norm_eps")) false in
  let tensor_parallel_shards := config.["tensor_parallel_shards"] in
  Ok {| embed_tokens := embed_tokens; layers := layers; norm := norm; tensor_parallel_shards :=
      tensor_parallel_shards |}.
Definition parameters (self : t) : params :=
  under "embed_tokens" (Ministral3Embedding.parameters self.(embed_tokens)) ++ list_params "layers"
      Ministral3DecoderLayer.parameters self.(layers) ++ under "norm" (RMSNorm.parameters self.(norm)).
Definition forward (self : t) (input_embed : T) (paged_kv_cache : Cache) : T * Cache :=
  let hidden_states := input_embed in
  let '(hidden_states, paged_kv_cache) :=
    for_layers self.(layers) (λ layer_id layer '(hidden_states, paged_kv_cache),
      Ministral3DecoderLayer.forward layer hidden_states paged_kv_cache layer_id) (hidden_states, paged_kv_cache) in
  let hidden_states := RMSNorm.forward self.(norm) hidden_states in
  (hidden_states, paged_kv_cache).
End network.
End Ministral3Model.

(** [Mistral3ForConditionalGeneration]. *)
Module Mistral3ForConditionalGeneration.
Section network.
Context {nn : NN}.
Record t := { model : Ministral3Model.t; tie_word_embeddings : bool; lm_head : option Linear.t; num_hidden_layers :
    Z; num_attention_heads : Z; num_key_value_heads : Z; head_dim : Z; hidden_size : Z; vocab_size : Z; rope_theta :
    Z; rope_parameters : pyval; tensor_parallel_shards : Z; sliding_window_size : Z; dtype : string;
    weight_block_size : pyval }.
Definition init (config : settings) (path : string) : result t :=
  model ← Ministral3Model.init config (path ./ "model");
  let tie_word_embeddings := config.?["tie_word_embeddings"] in
  let lm_head := if negb config.?["tie_word_embeddings"] then Some (Linear.init (path ./ "lm_head")
      config.["hidden_size"] config.["vocab_size"] false None None) else None in
  let num_hidden_layers := config.["num_hidden_layers"] in
  let num_attention_heads := config.["num_attention_heads"] in
  let num_key_value_heads := config.["num_key_value_heads"] in
  let head_dim := config.["head_dim"] in
  let hidden_size := config.["hidden_size"] in
  let vocab_size := config.["vocab_size"] in
  let rope_theta := config.["position_embedding_base"] in
  let rope_parameters := val_of config "rope_parameters" in
  let tensor_parallel_shards := config.["tensor_parallel_shards"] in
  let sliding_window_size := config.["sliding_window_size"] in
  let dtype := str_of config "dtype" in
  let weight_block_size := val_of config "weight_block_size" in
  Ok {| model := model; tie_word_embeddings := tie_word_embeddings; lm_head := lm_head; num_hidden_layers :=
      num_hidden_layers; num_attention_heads := num_attention_heads; num_key_value_heads := num_key_value_heads;
      head_dim := head_dim; hidden_size := hidden_size; vocab_size := vocab_size; rope_theta := rope_theta;
      rope_parameters := rope_parameters; tensor_parallel_shards := tensor_parallel_shards; sliding_window_size :=
      sliding_window_size; dtype := dtype; weight_block_size := weight_block_size |}.
Definition parameters (self : t) : params :=
  under "model" (Ministral3Model.parameters self.(model)) ++ under "lm_head" (match self.(lm_head) with Some m =>
      Linear.parameters m | None => [] end).
Definition batch_forward (self : t) (input_embeds : T) (paged_kv_cache : Cache) (logit_positions : option T) : T *
    Cache :=
  let '(hidden_states, paged_kv_cache) := Ministral3Model.forward self.(model) input_embeds paged_kv_cache in
  let hidden_states :=
    match logit_positions with
    | Some logit_positions =>
        take hidden_states logit_positions 1
    | None => hidden_states
    end in
  let logits := if self.(tie_word_embeddings) then Ministral3Embedding.lm_head_forward
      self.(model).(Ministral3Model.embed_tokens) hidden_states else (match self.(lm_head) with Some m =>
      Linear.forward m hidden_states | None => undefined end) in
  let logits := if negb (bool_decide (dtype_of logits = "float32")) then astype logits "float32" else logits in
  (logits, paged_kv_cache).
Definition embed (self : t) (input_ids : T) : T :=
  let input_ids := if (self.(tensor_parallel_shards) >? 1) then ccl_broadcast_from_worker0 input_ids else input_ids in
  Ministral3Embedding.forward self.(model).(Ministral3Model.embed_tokens) input_ids.
Definition prefill (self : t) (input_embed : T) (paged_kv_cache : Cache) : T * Cache :=
  let '(hidden_states, paged_kv_cache) := Ministral3Model.forward self.(model) input_embed paged_kv_cache in
  let hidden_states := index_last_token hidden_states in
  let logits := if self.(tie_word_embeddings) then Ministral3Embedding.lm_head_forward
      self.(model).(Ministral3Model.embed_tokens) hidden_states else (match self.(lm_head) with Some m =>
      Linear.forward m hidden_states | None => undefined end) in
  let logits := if negb (bool_decide (dtype_of logits = "float32")) then astype logits "float32" else logits in
  (logits, paged_kv_cache).
Definition decode (self : t) (input_embed : T) (paged_kv_cache : Cache) : T * Cache :=
  let '(hidden_states, paged_kv_cache) := Ministral3Model.forward self.(model) input_embed paged_kv_cache in
  let logits := if self.(tie_word_embeddings) then Ministral3Embedding.lm_head_forward
      self.(model).(Ministral3Model.embed_tokens) hidden_states else (match self.(lm_head) with Some m =>
      Linear.forward m hidden_states | None => undefined end) in
  let logits := if negb (bool_decide (dtype_of logits = "float32")) then astype logits "float32" else logits in
  (logits, paged_kv_cache).
Definition batch_prefill (self : t) (input_embeds : T) (logit_positions : T) (paged_kv_cache : Cache) : T * Cache :=
  let logit_positions := if (self.(tensor_parallel_shards) >? 1) then ccl_broadcast_from_worker0 logit_positions else
      logit_positions in
  batch_forward self input_embeds paged_kv_cache (Some logit_positions).
Definition batch_decode (self : t) (input_embeds : T) (paged_kv_cache : Cache) : T * Cache :=
  batch_forward self input_embeds paged_kv_cache None.
Definition batch_verify (self : t) (input_embeds : T) (paged_kv_cache : Cache) : T * Cache :=
  batch_forward self input_embeds paged_kv_cache None.
Definition create_paged_kv_cache (self : t) (max_batch_size : Z) (max_total_seq_len : Z) (prefill_chunk_size : Z)
    (page_size : Z) (support_sliding_window : Z) : Cache :=
  create_generic (PStr "mha") max_batch_size max_total_seq_len prefill_chunk_size page_size support_sliding_window
      self.(num_hidden_layers) (self.(num_attention_heads) / self.(tensor_parallel_shards))
      (self.(num_key_value_heads) / self.(tensor_parallel_shards)) self.(head_dim) self.(head_dim) "NORMAL" (Num 1)
      (Num self.(rope_theta)) self.(dtype) None self.(rope_parameters) PNone None false.
Definition get_default_spec (self : t) : mod_spec := [
  ("embed", packed [("input_ids", STensor [Named "seq_len"] "int32")]);
  ("prefill", packed [("input_embed", STensor [Fixed 1; Named "seq_len"; Fixed self.(hidden_size)] self.(dtype));
      ("paged_kv_cache", SObject)]);
  ("decode", packed [("input_embed", STensor [Fixed 1; Fixed 1; Fixed self.(hidden_size)] self.(dtype));
      ("paged_kv_cache", SObject)]);
  ("batch_prefill", packed [("input_embeds", STensor [Fixed 1; Named "seq_len"; Fixed self.(hidden_size)]
      self.(dtype)); ("logit_positions", STensor [Named "batch_size"] "int32"); ("paged_kv_cache", SObject)]);
  ("batch_decode", packed [("input_embeds", STensor [Named "batch_size"; Fixed 1; Fixed self.(hidden_size)]
      self.(dtype)); ("paged_kv_cache", SObject)]);
  ("batch_verify", packed [("input_embeds", STensor [Fixed 1; Named "seq_len"; Fixed self.(hidden_size)]
      self.(dtype)); ("paged_kv_cache", SObject)]);
  ("create_paged_kv_cache", unpacked [("max_batch_size", SInt); ("max_total_seq_len", SInt); ("prefill_chunk_size",
      SInt); ("page_size", SInt); ("support_sliding_window", SInt)])].
Definition methods (self : t) : list (string * method) := [
  ("embed", Method ["input_ids"] (method_t (embed self)));
  ("prefill", Method ["input_embed"; "paged_kv_cache"] (method_tc (prefill self)));
  ("decode", Method ["input_embed"; "paged_kv_cache"] (method_tc (decode self)));
  ("batch_prefill", Method ["input_embeds"; "logit_positions"; "paged_kv_cache"] (method_ttc (batch_prefill self)));
  ("batch_decode", Method ["input_embeds"; "paged_kv_cache"] (method_tc (batch_decode self)));
  ("batch_verify", Method ["input_embeds"; "paged_kv_cache"] (method_tc (batch_verify self)));
  ("create_paged_kv_cache", Method ["max_batch_size"; "max_total_seq_len"; "prefill_chunk_size"; "page_size";
      "support_sliding_window"] (method_ints (create_paged_kv_cache self)))].
End network.
End Mistral3ForConditionalGeneration.

(** The shapes of its parts. *)
Section Ministral3_shapes.
Context {nn : NN} {laws : NNLaws nn}.
Lemma Ministral3MLP_maps config path self :
  natural config → Ministral3MLP.init config path = Ok self →
  maps_shape config.["hidden_size"] config.["hidden_size"] (Ministral3MLP.forward self).
Proof. intros P H. unfold Ministral3MLP.init in H. built H. unfold Ministral3MLP.forward. module_maps. Qed.
#[local] Hint Resolve Ministral3MLP_maps : modules.
Lemma Ministral3Attention_attends config path self :
  natural config → Ministral3Attention.init config path = Ok self →
  attends config.["hidden_size"] (Ministral3_heads config) (Ministral3Attention.forward self).
Proof. intros P H. unfold Ministral3Attention.init in H. built H. unfold Ministral3Attention.forward. module_attends. Qed.
#[local] Hint Resolve Ministral3Attention_attends : modules.
Lemma Ministral3DecoderLayer_attends config path self :
  natural config → Ministral3DecoderLayer.init config path = Ok self →
  attends config.["hidden_size"] (Ministral3_heads config) (Ministral3DecoderLayer.forward self).
Proof. intros P H. unfold Ministral3DecoderLayer.init in H. built H. unfold Ministral3DecoderLayer.forward, Ministral3DecoderLayer._apply_residual. module_attends. Qed.
#[local] Hint Resolve Ministral3DecoderLayer_attends : modules.
Lemma Ministral3Model_runs config path self :
  natural config → Ministral3Model.init config path = Ok self →
  runs config.["hidden_size"] (Ministral3_heads config) (Ministral3Model.forward self).
Proof.
  intros P H. unfold Ministral3Model.init in H. built H.
  unfold Ministral3Model.forward.
  match goal with Hl : module_list _ _ _ = Ok _ |- _ => module_runs Hl end.
Qed.
#[local] Hint Resolve Ministral3Model_runs : modules.
Lemma Ministral3Model_embed_tokens config path self : Ministral3Model.init config path = Ok self →
  self.(Ministral3Model.embed_tokens) = Embedding.init (path ./ "embed_tokens") config.["vocab_size"] config.["hidden_size"].
Proof. intros H. unfold Ministral3Model.init in H. built H. reflexivity. Qed.
Lemma Mistral3ForConditionalGeneration_typed config path self :
  natural config → Mistral3ForConditionalGeneration.init config path = Ok self →
  well_typed config.["hidden_size"] config.["vocab_size"] (Ministral3_heads config) (Mistral3ForConditionalGeneration.get_default_spec self) (Mistral3ForConditionalGeneration.methods self).
Proof.
  intros P H. unfold Mistral3ForConditionalGeneration.init in H. built H.
  match goal with Hm : Ministral3Model.init _ _ = Ok _ |- _ => pose proof (Ministral3Model_embed_tokens _ _ _ Hm) as Hemb_embed_tokens end.
  functions; unfold Mistral3ForConditionalGeneration.create_paged_kv_cache, Mistral3ForConditionalGeneration.batch_verify, Mistral3ForConditionalGeneration.batch_decode, Mistral3ForConditionalGeneration.batch_prefill, Mistral3ForConditionalGeneration.decode, Mistral3ForConditionalGeneration.prefill, Mistral3ForConditionalGeneration.embed, Mistral3ForConditionalGeneration.batch_forward, Ministral3Embedding.forward, Ministral3Embedding.init, Ministral3Embedding.lm_head_forward; exported.
Qed.
End Ministral3_shapes.
End Ministral3.

(** ** [model/orion/orion_model.py] *)

Module Orion.
(** The layers and heads of the cache [create_paged_kv_cache] makes. *)
Definition Orion_heads (config : settings) : heads := {|
  n_layers := config.["num_hidden_layers"]; q_heads := (config.["num_attention_heads"] / config.["tensor_parallel_shards"]);
  kv_heads := (config.["num_key_value_heads"] / config.["tensor_parallel_shards"]); head_size := config.["head_dim"]; value_size := config.["head_dim"] |}.

(** [OrionFFN]. *)
Module OrionFFN.
Section network.
Context {nn : NN}.
Record t := { intermediate_size : Z; gate_up_proj : Linear.t; down_proj : Linear.t }.
Definition init (config : settings) (path : string) : result t :=
  _ ← raise_when (negb (config.["intermediate_size"] mod config.["tensor_parallel_shards"] =? 0)) ValueError
      ("Cannot split MLP intermediate size " +:+ pretty config.["intermediate_size"] +:+ " evenly to " +:+ pretty
      config.["tensor_parallel_shards"] +:+ " GPUs.");
  let intermediate_size := config.["intermediate_size"] / config.["tensor_parallel_shards"] in
  let gate_up_proj := Linear.init (path ./ "gate_up_proj") config.["hidden_size"] (2 * intermediate_size) false None
      None in
  let down_proj := Linear.init (path ./ "down_proj") intermediate_size config.["hidden_size"] false None None in
  Ok {| intermediate_size := intermediate_size; gate_up_proj := gate_up_proj; down_proj := down_proj |}.
Definition parameters (self : t) : params :=
  under "gate_up_proj" (Linear.parameters self.(gate_up_proj)) ++ under "down_proj" (Linear.parameters
      self.(down_proj)).
Definition forward (self : t) (x : T) : T :=
  let concat_x1_x2 := Linear.forward self.(gate_up_proj) x in
  let '(x1, x2) := split2 concat_x1_x2 (-1) in
  Linear.forward self.(down_proj) ((activate Silu x1) ⊗ x2).
End network.
End OrionFFN.

(** [OrionAttention]. *)
Module OrionAttention.
Section network.
Context {nn : NN}.
Record t := { head_dim : Z; num_q_heads : Z; num_kv_heads : Z; qkv_proj : Linear.t; o_proj : Linear.t }.
Definition init (config : settings) (path : string) : result t :=
  let head_dim := config.["head_dim"] in
  let num_q_heads := config.["num_attention_heads"] / config.["tensor_parallel_shards"] in
  _ ← py_assert (config.["num_key_value_heads"] mod config.["tensor_parallel_shards"] =? 0) ("num_kv_heads(" +:+
      pretty config.["num_key_value_heads"] +:+ ") must be divisible by tensor_parallel_shards");
  _ ← py_assert (config.["num_key_value_heads"] >=? config.["tensor_parallel_shards"])
      ("Too large tensor_parallel_shards, must be smaller than " +:+ pretty config.["num_key_value_heads"]);
  let num_kv_heads := config.["num_key_value_heads"] / config.["tensor_parallel_shards"] in
  let qkv_proj := Linear.init (path ./ "qkv_proj") config.["hidden_size"] ((num_q_heads + (2 * num_kv_heads)) *
      head_dim) false None None in
  let o_proj := Linear.init (path ./ "o_proj") (num_q_heads * head_dim) config.["hidden_size"] false None None in
  Ok {| head_dim := head_dim; num_q_heads := num_q_heads; num_kv_heads := num_kv_heads; qkv_proj := qkv_proj; o_proj
      := o_proj |}.
Definition parameters (self : t) : params :=
  under "qkv_proj" (Linear.parameters self.(qkv_proj)) ++ under "o_proj" (Linear.parameters self.(o_proj)).
Definition forward (self : t) (hidden_states : T) (paged_kv_cache : Cache) (layer_id : Z) : T * Cache :=
  let d := self.(head_dim) in let h_q := self.(num_q_heads) in let h_kv := self.(num_kv_heads) in
  let '(b, s, _) := dims3 hidden_states in
  let qkv := Linear.forward self.(qkv_proj) hidden_states in
  let qkv := reshape qkv [b; s; (h_q + h_kv) + h_kv; d] in
  let '(attn_output, paged_kv_cache) := attention_with_fused_qkv paged_kv_cache layer_id qkv self.(num_q_heads) (Pow
      (Num self.(head_dim)) (Lit "-0.5")) in
  let output := reshape attn_output [b; s; h_q * d] in
  (Linear.forward self.(o_proj) output, paged_kv_cache).
End network.
End OrionAttention.

(** [OrionDecoderLayer]. *)
Module OrionDecoderLayer.
Section network.
Context {nn : NN}.
Record t := { self_attn : OrionAttention.t; mlp : OrionFFN.t; input_layernorm : LayerNorm.t; post_attention_layernorm
    : LayerNorm.t; tensor_parallel_shards : Z }.
Definition init (config : settings) (path : string) : result t :=
  let rms_norm_eps := (Val (val_of config "rms_norm_eps")) in
  self_attn ← OrionAttention.init config (path ./ "self_attn");
  mlp ← OrionFFN.init config (path ./ "mlp");
  let input_layernorm := LayerNorm.init (path ./ "input_layernorm") config.["hidden_size"] rms_norm_eps true in
  let post_attention_layernorm := LayerNorm.init (path ./ "post_attention_layernorm") config.["hidden_size"]
      rms_norm_eps true in
  let tensor_parallel_shards := config.["tensor_parallel_shards"] in
  Ok {| self_attn := self_attn; mlp := mlp; input_layernorm := input_layernorm; post_attention_layernorm :=
      post_attention_layernorm; tensor_parallel_shards := tensor_parallel_shards |}.
Definition parameters (self : t) : params :=
  under "self_attn" (OrionAttention.parameters self.(self_attn)) ++ under "mlp" (OrionFFN.parameters self.(mlp)) ++
      under "input_layernorm" (LayerNorm.parameters self.(input_layernorm)) ++ under "post_attention_layernorm"
      (LayerNorm.parameters self.(post_attention_layernorm)).
Definition set_tp (config : settings) (self : t) : list (string * ShardSingleDim) :=
  let hd := config.["head_dim"] in
  let q := self.(self_attn).(OrionAttention.num_q_heads) * hd in
  let k := self.(self_attn).(OrionAttention.num_kv_heads) * hd in
  let v := self.(self_attn).(OrionAttention.num_kv_heads) * hd in
  let i := self.(mlp).(OrionFFN.intermediate_size) in
  [("self_attn.qkv_proj.weight", {| shard_name := "_shard_qkv"; shard_dim := 0; segs := Some [q; k; v] |});
   ("self_attn.o_proj.weight", {| shard_name := "_shard_o"; shard_dim := 1; segs := None |});
   ("mlp.gate_up_proj.weight", {| shard_name := "_shard_mlp_up"; shard_dim := 0; segs := Some [i; i] |});
   ("mlp.down_proj.weight", {| shard_name := "_shard_mlp_down"; shard_dim := 1; segs := None |})].
Definition _apply_residual (self : t) (out : T) (residual : T) : T :=
  if (self.(tensor_parallel_shards) >? 1) then
    (ccl_allreduce out "sum") ⊕ residual
  else
    out ⊕ residual.
Definition forward (self : t) (hidden_states : T) (paged_kv_cache : Cache) (layer_id : Z) : T * Cache :=
  let '(out, paged_kv_cache) := OrionAttention.forward self.(self_attn) (LayerNorm.forward self.(input_layernorm)
      hidden_states) paged_kv_cache layer_id in
  let hidden_states := _apply_residual self out hidden_states in
  let out := OrionFFN.forward self.(mlp) (LayerNorm.forward self.(post_attention_layernorm) hidden_states) in
  let hidden_states := _apply_residual self out hidden_states in
  (hidden_states, paged_kv_cache).
End network.
End OrionDecoderLayer.

(** [OrionModel]. *)
Module OrionModel.
Section network.
Context {nn : NN}.
Record t := { embed_tokens : Embedding.t; layers : list OrionDecoderLayer.t; norm : LayerNorm.t;
    tensor_parallel_shards : Z }.
Definition init (config : settings) (path : string) : result t :=
  _ ← py_assert (config.["hidden_size"] mod config.["num_attention_heads"] =? 0) "";
  let embed_tokens := Embedding.init (path ./ "embed_tokens") (symbolic config "vocab_size") config.["hidden_size"] in
  layers ← module_list (path ./ "layers") config.["num_hidden_layers"] (λ _ path, OrionDecoderLayer.init config path);
  let norm := LayerNorm.init (path ./ "norm") config.["hidden_size"] (Val (val_of config "rms_norm_eps")) true in
  let tensor_parallel_shards := config.["tensor_parallel_shards"] in
  Ok {| embed_tokens := embed_tokens; layers := layers; norm := norm; tensor_parallel_shards :=
      tensor_parallel_shards |}.
Definition parameters (self : t) : params :=
  under "embed_tokens" (Embedding.parameters self.(embed_tokens)) ++ list_params "layers"
      OrionDecoderLayer.parameters self.(layers) ++ under "norm" (LayerNorm.parameters self.(norm)).
Definition forward (self : t) (input_embed : T) (paged_kv_cache : Cache) : T * Cache :=
  let hidden_states := input_embed in
  let '(hidden_states, paged_kv_cache) :=
    for_layers self.(layers) (λ layer_id layer '(hidden_states, paged_kv_cache),
      OrionDecoderLayer.forward layer hidden_states paged_kv_cache layer_id) (hidden_states, paged_kv_cache) in
  let hidden_states := LayerNorm.forward self.(norm) hidden_states in
  (hidden_states, paged_kv_cache).
End network.
End OrionModel.

(** [OrionForCausalLM]. *)
Module OrionForCausalLM.
Section network.
Context {nn : NN}.
Record t := { model : OrionModel.t; lm_head : Linear.t; num_hidden_layers : Z; num_attention_heads : Z;
    num_key_value_heads : Z; head_dim : Z; hidden_size : Z; vocab_size : Z; rope_theta : Z; tensor_parallel_shards :
    Z; dtype : string }.
Definition init (config : settings) (path : string) : result t :=
  model ← OrionModel.init config (path ./ "model");
  let lm_head := Linear.init (path ./ "lm_head") config.["hidden_size"] (symbolic config "vocab_size") false None
      None in
  let num_hidden_layers := config.["num_hidden_layers"] in
  let num_attention_heads := config.["num_attention_heads"] in
  let num_key_value_heads := config.["num_key_value_heads"] in
  let head_dim := config.["head_dim"] in
  let hidden_size := config.["hidden_size"] in
  let vocab_size := config.["vocab_size"] in
  let rope_theta := config.["position_embedding_base"] in
  let tensor_parallel_shards := config.["tensor_parallel_shards"] in
  let dtype := "float32" in
  Ok {| model := model; lm_head := lm_head; num_hidden_layers := num_hidden_layers; num_attention_heads :=
      num_attention_heads; num_key_value_heads := num_key_value_heads; head_dim := head_dim; hidden_size :=
      hidden_size; vocab_size := vocab_size; rope_theta := rope_theta; tensor_parallel_shards :=
      tensor_parallel_shards; dtype := dtype |}.
Definition parameters (self : t) : params :=
  under "model" (OrionModel.parameters self.(model)) ++ under "lm_head" (Linear.parameters self.(lm_head)).
Definition batch_forward (self : t) (input_embeds : T) (paged_kv_cache : Cache) (logit_positions : option T) : T *
    Cache :=
  let '(hidden_states, paged_kv_cache) := OrionModel.forward self.(model) input_embeds paged_kv_cache in
  let hidden_states :=
    match logit_positions with
    | Some logit_positions =>
        take hidden_states logit_positions 1
    | None => hidden_states
    end in
  let logits := Linear.forward self.(lm_head) hidden_states in
  let logits := if negb (bool_decide (dtype_of logits = "float32")) then astype logits "float32" else logits in
  (logits, paged_kv_cache).
Definition embed (self : t) (input_ids : T) : T :=
  let input_ids := if (self.(tensor_parallel_shards) >? 1) then ccl_broadcast_from_worker0 input_ids else input_ids in
  Embedding.forward self.(model).(OrionModel.embed_tokens) input_ids.
Definition prefill (self : t) (input_embed : T) (paged_kv_cache : Cache) : T * Cache :=
  let '(hidden_states, paged_kv_cache) := OrionModel.forward self.(model) input_embed paged_kv_cache in
  let hidden_states := index_last_token hidden_states in
  let logits := Linear.forward self.(lm_head) hidden_states in
  let logits := if negb (bool_decide (dtype_of logits = "float32")) then astype logits "float32" else logits in
  (logits, paged_kv_cache).
Definition decode (self : t) (input_embed : T) (paged_kv_cache : Cache) : T * Cache :=
  let '(hidden_states, paged_kv_cache) := OrionModel.forward self.(model) input_embed paged_kv_cache in
  let logits := Linear.forward self.(lm_head) hidden_states in
  let logits := if negb (bool_decide (dtype_of logits = "float32")) then astype logits "float32" else logits in
  (logits, paged_kv_cache).
Definition batch_prefill (self : t) (input_embeds : T) (logit_positions : T) (paged_kv_cache : Cache) : T * Cache :=
  let logit_positions := if (self.(tensor_parallel_shards) >? 1) then ccl_broadcast_from_worker0 logit_positions else
      logit_positions in
  batch_forward self input_embeds paged_kv_cache (Some logit_positions).
Definition batch_decode (self : t) (input_embeds : T) (paged_kv_cache : Cache) : T * Cache :=
  batch_forward self input_embeds paged_kv_cache None.
Definition batch_verify (self : t) (input_embeds : T) (paged_kv_cache : Cache) : T * Cache :=
  batch_forward self input_embeds paged_kv_cache None.
Definition create_paged_kv_cache (self : t) (max_batch_size : Z) (max_total_seq_len : Z) (prefill_chunk_size : Z)
    (page_size : Z) (support_sliding_window : Z) : Cache :=
  create_generic (PStr "mha") max_batch_size max_total_seq_len prefill_chunk_size page_size support_sliding_window
      self.(num_hidden_layers) (self.(num_attention_heads) / self.(tensor_parallel_shards))
      (self.(num_key_value_heads) / self.(tensor_parallel_shards)) self.(head_dim) self.(head_dim) "NORMAL" (Num 1)
      (Num self.(rope_theta)) self.(dtype) None PNone PNone None false.
Definition get_default_spec (self : t) : mod_spec := [
  ("embed", packed [("input_ids", STensor [Named "seq_len"] "int32")]);
  ("prefill", packed [("input_embed", STensor [Fixed 1; Named "seq_len"; Fixed self.(hidden_size)] self.(dtype));
      ("paged_kv_cache", SObject)]);
  ("decode", packed [("input_embed", STensor [Fixed 1; Fixed 1; Fixed self.(hidden_size)] self.(dtype));
      ("paged_kv_cache", SObject)]);
  ("batch_prefill", packed [("input_embeds", STensor [Fixed 1; Named "seq_len"; Fixed self.(hidden_size)]
      self.(dtype)); ("logit_positions", STensor [Named "batch_size"] "int32"); ("paged_kv_cache", SObject)]);
  ("batch_decode", packed [("input_embeds", STensor [Named "batch_size"; Fixed 1; Fixed self.(hidden_size)]
      self.(dtype)); ("paged_kv_cache", SObject)]);
  ("batch_verify", packed [("input_embeds", STensor [Fixed 1; Named "seq_len"; Fixed self.(hidden_size)]
      self.(dtype)); ("paged_kv_cache", SObject)]);
  ("create_paged_kv_cache", unpacked [("max_batch_size", SInt); ("max_total_seq_len", SInt); ("prefill_chunk_size",
      SInt); ("page_size", SInt); ("support_sliding_window", SInt)])].
Definition methods (self : t) : list (string * method) := [
  ("embed", Method ["input_ids"] (method_t (embed self)));
  ("prefill", Method ["input_embed"; "paged_kv_cache"] (method_tc (prefill self)));
  ("decode", Method ["input_embed"; "paged_kv_cache"] (method_tc (decode self)));
  ("batch_prefill", Method ["input_embeds"; "logit_positions"; "paged_kv_cache"] (method_ttc (batch_prefill self)));
  ("batch_decode", Method ["input_embeds"; "paged_kv_cache"] (method_tc (batch_decode self)));
  ("batch_verify", Method ["input_embeds"; "paged_kv_cache"] (method_tc (batch_verify self)));
  ("create_paged_kv_cache", Method ["max_batch_size"; "max_total_seq_len"; "prefill_chunk_size"; "page_size";
      "support_sliding_window"] (method_ints (create_paged_kv_cache self)))].
End network.
End OrionForCausalLM.

(** The shapes of its parts. *)
Section Orion_shapes.
Context {nn : NN} {laws : NNLaws nn}.
Lemma OrionFFN_maps config path self :
  natural config → OrionFFN.init config path = Ok self →
  maps_shape config.["hidden_size"] config.["hidden_size"] (OrionFFN.forward self).
Proof. intros P H. unfold OrionFFN.init in H. built H. unfold OrionFFN.forward. module_maps. Qed.
#[local] Hint Resolve OrionFFN_maps : modules.
Lemma OrionAttention_attends config path self :
  natural config → OrionAttention.init config path = Ok self →
  attends config.["hidden_size"] (Orion_heads config) (OrionAttention.forward self).
Proof. intros P H. unfold OrionAttention.init in H. built H. unfold OrionAttention.forward. module_attends. Qed.
#[local] Hint Resolve OrionAttention_attends : modules.
Lemma OrionDecoderLayer_attends config path self :
  natural config → OrionDecoderLayer.init config path = Ok self →
  attends config.["hidden_size"] (Orion_heads config) (OrionDecoderLayer.forward self).
Proof. intros P H. unfold OrionDecoderLayer.init in H. built H. unfold OrionDecoderLayer.forward, OrionDecoderLayer._apply_residual. module_attends. Qed.
#[local] Hint Resolve OrionDecoderLayer_attends : modules.
Lemma OrionModel_runs config path self :
  natural config → OrionModel.init config path = Ok self →
  runs config.["hidden_size"] (Orion_heads config) (OrionModel.forward self).
Proof.
  intros P H. unfold OrionModel.init in H. built H.
  unfold OrionModel.forward.
  match goal with Hl : module_list _ _ _ = Ok _ |- _ => module_runs Hl end.
Qed.
#[local] Hint Resolve OrionModel_runs : modules.
Lemma OrionModel_embed_tokens config path self : OrionModel.init config path = Ok self →
  self.(OrionModel.embed_tokens) = Embedding.init (path ./ "embed_tokens") (symbolic config "vocab_size") config.["hidden_size"].
Proof. intros H. unfold OrionModel.init in H. built H. reflexivity. Qed.
Lemma OrionForCausalLM_typed config path self :
  natural config → OrionForCausalLM.init config path = Ok self →
  well_typed config.["hidden_size"] (symbolic config "vocab_size") (Orion_heads config) (OrionForCausalLM.get_default_spec self) (OrionForCausalLM.methods self).
Proof.
  intros P H. unfold OrionForCausalLM.init in H. built H.
  match goal with Hm : OrionModel.init _ _ = Ok _ |- _ => pose proof (OrionModel_embed_tokens _ _ _ Hm) as Hemb_embed_tokens end.
  functions; unfold OrionForCausalLM.create_paged_kv_cache, OrionForCausalLM.batch_verify, OrionForCausalLM.batch_decode, OrionForCausalLM.batch_prefill, OrionForCausalLM.decode, OrionForCausalLM.prefill, OrionForCausalLM.embed, OrionForCausalLM.batch_forward; exported.
Qed.
End Orion_shapes.
End Orion.

(** ** [model/internlm/internlm_model.py] *)

Module InternLM.
(** The layers and heads of the cache [create_paged_kv_cache] makes. *)
Definition InternLM_heads (config : settings) : heads := {|
  n_layers := config.["num_hidden_layers"]; q_heads := (config.["num_attention_heads"] / config.["tensor_parallel_shards"]);
  kv_heads := (config.["num_attention_heads"] / config.["tensor_parallel_shards"]); head_size := config.["head_dim"]; value_size := config.["head_dim"] |}.

(** [InternLMAttention]. *)
Module InternLMAttention.
Section network.
Context {nn : NN}.
Record t := { hidden_size : Z; num_heads : Z; head_dim : Z; max_position_embeddings : Z; wqkv_pack : Linear.t; o_proj
    : Linear.t }.
Definition init (config : settings) (path : string) : result t :=
  let hidden_size := config.["hidden_size"] in
  _ ← raise_when (negb (config.["num_attention_heads"] mod config.["tensor_parallel_shards"] =? 0)) ValueError
      ("Cannot split " +:+ pretty config.["num_attention_heads"] +:+ " attention heads evenly to " +:+ pretty
      config.["tensor_parallel_shards"] +:+ " GPUs.");
  let num_heads := config.["num_attention_heads"] / config.["tensor_parallel_shards"] in
  let head_dim := config.["head_dim"] in
  let max_position_embeddings := config.["context_window_size"] in
  let wqkv_pack := Linear.init (path ./ "wqkv_pack") hidden_size ((3 * num_heads) * head_dim) config.?["bias"] None
      None in
  let o_proj := Linear.init (path ./ "o_proj") (num_heads * head_dim) hidden_size config.?["bias"] None None in
  Ok {| hidden_size := hidden_size; num_heads := num_heads; head_dim := head_dim; max_position_embeddings :=
      max_position_embeddings; wqkv_pack := wqkv_pack; o_proj := o_proj |}.
Definition parameters (self : t) : params :=
  under "wqkv_pack" (Linear.parameters self.(wqkv_pack)) ++ under "o_proj" (Linear.parameters self.(o_proj)).
Definition forward (self : t) (hidden_states : T) (paged_kv_cache : Cache) (layer_id : Z) : T * Cache :=
  let d := self.(head_dim) in let h := self.(num_heads) in
  let '(b, s, _) := dims3 hidden_states in
  let qkv := Linear.forward self.(wqkv_pack) hidden_states in
  let qkv := reshape qkv [b; s; 3 * h; d] in
  let '(attn_output, paged_kv_cache) := attention_with_fused_qkv paged_kv_cache layer_id qkv self.(num_heads) (Pow
      (Num self.(head_dim)) (Lit "-0.5")) in
  let output := reshape attn_output [b; s; h * d] in
  let attn_output := Linear.forward self.(o_proj) output in
  (attn_output, paged_kv_cache).
End network.
End InternLMAttention.

(** [InternLMMLP]. *)
Module InternLMMLP.
Section network.
Context {nn : NN}.
Record t := { intermediate_size : Z; gate_up_proj : Linear.t; down_proj : Linear.t }.
Definition init (config : settings) (path : string) : result t :=
  _ ← raise_when (negb (config.["intermediate_size"] mod config.["tensor_parallel_shards"] =? 0)) ValueError
      ("Cannot split MLP intermediate size " +:+ pretty config.["intermediate_size"] +:+ " evenly to " +:+ pretty
      config.["tensor_parallel_shards"] +:+ " GPUs.");
  let intermediate_size := config.["intermediate_size"] / config.["tensor_parallel_shards"] in
  let gate_up_proj := Linear.init (path ./ "gate_up_proj") config.["hidden_size"] (2 * intermediate_size) false None
      None in
  let down_proj := Linear.init (path ./ "down_proj") intermediate_size config.["hidden_size"] false None None in
  Ok {| intermediate_size := intermediate_size; gate_up_proj := gate_up_proj; down_proj := down_proj |}.
Definition parameters (self : t) : params :=
  under "gate_up_proj" (Linear.parameters self.(gate_up_proj)) ++ under "down_proj" (Linear.parameters
      self.(down_proj)).
Definition forward (self : t) (x : T) : T :=
  let concat_x1_x2 := Linear.forward self.(gate_up_proj) x in
  let '(x1, x2) := split2 concat_x1_x2 (-1) in
  Linear.forward self.(down_proj) ((activate Silu x1) ⊗ x2).
End network.
End InternLMMLP.

(** [InternLMDecoderLayer]. *)
Module InternLMDecoderLayer.
Section network.
Context {nn : NN}.
Record t := { self_attn : InternLMAttention.t; mlp : InternLMMLP.t; input_layernorm : RMSNorm.t;
    post_attention_layernorm : RMSNorm.t; tensor_parallel_shards : Z }.
Definition init (config : settings) (path : string) : result t :=
  self_attn ← InternLMAttention.init config (path ./ "self_attn");
  mlp ← InternLMMLP.init config (path ./ "mlp");
  let input_layernorm := RMSNorm.init (path ./ "input_layernorm") config.["hidden_size"] (-1) (Val (val_of config
      "rms_norm_eps")) false in
  let post_attention_layernorm := RMSNorm.init (path ./ "post_attention_layernorm") config.["hidden_size"] (-1) (Val
      (val_of config "rms_norm_eps")) false in
  let tensor_parallel_shards := config.["tensor_parallel_shards"] in
  Ok {| self_attn := self_attn; mlp := mlp; input_layernorm := input_layernorm; post_attention_layernorm :=
      post_attention_layernorm; tensor_parallel_shards := tensor_parallel_shards |}.
Definition parameters (self : t) : params :=
  under "self_attn" (InternLMAttention.parameters self.(self_attn)) ++ under "mlp" (InternLMMLP.parameters
      self.(mlp)) ++ under "input_layernorm" (RMSNorm.parameters self.(input_layernorm)) ++ under
      "post_attention_layernorm" (RMSNorm.parameters self.(post_attention_layernorm)).
Definition set_tp (config : settings) (self : t) : list (string * ShardSingleDim) :=
  let hd := config.["head_dim"] in
  let q := self.(self_attn).(InternLMAttention.num_heads) * hd in
  let k := self.(self_attn).(InternLMAttention.num_heads) * hd in
  let v := self.(self_attn).(InternLMAttention.num_heads) * hd in
  let i := self.(mlp).(InternLMMLP.intermediate_size) in
  [("self_attn.wqkv_pack.weight", {| shard_name := "_shard_qkv_weight"; shard_dim := 0; segs := Some [q; k; v] |})] ++
  (if config.?["bias"] then [("self_attn.wqkv_pack.bias", {| shard_name := "_shard_qkv_bias"; shard_dim := 0; segs :=
      Some [q; k; v] |})] else []) ++
  [("self_attn.o_proj.weight", {| shard_name := "_shard_o_weight"; shard_dim := 1; segs := None |})] ++
  (if config.?["bias"] then [("self_attn.o_proj.bias", {| shard_name := "_shard_o_bias"; shard_dim := 0; segs := None
      |})] else []) ++
  [("mlp.gate_up_proj.weight", {| shard_name := "_shard_mlp_gate_up"; shard_dim := 0; segs := Some [i; i] |});
   ("mlp.down_proj.weight", {| shard_name := "_shard_mlp_down_proj"; shard_dim := 1; segs := None |})].
Definition _apply_residual (self : t) (out : T) (residual : T) : T :=
  if (self.(tensor_parallel_shards) >? 1) then
    (ccl_allreduce out "sum") ⊕ residual
  else
    out ⊕ residual.
Definition forward (self : t) (hidden_states : T) (paged_kv_cache : Cache) (layer_id : Z) : T * Cache :=
  let '(out, paged_kv_cache) := InternLMAttention.forward self.(self_attn) (RMSNorm.forward self.(input_layernorm)
      hidden_states) paged_kv_cache layer_id in
  let hidden_states := _apply_residual self out hidden_states in
  let out := InternLMMLP.forward self.(mlp) (RMSNorm.forward self.(post_attention_layernorm) hidden_states) in
  let hidden_states := _apply_residual self out hidden_states in
  (hidden_states, paged_kv_cache).
End network.
End InternLMDecoderLayer.

(** [InternLMModel]. *)
Module InternLMModel.
Section network.
Context {nn : NN}.
Record t := { embed_tokens : Embedding.t; layers : list InternLMDecoderLayer.t; norm : RMSNorm.t }.
Definition init (config : settings) (path : string) : result t :=
  let embed_tokens := Embedding.init (path ./ "embed_tokens") config.["vocab_size"] config.["hidden_size"] in
  layers ← module_list (path ./ "layers") config.["num_hidden_layers"] (λ _ path, InternLMDecoderLayer.init config
      path);
  let norm := RMSNorm.init (path ./ "norm") config.["hidden_size"] (-1) (Val (val_of config "rms_norm_eps")) false in
  Ok {| embed_tokens := embed_tokens; layers := layers; norm := norm |}.
Definition parameters (self : t) : params :=
  under "embed_tokens" (Embedding.parameters self.(embed_tokens)) ++ list_params "layers"
      InternLMDecoderLayer.parameters self.(layers) ++ under "norm" (RMSNorm.parameters self.(norm)).
Definition forward (self : t) (inputs : T) (paged_kv_cache : Cache) : T * Cache :=
  let hidden_states := inputs in
  let '(hidden_states, paged_kv_cache) :=
    for_layers self.(layers) (λ layer_id layer '(hidden_states, paged_kv_cache),
      InternLMDecoderLayer.forward layer hidden_states paged_kv_cache layer_id) (hidden_states, paged_kv_cache) in
  let hidden_states := RMSNorm.forward self.(norm) hidden_states in
  (hidden_states, paged_kv_cache).
End network.
End InternLMModel.

(** [InternLMForCausalLM]. *)
Module InternLMForCausalLM.
Section network.
Context {nn : NN}.
Record t := { model : InternLMModel.t; lm_head : Linear.t; vocab_size : Z; num_hidden_layers : Z; hidden_size : Z;
    num_attention_heads : Z; head_dim : Z; rope_theta : Z; tensor_parallel_shards : Z; dtype : string }.
Definition init (config : settings) (path : string) : result t :=
  model ← InternLMModel.init config (path ./ "model");
  let lm_head := Linear.init (path ./ "lm_head") config.["hidden_size"] config.["vocab_size"] false None None in
  let vocab_size := config.["vocab_size"] in
  let num_hidden_layers := config.["num_hidden_layers"] in
  let hidden_size := config.["hidden_size"] in
  let num_attention_heads := config.["num_attention_heads"] in
  let head_dim := config.["head_dim"] in
  let vocab_size := config.["vocab_size"] in
  let rope_theta := 10000 in
  let tensor_parallel_shards := config.["tensor_parallel_shards"] in
  let dtype := "float32" in
  Ok {| model := model; lm_head := lm_head; vocab_size := vocab_size; num_hidden_layers := num_hidden_layers;
      hidden_size := hidden_size; num_attention_heads := num_attention_heads; head_dim := head_dim; rope_theta :=
      rope_theta; tensor_parallel_shards := tensor_parallel_shards; dtype := dtype |}.
Definition parameters (self : t) : params :=
  under "model" (InternLMModel.parameters self.(model)) ++ under "lm_head" (Linear.parameters self.(lm_head)).
Definition batch_forward (self : t) (input_embeds : T) (paged_kv_cache : Cache) (logit_positions : option T) : T *
    Cache :=
  let '(hidden_states, paged_kv_cache) := InternLMModel.forward self.(model) input_embeds paged_kv_cache in
  let hidden_states :=
    match logit_positions with
    | Some logit_positions =>
        take hidden_states logit_positions 1
    | None => hidden_states
    end in
  let logits := Linear.forward self.(lm_head) hidden_states in
  let logits := if negb (bool_decide (dtype_of logits = "float32")) then astype logits "float32" else logits in
  (logits, paged_kv_cache).
Definition embed (self : t) (input_ids : T) : T :=
  let input_ids := if (self.(tensor_parallel_shards) >? 1) then ccl_broadcast_from_worker0 input_ids else input_ids in
  Embedding.forward self.(model).(InternLMModel.embed_tokens) input_ids.
Definition prefill (self : t) (input_embed : T) (paged_kv_cache : Cache) : T * Cache :=
  let '(hidden_states, paged_kv_cache) := InternLMModel.forward self.(model) input_embed paged_kv_cache in
  let hidden_states := index_last_token hidden_states in
  let logits := Linear.forward self.(lm_head) hidden_states in
  let logits := if negb (bool_decide (dtype_of logits = "float32")) then astype logits "float32" else logits in
  (logits, paged_kv_cache).
Definition decode (self : t) (input_embed : T) (paged_kv_cache : Cache) : T * Cache :=
  let '(hidden_states, paged_kv_cache) := InternLMModel.forward self.(model) input_embed paged_kv_cache in
  let logits := Linear.forward self.(lm_head) hidden_states in
  let logits := if negb (bool_decide (dtype_of logits = "float32")) then astype logits "float32" else logits in
  (logits, paged_kv_cache).
Definition batch_prefill (self : t) (input_embeds : T) (logit_positions : T) (paged_kv_cache : Cache) : T * Cache :=
  let logit_positions := if (self.(tensor_parallel_shards) >? 1) then ccl_broadcast_from_worker0 logit_positions else
      logit_positions in
  batch_forward self input_embeds paged_kv_cache (Some logit_positions).
Definition batch_decode (self : t) (input_embeds : T) (paged_kv_cache : Cache) : T * Cache :=
  batch_forward self input_embeds paged_kv_cache None.
Definition batch_verify (self : t) (input_embeds : T) (paged_kv_cache : Cache) : T * Cache :=
  batch_forward self input_embeds paged_kv_cache None.
Definition create_paged_kv_cache (self : t) (max_batch_size : Z) (max_total_seq_len : Z) (prefill_chunk_size : Z)
    (page_size : Z) (support_sliding_window : Z) : Cache :=
  create_generic (PStr "mha") max_batch_size max_total_seq_len prefill_chunk_size page_size support_sliding_window
      self.(num_hidden_layers) (self.(num_attention_heads) / self.(tensor_parallel_shards))
      (self.(num_attention_heads) / self.(tensor_parallel_shards)) self.(head_dim) self.(head_dim) "NORMAL" (Num 1)
      (Num self.(rope_theta)) self.(dtype) None PNone PNone None false.
Definition get_default_spec (self : t) : mod_spec := [
  ("embed", packed [("input_ids", STensor [Named "seq_len"] "int32")]);
  ("prefill", packed [("input_embed", STensor [Fixed 1; Named "seq_len"; Fixed self.(hidden_size)] self.(dtype));
      ("paged_kv_cache", SObject)]);
  ("decode", packed [("input_embed", STensor [Fixed 1; Fixed 1; Fixed self.(hidden_size)] self.(dtype));
      ("paged_kv_cache", SObject)]);
  ("batch_prefill", packed [("input_embeds", STensor [Fixed 1; Named "seq_len"; Fixed self.(hidden_size)]
      self.(dtype)); ("logit_positions", STensor [Named "batch_size"] "int32"); ("paged_kv_cache", SObject)]);
  ("batch_decode", packed [("input_embeds", STensor [Named "batch_size"; Fixed 1; Fixed self.(hidden_size)]
      self.(dtype)); ("paged_kv_cache", SObject)]);
  ("batch_verify", packed [("input_embeds", STensor [Fixed 1; Named "seq_len"; Fixed self.(hidden_size)]
      self.(dtype)); ("paged_kv_cache", SObject)]);
  ("create_paged_kv_cache", unpacked [("max_batch_size", SInt); ("max_total_seq_len", SInt); ("prefill_chunk_size",
      SInt); ("page_size", SInt); ("support_sliding_window", SInt)])].
Definition methods (self : t) : list (string * method) := [
  ("embed", Method ["input_ids"] (method_t (embed self)));
  ("prefill", Method ["input_embed"; "paged_kv_cache"] (method_tc (prefill self)));
  ("decode", Method ["input_embed"; "paged_kv_cache"] (method_tc (decode self)));
  ("batch_prefill", Method ["input_embeds"; "logit_positions"; "paged_kv_cache"] (method_ttc (batch_prefill self)));
  ("batch_decode", Method ["input_embeds"; "paged_kv_cache"] (method_tc (batch_decode self)));
  ("batch_verify", Method ["input_embeds"; "paged_kv_cache"] (method_tc (batch_verify self)));
  ("create_paged_kv_cache", Method ["max_batch_size"; "max_total_seq_len"; "prefill_chunk_size"; "page_size";
      "support_sliding_window"] (method_ints (create_paged_kv_cache self)))].
End network.
End InternLMForCausalLM.

(** The shapes of its parts. *)
Section InternLM_shapes.
Context {nn : NN} {laws : NNLaws nn}.
Lemma InternLMAttention_attends config path self :
  natural config → InternLMAttention.init config path = Ok self →
  attends config.["hidden_size"] (InternLM_heads config) (InternLMAttention.forward self).
Proof. intros P H. unfold InternLMAttention.init in H. built H. unfold InternLMAttention.forward. module_attends. Qed.
#[local] Hint Resolve InternLMAttention_attends : modules.
Lemma InternLMMLP_maps config path self :
  natural config → InternLMMLP.init config path = Ok self →
  maps_shape config.["hidden_size"] config.["hidden_size"] (InternLMMLP.forward self).
Proof. intros P H. unfold InternLMMLP.init in H. built H. unfold InternLMMLP.forward. module_maps. Qed.
#[local] Hint Resolve InternLMMLP_maps : modules.
Lemma InternLMDecoderLayer_attends config path self :
  natural config → InternLMDecoderLayer.init config path = Ok self →
  attends config.["hidden_size"] (InternLM_heads config) (InternLMDecoderLayer.forward self).
Proof. intros P H. unfold InternLMDecoderLayer.init in H. built H. unfold InternLMDecoderLayer.forward, InternLMDecoderLayer._apply_residual. module_attends. Qed.
#[local] Hint Resolve InternLMDecoderLayer_attends : modules.
Lemma InternLMModel_runs config path self :
  natural config → InternLMModel.init config path = Ok self →
  runs config.["hidden_size"] (InternLM_heads config) (InternLMModel.forward self).
Proof.
  intros P H. unfold InternLMModel.init in H. built H.
  unfold InternLMModel.forward.
  match goal with Hl : module_list _ _ _ = Ok _ |- _ => module_runs Hl end.
Qed.
#[local] Hint Resolve InternLMModel_runs : modules.
Lemma InternLMModel_embed_tokens config path self : InternLMModel.init config path = Ok self →
  self.(InternLMModel.embed_tokens) = Embedding.init (path ./ "embed_tokens") config.["vocab_size"] config.["hidden_size"].
Proof. intros H. unfold InternLMModel.init in H. built H. reflexivity. Qed.
Lemma InternLMForCausalLM_typed config path self :
  natural config → InternLMForCausalLM.init config path = Ok self →
  well_typed config.["hidden_size"] config.["vocab_size"] (InternLM_heads config) (InternLMForCausalLM.get_default_spec self) (InternLMForCausalLM.methods self).
Proof.
  intros P H. unfold InternLMForCausalLM.init in H. built H.
  match goal with Hm : InternLMModel.init _ _ = Ok _ |- _ => pose proof (InternLMModel_embed_tokens _ _ _ Hm) as Hemb_embed_tokens end.
  functions; unfold InternLMForCausalLM.create_paged_kv_cache, InternLMForCausalLM.batch_verify, InternLMForCausalLM.batch_decode, InternLMForCausalLM.batch_prefill, InternLMForCausalLM.decode, InternLMForCausalLM.prefill, InternLMForCausalLM.embed, InternLMForCausalLM.batch_forward; exported.
Qed.
End InternLM_shapes.
End InternLM.

(** ** [model/internlm2/internlm2_model.py] *)

Module InternLM2.
(** The layers and heads of the cache [create_paged_kv_cache] makes. *)
Definition InternLM2_heads (config : settings) : heads := {|
  n_layers := config.["num_hidden_layers"]; q_heads := (config.["num_attention_heads"] / config.["tensor_parallel_shards"]);
  kv_heads := (config.["num_key_value_heads"] / config.["tensor_parallel_shards"]); head_size := config.["head_dim"]; value_size := config.["head_dim"] |}.

(** [InternLM2Attention]. *)
Module InternLM2Attention.
Section network.
Context {nn : NN}.
Record t := { hidden_size : Z; rope_theta : Z; num_heads : Z; head_dim : Z; num_key_value_heads : Z;
    max_position_embeddings : Z; wqkv : Linear.t; wo : Linear.t }.
Definition init (config : settings) (path : string) : result t :=
  _ ← raise_when (negb (config.["num_attention_heads"] mod config.["tensor_parallel_shards"] =? 0)) ValueError
      ("Cannot split " +:+ pretty config.["num_attention_heads"] +:+ " attention heads evenly to " +:+ pretty
      config.["tensor_parallel_shards"] +:+ " GPUs.");
  let hidden_size := config.["hidden_size"] in
  let rope_theta := config.["rope_theta"] in
  let num_heads := config.["num_attention_heads"] / config.["tensor_parallel_shards"] in
  let head_dim := config.["head_dim"] in
  let num_key_value_heads := config.["num_key_value_heads"] / config.["tensor_parallel_shards"] in
  let max_position_embeddings := config.["context_window_size"] in
  let wqkv := Linear.init (path ./ "wqkv") hidden_size ((num_heads + (2 * num_key_value_heads)) * head_dim)
      config.?["bias"] None None in
  let wo := Linear.init (path ./ "wo") (num_heads * head_dim) hidden_size config.?["bias"] None None in
  Ok {| hidden_size := hidden_size; rope_theta := rope_theta; num_heads := num_heads; head_dim := head_dim;
      num_key_value_heads := num_key_value_heads; max_position_embeddings := max_position_embeddings; wqkv := wqkv;
      wo := wo |}.
Definition parameters (self : t) : params :=
  under "wqkv" (Linear.parameters self.(wqkv)) ++ under "wo" (Linear.parameters self.(wo)).
Definition forward (self : t) (hidden_states : T) (paged_kv_cache : Cache) (layer_id : Z) : T * Cache :=
  let d := self.(head_dim) in let h_q := self.(num_heads) in let h_kv := self.(num_key_value_heads) in
  let '(b, s, _) := dims3 hidden_states in
  let qkv := Linear.forward self.(wqkv) hidden_states in
  let qkv := reshape qkv [b; s; (h_q + h_kv) + h_kv; d] in
  let '(attn_output, paged_kv_cache) := attention_with_fused_qkv paged_kv_cache layer_id qkv self.(num_heads) (Pow
      (Num self.(head_dim)) (Lit "-0.5")) in
  let output := reshape attn_output [b; s; h_q * d] in
  let attn_output := Linear.forward self.(wo) output in
  (attn_output, paged_kv_cache).
End network.
End InternLM2Attention.

(** [InternLM2MLP]. *)
Module InternLM2MLP.
Section network.
Context {nn : NN}.
Record t := { intermediate_size : Z; gate_up_proj : Linear.t; w2 : Linear.t }.
Definition init (config : settings) (path : string) : result t :=
  _ ← raise_when (negb (config.["intermediate_size"] mod config.["tensor_parallel_shards"] =? 0)) ValueError
      ("Cannot split MLP intermediate size " +:+ pretty config.["intermediate_size"] +:+ " evenly to " +:+ pretty
      config.["tensor_parallel_shards"] +:+ " GPUs.");
  let intermediate_size := config.["intermediate_size"] / config.["tensor_parallel_shards"] in
  let gate_up_proj := Linear.init (path ./ "gate_up_proj") config.["hidden_size"] (2 * intermediate_size) false None
      None in
  let w2 := Linear.init (path ./ "w2") intermediate_size config.["hidden_size"] false None None in
  Ok {| intermediate_size := intermediate_size; gate_up_proj := gate_up_proj; w2 := w2 |}.
Definition parameters (self : t) : params :=
  under "gate_up_proj" (Linear.parameters self.(gate_up_proj)) ++ under "w2" (Linear.parameters self.(w2)).
Definition forward (self : t) (x : T) : T :=
  let concat_x1_x2 := Linear.forward self.(gate_up_proj) x in
  let '(x1, x2) := split2 concat_x1_x2 (-1) in
  Linear.forward self.(w2) ((activate Silu x1) ⊗ x2).
End network.
End InternLM2MLP.

(** [InternLM2DecoderLayer]. *)
Module InternLM2DecoderLayer.
Section network.
Context {nn : NN}.
Record t := { attention : InternLM2Attention.t; feed_forward : InternLM2MLP.t; attention_norm : RMSNorm.t; ffn_norm :
    RMSNorm.t; tensor_parallel_shards : Z }.
Definition init (config : settings) (path : string) : result t :=
  attention ← InternLM2Attention.init config (path ./ "attention");
  feed_forward ← InternLM2MLP.init config (path ./ "feed_forward");
  let attention_norm := RMSNorm.init (path ./ "attention_norm") config.["hidden_size"] (-1) (Val (val_of config
      "rms_norm_eps")) false in
  let ffn_norm := RMSNorm.init (path ./ "ffn_norm") config.["hidden_size"] (-1) (Val (val_of config "rms_norm_eps"))
      false in
  let tensor_parallel_shards := config.["tensor_parallel_shards"] in
  Ok {| attention := attention; feed_forward := feed_forward; attention_norm := attention_norm; ffn_norm := ffn_norm;
      tensor_parallel_shards := tensor_parallel_shards |}.
Definition parameters (self : t) : params :=
  under "attention" (InternLM2Attention.parameters self.(attention)) ++ under "feed_forward" (InternLM2MLP.parameters
      self.(feed_forward)) ++ under "attention_norm" (RMSNorm.parameters self.(attention_norm)) ++ under "ffn_norm"
      (RMSNorm.parameters self.(ffn_norm)).
Definition set_tp (config : settings) (self : t) : list (string * ShardSingleDim) :=
  let hd := config.["head_dim"] in
  let q := self.(attention).(InternLM2Attention.num_heads) * hd in
  let k := self.(attention).(InternLM2Attention.num_key_value_heads) * hd in
  let v := self.(attention).(InternLM2Attention.num_key_value_heads) * hd in
  let i := self.(feed_forward).(InternLM2MLP.intermediate_size) in
  [("attention.wqkv.weight", {| shard_name := "_shard_qkv_weight"; shard_dim := 0; segs := Some [q; k; v] |})] ++
  (if config.?["bias"] then [("attention.wqkv.bias", {| shard_name := "_shard_qkv_bias"; shard_dim := 0; segs := Some
      [q; k; v] |})] else []) ++
  [("attention.wo.weight", {| shard_name := "_shard_o"; shard_dim := 1; segs := None |});
   ("feed_forward.gate_up_proj.weight", {| shard_name := "_shard_mlp_up"; shard_dim := 0; segs := Some [i; i] |});
   ("feed_forward.w2.weight", {| shard_name := "_shard_mlp_down"; shard_dim := 1; segs := None |})].
Definition _apply_residual (self : t) (out : T) (residual : T) : T :=
  if (self.(tensor_parallel_shards) >? 1) then
    (ccl_allreduce out "sum") ⊕ residual
  else
    out ⊕ residual.
Definition forward (self : t) (hidden_states : T) (paged_kv_cache : Cache) (layer_id : Z) : T * Cache :=
  let residual := hidden_states in
  let hidden_states := RMSNorm.forward self.(attention_norm) hidden_states in
  let '(hidden_states, paged_kv_cache) := InternLM2Attention.forward self.(attention) hidden_states paged_kv_cache
      layer_id in
  let hidden_states := _apply_residual self hidden_states residual in
  let residual := hidden_states in
  let hidden_states := RMSNorm.forward self.(ffn_norm) hidden_states in
  let hidden_states := InternLM2MLP.forward self.(feed_forward) hidden_states in
  let hidden_states := _apply_residual self hidden_states residual in
  (hidden_states, paged_kv_cache).
End network.
End InternLM2DecoderLayer.

(** [InternLM2Model]. *)
Module InternLM2Model.
Section network.
Context {nn : NN}.
Record t := { padding_idx : Z; tok_embeddings : Embedding.t; layers : list InternLM2DecoderLayer.t; norm : RMSNorm.t
    }.
Definition init (config : settings) (path : string) : result t :=
  let padding_idx := config.["pad_token_id"] in
  let tok_embeddings := Embedding.init (path ./ "tok_embeddings") config.["vocab_size"] config.["hidden_size"] in
  layers ← module_list (path ./ "layers") config.["num_hidden_layers"] (λ _ path, InternLM2DecoderLayer.init config
      path);
  let norm := RMSNorm.init (path ./ "norm") config.["hidden_size"] (-1) (Val (val_of config "rms_norm_eps")) false in
  Ok {| padding_idx := padding_idx; tok_embeddings := tok_embeddings; layers := layers; norm := norm |}.
Definition parameters (self : t) : params :=
  under "tok_embeddings" (Embedding.parameters self.(tok_embeddings)) ++ list_params "layers"
      InternLM2DecoderLayer.parameters self.(layers) ++ under "norm" (RMSNorm.parameters self.(norm)).
Definition forward (self : t) (inputs : T) (paged_kv_cache : Cache) : T * Cache :=
  let hidden_states := inputs in
  let '(hidden_states, paged_kv_cache) :=
    for_layers self.(layers) (λ layer_id layer '(hidden_states, paged_kv_cache),
      InternLM2DecoderLayer.forward layer hidden_states paged_kv_cache layer_id) (hidden_states, paged_kv_cache) in
  let hidden_states := RMSNorm.forward self.(norm) hidden_states in
  (hidden_states, paged_kv_cache).
End network.
End InternLM2Model.

(** [InternLM2ForCausalLM]. *)
Module InternLM2ForCausalLM.
Section network.
Context {nn : NN}.
Record t := { model : InternLM2Model.t; output : Linear.t; vocab_size : Z; dtype : string; num_hidden_layers : Z;
    hidden_size : Z; num_attention_heads : Z; num_key_value_heads : Z; head_dim : Z; rope_theta : Z;
    tensor_parallel_shards : Z }.
Definition init (config : settings) (path : string) : result t :=
  model ← InternLM2Model.init config (path ./ "model");
  let output := Linear.init (path ./ "output") config.["hidden_size"] config.["vocab_size"] false None None in
  let vocab_size := config.["vocab_size"] in
  let dtype := "float32" in
  let num_hidden_layers := config.["num_hidden_layers"] in
  let hidden_size := config.["hidden_size"] in
  let num_attention_heads := config.["num_attention_heads"] in
  let num_key_value_heads := config.["num_key_value_heads"] in
  let head_dim := config.["head_dim"] in
  let rope_theta := config.["rope_theta"] in
  let tensor_parallel_shards := config.["tensor_parallel_shards"] in
  Ok {| model := model; output := output; vocab_size := vocab_size; dtype := dtype; num_hidden_layers :=
      num_hidden_layers; hidden_size := hidden_size; num_attention_heads := num_attention_heads; num_key_value_heads
      := num_key_value_heads; head_dim := head_dim; rope_theta := rope_theta; tensor_parallel_shards :=
      tensor_parallel_shards |}.
Definition parameters (self : t) : params :=
  under "model" (InternLM2Model.parameters self.(model)) ++ under "output" (Linear.parameters self.(output)).
Definition batch_forward (self : t) (input_embeds : T) (paged_kv_cache : Cache) (logit_positions : option T) : T *
    Cache :=
  let '(hidden_states, paged_kv_cache) := InternLM2Model.forward self.(model) input_embeds paged_kv_cache in
  let hidden_states :=
    match logit_positions with
    | Some logit_positions =>
        take hidden_states logit_positions 1
    | None => hidden_states
    end in
  let logits := Linear.forward self.(output) hidden_states in
  let logits := if negb (bool_decide (dtype_of logits = "float32")) then astype logits "float32" else logits in
  (logits, paged_kv_cache).
Definition embed (self : t) (input_ids : T) : T :=
  let input_ids := if (self.(tensor_parallel_shards) >? 1) then ccl_broadcast_from_worker0 input_ids else input_ids in
  Embedding.forward self.(model).(InternLM2Model.tok_embeddings) input_ids.
Definition prefill (self : t) (input_embed : T) (paged_kv_cache : Cache) : T * Cache :=
  let '(hidden_states, paged_kv_cache) := InternLM2Model.forward self.(model) input_embed paged_kv_cache in
  let hidden_states := index_last_token hidden_states in
  let logits := Linear.forward self.(output) hidden_states in
  let logits := if negb (bool_decide (dtype_of logits = "float32")) then astype logits "float32" else logits in
  (logits, paged_kv_cache).
Definition decode (self : t) (input_embed : T) (paged_kv_cache : Cache) : T * Cache :=
  let '(hidden_states, paged_kv_cache) := InternLM2Model.forward self.(model) input_embed paged_kv_cache in
  let logits := Linear.forward self.(output) hidden_states in
  let logits := if negb (bool_decide (dtype_of logits = "float32")) then astype logits "float32" else logits in
  (logits, paged_kv_cache).
Definition batch_prefill (self : t) (input_embeds : T) (logit_positions : T) (paged_kv_cache : Cache) : T * Cache :=
  let logit_positions := if (self.(tensor_parallel_shards) >? 1) then ccl_broadcast_from_worker0 logit_positions else
      logit_positions in
  batch_forward self input_embeds paged_kv_cache (Some logit_positions).
Definition batch_decode (self : t) (input_embeds : T) (paged_kv_cache : Cache) : T * Cache :=
  batch_forward self input_embeds paged_kv_cache None.
Definition batch_verify (self : t) (input_embeds : T) (paged_kv_cache : Cache) : T * Cache :=
  batch_forward self input_embeds paged_kv_cache None.
Definition create_paged_kv_cache (self : t) (max_batch_size : Z) (max_total_seq_len : Z) (prefill_chunk_size : Z)
    (page_size : Z) (support_sliding_window : Z) : Cache :=
  create_generic (PStr "mha") max_batch_size max_total_seq_len prefill_chunk_size page_size support_sliding_window
      self.(num_hidden_layers) (self.(num_attention_heads) / self.(tensor_parallel_shards))
      (self.(num_key_value_heads) / self.(tensor_parallel_shards)) self.(head_dim) self.(head_dim) "NORMAL" (Num 1)
      (Num self.(rope_theta)) self.(dtype) None PNone PNone None false.
Definition get_default_spec (self : t) : mod_spec := [
  ("embed", packed [("input_ids", STensor [Named "seq_len"] "int32")]);
  ("prefill", packed [("input_embed", STensor [Fixed 1; Named "seq_len"; Fixed self.(hidden_size)] self.(dtype));
      ("paged_kv_cache", SObject)]);
  ("decode", packed [("input_embed", STensor [Fixed 1; Fixed 1; Fixed self.(hidden_size)] self.(dtype));
      ("paged_kv_cache", SObject)]);
  ("batch_prefill", packed [("input_embeds", STensor [Fixed 1; Named "seq_len"; Fixed self.(hidden_size)]
      self.(dtype)); ("logit_positions", STensor [Named "batch_size"] "int32"); ("paged_kv_cache", SObject)]);
  ("batch_decode", packed [("input_embeds", STensor [Named "batch_size"; Fixed 1; Fixed self.(hidden_size)]
      self.(dtype)); ("paged_kv_cache", SObject)]);
  ("batch_verify", packed [("input_embeds", STensor [Fixed 1; Named "seq_len"; Fixed self.(hidden_size)]
      self.(dtype)); ("paged_kv_cache", SObject)]);
  ("create_paged_kv_cache", unpacked [("max_batch_size", SInt); ("max_total_seq_len", SInt); ("prefill_chunk_size",
      SInt); ("page_size", SInt); ("support_sliding_window", SInt)])].
Definition methods (self : t) : list (string * method) := [
  ("embed", Method ["input_ids"] (method_t (embed self)));
  ("prefill", Method ["input_embed"; "paged_kv_cache"] (method_tc (prefill self)));
  ("decode", Method ["input_embed"; "paged_kv_cache"] (method_tc (decode self)));
  ("batch_prefill", Method ["input_embeds"; "logit_positions"; "paged_kv_cache"] (method_ttc (batch_prefill self)));
  ("batch_decode", Method ["input_embeds"; "paged_kv_cache"] (method_tc (batch_decode self)));
  ("batch_verify", Method ["input_embeds"; "paged_kv_cache"] (method_tc (batch_verify self)));
  ("create_paged_kv_cache", Method ["max_batch_size"; "max_total_seq_len"; "prefill_chunk_size"; "page_size";
      "support_sliding_window"] (method_ints (create_paged_kv_cache self)))].
End network.
End InternLM2ForCausalLM.

(** The shapes of its parts. *)
Section InternLM2_shapes.
Context {nn : NN} {laws : NNLaws nn}.
Lemma InternLM2Attention_attends config path self :
  natural config → InternLM2Attention.init config path = Ok self →
  attends config.["hidden_size"] (InternLM2_heads config) (InternLM2Attention.forward self).
Proof. intros P H. unfold InternLM2Attention.init in H. built H. unfold InternLM2Attention.forward. module_attends. Qed.
#[local] Hint Resolve InternLM2Attention_attends : modules.
Lemma InternLM2MLP_maps config path self :
  natural config → InternLM2MLP.init config path = Ok self →
  maps_shape config.["hidden_size"] config.["hidden_size"] (InternLM2MLP.forward self).
Proof. intros P H. unfold InternLM2MLP.init in H. built H. unfold InternLM2MLP.forward. module_maps. Qed.
#[local] Hint Resolve InternLM2MLP_maps : modules.
Lemma InternLM2DecoderLayer_attends config path self :
  natural config → InternLM2DecoderLayer.init config path = Ok self →
  attends config.["hidden_size"] (InternLM2_heads config) (InternLM2DecoderLayer.forward self).
Proof. intros P H. unfold InternLM2DecoderLayer.init in H. built H. unfold InternLM2DecoderLayer.forward, InternLM2DecoderLayer._apply_residual. module_attends. Qed.
#[local] Hint Resolve InternLM2DecoderLayer_attends : modules.
Lemma InternLM2Model_runs config path self :
  natural config → InternLM2Model.init config path = Ok self →
  runs config.["hidden_size"] (InternLM2_heads config) (InternLM2Model.forward self).
Proof.
  intros P H. unfold InternLM2Model.init in H. built H.
  unfold InternLM2Model.forward.
  match goal with Hl : module_list _ _ _ = Ok _ |- _ => module_runs Hl end.
Qed.
#[local] Hint Resolve InternLM2Model_runs : modules.
Lemma InternLM2Model_tok_embeddings config path self : InternLM2Model.init config path = Ok self →
  self.(InternLM2Model.tok_embeddings) = Embedding.init (path ./ "tok_embeddings") config.["vocab_size"] config.["hidden_size"].
Proof. intros H. unfold InternLM2Model.init in H. built H. reflexivity. Qed.
Lemma InternLM2ForCausalLM_typed config path self :
  natural config → InternLM2ForCausalLM.init config path = Ok self →
  well_typed config.["hidden_size"] config.["vocab_size"] (InternLM2_heads config) (InternLM2ForCausalLM.get_default_spec self) (InternLM2ForCausalLM.methods self).
Proof.
  intros P H. unfold InternLM2ForCausalLM.init in H. built H.
  match goal with Hm : InternLM2Model.init _ _ = Ok _ |- _ => pose proof (InternLM2Model_tok_embeddings _ _ _ Hm) as Hemb_tok_embeddings end.
  functions; unfold InternLM2ForCausalLM.create_paged_kv_cache, InternLM2ForCausalLM.batch_verify, InternLM2ForCausalLM.batch_decode, InternLM2ForCausalLM.batch_prefill, InternLM2ForCausalLM.decode, InternLM2ForCausalLM.prefill, InternLM2ForCausalLM.embed, InternLM2ForCausalLM.batch_forward; exported.
Qed.
End InternLM2_shapes.
End InternLM2.

(** ** [model/baichuan/baichuan_model.py] *)

Module Baichuan.
(** The layers and heads of the cache [create_paged_kv_cache] makes. *)
Definition Baichuan_heads (config : settings) : heads := {|
  n_layers := config.["num_hidden_layers"]; q_heads := (config.["num_attention_heads"] / config.["tensor_parallel_shards"]);
  kv_heads := (config.["num_attention_heads"] / config.["tensor_parallel_shards"]); head_size := config.["head_dim"]; value_size := config.["head_dim"] |}.

(** [BaichuanAttention]. *)
Module BaichuanAttention.
Section network.
Context {nn : NN}.
Record t := { hidden_size : Z; num_heads : Z; head_dim : Z; W_pack : Linear.t; o_proj : Linear.t }.
Definition init (config : settings) (path : string) : result t :=
  let hidden_size := config.["hidden_size"] in
  _ ← raise_when (negb (config.["num_attention_heads"] mod config.["tensor_parallel_shards"] =? 0)) ValueError
      ("Cannot split " +:+ pretty config.["num_attention_heads"] +:+ " attention heads evenly to " +:+ pretty
      config.["tensor_parallel_shards"] +:+ " GPUs.");
  let num_heads := config.["num_attention_heads"] / config.["tensor_parallel_shards"] in
  let head_dim := config.["head_dim"] in
  let W_pack := Linear.init (path ./ "W_pack") hidden_size ((3 * num_heads) * head_dim) false None None in
  let o_proj := Linear.init (path ./ "o_proj") (num_heads * head_dim) hidden_size false None None in
  Ok {| hidden_size := hidden_size; num_heads := num_heads; head_dim := head_dim; W_pack := W_pack; o_proj := o_proj
      |}.
Definition parameters (self : t) : params :=
  under "W_pack" (Linear.parameters self.(W_pack)) ++ under "o_proj" (Linear.parameters self.(o_proj)).
Definition forward (self : t) (hidden_states : T) (paged_kv_cache : Cache) (layer_id : Z) : T * Cache :=
  let d := self.(head_dim) in let h := self.(num_heads) in
  let '(b, s, _) := dims3 hidden_states in
  let qkv := Linear.forward self.(W_pack) hidden_states in
  let qkv := reshape qkv [b; s; 3 * h; d] in
  let '(attn_output, paged_kv_cache) := attention_with_fused_qkv paged_kv_cache layer_id qkv self.(num_heads) (Pow
      (Num self.(head_dim)) (Lit "-0.5")) in
  let output := reshape attn_output [b; s; h * d] in
  let attn_output := Linear.forward self.(o_proj) output in
  (attn_output, paged_kv_cache).
End network.
End BaichuanAttention.

(** [BaichuanMLP]. *)
Module BaichuanMLP.
Section network.
Context {nn : NN}.
Record t := { intermediate_size : Z; gate_up_proj : Linear.t; down_proj : Linear.t }.
Definition init (config : settings) (path : string) : result t :=
  _ ← raise_when (negb (config.["intermediate_size"] mod config.["tensor_parallel_shards"] =? 0)) ValueError
      ("Cannot split MLP intermediate size " +:+ pretty config.["intermediate_size"] +:+ " evenly to " +:+ pretty
      config.["tensor_parallel_shards"] +:+ " GPUs.");
  let intermediate_size := config.["intermediate_size"] / config.["tensor_parallel_shards"] in
  let gate_up_proj := Linear.init (path ./ "gate_up_proj") config.["hidden_size"] (2 * intermediate_size) false None
      None in
  let down_proj := Linear.init (path ./ "down_proj") intermediate_size config.["hidden_size"] false None None in
  Ok {| intermediate_size := intermediate_size; gate_up_proj := gate_up_proj; down_proj := down_proj |}.
Definition parameters (self : t) : params :=
  under "gate_up_proj" (Linear.parameters self.(gate_up_proj)) ++ under "down_proj" (Linear.parameters
      self.(down_proj)).
Definition forward (self : t) (x : T) : T :=
  let concat_x1_x2 := Linear.forward self.(gate_up_proj) x in
  let '(x1, x2) := split2 concat_x1_x2 (-1) in
  Linear.forward self.(down_proj) ((activate Silu x1) ⊗ x2).
End network.
End BaichuanMLP.

(** [BaichuanDecoderLayer]. *)
Module BaichuanDecoderLayer.
Section network.
Context {nn : NN}.
Record t := { self_attn : BaichuanAttention.t; mlp : BaichuanMLP.t; input_layernorm : RMSNorm.t;
    post_attention_layernorm : RMSNorm.t; tensor_parallel_shards : Z }.
Definition init (config : settings) (path : string) : result t :=
  let norm_eps := (Val (val_of config "rms_norm_eps")) in
  self_attn ← BaichuanAttention.init config (path ./ "self_attn");
  mlp ← BaichuanMLP.init config (path ./ "mlp");
  let input_layernorm := RMSNorm.init (path ./ "input_layernorm") config.["hidden_size"] (-1) norm_eps false in
  let post_attention_layernorm := RMSNorm.init (path ./ "post_attention_layernorm") config.["hidden_size"] (-1)
      norm_eps false in
  let tensor_parallel_shards := config.["tensor_parallel_shards"] in
  Ok {| self_attn := self_attn; mlp := mlp; input_layernorm := input_layernorm; post_attention_layernorm :=
      post_attention_layernorm; tensor_parallel_shards := tensor_parallel_shards |}.
Definition parameters (self : t) : params :=
  under "self_attn" (BaichuanAttention.parameters self.(self_attn)) ++ under "mlp" (BaichuanMLP.parameters
      self.(mlp)) ++ under "input_layernorm" (RMSNorm.parameters self.(input_layernorm)) ++ under
      "post_attention_layernorm" (RMSNorm.parameters self.(post_attention_layernorm)).
Definition set_tp (config : settings) (self : t) : list (string * ShardSingleDim) :=
  let hd := config.["head_dim"] in
  let q := self.(self_attn).(BaichuanAttention.num_heads) * hd in
  let k := self.(self_attn).(BaichuanAttention.num_heads) * hd in
  let v := self.(self_attn).(BaichuanAttention.num_heads) * hd in
  let i := self.(mlp).(BaichuanMLP.intermediate_size) in
  [("self_attn.W_pack.weight", {| shard_name := "_shard_qkv_weight"; shard_dim := 0; segs := Some [q; k; v] |});
   ("self_attn.o_proj.weight", {| shard_name := "_shard_o"; shard_dim := 1; segs := None |});
   ("mlp.gate_up_proj.weight", {| shard_name := "_shard_mlp_gate_up"; shard_dim := 0; segs := Some [i; i] |});
   ("mlp.down_proj.weight", {| shard_name := "_shard_mlp_down_proj"; shard_dim := 1; segs := None |})].
Definition _apply_residual (self : t) (out : T) (residual : T) : T :=
  if (self.(tensor_parallel_shards) >? 1) then
    (ccl_allreduce out "sum") ⊕ residual
  else
    out ⊕ residual.
Definition forward (self : t) (hidden_states : T) (paged_kv_cache : Cache) (layer_id : Z) : T * Cache :=
  let '(out, paged_kv_cache) := BaichuanAttention.forward self.(self_attn) (RMSNorm.forward self.(input_layernorm)
      hidden_states) paged_kv_cache layer_id in
  let hidden_states := _apply_residual self out hidden_states in
  let out := BaichuanMLP.forward self.(mlp) (RMSNorm.forward self.(post_attention_layernorm) hidden_states) in
  let hidden_states := _apply_residual self out hidden_states in
  (hidden_states, paged_kv_cache).
End network.
End BaichuanDecoderLayer.

(** [BaichuanModel]. *)
Module BaichuanModel.
Section network.
Context {nn : NN}.
Record t := { embed_tokens : Embedding.t; layers : list BaichuanDecoderLayer.t; norm : RMSNorm.t }.
Definition init (config : settings) (path : string) : result t :=
  _ ← py_assert (config.["hidden_size"] mod config.["num_attention_heads"] =? 0) "";
  let embed_tokens := Embedding.init (path ./ "embed_tokens") config.["vocab_size"] config.["hidden_size"] in
  layers ← module_list (path ./ "layers") config.["num_hidden_layers"] (λ _ path, BaichuanDecoderLayer.init config
      path);
  let norm := RMSNorm.init (path ./ "norm") config.["hidden_size"] (-1) (Val (val_of config "rms_norm_eps")) false in
  Ok {| embed_tokens := embed_tokens; layers := layers; norm := norm |}.
Definition parameters (self : t) : params :=
  under "embed_tokens" (Embedding.parameters self.(embed_tokens)) ++ list_params "layers"
      BaichuanDecoderLayer.parameters self.(layers) ++ under "norm" (RMSNorm.parameters self.(norm)).
Definition forward (self : t) (inputs : T) (paged_kv_cache : Cache) : T * Cache :=
  let hidden_states := inputs in
  let '(hidden_states, paged_kv_cache) :=
    for_layers self.(layers) (λ layer_id layer '(hidden_states, paged_kv_cache),
      BaichuanDecoderLayer.forward layer hidden_states paged_kv_cache layer_id) (hidden_states, paged_kv_cache) in
  let hidden_states := RMSNorm.forward self.(norm) hidden_states in
  (hidden_states, paged_kv_cache).
End network.
End BaichuanModel.

(** [BaichuanForCausalLM]. *)
Module BaichuanForCausalLM.
Section network.
Context {nn : NN}.
Record t := { model : BaichuanModel.t; lm_head : Linear.t; vocab_size : Z; num_hidden_layers : Z; hidden_size : Z;
    num_attention_heads : Z; head_dim : Z; rope_theta : Z; tensor_parallel_shards : Z; dtype : string }.
Definition init (config : settings) (path : string) : result t :=
  model ← BaichuanModel.init config (path ./ "model");
  let lm_head := Linear.init (path ./ "lm_head") config.["hidden_size"] config.["vocab_size"] false None None in
  let vocab_size := config.["vocab_size"] in
  let num_hidden_layers := config.["num_hidden_layers"] in
  let hidden_size := config.["hidden_size"] in
  let num_attention_heads := config.["num_attention_heads"] in
  let head_dim := config.["head_dim"] in
  let vocab_size := config.["vocab_size"] in
  let rope_theta := 10000 in
  let tensor_parallel_shards := config.["tensor_parallel_shards"] in
  let dtype := "float32" in
  Ok {| model := model; lm_head := lm_head; vocab_size := vocab_size; num_hidden_layers := num_hidden_layers;
      hidden_size := hidden_size; num_attention_heads := num_attention_heads; head_dim := head_dim; rope_theta :=
      rope_theta; tensor_parallel_shards := tensor_parallel_shards; dtype := dtype |}.
Definition parameters (self : t) : params :=
  under "model" (BaichuanModel.parameters self.(model)) ++ under "lm_head" (Linear.parameters self.(lm_head)).
Definition batch_forward (self : t) (input_embeds : T) (paged_kv_cache : Cache) (logit_positions : option T) : T *
    Cache :=
  let '(hidden_states, paged_kv_cache) := BaichuanModel.forward self.(model) input_embeds paged_kv_cache in
  let hidden_states :=
    match logit_positions with
    | Some logit_positions =>
        take hidden_states logit_positions 1
    | None => hidden_states
    end in
  let logits := Linear.forward self.(lm_head) hidden_states in
  let logits := if negb (bool_decide (dtype_of logits = "float32")) then astype logits "float32" else logits in
  (logits, paged_kv_cache).
Definition embed (self : t) (input_ids : T) : T :=
  let input_ids := if (self.(tensor_parallel_shards) >? 1) then ccl_broadcast_from_worker0 input_ids else input_ids in
  Embedding.forward self.(model).(BaichuanModel.embed_tokens) input_ids.
Definition prefill (self : t) (input_embed : T) (paged_kv_cache : Cache) : T * Cache :=
  let '(hidden_states, paged_kv_cache) := BaichuanModel.forward self.(model) input_embed paged_kv_cache in
  let hidden_states := index_last_token hidden_states in
  let logits := Linear.forward self.(lm_head) hidden_states in
  let logits := if negb (bool_decide (dtype_of logits = "float32")) then astype logits "float32" else logits in
  (logits, paged_kv_cache).
Definition decode (self : t) (input_embed : T) (paged_kv_cache : Cache) : T * Cache :=
  let '(hidden_states, paged_kv_cache) := BaichuanModel.forward self.(model) input_embed paged_kv_cache in
  let logits := Linear.forward self.(lm_head) hidden_states in
  let logits := if negb (bool_decide (dtype_of logits = "float32")) then astype logits "float32" else logits in
  (logits, paged_kv_cache).
Definition batch_prefill (self : t) (input_embeds : T) (logit_positions : T) (paged_kv_cache : Cache) : T * Cache :=
  let logit_positions := if (self.(tensor_parallel_shards) >? 1) then ccl_broadcast_from_worker0 logit_positions else
      logit_positions in
  batch_forward self input_embeds paged_kv_cache (Some logit_positions).
Definition batch_decode (self : t) (input_embeds : T) (paged_kv_cache : Cache) : T * Cache :=
  batch_forward self input_embeds paged_kv_cache None.
Definition batch_verify (self : t) (input_embeds : T) (paged_kv_cache : Cache) : T * Cache :=
  batch_forward self input_embeds paged_kv_cache None.
Definition create_paged_kv_cache (self : t) (max_batch_size : Z) (max_total_seq_len : Z) (prefill_chunk_size : Z)
    (page_size : Z) (support_sliding_window : Z) : Cache :=
  create_generic (PStr "mha") max_batch_size max_total_seq_len prefill_chunk_size page_size support_sliding_window
      self.(num_hidden_layers) (self.(num_attention_heads) / self.(tensor_parallel_shards))
      (self.(num_attention_heads) / self.(tensor_parallel_shards)) self.(head_dim) self.(head_dim) "NORMAL" (Num 1)
      (Num self.(rope_theta)) self.(dtype) None PNone PNone None false.
Definition get_default_spec (self : t) : mod_spec := [
  ("embed", packed [("input_ids", STensor [Named "seq_len"] "int32")]);
  ("prefill", packed [("input_embed", STensor [Fixed 1; Named "seq_len"; Fixed self.(hidden_size)] self.(dtype));
      ("paged_kv_cache", SObject)]);
  ("decode", packed [("input_embed", STensor [Fixed 1; Fixed 1; Fixed self.(hidden_size)] self.(dtype));
      ("paged_kv_cache", SObject)]);
  ("batch_prefill", packed [("input_embeds", STensor [Fixed 1; Named "seq_len"; Fixed self.(hidden_size)]
      self.(dtype)); ("logit_positions", STensor [Named "batch_size"] "int32"); ("paged_kv_cache", SObject)]);
  ("batch_decode", packed [("input_embeds", STensor [Named "batch_size"; Fixed 1; Fixed self.(hidden_size)]
      self.(dtype)); ("paged_kv_cache", SObject)]);
  ("batch_verify", packed [("input_embeds", STensor [Fixed 1; Named "seq_len"; Fixed self.(hidden_size)]
      self.(dtype)); ("paged_kv_cache", SObject)]);
  ("create_paged_kv_cache", unpacked [("max_batch_size", SInt); ("max_total_seq_len", SInt); ("prefill_chunk_size",
      SInt); ("page_size", SInt); ("support_sliding_window", SInt)])].
Definition methods (self : t) : list (string * method) := [
  ("embed", Method ["input_ids"] (method_t (embed self)));
  ("prefill", Method ["input_embed"; "paged_kv_cache"] (method_tc (prefill self)));
  ("decode", Method ["input_embed"; "paged_kv_cache"] (method_tc (decode self)));
  ("batch_prefill", Method ["input_embeds"; "logit_positions"; "paged_kv_cache"] (method_ttc (batch_prefill self)));
  ("batch_decode", Method ["input_embeds"; "paged_kv_cache"] (method_tc (batch_decode self)));
  ("batch_verify", Method ["input_embeds"; "paged_kv_cache"] (method_tc (batch_verify self)));
  ("create_paged_kv_cache", Method ["max_batch_size"; "max_total_seq_len"; "prefill_chunk_size"; "page_size";
      "support_sliding_window"] (method_ints (create_paged_kv_cache self)))].
End network.
End BaichuanForCausalLM.

(** The shapes of its parts. *)
Section Baichuan_shapes.
Context {nn : NN} {laws : NNLaws nn}.
Lemma BaichuanAttention_attends config path self :
  natural config → BaichuanAttention.init config path = Ok self →
  attends config.["hidden_size"] (Baichuan_heads config) (BaichuanAttention.forward self).
Proof. intros P H. unfold BaichuanAttention.init in H. built H. unfold BaichuanAttention.forward. module_attends. Qed.
#[local] Hint Resolve BaichuanAttention_attends : modules.
Lemma BaichuanMLP_maps config path self :
  natural config → BaichuanMLP.init config path = Ok self →
  maps_shape config.["hidden_size"] config.["hidden_size"] (BaichuanMLP.forward self).
Proof. intros P H. unfold BaichuanMLP.init in H. built H. unfold BaichuanMLP.forward. module_maps. Qed.
#[local] Hint Resolve BaichuanMLP_maps : modules.
Lemma BaichuanDecoderLayer_attends config path self :
  natural config → BaichuanDecoderLayer.init config path = Ok self →
  attends config.["hidden_size"] (Baichuan_heads config) (BaichuanDecoderLayer.forward self).
Proof. intros P H. unfold BaichuanDecoderLayer.init in H. built H. unfold BaichuanDecoderLayer.forward, BaichuanDecoderLayer._apply_residual. module_attends. Qed.
#[local] Hint Resolve BaichuanDecoderLayer_attends : modules.
Lemma BaichuanModel_runs config path self :
  natural config → BaichuanModel.init config path = Ok self →
  runs config.["hidden_size"] (Baichuan_heads config) (BaichuanModel.forward self).
Proof.
  intros P H. unfold BaichuanModel.init in H. built H.
  unfold BaichuanModel.forward.
  match goal with Hl : module_list _ _ _ = Ok _ |- _ => module_runs Hl end.
Qed.
#[local] Hint Resolve BaichuanModel_runs : modules.
Lemma BaichuanModel_embed_tokens config path self : BaichuanModel.init config path = Ok self →
  self.(BaichuanModel.embed_tokens) = Embedding.init (path ./ "embed_tokens") config.["vocab_size"] config.["hidden_size"].
Proof. intros H. unfold BaichuanModel.init in H. built H. reflexivity. Qed.
Lemma BaichuanForCausalLM_typed config path self :
  natural config → BaichuanForCausalLM.init config path = Ok self →
  well_typed config.["hidden_size"] config.["vocab_size"] (Baichuan_heads config) (BaichuanForCausalLM.get_default_spec self) (BaichuanForCausalLM.methods self).
Proof.
  intros P H. unfold BaichuanForCausalLM.init in H. built H.
  match goal with Hm : BaichuanModel.init _ _ = Ok _ |- _ => pose proof (BaichuanModel_embed_tokens _ _ _ Hm) as Hemb_embed_tokens end.
  functions; unfold BaichuanForCausalLM.create_paged_kv_cache, BaichuanForCausalLM.batch_verify, BaichuanForCausalLM.batch_decode, BaichuanForCausalLM.batch_prefill, BaichuanForCausalLM.decode, BaichuanForCausalLM.prefill, BaichuanForCausalLM.embed, BaichuanForCausalLM.batch_forward; exported.
Qed.
End Baichuan_shapes.
End Baichuan.
