(* ===== verification/NetsQwen.v ===== *)
(** The networks of [model/]: Qwen, Qwen2, Qwen3, StableLM, ChatGLM and Phi-3. Each class is a module with its record, [init], the
    parameters it has, the methods of the source, and for the exported class the specification
    [get_default_spec] and the table of its methods; after a network come the shapes of its parts. *)

From Stdlib Require Import Lia ZArith.
From stdpp Require Import base gmap strings list list_numbers numbers pretty.
From S2P Require Import Prelude PyString PyObject Kernel Config Sharding Network Shapes.
Open Scope Z_scope.

(** ** [model/qwen/qwen_model.py] *)

Module Qwen.
(** The layers and heads of the cache [create_paged_kv_cache] makes, and what a configuration must satisfy. *)
Definition Qwen_heads (config : settings) : heads := {|
  n_layers := config.["num_hidden_layers"]; q_heads := (config.["num_attention_heads"] / config.["tensor_parallel_shards"]);
  kv_heads := (config.["num_attention_heads"] / config.["tensor_parallel_shards"]); head_size := config.["head_dim"]; value_size := config.["head_dim"] |}.
Definition Qwen_fits (config : settings) : Prop :=
  natural config ∧ config.["intermediate_size"] / config.["tensor_parallel_shards"] =
    2 * (config.["intermediate_size"] / config.["tensor_parallel_shards"] / 2).

(** [QWenAttention]. *)
Module QWenAttention.
Section network.
Context {nn : NN}.
Record t := { hidden_size : Z; num_heads : Z; head_dim : Z; c_attn : Linear.t; c_proj : Linear.t }.
Definition init (config : settings) (path : string) : result t :=
  let hidden_size := config.["hidden_size"] in
  _ ← raise_when (negb (config.["num_attention_heads"] mod config.["tensor_parallel_shards"] =? 0)) ValueError
      ("Cannot split " +:+ pretty config.["num_attention_heads"] +:+ " attention heads evenly to " +:+ pretty
      config.["tensor_parallel_shards"] +:+ " GPUs.");
  let num_heads := config.["num_attention_heads"] / config.["tensor_parallel_shards"] in
  let head_dim := config.["head_dim"] in
  let c_attn := Linear.init (path ./ "c_attn") config.["hidden_size"] ((3 * num_heads) * head_dim) true None None in
  let c_proj := Linear.init (path ./ "c_proj") (num_heads * head_dim) config.["hidden_size"] false None None in
  Ok {| hidden_size := hidden_size; num_heads := num_heads; head_dim := head_dim; c_attn := c_attn; c_proj := c_proj
      |}.
Definition parameters (self : t) : params :=
  under "c_attn" (Linear.parameters self.(c_attn)) ++ under "c_proj" (Linear.parameters self.(c_proj)).
Definition forward (self : t) (hidden_states : T) (paged_kv_cache : Cache) (layer_id : Z) : T * Cache :=
  let d := self.(head_dim) in let h := self.(num_heads) in
  let '(b, s, _) := dims3 hidden_states in
  let qkv := Linear.forward self.(c_attn) hidden_states in
  let qkv := reshape qkv [b; s; 3 * h; d] in
  let '(attn_output, paged_kv_cache) := attention_with_fused_qkv paged_kv_cache layer_id qkv self.(num_heads) (Pow
      (Num self.(head_dim)) (Lit "-0.5")) in
  let output := reshape attn_output [b; s; h * d] in
  (Linear.forward self.(c_proj) output, paged_kv_cache).
End network.
End QWenAttention.

(** [QWenMLP]. *)
Module QWenMLP.
Section network.
Context {nn : NN}.
Record t := { intermediate_size : Z; gate_up_proj : Linear.t; c_proj : Linear.t }.
Definition init (config : settings) (path : string) : result t :=
  _ ← raise_when (negb (config.["intermediate_size"] mod config.["tensor_parallel_shards"] =? 0)) ValueError
      ("Cannot split MLP intermediate size " +:+ pretty config.["intermediate_size"] +:+ " evenly to " +:+ pretty
      config.["tensor_parallel_shards"] +:+ " GPUs.");
  let intermediate_size := config.["intermediate_size"] / config.["tensor_parallel_shards"] in
  let gate_up_proj := Linear.init (path ./ "gate_up_proj") config.["hidden_size"] intermediate_size false None None in
  let c_proj := Linear.init (path ./ "c_proj") (intermediate_size / 2) config.["hidden_size"] false None None in
  Ok {| intermediate_size := intermediate_size; gate_up_proj := gate_up_proj; c_proj := c_proj |}.
Definition parameters (self : t) : params :=
  under "gate_up_proj" (Linear.parameters self.(gate_up_proj)) ++ under "c_proj" (Linear.parameters self.(c_proj)).
Definition forward (self : t) (x : T) : T :=
  let concat_x1_x2 := Linear.forward self.(gate_up_proj) x in
  let '(x1, x2) := split2 concat_x1_x2 (-1) in
  Linear.forward self.(c_proj) (x1 ⊗ (activate Silu x2)).
End network.
End QWenMLP.

(** [QWenBlock]. *)
Module QWenBlock.
Section network.
Context {nn : NN}.
Record t := { attn : QWenAttention.t; mlp : QWenMLP.t; ln_1 : RMSNorm.t; ln_2 : RMSNorm.t; tensor_parallel_shards : Z
    }.
Definition init (config : settings) (path : string) : result t :=
  let rms_norm_eps := (Val (val_of config "layer_norm_epsilon")) in
  attn ← QWenAttention.init config (path ./ "attn");
  mlp ← QWenMLP.init config (path ./ "mlp");
  let ln_1 := RMSNorm.init (path ./ "ln_1") config.["hidden_size"] (-1) rms_norm_eps false in
  let ln_2 := RMSNorm.init (path ./ "ln_2") config.["hidden_size"] (-1) rms_norm_eps false in
  let tensor_parallel_shards := config.["tensor_parallel_shards"] in
  Ok {| attn := attn; mlp := mlp; ln_1 := ln_1; ln_2 := ln_2; tensor_parallel_shards := tensor_parallel_shards |}.
Definition parameters (self : t) : params :=
  under "attn" (QWenAttention.parameters self.(attn)) ++ under "mlp" (QWenMLP.parameters self.(mlp)) ++ under "ln_1"
      (RMSNorm.parameters self.(ln_1)) ++ under "ln_2" (RMSNorm.parameters self.(ln_2)).
Definition set_tp (config : settings) (self : t) : list (string * ShardSingleDim) :=
  let hd := config.["head_dim"] in
  let q := self.(attn).(QWenAttention.num_heads) * hd in
  let k := self.(attn).(QWenAttention.num_heads) * hd in
  let v := self.(attn).(QWenAttention.num_heads) * hd in
  let i := self.(mlp).(QWenMLP.intermediate_size) / 2 in
  [("attn.c_attn.weight", {| shard_name := "_shard_qkv_weight"; shard_dim := 0; segs := Some [q; k; v] |});
   ("attn.c_attn.bias", {| shard_name := "_shard_qkv_bias"; shard_dim := 0; segs := Some [q; k; v] |});
   ("attn.c_proj.weight", {| shard_name := "_shard_attn_c_proj"; shard_dim := 1; segs := None |});
   ("mlp.gate_up_proj.weight", {| shard_name := "_shard_mlp_gate_up_proj"; shard_dim := 0; segs := Some [i; i] |});
   ("mlp.c_proj.weight", {| shard_name := "_shard_mlp_c_proj"; shard_dim := 1; segs := None |})].
Definition _apply_residual (self : t) (out : T) (residual : T) : T :=
  if (self.(tensor_parallel_shards) >? 1) then
    (ccl_allreduce out "sum") ⊕ residual
  else
    out ⊕ residual.
Definition forward (self : t) (hidden_states : T) (paged_kv_cache : Cache) (layer_id : Z) : T * Cache :=
  let '(out, paged_kv_cache) := QWenAttention.forward self.(attn) (RMSNorm.forward self.(ln_1) hidden_states)
      paged_kv_cache layer_id in
  let hidden_states := _apply_residual self out hidden_states in
  let out := QWenMLP.forward self.(mlp) (RMSNorm.forward self.(ln_2) hidden_states) in
  let hidden_states := _apply_residual self out hidden_states in
  (hidden_states, paged_kv_cache).
End network.
End QWenBlock.

(** [QWenModel]. *)
Module QWenModel.
Section network.
Context {nn : NN}.
Record t := { wte : Embedding.t; h : list QWenBlock.t; ln_f : RMSNorm.t }.
Definition init (config : settings) (path : string) : result t :=
  _ ← py_assert (config.["hidden_size"] mod config.["num_attention_heads"] =? 0) "";
  let wte := Embedding.init (path ./ "wte") config.["vocab_size"] config.["hidden_size"] in
  h ← module_list (path ./ "h") config.["num_hidden_layers"] (λ _ path, QWenBlock.init config path);
  let ln_f := RMSNorm.init (path ./ "ln_f") config.["hidden_size"] (-1) (Val (val_of config "layer_norm_epsilon"))
      false in
  Ok {| wte := wte; h := h; ln_f := ln_f |}.
Definition parameters (self : t) : params :=
  under "wte" (Embedding.parameters self.(wte)) ++ list_params "h" QWenBlock.parameters self.(h) ++ under "ln_f"
      (RMSNorm.parameters self.(ln_f)).
Definition forward (self : t) (inputs : T) (paged_kv_cache : Cache) : T * Cache :=
  let hidden_states := inputs in
  let '(hidden_states, paged_kv_cache) :=
    for_layers self.(h) (λ layer_id layer '(hidden_states, paged_kv_cache),
      QWenBlock.forward layer hidden_states paged_kv_cache layer_id) (hidden_states, paged_kv_cache) in
  let hidden_states := RMSNorm.forward self.(ln_f) hidden_states in
  (hidden_states, paged_kv_cache).
End network.
End QWenModel.

(** [QWenLMHeadModel]. *)
Module QWenLMHeadModel.
Section network.
Context {nn : NN}.
Record t := { transformer : QWenModel.t; lm_head : Linear.t; hidden_size : Z; vocab_size : Z; num_hidden_layers : Z;
    num_attention_heads : Z; head_dim : Z; tensor_parallel_shards : Z; rotary_emb_base : Z; dtype : string }.
Definition init (config : settings) (path : string) : result t :=
  transformer ← QWenModel.init config (path ./ "transformer");
  let lm_head := Linear.init (path ./ "lm_head") config.["hidden_size"] config.["vocab_size"] false (Some "float32")
      None in
  let hidden_size := config.["hidden_size"] in
  let vocab_size := config.["vocab_size"] in
  let num_hidden_layers := config.["num_hidden_layers"] in
  let num_attention_heads := config.["num_attention_heads"] in
  let head_dim := config.["head_dim"] in
  let tensor_parallel_shards := config.["tensor_parallel_shards"] in
  let rotary_emb_base := config.["rotary_emb_base"] in
  let dtype := "float32" in
  Ok {| transformer := transformer; lm_head := lm_head; hidden_size := hidden_size; vocab_size := vocab_size;
      num_hidden_layers := num_hidden_layers; num_attention_heads := num_attention_heads; head_dim := head_dim;
      tensor_parallel_shards := tensor_parallel_shards; rotary_emb_base := rotary_emb_base; dtype := dtype |}.
Definition parameters (self : t) : params :=
  under "transformer" (QWenModel.parameters self.(transformer)) ++ under "lm_head" (Linear.parameters self.(lm_head)).
Definition batch_forward (self : t) (inputs : T) (paged_kv_cache : Cache) (logit_positions : option T) : T * Cache :=
  let '(hidden_states, paged_kv_cache) := QWenModel.forward self.(transformer) inputs paged_kv_cache in
  let hidden_states :=
    match logit_positions with
    | Some logit_positions =>
        take hidden_states logit_positions 1
    | None => hidden_states
    end in
  let logits := Linear.forward self.(lm_head) hidden_states in
  let logits := if negb (bool_decide (dtype_of logits = "float32")) then astype logits "float32" else logits in
  (logits, paged_kv_cache).
Definition embed (self : t) (input_ids : T) : T :=
  let input_ids := if (self.(tensor_parallel_shards) >? 1) then ccl_broadcast_from_worker0 input_ids else input_ids in
  Embedding.forward self.(transformer).(QWenModel.wte) input_ids.
Definition prefill (self : t) (inputs : T) (paged_kv_cache : Cache) : T * Cache :=
  let '(hidden_states, paged_kv_cache) := QWenModel.forward self.(transformer) inputs paged_kv_cache in
  let hidden_states := index_last_token hidden_states in
  let logits := Linear.forward self.(lm_head) hidden_states in
  let logits := if negb (bool_decide (dtype_of logits = "float32")) then astype logits "float32" else logits in
  (logits, paged_kv_cache).
Definition decode (self : t) (inputs : T) (paged_kv_cache : Cache) : T * Cache :=
  let '(hidden_states, paged_kv_cache) := QWenModel.forward self.(transformer) inputs paged_kv_cache in
  let logits := Linear.forward self.(lm_head) hidden_states in
  let logits := if negb (bool_decide (dtype_of logits = "float32")) then astype logits "float32" else logits in
  (logits, paged_kv_cache).
Definition batch_prefill (self : t) (inputs : T) (logit_positions : T) (paged_kv_cache : Cache) : T * Cache :=
  let logit_positions := if (self.(tensor_parallel_shards) >? 1) then ccl_broadcast_from_worker0 logit_positions else
      logit_positions in
  batch_forward self inputs paged_kv_cache (Some logit_positions).
Definition batch_decode (self : t) (inputs : T) (paged_kv_cache : Cache) : T * Cache :=
  batch_forward self inputs paged_kv_cache None.
Definition batch_verify (self : t) (inputs : T) (paged_kv_cache : Cache) : T * Cache :=
  batch_forward self inputs paged_kv_cache None.
Definition create_paged_kv_cache (self : t) (max_batch_size : Z) (max_total_seq_len : Z) (prefill_chunk_size : Z)
    (page_size : Z) (support_sliding_window : Z) : Cache :=
  create_generic (PStr "mha") max_batch_size max_total_seq_len prefill_chunk_size page_size support_sliding_window
      self.(num_hidden_layers) (self.(num_attention_heads) / self.(tensor_parallel_shards))
      (self.(num_attention_heads) / self.(tensor_parallel_shards)) self.(head_dim) self.(head_dim) "NORMAL" (Num 1)
      (Num self.(rotary_emb_base)) self.(dtype) None PNone PNone None false.
Definition get_default_spec (self : t) : mod_spec := [
  ("embed", packed [("input_ids", STensor [Named "seq_len"] "int32")]);
  ("prefill", packed [("inputs", STensor [Fixed 1; Named "seq_len"; Fixed self.(hidden_size)] self.(dtype));
      ("paged_kv_cache", SObject)]);
  ("decode", packed [("inputs", STensor [Fixed 1; Fixed 1; Fixed self.(hidden_size)] self.(dtype));
      ("paged_kv_cache", SObject)]);
  ("batch_prefill", packed [("inputs", STensor [Fixed 1; Named "seq_len"; Fixed self.(hidden_size)] self.(dtype));
      ("logit_positions", STensor [Named "batch_size"] "int32"); ("paged_kv_cache", SObject)]);
  ("batch_decode", packed [("inputs", STensor [Named "batch_size"; Fixed 1; Fixed self.(hidden_size)] self.(dtype));
      ("paged_kv_cache", SObject)]);
  ("batch_verify", packed [("inputs", STensor [Fixed 1; Named "seq_len"; Fixed self.(hidden_size)] self.(dtype));
      ("paged_kv_cache", SObject)]);
  ("create_paged_kv_cache", unpacked [("max_batch_size", SInt); ("max_total_seq_len", SInt); ("prefill_chunk_size",
      SInt); ("page_size", SInt); ("support_sliding_window", SInt)])].
Definition methods (self : t) : list (string * method) := [
  ("embed", Method ["input_ids"] (method_t (embed self)));
  ("prefill", Method ["inputs"; "paged_kv_cache"] (method_tc (prefill self)));
  ("decode", Method ["inputs"; "paged_kv_cache"] (method_tc (decode self)));
  ("batch_prefill", Method ["inputs"; "logit_positions"; "paged_kv_cache"] (method_ttc (batch_prefill self)));
  ("batch_decode", Method ["inputs"; "paged_kv_cache"] (method_tc (batch_decode self)));
  ("batch_verify", Method ["inputs"; "paged_kv_cache"] (method_tc (batch_verify self)));
  ("create_paged_kv_cache", Method ["max_batch_size"; "max_total_seq_len"; "prefill_chunk_size"; "page_size";
      "support_sliding_window"] (method_ints (create_paged_kv_cache self)))].
End network.
End QWenLMHeadModel.

(** The shapes of its parts. *)
Section Qwen_shapes.
Context {nn : NN} {laws : NNLaws nn}.
Lemma QWenAttention_attends config path self :
  Qwen_fits config → QWenAttention.init config path = Ok self →
  attends config.["hidden_size"] (Qwen_heads config) (QWenAttention.forward self).
Proof. intros Hfits H. pose proof Hfits as (P & Heven). unfold QWenAttention.init in H. built H. unfold QWenAttention.forward. module_attends. Qed.
#[local] Hint Resolve QWenAttention_attends : modules.
Lemma QWenMLP_maps config path self :
  Qwen_fits config → QWenMLP.init config path = Ok self →
  maps_shape config.["hidden_size"] config.["hidden_size"] (QWenMLP.forward self).
Proof. intros Hfits H. pose proof Hfits as (P & Heven). unfold QWenMLP.init in H. built H. unfold QWenMLP.forward. module_maps. Qed.
#[local] Hint Resolve QWenMLP_maps : modules.
Lemma QWenBlock_attends config path self :
  Qwen_fits config → QWenBlock.init config path = Ok self →
  attends config.["hidden_size"] (Qwen_heads config) (QWenBlock.forward self).
Proof. intros Hfits H. pose proof Hfits as (P & Heven). unfold QWenBlock.init in H. built H. unfold QWenBlock.forward, QWenBlock._apply_residual. module_attends. Qed.
#[local] Hint Resolve QWenBlock_attends : modules.
Lemma QWenModel_runs config path self :
  Qwen_fits config → QWenModel.init config path = Ok self →
  runs config.["hidden_size"] (Qwen_heads config) (QWenModel.forward self).
Proof.
  intros Hfits H. pose proof Hfits as (P & Heven). unfold QWenModel.init in H. built H.
  unfold QWenModel.forward.
  match goal with Hl : module_list _ _ _ = Ok _ |- _ => module_runs Hl end.
Qed.
#[local] Hint Resolve QWenModel_runs : modules.
Lemma QWenModel_wte config path self : QWenModel.init config path = Ok self →
  self.(QWenModel.wte) = Embedding.init (path ./ "wte") config.["vocab_size"] config.["hidden_size"].
Proof. intros H. unfold QWenModel.init in H. built H. reflexivity. Qed.
Lemma QWenLMHeadModel_typed config path self :
  Qwen_fits config → QWenLMHeadModel.init config path = Ok self →
  well_typed config.["hidden_size"] config.["vocab_size"] (Qwen_heads config) (QWenLMHeadModel.get_default_spec self) (QWenLMHeadModel.methods self).
Proof.
  intros Hfits H. pose proof Hfits as (P & Heven). unfold QWenLMHeadModel.init in H. built H.
  match goal with Hm : QWenModel.init _ _ = Ok _ |- _ => pose proof (QWenModel_wte _ _ _ Hm) as Hemb_wte end.
  functions; unfold QWenLMHeadModel.create_paged_kv_cache, QWenLMHeadModel.batch_verify, QWenLMHeadModel.batch_decode, QWenLMHeadModel.batch_prefill, QWenLMHeadModel.decode, QWenLMHeadModel.prefill, QWenLMHeadModel.embed, QWenLMHeadModel.batch_forward; exported.
Qed.
End Qwen_shapes.
End Qwen.

(** ** [model/qwen2/qwen2_model.py] *)

Module Qwen2.
(** The layers and heads of the cache [create_paged_kv_cache] makes. *)
Definition Qwen2_heads (config : settings) : heads := {|
  n_layers := config.["num_hidden_layers"]; q_heads := (config.["num_attention_heads"] / config.["tensor_parallel_shards"]);
  kv_heads := (config.["num_key_value_heads"] / config.["tensor_parallel_shards"]); head_size := config.["head_dim"]; value_size := config.["head_dim"] |}.

(** [QWen2Attention]. *)
Module QWen2Attention.
Section network.
Context {nn : NN}.
Record t := { head_dim : Z; num_attention_heads : Z; num_key_value_heads : Z; rope_theta : Z; c_attn : Linear.t;
    o_proj : Linear.t }.
Definition init (config : settings) (path : string) : result t :=
  let head_dim := config.["head_dim"] in
  _ ← raise_when (negb (config.["num_key_value_heads"] mod config.["tensor_parallel_shards"] =? 0)) ValueError
      ("Cannot split " +:+ pretty config.["num_key_value_heads"] +:+ " key-value attention heads evenly to " +:+
      pretty config.["tensor_parallel_shards"] +:+ " GPUs.");
  let num_attention_heads := config.["num_attention_heads"] / config.["tensor_parallel_shards"] in
  let num_key_value_heads := config.["num_key_value_heads"] / config.["tensor_parallel_shards"] in
  let rope_theta := config.["rope_theta"] in
  let c_attn := Linear.init (path ./ "c_attn") config.["hidden_size"] (((2 * num_key_value_heads) +
      num_attention_heads) * head_dim) true None None in
  let o_proj := Linear.init (path ./ "o_proj") (num_attention_heads * head_dim) config.["hidden_size"] false None
      None in
  Ok {| head_dim := head_dim; num_attention_heads := num_attention_heads; num_key_value_heads := num_key_value_heads;
      rope_theta := rope_theta; c_attn := c_attn; o_proj := o_proj |}.
Definition parameters (self : t) : params :=
  under "c_attn" (Linear.parameters self.(c_attn)) ++ under "o_proj" (Linear.parameters self.(o_proj)).
Definition forward (self : t) (hidden_states : T) (paged_kv_cache : Cache) (layer_id : Z) : T * Cache :=
  let d := self.(head_dim) in let h_q := self.(num_attention_heads) in let h_kv := self.(num_key_value_heads) in
  let '(b, s, _) := dims3 hidden_states in
  let qkv := Linear.forward self.(c_attn) hidden_states in
  let qkv := reshape qkv [b; s; (h_q + h_kv) + h_kv; d] in
  let '(attn_output, paged_kv_cache) := attention_with_fused_qkv paged_kv_cache layer_id qkv
      self.(num_attention_heads) (Pow (Num self.(head_dim)) (Lit "-0.5")) in
  let output := reshape attn_output [b; s; h_q * d] in
  let attn_output := Linear.forward self.(o_proj) output in
  (attn_output, paged_kv_cache).
End network.
End QWen2Attention.

(** [Qwen2Embedding]. *)
Module Qwen2Embedding.
Section network.
Context {nn : NN}.
Definition t : Type := Embedding.t.
Definition init : string → Z → Z → t := Embedding.init.
Definition forward : t → T → T := Embedding.forward.
Definition parameters : t → params := Embedding.parameters.
Definition lm_head_forward (self : t) (x : T) : T :=
  let weight := permute_dims self.(Embedding.weight) [] in
  matmul x weight (Some "float32").
End network.
End Qwen2Embedding.

(** [QWen2MLP]. *)
Module QWen2MLP.
Section network.
Context {nn : NN}.
Record t := { intermediate_size : Z; gate_up_proj : Linear.t; down_proj : Linear.t; act_fn : activation }.
Definition init (config : settings) (path : string) : result t :=
  _ ← raise_when (negb (config.["intermediate_size"] mod config.["tensor_parallel_shards"] =? 0)) ValueError
      ("Cannot split MLP intermediate size " +:+ pretty config.["intermediate_size"] +:+ " evenly to " +:+ pretty
      config.["tensor_parallel_shards"] +:+ " GPUs.");
  let intermediate_size := config.["intermediate_size"] / config.["tensor_parallel_shards"] in
  let gate_up_proj := Linear.init (path ./ "gate_up_proj") config.["hidden_size"] (2 * intermediate_size) false None
      None in
  let down_proj := Linear.init (path ./ "down_proj") intermediate_size config.["hidden_size"] false None None in
  act_fn ← get_key (str_of config "hidden_act") ACT2FN;
  Ok {| intermediate_size := intermediate_size; gate_up_proj := gate_up_proj; down_proj := down_proj; act_fn :=
      act_fn |}.
Definition parameters (self : t) : params :=
  under "gate_up_proj" (Linear.parameters self.(gate_up_proj)) ++ under "down_proj" (Linear.parameters
      self.(down_proj)).
Definition forward (self : t) (x : T) : T :=
  let concat_x1_x2 := Linear.forward self.(gate_up_proj) x in
  let '(x1, x2) := split2 concat_x1_x2 (-1) in
  Linear.forward self.(down_proj) ((activate self.(act_fn) x1) ⊗ x2).
End network.
End QWen2MLP.

(** [QWen2DecoderLayer]. *)
Module QWen2DecoderLayer.
Section network.
Context {nn : NN}.
Record t := { self_attn : QWen2Attention.t; mlp : QWen2MLP.t; input_layernorm : RMSNorm.t; post_attention_layernorm :
    RMSNorm.t; tensor_parallel_shards : Z }.
Definition init (config : settings) (path : string) : result t :=
  self_attn ← QWen2Attention.init config (path ./ "self_attn");
  mlp ← QWen2MLP.init config (path ./ "mlp");
  let input_layernorm := RMSNorm.init (path ./ "input_layernorm") config.["hidden_size"] (-1) (Val (val_of config
      "rms_norm_eps")) false in
  let post_attention_layernorm := RMSNorm.init (path ./ "post_attention_layernorm") config.["hidden_size"] (-1) (Val
      (val_of config "rms_norm_eps")) false in
  let tensor_parallel_shards := config.["tensor_parallel_shards"] in
  Ok {| self_attn := self_attn; mlp := mlp; input_layernorm := input_layernorm; post_attention_layernorm :=
      post_attention_layernorm; tensor_parallel_shards := tensor_parallel_shards |}.
Definition parameters (self : t) : params :=
  under "self_attn" (QWen2Attention.parameters self.(self_attn)) ++ under "mlp" (QWen2MLP.parameters self.(mlp)) ++
      under "input_layernorm" (RMSNorm.parameters self.(input_layernorm)) ++ under "post_attention_layernorm"
      (RMSNorm.parameters self.(post_attention_layernorm)).
Definition set_tp (config : settings) (self : t) : list (string * ShardSingleDim) :=
  let hd := config.["head_dim"] in
  let q := self.(self_attn).(QWen2Attention.num_attention_heads) * hd in
  let k := self.(self_attn).(QWen2Attention.num_key_value_heads) * hd in
  let v := self.(self_attn).(QWen2Attention.num_key_value_heads) * hd in
  let i := self.(mlp).(QWen2MLP.intermediate_size) in
  [("self_attn.c_attn.weight", {| shard_name := "_shard_qkv_weight"; shard_dim := 0; segs := Some [q; k; v] |});
   ("self_attn.c_attn.bias", {| shard_name := "_shard_qkv_bias"; shard_dim := 0; segs := Some [q; k; v] |});
   ("self_attn.o_proj.weight", {| shard_name := "_shard_o"; shard_dim := 1; segs := None |});
   ("mlp.gate_up_proj.weight", {| shard_name := "_shard_mlp_up"; shard_dim := 0; segs := Some [i; i] |});
   ("mlp.down_proj.weight", {| shard_name := "_shard_mlp_down"; shard_dim := 1; segs := None |})].
Definition _apply_residual (self : t) (out : T) (residual : T) : T :=
  if (self.(tensor_parallel_shards) >? 1) then
    (ccl_allreduce out "sum") ⊕ residual
  else
    out ⊕ residual.
Definition forward (self : t) (hidden_states : T) (paged_kv_cache : Cache) (layer_id : Z) : T * Cache :=
  let out := RMSNorm.forward self.(input_layernorm) hidden_states in
  let '(out, paged_kv_cache) := QWen2Attention.forward self.(self_attn) out paged_kv_cache layer_id in
  let hidden_states := _apply_residual self out hidden_states in
  let out := RMSNorm.forward self.(post_attention_layernorm) hidden_states in
  let out := QWen2MLP.forward self.(mlp) out in
  let hidden_states := _apply_residual self out hidden_states in
  (hidden_states, paged_kv_cache).
End network.
End QWen2DecoderLayer.

(** [QWen2Model]. *)
Module QWen2Model.
Section network.
Context {nn : NN}.
Record t := { embed_tokens : Qwen2Embedding.t; layers : list QWen2DecoderLayer.t; norm : RMSNorm.t }.
Definition init (config : settings) (path : string) : result t :=
  let embed_tokens := Qwen2Embedding.init (path ./ "embed_tokens") config.["vocab_size"] config.["hidden_size"] in
  layers ← module_list (path ./ "layers") config.["num_hidden_layers"] (λ _ path, QWen2DecoderLayer.init config path);
  let norm := RMSNorm.init (path ./ "norm") config.["hidden_size"] (-1) (Val (val_of config "rms_norm_eps")) false in
  Ok {| embed_tokens := embed_tokens; layers := layers; norm := norm |}.
Definition parameters (self : t) : params :=
  under "embed_tokens" (Qwen2Embedding.parameters self.(embed_tokens)) ++ list_params "layers"
      QWen2DecoderLayer.parameters self.(layers) ++ under "norm" (RMSNorm.parameters self.(norm)).
Definition forward (self : t) (inputs : T) (paged_kv_cache : Cache) : T * Cache :=
  let hidden_states := inputs in
  let '(hidden_states, paged_kv_cache) :=
    for_layers self.(layers) (λ layer_id layer '(hidden_states, paged_kv_cache),
      QWen2DecoderLayer.forward layer hidden_states paged_kv_cache layer_id) (hidden_states, paged_kv_cache) in
  let hidden_states := RMSNorm.forward self.(norm) hidden_states in
  (hidden_states, paged_kv_cache).
End network.
End QWen2Model.

(** [QWen2LMHeadModel]. *)
Module QWen2LMHeadModel.
Section network.
Context {nn : NN}.
Record t := { model : QWen2Model.t; tie_word_embeddings : bool; lm_head : option Linear.t; dtype : string;
    hidden_size : Z; num_hidden_layers : Z; intermediate_size : Z; num_attention_heads : Z; num_key_value_heads : Z;
    rms_norm_eps : number; rope_theta : Z; vocab_size : Z; tensor_parallel_shards : Z; head_dim : Z }.
Definition init (config : settings) (path : string) : result t :=
  model ← QWen2Model.init config (path ./ "model");
  let tie_word_embeddings := config.?["tie_word_embeddings"] in
  let lm_head := if negb config.?["tie_word_embeddings"] then Some (Linear.init (path ./ "lm_head")
      config.["hidden_size"] config.["vocab_size"] false None None) else None in
  let dtype := str_of config "dtype" in
  let hidden_size := config.["hidden_size"] in
  let num_hidden_layers := config.["num_hidden_layers"] in
  let intermediate_size := config.["intermediate_size"] in
  let num_attention_heads := config.["num_attention_heads"] in
  let num_key_value_heads := config.["num_key_value_heads"] in
  let rms_norm_eps := (Val (val_of config "rms_norm_eps")) in
  let rope_theta := config.["rope_theta"] in
  let vocab_size := config.["vocab_size"] in
  let tensor_parallel_shards := config.["tensor_parallel_shards"] in
  let head_dim := config.["head_dim"] in
  Ok {| model := model; tie_word_embeddings := tie_word_embeddings; lm_head := lm_head; dtype := dtype; hidden_size
      := hidden_size; num_hidden_layers := num_hidden_layers; intermediate_size := intermediate_size;
      num_attention_heads := num_attention_heads; num_key_value_heads := num_key_value_heads; rms_norm_eps :=
      rms_norm_eps; rope_theta := rope_theta; vocab_size := vocab_size; tensor_parallel_shards :=
      tensor_parallel_shards; head_dim := head_dim |}.
Definition parameters (self : t) : params :=
  under "model" (QWen2Model.parameters self.(model)) ++ under "lm_head" (match self.(lm_head) with Some m =>
      Linear.parameters m | None => [] end).
Definition batch_forward (self : t) (input_embeds : T) (paged_kv_cache : Cache) (logit_positions : option T) : T *
    Cache :=
  let '(hidden_states, paged_kv_cache) := QWen2Model.forward self.(model) input_embeds paged_kv_cache in
  let hidden_states :=
    match logit_positions with
    | Some logit_positions =>
        take hidden_states logit_positions 1
    | None => hidden_states
    end in
  let logits := if self.(tie_word_embeddings) then Qwen2Embedding.lm_head_forward
      self.(model).(QWen2Model.embed_tokens) hidden_states else (match self.(lm_head) with Some m => Linear.forward m
      hidden_states | None => undefined end) in
  let logits := if negb (bool_decide (dtype_of logits = "float32")) then astype logits "float32" else logits in
  (logits, paged_kv_cache).
Definition embed (self : t) (input_ids : T) : T :=
  let input_ids := if (self.(tensor_parallel_shards) >? 1) then ccl_broadcast_from_worker0 input_ids else input_ids in
  Qwen2Embedding.forward self.(model).(QWen2Model.embed_tokens) input_ids.
Definition prefill (self : t) (input_embed : T) (paged_kv_cache : Cache) : T * Cache :=
  let '(hidden_states, paged_kv_cache) := QWen2Model.forward self.(model) input_embed paged_kv_cache in
  let hidden_states := index_last_token hidden_states in
  let logits := if self.(tie_word_embeddings) then Qwen2Embedding.lm_head_forward
      self.(model).(QWen2Model.embed_tokens) hidden_states else (match self.(lm_head) with Some m => Linear.forward m
      hidden_states | None => undefined end) in
  let logits := if negb (bool_decide (dtype_of logits = "float32")) then astype logits "float32" else logits in
  (logits, paged_kv_cache).
Definition decode (self : t) (input_embed : T) (paged_kv_cache : Cache) : T * Cache :=
  let '(hidden_states, paged_kv_cache) := QWen2Model.forward self.(model) input_embed paged_kv_cache in
  let logits := if self.(tie_word_embeddings) then Qwen2Embedding.lm_head_forward
      self.(model).(QWen2Model.embed_tokens) hidden_states else (match self.(lm_head) with Some m => Linear.forward m
      hidden_states | None => undefined end) in
  let logits := if negb (bool_decide (dtype_of logits = "float32")) then astype logits "float32" else logits in
  (logits, paged_kv_cache).
Definition batch_prefill (self : t) (input_embeds : T) (logit_positions : T) (paged_kv_cache : Cache) : T * Cache :=
  let logit_positions := if (self.(tensor_parallel_shards) >? 1) then ccl_broadcast_from_worker0 logit_positions else
      logit_positions in
  batch_forward self input_embeds paged_kv_cache (Some logit_positions).
Definition batch_decode (self : t) (input_embeds : T) (paged_kv_cache : Cache) : T * Cache :=
  batch_forward self input_embeds paged_kv_cache None.
Definition batch_verify (self : t) (input_embeds : T) (paged_kv_cache : Cache) : T * Cache :=
  batch_forward self input_embeds paged_kv_cache None.
Definition create_paged_kv_cache (self : t) (max_batch_size : Z) (max_total_seq_len : Z) (prefill_chunk_size : Z)
    (page_size : Z) (support_sliding_window : Z) : Cache :=
  create_generic (PStr "mha") max_batch_size max_total_seq_len prefill_chunk_size page_size support_sliding_window
      self.(num_hidden_layers) (self.(num_attention_heads) / self.(tensor_parallel_shards))
      (self.(num_key_value_heads) / self.(tensor_parallel_shards)) self.(head_dim) self.(head_dim) "NORMAL" (Num 1)
      (Num self.(rope_theta)) self.(dtype) None PNone PNone None false.
Definition get_default_spec (self : t) : mod_spec := [
  ("embed", packed [("input_ids", STensor [Named "seq_len"] "int32")]);
  ("prefill", packed [("input_embed", STensor [Fixed 1; Named "seq_len"; Fixed self.(hidden_size)] self.(dtype));
      ("paged_kv_cache", SObject)]);
  ("decode", packed [("input_embed", STensor [Fixed 1; Fixed 1; Fixed self.(hidden_size)] self.(dtype));
      ("paged_kv_cache", SObject)]);
  ("batch_prefill", packed [("input_embeds", STensor [Fixed 1; Named "seq_len"; Fixed self.(hidden_size)]
      self.(dtype)); ("logit_positions", STensor [Named "batch_size"] "int32"); ("paged_kv_cache", SObject)]);
  ("batch_decode", packed [("input_embeds", STensor [Named "batch_size"; Fixed 1; Fixed self.(hidden_size)]
      self.(dtype)); ("paged_kv_cache", SObject)]);
  ("batch_verify", packed [("input_embeds", STensor [Fixed 1; Named "seq_len"; Fixed self.(hidden_size)]
      self.(dtype)); ("paged_kv_cache", SObject)]);
  ("create_paged_kv_cache", unpacked [("max_batch_size", SInt); ("max_total_seq_len", SInt); ("prefill_chunk_size",
      SInt); ("page_size", SInt); ("support_sliding_window", SInt)])].
Definition methods (self : t) : list (string * method) := [
  ("embed", Method ["input_ids"] (method_t (embed self)));
  ("prefill", Method ["input_embed"; "paged_kv_cache"] (method_tc (prefill self)));
  ("decode", Method ["input_embed"; "paged_kv_cache"] (method_tc (decode self)));
  ("batch_prefill", Method ["input_embeds"; "logit_positions"; "paged_kv_cache"] (method_ttc (batch_prefill self)));
  ("batch_decode", Method ["input_embeds"; "paged_kv_cache"] (method_tc (batch_decode self)));
  ("batch_verify", Method ["input_embeds"; "paged_kv_cache"] (method_tc (batch_verify self)));
  ("create_paged_kv_cache", Method ["max_batch_size"; "max_total_seq_len"; "prefill_chunk_size"; "page_size";
      "support_sliding_window"] (method_ints (create_paged_kv_cache self)))].
End network.
End QWen2LMHeadModel.

(** The shapes of its parts. *)
Section Qwen2_shapes.
Context {nn : NN} {laws : NNLaws nn}.
Lemma QWen2Attention_attends config path self :
  natural config → QWen2Attention.init config path = Ok self →
  attends config.["hidden_size"] (Qwen2_heads config) (QWen2Attention.forward self).
Proof. intros P H. unfold QWen2Attention.init in H. built H. unfold QWen2Attention.forward. module_attends. Qed.
#[local] Hint Resolve QWen2Attention_attends : modules.
Lemma QWen2MLP_maps config path self :
  natural config → QWen2MLP.init config path = Ok self →
  maps_shape config.["hidden_size"] config.["hidden_size"] (QWen2MLP.forward self).
Proof. intros P H. unfold QWen2MLP.init in H. built H. unfold QWen2MLP.forward. module_maps. Qed.
#[local] Hint Resolve QWen2MLP_maps : modules.
Lemma QWen2DecoderLayer_attends config path self :
  natural config → QWen2DecoderLayer.init config path = Ok self →
  attends config.["hidden_size"] (Qwen2_heads config) (QWen2DecoderLayer.forward self).
Proof. intros P H. unfold QWen2DecoderLayer.init in H. built H. unfold QWen2DecoderLayer.forward, QWen2DecoderLayer._apply_residual. module_attends. Qed.
#[local] Hint Resolve QWen2DecoderLayer_attends : modules.
Lemma QWen2Model_runs config path self :
  natural config → QWen2Model.init config path = Ok self →
  runs config.["hidden_size"] (Qwen2_heads config) (QWen2Model.forward self).
Proof.
  intros P H. unfold QWen2Model.init in H. built H.
  unfold QWen2Model.forward.
  match goal with Hl : module_list _ _ _ = Ok _ |- _ => module_runs Hl end.
Qed.
#[local] Hint Resolve QWen2Model_runs : modules.
Lemma QWen2Model_embed_tokens config path self : QWen2Model.init config path = Ok self →
  self.(QWen2Model.embed_tokens) = Embedding.init (path ./ "embed_tokens") config.["vocab_size"] config.["hidden_size"].
Proof. intros H. unfold QWen2Model.init in H. built H. reflexivity. Qed.
Lemma QWen2LMHeadModel_typed config path self :
  natural config → QWen2LMHeadModel.init config path = Ok self →
  well_typed config.["hidden_size"] config.["vocab_size"] (Qwen2_heads config) (QWen2LMHeadModel.get_default_spec self) (QWen2LMHeadModel.methods self).
Proof.
  intros P H. unfold QWen2LMHeadModel.init in H. built H.
  match goal with Hm : QWen2Model.init _ _ = Ok _ |- _ => pose proof (QWen2Model_embed_tokens _ _ _ Hm) as Hemb_embed_tokens end.
  functions; unfold QWen2LMHeadModel.create_paged_kv_cache, QWen2LMHeadModel.batch_verify, QWen2LMHeadModel.batch_decode, QWen2LMHeadModel.batch_prefill, QWen2LMHeadModel.decode, QWen2LMHeadModel.prefill, QWen2LMHeadModel.embed, QWen2LMHeadModel.batch_forward, Qwen2Embedding.forward, Qwen2Embedding.init, Qwen2Embedding.lm_head_forward; exported.
Qed.
End Qwen2_shapes.
End Qwen2.

(** ** [model/qwen3/qwen3_model.py] *)

Module Qwen3.
(** The layers and heads of the cache [create_paged_kv_cache] makes. *)
Definition Qwen3_heads (config : settings) : heads := {|
  n_layers := config.["num_hidden_layers"]; q_heads := (config.["num_attention_heads"] / config.["tensor_parallel_shards"]);
  kv_heads := (config.["num_key_value_heads"] / config.["tensor_parallel_shards"]); head_size := config.["head_dim"]; value_size := config.["head_dim"] |}.

(** [Qwen3Attention]. *)
Module Qwen3Attention.
Section network.
Context {nn : NN}.
Record t := { head_dim : Z; num_attention_heads : Z; num_key_value_heads : Z; rope_theta : Z; c_attn : Linear.t;
    o_proj : Linear.t; q_norm : RMSNorm.t; k_norm : RMSNorm.t }.
Definition init (config : settings) (path : string) : result t :=
  let head_dim := config.["head_dim"] in
  _ ← raise_when (negb (config.["num_key_value_heads"] mod config.["tensor_parallel_shards"] =? 0)) ValueError
      ("Cannot split " +:+ pretty config.["num_key_value_heads"] +:+ " key-value attention heads evenly to " +:+
      pretty config.["tensor_parallel_shards"] +:+ " GPUs.");
  let num_attention_heads := config.["num_attention_heads"] / config.["tensor_parallel_shards"] in
  let num_key_value_heads := config.["num_key_value_heads"] / config.["tensor_parallel_shards"] in
  let rope_theta := config.["rope_theta"] in
  let c_attn := Linear.init (path ./ "c_attn") config.["hidden_size"] (((2 * num_key_value_heads) +
      num_attention_heads) * head_dim) config.?["attention_bias"] None None in
  let o_proj := Linear.init (path ./ "o_proj") (num_attention_heads * head_dim) config.["hidden_size"]
      config.?["attention_bias"] None None in
  let q_norm := RMSNorm.init (path ./ "q_norm") config.["head_dim"] (-1) (Val (val_of config "rms_norm_eps")) false in
  let k_norm := RMSNorm.init (path ./ "k_norm") config.["head_dim"] (-1) (Val (val_of config "rms_norm_eps")) false in
  Ok {| head_dim := head_dim; num_attention_heads := num_attention_heads; num_key_value_heads := num_key_value_heads;
      rope_theta := rope_theta; c_attn := c_attn; o_proj := o_proj; q_norm := q_norm; k_norm := k_norm |}.
Definition parameters (self : t) : params :=
  under "c_attn" (Linear.parameters self.(c_attn)) ++ under "o_proj" (Linear.parameters self.(o_proj)) ++ under
      "q_norm" (RMSNorm.parameters self.(q_norm)) ++ under "k_norm" (RMSNorm.parameters self.(k_norm)).
Definition forward (self : t) (hidden_states : T) (paged_kv_cache : Cache) (layer_id : Z) : T * Cache :=
  let d := self.(head_dim) in let h_q := self.(num_attention_heads) in let h_kv := self.(num_key_value_heads) in
  let '(b, s, _) := dims3 hidden_states in
  let qkv := Linear.forward self.(c_attn) hidden_states in
  let qkv := reshape qkv [b; s; (h_q + h_kv) + h_kv; d] in
  let '(q, k, v) := split_at2 qkv h_q (h_q + h_kv) 2 in
  let q := RMSNorm.forward self.(q_norm) q in
  let k := RMSNorm.forward self.(k_norm) k in
  let qkv := concat_tensors [q; k; v] 2 in
  let '(attn_output, paged_kv_cache) := attention_with_fused_qkv paged_kv_cache layer_id qkv
      self.(num_attention_heads) (Pow (Num self.(head_dim)) (Lit "-0.5")) in
  let output := reshape attn_output [b; s; h_q * d] in
  let attn_output := Linear.forward self.(o_proj) output in
  (attn_output, paged_kv_cache).
End network.
End Qwen3Attention.

(** [Qwen3Embedding]. *)
Module Qwen3Embedding.
Section network.
Context {nn : NN}.
Definition t : Type := Embedding.t.
Definition init : string → Z → Z → t := Embedding.init.
Definition forward : t → T → T := Embedding.forward.
Definition parameters : t → params := Embedding.parameters.
Definition lm_head_forward (self : t) (x : T) : T :=
  let weight := permute_dims self.(Embedding.weight) [] in
  matmul x weight (Some "float32").
End network.
End Qwen3Embedding.

(** [Qwen3MLP]. *)
Module Qwen3MLP.
Section network.
Context {nn : NN}.
Record t := { intermediate_size : Z; gate_up_proj : Linear.t; down_proj : Linear.t; act_fn : activation }.
Definition init (config : settings) (path : string) : result t :=
  _ ← raise_when (negb (config.["intermediate_size"] mod config.["tensor_parallel_shards"] =? 0)) ValueError
      ("Cannot split MLP intermediate size " +:+ pretty config.["intermediate_size"] +:+ " evenly to " +:+ pretty
      config.["tensor_parallel_shards"] +:+ " GPUs.");
  let intermediate_size := config.["intermediate_size"] / config.["tensor_parallel_shards"] in
  let gate_up_proj := Linear.init (path ./ "gate_up_proj") config.["hidden_size"] (2 * intermediate_size) false None
      None in
  let down_proj := Linear.init (path ./ "down_proj") intermediate_size config.["hidden_size"] false None None in
  act_fn ← get_key (str_of config "hidden_act") ACT2FN;
  Ok {| intermediate_size := intermediate_size; gate_up_proj := gate_up_proj; down_proj := down_proj; act_fn :=
      act_fn |}.
Definition parameters (self : t) : params :=
  under "gate_up_proj" (Linear.parameters self.(gate_up_proj)) ++ under "down_proj" (Linear.parameters
      self.(down_proj)).
Definition forward (self : t) (x : T) : T :=
  let concat_x1_x2 := Linear.forward self.(gate_up_proj) x in
  let '(x1, x2) := split2 concat_x1_x2 (-1) in
  Linear.forward self.(down_proj) ((activate self.(act_fn) x1) ⊗ x2).
End network.
End Qwen3MLP.

(** [Qwen3DecoderLayer]. *)
Module Qwen3DecoderLayer.
Section network.
Context {nn : NN}.
Record t := { self_attn : Qwen3Attention.t; mlp : Qwen3MLP.t; input_layernorm : RMSNorm.t; post_attention_layernorm :
    RMSNorm.t; tensor_parallel_shards : Z }.
Definition init (config : settings) (path : string) : result t :=
  self_attn ← Qwen3Attention.init config (path ./ "self_attn");
  mlp ← Qwen3MLP.init config (path ./ "mlp");
  let input_layernorm := RMSNorm.init (path ./ "input_layernorm") config.["hidden_size"] (-1) (Val (val_of config
      "rms_norm_eps")) false in
  let post_attention_layernorm := RMSNorm.init (path ./ "post_attention_layernorm") config.["hidden_size"] (-1) (Val
      (val_of config "rms_norm_eps")) false in
  let tensor_parallel_shards := config.["tensor_parallel_shards"] in
  Ok {| self_attn := self_attn; mlp := mlp; input_layernorm := input_layernorm; post_attention_layernorm :=
      post_attention_layernorm; tensor_parallel_shards := tensor_parallel_shards |}.
Definition parameters (self : t) : params :=
  under "self_attn" (Qwen3Attention.parameters self.(self_attn)) ++ under "mlp" (Qwen3MLP.parameters self.(mlp)) ++
      under "input_layernorm" (RMSNorm.parameters self.(input_layernorm)) ++ under "post_attention_layernorm"
      (RMSNorm.parameters self.(post_attention_layernorm)).
Definition set_tp (config : settings) (self : t) : list (string * ShardSingleDim) :=
  let hd := config.["head_dim"] in
  let q := self.(self_attn).(Qwen3Attention.num_attention_heads) * hd in
  let k := self.(self_attn).(Qwen3Attention.num_key_value_heads) * hd in
  let v := self.(self_attn).(Qwen3Attention.num_key_value_heads) * hd in
  let i := self.(mlp).(Qwen3MLP.intermediate_size) in
  [("self_attn.c_attn.weight", {| shard_name := "_shard_qkv_weight"; shard_dim := 0; segs := Some [q; k; v] |})] ++
  (if config.?["attention_bias"] then [("self_attn.c_attn.bias", {| shard_name := "_shard_qkv_bias"; shard_dim := 0;
      segs := Some [q; k; v] |})] else []) ++
  [("self_attn.o_proj.weight", {| shard_name := "_shard_o"; shard_dim := 1; segs := None |});
   ("mlp.gate_up_proj.weight", {| shard_name := "_shard_mlp_up"; shard_dim := 0; segs := Some [i; i] |});
   ("mlp.down_proj.weight", {| shard_name := "_shard_mlp_down"; shard_dim := 1; segs := None |})].
Definition _apply_residual (self : t) (out : T) (residual : T) : T :=
  if (self.(tensor_parallel_shards) >? 1) then
    (ccl_allreduce out "sum") ⊕ residual
  else
    out ⊕ residual.
Definition forward (self : t) (hidden_states : T) (paged_kv_cache : Cache) (layer_id : Z) : T * Cache :=
  let out := RMSNorm.forward self.(input_layernorm) hidden_states in
  let '(out, paged_kv_cache) := Qwen3Attention.forward self.(self_attn) out paged_kv_cache layer_id in
  let hidden_states := _apply_residual self out hidden_states in
  let out := RMSNorm.forward self.(post_attention_layernorm) hidden_states in
  let out := Qwen3MLP.forward self.(mlp) out in
  let hidden_states := _apply_residual self out hidden_states in
  (hidden_states, paged_kv_cache).
End network.
End Qwen3DecoderLayer.

(** [Qwen3Model]. *)
Module Qwen3Model.
Section network.
Context {nn : NN}.
Record t := { embed_tokens : Qwen3Embedding.t; layers : list Qwen3DecoderLayer.t; norm : RMSNorm.t }.
Definition init (config : settings) (path : string) : result t :=
  let embed_tokens := Qwen3Embedding.init (path ./ "embed_tokens") config.["vocab_size"] config.["hidden_size"] in
  layers ← module_list (path ./ "layers") config.["num_hidden_layers"] (λ _ path, Qwen3DecoderLayer.init config path);
  let norm := RMSNorm.init (path ./ "norm") config.["hidden_size"] (-1) (Val (val_of config "rms_norm_eps")) false in
  Ok {| embed_tokens := embed_tokens; layers := layers; norm := norm |}.
Definition parameters (self : t) : params :=
  under "embed_tokens" (Qwen3Embedding.parameters self.(embed_tokens)) ++ list_params "layers"
      Qwen3DecoderLayer.parameters self.(layers) ++ under "norm" (RMSNorm.parameters self.(norm)).
Definition forward (self : t) (inputs : T) (paged_kv_cache : Cache) : T * Cache :=
  let hidden_states := inputs in
  let '(hidden_states, paged_kv_cache) :=
    for_layers self.(layers) (λ layer_id layer '(hidden_states, paged_kv_cache),
      Qwen3DecoderLayer.forward layer hidden_states paged_kv_cache layer_id) (hidden_states, paged_kv_cache) in
  let hidden_states := RMSNorm.forward self.(norm) hidden_states in
  (hidden_states, paged_kv_cache).
End network.
End Qwen3Model.

(** [Qwen3LMHeadModel]. *)
Module Qwen3LMHeadModel.
Section network.
Context {nn : NN}.
Record t := { model : Qwen3Model.t; tie_word_embeddings : bool; lm_head : option Linear.t; dtype : string;
    hidden_size : Z; num_hidden_layers : Z; intermediate_size : Z; num_attention_heads : Z; num_key_value_heads : Z;
    rms_norm_eps : number; rope_theta : Z; vocab_size : Z; tensor_parallel_shards : Z; head_dim : Z;
    weight_block_size : pyval }.
Definition init (config : settings) (path : string) : result t :=
  model ← Qwen3Model.init config (path ./ "model");
  let tie_word_embeddings := config.?["tie_word_embeddings"] in
  let lm_head := if negb config.?["tie_word_embeddings"] then Some (Linear.init (path ./ "lm_head")
      config.["hidden_size"] config.["vocab_size"] false None None) else None in
  let dtype := str_of config "dtype" in
  let hidden_size := config.["hidden_size"] in
  let num_hidden_layers := config.["num_hidden_layers"] in
  let intermediate_size := config.["intermediate_size"] in
  let num_attention_heads := config.["num_attention_heads"] in
  let num_key_value_heads := config.["num_key_value_heads"] in
  let rms_norm_eps := (Val (val_of config "rms_norm_eps")) in
  let rope_theta := config.["rope_theta"] in
  let vocab_size := config.["vocab_size"] in
  let tensor_parallel_shards := config.["tensor_parallel_shards"] in
  let head_dim := config.["head_dim"] in
  let weight_block_size := val_of config "weight_block_size" in
  Ok {| model := model; tie_word_embeddings := tie_word_embeddings; lm_head := lm_head; dtype := dtype; hidden_size
      := hidden_size; num_hidden_layers := num_hidden_layers; intermediate_size := intermediate_size;
      num_attention_heads := num_attention_heads; num_key_value_heads := num_key_value_heads; rms_norm_eps :=
      rms_norm_eps; rope_theta := rope_theta; vocab_size := vocab_size; tensor_parallel_shards :=
      tensor_parallel_shards; head_dim := head_dim; weight_block_size := weight_block_size |}.
Definition parameters (self : t) : params :=
  under "model" (Qwen3Model.parameters self.(model)) ++ under "lm_head" (match self.(lm_head) with Some m =>
      Linear.parameters m | None => [] end).
Definition batch_forward (self : t) (input_embeds : T) (paged_kv_cache : Cache) (logit_positions : option T) : T *
    Cache :=
  let '(hidden_states, paged_kv_cache) := Qwen3Model.forward self.(model) input_embeds paged_kv_cache in
  let hidden_states :=
    match logit_positions with
    | Some logit_positions =>
        take hidden_states logit_positions 1
    | None => hidden_states
    end in
  let logits := if self.(tie_word_embeddings) then Qwen3Embedding.lm_head_forward
      self.(model).(Qwen3Model.embed_tokens) hidden_states else (match self.(lm_head) with Some m => Linear.forward m
      hidden_states | None => undefined end) in
  let logits := if negb (bool_decide (dtype_of logits = "float32")) then astype logits "float32" else logits in
  (logits, paged_kv_cache).
Definition embed (self : t) (input_ids : T) : T :=
  let input_ids := if (self.(tensor_parallel_shards) >? 1) then ccl_broadcast_from_worker0 input_ids else input_ids in
  Qwen3Embedding.forward self.(model).(Qwen3Model.embed_tokens) input_ids.
Definition prefill (self : t) (input_embed : T) (paged_kv_cache : Cache) : T * Cache :=
  let '(hidden_states, paged_kv_cache) := Qwen3Model.forward self.(model) input_embed paged_kv_cache in
  let hidden_states := index_last_token hidden_states in
  let logits := if self.(tie_word_embeddings) then Qwen3Embedding.lm_head_forward
      self.(model).(Qwen3Model.embed_tokens) hidden_states else (match self.(lm_head) with Some m => Linear.forward m
      hidden_states | None => undefined end) in
  let logits := if negb (bool_decide (dtype_of logits = "float32")) then astype logits "float32" else logits in
  (logits, paged_kv_cache).
Definition decode (self : t) (input_embed : T) (paged_kv_cache : Cache) : T * Cache :=
  let '(hidden_states, paged_kv_cache) := Qwen3Model.forward self.(model) input_embed paged_kv_cache in
  let logits := if self.(tie_word_embeddings) then Qwen3Embedding.lm_head_forward
      self.(model).(Qwen3Model.embed_tokens) hidden_states else (match self.(lm_head) with Some m => Linear.forward m
      hidden_states | None => undefined end) in
  let logits := if negb (bool_decide (dtype_of logits = "float32")) then astype logits "float32" else logits in
  (logits, paged_kv_cache).
Definition batch_prefill (self : t) (input_embeds : T) (logit_positions : T) (paged_kv_cache : Cache) : T * Cache :=
  let logit_positions := if (self.(tensor_parallel_shards) >? 1) then ccl_broadcast_from_worker0 logit_positions else
      logit_positions in
  batch_forward self input_embeds paged_kv_cache (Some logit_positions).
Definition batch_decode (self : t) (input_embeds : T) (paged_kv_cache : Cache) : T * Cache :=
  batch_forward self input_embeds paged_kv_cache None.
Definition batch_verify (self : t) (input_embeds : T) (paged_kv_cache : Cache) : T * Cache :=
  batch_forward self input_embeds paged_kv_cache None.
Definition create_paged_kv_cache (self : t) (max_batch_size : Z) (max_total_seq_len : Z) (prefill_chunk_size : Z)
    (page_size : Z) (support_sliding_window : Z) : Cache :=
  create_generic (PStr "mha") max_batch_size max_total_seq_len prefill_chunk_size page_size support_sliding_window
      self.(num_hidden_layers) (self.(num_attention_heads) / self.(tensor_parallel_shards))
      (self.(num_key_value_heads) / self.(tensor_parallel_shards)) self.(head_dim) self.(head_dim) "NORMAL" (Num 1)
      (Num self.(rope_theta)) self.(dtype) None PNone PNone None false.
Definition get_default_spec (self : t) : mod_spec := [
  ("embed", packed [("input_ids", STensor [Named "seq_len"] "int32")]);
  ("prefill", packed [("input_embed", STensor [Fixed 1; Named "seq_len"; Fixed self.(hidden_size)] self.(dtype));
      ("paged_kv_cache", SObject)]);
  ("decode", packed [("input_embed", STensor [Fixed 1; Fixed 1; Fixed self.(hidden_size)] self.(dtype));
      ("paged_kv_cache", SObject)]);
  ("batch_prefill", packed [("input_embeds", STensor [Fixed 1; Named "seq_len"; Fixed self.(hidden_size)]
      self.(dtype)); ("logit_positions", STensor [Named "batch_size"] "int32"); ("paged_kv_cache", SObject)]);
  ("batch_decode", packed [("input_embeds", STensor [Named "batch_size"; Fixed 1; Fixed self.(hidden_size)]
      self.(dtype)); ("paged_kv_cache", SObject)]);
  ("batch_verify", packed [("input_embeds", STensor [Fixed 1; Named "seq_len"; Fixed self.(hidden_size)]
      self.(dtype)); ("paged_kv_cache", SObject)]);
  ("create_paged_kv_cache", unpacked [("max_batch_size", SInt); ("max_total_seq_len", SInt); ("prefill_chunk_size",
      SInt); ("page_size", SInt); ("support_sliding_window", SInt)])].
Definition methods (self : t) : list (string * method) := [
  ("embed", Method ["input_ids"] (method_t (embed self)));
  ("prefill", Method ["input_embed"; "paged_kv_cache"] (method_tc (prefill self)));
  ("decode", Method ["input_embed"; "paged_kv_cache"] (method_tc (decode self)));
  ("batch_prefill", Method ["input_embeds"; "logit_positions"; "paged_kv_cache"] (method_ttc (batch_prefill self)));
  ("batch_decode", Method ["input_embeds"; "paged_kv_cache"] (method_tc (batch_decode self)));
  ("batch_verify", Method ["input_embeds"; "paged_kv_cache"] (method_tc (batch_verify self)));
  ("create_paged_kv_cache", Method ["max_batch_size"; "max_total_seq_len"; "prefill_chunk_size"; "page_size";
      "support_sliding_window"] (method_ints (create_paged_kv_cache self)))].
End network.
End Qwen3LMHeadModel.

(** [Qwen3EmbeddingModel]. *)
Module Qwen3EmbeddingModel.
Section network.
Context {nn : NN}.
Record t := { model : Qwen3Model.t; tie_word_embeddings : bool; lm_head : option Linear.t; dtype : string;
    hidden_size : Z; num_hidden_layers : Z; intermediate_size : Z; num_attention_heads : Z; num_key_value_heads : Z;
    rms_norm_eps : number; rope_theta : Z; vocab_size : Z; tensor_parallel_shards : Z; head_dim : Z;
    weight_block_size : pyval }.
Definition init (config : settings) (path : string) : result t :=
  model ← Qwen3Model.init config (path ./ "model");
  let tie_word_embeddings := config.?["tie_word_embeddings"] in
  let lm_head := if negb config.?["tie_word_embeddings"] then Some (Linear.init (path ./ "lm_head")
      config.["hidden_size"] config.["vocab_size"] false None None) else None in
  let dtype := str_of config "dtype" in
  let hidden_size := config.["hidden_size"] in
  let num_hidden_layers := config.["num_hidden_layers"] in
  let intermediate_size := config.["intermediate_size"] in
  let num_attention_heads := config.["num_attention_heads"] in
  let num_key_value_heads := config.["num_key_value_heads"] in
  let rms_norm_eps := (Val (val_of config "rms_norm_eps")) in
  let rope_theta := config.["rope_theta"] in
  let vocab_size := config.["vocab_size"] in
  let tensor_parallel_shards := config.["tensor_parallel_shards"] in
  let head_dim := config.["head_dim"] in
  let weight_block_size := val_of config "weight_block_size" in
  Ok {| model := model; tie_word_embeddings := tie_word_embeddings; lm_head := lm_head; dtype := dtype; hidden_size
      := hidden_size; num_hidden_layers := num_hidden_layers; intermediate_size := intermediate_size;
      num_attention_heads := num_attention_heads; num_key_value_heads := num_key_value_heads; rms_norm_eps :=
      rms_norm_eps; rope_theta := rope_theta; vocab_size := vocab_size; tensor_parallel_shards :=
      tensor_parallel_shards; head_dim := head_dim; weight_block_size := weight_block_size |}.
Definition parameters (self : t) : params :=
  under "model" (Qwen3Model.parameters self.(model)) ++ under "lm_head" (match self.(lm_head) with Some m =>
      Linear.parameters m | None => [] end).
Definition batch_forward (self : t) (input_embeds : T) (paged_kv_cache : Cache) (logit_positions : option T) : T *
    Cache :=
  let '(hidden_states, paged_kv_cache) := Qwen3Model.forward self.(model) input_embeds paged_kv_cache in
  let hidden_states :=
    match logit_positions with
    | Some logit_positions =>
        take hidden_states logit_positions 1
    | None => hidden_states
    end in
  let logits := if self.(tie_word_embeddings) then Qwen3Embedding.lm_head_forward
      self.(model).(Qwen3Model.embed_tokens) hidden_states else (match self.(lm_head) with Some m => Linear.forward m
      hidden_states | None => undefined end) in
  let logits := if negb (bool_decide (dtype_of logits = "float32")) then astype logits "float32" else logits in
  (logits, paged_kv_cache).
Definition embed (self : t) (input_ids : T) : T :=
  let input_ids := if (self.(tensor_parallel_shards) >? 1) then ccl_broadcast_from_worker0 input_ids else input_ids in
  Qwen3Embedding.forward self.(model).(Qwen3Model.embed_tokens) input_ids.
Definition prefill (self : t) (input_embed : T) (paged_kv_cache : Cache) : T * Cache :=
  let '(hidden_states, paged_kv_cache) := Qwen3Model.forward self.(model) input_embed paged_kv_cache in
  let hidden_states := index_last_token hidden_states in
  let logits := if self.(tie_word_embeddings) then Qwen3Embedding.lm_head_forward
      self.(model).(Qwen3Model.embed_tokens) hidden_states else (match self.(lm_head) with Some m => Linear.forward m
      hidden_states | None => undefined end) in
  let logits := if negb (bool_decide (dtype_of logits = "float32")) then astype logits "float32" else logits in
  (logits, paged_kv_cache).
Definition decode (self : t) (input_embed : T) (paged_kv_cache : Cache) : T * Cache :=
  let '(hidden_states, paged_kv_cache) := Qwen3Model.forward self.(model) input_embed paged_kv_cache in
  let logits := if self.(tie_word_embeddings) then Qwen3Embedding.lm_head_forward
      self.(model).(Qwen3Model.embed_tokens) hidden_states else (match self.(lm_head) with Some m => Linear.forward m
      hidden_states | None => undefined end) in
  let logits := if negb (bool_decide (dtype_of logits = "float32")) then astype logits "float32" else logits in
  (logits, paged_kv_cache).
Definition batch_prefill (self : t) (input_embeds : T) (logit_positions : T) (paged_kv_cache : Cache) : T * Cache :=
  let logit_positions := if (self.(tensor_parallel_shards) >? 1) then ccl_broadcast_from_worker0 logit_positions else
      logit_positions in
  batch_forward self input_embeds paged_kv_cache (Some logit_positions).
Definition batch_decode (self : t) (input_embeds : T) (paged_kv_cache : Cache) : T * Cache :=
  batch_forward self input_embeds paged_kv_cache None.
Definition batch_verify (self : t) (input_embeds : T) (paged_kv_cache : Cache) : T * Cache :=
  batch_forward self input_embeds paged_kv_cache None.
Definition create_paged_kv_cache (self : t) (max_batch_size : Z) (max_total_seq_len : Z) (prefill_chunk_size : Z)
    (page_size : Z) (support_sliding_window : Z) : Cache :=
  create_generic (PStr "mha") max_batch_size max_total_seq_len prefill_chunk_size page_size support_sliding_window
      self.(num_hidden_layers) (self.(num_attention_heads) / self.(tensor_parallel_shards))
      (self.(num_key_value_heads) / self.(tensor_parallel_shards)) self.(head_dim) self.(head_dim) "NORMAL" (Num 1)
      (Num self.(rope_theta)) self.(dtype) None PNone PNone None false.
Definition prefill_to_last_hidden_states (self : t) (input_embed : T) (paged_kv_cache : Cache) : T * Cache :=
  Qwen3Model.forward self.(model) input_embed paged_kv_cache.
Definition decode_to_last_hidden_states (self : t) (input_embed : T) (paged_kv_cache : Cache) : T * Cache :=
  Qwen3Model.forward self.(model) input_embed paged_kv_cache.
Definition batch_prefill_to_last_hidden_states (self : t) (input_embeds : T) (paged_kv_cache : Cache) : T * Cache :=
  Qwen3Model.forward self.(model) input_embeds paged_kv_cache.
Definition batch_decode_to_last_hidden_states (self : t) (input_embeds : T) (paged_kv_cache : Cache) : T * Cache :=
  Qwen3Model.forward self.(model) input_embeds paged_kv_cache.
Definition get_default_spec (self : t) : mod_spec := [
  ("embed", packed [("input_ids", STensor [Named "seq_len"] "int32")]);
  ("prefill_to_last_hidden_states", packed [("input_embed", STensor [Fixed 1; Named "seq_len"; Fixed
      self.(hidden_size)] self.(dtype)); ("paged_kv_cache", SObject)]);
  ("decode_to_last_hidden_states", packed [("input_embed", STensor [Fixed 1; Fixed 1; Fixed self.(hidden_size)]
      self.(dtype)); ("paged_kv_cache", SObject)]);
  ("batch_prefill_to_last_hidden_states", packed [("input_embeds", STensor [Fixed 1; Named "seq_len"; Fixed
      self.(hidden_size)] self.(dtype)); ("paged_kv_cache", SObject)]);
  ("batch_decode_to_last_hidden_states", packed [("input_embeds", STensor [Named "batch_size"; Fixed 1; Fixed
      self.(hidden_size)] self.(dtype)); ("paged_kv_cache", SObject)]);
  ("create_paged_kv_cache", unpacked [("max_batch_size", SInt); ("max_total_seq_len", SInt); ("prefill_chunk_size",
      SInt); ("page_size", SInt); ("support_sliding_window", SInt)])].
Definition methods (self : t) : list (string * method) := [
  ("embed", Method ["input_ids"] (method_t (embed self)));
  ("prefill_to_last_hidden_states", Method ["input_embed"; "paged_kv_cache"] (method_tc
      (prefill_to_last_hidden_states self)));
  ("decode_to_last_hidden_states", Method ["input_embed"; "paged_kv_cache"] (method_tc (decode_to_last_hidden_states
      self)));
  ("batch_prefill_to_last_hidden_states", Method ["input_embeds"; "paged_kv_cache"] (method_tc
      (batch_prefill_to_last_hidden_states self)));
  ("batch_decode_to_last_hidden_states", Method ["input_embeds"; "paged_kv_cache"] (method_tc
      (batch_decode_to_last_hidden_states self)));
  ("create_paged_kv_cache", Method ["max_batch_size"; "max_total_seq_len"; "prefill_chunk_size"; "page_size";
      "support_sliding_window"] (method_ints (create_paged_kv_cache self)))].
End network.
End Qwen3EmbeddingModel.

(** The shapes of its parts. *)
Section Qwen3_shapes.
Context {nn : NN} {laws : NNLaws nn}.
Lemma Qwen3Attention_attends config path self :
  natural config → Qwen3Attention.init config path = Ok self →
  attends config.["hidden_size"] (Qwen3_heads config) (Qwen3Attention.forward self).
Proof. intros P H. unfold Qwen3Attention.init in H. built H. unfold Qwen3Attention.forward. module_attends. Qed.
#[local] Hint Resolve Qwen3Attention_attends : modules.
Lemma Qwen3MLP_maps config path self :
  natural config → Qwen3MLP.init config path = Ok self →
  maps_shape config.["hidden_size"] config.["hidden_size"] (Qwen3MLP.forward self).
Proof. intros P H. unfold Qwen3MLP.init in H. built H. unfold Qwen3MLP.forward. module_maps. Qed.
#[local] Hint Resolve Qwen3MLP_maps : modules.
Lemma Qwen3DecoderLayer_attends config path self :
  natural config → Qwen3DecoderLayer.init config path = Ok self →
  attends config.["hidden_size"] (Qwen3_heads config) (Qwen3DecoderLayer.forward self).
Proof. intros P H. unfold Qwen3DecoderLayer.init in H. built H. unfold Qwen3DecoderLayer.forward, Qwen3DecoderLayer._apply_residual. module_attends. Qed.
#[local] Hint Resolve Qwen3DecoderLayer_attends : modules.
Lemma Qwen3Model_runs config path self :
  natural config → Qwen3Model.init config path = Ok self →
  runs config.["hidden_size"] (Qwen3_heads config) (Qwen3Model.forward self).
Proof.
  intros P H. unfold Qwen3Model.init in H. built H.
  unfold Qwen3Model.forward.
  match goal with Hl : module_list _ _ _ = Ok _ |- _ => module_runs Hl end.
Qed.
#[local] Hint Resolve Qwen3Model_runs : modules.
Lemma Qwen3Model_embed_tokens config path self : Qwen3Model.init config path = Ok self →
  self.(Qwen3Model.embed_tokens) = Embedding.init (path ./ "embed_tokens") config.["vocab_size"] config.["hidden_size"].
Proof. intros H. unfold Qwen3Model.init in H. built H. reflexivity. Qed.
Lemma Qwen3LMHeadModel_typed config path self :
  natural config → Qwen3LMHeadModel.init config path = Ok self →
  well_typed config.["hidden_size"] config.["vocab_size"] (Qwen3_heads config) (Qwen3LMHeadModel.get_default_spec self) (Qwen3LMHeadModel.methods self).
Proof.
  intros P H. unfold Qwen3LMHeadModel.init in H. built H.
  match goal with Hm : Qwen3Model.init _ _ = Ok _ |- _ => pose proof (Qwen3Model_embed_tokens _ _ _ Hm) as Hemb_embed_tokens end.
  functions; unfold Qwen3LMHeadModel.create_paged_kv_cache, Qwen3LMHeadModel.batch_verify, Qwen3LMHeadModel.batch_decode, Qwen3LMHeadModel.batch_prefill, Qwen3LMHeadModel.decode, Qwen3LMHeadModel.prefill, Qwen3LMHeadModel.embed, Qwen3LMHeadModel.batch_forward, Qwen3Embedding.forward, Qwen3Embedding.init, Qwen3Embedding.lm_head_forward; exported.
Qed.
Lemma Qwen3EmbeddingModel_typed config path self :
  natural config → Qwen3EmbeddingModel.init config path = Ok self →
  well_typed config.["hidden_size"] config.["vocab_size"] (Qwen3_heads config) (Qwen3EmbeddingModel.get_default_spec self) (Qwen3EmbeddingModel.methods self).
Proof.
  intros P H. unfold Qwen3EmbeddingModel.init in H. built H.
  match goal with Hm : Qwen3Model.init _ _ = Ok _ |- _ => pose proof (Qwen3Model_embed_tokens _ _ _ Hm) as Hemb_embed_tokens end.
  functions; unfold Qwen3EmbeddingModel.batch_decode_to_last_hidden_states, Qwen3EmbeddingModel.batch_prefill_to_last_hidden_states, Qwen3EmbeddingModel.decode_to_last_hidden_states, Qwen3EmbeddingModel.prefill_to_last_hidden_states, Qwen3EmbeddingModel.create_paged_kv_cache, Qwen3EmbeddingModel.batch_verify, Qwen3EmbeddingModel.batch_decode, Qwen3EmbeddingModel.batch_prefill, Qwen3EmbeddingModel.decode, Qwen3EmbeddingModel.prefill, Qwen3EmbeddingModel.embed, Qwen3EmbeddingModel.batch_forward, Qwen3Embedding.forward, Qwen3Embedding.init, Qwen3Embedding.lm_head_forward; exported.
Qed.
End Qwen3_shapes.
End Qwen3.

(** ** [model/stable_lm/stablelm_model.py] *)

Module StableLm.
(** The layers and heads of the cache [create_paged_kv_cache] makes. *)
Definition StableLm_heads (config : settings) : heads := {|
  n_layers := config.["num_hidden_layers"]; q_heads := (config.["num_attention_heads"] / config.["tensor_parallel_shards"]);
  kv_heads := (config.["num_key_value_heads"] / config.["tensor_parallel_shards"]); head_size := config.["head_dim"]; value_size := config.["head_dim"] |}.

(** [StableLmAttention]. *)
Module StableLmAttention.
Section network.
Context {nn : NN}.
Record t := { hidden_size : Z; rope_theta : Z; tensor_parallel_shards : Z; head_dim : Z; num_heads : Z;
    num_key_value_heads : Z; num_key_value_groups : Z; rotary_ndims : Z; qkv_proj : Linear.t; o_proj : Linear.t }.
Definition init (config : settings) (path : string) : result t :=
  let hidden_size := config.["hidden_size"] in
  let rope_theta := config.["rope_theta"] in
  let tensor_parallel_shards := config.["tensor_parallel_shards"] in
  let head_dim := config.["head_dim"] in
  _ ← raise_when (negb (config.["num_key_value_heads"] mod config.["tensor_parallel_shards"] =? 0)) ValueError
      ("Cannot split " +:+ pretty config.["num_key_value_heads"] +:+ " key-value attention heads evenly to " +:+
      pretty config.["tensor_parallel_shards"] +:+ " GPUs.");
  let num_heads := config.["num_attention_heads"] / tensor_parallel_shards in
  let num_key_value_heads := config.["num_key_value_heads"] / tensor_parallel_shards in
  let num_key_value_groups := num_heads / num_key_value_heads in
  let rotary_ndims := int_of_number (Times (Val (val_of config "partial_rotary_factor")) (Num head_dim)) in
  let qkv_proj := Linear.init (path ./ "qkv_proj") config.["hidden_size"] ((num_heads + (2 * num_key_value_heads)) *
      head_dim) config.?["use_qkv_bias"] None None in
  let o_proj := Linear.init (path ./ "o_proj") (num_heads * head_dim) hidden_size false None None in
  Ok {| hidden_size := hidden_size; rope_theta := rope_theta; tensor_parallel_shards := tensor_parallel_shards;
      head_dim := head_dim; num_heads := num_heads; num_key_value_heads := num_key_value_heads; num_key_value_groups
      := num_key_value_groups; rotary_ndims := rotary_ndims; qkv_proj := qkv_proj; o_proj := o_proj |}.
Definition parameters (self : t) : params :=
  under "qkv_proj" (Linear.parameters self.(qkv_proj)) ++ under "o_proj" (Linear.parameters self.(o_proj)).
Definition forward (self : t) (hidden_states : T) (paged_kv_cache : Cache) (layer_id : Z) : T * Cache :=
  let d := self.(head_dim) in let h_q := self.(num_heads) in let h_kv := self.(num_key_value_heads) in
  let '(b, s, _) := dims3 hidden_states in
  let qkv := Linear.forward self.(qkv_proj) hidden_states in
  let qkv := reshape qkv [b; s; (h_q + h_kv) + h_kv; d] in
  let '(attn_output, paged_kv_cache) := attention_with_fused_qkv paged_kv_cache layer_id qkv self.(num_heads) (Pow
      (Num self.(head_dim)) (Lit "-0.5")) in
  let output := reshape attn_output [b; s; h_q * d] in
  let attn_output := Linear.forward self.(o_proj) output in
  (attn_output, paged_kv_cache).
End network.
End StableLmAttention.

(** [StableLmMLP]. *)
Module StableLmMLP.
Section network.
Context {nn : NN}.
Record t := { intermediate_size : Z; gate_up_proj : Linear.t; down_proj : Linear.t }.
Definition init (config : settings) (path : string) : result t :=
  _ ← raise_when (negb (config.["intermediate_size"] mod config.["tensor_parallel_shards"] =? 0)) ValueError
      ("Cannot split MLP intermediate size " +:+ pretty config.["intermediate_size"] +:+ " evenly to " +:+ pretty
      config.["tensor_parallel_shards"] +:+ " GPUs.");
  let intermediate_size := config.["intermediate_size"] / config.["tensor_parallel_shards"] in
  let gate_up_proj := Linear.init (path ./ "gate_up_proj") config.["hidden_size"] (2 * intermediate_size) false None
      None in
  let down_proj := Linear.init (path ./ "down_proj") intermediate_size config.["hidden_size"] false None None in
  Ok {| intermediate_size := intermediate_size; gate_up_proj := gate_up_proj; down_proj := down_proj |}.
Definition parameters (self : t) : params :=
  under "gate_up_proj" (Linear.parameters self.(gate_up_proj)) ++ under "down_proj" (Linear.parameters
      self.(down_proj)).
Definition forward (self : t) (x : T) : T :=
  let concat_x1_x2 := Linear.forward self.(gate_up_proj) x in
  let '(x1, x2) := split2 concat_x1_x2 (-1) in
  Linear.forward self.(down_proj) ((activate Silu x1) ⊗ x2).
End network.
End StableLmMLP.

(** [StableLmDecoderLayer]. *)
Module StableLmDecoderLayer.
Section network.
Context {nn : NN}.
Record t := { self_attn : StableLmAttention.t; mlp : StableLmMLP.t; input_layernorm : LayerNorm.t;
    post_attention_layernorm : LayerNorm.t; tensor_parallel_shards : Z }.
Definition init (config : settings) (path : string) : result t :=
  let norm_eps := (Val (val_of config "layer_norm_eps")) in
  self_attn ← StableLmAttention.init config (path ./ "self_attn");
  mlp ← StableLmMLP.init config (path ./ "mlp");
  let input_layernorm := LayerNorm.init (path ./ "input_layernorm") config.["hidden_size"] norm_eps true in
  let post_attention_layernorm := LayerNorm.init (path ./ "post_attention_layernorm") config.["hidden_size"] norm_eps
      true in
  let tensor_parallel_shards := config.["tensor_parallel_shards"] in
  Ok {| self_attn := self_attn; mlp := mlp; input_layernorm := input_layernorm; post_attention_layernorm :=
      post_attention_layernorm; tensor_parallel_shards := tensor_parallel_shards |}.
Definition parameters (self : t) : params :=
  under "self_attn" (StableLmAttention.parameters self.(self_attn)) ++ under "mlp" (StableLmMLP.parameters
      self.(mlp)) ++ under "input_layernorm" (LayerNorm.parameters self.(input_layernorm)) ++ under
      "post_attention_layernorm" (LayerNorm.parameters self.(post_attention_layernorm)).
Definition set_tp (config : settings) (self : t) : list (string * ShardSingleDim) :=
  let hd := config.["head_dim"] in
  let q := self.(self_attn).(StableLmAttention.num_heads) * hd in
  let k := self.(self_attn).(StableLmAttention.num_key_value_heads) * hd in
  let v := self.(self_attn).(StableLmAttention.num_key_value_heads) * hd in
  let i := self.(mlp).(StableLmMLP.intermediate_size) in
  [("self_attn.qkv_proj.weight", {| shard_name := "_shard_qkv_weight"; shard_dim := 0; segs := Some [q; k; v] |})] ++
  (if config.?["use_qkv_bias"] then [("self_attn.qkv_proj.bias", {| shard_name := "_shard_qkv_bias"; shard_dim := 0;
      segs := Some [q; k; v] |})] else []) ++
  [("self_attn.o_proj.weight", {| shard_name := "_shard_o"; shard_dim := 1; segs := None |});
   ("mlp.gate_up_proj.weight", {| shard_name := "_shard_mlp_up"; shard_dim := 0; segs := Some [i; i] |});
   ("mlp.down_proj.weight", {| shard_name := "_shard_mlp_down"; shard_dim := 1; segs := None |})].
Definition _apply_residual (self : t) (out : T) (residual : T) : T :=
  if (self.(tensor_parallel_shards) >? 1) then
    (ccl_allreduce out "sum") ⊕ residual
  else
    out ⊕ residual.
Definition forward (self : t) (hidden_states : T) (paged_kv_cache : Cache) (layer_id : Z) : T * Cache :=
  let '(out, paged_kv_cache) := StableLmAttention.forward self.(self_attn) (LayerNorm.forward self.(input_layernorm)
      hidden_states) paged_kv_cache layer_id in
  let hidden_states := _apply_residual self out hidden_states in
  let out := StableLmMLP.forward self.(mlp) (LayerNorm.forward self.(post_attention_layernorm) hidden_states) in
  let hidden_states := _apply_residual self out hidden_states in
  (hidden_states, paged_kv_cache).
End network.
End StableLmDecoderLayer.

(** [StableLmModel]. *)
Module StableLmModel.
Section network.
Context {nn : NN}.
Record t := { embed_tokens : Embedding.t; layers : list StableLmDecoderLayer.t; norm : LayerNorm.t }.
Definition init (config : settings) (path : string) : result t :=
  _ ← py_assert (config.["hidden_size"] mod config.["num_attention_heads"] =? 0) "";
  let embed_tokens := Embedding.init (path ./ "embed_tokens") config.["vocab_size"] config.["hidden_size"] in
  layers ← module_list (path ./ "layers") config.["num_hidden_layers"] (λ _ path, StableLmDecoderLayer.init config
      path);
  let norm := LayerNorm.init (path ./ "norm") config.["hidden_size"] (Val (val_of config "layer_norm_eps")) true in
  Ok {| embed_tokens := embed_tokens; layers := layers; norm := norm |}.
Definition parameters (self : t) : params :=
  under "embed_tokens" (Embedding.parameters self.(embed_tokens)) ++ list_params "layers"
      StableLmDecoderLayer.parameters self.(layers) ++ under "norm" (LayerNorm.parameters self.(norm)).
Definition forward (self : t) (inputs : T) (paged_kv_cache : Cache) : T * Cache :=
  let hidden_states := inputs in
  let '(hidden_states, paged_kv_cache) :=
    for_layers self.(layers) (λ layer_id layer '(hidden_states, paged_kv_cache),
      StableLmDecoderLayer.forward layer hidden_states paged_kv_cache layer_id) (hidden_states, paged_kv_cache) in
  let hidden_states := LayerNorm.forward self.(norm) hidden_states in
  (hidden_states, paged_kv_cache).
End network.
End StableLmModel.

(** [StableLmForCausalLM]. *)
Module StableLmForCausalLM.
Section network.
Context {nn : NN}.
Record t := { model : StableLmModel.t; lm_head : Linear.t; vocab_size : Z; dtype : string; num_hidden_layers : Z;
    hidden_size : Z; num_attention_heads : Z; num_key_value_heads : Z; head_dim : Z; rope_theta : Z;
    tensor_parallel_shards : Z; partial_rotary_factor : number }.
Definition init (config : settings) (path : string) : result t :=
  model ← StableLmModel.init config (path ./ "model");
  let lm_head := Linear.init (path ./ "lm_head") config.["hidden_size"] config.["vocab_size"] false None None in
  let vocab_size := config.["vocab_size"] in
  let dtype := "float32" in
  let num_hidden_layers := config.["num_hidden_layers"] in
  let hidden_size := config.["hidden_size"] in
  let num_attention_heads := config.["num_attention_heads"] in
  let num_key_value_heads := config.["num_key_value_heads"] in
  let head_dim := config.["head_dim"] in
  let vocab_size := config.["vocab_size"] in
  let rope_theta := config.["rope_theta"] in
  let tensor_parallel_shards := config.["tensor_parallel_shards"] in
  let partial_rotary_factor := (Val (val_of config "partial_rotary_factor")) in
  Ok {| model := model; lm_head := lm_head; vocab_size := vocab_size; dtype := dtype; num_hidden_layers :=
      num_hidden_layers; hidden_size := hidden_size; num_attention_heads := num_attention_heads; num_key_value_heads
      := num_key_value_heads; head_dim := head_dim; rope_theta := rope_theta; tensor_parallel_shards :=
      tensor_parallel_shards; partial_rotary_factor := partial_rotary_factor |}.
Definition parameters (self : t) : params :=
  under "model" (StableLmModel.parameters self.(model)) ++ under "lm_head" (Linear.parameters self.(lm_head)).
Definition batch_forward (self : t) (input_embeds : T) (paged_kv_cache : Cache) (logit_positions : option T) : T *
    Cache :=
  let '(hidden_states, paged_kv_cache) := StableLmModel.forward self.(model) input_embeds paged_kv_cache in
  let hidden_states :=
    match logit_positions with
    | Some logit_positions =>
        take hidden_states logit_positions 1
    | None => hidden_states
    end in
  let logits := Linear.forward self.(lm_head) hidden_states in
  let logits := if negb (bool_decide (dtype_of logits = "float32")) then astype logits "float32" else logits in
  (logits, paged_kv_cache).
Definition embed (self : t) (input_ids : T) : T :=
  let input_ids := if (self.(tensor_parallel_shards) >? 1) then ccl_broadcast_from_worker0 input_ids else input_ids in
  Embedding.forward self.(model).(StableLmModel.embed_tokens) input_ids.
Definition prefill (self : t) (input_embed : T) (paged_kv_cache : Cache) : T * Cache :=
  let '(hidden_states, paged_kv_cache) := StableLmModel.forward self.(model) input_embed paged_kv_cache in
  let hidden_states := index_last_token hidden_states in
  let logits := Linear.forward self.(lm_head) hidden_states in
  let logits := if negb (bool_decide (dtype_of logits = "float32")) then astype logits "float32" else logits in
  (logits, paged_kv_cache).
Definition decode (self : t) (input_embed : T) (paged_kv_cache : Cache) : T * Cache :=
  let '(hidden_states, paged_kv_cache) := StableLmModel.forward self.(model) input_embed paged_kv_cache in
  let logits := Linear.forward self.(lm_head) hidden_states in
  let logits := if negb (bool_decide (dtype_of logits = "float32")) then astype logits "float32" else logits in
  (logits, paged_kv_cache).
Definition batch_prefill (self : t) (input_embeds : T) (logit_positions : T) (paged_kv_cache : Cache) : T * Cache :=
  let logit_positions := if (self.(tensor_parallel_shards) >? 1) then ccl_broadcast_from_worker0 logit_positions else
      logit_positions in
  batch_forward self input_embeds paged_kv_cache (Some logit_positions).
Definition batch_decode (self : t) (input_embeds : T) (paged_kv_cache : Cache) : T * Cache :=
  batch_forward self input_embeds paged_kv_cache None.
Definition batch_verify (self : t) (input_embeds : T) (paged_kv_cache : Cache) : T * Cache :=
  batch_forward self input_embeds paged_kv_cache None.
Definition create_paged_kv_cache (self : t) (max_batch_size : Z) (max_total_seq_len : Z) (prefill_chunk_size : Z)
    (page_size : Z) (support_sliding_window : Z) : Cache :=
  create_generic (PStr "mha") max_batch_size max_total_seq_len prefill_chunk_size page_size support_sliding_window
      self.(num_hidden_layers) (self.(num_attention_heads) / self.(tensor_parallel_shards))
      (self.(num_key_value_heads) / self.(tensor_parallel_shards)) self.(head_dim) self.(head_dim) "NORMAL" (Num 1)
      (Num self.(rope_theta)) self.(dtype) (Some (int_of_number (Times (Num self.(head_dim))
      self.(partial_rotary_factor)))) PNone PNone None false.
Definition get_default_spec (self : t) : mod_spec := [
  ("embed", packed [("input_ids", STensor [Named "seq_len"] "int32")]);
  ("prefill", packed [("input_embed", STensor [Fixed 1; Named "seq_len"; Fixed self.(hidden_size)] self.(dtype));
      ("paged_kv_cache", SObject)]);
  ("decode", packed [("input_embed", STensor [Fixed 1; Fixed 1; Fixed self.(hidden_size)] self.(dtype));
      ("paged_kv_cache", SObject)]);
  ("batch_prefill", packed [("input_embeds", STensor [Fixed 1; Named "seq_len"; Fixed self.(hidden_size)]
      self.(dtype)); ("logit_positions", STensor [Named "batch_size"] "int32"); ("paged_kv_cache", SObject)]);
  ("batch_decode", packed [("input_embeds", STensor [Named "batch_size"; Fixed 1; Fixed self.(hidden_size)]
      self.(dtype)); ("paged_kv_cache", SObject)]);
  ("batch_verify", packed [("input_embeds", STensor [Fixed 1; Named "seq_len"; Fixed self.(hidden_size)]
      self.(dtype)); ("paged_kv_cache", SObject)]);
  ("create_paged_kv_cache", unpacked [("max_batch_size", SInt); ("max_total_seq_len", SInt); ("prefill_chunk_size",
      SInt); ("page_size", SInt); ("support_sliding_window", SInt)])].
Definition methods (self : t) : list (string * method) := [
  ("embed", Method ["input_ids"] (method_t (embed self)));
  ("prefill", Method ["input_embed"; "paged_kv_cache"] (method_tc (prefill self)));
  ("decode", Method ["input_embed"; "paged_kv_cache"] (method_tc (decode self)));
  ("batch_prefill", Method ["input_embeds"; "logit_positions"; "paged_kv_cache"] (method_ttc (batch_prefill self)));
  ("batch_decode", Method ["input_embeds"; "paged_kv_cache"] (method_tc (batch_decode self)));
  ("batch_verify", Method ["input_embeds"; "paged_kv_cache"] (method_tc (batch_verify self)));
  ("create_paged_kv_cache", Method ["max_batch_size"; "max_total_seq_len"; "prefill_chunk_size"; "page_size";
      "support_sliding_window"] (method_ints (create_paged_kv_cache self)))].
End network.
End StableLmForCausalLM.

(** The shapes of its parts. *)
Section StableLm_shapes.
Context {nn : NN} {laws : NNLaws nn}.
Lemma StableLmAttention_attends config path self :
  natural config → StableLmAttention.init config path = Ok self →
  attends config.["hidden_size"] (StableLm_heads config) (StableLmAttention.forward self).
Proof. intros P H. unfold StableLmAttention.init in H. built H. unfold StableLmAttention.forward. module_attends. Qed.
#[local] Hint Resolve StableLmAttention_attends : modules.
Lemma StableLmMLP_maps config path self :
  natural config → StableLmMLP.init config path = Ok self →
  maps_shape config.["hidden_size"] config.["hidden_size"] (StableLmMLP.forward self).
Proof. intros P H. unfold StableLmMLP.init in H. built H. unfold StableLmMLP.forward. module_maps. Qed.
#[local] Hint Resolve StableLmMLP_maps : modules.
Lemma StableLmDecoderLayer_attends config path self :
  natural config → StableLmDecoderLayer.init config path = Ok self →
  attends config.["hidden_size"] (StableLm_heads config) (StableLmDecoderLayer.forward self).
Proof. intros P H. unfold StableLmDecoderLayer.init in H. built H. unfold StableLmDecoderLayer.forward, StableLmDecoderLayer._apply_residual. module_attends. Qed.
#[local] Hint Resolve StableLmDecoderLayer_attends : modules.
Lemma StableLmModel_runs config path self :
  natural config → StableLmModel.init config path = Ok self →
  runs config.["hidden_size"] (StableLm_heads config) (StableLmModel.forward self).
Proof.
  intros P H. unfold StableLmModel.init in H. built H.
  unfold StableLmModel.forward.
  match goal with Hl : module_list _ _ _ = Ok _ |- _ => module_runs Hl end.
Qed.
#[local] Hint Resolve StableLmModel_runs : modules.
Lemma StableLmModel_embed_tokens config path self : StableLmModel.init config path = Ok self →
  self.(StableLmModel.embed_tokens) = Embedding.init (path ./ "embed_tokens") config.["vocab_size"] config.["hidden_size"].
Proof. intros H. unfold StableLmModel.init in H. built H. reflexivity. Qed.
Lemma StableLmForCausalLM_typed config path self :
  natural config → StableLmForCausalLM.init config path = Ok self →
  well_typed config.["hidden_size"] config.["vocab_size"] (StableLm_heads config) (StableLmForCausalLM.get_default_spec self) (StableLmForCausalLM.methods self).
Proof.
  intros P H. unfold StableLmForCausalLM.init in H. built H.
  match goal with Hm : StableLmModel.init _ _ = Ok _ |- _ => pose proof (StableLmModel_embed_tokens _ _ _ Hm) as Hemb_embed_tokens end.
  functions; unfold StableLmForCausalLM.create_paged_kv_cache, StableLmForCausalLM.batch_verify, StableLmForCausalLM.batch_decode, StableLmForCausalLM.batch_prefill, StableLmForCausalLM.decode, StableLmForCausalLM.prefill, StableLmForCausalLM.embed, StableLmForCausalLM.batch_forward; exported.
Qed.
End StableLm_shapes.
End StableLm.

(** ** [model/chatglm3/chatglm3_model.py] *)

Module ChatGLM.
(** The layers and heads of the cache [create_paged_kv_cache] makes, and what a configuration must satisfy. *)
Definition ChatGLM_heads (config : settings) : heads := {|
  n_layers := config.["num_layers"]; q_heads := (config.["num_attention_heads"] / config.["tensor_parallel_shards"]);
  kv_heads := ((if config.?["multi_query_attention"] then config.["multi_query_group_num"] else config.["num_attention_heads"]) / config.["tensor_parallel_shards"]); head_size := config.["head_dim"]; value_size := config.["head_dim"] |}.
Definition ChatGLM_fits (config : settings) : Prop :=
  natural config ∧ config.?["post_layer_norm"] = true.

(** [GLMAttention]. *)
Module GLMAttention.
Section network.
Context {nn : NN}.
Record t := { hidden_size : Z; num_heads : Z; multi_query_attention : bool; num_key_value_heads : Z; head_dim : Z;
    query_key_value : Linear.t; dense : Linear.t }.
Definition init (config : settings) (path : string) : result t :=
  let hidden_size := config.["hidden_size"] in
  _ ← raise_when (negb (config.["num_attention_heads"] mod config.["tensor_parallel_shards"] =? 0)) ValueError
      ("Cannot split " +:+ pretty config.["num_attention_heads"] +:+ " attention headsevenly to " +:+ pretty
      config.["tensor_parallel_shards"] +:+ " GPUs.");
  let num_heads := config.["num_attention_heads"] / config.["tensor_parallel_shards"] in
  let multi_query_attention := config.?["multi_query_attention"] in
  let num_key_value_heads := (if config.?["multi_query_attention"] then config.["multi_query_group_num"] else
      config.["num_attention_heads"]) / config.["tensor_parallel_shards"] in
  let head_dim := config.["head_dim"] in
  let query_key_value := Linear.init (path ./ "query_key_value") config.["hidden_size"] (((2 * num_key_value_heads) +
      num_heads) * head_dim) (config.?["add_bias_linear"] || config.?["add_qkv_bias"]) None None in
  let dense := Linear.init (path ./ "dense") (num_heads * head_dim) config.["hidden_size"]
      config.?["add_bias_linear"] None None in
  Ok {| hidden_size := hidden_size; num_heads := num_heads; multi_query_attention := multi_query_attention;
      num_key_value_heads := num_key_value_heads; head_dim := head_dim; query_key_value := query_key_value; dense :=
      dense |}.
Definition parameters (self : t) : params :=
  under "query_key_value" (Linear.parameters self.(query_key_value)) ++ under "dense" (Linear.parameters self.(dense)).
Definition forward (self : t) (hidden_states : T) (paged_kv_cache : Cache) (layer_id : Z) : T * Cache :=
  let d := self.(head_dim) in let h_q := self.(num_heads) in let h_kv := self.(num_key_value_heads) in
  let '(b, s, _) := dims3 hidden_states in
  let qkv := Linear.forward self.(query_key_value) hidden_states in
  let qkv := reshape qkv [b; s; (h_q + h_kv) + h_kv; d] in
  let '(attn_output, paged_kv_cache) := attention_with_fused_qkv paged_kv_cache layer_id qkv h_q (Pow (Num
      self.(head_dim)) (Lit "-0.5")) in
  let output := reshape attn_output [b; s; h_q * d] in
  let attn_output := Linear.forward self.(dense) output in
  (attn_output, paged_kv_cache).
End network.
End GLMAttention.

(** [GLMMLP]. *)
Module GLMMLP.
Section network.
Context {nn : NN}.
Record t := { ffn_hidden_size : Z; dense_h_to_4h : Linear.t; dense_4h_to_h : Linear.t }.
Definition init (config : settings) (path : string) : result t :=
  _ ← raise_when (negb (config.["ffn_hidden_size"] mod config.["tensor_parallel_shards"] =? 0)) ValueError
      ("Cannot split ffn hidden size " +:+ pretty config.["ffn_hidden_size"] +:+ " evenly to " +:+ pretty
      config.["tensor_parallel_shards"] +:+ " GPUs.");
  let ffn_hidden_size := config.["ffn_hidden_size"] / config.["tensor_parallel_shards"] in
  let dense_h_to_4h := Linear.init (path ./ "dense_h_to_4h") config.["hidden_size"] (ffn_hidden_size * 2)
      config.?["add_bias_linear"] None None in
  let dense_4h_to_h := Linear.init (path ./ "dense_4h_to_h") ffn_hidden_size config.["hidden_size"]
      config.?["add_bias_linear"] None None in
  Ok {| ffn_hidden_size := ffn_hidden_size; dense_h_to_4h := dense_h_to_4h; dense_4h_to_h := dense_4h_to_h |}.
Definition parameters (self : t) : params :=
  under "dense_h_to_4h" (Linear.parameters self.(dense_h_to_4h)) ++ under "dense_4h_to_h" (Linear.parameters
      self.(dense_4h_to_h)).
Definition swiglu (x : T) : T :=
  let '(x0, x1) := split2 x (-1) in
  activate Silu x0 ⊗ x1.
Definition forward (self : t) (x : T) : T :=
  let intermediate_parallel := Linear.forward self.(dense_h_to_4h) x in
  let intermediate_parallel := swiglu intermediate_parallel in
  Linear.forward self.(dense_4h_to_h) intermediate_parallel.
End network.
End GLMMLP.

(** [GLMBlock]. *)
Module GLMBlock.
Section network.
Context {nn : NN}.
Record t := { self_attention : GLMAttention.t; mlp : GLMMLP.t; input_layernorm : RMSNorm.t; post_attention_layernorm
    : RMSNorm.t; tensor_parallel_shards : Z }.
Definition init (config : settings) (path : string) : result t :=
  self_attention ← GLMAttention.init config (path ./ "self_attention");
  mlp ← GLMMLP.init config (path ./ "mlp");
  let input_layernorm := RMSNorm.init (path ./ "input_layernorm") config.["hidden_size"] (-1) (Val (val_of config
      "layernorm_epsilon")) false in
  let post_attention_layernorm := RMSNorm.init (path ./ "post_attention_layernorm") config.["hidden_size"] (-1) (Val
      (val_of config "layernorm_epsilon")) false in
  let tensor_parallel_shards := config.["tensor_parallel_shards"] in
  Ok {| self_attention := self_attention; mlp := mlp; input_layernorm := input_layernorm; post_attention_layernorm :=
      post_attention_layernorm; tensor_parallel_shards := tensor_parallel_shards |}.
Definition parameters (self : t) : params :=
  under "self_attention" (GLMAttention.parameters self.(self_attention)) ++ under "mlp" (GLMMLP.parameters
      self.(mlp)) ++ under "input_layernorm" (RMSNorm.parameters self.(input_layernorm)) ++ under
      "post_attention_layernorm" (RMSNorm.parameters self.(post_attention_layernorm)).
Definition set_tp (config : settings) (self : t) : list (string * ShardSingleDim) :=
  let hd := config.["head_dim"] in
  let q := self.(self_attention).(GLMAttention.num_heads) * hd in
  let k := self.(self_attention).(GLMAttention.num_key_value_heads) * hd in
  let v := self.(self_attention).(GLMAttention.num_key_value_heads) * hd in
  [("self_attention.query_key_value.weight", {| shard_name := "_shard_qkv_weight"; shard_dim := 0; segs := Some [q; k;
    v] |})] ++
  (if (config.?["add_bias_linear"] || config.?["add_qkv_bias"]) then [("self_attention.query_key_value.bias", {|
      shard_name := "_shard_qkv_bias"; shard_dim := 0; segs := Some [q; k; v] |})] else []) ++
  [("self_attention.dense.weight", {| shard_name := "_shard_dense_weight"; shard_dim := 1; segs := None |})] ++
  (if config.?["add_bias_linear"] then [("self_attention.dense.bias", {| shard_name := "_shard_dense_bias"; shard_dim
      := 0; segs := None |})] else []) ++
  [("mlp.dense_h_to_4h.weight", {| shard_name := "_shard_dense_h_to_4h_weight"; shard_dim := 0; segs := None |})] ++
  (if config.?["add_bias_linear"] then [("mlp.dense_h_to_4h.bias", {| shard_name := "_shard_dense_h_to_4h_bias";
      shard_dim := 0; segs := None |})] else []) ++
  [("mlp.dense_4h_to_h.weight", {| shard_name := "_shard_dense_4h_to_h"; shard_dim := 1; segs := None |})] ++
  (if config.?["add_bias_linear"] then [("mlp.dense_4h_to_h.bias", {| shard_name := "_shard_dense_4h_to_h_bias";
      shard_dim := 1; segs := None |})] else []).
Definition _apply_residual (self : t) (out : T) (residual : T) : T :=
  if (self.(tensor_parallel_shards) >? 1) then
    (ccl_allreduce out "sum") ⊕ residual
  else
    out ⊕ residual.
Definition forward (self : t) (hidden_states : T) (paged_kv_cache : Cache) (layer_id : Z) : T * Cache :=
  let '(out, paged_kv_cache) := GLMAttention.forward self.(self_attention) (RMSNorm.forward self.(input_layernorm)
      hidden_states) paged_kv_cache layer_id in
  let hidden_states := _apply_residual self out hidden_states in
  let out := GLMMLP.forward self.(mlp) (RMSNorm.forward self.(post_attention_layernorm) hidden_states) in
  let hidden_states := _apply_residual self out hidden_states in
  (hidden_states, paged_kv_cache).
End network.
End GLMBlock.

(** [GLMTransformer]. *)
Module GLMTransformer.
Section network.
Context {nn : NN}.
Record t := { post_layer_norm : bool; num_layers : Z; layers : list GLMBlock.t; final_layernorm : option (RMSNorm.t +
    LayerNorm.t) }.
Definition init (config : settings) (path : string) : result t :=
  let post_layer_norm := config.?["post_layer_norm"] in
  let num_layers := config.["num_layers"] in
  layers ← module_list (path ./ "layers") config.["num_layers"] (λ _ path, GLMBlock.init config path);
  final_layernorm ← (if post_layer_norm then m ← (if config.?["rmsnorm"] then Ok (inl (RMSNorm.init (path ./
      "final_layernorm") config.["hidden_size"] (-1) (Val (val_of config "layernorm_epsilon")) false)) else Ok (inr
      (LayerNorm.init (path ./ "final_layernorm") config.["hidden_size"] (Val (val_of config "layernorm_epsilon"))
      true))); Ok (Some m) else Ok None);
  Ok {| post_layer_norm := post_layer_norm; num_layers := num_layers; layers := layers; final_layernorm :=
      final_layernorm |}.
Definition parameters (self : t) : params :=
  list_params "layers" GLMBlock.parameters self.(layers) ++ under "final_layernorm" (match self.(final_layernorm)
      with Some m => match m with inl m => RMSNorm.parameters m | inr m => LayerNorm.parameters m end | None => []
      end).
Definition forward (self : t) (inputs : T) (paged_kv_cache : Cache) : T * Cache :=
  let hidden_states := inputs in
  let '(hidden_states, paged_kv_cache) :=
    for_layers self.(layers) (λ layer_id layer '(hidden_states, paged_kv_cache),
      GLMBlock.forward layer hidden_states paged_kv_cache layer_id) (hidden_states, paged_kv_cache) in
  let hidden_states := (match self.(final_layernorm) with Some m => (match m with inl m => RMSNorm.forward m
      hidden_states | inr m => LayerNorm.forward m hidden_states end) | None => undefined end) in
  (hidden_states, paged_kv_cache).
End network.
End GLMTransformer.

(** [ChatGLMModel]. *)
Module ChatGLMModel.
Section network.
Context {nn : NN}.
Record t := { embedding : Embedding.t; encoder : GLMTransformer.t; output_layer : Linear.t }.
Definition init (config : settings) (path : string) : result t :=
  let embedding := Embedding.init (path ./ "embedding") config.["vocab_size"] config.["hidden_size"] in
  encoder ← GLMTransformer.init config (path ./ "encoder");
  let output_layer := Linear.init (path ./ "output_layer") config.["hidden_size"] config.["vocab_size"] false None
      None in
  Ok {| embedding := embedding; encoder := encoder; output_layer := output_layer |}.
Definition parameters (self : t) : params :=
  under "embedding" (Embedding.parameters self.(embedding)) ++ under "encoder" (GLMTransformer.parameters
      self.(encoder)) ++ under "output_layer" (Linear.parameters self.(output_layer)).
Definition forward (self : t) (inputs : T) (paged_kv_cache : Cache) : T * Cache :=
  let hidden_states := inputs in
  GLMTransformer.forward self.(encoder) hidden_states paged_kv_cache.
End network.
End ChatGLMModel.

(** [ChatGLMForCausalLM]. *)
Module ChatGLMForCausalLM.
Section network.
Context {nn : NN}.
Record t := { transformer : ChatGLMModel.t; num_hidden_layers : Z; hidden_size : Z; num_attention_heads : Z;
    num_key_value_heads : Z; head_dim : Z; vocab_size : Z; rope_theta : Z; tensor_parallel_shards : Z; dtype : string
    }.
Definition init (config : settings) (path : string) : result t :=
  transformer ← ChatGLMModel.init config (path ./ "transformer");
  let num_hidden_layers := config.["num_layers"] in
  let hidden_size := config.["hidden_size"] in
  let num_attention_heads := config.["num_attention_heads"] in
  let num_key_value_heads := (if config.?["multi_query_attention"] then config.["multi_query_group_num"] else
      config.["num_attention_heads"]) in
  let head_dim := config.["head_dim"] in
  let vocab_size := config.["vocab_size"] in
  let rope_theta := 10000 in
  let tensor_parallel_shards := config.["tensor_parallel_shards"] in
  let dtype := "float32" in
  Ok {| transformer := transformer; num_hidden_layers := num_hidden_layers; hidden_size := hidden_size;
      num_attention_heads := num_attention_heads; num_key_value_heads := num_key_value_heads; head_dim := head_dim;
      vocab_size := vocab_size; rope_theta := rope_theta; tensor_parallel_shards := tensor_parallel_shards; dtype :=
      dtype |}.
Definition parameters (self : t) : params :=
  under "transformer" (ChatGLMModel.parameters self.(transformer)).
Definition batch_forward (self : t) (input_embeds : T) (paged_kv_cache : Cache) (logit_positions : option T) : T *
    Cache :=
  let '(hidden_states, paged_kv_cache) := ChatGLMModel.forward self.(transformer) input_embeds paged_kv_cache in
  let hidden_states :=
    match logit_positions with
    | Some logit_positions =>
        take hidden_states logit_positions 1
    | None => hidden_states
    end in
  let logits := Linear.forward self.(transformer).(ChatGLMModel.output_layer) hidden_states in
  let logits := if negb (bool_decide (dtype_of logits = "float32")) then astype logits "float32" else logits in
  (logits, paged_kv_cache).
Definition embed (self : t) (input_ids : T) : T :=
  let input_ids := if (self.(tensor_parallel_shards) >? 1) then ccl_broadcast_from_worker0 input_ids else input_ids in
  Embedding.forward self.(transformer).(ChatGLMModel.embedding) input_ids.
Definition prefill (self : t) (input_embed : T) (paged_kv_cache : Cache) : T * Cache :=
  let '(hidden_states, paged_kv_cache) := ChatGLMModel.forward self.(transformer) input_embed paged_kv_cache in
  let hidden_states := index_last_token hidden_states in
  let logits := Linear.forward self.(transformer).(ChatGLMModel.output_layer) hidden_states in
  let logits := if negb (bool_decide (dtype_of logits = "float32")) then astype logits "float32" else logits in
  (logits, paged_kv_cache).
Definition decode (self : t) (input_embed : T) (paged_kv_cache : Cache) : T * Cache :=
  let '(hidden_states, paged_kv_cache) := ChatGLMModel.forward self.(transformer) input_embed paged_kv_cache in
  let logits := Linear.forward self.(transformer).(ChatGLMModel.output_layer) hidden_states in
  let logits := if negb (bool_decide (dtype_of logits = "float32")) then astype logits "float32" else logits in
  (logits, paged_kv_cache).
Definition batch_prefill (self : t) (input_embeds : T) (logit_positions : T) (paged_kv_cache : Cache) : T * Cache :=
  let logit_positions := if (self.(tensor_parallel_shards) >? 1) then ccl_broadcast_from_worker0 logit_positions else
      logit_positions in
  batch_forward self input_embeds paged_kv_cache (Some logit_positions).
Definition batch_decode (self : t) (input_embeds : T) (paged_kv_cache : Cache) : T * Cache :=
  batch_forward self input_embeds paged_kv_cache None.
Definition batch_verify (self : t) (input_embeds : T) (paged_kv_cache : Cache) : T * Cache :=
  batch_forward self input_embeds paged_kv_cache None.
Definition create_paged_kv_cache (self : t) (max_batch_size : Z) (max_total_seq_len : Z) (prefill_chunk_size : Z)
    (page_size : Z) (support_sliding_window : Z) : Cache :=
  create_generic (PStr "mha") max_batch_size max_total_seq_len prefill_chunk_size page_size support_sliding_window
      self.(num_hidden_layers) (self.(num_attention_heads) / self.(tensor_parallel_shards))
      (self.(num_key_value_heads) / self.(tensor_parallel_shards)) self.(head_dim) self.(head_dim) "NORMAL" (Num 1)
      (Num self.(rope_theta)) self.(dtype) None PNone PNone None false.
Definition get_default_spec (self : t) : mod_spec := [
  ("embed", packed [("input_ids", STensor [Named "seq_len"] "int32")]);
  ("prefill", packed [("input_embed", STensor [Fixed 1; Named "seq_len"; Fixed self.(hidden_size)] self.(dtype));
      ("paged_kv_cache", SObject)]);
  ("decode", packed [("input_embed", STensor [Fixed 1; Fixed 1; Fixed self.(hidden_size)] self.(dtype));
      ("paged_kv_cache", SObject)]);
  ("batch_prefill", packed [("input_embeds", STensor [Fixed 1; Named "seq_len"; Fixed self.(hidden_size)]
      self.(dtype)); ("logit_positions", STensor [Named "batch_size"] "int32"); ("paged_kv_cache", SObject)]);
  ("batch_decode", packed [("input_embeds", STensor [Named "batch_size"; Fixed 1; Fixed self.(hidden_size)]
      self.(dtype)); ("paged_kv_cache", SObject)]);
  ("batch_verify", packed [("input_embeds", STensor [Fixed 1; Named "seq_len"; Fixed self.(hidden_size)]
      self.(dtype)); ("paged_kv_cache", SObject)]);
  ("create_paged_kv_cache", unpacked [("max_batch_size", SInt); ("max_total_seq_len", SInt); ("prefill_chunk_size",
      SInt); ("page_size", SInt); ("support_sliding_window", SInt)])].
Definition methods (self : t) : list (string * method) := [
  ("embed", Method ["input_ids"] (method_t (embed self)));
  ("prefill", Method ["input_embed"; "paged_kv_cache"] (method_tc (prefill self)));
  ("decode", Method ["input_embed"; "paged_kv_cache"] (method_tc (decode self)));
  ("batch_prefill", Method ["input_embeds"; "logit_positions"; "paged_kv_cache"] (method_ttc (batch_prefill self)));
  ("batch_decode", Method ["input_embeds"; "paged_kv_cache"] (method_tc (batch_decode self)));
  ("batch_verify", Method ["input_embeds"; "paged_kv_cache"] (method_tc (batch_verify self)));
  ("create_paged_kv_cache", Method ["max_batch_size"; "max_total_seq_len"; "prefill_chunk_size"; "page_size";
      "support_sliding_window"] (method_ints (create_paged_kv_cache self)))].
End network.
End ChatGLMForCausalLM.

(** The shapes of its parts. *)
Section ChatGLM_shapes.
Context {nn : NN} {laws : NNLaws nn}.
Lemma GLMAttention_attends config path self :
  ChatGLM_fits config → GLMAttention.init config path = Ok self →
  attends config.["hidden_size"] (ChatGLM_heads config) (GLMAttention.forward self).
Proof. intros Hfits H. pose proof Hfits as (P & Hpost). unfold GLMAttention.init in H. built H. unfold GLMAttention.forward. module_attends. Qed.
#[local] Hint Resolve GLMAttention_attends : modules.
Lemma GLMMLP_maps config path self :
  ChatGLM_fits config → GLMMLP.init config path = Ok self →
  maps_shape config.["hidden_size"] config.["hidden_size"] (GLMMLP.forward self).
Proof. intros Hfits H. pose proof Hfits as (P & Hpost). unfold GLMMLP.init in H. built H. unfold GLMMLP.forward, GLMMLP.swiglu. module_maps. Qed.
#[local] Hint Resolve GLMMLP_maps : modules.
Lemma GLMBlock_attends config path self :
  ChatGLM_fits config → GLMBlock.init config path = Ok self →
  attends config.["hidden_size"] (ChatGLM_heads config) (GLMBlock.forward self).
Proof. intros Hfits H. pose proof Hfits as (P & Hpost). unfold GLMBlock.init in H. built H. unfold GLMBlock.forward, GLMBlock._apply_residual. module_attends. Qed.
#[local] Hint Resolve GLMBlock_attends : modules.
Lemma GLMTransformer_runs config path self :
  ChatGLM_fits config → GLMTransformer.init config path = Ok self →
  runs config.["hidden_size"] (ChatGLM_heads config) (GLMTransformer.forward self).
Proof.
  intros Hfits H. pose proof Hfits as (P & Hpost). unfold GLMTransformer.init in H. rewrite Hpost in H. built H.
  match goal with Hn : (_ ← (if ?b then _ else _); _) = Ok _ |- _ => destruct b; injection Hn as <- end;
    unfold GLMTransformer.forward; match goal with Hl : module_list _ _ _ = Ok _ |- _ => module_runs Hl end.
Qed.
#[local] Hint Resolve GLMTransformer_runs : modules.
Lemma ChatGLMModel_runs config path self :
  ChatGLM_fits config → ChatGLMModel.init config path = Ok self →
  runs config.["hidden_size"] (ChatGLM_heads config) (ChatGLMModel.forward self).
Proof.
  intros Hfits H. pose proof Hfits as (P & Hpost). unfold ChatGLMModel.init in H. built H.
  unfold ChatGLMModel.forward.
  module_runs_inner.
Qed.
#[local] Hint Resolve ChatGLMModel_runs : modules.
Lemma ChatGLMModel_embedding config path self : ChatGLMModel.init config path = Ok self →
  self.(ChatGLMModel.embedding) = Embedding.init (path ./ "embedding") config.["vocab_size"] config.["hidden_size"].
Proof. intros H. unfold ChatGLMModel.init in H. built H. reflexivity. Qed.
Lemma ChatGLMModel_output_layer config path self : ChatGLMModel.init config path = Ok self →
  self.(ChatGLMModel.output_layer) = Linear.init (path ./ "output_layer") config.["hidden_size"] config.["vocab_size"] false None None.
Proof. intros H. unfold ChatGLMModel.init in H. built H. reflexivity. Qed.
Lemma ChatGLMForCausalLM_typed config path self :
  ChatGLM_fits config → ChatGLMForCausalLM.init config path = Ok self →
  well_typed config.["hidden_size"] config.["vocab_size"] (ChatGLM_heads config) (ChatGLMForCausalLM.get_default_spec self) (ChatGLMForCausalLM.methods self).
Proof.
  intros Hfits H. pose proof Hfits as (P & Hpost). unfold ChatGLMForCausalLM.init in H. built H.
  match goal with Hm : ChatGLMModel.init _ _ = Ok _ |- _ => pose proof (ChatGLMModel_embedding _ _ _ Hm) as Hemb_embedding end.
  match goal with Hm : ChatGLMModel.init _ _ = Ok _ |- _ => pose proof (ChatGLMModel_output_layer _ _ _ Hm) as Hemb_output_layer end.
  functions; unfold ChatGLMForCausalLM.create_paged_kv_cache, ChatGLMForCausalLM.batch_verify, ChatGLMForCausalLM.batch_decode, ChatGLMForCausalLM.batch_prefill, ChatGLMForCausalLM.decode, ChatGLMForCausalLM.prefill, ChatGLMForCausalLM.embed, ChatGLMForCausalLM.batch_forward; exported.
Qed.
End ChatGLM_shapes.
End ChatGLM.

(** ** [model/phi3/phi3_model.py] *)

Module Phi3.
(** The layers and heads of the cache [create_paged_kv_cache] makes, and what a configuration must satisfy. *)
Definition Phi3_heads (config : settings) : heads := {|
  n_layers := config.["num_hidden_layers"]; q_heads := (config.["num_attention_heads"] / config.["tensor_parallel_shards"]);
  kv_heads := (config.["num_key_value_heads"] / config.["tensor_parallel_shards"]); head_size := config.["head_dim"]; value_size := config.["head_dim"] |}.
Definition Phi3_fits (config : settings) : Prop :=
  natural config ∧ config.["vocab_size"] = symbolic config "vocab_size".

(** [Phi3Embedding]. *)
Module Phi3Embedding.
Section network.
Context {nn : NN}.
Definition t : Type := Embedding.t.
Definition init : string → Z → Z → t := Embedding.init.
Definition forward : t → T → T := Embedding.forward.
Definition parameters : t → params := Embedding.parameters.
Definition lm_head_forward (self : t) (x : T) : T :=
  let weight := permute_dims self.(Embedding.weight) [] in
  matmul x weight (Some "float32").
End network.
End Phi3Embedding.

(** [Phi3MLP]. *)
Module Phi3MLP.
Section network.
Context {nn : NN}.
Record t := { intermediate_size : Z; gate_up_proj : Linear.t; down_proj : Linear.t }.
Definition init (config : settings) (path : string) : result t :=
  _ ← raise_when (negb (config.["intermediate_size"] mod config.["tensor_parallel_shards"] =? 0)) ValueError
      ("Cannot split MLP intermediate size " +:+ pretty config.["intermediate_size"] +:+ " evenly to " +:+ pretty
      config.["tensor_parallel_shards"] +:+ " GPUs.");
  let intermediate_size := config.["intermediate_size"] / config.["tensor_parallel_shards"] in
  let gate_up_proj := Linear.init (path ./ "gate_up_proj") config.["hidden_size"] (2 * intermediate_size) false None
      None in
  let down_proj := Linear.init (path ./ "down_proj") intermediate_size config.["hidden_size"] false None None in
  Ok {| intermediate_size := intermediate_size; gate_up_proj := gate_up_proj; down_proj := down_proj |}.
Definition parameters (self : t) : params :=
  under "gate_up_proj" (Linear.parameters self.(gate_up_proj)) ++ under "down_proj" (Linear.parameters
      self.(down_proj)).
Definition forward (self : t) (hidden_states : T) : T :=
  let up_states := Linear.forward self.(gate_up_proj) hidden_states in
  let '(gate, up_states) := split2 up_states (-1) in
  let up_states := up_states ⊗ (activate Silu gate) in
  Linear.forward self.(down_proj) up_states.
End network.
End Phi3MLP.

(** [PhiMHA]. *)
Module PhiMHA.
Section network.
Context {nn : NN}.
Record t := { num_q_heads : Z; num_key_value_heads : Z; head_dim : Z; qkv_proj : Linear.t; out_proj : Linear.t }.
Definition init (config : settings) (path : string) : result t :=
  let num_q_heads := config.["num_attention_heads"] / config.["tensor_parallel_shards"] in
  _ ← py_assert (config.["num_attention_heads"] mod config.["tensor_parallel_shards"] =? 0) ("num_attention_heads("
      +:+ pretty config.["num_attention_heads"] +:+ ") must be divisible by tensor_parallel_shards");
  let num_key_value_heads := config.["num_key_value_heads"] / config.["tensor_parallel_shards"] in
  _ ← py_assert (config.["num_key_value_heads"] mod config.["tensor_parallel_shards"] =? 0) ("num_attention_heads("
      +:+ pretty config.["num_key_value_heads"] +:+ ") must be divisible by tensor_parallel_shards");
  let head_dim := config.["head_dim"] in
  let qkv_proj := Linear.init (path ./ "qkv_proj") config.["hidden_size"] ((num_q_heads + (2 * num_key_value_heads))
      * head_dim) false None None in
  let out_proj := Linear.init (path ./ "out_proj") (num_q_heads * head_dim) config.["hidden_size"] false None None in
  Ok {| num_q_heads := num_q_heads; num_key_value_heads := num_key_value_heads; head_dim := head_dim; qkv_proj :=
      qkv_proj; out_proj := out_proj |}.
Definition parameters (self : t) : params :=
  under "qkv_proj" (Linear.parameters self.(qkv_proj)) ++ under "out_proj" (Linear.parameters self.(out_proj)).
Definition forward (self : t) (hidden_states : T) (paged_kv_cache : Cache) (layer_id : Z) : T * Cache :=
  let d := self.(head_dim) in let h_q := self.(num_q_heads) in let h_kv := self.(num_key_value_heads) in
  let '(b, s, _) := dims3 hidden_states in
  let qkv := Linear.forward self.(qkv_proj) hidden_states in
  let qkv := reshape qkv [b; s; (h_q + h_kv) + h_kv; d] in
  let '(attn_output, paged_kv_cache) := attention_with_fused_qkv paged_kv_cache layer_id qkv self.(num_q_heads) (Pow
      (Num self.(head_dim)) (Lit "-0.5")) in
  let output := reshape attn_output [b; s; h_q * d] in
  (Linear.forward self.(out_proj) output, paged_kv_cache).
End network.
End PhiMHA.

(** [Phi3ParallelBlock]. *)
Module Phi3ParallelBlock.
Section network.
Context {nn : NN}.
Record t := { ln : RMSNorm.t; mixer : PhiMHA.t; mlp : Phi3MLP.t; post_attention_layernorm : RMSNorm.t;
    tensor_parallel_shards : Z }.
Definition init (config : settings) (path : string) : result t :=
  let ln := RMSNorm.init (path ./ "ln") config.["hidden_size"] (-1) (Val (val_of config "rms_norm_eps")) false in
  mixer ← PhiMHA.init config (path ./ "mixer");
  mlp ← Phi3MLP.init config (path ./ "mlp");
  let post_attention_layernorm := RMSNorm.init (path ./ "post_attention_layernorm") config.["hidden_size"] (-1) (Val
      (val_of config "rms_norm_eps")) false in
  let tensor_parallel_shards := config.["tensor_parallel_shards"] in
  Ok {| ln := ln; mixer := mixer; mlp := mlp; post_attention_layernorm := post_attention_layernorm;
      tensor_parallel_shards := tensor_parallel_shards |}.
Definition parameters (self : t) : params :=
  under "ln" (RMSNorm.parameters self.(ln)) ++ under "mixer" (PhiMHA.parameters self.(mixer)) ++ under "mlp"
      (Phi3MLP.parameters self.(mlp)) ++ under "post_attention_layernorm" (RMSNorm.parameters
      self.(post_attention_layernorm)).
Definition set_tp (config : settings) (self : t) : list (string * ShardSingleDim) :=
  let hd := config.["head_dim"] in
  let q := self.(mixer).(PhiMHA.num_q_heads) * hd in
  let k := self.(mixer).(PhiMHA.num_key_value_heads) * hd in
  let v := self.(mixer).(PhiMHA.num_key_value_heads) * hd in
  let i := self.(mlp).(Phi3MLP.intermediate_size) in
  [("mixer.qkv_proj.weight", {| shard_name := "_shard_qkv"; shard_dim := 0; segs := Some [q; k; v] |});
   ("mixer.out_proj.weight", {| shard_name := "_shard_o"; shard_dim := 1; segs := None |});
   ("mlp.gate_up_proj.weight", {| shard_name := "_shard_mlp_up"; shard_dim := 0; segs := Some [i; i] |});
   ("mlp.down_proj.weight", {| shard_name := "_shard_mlp_down"; shard_dim := 1; segs := None |})].
Definition _apply_parallel_residual (self : t) (mlp_out : T) (residual : T) : T :=
  if (self.(tensor_parallel_shards) >? 1) then
    ccl_allreduce (mlp_out ⊕ (residual ⊘' (Num self.(tensor_parallel_shards)))) "sum"
  else
    mlp_out ⊕ residual.
Definition forward (self : t) (hidden_states : T) (paged_kv_cache : Cache) (layer_id : Z) : T * Cache :=
  let '(attn_outputs, paged_kv_cache) := PhiMHA.forward self.(mixer) (RMSNorm.forward self.(ln) hidden_states)
      paged_kv_cache layer_id in
  let hidden_states := _apply_parallel_residual self attn_outputs hidden_states in
  let out := Phi3MLP.forward self.(mlp) (RMSNorm.forward self.(post_attention_layernorm) hidden_states) in
  let hidden_states := _apply_parallel_residual self out hidden_states in
  (hidden_states, paged_kv_cache).
End network.
End Phi3ParallelBlock.

(** [Phi3Model]. *)
Module Phi3Model.
Section network.
Context {nn : NN}.
Record t := { embd : Phi3Embedding.t; h : list Phi3ParallelBlock.t; norm : RMSNorm.t }.
Definition init (config : settings) (path : string) : result t :=
  let embd := Phi3Embedding.init (path ./ "embd") config.["vocab_size"] config.["hidden_size"] in
  h ← module_list (path ./ "h") config.["num_hidden_layers"] (λ _ path, Phi3ParallelBlock.init config path);
  let norm := RMSNorm.init (path ./ "norm") config.["hidden_size"] (-1) (Val (val_of config "rms_norm_eps")) false in
  Ok {| embd := embd; h := h; norm := norm |}.
Definition parameters (self : t) : params :=
  under "embd" (Phi3Embedding.parameters self.(embd)) ++ list_params "h" Phi3ParallelBlock.parameters self.(h) ++
      under "norm" (RMSNorm.parameters self.(norm)).
Definition forward (self : t) (input_embed : T) (paged_kv_cache : Cache) : T * Cache :=
  let hidden_states := input_embed in
  let '(hidden_states, paged_kv_cache) :=
    for_layers self.(h) (λ layer_id layer '(hidden_states, paged_kv_cache),
      Phi3ParallelBlock.forward layer hidden_states paged_kv_cache layer_id) (hidden_states, paged_kv_cache) in
  let hidden_states := RMSNorm.forward self.(norm) hidden_states in
  (hidden_states, paged_kv_cache).
End network.
End Phi3Model.

(** [Phi3ForCausalLM]. *)
Module Phi3ForCausalLM.
Section network.
Context {nn : NN}.
Record t := { transformer : Phi3Model.t; tie_word_embeddings : bool; lm_head : option Linear.t; num_hidden_layers :
    Z; num_attention_heads : Z; num_key_value_heads : Z; head_dim : Z; hidden_size : Z; vocab_size : Z; rope_scaling
    : pyval; rope_theta : Z; rope_ext_factors : pyval; tensor_parallel_shards : Z; partial_rotary_factor : number;
    dtype : string }.
Definition init (config : settings) (path : string) : result t :=
  transformer ← Phi3Model.init config (path ./ "transformer");
  let tie_word_embeddings := config.?["tie_word_embeddings"] in
  let lm_head := if negb config.?["tie_word_embeddings"] then Some (Linear.init (path ./ "lm_head")
      config.["hidden_size"] (symbolic config "vocab_size") false None None) else None in
  let num_hidden_layers := config.["num_hidden_layers"] in
  let num_attention_heads := config.["num_attention_heads"] in
  let num_key_value_heads := config.["num_key_value_heads"] in
  let head_dim := config.["head_dim"] in
  let hidden_size := config.["hidden_size"] in
  let vocab_size := config.["vocab_size"] in
  let rope_scaling := val_of config "rope_scaling" in
  let rope_theta := config.["position_embedding_base"] in
  rope_ext_factors ← match val_of config "rope_scaling" with | PNone => Ok PNone | rope_scaling => long ← get_key
      "long_factor" (val_entries rope_scaling); short ← get_key "short_factor" (val_entries rope_scaling); Ok
      (val_append long short) end;
  let tensor_parallel_shards := config.["tensor_parallel_shards"] in
  let partial_rotary_factor := (Val (val_of config "partial_rotary_factor")) in
  let dtype := "float32" in
  Ok {| transformer := transformer; tie_word_embeddings := tie_word_embeddings; lm_head := lm_head; num_hidden_layers
      := num_hidden_layers; num_attention_heads := num_attention_heads; num_key_value_heads := num_key_value_heads;
      head_dim := head_dim; hidden_size := hidden_size; vocab_size := vocab_size; rope_scaling := rope_scaling;
      rope_theta := rope_theta; rope_ext_factors := rope_ext_factors; tensor_parallel_shards :=
      tensor_parallel_shards; partial_rotary_factor := partial_rotary_factor; dtype := dtype |}.
Definition parameters (self : t) : params :=
  under "transformer" (Phi3Model.parameters self.(transformer)) ++ under "lm_head" (match self.(lm_head) with Some m
      => Linear.parameters m | None => [] end).
Definition get_logits (self : t) (hidden_states : T) : T :=
  let logits := if self.(tie_word_embeddings) then Phi3Embedding.lm_head_forward self.(transformer).(Phi3Model.embd)
      hidden_states else (match self.(lm_head) with Some m => Linear.forward m hidden_states | None => undefined end)
      in
  if negb (bool_decide (dtype_of logits = "float32")) then astype logits "float32" else logits.
Definition batch_forward (self : t) (input_embeds : T) (paged_kv_cache : Cache) (logit_positions : option T) : T *
    Cache :=
  let '(hidden_states, paged_kv_cache) := Phi3Model.forward self.(transformer) input_embeds paged_kv_cache in
  let hidden_states :=
    match logit_positions with
    | Some logit_positions =>
        take hidden_states logit_positions 1
    | None => hidden_states
    end in
  (get_logits self hidden_states, paged_kv_cache).
Definition prefill (self : t) (input_embed : T) (paged_kv_cache : Cache) : T * Cache :=
  let '(hidden_states, paged_kv_cache) := Phi3Model.forward self.(transformer) input_embed paged_kv_cache in
  let hidden_states := index_last_token hidden_states in
  let logits := get_logits self hidden_states in
  (logits, paged_kv_cache).
Definition decode (self : t) (input_embed : T) (paged_kv_cache : Cache) : T * Cache :=
  let '(hidden_states, paged_kv_cache) := Phi3Model.forward self.(transformer) input_embed paged_kv_cache in
  let logits := get_logits self hidden_states in
  (logits, paged_kv_cache).
Definition batch_prefill (self : t) (input_embeds : T) (logit_positions : T) (paged_kv_cache : Cache) : T * Cache :=
  let logit_positions := if (self.(tensor_parallel_shards) >? 1) then ccl_broadcast_from_worker0 logit_positions else
      logit_positions in
  batch_forward self input_embeds paged_kv_cache (Some logit_positions).
Definition batch_decode (self : t) (input_embeds : T) (paged_kv_cache : Cache) : T * Cache :=
  batch_forward self input_embeds paged_kv_cache None.
Definition batch_verify (self : t) (input_embeds : T) (paged_kv_cache : Cache) : T * Cache :=
  batch_forward self input_embeds paged_kv_cache None.
Definition embed (self : t) (input_ids : T) : T :=
  let input_ids := if (self.(tensor_parallel_shards) >? 1) then ccl_broadcast_from_worker0 input_ids else input_ids in
  Phi3Embedding.forward self.(transformer).(Phi3Model.embd) input_ids.
Definition create_paged_kv_cache (self : t) (max_batch_size : Z) (max_total_seq_len : Z) (prefill_chunk_size : Z)
    (page_size : Z) (support_sliding_window : Z) : Cache :=
  create_generic (PStr "mha") max_batch_size max_total_seq_len prefill_chunk_size page_size support_sliding_window
      self.(num_hidden_layers) (self.(num_attention_heads) / self.(tensor_parallel_shards))
      (self.(num_key_value_heads) / self.(tensor_parallel_shards)) self.(head_dim) self.(head_dim) "NORMAL" (Num 1)
      (Num self.(rope_theta)) self.(dtype) (Some (int_of_number (Times (Num self.(head_dim))
      self.(partial_rotary_factor)))) self.(rope_scaling) self.(rope_ext_factors) None false.
Definition get_default_spec (self : t) : mod_spec := [
  ("embed", packed [("input_ids", STensor [Named "seq_len"] "int32")]);
  ("prefill", packed [("input_embed", STensor [Fixed 1; Named "seq_len"; Fixed self.(hidden_size)] self.(dtype));
      ("paged_kv_cache", SObject)]);
  ("decode", packed [("input_embed", STensor [Fixed 1; Fixed 1; Fixed self.(hidden_size)] self.(dtype));
      ("paged_kv_cache", SObject)]);
  ("batch_prefill", packed [("input_embeds", STensor [Fixed 1; Named "seq_len"; Fixed self.(hidden_size)]
      self.(dtype)); ("logit_positions", STensor [Named "batch_size"] "int32"); ("paged_kv_cache", SObject)]);
  ("batch_decode", packed [("input_embeds", STensor [Named "batch_size"; Fixed 1; Fixed self.(hidden_size)]
      self.(dtype)); ("paged_kv_cache", SObject)]);
  ("batch_verify", packed [("input_embeds", STensor [Fixed 1; Named "seq_len"; Fixed self.(hidden_size)]
      self.(dtype)); ("paged_kv_cache", SObject)]);
  ("create_paged_kv_cache", unpacked [("max_batch_size", SInt); ("max_total_seq_len", SInt); ("prefill_chunk_size",
      SInt); ("page_size", SInt); ("support_sliding_window", SInt)])].
Definition methods (self : t) : list (string * method) := [
  ("embed", Method ["input_ids"] (method_t (embed self)));
  ("prefill", Method ["input_embed"; "paged_kv_cache"] (method_tc (prefill self)));
  ("decode", Method ["input_embed"; "paged_kv_cache"] (method_tc (decode self)));
  ("batch_prefill", Method ["input_embeds"; "logit_positions"; "paged_kv_cache"] (method_ttc (batch_prefill self)));
  ("batch_decode", Method ["input_embeds"; "paged_kv_cache"] (method_tc (batch_decode self)));
  ("batch_verify", Method ["input_embeds"; "paged_kv_cache"] (method_tc (batch_verify self)));
  ("create_paged_kv_cache", Method ["max_batch_size"; "max_total_seq_len"; "prefill_chunk_size"; "page_size";
      "support_sliding_window"] (method_ints (create_paged_kv_cache self)))].
End network.
End Phi3ForCausalLM.

(** The shapes of its parts. *)
Section Phi3_shapes.
Context {nn : NN} {laws : NNLaws nn}.
Lemma Phi3MLP_maps config path self :
  Phi3_fits config → Phi3MLP.init config path = Ok self →
  maps_shape config.["hidden_size"] config.["hidden_size"] (Phi3MLP.forward self).
Proof. intros Hfits H. pose proof Hfits as (P & Hvocab). unfold Phi3MLP.init in H. built H. unfold Phi3MLP.forward. module_maps. Qed.
#[local] Hint Resolve Phi3MLP_maps : modules.
Lemma Phi3MHA_attends config path self :
  Phi3_fits config → PhiMHA.init config path = Ok self →
  attends config.["hidden_size"] (Phi3_heads config) (PhiMHA.forward self).
Proof. intros Hfits H. pose proof Hfits as (P & Hvocab). unfold PhiMHA.init in H. built H. unfold PhiMHA.forward. module_attends. Qed.
#[local] Hint Resolve Phi3MHA_attends : modules.
Lemma Phi3ParallelBlock_attends config path self :
  Phi3_fits config → Phi3ParallelBlock.init config path = Ok self →
  attends config.["hidden_size"] (Phi3_heads config) (Phi3ParallelBlock.forward self).
Proof. intros Hfits H. pose proof Hfits as (P & Hvocab). unfold Phi3ParallelBlock.init in H. built H. unfold Phi3ParallelBlock.forward, Phi3ParallelBlock._apply_parallel_residual. module_attends. Qed.
#[local] Hint Resolve Phi3ParallelBlock_attends : modules.
Lemma Phi3Model_runs config path self :
  Phi3_fits config → Phi3Model.init config path = Ok self →
  runs config.["hidden_size"] (Phi3_heads config) (Phi3Model.forward self).
Proof.
  intros Hfits H. pose proof Hfits as (P & Hvocab). unfold Phi3Model.init in H. built H.
  unfold Phi3Model.forward.
  match goal with Hl : module_list _ _ _ = Ok _ |- _ => module_runs Hl end.
Qed.
#[local] Hint Resolve Phi3Model_runs : modules.
Lemma Phi3Model_embd config path self : Phi3Model.init config path = Ok self →
  self.(Phi3Model.embd) = Embedding.init (path ./ "embd") config.["vocab_size"] config.["hidden_size"].
Proof. intros H. unfold Phi3Model.init in H. built H. reflexivity. Qed.
Lemma Phi3ForCausalLM_typed config path self :
  Phi3_fits config → Phi3ForCausalLM.init config path = Ok self →
  well_typed config.["hidden_size"] (symbolic config "vocab_size") (Phi3_heads config) (Phi3ForCausalLM.get_default_spec self) (Phi3ForCausalLM.methods self).
Proof.
  intros Hfits H. pose proof Hfits as (P & Hvocab). unfold Phi3ForCausalLM.init in H. built H.
  match goal with Hm : Phi3Model.init _ _ = Ok _ |- _ => pose proof (Phi3Model_embd _ _ _ Hm) as Hemb_embd end.
  functions; unfold Phi3ForCausalLM.create_paged_kv_cache, Phi3ForCausalLM.embed, Phi3ForCausalLM.batch_verify, Phi3ForCausalLM.batch_decode, Phi3ForCausalLM.batch_prefill, Phi3ForCausalLM.decode, Phi3ForCausalLM.prefill, Phi3ForCausalLM.batch_forward, Phi3ForCausalLM.get_logits, Phi3Embedding.forward, Phi3Embedding.init, Phi3Embedding.lm_head_forward; exported.
Qed.
End Phi3_shapes.
End Phi3.
