(* ===== verification/NetsGPT.v ===== *)
(** The networks of [model/]: the networks of the GPT-2 kind, with biases and layer norms. Each class is a module with its record, [init], the
    parameters it has, the methods of the source, and for the exported class the specification
    [get_default_spec] and the table of its methods; after a network come the shapes of its parts. *)

From Stdlib Require Import Lia ZArith.
From stdpp Require Import base gmap strings list list_numbers numbers pretty.
From S2P Require Import Prelude PyString PyObject Kernel Config Sharding Network Shapes.
Open Scope Z_scope.

(** ** [model/gpt2/gpt2_model.py] *)

Module GPT2.
(** The layers and heads of the cache [create_paged_kv_cache] makes. *)
Definition GPT2_heads (config : settings) : heads := {|
  n_layers := config.["n_layer"]; q_heads := (config.["n_head"] / config.["tensor_parallel_shards"]);
  kv_heads := (config.["n_head"] / config.["tensor_parallel_shards"]); head_size := config.["head_dim"]; value_size := config.["head_dim"] |}.

(** [GPT2Attention]. *)
Module GPT2Attention.
Section network.
Context {nn : NN}.
Record t := { embed_dim : Z; num_heads : Z; head_dim : Z; scale_attn_by_inverse_layer_idx : bool; c_attn : Linear.t;
    c_proj : Linear.t }.
Definition init (config : settings) (path : string) : result t :=
  let embed_dim := config.["n_embd"] in
  _ ← raise_when (negb (config.["n_head"] mod config.["tensor_parallel_shards"] =? 0)) ValueError ("Cannot split "
      +:+ pretty config.["n_head"] +:+ " attention heads evenly to " +:+ pretty config.["tensor_parallel_shards"] +:+
      " GPUs.");
  let num_heads := config.["n_head"] / config.["tensor_parallel_shards"] in
  let head_dim := config.["head_dim"] in
  let scale_attn_by_inverse_layer_idx := config.?["scale_attn_by_inverse_layer_idx"] in
  let c_attn := Linear.init (path ./ "c_attn") embed_dim ((3 * num_heads) * head_dim) true None None in
  let c_proj := Linear.init (path ./ "c_proj") (num_heads * head_dim) embed_dim true None None in
  Ok {| embed_dim := embed_dim; num_heads := num_heads; head_dim := head_dim; scale_attn_by_inverse_layer_idx :=
      scale_attn_by_inverse_layer_idx; c_attn := c_attn; c_proj := c_proj |}.
Definition parameters (self : t) : params :=
  under "c_attn" (Linear.parameters self.(c_attn)) ++ under "c_proj" (Linear.parameters self.(c_proj)).
Definition forward (self : t) (hidden_states : T) (paged_kv_cache : Cache) (layer_id : Z) : T * Cache :=
  let d := self.(head_dim) in let h := self.(num_heads) in
  let '(b, s, _) := dims3 hidden_states in
  let qkv := Linear.forward self.(c_attn) hidden_states in
  let qkv := reshape qkv [b; s; 3 * h; d] in
  let attn_score_scaling_factor := if self.(scale_attn_by_inverse_layer_idx) then (Over (Lit "1.0") (Num (layer_id +
      1))) else (Lit "1.0") in
  let '(attn_output, paged_kv_cache) := attention_with_fused_qkv paged_kv_cache layer_id qkv self.(num_heads) (Times
      attn_score_scaling_factor (Pow (Num self.(head_dim)) (Lit "-0.5"))) in
  let output := reshape attn_output [b; s; h * d] in
  (Linear.forward self.(c_proj) output, paged_kv_cache).
Definition with_c_proj (self : t) (x : Linear.t) : t := {| embed_dim := self.(embed_dim); num_heads :=
    self.(num_heads); head_dim := self.(head_dim); scale_attn_by_inverse_layer_idx :=
    self.(scale_attn_by_inverse_layer_idx); c_attn := self.(c_attn); c_proj := x |}.
End network.
End GPT2Attention.

(** [GPT2MLP]. *)
Module GPT2MLP.
Section network.
Context {nn : NN}.
Record t := { c_fc : Linear.t; c_proj : Linear.t }.
Definition init (config : settings) (path : string) : result t :=
  let embed_dim := config.["n_embd"] in
  _ ← raise_when (negb (config.["n_inner"] mod config.["tensor_parallel_shards"] =? 0)) ValueError
      ("Cannot split MLP intermediate size " +:+ pretty config.["n_inner"] +:+ " evenly to " +:+ pretty
      config.["tensor_parallel_shards"] +:+ " GPUs.");
  let intermediate_size := config.["n_inner"] / config.["tensor_parallel_shards"] in
  let c_fc := Linear.init (path ./ "c_fc") embed_dim intermediate_size true None None in
  let c_proj := Linear.init (path ./ "c_proj") intermediate_size embed_dim true None None in
  Ok {| c_fc := c_fc; c_proj := c_proj |}.
Definition parameters (self : t) : params :=
  under "c_fc" (Linear.parameters self.(c_fc)) ++ under "c_proj" (Linear.parameters self.(c_proj)).
Definition forward (self : t) (hidden_states : T) : T :=
  let hidden_states := Linear.forward self.(c_fc) hidden_states in
  let hidden_states := activate (Gelu (PStr "tanh")) hidden_states in
  Linear.forward self.(c_proj) hidden_states.
Definition with_c_proj (self : t) (x : Linear.t) : t := {| c_fc := self.(c_fc); c_proj := x |}.
End network.
End GPT2MLP.

(** [GPT2Block]. *)
Module GPT2Block.
Section network.
Context {nn : NN}.
Record t := { ln_1 : LayerNorm.t; attn : GPT2Attention.t; ln_2 : LayerNorm.t; mlp : GPT2MLP.t; tensor_parallel_shards
    : Z }.
Definition init (config : settings) (path : string) : result t :=
  let hidden_size := config.["n_embd"] in
  let ln_1 := LayerNorm.init (path ./ "ln_1") hidden_size (Val (val_of config "layer_norm_epsilon")) true in
  attn ← GPT2Attention.init config (path ./ "attn");
  let ln_2 := LayerNorm.init (path ./ "ln_2") hidden_size (Val (val_of config "layer_norm_epsilon")) true in
  mlp ← GPT2MLP.init config (path ./ "mlp");
  let tensor_parallel_shards := config.["tensor_parallel_shards"] in
  Ok {| ln_1 := ln_1; attn := attn; ln_2 := ln_2; mlp := mlp; tensor_parallel_shards := tensor_parallel_shards |}.
Definition parameters (self : t) : params :=
  under "ln_1" (LayerNorm.parameters self.(ln_1)) ++ under "attn" (GPT2Attention.parameters self.(attn)) ++ under
      "ln_2" (LayerNorm.parameters self.(ln_2)) ++ under "mlp" (GPT2MLP.parameters self.(mlp)).
Definition set_tp (config : settings) (self : t) : list (string * ShardSingleDim) :=
  let hd := config.["head_dim"] in
  let v := self.(attn).(GPT2Attention.num_heads) * hd in
  let k := v in
  let q := k in
  [("attn.c_attn.weight", {| shard_name := "_shard_qkv_weight"; shard_dim := 0; segs := Some [q; k; v] |});
   ("attn.c_attn.bias", {| shard_name := "_shard_qkv_bias"; shard_dim := 0; segs := Some [q; k; v] |});
   ("attn.c_proj.weight", {| shard_name := "_shard_attn_c_proj"; shard_dim := 1; segs := None |});
   ("mlp.c_fc.weight", {| shard_name := "_shard_c_fc_weight"; shard_dim := 0; segs := None |});
   ("mlp.c_fc.bias", {| shard_name := "_shard_c_fc_bias"; shard_dim := 0; segs := None |});
   ("mlp.c_proj.weight", {| shard_name := "_shard_mlp_c_proj"; shard_dim := 1; segs := None |})].
Definition _apply_residual (self : t) (out : T) (residual : T) : T :=
  if (self.(tensor_parallel_shards) >? 1) then
    ccl_allreduce (out ⊕ (residual ⊘' (Num self.(tensor_parallel_shards)))) "sum"
  else
    out ⊕ residual.
Definition forward (self : t) (hidden_states : T) (paged_kv_cache : Cache) (layer_id : Z) : T * Cache :=
  let attn := GPT2Attention.with_c_proj self.(attn) (shard_bias self.(attn).(GPT2Attention.c_proj)
      self.(tensor_parallel_shards)) in
  let mlp := GPT2MLP.with_c_proj self.(mlp) (shard_bias self.(mlp).(GPT2MLP.c_proj) self.(tensor_parallel_shards)) in
  let '(hidden_states, paged_kv_cache) := GPT2Attention.forward attn (LayerNorm.forward self.(ln_1) hidden_states)
      paged_kv_cache layer_id in
  let hidden_states := _apply_residual self hidden_states hidden_states in
  let hidden_states := _apply_residual self (GPT2MLP.forward mlp (LayerNorm.forward self.(ln_2) hidden_states))
      hidden_states in
  (hidden_states, paged_kv_cache).
End network.
End GPT2Block.

(** [GPT2Model]. *)
Module GPT2Model.
Section network.
Context {nn : NN}.
Record t := { wte : Embedding.t; wpe : Embedding.t; h : list GPT2Block.t; ln_f : LayerNorm.t }.
Definition init (config : settings) (path : string) : result t :=
  _ ← py_assert (config.["n_embd"] mod config.["n_head"] =? 0) "";
  let wte := Embedding.init (path ./ "wte") (symbolic config "vocab_size") config.["n_embd"] in
  let wpe := Embedding.init (path ./ "wpe") config.["context_window_size"] config.["n_embd"] in
  h ← module_list (path ./ "h") config.["n_layer"] (λ _ path, GPT2Block.init config path);
  let ln_f := LayerNorm.init (path ./ "ln_f") config.["n_embd"] (Val (val_of config "layer_norm_epsilon")) true in
  Ok {| wte := wte; wpe := wpe; h := h; ln_f := ln_f |}.
Definition parameters (self : t) : params :=
  under "wte" (Embedding.parameters self.(wte)) ++ under "wpe" (Embedding.parameters self.(wpe)) ++ list_params "h"
      GPT2Block.parameters self.(h) ++ under "ln_f" (LayerNorm.parameters self.(ln_f)).
Definition forward (self : t) (inputs : T) (paged_kv_cache : Cache) : T * Cache :=
  let input_positions := get_query_positions paged_kv_cache (dim inputs 1) in
  let pos_embd := Embedding.forward self.(wpe) input_positions in
  let hidden_states := inputs ⊕ pos_embd in
  let '(hidden_states, paged_kv_cache) :=
    for_layers self.(h) (λ layer_id layer '(hidden_states, paged_kv_cache),
      GPT2Block.forward layer hidden_states paged_kv_cache layer_id) (hidden_states, paged_kv_cache) in
  let hidden_states := LayerNorm.forward self.(ln_f) hidden_states in
  (hidden_states, paged_kv_cache).
End network.
End GPT2Model.

(** [GPT2LMHeadModel]. *)
Module GPT2LMHeadModel.
Section network.
Context {nn : NN}.
Record t := { transformer : GPT2Model.t; lm_head : Linear.t; n_layer : Z; n_embed : Z; n_head : Z; head_dim : Z;
    tensor_parallel_shards : Z; dtype : string }.
Definition init (config : settings) (path : string) : result t :=
  transformer ← GPT2Model.init config (path ./ "transformer");
  let lm_head := Linear.init (path ./ "lm_head") config.["n_embd"] (symbolic config "vocab_size") false None None in
  let n_layer := config.["n_layer"] in
  let n_embed := config.["n_embd"] in
  let n_head := config.["n_head"] in
  let head_dim := config.["head_dim"] in
  let tensor_parallel_shards := config.["tensor_parallel_shards"] in
  let dtype := "float32" in
  Ok {| transformer := transformer; lm_head := lm_head; n_layer := n_layer; n_embed := n_embed; n_head := n_head;
      head_dim := head_dim; tensor_parallel_shards := tensor_parallel_shards; dtype := dtype |}.
Definition parameters (self : t) : params :=
  under "transformer" (GPT2Model.parameters self.(transformer)) ++ under "lm_head" (Linear.parameters self.(lm_head)).
Definition batch_forward (self : t) (input_embeds : T) (paged_kv_cache : Cache) (logit_positions : option T) : T *
    Cache :=
  let '(hidden_states, paged_kv_cache) := GPT2Model.forward self.(transformer) input_embeds paged_kv_cache in
  let hidden_states :=
    match logit_positions with
    | Some logit_positions =>
        take hidden_states logit_positions 1
    | None => hidden_states
    end in
  let logits := Linear.forward self.(lm_head) hidden_states in
  let logits := if negb (bool_decide (dtype_of logits = "float32")) then astype logits "float32" else logits in
  (logits, paged_kv_cache).
Definition embed (self : t) (input_ids : T) : T :=
  let input_ids := if (self.(tensor_parallel_shards) >? 1) then ccl_broadcast_from_worker0 input_ids else input_ids in
  Embedding.forward self.(transformer).(GPT2Model.wte) input_ids.
Definition prefill (self : t) (input_embed : T) (paged_kv_cache : Cache) : T * Cache :=
  let '(hidden_states, paged_kv_cache) := GPT2Model.forward self.(transformer) input_embed paged_kv_cache in
  let hidden_states := index_last_token hidden_states in
  let logits := Linear.forward self.(lm_head) hidden_states in
  let logits := if negb (bool_decide (dtype_of logits = "float32")) then astype logits "float32" else logits in
  (logits, paged_kv_cache).
Definition decode (self : t) (input_embed : T) (paged_kv_cache : Cache) : T * Cache :=
  let '(hidden_states, paged_kv_cache) := GPT2Model.forward self.(transformer) input_embed paged_kv_cache in
  let logits := Linear.forward self.(lm_head) hidden_states in
  let logits := if negb (bool_decide (dtype_of logits = "float32")) then astype logits "float32" else logits in
  (logits, paged_kv_cache).
Definition batch_prefill (self : t) (input_embeds : T) (logit_positions : T) (paged_kv_cache : Cache) : T * Cache :=
  let logit_positions := if (self.(tensor_parallel_shards) >? 1) then ccl_broadcast_from_worker0 logit_positions else
      logit_positions in
  batch_forward self input_embeds paged_kv_cache (Some logit_positions).
Definition batch_decode (self : t) (input_embeds : T) (paged_kv_cache : Cache) : T * Cache :=
  batch_forward self input_embeds paged_kv_cache None.
Definition batch_verify (self : t) (input_embeds : T) (paged_kv_cache : Cache) : T * Cache :=
  batch_forward self input_embeds paged_kv_cache None.
Definition create_paged_kv_cache (self : t) (max_batch_size : Z) (max_total_seq_len : Z) (prefill_chunk_size : Z)
    (page_size : Z) (support_sliding_window : Z) : Cache :=
  create_generic (PStr "mha") max_batch_size max_total_seq_len prefill_chunk_size page_size support_sliding_window
      self.(n_layer) (self.(n_head) / self.(tensor_parallel_shards)) (self.(n_head) / self.(tensor_parallel_shards))
      self.(head_dim) self.(head_dim) "NONE" (Num (-1)) (Num (-1)) self.(dtype) None PNone PNone None false.
Definition get_default_spec (self : t) : mod_spec := [
  ("embed", packed [("input_ids", STensor [Named "seq_len"] "int32")]);
  ("prefill", packed [("input_embed", STensor [Fixed 1; Named "seq_len"; Fixed self.(n_embed)] self.(dtype));
      ("paged_kv_cache", SObject)]);
  ("decode", packed [("input_embed", STensor [Fixed 1; Fixed 1; Fixed self.(n_embed)] self.(dtype));
      ("paged_kv_cache", SObject)]);
  ("batch_prefill", packed [("input_embeds", STensor [Fixed 1; Named "seq_len"; Fixed self.(n_embed)] self.(dtype));
      ("logit_positions", STensor [Named "batch_size"] "int32"); ("paged_kv_cache", SObject)]);
  ("batch_decode", packed [("input_embeds", STensor [Named "batch_size"; Fixed 1; Fixed self.(n_embed)]
      self.(dtype)); ("paged_kv_cache", SObject)]);
  ("batch_verify", packed [("input_embeds", STensor [Fixed 1; Named "seq_len"; Fixed self.(n_embed)] self.(dtype));
      ("paged_kv_cache", SObject)]);
  ("create_paged_kv_cache", unpacked [("max_batch_size", SInt); ("max_total_seq_len", SInt); ("prefill_chunk_size",
      SInt); ("page_size", SInt); ("support_sliding_window", SInt)])].
Definition methods (self : t) : list (string * method) := [
  ("embed", Method ["input_ids"] (method_t (embed self)));
  ("prefill", Method ["input_embed"; "paged_kv_cache"] (method_tc (prefill self)));
  ("decode", Method ["input_embed"; "paged_kv_cache"] (method_tc (decode self)));
  ("batch_prefill", Method ["input_embeds"; "logit_positions"; "paged_kv_cache"] (method_ttc (batch_prefill self)));
  ("batch_decode", Method ["input_embeds"; "paged_kv_cache"] (method_tc (batch_decode self)));
  ("batch_verify", Method ["input_embeds"; "paged_kv_cache"] (method_tc (batch_verify self)));
  ("create_paged_kv_cache", Method ["max_batch_size"; "max_total_seq_len"; "prefill_chunk_size"; "page_size";
      "support_sliding_window"] (method_ints (create_paged_kv_cache self)))].
End network.
End GPT2LMHeadModel.

(** The shapes of its parts. *)
Section GPT2_shapes.
Context {nn : NN} {laws : NNLaws nn}.
Lemma GPT2Attention_attends config path self :
  natural config → GPT2Attention.init config path = Ok self →
  attends config.["n_embd"] (GPT2_heads config) (GPT2Attention.forward self).
Proof. intros P H. unfold GPT2Attention.init in H. built H. unfold GPT2Attention.with_c_proj, GPT2Attention.forward. module_attends. Qed.
#[local] Hint Resolve GPT2Attention_attends : modules.
Lemma GPT2Attention_biased_c_proj config path self tp :
  natural config → GPT2Attention.init config path = Ok self →
  attends config.["n_embd"] (GPT2_heads config) (GPT2Attention.forward (GPT2Attention.with_c_proj self (shard_bias self.(GPT2Attention.c_proj) tp))).
Proof. intros P H. unfold GPT2Attention.init in H. built H. unfold GPT2Attention.with_c_proj, GPT2Attention.forward. module_attends. Qed.
#[local] Hint Resolve GPT2Attention_biased_c_proj : modules.
Lemma GPT2MLP_maps config path self :
  natural config → GPT2MLP.init config path = Ok self →
  maps_shape config.["n_embd"] config.["n_embd"] (GPT2MLP.forward self).
Proof. intros P H. unfold GPT2MLP.init in H. built H. unfold GPT2MLP.with_c_proj, GPT2MLP.forward. module_maps. Qed.
#[local] Hint Resolve GPT2MLP_maps : modules.
Lemma GPT2MLP_biased_c_proj config path self tp :
  natural config → GPT2MLP.init config path = Ok self →
  maps_shape config.["n_embd"] config.["n_embd"] (GPT2MLP.forward (GPT2MLP.with_c_proj self (shard_bias self.(GPT2MLP.c_proj) tp))).
Proof. intros P H. unfold GPT2MLP.init in H. built H. unfold GPT2MLP.with_c_proj, GPT2MLP.forward. module_maps. Qed.
#[local] Hint Resolve GPT2MLP_biased_c_proj : modules.
Lemma GPT2Block_attends config path self :
  natural config → GPT2Block.init config path = Ok self →
  attends config.["n_embd"] (GPT2_heads config) (GPT2Block.forward self).
Proof. intros P H. unfold GPT2Block.init in H. built H. unfold GPT2Block.forward, GPT2Block._apply_residual. module_attends. Qed.
#[local] Hint Resolve GPT2Block_attends : modules.
Lemma GPT2Model_runs config path self :
  natural config → GPT2Model.init config path = Ok self →
  runs config.["n_embd"] (GPT2_heads config) (GPT2Model.forward self).
Proof.
  intros P H. unfold GPT2Model.init in H. built H.
  unfold GPT2Model.forward.
  match goal with Hl : module_list _ _ _ = Ok _ |- _ => module_runs Hl end.
Qed.
#[local] Hint Resolve GPT2Model_runs : modules.
Lemma GPT2Model_wte config path self : GPT2Model.init config path = Ok self →
  self.(GPT2Model.wte) = Embedding.init (path ./ "wte") (symbolic config "vocab_size") config.["n_embd"].
Proof. intros H. unfold GPT2Model.init in H. built H. reflexivity. Qed.
Lemma GPT2Model_wpe config path self : GPT2Model.init config path = Ok self →
  self.(GPT2Model.wpe) = Embedding.init (path ./ "wpe") config.["context_window_size"] config.["n_embd"].
Proof. intros H. unfold GPT2Model.init in H. built H. reflexivity. Qed.
Lemma GPT2LMHeadModel_typed config path self :
  natural config → GPT2LMHeadModel.init config path = Ok self →
  well_typed config.["n_embd"] (symbolic config "vocab_size") (GPT2_heads config) (GPT2LMHeadModel.get_default_spec self) (GPT2LMHeadModel.methods self).
Proof.
  intros P H. unfold GPT2LMHeadModel.init in H. built H.
  match goal with Hm : GPT2Model.init _ _ = Ok _ |- _ => pose proof (GPT2Model_wte _ _ _ Hm) as Hemb_wte end.
  match goal with Hm : GPT2Model.init _ _ = Ok _ |- _ => pose proof (GPT2Model_wpe _ _ _ Hm) as Hemb_wpe end.
  functions; unfold GPT2LMHeadModel.create_paged_kv_cache, GPT2LMHeadModel.batch_verify, GPT2LMHeadModel.batch_decode, GPT2LMHeadModel.batch_prefill, GPT2LMHeadModel.decode, GPT2LMHeadModel.prefill, GPT2LMHeadModel.embed, GPT2LMHeadModel.batch_forward; exported.
Qed.
End GPT2_shapes.
End GPT2.

(** ** [model/gpt_bigcode/gpt_bigcode_model.py] *)

Module GPTBigCode.
(** The layers and heads of the cache [create_paged_kv_cache] makes. *)
Definition GPTBigCode_heads (config : settings) : heads := {|
  n_layers := config.["n_layer"]; q_heads := ((config.["n_head"] / config.["tensor_parallel_shards"]) / config.["tensor_parallel_shards"]);
  kv_heads := (1 / config.["tensor_parallel_shards"]); head_size := (config.["n_embd"] / config.["n_head"]); value_size := (config.["n_embd"] / config.["n_head"]) |}.

(** [GPTBigCodeMLP]. *)
Module GPTBigCodeMLP.
Section network.
Context {nn : NN}.
Record t := { n_inner : Z; c_fc : Linear.t; c_proj : Linear.t }.
Definition init (config : settings) (path : string) : result t :=
  let n_inner := config.["n_inner"] / config.["tensor_parallel_shards"] in
  let c_fc := Linear.init (path ./ "c_fc") config.["n_embd"] n_inner true None None in
  let c_proj := Linear.init (path ./ "c_proj") n_inner config.["n_embd"] true None None in
  Ok {| n_inner := n_inner; c_fc := c_fc; c_proj := c_proj |}.
Definition parameters (self : t) : params :=
  under "c_fc" (Linear.parameters self.(c_fc)) ++ under "c_proj" (Linear.parameters self.(c_proj)).
Definition forward (self : t) (x : T) : T :=
  let hidden_states := Linear.forward self.(c_fc) x in
  let hidden_states := activate (Gelu PNone) hidden_states in
  Linear.forward self.(c_proj) hidden_states.
End network.
End GPTBigCodeMLP.

(** [GPTBigCodeAttention]. *)
Module GPTBigCodeAttention.
Section network.
Context {nn : NN}.
Record t := { n_embd : Z; head_dim : Z; num_q_heads : Z; num_kv_heads : Z; c_attn : Linear.t; c_proj : Linear.t }.
Definition init (config : settings) (path : string) : result t :=
  let n_embd := config.["n_embd"] in
  let head_dim := config.["n_embd"] / config.["n_head"] in
  let num_q_heads := config.["n_head"] / config.["tensor_parallel_shards"] in
  let num_kv_heads := 1 in
  _ ← py_assert (config.["tensor_parallel_shards"] =? 1) "GPT bigcode only support tensor parallel shards = 1";
  let c_attn := Linear.init (path ./ "c_attn") n_embd ((num_q_heads + (2 * num_kv_heads)) * head_dim) true None None
      in
  let c_proj := Linear.init (path ./ "c_proj") (num_q_heads * head_dim) config.["n_embd"] true None None in
  Ok {| n_embd := n_embd; head_dim := head_dim; num_q_heads := num_q_heads; num_kv_heads := num_kv_heads; c_attn :=
      c_attn; c_proj := c_proj |}.
Definition parameters (self : t) : params :=
  under "c_attn" (Linear.parameters self.(c_attn)) ++ under "c_proj" (Linear.parameters self.(c_proj)).
Definition forward (self : t) (hidden_states : T) (paged_kv_cache : Cache) (layer_id : Z) : T * Cache :=
  let d := self.(head_dim) in let h_q := self.(num_q_heads) in let h_kv := self.(num_kv_heads) in
  let '(b, s, _) := dims3 hidden_states in
  let qkv := Linear.forward self.(c_attn) hidden_states in
  let qkv := reshape qkv [b; s; (h_q + h_kv) + h_kv; d] in
  let '(attn_output, paged_kv_cache) := attention_with_fused_qkv paged_kv_cache layer_id qkv h_q (Pow (Num
      self.(head_dim)) (Lit "-0.5")) in
  let output := reshape attn_output [b; s; h_q * d] in
  (Linear.forward self.(c_proj) output, paged_kv_cache).
End network.
End GPTBigCodeAttention.

(** [GPTBigCodeBlock]. *)
Module GPTBigCodeBlock.
Section network.
Context {nn : NN}.
Record t := { attn : GPTBigCodeAttention.t; mlp : GPTBigCodeMLP.t; ln_1 : LayerNorm.t; ln_2 : LayerNorm.t;
    tensor_parallel_shards : Z }.
Definition init (config : settings) (path : string) : result t :=
  attn ← GPTBigCodeAttention.init config (path ./ "attn");
  mlp ← GPTBigCodeMLP.init config (path ./ "mlp");
  let ln_1 := LayerNorm.init (path ./ "ln_1") config.["n_embd"] (Val (val_of config "layer_norm_epsilon")) true in
  let ln_2 := LayerNorm.init (path ./ "ln_2") config.["n_embd"] (Val (val_of config "layer_norm_epsilon")) true in
  let tensor_parallel_shards := config.["tensor_parallel_shards"] in
  Ok {| attn := attn; mlp := mlp; ln_1 := ln_1; ln_2 := ln_2; tensor_parallel_shards := tensor_parallel_shards |}.
Definition parameters (self : t) : params :=
  under "attn" (GPTBigCodeAttention.parameters self.(attn)) ++ under "mlp" (GPTBigCodeMLP.parameters self.(mlp)) ++
      under "ln_1" (LayerNorm.parameters self.(ln_1)) ++ under "ln_2" (LayerNorm.parameters self.(ln_2)).
Definition set_tp (config : settings) (self : t) : list (string * ShardSingleDim) :=
  let hd := config.["n_embd"] / config.["n_head"] in
  let q := config.["n_head"] * hd in
  let k := 1 * hd in
  let v := 1 * hd in
  [("attn.c_attn.weight", {| shard_name := "_shard_c_attn"; shard_dim := 0; segs := Some [q; k; v] |});
   ("attn.c_proj.weight", {| shard_name := "_shard_c_proj"; shard_dim := 1; segs := None |});
   ("mlp.c_fc.weight", {| shard_name := "_shard_mlp_c_fc"; shard_dim := 0; segs := None |});
   ("mlp.c_proj.weight", {| shard_name := "_shard_mlp_c_proj"; shard_dim := 1; segs := None |})].
Definition forward (self : t) (hidden_states : T) (paged_kv_cache : Cache) (layer_id : Z) : T * Cache :=
  let '(out, paged_kv_cache) := GPTBigCodeAttention.forward self.(attn) (LayerNorm.forward self.(ln_1) hidden_states)
      paged_kv_cache layer_id in
  let hidden_states := out ⊕ hidden_states in
  let out := GPTBigCodeMLP.forward self.(mlp) (LayerNorm.forward self.(ln_2) hidden_states) in
  let hidden_states := out ⊕ hidden_states in
  (hidden_states, paged_kv_cache).
End network.
End GPTBigCodeBlock.

(** [GPTBigCodeModel]. *)
Module GPTBigCodeModel.
Section network.
Context {nn : NN}.
Record t := { wte : Embedding.t; wpe : Embedding.t; h : list GPTBigCodeBlock.t; ln_f : LayerNorm.t }.
Definition init (config : settings) (path : string) : result t :=
  _ ← py_assert (config.["n_embd"] mod config.["n_head"] =? 0) "";
  let wte := Embedding.init (path ./ "wte") (symbolic config "vocab_size") config.["n_embd"] in
  let wpe := Embedding.init (path ./ "wpe") config.["n_positions"] config.["n_embd"] in
  h ← module_list (path ./ "h") config.["n_layer"] (λ _ path, GPTBigCodeBlock.init config path);
  let ln_f := LayerNorm.init (path ./ "ln_f") config.["n_embd"] (Val (val_of config "layer_norm_epsilon")) true in
  Ok {| wte := wte; wpe := wpe; h := h; ln_f := ln_f |}.
Definition parameters (self : t) : params :=
  under "wte" (Embedding.parameters self.(wte)) ++ under "wpe" (Embedding.parameters self.(wpe)) ++ list_params "h"
      GPTBigCodeBlock.parameters self.(h) ++ under "ln_f" (LayerNorm.parameters self.(ln_f)).
Definition forward (self : t) (input_embed : T) (paged_kv_cache : Cache) : T * Cache :=
  let input_positions := get_query_positions paged_kv_cache (dim input_embed 1) in
  let pos_embd := Embedding.forward self.(wpe) input_positions in
  let hidden_states := input_embed ⊕ pos_embd in
  let '(hidden_states, paged_kv_cache) :=
    for_layers self.(h) (λ layer_id layer '(hidden_states, paged_kv_cache),
      GPTBigCodeBlock.forward layer hidden_states paged_kv_cache layer_id) (hidden_states, paged_kv_cache) in
  let hidden_states := LayerNorm.forward self.(ln_f) hidden_states in
  (hidden_states, paged_kv_cache).
End network.
End GPTBigCodeModel.

(** [GPTBigCodeForCausalLM]. *)
Module GPTBigCodeForCausalLM.
Section network.
Context {nn : NN}.
Record t := { transformer : GPTBigCodeModel.t; lm_head : Linear.t; n_layer : Z; n_embd : Z; num_q_heads : Z;
    num_kv_heads : Z; head_dim : Z; tensor_parallel_shards : Z; dtype : string }.
Definition init (config : settings) (path : string) : result t :=
  transformer ← GPTBigCodeModel.init config (path ./ "transformer");
  let lm_head := Linear.init (path ./ "lm_head") config.["n_embd"] (symbolic config "vocab_size") false None None in
  let n_layer := config.["n_layer"] in
  let n_embd := config.["n_embd"] in
  let num_q_heads := config.["n_head"] / config.["tensor_parallel_shards"] in
  let num_kv_heads := 1 in
  let head_dim := config.["n_embd"] / config.["n_head"] in
  let tensor_parallel_shards := config.["tensor_parallel_shards"] in
  let dtype := "float32" in
  Ok {| transformer := transformer; lm_head := lm_head; n_layer := n_layer; n_embd := n_embd; num_q_heads :=
      num_q_heads; num_kv_heads := num_kv_heads; head_dim := head_dim; tensor_parallel_shards :=
      tensor_parallel_shards; dtype := dtype |}.
Definition parameters (self : t) : params :=
  under "transformer" (GPTBigCodeModel.parameters self.(transformer)) ++ under "lm_head" (Linear.parameters
      self.(lm_head)).
Definition batch_forward (self : t) (input_embed : T) (paged_kv_cache : Cache) (logit_positions : option T) : T *
    Cache :=
  let '(hidden_states, paged_kv_cache) := GPTBigCodeModel.forward self.(transformer) input_embed paged_kv_cache in
  let hidden_states :=
    match logit_positions with
    | Some logit_positions =>
        take hidden_states logit_positions 1
    | None => hidden_states
    end in
  let logits := Linear.forward self.(lm_head) hidden_states in
  let logits := if negb (bool_decide (dtype_of logits = "float32")) then astype logits "float32" else logits in
  (logits, paged_kv_cache).
Definition embed (self : t) (input_ids : T) : T :=
  let input_ids := if (self.(tensor_parallel_shards) >? 1) then ccl_broadcast_from_worker0 input_ids else input_ids in
  Embedding.forward self.(transformer).(GPTBigCodeModel.wte) input_ids.
Definition prefill (self : t) (input_embed : T) (paged_kv_cache : Cache) : T * Cache :=
  let '(hidden_states, paged_kv_cache) := GPTBigCodeModel.forward self.(transformer) input_embed paged_kv_cache in
  let hidden_states := index_last_token hidden_states in
  let logits := Linear.forward self.(lm_head) hidden_states in
  let logits := if negb (bool_decide (dtype_of logits = "float32")) then astype logits "float32" else logits in
  (logits, paged_kv_cache).
Definition decode (self : t) (input_embed : T) (paged_kv_cache : Cache) : T * Cache :=
  let '(hidden_states, paged_kv_cache) := GPTBigCodeModel.forward self.(transformer) input_embed paged_kv_cache in
  let logits := Linear.forward self.(lm_head) hidden_states in
  let logits := if negb (bool_decide (dtype_of logits = "float32")) then astype logits "float32" else logits in
  (logits, paged_kv_cache).
Definition batch_prefill (self : t) (input_embeds : T) (logit_positions : T) (paged_kv_cache : Cache) : T * Cache :=
  let logit_positions := if (self.(tensor_parallel_shards) >? 1) then ccl_broadcast_from_worker0 logit_positions else
      logit_positions in
  batch_forward self input_embeds paged_kv_cache (Some logit_positions).
Definition batch_decode (self : t) (input_embeds : T) (paged_kv_cache : Cache) : T * Cache :=
  batch_forward self input_embeds paged_kv_cache None.
Definition batch_verify (self : t) (input_embeds : T) (paged_kv_cache : Cache) : T * Cache :=
  batch_forward self input_embeds paged_kv_cache None.
Definition create_paged_kv_cache (self : t) (max_batch_size : Z) (max_total_seq_len : Z) (prefill_chunk_size : Z)
    (page_size : Z) (support_sliding_window : Z) : Cache :=
  create_generic (PStr "mha") max_batch_size max_total_seq_len prefill_chunk_size page_size support_sliding_window
      self.(n_layer) (self.(num_q_heads) / self.(tensor_parallel_shards)) (self.(num_kv_heads) /
      self.(tensor_parallel_shards)) self.(head_dim) self.(head_dim) "NONE" (Num (-1)) (Num (-1)) self.(dtype) None
      PNone PNone None false.
Definition get_default_spec (self : t) : mod_spec := [
  ("embed", packed [("input_ids", STensor [Named "seq_len"] "int32")]);
  ("prefill", packed [("input_embed", STensor [Fixed 1; Named "seq_len"; Fixed self.(n_embd)] self.(dtype));
      ("paged_kv_cache", SObject)]);
  ("decode", packed [("input_embed", STensor [Fixed 1; Fixed 1; Fixed self.(n_embd)] self.(dtype));
      ("paged_kv_cache", SObject)]);
  ("batch_prefill", packed [("input_embeds", STensor [Fixed 1; Named "seq_len"; Fixed self.(n_embd)] self.(dtype));
      ("logit_positions", STensor [Named "batch_size"] "int32"); ("paged_kv_cache", SObject)]);
  ("batch_decode", packed [("input_embeds", STensor [Named "batch_size"; Fixed 1; Fixed self.(n_embd)] self.(dtype));
      ("paged_kv_cache", SObject)]);
  ("batch_verify", packed [("input_embeds", STensor [Fixed 1; Named "seq_len"; Fixed self.(n_embd)] self.(dtype));
      ("paged_kv_cache", SObject)]);
  ("create_paged_kv_cache", unpacked [("max_batch_size", SInt); ("max_total_seq_len", SInt); ("prefill_chunk_size",
      SInt); ("page_size", SInt); ("support_sliding_window", SInt)])].
Definition methods (self : t) : list (string * method) := [
  ("embed", Method ["input_ids"] (method_t (embed self)));
  ("prefill", Method ["input_embed"; "paged_kv_cache"] (method_tc (prefill self)));
  ("decode", Method ["input_embed"; "paged_kv_cache"] (method_tc (decode self)));
  ("batch_prefill", Method ["input_embeds"; "logit_positions"; "paged_kv_cache"] (method_ttc (batch_prefill self)));
  ("batch_decode", Method ["input_embeds"; "paged_kv_cache"] (method_tc (batch_decode self)));
  ("batch_verify", Method ["input_embeds"; "paged_kv_cache"] (method_tc (batch_verify self)));
  ("create_paged_kv_cache", Method ["max_batch_size"; "max_total_seq_len"; "prefill_chunk_size"; "page_size";
      "support_sliding_window"] (method_ints (create_paged_kv_cache self)))].
End network.
End GPTBigCodeForCausalLM.

(** The shapes of its parts. *)
Section GPTBigCode_shapes.
Context {nn : NN} {laws : NNLaws nn}.
Lemma GPTBigCodeMLP_maps config path self :
  natural config → GPTBigCodeMLP.init config path = Ok self →
  maps_shape config.["n_embd"] config.["n_embd"] (GPTBigCodeMLP.forward self).
Proof. intros P H. unfold GPTBigCodeMLP.init in H. built H. unfold GPTBigCodeMLP.forward. module_maps. Qed.
#[local] Hint Resolve GPTBigCodeMLP_maps : modules.
Lemma GPTBigCodeAttention_attends config path self :
  natural config → GPTBigCodeAttention.init config path = Ok self →
  attends config.["n_embd"] (GPTBigCode_heads config) (GPTBigCodeAttention.forward self).
Proof. intros P H. unfold GPTBigCodeAttention.init in H. built H. unfold GPTBigCodeAttention.forward. module_attends. Qed.
#[local] Hint Resolve GPTBigCodeAttention_attends : modules.
Lemma GPTBigCodeBlock_attends config path self :
  natural config → GPTBigCodeBlock.init config path = Ok self →
  attends config.["n_embd"] (GPTBigCode_heads config) (GPTBigCodeBlock.forward self).
Proof. intros P H. unfold GPTBigCodeBlock.init in H. built H. unfold GPTBigCodeBlock.forward. module_attends. Qed.
#[local] Hint Resolve GPTBigCodeBlock_attends : modules.
Lemma GPTBigCodeModel_runs config path self :
  natural config → GPTBigCodeModel.init config path = Ok self →
  runs config.["n_embd"] (GPTBigCode_heads config) (GPTBigCodeModel.forward self).
Proof.
  intros P H. unfold GPTBigCodeModel.init in H. built H.
  unfold GPTBigCodeModel.forward.
  match goal with Hl : module_list _ _ _ = Ok _ |- _ => module_runs Hl end.
Qed.
#[local] Hint Resolve GPTBigCodeModel_runs : modules.
Lemma GPTBigCodeModel_wte config path self : GPTBigCodeModel.init config path = Ok self →
  self.(GPTBigCodeModel.wte) = Embedding.init (path ./ "wte") (symbolic config "vocab_size") config.["n_embd"].
Proof. intros H. unfold GPTBigCodeModel.init in H. built H. reflexivity. Qed.
Lemma GPTBigCodeModel_wpe config path self : GPTBigCodeModel.init config path = Ok self →
  self.(GPTBigCodeModel.wpe) = Embedding.init (path ./ "wpe") config.["n_positions"] config.["n_embd"].
Proof. intros H. unfold GPTBigCodeModel.init in H. built H. reflexivity. Qed.
Lemma GPTBigCodeForCausalLM_typed config path self :
  natural config → GPTBigCodeForCausalLM.init config path = Ok self →
  well_typed config.["n_embd"] (symbolic config "vocab_size") (GPTBigCode_heads config) (GPTBigCodeForCausalLM.get_default_spec self) (GPTBigCodeForCausalLM.methods self).
Proof.
  intros P H. unfold GPTBigCodeForCausalLM.init in H. built H.
  match goal with Hm : GPTBigCodeModel.init _ _ = Ok _ |- _ => pose proof (GPTBigCodeModel_wte _ _ _ Hm) as Hemb_wte end.
  match goal with Hm : GPTBigCodeModel.init _ _ = Ok _ |- _ => pose proof (GPTBigCodeModel_wpe _ _ _ Hm) as Hemb_wpe end.
  functions; unfold GPTBigCodeForCausalLM.create_paged_kv_cache, GPTBigCodeForCausalLM.batch_verify, GPTBigCodeForCausalLM.batch_decode, GPTBigCodeForCausalLM.batch_prefill, GPTBigCodeForCausalLM.decode, GPTBigCodeForCausalLM.prefill, GPTBigCodeForCausalLM.embed, GPTBigCodeForCausalLM.batch_forward; exported.
Qed.
End GPTBigCode_shapes.
End GPTBigCode.

(** ** [model/gpt_j/gpt_j_model.py] *)

Module GPTJ.
(** The layers and heads of the cache [create_paged_kv_cache] makes, and what a configuration must satisfy. *)
Definition GPTJ_heads (config : settings) : heads := {|
  n_layers := config.["n_layer"]; q_heads := (config.["n_head"] / config.["tensor_parallel_shards"]);
  kv_heads := (config.["n_head"] / config.["tensor_parallel_shards"]); head_size := (config.["n_embd"] / config.["n_head"]); value_size := (config.["n_embd"] / config.["n_head"]) |}.
Definition GPTJ_fits (config : settings) : Prop :=
  natural config ∧ config.["n_embd"] = config.["n_head"] * config.["head_dim"] ∧
  config.["n_head"] * config.["head_dim"] / config.["n_head"] = config.["head_dim"] ∧ config.["tensor_parallel_shards"] = 1.

(** [GPTJAttention]. *)
Module GPTJAttention.
Section network.
Context {nn : NN}.
Record t := { embed_dim : Z; num_heads : Z; head_dim : Z; max_position_embeddings : Z; rope_theta : Z; rotary_dim :
    Z; c_attn : Linear.t; out_proj : Linear.t }.
Definition init (config : settings) (path : string) : result t :=
  let embed_dim := config.["n_embd"] in
  let num_heads := config.["n_head"] / config.["tensor_parallel_shards"] in
  let head_dim := config.["head_dim"] in
  let max_position_embeddings := config.["context_window_size"] in
  let rope_theta := 10000 in
  let rotary_dim := config.["rotary_dim"] in
  let c_attn := Linear.init (path ./ "c_attn") embed_dim (3 * embed_dim) false None None in
  let out_proj := Linear.init (path ./ "out_proj") embed_dim embed_dim false None None in
  Ok {| embed_dim := embed_dim; num_heads := num_heads; head_dim := head_dim; max_position_embeddings :=
      max_position_embeddings; rope_theta := rope_theta; rotary_dim := rotary_dim; c_attn := c_attn; out_proj :=
      out_proj |}.
Definition parameters (self : t) : params :=
  under "c_attn" (Linear.parameters self.(c_attn)) ++ under "out_proj" (Linear.parameters self.(out_proj)).
Definition forward (self : t) (hidden_states : T) (paged_kv_cache : Cache) (layer_id : Z) : T * Cache :=
  let d := self.(head_dim) in let h := self.(num_heads) in
  let '(b, s, _) := dims3 hidden_states in
  let qkv := Linear.forward self.(c_attn) hidden_states in
  let qkv := reshape qkv [b; s; 3 * h; d] in
  let '(attn_output, paged_kv_cache) := attention_with_fused_qkv paged_kv_cache layer_id qkv self.(num_heads) (Pow
      (Num self.(head_dim)) (Lit "-0.5")) in
  let output := reshape attn_output [b; s; h * d] in
  (Linear.forward self.(out_proj) output, paged_kv_cache).
End network.
End GPTJAttention.

(** [GPTJMLP]. *)
Module GPTJMLP.
Section network.
Context {nn : NN}.
Record t := { fc_in : Linear.t; fc_out : Linear.t; act_fn : activation }.
Definition init (config : settings) (path : string) : result t :=
  let embed_dim := config.["n_embd"] in
  let inner_dim := (if is_none_val (val_of config "n_inner") then 4 * config.["n_embd"] else config.["n_inner"]) in
  let fc_in := Linear.init (path ./ "fc_in") embed_dim inner_dim true None None in
  let fc_out := Linear.init (path ./ "fc_out") inner_dim embed_dim true None None in
  act_fn ← get_key (str_of config "activation_function") ACT2FN;
  Ok {| fc_in := fc_in; fc_out := fc_out; act_fn := act_fn |}.
Definition parameters (self : t) : params :=
  under "fc_in" (Linear.parameters self.(fc_in)) ++ under "fc_out" (Linear.parameters self.(fc_out)).
Definition forward (self : t) (hidden_states : T) : T :=
  let hidden_states := Linear.forward self.(fc_in) hidden_states in
  let hidden_states := activate self.(act_fn) hidden_states in
  Linear.forward self.(fc_out) hidden_states.
End network.
End GPTJMLP.

(** [GPTJBlock]. *)
Module GPTJBlock.
Section network.
Context {nn : NN}.
Record t := { ln_1 : LayerNorm.t; attn : GPTJAttention.t; mlp : GPTJMLP.t; tensor_parallel_shards : Z }.
Definition init (config : settings) (path : string) : result t :=
  let ln_1 := LayerNorm.init (path ./ "ln_1") config.["n_embd"] (Num config.["layer_norm_epsilon"]) true in
  attn ← GPTJAttention.init config (path ./ "attn");
  mlp ← GPTJMLP.init config (path ./ "mlp");
  let tensor_parallel_shards := config.["tensor_parallel_shards"] in
  Ok {| ln_1 := ln_1; attn := attn; mlp := mlp; tensor_parallel_shards := tensor_parallel_shards |}.
Definition parameters (self : t) : params :=
  under "ln_1" (LayerNorm.parameters self.(ln_1)) ++ under "attn" (GPTJAttention.parameters self.(attn)) ++ under
      "mlp" (GPTJMLP.parameters self.(mlp)).
Definition set_tp (config : settings) (self : t) : list (string * ShardSingleDim) :=
  let hd := config.["head_dim"] in
  let q := self.(attn).(GPTJAttention.num_heads) * hd in
  let k := self.(attn).(GPTJAttention.num_heads) * hd in
  let v := self.(attn).(GPTJAttention.num_heads) * hd in
  [("attn.c_attn.weight", {| shard_name := "_shard_qkv_weight"; shard_dim := 0; segs := Some [q; k; v] |});
   ("attn.out_proj.weight", {| shard_name := "_shard_o"; shard_dim := 1; segs := None |});
   ("mlp.fc_in.weight", {| shard_name := "_shard_c_fc_weight"; shard_dim := 0; segs := None |});
   ("mlp.fc_out.weight", {| shard_name := "_shard_mlp_c_proj"; shard_dim := 1; segs := None |})].
Definition _apply_residual (self : t) (out : T) (residual : T) : T :=
  if (self.(tensor_parallel_shards) >? 1) then
    (ccl_allreduce out "sum") ⊕ residual
  else
    out ⊕ residual.
Definition forward (self : t) (hidden_states : T) (paged_kv_cache : Cache) (layer_id : Z) : T * Cache :=
  let residual := hidden_states in
  let hidden_states := LayerNorm.forward self.(ln_1) hidden_states in
  let '(attn_output, paged_kv_cache) := GPTJAttention.forward self.(attn) hidden_states paged_kv_cache layer_id in
  let feed_forward_hidden_states := GPTJMLP.forward self.(mlp) hidden_states in
  let hidden_states := _apply_residual self (attn_output ⊕ feed_forward_hidden_states) residual in
  (hidden_states, paged_kv_cache).
End network.
End GPTJBlock.

(** [GPTJModel]. *)
Module GPTJModel.
Section network.
Context {nn : NN}.
Record t := { embed_dim : Z; vocab_size : Z; wte : Embedding.t; h : list GPTJBlock.t; ln_f : LayerNorm.t }.
Definition init (config : settings) (path : string) : result t :=
  let embed_dim := config.["n_embd"] in
  let vocab_size := config.["vocab_size"] in
  let wte := Embedding.init (path ./ "wte") config.["vocab_size"] embed_dim in
  h ← module_list (path ./ "h") config.["n_layer"] (λ _ path, GPTJBlock.init config path);
  let ln_f := LayerNorm.init (path ./ "ln_f") embed_dim (Num config.["layer_norm_epsilon"]) true in
  Ok {| embed_dim := embed_dim; vocab_size := vocab_size; wte := wte; h := h; ln_f := ln_f |}.
Definition parameters (self : t) : params :=
  under "wte" (Embedding.parameters self.(wte)) ++ list_params "h" GPTJBlock.parameters self.(h) ++ under "ln_f"
      (LayerNorm.parameters self.(ln_f)).
Definition forward (self : t) (inputs : T) (paged_kv_cache : Cache) : T * Cache :=
  let hidden_states := inputs in
  let '(hidden_states, paged_kv_cache) :=
    for_layers self.(h) (λ layer_id layer '(hidden_states, paged_kv_cache),
      GPTJBlock.forward layer hidden_states paged_kv_cache layer_id) (hidden_states, paged_kv_cache) in
  let hidden_states := LayerNorm.forward self.(ln_f) hidden_states in
  (hidden_states, paged_kv_cache).
End network.
End GPTJModel.

(** [GPTJForCausalLM]. *)
Module GPTJForCausalLM.
Section network.
Context {nn : NN}.
Record t := { transformer : GPTJModel.t; lm_head : Linear.t; dtype : string; hidden_size : Z; num_hidden_layers : Z;
    intermediate_size : Z; num_attention_heads : Z; rope_theta : Z; rope_scaling : pyval; vocab_size : Z;
    tensor_parallel_shards : Z; head_dim : Z; rotary_dim : Z }.
Definition init (config : settings) (path : string) : result t :=
  transformer ← GPTJModel.init config (path ./ "transformer");
  let lm_head := Linear.init (path ./ "lm_head") config.["n_embd"] config.["vocab_size"] true (Some "float32") None in
  let dtype := "float32" in
  let hidden_size := config.["n_embd"] in
  let num_hidden_layers := config.["n_layer"] in
  let intermediate_size := (if is_none_val (val_of config "n_inner") then 4 * config.["n_embd"] else
      config.["n_inner"]) in
  let num_attention_heads := config.["n_head"] in
  let rope_theta := 10000 in
  let rope_scaling := val_of config "rope_scaling" in
  let vocab_size := config.["vocab_size"] in
  let tensor_parallel_shards := config.["tensor_parallel_shards"] in
  let head_dim := config.["n_embd"] / config.["n_head"] in
  let rotary_dim := config.["rotary_dim"] in
  Ok {| transformer := transformer; lm_head := lm_head; dtype := dtype; hidden_size := hidden_size; num_hidden_layers
      := num_hidden_layers; intermediate_size := intermediate_size; num_attention_heads := num_attention_heads;
      rope_theta := rope_theta; rope_scaling := rope_scaling; vocab_size := vocab_size; tensor_parallel_shards :=
      tensor_parallel_shards; head_dim := head_dim; rotary_dim := rotary_dim |}.
Definition parameters (self : t) : params :=
  under "transformer" (GPTJModel.parameters self.(transformer)) ++ under "lm_head" (Linear.parameters self.(lm_head)).
Definition batch_forward (self : t) (input_embeds : T) (paged_kv_cache : Cache) (logit_positions : option T) : T *
    Cache :=
  let '(hidden_states, paged_kv_cache) := GPTJModel.forward self.(transformer) input_embeds paged_kv_cache in
  let hidden_states :=
    match logit_positions with
    | Some logit_positions =>
        take hidden_states logit_positions 1
    | None => hidden_states
    end in
  let logits := Linear.forward self.(lm_head) hidden_states in
  let logits := if negb (bool_decide (dtype_of logits = "float32")) then astype logits "float32" else logits in
  (logits, paged_kv_cache).
Definition embed (self : t) (input_ids : T) : T :=
  let input_ids := if (self.(tensor_parallel_shards) >? 1) then ccl_broadcast_from_worker0 input_ids else input_ids in
  Embedding.forward self.(transformer).(GPTJModel.wte) input_ids.
Definition prefill (self : t) (input_embed : T) (paged_kv_cache : Cache) : T * Cache :=
  let '(hidden_states, paged_kv_cache) := GPTJModel.forward self.(transformer) input_embed paged_kv_cache in
  let hidden_states := index_last_token hidden_states in
  let logits := Linear.forward self.(lm_head) hidden_states in
  let logits := if negb (bool_decide (dtype_of logits = "float32")) then astype logits "float32" else logits in
  (logits, paged_kv_cache).
Definition decode (self : t) (input_embed : T) (paged_kv_cache : Cache) : T * Cache :=
  let '(hidden_states, paged_kv_cache) := GPTJModel.forward self.(transformer) input_embed paged_kv_cache in
  let logits := Linear.forward self.(lm_head) hidden_states in
  let logits := if negb (bool_decide (dtype_of logits = "float32")) then astype logits "float32" else logits in
  (logits, paged_kv_cache).
Definition batch_prefill (self : t) (input_embeds : T) (logit_positions : T) (paged_kv_cache : Cache) : T * Cache :=
  let logit_positions := if (self.(tensor_parallel_shards) >? 1) then ccl_broadcast_from_worker0 logit_positions else
      logit_positions in
  batch_forward self input_embeds paged_kv_cache (Some logit_positions).
Definition batch_decode (self : t) (input_embeds : T) (paged_kv_cache : Cache) : T * Cache :=
  batch_forward self input_embeds paged_kv_cache None.
Definition batch_verify (self : t) (input_embeds : T) (paged_kv_cache : Cache) : T * Cache :=
  batch_forward self input_embeds paged_kv_cache None.
Definition create_paged_kv_cache (self : t) (max_batch_size : Z) (max_total_seq_len : Z) (prefill_chunk_size : Z)
    (page_size : Z) (support_sliding_window : Z) : Cache :=
  create_generic (PStr "mha") max_batch_size max_total_seq_len prefill_chunk_size page_size support_sliding_window
      self.(num_hidden_layers) (self.(num_attention_heads) / self.(tensor_parallel_shards))
      (self.(num_attention_heads) / self.(tensor_parallel_shards)) self.(head_dim) self.(head_dim) "NORMAL" (Num 1)
      (Num self.(rope_theta)) self.(dtype) (Some self.(rotary_dim)) self.(rope_scaling) PNone None false.
Definition get_default_spec (self : t) : mod_spec := [
  ("embed", packed [("input_ids", STensor [Named "seq_len"] "int32")]);
  ("prefill", packed [("input_embed", STensor [Fixed 1; Named "seq_len"; Fixed self.(hidden_size)] self.(dtype));
      ("paged_kv_cache", SObject)]);
  ("decode", packed [("input_embed", STensor [Fixed 1; Fixed 1; Fixed self.(hidden_size)] self.(dtype));
      ("paged_kv_cache", SObject)]);
  ("batch_prefill", packed [("input_embeds", STensor [Fixed 1; Named "seq_len"; Fixed self.(hidden_size)]
      self.(dtype)); ("logit_positions", STensor [Named "batch_size"] "int32"); ("paged_kv_cache", SObject)]);
  ("batch_decode", packed [("input_embeds", STensor [Named "batch_size"; Fixed 1; Fixed self.(hidden_size)]
      self.(dtype)); ("paged_kv_cache", SObject)]);
  ("batch_verify", packed [("input_embeds", STensor [Fixed 1; Named "seq_len"; Fixed self.(hidden_size)]
      self.(dtype)); ("paged_kv_cache", SObject)]);
  ("create_paged_kv_cache", unpacked [("max_batch_size", SInt); ("max_total_seq_len", SInt); ("prefill_chunk_size",
      SInt); ("page_size", SInt); ("support_sliding_window", SInt)])].
Definition methods (self : t) : list (string * method) := [
  ("embed", Method ["input_ids"] (method_t (embed self)));
  ("prefill", Method ["input_embed"; "paged_kv_cache"] (method_tc (prefill self)));
  ("decode", Method ["input_embed"; "paged_kv_cache"] (method_tc (decode self)));
  ("batch_prefill", Method ["input_embeds"; "logit_positions"; "paged_kv_cache"] (method_ttc (batch_prefill self)));
  ("batch_decode", Method ["input_embeds"; "paged_kv_cache"] (method_tc (batch_decode self)));
  ("batch_verify", Method ["input_embeds"; "paged_kv_cache"] (method_tc (batch_verify self)));
  ("create_paged_kv_cache", Method ["max_batch_size"; "max_total_seq_len"; "prefill_chunk_size"; "page_size";
      "support_sliding_window"] (method_ints (create_paged_kv_cache self)))].
End network.
End GPTJForCausalLM.

(** The shapes of its parts. *)
Section GPTJ_shapes.
Context {nn : NN} {laws : NNLaws nn}.
Lemma GPTJAttention_attends config path self :
  GPTJ_fits config → GPTJAttention.init config path = Ok self →
  attends config.["n_embd"] (GPTJ_heads config) (GPTJAttention.forward self).
Proof. intros Hfits H. pose proof Hfits as (P & Hembd & Hdim & Htp). unfold GPTJAttention.init in H. built H. unfold GPTJAttention.forward. module_attends. Qed.
#[local] Hint Resolve GPTJAttention_attends : modules.
Lemma GPTJMLP_maps config path self :
  GPTJ_fits config → GPTJMLP.init config path = Ok self →
  maps_shape config.["n_embd"] config.["n_embd"] (GPTJMLP.forward self).
Proof. intros Hfits H. pose proof Hfits as (P & Hembd & Hdim & Htp). unfold GPTJMLP.init in H. built H. unfold GPTJMLP.forward. module_maps. Qed.
#[local] Hint Resolve GPTJMLP_maps : modules.
Lemma GPTJBlock_attends config path self :
  GPTJ_fits config → GPTJBlock.init config path = Ok self →
  attends config.["n_embd"] (GPTJ_heads config) (GPTJBlock.forward self).
Proof. intros Hfits H. pose proof Hfits as (P & Hembd & Hdim & Htp). unfold GPTJBlock.init in H. built H. unfold GPTJBlock.forward, GPTJBlock._apply_residual. module_attends. Qed.
#[local] Hint Resolve GPTJBlock_attends : modules.
Lemma GPTJModel_runs config path self :
  GPTJ_fits config → GPTJModel.init config path = Ok self →
  runs config.["n_embd"] (GPTJ_heads config) (GPTJModel.forward self).
Proof.
  intros Hfits H. pose proof Hfits as (P & Hembd & Hdim & Htp). unfold GPTJModel.init in H. built H.
  unfold GPTJModel.forward.
  match goal with Hl : module_list _ _ _ = Ok _ |- _ => module_runs Hl end.
Qed.
#[local] Hint Resolve GPTJModel_runs : modules.
Lemma GPTJModel_wte config path self : GPTJModel.init config path = Ok self →
  self.(GPTJModel.wte) = Embedding.init (path ./ "wte") config.["vocab_size"] config.["n_embd"].
Proof. intros H. unfold GPTJModel.init in H. built H. reflexivity. Qed.
Lemma GPTJForCausalLM_typed config path self :
  GPTJ_fits config → GPTJForCausalLM.init config path = Ok self →
  well_typed config.["n_embd"] config.["vocab_size"] (GPTJ_heads config) (GPTJForCausalLM.get_default_spec self) (GPTJForCausalLM.methods self).
Proof.
  intros Hfits H. pose proof Hfits as (P & Hembd & Hdim & Htp). unfold GPTJForCausalLM.init in H. built H.
  match goal with Hm : GPTJModel.init _ _ = Ok _ |- _ => pose proof (GPTJModel_wte _ _ _ Hm) as Hemb_wte end.
  functions; unfold GPTJForCausalLM.create_paged_kv_cache, GPTJForCausalLM.batch_verify, GPTJForCausalLM.batch_decode, GPTJForCausalLM.batch_prefill, GPTJForCausalLM.decode, GPTJForCausalLM.prefill, GPTJForCausalLM.embed, GPTJForCausalLM.batch_forward; exported.
Qed.
End GPTJ_shapes.
End GPTJ.

(** ** [model/gpt_neox/gpt_neox_model.py] *)

Module GPTNeoX.
(** The layers and heads of the cache [create_paged_kv_cache] makes. *)
Definition GPTNeoX_heads (config : settings) : heads := {|
  n_layers := config.["num_hidden_layers"]; q_heads := (config.["num_attention_heads"] / config.["tensor_parallel_shards"]);
  kv_heads := (config.["num_attention_heads"] / config.["tensor_parallel_shards"]); head_size := config.["head_dim"]; value_size := config.["head_dim"] |}.

(** [GPTNeoXAttention]. *)
Module GPTNeoXAttention.
Section network.
Context {nn : NN}.
Record t := { rope_theta : Z; hidden_size : Z; num_attention_heads : Z; head_dim : Z; query_key_value : Linear.t;
    dense : Linear.t }.
Definition init (config : settings) (path : string) : result t :=
  let rope_theta := config.["position_embedding_base"] in
  let hidden_size := config.["hidden_size"] in
  _ ← raise_when (negb (config.["num_attention_heads"] mod config.["tensor_parallel_shards"] =? 0)) ValueError
      ("Cannot split " +:+ pretty config.["num_attention_heads"] +:+ " attention heads evenly to " +:+ pretty
      config.["tensor_parallel_shards"] +:+ " GPUs.");
  let num_attention_heads := config.["num_attention_heads"] / config.["tensor_parallel_shards"] in
  let head_dim := config.["head_dim"] in
  let query_key_value := Linear.init (path ./ "query_key_value") hidden_size ((3 * num_attention_heads) * head_dim)
      true None None in
  let dense := Linear.init (path ./ "dense") (num_attention_heads * head_dim) hidden_size true None None in
  Ok {| rope_theta := rope_theta; hidden_size := hidden_size; num_attention_heads := num_attention_heads; head_dim :=
      head_dim; query_key_value := query_key_value; dense := dense |}.
Definition parameters (self : t) : params :=
  under "query_key_value" (Linear.parameters self.(query_key_value)) ++ under "dense" (Linear.parameters self.(dense)).
Definition forward (self : t) (hidden_states : T) (paged_kv_cache : Cache) (layer_id : Z) : T * Cache :=
  let '(batch_size, seq_len, _) := dims3 hidden_states in
  let qkv := Linear.forward self.(query_key_value) hidden_states in
  let qkv := reshape qkv [batch_size; seq_len; 3 * self.(num_attention_heads); self.(head_dim)] in
  let '(attn_output, paged_kv_cache) := attention_with_fused_qkv paged_kv_cache layer_id qkv
      self.(num_attention_heads) (Pow (Num self.(head_dim)) (Lit "-0.5")) in
  let output := reshape attn_output [batch_size; seq_len; self.(head_dim) * self.(num_attention_heads)] in
  let attn_output := Linear.forward self.(dense) output in
  (attn_output, paged_kv_cache).
Definition with_dense (self : t) (x : Linear.t) : t := {| rope_theta := self.(rope_theta); hidden_size :=
    self.(hidden_size); num_attention_heads := self.(num_attention_heads); head_dim := self.(head_dim);
    query_key_value := self.(query_key_value); dense := x |}.
End network.
End GPTNeoXAttention.

(** [GPTNeoXMLP]. *)
Module GPTNeoXMLP.
Section network.
Context {nn : NN}.
Record t := { intermediate_size : Z; dense_h_to_4h : Linear.t; dense_4h_to_h : Linear.t }.
Definition init (config : settings) (path : string) : result t :=
  let out_dtype := str_of config "ffn_out_dtype" in
  _ ← raise_when (negb (config.["intermediate_size"] mod config.["tensor_parallel_shards"] =? 0)) ValueError
      ("Cannot split MLP intermediate size " +:+ pretty config.["intermediate_size"] +:+ " evenly to " +:+ pretty
      config.["tensor_parallel_shards"] +:+ " GPUs.");
  let intermediate_size := config.["intermediate_size"] / config.["tensor_parallel_shards"] in
  let dense_h_to_4h := Linear.init (path ./ "dense_h_to_4h") config.["hidden_size"] intermediate_size true None (Some
      out_dtype) in
  let dense_4h_to_h := Linear.init (path ./ "dense_4h_to_h") intermediate_size config.["hidden_size"] true None (Some
      out_dtype) in
  Ok {| intermediate_size := intermediate_size; dense_h_to_4h := dense_h_to_4h; dense_4h_to_h := dense_4h_to_h |}.
Definition parameters (self : t) : params :=
  under "dense_h_to_4h" (Linear.parameters self.(dense_h_to_4h)) ++ under "dense_4h_to_h" (Linear.parameters
      self.(dense_4h_to_h)).
Definition forward (self : t) (hidden_states : T) : T :=
  let dtype := dtype_of hidden_states in
  let hidden_states := if negb (bool_decide (dtype_of hidden_states = dtype)) then astype hidden_states dtype else
      hidden_states in
  let hidden_states := Linear.forward self.(dense_h_to_4h) hidden_states in
  let hidden_states := activate (Gelu PNone) hidden_states in
  let hidden_states := if negb (bool_decide (dtype_of hidden_states = dtype)) then astype hidden_states dtype else
      hidden_states in
  let hidden_states := Linear.forward self.(dense_4h_to_h) hidden_states in
  if negb (bool_decide (dtype_of hidden_states = dtype)) then astype hidden_states dtype else hidden_states.
Definition with_dense_4h_to_h (self : t) (x : Linear.t) : t := {| intermediate_size := self.(intermediate_size);
    dense_h_to_4h := self.(dense_h_to_4h); dense_4h_to_h := x |}.
End network.
End GPTNeoXMLP.

(** [GPTNeoXLayer]. *)
Module GPTNeoXLayer.
Section network.
Context {nn : NN}.
Record t := { input_layernorm : LayerNorm.t; post_attention_layernorm : LayerNorm.t; attention : GPTNeoXAttention.t;
    mlp : GPTNeoXMLP.t; use_parallel_residual : bool; tensor_parallel_shards : Z }.
Definition init (config : settings) (path : string) : result t :=
  let input_layernorm := LayerNorm.init (path ./ "input_layernorm") config.["hidden_size"] (Val (val_of config
      "layer_norm_eps")) true in
  let post_attention_layernorm := LayerNorm.init (path ./ "post_attention_layernorm") config.["hidden_size"] (Val
      (val_of config "layer_norm_eps")) true in
  attention ← GPTNeoXAttention.init config (path ./ "attention");
  mlp ← GPTNeoXMLP.init config (path ./ "mlp");
  let use_parallel_residual := config.?["use_parallel_residual"] in
  let tensor_parallel_shards := config.["tensor_parallel_shards"] in
  Ok {| input_layernorm := input_layernorm; post_attention_layernorm := post_attention_layernorm; attention :=
      attention; mlp := mlp; use_parallel_residual := use_parallel_residual; tensor_parallel_shards :=
      tensor_parallel_shards |}.
Definition parameters (self : t) : params :=
  under "input_layernorm" (LayerNorm.parameters self.(input_layernorm)) ++ under "post_attention_layernorm"
      (LayerNorm.parameters self.(post_attention_layernorm)) ++ under "attention" (GPTNeoXAttention.parameters
      self.(attention)) ++ under "mlp" (GPTNeoXMLP.parameters self.(mlp)).
Definition set_tp (config : settings) (self : t) : list (string * ShardSingleDim) :=
  let hd := config.["head_dim"] in
  let v := self.(attention).(GPTNeoXAttention.num_attention_heads) * hd in
  let k := v in
  let q := k in
  [("attention.query_key_value.weight", {| shard_name := "_shard_qkv_weight"; shard_dim := 0; segs := Some [q; k; v]
    |});
   ("attention.query_key_value.bias", {| shard_name := "_shard_qkv_bias"; shard_dim := 0; segs := Some [q; k; v] |});
   ("attention.dense.weight", {| shard_name := "_shard_dense"; shard_dim := 1; segs := None |});
   ("mlp.dense_h_to_4h.weight", {| shard_name := "_shard_dense_h_to_4h_weight"; shard_dim := 0; segs := None |});
   ("mlp.dense_h_to_4h.bias", {| shard_name := "_shard_dense_h_to_4h_bias"; shard_dim := 0; segs := None |});
   ("mlp.dense_4h_to_h.weight", {| shard_name := "_shard_dense_4h_to_h"; shard_dim := 1; segs := None |})].
Definition _apply_residual (self : t) (out : T) (residual : T) : T :=
  if (self.(tensor_parallel_shards) >? 1) then
    ccl_allreduce (out ⊕ (residual ⊘' (Num self.(tensor_parallel_shards)))) "sum"
  else
    out ⊕ residual.
Definition forward (self : t) (hidden_states : T) (paged_kv_cache : Cache) (layer_id : Z) : T * Cache :=
  let dtype := dtype_of hidden_states in
  let attn_input := LayerNorm.forward self.(input_layernorm) hidden_states in
  let attention := GPTNeoXAttention.with_dense self.(attention) (shard_bias self.(attention).(GPTNeoXAttention.dense)
      self.(tensor_parallel_shards)) in
  let '(attn_output, paged_kv_cache) := GPTNeoXAttention.forward attention attn_input paged_kv_cache layer_id in
  let hidden_states :=
    if self.(use_parallel_residual) then
      let mlp_input := LayerNorm.forward self.(post_attention_layernorm) hidden_states in
      let mlp_output := GPTNeoXMLP.forward self.(mlp) mlp_input in
      (mlp_output ⊕ attn_output) ⊕ hidden_states
    else
      let attn_output := _apply_residual self attn_output hidden_states in
      let mlp_input := LayerNorm.forward self.(post_attention_layernorm) attn_output in
      let mlp := GPTNeoXMLP.with_dense_4h_to_h self.(mlp) (shard_bias self.(mlp).(GPTNeoXMLP.dense_4h_to_h)
          self.(tensor_parallel_shards)) in
      let mlp_output := GPTNeoXMLP.forward mlp mlp_input in
      _apply_residual self (astype mlp_output dtype) attn_output
    in
  (hidden_states, paged_kv_cache).
End network.
End GPTNeoXLayer.

(** [GPTNeoXModel]. *)
Module GPTNeoXModel.
Section network.
Context {nn : NN}.
Record t := { embed_in : Embedding.t; layers : list GPTNeoXLayer.t; final_layer_norm : LayerNorm.t }.
Definition init (config : settings) (path : string) : result t :=
  let embed_in := Embedding.init (path ./ "embed_in") (symbolic config "vocab_size") config.["hidden_size"] in
  layers ← module_list (path ./ "layers") config.["num_hidden_layers"] (λ _ path, GPTNeoXLayer.init config path);
  let final_layer_norm := LayerNorm.init (path ./ "final_layer_norm") config.["hidden_size"] (Val (val_of config
      "layer_norm_eps")) true in
  Ok {| embed_in := embed_in; layers := layers; final_layer_norm := final_layer_norm |}.
Definition parameters (self : t) : params :=
  under "embed_in" (Embedding.parameters self.(embed_in)) ++ list_params "layers" GPTNeoXLayer.parameters
      self.(layers) ++ under "final_layer_norm" (LayerNorm.parameters self.(final_layer_norm)).
Definition forward (self : t) (inputs : T) (paged_kv_cache : Cache) : T * Cache :=
  let hidden_states := inputs in
  let '(hidden_states, paged_kv_cache) :=
    for_layers self.(layers) (λ layer_id layer '(hidden_states, paged_kv_cache),
      GPTNeoXLayer.forward layer hidden_states paged_kv_cache layer_id) (hidden_states, paged_kv_cache) in
  let hidden_states := LayerNorm.forward self.(final_layer_norm) hidden_states in
  (hidden_states, paged_kv_cache).
End network.
End GPTNeoXModel.

(** [GPTNeoXForCausalLM]. *)
Module GPTNeoXForCausalLM.
Section network.
Context {nn : NN}.
Record t := { gpt_neox : GPTNeoXModel.t; embed_out : Linear.t; num_hidden_layers : Z; hidden_size : Z;
    num_attention_heads : Z; head_dim : Z; vocab_size : Z; rope_theta : Z; tensor_parallel_shards : Z; dtype :
    string; rotary_pct : number }.
Definition init (config : settings) (path : string) : result t :=
  gpt_neox ← GPTNeoXModel.init config (path ./ "gpt_neox");
  let embed_out := Linear.init (path ./ "embed_out") config.["hidden_size"] (symbolic config "vocab_size") false
      (Some "float32") None in
  let num_hidden_layers := config.["num_hidden_layers"] in
  let hidden_size := config.["hidden_size"] in
  let num_attention_heads := config.["num_attention_heads"] in
  let head_dim := config.["head_dim"] in
  let vocab_size := config.["vocab_size"] in
  let rope_theta := config.["position_embedding_base"] in
  let tensor_parallel_shards := config.["tensor_parallel_shards"] in
  let dtype := "float32" in
  let rotary_pct := (Val (val_of config "rotary_pct")) in
  Ok {| gpt_neox := gpt_neox; embed_out := embed_out; num_hidden_layers := num_hidden_layers; hidden_size :=
      hidden_size; num_attention_heads := num_attention_heads; head_dim := head_dim; vocab_size := vocab_size;
      rope_theta := rope_theta; tensor_parallel_shards := tensor_parallel_shards; dtype := dtype; rotary_pct :=
      rotary_pct |}.
Definition parameters (self : t) : params :=
  under "gpt_neox" (GPTNeoXModel.parameters self.(gpt_neox)) ++ under "embed_out" (Linear.parameters self.(embed_out)).
Definition batch_forward (self : t) (input_embeds : T) (paged_kv_cache : Cache) (logit_positions : option T) : T *
    Cache :=
  let '(hidden_states, paged_kv_cache) := GPTNeoXModel.forward self.(gpt_neox) input_embeds paged_kv_cache in
  let hidden_states :=
    match logit_positions with
    | Some logit_positions =>
        take hidden_states logit_positions 1
    | None => hidden_states
    end in
  let logits := Linear.forward self.(embed_out) hidden_states in
  let logits := if negb (bool_decide (dtype_of logits = "float32")) then astype logits "float32" else logits in
  (logits, paged_kv_cache).
Definition embed (self : t) (input_ids : T) : T :=
  let input_ids := if (self.(tensor_parallel_shards) >? 1) then ccl_broadcast_from_worker0 input_ids else input_ids in
  Embedding.forward self.(gpt_neox).(GPTNeoXModel.embed_in) input_ids.
Definition prefill (self : t) (input_embed : T) (paged_kv_cache : Cache) : T * Cache :=
  let '(hidden_states, paged_kv_cache) := GPTNeoXModel.forward self.(gpt_neox) input_embed paged_kv_cache in
  let hidden_states := index_last_token hidden_states in
  let logits := Linear.forward self.(embed_out) hidden_states in
  let logits := if negb (bool_decide (dtype_of logits = "float32")) then astype logits "float32" else logits in
  (logits, paged_kv_cache).
Definition decode (self : t) (input_embed : T) (paged_kv_cache : Cache) : T * Cache :=
  let '(hidden_states, paged_kv_cache) := GPTNeoXModel.forward self.(gpt_neox) input_embed paged_kv_cache in
  let logits := Linear.forward self.(embed_out) hidden_states in
  let logits := if negb (bool_decide (dtype_of logits = "float32")) then astype logits "float32" else logits in
  (logits, paged_kv_cache).
Definition batch_prefill (self : t) (input_embeds : T) (logit_positions : T) (paged_kv_cache : Cache) : T * Cache :=
  let logit_positions := if (self.(tensor_parallel_shards) >? 1) then ccl_broadcast_from_worker0 logit_positions else
      logit_positions in
  batch_forward self input_embeds paged_kv_cache (Some logit_positions).
Definition batch_decode (self : t) (input_embeds : T) (paged_kv_cache : Cache) : T * Cache :=
  batch_forward self input_embeds paged_kv_cache None.
Definition batch_verify (self : t) (input_embeds : T) (paged_kv_cache : Cache) : T * Cache :=
  batch_forward self input_embeds paged_kv_cache None.
Definition create_paged_kv_cache (self : t) (max_batch_size : Z) (max_total_seq_len : Z) (prefill_chunk_size : Z)
    (page_size : Z) (support_sliding_window : Z) : Cache :=
  create_generic (PStr "mha") max_batch_size max_total_seq_len prefill_chunk_size page_size support_sliding_window
      self.(num_hidden_layers) (self.(num_attention_heads) / self.(tensor_parallel_shards))
      (self.(num_attention_heads) / self.(tensor_parallel_shards)) self.(head_dim) self.(head_dim) "NORMAL" (Num 1)
      (Num self.(rope_theta)) self.(dtype) (Some (int_of_number (Times (Num self.(head_dim)) self.(rotary_pct))))
      PNone PNone None false.
Definition get_default_spec (self : t) : mod_spec := [
  ("embed", packed [("input_ids", STensor [Named "seq_len"] "int32")]);
  ("prefill", packed [("input_embed", STensor [Fixed 1; Named "seq_len"; Fixed self.(hidden_size)] self.(dtype));
      ("paged_kv_cache", SObject)]);
  ("decode", packed [("input_embed", STensor [Fixed 1; Fixed 1; Fixed self.(hidden_size)] self.(dtype));
      ("paged_kv_cache", SObject)]);
  ("batch_prefill", packed [("input_embeds", STensor [Fixed 1; Named "seq_len"; Fixed self.(hidden_size)]
      self.(dtype)); ("logit_positions", STensor [Named "batch_size"] "int32"); ("paged_kv_cache", SObject)]);
  ("batch_decode", packed [("input_embeds", STensor [Named "batch_size"; Fixed 1; Fixed self.(hidden_size)]
      self.(dtype)); ("paged_kv_cache", SObject)]);
  ("batch_verify", packed [("input_embeds", STensor [Fixed 1; Named "seq_len"; Fixed self.(hidden_size)]
      self.(dtype)); ("paged_kv_cache", SObject)]);
  ("create_paged_kv_cache", unpacked [("max_batch_size", SInt); ("max_total_seq_len", SInt); ("prefill_chunk_size",
      SInt); ("page_size", SInt); ("support_sliding_window", SInt)])].
Definition methods (self : t) : list (string * method) := [
  ("embed", Method ["input_ids"] (method_t (embed self)));
  ("prefill", Method ["input_embed"; "paged_kv_cache"] (method_tc (prefill self)));
  ("decode", Method ["input_embed"; "paged_kv_cache"] (method_tc (decode self)));
  ("batch_prefill", Method ["input_embeds"; "logit_positions"; "paged_kv_cache"] (method_ttc (batch_prefill self)));
  ("batch_decode", Method ["input_embeds"; "paged_kv_cache"] (method_tc (batch_decode self)));
  ("batch_verify", Method ["input_embeds"; "paged_kv_cache"] (method_tc (batch_verify self)));
  ("create_paged_kv_cache", Method ["max_batch_size"; "max_total_seq_len"; "prefill_chunk_size"; "page_size";
      "support_sliding_window"] (method_ints (create_paged_kv_cache self)))].
End network.
End GPTNeoXForCausalLM.

(** The shapes of its parts. *)
Section GPTNeoX_shapes.
Context {nn : NN} {laws : NNLaws nn}.
Lemma GPTNeoXAttention_attends config path self :
  natural config → GPTNeoXAttention.init config path = Ok self →
  attends config.["hidden_size"] (GPTNeoX_heads config) (GPTNeoXAttention.forward self).
Proof. intros P H. unfold GPTNeoXAttention.init in H. built H. unfold GPTNeoXAttention.with_dense, GPTNeoXAttention.forward. module_attends. Qed.
#[local] Hint Resolve GPTNeoXAttention_attends : modules.
Lemma GPTNeoXAttention_biased_dense config path self tp :
  natural config → GPTNeoXAttention.init config path = Ok self →
  attends config.["hidden_size"] (GPTNeoX_heads config) (GPTNeoXAttention.forward (GPTNeoXAttention.with_dense self (shard_bias self.(GPTNeoXAttention.dense) tp))).
Proof. intros P H. unfold GPTNeoXAttention.init in H. built H. unfold GPTNeoXAttention.with_dense, GPTNeoXAttention.forward. module_attends. Qed.
#[local] Hint Resolve GPTNeoXAttention_biased_dense : modules.
Lemma GPTNeoXMLP_maps config path self :
  natural config → GPTNeoXMLP.init config path = Ok self →
  maps_shape config.["hidden_size"] config.["hidden_size"] (GPTNeoXMLP.forward self).
Proof. intros P H. unfold GPTNeoXMLP.init in H. built H. unfold GPTNeoXMLP.with_dense_4h_to_h, GPTNeoXMLP.forward. module_maps. Qed.
#[local] Hint Resolve GPTNeoXMLP_maps : modules.
Lemma GPTNeoXMLP_biased_dense_4h_to_h config path self tp :
  natural config → GPTNeoXMLP.init config path = Ok self →
  maps_shape config.["hidden_size"] config.["hidden_size"] (GPTNeoXMLP.forward (GPTNeoXMLP.with_dense_4h_to_h self (shard_bias self.(GPTNeoXMLP.dense_4h_to_h) tp))).
Proof. intros P H. unfold GPTNeoXMLP.init in H. built H. unfold GPTNeoXMLP.with_dense_4h_to_h, GPTNeoXMLP.forward. module_maps. Qed.
#[local] Hint Resolve GPTNeoXMLP_biased_dense_4h_to_h : modules.
Lemma GPTNeoXLayer_attends config path self :
  natural config → GPTNeoXLayer.init config path = Ok self →
  attends config.["hidden_size"] (GPTNeoX_heads config) (GPTNeoXLayer.forward self).
Proof. intros P H. unfold GPTNeoXLayer.init in H. built H. unfold GPTNeoXLayer.forward, GPTNeoXLayer._apply_residual. module_attends. Qed.
#[local] Hint Resolve GPTNeoXLayer_attends : modules.
Lemma GPTNeoXModel_runs config path self :
  natural config → GPTNeoXModel.init config path = Ok self →
  runs config.["hidden_size"] (GPTNeoX_heads config) (GPTNeoXModel.forward self).
Proof.
  intros P H. unfold GPTNeoXModel.init in H. built H.
  unfold GPTNeoXModel.forward.
  match goal with Hl : module_list _ _ _ = Ok _ |- _ => module_runs Hl end.
Qed.
#[local] Hint Resolve GPTNeoXModel_runs : modules.
Lemma GPTNeoXModel_embed_in config path self : GPTNeoXModel.init config path = Ok self →
  self.(GPTNeoXModel.embed_in) = Embedding.init (path ./ "embed_in") (symbolic config "vocab_size") config.["hidden_size"].
Proof. intros H. unfold GPTNeoXModel.init in H. built H. reflexivity. Qed.
Lemma GPTNeoXForCausalLM_typed config path self :
  natural config → GPTNeoXForCausalLM.init config path = Ok self →
  well_typed config.["hidden_size"] (symbolic config "vocab_size") (GPTNeoX_heads config) (GPTNeoXForCausalLM.get_default_spec self) (GPTNeoXForCausalLM.methods self).
Proof.
  intros P H. unfold GPTNeoXForCausalLM.init in H. built H.
  match goal with Hm : GPTNeoXModel.init _ _ = Ok _ |- _ => pose proof (GPTNeoXModel_embed_in _ _ _ Hm) as Hemb_embed_in end.
  functions; unfold GPTNeoXForCausalLM.create_paged_kv_cache, GPTNeoXForCausalLM.batch_verify, GPTNeoXForCausalLM.batch_decode, GPTNeoXForCausalLM.batch_prefill, GPTNeoXForCausalLM.decode, GPTNeoXForCausalLM.prefill, GPTNeoXForCausalLM.embed, GPTNeoXForCausalLM.batch_forward; exported.
Qed.
End GPTNeoX_shapes.
End GPTNeoX.

(** ** [model/phi/phi_model.py] *)

Module Phi.
(** The layers and heads of the cache [create_paged_kv_cache] makes. *)
Definition Phi_heads (config : settings) : heads := {|
  n_layers := config.["n_layer"]; q_heads := (config.["n_head"] / config.["tensor_parallel_shards"]);
  kv_heads := (config.["n_head_kv"] / config.["tensor_parallel_shards"]); head_size := config.["head_dim"]; value_size := config.["head_dim"] |}.

(** [PhiMLP]. *)
Module PhiMLP.
Section network.
Context {nn : NN}.
Record t := { intermediate_size : Z; fc1 : Linear.t; fc2 : Linear.t }.
Definition init (config : settings) (path : string) : result t :=
  _ ← raise_when (negb (config.["n_inner"] mod config.["tensor_parallel_shards"] =? 0)) ValueError
      ("Cannot split MLP intermediate size " +:+ pretty config.["n_inner"] +:+ " evenly to " +:+ pretty
      config.["tensor_parallel_shards"] +:+ " GPUs.");
  let intermediate_size := config.["n_inner"] / config.["tensor_parallel_shards"] in
  let fc1 := Linear.init (path ./ "fc1") config.["n_embd"] intermediate_size true None None in
  let fc2 := Linear.init (path ./ "fc2") intermediate_size config.["n_embd"] true None None in
  Ok {| intermediate_size := intermediate_size; fc1 := fc1; fc2 := fc2 |}.
Definition parameters (self : t) : params :=
  under "fc1" (Linear.parameters self.(fc1)) ++ under "fc2" (Linear.parameters self.(fc2)).
Definition forward (self : t) (hidden_states : T) : T :=
  let hidden_states := Linear.forward self.(fc1) hidden_states in
  let hidden_states := activate (Gelu (PStr "tanh")) hidden_states in
  Linear.forward self.(fc2) hidden_states.
Definition with_fc2 (self : t) (x : Linear.t) : t := {| intermediate_size := self.(intermediate_size); fc1 :=
    self.(fc1); fc2 := x |}.
End network.
End PhiMLP.

(** [PhiMHA]. *)
Module PhiMHA.
Section network.
Context {nn : NN}.
Record t := { num_q_heads : Z; n_head_kv : Z; head_dim : Z; Wqkv : Linear.t; out_proj : Linear.t }.
Definition init (config : settings) (path : string) : result t :=
  let num_q_heads := config.["n_head"] / config.["tensor_parallel_shards"] in
  _ ← py_assert (config.["n_head"] mod config.["tensor_parallel_shards"] =? 0) ("n_head(" +:+ pretty
      config.["n_head"] +:+ ") must be divisible by tensor_parallel_shards");
  let n_head_kv := config.["n_head_kv"] / config.["tensor_parallel_shards"] in
  _ ← py_assert (config.["n_head_kv"] mod config.["tensor_parallel_shards"] =? 0) ("n_head(" +:+ pretty
      config.["n_head_kv"] +:+ ") must be divisible by tensor_parallel_shards");
  let head_dim := config.["head_dim"] in
  let op_size := head_dim * (num_q_heads + (2 * n_head_kv)) in
  let hidden_size := config.["n_embd"] in
  let Wqkv := Linear.init (path ./ "Wqkv") hidden_size op_size true None None in
  let out_proj := Linear.init (path ./ "out_proj") (num_q_heads * head_dim) hidden_size true None None in
  Ok {| num_q_heads := num_q_heads; n_head_kv := n_head_kv; head_dim := head_dim; Wqkv := Wqkv; out_proj := out_proj
      |}.
Definition parameters (self : t) : params :=
  under "Wqkv" (Linear.parameters self.(Wqkv)) ++ under "out_proj" (Linear.parameters self.(out_proj)).
Definition forward (self : t) (hidden_states : T) (paged_kv_cache : Cache) (layer_id : Z) : T * Cache :=
  let d := self.(head_dim) in let h_q := self.(num_q_heads) in let h_kv := self.(n_head_kv) in
  let '(b, s, _) := dims3 hidden_states in
  let qkv := Linear.forward self.(Wqkv) hidden_states in
  let qkv := reshape qkv [b; s; (h_q + h_kv) + h_kv; d] in
  let '(attn_output, paged_kv_cache) := attention_with_fused_qkv paged_kv_cache layer_id qkv self.(num_q_heads) (Pow
      (Num self.(head_dim)) (Lit "-0.5")) in
  let output := reshape attn_output [b; s; h_q * d] in
  (Linear.forward self.(out_proj) output, paged_kv_cache).
Definition with_out_proj (self : t) (x : Linear.t) : t := {| num_q_heads := self.(num_q_heads); n_head_kv :=
    self.(n_head_kv); head_dim := self.(head_dim); Wqkv := self.(Wqkv); out_proj := x |}.
End network.
End PhiMHA.

(** [PhiParallelBlock]. *)
Module PhiParallelBlock.
Section network.
Context {nn : NN}.
Record t := { ln : LayerNorm.t; mixer : PhiMHA.t; mlp : PhiMLP.t; tensor_parallel_shards : Z }.
Definition init (config : settings) (path : string) : result t :=
  let ln := LayerNorm.init (path ./ "ln") config.["n_embd"] (Val (val_of config "layer_norm_epsilon")) true in
  mixer ← PhiMHA.init config (path ./ "mixer");
  mlp ← PhiMLP.init config (path ./ "mlp");
  let tensor_parallel_shards := config.["tensor_parallel_shards"] in
  Ok {| ln := ln; mixer := mixer; mlp := mlp; tensor_parallel_shards := tensor_parallel_shards |}.
Definition parameters (self : t) : params :=
  under "ln" (LayerNorm.parameters self.(ln)) ++ under "mixer" (PhiMHA.parameters self.(mixer)) ++ under "mlp"
      (PhiMLP.parameters self.(mlp)).
Definition set_tp (config : settings) (self : t) : list (string * ShardSingleDim) :=
  let hd := config.["head_dim"] in
  let q := self.(mixer).(PhiMHA.num_q_heads) * hd in
  let k := self.(mixer).(PhiMHA.n_head_kv) * hd in
  let v := self.(mixer).(PhiMHA.n_head_kv) * hd in
  [("mixer.Wqkv.weight", {| shard_name := "_shard_qkv_weight"; shard_dim := 0; segs := Some [q; k; v] |});
   ("mixer.Wqkv.bias", {| shard_name := "_shard_qkv_bias"; shard_dim := 0; segs := Some [q; k; v] |});
   ("mixer.out_proj.weight", {| shard_name := "_shard_o_weight"; shard_dim := 1; segs := None |});
   ("mlp.fc1.weight", {| shard_name := "_shard_mlp_fc1_weight"; shard_dim := 0; segs := None |});
   ("mlp.fc1.bias", {| shard_name := "_shard_mlp_fc1_bias"; shard_dim := 0; segs := None |});
   ("mlp.fc2.weight", {| shard_name := "_shard_mlp_fc2_weight"; shard_dim := 1; segs := None |})].
Definition _apply_parallel_residual (self : t) (attn_out : T) (mlp_out : T) (residual : T) : T :=
  if (self.(tensor_parallel_shards) >? 1) then
    ccl_allreduce ((attn_out ⊕ mlp_out) ⊕ (residual ⊘' (Num self.(tensor_parallel_shards)))) "sum"
  else
    (attn_out ⊕ mlp_out) ⊕ residual.
Definition forward (self : t) (hidden_states : T) (paged_kv_cache : Cache) (layer_id : Z) : T * Cache :=
  let residual := hidden_states in
  let hidden_states := LayerNorm.forward self.(ln) hidden_states in
  let mixer := PhiMHA.with_out_proj self.(mixer) (shard_bias self.(mixer).(PhiMHA.out_proj)
      self.(tensor_parallel_shards)) in
  let mlp := PhiMLP.with_fc2 self.(mlp) (shard_bias self.(mlp).(PhiMLP.fc2) self.(tensor_parallel_shards)) in
  let '(attn_outputs, paged_kv_cache) := PhiMHA.forward mixer hidden_states paged_kv_cache layer_id in
  let feed_forward_hidden_states := PhiMLP.forward mlp hidden_states in
  let hidden_states := _apply_parallel_residual self attn_outputs feed_forward_hidden_states residual in
  (hidden_states, paged_kv_cache).
End network.
End PhiParallelBlock.

(** [PhiCausalLMHead]. *)
Module PhiCausalLMHead.
Section network.
Context {nn : NN}.
Record t := { ln : LayerNorm.t; linear : Linear.t }.
Definition init (config : settings) (path : string) : result t :=
  let ln := LayerNorm.init (path ./ "ln") config.["n_embd"] (Val (val_of config "layer_norm_epsilon")) true in
  let linear := Linear.init (path ./ "linear") config.["n_embd"] (symbolic config "vocab_size") true None None in
  Ok {| ln := ln; linear := linear |}.
Definition parameters (self : t) : params :=
  under "ln" (LayerNorm.parameters self.(ln)) ++ under "linear" (Linear.parameters self.(linear)).
Definition forward (self : t) (hidden_states : T) : T :=
  let hidden_states := LayerNorm.forward self.(ln) hidden_states in
  let logits := Linear.forward self.(linear) hidden_states in
  if negb (bool_decide (dtype_of logits = "float32")) then astype logits "float32" else logits.
End network.
End PhiCausalLMHead.

(** [PhiModel]. *)
Module PhiModel.
Section network.
Context {nn : NN}.
Record t := { embd : Embedding.t; h : list PhiParallelBlock.t }.
Definition init (config : settings) (path : string) : result t :=
  let embd := Embedding.init (path ./ "embd") config.["vocab_size"] config.["n_embd"] in
  h ← module_list (path ./ "h") config.["n_layer"] (λ _ path, PhiParallelBlock.init config path);
  Ok {| embd := embd; h := h |}.
Definition parameters (self : t) : params :=
  under "embd" (Embedding.parameters self.(embd)) ++ list_params "h" PhiParallelBlock.parameters self.(h).
Definition forward (self : t) (input_embed : T) (paged_kv_cache : Cache) : T * Cache :=
  let hidden_states := input_embed in
  let '(hidden_states, paged_kv_cache) :=
    for_layers self.(h) (λ layer_id layer '(hidden_states, paged_kv_cache),
      PhiParallelBlock.forward layer hidden_states paged_kv_cache layer_id) (hidden_states, paged_kv_cache) in
  (hidden_states, paged_kv_cache).
End network.
End PhiModel.

(** [PhiForCausalLM]. *)
Module PhiForCausalLM.
Section network.
Context {nn : NN}.
Record t := { transformer : PhiModel.t; lm_head : PhiCausalLMHead.t; num_hidden_layers : Z; num_attention_heads : Z;
    num_key_value_heads : Z; head_dim : Z; hidden_size : Z; vocab_size : Z; rope_theta : Z; tensor_parallel_shards :
    Z; rotary_dim : Z; dtype : string }.
Definition init (config : settings) (path : string) : result t :=
  (* config of another class *)
  transformer ← PhiModel.init config (path ./ "transformer");
  lm_head ← PhiCausalLMHead.init config (path ./ "lm_head");
  let num_hidden_layers := config.["n_layer"] in
  let num_attention_heads := config.["n_head"] in
  let num_key_value_heads := config.["n_head_kv"] in
  let head_dim := config.["head_dim"] in
  let hidden_size := config.["n_embd"] in
  let vocab_size := config.["vocab_size"] in
  let rope_theta := config.["position_embedding_base"] in
  let tensor_parallel_shards := config.["tensor_parallel_shards"] in
  let rotary_dim := config.["rotary_dim"] in
  let dtype := "float32" in
  Ok {| transformer := transformer; lm_head := lm_head; num_hidden_layers := num_hidden_layers; num_attention_heads
      := num_attention_heads; num_key_value_heads := num_key_value_heads; head_dim := head_dim; hidden_size :=
      hidden_size; vocab_size := vocab_size; rope_theta := rope_theta; tensor_parallel_shards :=
      tensor_parallel_shards; rotary_dim := rotary_dim; dtype := dtype |}.
Definition parameters (self : t) : params :=
  under "transformer" (PhiModel.parameters self.(transformer)) ++ under "lm_head" (PhiCausalLMHead.parameters
      self.(lm_head)).
Definition batch_forward (self : t) (input_embeds : T) (paged_kv_cache : Cache) (logit_positions : option T) : T *
    Cache :=
  let '(hidden_states, paged_kv_cache) := PhiModel.forward self.(transformer) input_embeds paged_kv_cache in
  let hidden_states :=
    match logit_positions with
    | Some logit_positions =>
        take hidden_states logit_positions 1
    | None => hidden_states
    end in
  let lm_logits := PhiCausalLMHead.forward self.(lm_head) hidden_states in
  let lm_logits := if negb (bool_decide (dtype_of lm_logits = "float32")) then astype lm_logits "float32" else
      lm_logits in
  (lm_logits, paged_kv_cache).
Definition prefill (self : t) (input_embed : T) (paged_kv_cache : Cache) : T * Cache :=
  let '(hidden_states, paged_kv_cache) := PhiModel.forward self.(transformer) input_embed paged_kv_cache in
  let hidden_states := index_last_token hidden_states in
  let logits := PhiCausalLMHead.forward self.(lm_head) hidden_states in
  let logits := if negb (bool_decide (dtype_of logits = "float32")) then astype logits "float32" else logits in
  (logits, paged_kv_cache).
Definition decode (self : t) (input_embed : T) (paged_kv_cache : Cache) : T * Cache :=
  let '(hidden_states, paged_kv_cache) := PhiModel.forward self.(transformer) input_embed paged_kv_cache in
  let logits := PhiCausalLMHead.forward self.(lm_head) hidden_states in
  let logits := if negb (bool_decide (dtype_of logits = "float32")) then astype logits "float32" else logits in
  (logits, paged_kv_cache).
Definition batch_prefill (self : t) (input_embeds : T) (logit_positions : T) (paged_kv_cache : Cache) : T * Cache :=
  let logit_positions := if (self.(tensor_parallel_shards) >? 1) then ccl_broadcast_from_worker0 logit_positions else
      logit_positions in
  batch_forward self input_embeds paged_kv_cache (Some logit_positions).
Definition batch_decode (self : t) (input_embeds : T) (paged_kv_cache : Cache) : T * Cache :=
  batch_forward self input_embeds paged_kv_cache None.
Definition batch_verify (self : t) (input_embeds : T) (paged_kv_cache : Cache) : T * Cache :=
  batch_forward self input_embeds paged_kv_cache None.
Definition embed (self : t) (input_ids : T) : T :=
  let input_ids := if (self.(tensor_parallel_shards) >? 1) then ccl_broadcast_from_worker0 input_ids else input_ids in
  Embedding.forward self.(transformer).(PhiModel.embd) input_ids.
Definition create_paged_kv_cache (self : t) (max_batch_size : Z) (max_total_seq_len : Z) (prefill_chunk_size : Z)
    (page_size : Z) (support_sliding_window : Z) : Cache :=
  create_generic (PStr "mha") max_batch_size max_total_seq_len prefill_chunk_size page_size support_sliding_window
      self.(num_hidden_layers) (self.(num_attention_heads) / self.(tensor_parallel_shards))
      (self.(num_key_value_heads) / self.(tensor_parallel_shards)) self.(head_dim) self.(head_dim) "NORMAL" (Num 1)
      (Num self.(rope_theta)) self.(dtype) (Some self.(rotary_dim)) PNone PNone None false.
Definition get_default_spec (self : t) : mod_spec := [
  ("embed", packed [("input_ids", STensor [Named "seq_len"] "int32")]);
  ("prefill", packed [("input_embed", STensor [Fixed 1; Named "seq_len"; Fixed self.(hidden_size)] self.(dtype));
      ("paged_kv_cache", SObject)]);
  ("decode", packed [("input_embed", STensor [Fixed 1; Fixed 1; Fixed self.(hidden_size)] self.(dtype));
      ("paged_kv_cache", SObject)]);
  ("batch_prefill", packed [("input_embeds", STensor [Fixed 1; Named "seq_len"; Fixed self.(hidden_size)]
      self.(dtype)); ("logit_positions", STensor [Named "batch_size"] "int32"); ("paged_kv_cache", SObject)]);
  ("batch_decode", packed [("input_embeds", STensor [Named "batch_size"; Fixed 1; Fixed self.(hidden_size)]
      self.(dtype)); ("paged_kv_cache", SObject)]);
  ("batch_verify", packed [("input_embeds", STensor [Fixed 1; Named "seq_len"; Fixed self.(hidden_size)]
      self.(dtype)); ("paged_kv_cache", SObject)]);
  ("create_paged_kv_cache", unpacked [("max_batch_size", SInt); ("max_total_seq_len", SInt); ("prefill_chunk_size",
      SInt); ("page_size", SInt); ("support_sliding_window", SInt)])].
Definition methods (self : t) : list (string * method) := [
  ("embed", Method ["input_ids"] (method_t (embed self)));
  ("prefill", Method ["input_embed"; "paged_kv_cache"] (method_tc (prefill self)));
  ("decode", Method ["input_embed"; "paged_kv_cache"] (method_tc (decode self)));
  ("batch_prefill", Method ["input_embeds"; "logit_positions"; "paged_kv_cache"] (method_ttc (batch_prefill self)));
  ("batch_decode", Method ["input_embeds"; "paged_kv_cache"] (method_tc (batch_decode self)));
  ("batch_verify", Method ["input_embeds"; "paged_kv_cache"] (method_tc (batch_verify self)));
  ("create_paged_kv_cache", Method ["max_batch_size"; "max_total_seq_len"; "prefill_chunk_size"; "page_size";
      "support_sliding_window"] (method_ints (create_paged_kv_cache self)))].
End network.
End PhiForCausalLM.

(** The shapes of its parts. *)
Section Phi_shapes.
Context {nn : NN} {laws : NNLaws nn}.
Lemma PhiMLP_maps config path self :
  natural config → PhiMLP.init config path = Ok self →
  maps_shape config.["n_embd"] config.["n_embd"] (PhiMLP.forward self).
Proof. intros P H. unfold PhiMLP.init in H. built H. unfold PhiMLP.with_fc2, PhiMLP.forward. module_maps. Qed.
#[local] Hint Resolve PhiMLP_maps : modules.
Lemma PhiMLP_biased_fc2 config path self tp :
  natural config → PhiMLP.init config path = Ok self →
  maps_shape config.["n_embd"] config.["n_embd"] (PhiMLP.forward (PhiMLP.with_fc2 self (shard_bias self.(PhiMLP.fc2) tp))).
Proof. intros P H. unfold PhiMLP.init in H. built H. unfold PhiMLP.with_fc2, PhiMLP.forward. module_maps. Qed.
#[local] Hint Resolve PhiMLP_biased_fc2 : modules.
Lemma PhiMHA_attends config path self :
  natural config → PhiMHA.init config path = Ok self →
  attends config.["n_embd"] (Phi_heads config) (PhiMHA.forward self).
Proof. intros P H. unfold PhiMHA.init in H. built H. unfold PhiMHA.with_out_proj, PhiMHA.forward. module_attends. Qed.
#[local] Hint Resolve PhiMHA_attends : modules.
Lemma PhiMHA_biased_out_proj config path self tp :
  natural config → PhiMHA.init config path = Ok self →
  attends config.["n_embd"] (Phi_heads config) (PhiMHA.forward (PhiMHA.with_out_proj self (shard_bias self.(PhiMHA.out_proj) tp))).
Proof. intros P H. unfold PhiMHA.init in H. built H. unfold PhiMHA.with_out_proj, PhiMHA.forward. module_attends. Qed.
#[local] Hint Resolve PhiMHA_biased_out_proj : modules.
Lemma PhiParallelBlock_attends config path self :
  natural config → PhiParallelBlock.init config path = Ok self →
  attends config.["n_embd"] (Phi_heads config) (PhiParallelBlock.forward self).
Proof. intros P H. unfold PhiParallelBlock.init in H. built H. unfold PhiParallelBlock.forward, PhiParallelBlock._apply_parallel_residual. module_attends. Qed.
#[local] Hint Resolve PhiParallelBlock_attends : modules.
Lemma PhiCausalLMHead_maps config path self :
  natural config → PhiCausalLMHead.init config path = Ok self →
  maps_shape config.["n_embd"] (symbolic config "vocab_size") (PhiCausalLMHead.forward self).
Proof. intros P H. unfold PhiCausalLMHead.init in H. built H. unfold PhiCausalLMHead.forward. module_maps. Qed.
#[local] Hint Resolve PhiCausalLMHead_maps : modules.
Lemma PhiModel_runs config path self :
  natural config → PhiModel.init config path = Ok self →
  runs config.["n_embd"] (Phi_heads config) (PhiModel.forward self).
Proof.
  intros P H. unfold PhiModel.init in H. built H.
  unfold PhiModel.forward.
  match goal with Hl : module_list _ _ _ = Ok _ |- _ => module_runs Hl end.
Qed.
#[local] Hint Resolve PhiModel_runs : modules.
Lemma PhiModel_embd config path self : PhiModel.init config path = Ok self →
  self.(PhiModel.embd) = Embedding.init (path ./ "embd") config.["vocab_size"] config.["n_embd"].
Proof. intros H. unfold PhiModel.init in H. built H. reflexivity. Qed.
Lemma PhiForCausalLM_typed config path self :
  natural config → PhiForCausalLM.init config path = Ok self →
  well_typed config.["n_embd"] (symbolic config "vocab_size") (Phi_heads config) (PhiForCausalLM.get_default_spec self) (PhiForCausalLM.methods self).
Proof.
  intros P H. unfold PhiForCausalLM.init in H. built H.
  match goal with Hm : PhiModel.init _ _ = Ok _ |- _ => pose proof (PhiModel_embd _ _ _ Hm) as Hemb_embd end.
  functions; unfold PhiForCausalLM.create_paged_kv_cache, PhiForCausalLM.embed, PhiForCausalLM.batch_verify, PhiForCausalLM.batch_decode, PhiForCausalLM.batch_prefill, PhiForCausalLM.decode, PhiForCausalLM.prefill, PhiForCausalLM.batch_forward; exported.
Qed.
End Phi_shapes.
End Phi.

(** ** [model/starcoder2/starcoder2_model.py] *)

Module Starcoder2.
(** The layers and heads of the cache [create_paged_kv_cache] makes. *)
Definition Starcoder2_heads (config : settings) : heads := {|
  n_layers := config.["num_hidden_layers"]; q_heads := (config.["num_attention_heads"] / config.["tensor_parallel_shards"]);
  kv_heads := (config.["num_key_value_heads"] / config.["tensor_parallel_shards"]); head_size := config.["head_dim"]; value_size := config.["head_dim"] |}.

(** [Starcoder2Attention]. *)
Module Starcoder2Attention.
Section network.
Context {nn : NN}.
Record t := { hidden_size : Z; rope_theta : Z; tensor_parallel_shards : Z; num_heads : Z; head_dim : Z;
    num_key_value_heads : Z; num_key_value_groups : Z; max_position_embeddings : Z; use_bias : bool; wqkv_pack :
    Linear.t; o_proj : Linear.t }.
Definition init (config : settings) (path : string) : result t :=
  let hidden_size := config.["hidden_size"] in
  let rope_theta := config.["rope_theta"] in
  let tensor_parallel_shards := config.["tensor_parallel_shards"] in
  _ ← raise_when (negb (config.["num_attention_heads"] mod config.["tensor_parallel_shards"] =? 0)) ValueError
      ("Cannot split " +:+ pretty config.["num_attention_heads"] +:+ " attention heads evenly to " +:+ pretty
      config.["tensor_parallel_shards"] +:+ " GPUs.");
  let num_heads := config.["num_attention_heads"] / tensor_parallel_shards in
  let head_dim := config.["head_dim"] in
  let num_key_value_heads := config.["num_key_value_heads"] / tensor_parallel_shards in
  let num_key_value_groups := num_heads / num_key_value_heads in
  let max_position_embeddings := config.["context_window_size"] in
  let use_bias := config.?["use_bias"] in
  let wqkv_pack := Linear.init (path ./ "wqkv_pack") hidden_size ((num_heads + (2 * num_key_value_heads)) * head_dim)
      use_bias None None in
  let o_proj := Linear.init (path ./ "o_proj") (num_heads * head_dim) hidden_size use_bias None None in
  Ok {| hidden_size := hidden_size; rope_theta := rope_theta; tensor_parallel_shards := tensor_parallel_shards;
      num_heads := num_heads; head_dim := head_dim; num_key_value_heads := num_key_value_heads; num_key_value_groups
      := num_key_value_groups; max_position_embeddings := max_position_embeddings; use_bias := use_bias; wqkv_pack :=
      wqkv_pack; o_proj := o_proj |}.
Definition parameters (self : t) : params :=
  under "wqkv_pack" (Linear.parameters self.(wqkv_pack)) ++ under "o_proj" (Linear.parameters self.(o_proj)).
Definition forward (self : t) (hidden_states : T) (paged_kv_cache : Cache) (layer_id : Z) : T * Cache :=
  let d := self.(head_dim) in let h_q := self.(num_heads) in let h_kv := self.(num_key_value_heads) in
  let '(b, s, _) := dims3 hidden_states in
  let qkv := Linear.forward self.(wqkv_pack) hidden_states in
  let qkv := reshape qkv [b; s; (h_q + h_kv) + h_kv; d] in
  let '(attn_output, paged_kv_cache) := attention_with_fused_qkv paged_kv_cache layer_id qkv self.(num_heads) (Pow
      (Num self.(head_dim)) (Lit "-0.5")) in
  let output := reshape attn_output [b; s; h_q * d] in
  let attn_output := Linear.forward self.(o_proj) output in
  (attn_output, paged_kv_cache).
End network.
End Starcoder2Attention.

(** [Starcoder2MLP]. *)
Module Starcoder2MLP.
Section network.
Context {nn : NN}.
Record t := { intermediate_size : Z; c_fc : Linear.t; c_proj : Linear.t }.
Definition init (config : settings) (path : string) : result t :=
  _ ← raise_when (negb (config.["intermediate_size"] mod config.["tensor_parallel_shards"] =? 0)) ValueError
      ("Cannot split MLP intermediate size " +:+ pretty config.["intermediate_size"] +:+ " evenly to " +:+ pretty
      config.["tensor_parallel_shards"] +:+ " GPUs.");
  let intermediate_size := config.["intermediate_size"] / config.["tensor_parallel_shards"] in
  let embed_dim := config.["hidden_size"] in
  let c_fc := Linear.init (path ./ "c_fc") embed_dim intermediate_size config.?["use_bias"] None None in
  let c_proj := Linear.init (path ./ "c_proj") intermediate_size embed_dim config.?["use_bias"] None None in
  Ok {| intermediate_size := intermediate_size; c_fc := c_fc; c_proj := c_proj |}.
Definition parameters (self : t) : params :=
  under "c_fc" (Linear.parameters self.(c_fc)) ++ under "c_proj" (Linear.parameters self.(c_proj)).
Definition forward (self : t) (hidden_states : T) : T :=
  let hidden_states := Linear.forward self.(c_fc) hidden_states in
  let hidden_states := activate (Gelu (PStr "tanh")) hidden_states in
  Linear.forward self.(c_proj) hidden_states.
End network.
End Starcoder2MLP.

(** [Starcoder2DecoderLayer]. *)
Module Starcoder2DecoderLayer.
Section network.
Context {nn : NN}.
Record t := { hidden_size : Z; self_attn : Starcoder2Attention.t; mlp : Starcoder2MLP.t; input_layernorm :
    LayerNorm.t; post_attention_layernorm : LayerNorm.t; tensor_parallel_shards : Z }.
Definition init (config : settings) (path : string) : result t :=
  let hidden_size := config.["hidden_size"] in
  self_attn ← Starcoder2Attention.init config (path ./ "self_attn");
  mlp ← Starcoder2MLP.init config (path ./ "mlp");
  let input_layernorm := LayerNorm.init (path ./ "input_layernorm") config.["hidden_size"] (Val (val_of config
      "norm_epsilon")) true in
  let post_attention_layernorm := LayerNorm.init (path ./ "post_attention_layernorm") config.["hidden_size"] (Val
      (val_of config "norm_epsilon")) true in
  let tensor_parallel_shards := config.["tensor_parallel_shards"] in
  Ok {| hidden_size := hidden_size; self_attn := self_attn; mlp := mlp; input_layernorm := input_layernorm;
      post_attention_layernorm := post_attention_layernorm; tensor_parallel_shards := tensor_parallel_shards |}.
Definition parameters (self : t) : params :=
  under "self_attn" (Starcoder2Attention.parameters self.(self_attn)) ++ under "mlp" (Starcoder2MLP.parameters
      self.(mlp)) ++ under "input_layernorm" (LayerNorm.parameters self.(input_layernorm)) ++ under
      "post_attention_layernorm" (LayerNorm.parameters self.(post_attention_layernorm)).
Definition set_tp (config : settings) (self : t) : list (string * ShardSingleDim) :=
  let hd := config.["head_dim"] in
  let q := self.(self_attn).(Starcoder2Attention.num_heads) * hd in
  let k := self.(self_attn).(Starcoder2Attention.num_key_value_heads) * hd in
  let v := self.(self_attn).(Starcoder2Attention.num_key_value_heads) * hd in
  [("self_attn.wqkv_pack.weight", {| shard_name := "_shard_qkv_weight"; shard_dim := 0; segs := Some [q; k; v] |})] ++
  (if config.?["use_bias"] then [("self_attn.wqkv_pack.bias", {| shard_name := "_shard_qkv_bias"; shard_dim := 0;
      segs := Some [q; k; v] |})] else []) ++
  [("self_attn.o_proj.weight", {| shard_name := "_shard_o"; shard_dim := 1; segs := None |});
   ("mlp.c_fc.weight", {| shard_name := "_shard_c_fc_weight"; shard_dim := 0; segs := None |})] ++
  (if config.?["use_bias"] then [("mlp.c_fc.bias", {| shard_name := "_shard_c_fc_bias"; shard_dim := 0; segs := None
      |})] else []) ++
  [("mlp.c_proj.weight", {| shard_name := "_shard_mlp_c_proj"; shard_dim := 1; segs := None |})] ++
  (if config.?["use_bias"] then [("mlp.c_proj.bias", {| shard_name := "_shard_mlp_c_proj_bias"; shard_dim := 0; segs
      := None |})] else []).
Definition _apply_residual (self : t) (out : T) (residual : T) : T :=
  if (self.(tensor_parallel_shards) >? 1) then
    (ccl_allreduce out "sum") ⊕ residual
  else
    out ⊕ residual.
Definition forward (self : t) (hidden_states : T) (paged_kv_cache : Cache) (layer_id : Z) : T * Cache :=
  let '(out, paged_kv_cache) := Starcoder2Attention.forward self.(self_attn) (LayerNorm.forward
      self.(input_layernorm) hidden_states) paged_kv_cache layer_id in
  let hidden_states := _apply_residual self out hidden_states in
  let out := Starcoder2MLP.forward self.(mlp) (LayerNorm.forward self.(post_attention_layernorm) hidden_states) in
  let hidden_states := _apply_residual self out hidden_states in
  (hidden_states, paged_kv_cache).
End network.
End Starcoder2DecoderLayer.

(** [Starcoder2Model]. *)
Module Starcoder2Model.
Section network.
Context {nn : NN}.
Record t := { embed_tokens : Embedding.t; layers : list Starcoder2DecoderLayer.t; norm : LayerNorm.t }.
Definition init (config : settings) (path : string) : result t :=
  _ ← py_assert (config.["hidden_size"] mod config.["num_attention_heads"] =? 0) "";
  let embed_tokens := Embedding.init (path ./ "embed_tokens") config.["vocab_size"] config.["hidden_size"] in
  layers ← module_list (path ./ "layers") config.["num_hidden_layers"] (λ _ path, Starcoder2DecoderLayer.init config
      path);
  let norm := LayerNorm.init (path ./ "norm") config.["hidden_size"] (Val (val_of config "norm_epsilon")) true in
  Ok {| embed_tokens := embed_tokens; layers := layers; norm := norm |}.
Definition parameters (self : t) : params :=
  under "embed_tokens" (Embedding.parameters self.(embed_tokens)) ++ list_params "layers"
      Starcoder2DecoderLayer.parameters self.(layers) ++ under "norm" (LayerNorm.parameters self.(norm)).
Definition forward (self : t) (inputs : T) (paged_kv_cache : Cache) : T * Cache :=
  let hidden_states := inputs in
  let '(hidden_states, paged_kv_cache) :=
    for_layers self.(layers) (λ layer_id layer '(hidden_states, paged_kv_cache),
      Starcoder2DecoderLayer.forward layer hidden_states paged_kv_cache layer_id) (hidden_states, paged_kv_cache) in
  let hidden_states := LayerNorm.forward self.(norm) hidden_states in
  (hidden_states, paged_kv_cache).
End network.
End Starcoder2Model.

(** [Starcoder2ForCausalLM]. *)
Module Starcoder2ForCausalLM.
Section network.
Context {nn : NN}.
Record t := { model : Starcoder2Model.t; lm_head : Linear.t; vocab_size : Z; num_hidden_layers : Z; hidden_size : Z;
    num_attention_heads : Z; num_key_value_heads : Z; head_dim : Z; rope_theta : Z; tensor_parallel_shards : Z; dtype
    : string }.
Definition init (config : settings) (path : string) : result t :=
  model ← Starcoder2Model.init config (path ./ "model");
  let lm_head := Linear.init (path ./ "lm_head") config.["hidden_size"] config.["vocab_size"] false None None in
  let vocab_size := config.["vocab_size"] in
  let num_hidden_layers := config.["num_hidden_layers"] in
  let hidden_size := config.["hidden_size"] in
  let num_attention_heads := config.["num_attention_heads"] in
  let num_key_value_heads := config.["num_key_value_heads"] in
  let head_dim := config.["head_dim"] in
  let vocab_size := config.["vocab_size"] in
  let rope_theta := config.["rope_theta"] in
  let tensor_parallel_shards := config.["tensor_parallel_shards"] in
  let dtype := "float32" in
  Ok {| model := model; lm_head := lm_head; vocab_size := vocab_size; num_hidden_layers := num_hidden_layers;
      hidden_size := hidden_size; num_attention_heads := num_attention_heads; num_key_value_heads :=
      num_key_value_heads; head_dim := head_dim; rope_theta := rope_theta; tensor_parallel_shards :=
      tensor_parallel_shards; dtype := dtype |}.
Definition parameters (self : t) : params :=
  under "model" (Starcoder2Model.parameters self.(model)) ++ under "lm_head" (Linear.parameters self.(lm_head)).
Definition batch_forward (self : t) (input_embeds : T) (paged_kv_cache : Cache) (logit_positions : option T) : T *
    Cache :=
  let '(hidden_states, paged_kv_cache) := Starcoder2Model.forward self.(model) input_embeds paged_kv_cache in
  let hidden_states :=
    match logit_positions with
    | Some logit_positions =>
        take hidden_states logit_positions 1
    | None => hidden_states
    end in
  let logits := Linear.forward self.(lm_head) hidden_states in
  let logits := if negb (bool_decide (dtype_of logits = "float32")) then astype logits "float32" else logits in
  (logits, paged_kv_cache).
Definition embed (self : t) (input_ids : T) : T :=
  let input_ids := if (self.(tensor_parallel_shards) >? 1) then ccl_broadcast_from_worker0 input_ids else input_ids in
  Embedding.forward self.(model).(Starcoder2Model.embed_tokens) input_ids.
Definition prefill (self : t) (input_embed : T) (paged_kv_cache : Cache) : T * Cache :=
  let '(hidden_states, paged_kv_cache) := Starcoder2Model.forward self.(model) input_embed paged_kv_cache in
  let hidden_states := index_last_token hidden_states in
  let logits := Linear.forward self.(lm_head) hidden_states in
  let logits := if negb (bool_decide (dtype_of logits = "float32")) then astype logits "float32" else logits in
  (logits, paged_kv_cache).
Definition decode (self : t) (input_embed : T) (paged_kv_cache : Cache) : T * Cache :=
  let '(hidden_states, paged_kv_cache) := Starcoder2Model.forward self.(model) input_embed paged_kv_cache in
  let logits := Linear.forward self.(lm_head) hidden_states in
  let logits := if negb (bool_decide (dtype_of logits = "float32")) then astype logits "float32" else logits in
  (logits, paged_kv_cache).
Definition batch_prefill (self : t) (input_embeds : T) (logit_positions : T) (paged_kv_cache : Cache) : T * Cache :=
  let logit_positions := if (self.(tensor_parallel_shards) >? 1) then ccl_broadcast_from_worker0 logit_positions else
      logit_positions in
  batch_forward self input_embeds paged_kv_cache (Some logit_positions).
Definition batch_decode (self : t) (input_embeds : T) (paged_kv_cache : Cache) : T * Cache :=
  batch_forward self input_embeds paged_kv_cache None.
Definition batch_verify (self : t) (input_embeds : T) (paged_kv_cache : Cache) : T * Cache :=
  batch_forward self input_embeds paged_kv_cache None.
Definition create_paged_kv_cache (self : t) (max_batch_size : Z) (max_total_seq_len : Z) (prefill_chunk_size : Z)
    (page_size : Z) (support_sliding_window : Z) : Cache :=
  create_generic (PStr "mha") max_batch_size max_total_seq_len prefill_chunk_size page_size support_sliding_window
      self.(num_hidden_layers) (self.(num_attention_heads) / self.(tensor_parallel_shards))
      (self.(num_key_value_heads) / self.(tensor_parallel_shards)) self.(head_dim) self.(head_dim) "NORMAL" (Num 1)
      (Num self.(rope_theta)) self.(dtype) None PNone PNone None false.
Definition get_default_spec (self : t) : mod_spec := [
  ("embed", packed [("input_ids", STensor [Named "seq_len"] "int32")]);
  ("prefill", packed [("input_embed", STensor [Fixed 1; Named "seq_len"; Fixed self.(hidden_size)] self.(dtype));
      ("paged_kv_cache", SObject)]);
  ("decode", packed [("input_embed", STensor [Fixed 1; Fixed 1; Fixed self.(hidden_size)] self.(dtype));
      ("paged_kv_cache", SObject)]);
  ("batch_prefill", packed [("input_embeds", STensor [Fixed 1; Named "seq_len"; Fixed self.(hidden_size)]
      self.(dtype)); ("logit_positions", STensor [Named "batch_size"] "int32"); ("paged_kv_cache", SObject)]);
  ("batch_decode", packed [("input_embeds", STensor [Named "batch_size"; Fixed 1; Fixed self.(hidden_size)]
      self.(dtype)); ("paged_kv_cache", SObject)]);
  ("batch_verify", packed [("input_embeds", STensor [Fixed 1; Named "seq_len"; Fixed self.(hidden_size)]
      self.(dtype)); ("paged_kv_cache", SObject)]);
  ("create_paged_kv_cache", unpacked [("max_batch_size", SInt); ("max_total_seq_len", SInt); ("prefill_chunk_size",
      SInt); ("page_size", SInt); ("support_sliding_window", SInt)])].
Definition methods (self : t) : list (string * method) := [
  ("embed", Method ["input_ids"] (method_t (embed self)));
  ("prefill", Method ["input_embed"; "paged_kv_cache"] (method_tc (prefill self)));
  ("decode", Method ["input_embed"; "paged_kv_cache"] (method_tc (decode self)));
  ("batch_prefill", Method ["input_embeds"; "logit_positions"; "paged_kv_cache"] (method_ttc (batch_prefill self)));
  ("batch_decode", Method ["input_embeds"; "paged_kv_cache"] (method_tc (batch_decode self)));
  ("batch_verify", Method ["input_embeds"; "paged_kv_cache"] (method_tc (batch_verify self)));
  ("create_paged_kv_cache", Method ["max_batch_size"; "max_total_seq_len"; "prefill_chunk_size"; "page_size";
      "support_sliding_window"] (method_ints (create_paged_kv_cache self)))].
End network.
End Starcoder2ForCausalLM.

(** The shapes of its parts. *)
Section Starcoder2_shapes.
Context {nn : NN} {laws : NNLaws nn}.
Lemma Starcoder2Attention_attends config path self :
  natural config → Starcoder2Attention.init config path = Ok self →
  attends config.["hidden_size"] (Starcoder2_heads config) (Starcoder2Attention.forward self).
Proof. intros P H. unfold Starcoder2Attention.init in H. built H. unfold Starcoder2Attention.forward. module_attends. Qed.
#[local] Hint Resolve Starcoder2Attention_attends : modules.
Lemma Starcoder2MLP_maps config path self :
  natural config → Starcoder2MLP.init config path = Ok self →
  maps_shape config.["hidden_size"] config.["hidden_size"] (Starcoder2MLP.forward self).
Proof. intros P H. unfold Starcoder2MLP.init in H. built H. unfold Starcoder2MLP.forward. module_maps. Qed.
#[local] Hint Resolve Starcoder2MLP_maps : modules.
Lemma Starcoder2DecoderLayer_attends config path self :
  natural config → Starcoder2DecoderLayer.init config path = Ok self →
  attends config.["hidden_size"] (Starcoder2_heads config) (Starcoder2DecoderLayer.forward self).
Proof. intros P H. unfold Starcoder2DecoderLayer.init in H. built H. unfold Starcoder2DecoderLayer.forward, Starcoder2DecoderLayer._apply_residual. module_attends. Qed.
#[local] Hint Resolve Starcoder2DecoderLayer_attends : modules.
Lemma Starcoder2Model_runs config path self :
  natural config → Starcoder2Model.init config path = Ok self →
  runs config.["hidden_size"] (Starcoder2_heads config) (Starcoder2Model.forward self).
Proof.
  intros P H. unfold Starcoder2Model.init in H. built H.
  unfold Starcoder2Model.forward.
  match goal with Hl : module_list _ _ _ = Ok _ |- _ => module_runs Hl end.
Qed.
#[local] Hint Resolve Starcoder2Model_runs : modules.
Lemma Starcoder2Model_embed_tokens config path self : Starcoder2Model.init config path = Ok self →
  self.(Starcoder2Model.embed_tokens) = Embedding.init (path ./ "embed_tokens") config.["vocab_size"] config.["hidden_size"].
Proof. intros H. unfold Starcoder2Model.init in H. built H. reflexivity. Qed.
Lemma Starcoder2ForCausalLM_typed config path self :
  natural config → Starcoder2ForCausalLM.init config path = Ok self →
  well_typed config.["hidden_size"] config.["vocab_size"] (Starcoder2_heads config) (Starcoder2ForCausalLM.get_default_spec self) (Starcoder2ForCausalLM.methods self).
Proof.
  intros P H. unfold Starcoder2ForCausalLM.init in H. built H.
  match goal with Hm : Starcoder2Model.init _ _ = Ok _ |- _ => pose proof (Starcoder2Model_embed_tokens _ _ _ Hm) as Hemb_embed_tokens end.
  functions; unfold Starcoder2ForCausalLM.create_paged_kv_cache, Starcoder2ForCausalLM.batch_verify, Starcoder2ForCausalLM.batch_decode, Starcoder2ForCausalLM.batch_prefill, Starcoder2ForCausalLM.decode, Starcoder2ForCausalLM.prefill, Starcoder2ForCausalLM.embed, Starcoder2ForCausalLM.batch_forward; exported.
Qed.
End Starcoder2_shapes.
End Starcoder2.
