(* ===== verification/NetsGemma.v ===== *)
(** The networks of [model/]: Gemma, Cohere, Nemotron and OLMo. Each class is a module with its record, [init], the
    parameters it has, the methods of the source, and for the exported class the specification
    [get_default_spec] and the table of its methods; after a network come the shapes of its parts. *)

From Stdlib Require Import Lia ZArith.
From stdpp Require Import base gmap strings list list_numbers numbers pretty.
From S2P Require Import Prelude PyString PyObject Kernel Config Sharding Network Shapes.
Open Scope Z_scope.

(** ** [model/gemma/gemma_model.py] *)

Module Gemma.
(** The layers and heads of the cache [create_paged_kv_cache] makes. *)
Definition Gemma_heads (config : settings) : heads := {|
  n_layers := config.["num_hidden_layers"]; q_heads := (config.["num_attention_heads"] / config.["tensor_parallel_shards"]);
  kv_heads := (config.["num_key_value_heads"] / config.["tensor_parallel_shards"]); head_size := config.["head_dim"]; value_size := config.["head_dim"] |}.

(** [GemmaEmbedding]. *)
Module GemmaEmbedding.
Section network.
Context {nn : NN}.
Definition t : Type := Embedding.t.
Definition init : string → Z → Z → t := Embedding.init.
Definition forward : t → T → T := Embedding.forward.
Definition parameters : t → params := Embedding.parameters.
Definition lm_head_forward (self : t) (x : T) : T :=
  let weight := permute_dims self.(Embedding.weight) [] in
  matmul x weight (Some "float32").
End network.
End GemmaEmbedding.

(** [GemmaMLP]. *)
Module GemmaMLP.
Section network.
Context {nn : NN}.
Record t := { intermediate_size : Z; gate_up_proj : Linear.t; down_proj : Linear.t }.
Definition init (config : settings) (path : string) : result t :=
  _ ← raise_when (negb (config.["intermediate_size"] mod config.["tensor_parallel_shards"] =? 0)) ValueError
      ("Cannot split MLP intermediate size " +:+ pretty config.["intermediate_size"] +:+ " evenly to " +:+ pretty
      config.["tensor_parallel_shards"] +:+ " GPUs.");
  let intermediate_size := config.["intermediate_size"] / config.["tensor_parallel_shards"] in
  let gate_up_proj := Linear.init (path ./ "gate_up_proj") config.["hidden_size"] (2 * intermediate_size) false None
      None in
  let down_proj := Linear.init (path ./ "down_proj") intermediate_size config.["hidden_size"] false None None in
  Ok {| intermediate_size := intermediate_size; gate_up_proj := gate_up_proj; down_proj := down_proj |}.
Definition parameters (self : t) : params :=
  under "gate_up_proj" (Linear.parameters self.(gate_up_proj)) ++ under "down_proj" (Linear.parameters
      self.(down_proj)).
Definition forward (self : t) (x : T) : T :=
  let concat_x1_x2 := Linear.forward self.(gate_up_proj) x in
  let '(x1, x2) := split2 concat_x1_x2 (-1) in
  Linear.forward self.(down_proj) ((activate (Gelu (PStr "tanh")) x1) ⊗ x2).
End network.
End GemmaMLP.

(** [GemmaAttention]. *)
Module GemmaAttention.
Section network.
Context {nn : NN}.
Record t := { head_dim : Z; num_q_heads : Z; num_kv_heads : Z; qkv_proj : Linear.t; o_proj : Linear.t }.
Definition init (config : settings) (path : string) : result t :=
  let head_dim := config.["head_dim"] in
  let num_q_heads := config.["num_attention_heads"] / config.["tensor_parallel_shards"] in
  _ ← py_assert (config.["num_key_value_heads"] mod config.["tensor_parallel_shards"] =? 0) ("num_kv_heads(" +:+
      pretty config.["num_key_value_heads"] +:+ ") must be divisible by tensor_parallel_shards");
  _ ← py_assert (config.["num_key_value_heads"] >=? config.["tensor_parallel_shards"])
      ("Too large tensor_parallel_shards, must be smaller than " +:+ pretty config.["num_key_value_heads"]);
  let num_kv_heads := config.["num_key_value_heads"] / config.["tensor_parallel_shards"] in
  let qkv_proj := Linear.init (path ./ "qkv_proj") config.["hidden_size"] ((num_q_heads + (2 * num_kv_heads)) *
      head_dim) config.?["attention_bias"] None None in
  let o_proj := Linear.init (path ./ "o_proj") (num_q_heads * head_dim) config.["hidden_size"]
      config.?["attention_bias"] None None in
  Ok {| head_dim := head_dim; num_q_heads := num_q_heads; num_kv_heads := num_kv_heads; qkv_proj := qkv_proj; o_proj
      := o_proj |}.
Definition parameters (self : t) : params :=
  under "qkv_proj" (Linear.parameters self.(qkv_proj)) ++ under "o_proj" (Linear.parameters self.(o_proj)).
Definition forward (self : t) (hidden_states : T) (paged_kv_cache : Cache) (layer_id : Z) : T * Cache :=
  let d := self.(head_dim) in let h_q := self.(num_q_heads) in let h_kv := self.(num_kv_heads) in
  let '(b, s, _) := dims3 hidden_states in
  let qkv := Linear.forward self.(qkv_proj) hidden_states in
  let qkv := reshape qkv [b; s; (h_q + h_kv) + h_kv; d] in
  let '(attn_output, paged_kv_cache) := attention_with_fused_qkv paged_kv_cache layer_id qkv self.(num_q_heads) (Pow
      (Num self.(head_dim)) (Lit "-0.5")) in
  let output := reshape attn_output [b; s; h_q * d] in
  (Linear.forward self.(o_proj) output, paged_kv_cache).
End network.
End GemmaAttention.

(** [GemmaDecoderLayer]. *)
Module GemmaDecoderLayer.
Section network.
Context {nn : NN}.
Record t := { self_attn : GemmaAttention.t; mlp : GemmaMLP.t; input_layernorm : RMSNorm.t; post_attention_layernorm :
    RMSNorm.t; tensor_parallel_shards : Z }.
Definition init (config : settings) (path : string) : result t :=
  let rms_norm_eps := (Val (val_of config "rms_norm_eps")) in
  self_attn ← GemmaAttention.init config (path ./ "self_attn");
  mlp ← GemmaMLP.init config (path ./ "mlp");
  let input_layernorm := RMSNorm.init (path ./ "input_layernorm") config.["hidden_size"] (-1) rms_norm_eps false in
  let post_attention_layernorm := RMSNorm.init (path ./ "post_attention_layernorm") config.["hidden_size"] (-1)
      rms_norm_eps false in
  let tensor_parallel_shards := config.["tensor_parallel_shards"] in
  Ok {| self_attn := self_attn; mlp := mlp; input_layernorm := input_layernorm; post_attention_layernorm :=
      post_attention_layernorm; tensor_parallel_shards := tensor_parallel_shards |}.
Definition parameters (self : t) : params :=
  under "self_attn" (GemmaAttention.parameters self.(self_attn)) ++ under "mlp" (GemmaMLP.parameters self.(mlp)) ++
      under "input_layernorm" (RMSNorm.parameters self.(input_layernorm)) ++ under "post_attention_layernorm"
      (RMSNorm.parameters self.(post_attention_layernorm)).
Definition set_tp (config : settings) (self : t) : list (string * ShardSingleDim) :=
  let hd := config.["head_dim"] in
  let q := self.(self_attn).(GemmaAttention.num_q_heads) * hd in
  let k := self.(self_attn).(GemmaAttention.num_kv_heads) * hd in
  let v := self.(self_attn).(GemmaAttention.num_kv_heads) * hd in
  let i := self.(mlp).(GemmaMLP.intermediate_size) in
  [("self_attn.qkv_proj.weight", {| shard_name := "_shard_qkv"; shard_dim := 0; segs := Some [q; k; v] |});
   ("self_attn.o_proj.weight", {| shard_name := "_shard_o"; shard_dim := 1; segs := None |});
   ("mlp.gate_up_proj.weight", {| shard_name := "_shard_mlp_up"; shard_dim := 0; segs := Some [i; i] |});
   ("mlp.down_proj.weight", {| shard_name := "_shard_mlp_down"; shard_dim := 1; segs := None |})].
Definition _apply_residual (self : t) (out : T) (residual : T) : T :=
  if (self.(tensor_parallel_shards) >? 1) then
    (ccl_allreduce out "sum") ⊕ residual
  else
    out ⊕ residual.
Definition forward (self : t) (hidden_states : T) (paged_kv_cache : Cache) (layer_id : Z) : T * Cache :=
  let '(out, paged_kv_cache) := GemmaAttention.forward self.(self_attn) (RMSNorm.forward self.(input_layernorm)
      hidden_states) paged_kv_cache layer_id in
  let hidden_states := _apply_residual self out hidden_states in
  let out := GemmaMLP.forward self.(mlp) (RMSNorm.forward self.(post_attention_layernorm) hidden_states) in
  let hidden_states := _apply_residual self out hidden_states in
  (hidden_states, paged_kv_cache).
End network.
End GemmaDecoderLayer.

(** [GemmaModel]. *)
Module GemmaModel.
Section network.
Context {nn : NN}.
Record t := { hidden_size : Z; embed_tokens : GemmaEmbedding.t; layers : list GemmaDecoderLayer.t; norm : RMSNorm.t }.
Definition init (config : settings) (path : string) : result t :=
  let hidden_size := config.["hidden_size"] in
  _ ← py_assert (config.["hidden_size"] mod config.["num_attention_heads"] =? 0) "";
  let embed_tokens := GemmaEmbedding.init (path ./ "embed_tokens") (symbolic config "vocab_size")
      config.["hidden_size"] in
  layers ← module_list (path ./ "layers") config.["num_hidden_layers"] (λ _ path, GemmaDecoderLayer.init config path);
  let norm := RMSNorm.init (path ./ "norm") config.["hidden_size"] (-1) (Val (val_of config "rms_norm_eps")) false in
  Ok {| hidden_size := hidden_size; embed_tokens := embed_tokens; layers := layers; norm := norm |}.
Definition parameters (self : t) : params :=
  under "embed_tokens" (GemmaEmbedding.parameters self.(embed_tokens)) ++ list_params "layers"
      GemmaDecoderLayer.parameters self.(layers) ++ under "norm" (RMSNorm.parameters self.(norm)).
Definition forward (self : t) (input_embed : T) (paged_kv_cache : Cache) : T * Cache :=
  let hidden_states := input_embed in
  let hidden_states := hidden_states ⊗' (Pow (Num self.(hidden_size)) (Lit "0.5")) in
  let '(hidden_states, paged_kv_cache) :=
    for_layers self.(layers) (λ layer_id layer '(hidden_states, paged_kv_cache),
      GemmaDecoderLayer.forward layer hidden_states paged_kv_cache layer_id) (hidden_states, paged_kv_cache) in
  let hidden_states := RMSNorm.forward self.(norm) hidden_states in
  (hidden_states, paged_kv_cache).
End network.
End GemmaModel.

(** [GemmaForCausalLM]. *)
Module GemmaForCausalLM.
Section network.
Context {nn : NN}.
Record t := { model : GemmaModel.t; num_hidden_layers : Z; num_attention_heads : Z; num_key_value_heads : Z; head_dim
    : Z; hidden_size : Z; vocab_size : Z; rope_theta : Z; tensor_parallel_shards : Z; dtype : string }.
Definition init (config : settings) (path : string) : result t :=
  model ← GemmaModel.init config (path ./ "model");
  let num_hidden_layers := config.["num_hidden_layers"] in
  let num_attention_heads := config.["num_attention_heads"] in
  let num_key_value_heads := config.["num_key_value_heads"] in
  let head_dim := config.["head_dim"] in
  let hidden_size := config.["hidden_size"] in
  let vocab_size := config.["vocab_size"] in
  let rope_theta := config.["position_embedding_base"] in
  let tensor_parallel_shards := config.["tensor_parallel_shards"] in
  let dtype := "float32" in
  Ok {| model := model; num_hidden_layers := num_hidden_layers; num_attention_heads := num_attention_heads;
      num_key_value_heads := num_key_value_heads; head_dim := head_dim; hidden_size := hidden_size; vocab_size :=
      vocab_size; rope_theta := rope_theta; tensor_parallel_shards := tensor_parallel_shards; dtype := dtype |}.
Definition parameters (self : t) : params :=
  under "model" (GemmaModel.parameters self.(model)).
Definition get_logits (self : t) (hidden_states : T) : T :=
  let logits := GemmaEmbedding.lm_head_forward self.(model).(GemmaModel.embed_tokens) hidden_states in
  if negb (bool_decide (dtype_of logits = "float32")) then astype logits "float32" else logits.
Definition batch_forward (self : t) (input_embeds : T) (paged_kv_cache : Cache) (logit_positions : option T) : T *
    Cache :=
  let '(hidden_states, paged_kv_cache) := GemmaModel.forward self.(model) input_embeds paged_kv_cache in
  let hidden_states :=
    match logit_positions with
    | Some logit_positions =>
        take hidden_states logit_positions 1
    | None => hidden_states
    end in
  let logits := get_logits self hidden_states in
  (logits, paged_kv_cache).
Definition embed (self : t) (input_ids : T) : T :=
  let input_ids := if (self.(tensor_parallel_shards) >? 1) then ccl_broadcast_from_worker0 input_ids else input_ids in
  GemmaEmbedding.forward self.(model).(GemmaModel.embed_tokens) input_ids.
Definition prefill (self : t) (input_embed : T) (paged_kv_cache : Cache) : T * Cache :=
  let '(hidden_states, paged_kv_cache) := GemmaModel.forward self.(model) input_embed paged_kv_cache in
  let hidden_states := index_last_token hidden_states in
  let logits := get_logits self hidden_states in
  (logits, paged_kv_cache).
Definition decode (self : t) (input_embed : T) (paged_kv_cache : Cache) : T * Cache :=
  let '(hidden_states, paged_kv_cache) := GemmaModel.forward self.(model) input_embed paged_kv_cache in
  let logits := get_logits self hidden_states in
  (logits, paged_kv_cache).
Definition batch_prefill (self : t) (input_embeds : T) (logit_positions : T) (paged_kv_cache : Cache) : T * Cache :=
  let logit_positions := if (self.(tensor_parallel_shards) >? 1) then ccl_broadcast_from_worker0 logit_positions else
      logit_positions in
  batch_forward self input_embeds paged_kv_cache (Some logit_positions).
Definition batch_decode (self : t) (input_embeds : T) (paged_kv_cache : Cache) : T * Cache :=
  batch_forward self input_embeds paged_kv_cache None.
Definition batch_verify (self : t) (input_embeds : T) (paged_kv_cache : Cache) : T * Cache :=
  batch_forward self input_embeds paged_kv_cache None.
Definition create_paged_kv_cache (self : t) (max_batch_size : Z) (max_total_seq_len : Z) (prefill_chunk_size : Z)
    (page_size : Z) (support_sliding_window : Z) : Cache :=
  create_generic (PStr "mha") max_batch_size max_total_seq_len prefill_chunk_size page_size support_sliding_window
      self.(num_hidden_layers) (self.(num_attention_heads) / self.(tensor_parallel_shards))
      (self.(num_key_value_heads) / self.(tensor_parallel_shards)) self.(head_dim) self.(head_dim) "NORMAL" (Num 1)
      (Num self.(rope_theta)) self.(dtype) None PNone PNone None false.
Definition get_default_spec (self : t) : mod_spec := [
  ("embed", packed [("input_ids", STensor [Named "seq_len"] "int32")]);
  ("prefill", packed [("input_embed", STensor [Fixed 1; Named "seq_len"; Fixed self.(hidden_size)] self.(dtype));
      ("paged_kv_cache", SObject)]);
  ("decode", packed [("input_embed", STensor [Fixed 1; Fixed 1; Fixed self.(hidden_size)] self.(dtype));
      ("paged_kv_cache", SObject)]);
  ("batch_prefill", packed [("input_embeds", STensor [Fixed 1; Named "seq_len"; Fixed self.(hidden_size)]
      self.(dtype)); ("logit_positions", STensor [Named "batch_size"] "int32"); ("paged_kv_cache", SObject)]);
  ("batch_decode", packed [("input_embeds", STensor [Named "batch_size"; Fixed 1; Fixed self.(hidden_size)]
      self.(dtype)); ("paged_kv_cache", SObject)]);
  ("batch_verify", packed [("input_embeds", STensor [Fixed 1; Named "seq_len"; Fixed self.(hidden_size)]
      self.(dtype)); ("paged_kv_cache", SObject)]);
  ("create_paged_kv_cache", unpacked [("max_batch_size", SInt); ("max_total_seq_len", SInt); ("prefill_chunk_size",
      SInt); ("page_size", SInt); ("support_sliding_window", SInt)])].
Definition methods (self : t) : list (string * method) := [
  ("embed", Method ["input_ids"] (method_t (embed self)));
  ("prefill", Method ["input_embed"; "paged_kv_cache"] (method_tc (prefill self)));
  ("decode", Method ["input_embed"; "paged_kv_cache"] (method_tc (decode self)));
  ("batch_prefill", Method ["input_embeds"; "logit_positions"; "paged_kv_cache"] (method_ttc (batch_prefill self)));
  ("batch_decode", Method ["input_embeds"; "paged_kv_cache"] (method_tc (batch_decode self)));
  ("batch_verify", Method ["input_embeds"; "paged_kv_cache"] (method_tc (batch_verify self)));
  ("create_paged_kv_cache", Method ["max_batch_size"; "max_total_seq_len"; "prefill_chunk_size"; "page_size";
      "support_sliding_window"] (method_ints (create_paged_kv_cache self)))].
End network.
End GemmaForCausalLM.

(** The shapes of its parts. *)
Section Gemma_shapes.
Context {nn : NN} {laws : NNLaws nn}.
Lemma GemmaMLP_maps config path self :
  natural config → GemmaMLP.init config path = Ok self →
  maps_shape config.["hidden_size"] config.["hidden_size"] (GemmaMLP.forward self).
Proof. intros P H. unfold GemmaMLP.init in H. built H. unfold GemmaMLP.forward. module_maps. Qed.
#[local] Hint Resolve GemmaMLP_maps : modules.
Lemma GemmaAttention_attends config path self :
  natural config → GemmaAttention.init config path = Ok self →
  attends config.["hidden_size"] (Gemma_heads config) (GemmaAttention.forward self).
Proof. intros P H. unfold GemmaAttention.init in H. built H. unfold GemmaAttention.forward. module_attends. Qed.
#[local] Hint Resolve GemmaAttention_attends : modules.
Lemma GemmaDecoderLayer_attends config path self :
  natural config → GemmaDecoderLayer.init config path = Ok self →
  attends config.["hidden_size"] (Gemma_heads config) (GemmaDecoderLayer.forward self).
Proof. intros P H. unfold GemmaDecoderLayer.init in H. built H. unfold GemmaDecoderLayer.forward, GemmaDecoderLayer._apply_residual. module_attends. Qed.
#[local] Hint Resolve GemmaDecoderLayer_attends : modules.
Lemma GemmaModel_runs config path self :
  natural config → GemmaModel.init config path = Ok self →
  runs config.["hidden_size"] (Gemma_heads config) (GemmaModel.forward self).
Proof.
  intros P H. unfold GemmaModel.init in H. built H.
  unfold GemmaModel.forward.
  match goal with Hl : module_list _ _ _ = Ok _ |- _ => module_runs Hl end.
Qed.
#[local] Hint Resolve GemmaModel_runs : modules.
Lemma GemmaModel_embed_tokens config path self : GemmaModel.init config path = Ok self →
  self.(GemmaModel.embed_tokens) = Embedding.init (path ./ "embed_tokens") (symbolic config "vocab_size") config.["hidden_size"].
Proof. intros H. unfold GemmaModel.init in H. built H. reflexivity. Qed.
Lemma GemmaForCausalLM_typed config path self :
  natural config → GemmaForCausalLM.init config path = Ok self →
  well_typed config.["hidden_size"] (symbolic config "vocab_size") (Gemma_heads config) (GemmaForCausalLM.get_default_spec self) (GemmaForCausalLM.methods self).
Proof.
  intros P H. unfold GemmaForCausalLM.init in H. built H.
  match goal with Hm : GemmaModel.init _ _ = Ok _ |- _ => pose proof (GemmaModel_embed_tokens _ _ _ Hm) as Hemb_embed_tokens end.
  functions; unfold GemmaForCausalLM.create_paged_kv_cache, GemmaForCausalLM.batch_verify, GemmaForCausalLM.batch_decode, GemmaForCausalLM.batch_prefill, GemmaForCausalLM.decode, GemmaForCausalLM.prefill, GemmaForCausalLM.embed, GemmaForCausalLM.batch_forward, GemmaForCausalLM.get_logits, GemmaEmbedding.forward, GemmaEmbedding.init, GemmaEmbedding.lm_head_forward; exported.
Qed.
End Gemma_shapes.
#[global] Hint Resolve GemmaMLP_maps : modules.
End Gemma.

(** ** [model/gemma2/gemma2_model.py] *)

Module Gemma2.
(** The layers and heads of the cache [create_paged_kv_cache] makes. *)
Definition Gemma2_heads (config : settings) : heads := {|
  n_layers := config.["num_hidden_layers"]; q_heads := (config.["num_attention_heads"] / config.["tensor_parallel_shards"]);
  kv_heads := (config.["num_key_value_heads"] / config.["tensor_parallel_shards"]); head_size := config.["head_dim"]; value_size := config.["head_dim"] |}.

(** [Gemma2Attention]. *)
Module Gemma2Attention.
Section network.
Context {nn : NN}.
Record t := { head_dim : Z; num_q_heads : Z; num_kv_heads : Z; qkv_proj : Linear.t; o_proj : Linear.t; scaling_factor
    : number }.
Definition init (config : settings) (path : string) : result t :=
  let head_dim := config.["head_dim"] in
  let num_q_heads := config.["num_attention_heads"] / config.["tensor_parallel_shards"] in
  _ ← py_assert (config.["num_key_value_heads"] mod config.["tensor_parallel_shards"] =? 0) ("num_kv_heads(" +:+
      pretty config.["num_key_value_heads"] +:+ ") must be divisible by tensor_parallel_shards");
  _ ← py_assert (config.["num_key_value_heads"] >=? config.["tensor_parallel_shards"])
      ("Too large tensor_parallel_shards, must be smaller than " +:+ pretty config.["num_key_value_heads"]);
  let num_kv_heads := config.["num_key_value_heads"] / config.["tensor_parallel_shards"] in
  let qkv_proj := Linear.init (path ./ "qkv_proj") config.["hidden_size"] ((num_q_heads + (2 * num_kv_heads)) *
      head_dim) config.?["attention_bias"] None None in
  let o_proj := Linear.init (path ./ "o_proj") (num_q_heads * head_dim) config.["hidden_size"]
      config.?["attention_bias"] None None in
  let scaling_factor := (Pow (Over (Num config.["head_dim"]) (Num config.["query_pre_attn_scalar"])) (Lit "0.5")) in
  Ok {| head_dim := head_dim; num_q_heads := num_q_heads; num_kv_heads := num_kv_heads; qkv_proj := qkv_proj; o_proj
      := o_proj; scaling_factor := scaling_factor |}.
Definition parameters (self : t) : params :=
  under "qkv_proj" (Linear.parameters self.(qkv_proj)) ++ under "o_proj" (Linear.parameters self.(o_proj)).
Definition forward (self : t) (hidden_states : T) (paged_kv_cache : Cache) (layer_id : Z) : T * Cache :=
  let d := self.(head_dim) in let h_q := self.(num_q_heads) in let h_kv := self.(num_kv_heads) in
  let '(b, s, _) := dims3 hidden_states in
  let qkv := Linear.forward self.(qkv_proj) hidden_states in
  let qkv := reshape qkv [b; s; (h_q + h_kv) + h_kv; d] in
  let '(attn_output, paged_kv_cache) := attention_with_fused_qkv paged_kv_cache layer_id qkv self.(num_q_heads) (Pow
      (Num self.(head_dim)) (Lit "-0.5")) in
  let output := reshape attn_output [b; s; h_q * d] in
  (Linear.forward self.(o_proj) output, paged_kv_cache).
End network.
End Gemma2Attention.

(** [Gemma2DecoderLayer]. *)
Module Gemma2DecoderLayer.
Section network.
Context {nn : NN}.
Record t := { self_attn : Gemma2Attention.t; mlp : Gemma.GemmaMLP.t; input_layernorm : RMSNorm.t;
    post_attention_layernorm : RMSNorm.t; pre_feedforward_layernorm : RMSNorm.t; post_feedforward_layernorm :
    RMSNorm.t; tensor_parallel_shards : Z }.
Definition init (config : settings) (path : string) : result t :=
  let rms_norm_eps := (Val (val_of config "rms_norm_eps")) in
  self_attn ← Gemma2Attention.init config (path ./ "self_attn");
  mlp ← Gemma.GemmaMLP.init config (path ./ "mlp");
  let input_layernorm := RMSNorm.init (path ./ "input_layernorm") config.["hidden_size"] (-1) rms_norm_eps false in
  let post_attention_layernorm := RMSNorm.init (path ./ "post_attention_layernorm") config.["hidden_size"] (-1)
      rms_norm_eps false in
  let pre_feedforward_layernorm := RMSNorm.init (path ./ "pre_feedforward_layernorm") config.["hidden_size"] (-1)
      rms_norm_eps false in
  let post_feedforward_layernorm := RMSNorm.init (path ./ "post_feedforward_layernorm") config.["hidden_size"] (-1)
      rms_norm_eps false in
  let tensor_parallel_shards := config.["tensor_parallel_shards"] in
  Ok {| self_attn := self_attn; mlp := mlp; input_layernorm := input_layernorm; post_attention_layernorm :=
      post_attention_layernorm; pre_feedforward_layernorm := pre_feedforward_layernorm; post_feedforward_layernorm :=
      post_feedforward_layernorm; tensor_parallel_shards := tensor_parallel_shards |}.
Definition parameters (self : t) : params :=
  under "self_attn" (Gemma2Attention.parameters self.(self_attn)) ++ under "mlp" (Gemma.GemmaMLP.parameters
      self.(mlp)) ++ under "input_layernorm" (RMSNorm.parameters self.(input_layernorm)) ++ under
      "post_attention_layernorm" (RMSNorm.parameters self.(post_attention_layernorm)) ++ under
      "pre_feedforward_layernorm" (RMSNorm.parameters self.(pre_feedforward_layernorm)) ++ under
      "post_feedforward_layernorm" (RMSNorm.parameters self.(post_feedforward_layernorm)).
Definition set_tp (config : settings) (self : t) : list (string * ShardSingleDim) :=
  let hd := config.["head_dim"] in
  let q := self.(self_attn).(Gemma2Attention.num_q_heads) * hd in
  let k := self.(self_attn).(Gemma2Attention.num_kv_heads) * hd in
  let v := self.(self_attn).(Gemma2Attention.num_kv_heads) * hd in
  let i := self.(mlp).(Gemma.GemmaMLP.intermediate_size) in
  [("self_attn.qkv_proj.weight", {| shard_name := "_shard_qkv"; shard_dim := 0; segs := Some [q; k; v] |});
   ("self_attn.o_proj.weight", {| shard_name := "_shard_o"; shard_dim := 1; segs := None |});
   ("mlp.gate_up_proj.weight", {| shard_name := "_shard_mlp_up"; shard_dim := 0; segs := Some [i; i] |});
   ("mlp.down_proj.weight", {| shard_name := "_shard_mlp_down"; shard_dim := 1; segs := None |})].
Definition _apply_post_matmul_norm (self : t) (out : T) (norm : RMSNorm.t) : T :=
  if (self.(tensor_parallel_shards) >? 1) then
    RMSNorm.forward norm (ccl_allreduce out "sum")
  else
    RMSNorm.forward norm out.
Definition forward (self : t) (hidden_states : T) (paged_kv_cache : Cache) (layer_id : Z) : T * Cache :=
  let '(out, paged_kv_cache) := Gemma2Attention.forward self.(self_attn) (RMSNorm.forward self.(input_layernorm)
      hidden_states) paged_kv_cache layer_id in
  let out := _apply_post_matmul_norm self out self.(post_attention_layernorm) in
  let hidden_states := out ⊕ hidden_states in
  let out := RMSNorm.forward self.(pre_feedforward_layernorm) hidden_states in
  let out := Gemma.GemmaMLP.forward self.(mlp) out in
  let out := _apply_post_matmul_norm self out self.(post_feedforward_layernorm) in
  let hidden_states := out ⊕ hidden_states in
  (hidden_states, paged_kv_cache).
End network.
End Gemma2DecoderLayer.

(** [Gemma2Model]. *)
Module Gemma2Model.
Section network.
Context {nn : NN}.
Record t := { hidden_size : Z; embed_tokens : Gemma.GemmaEmbedding.t; layers : list Gemma2DecoderLayer.t; norm :
    RMSNorm.t }.
Definition init (config : settings) (path : string) : result t :=
  let hidden_size := config.["hidden_size"] in
  _ ← py_assert (config.["hidden_size"] mod config.["num_attention_heads"] =? 0) "";
  let embed_tokens := Gemma.GemmaEmbedding.init (path ./ "embed_tokens") (symbolic config "vocab_size")
      config.["hidden_size"] in
  layers ← module_list (path ./ "layers") config.["num_hidden_layers"] (λ _ path, Gemma.GemmaDecoderLayer.init config
      path);
  let norm := RMSNorm.init (path ./ "norm") config.["hidden_size"] (-1) (Val (val_of config "rms_norm_eps")) false in
  layers ← module_list (path ./ "layers") config.["num_hidden_layers"] (λ _ path, Gemma2DecoderLayer.init config
      path);
  Ok {| hidden_size := hidden_size; embed_tokens := embed_tokens; layers := layers; norm := norm |}.
Definition parameters (self : t) : params :=
  under "embed_tokens" (Gemma.GemmaEmbedding.parameters self.(embed_tokens)) ++ list_params "layers"
      Gemma2DecoderLayer.parameters self.(layers) ++ under "norm" (RMSNorm.parameters self.(norm)).
Definition forward (self : t) (input_embed : T) (paged_kv_cache : Cache) : T * Cache :=
  let hidden_states := input_embed in
  let hidden_states := hidden_states ⊗' (Pow (Num self.(hidden_size)) (Lit "0.5")) in
  let '(hidden_states, paged_kv_cache) :=
    for_layers self.(layers) (λ layer_id layer '(hidden_states, paged_kv_cache),
      Gemma2DecoderLayer.forward layer hidden_states paged_kv_cache layer_id) (hidden_states, paged_kv_cache) in
  let hidden_states := RMSNorm.forward self.(norm) hidden_states in
  (hidden_states, paged_kv_cache).
End network.
End Gemma2Model.

(** [Gemma2ForCausalLM]. *)
Module Gemma2ForCausalLM.
Section network.
Context {nn : NN}.
Record t := { model : Gemma2Model.t; num_hidden_layers : Z; num_attention_heads : Z; num_key_value_heads : Z;
    head_dim : Z; hidden_size : Z; vocab_size : Z; rope_theta : Z; tensor_parallel_shards : Z; dtype : string;
    final_logit_softcapping : number }.
Definition init (config : settings) (path : string) : result t :=
  model ← Gemma.GemmaModel.init config (path ./ "model");
  let num_hidden_layers := config.["num_hidden_layers"] in
  let num_attention_heads := config.["num_attention_heads"] in
  let num_key_value_heads := config.["num_key_value_heads"] in
  let head_dim := config.["head_dim"] in
  let hidden_size := config.["hidden_size"] in
  let vocab_size := config.["vocab_size"] in
  let rope_theta := config.["position_embedding_base"] in
  let tensor_parallel_shards := config.["tensor_parallel_shards"] in
  let dtype := "float32" in
  model ← Gemma2Model.init config (path ./ "model");
  let final_logit_softcapping := (Val (val_of config "final_logit_softcapping")) in
  Ok {| model := model; num_hidden_layers := num_hidden_layers; num_attention_heads := num_attention_heads;
      num_key_value_heads := num_key_value_heads; head_dim := head_dim; hidden_size := hidden_size; vocab_size :=
      vocab_size; rope_theta := rope_theta; tensor_parallel_shards := tensor_parallel_shards; dtype := dtype;
      final_logit_softcapping := final_logit_softcapping |}.
Definition parameters (self : t) : params :=
  under "model" (Gemma2Model.parameters self.(model)).
Definition super_get_logits (self : t) (hidden_states : T) : T :=
  let logits := Gemma.GemmaEmbedding.lm_head_forward self.(model).(Gemma2Model.embed_tokens) hidden_states in
  if negb (bool_decide (dtype_of logits = "float32")) then astype logits "float32" else logits.
Definition get_logits (self : t) (hidden_states : T) : T :=
  let logits := super_get_logits self hidden_states in
  if negb (is_none_num self.(final_logit_softcapping)) then (activate Tanh (logits ⊘'
      self.(final_logit_softcapping))) ⊗' self.(final_logit_softcapping) else logits.
Definition batch_forward (self : t) (input_embeds : T) (paged_kv_cache : Cache) (logit_positions : option T) : T *
    Cache :=
  let '(hidden_states, paged_kv_cache) := Gemma2Model.forward self.(model) input_embeds paged_kv_cache in
  let hidden_states :=
    match logit_positions with
    | Some logit_positions =>
        take hidden_states logit_positions 1
    | None => hidden_states
    end in
  let logits := get_logits self hidden_states in
  (logits, paged_kv_cache).
Definition embed (self : t) (input_ids : T) : T :=
  let input_ids := if (self.(tensor_parallel_shards) >? 1) then ccl_broadcast_from_worker0 input_ids else input_ids in
  Gemma.GemmaEmbedding.forward self.(model).(Gemma2Model.embed_tokens) input_ids.
Definition prefill (self : t) (input_embed : T) (paged_kv_cache : Cache) : T * Cache :=
  let '(hidden_states, paged_kv_cache) := Gemma2Model.forward self.(model) input_embed paged_kv_cache in
  let hidden_states := index_last_token hidden_states in
  let logits := get_logits self hidden_states in
  (logits, paged_kv_cache).
Definition decode (self : t) (input_embed : T) (paged_kv_cache : Cache) : T * Cache :=
  let '(hidden_states, paged_kv_cache) := Gemma2Model.forward self.(model) input_embed paged_kv_cache in
  let logits := get_logits self hidden_states in
  (logits, paged_kv_cache).
Definition batch_prefill (self : t) (input_embeds : T) (logit_positions : T) (paged_kv_cache : Cache) : T * Cache :=
  let logit_positions := if (self.(tensor_parallel_shards) >? 1) then ccl_broadcast_from_worker0 logit_positions else
      logit_positions in
  batch_forward self input_embeds paged_kv_cache (Some logit_positions).
Definition batch_decode (self : t) (input_embeds : T) (paged_kv_cache : Cache) : T * Cache :=
  batch_forward self input_embeds paged_kv_cache None.
Definition batch_verify (self : t) (input_embeds : T) (paged_kv_cache : Cache) : T * Cache :=
  batch_forward self input_embeds paged_kv_cache None.
Definition create_paged_kv_cache (self : t) (max_batch_size : Z) (max_total_seq_len : Z) (prefill_chunk_size : Z)
    (page_size : Z) (support_sliding_window : Z) : Cache :=
  create_generic (PStr "mha") max_batch_size max_total_seq_len prefill_chunk_size page_size support_sliding_window
      self.(num_hidden_layers) (self.(num_attention_heads) / self.(tensor_parallel_shards))
      (self.(num_key_value_heads) / self.(tensor_parallel_shards)) self.(head_dim) self.(head_dim) "NORMAL" (Num 1)
      (Num self.(rope_theta)) self.(dtype) None PNone PNone None false.
Definition get_default_spec (self : t) : mod_spec := [
  ("embed", packed [("input_ids", STensor [Named "seq_len"] "int32")]);
  ("prefill", packed [("input_embed", STensor [Fixed 1; Named "seq_len"; Fixed self.(hidden_size)] self.(dtype));
      ("paged_kv_cache", SObject)]);
  ("decode", packed [("input_embed", STensor [Fixed 1; Fixed 1; Fixed self.(hidden_size)] self.(dtype));
      ("paged_kv_cache", SObject)]);
  ("batch_prefill", packed [("input_embeds", STensor [Fixed 1; Named "seq_len"; Fixed self.(hidden_size)]
      self.(dtype)); ("logit_positions", STensor [Named "batch_size"] "int32"); ("paged_kv_cache", SObject)]);
  ("batch_decode", packed [("input_embeds", STensor [Named "batch_size"; Fixed 1; Fixed self.(hidden_size)]
      self.(dtype)); ("paged_kv_cache", SObject)]);
  ("batch_verify", packed [("input_embeds", STensor [Fixed 1; Named "seq_len"; Fixed self.(hidden_size)]
      self.(dtype)); ("paged_kv_cache", SObject)]);
  ("create_paged_kv_cache", unpacked [("max_batch_size", SInt); ("max_total_seq_len", SInt); ("prefill_chunk_size",
      SInt); ("page_size", SInt); ("support_sliding_window", SInt)])].
Definition methods (self : t) : list (string * method) := [
  ("embed", Method ["input_ids"] (method_t (embed self)));
  ("prefill", Method ["input_embed"; "paged_kv_cache"] (method_tc (prefill self)));
  ("decode", Method ["input_embed"; "paged_kv_cache"] (method_tc (decode self)));
  ("batch_prefill", Method ["input_embeds"; "logit_positions"; "paged_kv_cache"] (method_ttc (batch_prefill self)));
  ("batch_decode", Method ["input_embeds"; "paged_kv_cache"] (method_tc (batch_decode self)));
  ("batch_verify", Method ["input_embeds"; "paged_kv_cache"] (method_tc (batch_verify self)));
  ("create_paged_kv_cache", Method ["max_batch_size"; "max_total_seq_len"; "prefill_chunk_size"; "page_size";
      "support_sliding_window"] (method_ints (create_paged_kv_cache self)))].
End network.
End Gemma2ForCausalLM.

(** The shapes of its parts. *)
Section Gemma2_shapes.
Context {nn : NN} {laws : NNLaws nn}.
Lemma Gemma2Attention_attends config path self :
  natural config → Gemma2Attention.init config path = Ok self →
  attends config.["hidden_size"] (Gemma2_heads config) (Gemma2Attention.forward self).
Proof. intros P H. unfold Gemma2Attention.init in H. built H. unfold Gemma2Attention.forward. module_attends. Qed.
#[local] Hint Resolve Gemma2Attention_attends : modules.
Lemma Gemma2DecoderLayer_attends config path self :
  natural config → Gemma2DecoderLayer.init config path = Ok self →
  attends config.["hidden_size"] (Gemma2_heads config) (Gemma2DecoderLayer.forward self).
Proof. intros P H. unfold Gemma2DecoderLayer.init in H. built H. unfold Gemma2DecoderLayer.forward, Gemma2DecoderLayer._apply_post_matmul_norm. module_attends. Qed.
#[local] Hint Resolve Gemma2DecoderLayer_attends : modules.
Lemma Gemma2Model_runs config path self :
  natural config → Gemma2Model.init config path = Ok self →
  runs config.["hidden_size"] (Gemma2_heads config) (Gemma2Model.forward self).
Proof.
  intros P H. unfold Gemma2Model.init in H. built H.
  unfold Gemma2Model.forward.
  match goal with Hl : module_list _ _ _ = Ok _ |- _ => module_runs Hl end.
Qed.
#[local] Hint Resolve Gemma2Model_runs : modules.
Lemma Gemma2Model_embed_tokens config path self : Gemma2Model.init config path = Ok self →
  self.(Gemma2Model.embed_tokens) = Embedding.init (path ./ "embed_tokens") (symbolic config "vocab_size") config.["hidden_size"].
Proof. intros H. unfold Gemma2Model.init in H. built H. reflexivity. Qed.
Lemma Gemma2ForCausalLM_typed config path self :
  natural config → Gemma2ForCausalLM.init config path = Ok self →
  well_typed config.["hidden_size"] (symbolic config "vocab_size") (Gemma2_heads config) (Gemma2ForCausalLM.get_default_spec self) (Gemma2ForCausalLM.methods self).
Proof.
  intros P H. unfold Gemma2ForCausalLM.init in H. built H.
  match goal with Hm : Gemma2Model.init _ _ = Ok _ |- _ => pose proof (Gemma2Model_embed_tokens _ _ _ Hm) as Hemb_embed_tokens end.
  functions; unfold Gemma2ForCausalLM.create_paged_kv_cache, Gemma2ForCausalLM.batch_verify, Gemma2ForCausalLM.batch_decode, Gemma2ForCausalLM.batch_prefill, Gemma2ForCausalLM.decode, Gemma2ForCausalLM.prefill, Gemma2ForCausalLM.embed, Gemma2ForCausalLM.batch_forward, Gemma2ForCausalLM.get_logits, Gemma2ForCausalLM.super_get_logits, Gemma.GemmaEmbedding.forward, Gemma.GemmaEmbedding.init, Gemma.GemmaEmbedding.lm_head_forward; exported.
Qed.
End Gemma2_shapes.
End Gemma2.

(** ** [model/cohere/cohere_model.py] *)

Module Cohere.
(** The layers and heads of the cache [create_paged_kv_cache] makes. *)
Definition Cohere_heads (config : settings) : heads := {|
  n_layers := config.["num_hidden_layers"]; q_heads := (config.["num_attention_heads"] / config.["tensor_parallel_shards"]);
  kv_heads := (config.["num_key_value_heads"] / config.["tensor_parallel_shards"]); head_size := config.["head_dim"]; value_size := config.["head_dim"] |}.

(** [CohereMLP]. *)
Module CohereMLP.
Section network.
Context {nn : NN}.
Record t := { intermediate_size : Z; gate_proj : Linear.t; up_proj : Linear.t; down_proj : Linear.t }.
Definition init (config : settings) (path : string) : result t :=
  _ ← raise_when (negb (config.["intermediate_size"] mod config.["tensor_parallel_shards"] =? 0)) ValueError
      ("Cannot split MLP intermediate size " +:+ pretty config.["intermediate_size"] +:+ " evenly to " +:+ pretty
      config.["tensor_parallel_shards"] +:+ " GPUs.");
  let intermediate_size := config.["intermediate_size"] / config.["tensor_parallel_shards"] in
  let gate_proj := Linear.init (path ./ "gate_proj") config.["hidden_size"] intermediate_size false None None in
  let up_proj := Linear.init (path ./ "up_proj") config.["hidden_size"] intermediate_size false None None in
  let down_proj := Linear.init (path ./ "down_proj") intermediate_size config.["hidden_size"] false None None in
  Ok {| intermediate_size := intermediate_size; gate_proj := gate_proj; up_proj := up_proj; down_proj := down_proj |}.
Definition parameters (self : t) : params :=
  under "gate_proj" (Linear.parameters self.(gate_proj)) ++ under "up_proj" (Linear.parameters self.(up_proj)) ++
      under "down_proj" (Linear.parameters self.(down_proj)).
Definition forward (self : t) (x : T) : T :=
  Linear.forward self.(down_proj) ((activate Silu (Linear.forward self.(gate_proj) x)) ⊗ (Linear.forward
      self.(up_proj) x)).
End network.
End CohereMLP.

(** [CohereAttention]. *)
Module CohereAttention.
Section network.
Context {nn : NN}.
Record t := { num_q_heads : Z; num_key_value_heads : Z; head_dim : Z; qkv_proj : Linear.t; out_proj : Linear.t }.
Definition init (config : settings) (path : string) : result t :=
  let num_q_heads := config.["num_attention_heads"] / config.["tensor_parallel_shards"] in
  _ ← py_assert (config.["num_attention_heads"] mod config.["tensor_parallel_shards"] =? 0) ("num_attention_heads("
      +:+ pretty config.["num_attention_heads"] +:+ ") must be divisible by tensor_parallel_shards");
  let num_key_value_heads := config.["num_key_value_heads"] / config.["tensor_parallel_shards"] in
  _ ← py_assert (config.["num_key_value_heads"] mod config.["tensor_parallel_shards"] =? 0) ("num_attention_heads("
      +:+ pretty config.["num_key_value_heads"] +:+ ") must be divisible by tensor_parallel_shards");
  let head_dim := config.["head_dim"] in
  let qkv_proj := Linear.init (path ./ "qkv_proj") config.["hidden_size"] ((num_q_heads + (2 * num_key_value_heads))
      * head_dim) false None None in
  let out_proj := Linear.init (path ./ "out_proj") (num_q_heads * head_dim) config.["hidden_size"] false None None in
  Ok {| num_q_heads := num_q_heads; num_key_value_heads := num_key_value_heads; head_dim := head_dim; qkv_proj :=
      qkv_proj; out_proj := out_proj |}.
Definition parameters (self : t) : params :=
  under "qkv_proj" (Linear.parameters self.(qkv_proj)) ++ under "out_proj" (Linear.parameters self.(out_proj)).
Definition forward (self : t) (hidden_states : T) (paged_kv_cache : Cache) (layer_id : Z) : T * Cache :=
  let d := self.(head_dim) in let h_q := self.(num_q_heads) in let h_kv := self.(num_key_value_heads) in
  let '(b, s, _) := dims3 hidden_states in
  let qkv := Linear.forward self.(qkv_proj) hidden_states in
  let qkv := reshape qkv [b; s; (h_q + h_kv) + h_kv; d] in
  let '(attn_output, paged_kv_cache) := attention_with_fused_qkv paged_kv_cache layer_id qkv self.(num_q_heads) (Pow
      (Num self.(head_dim)) (Lit "-0.5")) in
  let output := reshape attn_output [b; s; h_q * d] in
  (Linear.forward self.(out_proj) output, paged_kv_cache).
End network.
End CohereAttention.

(** [CohereNorm]. *)
Module CohereNorm.
Section network.
Context {nn : NN}.
Record t := { normalized_shape : Z; eps : number; weight : T }.
Definition init (normalized_shape : Z) (eps : number) (dtype : option string) (path : string) : result t :=
  let self_normalized_shape := normalized_shape in
  let self_eps := eps in
  let weight := parameter (path ./ "weight") [normalized_shape] dtype in
  Ok {| normalized_shape := self_normalized_shape; eps := self_eps; weight := weight |}.
Definition parameters (self : t) : params :=
  [("weight", self.(weight))].
Definition forward (self : t) (x : T) : T :=
  layer_norm self.(normalized_shape) self.(eps) (Some self.(weight)) None x.
End network.
End CohereNorm.

(** [CohereDecoderLayer]. *)
Module CohereDecoderLayer.
Section network.
Context {nn : NN}.
Record t := { self_attn : CohereAttention.t; mlp : CohereMLP.t; input_layernorm : CohereNorm.t;
    tensor_parallel_shards : Z }.
Definition init (config : settings) (path : string) : result t :=
  self_attn ← CohereAttention.init config (path ./ "self_attn");
  mlp ← CohereMLP.init config (path ./ "mlp");
  input_layernorm ← CohereNorm.init config.["hidden_size"] (Val (val_of config "layer_norm_eps")) None (path ./
      "input_layernorm");
  let tensor_parallel_shards := config.["tensor_parallel_shards"] in
  Ok {| self_attn := self_attn; mlp := mlp; input_layernorm := input_layernorm; tensor_parallel_shards :=
      tensor_parallel_shards |}.
Definition parameters (self : t) : params :=
  under "self_attn" (CohereAttention.parameters self.(self_attn)) ++ under "mlp" (CohereMLP.parameters self.(mlp)) ++
      under "input_layernorm" (CohereNorm.parameters self.(input_layernorm)).
Definition set_tp (config : settings) (self : t) : list (string * ShardSingleDim) :=
  let hd := config.["head_dim"] in
  let q := self.(self_attn).(CohereAttention.num_q_heads) * hd in
  let k := self.(self_attn).(CohereAttention.num_key_value_heads) * hd in
  let v := self.(self_attn).(CohereAttention.num_key_value_heads) * hd in
  let i := self.(mlp).(CohereMLP.intermediate_size) in
  [("self_attn.qkv_proj.weight", {| shard_name := "_shard_qkv"; shard_dim := 0; segs := Some [q; k; v] |});
   ("self_attn.out_proj.weight", {| shard_name := "_shard_o"; shard_dim := 1; segs := None |});
   ("mlp.gate_proj.weight", {| shard_name := "_shard_mlp_gate"; shard_dim := 0; segs := Some [i; i] |});
   ("mlp.up_proj.weight", {| shard_name := "_shard_mlp_up"; shard_dim := 0; segs := Some [i; i] |});
   ("mlp.down_proj.weight", {| shard_name := "_shard_mlp_down"; shard_dim := 1; segs := None |})].
Definition _apply_parallel_residual (self : t) (mlp_out : T) (residual : T) : T :=
  if (self.(tensor_parallel_shards) >? 1) then
    ccl_allreduce (mlp_out ⊕ (residual ⊘' (Num self.(tensor_parallel_shards)))) "sum"
  else
    mlp_out ⊕ residual.
Definition forward (self : t) (hidden_states : T) (paged_kv_cache : Cache) (layer_id : Z) : T * Cache :=
  let hidden_ln := CohereNorm.forward self.(input_layernorm) hidden_states in
  let '(attn, paged_kv_cache) := CohereAttention.forward self.(self_attn) hidden_ln paged_kv_cache layer_id in
  let mlp := CohereMLP.forward self.(mlp) hidden_ln in
  let hidden_states := _apply_parallel_residual self attn hidden_states in
  let hidden_states := _apply_parallel_residual self mlp hidden_states in
  (hidden_states, paged_kv_cache).
End network.
End CohereDecoderLayer.

(** [CohereEmbedding]. *)
Module CohereEmbedding.
Section network.
Context {nn : NN}.
Definition t : Type := Embedding.t.
Definition init : string → Z → Z → t := Embedding.init.
Definition forward : t → T → T := Embedding.forward.
Definition parameters : t → params := Embedding.parameters.
Definition lm_head_forward (self : t) (x : T) : T :=
  let weight := permute_dims self.(Embedding.weight) [] in
  matmul x weight (Some "float32").
End network.
End CohereEmbedding.

(** [CohereModel]. *)
Module CohereModel.
Section network.
Context {nn : NN}.
Record t := { embed_tokens : CohereEmbedding.t; layers : list CohereDecoderLayer.t; norm : CohereNorm.t }.
Definition init (config : settings) (path : string) : result t :=
  _ ← py_assert (config.["hidden_size"] mod config.["num_attention_heads"] =? 0) "";
  let embed_tokens := CohereEmbedding.init (path ./ "embed_tokens") (symbolic config "vocab_size")
      config.["hidden_size"] in
  layers ← module_list (path ./ "layers") config.["num_hidden_layers"] (λ _ path, CohereDecoderLayer.init config
      path);
  norm ← CohereNorm.init config.["hidden_size"] (Val (val_of config "layer_norm_eps")) None (path ./ "norm");
  Ok {| embed_tokens := embed_tokens; layers := layers; norm := norm |}.
Definition parameters (self : t) : params :=
  under "embed_tokens" (CohereEmbedding.parameters self.(embed_tokens)) ++ list_params "layers"
      CohereDecoderLayer.parameters self.(layers) ++ under "norm" (CohereNorm.parameters self.(norm)).
Definition forward (self : t) (input_embed : T) (paged_kv_cache : Cache) : T * Cache :=
  let hidden_states := input_embed in
  let '(hidden_states, paged_kv_cache) :=
    for_layers self.(layers) (λ layer_id layer '(hidden_states, paged_kv_cache),
      CohereDecoderLayer.forward layer hidden_states paged_kv_cache layer_id) (hidden_states, paged_kv_cache) in
  let hidden_states := CohereNorm.forward self.(norm) hidden_states in
  (hidden_states, paged_kv_cache).
End network.
End CohereModel.

(** [CohereForCausalLM]. *)
Module CohereForCausalLM.
Section network.
Context {nn : NN}.
Record t := { model : CohereModel.t; num_hidden_layers : Z; num_attention_heads : Z; num_key_value_heads : Z;
    head_dim : Z; hidden_size : Z; vocab_size : Z; rope_theta : Z; tensor_parallel_shards : Z; dtype : string }.
Definition init (config : settings) (path : string) : result t :=
  model ← CohereModel.init config (path ./ "model");
  let num_hidden_layers := config.["num_hidden_layers"] in
  let num_attention_heads := config.["num_attention_heads"] in
  let num_key_value_heads := config.["num_key_value_heads"] in
  let head_dim := config.["head_dim"] in
  let hidden_size := config.["hidden_size"] in
  let vocab_size := config.["vocab_size"] in
  let rope_theta := config.["position_embedding_base"] in
  let tensor_parallel_shards := config.["tensor_parallel_shards"] in
  let dtype := "float32" in
  Ok {| model := model; num_hidden_layers := num_hidden_layers; num_attention_heads := num_attention_heads;
      num_key_value_heads := num_key_value_heads; head_dim := head_dim; hidden_size := hidden_size; vocab_size :=
      vocab_size; rope_theta := rope_theta; tensor_parallel_shards := tensor_parallel_shards; dtype := dtype |}.
Definition parameters (self : t) : params :=
  under "model" (CohereModel.parameters self.(model)).
Definition batch_forward (self : t) (input_embeds : T) (paged_kv_cache : Cache) (logit_positions : option T) : T *
    Cache :=
  let '(hidden_states, paged_kv_cache) := CohereModel.forward self.(model) input_embeds paged_kv_cache in
  let hidden_states :=
    match logit_positions with
    | Some logit_positions =>
        take hidden_states logit_positions 1
    | None => hidden_states
    end in
  let lm_logits := CohereEmbedding.lm_head_forward self.(model).(CohereModel.embed_tokens) hidden_states in
  let lm_logits := if negb (bool_decide (dtype_of lm_logits = "float32")) then astype lm_logits "float32" else
      lm_logits in
  (lm_logits, paged_kv_cache).
Definition prefill (self : t) (input_embed : T) (paged_kv_cache : Cache) : T * Cache :=
  let '(hidden_states, paged_kv_cache) := CohereModel.forward self.(model) input_embed paged_kv_cache in
  let hidden_states := index_last_token hidden_states in
  let logits := CohereEmbedding.lm_head_forward self.(model).(CohereModel.embed_tokens) hidden_states in
  let logits := if negb (bool_decide (dtype_of logits = "float32")) then astype logits "float32" else logits in
  (logits, paged_kv_cache).
Definition decode (self : t) (input_embed : T) (paged_kv_cache : Cache) : T * Cache :=
  let '(hidden_states, paged_kv_cache) := CohereModel.forward self.(model) input_embed paged_kv_cache in
  let logits := CohereEmbedding.lm_head_forward self.(model).(CohereModel.embed_tokens) hidden_states in
  let logits := if negb (bool_decide (dtype_of logits = "float32")) then astype logits "float32" else logits in
  (logits, paged_kv_cache).
Definition batch_prefill (self : t) (input_embeds : T) (logit_positions : T) (paged_kv_cache : Cache) : T * Cache :=
  let logit_positions := if (self.(tensor_parallel_shards) >? 1) then ccl_broadcast_from_worker0 logit_positions else
      logit_positions in
  batch_forward self input_embeds paged_kv_cache (Some logit_positions).
Definition batch_decode (self : t) (input_embeds : T) (paged_kv_cache : Cache) : T * Cache :=
  batch_forward self input_embeds paged_kv_cache None.
Definition batch_verify (self : t) (input_embeds : T) (paged_kv_cache : Cache) : T * Cache :=
  batch_forward self input_embeds paged_kv_cache None.
Definition embed (self : t) (input_ids : T) : T :=
  let input_ids := if (self.(tensor_parallel_shards) >? 1) then ccl_broadcast_from_worker0 input_ids else input_ids in
  CohereEmbedding.forward self.(model).(CohereModel.embed_tokens) input_ids.
Definition create_paged_kv_cache (self : t) (max_batch_size : Z) (max_total_seq_len : Z) (prefill_chunk_size : Z)
    (page_size : Z) (support_sliding_window : Z) : Cache :=
  create_generic (PStr "mha") max_batch_size max_total_seq_len prefill_chunk_size page_size support_sliding_window
      self.(num_hidden_layers) (self.(num_attention_heads) / self.(tensor_parallel_shards))
      (self.(num_key_value_heads) / self.(tensor_parallel_shards)) self.(head_dim) self.(head_dim) "NORMAL" (Num 1)
      (Num self.(rope_theta)) self.(dtype) None PNone PNone None false.
Definition get_default_spec (self : t) : mod_spec := [
  ("embed", packed [("input_ids", STensor [Named "seq_len"] "int32")]);
  ("prefill", packed [("input_embed", STensor [Fixed 1; Named "seq_len"; Fixed self.(hidden_size)] self.(dtype));
      ("paged_kv_cache", SObject)]);
  ("decode", packed [("input_embed", STensor [Fixed 1; Fixed 1; Fixed self.(hidden_size)] self.(dtype));
      ("paged_kv_cache", SObject)]);
  ("batch_prefill", packed [("input_embeds", STensor [Fixed 1; Named "seq_len"; Fixed self.(hidden_size)]
      self.(dtype)); ("logit_positions", STensor [Named "batch_size"] "int32"); ("paged_kv_cache", SObject)]);
  ("batch_decode", packed [("input_embeds", STensor [Named "batch_size"; Fixed 1; Fixed self.(hidden_size)]
      self.(dtype)); ("paged_kv_cache", SObject)]);
  ("batch_verify", packed [("input_embeds", STensor [Fixed 1; Named "seq_len"; Fixed self.(hidden_size)]
      self.(dtype)); ("paged_kv_cache", SObject)]);
  ("create_paged_kv_cache", unpacked [("max_batch_size", SInt); ("max_total_seq_len", SInt); ("prefill_chunk_size",
      SInt); ("page_size", SInt); ("support_sliding_window", SInt)])].
Definition methods (self : t) : list (string * method) := [
  ("embed", Method ["input_ids"] (method_t (embed self)));
  ("prefill", Method ["input_embed"; "paged_kv_cache"] (method_tc (prefill self)));
  ("decode", Method ["input_embed"; "paged_kv_cache"] (method_tc (decode self)));
  ("batch_prefill", Method ["input_embeds"; "logit_positions"; "paged_kv_cache"] (method_ttc (batch_prefill self)));
  ("batch_decode", Method ["input_embeds"; "paged_kv_cache"] (method_tc (batch_decode self)));
  ("batch_verify", Method ["input_embeds"; "paged_kv_cache"] (method_tc (batch_verify self)));
  ("create_paged_kv_cache", Method ["max_batch_size"; "max_total_seq_len"; "prefill_chunk_size"; "page_size";
      "support_sliding_window"] (method_ints (create_paged_kv_cache self)))].
End network.
End CohereForCausalLM.

(** The shapes of its parts. *)
Section Cohere_shapes.
Context {nn : NN} {laws : NNLaws nn}.
Lemma CohereMLP_maps config path self :
  natural config → CohereMLP.init config path = Ok self →
  maps_shape config.["hidden_size"] config.["hidden_size"] (CohereMLP.forward self).
Proof. intros P H. unfold CohereMLP.init in H. built H. unfold CohereMLP.forward. module_maps. Qed.
#[local] Hint Resolve CohereMLP_maps : modules.
Lemma CohereAttention_attends config path self :
  natural config → CohereAttention.init config path = Ok self →
  attends config.["hidden_size"] (Cohere_heads config) (CohereAttention.forward self).
Proof. intros P H. unfold CohereAttention.init in H. built H. unfold CohereAttention.forward. module_attends. Qed.
#[local] Hint Resolve CohereAttention_attends : modules.
Lemma CohereNorm_maps config normalized_shape eps dtype path self :
  natural config → CohereNorm.init normalized_shape eps dtype path = Ok self →
  maps_shape normalized_shape normalized_shape (CohereNorm.forward self).
Proof. intros P H. unfold CohereNorm.init in H. built H. unfold CohereNorm.forward. module_maps. Qed.
#[local] Hint Resolve CohereNorm_maps : modules.
Lemma CohereDecoderLayer_attends config path self :
  natural config → CohereDecoderLayer.init config path = Ok self →
  attends config.["hidden_size"] (Cohere_heads config) (CohereDecoderLayer.forward self).
Proof. intros P H. unfold CohereDecoderLayer.init in H. built H. unfold CohereDecoderLayer.forward, CohereDecoderLayer._apply_parallel_residual. module_attends. Qed.
#[local] Hint Resolve CohereDecoderLayer_attends : modules.
Lemma CohereModel_runs config path self :
  natural config → CohereModel.init config path = Ok self →
  runs config.["hidden_size"] (Cohere_heads config) (CohereModel.forward self).
Proof.
  intros P H. unfold CohereModel.init in H. built H.
  unfold CohereModel.forward.
  match goal with Hl : module_list _ _ _ = Ok _ |- _ => module_runs Hl end.
Qed.
#[local] Hint Resolve CohereModel_runs : modules.
Lemma CohereModel_embed_tokens config path self : CohereModel.init config path = Ok self →
  self.(CohereModel.embed_tokens) = Embedding.init (path ./ "embed_tokens") (symbolic config "vocab_size") config.["hidden_size"].
Proof. intros H. unfold CohereModel.init in H. built H. reflexivity. Qed.
Lemma CohereForCausalLM_typed config path self :
  natural config → CohereForCausalLM.init config path = Ok self →
  well_typed config.["hidden_size"] (symbolic config "vocab_size") (Cohere_heads config) (CohereForCausalLM.get_default_spec self) (CohereForCausalLM.methods self).
Proof.
  intros P H. unfold CohereForCausalLM.init in H. built H.
  match goal with Hm : CohereModel.init _ _ = Ok _ |- _ => pose proof (CohereModel_embed_tokens _ _ _ Hm) as Hemb_embed_tokens end.
  functions; unfold CohereForCausalLM.create_paged_kv_cache, CohereForCausalLM.embed, CohereForCausalLM.batch_verify, CohereForCausalLM.batch_decode, CohereForCausalLM.batch_prefill, CohereForCausalLM.decode, CohereForCausalLM.prefill, CohereForCausalLM.batch_forward, CohereEmbedding.forward, CohereEmbedding.init, CohereEmbedding.lm_head_forward; exported.
Qed.
End Cohere_shapes.
End Cohere.

(** ** [model/nemotron/nemotron_model.py] *)

Module Nemotron.
(** The layers and heads of the cache [create_paged_kv_cache] makes. *)
Definition Nemotron_heads (config : settings) : heads := {|
  n_layers := config.["num_hidden_layers"]; q_heads := (config.["num_attention_heads"] / config.["tensor_parallel_shards"]);
  kv_heads := (config.["num_key_value_heads"] / config.["tensor_parallel_shards"]); head_size := config.["head_dim"]; value_size := config.["head_dim"] |}.

(** [NemotronMLP]. *)
Module NemotronMLP.
Section network.
Context {nn : NN}.
Record t := { hidden_size : Z; intermediate_size : Z; up_proj : Linear.t; down_proj : Linear.t }.
Definition init (config : settings) (path : string) : result t :=
  let hidden_size := config.["hidden_size"] in
  let intermediate_size := config.["intermediate_size"] in
  let up_proj := Linear.init (path ./ "up_proj") config.["hidden_size"] config.["intermediate_size"]
      config.?["mlp_bias"] None None in
  let down_proj := Linear.init (path ./ "down_proj") config.["intermediate_size"] config.["hidden_size"]
      config.?["mlp_bias"] None None in
  Ok {| hidden_size := hidden_size; intermediate_size := intermediate_size; up_proj := up_proj; down_proj :=
      down_proj |}.
Definition parameters (self : t) : params :=
  under "up_proj" (Linear.parameters self.(up_proj)) ++ under "down_proj" (Linear.parameters self.(down_proj)).
Definition forward (self : t) (x : T) : T :=
  let out := Linear.forward self.(up_proj) x in
  let out := activate Square (activate Relu out) in
  Linear.forward self.(down_proj) out.
End network.
End NemotronMLP.

(** [NemotronEmbedding]. *)
Module NemotronEmbedding.
Section network.
Context {nn : NN}.
Definition t : Type := Embedding.t.
Definition init : string → Z → Z → t := Embedding.init.
Definition forward : t → T → T := Embedding.forward.
Definition parameters : t → params := Embedding.parameters.
Definition lm_head_forward (self : t) (x : T) : T :=
  let weight := permute_dims self.(Embedding.weight) [] in
  matmul x weight (Some "float32").
End network.
End NemotronEmbedding.

(** [NemotronLayerNorm1P]. *)
Module NemotronLayerNorm1P.
Section network.
Context {nn : NN}.
Definition t : Type := LayerNorm.t.
Definition init : string → Z → number → bool → t := LayerNorm.init.
Definition parameters : t → params := LayerNorm.parameters.
Definition forward (self : t) (x : T) : T :=
  layer_norm self.(LayerNorm.normalized_shape) self.(LayerNorm.eps) ((λ w, w ⊕' Num 1) <$> self.(LayerNorm.weight))
    self.(LayerNorm.bias) x.
End network.
End NemotronLayerNorm1P.

(** [NemotronAttention]. *)
Module NemotronAttention.
Section network.
Context {nn : NN}.
Record t := { head_dim : Z; num_q_heads : Z; num_kv_heads : Z; qkv_proj : Linear.t; o_proj : Linear.t }.
Definition init (config : settings) (path : string) : result t :=
  let head_dim := config.["head_dim"] in
  let num_q_heads := config.["num_attention_heads"] / config.["tensor_parallel_shards"] in
  _ ← py_assert (config.["num_key_value_heads"] mod config.["tensor_parallel_shards"] =? 0) ("num_kv_heads(" +:+
      pretty config.["num_key_value_heads"] +:+ ") must be divisible by tensor_parallel_shards");
  _ ← py_assert (config.["num_key_value_heads"] >=? config.["tensor_parallel_shards"])
      ("Too large tensor_parallel_shards, must be smaller than " +:+ pretty config.["num_key_value_heads"]);
  let num_kv_heads := config.["num_key_value_heads"] / config.["tensor_parallel_shards"] in
  let qkv_proj := Linear.init (path ./ "qkv_proj") config.["hidden_size"] ((num_q_heads + (2 * num_kv_heads)) *
      head_dim) false None None in
  let o_proj := Linear.init (path ./ "o_proj") (num_q_heads * head_dim) config.["hidden_size"] false None None in
  Ok {| head_dim := head_dim; num_q_heads := num_q_heads; num_kv_heads := num_kv_heads; qkv_proj := qkv_proj; o_proj
      := o_proj |}.
Definition parameters (self : t) : params :=
  under "qkv_proj" (Linear.parameters self.(qkv_proj)) ++ under "o_proj" (Linear.parameters self.(o_proj)).
Definition forward (self : t) (hidden_states : T) (paged_kv_cache : Cache) (layer_id : Z) : T * Cache :=
  let d := self.(head_dim) in let h_q := self.(num_q_heads) in let h_kv := self.(num_kv_heads) in
  let '(b, s, _) := dims3 hidden_states in
  let qkv := Linear.forward self.(qkv_proj) hidden_states in
  let qkv := reshape qkv [b; s; (h_q + h_kv) + h_kv; d] in
  let '(attn_output, paged_kv_cache) := attention_with_fused_qkv paged_kv_cache layer_id qkv self.(num_q_heads) (Pow
      (Num self.(head_dim)) (Lit "-0.5")) in
  let output := reshape attn_output [b; s; h_q * d] in
  (Linear.forward self.(o_proj) output, paged_kv_cache).
End network.
End NemotronAttention.

(** [NemotronDecoderLayer]. *)
Module NemotronDecoderLayer.
Section network.
Context {nn : NN}.
Record t := { self_attn : NemotronAttention.t; mlp : NemotronMLP.t; input_layernorm : NemotronLayerNorm1P.t;
    post_attention_layernorm : NemotronLayerNorm1P.t; tensor_parallel_shards : Z }.
Definition init (config : settings) (path : string) : result t :=
  self_attn ← NemotronAttention.init config (path ./ "self_attn");
  mlp ← NemotronMLP.init config (path ./ "mlp");
  let input_layernorm := NemotronLayerNorm1P.init (path ./ "input_layernorm") config.["hidden_size"] (Val (val_of
      config "norm_eps")) true in
  let post_attention_layernorm := NemotronLayerNorm1P.init (path ./ "post_attention_layernorm")
      config.["hidden_size"] (Val (val_of config "norm_eps")) true in
  let tensor_parallel_shards := config.["tensor_parallel_shards"] in
  Ok {| self_attn := self_attn; mlp := mlp; input_layernorm := input_layernorm; post_attention_layernorm :=
      post_attention_layernorm; tensor_parallel_shards := tensor_parallel_shards |}.
Definition parameters (self : t) : params :=
  under "self_attn" (NemotronAttention.parameters self.(self_attn)) ++ under "mlp" (NemotronMLP.parameters
      self.(mlp)) ++ under "input_layernorm" (NemotronLayerNorm1P.parameters self.(input_layernorm)) ++ under
      "post_attention_layernorm" (NemotronLayerNorm1P.parameters self.(post_attention_layernorm)).
Definition set_tp (config : settings) (self : t) : list (string * ShardSingleDim) :=
  let hd := config.["head_dim"] in
  let q := self.(self_attn).(NemotronAttention.num_q_heads) * hd in
  let k := self.(self_attn).(NemotronAttention.num_kv_heads) * hd in
  let v := self.(self_attn).(NemotronAttention.num_kv_heads) * hd in
  [("self_attn.qkv_proj.weight", {| shard_name := "_shard_qkv"; shard_dim := 0; segs := Some [q; k; v] |});
   ("self_attn.o_proj.weight", {| shard_name := "_shard_o"; shard_dim := 1; segs := None |});
   ("mlp.up_proj.weight", {| shard_name := "_shard_mlp_up"; shard_dim := 1; segs := None |});
   ("mlp.down_proj.weight", {| shard_name := "_shard_mlp_down"; shard_dim := 1; segs := None |})].
Definition _apply_residual (self : t) (out : T) (residual : T) : T :=
  if (self.(tensor_parallel_shards) >? 1) then
    (ccl_allreduce out "sum") ⊕ residual
  else
    out ⊕ residual.
Definition forward (self : t) (hidden_states : T) (paged_kv_cache : Cache) (layer_id : Z) : T * Cache :=
  let '(out, paged_kv_cache) := NemotronAttention.forward self.(self_attn) (NemotronLayerNorm1P.forward
      self.(input_layernorm) hidden_states) paged_kv_cache layer_id in
  let hidden_states := _apply_residual self out hidden_states in
  let out := NemotronMLP.forward self.(mlp) (NemotronLayerNorm1P.forward self.(post_attention_layernorm)
      hidden_states) in
  let hidden_states := _apply_residual self out hidden_states in
  (hidden_states, paged_kv_cache).
End network.
End NemotronDecoderLayer.

(** [NemotronModel]. *)
Module NemotronModel.
Section network.
Context {nn : NN}.
Record t := { embed_tokens : NemotronEmbedding.t; layers : list NemotronDecoderLayer.t; norm : NemotronLayerNorm1P.t;
    num_layers_per_stage : Z; layer_partition : list Z }.
Definition init (config : settings) (path : string) : result t :=
  _ ← py_assert (config.["hidden_size"] mod config.["num_attention_heads"] =? 0) "";
  let embed_tokens := NemotronEmbedding.init (path ./ "embed_tokens") (symbolic config "vocab_size")
      config.["hidden_size"] in
  layers ← module_list (path ./ "layers") config.["num_hidden_layers"] (λ _ path, NemotronDecoderLayer.init config
      path);
  let norm := NemotronLayerNorm1P.init (path ./ "norm") config.["hidden_size"] (Val (val_of config "norm_eps")) true
      in
  let num_layers_per_stage := ((config.["num_hidden_layers"] + config.["pipeline_parallel_stages"]) - 1) /
      config.["pipeline_parallel_stages"] in
  let layers_per_stage := ((config.["num_hidden_layers"] + config.["pipeline_parallel_stages"]) - 1) /
      config.["pipeline_parallel_stages"] in
  let layer_partition := ((λ i, i * layers_per_stage) <$> range config.["pipeline_parallel_stages"]) ++
      [config.["num_hidden_layers"]] in
  Ok {| embed_tokens := embed_tokens; layers := layers; norm := norm; num_layers_per_stage := num_layers_per_stage;
      layer_partition := layer_partition |}.
Definition parameters (self : t) : params :=
  under "embed_tokens" (NemotronEmbedding.parameters self.(embed_tokens)) ++ list_params "layers"
      NemotronDecoderLayer.parameters self.(layers) ++ under "norm" (NemotronLayerNorm1P.parameters self.(norm)).
Definition forward (self : t) (input_embed : T) (paged_kv_cache : Cache) : T * Cache :=
  let hidden_states := input_embed in
  let '(hidden_states, paged_kv_cache) :=
    for_layers self.(layers) (λ layer_id layer '(hidden_states, paged_kv_cache),
      let hidden_states := if ((negb (layer_id =? 0)) && (bool_decide (layer_id ∈ self.(layer_partition)))) then
          pipeline_stage_boundary hidden_states else hidden_states in
      NemotronDecoderLayer.forward layer hidden_states paged_kv_cache layer_id) (hidden_states, paged_kv_cache) in
  let hidden_states := NemotronLayerNorm1P.forward self.(norm) hidden_states in
  (hidden_states, paged_kv_cache).
End network.
End NemotronModel.

(** [NemotronForCausalLM]. *)
Module NemotronForCausalLM.
Section network.
Context {nn : NN}.
Record t := { model : NemotronModel.t; tie_word_embeddings : bool; lm_head : option Linear.t; num_hidden_layers : Z;
    num_attention_heads : Z; num_key_value_heads : Z; head_dim : Z; hidden_size : Z; vocab_size : Z; rope_scaling :
    pyval; rope_theta : Z; rotary_dim : Z; tensor_parallel_shards : Z; disaggregation : bool; dtype : string }.
Definition init (config : settings) (path : string) : result t :=
  model ← NemotronModel.init config (path ./ "model");
  let tie_word_embeddings := config.?["tie_word_embeddings"] in
  let lm_head := if negb config.?["tie_word_embeddings"] then Some (Linear.init (path ./ "lm_head")
      config.["hidden_size"] (symbolic config "vocab_size") false None None) else None in
  let num_hidden_layers := config.["num_hidden_layers"] in
  let num_attention_heads := config.["num_attention_heads"] in
  let num_key_value_heads := config.["num_key_value_heads"] in
  let head_dim := config.["head_dim"] in
  let hidden_size := config.["hidden_size"] in
  let vocab_size := config.["vocab_size"] in
  let rope_scaling := val_of config "rope_scaling" in
  let rope_theta := config.["rope_theta"] in
  let rotary_dim := config.["rotary_dim"] in
  let tensor_parallel_shards := config.["tensor_parallel_shards"] in
  let disaggregation := config.?["disaggregation"] in
  let dtype := "float32" in
  Ok {| model := model; tie_word_embeddings := tie_word_embeddings; lm_head := lm_head; num_hidden_layers :=
      num_hidden_layers; num_attention_heads := num_attention_heads; num_key_value_heads := num_key_value_heads;
      head_dim := head_dim; hidden_size := hidden_size; vocab_size := vocab_size; rope_scaling := rope_scaling;
      rope_theta := rope_theta; rotary_dim := rotary_dim; tensor_parallel_shards := tensor_parallel_shards;
      disaggregation := disaggregation; dtype := dtype |}.
Definition parameters (self : t) : params :=
  under "model" (NemotronModel.parameters self.(model)) ++ under "lm_head" (match self.(lm_head) with Some m =>
      Linear.parameters m | None => [] end).
Definition set_pp (config : settings) (self : t) : result (list (string * list Z)) :=
  hidden_layers ← map_m (λ layer_id,
    layers_per_stage ← floordiv config.["num_hidden_layers"] config.["pipeline_parallel_stages"];
    stage ← floordiv layer_id layers_per_stage;
    layer ← py_index self.(model).(NemotronModel.layers) (Z.to_nat layer_id);
    Ok ((λ p, ("model" ./ "layers" ./ pretty layer_id ./ p.1, [stage])) <$> NemotronDecoderLayer.parameters layer))
    (range config.["num_hidden_layers"]);
  let last_stage := config.["pipeline_parallel_stages"] - 1 in
  let all_stages := range config.["pipeline_parallel_stages"] in
  Ok (concat hidden_layers ++ [("model.norm.weight", [last_stage])] ++ [("model.embed_tokens.weight", all_stages)] ++
    if negb config.?["tie_word_embeddings"] then [("lm_head.weight", all_stages)] else []).
Definition get_logits (self : t) (hidden_states : T) : T :=
  let logits := if self.(tie_word_embeddings) then NemotronEmbedding.lm_head_forward
      self.(model).(NemotronModel.embed_tokens) hidden_states else (match self.(lm_head) with Some m =>
      Linear.forward m hidden_states | None => undefined end) in
  if negb (bool_decide (dtype_of logits = "float32")) then astype logits "float32" else logits.
Definition batch_forward (self : t) (input_embeds : T) (paged_kv_cache : Cache) (logit_positions : option T) : T *
    Cache :=
  let '(hidden_states, paged_kv_cache) := NemotronModel.forward self.(model) input_embeds paged_kv_cache in
  let hidden_states :=
    match logit_positions with
    | Some logit_positions =>
        let logit_positions := if (self.(tensor_parallel_shards) >? 1) then ccl_broadcast_from_worker0
            logit_positions else logit_positions in
        take hidden_states logit_positions 1
    | None => hidden_states
    end in
  (get_logits self hidden_states, paged_kv_cache).
Definition batch_forward_to_last_hidden_states (self : t) (input_embeds : T) (paged_kv_cache : Cache) : T * Cache :=
  NemotronModel.forward self.(model) input_embeds paged_kv_cache.
Definition embed (self : t) (input_ids : T) : T :=
  let input_ids := if (self.(tensor_parallel_shards) >? 1) then ccl_broadcast_from_worker0 input_ids else input_ids in
  NemotronEmbedding.forward self.(model).(NemotronModel.embed_tokens) input_ids.
Definition batch_select_last_hidden_states (self : t) (hidden_states : T) (logit_positions : T) : T :=
  let logit_positions := if (self.(tensor_parallel_shards) >? 1) then ccl_broadcast_from_worker0 logit_positions else
      logit_positions in
  take hidden_states logit_positions 0.
Definition prefill (self : t) (input_embed : T) (paged_kv_cache : Cache) : T * Cache :=
  let '(hidden_states, paged_kv_cache) := NemotronModel.forward self.(model) input_embed paged_kv_cache in
  let hidden_states := index_last_token hidden_states in
  let logits := get_logits self hidden_states in
  (logits, paged_kv_cache).
Definition decode (self : t) (input_embed : T) (paged_kv_cache : Cache) : T * Cache :=
  let '(hidden_states, paged_kv_cache) := NemotronModel.forward self.(model) input_embed paged_kv_cache in
  let logits := get_logits self hidden_states in
  (logits, paged_kv_cache).
Definition prefill_to_last_hidden_states (self : t) (input_embed : T) (paged_kv_cache : Cache) : T * Cache :=
  NemotronModel.forward self.(model) input_embed paged_kv_cache.
Definition decode_to_last_hidden_states (self : t) (input_embed : T) (paged_kv_cache : Cache) : T * Cache :=
  NemotronModel.forward self.(model) input_embed paged_kv_cache.
Definition batch_prefill (self : t) (input_embeds : T) (logit_positions : T) (paged_kv_cache : Cache) : T * Cache :=
  batch_forward self input_embeds paged_kv_cache (Some logit_positions).
Definition batch_decode (self : t) (input_embeds : T) (paged_kv_cache : Cache) : T * Cache :=
  batch_forward self input_embeds paged_kv_cache None.
Definition batch_verify (self : t) (input_embeds : T) (paged_kv_cache : Cache) : T * Cache :=
  batch_forward self input_embeds paged_kv_cache None.
Definition batch_prefill_to_last_hidden_states (self : t) (input_embeds : T) (paged_kv_cache : Cache) : T * Cache :=
  batch_forward_to_last_hidden_states self input_embeds paged_kv_cache.
Definition batch_decode_to_last_hidden_states (self : t) (input_embeds : T) (paged_kv_cache : Cache) : T * Cache :=
  batch_forward_to_last_hidden_states self input_embeds paged_kv_cache.
Definition batch_verify_to_last_hidden_states (self : t) (input_embeds : T) (paged_kv_cache : Cache) : T * Cache :=
  batch_forward_to_last_hidden_states self input_embeds paged_kv_cache.
Definition create_paged_kv_cache (self : t) (max_batch_size : Z) (max_total_seq_len : Z) (prefill_chunk_size : Z)
    (page_size : Z) (support_sliding_window : Z) : Cache :=
  create_generic (PStr "mha") max_batch_size max_total_seq_len prefill_chunk_size page_size support_sliding_window
      self.(num_hidden_layers) (self.(num_attention_heads) / self.(tensor_parallel_shards))
      (self.(num_key_value_heads) / self.(tensor_parallel_shards)) self.(head_dim) self.(head_dim) "NORMAL" (Num 1)
      (Num self.(rope_theta)) self.(dtype) (Some self.(rotary_dim)) self.(rope_scaling) PNone (Some
      self.(model).(NemotronModel.layer_partition)) self.(disaggregation).
Definition get_default_spec (self : t) : mod_spec := [
  ("embed", packed [("input_ids", STensor [Named "seq_len"] "int32")]);
  ("get_logits", packed [("hidden_states", STensor [Named "seq_len"; Fixed self.(hidden_size)] self.(dtype))]);
  ("batch_select_last_hidden_states", unpacked [("hidden_states", STensor [Named "seq_len"; Fixed self.(hidden_size)]
      self.(dtype)); ("logit_positions", STensor [Named "batch_size"] "int32")]);
  ("prefill", packed [("input_embed", STensor [Fixed 1; Named "seq_len"; Fixed self.(hidden_size)] self.(dtype));
      ("paged_kv_cache", SObject)]);
  ("decode", packed [("input_embed", STensor [Fixed 1; Fixed 1; Fixed self.(hidden_size)] self.(dtype));
      ("paged_kv_cache", SObject)]);
  ("prefill_to_last_hidden_states", packed [("input_embed", STensor [Fixed 1; Named "seq_len"; Fixed
      self.(hidden_size)] self.(dtype)); ("paged_kv_cache", SObject)]);
  ("decode_to_last_hidden_states", packed [("input_embed", STensor [Fixed 1; Fixed 1; Fixed self.(hidden_size)]
      self.(dtype)); ("paged_kv_cache", SObject)]);
  ("batch_prefill", packed [("input_embeds", STensor [Fixed 1; Named "seq_len"; Fixed self.(hidden_size)]
      self.(dtype)); ("logit_positions", STensor [Named "batch_size"] "int32"); ("paged_kv_cache", SObject)]);
  ("batch_decode", packed [("input_embeds", STensor [Named "batch_size"; Fixed 1; Fixed self.(hidden_size)]
      self.(dtype)); ("paged_kv_cache", SObject)]);
  ("batch_verify", packed [("input_embeds", STensor [Fixed 1; Named "seq_len"; Fixed self.(hidden_size)]
      self.(dtype)); ("paged_kv_cache", SObject)]);
  ("batch_prefill_to_last_hidden_states", packed [("input_embeds", STensor [Fixed 1; Named "seq_len"; Fixed
      self.(hidden_size)] self.(dtype)); ("paged_kv_cache", SObject)]);
  ("batch_decode_to_last_hidden_states", packed [("input_embeds", STensor [Named "batch_size"; Fixed 1; Fixed
      self.(hidden_size)] self.(dtype)); ("paged_kv_cache", SObject)]);
  ("batch_verify_to_last_hidden_states", packed [("input_embeds", STensor [Fixed 1; Named "seq_len"; Fixed
      self.(hidden_size)] self.(dtype)); ("paged_kv_cache", SObject)]);
  ("create_paged_kv_cache", unpacked [("max_batch_size", SInt); ("max_total_seq_len", SInt); ("prefill_chunk_size",
      SInt); ("page_size", SInt); ("support_sliding_window", SInt)])].
Definition methods (self : t) : list (string * method) := [
  ("embed", Method ["input_ids"] (method_t (embed self)));
  ("get_logits", Method ["hidden_states"] (method_t (get_logits self)));
  ("batch_select_last_hidden_states", Method ["hidden_states"; "logit_positions"] (method_tt
      (batch_select_last_hidden_states self)));
  ("prefill", Method ["input_embed"; "paged_kv_cache"] (method_tc (prefill self)));
  ("decode", Method ["input_embed"; "paged_kv_cache"] (method_tc (decode self)));
  ("prefill_to_last_hidden_states", Method ["input_embed"; "paged_kv_cache"] (method_tc
      (prefill_to_last_hidden_states self)));
  ("decode_to_last_hidden_states", Method ["input_embed"; "paged_kv_cache"] (method_tc (decode_to_last_hidden_states
      self)));
  ("batch_prefill", Method ["input_embeds"; "logit_positions"; "paged_kv_cache"] (method_ttc (batch_prefill self)));
  ("batch_decode", Method ["input_embeds"; "paged_kv_cache"] (method_tc (batch_decode self)));
  ("batch_verify", Method ["input_embeds"; "paged_kv_cache"] (method_tc (batch_verify self)));
  ("batch_prefill_to_last_hidden_states", Method ["input_embeds"; "paged_kv_cache"] (method_tc
      (batch_prefill_to_last_hidden_states self)));
  ("batch_decode_to_last_hidden_states", Method ["input_embeds"; "paged_kv_cache"] (method_tc
      (batch_decode_to_last_hidden_states self)));
  ("batch_verify_to_last_hidden_states", Method ["input_embeds"; "paged_kv_cache"] (method_tc
      (batch_verify_to_last_hidden_states self)));
  ("create_paged_kv_cache", Method ["max_batch_size"; "max_total_seq_len"; "prefill_chunk_size"; "page_size";
      "support_sliding_window"] (method_ints (create_paged_kv_cache self)))].
End network.
End NemotronForCausalLM.

(** The shapes of its parts. *)
Section Nemotron_shapes.
Context {nn : NN} {laws : NNLaws nn}.
Lemma NemotronMLP_maps config path self :
  natural config → NemotronMLP.init config path = Ok self →
  maps_shape config.["hidden_size"] config.["hidden_size"] (NemotronMLP.forward self).
Proof. intros P H. unfold NemotronMLP.init in H. built H. unfold NemotronMLP.forward. module_maps. Qed.
#[local] Hint Resolve NemotronMLP_maps : modules.
Lemma NemotronLayerNorm1P_maps path h eps a : maps_shape h h (NemotronLayerNorm1P.forward (NemotronLayerNorm1P.init path h eps a)).
Proof.
  intros x b s Hx. unfold NemotronLayerNorm1P.forward. rewrite shape_layer_norm; [done| |intros v; cbn; destruct a; [intros [= <-]; apply shape_parameter|done]|by rewrite Hx].
  intros v. cbn. destruct a; [|done]. intros [= <-]. rewrite shape_arith_scalar. apply shape_parameter.
Qed.
#[local] Hint Resolve NemotronLayerNorm1P_maps : modules.
Lemma NemotronAttention_attends config path self :
  natural config → NemotronAttention.init config path = Ok self →
  attends config.["hidden_size"] (Nemotron_heads config) (NemotronAttention.forward self).
Proof. intros P H. unfold NemotronAttention.init in H. built H. unfold NemotronAttention.forward. module_attends. Qed.
#[local] Hint Resolve NemotronAttention_attends : modules.
Lemma NemotronDecoderLayer_attends config path self :
  natural config → NemotronDecoderLayer.init config path = Ok self →
  attends config.["hidden_size"] (Nemotron_heads config) (NemotronDecoderLayer.forward self).
Proof. intros P H. unfold NemotronDecoderLayer.init in H. built H. unfold NemotronDecoderLayer.forward, NemotronDecoderLayer._apply_residual. module_attends. Qed.
#[local] Hint Resolve NemotronDecoderLayer_attends : modules.
Lemma NemotronModel_runs config path self :
  natural config → NemotronModel.init config path = Ok self →
  runs config.["hidden_size"] (Nemotron_heads config) (NemotronModel.forward self).
Proof.
  intros P H. unfold NemotronModel.init in H. built H.
  unfold NemotronModel.forward.
  match goal with Hl : module_list _ _ _ = Ok _ |- _ => module_runs Hl end.
Qed.
#[local] Hint Resolve NemotronModel_runs : modules.
Lemma NemotronModel_embed_tokens config path self : NemotronModel.init config path = Ok self →
  self.(NemotronModel.embed_tokens) = Embedding.init (path ./ "embed_tokens") (symbolic config "vocab_size") config.["hidden_size"].
Proof. intros H. unfold NemotronModel.init in H. built H. reflexivity. Qed.
Lemma NemotronForCausalLM_typed config path self :
  natural config → NemotronForCausalLM.init config path = Ok self →
  well_typed config.["hidden_size"] (symbolic config "vocab_size") (Nemotron_heads config) (NemotronForCausalLM.get_default_spec self) (NemotronForCausalLM.methods self).
Proof.
  intros P H. unfold NemotronForCausalLM.init in H. built H.
  match goal with Hm : NemotronModel.init _ _ = Ok _ |- _ => pose proof (NemotronModel_embed_tokens _ _ _ Hm) as Hemb_embed_tokens end.
  functions; unfold NemotronForCausalLM.create_paged_kv_cache, NemotronForCausalLM.batch_verify_to_last_hidden_states, NemotronForCausalLM.batch_decode_to_last_hidden_states, NemotronForCausalLM.batch_prefill_to_last_hidden_states, NemotronForCausalLM.batch_verify, NemotronForCausalLM.batch_decode, NemotronForCausalLM.batch_prefill, NemotronForCausalLM.decode_to_last_hidden_states, NemotronForCausalLM.prefill_to_last_hidden_states, NemotronForCausalLM.decode, NemotronForCausalLM.prefill, NemotronForCausalLM.batch_select_last_hidden_states, NemotronForCausalLM.embed, NemotronForCausalLM.batch_forward_to_last_hidden_states, NemotronForCausalLM.batch_forward, NemotronForCausalLM.get_logits, NemotronEmbedding.forward, NemotronEmbedding.init, NemotronEmbedding.lm_head_forward; exported.
Qed.
End Nemotron_shapes.
End Nemotron.

(** ** [model/olmo/olmo_model.py] *)

Module OLMo.
(** The layers and heads of the cache [create_paged_kv_cache] makes. *)
Definition OLMo_heads (config : settings) : heads := {|
  n_layers := config.["num_hidden_layers"]; q_heads := (config.["num_attention_heads"] / config.["tensor_parallel_shards"]);
  kv_heads := (config.["num_key_value_heads"] / config.["tensor_parallel_shards"]); head_size := config.["head_dim"]; value_size := config.["head_dim"] |}.

(** [OLMoEmbedding]. *)
Module OLMoEmbedding.
Section network.
Context {nn : NN}.
Definition t : Type := Embedding.t.
Definition init : string → Z → Z → t := Embedding.init.
Definition forward : t → T → T := Embedding.forward.
Definition parameters : t → params := Embedding.parameters.
Definition lm_head_forward (self : t) (x : T) : T :=
  let weight := permute_dims self.(Embedding.weight) [] in
  matmul x weight (Some "float32").
End network.
End OLMoEmbedding.

(** [OLMoAttention]. *)
Module OLMoAttention.
Section network.
Context {nn : NN}.
Record t := { num_q_heads : Z; num_kv_heads : Z; head_dim : Z; qkv_proj : Linear.t; clip_qkv : number; o_proj :
    Linear.t }.
Definition init (config : settings) (path : string) : result t :=
  let num_q_heads := config.["num_attention_heads"] / config.["tensor_parallel_shards"] in
  _ ← py_assert (config.["num_key_value_heads"] >=? config.["tensor_parallel_shards"])
      ("Too large tensor_parallel_shards, must be smaller than " +:+ pretty config.["num_key_value_heads"]);
  _ ← py_assert (config.["num_key_value_heads"] mod config.["tensor_parallel_shards"] =? 0) ("num_kv_heads(" +:+
      pretty config.["num_key_value_heads"] +:+ ") must be divisible by tensor_parallel_shards");
  let num_kv_heads := config.["num_key_value_heads"] / config.["tensor_parallel_shards"] in
  let head_dim := config.["head_dim"] in
  let qkv_proj := Linear.init (path ./ "qkv_proj") config.["hidden_size"] ((num_q_heads + (2 * num_kv_heads)) *
      head_dim) false None None in
  let clip_qkv := (Val (val_of config "clip_qkv")) in
  let o_proj := Linear.init (path ./ "o_proj") (num_q_heads * head_dim) config.["hidden_size"] false None None in
  Ok {| num_q_heads := num_q_heads; num_kv_heads := num_kv_heads; head_dim := head_dim; qkv_proj := qkv_proj;
      clip_qkv := clip_qkv; o_proj := o_proj |}.
Definition parameters (self : t) : params :=
  under "qkv_proj" (Linear.parameters self.(qkv_proj)) ++ under "o_proj" (Linear.parameters self.(o_proj)).
Definition forward (self : t) (hidden_states : T) (paged_kv_cache : Cache) (layer_id : Z) : T * Cache :=
  let d := self.(head_dim) in let h_q := self.(num_q_heads) in let h_kv := self.(num_kv_heads) in
  let '(b, s, _) := dims3 hidden_states in
  let qkv := Linear.forward self.(qkv_proj) hidden_states in
  let qkv := if negb (is_none_num self.(clip_qkv)) then arith_scalar Minimum (arith_scalar Maximum qkv (Opp
      self.(clip_qkv))) self.(clip_qkv) else qkv in
  let qkv := reshape qkv [b; s; (h_q + h_kv) + h_kv; d] in
  let '(attn_output, paged_kv_cache) := attention_with_fused_qkv paged_kv_cache layer_id qkv self.(num_q_heads) (Pow
      (Num self.(head_dim)) (Lit "-0.5")) in
  let output := reshape attn_output [b; s; h_q * d] in
  (Linear.forward self.(o_proj) output, paged_kv_cache).
End network.
End OLMoAttention.

(** [OLMoFFN]. *)
Module OLMoFFN.
Section network.
Context {nn : NN}.
Record t := { intermediate_size : Z; gate_up_proj : Linear.t; act_fn : activation; down_proj : Linear.t }.
Definition init (config : settings) (path : string) : result t :=
  _ ← raise_when (negb (config.["intermediate_size"] mod config.["tensor_parallel_shards"] =? 0)) ValueError
      ("Cannot split MLP intermediate size " +:+ pretty config.["intermediate_size"] +:+ " evenly to " +:+ pretty
      config.["tensor_parallel_shards"] +:+ " GPUs.");
  let intermediate_size := config.["intermediate_size"] / config.["tensor_parallel_shards"] in
  let gate_up_proj := Linear.init (path ./ "gate_up_proj") config.["hidden_size"] (2 * intermediate_size) false None
      None in
  act_fn ← get_key (str_of config "hidden_act") ACT2FN;
  let down_proj := Linear.init (path ./ "down_proj") intermediate_size config.["hidden_size"] false None None in
  Ok {| intermediate_size := intermediate_size; gate_up_proj := gate_up_proj; act_fn := act_fn; down_proj :=
      down_proj |}.
Definition parameters (self : t) : params :=
  under "gate_up_proj" (Linear.parameters self.(gate_up_proj)) ++ under "down_proj" (Linear.parameters
      self.(down_proj)).
Definition forward (self : t) (x : T) : T :=
  let concat_x1_x2 := Linear.forward self.(gate_up_proj) x in
  let '(x1, x2) := split2 concat_x1_x2 (-1) in
  Linear.forward self.(down_proj) ((activate self.(act_fn) x1) ⊗ x2).
End network.
End OLMoFFN.

(** [OLMoDecoderLayer]. *)
Module OLMoDecoderLayer.
Section network.
Context {nn : NN}.
Record t := { input_layernorm : LayerNorm.t; self_attn : OLMoAttention.t; post_attention_layernorm : LayerNorm.t; mlp
    : OLMoFFN.t; tensor_parallel_shards : Z }.
Definition init (config : settings) (path : string) : result t :=
  let input_layernorm := LayerNorm.init (path ./ "input_layernorm") config.["hidden_size"] (Lit "1e-05") false in
  self_attn ← OLMoAttention.init config (path ./ "self_attn");
  let post_attention_layernorm := LayerNorm.init (path ./ "post_attention_layernorm") config.["hidden_size"] (Lit
      "1e-05") false in
  mlp ← OLMoFFN.init config (path ./ "mlp");
  let tensor_parallel_shards := config.["tensor_parallel_shards"] in
  Ok {| input_layernorm := input_layernorm; self_attn := self_attn; post_attention_layernorm :=
      post_attention_layernorm; mlp := mlp; tensor_parallel_shards := tensor_parallel_shards |}.
Definition parameters (self : t) : params :=
  under "input_layernorm" (LayerNorm.parameters self.(input_layernorm)) ++ under "self_attn"
      (OLMoAttention.parameters self.(self_attn)) ++ under "post_attention_layernorm" (LayerNorm.parameters
      self.(post_attention_layernorm)) ++ under "mlp" (OLMoFFN.parameters self.(mlp)).
Definition set_tp (config : settings) (self : t) : list (string * ShardSingleDim) :=
  let hd := config.["head_dim"] in
  let q := self.(self_attn).(OLMoAttention.num_q_heads) * hd in
  let k := self.(self_attn).(OLMoAttention.num_kv_heads) * hd in
  let v := self.(self_attn).(OLMoAttention.num_kv_heads) * hd in
  let i := self.(mlp).(OLMoFFN.intermediate_size) in
  [("self_attn.qkv_proj.weight", {| shard_name := "_shard_qkv"; shard_dim := 0; segs := Some [q; k; v] |});
   ("self_attn.o_proj.weight", {| shard_name := "_shard_o"; shard_dim := 1; segs := None |});
   ("mlp.gate_up_proj.weight", {| shard_name := "_shard_mlp_up"; shard_dim := 0; segs := Some [i; i] |});
   ("mlp.down_proj.weight", {| shard_name := "_shard_mlp_down"; shard_dim := 1; segs := None |})].
Definition _apply_residual (self : t) (out : T) (residual : T) : T :=
  if (self.(tensor_parallel_shards) >? 1) then
    (ccl_allreduce out "sum") ⊕ residual
  else
    out ⊕ residual.
Definition forward (self : t) (hidden_states : T) (paged_kv_cache : Cache) (layer_id : Z) : T * Cache :=
  let '(out, paged_kv_cache) := OLMoAttention.forward self.(self_attn) (LayerNorm.forward self.(input_layernorm)
      hidden_states) paged_kv_cache layer_id in
  let hidden_states := _apply_residual self out hidden_states in
  let out := OLMoFFN.forward self.(mlp) (LayerNorm.forward self.(post_attention_layernorm) hidden_states) in
  let hidden_states := _apply_residual self out hidden_states in
  (hidden_states, paged_kv_cache).
End network.
End OLMoDecoderLayer.

(** [OLMoModel]. *)
Module OLMoModel.
Section network.
Context {nn : NN}.
Record t := { embed_tokens : OLMoEmbedding.t; layers : list OLMoDecoderLayer.t; norm : LayerNorm.t;
    num_layers_per_stage : Z; layer_partition : list Z }.
Definition init (config : settings) (path : string) : result t :=
  _ ← py_assert (config.["hidden_size"] mod config.["num_attention_heads"] =? 0) "";
  let embed_tokens := OLMoEmbedding.init (path ./ "embed_tokens") config.["vocab_size"] config.["hidden_size"] in
  layers ← module_list (path ./ "layers") config.["num_hidden_layers"] (λ _ path, OLMoDecoderLayer.init config path);
  let norm := LayerNorm.init (path ./ "norm") config.["hidden_size"] (Lit "1e-05") false in
  let num_layers_per_stage := ((config.["num_hidden_layers"] + config.["pipeline_parallel_stages"]) - 1) /
      config.["pipeline_parallel_stages"] in
  let layers_per_stage := ((config.["num_hidden_layers"] + config.["pipeline_parallel_stages"]) - 1) /
      config.["pipeline_parallel_stages"] in
  let layer_partition := ((λ i, i * layers_per_stage) <$> range config.["pipeline_parallel_stages"]) ++
      [config.["num_hidden_layers"]] in
  Ok {| embed_tokens := embed_tokens; layers := layers; norm := norm; num_layers_per_stage := num_layers_per_stage;
      layer_partition := layer_partition |}.
Definition parameters (self : t) : params :=
  under "embed_tokens" (OLMoEmbedding.parameters self.(embed_tokens)) ++ list_params "layers"
      OLMoDecoderLayer.parameters self.(layers) ++ under "norm" (LayerNorm.parameters self.(norm)).
Definition forward (self : t) (inputs : T) (paged_kv_cache : Cache) : T * Cache :=
  let hidden_states := inputs in
  let '(hidden_states, paged_kv_cache) :=
    for_layers self.(layers) (λ layer_id layer '(hidden_states, paged_kv_cache),
      let hidden_states := if ((negb (layer_id =? 0)) && (bool_decide (layer_id ∈ self.(layer_partition)))) then
          pipeline_stage_boundary hidden_states else hidden_states in
      OLMoDecoderLayer.forward layer hidden_states paged_kv_cache layer_id) (hidden_states, paged_kv_cache) in
  let hidden_states := LayerNorm.forward self.(norm) hidden_states in
  (hidden_states, paged_kv_cache).
End network.
End OLMoModel.

(** [OLMoForCausalLM]. *)
Module OLMoForCausalLM.
Section network.
Context {nn : NN}.
Record t := { model : OLMoModel.t; tie_word_embeddings : bool; lm_head : option Linear.t; vocab_size : Z; hidden_size
    : Z; num_attention_heads : Z; num_key_value_heads : Z; head_dim : Z; rope_theta : Z; rope_scaling : pyval;
    intermediate_size : Z; num_hidden_layers : Z; tensor_parallel_shards : Z; dtype : string }.
Definition init (config : settings) (path : string) : result t :=
  model ← OLMoModel.init config (path ./ "model");
  let tie_word_embeddings := config.?["tie_word_embeddings"] in
  let lm_head := if negb config.?["tie_word_embeddings"] then Some (Linear.init (path ./ "lm_head")
      config.["hidden_size"] config.["vocab_size"] false None None) else None in
  let vocab_size := config.["vocab_size"] in
  let hidden_size := config.["hidden_size"] in
  let num_attention_heads := config.["num_attention_heads"] in
  let num_key_value_heads := config.["num_key_value_heads"] in
  let head_dim := config.["head_dim"] in
  let rope_theta := config.["position_embedding_base"] in
  let rope_scaling := val_of config "rope_scaling" in
  let intermediate_size := config.["intermediate_size"] in
  let num_hidden_layers := config.["num_hidden_layers"] in
  let tensor_parallel_shards := config.["tensor_parallel_shards"] in
  let dtype := "float32" in
  Ok {| model := model; tie_word_embeddings := tie_word_embeddings; lm_head := lm_head; vocab_size := vocab_size;
      hidden_size := hidden_size; num_attention_heads := num_attention_heads; num_key_value_heads :=
      num_key_value_heads; head_dim := head_dim; rope_theta := rope_theta; rope_scaling := rope_scaling;
      intermediate_size := intermediate_size; num_hidden_layers := num_hidden_layers; tensor_parallel_shards :=
      tensor_parallel_shards; dtype := dtype |}.
Definition parameters (self : t) : params :=
  under "model" (OLMoModel.parameters self.(model)) ++ under "lm_head" (match self.(lm_head) with Some m =>
      Linear.parameters m | None => [] end).
Definition set_pp (config : settings) (self : t) : result (list (string * list Z)) :=
  hidden_layers ← map_m (λ layer_id,
    layers_per_stage ← floordiv config.["num_hidden_layers"] config.["pipeline_parallel_stages"];
    stage ← floordiv layer_id layers_per_stage;
    layer ← py_index self.(model).(OLMoModel.layers) (Z.to_nat layer_id);
    Ok ((λ p, ("model" ./ "layers" ./ pretty layer_id ./ p.1, [stage])) <$> OLMoDecoderLayer.parameters layer))
    (range config.["num_hidden_layers"]);
  let all_stages := range config.["pipeline_parallel_stages"] in
  Ok (concat hidden_layers ++ [("model.embed_tokens.weight", all_stages)] ++
    if negb config.?["tie_word_embeddings"] then [("lm_head.weight", all_stages)] else []).
Definition get_logits (self : t) (hidden_states : T) : T :=
  let logits := if self.(tie_word_embeddings) then OLMoEmbedding.lm_head_forward
      self.(model).(OLMoModel.embed_tokens) hidden_states else (match self.(lm_head) with Some m => Linear.forward m
      hidden_states | None => undefined end) in
  if negb (bool_decide (dtype_of logits = "float32")) then astype logits "float32" else logits.
Definition batch_forward (self : t) (input_embeds : T) (paged_kv_cache : Cache) (logit_positions : option T) : T *
    Cache :=
  let '(hidden_states, paged_kv_cache) := OLMoModel.forward self.(model) input_embeds paged_kv_cache in
  let hidden_states :=
    match logit_positions with
    | Some logit_positions =>
        let logit_positions := if (self.(tensor_parallel_shards) >? 1) then ccl_broadcast_from_worker0
            logit_positions else logit_positions in
        take hidden_states logit_positions 1
    | None => hidden_states
    end in
  (get_logits self hidden_states, paged_kv_cache).
Definition batch_forward_to_last_hidden_states (self : t) (input_embeds : T) (paged_kv_cache : Cache) : T * Cache :=
  OLMoModel.forward self.(model) input_embeds paged_kv_cache.
Definition embed (self : t) (input_ids : T) : T :=
  let input_ids := if (self.(tensor_parallel_shards) >? 1) then ccl_broadcast_from_worker0 input_ids else input_ids in
  OLMoEmbedding.forward self.(model).(OLMoModel.embed_tokens) input_ids.
Definition batch_select_last_hidden_states (self : t) (hidden_states : T) (logit_positions : T) : T :=
  let logit_positions := if (self.(tensor_parallel_shards) >? 1) then ccl_broadcast_from_worker0 logit_positions else
      logit_positions in
  take hidden_states logit_positions 0.
Definition prefill (self : t) (input_embed : T) (paged_kv_cache : Cache) : T * Cache :=
  let '(hidden_states, paged_kv_cache) := OLMoModel.forward self.(model) input_embed paged_kv_cache in
  let hidden_states := index_last_token hidden_states in
  let logits := get_logits self hidden_states in
  (logits, paged_kv_cache).
Definition decode (self : t) (input_embed : T) (paged_kv_cache : Cache) : T * Cache :=
  let '(hidden_states, paged_kv_cache) := OLMoModel.forward self.(model) input_embed paged_kv_cache in
  let logits := get_logits self hidden_states in
  (logits, paged_kv_cache).
Definition prefill_to_last_hidden_states (self : t) (input_embed : T) (paged_kv_cache : Cache) : T * Cache :=
  OLMoModel.forward self.(model) input_embed paged_kv_cache.
Definition decode_to_last_hidden_states (self : t) (input_embed : T) (paged_kv_cache : Cache) : T * Cache :=
  OLMoModel.forward self.(model) input_embed paged_kv_cache.
Definition batch_prefill (self : t) (input_embeds : T) (logit_positions : T) (paged_kv_cache : Cache) : T * Cache :=
  batch_forward self input_embeds paged_kv_cache (Some logit_positions).
Definition batch_decode (self : t) (input_embeds : T) (paged_kv_cache : Cache) : T * Cache :=
  batch_forward self input_embeds paged_kv_cache None.
Definition batch_verify (self : t) (input_embeds : T) (paged_kv_cache : Cache) : T * Cache :=
  batch_forward self input_embeds paged_kv_cache None.
Definition batch_prefill_to_last_hidden_states (self : t) (input_embeds : T) (paged_kv_cache : Cache) : T * Cache :=
  batch_forward_to_last_hidden_states self input_embeds paged_kv_cache.
Definition batch_decode_to_last_hidden_states (self : t) (input_embeds : T) (paged_kv_cache : Cache) : T * Cache :=
  batch_forward_to_last_hidden_states self input_embeds paged_kv_cache.
Definition batch_verify_to_last_hidden_states (self : t) (input_embeds : T) (paged_kv_cache : Cache) : T * Cache :=
  batch_forward_to_last_hidden_states self input_embeds paged_kv_cache.
Definition create_paged_kv_cache (self : t) (max_batch_size : Z) (max_total_seq_len : Z) (prefill_chunk_size : Z)
    (page_size : Z) (support_sliding_window : Z) : Cache :=
  create_generic (PStr "mha") max_batch_size max_total_seq_len prefill_chunk_size page_size support_sliding_window
      self.(num_hidden_layers) (self.(num_attention_heads) / self.(tensor_parallel_shards))
      (self.(num_key_value_heads) / self.(tensor_parallel_shards)) self.(head_dim) self.(head_dim) "NORMAL" (Num 1)
      (Num self.(rope_theta)) self.(dtype) None self.(rope_scaling) PNone (Some
      self.(model).(OLMoModel.layer_partition)) false.
Definition get_default_spec (self : t) : mod_spec := [
  ("embed", packed [("input_ids", STensor [Named "seq_len"] "int32")]);
  ("get_logits", packed [("hidden_states", STensor [Named "seq_len"; Fixed self.(hidden_size)] self.(dtype))]);
  ("batch_select_last_hidden_states", unpacked [("hidden_states", STensor [Named "seq_len"; Fixed self.(hidden_size)]
      self.(dtype)); ("logit_positions", STensor [Named "batch_size"] "int32")]);
  ("prefill", packed [("input_embed", STensor [Fixed 1; Named "seq_len"; Fixed self.(hidden_size)] self.(dtype));
      ("paged_kv_cache", SObject)]);
  ("decode", packed [("input_embed", STensor [Fixed 1; Fixed 1; Fixed self.(hidden_size)] self.(dtype));
      ("paged_kv_cache", SObject)]);
  ("prefill_to_last_hidden_states", packed [("input_embed", STensor [Fixed 1; Named "seq_len"; Fixed
      self.(hidden_size)] self.(dtype)); ("paged_kv_cache", SObject)]);
  ("decode_to_last_hidden_states", packed [("input_embed", STensor [Fixed 1; Fixed 1; Fixed self.(hidden_size)]
      self.(dtype)); ("paged_kv_cache", SObject)]);
  ("batch_prefill", packed [("input_embeds", STensor [Fixed 1; Named "seq_len"; Fixed self.(hidden_size)]
      self.(dtype)); ("logit_positions", STensor [Named "batch_size"] "int32"); ("paged_kv_cache", SObject)]);
  ("batch_decode", packed [("input_embeds", STensor [Named "batch_size"; Fixed 1; Fixed self.(hidden_size)]
      self.(dtype)); ("paged_kv_cache", SObject)]);
  ("batch_verify", packed [("input_embeds", STensor [Fixed 1; Named "seq_len"; Fixed self.(hidden_size)]
      self.(dtype)); ("paged_kv_cache", SObject)]);
  ("batch_prefill_to_last_hidden_states", packed [("input_embeds", STensor [Fixed 1; Named "seq_len"; Fixed
      self.(hidden_size)] self.(dtype)); ("paged_kv_cache", SObject)]);
  ("batch_decode_to_last_hidden_states", packed [("input_embeds", STensor [Named "batch_size"; Fixed 1; Fixed
      self.(hidden_size)] self.(dtype)); ("paged_kv_cache", SObject)]);
  ("batch_verify_to_last_hidden_states", packed [("input_embeds", STensor [Fixed 1; Named "seq_len"; Fixed
      self.(hidden_size)] self.(dtype)); ("paged_kv_cache", SObject)]);
  ("create_paged_kv_cache", unpacked [("max_batch_size", SInt); ("max_total_seq_len", SInt); ("prefill_chunk_size",
      SInt); ("page_size", SInt); ("support_sliding_window", SInt)])].
Definition methods (self : t) : list (string * method) := [
  ("embed", Method ["input_ids"] (method_t (embed self)));
  ("get_logits", Method ["hidden_states"] (method_t (get_logits self)));
  ("batch_select_last_hidden_states", Method ["hidden_states"; "logit_positions"] (method_tt
      (batch_select_last_hidden_states self)));
  ("prefill", Method ["input_embed"; "paged_kv_cache"] (method_tc (prefill self)));
  ("decode", Method ["input_embed"; "paged_kv_cache"] (method_tc (decode self)));
  ("prefill_to_last_hidden_states", Method ["input_embed"; "paged_kv_cache"] (method_tc
      (prefill_to_last_hidden_states self)));
  ("decode_to_last_hidden_states", Method ["input_embed"; "paged_kv_cache"] (method_tc (decode_to_last_hidden_states
      self)));
  ("batch_prefill", Method ["input_embeds"; "logit_positions"; "paged_kv_cache"] (method_ttc (batch_prefill self)));
  ("batch_decode", Method ["input_embeds"; "paged_kv_cache"] (method_tc (batch_decode self)));
  ("batch_verify", Method ["input_embeds"; "paged_kv_cache"] (method_tc (batch_verify self)));
  ("batch_prefill_to_last_hidden_states", Method ["input_embeds"; "paged_kv_cache"] (method_tc
      (batch_prefill_to_last_hidden_states self)));
  ("batch_decode_to_last_hidden_states", Method ["input_embeds"; "paged_kv_cache"] (method_tc
      (batch_decode_to_last_hidden_states self)));
  ("batch_verify_to_last_hidden_states", Method ["input_embeds"; "paged_kv_cache"] (method_tc
      (batch_verify_to_last_hidden_states self)));
  ("create_paged_kv_cache", Method ["max_batch_size"; "max_total_seq_len"; "prefill_chunk_size"; "page_size";
      "support_sliding_window"] (method_ints (create_paged_kv_cache self)))].
End network.
End OLMoForCausalLM.

(** The shapes of its parts. *)
Section OLMo_shapes.
Context {nn : NN} {laws : NNLaws nn}.
Lemma OLMoAttention_attends config path self :
  natural config → OLMoAttention.init config path = Ok self →
  attends config.["hidden_size"] (OLMo_heads config) (OLMoAttention.forward self).
Proof. intros P H. unfold OLMoAttention.init in H. built H. unfold OLMoAttention.forward. module_attends. Qed.
#[local] Hint Resolve OLMoAttention_attends : modules.
Lemma OLMoFFN_maps config path self :
  natural config → OLMoFFN.init config path = Ok self →
  maps_shape config.["hidden_size"] config.["hidden_size"] (OLMoFFN.forward self).
Proof. intros P H. unfold OLMoFFN.init in H. built H. unfold OLMoFFN.forward. module_maps. Qed.
#[local] Hint Resolve OLMoFFN_maps : modules.
Lemma OLMoDecoderLayer_attends config path self :
  natural config → OLMoDecoderLayer.init config path = Ok self →
  attends config.["hidden_size"] (OLMo_heads config) (OLMoDecoderLayer.forward self).
Proof. intros P H. unfold OLMoDecoderLayer.init in H. built H. unfold OLMoDecoderLayer.forward, OLMoDecoderLayer._apply_residual. module_attends. Qed.
#[local] Hint Resolve OLMoDecoderLayer_attends : modules.
Lemma OLMoModel_runs config path self :
  natural config → OLMoModel.init config path = Ok self →
  runs config.["hidden_size"] (OLMo_heads config) (OLMoModel.forward self).
Proof.
  intros P H. unfold OLMoModel.init in H. built H.
  unfold OLMoModel.forward.
  match goal with Hl : module_list _ _ _ = Ok _ |- _ => module_runs Hl end.
Qed.
#[local] Hint Resolve OLMoModel_runs : modules.
Lemma OLMoModel_embed_tokens config path self : OLMoModel.init config path = Ok self →
  self.(OLMoModel.embed_tokens) = Embedding.init (path ./ "embed_tokens") config.["vocab_size"] config.["hidden_size"].
Proof. intros H. unfold OLMoModel.init in H. built H. reflexivity. Qed.
Lemma OLMoForCausalLM_typed config path self :
  natural config → OLMoForCausalLM.init config path = Ok self →
  well_typed config.["hidden_size"] config.["vocab_size"] (OLMo_heads config) (OLMoForCausalLM.get_default_spec self) (OLMoForCausalLM.methods self).
Proof.
  intros P H. unfold OLMoForCausalLM.init in H. built H.
  match goal with Hm : OLMoModel.init _ _ = Ok _ |- _ => pose proof (OLMoModel_embed_tokens _ _ _ Hm) as Hemb_embed_tokens end.
  functions; unfold OLMoForCausalLM.create_paged_kv_cache, OLMoForCausalLM.batch_verify_to_last_hidden_states, OLMoForCausalLM.batch_decode_to_last_hidden_states, OLMoForCausalLM.batch_prefill_to_last_hidden_states, OLMoForCausalLM.batch_verify, OLMoForCausalLM.batch_decode, OLMoForCausalLM.batch_prefill, OLMoForCausalLM.decode_to_last_hidden_states, OLMoForCausalLM.prefill_to_last_hidden_states, OLMoForCausalLM.decode, OLMoForCausalLM.prefill, OLMoForCausalLM.batch_select_last_hidden_states, OLMoForCausalLM.embed, OLMoForCausalLM.batch_forward_to_last_hidden_states, OLMoForCausalLM.batch_forward, OLMoForCausalLM.get_logits, OLMoEmbedding.forward, OLMoEmbedding.init, OLMoEmbedding.lm_head_forward; exported.
Qed.
End OLMo_shapes.
End OLMo.

(** ** [model/olmo2/olmo2_model.py] *)

Module OLMo2.
(** The layers and heads of the cache [create_paged_kv_cache] makes. *)
Definition OLMo2_heads (config : settings) : heads := {|
  n_layers := config.["num_hidden_layers"]; q_heads := (config.["num_attention_heads"] / config.["tensor_parallel_shards"]);
  kv_heads := (config.["num_key_value_heads"] / config.["tensor_parallel_shards"]); head_size := config.["head_dim"]; value_size := config.["head_dim"] |}.

(** [OLMo2Embedding]. *)
Module OLMo2Embedding.
Section network.
Context {nn : NN}.
Definition t : Type := Embedding.t.
Definition init : string → Z → Z → t := Embedding.init.
Definition forward : t → T → T := Embedding.forward.
Definition parameters : t → params := Embedding.parameters.
Definition lm_head_forward (self : t) (x : T) : T :=
  let weight := permute_dims self.(Embedding.weight) [] in
  matmul x weight (Some "float32").
End network.
End OLMo2Embedding.

(** [OLMo2Attention]. *)
Module OLMo2Attention.
Section network.
Context {nn : NN}.
Record t := { num_q_heads : Z; num_kv_heads : Z; head_dim : Z; qkv_proj : Linear.t; o_proj : Linear.t; q_norm :
    RMSNorm.t; k_norm : RMSNorm.t }.
Definition init (config : settings) (path : string) : result t :=
  let num_q_heads := config.["num_attention_heads"] / config.["tensor_parallel_shards"] in
  _ ← py_assert (config.["num_key_value_heads"] >=? config.["tensor_parallel_shards"])
      ("Too large tensor_parallel_shards, must be smaller than " +:+ pretty config.["num_key_value_heads"]);
  _ ← py_assert (config.["num_key_value_heads"] mod config.["tensor_parallel_shards"] =? 0) ("num_kv_heads(" +:+
      pretty config.["num_key_value_heads"] +:+ ") must be divisible by tensor_parallel_shards");
  let num_kv_heads := config.["num_key_value_heads"] / config.["tensor_parallel_shards"] in
  let head_dim := config.["head_dim"] in
  let qkv_proj := Linear.init (path ./ "qkv_proj") config.["hidden_size"] ((num_q_heads + (2 * num_kv_heads)) *
      head_dim) false None None in
  let o_proj := Linear.init (path ./ "o_proj") (num_q_heads * head_dim) config.["hidden_size"] false None None in
  let q_norm := RMSNorm.init (path ./ "q_norm") (num_q_heads * head_dim) (-1) (Val (val_of config "rms_norm_eps"))
      false in
  let k_norm := RMSNorm.init (path ./ "k_norm") (num_kv_heads * head_dim) (-1) (Val (val_of config "rms_norm_eps"))
      false in
  Ok {| num_q_heads := num_q_heads; num_kv_heads := num_kv_heads; head_dim := head_dim; qkv_proj := qkv_proj; o_proj
      := o_proj; q_norm := q_norm; k_norm := k_norm |}.
Definition parameters (self : t) : params :=
  under "qkv_proj" (Linear.parameters self.(qkv_proj)) ++ under "o_proj" (Linear.parameters self.(o_proj)) ++ under
      "q_norm" (RMSNorm.parameters self.(q_norm)) ++ under "k_norm" (RMSNorm.parameters self.(k_norm)).
Definition forward (self : t) (hidden_states : T) (paged_kv_cache : Cache) (layer_id : Z) : T * Cache :=
  let d := self.(head_dim) in let h_q := self.(num_q_heads) in let h_kv := self.(num_kv_heads) in
  let '(b, s, _) := dims3 hidden_states in
  let qkv := Linear.forward self.(qkv_proj) hidden_states in
  let qkv := reshape qkv [b; s; (h_q + h_kv) + h_kv; d] in
  let '(q, k, v) := split_at2 qkv h_q (h_q + h_kv) 2 in
  let q := reshape q [b; s; h_q * d] in
  let k := reshape k [b; s; h_kv * d] in
  let q := RMSNorm.forward self.(q_norm) q in
  let k := RMSNorm.forward self.(k_norm) k in
  let q := reshape q [b; s; h_q; d] in
  let k := reshape k [b; s; h_kv; d] in
  let qkv := concat_tensors [q; k; v] 2 in
  let '(attn_output, paged_kv_cache) := attention_with_fused_qkv paged_kv_cache layer_id qkv self.(num_q_heads) (Pow
      (Num self.(head_dim)) (Lit "-0.5")) in
  let output := reshape attn_output [b; s; h_q * d] in
  (Linear.forward self.(o_proj) output, paged_kv_cache).
End network.
End OLMo2Attention.

(** [OLMo2FFN]. *)
Module OLMo2FFN.
Section network.
Context {nn : NN}.
Record t := { intermediate_size : Z; gate_up_proj : Linear.t; act_fn : activation; down_proj : Linear.t }.
Definition init (config : settings) (path : string) : result t :=
  _ ← raise_when (negb (config.["intermediate_size"] mod config.["tensor_parallel_shards"] =? 0)) ValueError
      ("Cannot split MLP intermediate size " +:+ pretty config.["intermediate_size"] +:+ " evenly to " +:+ pretty
      config.["tensor_parallel_shards"] +:+ " GPUs.");
  let intermediate_size := config.["intermediate_size"] / config.["tensor_parallel_shards"] in
  let gate_up_proj := Linear.init (path ./ "gate_up_proj") config.["hidden_size"] (2 * intermediate_size) false None
      None in
  act_fn ← get_key (str_of config "hidden_act") ACT2FN;
  let down_proj := Linear.init (path ./ "down_proj") intermediate_size config.["hidden_size"] false None None in
  Ok {| intermediate_size := intermediate_size; gate_up_proj := gate_up_proj; act_fn := act_fn; down_proj :=
      down_proj |}.
Definition parameters (self : t) : params :=
  under "gate_up_proj" (Linear.parameters self.(gate_up_proj)) ++ under "down_proj" (Linear.parameters
      self.(down_proj)).
Definition forward (self : t) (x : T) : T :=
  let concat_x1_x2 := Linear.forward self.(gate_up_proj) x in
  let '(x1, x2) := split2 concat_x1_x2 (-1) in
  Linear.forward self.(down_proj) ((activate self.(act_fn) x1) ⊗ x2).
End network.
End OLMo2FFN.

(** [OLMo2DecoderLayer]. *)
Module OLMo2DecoderLayer.
Section network.
Context {nn : NN}.
Record t := { self_attn : OLMo2Attention.t; mlp : OLMo2FFN.t; post_attention_layernorm : RMSNorm.t;
    post_feedforward_layernorm : RMSNorm.t; tensor_parallel_shards : Z }.
Definition init (config : settings) (path : string) : result t :=
  let rms_norm_eps := (Val (val_of config "rms_norm_eps")) in
  self_attn ← OLMo2Attention.init config (path ./ "self_attn");
  mlp ← OLMo2FFN.init config (path ./ "mlp");
  let post_attention_layernorm := RMSNorm.init (path ./ "post_attention_layernorm") config.["hidden_size"] (-1)
      rms_norm_eps false in
  let post_feedforward_layernorm := RMSNorm.init (path ./ "post_feedforward_layernorm") config.["hidden_size"] (-1)
      rms_norm_eps false in
  let tensor_parallel_shards := config.["tensor_parallel_shards"] in
  Ok {| self_attn := self_attn; mlp := mlp; post_attention_layernorm := post_attention_layernorm;
      post_feedforward_layernorm := post_feedforward_layernorm; tensor_parallel_shards := tensor_parallel_shards |}.
Definition parameters (self : t) : params :=
  under "self_attn" (OLMo2Attention.parameters self.(self_attn)) ++ under "mlp" (OLMo2FFN.parameters self.(mlp)) ++
      under "post_attention_layernorm" (RMSNorm.parameters self.(post_attention_layernorm)) ++ under
      "post_feedforward_layernorm" (RMSNorm.parameters self.(post_feedforward_layernorm)).
Definition set_tp (config : settings) (self : t) : list (string * ShardSingleDim) :=
  let hd := config.["head_dim"] in
  let q := self.(self_attn).(OLMo2Attention.num_q_heads) * hd in
  let k := self.(self_attn).(OLMo2Attention.num_kv_heads) * hd in
  let v := self.(self_attn).(OLMo2Attention.num_kv_heads) * hd in
  let i := self.(mlp).(OLMo2FFN.intermediate_size) in
  [("self_attn.qkv_proj.weight", {| shard_name := "_shard_qkv"; shard_dim := 0; segs := Some [q; k; v] |});
   ("self_attn.o_proj.weight", {| shard_name := "_shard_o"; shard_dim := 1; segs := None |});
   ("mlp.gate_up_proj.weight", {| shard_name := "_shard_mlp_up"; shard_dim := 0; segs := Some [i; i] |});
   ("mlp.down_proj.weight", {| shard_name := "_shard_mlp_down"; shard_dim := 1; segs := None |})].
Definition _apply_residual (self : t) (out : T) (residual : T) : T :=
  if (self.(tensor_parallel_shards) >? 1) then
    (ccl_allreduce out "sum") ⊕ residual
  else
    out ⊕ residual.
Definition forward (self : t) (hidden_states : T) (paged_kv_cache : Cache) (layer_id : Z) : T * Cache :=
  let '(out, paged_kv_cache) := OLMo2Attention.forward self.(self_attn) hidden_states paged_kv_cache layer_id in
  let out := RMSNorm.forward self.(post_attention_layernorm) out in
  let hidden_states := _apply_residual self out hidden_states in
  let out := OLMo2FFN.forward self.(mlp) hidden_states in
  let out := RMSNorm.forward self.(post_feedforward_layernorm) out in
  let hidden_states := _apply_residual self out hidden_states in
  (hidden_states, paged_kv_cache).
End network.
End OLMo2DecoderLayer.

(** [OLMo2Model]. *)
Module OLMo2Model.
Section network.
Context {nn : NN}.
Record t := { embed_tokens : OLMo2Embedding.t; layers : list OLMo2DecoderLayer.t; norm : RMSNorm.t;
    num_layers_per_stage : Z; layer_partition : list Z }.
Definition init (config : settings) (path : string) : result t :=
  _ ← py_assert (config.["hidden_size"] mod config.["num_attention_heads"] =? 0) "";
  let embed_tokens := OLMo2Embedding.init (path ./ "embed_tokens") config.["vocab_size"] config.["hidden_size"] in
  layers ← module_list (path ./ "layers") config.["num_hidden_layers"] (λ _ path, OLMo2DecoderLayer.init config path);
  let norm := RMSNorm.init (path ./ "norm") config.["hidden_size"] (-1) (Val (val_of config "rms_norm_eps")) false in
  let num_layers_per_stage := ((config.["num_hidden_layers"] + config.["pipeline_parallel_stages"]) - 1) /
      config.["pipeline_parallel_stages"] in
  let layers_per_stage := ((config.["num_hidden_layers"] + config.["pipeline_parallel_stages"]) - 1) /
      config.["pipeline_parallel_stages"] in
  let layer_partition := ((λ i, i * layers_per_stage) <$> range config.["pipeline_parallel_stages"]) ++
      [config.["num_hidden_layers"]] in
  Ok {| embed_tokens := embed_tokens; layers := layers; norm := norm; num_layers_per_stage := num_layers_per_stage;
      layer_partition := layer_partition |}.
Definition parameters (self : t) : params :=
  under "embed_tokens" (OLMo2Embedding.parameters self.(embed_tokens)) ++ list_params "layers"
      OLMo2DecoderLayer.parameters self.(layers) ++ under "norm" (RMSNorm.parameters self.(norm)).
Definition forward (self : t) (inputs : T) (paged_kv_cache : Cache) : T * Cache :=
  let hidden_states := inputs in
  let '(hidden_states, paged_kv_cache) :=
    for_layers self.(layers) (λ layer_id layer '(hidden_states, paged_kv_cache),
      let hidden_states := if ((negb (layer_id =? 0)) && (bool_decide (layer_id ∈ self.(layer_partition)))) then
          pipeline_stage_boundary hidden_states else hidden_states in
      OLMo2DecoderLayer.forward layer hidden_states paged_kv_cache layer_id) (hidden_states, paged_kv_cache) in
  let hidden_states := RMSNorm.forward self.(norm) hidden_states in
  (hidden_states, paged_kv_cache).
End network.
End OLMo2Model.

(** [OLMo2ForCausalLM]. *)
Module OLMo2ForCausalLM.
Section network.
Context {nn : NN}.
Record t := { model : OLMo2Model.t; tie_word_embeddings : bool; lm_head : option Linear.t; vocab_size : Z;
    hidden_size : Z; num_attention_heads : Z; num_key_value_heads : Z; head_dim : Z; rope_theta : Z; rope_scaling :
    pyval; intermediate_size : Z; num_hidden_layers : Z; tensor_parallel_shards : Z; dtype : string }.
Definition init (config : settings) (path : string) : result t :=
  model ← OLMo2Model.init config (path ./ "model");
  let tie_word_embeddings := config.?["tie_word_embeddings"] in
  let lm_head := if negb config.?["tie_word_embeddings"] then Some (Linear.init (path ./ "lm_head")
      config.["hidden_size"] config.["vocab_size"] false None None) else None in
  let vocab_size := config.["vocab_size"] in
  let hidden_size := config.["hidden_size"] in
  let num_attention_heads := config.["num_attention_heads"] in
  let num_key_value_heads := config.["num_key_value_heads"] in
  let head_dim := config.["head_dim"] in
  let rope_theta := config.["position_embedding_base"] in
  let rope_scaling := val_of config "rope_scaling" in
  let intermediate_size := config.["intermediate_size"] in
  let num_hidden_layers := config.["num_hidden_layers"] in
  let tensor_parallel_shards := config.["tensor_parallel_shards"] in
  let dtype := "float32" in
  Ok {| model := model; tie_word_embeddings := tie_word_embeddings; lm_head := lm_head; vocab_size := vocab_size;
      hidden_size := hidden_size; num_attention_heads := num_attention_heads; num_key_value_heads :=
      num_key_value_heads; head_dim := head_dim; rope_theta := rope_theta; rope_scaling := rope_scaling;
      intermediate_size := intermediate_size; num_hidden_layers := num_hidden_layers; tensor_parallel_shards :=
      tensor_parallel_shards; dtype := dtype |}.
Definition parameters (self : t) : params :=
  under "model" (OLMo2Model.parameters self.(model)) ++ under "lm_head" (match self.(lm_head) with Some m =>
      Linear.parameters m | None => [] end).
Definition set_pp (config : settings) (self : t) : result (list (string * list Z)) :=
  hidden_layers ← map_m (λ layer_id,
    layers_per_stage ← floordiv config.["num_hidden_layers"] config.["pipeline_parallel_stages"];
    stage ← floordiv layer_id layers_per_stage;
    layer ← py_index self.(model).(OLMo2Model.layers) (Z.to_nat layer_id);
    Ok ((λ p, ("model" ./ "layers" ./ pretty layer_id ./ p.1, [stage])) <$> OLMo2DecoderLayer.parameters layer))
    (range config.["num_hidden_layers"]);
  let all_stages := range config.["pipeline_parallel_stages"] in
  Ok (concat hidden_layers ++ [("model.embed_tokens.weight", all_stages)] ++
    if negb config.?["tie_word_embeddings"] then [("lm_head.weight", all_stages)] else []).
Definition get_logits (self : t) (hidden_states : T) : T :=
  let logits := if self.(tie_word_embeddings) then OLMo2Embedding.lm_head_forward
      self.(model).(OLMo2Model.embed_tokens) hidden_states else (match self.(lm_head) with Some m => Linear.forward m
      hidden_states | None => undefined end) in
  if negb (bool_decide (dtype_of logits = "float32")) then astype logits "float32" else logits.
Definition batch_forward (self : t) (input_embeds : T) (paged_kv_cache : Cache) (logit_positions : option T) : T *
    Cache :=
  let '(hidden_states, paged_kv_cache) := OLMo2Model.forward self.(model) input_embeds paged_kv_cache in
  let hidden_states :=
    match logit_positions with
    | Some logit_positions =>
        let logit_positions := if (self.(tensor_parallel_shards) >? 1) then ccl_broadcast_from_worker0
            logit_positions else logit_positions in
        take hidden_states logit_positions 1
    | None => hidden_states
    end in
  (get_logits self hidden_states, paged_kv_cache).
Definition batch_forward_to_last_hidden_states (self : t) (input_embeds : T) (paged_kv_cache : Cache) : T * Cache :=
  OLMo2Model.forward self.(model) input_embeds paged_kv_cache.
Definition embed (self : t) (input_ids : T) : T :=
  let input_ids := if (self.(tensor_parallel_shards) >? 1) then ccl_broadcast_from_worker0 input_ids else input_ids in
  OLMo2Embedding.forward self.(model).(OLMo2Model.embed_tokens) input_ids.
Definition batch_select_last_hidden_states (self : t) (hidden_states : T) (logit_positions : T) : T :=
  let logit_positions := if (self.(tensor_parallel_shards) >? 1) then ccl_broadcast_from_worker0 logit_positions else
      logit_positions in
  take hidden_states logit_positions 0.
Definition prefill (self : t) (input_embed : T) (paged_kv_cache : Cache) : T * Cache :=
  let '(hidden_states, paged_kv_cache) := OLMo2Model.forward self.(model) input_embed paged_kv_cache in
  let hidden_states := index_last_token hidden_states in
  let logits := get_logits self hidden_states in
  (logits, paged_kv_cache).
Definition decode (self : t) (input_embed : T) (paged_kv_cache : Cache) : T * Cache :=
  let '(hidden_states, paged_kv_cache) := OLMo2Model.forward self.(model) input_embed paged_kv_cache in
  let logits := get_logits self hidden_states in
  (logits, paged_kv_cache).
Definition prefill_to_last_hidden_states (self : t) (input_embed : T) (paged_kv_cache : Cache) : T * Cache :=
  OLMo2Model.forward self.(model) input_embed paged_kv_cache.
Definition decode_to_last_hidden_states (self : t) (input_embed : T) (paged_kv_cache : Cache) : T * Cache :=
  OLMo2Model.forward self.(model) input_embed paged_kv_cache.
Definition batch_prefill (self : t) (input_embeds : T) (logit_positions : T) (paged_kv_cache : Cache) : T * Cache :=
  batch_forward self input_embeds paged_kv_cache (Some logit_positions).
Definition batch_decode (self : t) (input_embeds : T) (paged_kv_cache : Cache) : T * Cache :=
  batch_forward self input_embeds paged_kv_cache None.
Definition batch_verify (self : t) (input_embeds : T) (paged_kv_cache : Cache) : T * Cache :=
  batch_forward self input_embeds paged_kv_cache None.
Definition batch_prefill_to_last_hidden_states (self : t) (input_embeds : T) (paged_kv_cache : Cache) : T * Cache :=
  batch_forward_to_last_hidden_states self input_embeds paged_kv_cache.
Definition batch_decode_to_last_hidden_states (self : t) (input_embeds : T) (paged_kv_cache : Cache) : T * Cache :=
  batch_forward_to_last_hidden_states self input_embeds paged_kv_cache.
Definition batch_verify_to_last_hidden_states (self : t) (input_embeds : T) (paged_kv_cache : Cache) : T * Cache :=
  batch_forward_to_last_hidden_states self input_embeds paged_kv_cache.
Definition create_paged_kv_cache (self : t) (max_batch_size : Z) (max_total_seq_len : Z) (prefill_chunk_size : Z)
    (page_size : Z) (support_sliding_window : Z) : Cache :=
  create_generic (PStr "mha") max_batch_size max_total_seq_len prefill_chunk_size page_size support_sliding_window
      self.(num_hidden_layers) (self.(num_attention_heads) / self.(tensor_parallel_shards))
      (self.(num_key_value_heads) / self.(tensor_parallel_shards)) self.(head_dim) self.(head_dim) "NORMAL" (Num 1)
      (Num self.(rope_theta)) self.(dtype) None self.(rope_scaling) PNone (Some
      self.(model).(OLMo2Model.layer_partition)) false.
Definition get_default_spec (self : t) : mod_spec := [
  ("embed", packed [("input_ids", STensor [Named "seq_len"] "int32")]);
  ("get_logits", packed [("hidden_states", STensor [Named "seq_len"; Fixed self.(hidden_size)] self.(dtype))]);
  ("batch_select_last_hidden_states", unpacked [("hidden_states", STensor [Named "seq_len"; Fixed self.(hidden_size)]
      self.(dtype)); ("logit_positions", STensor [Named "batch_size"] "int32")]);
  ("prefill", packed [("input_embed", STensor [Fixed 1; Named "seq_len"; Fixed self.(hidden_size)] self.(dtype));
      ("paged_kv_cache", SObject)]);
  ("decode", packed [("input_embed", STensor [Fixed 1; Fixed 1; Fixed self.(hidden_size)] self.(dtype));
      ("paged_kv_cache", SObject)]);
  ("prefill_to_last_hidden_states", packed [("input_embed", STensor [Fixed 1; Named "seq_len"; Fixed
      self.(hidden_size)] self.(dtype)); ("paged_kv_cache", SObject)]);
  ("decode_to_last_hidden_states", packed [("input_embed", STensor [Fixed 1; Fixed 1; Fixed self.(hidden_size)]
      self.(dtype)); ("paged_kv_cache", SObject)]);
  ("batch_prefill", packed [("input_embeds", STensor [Fixed 1; Named "seq_len"; Fixed self.(hidden_size)]
      self.(dtype)); ("logit_positions", STensor [Named "batch_size"] "int32"); ("paged_kv_cache", SObject)]);
  ("batch_decode", packed [("input_embeds", STensor [Named "batch_size"; Fixed 1; Fixed self.(hidden_size)]
      self.(dtype)); ("paged_kv_cache", SObject)]);
  ("batch_verify", packed [("input_embeds", STensor [Fixed 1; Named "seq_len"; Fixed self.(hidden_size)]
      self.(dtype)); ("paged_kv_cache", SObject)]);
  ("batch_prefill_to_last_hidden_states", packed [("input_embeds", STensor [Fixed 1; Named "seq_len"; Fixed
      self.(hidden_size)] self.(dtype)); ("paged_kv_cache", SObject)]);
  ("batch_decode_to_last_hidden_states", packed [("input_embeds", STensor [Named "batch_size"; Fixed 1; Fixed
      self.(hidden_size)] self.(dtype)); ("paged_kv_cache", SObject)]);
  ("batch_verify_to_last_hidden_states", packed [("input_embeds", STensor [Fixed 1; Named "seq_len"; Fixed
      self.(hidden_size)] self.(dtype)); ("paged_kv_cache", SObject)]);
  ("create_paged_kv_cache", unpacked [("max_batch_size", SInt); ("max_total_seq_len", SInt); ("prefill_chunk_size",
      SInt); ("page_size", SInt); ("support_sliding_window", SInt)])].
Definition methods (self : t) : list (string * method) := [
  ("embed", Method ["input_ids"] (method_t (embed self)));
  ("get_logits", Method ["hidden_states"] (method_t (get_logits self)));
  ("batch_select_last_hidden_states", Method ["hidden_states"; "logit_positions"] (method_tt
      (batch_select_last_hidden_states self)));
  ("prefill", Method ["input_embed"; "paged_kv_cache"] (method_tc (prefill self)));
  ("decode", Method ["input_embed"; "paged_kv_cache"] (method_tc (decode self)));
  ("prefill_to_last_hidden_states", Method ["input_embed"; "paged_kv_cache"] (method_tc
      (prefill_to_last_hidden_states self)));
  ("decode_to_last_hidden_states", Method ["input_embed"; "paged_kv_cache"] (method_tc (decode_to_last_hidden_states
      self)));
  ("batch_prefill", Method ["input_embeds"; "logit_positions"; "paged_kv_cache"] (method_ttc (batch_prefill self)));
  ("batch_decode", Method ["input_embeds"; "paged_kv_cache"] (method_tc (batch_decode self)));
  ("batch_verify", Method ["input_embeds"; "paged_kv_cache"] (method_tc (batch_verify self)));
  ("batch_prefill_to_last_hidden_states", Method ["input_embeds"; "paged_kv_cache"] (method_tc
      (batch_prefill_to_last_hidden_states self)));
  ("batch_decode_to_last_hidden_states", Method ["input_embeds"; "paged_kv_cache"] (method_tc
      (batch_decode_to_last_hidden_states self)));
  ("batch_verify_to_last_hidden_states", Method ["input_embeds"; "paged_kv_cache"] (method_tc
      (batch_verify_to_last_hidden_states self)));
  ("create_paged_kv_cache", Method ["max_batch_size"; "max_total_seq_len"; "prefill_chunk_size"; "page_size";
      "support_sliding_window"] (method_ints (create_paged_kv_cache self)))].
End network.
End OLMo2ForCausalLM.

(** The shapes of its parts. *)
Section OLMo2_shapes.
Context {nn : NN} {laws : NNLaws nn}.
Lemma OLMo2Attention_attends config path self :
  natural config → OLMo2Attention.init config path = Ok self →
  attends config.["hidden_size"] (OLMo2_heads config) (OLMo2Attention.forward self).
Proof. intros P H. unfold OLMo2Attention.init in H. built H. unfold OLMo2Attention.forward. module_attends. Qed.
#[local] Hint Resolve OLMo2Attention_attends : modules.
Lemma OLMo2FFN_maps config path self :
  natural config → OLMo2FFN.init config path = Ok self →
  maps_shape config.["hidden_size"] config.["hidden_size"] (OLMo2FFN.forward self).
Proof. intros P H. unfold OLMo2FFN.init in H. built H. unfold OLMo2FFN.forward. module_maps. Qed.
#[local] Hint Resolve OLMo2FFN_maps : modules.
Lemma OLMo2DecoderLayer_attends config path self :
  natural config → OLMo2DecoderLayer.init config path = Ok self →
  attends config.["hidden_size"] (OLMo2_heads config) (OLMo2DecoderLayer.forward self).
Proof. intros P H. unfold OLMo2DecoderLayer.init in H. built H. unfold OLMo2DecoderLayer.forward, OLMo2DecoderLayer._apply_residual. module_attends. Qed.
#[local] Hint Resolve OLMo2DecoderLayer_attends : modules.
Lemma OLMo2Model_runs config path self :
  natural config → OLMo2Model.init config path = Ok self →
  runs config.["hidden_size"] (OLMo2_heads config) (OLMo2Model.forward self).
Proof.
  intros P H. unfold OLMo2Model.init in H. built H.
  unfold OLMo2Model.forward.
  match goal with Hl : module_list _ _ _ = Ok _ |- _ => module_runs Hl end.
Qed.
#[local] Hint Resolve OLMo2Model_runs : modules.
Lemma OLMo2Model_embed_tokens config path self : OLMo2Model.init config path = Ok self →
  self.(OLMo2Model.embed_tokens) = Embedding.init (path ./ "embed_tokens") config.["vocab_size"] config.["hidden_size"].
Proof. intros H. unfold OLMo2Model.init in H. built H. reflexivity. Qed.
Lemma OLMo2ForCausalLM_typed config path self :
  natural config → OLMo2ForCausalLM.init config path = Ok self →
  well_typed config.["hidden_size"] config.["vocab_size"] (OLMo2_heads config) (OLMo2ForCausalLM.get_default_spec self) (OLMo2ForCausalLM.methods self).
Proof.
  intros P H. unfold OLMo2ForCausalLM.init in H. built H.
  match goal with Hm : OLMo2Model.init _ _ = Ok _ |- _ => pose proof (OLMo2Model_embed_tokens _ _ _ Hm) as Hemb_embed_tokens end.
  functions; unfold OLMo2ForCausalLM.create_paged_kv_cache, OLMo2ForCausalLM.batch_verify_to_last_hidden_states, OLMo2ForCausalLM.batch_decode_to_last_hidden_states, OLMo2ForCausalLM.batch_prefill_to_last_hidden_states, OLMo2ForCausalLM.batch_verify, OLMo2ForCausalLM.batch_decode, OLMo2ForCausalLM.batch_prefill, OLMo2ForCausalLM.decode_to_last_hidden_states, OLMo2ForCausalLM.prefill_to_last_hidden_states, OLMo2ForCausalLM.decode, OLMo2ForCausalLM.prefill, OLMo2ForCausalLM.batch_select_last_hidden_states, OLMo2ForCausalLM.embed, OLMo2ForCausalLM.batch_forward_to_last_hidden_states, OLMo2ForCausalLM.batch_forward, OLMo2ForCausalLM.get_logits, OLMo2Embedding.forward, OLMo2Embedding.init, OLMo2Embedding.lm_head_forward; exported.
Qed.
End OLMo2_shapes.
End OLMo2.
