(* ===== verification/Networks.v ===== *)
(** The networks together: for each, the class the registry names, with what it is built from and
    what it exports.

    [networks_typed]: a network that can be built keeps the promises of its specification. Every
    function [get_default_spec] names is a method with those parameters, and on arguments of the
    shapes and types it declares the function returns logits (32-bit floats, one per word) or hidden
    states of the right shapes, and a cache with the layers and heads of the network's own. The
    operators are any that have the shapes [NNLaws] says; [shape_only] is an instance. *)

From Stdlib Require Import Lia ZArith.
From stdpp Require Import base gmap strings list list_numbers numbers pretty.
From S2P Require Import Prelude PyString PyObject Kernel Config ModelRegistry Sharding Network Shapes NetsLlama NetsQwen NetsGPT NetsGemma.
Open Scope Z_scope.

(** A network: its class in the registry, its states and operations, its sizes. *)
Record network {nn : NN} := {
  key : string; class : string;
  state : Type; build : settings → string → result state;
  spec_of : state → mod_spec; methods_of : state → list (string * method);
  suits : settings → Prop; hidden : settings → Z; vocabulary : settings → Z; cache_heads : settings → heads;
}.

Section networks.
Context {nn : NN}.

Definition Llama_network : network := {|
  key := "llama"; class := "llama_model.LlamaForCausalLM";
  state := Llama.LlamaForCausalLM.t; build := Llama.LlamaForCausalLM.init; spec_of := Llama.LlamaForCausalLM.get_default_spec; methods_of := Llama.LlamaForCausalLM.methods;
  suits := natural; hidden config := config.["hidden_size"]; vocabulary config := (symbolic config "vocab_size"); cache_heads := Llama.Llama_heads |}.
Definition Mistral_network : network := {|
  key := "mistral"; class := "mistral_model.MistralForCausalLM";
  state := Mistral.MistralForCausalLM.t; build := Mistral.MistralForCausalLM.init; spec_of := Mistral.MistralForCausalLM.get_default_spec; methods_of := Mistral.MistralForCausalLM.methods;
  suits := natural; hidden config := config.["hidden_size"]; vocabulary config := (symbolic config "vocab_size"); cache_heads := Mistral.Mistral_heads |}.
Definition Ministral3_network : network := {|
  key := "ministral3"; class := "ministral3_model.Mistral3ForConditionalGeneration";
  state := Ministral3.Mistral3ForConditionalGeneration.t; build := Ministral3.Mistral3ForConditionalGeneration.init; spec_of := Ministral3.Mistral3ForConditionalGeneration.get_default_spec; methods_of := Ministral3.Mistral3ForConditionalGeneration.methods;
  suits := natural; hidden config := config.["hidden_size"]; vocabulary config := config.["vocab_size"]; cache_heads := Ministral3.Ministral3_heads |}.
Definition Orion_network : network := {|
  key := "orion"; class := "orion_model.OrionForCausalLM";
  state := Orion.OrionForCausalLM.t; build := Orion.OrionForCausalLM.init; spec_of := Orion.OrionForCausalLM.get_default_spec; methods_of := Orion.OrionForCausalLM.methods;
  suits := natural; hidden config := config.["hidden_size"]; vocabulary config := (symbolic config "vocab_size"); cache_heads := Orion.Orion_heads |}.
Definition InternLM_network : network := {|
  key := "internlm"; class := "internlm_model.InternLMForCausalLM";
  state := InternLM.InternLMForCausalLM.t; build := InternLM.InternLMForCausalLM.init; spec_of := InternLM.InternLMForCausalLM.get_default_spec; methods_of := InternLM.InternLMForCausalLM.methods;
  suits := natural; hidden config := config.["hidden_size"]; vocabulary config := config.["vocab_size"]; cache_heads := InternLM.InternLM_heads |}.
Definition InternLM2_network : network := {|
  key := "internlm2"; class := "internlm2_model.InternLM2ForCausalLM";
  state := InternLM2.InternLM2ForCausalLM.t; build := InternLM2.InternLM2ForCausalLM.init; spec_of := InternLM2.InternLM2ForCausalLM.get_default_spec; methods_of := InternLM2.InternLM2ForCausalLM.methods;
  suits := natural; hidden config := config.["hidden_size"]; vocabulary config := config.["vocab_size"]; cache_heads := InternLM2.InternLM2_heads |}.
Definition Baichuan_network : network := {|
  key := "baichuan"; class := "baichuan_model.BaichuanForCausalLM";
  state := Baichuan.BaichuanForCausalLM.t; build := Baichuan.BaichuanForCausalLM.init; spec_of := Baichuan.BaichuanForCausalLM.get_default_spec; methods_of := Baichuan.BaichuanForCausalLM.methods;
  suits := natural; hidden config := config.["hidden_size"]; vocabulary config := config.["vocab_size"]; cache_heads := Baichuan.Baichuan_heads |}.
Definition Qwen_network : network := {|
  key := "qwen"; class := "qwen_model.QWenLMHeadModel";
  state := Qwen.QWenLMHeadModel.t; build := Qwen.QWenLMHeadModel.init; spec_of := Qwen.QWenLMHeadModel.get_default_spec; methods_of := Qwen.QWenLMHeadModel.methods;
  suits := Qwen.Qwen_fits; hidden config := config.["hidden_size"]; vocabulary config := config.["vocab_size"]; cache_heads := Qwen.Qwen_heads |}.
Definition Qwen2_network : network := {|
  key := "qwen2"; class := "qwen2_model.QWen2LMHeadModel";
  state := Qwen2.QWen2LMHeadModel.t; build := Qwen2.QWen2LMHeadModel.init; spec_of := Qwen2.QWen2LMHeadModel.get_default_spec; methods_of := Qwen2.QWen2LMHeadModel.methods;
  suits := natural; hidden config := config.["hidden_size"]; vocabulary config := config.["vocab_size"]; cache_heads := Qwen2.Qwen2_heads |}.
Definition Qwen3_network : network := {|
  key := "qwen3"; class := "qwen3_model.Qwen3LMHeadModel";
  state := Qwen3.Qwen3LMHeadModel.t; build := Qwen3.Qwen3LMHeadModel.init; spec_of := Qwen3.Qwen3LMHeadModel.get_default_spec; methods_of := Qwen3.Qwen3LMHeadModel.methods;
  suits := natural; hidden config := config.["hidden_size"]; vocabulary config := config.["vocab_size"]; cache_heads := Qwen3.Qwen3_heads |}.
Definition StableLm_network : network := {|
  key := "stablelm"; class := "stablelm_model.StableLmForCausalLM";
  state := StableLm.StableLmForCausalLM.t; build := StableLm.StableLmForCausalLM.init; spec_of := StableLm.StableLmForCausalLM.get_default_spec; methods_of := StableLm.StableLmForCausalLM.methods;
  suits := natural; hidden config := config.["hidden_size"]; vocabulary config := config.["vocab_size"]; cache_heads := StableLm.StableLm_heads |}.
Definition ChatGLM_network : network := {|
  key := "chatglm"; class := "chatglm3_model.ChatGLMForCausalLM";
  state := ChatGLM.ChatGLMForCausalLM.t; build := ChatGLM.ChatGLMForCausalLM.init; spec_of := ChatGLM.ChatGLMForCausalLM.get_default_spec; methods_of := ChatGLM.ChatGLMForCausalLM.methods;
  suits := ChatGLM.ChatGLM_fits; hidden config := config.["hidden_size"]; vocabulary config := config.["vocab_size"]; cache_heads := ChatGLM.ChatGLM_heads |}.
Definition Phi3_network : network := {|
  key := "phi3"; class := "phi3_model.Phi3ForCausalLM";
  state := Phi3.Phi3ForCausalLM.t; build := Phi3.Phi3ForCausalLM.init; spec_of := Phi3.Phi3ForCausalLM.get_default_spec; methods_of := Phi3.Phi3ForCausalLM.methods;
  suits := Phi3.Phi3_fits; hidden config := config.["hidden_size"]; vocabulary config := symbolic config "vocab_size"; cache_heads := Phi3.Phi3_heads |}.
Definition GPT2_network : network := {|
  key := "gpt2"; class := "gpt2_model.GPT2LMHeadModel";
  state := GPT2.GPT2LMHeadModel.t; build := GPT2.GPT2LMHeadModel.init; spec_of := GPT2.GPT2LMHeadModel.get_default_spec; methods_of := GPT2.GPT2LMHeadModel.methods;
  suits := natural; hidden config := config.["n_embd"]; vocabulary config := (symbolic config "vocab_size"); cache_heads := GPT2.GPT2_heads |}.
Definition GPTBigCode_network : network := {|
  key := "gpt_bigcode"; class := "gpt_bigcode_model.GPTBigCodeForCausalLM";
  state := GPTBigCode.GPTBigCodeForCausalLM.t; build := GPTBigCode.GPTBigCodeForCausalLM.init; spec_of := GPTBigCode.GPTBigCodeForCausalLM.get_default_spec; methods_of := GPTBigCode.GPTBigCodeForCausalLM.methods;
  suits := natural; hidden config := config.["n_embd"]; vocabulary config := (symbolic config "vocab_size"); cache_heads := GPTBigCode.GPTBigCode_heads |}.
Definition GPTJ_network : network := {|
  key := "gptj"; class := "gpt_j_model.GPTJForCausalLM";
  state := GPTJ.GPTJForCausalLM.t; build := GPTJ.GPTJForCausalLM.init; spec_of := GPTJ.GPTJForCausalLM.get_default_spec; methods_of := GPTJ.GPTJForCausalLM.methods;
  suits := GPTJ.GPTJ_fits; hidden config := config.["n_embd"]; vocabulary config := config.["vocab_size"]; cache_heads := GPTJ.GPTJ_heads |}.
Definition GPTNeoX_network : network := {|
  key := "gpt_neox"; class := "gpt_neox_model.GPTNeoXForCausalLM";
  state := GPTNeoX.GPTNeoXForCausalLM.t; build := GPTNeoX.GPTNeoXForCausalLM.init; spec_of := GPTNeoX.GPTNeoXForCausalLM.get_default_spec; methods_of := GPTNeoX.GPTNeoXForCausalLM.methods;
  suits := natural; hidden config := config.["hidden_size"]; vocabulary config := (symbolic config "vocab_size"); cache_heads := GPTNeoX.GPTNeoX_heads |}.
Definition Phi_network : network := {|
  key := "phi-msft"; class := "phi_model.PhiForCausalLM";
  state := Phi.PhiForCausalLM.t; build := Phi.PhiForCausalLM.init; spec_of := Phi.PhiForCausalLM.get_default_spec; methods_of := Phi.PhiForCausalLM.methods;
  suits := natural; hidden config := config.["n_embd"]; vocabulary config := symbolic config "vocab_size"; cache_heads := Phi.Phi_heads |}.
Definition Starcoder2_network : network := {|
  key := "starcoder2"; class := "starcoder2_model.Starcoder2ForCausalLM";
  state := Starcoder2.Starcoder2ForCausalLM.t; build := Starcoder2.Starcoder2ForCausalLM.init; spec_of := Starcoder2.Starcoder2ForCausalLM.get_default_spec; methods_of := Starcoder2.Starcoder2ForCausalLM.methods;
  suits := natural; hidden config := config.["hidden_size"]; vocabulary config := config.["vocab_size"]; cache_heads := Starcoder2.Starcoder2_heads |}.
Definition Gemma_network : network := {|
  key := "gemma"; class := "gemma_model.GemmaForCausalLM";
  state := Gemma.GemmaForCausalLM.t; build := Gemma.GemmaForCausalLM.init; spec_of := Gemma.GemmaForCausalLM.get_default_spec; methods_of := Gemma.GemmaForCausalLM.methods;
  suits := natural; hidden config := config.["hidden_size"]; vocabulary config := (symbolic config "vocab_size"); cache_heads := Gemma.Gemma_heads |}.
Definition Gemma2_network : network := {|
  key := "gemma2"; class := "gemma2_model.Gemma2ForCausalLM";
  state := Gemma2.Gemma2ForCausalLM.t; build := Gemma2.Gemma2ForCausalLM.init; spec_of := Gemma2.Gemma2ForCausalLM.get_default_spec; methods_of := Gemma2.Gemma2ForCausalLM.methods;
  suits := natural; hidden config := config.["hidden_size"]; vocabulary config := (symbolic config "vocab_size"); cache_heads := Gemma2.Gemma2_heads |}.
Definition Cohere_network : network := {|
  key := "cohere"; class := "cohere_model.CohereForCausalLM";
  state := Cohere.CohereForCausalLM.t; build := Cohere.CohereForCausalLM.init; spec_of := Cohere.CohereForCausalLM.get_default_spec; methods_of := Cohere.CohereForCausalLM.methods;
  suits := natural; hidden config := config.["hidden_size"]; vocabulary config := (symbolic config "vocab_size"); cache_heads := Cohere.Cohere_heads |}.
Definition Nemotron_network : network := {|
  key := "nemotron"; class := "nemotron_model.NemotronForCausalLM";
  state := Nemotron.NemotronForCausalLM.t; build := Nemotron.NemotronForCausalLM.init; spec_of := Nemotron.NemotronForCausalLM.get_default_spec; methods_of := Nemotron.NemotronForCausalLM.methods;
  suits := natural; hidden config := config.["hidden_size"]; vocabulary config := (symbolic config "vocab_size"); cache_heads := Nemotron.Nemotron_heads |}.
Definition OLMo_network : network := {|
  key := "olmo"; class := "olmo_model.OLMoForCausalLM";
  state := OLMo.OLMoForCausalLM.t; build := OLMo.OLMoForCausalLM.init; spec_of := OLMo.OLMoForCausalLM.get_default_spec; methods_of := OLMo.OLMoForCausalLM.methods;
  suits := natural; hidden config := config.["hidden_size"]; vocabulary config := config.["vocab_size"]; cache_heads := OLMo.OLMo_heads |}.
Definition OLMo2_network : network := {|
  key := "olmo2"; class := "olmo2_model.OLMo2ForCausalLM";
  state := OLMo2.OLMo2ForCausalLM.t; build := OLMo2.OLMo2ForCausalLM.init; spec_of := OLMo2.OLMo2ForCausalLM.get_default_spec; methods_of := OLMo2.OLMo2ForCausalLM.methods;
  suits := natural; hidden config := config.["hidden_size"]; vocabulary config := config.["vocab_size"]; cache_heads := OLMo2.OLMo2_heads |}.
Definition networks : list network := [
  Llama_network; Mistral_network; Ministral3_network; Orion_network; InternLM_network; InternLM2_network;
      Baichuan_network; Qwen_network; Qwen2_network; Qwen3_network; StableLm_network; ChatGLM_network; Phi3_network;
      GPT2_network; GPTBigCode_network; GPTJ_network; GPTNeoX_network; Phi_network; Starcoder2_network;
      Gemma_network; Gemma2_network; Cohere_network; Nemotron_network; OLMo_network; OLMo2_network].
(** The classes are those of the registry, under those keys. *)
Theorem networks_registered fp N : N ∈ networks →
  ∃ m, dict_get (key N) (MODELS fp) = Some m ∧ model m = class N ∧ model_task m = "chat".
Proof.
  intros H. unfold networks in H.
  repeat (apply elem_of_cons in H as [->|H]; [eexists; split_and!; reflexivity|]). by apply elem_of_nil in H.
Qed.

Context {laws : NNLaws nn}.
(** What four networks ask of a configuration, besides sizes that are natural and counts that are not zero. Their code does
    not ask for it: they can be built without. *)
Definition limits (key : string) (config : settings) : Prop :=
  if decide (key = "gptj") then
    config.["n_embd"] = config.["n_head"] * config.["head_dim"] ∧
    config.["n_head"] * config.["head_dim"] / config.["n_head"] = config.["head_dim"] ∧ config.["tensor_parallel_shards"] = 1
  else if decide (key = "chatglm") then config.?["post_layer_norm"] = true
  else if decide (key = "qwen") then
    config.["intermediate_size"] / config.["tensor_parallel_shards"] =
      2 * (config.["intermediate_size"] / config.["tensor_parallel_shards"] / 2)
  else if decide (key = "phi3") then config.["vocab_size"] = symbolic config "vocab_size"
  else True.
Lemma suits_within N config : N ∈ networks → natural config → limits (key N) config → suits N config.
Proof.
  intros H Hn. unfold networks in H.
  repeat (apply elem_of_cons in H as [->|H]; [cbn in *; first [by intros _|by intros Hl; split]|]). by apply elem_of_nil in H.
Qed.
(** C3. A network of a configuration with natural sizes that can be built keeps the promises of its
    specification: its functions take the arguments it declares, and return what [results_of] says.
    GPT-J must be on one device, and its heads add up to the hidden size; ChatGLM must have its last
    norm; the part of Qwen's intermediate size on a device must be even; and Phi 3 must have one
    vocabulary size. Nothing is stated of these four networks otherwise, though they can be built. *)
Theorem networks_typed N config path m :
  N ∈ networks → natural config → limits (key N) config → build N config path = Ok m →
  well_typed (hidden N config) (vocabulary N config) (cache_heads N config) (spec_of N m) (methods_of N m).
Proof.
  intros H Hn Hl. pose proof (suits_within N config H Hn Hl) as Hs. revert Hs. clear Hn Hl. unfold networks in H.
  repeat (apply elem_of_cons in H as [->|H]; [cbn in *; first [by apply Llama.LlamaForCausalLM_typed | by apply Mistral.MistralForCausalLM_typed | by apply Ministral3.Mistral3ForConditionalGeneration_typed | by apply Orion.OrionForCausalLM_typed | by apply InternLM.InternLMForCausalLM_typed | by apply InternLM2.InternLM2ForCausalLM_typed | by apply Baichuan.BaichuanForCausalLM_typed | by apply Qwen.QWenLMHeadModel_typed | by apply Qwen2.QWen2LMHeadModel_typed | by apply Qwen3.Qwen3LMHeadModel_typed | by apply StableLm.StableLmForCausalLM_typed | by apply ChatGLM.ChatGLMForCausalLM_typed | by apply Phi3.Phi3ForCausalLM_typed | by apply GPT2.GPT2LMHeadModel_typed | by apply GPTBigCode.GPTBigCodeForCausalLM_typed | by apply GPTJ.GPTJForCausalLM_typed | by apply GPTNeoX.GPTNeoXForCausalLM_typed | by apply Phi.PhiForCausalLM_typed | by apply Starcoder2.Starcoder2ForCausalLM_typed | by apply Gemma.GemmaForCausalLM_typed | by apply Gemma2.Gemma2ForCausalLM_typed | by apply Cohere.CohereForCausalLM_typed | by apply Nemotron.NemotronForCausalLM_typed | by apply OLMo.OLMoForCausalLM_typed | by apply OLMo2.OLMo2ForCausalLM_typed]|]). by apply elem_of_nil in H.
Qed.
End networks.

(** ** An instance *)

(** Tensors that are only their shapes and types. *)
Definition shape_only : NN := {|
  T := list Z * string; Cache := cache_args; Elem := unit;
  shape := fst; dtype_of := snd; at_ _ _ := tt;
  parameter _ s d := (s, default "float32" d); undefined := ([], "");
  linear w _ d x := (replace_last x.1 (List.hd 0 w.1), default x.2 d);
  embedding w x := (x.1 ++ [last_size w.1], w.2);
  rms_norm _ _ _ _ x := x; layer_norm _ _ _ _ x := x; activate _ x := x;
  arith _ x y := (default x.1 (broadcast x.1 y.1), x.2); arith_scalar _ x _ := x;
  matmul x w d := (replace_last x.1 (last_size w.1), default x.2 d);
  permute_dims x l := (match l with [] => reverse x.1 | l => (λ i, default 0 (x.1 !! Z.to_nat i)) <$> l end, x.2);
  reshape x s := (s, x.2);
  split_part x axis i j := (resize x.1 axis (j - i), x.2);
  concat_tensors l axis :=
    match l with x :: _ => (resize x.1 axis (sumz ((λ y, size_at y.1 axis) <$> l)), x.2) | [] => ([], "") end;
  take x i axis := match i.1 with [n] => (resize x.1 axis n, x.2) | _ => x end;
  astype x d := (x.1, d); broadcast_to x s := (s, x.2);
  tensor_expr_op _ l s _ := (s, match l with x :: _ => x.2 | [] => "" end);
  ccl_broadcast_from_worker0 x := x; ccl_allreduce x _ := x; pipeline_stage_boundary_op x := x;
  create_paged_kv_cache_generic a := a; layout c := c;
  attention_with_fused_qkv c _ x _ _ :=
    ((match x.1 with b :: s :: _ => [b; s; num_attention_heads c; v_head_dim c] | _ => [] end, x.2), c);
  get_query_positions _ n := ([n], "int32"); int_of_number _ := 0 |}.
Lemma shape_only_laws : NNLaws shape_only.
Proof.
  split; cbn -[broadcast]; intros; try match goal with H : (_, _) = (_, _) |- _ => injection H as <- <- end; subst; try done;
    cbn [fst]; repeat match goal with H : _ = _ |- _ => rewrite H end; try done.
  unfold sumz. cbn. by rewrite Z.add_0_r, Z.add_assoc.
Qed.

Module Example.
#[local] Existing Instance shape_only.
#[local] Existing Instance shape_only_laws.
(** A configuration with the fields of a small Llama. *)
Definition small : settings := {|
  fields := list_to_map [("hidden_size", PInt 64); ("intermediate_size", PInt 128); ("num_attention_heads", PInt 8);
    ("num_key_value_heads", PInt 4); ("head_dim", PInt 8); ("num_hidden_layers", PInt 2); ("tensor_parallel_shards", PInt 2);
    ("pipeline_parallel_stages", PInt 1); ("vocab_size", PInt 100); ("tie_word_embeddings", PBool false)];
  symbolic _ := 100 |}.
Lemma natural_by c :
  forallb (λ k, 0 <=? c.[k]) size_fields && forallb (λ k, negb (c.[k] =? 0) || bool_decide (fields c !! k = None)) divisors = true → natural c.
Proof.
  intros [H1 H2]%andb_true_iff. rewrite forallb_forall in H1, H2. split; intros k Hk%list_elem_of_In.
  - by apply Z.leb_le, H1.
  - intros H. specialize (H2 k Hk). rewrite H in H2. by apply bool_decide_eq_true in H2.
Qed.
Lemma networks_registered_witness : ∃ m, dict_get "llama" (MODELS (λ _, Ok None)) = Some m ∧ model m = "llama_model.LlamaForCausalLM" ∧ model_task m = "chat".
Proof. apply (networks_registered (nn := shape_only) (λ _, Ok None) Llama_network). left. Defined.
Lemma networks_typed_witness :
  match build Llama_network small "" with
  | Ok m => well_typed 64 100 {| n_layers := 2; q_heads := 4; kv_heads := 2; head_size := 8; value_size := 8 |}
      (spec_of Llama_network m) (methods_of Llama_network m)
  | Err _ => False
  end.
Proof.
  destruct (build Llama_network small "") as [m|] eqn:E; [|by vm_compute in E].
  apply (networks_typed Llama_network small "" m); [left|by apply natural_by|exact I|exact E].
Defined.
End Example.
