(* ===== verification/NetSharding.v ===== *)
(** Tensor parallelism of the networks: the strategies [_set_tp] gives the parameters of a layer
    against the layer of a single device.

    A device's parameter with a strategy is a part of the parameter of the full layer
    (see [Sharding]); one without is a copy. The theorem checks it for the layers of the
    networks: multiplying the sharded dimension of every parameter with a strategy by the number
    of devices gives exactly the parameters of the layer built for one device. *)

From Stdlib Require Import Lia ZArith.
From stdpp Require Import base gmap strings list list_numbers numbers pretty.
From S2P Require Import Prelude PyString PyObject Kernel Config Sharding Network Shapes NetsLlama NetsQwen NetsGPT NetsGemma Networks.
Open Scope Z_scope.

(** The configuration with another number of devices. *)
Definition with_shards (c : settings) (n : Z) : settings :=
  {| fields := <["tensor_parallel_shards" := PInt n]> (fields c); symbolic := symbolic c |}.
Lemma int_of_with_eq c n : (with_shards c n).["tensor_parallel_shards"] = n.
Proof. unfold int_of, with_shards. cbn. by rewrite lookup_insert_eq. Qed.
Lemma int_of_with_ne c n k : "tensor_parallel_shards" ≠ k → (with_shards c n).[k] = c.[k].
Proof. intros H. unfold int_of, with_shards. cbn. by rewrite lookup_insert_ne. Qed.
Lemma bool_of_with c n k : "tensor_parallel_shards" ≠ k → (with_shards c n).?[k] = c.?[k].
Proof. intros H. unfold bool_of, with_shards. cbn. by rewrite lookup_insert_ne. Qed.
Lemma val_of_with c n k : "tensor_parallel_shards" ≠ k → val_of (with_shards c n) k = val_of c k.
Proof. intros H. unfold val_of, with_shards. cbn. by rewrite lookup_insert_ne. Qed.

(** The strategy of a parameter, and the shape of the parameter it is cut from. *)
Fixpoint strategy (l : list (string * ShardSingleDim)) (name : string) : option ShardSingleDim :=
  match l with [] => None | (n, s) :: l => if String.eqb n name then Some s else strategy l name end.
Fixpoint shape_of (l : list (string * list Z)) (name : string) : option (list Z) :=
  match l with [] => None | (n, s) :: l => if String.eqb n name then Some s else shape_of l name end.
Definition full_shape (shards : Z) (l : list (string * ShardSingleDim)) (p : string * list Z) : string * list Z :=
  (p.1, match strategy l p.1 with Some s => _compute_in_shape (Z.to_nat (shard_dim s)) shards p.2 | None => p.2 end).
Definition shapes {nn : NN} (l : params) : list (string * list Z) := (λ p, (p.1, shape p.2)) <$> l.
(** A strategy fits a parameter: it has the dimension, and the segments, which are no negative
    numbers, add up. *)
Definition fits (l : list (string * list Z)) (s : string * ShardSingleDim) : Prop :=
  match shape_of l s.1 with
  | Some sh => (Z.to_nat (shard_dim s.2) < length sh)%nat ∧
      sumz (segs_of s.2 sh) = default 0 (sh !! Z.to_nat (shard_dim s.2)) ∧ Forall (Z.le 0) (segs_of s.2 sh)
  | None => False
  end.
(** What the strategies of a layer promise: [one] has the parameters of a device, [full] those of
    the layer on one device. Strategies of different parameters have different names. *)
Definition cut_from {nn : NN} (shards : Z) (strategies : list (string * ShardSingleDim)) (one full : params) : Prop :=
  full_shape shards strategies <$> shapes one = shapes full ∧
  Forall (fits (shapes one)) strategies ∧ NoDup ((λ s, shard_name s.2) <$> strategies).

(** The sizes that are divided among the devices. *)
Definition split_fields : list string := [
  "intermediate_size"; "num_attention_heads"; "num_key_value_heads"; "n_head"; "n_inner"; "ffn_hidden_size";
  "multi_query_group_num"; "n_head_kv"].
Definition splits (config : settings) : Prop :=
  natural config ∧ 0 < config.["tensor_parallel_shards"] ∧
  ∀ k, k ∈ split_fields → config.[k] mod config.["tensor_parallel_shards"] = 0.
Lemma split_fields_natural k : k ∈ split_fields → k ∈ size_fields.
Proof.
  intros Hk. assert (forallb (λ k, bool_decide (k ∈ size_fields)) split_fields = true) as H by done.
  rewrite forallb_forall in H. apply (bool_decide_eq_true (k ∈ size_fields)), H. by apply list_elem_of_In.
Qed.
Lemma splits_use config k :
  splits config → bool_decide (k ∈ split_fields) = true →
  ∃ q, 0 ≤ q ∧ config.[k] = q * config.["tensor_parallel_shards"] ∧ config.[k] / config.["tensor_parallel_shards"] = q.
Proof.
  intros (Hnat & Hn & H) Hk%bool_decide_eq_true. exists (config.[k] / config.["tensor_parallel_shards"]).
  split; [|split; [|done]].
  { apply Z_div_nonneg_nonneg; [|lia]. apply (proj1 Hnat). by apply split_fields_natural. }
  pose proof (Z.div_mod config.[k] config.["tensor_parallel_shards"] ltac:(lia)) as E. rewrite (H k Hk) in E. lia.
Qed.

Lemma halves i n :
  0 ≤ i → 0 < n → i mod (2 * n) = 0 → ∃ h, 0 ≤ h ∧ i / n / 2 = h ∧ i / 1 / 2 = h * n ∧ i / n = 2 * h ∧ i / 1 = 2 * h * n.
Proof.
  intros Hi Hn H. exists (i / (2 * n)). split; [apply Z_div_nonneg_nonneg; lia|].
  pose proof (Z.div_mod i (2 * n) ltac:(lia)) as E. rewrite H in E.
  remember (i / (2 * n)) as h eqn:Eh. clear Eh H. assert (i = h * 2 * n) as -> by lia.
  rewrite Z.div_1_r, Z.div_mul, Z.div_mul by lia. replace (h * 2 * n) with (h * n * 2) by ring.
  rewrite Z.div_mul by lia. split_and!; lia.
Qed.

Ltac unbind :=
  repeat match goal with
  | H : (let _ := _ in _) = Ok _ |- _ => cbv zeta in H
  | H : (_ ≫= _) = Ok _ |- _ => let a := fresh "m" in let Ha := fresh "Hm" in apply bind_Ok in H as (a & Ha & H)
  | H : Ok _ = Ok _ |- _ => injection H as <-
  | H : py_assert (_ =? _) _ = Ok _ |- _ => apply py_assert_eqb in H
  | H : py_assert _ _ = Ok _ |- _ => clear H
  | H : raise_when _ _ _ = Ok _ |- _ => clear H
  | H : get_key _ _ = Ok _ |- _ => clear H
  end.
Ltac other_shards :=
  rewrite ?int_of_with_eq; repeat first [rewrite int_of_with_ne by done | rewrite bool_of_with by done | rewrite val_of_with by done].
Ltac quotients Hs :=
  try match goal with E : ?c.["tensor_parallel_shards"] = 1 |- _ => rewrite ?E, ?Z.div_1_r end;
  repeat match goal with
  | |- context [?c.[?k] / ?c.["tensor_parallel_shards"]] =>
      let q := fresh "q" in let Eq := fresh "Eq" in let Ed := fresh "Ed" in let Hq := fresh "Hq" in
      destruct (splits_use c k Hs eq_refl) as (q & Hq & Eq & Ed); rewrite ?Ed, ?Eq, ?Z.div_1_r; clear Ed
  end; rewrite ?Z.div_1_r.
Ltac dims_equal :=
  lazymatch goal with
  | |- @eq Z _ _ => first [reflexivity | lia | ring | nia]
  | |- _ :: _ = _ :: _ => apply (f_equal2 cons); dims_equal
  | |- (_, _) = (_, _) => apply (f_equal2 pair); dims_equal
  | |- _ => reflexivity
  end.
Ltac evaluate :=
  cbn -[Z.mul Z.add Z.sub Z.div int_of bool_of val_of];
  change (Z.to_nat 0) with 0%nat; change (Z.to_nat 1) with 1%nat; cbn -[Z.mul Z.add Z.sub Z.div int_of bool_of val_of]; unfold id.
Ltac evaluate_params :=
  repeat match goal with E : ?c.?[?k] = _ |- context [?c.?[?k]] => rewrite E end;
  unfold Linear.init, RMSNorm.init, LayerNorm.init; cbn -[Z.mul Z.add Z.sub Z.div int_of bool_of val_of cut_from];
  repeat match goal with |- context [if ?c.?[?k] then _ else _] => destruct (c.?[k]) end;
  cbn -[Z.mul Z.add Z.sub Z.div int_of bool_of val_of cut_from].
Ltac cut_one Hs :=
  unfold cut_from, shapes; split; [|split; [|apply (bool_decide_unpack _); vm_compute; exact I]];
  cbn -[Z.mul Z.add Z.sub Z.div int_of bool_of val_of fits full_shape]; rewrite ?shape_parameter;
  [unfold full_shape, _compute_in_shape; evaluate; quotients Hs; dims_equal
  |quotients Hs; repeat constructor; unfold fits, segs_of; evaluate; first [lia | dims_equal | pose proof (proj1 Hs); natural_size]].
Ltac cut Hs := evaluate_params; cut_one Hs.

Section cuts.
Context {nn : NN} {laws : NNLaws nn}.
Lemma LlamaDecoderLayer_cut config  path self full : splits config →
  Llama.LlamaDecoderLayer.init config path = Ok self → Llama.LlamaDecoderLayer.init (with_shards config 1) path = Ok full →
  cut_from config.["tensor_parallel_shards"] (Llama.LlamaDecoderLayer.set_tp config self) (Llama.LlamaDecoderLayer.parameters self) (Llama.LlamaDecoderLayer.parameters full).
Proof.
  intros Hs  H H1. unfold Llama.LlamaDecoderLayer.init, Llama.LlamaAttention.init, Llama.LlamaFFN.init in H, H1. unbind. other_shards. unfold Llama.LlamaDecoderLayer.set_tp. cut Hs.
Qed.
Lemma MistralDecoderLayer_cut config  path self full : splits config →
  Mistral.MistralDecoderLayer.init config path = Ok self → Mistral.MistralDecoderLayer.init (with_shards config 1) path = Ok full →
  cut_from config.["tensor_parallel_shards"] (Mistral.MistralDecoderLayer.set_tp config self) (Mistral.MistralDecoderLayer.parameters self) (Mistral.MistralDecoderLayer.parameters full).
Proof.
  intros Hs  H H1. unfold Mistral.MistralDecoderLayer.init, Mistral.MistralAttention.init, Mistral.MistralMLP.init in H, H1. unbind. other_shards. unfold Mistral.MistralDecoderLayer.set_tp. cut Hs.
Qed.
Lemma Ministral3DecoderLayer_cut config  path self full : splits config →
  Ministral3.Ministral3DecoderLayer.init config path = Ok self → Ministral3.Ministral3DecoderLayer.init (with_shards config 1) path = Ok full →
  cut_from config.["tensor_parallel_shards"] (Ministral3.Ministral3DecoderLayer.set_tp config self) (Ministral3.Ministral3DecoderLayer.parameters self) (Ministral3.Ministral3DecoderLayer.parameters full).
Proof.
  intros Hs  H H1. unfold Ministral3.Ministral3DecoderLayer.init, Ministral3.Ministral3Attention.init, Ministral3.Ministral3MLP.init in H, H1. unbind. other_shards. unfold Ministral3.Ministral3DecoderLayer.set_tp. cut Hs.
Qed.
Lemma OrionDecoderLayer_cut config  path self full : splits config →
  Orion.OrionDecoderLayer.init config path = Ok self → Orion.OrionDecoderLayer.init (with_shards config 1) path = Ok full →
  cut_from config.["tensor_parallel_shards"] (Orion.OrionDecoderLayer.set_tp config self) (Orion.OrionDecoderLayer.parameters self) (Orion.OrionDecoderLayer.parameters full).
Proof.
  intros Hs  H H1. unfold Orion.OrionDecoderLayer.init, Orion.OrionAttention.init, Orion.OrionFFN.init in H, H1. unbind. other_shards. unfold Orion.OrionDecoderLayer.set_tp. cut Hs.
Qed.
Lemma InternLMDecoderLayer_cut config  path self full : splits config → config.?["bias"] = false →
  InternLM.InternLMDecoderLayer.init config path = Ok self → InternLM.InternLMDecoderLayer.init (with_shards config 1) path = Ok full →
  cut_from config.["tensor_parallel_shards"] (InternLM.InternLMDecoderLayer.set_tp config self) (InternLM.InternLMDecoderLayer.parameters self) (InternLM.InternLMDecoderLayer.parameters full).
Proof.
  intros Hs Hc0 H H1. unfold InternLM.InternLMDecoderLayer.init, InternLM.InternLMAttention.init, InternLM.InternLMMLP.init in H, H1. unbind. other_shards. unfold InternLM.InternLMDecoderLayer.set_tp. cut Hs.
Qed.
Lemma InternLM2DecoderLayer_cut config  path self full : splits config →
  InternLM2.InternLM2DecoderLayer.init config path = Ok self → InternLM2.InternLM2DecoderLayer.init (with_shards config 1) path = Ok full →
  cut_from config.["tensor_parallel_shards"] (InternLM2.InternLM2DecoderLayer.set_tp config self) (InternLM2.InternLM2DecoderLayer.parameters self) (InternLM2.InternLM2DecoderLayer.parameters full).
Proof.
  intros Hs  H H1. unfold InternLM2.InternLM2DecoderLayer.init, InternLM2.InternLM2Attention.init, InternLM2.InternLM2MLP.init in H, H1. unbind. other_shards. unfold InternLM2.InternLM2DecoderLayer.set_tp. cut Hs.
Qed.
Lemma BaichuanDecoderLayer_cut config  path self full : splits config →
  Baichuan.BaichuanDecoderLayer.init config path = Ok self → Baichuan.BaichuanDecoderLayer.init (with_shards config 1) path = Ok full →
  cut_from config.["tensor_parallel_shards"] (Baichuan.BaichuanDecoderLayer.set_tp config self) (Baichuan.BaichuanDecoderLayer.parameters self) (Baichuan.BaichuanDecoderLayer.parameters full).
Proof.
  intros Hs  H H1. unfold Baichuan.BaichuanDecoderLayer.init, Baichuan.BaichuanAttention.init, Baichuan.BaichuanMLP.init in H, H1. unbind. other_shards. unfold Baichuan.BaichuanDecoderLayer.set_tp. cut Hs.
Qed.
Lemma QWenBlock_cut config  path self full : splits config → config.["intermediate_size"] mod (2 * config.["tensor_parallel_shards"]) = 0 →
  Qwen.QWenBlock.init config path = Ok self → Qwen.QWenBlock.init (with_shards config 1) path = Ok full →
  cut_from config.["tensor_parallel_shards"] (Qwen.QWenBlock.set_tp config self) (Qwen.QWenBlock.parameters self) (Qwen.QWenBlock.parameters full).
Proof.
  intros Hs Hc0 H H1. unfold Qwen.QWenBlock.init, Qwen.QWenAttention.init, Qwen.QWenMLP.init in H, H1. unbind. other_shards. unfold Qwen.QWenBlock.set_tp.
  assert (0 ≤ config.["intermediate_size"]) as Hi by (pose proof (proj1 Hs); natural_size).
  destruct (halves _ _ Hi (proj1 (proj2 Hs)) Hc0) as (h & Hh & E1 & E2 & E3 & E4). evaluate_params. rewrite ?E1, ?E2, ?E3, ?E4. cut_one Hs.
Qed.
Lemma QWen2DecoderLayer_cut config  path self full : splits config →
  Qwen2.QWen2DecoderLayer.init config path = Ok self → Qwen2.QWen2DecoderLayer.init (with_shards config 1) path = Ok full →
  cut_from config.["tensor_parallel_shards"] (Qwen2.QWen2DecoderLayer.set_tp config self) (Qwen2.QWen2DecoderLayer.parameters self) (Qwen2.QWen2DecoderLayer.parameters full).
Proof.
  intros Hs  H H1. unfold Qwen2.QWen2DecoderLayer.init, Qwen2.QWen2Attention.init, Qwen2.QWen2MLP.init in H, H1. unbind. other_shards. unfold Qwen2.QWen2DecoderLayer.set_tp. cut Hs.
Qed.
Lemma Qwen3DecoderLayer_cut config  path self full : splits config →
  Qwen3.Qwen3DecoderLayer.init config path = Ok self → Qwen3.Qwen3DecoderLayer.init (with_shards config 1) path = Ok full →
  cut_from config.["tensor_parallel_shards"] (Qwen3.Qwen3DecoderLayer.set_tp config self) (Qwen3.Qwen3DecoderLayer.parameters self) (Qwen3.Qwen3DecoderLayer.parameters full).
Proof.
  intros Hs  H H1. unfold Qwen3.Qwen3DecoderLayer.init, Qwen3.Qwen3Attention.init, Qwen3.Qwen3MLP.init in H, H1. unbind. other_shards. unfold Qwen3.Qwen3DecoderLayer.set_tp. cut Hs.
Qed.
Lemma StableLmDecoderLayer_cut config  path self full : splits config →
  StableLm.StableLmDecoderLayer.init config path = Ok self → StableLm.StableLmDecoderLayer.init (with_shards config 1) path = Ok full →
  cut_from config.["tensor_parallel_shards"] (StableLm.StableLmDecoderLayer.set_tp config self) (StableLm.StableLmDecoderLayer.parameters self) (StableLm.StableLmDecoderLayer.parameters full).
Proof.
  intros Hs  H H1. unfold StableLm.StableLmDecoderLayer.init, StableLm.StableLmAttention.init, StableLm.StableLmMLP.init in H, H1. unbind. other_shards. unfold StableLm.StableLmDecoderLayer.set_tp. cut Hs.
Qed.
Lemma GLMBlock_cut config  path self full : splits config → config.?["add_bias_linear"] = false →
  ChatGLM.GLMBlock.init config path = Ok self → ChatGLM.GLMBlock.init (with_shards config 1) path = Ok full →
  cut_from config.["tensor_parallel_shards"] (ChatGLM.GLMBlock.set_tp config self) (ChatGLM.GLMBlock.parameters self) (ChatGLM.GLMBlock.parameters full).
Proof.
  intros Hs Hc0 H H1. unfold ChatGLM.GLMBlock.init, ChatGLM.GLMAttention.init, ChatGLM.GLMMLP.init in H, H1. unbind. other_shards. unfold ChatGLM.GLMBlock.set_tp. cut Hs.
Qed.
Lemma Phi3ParallelBlock_cut config  path self full : splits config →
  Phi3.Phi3ParallelBlock.init config path = Ok self → Phi3.Phi3ParallelBlock.init (with_shards config 1) path = Ok full →
  cut_from config.["tensor_parallel_shards"] (Phi3.Phi3ParallelBlock.set_tp config self) (Phi3.Phi3ParallelBlock.parameters self) (Phi3.Phi3ParallelBlock.parameters full).
Proof.
  intros Hs  H H1. unfold Phi3.Phi3ParallelBlock.init, Phi3.PhiMHA.init, Phi3.Phi3MLP.init in H, H1. unbind. other_shards. unfold Phi3.Phi3ParallelBlock.set_tp. cut Hs.
Qed.
Lemma GPT2Block_cut config  path self full : splits config →
  GPT2.GPT2Block.init config path = Ok self → GPT2.GPT2Block.init (with_shards config 1) path = Ok full →
  cut_from config.["tensor_parallel_shards"] (GPT2.GPT2Block.set_tp config self) (GPT2.GPT2Block.parameters self) (GPT2.GPT2Block.parameters full).
Proof.
  intros Hs  H H1. unfold GPT2.GPT2Block.init, GPT2.GPT2Attention.init, GPT2.GPT2MLP.init in H, H1. unbind. other_shards. unfold GPT2.GPT2Block.set_tp. cut Hs.
Qed.
Lemma GPTBigCodeBlock_cut config  path self full : splits config →
  GPTBigCode.GPTBigCodeBlock.init config path = Ok self → GPTBigCode.GPTBigCodeBlock.init (with_shards config 1) path = Ok full →
  cut_from config.["tensor_parallel_shards"] (GPTBigCode.GPTBigCodeBlock.set_tp config self) (GPTBigCode.GPTBigCodeBlock.parameters self) (GPTBigCode.GPTBigCodeBlock.parameters full).
Proof.
  intros Hs  H H1. unfold GPTBigCode.GPTBigCodeBlock.init, GPTBigCode.GPTBigCodeAttention.init, GPTBigCode.GPTBigCodeMLP.init in H, H1. unbind. other_shards. unfold GPTBigCode.GPTBigCodeBlock.set_tp. cut Hs.
Qed.
Lemma GPTNeoXLayer_cut config  path self full : splits config →
  GPTNeoX.GPTNeoXLayer.init config path = Ok self → GPTNeoX.GPTNeoXLayer.init (with_shards config 1) path = Ok full →
  cut_from config.["tensor_parallel_shards"] (GPTNeoX.GPTNeoXLayer.set_tp config self) (GPTNeoX.GPTNeoXLayer.parameters self) (GPTNeoX.GPTNeoXLayer.parameters full).
Proof.
  intros Hs  H H1. unfold GPTNeoX.GPTNeoXLayer.init, GPTNeoX.GPTNeoXAttention.init, GPTNeoX.GPTNeoXMLP.init in H, H1. unbind. other_shards. unfold GPTNeoX.GPTNeoXLayer.set_tp. cut Hs.
Qed.
Lemma PhiParallelBlock_cut config  path self full : splits config →
  Phi.PhiParallelBlock.init config path = Ok self → Phi.PhiParallelBlock.init (with_shards config 1) path = Ok full →
  cut_from config.["tensor_parallel_shards"] (Phi.PhiParallelBlock.set_tp config self) (Phi.PhiParallelBlock.parameters self) (Phi.PhiParallelBlock.parameters full).
Proof.
  intros Hs  H H1. unfold Phi.PhiParallelBlock.init, Phi.PhiMHA.init, Phi.PhiMLP.init in H, H1. unbind. other_shards. unfold Phi.PhiParallelBlock.set_tp. cut Hs.
Qed.
Lemma Starcoder2DecoderLayer_cut config  path self full : splits config → config.?["use_bias"] = false →
  Starcoder2.Starcoder2DecoderLayer.init config path = Ok self → Starcoder2.Starcoder2DecoderLayer.init (with_shards config 1) path = Ok full →
  cut_from config.["tensor_parallel_shards"] (Starcoder2.Starcoder2DecoderLayer.set_tp config self) (Starcoder2.Starcoder2DecoderLayer.parameters self) (Starcoder2.Starcoder2DecoderLayer.parameters full).
Proof.
  intros Hs Hc0 H H1. unfold Starcoder2.Starcoder2DecoderLayer.init, Starcoder2.Starcoder2Attention.init, Starcoder2.Starcoder2MLP.init in H, H1. unbind. other_shards. unfold Starcoder2.Starcoder2DecoderLayer.set_tp. cut Hs.
Qed.
Lemma GemmaDecoderLayer_cut config  path self full : splits config → config.?["attention_bias"] = false →
  Gemma.GemmaDecoderLayer.init config path = Ok self → Gemma.GemmaDecoderLayer.init (with_shards config 1) path = Ok full →
  cut_from config.["tensor_parallel_shards"] (Gemma.GemmaDecoderLayer.set_tp config self) (Gemma.GemmaDecoderLayer.parameters self) (Gemma.GemmaDecoderLayer.parameters full).
Proof.
  intros Hs Hc0 H H1. unfold Gemma.GemmaDecoderLayer.init, Gemma.GemmaAttention.init, Gemma.GemmaMLP.init in H, H1. unbind. other_shards. unfold Gemma.GemmaDecoderLayer.set_tp. cut Hs.
Qed.
Lemma Gemma2DecoderLayer_cut config  path self full : splits config → config.?["attention_bias"] = false →
  Gemma2.Gemma2DecoderLayer.init config path = Ok self → Gemma2.Gemma2DecoderLayer.init (with_shards config 1) path = Ok full →
  cut_from config.["tensor_parallel_shards"] (Gemma2.Gemma2DecoderLayer.set_tp config self) (Gemma2.Gemma2DecoderLayer.parameters self) (Gemma2.Gemma2DecoderLayer.parameters full).
Proof.
  intros Hs Hc0 H H1. unfold Gemma2.Gemma2DecoderLayer.init, Gemma2.Gemma2Attention.init, Gemma.GemmaMLP.init in H, H1. unbind. other_shards. unfold Gemma2.Gemma2DecoderLayer.set_tp. cut Hs.
Qed.
Lemma OLMoDecoderLayer_cut config  path self full : splits config →
  OLMo.OLMoDecoderLayer.init config path = Ok self → OLMo.OLMoDecoderLayer.init (with_shards config 1) path = Ok full →
  cut_from config.["tensor_parallel_shards"] (OLMo.OLMoDecoderLayer.set_tp config self) (OLMo.OLMoDecoderLayer.parameters self) (OLMo.OLMoDecoderLayer.parameters full).
Proof.
  intros Hs  H H1. unfold OLMo.OLMoDecoderLayer.init, OLMo.OLMoAttention.init, OLMo.OLMoFFN.init in H, H1. unbind. other_shards. unfold OLMo.OLMoDecoderLayer.set_tp. cut Hs.
Qed.
End cuts.

(** ** The layers together *)

Record sharded_layer {nn : NN} := {
  layer : Type; layer_init : settings → string → result layer;
  layer_strategies : settings → layer → list (string * ShardSingleDim); layer_params : layer → params;
}.
Section layers.
Context {nn : NN}.
Definition Llama_layer : sharded_layer := {|
  layer := Llama.LlamaDecoderLayer.t; layer_init := Llama.LlamaDecoderLayer.init; layer_strategies := Llama.LlamaDecoderLayer.set_tp; layer_params := Llama.LlamaDecoderLayer.parameters |}.
Definition Mistral_layer : sharded_layer := {|
  layer := Mistral.MistralDecoderLayer.t; layer_init := Mistral.MistralDecoderLayer.init; layer_strategies := Mistral.MistralDecoderLayer.set_tp; layer_params := Mistral.MistralDecoderLayer.parameters |}.
Definition Ministral3_layer : sharded_layer := {|
  layer := Ministral3.Ministral3DecoderLayer.t; layer_init := Ministral3.Ministral3DecoderLayer.init; layer_strategies := Ministral3.Ministral3DecoderLayer.set_tp; layer_params := Ministral3.Ministral3DecoderLayer.parameters |}.
Definition Orion_layer : sharded_layer := {|
  layer := Orion.OrionDecoderLayer.t; layer_init := Orion.OrionDecoderLayer.init; layer_strategies := Orion.OrionDecoderLayer.set_tp; layer_params := Orion.OrionDecoderLayer.parameters |}.
Definition InternLM_layer : sharded_layer := {|
  layer := InternLM.InternLMDecoderLayer.t; layer_init := InternLM.InternLMDecoderLayer.init; layer_strategies := InternLM.InternLMDecoderLayer.set_tp; layer_params := InternLM.InternLMDecoderLayer.parameters |}.
Definition InternLM2_layer : sharded_layer := {|
  layer := InternLM2.InternLM2DecoderLayer.t; layer_init := InternLM2.InternLM2DecoderLayer.init; layer_strategies := InternLM2.InternLM2DecoderLayer.set_tp; layer_params := InternLM2.InternLM2DecoderLayer.parameters |}.
Definition Baichuan_layer : sharded_layer := {|
  layer := Baichuan.BaichuanDecoderLayer.t; layer_init := Baichuan.BaichuanDecoderLayer.init; layer_strategies := Baichuan.BaichuanDecoderLayer.set_tp; layer_params := Baichuan.BaichuanDecoderLayer.parameters |}.
Definition Qwen_layer : sharded_layer := {|
  layer := Qwen.QWenBlock.t; layer_init := Qwen.QWenBlock.init; layer_strategies := Qwen.QWenBlock.set_tp; layer_params := Qwen.QWenBlock.parameters |}.
Definition Qwen2_layer : sharded_layer := {|
  layer := Qwen2.QWen2DecoderLayer.t; layer_init := Qwen2.QWen2DecoderLayer.init; layer_strategies := Qwen2.QWen2DecoderLayer.set_tp; layer_params := Qwen2.QWen2DecoderLayer.parameters |}.
Definition Qwen3_layer : sharded_layer := {|
  layer := Qwen3.Qwen3DecoderLayer.t; layer_init := Qwen3.Qwen3DecoderLayer.init; layer_strategies := Qwen3.Qwen3DecoderLayer.set_tp; layer_params := Qwen3.Qwen3DecoderLayer.parameters |}.
Definition StableLm_layer : sharded_layer := {|
  layer := StableLm.StableLmDecoderLayer.t; layer_init := StableLm.StableLmDecoderLayer.init; layer_strategies := StableLm.StableLmDecoderLayer.set_tp; layer_params := StableLm.StableLmDecoderLayer.parameters |}.
Definition ChatGLM_layer : sharded_layer := {|
  layer := ChatGLM.GLMBlock.t; layer_init := ChatGLM.GLMBlock.init; layer_strategies := ChatGLM.GLMBlock.set_tp; layer_params := ChatGLM.GLMBlock.parameters |}.
Definition Phi3_layer : sharded_layer := {|
  layer := Phi3.Phi3ParallelBlock.t; layer_init := Phi3.Phi3ParallelBlock.init; layer_strategies := Phi3.Phi3ParallelBlock.set_tp; layer_params := Phi3.Phi3ParallelBlock.parameters |}.
Definition GPT2_layer : sharded_layer := {|
  layer := GPT2.GPT2Block.t; layer_init := GPT2.GPT2Block.init; layer_strategies := GPT2.GPT2Block.set_tp; layer_params := GPT2.GPT2Block.parameters |}.
Definition GPTBigCode_layer : sharded_layer := {|
  layer := GPTBigCode.GPTBigCodeBlock.t; layer_init := GPTBigCode.GPTBigCodeBlock.init; layer_strategies := GPTBigCode.GPTBigCodeBlock.set_tp; layer_params := GPTBigCode.GPTBigCodeBlock.parameters |}.
Definition GPTJ_layer : sharded_layer := {|
  layer := GPTJ.GPTJBlock.t; layer_init := GPTJ.GPTJBlock.init; layer_strategies := GPTJ.GPTJBlock.set_tp; layer_params := GPTJ.GPTJBlock.parameters |}.
Definition GPTNeoX_layer : sharded_layer := {|
  layer := GPTNeoX.GPTNeoXLayer.t; layer_init := GPTNeoX.GPTNeoXLayer.init; layer_strategies := GPTNeoX.GPTNeoXLayer.set_tp; layer_params := GPTNeoX.GPTNeoXLayer.parameters |}.
Definition Phi_layer : sharded_layer := {|
  layer := Phi.PhiParallelBlock.t; layer_init := Phi.PhiParallelBlock.init; layer_strategies := Phi.PhiParallelBlock.set_tp; layer_params := Phi.PhiParallelBlock.parameters |}.
Definition Starcoder2_layer : sharded_layer := {|
  layer := Starcoder2.Starcoder2DecoderLayer.t; layer_init := Starcoder2.Starcoder2DecoderLayer.init; layer_strategies := Starcoder2.Starcoder2DecoderLayer.set_tp; layer_params := Starcoder2.Starcoder2DecoderLayer.parameters |}.
Definition Gemma_layer : sharded_layer := {|
  layer := Gemma.GemmaDecoderLayer.t; layer_init := Gemma.GemmaDecoderLayer.init; layer_strategies := Gemma.GemmaDecoderLayer.set_tp; layer_params := Gemma.GemmaDecoderLayer.parameters |}.
Definition Gemma2_layer : sharded_layer := {|
  layer := Gemma2.Gemma2DecoderLayer.t; layer_init := Gemma2.Gemma2DecoderLayer.init; layer_strategies := Gemma2.Gemma2DecoderLayer.set_tp; layer_params := Gemma2.Gemma2DecoderLayer.parameters |}.
Definition Cohere_layer : sharded_layer := {|
  layer := Cohere.CohereDecoderLayer.t; layer_init := Cohere.CohereDecoderLayer.init; layer_strategies := Cohere.CohereDecoderLayer.set_tp; layer_params := Cohere.CohereDecoderLayer.parameters |}.
Definition Nemotron_layer : sharded_layer := {|
  layer := Nemotron.NemotronDecoderLayer.t; layer_init := Nemotron.NemotronDecoderLayer.init; layer_strategies := Nemotron.NemotronDecoderLayer.set_tp; layer_params := Nemotron.NemotronDecoderLayer.parameters |}.
Definition OLMo_layer : sharded_layer := {|
  layer := OLMo.OLMoDecoderLayer.t; layer_init := OLMo.OLMoDecoderLayer.init; layer_strategies := OLMo.OLMoDecoderLayer.set_tp; layer_params := OLMo.OLMoDecoderLayer.parameters |}.
Definition OLMo2_layer : sharded_layer := {|
  layer := OLMo2.OLMo2DecoderLayer.t; layer_init := OLMo2.OLMo2DecoderLayer.init; layer_strategies := OLMo2.OLMo2DecoderLayer.set_tp; layer_params := OLMo2.OLMo2DecoderLayer.parameters |}.
(** The layers whose strategies fit, with the condition under which they do. *)
Definition layers_cut : list (sharded_layer * (settings → Prop)) := [
  (Llama_layer, λ config, True);
  (Mistral_layer, λ config, True);
  (Ministral3_layer, λ config, True);
  (Orion_layer, λ config, True);
  (InternLM_layer, λ config, config.?["bias"] = false);
  (InternLM2_layer, λ config, True);
  (Baichuan_layer, λ config, True);
  (Qwen_layer, λ config, config.["intermediate_size"] mod (2 * config.["tensor_parallel_shards"]) = 0);
  (Qwen2_layer, λ config, True);
  (Qwen3_layer, λ config, True);
  (StableLm_layer, λ config, True);
  (ChatGLM_layer, λ config, config.?["add_bias_linear"] = false);
  (Phi3_layer, λ config, True);
  (GPT2_layer, λ config, True);
  (GPTBigCode_layer, λ config, True);
  (GPTNeoX_layer, λ config, True);
  (Phi_layer, λ config, True);
  (Starcoder2_layer, λ config, config.?["use_bias"] = false);
  (Gemma_layer, λ config, config.?["attention_bias"] = false);
  (Gemma2_layer, λ config, config.?["attention_bias"] = false);
  (OLMo_layer, λ config, True)].

Context {laws : NNLaws nn}.
Definition cut_by (L : sharded_layer) (cond : settings → Prop) : Prop := ∀ config path self full,
  splits config → cond config → layer_init L config path = Ok self → layer_init L (with_shards config 1) path = Ok full →
  cut_from config.["tensor_parallel_shards"] (layer_strategies L config self) (layer_params L self) (layer_params L full).
Lemma layers_cut_all : Forall (λ Lc, cut_by Lc.1 Lc.2) layers_cut.
Proof.
  unfold layers_cut. repeat apply Forall_cons_2; [..|apply Forall_nil_2].
  - exact (λ c p s f H _, LlamaDecoderLayer_cut c p s f H).
  - exact (λ c p s f H _, MistralDecoderLayer_cut c p s f H).
  - exact (λ c p s f H _, Ministral3DecoderLayer_cut c p s f H).
  - exact (λ c p s f H _, OrionDecoderLayer_cut c p s f H).
  - exact InternLMDecoderLayer_cut.
  - exact (λ c p s f H _, InternLM2DecoderLayer_cut c p s f H).
  - exact (λ c p s f H _, BaichuanDecoderLayer_cut c p s f H).
  - exact QWenBlock_cut.
  - exact (λ c p s f H _, QWen2DecoderLayer_cut c p s f H).
  - exact (λ c p s f H _, Qwen3DecoderLayer_cut c p s f H).
  - exact (λ c p s f H _, StableLmDecoderLayer_cut c p s f H).
  - exact GLMBlock_cut.
  - exact (λ c p s f H _, Phi3ParallelBlock_cut c p s f H).
  - exact (λ c p s f H _, GPT2Block_cut c p s f H).
  - exact (λ c p s f H _, GPTBigCodeBlock_cut c p s f H).
  - exact (λ c p s f H _, GPTNeoXLayer_cut c p s f H).
  - exact (λ c p s f H _, PhiParallelBlock_cut c p s f H).
  - exact Starcoder2DecoderLayer_cut.
  - exact GemmaDecoderLayer_cut.
  - exact Gemma2DecoderLayer_cut.
  - exact (λ c p s f H _, OLMoDecoderLayer_cut c p s f H).
Qed.
Lemma strategy_in l k s : strategy l k = Some s → (k, s) ∈ l.
Proof.
  induction l as [|[n s'] l IH]; [done|]. cbn. destruct (String.eqb_spec n k) as [->|]; [intros [= ->]; by left|intros H; right; auto].
Qed.
Lemma shape_of_full shards l names k : shape_of (full_shape shards l <$> names) k =
  (λ sh, match strategy l k with Some s => _compute_in_shape (Z.to_nat (shard_dim s)) shards sh | None => sh end) <$> shape_of names k.
Proof.
  induction names as [|[n sh] names IH]; [done|]. cbn. destruct (String.eqb_spec n k) as [->|]; [done|exact IH].
Qed.

(** C10. Tensor parallelism cuts 21 of the 25 translated layers, those of [layers_cut], into parts, when sizes divide by
    the devices, and for some layers only without biases (InternLM, ChatGLM, Starcoder2, Gemma, Gemma 2) or with an
    intermediate size that divides by twice the devices (Qwen). The full layer has the parameters of
    the device's layer, those without a strategy in the same shape, and for those with
    one the program [gen_tir] makes of the full parameter one tensor per device, of the shape the
    device's layer declares, in which every element of the full parameter is exactly once. The layers of GPT-J, Cohere,
    Nemotron and OLMo2, and those above with biases, do not fit ([layers_not_cut]). *)
Theorem layers_sharded L cond config path self full {E} (w : list Z → E) :
  (L, cond) ∈ layers_cut → splits config → cond config →
  layer_init L config path = Ok self → layer_init L (with_shards config 1) path = Ok full →
  let n := config.["tensor_parallel_shards"] in
  let one := shapes (layer_params L self) in let whole := shapes (layer_params L full) in
  one.*1 = whole.*1 ∧
  (∀ k, strategy (layer_strategies L config self) k = None → shape_of whole k = shape_of one k) ∧
  ∀ k s, strategy (layer_strategies L config self) k = Some s →
    ∃ sh, shape_of one k = Some sh ∧ shape_of whole k = Some (_compute_in_shape (Z.to_nat (shard_dim s)) n sh) ∧
    ∃ o, gen_tir s n sh w = Ok o ∧ sizes_of o = n :: sh ∧
      let from := source (Z.to_nat (shard_dim s)) (segs_of s sh) n in
      (∀ p, in_box (n :: sh) p → elt o p = w (from p)) ∧
      ∀ q, in_box (_compute_in_shape (Z.to_nat (shard_dim s)) n sh) q → exists! p, in_box (n :: sh) p ∧ from p = q.
Proof.
  intros HL Hs Hc Hi Hf n one whole.
  pose proof layers_cut_all as Hcut. rewrite Forall_forall in Hcut.
  destruct (Hcut _ HL config path self full Hs Hc Hi Hf) as (Hall & Hfits & _). cbn [fst] in Hall, Hfits.
  fold n one whole in Hall, Hfits.
  rewrite <-Hall. split_and!.
  - rewrite <-list_fmap_compose. by apply list_fmap_ext.
  - intros k Hk. rewrite shape_of_full, Hk. by destruct (shape_of one k).
  - intros k s Hk. rewrite Forall_forall in Hfits. specialize (Hfits _ (strategy_in _ _ _ Hk)). unfold fits in Hfits. cbn in Hfits.
    rewrite shape_of_full, Hk. destruct (shape_of one k) as [sh|]; [|done]. destruct Hfits as (Hd & Hsum & Hpos).
    exists sh. split; [done|]. split; [done|].
    destruct (gen_tir_parts s n sh w (proj1 (proj2 Hs)) Hd Hpos Hsum) as (o & Ho & Hsz & Helt & Huniq).
    exists o. split; [done|]. split; [done|]. cbn zeta. split; [|done]. intros p Hp. by apply Helt.
Qed.
End layers.

(** ** The layers that do not fit *)

Module Example.
Import Networks.Example.
#[local] Existing Instance shape_only.
#[local] Existing Instance shape_only_laws.

(** A configuration that can be divided among two devices, all biases on. *)
Definition two : settings := {|
  fields := list_to_map ([("hidden_size", PInt 64); ("intermediate_size", PInt 128); ("num_attention_heads", PInt 8);
    ("num_key_value_heads", PInt 4); ("head_dim", PInt 8); ("tensor_parallel_shards", PInt 2);
    ("n_embd", PInt 64); ("n_head", PInt 8); ("n_inner", PInt 256); ("ffn_hidden_size", PInt 128);
    ("multi_query_group_num", PInt 4); ("n_head_kv", PInt 4); ("activation_function", PStr "gelu_new"); ("hidden_act", PStr "silu")] ++
    ((λ k, (k, PBool true)) <$> ["bias"; "attention_bias"; "use_bias"; "add_bias_linear"; "multi_query_attention"]));
  symbolic _ := 100 |}.
(** A layer built for the devices of a configuration is not cut from the layer for one. *)
Definition misfit (c : settings) (L : sharded_layer) : Prop :=
  match layer_init L c "", layer_init L (with_shards c 1) "" with
  | Ok self, Ok full => ¬ cut_from c.["tensor_parallel_shards"] (layer_strategies L c self) (layer_params L self) (layer_params L full)
  | _, _ => False
  end.
Definition cut_b (n : Z) (strategies : list (string * ShardSingleDim)) (one full : params) : bool :=
  bool_decide (full_shape n strategies <$> shapes one = shapes full) &&
  forallb (λ s, match shape_of (shapes one) s.1 with
    | Some sh => sumz (segs_of s.2 sh) =? default 0 (sh !! Z.to_nat (shard_dim s.2))
    | None => false
    end) strategies.
Lemma cut_b_true n strategies one full : cut_from n strategies one full → cut_b n strategies one full = true.
Proof.
  intros (H1 & H2 & _). unfold cut_b. rewrite bool_decide_eq_true_2 by done. apply forallb_forall. intros s Hs.
  rewrite Forall_forall in H2. apply list_elem_of_In, H2 in Hs. unfold fits in Hs.
  destruct (shape_of _ _); [|done]. apply Z.eqb_eq. by destruct Hs as (_ & -> & _).
Qed.
Lemma misfit_by c L :
  match layer_init L c "", layer_init L (with_shards c 1) "" with
  | Ok self, Ok full => cut_b c.["tensor_parallel_shards"] (layer_strategies L c self) (layer_params L self) (layer_params L full)
  | _, _ => true
  end = false → misfit c L.
Proof.
  unfold misfit. destruct (layer_init L c ""), (layer_init L (with_shards c 1) ""); try done.
  intros H Hcut. apply cut_b_true in Hcut. congruence.
Qed.
Lemma two_splits : splits two.
Proof.
  split; [by apply natural_by|split; [done|]]. intros k Hk. apply Z.eqb_eq.
  assert (forallb (λ k, two.[k] mod two.["tensor_parallel_shards"] =? 0) split_fields = true) as H by done.
  rewrite forallb_forall in H. apply H. by apply list_elem_of_In.
Qed.
(** These layers do not fit: biases that are cut though every device adds them whole, or are not cut though the
    rows are, sizes that are not divided, and segments that do not add up. (The configurations of Gemma and Gemma 2
    refuse the bias that misfits.) *)
Theorem layers_not_cut : splits two ∧ Forall (misfit two) [InternLM_layer; ChatGLM_layer; GPTJ_layer; Starcoder2_layer; Gemma_layer; Gemma2_layer; Cohere_layer; Nemotron_layer; OLMo2_layer].
Proof.
  split; [exact two_splits|].
  repeat apply Forall_cons_2; [..|apply Forall_nil_2]; apply misfit_by; vm_compute; reflexivity.
Qed.
Lemma layers_sharded_witness :
  match layer_init Llama_layer two "", layer_init Llama_layer (with_shards two 1) "" with
  | Ok self, Ok full => (shapes (layer_params Llama_layer self)).*1 = (shapes (layer_params Llama_layer full)).*1
  | _, _ => False
  end.
Proof.
  destruct (layer_init Llama_layer two "") as [self|] eqn:E1; [|by vm_compute in E1].
  destruct (layer_init Llama_layer (with_shards two 1) "") as [full|] eqn:E2; [|by vm_compute in E2].
  apply (layers_sharded Llama_layer (λ _, True) two "" self full (λ _ : list Z, 0)); [left|exact two_splits|exact I|exact E1|exact E2].
Defined.
End Example.
