(* ===== verification/NetPipeline.v ===== *)
(** Pipeline parallelism: the stage every parameter of a network belongs to ([_set_pp]), the
    layers at which a stage ends ([layer_partition]), and the check of [interface/compile.py]
    that goes over the parameters before a model is compiled
    ([_apply_preproc_to_params_and_check_pipeline]). *)

From Stdlib Require Import Lia ZArith.
From stdpp Require Import base gmap strings list list_numbers numbers pretty.
From S2P Require Import Prelude PyString PyObject Kernel Config Sharding Network Shapes NetsLlama NetsQwen NetsGPT NetsGemma Networks.
Open Scope Z_scope.

(** ** The check of the parameters *)

(** A parameter as the function sees it: its shape and the attributes that were set. *)
Record named_param := {
  param_name : string; param_shape : list Z;
  shard_strategy : option ShardSingleDim; pipeline_stages : option (list Z);
}.
(** [gen_shard_info]; the type is left out. *)
Record shard_info := { func_name : string; in_shape : list Z; out_shape : list Z }.
Definition gen_shard_info (self : ShardSingleDim) (shards : Z) (weight : list Z) : shard_info := {|
  func_name := shard_name self; in_shape := _compute_in_shape (Z.to_nat (shard_dim self)) shards weight;
  out_shape := shards :: weight |}.
(** What the loop leaves on a parameter; nothing else in the program sets [preprocs] before. The stages
    are [list(set(...))], whose order is not determined. *)
Record checked := { preprocs : list shard_info; stages : gset Z }.
Definition undefined_stage (name : string) (stages : Z) : string :=
  "The pipeline stage is undefined for parameter " +:+ String dquote (name +:+ String dquote
  (" when the number of pipeline parallel stages is " +:+ pretty stages)).
Section check.
Context {E : Type} (w : list Z → E).
Definition check_stage (pipeline_parallel_stages : Z) (p : named_param) : result unit :=
  if pipeline_parallel_stages =? 1 then Ok tt
  else py_assert (bool_decide (is_Some (pipeline_stages p))) (undefined_stage (param_name p) pipeline_parallel_stages).
(** The part of the loop that is for sharding. The programs made so far are kept by name, as what they make
    of a parameter's elements. *)
Definition check_shards (shards : Z) (p : named_param) (extra_tirs : list (string * tensor E)) :
    result (list shard_info * list (string * tensor E)) :=
  match shard_strategy p with
  | Some s =>
      if shards >? 1 then
        extra_tirs ← (if has_key (shard_name s) extra_tirs then Ok extra_tirs
                      else t ← gen_tir s shards (param_shape p) w; Ok (dict_set (shard_name s) t extra_tirs));
        Ok ([gen_shard_info s shards (param_shape p)], extra_tirs)
      else Ok ([], extra_tirs)
  | None => Ok ([], extra_tirs)
  end.
Definition check_param (shards pipeline_parallel_stages : Z) (p : named_param) (extra_tirs : list (string * tensor E)) :
    result (checked * list (string * tensor E)) :=
  '(infos, extra_tirs) ← check_shards shards p extra_tirs;
  _ ← check_stage pipeline_parallel_stages p;
  Ok ({| preprocs := infos; stages := match pipeline_stages p with Some l => list_to_set l | None => {[0]} end |}, extra_tirs).
Fixpoint check_params (shards n : Z) (l : list named_param) (extra_tirs : list (string * tensor E)) :
    result (list (string * checked) * list (string * tensor E)) :=
  match l with
  | [] => Ok ([], extra_tirs)
  | p :: l =>
      '(c, extra_tirs) ← check_param shards n p extra_tirs;
      '(cs, extra_tirs) ← check_params shards n l extra_tirs;
      Ok ((param_name p, c) :: cs, extra_tirs)
  end.
Definition _apply_preproc_to_params_and_check_pipeline (shards n : Z) (l : list named_param) :
    result (list (string * checked) * list (string * tensor E)) := check_params shards n l [].
End check.

(** A parameter that can be sharded, and two parameters whose programs have the same name. *)
Definition can_shard (shards : Z) (p : named_param) : Prop :=
  ∀ s, shard_strategy p = Some s →
    (Z.to_nat (shard_dim s) < length (param_shape p))%nat ∧ Forall (Z.le 0) (segs_of s (param_shape p)) ∧
    sumz (segs_of s (param_shape p)) = default 0 (param_shape p !! Z.to_nat (shard_dim s)).
Definition same_program (p q : named_param) : Prop := ∀ s s',
  shard_strategy p = Some s → shard_strategy q = Some s' → shard_name s = shard_name s' →
  s = s' ∧ param_shape p = param_shape q.

(** The stages of a parameter; the first when none were set. *)
Definition stages_of (p : named_param) : gset Z := default {[0]} (list_to_set <$> pipeline_stages p).

Section check_proofs.
Context {E : Type} (w : list Z → E) (shards n : Z) (all : list named_param).
Hypothesis Hshards : 1 < shards.
Hypothesis Hfit : ∀ p, p ∈ all → can_shard shards p.
Hypothesis Hsame : ∀ p q, p ∈ all → q ∈ all → same_program p q.
Hypothesis Hstages : n = 1 ∨ ∀ p, p ∈ all → is_Some (pipeline_stages p).

(** The programs so far are those of the parameters they are named after. *)
Definition own_programs (extra : list (string * tensor E)) : Prop := ∀ p s o,
  p ∈ all → shard_strategy p = Some s → dict_get (shard_name s) extra = Some o → gen_tir s shards (param_shape p) w = Ok o.

Lemma check_stage_ok p : p ∈ all → check_stage n p = Ok tt.
Proof using Hstages.
  intros Hp. unfold check_stage. destruct Hstages as [->|H]; [done|]. rewrite bool_decide_true by auto. by destruct (n =? 1).
Qed.
Lemma check_shards_ok p extra : p ∈ all → own_programs extra →
  ∃ infos extra', check_shards w shards p extra = Ok (infos, extra') ∧ own_programs extra' ∧
    (∀ k, is_Some (dict_get k extra) → is_Some (dict_get k extra')) ∧
    match shard_strategy p with
    | Some s => infos = [gen_shard_info s shards (param_shape p)] ∧ is_Some (dict_get (shard_name s) extra')
    | None => infos = []
    end.
Proof using Hshards Hfit Hsame.
  intros Hp Hown. unfold check_shards. destruct (shard_strategy p) as [s|] eqn:Es; [|by eexists _, _].
  rewrite (proj2 (Z.gtb_lt _ _)) by lia. destruct (has_key (shard_name s) extra) eqn:Hk.
  - unfold has_key in Hk. eexists _, _. split; [done|]. split_and!; try done. by destruct (dict_get _ extra).
  - destruct (Hfit p Hp s Es) as (Hdim & Hpos & Hsum).
    destruct (gen_tir_parts s shards (param_shape p) w) as (o & Ho & _); [lia|done..|]. rewrite Ho.
    eexists _, _. split; [done|]. split_and!; try done.
    + intros q s' o' Hq Es' Hget. destruct (decide (shard_name s' = shard_name s)) as [En|En].
      * rewrite En, dict_set_eq in Hget. injection Hget as <-.
        by destruct (Hsame p q Hp Hq s s' Es Es' (eq_sym En)) as [<- <-].
      * rewrite dict_set_ne in Hget by done. by apply (Hown q s').
    + intros k Hsome. destruct (decide (k = shard_name s)) as [->|En]; [rewrite dict_set_eq; eauto|by rewrite dict_set_ne].
    + rewrite dict_set_eq. eauto.
Qed.
Lemma check_param_ok p extra : p ∈ all → own_programs extra →
  ∃ c extra', check_param w shards n p extra = Ok (c, extra') ∧ own_programs extra' ∧
    (∀ k, is_Some (dict_get k extra) → is_Some (dict_get k extra')) ∧
    stages c = stages_of p ∧
    match shard_strategy p with
    | Some s => preprocs c = [gen_shard_info s shards (param_shape p)] ∧ is_Some (dict_get (shard_name s) extra')
    | None => preprocs c = []
    end.
Proof using All.
  intros Hp Hown. unfold check_param. destruct (check_shards_ok p extra Hp Hown) as (i & e & -> & Hown' & Hmono & Hs).
  cbn [mbind result_bind]. rewrite check_stage_ok by done. eexists _, _. split; [done|]. split_and!; try done.
  cbn. unfold stages_of. by destruct (pipeline_stages p).
Qed.
Lemma check_params_ok l extra : (∀ p, p ∈ l → p ∈ all) → own_programs extra →
  ∃ cs extra', check_params w shards n l extra = Ok (cs, extra') ∧ own_programs extra' ∧
    (∀ k, is_Some (dict_get k extra) → is_Some (dict_get k extra')) ∧
    Forall2 (λ p c, c.1 = param_name p ∧ stages c.2 = stages_of p ∧
      match shard_strategy p with
      | Some s => preprocs c.2 = [gen_shard_info s shards (param_shape p)] ∧ is_Some (dict_get (shard_name s) extra')
      | None => preprocs c.2 = []
      end) l cs.
Proof using All.
  revert extra. induction l as [|p l IH]; intros extra Hl Hown; [by exists [], extra|]. cbn.
  destruct (check_param_ok p extra) as (c & e1 & E1 & Hown1 & Hmono1 & Hst & Hp); [apply Hl; by left|done|].
  rewrite E1. cbn. destruct (IH e1) as (cs & e2 & E2 & Hown2 & Hmono2 & Hcs); [intros q Hq; apply Hl; by right|done|].
  rewrite E2. cbn. exists ((param_name p, c) :: cs), e2. split_and!; [done|done|auto|].
  constructor; [|done]. cbn. split_and!; [done|done|]. destruct (shard_strategy p) as [s|]; [|done].
  split; [apply Hp|apply Hmono2, Hp].
Qed.
End check_proofs.

(** Before a model is compiled for several devices: when every strategy fits its parameter, programs of
    one name are one program, and with several stages every parameter has its own, then the check
    passes, keeps the parameters in order with their stages, and every sharded parameter is given the
    program made for its own strategy and shape. *)
Theorem preproc_spec {E} (w : list Z → E) shards n l :
  1 < shards → (∀ p, p ∈ l → can_shard shards p) → (∀ p q, p ∈ l → q ∈ l → same_program p q) →
  n = 1 ∨ (∀ p, p ∈ l → is_Some (pipeline_stages p)) →
  ∃ cs extra, _apply_preproc_to_params_and_check_pipeline w shards n l = Ok (cs, extra) ∧
    Forall2 (λ p c, c.1 = param_name p ∧ stages c.2 = stages_of p ∧
      match shard_strategy p with
      | Some s => preprocs c.2 = [gen_shard_info s shards (param_shape p)] ∧
          ∃ o, dict_get (shard_name s) extra = Some o ∧ gen_tir s shards (param_shape p) w = Ok o
      | None => preprocs c.2 = []
      end) l cs.
Proof.
  intros H1 Hfit Hsame Hst.
  destruct (check_params_ok w shards n l H1 Hfit Hsame Hst l []) as (cs & extra & E1 & Hown & _ & H); [done|by intros ? ? ?|].
  exists cs, extra. split; [done|]. pose proof (Forall2_length _ _ _ H) as Hlen.
  apply Forall2_same_length_lookup. split; [done|]. intros i p c Hp Hc.
  destruct (Forall2_lookup_lr _ _ _ _ _ _ H Hp Hc) as (Hn & Hs & Hpre). split_and!; [done..|].
  destruct (shard_strategy p) as [s|] eqn:Es; [|done]. destruct Hpre as [Hpre [o Ho]]. split; [done|].
  exists o. split; [done|]. apply (Hown p s o); [by eapply list_elem_of_lookup_2|done..].
Qed.

(** ** Stages *)

(** What [_set_pp] sets on the parameters of the layers: the stage by floor division. *)
Definition of_layers {nn : NN} {L} (layers : list L) (f : L → params) (n p : Z) : list (list (string * list Z)) :=
  (λ i, match layers !! Z.to_nat i with
      | Some layer => (λ x, ("model" ./ "layers" ./ pretty i ./ x.1, [i / (n / p)])) <$> f layer
      | None => []
      end) <$> range n.
(** The part of [_set_pp] for the layers. *)
Lemma layer_stages {nn : NN} {L} (layers : list L) (f : L → params) n p :
  Z.of_nat (length layers) = n → 0 < p ≤ n →
  map_m (λ layer_id,
    layers_per_stage ← floordiv n p; stage ← floordiv layer_id layers_per_stage;
    layer ← py_index layers (Z.to_nat layer_id);
    Ok ((λ q, ("model" ./ "layers" ./ pretty layer_id ./ q.1, [stage])) <$> f layer)) (range n)
  = Ok (of_layers layers f n p).
Proof.
  intros Hlen Hp. apply map_m_total. intros i Hi. unfold range in Hi. apply elem_of_seqZ in Hi.
  assert (0 < n / p) by (apply Z.div_str_pos; lia). unfold floordiv, py_index.
  rewrite (proj2 (Z.eqb_neq p 0)) by lia. cbn. rewrite (proj2 (Z.eqb_neq (n / p) 0)) by lia. cbn.
  destruct (lookup_lt_is_Some_2 layers (Z.to_nat i)) as [layer ->]; [lia|done].
Qed.
(** The boundaries of the stages, when the layers can be divided evenly. *)
Lemma stage_bounds p q i : 0 < p → 0 < q → 0 ≤ i < p * q →
  let per := (p * q + p - 1) / p in let partition := ((λ i, i * per) <$> range p) ++ [p * q] in
  let s := i / (p * q / p) in
  0 ≤ s < p ∧ ∃ a b, partition !! Z.to_nat s = Some a ∧ partition !! S (Z.to_nat s) = Some b ∧ a ≤ i < b.
Proof.
  intros Hp Hq Hi per partition s.
  assert (per = q) as Hper.
  { unfold per. replace (p * q + p - 1) with (q * p + (p - 1)) by ring. rewrite Z.div_add_l, Z.div_small by lia. lia. }
  assert (p * q / p = q) as Hq' by (rewrite Z.mul_comm, Z.div_mul; lia).
  assert (0 ≤ s < p) as Hs.
  { unfold s. rewrite Hq'. split; [apply Z.div_pos; lia|apply Z.div_lt_upper_bound; lia]. }
  pose proof (Z.div_mod i q ltac:(lia)) as E. pose proof (Z.mod_pos_bound i q Hq).
  assert (s = i / q) as Es by (unfold s; by rewrite Hq').
  assert (∀ k, 0 ≤ k ≤ p → partition !! Z.to_nat k = Some (k * q)) as Hpart.
  { intros k Hk. unfold partition, range. rewrite Hper. destruct (decide (k = p)) as [->|Hne].
    - rewrite lookup_app_r; rewrite length_fmap, length_seqZ; [|lia]. rewrite Nat.sub_diag. done.
    - rewrite lookup_app_l by (rewrite length_fmap, length_seqZ; lia). rewrite list_lookup_fmap, lookup_seqZ_lt by lia.
      cbn. f_equal. lia. }
  split; [done|]. exists (s * q), ((s + 1) * q). rewrite <-Z2Nat.inj_succ, <-Z.add_1_r by lia.
  split; [apply Hpart; lia|]. split; [apply Hpart; lia|]. rewrite Es. lia.
Qed.

(** Every parameter has stages, and they exist. *)
Definition staged {nn : NN} (p : Z) (ps : params) (l : list (string * list Z)) : Prop :=
  ∀ name t, (name, t) ∈ ps → ∃ st, (name, st) ∈ l ∧ st ≠ [] ∧ Forall (λ s, 0 ≤ s < p) st.
Lemma at_path_assoc a b c : at_path (at_path a b) c = at_path a (at_path b c).
Proof. unfold at_path. by rewrite !append_assoc. Qed.
Lemma elem_of_under {nn : NN} k l name t : (name, t) ∈ under k l ↔ ∃ n, name = at_path k n ∧ (n, t) ∈ l.
Proof.
  unfold under. rewrite list_elem_of_fmap. split.
  - intros ([n t'] & [= -> ->] & H). by exists n.
  - intros (n & -> & H). by exists (n, t).
Qed.
Lemma elem_of_list_params {nn : NN} {L} k (f : L → params) l name t : (name, t) ∈ list_params k f l ↔
  ∃ i m n, l !! i = Some m ∧ name = at_path k (at_path (pretty (Z.of_nat i)) n) ∧ (n, t) ∈ f m.
Proof.
  unfold list_params. rewrite list_elem_of_In, in_concat. setoid_rewrite <-list_elem_of_In. split.
  - intros (ps & (i & m & -> & Hm)%elem_of_lookup_imap & (n & -> & H)%elem_of_under).
    exists i, m, n. split_and!; try done. by rewrite at_path_assoc.
  - intros (i & m & n & Hm & -> & H). eexists. split; [apply elem_of_lookup_imap; by exists i, m|].
    apply elem_of_under. exists n. by rewrite at_path_assoc.
Qed.
Lemma staged_app {nn : NN} p ps ps' l : staged p ps l → staged p ps' l → staged p (ps ++ ps') l.
Proof. intros H H' name t [Hin|Hin]%elem_of_app; eauto. Qed.
Lemma staged_weak {nn : NN} p ps l l' : (∀ x, x ∈ l → x ∈ l') → staged p ps l → staged p ps l'.
Proof. intros Hl H name t Hin. destruct (H name t Hin) as (st & ? & ?). eauto. Qed.
Lemma staged_one {nn : NN} p name t st : st ≠ [] → Forall (λ s, 0 ≤ s < p) st → staged p [(name, t)] [(name, st)].
Proof. intros H1 H2 n t' [= -> ->]%list_elem_of_singleton. exists st. split_and!; [by left|done|done]. Qed.
Lemma all_stages p : 0 < p → range p ≠ [] ∧ Forall (λ s, 0 ≤ s < p) (range p).
Proof.
  intros Hp. unfold range. split.
  - intros H. apply (f_equal length) in H. rewrite length_seqZ in H. cbn in H. lia.
  - apply Forall_forall. intros s [? ?]%elem_of_seqZ. lia.
Qed.
(** The layers of an evenly divided network. *)
Lemma in_of_layers {nn : NN} {L} (layers : list L) (f : L → params) n p i layer name t :
  Z.of_nat (length layers) = n → layers !! i = Some layer → (name, t) ∈ f layer →
  ("model" ./ "layers" ./ pretty (Z.of_nat i) ./ name, [Z.of_nat i / (n / p)]) ∈ concat (of_layers layers f n p).
Proof.
  intros Hlen Hm H. pose proof (lookup_lt_Some _ _ _ Hm).
  rewrite list_elem_of_In, in_concat. setoid_rewrite <-list_elem_of_In. eexists. split.
  - apply list_elem_of_fmap. exists (Z.of_nat i). split; [done|]. unfold range. apply elem_of_seqZ. lia.
  - rewrite Nat2Z.id, Hm. apply list_elem_of_fmap. by exists (name, t).
Qed.
Lemma staged_layers {nn : NN} {L} (layers : list L) (f : L → params) p q :
  Z.of_nat (length layers) = p * q → 0 < p → 0 < q →
  staged p (under "model" (list_params "layers" f layers)) (concat (of_layers layers f (p * q) p)).
Proof.
  intros Hlen Hp Hq name t (n & -> & (i & m & n' & Hm & -> & H)%elem_of_list_params)%elem_of_under.
  pose proof (lookup_lt_Some _ _ _ Hm).
  destruct (stage_bounds p q (Z.of_nat i) Hp Hq) as [Hs _]; [lia|].
  exists [Z.of_nat i / (p * q / p)]. split_and!; [|done|by constructor]. by eapply in_of_layers.
Qed.

(** ** The networks with stages *)

(** A network with a [_set_pp], and what is read of it. *)
Record staged_network {nn : NN} := {
  net : Type; net_init : settings → string → result net;
  net_parameters : net → params; net_set_pp : settings → net → result (list (string * list Z));
  net_partition : net → list Z; net_layers : net → list params;
}.
Section networks.
Context {nn : NN}.
Definition Llama_staged : staged_network := {|
  net_init := Llama.LlamaForCausalLM.init; net_parameters := Llama.LlamaForCausalLM.parameters;
  net_set_pp := Llama.LlamaForCausalLM.set_pp;
  net_partition m := Llama.LlamaModel.layer_partition (Llama.LlamaForCausalLM.model m);
  net_layers m := Llama.LlamaDecoderLayer.parameters <$> Llama.LlamaModel.layers (Llama.LlamaForCausalLM.model m) |}.
Definition OLMo_staged : staged_network := {|
  net_init := OLMo.OLMoForCausalLM.init; net_parameters := OLMo.OLMoForCausalLM.parameters;
  net_set_pp := OLMo.OLMoForCausalLM.set_pp;
  net_partition m := OLMo.OLMoModel.layer_partition (OLMo.OLMoForCausalLM.model m);
  net_layers m := OLMo.OLMoDecoderLayer.parameters <$> OLMo.OLMoModel.layers (OLMo.OLMoForCausalLM.model m) |}.
Definition Nemotron_staged : staged_network := {|
  net_init := Nemotron.NemotronForCausalLM.init; net_parameters := Nemotron.NemotronForCausalLM.parameters;
  net_set_pp := Nemotron.NemotronForCausalLM.set_pp;
  net_partition m := Nemotron.NemotronModel.layer_partition (Nemotron.NemotronForCausalLM.model m);
  net_layers m := Nemotron.NemotronDecoderLayer.parameters <$> Nemotron.NemotronModel.layers (Nemotron.NemotronForCausalLM.model m) |}.
Definition OLMo2_staged : staged_network := {|
  net_init := OLMo2.OLMo2ForCausalLM.init; net_parameters := OLMo2.OLMo2ForCausalLM.parameters;
  net_set_pp := OLMo2.OLMo2ForCausalLM.set_pp;
  net_partition m := OLMo2.OLMo2Model.layer_partition (OLMo2.OLMo2ForCausalLM.model m);
  net_layers m := OLMo2.OLMo2DecoderLayer.parameters <$> OLMo2.OLMo2Model.layers (OLMo2.OLMo2ForCausalLM.model m) |}.
(** The parameters as the check goes over them: with the stages [_set_pp] set. *)
Definition with_stages (stages : list (string * list Z)) (ps : params) : list named_param :=
  (λ p, {| param_name := p.1; param_shape := shape p.2; shard_strategy := None; pipeline_stages := dict_get p.1 stages |}) <$> ps.

(** What the stages of a network promise. *)
Definition stages_right (N : staged_network) (config : settings) (p q : Z) : Prop := ∀ path self,
  net_init N config path = Ok self →
  config.["num_hidden_layers"] = p * q → config.["pipeline_parallel_stages"] = p → 0 < p → 0 < q →
  ∃ l, net_set_pp N config self = Ok l ∧ staged p (net_parameters N self) l ∧
    length (net_layers N self) = Z.to_nat (p * q) ∧
    ∀ i layer, net_layers N self !! i = Some layer →
      ∃ s a b, 0 ≤ s ∧ net_partition N self !! Z.to_nat s = Some a ∧ net_partition N self !! S (Z.to_nat s) = Some b ∧
        a ≤ Z.of_nat i < b ∧
        ∀ name t, (name, t) ∈ layer → ("model" ./ "layers" ./ pretty (Z.of_nat i) ./ name, [s]) ∈ l.

(** The rest of a model: its embedding and what its norm has. *)
Lemma staged_whole {L} (emb norm head : params) (layers : list L) (f : L → params) (rest : list (string * list Z)) p q :
  Z.of_nat (length layers) = p * q → 0 < p → 0 < q →
  staged p (under "model" (under "embed_tokens" emb)) rest → staged p (under "model" (under "norm" norm)) rest →
  staged p (under "lm_head" head) rest →
  staged p (under "model" (under "embed_tokens" emb ++ list_params "layers" f layers ++ under "norm" norm) ++ under "lm_head" head)
    (concat (of_layers layers f (p * q) p) ++ rest).
Proof.
  intros Hlen Hp Hq He Hn Hh. pose proof (staged_layers layers f p q Hlen Hp Hq) as Hl.
  assert (∀ ps, staged p ps rest → staged p ps (concat (of_layers layers f (p * q) p) ++ rest)) as Hrest.
  { intros ps. apply staged_weak. intros x Hx. apply elem_of_app. by right. }
  apply staged_app; [|auto]. unfold under in *. rewrite !fmap_app. apply staged_app; [auto|]. apply staged_app; [|auto].
  revert Hl. apply staged_weak. intros x Hx. apply elem_of_app. by left.
Qed.
(** Layers, partition and stages of an evenly divided model agree. *)
Lemma stages_agree {L} (layers : list L) (f : L → params) (rest : list (string * list Z)) p q :
  Z.of_nat (length layers) = p * q → 0 < p → 0 < q →
  length (f <$> layers) = Z.to_nat (p * q) ∧
  ∀ i layer, (f <$> layers) !! i = Some layer →
    ∃ s a b, 0 ≤ s ∧ let partition := ((λ i, i * ((p * q + p - 1) / p)) <$> range p) ++ [p * q] in
      partition !! Z.to_nat s = Some a ∧ partition !! S (Z.to_nat s) = Some b ∧ a ≤ Z.of_nat i < b ∧
      ∀ name t, (name, t) ∈ layer →
        ("model" ./ "layers" ./ pretty (Z.of_nat i) ./ name, [s]) ∈ concat (of_layers layers f (p * q) p) ++ rest.
Proof.
  intros Hlen Hp Hq. split; [rewrite length_fmap; lia|]. intros i layer Hi. rewrite list_lookup_fmap in Hi.
  destruct (layers !! i) as [m|] eqn:Hm; [|done]. injection Hi as <-. pose proof (lookup_lt_Some _ _ _ Hm).
  destruct (stage_bounds p q (Z.of_nat i) Hp Hq) as (Hs & a & b & Ha & Hb & Hab); [lia|].
  exists (Z.of_nat i / (p * q / p)), a, b. split; [lia|]. split_and!; [done..|lia|lia|].
  intros name t Ht. apply elem_of_app. left. by eapply in_of_layers.
Qed.
Lemma staged_weight p ps name t rest st : ps = [(name, t)] → (name, st) ∈ rest → st ≠ [] → Forall (λ s, 0 ≤ s < p) st →
  staged p ps rest.
Proof.
  intros -> Hin H1 H2. apply (staged_weak _ _ [(name, st)]); [|by apply staged_one]. by intros x ->%list_elem_of_singleton.
Qed.
Lemma staged_none p name rest : staged p (under name []) rest.
Proof. intros n t H. by apply elem_of_nil in H. Qed.


(** What [_set_pp] sets, after the layers. *)
Lemma Llama_set_pp config (self : Llama.LlamaForCausalLM.t) p q :
  let layers := Llama.LlamaModel.layers (Llama.LlamaForCausalLM.model self) in
  Z.of_nat (length layers) = p * q → config.["num_hidden_layers"] = p * q → config.["pipeline_parallel_stages"] = p → 0 < p → 0 < q →
  Llama.LlamaForCausalLM.set_pp config self = Ok (concat (of_layers layers Llama.LlamaDecoderLayer.parameters (p * q) p) ++
    [("model.norm.weight", [p - 1])] ++ [("model.embed_tokens.weight", range p)] ++
    (if negb config.?["tie_word_embeddings"] then [("lm_head.weight", range p)] else [])).
Proof.
  intros layers Hlen Hn Hs Hp Hq. unfold Llama.LlamaForCausalLM.set_pp. rewrite Hn, Hs. fold layers.
  rewrite layer_stages by (done || nia). reflexivity.
Qed.
Lemma OLMo_set_pp config (self : OLMo.OLMoForCausalLM.t) p q :
  let layers := OLMo.OLMoModel.layers (OLMo.OLMoForCausalLM.model self) in
  Z.of_nat (length layers) = p * q → config.["num_hidden_layers"] = p * q → config.["pipeline_parallel_stages"] = p → 0 < p → 0 < q →
  OLMo.OLMoForCausalLM.set_pp config self = Ok (concat (of_layers layers OLMo.OLMoDecoderLayer.parameters (p * q) p) ++
    [("model.embed_tokens.weight", range p)] ++ (if negb config.?["tie_word_embeddings"] then [("lm_head.weight", range p)] else [])).
Proof.
  intros layers Hlen Hn Hs Hp Hq. unfold OLMo.OLMoForCausalLM.set_pp. rewrite Hn, Hs. fold layers.
  rewrite layer_stages by (done || nia). reflexivity.
Qed.
Lemma Llama_right config p q : stages_right Llama_staged config p q.
Proof.
  intros path self H Hn Hs Hp Hq. destruct (all_stages p Hp) as [Hall1 Hall2].
  unfold Llama_staged in self, H |- *. cbn [net net_init net_parameters net_set_pp net_partition net_layers] in *.
  unfold Llama.LlamaForCausalLM.init in H. built H. unfold Llama.LlamaModel.init in Hm. built Hm.
  apply module_list_Ok in Hm1 as [Hlen _]. rewrite Hn, Z.max_r in Hlen by nia.
  erewrite Llama_set_pp by done. eexists. split; [reflexivity|]. split; [|rewrite Hn, Hs; by apply stages_agree].
  unfold Llama.LlamaForCausalLM.parameters, Llama.LlamaModel.parameters. apply staged_whole; [done..| | |].
  - eapply staged_weight; [reflexivity| |done..]. right. by left.
  - eapply staged_weight; [reflexivity|by left|done|repeat constructor; lia].
  - destruct (negb _); [|apply staged_none]. eapply staged_weight; [reflexivity| |done..]. right. right. by left.
Qed.
Lemma OLMo_right config p q : stages_right OLMo_staged config p q.
Proof.
  intros path self H Hn Hs Hp Hq. destruct (all_stages p Hp) as [Hall1 Hall2].
  unfold OLMo_staged in self, H |- *. cbn [net net_init net_parameters net_set_pp net_partition net_layers] in *.
  unfold OLMo.OLMoForCausalLM.init in H. built H. unfold OLMo.OLMoModel.init in Hm. built Hm.
  apply module_list_Ok in Hm1 as [Hlen _]. rewrite Hn, Z.max_r in Hlen by nia.
  erewrite OLMo_set_pp by done. eexists. split; [reflexivity|]. split; [|rewrite Hn, Hs; by apply stages_agree].
  unfold OLMo.OLMoForCausalLM.parameters, OLMo.OLMoModel.parameters. apply staged_whole; [done..| | |].
  - eapply staged_weight; [reflexivity| |done..]. by left.
  - apply staged_none.
  - destruct (negb _); [|apply staged_none]. eapply staged_weight; [reflexivity| |done..]. right. by left.
Qed.

(** C22. Pipeline stages: when the layers of Llama or OLMo can be divided evenly among the stages, the network is
    built, every parameter is given at least one stage and only stages that exist, and
    the parameters of every layer are given exactly the stage between whose boundaries in
    [layer_partition] the layer runs. *)
Theorem stages_assigned N config p q path self :
  N ∈ [Llama_staged; OLMo_staged] → net_init N config path = Ok self →
  config.["num_hidden_layers"] = p * q → config.["pipeline_parallel_stages"] = p → 0 < p → 0 < q →
  ∃ l, net_set_pp N config self = Ok l ∧ staged p (net_parameters N self) l ∧
    length (net_layers N self) = Z.to_nat (p * q) ∧
    ∀ i layer, net_layers N self !! i = Some layer →
      ∃ s a b, 0 ≤ s ∧ net_partition N self !! Z.to_nat s = Some a ∧ net_partition N self !! S (Z.to_nat s) = Some b ∧
        a ≤ Z.of_nat i < b ∧
        ∀ name t, (name, t) ∈ layer → ("model" ./ "layers" ./ pretty (Z.of_nat i) ./ name, [s]) ∈ l.
Proof.
  intros HN H Hn Hs Hp Hq. revert path self H Hn Hs Hp Hq. change (stages_right N config p q).
  repeat (apply elem_of_cons in HN as [->|HN]); [apply Llama_right|apply OLMo_right|by apply elem_of_nil in HN].
Qed.
End networks.

(** ** Examples *)

Module Example.
Import Networks.Example.
#[local] Existing Instance shape_only.
#[local] Existing Instance shape_only_laws.

(** A model of [layers] layers for [stages] stages, on one device per stage. *)
Definition staged_config (layers stages : Z) : settings := {|
  fields := list_to_map [("hidden_size", PInt 64); ("intermediate_size", PInt 128); ("num_attention_heads", PInt 8);
    ("num_key_value_heads", PInt 4); ("head_dim", PInt 8); ("num_hidden_layers", PInt layers); ("tensor_parallel_shards", PInt 1);
    ("pipeline_parallel_stages", PInt stages); ("vocab_size", PInt 100); ("hidden_act", PStr "silu"); ("tie_word_embeddings", PBool false)];
  symbolic _ := 100 |}.
(** Building the model and going over its parameters. *)
Definition prepare (N : staged_network) (layers stages : Z) : result (list (string * checked) * list (string * tensor Z)) :=
  let config := staged_config layers stages in
  self ← net_init N config "";
  set ← net_set_pp N config self;
  _apply_preproc_to_params_and_check_pipeline (λ _, 0) 1 stages (with_stages set (net_parameters N self)).
Definition accepted {A} (r : result A) : bool := match r with Ok _ => true | Err _ => false end.

(** Llama and OLMo pass with stages that divide the layers; OLMo 2 and Nemotron are refused whatever
    the layers, for the weight or the bias of the last norm has no stages. *)
Theorem stages_missing :
  Forall (λ N, accepted (prepare N 4 2) = true) [Llama_staged; OLMo_staged] ∧
  prepare OLMo2_staged 4 2 = raise AssertionError (undefined_stage "model.norm.weight" 2) ∧
  prepare Nemotron_staged 4 2 = raise AssertionError (undefined_stage "model.norm.bias" 2).
Proof. split_and!; [repeat constructor; vm_compute; reflexivity|vm_compute; reflexivity..]. Qed.
(** Layers that cannot be divided evenly: the last layer of five on two stages is given the third stage, though
    [layer_partition] has it run in the second; one layer on two stages is a division by zero. *)
Theorem stages_uneven :
  match net_init Llama_staged (staged_config 5 2) "" with
  | Ok self => net_partition Llama_staged self = [0; 3; 5] ∧
      match net_set_pp Llama_staged (staged_config 5 2) self with
      | Ok l => dict_get "model.layers.4.self_attn.o_proj.weight" l = Some [2] ∧ dict_get "model.layers.2.self_attn.o_proj.weight" l = Some [1]
      | Err _ => False
      end
  | Err _ => False
  end ∧
  prepare Llama_staged 1 2 = raise OtherError "integer division or modulo by zero".
Proof. vm_compute. repeat split. Qed.

Lemma stages_assigned_witness :
  match net_init Llama_staged (staged_config 4 2) "" with
  | Ok self => ∃ l, net_set_pp Llama_staged (staged_config 4 2) self = Ok l ∧ staged 2 (net_parameters Llama_staged self) l
  | Err _ => False
  end.
Proof.
  destruct (net_init Llama_staged (staged_config 4 2) "") as [self|] eqn:E; [|by vm_compute in E].
  destruct (stages_assigned Llama_staged (staged_config 4 2) 2 2 "" self) as (l & H1 & H2 & _);
    [left|exact E|reflexivity|reflexivity|lia|lia|]. by exists l.
Defined.
(** Two parameters with programs of their own, on two devices and two stages. *)
Definition two_params : list named_param := [
  {| param_name := "qkv_proj.weight"; param_shape := [8; 4];
     shard_strategy := Some {| shard_name := "_shard_qkv"; shard_dim := 0; segs := Some [4; 2; 2] |}; pipeline_stages := Some [0] |};
  {| param_name := "o_proj.weight"; param_shape := [4; 3];
     shard_strategy := Some {| shard_name := "_shard_o"; shard_dim := 1; segs := None |}; pipeline_stages := Some [1; 1] |}].
Lemma preproc_spec_witness : ∃ cs extra,
  _apply_preproc_to_params_and_check_pipeline (λ idx : list Z, idx) 2 2 two_params = Ok (cs, extra) ∧ cs.*1 = ["qkv_proj.weight"; "o_proj.weight"].
Proof.
  destruct (preproc_spec (λ idx : list Z, idx) 2 2 two_params) as (cs & extra & H & Hcs).
  - lia.
  - intros p Hp s Hs. apply elem_of_cons in Hp as [->|Hp]; [|apply elem_of_cons in Hp as [->|Hp]; [|by apply elem_of_nil in Hp]];
      injection Hs as <-; (split; [cbn; lia|split; [cbn; repeat (apply Forall_cons_2; [by vm_compute|]); apply Forall_nil_2|reflexivity]]).
  - intros p q Hp Hq s s' Hs Hs' Hn.
    apply elem_of_cons in Hp as [->|Hp]; [|apply elem_of_cons in Hp as [->|Hp]; [|by apply elem_of_nil in Hp]];
    (apply elem_of_cons in Hq as [->|Hq]; [|apply elem_of_cons in Hq as [->|Hq]; [|by apply elem_of_nil in Hq]]);
      injection Hs as <-; injection Hs' as <-; try discriminate Hn; by split.
  - right. intros p Hp. apply elem_of_cons in Hp as [->|Hp]; [|apply elem_of_cons in Hp as [->|Hp]; [|by apply elem_of_nil in Hp]]; by eexists.
  - exists cs, extra. split; [done|]. inversion_clear Hcs as [|? ? ? ? [H1 _] Hcs']. inversion_clear Hcs' as [|? ? ? ? [H2 _] Hnil].
    inversion_clear Hnil. cbn. by rewrite H1, H2.
Defined.
End Example.
