(* ===== verification/Embedding.v ===== *)
(** The embedding engine: [AsyncEmbeddingEngine] of
    [python/mlc_llm/serve/embedding_engine.py].

    The functions of a compiled model, the tokenizer and NumPy are an interface,
    [Runtime]; [RuntimeLaws] states what a causal language model and its cache promise.
    The theorem: however the engine batches its inputs or cuts them into chunks, every
    embedding is the one of its own text. *)

From Stdlib Require Import Lia ZArith.
From stdpp Require Import base gmap strings list list_numbers numbers.
From S2P Require Import Prelude PyString PyObject EngineUtils.
#[local] Open Scope Z_scope.

(** ** The interface *)

Class Runtime := {
  Emb : Type;    (* the input embeddings of tokens *)
  Vec : Type;    (* a row of an array of floats *)
  Num : Type;
  Cache : Type;
  encode : string → list Z;
  (* an encoder: tokens and mask to the hidden states, one row per token *)
  prefill_func : list Z → list Z → list Vec;
  (* a decoder *)
  embed_func : list Z → Emb;
  nd_reshape : Emb → Z → Emb;    (* to [1, n, the size of the last dimension] *)
  create_kv_cache (max_batch_size max_total_seq_len prefill_chunk_size page_size support_sliding_window : Z) : Cache;
  kv_state_add_sequence : Cache → Z → Cache;
  kv_state_remove_sequence : Cache → Z → Cache;
  kv_state_begin_forward : Cache → list Z → list Z → Cache;
  kv_state_end_forward : Cache → Cache;
  batch_prefill_to_hidden_func : Emb → Cache → list Vec * Cache;
  (* rows in either layout, with or without a first dimension of 1 *)
  prefill_to_hidden_func : Emb → Cache → list Vec * Cache;
  mean : list Vec → Vec;
  float32 : Vec → Vec;
  norm : Vec → Num;
  above_eps : Num → bool;    (* norm > 1e-12 *)
  divide : Vec → Num → Vec;
}.

(** [l[i]], from the end for a negative index. *)
Definition py_row {A} (l : list A) (i : Z) : result A :=
  let i := if i <? 0 then i + Z.of_nat (length l) else i in
  if i <? 0 then raise IndexError "list index out of range" else py_index l (Z.to_nat i).
(** [l[:n]]. *)
Definition py_take {A} (n : Z) (l : list A) : list A :=
  take (Z.to_nat (if n <? 0 then Z.of_nat (length l) + n else n)) l.
Definition zlen {A} (l : list A) : Z := Z.of_nat (length l).
Definition zsum (l : list Z) : Z := foldr Z.add 0 l.

(** ** The engine *)

(** The attributes the engine works with after its construction. *)
Record EmbeddingEngine := {
  is_encoder : bool;
  pooling_strategy : string;
  normalize : bool;
  _cls_token_id : option Z;
  _sep_token_id : option Z;
  _decoder_tokenizer_appends_eos : bool;
  _decoder_eos_token_id : option Z;
  _metadata : list (string * pyval);
  _terminated : bool;
}.

(** A sub-batch: its mode, texts and number of tokens. *)
Inductive batch_type := batch | sequential.
Abbreviation sub_batch := (batch_type * list (list Z) * Z)%type.

Section engine.
Context {rt : Runtime}.

(** *** Construction

    A function the module lacks is an [AttributeError]. *)
Definition get_function (implements : string → bool) (name : string) : result unit :=
  if implements name then Ok tt else raise AttributeError name.

(** The special tokens of an encoder, from [tokenizer_config.json] if there is one. *)
Definition added_token (tok_config : pyval) (ids : option Z * option Z) (entry : string * pyval) : result (option Z * option Z) :=
  content ← py_dict_get entry.2 "content" PNone;
  cls ← py_dict_get tok_config "cls_token" PNone;
  sep ← py_dict_get tok_config "sep_token" PNone;
  let to_int := match py_int entry.1 with Some z => Ok (Some z) | None => raise ValueError "invalid literal for int()" end in
  cls_id ← (if py_eqb content cls then to_int else Ok ids.1);
  sep_id ← (if py_eqb content sep then to_int else Ok ids.2);
  Ok (cls_id, sep_id).
Definition encoded_token (tok_config : pyval) (key : string) (id : option Z) : result (option Z) :=
  token ← py_dict_get tok_config key PNone;
  match id, truthy token with
  | None, true =>
      match token with
      | PStr s => match encode s with [i] => Ok (Some i) | _ => Ok None end
      | _ => raise TypeError "encode() argument"
      end
  | _, _ => Ok id
  end.
Definition _init_encoder (implements : string → bool) (tok_config : option pyval) : result (option Z * option Z) :=
  _ ← get_function implements "prefill";
  match tok_config with
  | None => Ok (None, None)
  | Some tok_config =>
      added ← py_dict_get tok_config "added_tokens_decoder" (PDict []);
      match added with
      | PDict added =>
          '(cls_id, sep_id) ← fold_m (added_token tok_config) (None, None) added;
          cls_id ← encoded_token tok_config "cls_token" cls_id;
          sep_id ← encoded_token tok_config "sep_token" sep_id;
          Ok (cls_id, sep_id)
      | _ => raise AttributeError "object has no attribute 'items'"
      end
  end.

(** Whether the tokenizer ends a text with a special token, from [tokenizer.json]. *)
Definition special_id (t : pyval) : result (option pyval) :=
  special ← py_dict_get t "special" (PBool false);
  if truthy special then id ← py_item t "id"; Ok (Some id) else Ok None.
Definition appends_eos (tokenizer_json : option pyval) : result bool :=
  match tokenizer_json with
  | None => Ok false
  | Some json =>
      post_proc ← py_dict_get json "post_processor" PNone;
      match post_proc, list.last (encode "test") with
      | PNone, _ | _, None => Ok false
      | _, Some t =>
          vocab ← py_dict_get json "added_tokens" (PList []);
          vocab ← py_iter vocab;
          special_ids ← map_m special_id vocab;
          Ok (existsb (py_eqb (PInt t)) (omap id special_ids))
      end
  end.
(** The id of the end of sequence, from [mlc-chat-config.json]; a token id is an integer. *)
Definition eos_token (chat_config : option pyval) : result (option Z) :=
  match chat_config with
  | None => Ok None
  | Some c =>
      eos ← py_dict_get c "eos_token_id" PNone;
      match eos with
      | PList l => e ← py_index l 0;
                   match as_int e with Some z => Ok (Some z) | None => raise TypeError "token id" end
      | _ => Ok (as_int eos)
      end
  end.
Definition _init_decoder (implements : string → bool) (tokenizer_json chat_config : option pyval) :
    result (bool * option Z) :=
  appends ← appends_eos tokenizer_json;
  eos ← eos_token chat_config;
  _ ← get_function implements "embed";
  _ ← get_function implements "prefill_to_last_hidden_states";
  _ ← get_function implements "batch_prefill_to_last_hidden_states";
  _ ← raise_when (negb (implements "create_tir_paged_kv_cache" || implements "create_flashinfer_paged_kv_cache"))
        RuntimeError "Cannot find KV cache creation function in model library.";
  Ok (appends, eos).

(** [__init__], given the metadata and functions of the library and the contents of the
    model's files. *)
Definition __init__ (metadata : list (string * pyval)) (implements : string → bool)
    (pooling : option string) (tok_config tokenizer_json chat_config : option pyval) : result EmbeddingEngine :=
  '(model_type, strategy, norm) ←
    match get_embedding_metadata metadata with
    | Some m =>
        if truthy m then
          model_type ← py_item m "model_type"; strategy ← py_item m "pooling_strategy"; norm ← py_item m "normalize";
          Ok (model_type, strategy, truthy norm)
        else
          t ← detect_embedding_model_type implements;
          Ok (match t with encoder => (PStr "encoder", PStr "cls", true) | decoder => (PStr "decoder", PStr "last", true) end)
    | None =>
        t ← detect_embedding_model_type implements;
        Ok (match t with encoder => (PStr "encoder", PStr "cls", true) | decoder => (PStr "decoder", PStr "last", true) end)
    end;
  let strategy := match pooling with Some p => if bool_decide (p = "") then strategy else PStr p | None => strategy end in
  let strategy := match strategy with PStr s => s | _ => "" end in
  if py_eqb model_type (PStr "encoder") then
    '(cls_id, sep_id) ← _init_encoder implements tok_config;
    Ok {| is_encoder := true; pooling_strategy := strategy; normalize := norm; _cls_token_id := cls_id; _sep_token_id := sep_id;
          _decoder_tokenizer_appends_eos := false; _decoder_eos_token_id := None; _metadata := metadata; _terminated := false |}
  else
    '(appends, eos) ← _init_decoder implements tokenizer_json chat_config;
    Ok {| is_encoder := false; pooling_strategy := strategy; normalize := norm; _cls_token_id := None; _sep_token_id := None;
          _decoder_tokenizer_appends_eos := appends; _decoder_eos_token_id := eos; _metadata := metadata; _terminated := false |}.

(** *** Embedding *)

(** An integer of the metadata, with a default. *)
Definition meta (self : EmbeddingEngine) (key : string) (d : Z) : Z :=
  match dict_get key (_metadata self) with Some (PInt z) => z | _ => d end.
Definition normalized (self : EmbeddingEngine) (pooled : Vec) : Vec :=
  let pooled := float32 pooled in
  if normalize self then (let n := norm pooled in if above_eps n then divide pooled n else pooled) else pooled.

(** Add the special tokens of an encoder if they are not there, and cut a long text. *)
Definition with_cls (self : EmbeddingEngine) (tokens : list Z) : list Z :=
  match _cls_token_id self with
  | Some cls => if bool_decide (head tokens = Some cls) then tokens else cls :: tokens
  | None => tokens
  end.
Definition with_sep (self : EmbeddingEngine) (tokens : list Z) : list Z :=
  match _sep_token_id self with
  | Some sep => if bool_decide (list.last tokens = Some sep) then tokens else tokens ++ [sep]
  | None => tokens
  end.
Definition encoder_tokens (self : EmbeddingEngine) (prefill_chunk : Z) (text : string) : result (list Z) :=
  let tokens := with_sep self (with_cls self (encode text)) in
  if zlen tokens >? prefill_chunk then
    let tokens := py_take prefill_chunk tokens in
    match _sep_token_id self with
    | Some sep => py_setitem tokens (length tokens - 1) sep
    | None => Ok tokens
    end
  else Ok tokens.
Definition pool (self : EmbeddingEngine) (output : list Vec) : result Vec :=
  if bool_decide (pooling_strategy self = "cls") then py_row output 0
  else if bool_decide (pooling_strategy self = "mean") then Ok (mean output)
  else py_row output (-1).
Definition encode_one (self : EmbeddingEngine) (acc : list Vec * Z) (text : string) : result (list Vec * Z) :=
  tokens ← encoder_tokens self (meta self "prefill_chunk_size" 512) text;
  let output := prefill_func tokens (replicate (length tokens) 1) in
  pooled ← pool self output;
  Ok (acc.1 ++ [normalized self pooled], acc.2 + zlen tokens).
Definition _embed_encoder (self : EmbeddingEngine) (inputs : list string) : result (list Vec * Z) :=
  fold_m (encode_one self) ([], 0) inputs.

(** [_build_sub_batches]. *)
Record packing := { sub_batches : list sub_batch; current_batch : list (list Z); current_tokens : Z }.
Definition flush (p : packing) : packing :=
  {| sub_batches := sub_batches p ++ [(batch, current_batch p, current_tokens p)]; current_batch := []; current_tokens := 0 |}.
Definition pack (prefill_chunk : Z) (p : packing) (tokens : list Z) : packing :=
  if bool_decide (tokens = []) then p
  else
    let token_len := zlen tokens in
    let is_oversized := token_len >? prefill_chunk in
    let p := if bool_decide (current_batch p ≠ []) && (is_oversized || (current_tokens p + token_len >? prefill_chunk))
             then flush p else p in
    if is_oversized then
      {| sub_batches := sub_batches p ++ [(sequential, [tokens], token_len)];
         current_batch := current_batch p; current_tokens := current_tokens p |}
    else
      {| sub_batches := sub_batches p; current_batch := current_batch p ++ [tokens];
         current_tokens := current_tokens p + token_len |}.
Definition _build_sub_batches (token_lists : list (list Z)) (prefill_chunk : Z) : list sub_batch :=
  let p := foldl (pack prefill_chunk) {| sub_batches := []; current_batch := []; current_tokens := 0 |} token_lists in
  if bool_decide (current_batch p = []) then sub_batches p else sub_batches (flush p).

(** The decoder's functions; the state is the list of the caches that were made, as they were
    left. *)
Definition last_states (self : EmbeddingEngine) (hidden : list Vec) (acc : list Vec * Z) (tokens : list Z) : result (list Vec * Z) :=
  pooled ← py_row hidden (acc.2 + zlen tokens - 1);
  Ok (acc.1 ++ [normalized self pooled], acc.2 + zlen tokens).
Definition _batch_embed_decoder (self : EmbeddingEngine) (token_lists : list (list Z))
    (total_tokens max_seq_len prefill_chunk support_sliding : Z) : stM (list Cache) (list Vec * Z) :=
  let batch_size := zlen token_lists in
  let kv_cache := create_kv_cache batch_size max_seq_len prefill_chunk 16 support_sliding in
  let seq_ids := seqZ 0 batch_size in
  let seq_lens := zlen <$> token_lists in
  let kv_cache := foldl kv_state_add_sequence kv_cache seq_ids in
  let kv_cache := kv_state_begin_forward kv_cache seq_ids seq_lens in
  let all_embed := nd_reshape (embed_func (concat token_lists)) total_tokens in
  let '(hidden, kv_cache) := batch_prefill_to_hidden_func all_embed kv_cache in
  let kv_cache := kv_state_end_forward kv_cache in
  let kv_cache := foldl kv_state_remove_sequence kv_cache seq_ids in
  _ ← st_modify (λ caches, caches ++ [kv_cache]);
  '(embeddings, _) ← st_lift (fold_m (last_states self hidden) ([], 0) token_lists);
  mret (embeddings, total_tokens).

(** One chunk of a sequence: the hidden states of the last one and the cache. *)
Definition prefill_step (prefill_chunk : Z) (tokens : list Z) (s : option (list Vec) * Cache) (chunk_start : Z) :
    option (list Vec) * Cache :=
  let chunk_end := Z.min (chunk_start + prefill_chunk) (zlen tokens) in
  let chunk_tokens := take (Z.to_nat (chunk_end - chunk_start)) (drop (Z.to_nat chunk_start) tokens) in
  let chunk_embed := nd_reshape (embed_func chunk_tokens) (zlen chunk_tokens) in
  let kv_cache := kv_state_begin_forward s.2 [0] [zlen chunk_tokens] in
  let '(hidden, kv_cache) := prefill_to_hidden_func chunk_embed kv_cache in
  (Some hidden, kv_state_end_forward kv_cache).
(** One text. The variable [hidden_np] lives on from one text to the next. *)
Definition embed_sequence (self : EmbeddingEngine) (max_seq_len prefill_chunk support_sliding : Z)
    (s : list Vec * option (list Vec)) (tokens : list Z) : stM (list Cache) (list Vec * option (list Vec)) :=
  if bool_decide (tokens = []) then mret s
  else
    let kv_cache := create_kv_cache 1 max_seq_len prefill_chunk 16 support_sliding in
    let kv_cache := kv_state_add_sequence kv_cache 0 in
    starts ← st_lift (py_range (PInt 0) (PInt (zlen tokens)) (PInt prefill_chunk));
    let '(hidden_np, kv_cache) := foldl (prefill_step prefill_chunk tokens) (s.2, kv_cache) starts in
    _ ← st_modify (λ caches, caches ++ [kv_state_remove_sequence kv_cache 0]);
    match hidden_np with
    | None => st_lift (raise OtherError "cannot access local variable 'hidden_np'")
    | Some hidden =>
        pooled ← st_lift (py_row hidden (-1));
        mret (s.1 ++ [normalized self pooled], Some hidden)
    end.
Fixpoint embed_sequences (self : EmbeddingEngine) (max_seq_len prefill_chunk support_sliding : Z)
    (s : list Vec * option (list Vec)) (token_lists : list (list Z)) : stM (list Cache) (list Vec * option (list Vec)) :=
  match token_lists with
  | [] => mret s
  | tokens :: token_lists =>
      s ← embed_sequence self max_seq_len prefill_chunk support_sliding s tokens;
      embed_sequences self max_seq_len prefill_chunk support_sliding s token_lists
  end.
Definition _sequential_embed_decoder (self : EmbeddingEngine) (token_lists : list (list Z))
    (total_tokens max_seq_len prefill_chunk support_sliding : Z) : stM (list Cache) (list Vec * Z) :=
  '(embeddings, _) ← embed_sequences self max_seq_len prefill_chunk support_sliding ([], None) token_lists;
  mret (embeddings, total_tokens).

Definition with_eos (self : EmbeddingEngine) (tokens : list Z) : list Z :=
  match _decoder_tokenizer_appends_eos self, _decoder_eos_token_id self with
  | false, Some eos => if bool_decide (list.last tokens = Some eos) then tokens else tokens ++ [eos]
  | _, _ => tokens
  end.
Definition decoder_tokens (self : EmbeddingEngine) (max_seq_len : Z) (text : string) : list Z :=
  let tokens := with_eos self (encode text) in
  if zlen tokens >? max_seq_len then py_take max_seq_len tokens else tokens.
Fixpoint embed_batches (self : EmbeddingEngine) (max_seq_len prefill_chunk support_sliding : Z)
    (bs : list sub_batch) (all_embeddings : list Vec) : stM (list Cache) (list Vec) :=
  match bs with
  | [] => mret all_embeddings
  | (t, lists, total) :: bs =>
      '(embs, _) ← match t with
        | batch => _batch_embed_decoder self lists total max_seq_len prefill_chunk support_sliding
        | sequential => _sequential_embed_decoder self lists total max_seq_len prefill_chunk support_sliding
        end;
      embed_batches self max_seq_len prefill_chunk support_sliding bs (all_embeddings ++ embs)
  end.
Definition max_seq_len_of (self : EmbeddingEngine) : Z :=
  let max_seq_len := meta self "context_window_size" 32768 in
  if max_seq_len =? -1 then meta self "sliding_window_size" (-1) else max_seq_len.
Definition _embed_decoder (self : EmbeddingEngine) (inputs : list string) : stM (list Cache) (list Vec * Z) :=
  let prefill_chunk := meta self "prefill_chunk_size" 2048 in
  let max_seq_len := max_seq_len_of self in
  _ ← st_lift (py_assert (0 <? max_seq_len) "max_seq_len must be positive, got {max_seq_len}");
  let support_sliding := if meta self "sliding_window_size" (-1) =? -1 then 0 else 1 in
  let token_lists := decoder_tokens self max_seq_len <$> inputs in
  let total_tokens := zsum (zlen <$> token_lists) in
  if (total_tokens <=? prefill_chunk) && forallb (λ t, 0 <? zlen t) token_lists then
    _batch_embed_decoder self token_lists total_tokens max_seq_len prefill_chunk support_sliding
  else
    all_embeddings ← embed_batches self max_seq_len prefill_chunk support_sliding (_build_sub_batches token_lists prefill_chunk) [];
    mret (all_embeddings, total_tokens).

(** [embed]; [async_embed] runs it in the engine's only thread. *)
Definition embed (self : EmbeddingEngine) (inputs : list string) : stM (list Cache) (list Vec * Z) :=
  if is_encoder self then st_lift (_embed_encoder self inputs) else _embed_decoder self inputs.
(** [terminate]; the result tells whether the thread pool is shut down. *)
Definition terminate (self : EmbeddingEngine) : EmbeddingEngine * bool :=
  if _terminated self then (self, false)
  else ({| is_encoder := is_encoder self; pooling_strategy := pooling_strategy self; normalize := normalize self;
           _cls_token_id := _cls_token_id self; _sep_token_id := _sep_token_id self;
           _decoder_tokenizer_appends_eos := _decoder_tokenizer_appends_eos self;
           _decoder_eos_token_id := _decoder_eos_token_id self; _metadata := _metadata self; _terminated := true |}, true).
End engine.

(** ** What a causal model and its cache promise *)

(** The hidden states of the tokens [ts] when the forward pass was begun with [l], the sequences and how
    many tokens each gets; and the sequences afterwards. [m] has the tokens of each sequence so far. *)
Fixpoint states {V : Type} (state_after : list Z → V) (m : gmap Z (list Z)) (l : list (Z * Z)) (ts : list Z) : list V :=
  match l with
  | [] => []
  | (s, n) :: l =>
      ((λ j, state_after (default [] (m !! s) ++ take (S j) ts)) <$> seq 0 (Z.to_nat n)) ++
      states state_after m l (drop (Z.to_nat n) ts)
  end.
Fixpoint extended (m : gmap Z (list Z)) (l : list (Z * Z)) (ts : list Z) : gmap Z (list Z) :=
  match l with
  | [] => m
  | (s, n) :: l => extended (<[s := default [] (m !! s) ++ take (Z.to_nat n) ts]> m) l (drop (Z.to_nat n) ts)
  end.
(** The tokens a cache holds. *)
Definition cached (m : gmap Z (list Z)) : Z := zsum (zlen <$> (map_to_list m).*2).
(** A cache is made for so many sequences, tokens, and tokens at once. *)
Record limits := { max_batch : Z; max_total : Z; max_chunk : Z }.
Definition fits (k : limits) (m : gmap Z (list Z)) (n : Z) : Prop :=
  Z.of_nat (size m) ≤ max_batch k ∧ cached m + n ≤ max_total k ∧ n ≤ max_chunk k.

Class RuntimeLaws (rt : Runtime) := {
  (* the hidden state at the last of a sequence of tokens *)
  state_after : list Z → Vec;
  seqs : Cache → gmap Z (list Z);
  begun : Cache → list (Z * Z);
  limits_of : Cache → limits;
  seqs_create b t c p s : seqs (create_kv_cache b t c p s) = ∅;
  limits_create b t c p s : limits_of (create_kv_cache b t c p s) = {| max_batch := b; max_total := t; max_chunk := c |};
  seqs_add c s : seqs (kv_state_add_sequence c s) = <[s := []]> (seqs c);
  limits_add c s : limits_of (kv_state_add_sequence c s) = limits_of c;
  seqs_remove c s : seqs (kv_state_remove_sequence c s) = delete s (seqs c);
  seqs_begin c ids lens : seqs (kv_state_begin_forward c ids lens) = seqs c;
  begun_begin c ids lens : length ids = length lens → begun (kv_state_begin_forward c ids lens) = zip ids lens;
  limits_begin c ids lens : limits_of (kv_state_begin_forward c ids lens) = limits_of c;
  seqs_end c : seqs (kv_state_end_forward c) = seqs c;
  limits_end c : limits_of (kv_state_end_forward c) = limits_of c;
  (* a forward pass within the limits of the cache *)
  batch_prefill_law c ts :
    NoDup (begun c).*1 → Forall (λ p, is_Some (seqs c !! p.1) ∧ 0 < p.2) (begun c) → zsum (begun c).*2 = zlen ts →
    fits (limits_of c) (seqs c) (zlen ts) →
    let '(hs, c') := batch_prefill_to_hidden_func (nd_reshape (embed_func ts) (zlen ts)) c in
    hs = states state_after (seqs c) (begun c) ts ∧ seqs c' = extended (seqs c) (begun c) ts ∧ limits_of c' = limits_of c;
  prefill_law c s ts :
    begun c = [(s, zlen ts)] → is_Some (seqs c !! s) → ts ≠ [] → fits (limits_of c) (seqs c) (zlen ts) →
    let '(hs, c') := prefill_to_hidden_func (nd_reshape (embed_func ts) (zlen ts)) c in
    hs = states state_after (seqs c) [(s, zlen ts)] ts ∧ seqs c' = extended (seqs c) [(s, zlen ts)] ts ∧ limits_of c' = limits_of c;
}.

(** ** Lists of integers *)

Lemma zsum_lists l k : zsum (l ++ k) = zsum l + zsum k.
Proof. unfold zsum. induction l as [|x l IH]; cbn; [done|]. rewrite IH. lia. Qed.
Lemma zsum_perm l k : l ≡ₚ k → zsum l = zsum k.
Proof. unfold zsum. induction 1; cbn; lia. Qed.
Lemma zsum_zero l : Forall (eq 0) l → zsum l = 0.
Proof. unfold zsum. induction 1 as [|x l <- Hl IH]; [done|]. cbn. lia. Qed.
Lemma zsum_concat (ls : list (list Z)) : zsum (zlen <$> ls) = zlen (concat ls).
Proof.
  unfold zlen. induction ls as [|l ls IH]; [done|]. cbn [fmap list_fmap concat]. rewrite length_app, Nat2Z.inj_add, <-IH. done.
Qed.
Lemma zlen_pos {A} (l : list A) : l ≠ [] ↔ 0 < zlen l.
Proof. unfold zlen. destruct l; cbn; split; try done; lia. Qed.
Lemma zlen_nonneg {A} (l : list A) : 0 ≤ zlen l.
Proof. unfold zlen. lia. Qed.
Lemma py_row_last {A} (l : list A) (x : A) : py_row (l ++ [x]) (-1) = Ok x.
Proof.
  unfold py_row, py_index. rewrite length_app. change (length [x]) with 1%nat. change (-1 <? 0) with true. cbv beta iota zeta.
  rewrite (proj2 (Z.ltb_ge _ _)) by lia. replace (Z.to_nat (-1 + Z.of_nat (length l + 1))) with (length l) by lia.
  by rewrite list_lookup_middle.
Qed.
Lemma py_row_at {A} (l k : list A) (x : A) : py_row (l ++ x :: k) (zlen l) = Ok x.
Proof.
  unfold py_row, py_index, zlen. rewrite (proj2 (Z.ltb_ge (Z.of_nat _) 0)) by lia. rewrite (proj2 (Z.ltb_ge _ _)) by lia.
  rewrite Nat2Z.id. by rewrite list_lookup_middle.
Qed.

(** ** Packing *)

(** What a sub-batch is allowed to be. *)
Definition good_batch (prefill_chunk : Z) (b : sub_batch) : Prop :=
  let '(t, lists, total) := b in
  Forall (λ l, l ≠ []) lists ∧ total = zsum (zlen <$> lists) ∧
  match t with
  | batch => lists ≠ [] ∧ total ≤ prefill_chunk
  | sequential => ∃ l, lists = [l] ∧ prefill_chunk < zlen l
  end.
Definition lists_of (bs : list sub_batch) : list (list Z) := concat ((λ b, b.1.2) <$> bs).
Definition packed_well (prefill_chunk : Z) (p : packing) (done : list (list Z)) : Prop :=
  Forall (good_batch prefill_chunk) (sub_batches p) ∧ Forall (λ l, l ≠ []) (current_batch p) ∧
  current_tokens p = zsum (zlen <$> current_batch p) ∧ current_tokens p ≤ Z.max 0 prefill_chunk ∧
  lists_of (sub_batches p) ++ current_batch p = filter (λ l, l ≠ []) done.
Lemma lists_of_app bs bs' : lists_of (bs ++ bs') = lists_of bs ++ lists_of bs'.
Proof. unfold lists_of. by rewrite fmap_app, concat_app. Qed.
Lemma flush_well c p done : current_batch p ≠ [] → packed_well c p done → packed_well c (flush p) done.
Proof.
  intros Hne (Hg & Hf & Ht & Hc & Hl). unfold packed_well, flush. cbn [sub_batches current_batch current_tokens]. split_and!; [|by constructor|done|lia|].
  - apply Forall_app. split; [done|]. constructor; [|by constructor]. cbn. split_and!; [done..|].
    assert (0 < current_tokens p); [|lia]. rewrite Ht. destruct (current_batch p) as [|l k]; [done|]. inversion Hf; subst.
    cbn. pose proof (proj1 (zlen_pos l) ltac:(done)). assert (0 ≤ zsum (zlen <$> k)); [|unfold zsum in *; cbn; lia].
    rewrite zsum_concat. apply zlen_nonneg.
  - rewrite lists_of_app, app_nil_r. unfold lists_of at 2. cbn. by rewrite app_nil_r.
Qed.
Lemma pack_well c p done tokens : packed_well c p done → packed_well c (pack c p tokens) (done ++ [tokens]).
Proof.
  intros Hw. unfold pack. case_bool_decide as Ht.
  { subst. unfold packed_well in *. rewrite list.filter_app. cbn. by rewrite app_nil_r. }
  pose proof (proj1 (zlen_pos tokens) Ht) as Hpos.
  set (p' := if _ && _ then _ else _).
  assert (packed_well c p' done ∧ ((zlen tokens >? c) = true → current_batch p' = []) ∧
    ((zlen tokens >? c) = false → current_tokens p' + zlen tokens ≤ c)) as (Hw' & Hbig & Hsmall).
  { subst p'. case_bool_decide as Hne; cbn [andb].
    - destruct (zlen tokens >? c) eqn:Ho; cbn [orb].
      + split_and!; [by apply flush_well|done|done].
      + destruct (current_tokens p + zlen tokens >? c) eqn:Hs.
        * split_and!; [by apply flush_well|done|cbn; lia].
        * split_and!; [done|done|lia].
    - split_and!; [done|done|]. intros Ho. destruct Hw as (_ & _ & Hcur & _).
      rewrite Hcur, Hne. cbn. lia. }
  clearbody p'. clear Hw. destruct Hw' as (Hg & Hf & Hcur & Hc & Hl).
  unfold packed_well. rewrite list.filter_app. rewrite (filter_cons_True _ tokens []) by done. rewrite list.filter_nil.
  destruct (zlen tokens >? c) eqn:Ho.
  - rewrite (Hbig eq_refl) in *. cbn [sub_batches current_batch current_tokens]. rewrite app_nil_r in Hl. split_and!; [|by constructor|done|done|].
    + apply Forall_app. split; [done|]. constructor; [|by constructor]. cbn. split_and!; [by repeat constructor|unfold zsum; cbn; lia|].
      exists tokens. split; [done|lia].
    + rewrite lists_of_app, app_nil_r, Hl. done.
  - cbn [sub_batches current_batch current_tokens]. split_and!; [done|apply Forall_app; by repeat constructor| | |].
    + rewrite fmap_app, zsum_lists, Hcur. unfold zsum at 3. cbn. lia.
    + specialize (Hsmall eq_refl). lia.
    + by rewrite app_assoc, Hl.
Qed.
Lemma packs_well c ts p done : packed_well c p done → packed_well c (foldl (pack c) p ts) (done ++ ts).
Proof.
  revert p done. induction ts as [|t ts IH]; intros p done H; cbn [foldl]; [by rewrite app_nil_r|].
  rewrite cons_middle, app_assoc. apply IH. by apply pack_well.
Qed.
(** The sub-batches have the texts with tokens, in order; each batch fits, a single text that does not is alone. *)
Lemma sub_batches_good c token_lists :
  Forall (good_batch c) (_build_sub_batches token_lists c) ∧
  lists_of (_build_sub_batches token_lists c) = filter (λ l, l ≠ []) token_lists.
Proof.
  unfold _build_sub_batches. set (p0 := {| sub_batches := []; current_batch := []; current_tokens := 0 |}).
  assert (packed_well c p0 []) as H0 by (split_and!; try done; cbn; lia).
  pose proof (packs_well c token_lists p0 [] H0) as Hw. cbn [app] in Hw.
  set (p := foldl _ _ _) in *. clearbody p. case_bool_decide as Hc.
  - destruct Hw as (Hg & _ & _ & _ & Hl). split; [done|]. by rewrite Hc, app_nil_r in Hl.
  - apply flush_well in Hw as (Hg & _ & _ & _ & Hl); [|done]. split; [done|]. cbn in Hl. by rewrite app_nil_r in Hl.
Qed.

(** ** Caches *)

Section proofs.
Context {rt : Runtime} {laws : RuntimeLaws rt}.
Implicit Types (c : Cache) (ids : list Z).

Lemma adds_lookup c ids i : seqs (foldl kv_state_add_sequence c ids) !! i = if decide (i ∈ ids) then Some [] else seqs c !! i.
Proof.
  revert c. induction ids as [|j ids IH]; intros c; cbn [foldl]; [done|]. rewrite IH, seqs_add.
  destruct (decide (i = j)) as [->|Hne].
  - rewrite lookup_insert_eq. rewrite (decide_True (P := j ∈ j :: ids)) by (by left). by destruct (decide _).
  - rewrite lookup_insert_ne by done. destruct (decide (i ∈ ids)).
    + rewrite decide_True by (by right). done.
    + rewrite decide_False; [done|]. by rewrite elem_of_cons; intros [?|?].
Qed.
Lemma adds_limits c ids : limits_of (foldl kv_state_add_sequence c ids) = limits_of c.
Proof. revert c. induction ids as [|j ids IH]; intros c; cbn [foldl]; [done|]. by rewrite IH, limits_add. Qed.
Lemma removes_lookup c ids i : seqs (foldl kv_state_remove_sequence c ids) !! i = if decide (i ∈ ids) then None else seqs c !! i.
Proof.
  revert c. induction ids as [|j ids IH]; intros c; cbn [foldl]; [done|]. rewrite IH, seqs_remove.
  destruct (decide (i = j)) as [->|Hne].
  - rewrite lookup_delete_eq. rewrite (decide_True (P := j ∈ j :: ids)) by (by left). by destruct (decide _).
  - rewrite lookup_delete_ne by done. destruct (decide (i ∈ ids)).
    + rewrite decide_True by (by right). done.
    + rewrite decide_False; [done|]. by rewrite elem_of_cons; intros [?|?].
Qed.
Lemma extended_other m l ts i : i ∉ l.*1 → extended m l ts !! i = m !! i.
Proof.
  revert m ts. induction l as [|[s n] l IH]; intros m ts Hi; [done|]. cbn in *. apply not_elem_of_cons in Hi as [Hne Hi].
  rewrite IH by done. by apply lookup_insert_ne.
Qed.
(** New sequences are empty. *)
Lemma fresh_seqs c ids : seqs c = ∅ → NoDup ids →
  size (seqs (foldl kv_state_add_sequence c ids)) = length ids ∧ cached (seqs (foldl kv_state_add_sequence c ids)) = 0.
Proof.
  intros Hc Hd. assert (seqs (foldl kv_state_add_sequence c ids) = list_to_map ((λ i, (i, [])) <$> ids)) as ->.
  { apply map_eq. intros i. rewrite adds_lookup, Hc, lookup_empty. symmetry. destruct (decide (i ∈ ids)) as [Hi|Hi].
    - apply elem_of_list_to_map.
      + rewrite <-list_fmap_compose. cbn. by rewrite list_fmap_id.
      + apply list_elem_of_fmap. by exists i.
    - apply not_elem_of_list_to_map. rewrite <-list_fmap_compose. cbn. by rewrite list_fmap_id. }
  assert (NoDup ((λ i : Z, (i, [] : list Z)) <$> ids).*1) as Hd' by (rewrite <-list_fmap_compose; cbn; by rewrite list_fmap_id).
  split.
  - rewrite map_size_list_to_map by done. by rewrite length_fmap.
  - unfold cached. rewrite (zsum_perm _ (zlen <$> ((λ i : Z, (i, [] : list Z)) <$> ids).*2)).
    + apply zsum_zero. rewrite !Forall_fmap. by apply Forall_true.
    + by rewrite map_to_list_to_map.
Qed.

(** ** One forward pass for many texts *)

(** The hidden states of a text on its own. *)
Definition rows (t : list Z) : list Vec := (λ j, state_after (take (S j) t)) <$> seq 0 (length t).
Lemma rows_last t : t ≠ [] → ∃ r, rows t = r ++ [state_after t] ∧ length r = (length t - 1)%nat.
Proof.
  intros Ht. assert (∃ n, length t = S n) as [n Hn] by (destruct t as [|a k]; [done|by exists (length k)]).
  exists ((λ j, state_after (take (S j) t)) <$> seq 0 n). unfold rows. rewrite Hn, seq_S, fmap_app. cbn [fmap list_fmap].
  rewrite Nat.add_0_l, take_ge by lia. split; [done|]. rewrite length_fmap, length_seq. lia.
Qed.
Lemma states_fresh m ids ts : length ids = length ts → (∀ i, i ∈ ids → m !! i = Some []) →
  states state_after m (zip ids (zlen <$> ts)) (concat ts) = concat (rows <$> ts).
Proof.
  revert ids. induction ts as [|t ts IH]; intros [|i ids] Hlen Hm; try done. cbn [zip zip_with fmap list_fmap states concat].
  rewrite (Hm i) by (by left). cbn [default]. unfold zlen at 1 3. rewrite Nat2Z.id, drop_app_length.
  rewrite IH; [|by injection Hlen|intros j Hj; apply Hm; by right]. f_equal.
  unfold rows. apply list_fmap_ext. intros k x Hx. apply lookup_seq in Hx as [-> Hk]. cbn [app].
  rewrite take_app_le by lia. done.
Qed.
Lemma fold_last_states self ts hidden pre rest embs :
  hidden = pre ++ concat (rows <$> ts) ++ rest → Forall (λ t, t ≠ []) ts →
  fold_m (last_states self hidden) (embs, zlen pre) ts =
    Ok (embs ++ ((λ t, normalized self (state_after t)) <$> ts), zlen pre + zsum (zlen <$> ts)).
Proof.
  revert pre embs. induction ts as [|t ts IH]; intros pre embs Hh Hne.
  { cbn. unfold zsum. cbn. by rewrite app_nil_r, Z.add_0_r. }
  inversion Hne as [|? ? Ht Hts]; subst x l. cbn [fold_m].
  destruct (rows_last t Ht) as (r & Hr & Hlr). pose proof (proj1 (zlen_pos t) Ht).
  assert (last_states self hidden (embs, zlen pre) t = Ok (embs ++ [normalized self (state_after t)], zlen pre + zlen t)) as ->.
  { unfold last_states. cbn [fst snd]. replace (zlen pre + zlen t - 1) with (zlen (pre ++ r)) by (unfold zlen; rewrite length_app; unfold zlen in *; lia).
    rewrite Hh. cbn [fmap list_fmap concat]. rewrite Hr, <-!app_assoc, (app_assoc pre r). cbn [app]. by rewrite py_row_at. }
  cbn [mbind result_bind]. replace (zlen pre + zlen t) with (zlen (pre ++ rows t)).
  - rewrite (IH (pre ++ rows t)); [|rewrite Hh; cbn [fmap list_fmap concat]; by rewrite <-!app_assoc|done]. cbn [fmap list_fmap]. rewrite <-app_assoc. f_equal. f_equal.
    rewrite Hr. unfold zlen, zsum. cbn [foldr]. rewrite !length_app. cbn. unfold zlen in *. lia.
  - unfold zlen. rewrite length_app, Hr, length_app. cbn. unfold zlen in *. lia.
Qed.
Lemma batch_embed_ok self ts total max_seq_len prefill_chunk sliding caches :
  Forall (λ t, t ≠ []) ts → total = zsum (zlen <$> ts) → total ≤ prefill_chunk → total ≤ max_seq_len →
  ∃ c, _batch_embed_decoder self ts total max_seq_len prefill_chunk sliding caches =
      (caches ++ [c], Ok ((λ t, normalized self (state_after t)) <$> ts, total)) ∧ seqs c = ∅.
Proof.
  intros Hne Htot Hc Hm. unfold _batch_embed_decoder. set (ids := seqZ 0 (zlen ts)).
  set (c0 := foldl _ (create_kv_cache _ _ _ _ _) ids). set (c1 := kv_state_begin_forward c0 ids (zlen <$> ts)).
  assert (length ids = length ts) as Hids by (subst ids; rewrite length_seqZ; unfold zlen; lia).
  assert (begun c1 = zip ids (zlen <$> ts)) as Hb by (subst c1; apply begun_begin; by rewrite length_fmap).
  assert ((begun c1).*1 = ids) as Hb1 by (rewrite Hb; apply fst_zip; rewrite length_fmap; lia).
  assert ((begun c1).*2 = zlen <$> ts) as Hb2 by (rewrite Hb; apply snd_zip; rewrite length_fmap; lia).
  assert (NoDup ids) as Hnd by apply NoDup_seqZ.
  assert (∀ i, i ∈ ids → seqs c1 !! i = Some []) as Hnew.
  { intros i Hi. subst c1 c0. rewrite seqs_begin, adds_lookup. by rewrite decide_True. }
  destruct (fresh_seqs (create_kv_cache (zlen ts) max_seq_len prefill_chunk 16 sliding) ids (seqs_create _ _ _ _ _) Hnd) as [Hsize Hcached].
  fold c0 in Hsize, Hcached. rewrite zsum_concat in Htot. subst total.
  pose proof (batch_prefill_law c1 (concat ts)) as Hlaw. destruct (batch_prefill_to_hidden_func _ c1) as [hs c2] eqn:E.
  destruct Hlaw as (Hhs & Hseqs & _).
  { by rewrite Hb1. }
  { apply list.Forall_forall. intros [i n] Hin. split.
    - rewrite Hnew; [done|]. rewrite <-Hb1. apply list_elem_of_fmap. by exists (i, n).
    - assert (n ∈ zlen <$> ts) as (t & -> & Ht)%list_elem_of_fmap by (rewrite <-Hb2; apply list_elem_of_fmap; by exists (i, n)).
      cbn. apply zlen_pos. rewrite list.Forall_forall in Hne. by apply Hne. }
  { rewrite Hb2. apply zsum_concat. }
  { subst c1. rewrite seqs_begin, limits_begin. unfold c0 at 1. rewrite adds_limits, limits_create.
    split_and!; cbn [max_batch max_total max_chunk]; [rewrite Hsize; unfold zlen; lia|lia|lia]. }
  unfold mbind, stM_bind, st_modify, st_lift. eexists. split.
  - pose proof (fold_last_states self ts hs [] [] []) as Hfold. change (zlen []) with 0 in Hfold.
    rewrite Hfold; [reflexivity| |done]. cbn [app]. rewrite app_nil_r, Hhs, Hb. by apply states_fresh.
  - apply map_eq. intros i. rewrite lookup_empty, removes_lookup, seqs_end, Hseqs. destruct (decide (i ∈ ids)) as [Hi|Hi]; [done|].
    rewrite extended_other by (by rewrite Hb1). subst c1 c0. rewrite seqs_begin, adds_lookup, decide_False by done. by rewrite seqs_create.
Qed.

(** ** One text in chunks *)

(** After [k] tokens of the text. *)
Definition after_tokens (k : limits) (t : list Z) (n : nat) (s : option (list Vec) * Cache) : Prop :=
  seqs s.2 = {[0 := take n t]} ∧ limits_of s.2 = k ∧
  ((0 < n)%nat → ∃ hs, s.1 = Some hs ∧ py_row hs (-1) = Ok (state_after (take n t))).
Lemma cached_singleton i t : cached {[i := t]} = zlen t.
Proof. unfold cached. rewrite map_to_list_singleton. unfold zsum. cbn. lia. Qed.
Lemma take_take_drop {A} (t : list A) i n : take i t ++ take n (drop i t) = take (i + n) t.
Proof.
  rewrite <-(take_drop i (take (i + n) t)), take_take, skipn_firstn_comm. f_equal; f_equal; lia.
Qed.
Lemma prefill_step_ok k chunk t i s :
  max_batch k = 1 → zlen t ≤ max_total k → chunk = max_chunk k → 0 < chunk → (i < length t)%nat →
  after_tokens k t i s → after_tokens k t (Nat.min (i + Z.to_nat chunk) (length t)) (prefill_step chunk t s (Z.of_nat i)).
Proof.
  intros Hb Ht -> Hpos Hi (Hs & Hl & _). unfold prefill_step. set (j := Nat.min _ _).
  replace (Z.to_nat (Z.min (Z.of_nat i + max_chunk k) (zlen t) - Z.of_nat i)) with (j - i)%nat by (unfold zlen; lia).
  rewrite Nat2Z.id. set (ts := take (j - i) (drop i t)).
  assert (length ts = (j - i)%nat) as Hlen by (subst ts; rewrite length_take, length_drop; lia).
  assert (ts ≠ []) as Hne by (intros ->; cbn in Hlen; lia).
  set (c := kv_state_begin_forward s.2 [0] [zlen ts]).
  assert (seqs c = {[0 := take i t]}) as Hsc by (subst c; by rewrite seqs_begin).
  pose proof (prefill_law c 0 ts) as Hlaw. destruct (prefill_to_hidden_func _ c) as [hs c'].
  destruct Hlaw as (Hhs & Hseqs & Hlim); [subst c; by rewrite begun_begin|rewrite Hsc, lookup_singleton_eq; done|done| |].
  { rewrite Hsc. subst c. rewrite limits_begin, Hl. split_and!.
    - rewrite map_size_singleton. lia.
    - rewrite cached_singleton. unfold zlen in *. rewrite length_take. lia.
    - unfold zlen. lia. }
  unfold after_tokens. cbn [fst snd]. rewrite seqs_end, limits_end, Hlim. subst c. rewrite limits_begin.
  assert (take i t ++ ts = take j t) as Hj by (subst ts; rewrite take_take_drop; f_equal; lia).
  split_and!; [|done|].
  - rewrite Hseqs, Hsc. cbn [extended]. rewrite lookup_singleton_eq. rewrite insert_singleton_eq.
    unfold zlen. rewrite Nat2Z.id, (take_ge ts) by done. cbn [default from_option]. unfold id. by rewrite Hj.
  - intros _. exists hs. split; [done|]. rewrite Hhs, Hsc. cbn [states]. rewrite app_nil_r, lookup_singleton_eq.
    unfold zlen. rewrite Nat2Z.id. destruct (length ts) as [|n] eqn:En; [lia|].
    rewrite seq_S, fmap_app. cbn [fmap list_fmap]. rewrite py_row_last, Nat.add_0_l, (take_ge ts) by lia.
    cbn [default from_option]. unfold id. by rewrite Hj.
Qed.
Lemma prefill_steps_ok k chunk t n s :
  max_batch k = 1 → zlen t ≤ max_total k → chunk = max_chunk k → 0 < chunk →
  (∀ i, (i < n)%nat → Z.of_nat i * chunk < zlen t) →
  after_tokens k t 0 s →
  after_tokens k t (Nat.min (n * Z.to_nat chunk) (length t)) (foldl (prefill_step chunk t) s ((λ i, 0 + Z.of_nat i * chunk) <$> seq 0 n)).
Proof.
  intros Hb Ht Hc Hpos Hn H0. induction n as [|n IH]; [done|]. rewrite seq_S, fmap_app, foldl_app. cbn [fmap list_fmap foldl].
  specialize (IH ltac:(intros i Hi; apply Hn; lia)). pose proof (Hn n ltac:(lia)) as Hin. unfold zlen in Hin.
  assert ((n * Z.to_nat chunk < length t)%nat) as Hlt by nia.
  rewrite Nat.min_l in IH by lia. replace (0 + Z.of_nat (0 + n) * chunk) with (Z.of_nat (n * Z.to_nat chunk)) by nia.
  replace (S n * Z.to_nat chunk)%nat with (n * Z.to_nat chunk + Z.to_nat chunk)%nat by lia.
  by apply prefill_step_ok.
Qed.
Lemma embed_sequence_ok self max_seq_len prefill_chunk sliding s t caches :
  t ≠ [] → 0 < prefill_chunk → zlen t ≤ max_seq_len →
  ∃ c h, embed_sequence self max_seq_len prefill_chunk sliding s t caches =
    (caches ++ [c], Ok (s.1 ++ [normalized self (state_after t)], h)) ∧ seqs c = ∅.
Proof.
  intros Ht Hc Hm. unfold embed_sequence. rewrite bool_decide_false by done. unfold py_range. cbn [as_int].
  rewrite (proj2 (Z.eqb_neq _ _)) by lia. rewrite (proj2 (Z.ltb_lt _ _)) by lia. cbn zeta.
  set (n := Z.to_nat ((zlen t - 0 + prefill_chunk - 1) / prefill_chunk)).
  set (c0 := kv_state_add_sequence _ 0). set (k := {| max_batch := 1; max_total := max_seq_len; max_chunk := prefill_chunk |}).
  pose proof (proj1 (zlen_pos t) Ht) as Hpos.
  pose proof (Z.div_mod (zlen t - 0 + prefill_chunk - 1) prefill_chunk ltac:(lia)) as Hdiv.
  pose proof (Z.mod_pos_bound (zlen t - 0 + prefill_chunk - 1) prefill_chunk Hc) as Hmod.
  assert (0 < (zlen t - 0 + prefill_chunk - 1) / prefill_chunk) by (apply Z.div_str_pos; lia).
  destruct (prefill_steps_ok k prefill_chunk t n (s.2, c0)) as (Hs & _ & Hh); [done..| | |].
  { intros i Hi. subst n. nia. }
  { subst c0. split_and!; cbn [snd]; [rewrite seqs_add, seqs_create; by rewrite insert_empty|by rewrite limits_add, limits_create|lia]. }
  rewrite Nat.min_r in Hs, Hh by (subst n; unfold zlen in *; nia).
  rewrite take_ge in Hs, Hh by done. destruct Hh as (hs & Eh & Hrow); [unfold zlen in Hpos; lia|].
  unfold mbind, stM_bind, st_lift, st_modify. destruct (foldl _ _ _) as [h c]. cbn [fst snd] in *. subst h. rewrite Hrow.
  eexists _, _. split; [reflexivity|]. rewrite seqs_remove, Hs. apply delete_singleton_eq.
Qed.

(** ** All inputs *)

Lemma embed_batches_ok self max_seq_len prefill_chunk sliding bs embs caches :
  0 < prefill_chunk ≤ max_seq_len → Forall (good_batch prefill_chunk) bs → Forall (λ t, zlen t ≤ max_seq_len) (lists_of bs) →
  ∃ cs, embed_batches self max_seq_len prefill_chunk sliding bs embs caches =
    (caches ++ cs, Ok (embs ++ ((λ t, normalized self (state_after t)) <$> lists_of bs))) ∧ Forall (λ c, seqs c = ∅) cs.
Proof.
  intros Hc Hg. revert embs caches. induction Hg as [|[[ty ts] total] bs Hb Hg IH]; intros embs caches Hm.
  { exists []. cbn. by rewrite !app_nil_r. }
  change (lists_of ((ty, ts, total) :: bs)) with (ts ++ lists_of bs) in *. apply Forall_app in Hm as [Hm1 Hm2].
  cbn [embed_batches]. destruct Hb as (Hne & Htot & Hty).
  assert (∃ c, (match ty with
      | batch => _batch_embed_decoder self ts total max_seq_len prefill_chunk sliding
      | sequential => _sequential_embed_decoder self ts total max_seq_len prefill_chunk sliding
      end) caches = (caches ++ [c], Ok ((λ t, normalized self (state_after t)) <$> ts, total)) ∧ seqs c = ∅) as (c & Hrun & Hempty).
  { destruct ty.
    - destruct Hty as [_ Hle]. apply batch_embed_ok; [done..|lia|lia].
    - destruct Hty as (t & -> & _). apply Forall_cons_1 in Hm1 as [Ht _]. apply Forall_cons_1 in Hne as [Hnt _].
      unfold _sequential_embed_decoder. cbn [embed_sequences].
      destruct (embed_sequence_ok self max_seq_len prefill_chunk sliding ([], None) t caches) as (c & h & H & He); [done|lia|done|].
      exists c. split; [|done]. unfold mbind, stM_bind. rewrite H. done. }
  unfold mbind at 1, stM_bind at 1. rewrite Hrun. destruct (IH (embs ++ ((λ t, normalized self (state_after t)) <$> ts)) (caches ++ [c]) Hm2) as (cs & Hrest & Hcs).
  exists (c :: cs). rewrite Hrest, fmap_app, <-!app_assoc. split; [done|by constructor].
Qed.
Lemma decoder_tokens_short self max_seq_len text : 0 < max_seq_len → zlen (decoder_tokens self max_seq_len text) ≤ max_seq_len.
Proof.
  intros Hm. unfold decoder_tokens. cbv zeta. generalize (with_eos self (encode text)) as ts. intros ts.
  destruct (zlen ts >? max_seq_len) eqn:E; [|lia]. unfold py_take. rewrite (proj2 (Z.ltb_ge _ _)) by lia.
  unfold zlen. rewrite length_take. lia.
Qed.

(** C28. A decoder's embeddings: whether the inputs go through the model in one batch, in several, or a
    long one in chunks of a cache of its own, the engine stays within the limits of every cache it
    makes and leaves none of its sequences in it, and the embeddings are, in the order of the inputs, those of
    the texts that have tokens: the hidden state after all tokens of that text alone, normalized if the
    model says so; the tokens counted are those of all inputs. *)
Theorem embed_decoder_spec self inputs caches :
  let prefill_chunk := meta self "prefill_chunk_size" 2048 in
  let token_lists := decoder_tokens self (max_seq_len_of self) <$> inputs in
  is_encoder self = false → 0 < prefill_chunk ≤ max_seq_len_of self →
  ∃ cs, embed self inputs caches =
    (caches ++ cs, Ok ((λ t, normalized self (state_after t)) <$> filter (λ t, t ≠ []) token_lists,
                       zsum (zlen <$> token_lists))) ∧ Forall (λ c, seqs c = ∅) cs.
Proof.
  intros prefill_chunk token_lists He Hc. unfold embed. rewrite He. unfold _embed_decoder. fold prefill_chunk.
  rewrite (proj2 (Z.ltb_lt 0 (max_seq_len_of self))) by lia. cbn [py_assert]. unfold mbind at 1, stM_bind at 1, st_lift at 1.
  fold token_lists. set (sliding := if _ =? -1 then 0 else 1).
  assert (Forall (λ t, zlen t ≤ max_seq_len_of self) token_lists) as Hshort.
  { subst token_lists. apply Forall_fmap, list.Forall_forall. intros t _. apply decoder_tokens_short. lia. }
  destruct (_ && _) eqn:E.
  - apply andb_true_iff in E as [Hle%Z.leb_le Hall].
    assert (Forall (λ t, t ≠ []) token_lists) as Hne.
    { apply list.Forall_forall. intros t Ht. rewrite forallb_forall in Hall. apply zlen_pos. apply Z.ltb_lt, Hall. by apply list_elem_of_In. }
    destruct (batch_embed_ok self token_lists (zsum (zlen <$> token_lists)) (max_seq_len_of self) prefill_chunk sliding caches) as (c & H & Hs);
      [done..|lia|]. exists [c]. rewrite H. split; [|by constructor]. rewrite filter_all; [done|]. by apply list.Forall_forall.
  - destruct (sub_batches_good prefill_chunk token_lists) as [Hg Hl].
    destruct (embed_batches_ok self (max_seq_len_of self) prefill_chunk sliding (_build_sub_batches token_lists prefill_chunk) [] caches) as (cs & H & Hs);
      [done|done| |].
    { rewrite Hl. apply list.Forall_forall. intros t [_ Ht]%list_elem_of_filter. rewrite list.Forall_forall in Hshort. by apply Hshort. }
    exists cs. unfold mbind, stM_bind. rewrite H, Hl. done.
Qed.
End proofs.

(** ** Encoders *)

Section encoder.
Context {rt : Runtime}.
(** A long text is cut; the first token is the class token and the last the separator, where the
    model has them. *)
Lemma encoder_tokens_ok self chunk text : 2 ≤ chunk →
  ∃ ts, encoder_tokens self chunk text = Ok ts ∧ zlen ts ≤ chunk ∧
    (∀ cls, _cls_token_id self = Some cls → head ts = Some cls) ∧
    (∀ sep, _sep_token_id self = Some sep → list.last ts = Some sep).
Proof.
  intros Hc. unfold encoder_tokens. cbv zeta.
  assert (∀ cls, _cls_token_id self = Some cls → head (with_cls self (encode text)) = Some cls) as H1.
  { intros cls E. unfold with_cls. rewrite E. by case_bool_decide. }
  generalize dependent (with_cls self (encode text)). intros t1 H1.
  assert (∀ cls, _cls_token_id self = Some cls → head (with_sep self t1) = Some cls) as H2.
  { intros cls E. specialize (H1 _ E). unfold with_sep. destruct (_sep_token_id self); [|done]. case_bool_decide; [done|by destruct t1]. }
  assert (∀ sep, _sep_token_id self = Some sep → list.last (with_sep self t1) = Some sep) as H3.
  { intros sep E. unfold with_sep. rewrite E. case_bool_decide; [done|by rewrite last_snoc]. }
  generalize dependent (with_sep self t1). intros t2 H2 H3.
  destruct (zlen t2 >? chunk) eqn:Hlen; [|exists t2; split_and!; try done; lia].
  assert (length (py_take chunk t2) = Z.to_nat chunk ∧ ∀ cls, _cls_token_id self = Some cls → head (py_take chunk t2) = Some cls) as [Hl H4].
  { unfold py_take, zlen in *. rewrite (proj2 (Z.ltb_ge _ _)) by lia. split; [rewrite length_take; lia|].
    intros cls E. specialize (H2 _ E). destruct t2; [done|]. by destruct (Z.to_nat chunk) eqn:En; [lia|]. }
  generalize dependent (py_take chunk t2). intros t3 Hl H4.
  destruct (_sep_token_id self) as [sep|]; [|exists t3; split_and!; try done; unfold zlen; lia].
  unfold py_setitem. rewrite decide_True by lia. destruct t3 as [|x l _] using rev_ind; [cbn in Hl; lia|].
  rewrite length_app in *. cbn [length] in *. exists (l ++ [sep]).
  replace (length l + 1 - 1)%nat with (length l + 0)%nat by lia. rewrite insert_app_r. cbn. split_and!; [done| | |].
  - unfold zlen. rewrite length_app. cbn. lia.
  - intros cls E. specialize (H4 _ E). destruct l; [cbn in Hl; lia|done].
  - intros sep' [= <-]. by rewrite last_snoc.
Qed.
(** What an encoder promises: one row per token. *)
Definition one_row_per_token : Prop := ∀ ts mask, length (prefill_func ts mask) = length ts.
(** What is pooled of a text. *)
Definition pooled_of (self : EmbeddingEngine) (ts : list Z) : option Vec :=
  let output := prefill_func ts (replicate (length ts) 1) in
  if bool_decide (pooling_strategy self = "cls") then head output
  else if bool_decide (pooling_strategy self = "mean") then Some (mean output)
  else list.last output.
Lemma pool_ok self ts : one_row_per_token → ts ≠ [] →
  ∃ v, pool self (prefill_func ts (replicate (length ts) 1)) = Ok v ∧ pooled_of self ts = Some v.
Proof.
  intros Hrow Hne. unfold pool, pooled_of. pose proof (Hrow ts (replicate (length ts) 1)) as Hl.
  set (out := prefill_func _ _) in *. clearbody out.
  assert (out ≠ []) as Ho by (intros ->; by destruct ts).
  case_bool_decide; [destruct out as [|v out]; [done|by exists v]|]. case_bool_decide; [by eexists|].
  destruct out as [|v out _] using rev_ind; [done|]. exists v. by rewrite py_row_last, last_snoc.
Qed.
(** An encoder with a class token or a separator embeds every text, even an empty one, by itself and in
    order: from tokens within the chunk, which begin with the class token and end with the
    separator, it pools the row its strategy names. *)
Theorem embed_encoder_spec self inputs caches :
  is_encoder self = true → one_row_per_token → 2 ≤ meta self "prefill_chunk_size" 512 →
  is_Some (_cls_token_id self) ∨ is_Some (_sep_token_id self) →
  ∃ tss vs, embed self inputs caches = (caches, Ok (normalized self <$> vs, zsum (zlen <$> tss))) ∧
    Forall2 (λ text ts, encoder_tokens self (meta self "prefill_chunk_size" 512) text = Ok ts ∧
      zlen ts ≤ meta self "prefill_chunk_size" 512 ∧
      (∀ cls, _cls_token_id self = Some cls → head ts = Some cls) ∧
      (∀ sep, _sep_token_id self = Some sep → list.last ts = Some sep)) inputs tss ∧
    Forall2 (λ ts v, pooled_of self ts = Some v) tss vs.
Proof.
  intros He Hrow Hc Hspecial. unfold embed. rewrite He. unfold st_lift, _embed_encoder.
  assert (∀ embs n, ∃ tss vs, fold_m (encode_one self) (embs, n) inputs = Ok (embs ++ (normalized self <$> vs), n + zsum (zlen <$> tss)) ∧
    Forall2 (λ text ts, encoder_tokens self (meta self "prefill_chunk_size" 512) text = Ok ts ∧
      zlen ts ≤ meta self "prefill_chunk_size" 512 ∧
      (∀ cls, _cls_token_id self = Some cls → head ts = Some cls) ∧
      (∀ sep, _sep_token_id self = Some sep → list.last ts = Some sep)) inputs tss ∧
    Forall2 (λ ts v, pooled_of self ts = Some v) tss vs) as H.
  { induction inputs as [|text inputs IH]; intros embs n.
    { exists [], []. cbn. unfold zsum. cbn. rewrite app_nil_r, Z.add_0_r. split_and!; constructor. }
    destruct (encoder_tokens_ok self _ text Hc) as (ts & Hts & Hlen & Hcls & Hsep).
    assert (ts ≠ []) as Hne by (intros ->; destruct Hspecial as [[x Hx]|[x Hx]]; [by specialize (Hcls x Hx)|by specialize (Hsep x Hx)]).
    destruct (pool_ok self ts Hrow Hne) as (v & Hv & Hp).
    destruct (IH (embs ++ [normalized self v]) (n + zlen ts)) as (tss & vs & Hf & H1 & H2).
    exists (ts :: tss), (v :: vs). cbn [fold_m].
    assert (encode_one self (embs, n) text = Ok (embs ++ [normalized self v], n + zlen ts)) as ->.
    { unfold encode_one. rewrite Hts. cbn [mbind result_bind]. by rewrite Hv. }
    cbn [mbind result_bind]. rewrite Hf. cbn [fmap list_fmap]. rewrite <-app_assoc. unfold zsum. cbn [foldr]. rewrite Z.add_assoc. split_and!; [done|by constructor..]. }
  destruct (H [] 0) as (tss & vs & Hf & H1 & H2). exists tss, vs. rewrite Hf. by split_and!.
Qed.
End encoder.

(** ** Examples *)

Module Example.
(** A model whose hidden state after some tokens is these tokens: the cache keeps the tokens of every
    sequence. *)
Record toy_cache := { toy_seqs : gmap Z (list Z); toy_begun : list (Z * Z); toy_limits : limits }.
Definition set_seqs (f : gmap Z (list Z) → gmap Z (list Z)) (c : toy_cache) : toy_cache :=
  {| toy_seqs := f (toy_seqs c); toy_begun := toy_begun c; toy_limits := toy_limits c |}.
Definition toy_encode (s : string) : list Z := (λ c, Z.of_nat (Ascii.nat_of_ascii c)) <$> String.list_ascii_of_string s.
Definition toy : Runtime := {|
  Emb := list Z; Vec := list Z; Num := Z; Cache := toy_cache;
  encode := toy_encode; prefill_func ts _ := (λ t, [t]) <$> ts; embed_func ts := ts; nd_reshape e _ := e;
  create_kv_cache b t c _ _ := {| toy_seqs := ∅; toy_begun := []; toy_limits := {| max_batch := b; max_total := t; max_chunk := c |} |};
  kv_state_add_sequence c s := set_seqs (insert s []) c; kv_state_remove_sequence c s := set_seqs (delete s) c;
  kv_state_begin_forward c ids lens := {| toy_seqs := toy_seqs c; toy_begun := zip ids lens; toy_limits := toy_limits c |};
  kv_state_end_forward c := c;
  batch_prefill_to_hidden_func ts c :=
    (states id (toy_seqs c) (toy_begun c) ts,
     set_seqs (λ m, extended m (toy_begun c) ts) c);
  prefill_to_hidden_func ts c :=
    (states id (toy_seqs c) (toy_begun c) ts,
     set_seqs (λ m, extended m (toy_begun c) ts) c);
  mean vs := concat vs; float32 v := v; norm _ := 0; above_eps _ := false; divide v _ := v |}.
#[local] Instance toy_laws : RuntimeLaws toy.
Proof.
  refine {| state_after := id : list Z → @Vec toy; seqs := toy_seqs : @Cache toy → _; begun := toy_begun : @Cache toy → _;
    limits_of := toy_limits : @Cache toy → _ |}; try done.
  intros c s ts Hb _ _ _. cbn. cbn in Hb. rewrite Hb. done.
Defined.
(** A decoder with context window [w] and chunks of [k] tokens, whose end of sequence is 0 if it is known. *)
Definition toy_engine (w k : Z) (eos : option Z) : EmbeddingEngine := {|
  is_encoder := false; pooling_strategy := "last"; normalize := true; _cls_token_id := None; _sep_token_id := None;
  _decoder_tokenizer_appends_eos := false; _decoder_eos_token_id := eos;
  _metadata := [("context_window_size", PInt w); ("prefill_chunk_size", PInt k)]; _terminated := false |}.
Definition embeddings (e : EmbeddingEngine) (inputs : list string) : option (list (list Z)) :=
  match (embed (rt := toy) e inputs []).2 with Ok (vs, _) => Some vs | Err _ => None end.
(** One batch, two batches, chunks: the same embeddings. *)
Example same_embeddings :
  embeddings (toy_engine 16 8 None) ["ab"; "c"; "de"] = Some [[97; 98]; [99]; [100; 101]] ∧
  embeddings (toy_engine 16 4 None) ["ab"; "c"; "de"] = Some [[97; 98]; [99]; [100; 101]] ∧
  embeddings (toy_engine 16 1 None) ["ab"; "c"; "de"] = Some [[97; 98]; [99]; [100; 101]].
Proof. vm_compute. done. Qed.
(** A text without tokens gets no embedding when the model has no end of sequence: the embeddings of the
    texts after it are those of other inputs. And a text that is cut loses its end of sequence, at which
    the model is meant to be read. *)
Theorem inputs_dropped :
  embeddings (toy_engine 16 8 None) ["ab"; ""; "c"] = Some [[97; 98]; [99]] ∧
  embeddings (toy_engine 2 2 (Some 0)) ["abc"; "d"] = Some [[97; 98]; [100; 0]].
Proof. vm_compute. done. Qed.
Lemma embed_decoder_spec_witness : ∃ cs, embed (rt := toy) (toy_engine 16 4 (Some 0)) ["ab"; "c"; "defgh"] [] =
  (cs, Ok ([[97; 98; 0]; [99; 0]; [100; 101; 102; 103; 104; 0]], 11)) ∧ Forall (λ c, toy_seqs c = ∅) cs.
Proof.
  destruct (embed_decoder_spec (rt := toy) (toy_engine 16 4 (Some 0)) ["ab"; "c"; "defgh"] []) as (cs & H & Hs); [done|split; done|].
  exists cs. split; [|exact Hs]. rewrite H. vm_compute. reflexivity.
Defined.
(** An encoder with class token 1 and separator 2. *)
Definition toy_encoder : EmbeddingEngine := {|
  is_encoder := true; pooling_strategy := "cls"; normalize := true; _cls_token_id := Some 1; _sep_token_id := Some 2;
  _decoder_tokenizer_appends_eos := false; _decoder_eos_token_id := None;
  _metadata := [("prefill_chunk_size", PInt 4)]; _terminated := false |}.
Lemma embed_encoder_spec_witness : ∃ tss vs,
  embed (rt := toy) toy_encoder ["abcd"; ""] [] = ([], Ok (normalized toy_encoder <$> vs, zsum (zlen <$> (tss : list (list Z))))) ∧ length tss = 2%nat.
Proof.
  destruct (embed_encoder_spec (rt := toy) toy_encoder ["abcd"; ""] []) as (tss & vs & H & H1 & _);
    [done|intros ts mask; apply length_fmap|done|left; by eexists|].
  exists tss, vs. split; [exact H|]. by apply Forall2_length in H1.
Defined.
End Example.
