(* ===== verification/Entrypoints.v ===== *)
(** The HTTP server: [ServerContext] of [python/mlc_llm/serve/server/server_context.py], the
    entry points of [serve/entrypoints/] with [protocol/error_protocol.py] and
    [protocol/microserving_protocol.py], and how [interface/serve.py] puts them together.

    An engine is an object with a generator; the engines of a server have numbers, and
    each has a world of its own. FastAPI is the environment: it answers whether the client of a
    request is still there, and runs the stream of a response. *)

From Stdlib Require Import Lia ZArith.
From stdpp Require Import base gmap strings list.
From S2P Require Import Prelude PyString Conversation OpenAIProtocol EngineUtils StreamBase EngineBase Engine Embedding.

(** ** The server context *)

(** Engines are named by numbers. *)
Record ServerContext := {
  _models : list (string * nat);
  _embedding_engines : list (string * nat);
  api_key : option string;
  enable_debug : bool;
}.
Definition new_context : ServerContext :=
  {| _models := []; _embedding_engines := []; api_key := None; enable_debug := false |}.

(** The class variable [server_context], and the engines that were terminated. *)
Record process := { current : option ServerContext; terminated : list nat }.
Definition __enter__ (self : ServerContext) : stM process ServerContext := λ p,
  match current p with
  | Some _ => (p, raise RuntimeError "Server context already exists.")
  | None => ({| current := Some self; terminated := terminated p |}, Ok self)
  end.
(** [__exit__], of the context as it is then. *)
Definition __exit__ (self : ServerContext) : stM process unit :=
  st_modify (λ p, {| current := None; terminated := terminated p ++ (_models self).*2 ++ (_embedding_engines self).*2 |}).
Definition add_model (hosted_model : string) (engine : nat) (self : ServerContext) : result ServerContext :=
  if has_key hosted_model (_models self) then raise RuntimeError ("Model " +:+ hosted_model +:+ " already running.")
  else Ok {| _models := dict_set hosted_model engine (_models self); _embedding_engines := _embedding_engines self;
             api_key := api_key self; enable_debug := enable_debug self |}.
Definition add_embedding_engine (hosted_model : string) (engine : nat) (self : ServerContext) : result ServerContext :=
  if has_key hosted_model (_embedding_engines self)
  then raise RuntimeError ("Embedding model " +:+ hosted_model +:+ " already running.")
  else Ok {| _models := _models self; _embedding_engines := dict_set hosted_model engine (_embedding_engines self);
             api_key := api_key self; enable_debug := enable_debug self |}.
(** The only engine if there is one, else the one of that name. *)
Definition find_engine (engines : list (string * nat)) (model : option string) : option nat :=
  match engines with
  | [(_, e)] => Some e
  | _ => m ← model; dict_get m engines
  end.
Definition get_engine (self : ServerContext) : option string → option nat := find_engine (_models self).
Definition get_embedding_engine (self : ServerContext) : option string → option nat := find_engine (_embedding_engines self).
Definition get_model_list (self : ServerContext) : list string := (_models self).*1 ++ (_embedding_engines self).*1.

(** [verify_api_key]; the headers are the authorization the request came with. *)
Definition verify_api_key (ctx : option ServerContext) (authorization : option string) : result unit :=
  match ctx with
  | Some c =>
      match api_key c with
      | Some key =>
          let provided_key := replace "Bearer " "" (default "" authorization) in
          raise_when (negb (String.eqb provided_key key)) OtherError "401 Invalid API Key"
      | None => Ok tt
      end
  | None => Ok tt
  end.

(** ** Responses *)

Inductive response :=
  | JSONResponse (status : Z) (message : string)    (* an [ErrorResponse] *)
  | ChatReply (r : ChatResponse)
  | CompletionReply (r : CompletionResponse)
  | StreamingResponse (events : list string) (broken : option exn)    (* what was sent, and how it ended *)
  | PrepRecvReply (prefix_matched_length : Z) (kv_append_metadata : string)
  | EmptyReply.
Definition BAD_REQUEST : Z := 400.
Definition INTERNAL_SERVER_ERROR : Z := 500.
Definition create_error_response (status : Z) (message : string) : response := JSONResponse status message.
(** What FastAPI makes of a handler that raises: [bad_request_error_handler] for a bad request. *)
Definition with_error_handler (r : result response) : result response :=
  match r with
  | Err e => if bool_decide (exn_cls e = BadRequestError) then Ok (create_error_response BAD_REQUEST (exn_msg e)) else Err e
  | Ok r => Ok r
  end.
Definition quoted (s : string) : string := String dquote (s +:+ String dquote "").
Definition not_served (model : option string) : string :=
  "The requested model " +:+ quoted (default "None" model) +:+ " is not served.".
(** [f"data: {json}\n\n"]. *)
Definition sse (data : string) : string := "data: " +:+ data +:+ nl +:+ nl.

Definition set_debug_config (d : option DebugConfig) (r : CompletionRequest) : CompletionRequest :=
  Build_CompletionRequest (c_model r) (c_prompt r) (c_best_of r) (c_echo r) (c_frequency_penalty r)
    (c_presence_penalty r) (c_logprobs r) (c_logit_bias r) (c_max_tokens r) (c_n r) (c_seed r)
    (c_stop r) (c_stream r) (c_stream_options r) (c_suffix r) (c_temperature r) (c_top_p r)
    (c_user r) (c_response_format r) d.
Definition set_stream (stream : bool) (o : option StreamOptions) (r : CompletionRequest) : CompletionRequest :=
  Build_CompletionRequest (c_model r) (c_prompt r) (c_best_of r) (c_echo r) (c_frequency_penalty r)
    (c_presence_penalty r) (c_logprobs r) (c_logit_bias r) (c_max_tokens r) (c_n r) (c_seed r)
    (c_stop r) stream o (c_suffix r) (c_temperature r) (c_top_p r)
    (c_user r) (c_response_format r) (c_debug_config r).
Definition set_chat_debug_config (d : option DebugConfig) (r : ChatCompletionRequest) : ChatCompletionRequest :=
  Build_ChatCompletionRequest (r_messages r) (r_model r) (r_frequency_penalty r) (r_presence_penalty r)
    (r_logprobs r) (r_top_logprobs r) (r_logit_bias r) (r_max_tokens r) (r_n r) (r_seed r) (r_stop r) (r_stream r)
    (r_stream_options r) (r_temperature r) (r_top_p r) (r_tools r) (r_tool_choice r) (r_user r) (r_response_format r) d.

(** The client of a request: whether it is gone when asked before the [k]-th response, and whether the
    [k]-th event of a stream can be sent. *)
Record client := { disconnected : nat → bool; cannot_send : nat → bool }.
Definition client_gone : exn := Exn GeneratorExit "the client has disconnected".
Definition send_failed : exn := Exn CancelledError "the stream was cancelled".

(** The body of [async for response in ...] of a response that does not stream: ask for the client first.
    Leaving the loop early closes the generator. *)
Definition entry_step {R A} (c : client) (add : R → stM A unit) (r : R) : stM (A * nat) unit := λ '(a, k),
  if disconnected c k then ((a, S k), Err client_gone)
  else let '(a', x) := add r a in ((a', S k), x).
(** The body of [completion_stream_generator]: the events sent so far. *)
Definition stream_step {R} (c : client) (json : R → string) (r : R) : stM (list string) unit := λ events,
  if cannot_send c (length events) then (events, Err send_failed) else (events ++ [sse (json r)], Ok tt).
(** The response is only made when the first one was got from the generator; [anext] raises
    [StopAsyncIteration] itself if there is none. *)
Definition stream_reply (c : client) (events : list string) (r : result unit) : result response :=
  match events, r with
  | [], Ok _ => raise OtherError "StopAsyncIteration"
  | [], Err e => if bool_decide (e = send_failed) then Ok (StreamingResponse [] (Some e)) else Err e
  | _, Err e => Ok (StreamingResponse events (Some e))
  | _, Ok _ => Ok (if cannot_send c (length events) then StreamingResponse events (Some send_failed)
                   else StreamingResponse (events ++ [sse "[DONE]"]) None)
  end.

(** ** Chat and text completions *)

Section entrypoints.
Context {T Img : Type} `{TextStreamer T}.
Context (from_url : string → list (string * pyval) → result Img) (embed_size : Img → nat)
  (function_json : ChatFunction → string) (functions_json : list ChatFunction → string)
  (parse_logprob : string → result LogProbsContent)
  (parse_usage : string → result CompletionUsage)
  {Node : Type} (ast_parse : string → result (call_ast Node))
  (literal_eval : string → result pyval) (literal_eval_node : Node → result pyval)
  (new_call_id : nat → nat → string)
  (chat_json : ChatResponse → string) (completion_json : CompletionResponse → string).

(** An engine: its generator, tokenizer, the configuration of its model. *)
Record AsyncEngine := {
  _generate : generator (T:=T) (Img:=Img);
  tokenizer_encode : string → list Z; tokenizer_decode : list Z → string;
  model_config : list (string * pyval); max_input_sequence_length : Z; conv_template : Conversation;
}.
Context (engines : nat → AsyncEngine).
Abbreviation worlds := (nat → World T Img).
(** Run something in the world of an engine. *)
Definition on_engine {A} (i : nat) (m : World T Img → World T Img * A) (ws : worlds) : worlds * A :=
  let '(w, a) := m (ws i) in ((λ j, if decide (j = i) then w else ws j), a).

Definition handle_chat {C} (i : nat) (y : ChatResponse → stM C unit) (request : ChatCompletionRequest)
    (request_id : string) (include_extra : bool) (c : C) (w : World T Img) : World T Img * (C * option (result unit)) :=
  let e := engines i in
  let '(s, r) := _handle_chat_completion from_url embed_size function_json functions_json parse_logprob parse_usage
    (tokenizer_encode e) (model_config e) (max_input_sequence_length e) (conv_template e) (_generate e)
    y request request_id include_extra (w, c) in
  (s.1, (s.2.2, r)).
Definition handle_completion {C} (i : nat) (y : CompletionResponse → stM C unit) (request : CompletionRequest)
    (request_id : string) (include_extra : bool) (c : C) (w : World T Img) : World T Img * (C * option (result unit)) :=
  let e := engines i in
  let '(s, r) := _handle_completion embed_size parse_logprob parse_usage
    (tokenizer_encode e) (tokenizer_decode e) (max_input_sequence_length e) (conv_template e) (_generate e)
    y request request_id include_extra (w, c) in
  (s.1, (s.2.2, r)).

(** One response of a chat: its usage, then its choices. *)
Definition add_chat_response (debug : bool) (r : ChatResponse) : stM ChatAcc unit := λ a,
  let a := match cr_usage r with
    | Some u => mkChatAcc (ca_texts a) (ca_reasons a) (ca_logprobs a) (Some (if debug then u else strip_usage u))
    | None => a
    end in
  st_iter (update_with add_chat_choice) (cr_choices r) a.
(** The response made of what was accumulated. *)
Definition chat_reply (request : ChatCompletionRequest) (request_id : string) (a : ChatAcc) : result ChatResponse :=
  _ ← py_assert (forallb (λ r, bool_decide (is_Some r)) (ca_reasons a))
        "all(finish_reason is not None for finish_reason in finish_reasons)";
  let '(out, r) := process_function_call_output ast_parse literal_eval literal_eval_node
                     new_call_id (ca_texts a) (ca_reasons a) in
  use_function_calling ← r;
  wrap_chat_completion_response request_id (r_model request) (co_texts out)
    (co_reasons out) (co_calls out) (ca_logprobs a) use_function_calling (ca_usage a).
(** The result of the loop: an early return is the error response. *)
Definition loop_result {A} (r : result unit) (a : A) (reply : A → result response) : result response :=
  match r with
  | Ok _ => reply a
  | Err e => if bool_decide (e = client_gone)
             then Ok (create_error_response BAD_REQUEST "The request has disconnected") else Err e
  end.
Definition request_chat_completion (ctx : ServerContext) (uuid : string) (c : client)
    (request : ChatCompletionRequest) (ws : worlds) : worlds * option (result response) :=
  let debug := enable_debug ctx in
  let request := if debug then request else set_chat_debug_config None request in
  match get_engine ctx (r_model request) with
  | None => (ws, Some (Ok (create_error_response BAD_REQUEST (not_served (r_model request)))))
  | Some i =>
      let request_id := default ("chatcmpl-" +:+ uuid) (r_user request) in
      if r_stream request then
        let '(ws, (events, r)) := on_engine i (handle_chat i (stream_step c chat_json) request request_id debug []) ws in
        (ws, stream_reply c events <$> r)
      else
        let start := mkChatAcc (replicate (r_n request) "") (replicate (r_n request) None)
                       (if r_logprobs request then Some (replicate (r_n request) []) else None) None in
        let '(ws, (a, r)) := on_engine i (handle_chat i (entry_step c (add_chat_response debug)) request request_id debug (start, 0%nat)) ws in
        (ws, (λ r, loop_result r a.1 (λ a, ChatReply <$> chat_reply request request_id a)) <$> r)
  end.

(** One response of a completion: the usage alone, or the choices, whose logprobs are joined. *)
Definition join_logprobs (old new : CompletionLogProbs) : CompletionLogProbs := {|
  text_offset := text_offset old; token_logprobs := token_logprobs old ++ token_logprobs new;
  tokens := tokens old ++ tokens new; top_logprobs_list := top_logprobs_list old ++ top_logprobs_list new |}.
Definition add_entry_choice (c : CompletionChoice) (a : CompletionAcc) : result CompletionAcc :=
  texts ← append_text (pa_texts a) (pc_index c) (pc_text c);
  reasons ← set_first_reason (pa_reasons a) (pc_index c) (pc_finish_reason c);
  lps ← match pc_logprobs c with
        | None => Ok (pa_logprobs a)
        | Some l =>
            old ← py_index (pa_logprobs a) (pc_index c);
            py_setitem (pa_logprobs a) (pc_index c) (Some (match old with None => l | Some old => join_logprobs old l end))
        end;
  Ok (mkCompletionAcc texts reasons lps (pa_usage a)).
Definition add_completion_response (debug : bool) (r : CompletionResponse) : stM CompletionAcc unit := λ a,
  match pr_usage r with
  | Some u => (mkCompletionAcc (pa_texts a) (pa_reasons a) (pa_logprobs a) (Some (if debug then u else strip_usage u)), Ok tt)
  | None => st_iter (update_with add_entry_choice) (pr_choices r) a
  end.
Definition request_completion (ctx : ServerContext) (uuid : string) (c : client)
    (request : CompletionRequest) (ws : worlds) : worlds * option (result response) :=
  let debug := enable_debug ctx in
  let request := if debug then request else set_debug_config None request in
  match get_engine ctx (c_model request) with
  | None => (ws, Some (Ok (create_error_response BAD_REQUEST (not_served (c_model request)))))
  | Some i =>
      let request_id := default ("cmpl-" +:+ uuid) (c_user request) in
      if c_stream request then
        let '(ws, (events, r)) := on_engine i (handle_completion i (stream_step c completion_json) request request_id debug []) ws in
        (ws, stream_reply c events <$> r)
      else
        let start := mkCompletionAcc (replicate (c_n request) "") (replicate (c_n request) None)
                       (replicate (c_n request) None) None in
        let '(ws, (a, r)) := on_engine i (handle_completion i (entry_step c (add_completion_response debug)) request request_id debug (start, 0%nat)) ws in
        (ws, (λ r, loop_result r a.1 (λ a, CompletionReply <$>
           wrap_completion_response request_id (c_model request) (pa_texts a) (pa_reasons a) (pa_logprobs a) (pa_usage a))) <$> r)
  end.

(** ** MicroServing

    The requests with their extra fields. *)

Definition set_disagg (d : DisaggConfig) (r : CompletionRequest) : result CompletionRequest :=
  match c_debug_config r with
  | None => raise AttributeError "'NoneType' object has no attribute 'disagg_config'"
  | Some g => Ok (set_debug_config (Some {| ignore_eos := ignore_eos g; pinned_system_prompt := pinned_system_prompt g;
      special_request := special_request g; grammar_execution_mode := grammar_execution_mode g; disagg_config := Some d |}) r)
  end.
(** [PrepRecvResponse(...)] of the usage of a response; pydantic checks the types. *)
Definition prep_recv_reply (r : response) : result response :=
  match r with
  | CompletionReply r =>
      match pr_usage r with
      | None => raise AssertionError "response.usage is not None"
      | Some u =>
          match extra u with
          | None => raise AssertionError "response.usage.extra is not None"
          | Some x =>
              _ ← py_assert (has_key "prefix_matched_length" x) "prefix_matched_length in response.usage.extra";
              _ ← py_assert (has_key "kv_append_metadata" x) "kv_append_metadata in response.usage.extra";
              n ← get_key "prefix_matched_length" x; m ← get_key "kv_append_metadata" x;
              match n, m with
              | PInt n, PStr m => Ok (PrepRecvReply n m)
              | _, _ => raise ValidationError "PrepRecvResponse"
              end
          end
      end
  | _ => raise AttributeError "object has no attribute 'usage'"
  end.
Definition lift_request (ws : worlds) (r : result CompletionRequest)
    (k : CompletionRequest → worlds * option (result response)) : worlds * option (result response) :=
  match r with Ok request => k request | Err e => (ws, Some (Err e)) end.
Definition prep_recv (ctx : ServerContext) (uuid : string) (c : client) (request : CompletionRequest) (end_ : Z) (ws : worlds) :
    worlds * option (result response) :=
  lift_request ws (set_disagg {| kind := Some prepare_receive; kv_append_metadata := None; kv_window_begin := Some 0%Z;
      kv_window_end := Some end_; dst_group_offset := None |} request) (λ request,
    let request := set_stream false (Some {| include_usage := Some true |}) request in
    let '(ws, r) := request_completion ctx uuid c request ws in
    (ws, (λ r, r ← r; prep_recv_reply r) <$> r)).
Definition remote_send (ctx : ServerContext) (uuid : string) (c : client) (request : CompletionRequest)
    (begin end_ : Z) (kv_addr_info : string) (recv_rank : Z) (ws : worlds) : worlds * option (result response) :=
  lift_request ws (set_disagg {| kind := Some OpenAIProtocol.remote_send; kv_append_metadata := Some kv_addr_info;
      kv_window_begin := Some begin; kv_window_end := Some end_; dst_group_offset := Some recv_rank |} request) (λ request,
    let request := set_stream false (Some {| include_usage := Some true |}) request in
    let '(ws, r) := request_completion ctx uuid c request ws in
    (ws, (λ r, _ ← r; Ok EmptyReply) <$> r)).
Definition start_generate (ctx : ServerContext) (uuid : string) (c : client) (request : CompletionRequest)
    (begin : Z) (ws : worlds) : worlds * option (result response) :=
  lift_request ws (set_disagg {| kind := Some start_generation; kv_append_metadata := None; kv_window_begin := Some begin;
      kv_window_end := None; dst_group_offset := None |} request) (λ request,
    request_completion ctx uuid c request ws).
End entrypoints.

(** ** Embeddings *)

Section embeddings.
Context {rt : Runtime} (slice : Z → Vec → Vec) (base64_floats : Vec → string) (decode : list Z → string).

Inductive embedding := Floats (v : Vec) | Base64 (s : string).
Record EmbeddingResponse := { e_data : list embedding; e_model : option string; e_tokens : Z }.
Record EmbeddingRequest := { e_input : EmbeddingInput; er_model : option string; base64 : bool; dimensions : option Z }.
(** [List[str]] of the input; tokens are decoded. *)
Definition input_texts (v : EmbeddingInput) : result (list string) :=
  match v with
  | EStr s => Ok [s]
  | EStrs [] | EToks [] | ETokss [] => raise IndexError "list index out of range"
  | EStrs l => Ok l
  | EToks l => Ok [decode l]
  | ETokss l => Ok (decode <$> l)
  end.
(** Cut to so many dimensions, and normalize again. *)
Definition truncated (n : Z) (v : Vec) : Vec :=
  let vec := float32 (slice n v) in
  let k := norm vec in if above_eps k then divide vec k else vec.
(** [Left] is an error response. *)
Definition request_embedding (ctx : ServerContext) (engine : nat → EmbeddingEngine) (request : EmbeddingRequest) :
    result (response + EmbeddingResponse) :=
  match get_embedding_engine ctx (er_model request) with
  | None => Ok (inl (create_error_response BAD_REQUEST
      ("The requested model " +:+ quoted (default "None" (er_model request)) +:+ " is not served as an embedding model.")))
  | Some i =>
      inputs ← input_texts (e_input request);
      match (embed (engine i) inputs []).2 with
      | Err e => if is_Exception (exn_cls e)
                 then Ok (inl (create_error_response INTERNAL_SERVER_ERROR ("Embedding inference failed: " +:+ exn_msg e)))
                 else Err e
      | Ok (embeddings, total_tokens) =>
          let embeddings := match dimensions request with Some n => truncated n <$> embeddings | None => embeddings end in
          Ok (inr {| e_data := (λ v, if base64 request then Base64 (base64_floats v) else Floats v) <$> embeddings;
                     e_model := er_model request; e_tokens := total_tokens |})
      end
  end.
End embeddings.

(** [request_models]. *)
Definition request_models (ctx : ServerContext) : list string := get_model_list ctx.
(** [metrics]: those of the first engine in the list. [None] is what the handler returns when there are no models. *)
Definition metrics (ctx : ServerContext) (engine_metrics : nat → string) : result (option string) :=
  match get_model_list ctx with
  | [] => Ok None
  | model :: _ =>
      match get_engine ctx (Some model) with
      | Some i => Ok (Some (engine_metrics i))
      | None => raise AttributeError "'NoneType' object has no attribute 'metrics'"
      end
  end.

(** *** The debug entry points

    [json] is the body of the request, parsed; the result is an error response, or the engine that is asked. *)
Definition invalid_request (body : string) : response := create_error_response BAD_REQUEST ("Invalid request " +:+ body).
Definition as_model (v : pyval) : option string := match v with PStr s => Some s | _ => None end.
Definition debug_dump_event_trace (ctx : ServerContext) (body : string) (json : option (list (string * pyval)))
    (traced : nat → bool) : response + nat :=
  match json with
  | None => inl (invalid_request body)
  | Some d =>
      match dict_get "model" d with
      | None => inl (invalid_request body)
      | Some model =>
          match get_engine ctx (as_model model) with
          | None => inl (create_error_response BAD_REQUEST (not_served (as_model model)))
          | Some i => if traced i then inr i
                      else inl (create_error_response BAD_REQUEST
                        ("The requested model " +:+ quoted (default "None" (as_model model)) +:+ " does not enable tracing"))
          end
      end
  end.
Definition debug_dump_engine_metrics (ctx : ServerContext) (body : string) (json : option (list (string * pyval))) :
    result (response + nat) :=
  match json with
  | None => Ok (inl (invalid_request body))
  | Some d =>
      match get_engine ctx (as_model (default PNone (dict_get "model" d))) with
      | Some i => Ok (inr i)
      | None => raise AttributeError "'NoneType' object has no attribute 'metrics'"
      end
  end.
Definition debug_reset_engine_stats (ctx : ServerContext) (body : string) (json : option (list (string * pyval))) :
    result (response + nat) :=
  match json with
  | None => Ok (inl (invalid_request body))
  | Some d =>
      match dict_get "model" d with
      | None => Ok (inl (invalid_request body))
      | Some model =>
          match get_engine ctx (as_model model) with
          | Some i => Ok (inr i)
          | None => raise AttributeError "'NoneType' object has no attribute 'reset'"
          end
      end
  end.
(** The engine whose workers start or stop profiling. *)
Definition debug_cuda_profiler (ctx : ServerContext) : result (option nat) :=
  match get_model_list ctx with
  | [] => Ok None
  | model :: _ =>
      match get_engine ctx (Some model) with
      | Some i => Ok (Some i)
      | None => raise AttributeError "'NoneType' object has no attribute '_debug_call_func_on_all_worker'"
      end
  end.

(** ** The application *)

(** [serve], after the engines were made: the context the application runs in. *)
Definition serve (model : string) (engine : nat) (embedding : option (string * option string * nat))
    (enable_debug : bool) (api_key : option string) : stM process ServerContext :=
  emb ← st_lift (match embedding with
    | None => Ok None
    | Some (m, None, _) => raise ValueError "--embedding-model-lib is required when --embedding-model is specified."
    | Some (m, Some _, i) => Ok (Some (m, i))
    end);
  ctx ← __enter__ new_context;
  ctx ← st_lift (ctx ← add_model model engine ctx;
    match emb with None => Ok ctx | Some (m, i) => add_embedding_engine m i ctx end);
  let ctx := {| _models := _models ctx; _embedding_engines := _embedding_engines ctx; api_key := api_key; enable_debug := enable_debug |} in
  _ ← st_modify (λ p, {| current := Some ctx; terminated := terminated p |});
  mret ctx.

(** The routes, by router. Only the router of [openai_entrypoints] depends on [verify_api_key]; the debug
    routes are there only when debugging is on. *)
Inductive router := OpenAI | Metrics | MicroServing | Debug.
Definition routes : list (string * router) := [
  ("/v1/embeddings", OpenAI); ("/v1/models", OpenAI); ("/v1/completions", OpenAI); ("/v1/chat/completions", OpenAI);
  ("/metrics", Metrics);
  ("/microserving/prep_recv", MicroServing); ("/microserving/remote_send", MicroServing); ("/microserving/start_generate", MicroServing);
  ("/debug/dump_event_trace", Debug); ("/debug/cuda_profiler_start", Debug); ("/debug/cuda_profiler_stop", Debug);
  ("/debug/dump_engine_metrics", Debug); ("/debug/reset_engine", Debug)].
Definition included (ctx : ServerContext) (r : router) : bool := match r with Debug => enable_debug ctx | _ => true end.
(** Whether a request reaches the handler of its route. *)
Definition admit_request (ctx : ServerContext) (path : string) (authorization : option string) : result unit :=
  match dict_get path routes with
  | Some r =>
      if included ctx r then match r with OpenAI => verify_api_key (Some ctx) authorization | _ => Ok tt end
      else raise OtherError "404 Not Found"
  | None => raise OtherError "404 Not Found"
  end.

(** ** What a handler feeds its client *)

Section chat_responses.
Context {T Img : Type} `{TextStreamer T}.
Context (parse_logprob : string → result LogProbsContent) (parse_usage : string → result CompletionUsage).
Context (request : ChatCompletionRequest) (id : string) (use_fc include_extra : bool) (usage : CompletionUsage).

Definition final_usage : CompletionUsage := if include_extra then usage else strip_usage usage.
Definition chat_chunk (cs : list ChatChoice) : ChatResponse := Build_ChatResponse id cs (r_model request) None.
(** The responses of a chat, from the outputs of the engine: one per batch with something to say, and
    the usage if it is wanted. *)
Fixpoint chat_responses (frs : list (option string)) (outs : list (list CallbackStreamOutput)) : list ChatResponse :=
  match outs with
  | [] => if usage_sent (r_stream request) (r_stream_options request)
          then [Build_ChatResponse id [] (r_model request) (Some final_usage)] else []
  | ds :: outs =>
      match expected_choices (chat_reason use_fc) (chat_choice_of parse_logprob) 0 frs ds with
      | [] => []
      | cs => [chat_chunk cs]
      end ++ chat_responses (zip_with (next_reason (chat_reason use_fc)) frs ds) outs
  end.

Lemma next_reasons_valid allowed f n frs ds :
  length frs = n → length ds = n → Forall (valid_reason allowed) frs →
  Forall (λ d, valid_reason allowed (f <$> finish_reason d)) ds →
  length (zip_with (next_reason f) frs ds) = n ∧ Forall (valid_reason allowed) (zip_with (next_reason f) frs ds).
Proof.
  intros Hl Hd Hv Hg. split; [rewrite length_zip_with; lia|]. clear Hl Hd. revert ds Hg.
  induction frs as [|fr frs IH]; intros [|d ds] Hg; cbn; [by constructor..|].
  apply Forall_cons in Hv as [Hf Hv]. apply Forall_cons in Hg as [Hd Hg]. constructor; [by apply next_reason_valid|by apply IH].
Qed.

Context {C : Type} (y : ChatResponse → stM C unit).
Abbreviation loop := (chat_body (T:=T) (Img:=Img) parse_logprob parse_usage y request id use_fc include_extra).

Lemma loop_chunk n frs ds w c :
  r_n request = n → 0 < n → length frs = n → Forall (valid_reason chat_reasons) frs →
  good_outputs parse_logprob chat_reasons (chat_reason use_fc) n (r_logprobs request) ds →
  let frs' := zip_with (next_reason (chat_reason use_fc)) frs ds in
  ∃ w', loop ds (w, (frs, c)) =
    (match expected_choices (chat_reason use_fc) (chat_choice_of parse_logprob) 0 frs ds with
     | [] => ((w', (frs', c)), Ok tt)
     | cs => let '(c', r) := y (chat_chunk cs) c in ((w', (frs', c')), r)
     end) ∧ same_world w w'.
Proof.
  intros Hn Hpos Hl Hv [G1 G2 G3 G4 G5] frs'.
  destruct (chat_chunk_run parse_logprob parse_usage request id use_fc (w_engine w) frs ds) as (e' & Hrun & Hs).
  { rewrite Hn. by split. }
  exists (set_engine e' w). split; [|by exists e'].
  unfold chat_body. cbn [fst snd]. rewrite Hrun. fold frs'.
  destruct (expected_choices _ _ _ _ _) as [|ch cs]; cbn [sent]; [done|].
  unfold deliver, strip_chat. cbn [fst snd]. by destruct include_extra.
Qed.
Lemma loop_responses n u outs frs c c' r :
  r_n request = n → 0 < n → length frs = n → Forall (valid_reason chat_reasons) frs →
  Forall (good_outputs parse_logprob chat_reasons (chat_reason use_fc) n (r_logprobs request)) outs →
  parse_usage u = Ok usage → st_iter y (chat_responses frs outs) c = (c', r) →
  ∃ frs', runs loop (outs ++ [[usage_output (Some u)]]) (frs, c) (frs', c') r.
Proof.
  intros Hn Hpos Hl Hv Hg Hu. revert frs c Hl Hv. induction Hg as [|ds outs Hds Houts IH]; intros frs c Hl Hv; cbn [chat_responses app].
  - intros Hy.
    assert (∀ w, ∃ w', loop [usage_output (Some u)] (w, (frs, c)) = ((w', (frs, c')), r) ∧ same_world w w') as Hlast.
    { intros w. destruct (chat_usage_run (T:=T) parse_logprob parse_usage request id use_fc (w_engine w) frs
        (usage_output (Some u)) u usage eq_refl Hu) as (e' & Hrun & Hs).
      exists (set_engine e' w). split; [|by exists e']. unfold chat_body. cbn [fst snd]. rewrite Hrun.
      destruct (usage_sent _ _); cbn [st_iter] in Hy; [|by injection Hy as <- <-].
      unfold mbind, stM_bind, mret, stM_ret in Hy. unfold deliver, strip_chat. cbn [fst snd].
      unfold final_usage in Hy. destruct include_extra; cbn [cr_id cr_choices cr_model cr_usage fmap option_fmap option_map] in *;
        destruct (y _ c) as [c1 [[]|ex]]; by injection Hy as <- <-. }
    exists frs. destruct r as [[]|ex]; [eapply runs_cons; [exact Hlast|apply runs_nil]|by apply runs_stop].
  - pose proof Hds as [G1 G2 G3 G4 G5].
    destruct (next_reasons_valid chat_reasons (chat_reason use_fc) n frs ds Hl G1 Hv G5) as [Hl' Hv'].
    pose proof (λ w, loop_chunk n frs ds w c Hn Hpos Hl Hv Hds) as Hchunk. cbn zeta in Hchunk.
    destruct (expected_choices _ _ _ _ _) as [|ch cs]; cbn [app]; intros Hy.
    + destruct (IH _ c Hl' Hv' Hy) as [frs' Hr]. exists frs'. by eapply runs_cons; [exact Hchunk|].
    + cbn [st_iter] in Hy. unfold mbind, stM_bind in Hy. destruct (y (chat_chunk (ch :: cs)) c) as [c1 [[]|ex]] eqn:Ey.
      * destruct (IH _ c1 Hl' Hv' Hy) as [frs' Hr]. exists frs'. by eapply runs_cons; [exact Hchunk|].
      * injection Hy as <- <-. eexists. by eapply runs_stop.
Qed.
End chat_responses.

(** ** Chat completions *)

Section chat.
Context {T Img : Type} `{TextStreamer T}.
Context (from_url : string → list (string * pyval) → result Img) (embed_size : Img → nat)
  (function_json : ChatFunction → string) (functions_json : list ChatFunction → string)
  (parse_logprob : string → result LogProbsContent)
  (parse_usage : string → result CompletionUsage)
  {Node : Type} (ast_parse : string → result (call_ast Node))
  (literal_eval : string → result pyval) (literal_eval_node : Node → result pyval)
  (new_call_id : nat → nat → string)
  (chat_json : ChatResponse → string).
Context (engines : nat → AsyncEngine (T:=T) (Img:=Img)).

(** The engine [e] answers a request: it processes it, and then yields the outputs [outs] and the usage. *)
Record chat_answered (e : AsyncEngine (T:=T) (Img:=Img)) (request : ChatCompletionRequest) (id : string) (w : World T Img)
    (cfg : GenerationConfig) (input : list (Data Img)) (use_fc : bool) (outs : list (list CallbackStreamOutput))
    (usage : CompletionUsage) : Prop := {
  an_pos : 0 < r_n request;
  an_processed : ∃ e1 prompts len rq,
    process_chat_completion_request (T:=T) from_url embed_size function_json functions_json request id
      (model_config e) (tokenizer_encode e) (max_input_sequence_length e) (conv_template e) (w_engine w) =
      (e1, Ok (prompts, cfg, use_fc, len, rq)) ∧
    convert_prompts_to_data (PrList (prompt_arg <$> prompts)) = Ok input;
  an_yields : ∃ u, Yields (_generate e) id (r_n request) w (outs ++ [[usage_output (Some u)]]) ∧ parse_usage u = Ok usage;
  an_good : Forall (good_outputs parse_logprob chat_reasons (chat_reason use_fc) (r_n request) (r_logprobs request)) outs;
}.
Abbreviation responses := (chat_responses parse_logprob).
Abbreviation handle := (handle_chat from_url embed_size function_json functions_json parse_logprob parse_usage engines).

(** The handler feeds its client these responses, until the client raises. *)
Lemma handle_chat_responses {C} i (y : ChatResponse → stM C unit) request id include_extra w cfg input use_fc outs usage (c0 c1 : C) r :
  chat_answered (engines i) request id w cfg input use_fc outs usage →
  st_iter y (responses request id use_fc include_extra usage (replicate (r_n request) None) outs) c0 = (c1, r) →
  ∃ w', handle i y request id include_extra c0 w = (w', (c1, Some r)) ∧
    w_ffi w' = w_ffi w ++ [FCreate id input cfg; FAdd id] ++ (if is_ok r then [] else [FAbort id]).
Proof.
  intros [Hpos (e1 & prompts & len & rq & Hproc & Hin) (u & Hy & Hu) Hg] Hiter.
  destruct (chat_request_frame _ _ _ _ _ _ _ _ _ _ _ _ _ _ _ _ _ Hproc) as [Hs1 Hn].
  unfold handle_chat, _handle_chat_completion, on_state. cbn [fst snd]. rewrite Hproc, Hn.
  match goal with |- context [trace_event id "invoke generate" (?w1, ?l1)] =>
    destruct (trace_event_spec id "invoke generate" w1 l1) as (w2 & -> & Hs2) end.
  assert (same_world w w2) as Hw2 by (etrans; [by apply same_world_engine|exact Hs2]).
  destruct (loop_responses (T:=T) (Img:=Img) parse_logprob parse_usage request id use_fc include_extra usage y (r_n request) u outs
    (replicate (r_n request) None) c0 c1 r eq_refl Hpos (length_replicate _ _)) as [frs' Hruns]; [by apply Forall_replicate|done..|].
  destruct (yields _ _ _ cfg input _ _ _ w2 Hw2 Hn Hin Hruns) as (w3 & Hgen & Hffi).
  rewrite Hgen. destruct r as [[]|ex]; cbn [after_loop is_ok] in *.
  - match goal with |- context [trace_event id "finish" (w3, ?l1)] =>
      destruct (trace_event_spec id "finish" w3 l1) as (w4 & -> & Hs4) end.
    exists w4. split; [done|]. by rewrite (same_world_ffi _ _ Hs4), Hffi.
  - exists w3. split; [done|]. by rewrite Hffi.
Qed.

(** What the responses amount to. *)
Lemma add_responses request id use_fc debug usage outs gs :
  r_stream request = false → Forall (λ g, valid_reason chat_reasons (gn_reason g)) gs → length gs = r_n request →
  Forall (good_outputs parse_logprob chat_reasons (chat_reason use_fc) (r_n request) (r_logprobs request)) outs →
  st_iter (add_chat_response debug) (responses request id use_fc debug usage (gn_reason <$> gs) outs)
    (chat_acc (r_logprobs request) gs None) =
  (chat_acc (r_logprobs request) (gens_after (chat_upd parse_logprob) (chat_reason use_fc) gs outs)
     (Some (final_usage debug usage)), Ok tt).
Proof.
  intros Hst Hv Hl Hg. revert gs Hv Hl. induction Hg as [|ds outs Hds Houts IH]; intros gs Hv Hl; cbn [chat_responses].
  - unfold usage_sent. rewrite Hst. cbn. unfold mbind, stM_bind, add_chat_response, final_usage. cbn.
    by destruct debug.
  - destruct (gen_step_valid (chat_upd parse_logprob) _ _ _ _ _ Hl (go_len _ _ _ _ _ _ Hds) Hv (go_reasons _ _ _ _ _ _ Hds)) as (Hl' & Hv' & Hr).
    pose proof (consume_choices parse_logprob (r_logprobs request) (chat_reason use_fc) [] gs ds None
      ltac:(rewrite Hl; symmetry; by eapply go_len) (go_wanted _ _ _ _ _ _ Hds)) as Hc. cbn [app length] in Hc.
    rewrite <-Hr. specialize (IH _ Hv' Hl'). change (gens_after ?u ?f gs (ds :: outs)) with (gens_after u f (zip_with (gen_step u f) gs ds) outs).
    destruct (expected_choices _ _ _ _ _) as [|ch cs]; cbn [app].
    + apply (f_equal fst) in Hc. cbn [st_iter] in Hc. unfold mret, stM_ret in Hc. cbn [fst] in Hc. rewrite Hc. exact IH.
    + cbn [st_iter]. unfold mbind at 1, stM_bind at 1, add_chat_response at 1. cbn [cr_usage cr_choices chat_chunk]. rewrite Hc. exact IH.
Qed.
(** Clients that stay, and a client that is gone before response [k]. *)
Lemma entry_stays {R A} (c : client) (add : R → stM A unit) rs a a' k :
  (∀ j, k ≤ j < k + length rs → disconnected c j = false) → st_iter add rs a = (a', Ok tt) →
  st_iter (entry_step c add) rs (a, k) = ((a', k + length rs), Ok tt).
Proof.
  revert a k. induction rs as [|r rs IH]; intros a k Hd Hi; cbn [st_iter] in *.
  - injection Hi as <-. cbn. by rewrite Nat.add_0_r.
  - unfold mbind, stM_bind in *. unfold entry_step at 1. rewrite Hd by (cbn; lia).
    destruct (add r a) as [a1 [[]|ex]]; [|done]. rewrite (IH a1 (S k)); [cbn; do 2 f_equal; lia| |done]. intros j Hj. apply Hd. cbn. lia.
Qed.
Lemma entry_leaves {R A} (c : client) (add : R → stM A unit) rs a a' k j :
  (∀ j', k ≤ j' < k + j → disconnected c j' = false) → disconnected c (k + j) = true → j < length rs →
  st_iter add rs a = (a', Ok tt) → ∃ s, st_iter (entry_step c add) rs (a, k) = (s, Err client_gone).
Proof.
  revert a k j. induction rs as [|r rs IH]; intros a k j Hd Hg Hj Hi; cbn in Hj; [lia|].
  cbn [st_iter] in *. unfold mbind, stM_bind in *. unfold entry_step at 1. destruct j as [|j].
  - rewrite Nat.add_0_r in Hg. rewrite Hg. by eexists.
  - rewrite Hd by lia. destruct (add r a) as [a1 [[]|ex]]; [|done].
    apply (IH a1 (S k) j); [|by rewrite Nat.add_succ_comm|lia|done]. intros j' Hj'. apply Hd. lia.
Qed.
Lemma stream_sends {R} (c : client) (json : R → string) rs events :
  (∀ j, cannot_send c j = false) → st_iter (stream_step c json) rs events = (events ++ ((λ r, sse (json r)) <$> rs), Ok tt).
Proof.
  intros Hc. revert events. induction rs as [|r rs IH]; intros events; cbn [st_iter].
  - by rewrite app_nil_r.
  - unfold mbind, stM_bind, stream_step at 1. rewrite Hc, IH, <-app_assoc. done.
Qed.

(** A request as the entry point passes it on, and its id. *)
Definition passed_on (ctx : ServerContext) (request : ChatCompletionRequest) : ChatCompletionRequest :=
  if enable_debug ctx then request else set_chat_debug_config None request.
Definition chat_id (uuid : string) (request : ChatCompletionRequest) : string := default ("chatcmpl-" +:+ uuid) (r_user request).
Lemma passed_on_same ctx request :
  r_model (passed_on ctx request) = r_model request ∧ r_stream (passed_on ctx request) = r_stream request ∧
  r_n (passed_on ctx request) = r_n request ∧ r_logprobs (passed_on ctx request) = r_logprobs request ∧
  r_user (passed_on ctx request) = r_user request.
Proof. unfold passed_on. by destruct (enable_debug ctx). Qed.
Abbreviation served := (request_chat_completion from_url embed_size function_json functions_json parse_logprob parse_usage
  ast_parse literal_eval literal_eval_node new_call_id chat_json engines).

(** The calls of a request into engine [i], which alone is touched. *)
Definition called (i : nat) (ws ws' : nat → World T Img) (calls : list (ffi_call Img)) : Prop :=
  w_ffi (ws' i) = w_ffi (ws i) ++ calls ∧ ∀ j, j ≠ i → ws' j = ws j.
Lemma on_engine_called {A} i (m : World T Img → World T Img * A) ws w' a calls :
  m (ws i) = (w', a) → w_ffi w' = w_ffi (ws i) ++ calls → ∃ ws', on_engine i m ws = (ws', a) ∧ called i ws ws' calls.
Proof.
  intros Hm Hf. unfold on_engine. rewrite Hm. eexists. split; [done|]. split; [by rewrite decide_True|].
  intros j Hj. by rewrite decide_False.
Qed.

Section answered.
Context (ctx : ServerContext) (uuid : string) (c : client) (request : ChatCompletionRequest) (i : nat) (ws : nat → World T Img)
  (cfg : GenerationConfig) (input : list (Data Img)) (use_fc : bool) (outs : list (list CallbackStreamOutput)) (usage : CompletionUsage).
Hypothesis Hserved : get_engine ctx (r_model request) = Some i.
Hypothesis Hanswered : chat_answered (engines i) (passed_on ctx request) (chat_id uuid request) (ws i) cfg input use_fc outs usage.

Let start := mkChatAcc (replicate (r_n request) "") (replicate (r_n request) None)
  (if r_logprobs request then Some (replicate (r_n request) []) else None) None.
Let rs := responses (passed_on ctx request) (chat_id uuid request) use_fc (enable_debug ctx) usage
  (replicate (r_n request) None) outs.

Lemma fold_responses : r_stream request = false →
  st_iter (add_chat_response (enable_debug ctx)) rs start =
  (mkChatAcc (final_texts (r_n request) outs) (final_reasons (chat_reason use_fc) (r_n request) outs)
    (if r_logprobs request then Some (final_logprobs parse_logprob (chat_reason use_fc) (r_n request) outs) else None)
    (Some (final_usage (enable_debug ctx) usage)), Ok tt).
Proof.
  intros Hst. destruct (passed_on_same ctx request) as (E1 & E2 & E3 & E4 & E5). destruct Hanswered as [_ _ _ Hg].
  pose proof (add_responses (passed_on ctx request) (chat_id uuid request) use_fc (enable_debug ctx) usage outs
    (replicate (r_n request) empty_gen)) as Hadd. unfold chat_acc in Hadd at 1. rewrite !fmap_replicate, E4 in Hadd.
  cbn [empty_gen gn_reason gn_text gn_logprobs] in Hadd. fold rs start in Hadd.
  rewrite Hadd; [|by rewrite E2|by apply Forall_replicate|by rewrite length_replicate, E3|by rewrite <-E4].
  rewrite chat_acc_final; [done|]. eapply Forall_impl; [exact Hg|]. intros ds Hds. rewrite <-E3. by eapply go_len.
Qed.
(** The entry point of a request that does not stream, from what its loop makes of the responses. *)
Lemma entry_unfold s r : r_stream request = false →
  st_iter (entry_step c (add_chat_response (enable_debug ctx))) rs (start, 0) = (s, r) →
  ∃ ws', served ctx uuid c request ws = (ws', Some (loop_result r s.1 (λ a, ChatReply <$>
    chat_reply ast_parse literal_eval literal_eval_node new_call_id (passed_on ctx request) (chat_id uuid request) a))) ∧
    called i ws ws' ([FCreate (chat_id uuid request) input cfg; FAdd (chat_id uuid request)] ++
      (if is_ok r then [] else [FAbort (chat_id uuid request)])).
Proof.
  intros Hst Hiter. destruct (passed_on_same ctx request) as (E1 & E2 & E3 & E4 & E5).
  destruct (handle_chat_responses i (entry_step c (add_chat_response (enable_debug ctx))) (passed_on ctx request)
    (chat_id uuid request) (enable_debug ctx) (ws i) cfg input use_fc outs usage (start, 0) s r Hanswered) as (w' & Hh & Hf).
  { by rewrite E3. }
  destruct (on_engine_called i _ ws w' _ _ Hh Hf) as (ws' & Hon & Hcalled).
  exists ws'. split; [|done]. unfold request_chat_completion. fold (passed_on ctx request). cbv zeta.
  rewrite E1, Hserved, E2, Hst, E3, E4, E5. fold (chat_id uuid request) start. by rewrite Hon.
Qed.
End answered.

(** C29. A chat request over HTTP: the server answers what the engine says. While the client stays, the
    response has, for each generation, the concatenation of its delta texts, its first finish reason and
    its logprobs, with the function calls in the texts, and the usage, whose extra part is only shown when
    debugging is on; the engine of the requested model got one request and no abort, and no other
    engine was touched. *)
Theorem request_chat_completion_spec ctx uuid c request i ws cfg input use_fc outs usage :
  let id := chat_id uuid request in let n := r_n request in
  get_engine ctx (r_model request) = Some i → r_stream request = false → (∀ j, disconnected c j = false) →
  chat_answered (engines i) (passed_on ctx request) id (ws i) cfg input use_fc outs usage →
  (∀ g, g < n → ∃ d, d ∈ column g outs ∧ is_Some (finish_reason d)) →
  ∃ ws', served ctx uuid c request ws = (ws', Some (ChatReply <$>
     (let '(out, r) := process_function_call_output ast_parse literal_eval literal_eval_node new_call_id
                         (final_texts n outs) (final_reasons (chat_reason use_fc) n outs) in
      use_function_calling ← r;
      wrap_chat_completion_response id (r_model request) (co_texts out) (co_reasons out) (co_calls out)
        (if r_logprobs request then Some (final_logprobs parse_logprob (chat_reason use_fc) n outs) else None)
        use_function_calling (Some (if enable_debug ctx then usage else strip_usage usage))))) ∧
    called i ws ws' [FCreate id input cfg; FAdd id].
Proof.
  intros id n Hi Hst Hstay Ha Hfin.
  pose proof (fold_responses ctx uuid request i ws cfg input use_fc outs usage Ha Hst) as Hfold.
  eapply (entry_stays c _ _ _ _ 0) in Hfold; [|intros j _; apply Hstay].
  destruct (entry_unfold ctx uuid c request i ws cfg input use_fc outs usage Hi Ha _ _ Hst Hfold) as (ws' & Hrun & Hcalled).
  exists ws'. rewrite app_nil_r in Hcalled. split; [|done]. rewrite Hrun. cbn [loop_result fst]. unfold chat_reply.
  cbn [ca_reasons ca_texts ca_logprobs ca_usage]. rewrite final_reasons_set by done. cbn [py_assert mbind result_bind].
  by rewrite (proj1 (passed_on_same ctx request)).
Qed.

(** C30. A client that is gone when asked before response [k]: the answer is the error response, and the engine is
    told to abort the request, once. *)
Theorem request_chat_disconnected ctx uuid c request i ws cfg input use_fc outs usage k :
  let id := chat_id uuid request in
  get_engine ctx (r_model request) = Some i → r_stream request = false →
  chat_answered (engines i) (passed_on ctx request) id (ws i) cfg input use_fc outs usage →
  k < length (responses (passed_on ctx request) id use_fc (enable_debug ctx) usage (replicate (r_n request) None) outs) →
  (∀ j, j < k → disconnected c j = false) → disconnected c k = true →
  ∃ ws', served ctx uuid c request ws = (ws', Some (Ok (JSONResponse 400 "The request has disconnected"))) ∧
    called i ws ws' [FCreate id input cfg; FAdd id; FAbort id].
Proof.
  intros id Hi Hst Ha Hk Hbefore Hgone.
  pose proof (fold_responses ctx uuid request i ws cfg input use_fc outs usage Ha Hst) as Hfold.
  eapply (entry_leaves c _ _ _ _ 0 k) in Hfold as [s Hs]; [|intros j Hj; apply Hbefore; lia|done|done].
  destruct (entry_unfold ctx uuid c request i ws cfg input use_fc outs usage Hi Ha _ _ Hst Hs) as (ws' & Hrun & Hcalled).
  exists ws'. split; [|done]. rewrite Hrun. cbn [loop_result]. by rewrite bool_decide_true.
Qed.

(** A stream: every response is one event, in order, the usage is the last one if the request asked for it, and
    the stream ends with [DONE]. *)
Theorem request_chat_stream ctx uuid c request i ws cfg input use_fc outs usage :
  let id := chat_id uuid request in
  let rs := responses (passed_on ctx request) id use_fc (enable_debug ctx) usage (replicate (r_n request) None) outs in
  get_engine ctx (r_model request) = Some i → r_stream request = true → (∀ j, cannot_send c j = false) →
  chat_answered (engines i) (passed_on ctx request) id (ws i) cfg input use_fc outs usage → rs ≠ [] →
  ∃ ws', served ctx uuid c request ws =
      (ws', Some (Ok (StreamingResponse (((λ r, sse (chat_json r)) <$> rs) ++ [sse "[DONE]"]) None))) ∧
    called i ws ws' [FCreate id input cfg; FAdd id].
Proof.
  intros id rs Hi Hst Hsend Ha Hne. destruct (passed_on_same ctx request) as (E1 & E2 & E3 & E4 & E5).
  destruct (handle_chat_responses i (stream_step c chat_json) (passed_on ctx request) id (enable_debug ctx) (ws i) cfg input use_fc outs
    usage [] ((λ r, sse (chat_json r)) <$> rs) (Ok tt) Ha) as (w' & Hh & Hf).
  { rewrite E3. fold rs. by rewrite stream_sends. }
  destruct (on_engine_called i _ ws w' _ _ Hh Hf) as (ws' & Hon & Hcalled).
  exists ws'. rewrite app_nil_r in Hcalled. split; [|done].
  unfold request_chat_completion. fold (passed_on ctx request). cbv zeta. rewrite E1, Hi, E2, Hst, E5. fold (chat_id uuid request) id.
  rewrite Hon. unfold stream_reply. destruct rs as [|r rs']; [done|]. cbn [fmap list_fmap]. by rewrite Hsend.
Qed.
End chat.

(** ** The application *)

(** One context at a time: [serve] starts where there is none and puts up one that holds the engine under its model's
    name; leaving it terminates its engines, once each, and lets the next one start. *)
Lemma serve_exit model engine emb debug key p ctx p' :
  serve model engine emb debug key p = (p', Ok ctx) →
  current p = None ∧ current p' = Some ctx ∧ get_engine ctx (Some model) = Some engine ∧
  enable_debug ctx = debug ∧ api_key ctx = key ∧
  __exit__ ctx p' = ({| current := None;
    terminated := terminated p ++ engine :: match emb with Some (_, Some _, i) => [i] | _ => [] end |}, Ok tt).
Proof.
  unfold serve, mbind, stM_bind, st_lift, st_modify, mret, stM_ret, __enter__.
  destruct emb as [[[m [lib|]] i]|]; cbn; [|done|]; (destruct (current p) as [x|] eqn:Hc; [done|]); cbn; intros [= <- <-];
    split_and!; done.
Qed.
(** A second [serve] in a process that serves already. *)
Lemma serve_twice model engine debug key p ctx :
  current p = Some ctx → serve model engine None debug key p = (p, raise RuntimeError "Server context already exists.").
Proof. intros Hc. unfold serve, mbind, stM_bind, st_lift, __enter__. cbn. by rewrite Hc. Qed.

(** [s] without every "Bearer " in it. *)
Definition provided_key (authorization : option string) : string := replace "Bearer " "" (default "" authorization).
(** What the API key protects: every route of the OpenAI router, and nothing else. *)
Theorem admit_request_spec ctx path authorization :
  admit_request ctx path authorization = Ok tt ↔
  ∃ r, dict_get path routes = Some r ∧ (r = Debug → enable_debug ctx = true) ∧
       (r = OpenAI → ∀ key, api_key ctx = Some key → provided_key authorization = key).
Proof.
  unfold admit_request. destruct (dict_get path routes) as [r|]; [|by split; [|intros (r & [=] & _)]].
  assert (verify_api_key (Some ctx) authorization = Ok tt ↔ ∀ key, api_key ctx = Some key → provided_key authorization = key) as Hkey.
  { unfold verify_api_key, raise_when. fold (provided_key authorization). destruct (api_key ctx) as [key|]; [|by split].
    destruct (String.eqb_spec (provided_key authorization) key) as [E|E]; cbn; [split; [by intros _ ? [= <-]|done]|].
    split; [done|]. intros Hk. by destruct E, (Hk key eq_refl). }
  split.
  - intros Ha. exists r. split; [done|]. destruct r; cbn [included] in Ha.
    + split; [done|]. intros _. by apply Hkey.
    + done.
    + done.
    + by destruct (enable_debug ctx).
  - intros (r' & [= <-] & Hd & Ho). destruct r; cbn [included]; [apply Hkey; by apply Ho|done|done|by rewrite Hd].
Qed.

(** ** Runs *)

Module Example.
#[local] Existing Instance char_streamer.
Definition toy_engines : nat → AsyncEngine (T:=unit) (Img:=unit) := λ _, {|
  _generate := sync_gen toy_arrivals; tokenizer_encode := toy_encode;
  tokenizer_decode := λ _, "Hi"; model_config := []; max_input_sequence_length := 100;
  conv_template := chatml [] "" |}.
Definition toy_worlds : nat → World unit unit := λ _, toy_world.
Definition toy_ctx (debug : bool) : ServerContext := {|
  _models := [("m", 0)]; _embedding_engines := []; api_key := Some "secret"; enable_debug := debug |}.
Definition staying : client := {| disconnected := λ _, false; cannot_send := λ _, false |}.
Definition leaving : client := {| disconnected := λ j, 0 <? j; cannot_send := λ _, true |}.
Definition run_chat := request_chat_completion (T:=unit) no_images (λ _, 0) fn_name (λ _, "all") toy_logprob toy_usage
  toy_ast (λ _, raise ValueError "") (λ v, Ok v) (λ _ _, "call_0") cr_id toy_engines.

(** A request of the user "req", which is then its id. *)
Definition user_chat : ChatCompletionRequest := {|
  r_messages := [user_message "Hi"]; r_model := Some "m"; r_frequency_penalty := None;
  r_presence_penalty := None; r_logprobs := false; r_top_logprobs := 0; r_logit_bias := None;
  r_max_tokens := None; r_n := 1; r_seed := None; r_stop := None; r_stream := false;
  r_stream_options := None; r_temperature := None; r_top_p := None; r_tools := None;
  r_tool_choice := TCNone; r_user := Some "req"; r_response_format := None; r_debug_config := None |}.

Lemma toy_answered : ∃ cfg input,
  chat_answered (T:=unit) no_images (λ _, 0) fn_name (λ _, "all") toy_logprob toy_usage (toy_engines 0)
    (passed_on (toy_ctx false) user_chat) "req" toy_world cfg input false toy_outs toy_usage_value.
Proof.
  do 2 eexists. split.
  - cbn. lia.
  - do 4 eexists. split; [lazy; reflexivity|lazy; reflexivity].
  - exists "{}". split; [|reflexivity]. exact toy_yields.
  - apply toy_outs_good. vm_compute. left.
Qed.

Lemma request_chat_completion_spec_witness : ∃ ws' input cfg,
  run_chat (toy_ctx false) "1" staying user_chat toy_worlds =
    (ws', Some (Ok (ChatReply (Build_ChatResponse "req"
       [Build_ChatChoice 0 (Some "stop") (assistant_message "ab") None] (Some "m")
       (Some (strip_usage toy_usage_value)))))) ∧
  called 0 toy_worlds ws' [FCreate "req" input cfg; FAdd "req"].
Proof.
  destruct toy_answered as (cfg & input & Ha).
  destruct (request_chat_completion_spec (T:=unit) no_images (λ _, 0) fn_name (λ _, "all") toy_logprob toy_usage
      toy_ast (λ _, raise ValueError "") (λ v, Ok v) (λ _ _, "call_0") cr_id toy_engines (toy_ctx false) "1" staying
      user_chat 0 toy_worlds cfg input false toy_outs toy_usage_value) as (ws' & Hrun & Hcalled).
  - reflexivity.
  - reflexivity.
  - reflexivity.
  - exact Ha.
  - exact toy_finished.
  - exists ws', input, cfg. split; [|exact Hcalled]. etransitivity; [exact Hrun|reflexivity].
Defined.

(** The client leaves after the first of two responses. *)
Lemma request_chat_disconnected_witness : ∃ ws' input cfg,
  run_chat (toy_ctx false) "1" leaving user_chat toy_worlds =
    (ws', Some (Ok (JSONResponse 400 "The request has disconnected"))) ∧
  called 0 toy_worlds ws' [FCreate "req" input cfg; FAdd "req"; FAbort "req"].
Proof.
  destruct toy_answered as (cfg & input & Ha).
  destruct (request_chat_disconnected (T:=unit) no_images (λ _, 0) fn_name (λ _, "all") toy_logprob toy_usage
      toy_ast (λ _, raise ValueError "") (λ v, Ok v) (λ _ _, "call_0") cr_id toy_engines (toy_ctx false) "1" leaving
      user_chat 0 toy_worlds cfg input false toy_outs toy_usage_value 1) as (ws' & Hrun & Hcalled).
  - reflexivity.
  - reflexivity.
  - exact Ha.
  - vm_compute. lia.
  - intros [|j] Hj; [reflexivity|lia].
  - reflexivity.
  - exists ws', input, cfg. split; [exact Hrun|exact Hcalled].
Defined.

(** A micro-serving request to a server that does not debug: the entry point drops the debug configuration that
    carries the disaggregation, the prompt is answered as an ordinary one, and the usage has no extra part. *)
Definition prep_request : CompletionRequest := {|
  c_model := Some "m"; c_prompt := CPStr "Hi"; c_best_of := 1; c_echo := false;
  c_frequency_penalty := None; c_presence_penalty := None; c_logprobs := None;
  c_logit_bias := None; c_max_tokens := None; c_n := 1; c_seed := None; c_stop := None;
  c_stream := false; c_stream_options := None; c_suffix := None; c_temperature := None;
  c_top_p := None; c_user := Some "req"; c_response_format := None;
  c_debug_config := Some {| ignore_eos := false; pinned_system_prompt := false; special_request := None;
    grammar_execution_mode := jump_forward; disagg_config := None |} |}.
Definition run_prep_recv (debug : bool) :=
  prep_recv (T:=unit) (λ _ : unit, 0) toy_logprob toy_usage (λ _, "") toy_engines (toy_ctx debug) "1" staying prep_request 10%Z toy_worlds.
Definition disagg_of (c : ffi_call unit) : option DisaggConfig :=
  match c with FCreate _ _ cfg => g_debug_config cfg ≫= disagg_config | _ => None end.
Lemma prep_recv_without_debug :
  (run_prep_recv false).2 = Some (raise AssertionError "response.usage.extra is not None") ∧
  disagg_of <$> w_ffi ((run_prep_recv false).1 0) = [None; None] ∧
  (fmap kind ∘ disagg_of) <$> w_ffi ((run_prep_recv true).1 0) = [Some (Some prepare_receive); None].
Proof. vm_compute. by split_and!. Qed.
End Example.
