(* ===== verification/SyncEngine.v ===== *)
(** The synchronous engine of [python/mlc_llm/serve/sync_engine.py]: [SyncMLCEngine] with its
    [generate], which puts its own callback into the C++ engine, steps the engine until every
    generation has finished, and puts the old callback back.

    The engine is the environment: a step calls the callback some number of times, with deliveries
    that name requests by their ids. *)

From Stdlib Require Import Lia ZArith.
From stdpp Require Import base gmap strings list pretty.
From S2P Require Import Prelude PyString Conversation EngineUtils StreamBase EngineBase.

(** ** The engine *)

(** What [set_request_stream_callback] was last given: a callback of the user, if any, or the one of [generate]. *)
Inductive callback := User (f : option nat) | Generating.
(** The calls of the engine's functions. *)
Inductive sync_call (Img : Type) :=
  | SGet
  | SSet (f : callback)
  | SCreate (request_id : string) (inputs : list (Data Img)) (cfg : GenerationConfig)
  | SAdd (request_id : string)
  | SStep
  | SAbort (request_id : string)
  | SReset.
Arguments SGet {Img}. Arguments SSet {Img}. Arguments SCreate {Img}. Arguments SAdd {Img}. Arguments SStep {Img}.
Arguments SAbort {Img}. Arguments SReset {Img}.

(** The local variables of a [generate] that its callback changes. *)
Record Locals (T : Type) := mkLocals {
  output_texts : list (list string);
  output_logprobs_str : list (option (list (list string)));
  text_streamers : list (list T);
  num_finished_generations : nat;
}.
Arguments mkLocals {T}. Arguments output_texts {T}. Arguments output_logprobs_str {T}. Arguments text_streamers {T}.
Arguments num_finished_generations {T}.
Record SyncWorld (T Img : Type) := mkSync { installed : callback; calls : list (sync_call Img); locals : Locals T }.
Arguments mkSync {T Img}. Arguments installed {T Img}. Arguments calls {T Img}. Arguments locals {T Img}.

(** A prompt of the list, and the prompts. An [SInt] is a token id where a prompt should be, [SMixed] a list that
    starts with a token id and has other things in it. *)
Inductive sync_prompt (Img : Type) :=
  | SText (s : string)
  | SInt (z : Z)
  | STokens (l : list Z)
  | SMixed
  | SData (l : list (Data Img)).
Arguments SText {Img}. Arguments SInt {Img}. Arguments STokens {Img}. Arguments SMixed {Img}. Arguments SData {Img}.
Inductive sync_prompts (Img : Type) := OnePrompt (s : string) | Prompts (l : list (sync_prompt Img)).
Arguments OnePrompt {Img}. Arguments Prompts {Img}.
Inductive sync_configs := OneConfig (c : GenerationConfig) | Configs (l : list GenerationConfig).

Section sync.
Context {T Img : Type} `{TextStreamer T}.
Abbreviation World := (SyncWorld T Img).

Definition call (c : sync_call Img) : stM World unit := st_modify (λ w, mkSync (installed w) (calls w ++ [c]) (locals w)).
Definition get_request_stream_callback : stM World callback := _ ← call SGet; w ← st_get; mret (installed w).
Definition set_request_stream_callback (f : callback) : stM World unit :=
  _ ← call (SSet f); st_modify (λ w, mkSync f (calls w) (locals w)).
Definition create_request (request_id : string) (inputs : list (Data Img)) (cfg : GenerationConfig) : stM World unit :=
  call (SCreate request_id inputs cfg).
Definition add_request (request_id : string) : stM World unit := call (SAdd request_id).
Definition abort_request (request_id : string) : stM World unit := call (SAbort request_id).
Definition reset : stM World unit := call SReset.

(** [l[z]] of a Python list: negative indices count from the end. *)
Definition z_index {A} (l : list A) (z : Z) : result nat :=
  let n := Z.of_nat (length l) in
  let z := if (z <? 0)%Z then (z + n)%Z else z in
  if (0 <=? z)%Z && (z <? n)%Z then Ok (Z.to_nat z) else raise IndexError "list index out of range".

(** [__init__]: the configuration the engine is initialized with, and the template of the conversations. *)
Definition default_config : EngineConfig := {|
  ec_model := None; ec_model_lib := None; ec_additional_models := []; ec_mode := None; ec_kv_cache_page_size := 16;
  ec_max_num_sequence := None; ec_max_total_sequence_length := None; ec_max_single_sequence_length := None;
  ec_prefill_chunk_size := None; ec_sliding_window_size := None; ec_attention_sink_size := None;
  ec_tensor_parallel_shards := None; ec_pipeline_parallel_stages := None; ec_opt := None |}.
Definition __init__ (get_or_download_model : string → result string) (load_conv_template : string → result Conversation)
    (is_file : string → bool) (jit : string → list (string * option Z) → option string → result string)
    (experimental : option string) (model : string) (model_lib : option string) (mode : EngineMode)
    (engine_config : option EngineConfig) : result (EngineConfig * Conversation) :=
  let c := default default_config engine_config in
  _ ← _check_engine_config experimental model model_lib mode c;
  let models := _parse_models model model_lib (ec_additional_models c) in
  '(model_args, _, conv_template) ← _process_model_args get_or_download_model load_conv_template is_file jit models c;
  first ← py_index model_args 0;
  Ok ({| ec_model := Some first.1; ec_model_lib := Some first.2;
         ec_additional_models := (λ a, AMPair a.1 a.2) <$> drop 1 model_args; ec_mode := Some mode;
         ec_kv_cache_page_size := ec_kv_cache_page_size c; ec_max_num_sequence := ec_max_num_sequence c;
         ec_max_total_sequence_length := ec_max_total_sequence_length c;
         ec_max_single_sequence_length := ec_max_single_sequence_length c; ec_prefill_chunk_size := ec_prefill_chunk_size c;
         ec_sliding_window_size := ec_sliding_window_size c; ec_attention_sink_size := ec_attention_sink_size c;
         ec_tensor_parallel_shards := ec_tensor_parallel_shards c; ec_pipeline_parallel_stages := ec_pipeline_parallel_stages c;
         ec_opt := ec_opt c |}, conv_template).

(** ** The callback of [generate] *)

(** The output of generation [i] of request [rid]: its logprobs, its text, whether it is the last. *)
Definition add_logprobs (rid i : nat) (stream_output : SingleRequestStreamOutput) (lps : list (option (list (list string)))) :
    result (list (option (list (list string)))) :=
  rows ← py_index lps rid;
  match rows with
  | None => Ok lps
  | Some rows =>
      match so_logprob_json_strs stream_output with
      | None => raise AssertionError "stream_output.delta_logprob_json_strs is not None"
      | Some strs =>
          row ← py_index rows i;
          rows ← py_setitem rows i (row ++ strs);
          py_setitem lps rid (Some rows)
      end
  end.
Definition on_output (rid i : nat) (stream_output : SingleRequestStreamOutput) : stM (Locals T) unit :=
  s ← st_get;
  lps ← st_lift (add_logprobs rid i stream_output (output_logprobs_str s));
  _ ← st_modify (λ s, mkLocals (output_texts s) lps (text_streamers s) (num_finished_generations s));
  streamers ← st_lift (py_index (text_streamers s) rid);
  text_streamer ← st_lift (py_index streamers i);
  let '(text_streamer, delta_text) := detokenize stream_output text_streamer in
  _ ← st_modify (λ s, mkLocals (output_texts s) (output_logprobs_str s) (<[rid := <[i := text_streamer]> streamers]> (text_streamers s))
        (num_finished_generations s));
  texts ← st_lift (py_index (output_texts s) rid);
  text ← st_lift (py_index texts i);
  st_modify (λ s, mkLocals (<[rid := <[i := text +:+ delta_text]> texts]> (output_texts s)) (output_logprobs_str s) (text_streamers s)
    (if bool_decide (is_Some (so_finish_reason stream_output)) then S (num_finished_generations s) else num_finished_generations s)).
(** The loop over [enumerate(zip(stream_outputs, text_streamers[rid]))]. *)
Fixpoint on_outputs (rid i : nat) (stream_outputs : list SingleRequestStreamOutput) : stM (Locals T) unit :=
  match stream_outputs with
  | [] => mret tt
  | o :: stream_outputs => _ ← on_output rid i o; on_outputs rid (S i) stream_outputs
  end.
Definition on_delta (generation_config : list GenerationConfig) (delta_output : RequestStreamOutput) : stM (Locals T) unit :=
  '(request_id, stream_outputs) ← st_lift (unpack delta_output);
  rid ← st_lift match py_int request_id with Some z => Ok z | None => raise ValueError "invalid literal for int()" end;
  rid ← st_lift (z_index generation_config rid);
  cfg ← st_lift (py_index generation_config rid);
  _ ← st_lift (py_assert (length stream_outputs =? g_n cfg) "len(stream_outputs) == generation_config[rid].n");
  on_outputs rid 0 stream_outputs.
Definition request_stream_callback (generation_config : list GenerationConfig) : list RequestStreamOutput → stM (Locals T) unit :=
  st_iter (on_delta generation_config).

(** [self.step()]: the engine calls the installed callback with each of the batches; what the callback of the
    user does is not seen here. *)
Definition call_back (generation_config : list GenerationConfig) (batches : list (list RequestStreamOutput)) : stM World unit :=
  λ w, match installed w with
       | User _ => (w, Ok tt)
       | Generating => let '(s, r) := st_iter (request_stream_callback generation_config) batches (locals w) in
                       (mkSync (installed w) (calls w) s, r)
       end.
Definition step (generation_config : list GenerationConfig) (batches : list (list RequestStreamOutput)) : stM World unit :=
  _ ← call SStep; call_back generation_config batches.

(** ** [generate] *)

Definition convert_to_data (prompt : sync_prompt Img) : result (list (Data Img)) :=
  match prompt with
  | SText s => Ok [TextData s]
  | SInt _ => raise TypeError "'int' object is not subscriptable"
  | STokens [] | SData [] => raise IndexError "list index out of range"
  | STokens l => Ok [TokenData l]
  | SMixed => raise TypeError "token_ids"
  | SData l => Ok l
  end.
(** A list of token ids, if it is one. *)
Fixpoint token_ids (l : list (sync_prompt Img)) : option (list Z) :=
  match l with
  | [] => Some []
  | SInt z :: l => cons z <$> token_ids l
  | _ :: _ => None
  end.
Definition prompt_list (prompts : sync_prompts Img) : list (sync_prompt Img) :=
  match prompts with
  | OnePrompt s => [SText s]
  | Prompts (SInt z :: l) => [match token_ids (SInt z :: l) with Some zs => STokens zs | None => SMixed end]
  | Prompts l => l
  end.
Definition fresh (generation_config : list GenerationConfig) : Locals T :=
  mkLocals ((λ c, replicate (g_n c) "") <$> generation_config)
    ((λ c, if g_logprobs c then Some (replicate (g_n c) []) else None) <$> generation_config)
    ((λ c, replicate (g_n c) ts_new) <$> generation_config) 0.
(** [while num_finished_generations != num_total_generations: self.step()], over what the engine does at each step;
    [None] when that is not enough to end. *)
Fixpoint step_loop (cfgs : list GenerationConfig) (total : nat) (steps : list (list (list RequestStreamOutput))) (w : World) :
    World * option (result unit) :=
  if num_finished_generations (locals w) =? total then (w, Some (Ok tt))
  else match steps with
       | [] => (w, None)
       | s :: steps =>
           match step cfgs s w with
           | (w, Ok _) => step_loop cfgs total steps w
           | (w, Err e) => (w, Some (Err e))
           end
       end.
Definition add_prompt (p : nat * (sync_prompt Img * GenerationConfig)) : stM World unit :=
  let '(req_id, (prompt, generation_cfg)) := p in
  input_data ← st_lift (convert_to_data prompt);
  _ ← create_request (pretty (Z.of_nat req_id)) input_data generation_cfg;
  add_request (pretty (Z.of_nat req_id)).
Definition generation_configs (generation_config : sync_configs) (num_requests : nat) : result (list GenerationConfig) :=
  let generation_config := match generation_config with OneConfig c => replicate num_requests c | Configs l => l end in
  _ ← py_assert (length generation_config =? num_requests) "Number of generation config and number of prompts mismatch";
  Ok generation_config.
Definition total_generations (cfgs : list GenerationConfig) : nat := foldr (λ c n, g_n c + n) 0 cfgs.
(** Up to the first step: the prompts are in the engine, and the callback is there. *)
Definition start (prompts : list (sync_prompt Img)) (cfgs : list GenerationConfig) : stM World callback :=
  _ ← st_modify (λ w, mkSync (installed w) (calls w) (fresh cfgs));
  original_callback ← get_request_stream_callback;
  _ ← set_request_stream_callback Generating;
  _ ← st_iter add_prompt (enumerate (zip prompts cfgs));
  mret original_callback.
Definition generate (prompts : sync_prompts Img) (generation_config : sync_configs) (steps : list (list (list RequestStreamOutput)))
    (w : World) : World * option (result (list (list string) * list (option (list (list string))))) :=
  match prompt_list prompts with
  | [] => (w, Some (Ok ([], [])))
  | prompts =>
      match generation_configs generation_config (length prompts) with
      | Err e => (w, Some (Err e))
      | Ok cfgs =>
          match start prompts cfgs w with
          | (w, Err e) => (w, Some (Err e))
          | (w, Ok original_callback) =>
              match step_loop cfgs (total_generations cfgs) steps w with
              | (w, Some (Ok _)) =>
                  let w := (set_request_stream_callback original_callback w).1 in
                  (w, Some (Ok (output_texts (locals w), output_logprobs_str (locals w))))
              | (w, Some (Err e)) => (w, Some (Err e))
              | (w, None) => (w, None)
              end
          end
      end
  end.
End sync.

(** ** What [generate] keeps, from what was delivered

    A delivery is a request's number and its outputs, one per generation. *)

Definition delivery : Type := nat * list SingleRequestStreamOutput.
Definition output_at (r i : nat) (e : delivery) : option SingleRequestStreamOutput := if decide (e.1 = r) then e.2 !! i else None.
(** The outputs of generation [i] of request [r]. *)
Definition outs_of (r i : nat) (es : list delivery) : list SingleRequestStreamOutput := omap (output_at r i) es.
Definition grid {A} (f : nat → nat → A) (cfgs : list GenerationConfig) : list (list A) :=
  imap (λ r c, f r <$> seq 0 (g_n c)) cfgs.
Definition generations (cfgs : list GenerationConfig) : list (nat * nat) := mjoin (grid pair cfgs).
Definition finishes_in (os : list SingleRequestStreamOutput) : nat := length (filter (λ o, is_Some (so_finish_reason o)) os).
Fixpoint total (f : nat * nat → nat) (l : list (nat * nat)) : nat := match l with [] => 0 | p :: l => f p + total f l end.
Definition logprobs_of (os : list SingleRequestStreamOutput) : list string := mjoin ((λ o, default [] (so_logprob_json_strs o)) <$> os).
Definition texts_of `{TextStreamer T} (cfgs : list GenerationConfig) (es : list delivery) : list (list string) :=
  grid (λ r i, concat_str (detok_run (T:=T) (outs_of r i es) ts_new).2) cfgs.
Definition logprobs_grid (cfgs : list GenerationConfig) (es : list delivery) : list (option (list (list string))) :=
  zip_with (λ c row, if g_logprobs c then Some row else None) cfgs (grid (λ r i, logprobs_of (outs_of r i es)) cfgs).
Definition state_of `{TextStreamer T} (cfgs : list GenerationConfig) (es : list delivery) : Locals T :=
  mkLocals (texts_of (T:=T) cfgs es) (logprobs_grid cfgs es) (grid (λ r i, (detok_run (outs_of r i es) ts_new).1) cfgs)
    (total (λ p, finishes_in (outs_of p.1 p.2 es)) (generations cfgs)).

Lemma grid_lookup {A} (f : nat → nat → A) cfgs r c : cfgs !! r = Some c → grid f cfgs !! r = Some (f r <$> seq 0 (g_n c)).
Proof. intros Hc. unfold grid. by rewrite list_lookup_imap, Hc. Qed.
Lemma seq_lookup {A} (f : nat → A) n i : i < n → (f <$> seq 0 n) !! i = Some (f i).
Proof. intros Hi. rewrite list_lookup_fmap, lookup_seq_lt by done. done. Qed.
Lemma seq_update {A} (f g : nat → A) n i :
  (∀ j, j ≠ i → g j = f j) → <[i := g i]> (f <$> seq 0 n) = g <$> seq 0 n.
Proof.
  intros Hfg. apply list_eq. intros j. destruct (decide (j < n)) as [Hj|Hj].
  - rewrite (seq_lookup g) by done. destruct (decide (i = j)) as [->|Hij].
    + rewrite list_lookup_insert_eq; [done|]. by rewrite length_fmap, length_seq.
    + rewrite list_lookup_insert_ne, seq_lookup, Hfg by done. done.
  - rewrite !lookup_ge_None_2; [done|rewrite length_fmap, length_seq; lia|rewrite length_insert, length_fmap, length_seq; lia].
Qed.
Lemma grid_update {A} (f g : nat → nat → A) cfgs r i c :
  cfgs !! r = Some c → (∀ r' j, (r', j) ≠ (r, i) → g r' j = f r' j) →
  <[r := <[i := g r i]> (f r <$> seq 0 (g_n c))]> (grid f cfgs) = grid g cfgs.
Proof.
  intros Hc Hfg. rewrite (seq_update (f r) (g r)) by (intros j Hj; apply Hfg; congruence).
  apply list_eq. intros r'. destruct (decide (r = r')) as [->|Hr].
  - rewrite list_lookup_insert_eq, (grid_lookup g _ _ c); [done|done|]. unfold grid. rewrite length_imap. by eapply lookup_lt_Some.
  - rewrite list_lookup_insert_ne by done. unfold grid. rewrite !list_lookup_imap. destruct (cfgs !! r') as [c'|]; [|done].
    cbn. f_equal. apply list_fmap_ext. intros j x _. rewrite Hfg; [done|congruence].
Qed.
Lemma generations_elem cfgs p : p ∈ generations cfgs ↔ ∃ c, cfgs !! p.1 = Some c ∧ p.2 < g_n c.
Proof.
  unfold generations. rewrite list_elem_of_join. unfold grid. split.
  - intros (row & Hp & Hrow). apply elem_of_lookup_imap in Hrow as (r & c & -> & Hc).
    apply list_elem_of_fmap in Hp as (i & -> & Hi). apply elem_of_seq in Hi. exists c. cbn. split; [done|lia].
  - intros (c & Hc & Hi). exists (pair p.1 <$> seq 0 (g_n c)). split.
    + apply list_elem_of_fmap. exists p.2. split; [by destruct p|]. apply elem_of_seq. lia.
    + apply elem_of_lookup_imap. by exists p.1, c.
Qed.
Lemma generations_from cfgs k : NoDup (mjoin (imap (λ r c, pair (k + r) <$> seq 0 (g_n c)) cfgs)).
Proof.
  revert k. induction cfgs as [|c cfgs IH]; intros k; [constructor|]. cbn [imap mjoin list_join]. rewrite Nat.add_0_r.
  apply NoDup_app. split_and!.
  - apply NoDup_fmap_2; [intros x y [= ->]; done|apply NoDup_seq].
  - intros p Hp Hq. apply list_elem_of_fmap in Hp as (i & -> & _). apply list_elem_of_join in Hq as (row & Hq & Hrow).
    apply elem_of_lookup_imap in Hrow as (r & c' & -> & _). apply list_elem_of_fmap in Hq as (j & [= Hr _] & _). unfold compose in Hr. lia.
  - erewrite imap_ext; [apply (IH (S k))|]. intros r c' _. unfold compose. by rewrite Nat.add_succ_comm.
Qed.
Lemma generations_NoDup cfgs : NoDup (generations cfgs).
Proof. apply (generations_from cfgs 0). Qed.
Lemma total_ext f g l : (∀ p, p ∈ l → g p = f p) → total g l = total f l.
Proof.
  induction l as [|p l IH]; intros Hfg; cbn; [done|]. rewrite Hfg by (by left). f_equal. apply IH. intros q Hq. apply Hfg. by right.
Qed.
Lemma total_update f g l q d :
  NoDup l → q ∈ l → (∀ p, p ≠ q → g p = f p) → g q = f q + d → total g l = total f l + d.
Proof.
  intros Hl Hq Hfg Hgq. induction Hl as [|p l Hp Hl IH]; [by apply elem_of_nil in Hq|]. cbn.
  apply elem_of_cons in Hq as [->|Hq].
  - rewrite Hgq, (total_ext f g l); [lia|]. intros p' Hp'. apply Hfg. by intros ->.
  - rewrite IH, Hfg by (done || by intros ->). lia.
Qed.
Lemma total_ones f l : (∀ p, p ∈ l → f p ≤ 1) → total f l ≤ length l ∧ (total f l = length l ↔ ∀ p, p ∈ l → f p = 1).
Proof.
  induction l as [|p l IH]; intros Hf; cbn.
  - split; [lia|]. split; [by intros _ q Hq%elem_of_nil|done].
  - assert (f p ≤ 1) as Hp by (apply Hf; by left). destruct IH as [Hle Heq]; [intros q Hq; apply Hf; by right|].
    split; [lia|]. split.
    + intros Ht q Hq. apply elem_of_cons in Hq as [->|Hq]; [lia|]. apply Heq; [lia|done].
    + intros Hall. rewrite (proj2 Heq) by (intros q Hq; apply Hall; by right). rewrite (Hall p) by by left. lia.
Qed.
Lemma generations_total cfgs : length (generations cfgs) = total_generations cfgs.
Proof.
  unfold generations. assert (∀ k, length (mjoin (imap (λ r c, pair (k + r) <$> seq 0 (g_n c)) cfgs)) = total_generations cfgs) as Hk; [|apply (Hk 0)].
  induction cfgs as [|c cfgs IH]; intros k; [done|]. cbn [imap mjoin list_join total_generations foldr]. rewrite length_app, length_fmap, length_seq.
  f_equal. erewrite imap_ext; [apply (IH (S k))|]. intros r c' _. unfold compose. by rewrite Nat.add_succ_comm.
Qed.

(** One more output. *)
Lemma outs_of_app r i es es' : outs_of r i (es ++ es') = outs_of r i es ++ outs_of r i es'.
Proof. unfold outs_of. apply omap_app. Qed.
Lemma outs_of_here r (done_ : list SingleRequestStreamOutput) o es :
  outs_of r (length done_) (es ++ [(r, done_)]) = outs_of r (length done_) es ∧
  outs_of r (length done_) (es ++ [(r, done_ ++ [o])]) = outs_of r (length done_) es ++ [o].
Proof.
  rewrite !outs_of_app. unfold outs_of at 2 5. cbn [omap list_omap]. unfold output_at. cbn [fst snd].
  rewrite !decide_True by done. rewrite lookup_ge_None_2, list_lookup_middle by lia. by rewrite app_nil_r.
Qed.
Lemma outs_of_there r (done_ : list SingleRequestStreamOutput) o es r' j :
  (r', j) ≠ (r, length done_) → outs_of r' j (es ++ [(r, done_ ++ [o])]) = outs_of r' j (es ++ [(r, done_)]).
Proof.
  intros Hne. rewrite !outs_of_app. f_equal. unfold outs_of, output_at. cbn. case_decide as Hr; [|done]. subst r'.
  replace ((done_ ++ [o]) !! j) with (done_ !! j); [done|]. destruct (decide (j < length done_)).
  - by rewrite lookup_app_l by done.
  - rewrite !lookup_ge_None_2; [done|rewrite length_app; cbn; assert (j ≠ length done_) by congruence; lia|lia].
Qed.
Lemma outs_of_nothing r i es r' : outs_of r i (es ++ [(r', [])]) = outs_of r i es.
Proof. rewrite outs_of_app. unfold outs_of at 2, output_at. cbn. case_decide; by rewrite app_nil_r. Qed.

Section callbacks.
Context {T Img : Type} `{TextStreamer T}.
Implicit Types (s : Locals T) (os : list SingleRequestStreamOutput).

Lemma detok_run_snoc os o (t : T) :
  (detok_run (os ++ [o]) t).1 = (detokenize o (detok_run os t).1).1 ∧
  concat_str (detok_run (os ++ [o]) t).2 = concat_str (detok_run os t).2 +:+ (detokenize o (detok_run os t).1).2.
Proof.
  split.
  - revert t. induction os as [|o' os IH]; intros t; cbn [app detok_run].
    + cbn [fst]. by destruct (detokenize o t).
    + destruct (detokenize o' t) as [t1 s1]. specialize (IH t1). by destruct (detok_run (os ++ [o]) t1), (detok_run os t1).
  - rewrite detok_run_app, concat_str_app. f_equal. cbn [detok_run]. destruct (detokenize o _) as [t1 s1]. cbn [snd]. by rewrite concat_str_cons, append_nil_r.
Qed.
Lemma logprobs_lookup cfgs es r c :
  cfgs !! r = Some c → logprobs_grid cfgs es !! r =
    Some (if g_logprobs c then Some ((λ i, logprobs_of (outs_of r i es)) <$> seq 0 (g_n c)) else None).
Proof. intros Hc. unfold logprobs_grid. by rewrite lookup_zip_with, Hc, (grid_lookup _ _ _ c) by done. Qed.
Lemma logprobs_snoc os o : logprobs_of (os ++ [o]) = logprobs_of os ++ default [] (so_logprob_json_strs o).
Proof. unfold logprobs_of. rewrite fmap_app, join_app. cbn. by rewrite app_nil_r. Qed.
Lemma finishes_snoc os o :
  finishes_in (os ++ [o]) = finishes_in os + (if bool_decide (is_Some (so_finish_reason o)) then 1 else 0).
Proof.
  unfold finishes_in. rewrite list.filter_app, length_app. f_equal. rewrite filter_cons, list.filter_nil.
  case_decide; [by rewrite bool_decide_true|by rewrite bool_decide_false].
Qed.

Lemma on_output_run rid i o tx lp (ts : list (list T)) nf lp' trow t xrow x :
  add_logprobs rid i o lp = Ok lp' → ts !! rid = Some trow → trow !! i = Some t → tx !! rid = Some xrow → xrow !! i = Some x →
  on_output rid i o (mkLocals tx lp ts nf) =
    (mkLocals (<[rid := <[i := x +:+ (detokenize o t).2]> xrow]> tx) lp' (<[rid := <[i := (detokenize o t).1]> trow]> ts)
      (if bool_decide (is_Some (so_finish_reason o)) then S nf else nf), Ok tt).
Proof.
  intros Hl Htr Ht Hxr Hx. unfold on_output, st_get, st_lift, st_modify, mbind, stM_bind, py_index.
  cbn [output_logprobs_str]. rewrite Hl. cbn [text_streamers output_texts output_logprobs_str num_finished_generations].
  rewrite Htr, Ht. destruct (detokenize o t) as [t' text]. cbn [text_streamers output_texts output_logprobs_str num_finished_generations fst snd].
  rewrite Hxr, Hx. done.
Qed.

(** An output [o] of request [r] after the outputs [done_] of the same delivery. *)
Section output.
Context (cfgs : list GenerationConfig) (es : list delivery) (r : nat) (c : GenerationConfig) (done_ : list SingleRequestStreamOutput)
  (o : SingleRequestStreamOutput).
Hypothesis Hc : cfgs !! r = Some c.
Hypothesis Hi : length done_ < g_n c.
Hypothesis Hlp : g_logprobs c = true → is_Some (so_logprob_json_strs o).
Let i := length done_.
Let es1 := es ++ [(r, done_)].
Let es2 := es ++ [(r, done_ ++ [o])].

Lemma outs_of_after r' j : outs_of r' j es2 = if decide ((r', j) = (r, i)) then outs_of r i es1 ++ [o] else outs_of r' j es1.
Proof.
  case_decide as Hp; [|by apply outs_of_there]. injection Hp as -> ->. unfold es1, es2, i.
  destruct (outs_of_here r done_ o es) as [E1 E2]. etrans; [exact E2|]. by rewrite <-E1.
Qed.
Lemma grid_after {A} (f : list SingleRequestStreamOutput → A) :
  <[r := <[i := f (outs_of r i es1 ++ [o])]> ((λ j, f (outs_of r j es1)) <$> seq 0 (g_n c))]> (grid (λ r j, f (outs_of r j es1)) cfgs) =
  grid (λ r j, f (outs_of r j es2)) cfgs.
Proof.
  rewrite <-(grid_update (λ r j, f (outs_of r j es1)) (λ r j, f (outs_of r j es2)) cfgs r i c Hc).
  - by rewrite outs_of_after, decide_True.
  - intros r' j Hne. by rewrite outs_of_after, decide_False.
Qed.
Lemma logprobs_after :
  logprobs_grid cfgs es2 = <[r := if g_logprobs c
    then Some (<[i := logprobs_of (outs_of r i es1) ++ default [] (so_logprob_json_strs o)]> ((λ j, logprobs_of (outs_of r j es1)) <$> seq 0 (g_n c)))
    else None]> (logprobs_grid cfgs es1).
Proof.
  unfold logprobs_grid. rewrite <-logprobs_snoc, <-(grid_after logprobs_of).
  match goal with |- zip_with ?f _ (<[_:=?row]> ?G) = _ => pose proof (insert_zip_with f cfgs G r c row) as Hz end.
  rewrite (list_insert_id cfgs r c Hc) in Hz. by rewrite <-Hz.
Qed.
Lemma add_logprobs_after : add_logprobs r i o (logprobs_grid cfgs es1) = Ok (logprobs_grid cfgs es2).
Proof.
  assert (r < length (logprobs_grid cfgs es1)) as Hr by (eapply lookup_lt_Some, logprobs_lookup, Hc).
  rewrite logprobs_after. unfold add_logprobs, py_index.
  rewrite (logprobs_lookup _ _ _ c Hc).
  cbn [mbind result_bind]. destruct (g_logprobs c) eqn:El.
  - destruct (Hlp eq_refl) as [strs Hs]. rewrite Hs. rewrite seq_lookup by done. cbn [mbind result_bind].
    unfold py_setitem. rewrite decide_True by (by rewrite length_fmap, length_seq). cbn [mbind result_bind]. by rewrite decide_True.
  - f_equal. symmetry. apply list_insert_id. by rewrite (logprobs_lookup _ _ _ c Hc), El.
Qed.
Lemma on_output_after : on_output r i o (state_of (T:=T) cfgs es1) = (state_of cfgs es2, Ok tt).
Proof.
  assert (state_of (T:=T) cfgs es2 = mkLocals
    (<[r := <[i := concat_str (detok_run (outs_of r i es1) ts_new).2 +:+ (detokenize o (detok_run (outs_of r i es1) ts_new).1).2]>
      ((λ j, concat_str (detok_run (T:=T) (outs_of r j es1) ts_new).2) <$> seq 0 (g_n c))]> (texts_of (T:=T) cfgs es1))
    (logprobs_grid cfgs es2)
    (<[r := <[i := (detokenize o (detok_run (outs_of r i es1) ts_new).1).1]>
      ((λ j, (detok_run (outs_of r j es1) ts_new).1) <$> seq 0 (g_n c))]> (grid (λ r j, (detok_run (outs_of r j es1) ts_new).1) cfgs))
    (if bool_decide (is_Some (so_finish_reason o)) then S (num_finished_generations (state_of (T:=T) cfgs es1))
     else num_finished_generations (state_of (T:=T) cfgs es1))) as ->.
  { destruct (detok_run_snoc (outs_of r i es1) o ts_new) as [<- <-]. unfold state_of at 1, texts_of.
    rewrite (grid_after (λ os, concat_str (detok_run os ts_new).2)), (grid_after (λ os, (detok_run os ts_new).1)). f_equal.
    cbn [num_finished_generations state_of].
    rewrite (total_update (λ p, finishes_in (outs_of p.1 p.2 es1)) (λ p, finishes_in (outs_of p.1 p.2 es2)) _ (r, i)
      (if bool_decide (is_Some (so_finish_reason o)) then 1 else 0)).
    - case_bool_decide; lia.
    - apply generations_NoDup.
    - apply generations_elem. by exists c.
    - intros [r' j] Hp. cbn [fst snd]. by rewrite outs_of_after, decide_False.
    - cbn [fst snd]. by rewrite outs_of_after, decide_True, finishes_snoc. }
  unfold state_of. cbn [num_finished_generations]. apply on_output_run;
    [exact add_logprobs_after|by rewrite (grid_lookup _ _ _ c)|by rewrite seq_lookup
    |unfold texts_of; by rewrite (grid_lookup _ _ _ c)|by rewrite seq_lookup].
Qed.
End output.

(** A delivery that [generate] can take: one output for each generation of one of its requests, with logprobs if they
    were asked for. *)
Record answers (cfgs : list GenerationConfig) (d : RequestStreamOutput) (e : delivery) : Prop := {
  aw_unpack : unpack d = Ok (pretty (Z.of_nat e.1), e.2);
  aw_config : ∃ c, cfgs !! e.1 = Some c ∧ length e.2 = g_n c ∧
    (g_logprobs c = true → Forall (λ o, is_Some (so_logprob_json_strs o)) e.2);
}.
Abbreviation locals_of cfgs es := (state_of (T:=T) cfgs es).

Lemma state_of_nothing cfgs es r : locals_of cfgs (es ++ [(r, [])]) = locals_of cfgs es.
Proof.
  unfold state_of, texts_of, logprobs_grid. f_equal.
  - unfold grid. apply imap_ext. intros r' c _. apply list_fmap_ext. intros j x _. by rewrite outs_of_nothing.
  - f_equal. unfold grid. apply imap_ext. intros r' c _. apply list_fmap_ext. intros j x _. by rewrite outs_of_nothing.
  - unfold grid. apply imap_ext. intros r' c _. apply list_fmap_ext. intros j x _. by rewrite outs_of_nothing.
  - apply total_ext. intros p _. by rewrite outs_of_nothing.
Qed.
Lemma on_outputs_after cfgs es r c os done_ :
  cfgs !! r = Some c → length done_ + length os ≤ g_n c →
  (g_logprobs c = true → Forall (λ o, is_Some (so_logprob_json_strs o)) os) →
  on_outputs r (length done_) os (locals_of cfgs (es ++ [(r, done_)])) = (locals_of cfgs (es ++ [(r, done_ ++ os)]), Ok tt).
Proof.
  intros Hc. revert done_. induction os as [|o os IH]; intros done_ Hn Hl; cbn [on_outputs length] in *.
  - by rewrite app_nil_r.
  - unfold mbind, stM_bind. rewrite (on_output_after _ _ _ c _ _ Hc) by (lia || intros E; by apply Hl, Forall_cons in E as [? _]).
    specialize (IH (done_ ++ [o])). rewrite length_app, Nat.add_1_r, <-app_assoc in IH. apply IH; [lia|].
    intros E. by apply Hl, Forall_cons in E as [_ ?].
Qed.
Lemma z_index_nat {A} (l : list A) r : r < length l → z_index l (Z.of_nat r) = Ok r.
Proof.
  intros Hr. unfold z_index. destruct (Z.ltb_spec (Z.of_nat r) 0); [lia|].
  destruct (Z.leb_spec 0 (Z.of_nat r)), (Z.ltb_spec (Z.of_nat r) (Z.of_nat (length l))); cbn; [by rewrite Nat2Z.id|lia..].
Qed.
Lemma on_delta_after cfgs es d e : answers cfgs d e → on_delta cfgs d (locals_of cfgs es) = (locals_of cfgs (es ++ [e]), Ok tt).
Proof.
  intros [Hu (c & Hc & Hn & Hl)]. destruct e as [r os]. cbn [fst snd] in *.
  unfold on_delta, mbind, stM_bind, st_lift. rewrite Hu, py_int_pretty. cbn [fst snd].
  rewrite z_index_nat by by eapply lookup_lt_Some.
  unfold py_index. rewrite Hc, Hn, Nat.eqb_refl. cbn [py_assert].
  rewrite <-(state_of_nothing cfgs es r). apply (on_outputs_after cfgs es r c os []); [done|cbn; lia|done].
Qed.
Lemma callback_after cfgs es ds es' :
  Forall2 (answers cfgs) ds es' → request_stream_callback cfgs ds (locals_of cfgs es) = (locals_of cfgs (es ++ es'), Ok tt).
Proof.
  intros Hd. revert es. induction Hd as [|d e ds es' Hd _ IH]; intros es; [by rewrite app_nil_r|].
  unfold request_stream_callback in *. cbn [st_iter]. unfold mbind, stM_bind. rewrite (on_delta_after _ _ _ e Hd), IH.
  by rewrite <-app_assoc.
Qed.
Lemma batches_after cfgs es ds es' :
  Forall2 (Forall2 (answers cfgs)) ds es' →
  st_iter (request_stream_callback cfgs) ds (locals_of cfgs es) = (locals_of cfgs (es ++ mjoin es'), Ok tt).
Proof.
  intros Hd. revert es. induction Hd as [|d e ds es' Hd _ IH]; intros es; [by rewrite app_nil_r|].
  cbn [st_iter mjoin list_join]. unfold mbind, stM_bind. rewrite (callback_after _ _ _ e Hd), IH. by rewrite <-app_assoc.
Qed.
(** What the engine delivers: outputs of every generation of a request, or, when the request has ended, its usage, which
    [unpack] makes one output without tokens and logprobs. *)
Definition ends_request (e : delivery) : bool := existsb (λ o, bool_decide (is_Some (so_final_usage_json_str o))) e.2.
Inductive sends (cfgs : list GenerationConfig) : RequestStreamOutput → delivery → Prop :=
  | sends_outputs d e : answers cfgs d e → ends_request e = false → sends cfgs d e
  | sends_usage d r u : r < length cfgs → f_request_id d = pretty (Z.of_nat r) → f_final_usage_json_str d = Some u →
      sends cfgs d (r, [Build_SingleRequestStreamOutput [] None None (Some u) ""]).
(** A request whose usage looks like its other outputs, and a usage that the callback refuses. *)
Definition plain (c : GenerationConfig) : bool := (g_n c =? 1) && negb (g_logprobs c).
Definition refused (cfgs : list GenerationConfig) (e : delivery) : bool :=
  ends_request e && match cfgs !! e.1 with Some c => negb (plain c) | None => false end.
Definition asserts (m : stM (Locals T) unit) (s : Locals T) : Prop := ∃ s' e, m s = (s', Err e) ∧ exn_cls e = AssertionError.

Lemma sends_answers cfgs d e : sends cfgs d e → refused cfgs e = false → answers cfgs d e.
Proof.
  intros [d' e' Ha _|d' r u Hr Hid Hu]; [done|]. unfold refused, ends_request. cbn [fst snd existsb so_final_usage_json_str].
  destruct (lookup_lt_is_Some_2 _ _ Hr) as [c Hc]. rewrite Hc. cbn. intros Hp%negb_false_iff.
  apply andb_true_iff in Hp as [Hn%Nat.eqb_eq Hl%negb_true_iff].
  constructor; [unfold unpack; by rewrite Hu, Hid|]. exists c. cbn [fst snd length]. by rewrite Hn, Hl.
Qed.
Lemma plain_answers cfgs es : forallb plain cfgs = true → existsb (refused cfgs) es = false.
Proof.
  intros Hp. apply not_true_iff_false. intros (e & _ & He)%existsb_exists. unfold refused in He.
  apply andb_true_iff in He as [_ He]. destruct (cfgs !! e.1) as [c|] eqn:Hc; [|done].
  rewrite (proj1 (forallb_forall _ _) Hp c) in He; [done|]. apply list_elem_of_In. by eapply list_elem_of_lookup_2.
Qed.
Lemma on_delta_refuses cfgs es d e : sends cfgs d e → refused cfgs e = true → asserts (on_delta cfgs d) (locals_of cfgs es).
Proof.
  unfold refused. intros [d' e' _ ->|d' r u Hr Hid Hu]; [done|]. cbn [fst snd].
  destruct (lookup_lt_is_Some_2 _ _ Hr) as [c Hc]. rewrite Hc. cbn. intros Hp%negb_true_iff.
  unfold asserts, on_delta, mbind, stM_bind, st_lift, unpack. rewrite Hu, Hid, py_int_pretty, z_index_nat by done. unfold py_index.
  rewrite Hc. cbn [length]. unfold plain in Hp. rewrite (Nat.eqb_sym (g_n c)) in Hp.
  destruct (1 =? g_n c); cbn [py_assert andb] in *; [|by eexists _, _]. apply negb_false_iff in Hp.
  cbn [on_outputs]. unfold mbind at 1, stM_bind at 1, on_output at 1, mbind at 1, stM_bind at 1, st_get at 1, mbind at 1, stM_bind at 1,
    st_lift at 1, add_logprobs, py_index. cbn [output_logprobs_str state_of]. rewrite (logprobs_lookup _ _ _ c Hc), Hp. cbn.
  by eexists _, _.
Qed.
Lemma iter_asserts {A B} (f : A → stM (Locals T) unit) (P : A → B → Prop) (bad : B → bool) (to : list delivery → B → list delivery) cfgs :
  (∀ es a b, P a b → bad b = false → f a (locals_of cfgs es) = (locals_of cfgs (to es b), Ok tt)) →
  (∀ es a b, P a b → bad b = true → asserts (f a) (locals_of cfgs es)) →
  ∀ es la lb, Forall2 P la lb → existsb bad lb = true → asserts (st_iter f la) (locals_of cfgs es).
Proof.
  intros Hgood Hbad es la lb Hl. revert es. induction Hl as [|a b la lb Hab _ IH]; intros es He; [done|]. cbn [existsb] in He.
  destruct (bad b) eqn:Hb.
  - destruct (Hbad es a b Hab Hb) as (s & e & Hs & Hcls). exists s, e. cbn [st_iter]. unfold mbind, stM_bind. by rewrite Hs.
  - destruct (IH (to es b) He) as (s & e & Hs & Hcls). exists s, e. cbn [st_iter]. unfold mbind, stM_bind. by rewrite (Hgood es a b).
Qed.
Lemma Forall2_good {A B} (P Q : A → B → Prop) (bad : B → bool) la lb :
  (∀ a b, P a b → bad b = false → Q a b) → Forall2 P la lb → existsb bad lb = false → Forall2 Q la lb.
Proof.
  intros HPQ. induction 1 as [|a b la lb Hab _ IH]; [by constructor|]. cbn. intros [Hb Hl]%orb_false_iff. constructor; [by apply HPQ|by apply IH].
Qed.
Lemma all_answers cfgs ds es' : Forall2 (sends cfgs) ds es' → existsb (refused cfgs) es' = false → Forall2 (answers cfgs) ds es'.
Proof. apply Forall2_good, sends_answers. Qed.
(** A step in which the callback refuses a usage. *)
Definition refuses (cfgs : list GenerationConfig) (step : list (list delivery)) : bool := existsb (existsb (refused cfgs)) step.
Lemma steps_answers cfgs steps ess :
  Forall2 (Forall2 (Forall2 (sends cfgs))) steps ess → existsb (refuses cfgs) ess = false → Forall2 (Forall2 (Forall2 (answers cfgs))) steps ess.
Proof. apply Forall2_good. intros s e. apply Forall2_good. intros ds es. apply all_answers. Qed.
Lemma plain_steps cfgs ess : forallb plain cfgs = true → existsb (refuses cfgs) ess = false.
Proof.
  intros Hp. apply not_true_iff_false. intros (e & _ & (b & _ & He)%existsb_exists)%existsb_exists. by rewrite plain_answers in He.
Qed.
Lemma batches_refused cfgs es ds es' :
  Forall2 (Forall2 (sends cfgs)) ds es' → existsb (existsb (refused cfgs)) es' = true →
  asserts (st_iter (request_stream_callback cfgs) ds) (locals_of cfgs es).
Proof.
  apply (iter_asserts _ _ _ (λ es e, es ++ e)); clear.
  - intros es ds es' Hs Hr. by apply callback_after, all_answers.
  - intros es ds es' Hs Hr. unfold request_stream_callback. revert Hs Hr. apply (iter_asserts _ _ _ (λ es e, es ++ [e])); clear.
    + intros es d e Hs Hr. by apply on_delta_after, sends_answers.
    + intros es d e. by apply on_delta_refuses.
Qed.
Definition events (ess : list (list (list delivery))) : list delivery := mjoin (mjoin ess).
Abbreviation finished cfgs es := (num_finished_generations (locals_of cfgs es)).
Lemma step_loop_ends cfgs n steps ess es cs :
  Forall2 (Forall2 (Forall2 (answers cfgs))) steps ess → finished cfgs (es ++ events ess) = n →
  ∃ k, k ≤ length steps ∧
    step_loop cfgs n steps (mkSync (Img:=Img) Generating cs (locals_of cfgs es)) =
      (mkSync Generating (cs ++ replicate k SStep) (locals_of cfgs (es ++ events (take k ess))), Some (Ok tt)) ∧
    finished cfgs (es ++ events (take k ess)) = n ∧ ∀ j, j < k → finished cfgs (es ++ events (take j ess)) ≠ n.
Proof.
  intros Hs. revert es cs. induction Hs as [|s e steps ess Hs _ IH]; intros es cs Hn; cbn [step_loop locals].
  - unfold events in Hn. cbn [mjoin list_join] in Hn. rewrite app_nil_r in Hn. exists 0. rewrite Hn, Nat.eqb_refl.
    cbn [take replicate]. unfold events. cbn [mjoin list_join]. rewrite !app_nil_r. by split_and!; [lia| |done|lia].
  - destruct (Nat.eqb_spec (finished cfgs es) n) as [E|E].
    + exists 0. cbn [take replicate]. unfold events. cbn [mjoin list_join]. rewrite !app_nil_r. by split_and!; [lia| |done|lia].
    + unfold step, call, call_back, mbind, stM_bind, st_modify. cbn [installed locals calls].
      rewrite (batches_after _ _ _ e Hs). cbn [installed locals calls].
      destruct (IH (es ++ mjoin e) (cs ++ [SStep])) as (k & Hk & Hrun & Hend & Hmin).
      { rewrite <-Hn. f_equal. unfold events. cbn [mjoin list_join]. by rewrite join_app, <-app_assoc. }
      exists (S k). cbn [length take replicate]. rewrite Hrun. unfold events in *. cbn [mjoin list_join]. rewrite !join_app, app_assoc.
      split_and!; [lia|by rewrite <-app_assoc|done|]. intros [|j] Hj; [by rewrite app_nil_r|].
      cbn [take mjoin list_join]. rewrite join_app, app_assoc. apply Hmin. lia.
Qed.

(** Steps that leave a generation unfinished are all taken, and a refused usage ends the loop by its exception. *)
Lemma step_loop_run cfgs n steps ess rest es cs :
  Forall2 (Forall2 (Forall2 (answers cfgs))) steps ess →
  (∀ i, i < length steps → finished cfgs (es ++ events (take i ess)) ≠ n) →
  step_loop cfgs n (steps ++ rest) (mkSync (Img:=Img) Generating cs (locals_of cfgs es)) =
  step_loop cfgs n rest (mkSync Generating (cs ++ replicate (length steps) SStep) (locals_of cfgs (es ++ events ess))).
Proof.
  intros Hs. revert es cs. induction Hs as [|s e steps ess Hs _ IH]; intros es cs Hn.
  - unfold events. cbn [app length replicate mjoin list_join]. by rewrite !app_nil_r.
  - cbn [app step_loop locals]. rewrite (proj2 (Nat.eqb_neq _ _)).
    2:{ specialize (Hn 0). unfold events in Hn. cbn [take mjoin list_join] in Hn. rewrite app_nil_r in Hn. apply Hn. cbn. lia. }
    unfold step, call, call_back, mbind, stM_bind, st_modify. cbn [installed locals calls].
    rewrite (batches_after _ _ _ e Hs), IH.
    + cbn [length replicate]. unfold events. cbn [mjoin list_join]. by rewrite join_app, <-!app_assoc.
    + intros i Hi. specialize (Hn (S i)). cbn [length take] in Hn. unfold events in *. cbn [mjoin list_join] in Hn.
      rewrite join_app, app_assoc in Hn. apply Hn. lia.
Qed.
Lemma step_loop_asserts cfgs n ds e steps es cs :
  Forall2 (Forall2 (sends cfgs)) ds e → refuses cfgs e = true → finished cfgs es ≠ n →
  ∃ w' x, step_loop cfgs n (ds :: steps) (mkSync (Img:=Img) Generating cs (locals_of cfgs es)) = (w', Some (Err x)) ∧
    exn_cls x = AssertionError ∧ installed w' = Generating ∧ calls w' = cs ++ [SStep].
Proof.
  intros Hs Hr Hn. destruct (batches_refused cfgs es ds e Hs Hr) as (s' & x & Hrun & Hx).
  cbn [step_loop locals]. rewrite (proj2 (Nat.eqb_neq _ _) Hn).
  unfold step, call, call_back, mbind, stM_bind, st_modify. cbn [installed locals calls]. rewrite Hrun. by eexists _, _.
Qed.

Lemma finishes_app os1 os2 : finishes_in (os1 ++ os2) = finishes_in os1 + finishes_in os2.
Proof. unfold finishes_in. by rewrite list.filter_app, length_app. Qed.
Lemma unfinished os : Forall (λ o, so_finish_reason o = None) os → finishes_in os = 0.
Proof.
  unfold finishes_in. induction 1 as [|o os Ho _ IH]; [done|]. rewrite filter_cons, decide_False; [done|]. rewrite Ho. by intros [? ?].
Qed.
Lemma complete_finishes os : complete os → finishes_in os = 1.
Proof.
  intros (os1 & o & os2 & -> & H1 & H2 & H3 & _). change (o :: os2) with ([o] ++ os2). rewrite !finishes_app, (unfinished os1) by done.
  rewrite (unfinished os2) by (eapply Forall_impl; [exact H3|]; by intros x [? _]).
  unfold finishes_in. rewrite filter_cons, decide_True by done. done.
Qed.
(** What was delivered when a generation had finished is all of its text. *)
Lemma complete_prefix p q :
  complete (p ++ q) → finishes_in p = 1 → complete p ∧ mjoin (delta_token_ids <$> p) = mjoin (delta_token_ids <$> (p ++ q)).
Proof.
  intros (os1 & o & os2 & E & H1 & H2 & H3 & Hx) Hf.
  assert (∀ l, os1 = p ++ l → False) as Hno.
  { intros l ->. apply Forall_app in H1 as [H1 _]. rewrite (unfinished p) in Hf by done. lia. }
  apply app_eq_app in E as [l [[E1 E2]|[E1 E2]]].
  - destruct l as [|o' l]; [destruct (Hno []); by rewrite app_nil_r in E1 |- *|]. injection E2 as <- ->. subst p.
    apply Forall_app in H3 as [H3 H4]. apply Forall_app in Hx as [Hx _]. split.
    + by exists os1, o, l.
    + rewrite (fmap_app _ _ q), join_app. assert (mjoin (delta_token_ids <$> q) = []) as ->; [|by rewrite app_nil_r].
      clear -H4. induction H4 as [|o q [_ Ho] _ IH]; [done|]. cbn. by rewrite Ho.
  - by destruct (Hno l).
Qed.

Definition added (data : list (list (Data Img))) (cfgs : list GenerationConfig) : list (sync_call Img) :=
  mjoin (imap (λ r '(d, c), [SCreate (pretty (Z.of_nat r)) d c; SAdd (pretty (Z.of_nat r))]) (zip data cfgs)).
Lemma add_prompts_run ps cfgs data k (w : SyncWorld T Img) :
  map_m convert_to_data ps = Ok data →
  st_iter add_prompt (imap (λ r p, (k + r, p)) (zip ps cfgs)) w =
  (mkSync (installed w) (calls w ++ mjoin (imap (λ r '(d, c), [SCreate (pretty (Z.of_nat (k + r))) d c; SAdd (pretty (Z.of_nat (k + r)))]) (zip data cfgs)))
    (locals w), Ok tt).
Proof.
  revert cfgs data k w. induction ps as [|p ps IH]; intros cfgs data k w Hd; cbn [map_m] in Hd.
  - injection Hd as <-. cbn. rewrite app_nil_r. by destruct w.
  - destruct (convert_to_data p) as [d|] eqn:Hp; [|done]. cbn [mbind result_bind] in Hd.
    destruct (map_m convert_to_data ps) as [data'|]; [|done]. injection Hd as <-.
    destruct cfgs as [|c cfgs]; [cbn; rewrite app_nil_r; by destruct w|].
    cbn [zip_with imap st_iter]. unfold mbind at 1, stM_bind at 1, add_prompt at 1, mbind at 1, stM_bind at 1, st_lift at 1. rewrite Hp.
    unfold create_request, add_request, call, st_modify, mbind, stM_bind. cbn [installed calls locals].
    erewrite imap_ext; [rewrite (IH cfgs data' (S k)); [|done]|intros r x _; unfold compose; by rewrite Nat.add_succ_comm].
    cbn [installed calls locals mjoin list_join]. rewrite Nat.add_0_r, <-!app_assoc. do 3 f_equal.
    cbn [app]. do 3 f_equal. apply imap_ext. intros r [d' c'] _. unfold compose. by rewrite Nat.add_succ_comm.
Qed.
Lemma const_row {A} (x : A) n : (λ _, x) <$> seq 0 n = replicate n x.
Proof. generalize 0. induction n as [|n IH]; intros k; [done|]. cbn. by rewrite <-(IH (S k)). Qed.
Lemma fresh_state cfgs : fresh cfgs = locals_of cfgs [].
Proof.
  unfold fresh, state_of, texts_of, logprobs_grid, grid, outs_of. cbn [omap list_omap detok_run fst snd]. f_equal.
  - apply list_eq. intros r. rewrite list_lookup_fmap, list_lookup_imap. destruct (cfgs !! r); [|done]. cbn. by rewrite const_row.
  - apply list_eq. intros r. rewrite list_lookup_fmap, lookup_zip_with, list_lookup_imap. destruct (cfgs !! r); [|done].
    cbn. by rewrite const_row.
  - apply list_eq. intros r. rewrite list_lookup_fmap, list_lookup_imap. destruct (cfgs !! r); [|done]. cbn. by rewrite const_row.
  - induction (generations cfgs) as [|p l IH]; [done|]. exact IH.
Qed.
(** Every generation has finished when the count says so. *)
Lemma all_finished cfgs es :
  (∀ p, p ∈ generations cfgs → finishes_in (outs_of p.1 p.2 es) ≤ 1) →
  finished cfgs es = total_generations cfgs ↔ ∀ p, p ∈ generations cfgs → finishes_in (outs_of p.1 p.2 es) = 1.
Proof. intros Hle. rewrite <-generations_total. by apply (total_ones (λ p, finishes_in (outs_of p.1 p.2 es))). Qed.
Lemma events_split ess k : events ess = events (take k ess) ++ events (drop k ess).
Proof. unfold events. by rewrite <-join_app, <-join_app, take_drop. Qed.
Lemma start_run ps cfgs data (w : SyncWorld T Img) :
  map_m convert_to_data ps = Ok data →
  start ps cfgs w = (mkSync Generating (calls w ++ [SGet; SSet Generating] ++ added data cfgs) (locals_of cfgs []), Ok (installed w)).
Proof.
  intros Hd. unfold start, get_request_stream_callback, set_request_stream_callback, call, st_modify, st_get, mret, stM_ret, mbind, stM_bind.
  cbn [installed calls locals]. pose proof (add_prompts_run ps cfgs data 0 (mkSync Generating ((calls w ++ [SGet]) ++ [SSet Generating]) (fresh cfgs)) Hd) as Hrun.
  unfold enumerate. erewrite imap_ext; [rewrite Hrun|done]. cbn [installed calls locals]. rewrite fresh_state, <-!app_assoc. done.
Qed.
End callbacks.

Section generating.
Context {T Img : Type} `{TextStreamerLaws T}.
Lemma finishes_le ess j cfgs :
  (∀ p, p ∈ generations cfgs → complete (outs_of p.1 p.2 (events ess))) →
  ∀ p, p ∈ generations cfgs → finishes_in (outs_of p.1 p.2 (events (take j ess))) ≤ 1.
Proof.
  intros Hc p Hp. pose proof (complete_finishes _ (Hc p Hp)) as H1. rewrite (events_split ess j), outs_of_app, finishes_app in H1. lia.
Qed.
Lemma generate_ends prompts config steps (w : SyncWorld T Img) cfgs data ess :
  let ps := prompt_list prompts in
  ps ≠ [] → generation_configs config (length ps) = Ok cfgs → map_m convert_to_data ps = Ok data →
  Forall2 (Forall2 (Forall2 (answers cfgs))) steps ess →
  (∀ p, p ∈ generations cfgs → complete (outs_of p.1 p.2 (events ess))) →
  ∃ k w', k ≤ length steps ∧
    generate prompts config steps w = (w', Some (Ok
      (grid (λ r i, ts_decode (T:=T) (mjoin (delta_token_ids <$> outs_of r i (events ess)))) cfgs,
       logprobs_grid cfgs (events (take k ess))))) ∧
    installed w' = installed w ∧
    calls w' = calls w ++ [SGet; SSet Generating] ++ added data cfgs ++ replicate k SStep ++ [SSet (installed w)] ∧
    (∀ j, j < k → ∃ p, p ∈ generations cfgs ∧ finishes_in (outs_of p.1 p.2 (events (take j ess))) = 0).
Proof.
  intros ps Hps Hcfg Hd Hs Hc. pose proof (λ j, finishes_le ess j cfgs Hc) as Hle.
  destruct (step_loop_ends (T:=T) (Img:=Img) cfgs (total_generations cfgs) steps ess []
    (calls w ++ [SGet; SSet Generating] ++ added data cfgs) Hs) as (k & Hk & Hrun & Hend & Hmin).
  { cbn [app]. apply all_finished; intros p Hp; by rewrite (complete_finishes _ (Hc p Hp)). }
  cbn [app] in Hend, Hmin. rewrite (all_finished (T:=T)) in Hend by apply Hle.
  eexists k, _. split; [done|]. split.
  { unfold generate. fold ps. destruct ps as [|p ps']; [done|]. rewrite Hcfg, (start_run _ _ data _ Hd), Hrun.
    cbn [locals app]. unfold set_request_stream_callback, call, st_modify, mbind, stM_bind. cbn [installed calls locals fst].
    cbn [output_texts output_logprobs_str state_of]. do 4 f_equal. unfold texts_of, grid. apply imap_ext. intros r c Hr.
    apply list_fmap_ext. intros j i Hi. apply lookup_seq in Hi as [-> Hi]. cbn [Nat.add].
    destruct (complete_prefix (outs_of r j (events (take k ess))) (outs_of r j (events (drop k ess)))) as [Hp Heq].
    - rewrite <-outs_of_app, <-events_split. apply (Hc (r, j)), generations_elem. by exists c.
    - apply (Hend (r, j)), generations_elem. by exists c.
    - rewrite detok_complete by done. by rewrite Heq, <-outs_of_app, <-events_split. }
  split; [done|]. split; [cbn; by rewrite <-!app_assoc|]. intros j Hj.
  destruct (decide (Forall (λ p, finishes_in (outs_of p.1 p.2 (events (take j ess))) ≠ 0) (generations cfgs))) as [Hall|Hnot].
  - destruct (Hmin j Hj). apply all_finished; [by apply Hle|]. intros p Hp.
    pose proof (proj1 (list.Forall_forall _ _) Hall p Hp). pose proof (Hle j p Hp). cbn in *. lia.
  - apply not_Forall_Exists in Hnot; [|apply _]. apply Exists_exists in Hnot as (p & Hp & Hz). exists p. split; [done|]. cbn in Hz. lia.
Qed.
Lemma generate_asserts prompts config steps (w : SyncWorld T Img) cfgs data ess j e p :
  let ps := prompt_list prompts in
  ps ≠ [] → generation_configs config (length ps) = Ok cfgs → map_m convert_to_data ps = Ok data →
  Forall2 (Forall2 (Forall2 (sends cfgs))) steps ess →
  (∀ p, p ∈ generations cfgs → complete (outs_of p.1 p.2 (events ess))) →
  ess !! j = Some e → refuses cfgs e = true → existsb (refuses cfgs) (take j ess) = false →
  p ∈ generations cfgs → finishes_in (outs_of p.1 p.2 (events (take j ess))) = 0 →
  ∃ w' x, generate prompts config steps w = (w', Some (Err x)) ∧ exn_cls x = AssertionError ∧ installed w' = Generating ∧
    calls w' = calls w ++ [SGet; SSet Generating] ++ added data cfgs ++ replicate (S j) SStep.
Proof.
  intros ps Hps Hcfg Hd Hs Hc He Hr Hj Hp Hz.
  destruct (Forall2_lookup_r _ _ _ _ _ Hs He) as (s & Hsj & Hse).
  assert (∀ i, i ≤ j → num_finished_generations (state_of (T:=T) cfgs (events (take i ess))) ≠ total_generations cfgs) as Hun.
  { intros i Hi E. rewrite (all_finished (T:=T)) in E by (by apply finishes_le). specialize (E p Hp).
    rewrite (events_split (take j ess) i), take_take, Nat.min_l, outs_of_app, finishes_app in Hz by lia. lia. }
  pose proof (take_drop_middle _ _ _ Hsj) as <-. pose proof (lookup_lt_Some _ _ _ Hsj) as Hlt.
  destruct (step_loop_asserts (T:=T) (Img:=Img) cfgs (total_generations cfgs) s e (drop (S j) steps) (events (take j ess))
    ((calls w ++ [SGet; SSet Generating] ++ added data cfgs) ++ replicate j SStep) Hse Hr (Hun j (le_n j)))
    as (w' & x & Hrun & Hx & Hi & Hcalls).
  exists w', x. split; [|split_and!; [done..|rewrite Hcalls, <-!app_assoc; by rewrite <-replicate_cons_app]].
  unfold generate. fold ps. destruct ps as [|q ps']; [done|]. rewrite Hcfg, (start_run _ _ data _ Hd).
  rewrite (step_loop_run cfgs _ (take j steps) (take j ess) _ []).
  - rewrite length_take, Nat.min_l by lia. by rewrite (app_nil_l (events _)), Hrun.
  - apply steps_answers; [by apply Forall2_take|done].
  - intros i Hi'. rewrite length_take in Hi'. cbn [app]. rewrite take_take, Nat.min_l by lia. apply Hun. lia.
Qed.
(** C33. On an engine that delivers, step by step, outputs of every generation or the usage of a request, and every
    generation up to its finish. If no usage is refused, which is so when every request is plain, one generation and
    no logprobs, [generate] ends: each text is the decoding of all tokens of its generation, the logprobs are those
    delivered so far, the engine was stepped until the last generation had finished and no longer, and its callback is
    the old one again. If a step that is taken, some generation being unfinished before it, is the first to deliver the
    usage of a request that is not plain, [generate] raises an [AssertionError] at it and leaves its own callback in
    the engine. *)
Theorem generate_spec prompts config steps (w : SyncWorld T Img) cfgs data ess :
  let ps := prompt_list prompts in
  ps ≠ [] → generation_configs config (length ps) = Ok cfgs → map_m convert_to_data ps = Ok data →
  Forall2 (Forall2 (Forall2 (sends cfgs))) steps ess →
  (∀ p, p ∈ generations cfgs → complete (outs_of p.1 p.2 (events ess))) →
  (forallb plain cfgs = true → existsb (refuses cfgs) ess = false) ∧
  (existsb (refuses cfgs) ess = false →
   ∃ k w', k ≤ length steps ∧
    generate prompts config steps w = (w', Some (Ok
      (grid (λ r i, ts_decode (T:=T) (mjoin (delta_token_ids <$> outs_of r i (events ess)))) cfgs,
       logprobs_grid cfgs (events (take k ess))))) ∧
    installed w' = installed w ∧
    calls w' = calls w ++ [SGet; SSet Generating] ++ added data cfgs ++ replicate k SStep ++ [SSet (installed w)] ∧
    (∀ j, j < k → ∃ p, p ∈ generations cfgs ∧ finishes_in (outs_of p.1 p.2 (events (take j ess))) = 0)) ∧
  (∀ j e, ess !! j = Some e → refuses cfgs e = true → existsb (refuses cfgs) (take j ess) = false →
   (∃ p, p ∈ generations cfgs ∧ finishes_in (outs_of p.1 p.2 (events (take j ess))) = 0) →
   ∃ w' x, generate prompts config steps w = (w', Some (Err x)) ∧ exn_cls x = AssertionError ∧ installed w' = Generating ∧
    calls w' = calls w ++ [SGet; SSet Generating] ++ added data cfgs ++ replicate (S j) SStep).
Proof.
  intros ps Hps Hcfg Hd Hs Hc. split; [apply plain_steps|]. split.
  - intros Hr. apply generate_ends; [done..|by apply steps_answers|done].
  - intros j e He Hr Hj (p & Hp & Hz). by apply (generate_asserts prompts config steps w cfgs data ess j e p).
Qed.
End generating.

(** ** Runs *)

Module Example.
#[local] Existing Instances toy_streamer toy_streamer_laws.
Definition cfg (n : nat) (logprobs : bool) : GenerationConfig := {|
  g_n := n; g_temperature := None; g_top_p := None; g_frequency_penalty := None; g_presence_penalty := None;
  g_repetition_penalty := None; g_logprobs := logprobs; g_top_logprobs := 0; g_logit_bias := None; g_max_tokens := 10;
  g_seed := None; g_stop_strs := None; g_stop_token_ids := None; g_response_format := None; g_debug_config := None |}.
Definition part (id : string) (tokens : list (list Z)) (fr : option string) : RequestStreamOutput :=
  Build_RequestStreamOutput id tokens (Some ((λ _, ["{}"]) <$> tokens)) ((λ _, fr) <$> tokens) None ((λ _, "") <$> tokens).
(** What the engine sends last for a request. *)
Definition usage (id : string) : RequestStreamOutput := Build_RequestStreamOutput id [] None [] (Some "{}") [].
Definition before : SyncWorld (list Z) unit := mkSync (User (Some 7)) [] (mkLocals [] [] [] 0).
Definition answered : list (list (list RequestStreamOutput)) :=
  [[[part "0" [[0]%Z] None; part "1" [[1; 1]%Z] (Some "length")]]; []; [[part "0" [[1; 0]%Z] (Some "stop"); usage "0"]; [usage "1"]]; []].
Definition run (n : nat) (logprobs : bool) (steps : list (list (list RequestStreamOutput))) :=
  generate (Prompts [SText "x"; STokens [5%Z]]) (OneConfig (cfg n logprobs)) steps before.

Definition idle : SingleRequestStreamOutput := Build_SingleRequestStreamOutput [] None None (Some "{}") "".
Definition said (tokens : list Z) (fr : option string) : SingleRequestStreamOutput :=
  Build_SingleRequestStreamOutput tokens (Some ["{}"]) fr None "".
Definition answered_events : list (list (list delivery)) :=
  [[[(0, [said [0%Z] None]); (1, [said [1; 1]%Z (Some "length")])]]; [];
   [[(0, [said [1; 0]%Z (Some "stop")]); (0, [idle])]; [(1, [idle])]]; []].

Lemma answered_sends logprobs : Forall2 (Forall2 (Forall2 (sends [cfg 1 logprobs; cfg 1 logprobs]))) answered answered_events.
Proof.
  assert (∀ r tokens fr, r < 2 → sends [cfg 1 logprobs; cfg 1 logprobs] (part (pretty (Z.of_nat r)) [tokens] fr) (r, [said tokens fr])) as Hp.
  { intros r tokens fr Hr. apply sends_outputs; [|done]. constructor; [done|]. exists (cfg 1 logprobs).
    split_and!; [by destruct r as [|[|r]]; [| |lia]|done|]. intros _. by repeat constructor. }
  assert (∀ r, r < 2 → sends [cfg 1 logprobs; cfg 1 logprobs] (usage (pretty (Z.of_nat r))) (r, [idle])) as Hu.
  { intros r Hr. by apply sends_usage. }
  repeat first [apply List.Forall2_nil|apply List.Forall2_cons];
    first [apply (Hp 0)|apply (Hp 1)|apply (Hu 0)|apply (Hu 1)]; lia.
Qed.
Lemma answered_complete logprobs p :
  p ∈ generations [cfg 1 logprobs; cfg 1 logprobs] → complete (outs_of p.1 p.2 (events answered_events)).
Proof.
  intros (c & Hp & Hi)%generations_elem. destruct p as [[|[|r]] i]; cbn in Hp, Hi; [| |done].
  - injection Hp as <-. cbn in Hi. assert (i = 0) as -> by lia. exists [said [0%Z] None], (said [1; 0]%Z (Some "stop")), [idle].
    split_and!; [reflexivity|by repeat constructor|by eexists|by repeat constructor|by repeat constructor].
  - injection Hp as <-. cbn in Hi. assert (i = 0) as -> by lia. exists [], (said [1; 1]%Z (Some "length")), [idle].
    split_and!; [reflexivity|by repeat constructor|by eexists|by repeat constructor|by repeat constructor].
Qed.
(** The same deliveries, with the usage of both requests: without logprobs they answer [generate], with logprobs the third
    step is the first with a usage that it refuses. *)
Lemma generate_spec_witness : (∃ k w', k ≤ 4 ∧
  run 1 false answered = (w', Some (Ok ([["aba"]; ["bb"]], [None; None]))) ∧ installed w' = User (Some 7) ∧
  calls w' = [SGet; SSet Generating; SCreate "0" [TextData "x"] (cfg 1 false); SAdd "0";
    SCreate "1" [TokenData [5%Z]] (cfg 1 false); SAdd "1"] ++ replicate k SStep ++ [SSet (User (Some 7))]) ∧
  (∃ w' x, run 1 true answered = (w', Some (Err x)) ∧ exn_cls x = AssertionError ∧ installed w' = Generating).
Proof.
  split.
  - destruct (generate_spec (T:=list Z) (Prompts [SText "x"; STokens [5%Z]]) (OneConfig (cfg 1 false)) answered before
      [cfg 1 false; cfg 1 false] [[TextData "x"]; [TokenData [5%Z]]] answered_events) as (Hplain & Hok & _);
      [discriminate|reflexivity|reflexivity|apply answered_sends|apply answered_complete|].
    destruct (Hok (Hplain eq_refl)) as (k & w' & Hk & Hrun & Hi & Hc & _).
    exists k, w'. split; [exact Hk|]. split; [exact Hrun|]. split; [exact Hi|exact Hc].
  - destruct (generate_spec (T:=list Z) (Prompts [SText "x"; STokens [5%Z]]) (OneConfig (cfg 1 true)) answered before
      [cfg 1 true; cfg 1 true] [[TextData "x"]; [TokenData [5%Z]]] answered_events) as (_ & _ & Hbad);
      [discriminate|reflexivity|reflexivity|apply answered_sends|apply answered_complete|].
    destruct (Hbad 2 [[(0, [said [1; 0]%Z (Some "stop")]); (0, [idle])]; [(1, [idle])]]) as (w' & x & Hrun & Hx & Hi & _);
      [reflexivity|reflexivity|reflexivity| |].
    + exists (0, 0). split; [|reflexivity]. apply generations_elem. exists (cfg 1 true). split; [reflexivity|cbn; lia].
    + exists w', x. split; [exact Hrun|]. split; [exact Hx|exact Hi].
Defined.

(** The engine ends a request by its usage: one output without logprobs, whatever the request asked for. A [generate] with
    logprobs, or with more than one generation, fails on it, and its callback stays in the engine. *)
Definition failed (r : SyncWorld (list Z) unit * option (result (list (list string) * list (option (list (list string)))))) : Prop :=
  ∃ e, r.2 = Some (Err e) ∧ exn_cls e = AssertionError ∧ installed r.1 = Generating.
Lemma usage_fails :
  failed (run 1 true answered) ∧
  failed (run 2 false [[[part "0" [[0]; [1]]%Z (Some "stop"); usage "0"]]; [[part "1" [[0]; [1]]%Z (Some "stop"); usage "1"]]]).
Proof. split; eexists; vm_compute; by split_and!. Qed.
End Example.
