(* ===== verification/Scalar.v ===== *)
(** Scalars: the exact arithmetic the floating-point programs are read over.

    A scalar type has the operations the tensor programs use; its laws are those of the real numbers, without rounding.
    Buffers are functions from indices, and a store is an update of one; sums and the loops that compute them, reductions
    over blocks, and memory that many threads store to. Real numbers are an instance. *)

From Stdlib Require Import Lia ZArith QArith Qreals Reals Ring Ring_theory.
From stdpp Require Import base functions sets gmap list list_numbers numbers.
From S2P Require Import Prelude Kernel.
Close Scope Q_scope.
Close Scope R_scope.
#[local] Open Scope Z_scope.

(** ** The interface *)

Class Scalar (F : Type) := {
  fzero : F;
  fone : F;
  fadd : F → F → F;
  fmul : F → F → F;
  fsub : F → F → F;
  fopp : F → F;
  fdiv : F → F → F;
  fexp : F → F;
  fln : F → F;
  fsqrt : F → F;
  frsqrt : F → F;
  fgt : F → F → bool;
  flit : Q → F;
}.
Declare Scope scalar_scope.
Delimit Scope scalar_scope with sc.
Infix "+" := fadd : scalar_scope.
Infix "*" := fmul : scalar_scope.
Infix "-" := fsub : scalar_scope.
Infix "/" := fdiv : scalar_scope.
Notation "- x" := (fopp x) : scalar_scope.
Notation "0" := fzero : scalar_scope.
Notation "1" := fone : scalar_scope.

Class ScalarLaws (F : Type) `{Scalar F} : Prop := {
  scalar_ring : ring_theory (0 : F)%sc 1%sc fadd fmul fsub fopp eq;
  exp_zero : fexp (0 : F)%sc = 1%sc;
  exp_add : ∀ x y : F, fexp (x + y)%sc = (fexp x * fexp y)%sc;
  ln_exp : ∀ x : F, fln (fexp x) = x;
  div_mul : ∀ x y : F, (x / y = x * (1 / y))%sc;
  rsqrt_spec : ∀ x : F, (frsqrt x = 1 / fsqrt x)%sc;
}.

(** Exact real numbers. *)
#[export] Instance R_scalar : Scalar R := {|
  fzero := R0; fone := R1; fadd := Rplus; fmul := Rmult; fsub := Rminus; fopp := Ropp; fdiv := Rdiv;
  fexp := exp; fln := ln; fsqrt := sqrt; frsqrt := λ x, (/ sqrt x)%R;
  fgt := λ x y, if Rgt_dec x y then true else false; flit := Q2R |}.
#[export] Instance R_laws : ScalarLaws R.
Proof.
  split; cbn.
  - exact RTheory.
  - exact exp_0.
  - exact exp_plus.
  - exact Rpower.ln_exp.
  - intros x y. unfold Rdiv. by rewrite Rmult_1_l.
  - intros x. unfold Rdiv. by rewrite Rmult_1_l.
Qed.

(** ** Sums *)

Section sums.
Context {F : Type} `{ScalarLaws F}.
Add Ring scalar : (scalar_ring (F := F)).
#[local] Open Scope sc.
Implicit Types f g : Z → F.

(** [acc = 0; for i in range(n): acc = acc + f(i)]. *)
Definition fsum (f : Z → F) (n : Z) : F := loop (range n) (λ i acc, acc + f i) 0.

Lemma fadd_0_l (x : F) : 0 + x = x.
Proof. ring. Qed.
Lemma fsub_diag (x : F) : x - x = 0.
Proof. ring. Qed.
Lemma fmul_sub_l (x y z : F) : (x - y) * z = x * z - y * z.
Proof. ring. Qed.
Lemma fsum_nonpos f n : (n <= 0)%Z → fsum f n = 0.
Proof. intros Hn. unfold fsum. by rewrite range_nonpos. Qed.
Lemma fsum_S f n : (0 <= n)%Z → fsum f (n + 1)%Z = fsum f n + f n.
Proof. intros Hn. unfold fsum. by rewrite range_S, loop_app by done. Qed.
Lemma fsum_ext f g n : (∀ i, (0 <= i < n)%Z → f i = g i) → fsum f n = fsum g n.
Proof.
  induction n as [n Hn|n Hn IH] using range_ind; intros E; [by rewrite !fsum_nonpos|].
  rewrite !fsum_S by done. rewrite IH, E; [done|lia|]. intros i Hi. apply E. lia.
Qed.
Lemma fsum_add f g n : fsum (λ i, f i + g i) n = fsum f n + fsum g n.
Proof.
  induction n as [n Hn|n Hn IH] using range_ind; [rewrite !fsum_nonpos by done; ring|].
  rewrite !fsum_S by done. rewrite IH. ring.
Qed.
Lemma fsum_scale c f n : fsum (λ i, c * f i) n = c * fsum f n.
Proof.
  induction n as [n Hn|n Hn IH] using range_ind; [rewrite !fsum_nonpos by done; ring|].
  rewrite !fsum_S by done. rewrite IH. ring.
Qed.
Lemma fsum_scale_r c f n : fsum (λ i, f i * c) n = fsum f n * c.
Proof. rewrite (fsum_ext _ (λ i, c * f i)), fsum_scale by (intros; ring). ring. Qed.
Lemma fsum_sub f g n : fsum (λ i, f i - g i) n = fsum f n - fsum g n.
Proof.
  induction n as [n Hn|n Hn IH] using range_ind; [rewrite !fsum_nonpos by done; ring|].
  rewrite !fsum_S by done. rewrite IH. ring.
Qed.
Lemma fsum_zero n : fsum (λ _, 0) n = 0.
Proof.
  induction n as [n Hn|n Hn IH] using range_ind; [by apply fsum_nonpos|]. rewrite fsum_S, IH by done. ring.
Qed.
Lemma fsum_null f n : (∀ i, (0 <= i < n)%Z → f i = 0) → fsum f n = 0.
Proof. intros E. rewrite (fsum_ext _ (λ _, 0)); [apply fsum_zero|done]. Qed.
Lemma fsum_app f m n : (0 <= m)%Z → (0 <= n)%Z → fsum f (m + n)%Z = fsum f m + fsum (λ i, f (m + i)%Z) n.
Proof.
  intros Hm. induction n as [n Hn|n Hn IH] using range_ind; intros Hn'.
  - assert (n = 0)%Z as -> by lia. rewrite Z.add_0_r, (fsum_nonpos (λ i, f (m + i)%Z)) by done. ring.
  - rewrite Z.add_assoc, !fsum_S, IH by lia. ring.
Qed.
Lemma fsum_blocks f q n : (0 <= n)%Z → fsum f (q * n)%Z = fsum (λ i, fsum (λ j, f (i * n + j)%Z) n) q.
Proof.
  intros Hn. induction q as [q Hq|q Hq IH] using range_ind; [by rewrite !fsum_nonpos by nia|].
  rewrite fsum_S, <-IH by done. replace ((q + 1) * n)%Z with (q * n + n)%Z by lia. by rewrite fsum_app by nia.
Qed.
Lemma fsum_swap (f : Z → Z → F) m n : fsum (λ i, fsum (f i) n) m = fsum (λ j, fsum (λ i, f i j) m) n.
Proof.
  induction m as [m Hm|m Hm IH] using range_ind.
  - rewrite (fsum_nonpos _ m), fsum_null by (intros; by rewrite ?fsum_nonpos). done.
  - rewrite fsum_S, IH, <-fsum_add by done. apply fsum_ext. intros j _. by rewrite fsum_S.
Qed.
(** A sum of which only the terms below [n] count. *)
Lemma fsum_below f m n : (0 <= n <= m)%Z → fsum (λ i, if (i <? n)%Z then f i else 0) m = fsum f n.
Proof.
  intros Hn. replace m with (n + (m - n))%Z by lia. rewrite fsum_app by lia.
  rewrite (fsum_ext _ f n), (fsum_null _ (m - n)); [ring| |].
  - intros i Hi. by rewrite (proj2 (Z.ltb_ge (n + i) n)) by lia.
  - intros i Hi. by rewrite (proj2 (Z.ltb_lt i n)) by lia.
Qed.
(** A sum over blocks of size [B], the last one masked. *)
Lemma fsum_masked_blocks f n B : (0 < B)%Z → (0 <= n)%Z →
  fsum (λ b, fsum (λ i, if (b * B + i <? n)%Z then f (b * B + i)%Z else 0) B) (ceildiv n B) = fsum f n.
Proof.
  intros HB Hn. pose proof (ceildiv_spec n B HB).
  rewrite <-(fsum_blocks (λ i, if (i <? n)%Z then f i else 0)) by lia. apply fsum_below. lia.
Qed.
(** The only term that counts. *)
Lemma fsum_single f n j : (0 <= j < n)%Z → (∀ i, (0 <= i < n)%Z → i ≠ j → f i = 0) → fsum f n = f j.
Proof.
  intros Hj E. replace n with (j + (1 + (n - j - 1)))%Z by lia. rewrite !fsum_app by lia.
  rewrite (fsum_null f j) by (intros; apply E; lia). rewrite (fsum_null (λ i, f (j + (1 + i))%Z)) by (intros; apply E; lia).
  change (fsum (λ i, f (j + i)%Z) 1) with (0 + f (j + 0)%Z). rewrite Z.add_0_r. ring.
Qed.
End sums.
Arguments fsum : simpl never.

(** ** Buffers and the loops that store to them *)

Section buffers.
Context {I : Type} `{EqDecision I} {A J : Type}.
Implicit Types (m : I → A) (l : list J).

(** A loop that rewrites, at iteration [j], the element at [ix j]. *)
Lemma loop_store_other l (ix : J → I) (v : J → (I → A) → A) m k :
  (∀ j, j ∈ l → ix j ≠ k) → loop l (λ j m, <[ix j := v j m]> m) m k = m k.
Proof.
  intros Hk. apply (loop_invariant (λ m', m' k = m k)); [|done]. intros j m' Hj <-. by rewrite fn_lookup_insert_ne by auto.
Qed.
Lemma loop_store l (ix : J → I) (v : J → A → A) m j :
  NoDup l → (∀ i i', i ∈ l → i' ∈ l → ix i = ix i' → i = i') → j ∈ l →
  loop l (λ j m, <[ix j := v j (m (ix j))]> m) m (ix j) = v j (m (ix j)).
Proof.
  intros Hl Hinj Hj. apply list_elem_of_split in Hj as (l1 & l2 & ->).
  apply list.NoDup_app in Hl as (_ & Hd & [Hj _]%list.NoDup_cons). rewrite loop_app, loop_cons.
  rewrite (loop_store_other l2 ix (λ j m, v j (m (ix j)))).
  - rewrite fn_lookup_insert. f_equal. apply (loop_store_other l1 ix (λ j m, v j (m (ix j)))).
    intros i Hi E. apply Hinj in E as ->; [|set_solver..]. apply (Hd j Hi). by left.
  - intros i Hi E. apply Hinj in E as ->; [done|set_solver..].
Qed.

(** A grid of iterations [body], of which each establishes its postcondition from its precondition, and keeps the
    conditions of the others. *)
Lemma loop_each {S} (body : J → S → S) (Pre Post : J → S → Prop) l s :
  NoDup l → (∀ j s, j ∈ l → Pre j s → Post j (body j s)) →
  (∀ i j s, i ∈ l → j ∈ l → i ≠ j → (Pre j s → Pre j (body i s)) ∧ (Post j s → Post j (body i s))) →
  (∀ j, j ∈ l → Pre j s) → ∀ j, j ∈ l → Post j (loop l body s).
Proof.
  intros Hl Hb Hk Hs j Hj. apply list_elem_of_split in Hj as (l1 & l2 & ->).
  apply list.NoDup_app in Hl as (_ & Hd & [Hj _]%list.NoDup_cons). rewrite loop_app, loop_cons.
  apply loop_invariant.
  - intros i s' Hi. apply Hk; [set_solver..|]. intros ->. done.
  - apply Hb; [set_solver|]. apply loop_invariant; [|apply Hs; set_solver].
    intros i s' Hi. apply Hk; [set_solver..|]. intros ->. apply (Hd j Hi). by left.
Qed.
End buffers.

Section accumulators.
Context {F : Type} `{ScalarLaws F} {I : Type} `{EqDecision I}.
Add Ring scalar : (scalar_ring (F := F)).
#[local] Open Scope sc.
(** An accumulator in a buffer. *)
Lemma loop_accumulate (a : I) (v : Z → F) n (m : I → F) :
  loop (range n) (λ i m, <[a := m a + v i]> m) (<[a := 0]> m) a = fsum v n.
Proof.
  induction n as [n Hn|n Hn IH] using range_ind; [by rewrite range_nonpos, fsum_nonpos, loop_nil, fn_lookup_insert|].
  rewrite range_S, loop_app, fsum_S, <-IH by done. apply fn_lookup_insert.
Qed.
(** An accumulator in a register, along with other work. *)
Lemma loop_register {S} (get : S → F) (body : Z → S → S) (v : Z → F) n s :
  (∀ i s, get (body i s) = get s + v i) → get (loop (range n) body s) = get s + fsum v n.
Proof.
  intros E. induction n as [n Hn|n Hn IH] using range_ind.
  - rewrite range_nonpos, fsum_nonpos, loop_nil by done. ring.
  - rewrite range_S, loop_app, fsum_S by done. cbn [loop foldl]. rewrite E, IH. ring.
Qed.
End accumulators.

(** ** Memory of a launch *)

Section writes.
Context {I : Type} `{EqDecision I} {A : Type}.
Implicit Types (ws : list (I * A)) (m : I → A).
(** The stores of the threads of a launch: places and values. *)
Definition apply_writes ws m : I → A := loop ws (λ w, <[w.1 := w.2]>) m.
Lemma apply_writes_at ws m a v : (a, v) ∈ ws → (∀ v', (a, v') ∈ ws → v' = v) → apply_writes ws m a = v.
Proof.
  intros Hin Hu. unfold apply_writes. apply list_elem_of_split in Hin as (l1 & l2 & ->).
  rewrite loop_app, loop_cons. apply (loop_invariant (λ m, m a = v)); [|apply fn_lookup_insert].
  intros [a' v'] m' Hin Hm. cbn. destruct (decide (a' = a)) as [->|]; [|by rewrite fn_lookup_insert_ne].
  rewrite fn_lookup_insert. apply Hu. set_solver.
Qed.
Lemma apply_writes_other ws m a : (∀ v, (a, v) ∉ ws) → apply_writes ws m a = m a.
Proof.
  intros Hn. apply (loop_invariant (λ m', m' a = m a)); [|done]. intros [a' v'] m' Hin <-. cbn.
  apply fn_lookup_insert_ne. intros ->. by apply (Hn v').
Qed.
(** Every thread [j] of [l] stores [v j] at [ix j]. *)
Definition writes {J} (l : list J) (ix : J → I) (v : J → A) : list (I * A) := (λ j, (ix j, v j)) <$> l.
Lemma elem_of_writes {J} (l : list J) ix v a x : (a, x) ∈ writes l ix v ↔ ∃ j, j ∈ l ∧ a = ix j ∧ x = v j.
Proof. unfold writes. rewrite list_elem_of_fmap. naive_solver. Qed.
Lemma writes_at {J} (l : list J) ix v m j :
  (∀ i i', i ∈ l → i' ∈ l → ix i = ix i' → i = i') → j ∈ l → apply_writes (writes l ix v) m (ix j) = v j.
Proof.
  intros Hinj Hj. apply apply_writes_at; [apply elem_of_writes; eauto|].
  intros x (j' & Hj' & E & ->)%elem_of_writes. f_equal. symmetry. by apply Hinj.
Qed.
End writes.

(** ** Grids of three dimensions *)

Definition grid3 (l m n : Z) : list (Z * Z * Z) := range l ≫= λ i, range m ≫= λ j, (λ k, (i, j, k)) <$> range n.
Lemma elem_of_grid3 l m n i j k : (i, j, k) ∈ grid3 l m n ↔ 0 ≤ i < l ∧ 0 ≤ j < m ∧ 0 ≤ k < n.
Proof.
  unfold grid3. rewrite list_elem_of_bind. split.
  - intros (i' & (j' & (k' & [= -> -> ->] & ?)%list_elem_of_fmap & ?)%list_elem_of_bind & ?).
    by rewrite <-!elem_of_range.
  - rewrite <-!elem_of_range. intros (Hi & Hj & Hk). exists i. split; [|done]. apply list_elem_of_bind. exists j.
    split; [|done]. apply list_elem_of_fmap. eauto.
Qed.
Lemma NoDup_bind {A B} (f : A → list B) (l : list A) :
  NoDup l → (∀ a, a ∈ l → NoDup (f a)) → (∀ a a' b, a ∈ l → a' ∈ l → b ∈ f a → b ∈ f a' → a = a') → NoDup (l ≫= f).
Proof.
  induction l as [|a l IH]; intros Hl Hf Hd; [constructor|]. apply list.NoDup_cons in Hl as [Ha Hl]. rewrite bind_cons.
  apply list.NoDup_app. repeat split.
  - apply Hf. by left.
  - intros b Hb (a' & Hb' & Ha')%list_elem_of_bind. apply Ha. by rewrite (Hd a a' b) by (done || by constructor).
  - apply IH; [done| |]; intros; [apply Hf; by right|eapply Hd; [by right..| |]; eauto].
Qed.
Lemma NoDup_grid3 l m n : NoDup (grid3 l m n).
Proof.
  apply NoDup_bind; [apply range_NoDup| |].
  - intros i _. apply NoDup_bind; [apply range_NoDup| |].
    + intros j _. apply NoDup_fmap_2, range_NoDup. by intros ?? [= ->].
    + intros j j' b _ _ (k & -> & _)%list_elem_of_fmap (k' & [= ->] & _)%list_elem_of_fmap. done.
  - intros i i' b _ _ (j & (k & -> & _)%list_elem_of_fmap & _)%list_elem_of_bind
      (j' & (k' & [= -> ] & _)%list_elem_of_fmap & _)%list_elem_of_bind. done.
Qed.

(** ** Row-major addresses *)

(** The address of an element determines it. *)
Lemma radix_inj d a b a' b' : 0 ≤ b < d → 0 ≤ b' < d → a * d + b = a' * d + b' → a = a' ∧ b = b'.
Proof. intros. assert (a = a') by nia. lia. Qed.
Lemma radix_div d a b : 0 ≤ b < d → (a * d + b) / d = a.
Proof. intros. rewrite Z.div_add_l, Z.div_small by lia. lia. Qed.
Lemma radix_mod d a b : 0 ≤ b < d → (a * d + b) mod d = b.
Proof. intros. rewrite Z.add_comm, Z.mod_add, Z.mod_small by lia. done. Qed.
