(* ===== verification/Triton.v ===== *)
(** Triton programs, as the kernels of [python/mlc_llm/op/triton.py] are written: masked loads and stores, products of
    tiles; and what a launch leaves in memory. Memory is flat; a program is the list of its stores. *)

From Stdlib Require Import Lia ZArith Ring.
From stdpp Require Import base functions list list_numbers numbers.
From S2P Require Import Prelude Kernel Scalar.
#[local] Open Scope Z_scope.

Section triton.
Context {F : Type} `{Scalar F}.
#[local] Open Scope sc.

(** [tl.load(ptr + offset, mask=mask, other=0.0)]. *)
Definition load (ptr : Z → F) (offset : Z) (mask : bool) : F := if mask then ptr offset else 0.
(** [tl.store] of a vector, and of a tile. *)
Definition store1 (n : Z) (offset : Z → Z) (mask : Z → bool) (value : Z → F) : list (Z * F) :=
  writes (filter (λ i, mask i = true) (range n)) offset value.
Definition store2 (m n : Z) (offset : Z → Z → Z) (mask : Z → Z → bool) (value : Z → Z → F) : list (Z * F) :=
  writes (filter (λ ij, mask ij.1 ij.2 = true) (grid m n)) (λ ij, offset ij.1 ij.2) (λ ij, value ij.1 ij.2).
(** [tl.dot] of tiles that share the dimension [n]. *)
Definition dot (n : Z) (x y : Z → Z → F) : Z → Z → F := λ i j, fsum (λ m, x i m * y m j) n.
Definition trans (x : Z → Z → F) : Z → Z → F := λ i j, x j i.
End triton.

(** ** What the launches leave in memory *)

Section launches.
Context {F : Type} `{ScalarLaws F}.
Add Ring scalar : (scalar_ring (F := F)).
#[local] Open Scope sc.

Lemma elem_of_store1 n off mask val a (x : F) :
  (a, x) ∈ store1 n off mask val ↔ ∃ i, (0 <= i < n)%Z ∧ mask i = true ∧ a = off i ∧ x = val i.
Proof. unfold store1. rewrite elem_of_writes. setoid_rewrite list_elem_of_filter. setoid_rewrite elem_of_range. naive_solver. Qed.
Lemma elem_of_store2 m n off mask val a (x : F) :
  (a, x) ∈ store2 m n off mask val ↔
  ∃ i j, (0 <= i < m)%Z ∧ (0 <= j < n)%Z ∧ mask i j = true ∧ a = off i j ∧ x = val i j.
Proof.
  unfold store2. rewrite elem_of_writes. split.
  - intros ([i j] & [Hm [Hi Hj]%elem_of_grid]%list_elem_of_filter & -> & ->). by exists i, j.
  - intros (i & j & Hi & Hj & Hm & -> & ->). exists (i, j). split; [|done].
    apply list_elem_of_filter. by split; [|apply elem_of_grid].
Qed.

(** The programs of a launch store, at the places [addr y], the values [val y], of some [y]s that the place determines. *)
Lemma launch_at {P X I} `{EqDecision I} (l : list P) (prog : P → list (I * F)) (D : X → Prop) (addr : X → I) (val : X → F) m y :
  (∀ p a x, p ∈ l → (a, x) ∈ prog p → ∃ y, D y ∧ a = addr y ∧ x = val y) →
  (∀ y y', D y → D y' → addr y = addr y' → y = y') →
  D y → (∃ p x, p ∈ l ∧ (addr y, x) ∈ prog p) → apply_writes (l ≫= prog) m (addr y) = val y.
Proof.
  intros Hprog Hinj Hy (p & x & Hp & Hx).
  assert (∀ x', (addr y, x') ∈ l ≫= prog → x' = val y) as Hval.
  { intros x' (p' & Hx' & Hp')%list_elem_of_bind. destruct (Hprog p' _ _ Hp' Hx') as (y' & Hy' & E & ->).
    by rewrite (Hinj y y'). }
  assert ((addr y, x) ∈ l ≫= prog) as Hin by (apply list_elem_of_bind; eauto).
  apply apply_writes_at; [by rewrite <-(Hval x)|done].
Qed.
Lemma launch_other {P X I} `{EqDecision I} (l : list P) (prog : P → list (I * F)) (D : X → Prop) (addr : X → I) (val : X → F) m a :
  (∀ p a x, p ∈ l → (a, x) ∈ prog p → ∃ y, D y ∧ a = addr y ∧ x = val y) →
  (∀ y, D y → addr y ≠ a) → apply_writes (l ≫= prog) m a = m a.
Proof.
  intros Hprog Ha. apply apply_writes_other. intros x (p & Hx & Hp)%list_elem_of_bind.
  destruct (Hprog p a x Hp Hx) as (y & Hy & -> & _). by apply (Ha y).
Qed.

Lemma chunk_index t n : (0 < n)%Z → ∃ p i, t = (p * n + i)%Z ∧ (0 <= i < n)%Z ∧ p = (t / n)%Z ∧ i = (t mod n)%Z.
Proof.
  intros Hn. exists (t / n)%Z, (t mod n)%Z. pose proof (Z.div_mod t n). pose proof (Z.mod_pos_bound t n Hn).
  split; [lia|]. done.
Qed.
Lemma block_for n BT t : (0 < BT)%Z → (0 <= t < n)%Z → (0 <= t / BT < ceildiv n BT)%Z.
Proof.
  intros HBT Ht. split; [apply Z.div_pos; lia|]. apply Z.div_lt_upper_bound; [lia|].
  pose proof (ceildiv_spec n BT HBT). lia.
Qed.

(** Products of tiles, block by block of the shared dimension. *)
Lemma blocks_dot n BK (x y : Z → Z → F) i j : (0 < BK)%Z → (0 <= n)%Z → (∀ r, (n <= r)%Z → x i r = 0) →
  fsum (λ kb, dot BK (λ i r, x i (kb * BK + r)%Z) (λ r j, y (kb * BK + r)%Z j) i j) (ceildiv n BK) = fsum (λ r, x i r * y r j) n.
Proof.
  intros HBK Hn Hx. rewrite <-(fsum_masked_blocks (λ r, x i r * y r j) n BK) by done.
  apply fsum_ext. intros kb _. unfold dot. apply fsum_ext. intros r _.
  destruct (Z.ltb_spec (kb * BK + r) n); [done|]. rewrite Hx by done. ring.
Qed.
Lemma tile_dot n BK (x y : Z → Z → F) (acc : Z → Z → F) i j : (0 < BK)%Z → (0 <= n)%Z →
  (∀ r, (n <= r)%Z → x i r = 0) →
  loop (range (ceildiv n BK)) (λ kb acc, λ i j, acc i j + dot BK (λ i r, x i (kb * BK + r)%Z) (λ r j, y (kb * BK + r)%Z j) i j) acc i j =
  acc i j + fsum (λ r, x i r * y r j) n.
Proof.
  intros HBK Hn Hx. rewrite <-(blocks_dot n BK) by done. by apply (loop_register (λ acc : Z → Z → F, acc i j)).
Qed.
End launches.
