(* ===== verification/DeltaNet.v ===== *)
(** Gated delta networks: the linear attention of Qwen3.5, from [python/mlc_llm/model/qwen35/qwen35_model.py].

    The recurrent kernels, which keep one matrix per head and sequence and correct it by the delta rule at each token:
    for any number of tokens, for one token, in place on the storage of the states, and fused with the preparation of
    its inputs. The causal convolution in front of it, and the preparations. The theorems: each kernel computes the
    recurrence, the kernels agree, and a prefill may be cut anywhere. Scalars are exact: casts are the identity. *)

From Stdlib Require Import Lia ZArith QArith Ring.
From stdpp Require Import base functions sets gmap list list_numbers numbers.
From S2P Require Import Prelude Kernel Scalar.
Close Scope Q_scope.
#[local] Open Scope Z_scope.

Abbreviation buffer2 F := (Z * Z → F).
Abbreviation buffer3 F := (Z * Z * Z → F).
Abbreviation buffer4 F := (Z * Z * Z * Z → F).
Abbreviation buffer5 F := (Z * Z * Z * Z * Z → F).

Section kernels.
Context {F : Type} `{Scalar F} (num_key_heads num_value_heads K V : Z).
Definition heads_per_group : Z := num_value_heads / num_key_heads.
Definition key_head (h_idx : Z) : Z := h_idx / heads_per_group.
(** [T.float32(1.0 / math.sqrt(K))]. *)
Definition out_scale : F := (1 / fsqrt (flit (inject_Z K)))%sc.
#[local] Open Scope sc.

(** ** The recurrence over any number of tokens *)

Section gdn_func.
Context (batch_size seq_len : Z) (q_buf k_buf v_buf : buffer4 F) (gate_buf beta_buf : buffer3 F) (state_in_buf : buffer4 F).
Definition init_state (vb vh vc vr : Z) (state_out : buffer4 F) : buffer4 F :=
  <[(vb, vh, vr, vc) := state_in_buf (vb, vh, vr, vc)]> state_out.
Definition decay (vb vt vh vc vr : Z) (state_out : buffer4 F) : buffer4 F :=
  <[(vb, vh, vr, vc) := state_out (vb, vh, vr, vc) * gate_buf (vb, vt, vh)]> state_out.
Definition dot_sk (state_out : buffer4 F) (vb vt vh vc vr : Z) (out : buffer4 F) : buffer4 F :=
  <[(vb, vt, vh, vc) := out (vb, vt, vh, vc) + state_out (vb, vh, vr, vc) * k_buf (vb, vt, key_head vh, vr)]> out.
Definition delta (out : buffer4 F) (vb vt vh vc vr : Z) (state_out : buffer4 F) : buffer4 F :=
  <[(vb, vh, vr, vc) := state_out (vb, vh, vr, vc)
      + k_buf (vb, vt, key_head vh, vr) * beta_buf (vb, vt, vh) * (v_buf (vb, vt, vh, vc) - out (vb, vt, vh, vc))]> state_out.
Definition dot_sq (state_out : buffer4 F) (vb vt vh vc vr : Z) (out : buffer4 F) : buffer4 F :=
  <[(vb, vt, vh, vc) := out (vb, vt, vh, vc) + state_out (vb, vh, vr, vc) * q_buf (vb, vt, key_head vh, vr)]> out.
(** One token of one thread: on the output and the state. *)
Definition gdn_token (b_idx h_idx col t : Z) (s : buffer4 F * buffer4 F) : buffer4 F * buffer4 F :=
  let '(out, state_out) := s in
  let state_out := loop (range K) (decay b_idx t h_idx col) state_out in
  let out := <[(b_idx, t, h_idx, col) := 0]> out in
  let out := loop (range K) (dot_sk state_out b_idx t h_idx col) out in
  let state_out := loop (range K) (delta out b_idx t h_idx col) state_out in
  let out := <[(b_idx, t, h_idx, col) := 0]> out in
  let out := loop (range K) (dot_sq state_out b_idx t h_idx col) out in
  (<[(b_idx, t, h_idx, col) := out (b_idx, t, h_idx, col) * out_scale]> out, state_out).
Definition gdn_thread (thread : Z * Z * Z) (s : buffer4 F * buffer4 F) : buffer4 F * buffer4 F :=
  let '(b_idx, h_idx, col) := thread in
  let '(out, state_out) := s in
  let state_out := loop (range K) (init_state b_idx h_idx col) state_out in
  loop (range seq_len) (gdn_token b_idx h_idx col) (out, state_out).
Definition gdn_func (s : buffer4 F * buffer4 F) : buffer4 F * buffer4 F :=
  loop (grid3 batch_size num_value_heads V) gdn_thread s.
End gdn_func.

(** ** One token *)

Section gdn_decode_func.
Context (batch_size : Z) (q_buf k_buf v_buf : buffer4 F) (gate_buf beta_buf : buffer3 F) (state_in_buf : buffer4 F).
Definition decode_dot_sk (b_idx h_idx col : Z) : F :=
  loop (range K) (λ row dot_sk, dot_sk
    + state_in_buf (b_idx, h_idx, row, col) * gate_buf (b_idx, 0%Z, h_idx) * k_buf (b_idx, 0%Z, key_head h_idx, row)) 0.
Definition decode_new_state (dot_sk : F) (b_idx h_idx col row : Z) : F :=
  let decayed := state_in_buf (b_idx, h_idx, row, col) * gate_buf (b_idx, 0%Z, h_idx) in
  decayed + k_buf (b_idx, 0%Z, key_head h_idx, row) * beta_buf (b_idx, 0%Z, h_idx) * (v_buf (b_idx, 0%Z, h_idx, col) - dot_sk).
Definition delta_and_dot_sq (dot_sk : F) (b_idx h_idx col row : Z) (s : F * buffer4 F) : F * buffer4 F :=
  let new_state := decode_new_state dot_sk b_idx h_idx col row in
  (s.1 + new_state * q_buf (b_idx, 0%Z, key_head h_idx, row), <[(b_idx, h_idx, row, col) := new_state]> s.2).
Definition gdn_decode_thread (thread : Z * Z * Z) (s : buffer4 F * buffer4 F) : buffer4 F * buffer4 F :=
  let '(b_idx, h_idx, col) := thread in
  let '(dot_sq, state_out) := loop (range K) (delta_and_dot_sq (decode_dot_sk b_idx h_idx col) b_idx h_idx col) (0, s.2) in
  (<[(b_idx, 0%Z, h_idx, col) := dot_sq * out_scale]> s.1, state_out).
Definition gdn_decode_func (s : buffer4 F * buffer4 F) : buffer4 F * buffer4 F :=
  loop (grid3 batch_size num_value_heads V) gdn_decode_thread s.
End gdn_decode_func.

(** ** One token, in place *)

Section gdn_decode_state_storage_func.
Context (batch_size : Z) (q_buf k_buf v_buf : buffer4 F) (gate_buf beta_buf : buffer3 F) (seq_slot_ids history_slot_ids : Z → Z).
Definition slot (b_idx h_idx row col : Z) : Z * Z * Z * Z * Z := (seq_slot_ids b_idx, history_slot_ids b_idx, h_idx, row, col).
Definition storage_dot_sk (state_storage : buffer5 F) (b_idx h_idx col : Z) : F :=
  loop (range K) (λ row dot_sk, dot_sk
    + state_storage (slot b_idx h_idx row col) * gate_buf (b_idx, 0%Z, h_idx) * k_buf (b_idx, 0%Z, key_head h_idx, row)) 0.
Definition storage_row (dot_sk : F) (b_idx h_idx col row : Z) (s : F * buffer5 F) : F * buffer5 F :=
  let decayed := s.2 (slot b_idx h_idx row col) * gate_buf (b_idx, 0%Z, h_idx) in
  let new_state := decayed
    + k_buf (b_idx, 0%Z, key_head h_idx, row) * beta_buf (b_idx, 0%Z, h_idx) * (v_buf (b_idx, 0%Z, h_idx, col) - dot_sk) in
  (s.1 + new_state * q_buf (b_idx, 0%Z, key_head h_idx, row), <[slot b_idx h_idx row col := new_state]> s.2).
Definition gdn_storage_thread (thread : Z * Z * Z) (s : buffer4 F * buffer5 F) : buffer4 F * buffer5 F :=
  let '(b_idx, h_idx, col) := thread in
  let '(dot_sq, state_storage) := loop (range K) (storage_row (storage_dot_sk s.2 b_idx h_idx col) b_idx h_idx col) (0, s.2) in
  (<[(b_idx, 0%Z, h_idx, col) := dot_sq * out_scale]> s.1, state_storage).
Definition gdn_decode_state_storage_func (s : buffer4 F * buffer5 F) : buffer4 F * buffer5 F :=
  loop (grid3 batch_size num_value_heads V) gdn_storage_thread s.
End gdn_decode_state_storage_func.

(** ** The preparation of the inputs *)

Definition q_dim : Z := num_key_heads * K.
Definition k_dim : Z := num_key_heads * K.
Definition v_dim : Z := num_value_heads * V.
Definition qkv_dim : Z := q_dim + k_dim + v_dim.
Definition silu (x : F) : F := x / (1 + fexp (- x)).
Definition eps : F := flit (1 # 1000000).

Section prepare.
Context (qkv_buf z_buf alpha_buf beta_raw_buf : buffer3 F) (a_log_buf dt_bias_buf : Z → F).
Definition q_silu (vb vt vh vr : Z) : F := silu (qkv_buf (vb, vt, vh * K + vr)%Z).
Definition k_silu (vb vt vh vr : Z) : F := silu (qkv_buf (vb, vt, q_dim + vh * K + vr)%Z).
Definition q_sum (vb vt vh : Z) : F := fsum (λ vr, q_silu vb vt vh vr * q_silu vb vt vh vr) K.
Definition k_sum (vb vt vh : Z) : F := fsum (λ vr, k_silu vb vt vh vr * k_silu vb vt vh vr) K.
Definition q_norm (vb vt vh vr : Z) : F := q_silu vb vt vh vr * frsqrt (q_sum vb vt vh + eps).
Definition k_norm (vb vt vh vr : Z) : F := k_silu vb vt vh vr * frsqrt (k_sum vb vt vh + eps).
Definition v_silu (vb vt vd : Z) : F := silu (qkv_buf (vb, vt, q_dim + k_dim + vd)%Z).
Definition z_silu (vb vt vd : Z) : F := silu (z_buf (vb, vt, vd)).
Definition softplus (x : F) : F := if fgt x (flit 20) then x else fln (1 + fexp x).
Definition gate_of (vb vt vh : Z) : F := fexp (- fexp (a_log_buf vh) * softplus (alpha_buf (vb, vt, vh) + dt_bias_buf vh)).
Definition beta_of (vb vt vh : Z) : F := 1 / (1 + fexp (- beta_raw_buf (vb, vt, vh))).

Record prepared := {
  q_out : buffer4 F; k_out : buffer4 F; v_out : buffer4 F; gate_out : buffer3 F; beta_out : buffer3 F; z_silu_out : buffer3 F }.

Definition gdn_decode_prepare_func (batch_size : Z) (o : prepared) : prepared :=
  let qk := grid3 batch_size num_key_heads K in
  let vz := grid batch_size v_dim in
  let gb := grid batch_size num_value_heads in
  {| q_out := apply_writes (writes qk (λ '(vb, vh, vr), (vb, 0%Z, vh, vr)) (λ '(vb, vh, vr), q_norm vb 0 vh vr)) (q_out o);
     k_out := apply_writes (writes qk (λ '(vb, vh, vr), (vb, 0%Z, vh, vr)) (λ '(vb, vh, vr), k_norm vb 0 vh vr)) (k_out o);
     v_out := apply_writes (writes vz (λ '(vb, vd), (vb, 0, vd / V, vd mod V)%Z) (λ '(vb, vd), v_silu vb 0 vd)) (v_out o);
     z_silu_out := apply_writes (writes vz (λ '(vb, vd), (vb, 0%Z, vd)) (λ '(vb, vd), z_silu vb 0 vd)) (z_silu_out o);
     gate_out := apply_writes (writes gb (λ '(vb, vh), (vb, 0%Z, vh)) (λ '(vb, vh), gate_of vb 0 vh)) (gate_out o);
     beta_out := apply_writes (writes gb (λ '(vb, vh), (vb, 0%Z, vh)) (λ '(vb, vh), beta_of vb 0 vh)) (beta_out o) |}.

Definition gdn_prefill_prepare_func (batch_size seq_len : Z) (o : prepared) : prepared :=
  let tokens := grid batch_size seq_len in
  let qk := tokens ≫= λ '(vb, vt), (λ '(vh, vr), (vb, vt, vh, vr)) <$> grid num_key_heads K in
  let vz := grid3 batch_size seq_len v_dim in
  let gb := grid3 batch_size seq_len num_value_heads in
  {| q_out := apply_writes (writes qk id (λ '(vb, vt, vh, vr), q_norm vb vt vh vr)) (q_out o);
     k_out := apply_writes (writes qk id (λ '(vb, vt, vh, vr), k_norm vb vt vh vr)) (k_out o);
     v_out := apply_writes (writes vz (λ '(vb, vt, vd), (vb, vt, vd / V, vd mod V)%Z) (λ '(vb, vt, vd), v_silu vb vt vd)) (v_out o);
     z_silu_out := apply_writes (writes vz id (λ '(vb, vt, vd), z_silu vb vt vd)) (z_silu_out o);
     gate_out := apply_writes (writes gb id (λ '(vb, vt, vh), gate_of vb vt vh)) (gate_out o);
     beta_out := apply_writes (writes gb id (λ '(vb, vt, vh), beta_of vb vt vh)) (beta_out o) |}.
End prepare.

(** ** One token, from the packed projections *)

Section gdn_packed_decode_state_storage_func.
Context (batch_size : Z) (qkv_buf z_buf alpha_buf beta_raw_buf : buffer3 F) (a_log_buf dt_bias_buf : Z → F)
  (seq_slot_ids history_slot_ids : Z → Z).
(** The shared buffers of the block of one value head. *)
Definition q_norm_shared (vb vh vr : Z) : F :=
  let q_sum_shared := fsum (λ vr, q_silu qkv_buf vb 0 (key_head vh) vr * q_silu qkv_buf vb 0 (key_head vh) vr) K in
  q_silu qkv_buf vb 0 (key_head vh) vr * frsqrt (q_sum_shared + eps).
Definition k_norm_shared (vb vh vr : Z) : F :=
  let k_sum_shared := fsum (λ vr, k_silu qkv_buf vb 0 (key_head vh) vr * k_silu qkv_buf vb 0 (key_head vh) vr) K in
  k_silu qkv_buf vb 0 (key_head vh) vr * frsqrt (k_sum_shared + eps).
Definition gate_shared (vb vh : Z) : F := gate_of alpha_buf a_log_buf dt_bias_buf vb 0 vh.
Definition beta_shared (vb vh : Z) : F := beta_of beta_raw_buf vb 0 vh.
Definition packed_dot_sk (state_storage : buffer5 F) (b_idx h_idx col : Z) : F :=
  loop (range K) (λ row dot_sk, dot_sk
    + state_storage (slot seq_slot_ids history_slot_ids b_idx h_idx row col) * gate_shared b_idx h_idx
      * k_norm_shared b_idx h_idx row) 0.
Definition packed_row (v_silu_local dot_sk : F) (b_idx h_idx col row : Z) (s : F * buffer5 F) : F * buffer5 F :=
  let place := slot seq_slot_ids history_slot_ids b_idx h_idx row col in
  let decayed := s.2 place * gate_shared b_idx h_idx in
  let new_state := decayed + k_norm_shared b_idx h_idx row * beta_shared b_idx h_idx * (v_silu_local - dot_sk) in
  (s.1 + new_state * q_norm_shared b_idx h_idx row, <[place := new_state]> s.2).
(** The output, the storage, and the activated [z]. *)
Definition packed_thread (thread : Z * Z * Z) (s : buffer4 F * buffer5 F * buffer3 F) : buffer4 F * buffer5 F * buffer3 F :=
  let '(b_idx, h_idx, col) := thread in
  let '(out, state_storage, z_silu_out) := s in
  let v_silu_local := silu (qkv_buf (b_idx, 0, q_dim + k_dim + h_idx * V + col)%Z) in
  let dot_sk := packed_dot_sk state_storage b_idx h_idx col in
  let '(dot_sq, state_storage) := loop (range K) (packed_row v_silu_local dot_sk b_idx h_idx col) (0, state_storage) in
  let z_index := (h_idx * V + col)%Z in
  (<[(b_idx, 0%Z, h_idx, col) := dot_sq * out_scale]> out, state_storage,
   <[(b_idx, 0%Z, z_index) := silu (z_buf (b_idx, 0%Z, z_index))]> z_silu_out).
Definition gdn_packed_decode_state_storage_func (s : buffer4 F * buffer5 F * buffer3 F) : buffer4 F * buffer5 F * buffer3 F :=
  loop (grid3 batch_size num_value_heads V) packed_thread s.
End gdn_packed_decode_state_storage_func.

(** ** The preparation by tensor operators *)

(** [op.sigmoid] and [op.silu] are operators of the compiler; a tensor is a function of its indices, of which [op.split]
    and [op.reshape] only change the names. *)
Section unfused.
Context (op_sigmoid op_silu : F → F) (qkv alpha beta_raw z : buffer3 F) (A_log dt_bias : Z → F).
Definition split_q : buffer4 F := λ '(b, s, h, r), op_silu (qkv (b, s, h * K + r)%Z).
Definition split_k : buffer4 F := λ '(b, s, h, r), op_silu (qkv (b, s, q_dim + (h * K + r))%Z).
Definition split_v : buffer4 F := λ '(b, s, h, c), op_silu (qkv (b, s, q_dim + k_dim + (h * V + c))%Z).
Definition l2_normalize (x : buffer4 F) : buffer4 F := λ '(b, s, h, d),
  let sum_sq := fsum (λ d, x (b, s, h, d) * x (b, s, h, d)) K in x (b, s, h, d) / fsqrt (sum_sq + eps).
Definition te_softplus (x : F) : F := if fgt x (flit 20) then x else fln (1 + fexp x).
Definition te_gate : buffer3 F := λ '(bi, si, hi), fexp (- fexp (A_log hi) * te_softplus (alpha (bi, si, hi) + dt_bias hi)).
Definition compute_beta : buffer3 F := λ '(bi, si, hi), op_sigmoid (beta_raw (bi, si, hi)).
Definition unfused : prepared := {|
  q_out := l2_normalize split_q; k_out := l2_normalize split_k; v_out := split_v;
  gate_out := te_gate; beta_out := compute_beta; z_silu_out := λ '(b, s, d), op_silu (z (b, s, d)) |}.
End unfused.
End kernels.

(** ** The causal convolution *)

Section conv.
Context {F : Type} `{Scalar F} (kernel_size qkv_dim : Z).
Definition ks_minus_1 : Z := kernel_size - 1.
#[local] Open Scope sc.

(** [_causal_conv1d_with_state], for sequences of length [s]: the new state and the result. *)
Section with_state.
Context (s : Z) (conv_state qkv : buffer3 F) (weight : buffer3 F).
(** The last [ks_minus_1] inputs before position [t], [t], and so on: the state, then the sequence. *)
Definition update_conv_state : buffer3 F := λ '(bi, ti, di),
  if (s + ti <? ks_minus_1)%Z then conv_state (bi, s + ti, di)%Z else qkv (bi, s + ti - ks_minus_1, di)%Z.
Definition depthwise_conv1d : buffer3 F := λ '(bi, si, di),
  fsum (λ kk, (if (si + kk <? ks_minus_1)%Z then conv_state (bi, si + kk, di)%Z else qkv (bi, si + kk - ks_minus_1, di)%Z)
              * weight (di, 0%Z, kk)) kernel_size.
End with_state.

Section storage.
Context (batch_size max_history : Z) (qkv_buf : buffer3 F) (seq_slot_ids history_slot_ids : Z → Z) (weight_buf : buffer3 F).
Definition next_history_slot (b_idx : Z) : Z := (history_slot_ids b_idx + 1) mod max_history.
Definition conv_acc (state_storage : buffer4 F) (b_idx d_idx : Z) : F :=
  loop (range kernel_size) (λ vk acc, acc
    + (if (vk <? ks_minus_1)%Z then state_storage (seq_slot_ids b_idx, history_slot_ids b_idx, vk, d_idx)
       else qkv_buf (b_idx, 0%Z, d_idx)) * weight_buf (d_idx, 0%Z, vk)) 0.
Definition conv_update (b_idx d_idx vp : Z) (state_storage : buffer4 F) : buffer4 F :=
  <[(seq_slot_ids b_idx, next_history_slot b_idx, vp, d_idx) :=
      if (vp + 1 <? ks_minus_1)%Z then state_storage (seq_slot_ids b_idx, history_slot_ids b_idx, vp + 1, d_idx)%Z
      else qkv_buf (b_idx, 0%Z, d_idx)]> state_storage.
Definition conv_thread (thread : Z * Z) (s : buffer3 F * buffer4 F) : buffer3 F * buffer4 F :=
  let '(b_idx, d_idx) := thread in
  let acc := conv_acc s.2 b_idx d_idx in
  (<[(b_idx, 0%Z, d_idx) := acc]> s.1, loop (range ks_minus_1) (conv_update b_idx d_idx) s.2).
Definition causal_conv1d_decode_state_storage_func (s : buffer3 F * buffer4 F) : buffer3 F * buffer4 F :=
  loop (grid batch_size qkv_dim) conv_thread s.
End storage.
End conv.

(** ** The recurrence *)

(** One column of the state of a head: the matrix of the head maps keys to values, and a token replaces the part [beta]
    of what its key is mapped to, after the decay, by its value. *)
Section reference.
Context {F : Type} `{Scalar F} (K : Z).
#[local] Open Scope sc.
Definition delta_rule (S k : Z → F) (v gate beta : F) : Z → F :=
  λ r, S r * gate + k r * beta * (v - fsum (λ r, S r * gate * k r) K).
Definition attend (S q : Z → F) : F := fsum (λ r, S r * q r) K * out_scale K.
(** What one column of one head sees of a sequence, and its state after [n] tokens. *)
Record column := { c_q : Z → Z → F; c_k : Z → Z → F; c_v : Z → F; c_gate : Z → F; c_beta : Z → F }.
Definition column_state (c : column) (S : Z → F) (n : Z) : Z → F :=
  loop (range n) (λ t S, delta_rule S (c_k c t) (c_v c t) (c_gate c t) (c_beta c t)) S.
Definition column_out (c : column) (S : Z → F) (t : Z) : F := attend (column_state c S (t + 1)) (c_q c t).
End reference.
Definition column_of {F} (nk nv : Z) (q k v : buffer4 F) (gate beta : buffer3 F) (b h col : Z) : column (F := F) := {|
  c_q := λ t r, q (b, t, key_head nk nv h, r); c_k := λ t r, k (b, t, key_head nk nv h, r); c_v := λ t, v (b, t, h, col);
  c_gate := λ t, gate (b, t, h); c_beta := λ t, beta (b, t, h) |}.

Section laws.
Context {F : Type} `{ScalarLaws F} (nk nv K V : Z).
Add Ring scalar : (scalar_ring (F := F)).
#[local] Open Scope sc.

Lemma delta_rule_ext S S' (k : Z → F) v gate beta :
  (∀ r, (0 <= r < K)%Z → S r = S' r) → ∀ r, (0 <= r < K)%Z → delta_rule K S k v gate beta r = delta_rule K S' k v gate beta r.
Proof.
  intros E r Hr. unfold delta_rule. rewrite E by done.
  by rewrite (fsum_ext (λ r, S r * gate * k r) (λ r, S' r * gate * k r)) by (intros; by rewrite E).
Qed.
Lemma attend_ext S S' (q : Z → F) : (∀ r, (0 <= r < K)%Z → S r = S' r) → attend K S q = attend K S' q.
Proof. intros E. unfold attend. f_equal. apply fsum_ext. intros i Hi. by rewrite E. Qed.
Lemma column_state_S c (S : Z → F) n : (0 <= n)%Z → column_state K c S (n + 1) =
  delta_rule K (column_state K c S n) (c_k c n) (c_v c n) (c_gate c n) (c_beta c n).
Proof. intros Hn. unfold column_state. by rewrite range_S, loop_app. Qed.
Lemma column_state_ext c (S S' : Z → F) n : (∀ r, (0 <= r < K)%Z → S r = S' r) →
  ∀ r, (0 <= r < K)%Z → column_state K c S n r = column_state K c S' n r.
Proof.
  intros E. induction n as [n Hn|n Hn IH] using range_ind; intros r Hr.
  - unfold column_state. rewrite range_nonpos by done. by apply E.
  - rewrite !column_state_S by done. by apply delta_rule_ext.
Qed.

(** What a token does to what another key is mapped to: with a key of unit length, what the key itself is mapped to moves
    to the value by the part [beta], and what an orthogonal key is mapped to only decays. *)
Lemma delta_rule_recall (S k q : Z → F) v gate beta :
  fsum (λ r, delta_rule K S k v gate beta r * q r) K =
  gate * fsum (λ r, S r * q r) K + beta * (v - gate * fsum (λ r, S r * k r) K) * fsum (λ r, k r * q r) K.
Proof.
  unfold delta_rule. rewrite (fsum_ext (λ r, S r * gate * k r) (λ r, gate * (S r * k r))), fsum_scale by (intros; ring).
  rewrite <-!fsum_scale, <-fsum_add. apply fsum_ext. intros r _. ring.
Qed.

(** Rows of one column. *)
Lemma rows_at (b h c : Z) (v : Z → F → F) (m : buffer4 F) r : (0 <= r < K)%Z →
  loop (range K) (λ vr m, <[(b, h, vr, c) := v vr (m (b, h, vr, c))]> m) m (b, h, r, c) = v r (m (b, h, r, c)).
Proof.
  intros Hr. apply (loop_store (range K) (λ vr, (b, h, vr, c)) v).
  - apply range_NoDup.
  - by intros i i' _ _ [= ->].
  - by apply elem_of_range.
Qed.
Lemma rows_other (b h c : Z) (v : Z → buffer4 F → F) (m : buffer4 F) p :
  (∀ r, (0 <= r < K)%Z → (b, h, r, c) ≠ p) → loop (range K) (λ vr m, <[(b, h, vr, c) := v vr m]> m) m p = m p.
Proof. intros Hp. apply loop_store_other. intros j Hj%elem_of_range. by apply Hp. Qed.

Section gdn.
Context (B T : Z) (q k v : buffer4 F) (gate beta : buffer3 F) (state_in : buffer4 F).
#[local] Abbreviation col_of := (column_of nk nv q k v gate beta).
#[local] Abbreviation token := (gdn_token nk nv K q k v gate beta).

Lemma gdn_token_state b h c t s r : (0 <= r < K)%Z → (token b h c t s).2 (b, h, r, c) =
  delta_rule K (λ r, s.2 (b, h, r, c)) (c_k (col_of b h c) t) (v (b, t, h, c)) (gate (b, t, h)) (beta (b, t, h)) r.
Proof.
  intros Hr. destruct s as [out st]. unfold gdn_token. cbn [fst snd]. unfold delta, decay, dot_sk.
  rewrite (rows_at b h c (λ vr x, x + k (b, t, key_head nk nv h, vr) * beta (b, t, h) * (v (b, t, h, c) - _))) by done.
  rewrite (rows_at b h c (λ vr x, x * gate (b, t, h))) by done.
  rewrite loop_accumulate.
  rewrite (fsum_ext _ (λ r, st (b, h, r, c) * gate (b, t, h) * k (b, t, key_head nk nv h, r))); [done|].
  intros i Hi. by rewrite (rows_at b h c (λ vr x, x * gate (b, t, h))) by done.
Qed.
Lemma gdn_token_out b h c t s :
  (token b h c t s).1 (b, t, h, c) = attend K (λ r, (token b h c t s).2 (b, h, r, c)) (c_q (col_of b h c) t).
Proof.
  destruct s as [out st]. unfold gdn_token. cbn [fst snd]. rewrite fn_lookup_insert. unfold dot_sq.
  by rewrite loop_accumulate.
Qed.
(** A thread only stores to its column. *)
Lemma gdn_token_other_state b h c t s p : (∀ r, (0 <= r < K)%Z → (b, h, r, c) ≠ p) → (token b h c t s).2 p = s.2 p.
Proof.
  intros Hp. destruct s as [out st]. unfold gdn_token. cbn [fst snd]. unfold delta, decay.
  by rewrite !rows_other by done.
Qed.
Lemma gdn_token_other_out b h c t s p : p ≠ (b, t, h, c) → (token b h c t s).1 p = s.1 p.
Proof.
  intros Hp. destruct s as [out st]. unfold gdn_token. cbn [fst snd]. unfold dot_sk, dot_sq.
  rewrite fn_lookup_insert_ne by done. rewrite loop_store_other by auto. rewrite fn_lookup_insert_ne by done.
  rewrite loop_store_other by auto. by rewrite fn_lookup_insert_ne by done.
Qed.

(** The tokens of a thread. *)
Lemma gdn_tokens_state b h c n s r : (0 <= r < K)%Z →
  (loop (range n) (token b h c) s).2 (b, h, r, c) = column_state K (col_of b h c) (λ r, s.2 (b, h, r, c)) n r.
Proof.
  revert r. induction n as [n Hn|n Hn IH] using range_ind; intros r Hr.
  - unfold column_state. by rewrite range_nonpos.
  - rewrite range_S, loop_app, column_state_S by done. cbn [loop foldl]. rewrite gdn_token_state by done.
    by apply delta_rule_ext.
Qed.
Lemma gdn_tokens_out b h c n s t : (0 <= t < n)%Z →
  (loop (range n) (token b h c) s).1 (b, t, h, c) = column_out K (col_of b h c) (λ r, s.2 (b, h, r, c)) t.
Proof.
  intros Ht. rewrite (range_split n t), loop_app, loop_cons by done. apply loop_invariant.
  - intros i s' (j & -> & Hj%elem_of_range)%list_elem_of_fmap <-. apply gdn_token_other_out. intros [=]. lia.
  - rewrite gdn_token_out. apply attend_ext. intros r Hr. rewrite column_state_S, gdn_token_state by lia.
    apply delta_rule_ext; [|done]. intros r' Hr'. by apply gdn_tokens_state.
Qed.
Lemma gdn_tokens_other_state b h c n s p :
  (∀ r, (0 <= r < K)%Z → (b, h, r, c) ≠ p) → (loop (range n) (token b h c) s).2 p = s.2 p.
Proof.
  intros Hp. apply (loop_invariant (λ s', s'.2 p = s.2 p)); [|done]. intros i s' _ <-. by apply gdn_token_other_state.
Qed.
Lemma gdn_tokens_other_out b h c n s p :
  (∀ t, (0 <= t < n)%Z → p ≠ (b, t, h, c)) → (loop (range n) (token b h c) s).1 p = s.1 p.
Proof.
  intros Hp. apply (loop_invariant (λ s', s'.1 p = s.1 p)); [|done]. intros i s' Hi%elem_of_range <-.
  apply gdn_token_other_out. by apply Hp.
Qed.

#[local] Abbreviation thread := (gdn_thread nk nv K T q k v gate beta state_in).
(** What a thread leaves in its column. *)
Definition column_done (x : Z * Z * Z) (s : buffer4 F * buffer4 F) : Prop :=
  let '(b, h, c) := x in
  (∀ r, (0 <= r < K)%Z → s.2 (b, h, r, c) = column_state K (col_of b h c) (λ r, state_in (b, h, r, c)) T r) ∧
  (∀ t, (0 <= t < T)%Z → s.1 (b, t, h, c) = column_out K (col_of b h c) (λ r, state_in (b, h, r, c)) t).
Lemma gdn_thread_done x s : column_done x (thread x s).
Proof.
  destruct x as [[b h] c], s as [out st]. unfold gdn_thread. split.
  - intros r Hr. rewrite gdn_tokens_state by done. apply column_state_ext; [|done]. intros r' Hr'. cbn [snd].
    unfold init_state. by rewrite (rows_at b h c (λ vr _, state_in (b, h, vr, c))).
  - intros t Ht. rewrite gdn_tokens_out by done. apply attend_ext. intros r Hr. apply column_state_ext; [|done].
    intros r' Hr'. cbn [snd]. unfold init_state. by rewrite (rows_at b h c (λ vr _, state_in (b, h, vr, c))).
Qed.
Lemma gdn_thread_other_state b h c s p : (∀ r, (0 <= r < K)%Z → (b, h, r, c) ≠ p) → (thread (b, h, c) s).2 p = s.2 p.
Proof.
  intros Hp. destruct s as [out st]. unfold gdn_thread. rewrite gdn_tokens_other_state by done. cbn [snd].
  by apply rows_other.
Qed.
Lemma gdn_thread_other_out b h c s p : (∀ t, (0 <= t < T)%Z → p ≠ (b, t, h, c)) → (thread (b, h, c) s).1 p = s.1 p.
Proof. intros Hp. destruct s as [out st]. unfold gdn_thread. by rewrite gdn_tokens_other_out. Qed.
Lemma gdn_thread_keeps x y s : x ≠ y → column_done y s → column_done y (thread x s).
Proof.
  destruct x as [[b h] c], y as [[b' h'] c']. intros Hxy [Hst Hout]. split.
  - intros r Hr. rewrite gdn_thread_other_state; [by apply Hst|]. intros r' _ [= -> -> -> ->]. done.
  - intros t Ht. rewrite gdn_thread_other_out; [by apply Hout|]. intros r' _ [= -> -> -> ->]. done.
Qed.

Lemma gdn_func_done s b h c : (0 <= b < B)%Z → (0 <= h < nv)%Z → (0 <= c < V)%Z →
  column_done (b, h, c) (gdn_func nk nv K V B T q k v gate beta state_in s).
Proof.
  intros Hb Hh Hc. apply (loop_each thread (λ _ _, True) column_done (grid3 B nv V)).
  - apply NoDup_grid3.
  - intros j s' _ _. apply gdn_thread_done.
  - intros i j s' _ _ Hij. split; [done|]. by apply gdn_thread_keeps.
  - done.
  - by apply elem_of_grid3.
Qed.
End gdn.

(** *** One token *)

(** The pass over the rows of a column that corrects the state and reads it out at once. *)
Lemma column_pass {I} `{EqDecision I} (ix : Z → I) (new : Z → F → F) (w : Z → F) (m : I → F) n :
  (∀ r r', ix r = ix r' → r = r') →
  let s := loop (range n) (λ r s, (s.1 + new r (s.2 (ix r)) * w r, <[ix r := new r (s.2 (ix r))]> s.2)) (0, m) in
  s.1 = fsum (λ r, new r (m (ix r)) * w r) n ∧
  (∀ r, (0 <= r < n)%Z → s.2 (ix r) = new r (m (ix r))) ∧
  (∀ p, (∀ r, (0 <= r < n)%Z → ix r ≠ p) → s.2 p = m p).
Proof.
  intros Hinj. induction n as [n Hn|n Hn (IH1 & IH2 & IH3)] using range_ind.
  { cbn. rewrite range_nonpos, fsum_nonpos by done. split; [done|]. split; [intros; lia|done]. }
  cbn. rewrite range_S, loop_app, fsum_S by done. cbn [loop foldl fst snd] in *.
  assert (∀ r, (0 <= r < n)%Z → ix r ≠ ix n) as Hne by (intros r Hr ->%Hinj; lia).
  rewrite IH3 by done. repeat split.
  - by rewrite IH1.
  - intros r Hr. destruct (decide (r = n)) as [->|]; [apply fn_lookup_insert|].
    rewrite fn_lookup_insert_ne; [apply IH2; lia|]. intros ->%Hinj. done.
  - intros p Hp. rewrite fn_lookup_insert_ne by (apply Hp; lia). apply IH3. intros r Hr. apply Hp. lia.
Qed.

Section decode.
Context (B : Z) (q k v : buffer4 F) (gate beta : buffer3 F).
#[local] Abbreviation col_of := (column_of nk nv q k v gate beta).

Section fresh.
Context (state_in : buffer4 F).
#[local] Abbreviation thread := (gdn_decode_thread nk nv K q k v gate beta state_in).
#[local] Abbreviation done := (column_done 1 q k v gate beta state_in).
Lemma decode_row b h c r : decode_new_state nk nv k v gate beta state_in (decode_dot_sk nk nv K k gate state_in b h c) b h c r =
  column_state K (col_of b h c) (λ r, state_in (b, h, r, c)) 1 r.
Proof. reflexivity. Qed.
Lemma gdn_decode_thread_spec b h c s :
  (∀ r, (0 <= r < K)%Z → (thread (b, h, c) s).2 (b, h, r, c) = column_state K (col_of b h c) (λ r, state_in (b, h, r, c)) 1 r) ∧
  (thread (b, h, c) s).1 (b, 0%Z, h, c) = column_out K (col_of b h c) (λ r, state_in (b, h, r, c)) 0 ∧
  (∀ p, (∀ r, (0 <= r < K)%Z → (b, h, r, c) ≠ p) → (thread (b, h, c) s).2 p = s.2 p) ∧
  (∀ p, (b, 0%Z, h, c) ≠ p → (thread (b, h, c) s).1 p = s.1 p).
Proof.
  destruct (column_pass (λ r, (b, h, r, c))
    (λ r _, decode_new_state nk nv k v gate beta state_in (decode_dot_sk nk nv K k gate state_in b h c) b h c r)
    (λ r, q (b, 0%Z, key_head nk nv h, r)) s.2 K) as (E1 & E2 & E3); [by intros r r' [=]|].
  unfold gdn_decode_thread, delta_and_dot_sq. destruct (loop (range K) _ _) as [dot_sq st]. cbn [fst snd] in *.
  split; [done|]. split; [|split; [done|]].
  - by rewrite fn_lookup_insert, E1.
  - intros p Hp. by rewrite fn_lookup_insert_ne.
Qed.
Lemma gdn_decode_func_done s b h c : (0 <= b < B)%Z → (0 <= h < nv)%Z → (0 <= c < V)%Z →
  done (b, h, c) (gdn_decode_func nk nv K V B q k v gate beta state_in s).
Proof.
  intros Hb Hh Hc. apply (loop_each thread (λ _ _, True) done (grid3 B nv V)).
  - apply NoDup_grid3.
  - intros [[b' h'] c'] s' _ _. destruct (gdn_decode_thread_spec b' h' c' s') as (E1 & E2 & _). split; [done|].
    intros t Ht. by assert (t = 0)%Z as -> by lia.
  - intros [[b1 h1] c1] [[b2 h2] c2] s' _ _ Hne. split; [done|].
    destruct (gdn_decode_thread_spec b1 h1 c1 s') as (_ & _ & E3 & E4). intros [Hs Ho]. split.
    + intros r Hr. rewrite E3; [by apply Hs|]. intros r' _ [= -> -> -> ->]. done.
    + intros t Ht. rewrite E4; [by apply Ho|]. intros [= -> _ -> ->]. done.
  - done.
  - by apply elem_of_grid3.
Qed.
End fresh.

Section storage.
Context (seqs hists : Z → Z) (m0 : buffer5 F).
#[local] Abbreviation slot := (slot seqs hists).
#[local] Abbreviation thread := (gdn_storage_thread nk nv K q k v gate beta seqs hists).
(** The slots of the sequences of a batch are different. *)
Definition slots_differ : Prop :=
  ∀ b b', (0 <= b < B)%Z → (0 <= b' < B)%Z → seqs b = seqs b' → hists b = hists b' → b = b'.
Lemma gdn_storage_thread_spec b h c s :
  (∀ r, (0 <= r < K)%Z → (thread (b, h, c) s).2 (slot b h r c) = column_state K (col_of b h c) (λ r, s.2 (slot b h r c)) 1 r) ∧
  (thread (b, h, c) s).1 (b, 0%Z, h, c) = column_out K (col_of b h c) (λ r, s.2 (slot b h r c)) 0 ∧
  (∀ p, (∀ r, (0 <= r < K)%Z → slot b h r c ≠ p) → (thread (b, h, c) s).2 p = s.2 p) ∧
  (∀ p, (b, 0%Z, h, c) ≠ p → (thread (b, h, c) s).1 p = s.1 p).
Proof.
  destruct (column_pass (λ r, slot b h r c)
    (λ r x, x * gate (b, 0%Z, h) + k (b, 0%Z, key_head nk nv h, r) * beta (b, 0%Z, h)
      * (v (b, 0%Z, h, c) - storage_dot_sk nk nv K k gate seqs hists s.2 b h c))
    (λ r, q (b, 0%Z, key_head nk nv h, r)) s.2 K) as (E1 & E2 & E3); [by intros r r' [=]|].
  unfold gdn_storage_thread, storage_row. destruct (loop (range K) _ _) as [dot_sq st]. cbn [fst snd] in *.
  split; [done|]. split; [|split; [done|]].
  - by rewrite fn_lookup_insert, E1.
  - intros p Hp. by rewrite fn_lookup_insert_ne.
Qed.
Definition storage_ready (x : Z * Z * Z) (s : buffer4 F * buffer5 F) : Prop :=
  let '(b, h, c) := x in ∀ r, (0 <= r < K)%Z → s.2 (slot b h r c) = m0 (slot b h r c).
Definition storage_done (x : Z * Z * Z) (s : buffer4 F * buffer5 F) : Prop :=
  let '(b, h, c) := x in
  (∀ r, (0 <= r < K)%Z → s.2 (slot b h r c) = column_state K (col_of b h c) (λ r, m0 (slot b h r c)) 1 r) ∧
  s.1 (b, 0%Z, h, c) = column_out K (col_of b h c) (λ r, m0 (slot b h r c)) 0.
Lemma storage_func_done out : slots_differ → ∀ b h c, (0 <= b < B)%Z → (0 <= h < nv)%Z → (0 <= c < V)%Z →
  storage_done (b, h, c) (gdn_decode_state_storage_func nk nv K V B q k v gate beta seqs hists (out, m0)).
Proof.
  intros Hd b h c Hb Hh Hc. apply (loop_each thread storage_ready storage_done (grid3 B nv V)).
  - apply NoDup_grid3.
  - intros [[b' h'] c'] s' _ Hr. destruct (gdn_storage_thread_spec b' h' c' s') as (E1 & E2 & _). split.
    + intros r Hr'. rewrite E1 by done. by apply column_state_ext.
    + rewrite E2. apply attend_ext. intros r Hr'. by apply column_state_ext.
  - intros [[b1 h1] c1] [[b2 h2] c2] s' (Hb1 & _)%elem_of_grid3 (Hb2 & _)%elem_of_grid3 Hne.
    destruct (gdn_storage_thread_spec b1 h1 c1 s') as (_ & _ & E3 & E4).
    assert (∀ r r', slot b1 h1 r' c1 ≠ slot b2 h2 r c2) as Hslot.
    { intros r r' [= E5 E6 -> -> ->]. apply Hne. by rewrite (Hd b1 b2). }
    split; [intros Hr r Hr'; by rewrite E3, Hr by auto|]. intros [Hs Ho]. split.
    + intros r Hr. rewrite E3 by auto. by apply Hs.
    + rewrite E4; [by apply Ho|]. intros [= -> -> ->]. done.
  - by intros [[b' h'] c'] _ r _.
  - by apply elem_of_grid3.
Qed.
Lemma storage_func_other out p :
  (∀ b h c r, (0 <= b < B)%Z → (0 <= h < nv)%Z → (0 <= c < V)%Z → (0 <= r < K)%Z → slot b h r c ≠ p) →
  (gdn_decode_state_storage_func nk nv K V B q k v gate beta seqs hists (out, m0)).2 p = m0 p.
Proof.
  intros Hp. apply (loop_invariant (λ s, s.2 p = m0 p)); [|done].
  intros [[b h] c] s (Hb & Hh & Hc)%elem_of_grid3 <-. apply gdn_storage_thread_spec. auto.
Qed.
End storage.
End decode.

(** *** The preparations *)

Section preparation.
Context (qkv z alpha beta_raw : buffer3 F) (A_log dt_bias : Z → F).
(** The prepared inputs of [B] sequences of [T] tokens. *)
Record prepares (B T : Z) (o : prepared (F := F)) : Prop := {
  pr_q : ∀ b t h r, (0 <= b < B)%Z → (0 <= t < T)%Z → (0 <= h < nk)%Z → (0 <= r < K)%Z →
    q_out o (b, t, h, r) = q_norm K qkv b t h r;
  pr_k : ∀ b t h r, (0 <= b < B)%Z → (0 <= t < T)%Z → (0 <= h < nk)%Z → (0 <= r < K)%Z →
    k_out o (b, t, h, r) = k_norm nk K qkv b t h r;
  pr_v : ∀ b t h c, (0 <= b < B)%Z → (0 <= t < T)%Z → (0 <= h < nv)%Z → (0 <= c < V)%Z →
    v_out o (b, t, h, c) = v_silu nk K qkv b t (h * V + c)%Z;
  pr_gate : ∀ b t h, (0 <= b < B)%Z → (0 <= t < T)%Z → (0 <= h < nv)%Z → gate_out o (b, t, h) = gate_of alpha A_log dt_bias b t h;
  pr_beta : ∀ b t h, (0 <= b < B)%Z → (0 <= t < T)%Z → (0 <= h < nv)%Z → beta_out o (b, t, h) = beta_of beta_raw b t h;
  pr_z : ∀ b t d, (0 <= b < B)%Z → (0 <= t < T)%Z → (0 <= d < nv * V)%Z → z_silu_out o (b, t, d) = silu (z (b, t, d)) }.

Lemma head_dim h c : (0 <= h < nv)%Z → (0 <= c < V)%Z → (0 <= h * V + c < nv * V)%Z.
Proof. nia. Qed.
Lemma decode_prepares B o : prepares B 1 (gdn_decode_prepare_func nk nv K V qkv z alpha beta_raw A_log dt_bias B o).
Proof.
  unfold gdn_decode_prepare_func. split; cbn [q_out k_out v_out gate_out beta_out z_silu_out]; intros b t.
  - intros h r Hb Ht Hh Hr. assert (t = 0)%Z as -> by lia.
    apply (writes_at _ (λ '(vb, vh, vr), (vb, 0%Z, vh, vr)) (λ '(vb, vh, vr), q_norm K qkv vb 0 vh vr) _ (b, h, r));
      [by intros [[??]?] [[??]?] _ _ [= -> -> ->]|by apply elem_of_grid3].
  - intros h r Hb Ht Hh Hr. assert (t = 0)%Z as -> by lia.
    apply (writes_at _ (λ '(vb, vh, vr), (vb, 0%Z, vh, vr)) (λ '(vb, vh, vr), k_norm nk K qkv vb 0 vh vr) _ (b, h, r));
      [by intros [[??]?] [[??]?] _ _ [= -> -> ->]|by apply elem_of_grid3].
  - intros h c Hb Ht Hh Hc. assert (t = 0)%Z as -> by lia.
    assert ((b, 0, h, c) = (b, 0, (h * V + c) / V, (h * V + c) mod V))%Z as -> by (by rewrite radix_div, radix_mod).
    apply (writes_at _ (λ '(vb, vd), (vb, 0, vd / V, vd mod V)%Z) (λ '(vb, vd), v_silu nk K qkv vb 0 vd) _ (b, h * V + c)%Z);
      [|apply elem_of_grid; split; [done|by apply head_dim]].
    intros [b1 d1] [b2 d2] _ _ [= -> E1 E2]. f_equal. rewrite (Z.div_mod d1 V), (Z.div_mod d2 V) by lia. by rewrite E1, E2.
  - intros h Hb Ht Hh. assert (t = 0)%Z as -> by lia.
    apply (writes_at _ (λ '(vb, vh), (vb, 0%Z, vh)) (λ '(vb, vh), gate_of alpha A_log dt_bias vb 0 vh) _ (b, h));
      [by intros [??] [??] _ _ [= -> ->]|by apply elem_of_grid].
  - intros h Hb Ht Hh. assert (t = 0)%Z as -> by lia.
    apply (writes_at _ (λ '(vb, vh), (vb, 0%Z, vh)) (λ '(vb, vh), beta_of beta_raw vb 0 vh) _ (b, h));
      [by intros [??] [??] _ _ [= -> ->]|by apply elem_of_grid].
  - intros d Hb Ht Hd. assert (t = 0)%Z as -> by lia.
    apply (writes_at _ (λ '(vb, vd), (vb, 0%Z, vd)) (λ '(vb, vd), z_silu z vb 0 vd) _ (b, d));
      [by intros [??] [??] _ _ [= -> ->]|by apply elem_of_grid].
Qed.
Lemma prefill_prepares B T o : prepares B T (gdn_prefill_prepare_func nk nv K V qkv z alpha beta_raw A_log dt_bias B T o).
Proof.
  unfold gdn_prefill_prepare_func. assert (∀ b t h r, (0 <= b < B)%Z → (0 <= t < T)%Z → (0 <= h < nk)%Z → (0 <= r < K)%Z →
    (b, t, h, r) ∈ grid B T ≫= λ '(vb, vt), (λ '(vh, vr), (vb, vt, vh, vr)) <$> grid nk K) as Hqk.
  { intros b t h r Hb Ht Hh Hr. apply list_elem_of_bind. exists (b, t). split; [|by apply elem_of_grid].
    apply list_elem_of_fmap. exists (h, r). by split; [|apply elem_of_grid]. }
  split; cbn [q_out k_out v_out gate_out beta_out z_silu_out]; intros b t.
  - intros h r Hb Ht Hh Hr. apply (writes_at _ id (λ '(vb, vt, vh, vr), q_norm K qkv vb vt vh vr) _ (b, t, h, r)); auto.
  - intros h r Hb Ht Hh Hr. apply (writes_at _ id (λ '(vb, vt, vh, vr), k_norm nk K qkv vb vt vh vr) _ (b, t, h, r)); auto.
  - intros h c Hb Ht Hh Hc.
    assert ((b, t, h, c) = (b, t, (h * V + c) / V, (h * V + c) mod V))%Z as -> by (by rewrite radix_div, radix_mod).
    apply (writes_at _ (λ '(vb, vt, vd), (vb, vt, vd / V, vd mod V)%Z) (λ '(vb, vt, vd), v_silu nk K qkv vb vt vd) _
      (b, t, h * V + c)%Z); [|apply elem_of_grid3; split_and!; try lia; by apply head_dim].
    intros [[b1 t1] d1] [[b2 t2] d2] _ _ [= -> -> E1 E2]. f_equal.
    rewrite (Z.div_mod d1 V), (Z.div_mod d2 V) by lia. by rewrite E1, E2.
  - intros h Hb Ht Hh. apply (writes_at _ id (λ '(vb, vt, vh), gate_of alpha A_log dt_bias vb vt vh) _ (b, t, h));
      [auto|by apply elem_of_grid3].
  - intros h Hb Ht Hh. apply (writes_at _ id (λ '(vb, vt, vh), beta_of beta_raw vb vt vh) _ (b, t, h)); [auto|by apply elem_of_grid3].
  - intros d Hb Ht Hd. apply (writes_at _ id (λ '(vb, vt, vd), z_silu z vb vt vd) _ (b, t, d)); [auto|by apply elem_of_grid3].
Qed.
(** The operators of the compiler do the same. *)
Lemma unfused_prepares op_sigmoid op_silu B T :
  (∀ x : F, op_sigmoid x = 1 / (1 + fexp (- x))) → (∀ x : F, op_silu x = x * op_sigmoid x) →
  prepares B T (unfused nk K V op_sigmoid op_silu qkv alpha beta_raw z A_log dt_bias).
Proof.
  intros Hsig Hsilu. assert (∀ x, op_silu x = silu x) as E.
  { intros x. rewrite Hsilu, Hsig. unfold silu. by rewrite (div_mul x). }
  split; cbn [unfused q_out k_out v_out gate_out beta_out z_silu_out].
  - intros b t h r _ _ _ _. cbn. rewrite div_mul, <-rsqrt_spec, E. unfold q_norm, q_sum. do 3 f_equal.
    apply fsum_ext. intros i _. by rewrite E.
  - intros b t h r _ _ _ _. cbn. rewrite div_mul, <-rsqrt_spec, E. unfold k_norm, k_sum, k_silu.
    rewrite Z.add_assoc. do 3 f_equal. apply fsum_ext. intros i _. by rewrite E, Z.add_assoc.
  - intros b t h c _ _ _ _. cbn. by rewrite E.
  - done.
  - intros b t h _ _ _. cbn. by rewrite Hsig.
  - intros b t d _ _ _. cbn. by rewrite E.
Qed.

(** *** The packed kernel *)

Section packed.
Context (B : Z) (seqs hists : Z → Z).
#[local] Abbreviation packed := (gdn_packed_decode_state_storage_func nk nv K V B qkv z alpha beta_raw A_log dt_bias seqs hists).
Definition prep_q : buffer4 F := λ '(b, t, h, r), q_norm K qkv b t h r.
Definition prep_k : buffer4 F := λ '(b, t, h, r), k_norm nk K qkv b t h r.
Definition prep_v : buffer4 F := λ '(b, t, h, c), v_silu nk K qkv b t (h * V + c)%Z.
Definition prep_gate : buffer3 F := λ '(b, t, h), gate_of alpha A_log dt_bias b t h.
Definition prep_beta : buffer3 F := λ '(b, t, h), beta_of beta_raw b t h.
Lemma packed_is_storage s :
  (packed s).1 = gdn_decode_state_storage_func nk nv K V B prep_q prep_k prep_v prep_gate prep_beta seqs hists s.1.
Proof.
  unfold gdn_packed_decode_state_storage_func, gdn_decode_state_storage_func. revert s.
  induction (grid3 B nv V) as [|[[b h] c] l IH]; intros s; [done|]. rewrite !loop_cons, IH. f_equal. clear IH.
  destruct s as [[out st] zo]. unfold packed_thread, gdn_storage_thread. cbn [fst snd].
  assert (loop (range K) (packed_row nk nv K qkv alpha beta_raw A_log dt_bias seqs hists
        (silu (qkv (b, 0, q_dim nk K + k_dim nk K + h * V + c)%Z)) (packed_dot_sk nk nv K qkv alpha A_log dt_bias seqs hists st b h c) b h c) (0, st) =
    loop (range K) (storage_row nk nv prep_q prep_k prep_v prep_gate prep_beta seqs hists
        (storage_dot_sk nk nv K prep_k prep_gate seqs hists st b h c) b h c) (0, st)) as ->.
  { apply loop_ext. intros r s _. unfold packed_row, storage_row, prep_v, v_silu. by rewrite Z.add_assoc. }
  by destruct (loop _ _ _).
Qed.
Lemma packed_z s b d : (0 < V)%Z → (0 <= b < B)%Z → (0 <= d < nv * V)%Z → (packed s).2 (b, 0%Z, d) = silu (z (b, 0%Z, d)).
Proof.
  intros HV Hb Hd. assert (∀ s b' h c, (packed_thread nk nv K V qkv z alpha beta_raw A_log dt_bias seqs hists (b', h, c) s).2 =
    <[(b', 0, h * V + c)%Z := silu (z (b', 0, h * V + c)%Z)]> s.2) as E.
  { intros [[out st] zo] b' h c. unfold packed_thread. by destruct (loop _ _ _). }
  pose proof (Z.mod_pos_bound d V HV). pose proof (Z.div_mod d V).
  apply (loop_establishes (λ s, s.2 (b, 0%Z, d) = silu (z (b, 0%Z, d))) _ _ _ (b, d / V, d mod V)%Z).
  - apply elem_of_grid3. split_and!; try lia; [apply Z.div_pos; lia|apply Z.div_lt_upper_bound; lia].
  - intros s'. rewrite E. replace (d / V * V + d mod V)%Z with d by lia. apply fn_lookup_insert.
  - intros [[b' h] c] s' _ Hs. rewrite E. destruct (decide ((b', 0, h * V + c)%Z = (b, 0%Z, d))) as [Hbd|Hbd].
    + rewrite Hbd. apply fn_lookup_insert.
    + by rewrite fn_lookup_insert_ne.
Qed.
End packed.
End preparation.

(** The preparations only read the projections there are. *)
Lemma prepares_ext qkv z alpha beta_raw A_log dt_bias B T o (qkv' : buffer3 F) :
  (0 <= nk)%Z → (0 <= nv)%Z → (0 <= K)%Z → (0 <= V)%Z →
  (∀ b t d, (0 <= b < B)%Z → (0 <= t < T)%Z → (0 <= d < qkv_dim nk nv K V)%Z → qkv (b, t, d) = qkv' (b, t, d)) →
  prepares qkv z alpha beta_raw A_log dt_bias B T o → prepares qkv' z alpha beta_raw A_log dt_bias B T o.
Proof.
  unfold qkv_dim, q_dim, k_dim, v_dim. intros H1 H2 H3 H4 E [hq hk hv hg hbt hz]. split; try done; intros b t h r Hb Ht Hh Hr.
  - assert (∀ r, (0 <= r < K)%Z → q_silu K qkv b t h r = q_silu K qkv' b t h r) as Eq by (intros i Hi; unfold q_silu; rewrite E by nia; done).
    rewrite hq by done. unfold q_norm, q_sum. rewrite Eq by done. do 3 f_equal. apply fsum_ext. intros i Hi. by rewrite Eq.
  - assert (∀ r, (0 <= r < K)%Z → k_silu nk K qkv b t h r = k_silu nk K qkv' b t h r) as Eq
      by (intros i Hi; unfold k_silu, q_dim; rewrite E by nia; done).
    rewrite hk by done. unfold k_norm, k_sum. rewrite Eq by done. do 3 f_equal. apply fsum_ext. intros i Hi. by rewrite Eq.
  - rewrite hv by done. unfold v_silu, q_dim, k_dim. rewrite E by nia. done.
Qed.

(** *** Columns that agree *)

Lemma key_head_range h : (0 < nk)%Z → (nk | nv)%Z → (0 <= h < nv)%Z → (0 <= key_head nk nv h < nk)%Z.
Proof.
  intros Hk [g ->] Hh. unfold key_head, heads_per_group. rewrite Z.div_mul by lia. assert (0 < g)%Z by nia.
  split; [apply Z.div_pos; lia|]. apply Z.div_lt_upper_bound; lia.
Qed.
(** Columns that show the same in the rows and tokens there are. *)
Record same_column (T : Z) (c c' : column (F := F)) : Prop := {
  sc_q : ∀ t r, (0 <= t < T)%Z → (0 <= r < K)%Z → c_q c t r = c_q c' t r;
  sc_k : ∀ t r, (0 <= t < T)%Z → (0 <= r < K)%Z → c_k c t r = c_k c' t r;
  sc_v : ∀ t, (0 <= t < T)%Z → c_v c t = c_v c' t;
  sc_gate : ∀ t, (0 <= t < T)%Z → c_gate c t = c_gate c' t;
  sc_beta : ∀ t, (0 <= t < T)%Z → c_beta c t = c_beta c' t }.
Lemma column_state_same T c c' S n r : same_column T c c' → (n <= T)%Z → (0 <= r < K)%Z → column_state K c S n r = column_state K c' S n r.
Proof.
  intros E. revert r. induction n as [n Hn|n Hn IH] using range_ind; intros r HnT Hr.
  - unfold column_state. by rewrite range_nonpos.
  - rewrite !column_state_S by done. etransitivity; [apply delta_rule_ext; [intros; apply IH; lia|done]|].
    unfold delta_rule. destruct E. rewrite <-sc_v0, <-sc_gate0, <-sc_beta0, <-sc_k0 by lia. do 3 f_equal.
    apply fsum_ext. intros i Hi. by rewrite sc_k0 by lia.
Qed.
Lemma column_out_same T c c' S t : same_column T c c' → (0 <= t < T)%Z → column_out K c S t = column_out K c' S t.
Proof.
  intros E Ht. unfold column_out, attend. f_equal. apply fsum_ext. intros r Hr. f_equal; [|by apply E].
  eapply column_state_same; [done|lia|done].
Qed.

(** However the inputs were prepared, a column sees the same. *)
Lemma prepared_column qkv z alpha beta_raw A_log dt_bias B T o b h c : (0 < nk)%Z → (nk | nv)%Z →
  prepares qkv z alpha beta_raw A_log dt_bias B T o → (0 <= b < B)%Z → (0 <= h < nv)%Z → (0 <= c < V)%Z →
  same_column T (column_of nk nv (prep_q qkv) (prep_k qkv) (prep_v qkv) (prep_gate alpha A_log dt_bias) (prep_beta beta_raw) b h c)
    (column_of nk nv (q_out o) (k_out o) (v_out o) (gate_out o) (beta_out o) b h c).
Proof.
  intros Hk Hdiv [hq hk hv hg hbt hz] Hb Hh Hc. pose proof (key_head_range h Hk Hdiv Hh) as Hkh.
  split; cbn [column_of c_q c_k c_v c_gate c_beta prep_q prep_k prep_v prep_gate prep_beta];
    intros t; intros; [rewrite hq|rewrite hk|rewrite hv|rewrite hg|rewrite hbt]; done || lia.
Qed.

(** *** The kernels *)

Definition later4 (m : Z) (x : buffer4 F) : buffer4 F := λ '(b, t, h, r), x (b, m + t, h, r)%Z.
Definition later3 (m : Z) (x : buffer3 F) : buffer3 F := λ '(b, t, h), x (b, m + t, h)%Z.
Definition later_column (m : Z) (c : column (F := F)) : column (F := F) := {|
  c_q := λ t, c_q c (m + t)%Z; c_k := λ t, c_k c (m + t)%Z; c_v := λ t, c_v c (m + t)%Z;
  c_gate := λ t, c_gate c (m + t)%Z; c_beta := λ t, c_beta c (m + t)%Z |}.
Lemma column_state_app c S m n : (0 <= m)%Z → (0 <= n)%Z →
  column_state K c S (m + n) = column_state K (later_column m c) (column_state K c S m) n.
Proof. intros Hm Hn. unfold column_state. by rewrite range_app, loop_app, loop_fmap. Qed.

(** C7. The recurrent kernel computes the gated delta rule in every column of every head, for any number of tokens, and a
    prefill may be cut anywhere: the kernel run on the second part, from the state the first part leaves, gives the
    same outputs and the same final state as the kernel run on the whole. *)
Theorem gdn_func_spec B T1 T2 q k v gate beta state_in s1 s2 s3 : (0 <= T1)%Z → (0 <= T2)%Z →
  let whole := gdn_func nk nv K V B (T1 + T2) q k v gate beta state_in s1 in
  let first := gdn_func nk nv K V B T1 q k v gate beta state_in s2 in
  let second := gdn_func nk nv K V B T2 (later4 T1 q) (later4 T1 k) (later4 T1 v) (later3 T1 gate) (later3 T1 beta) first.2 s3 in
  ∀ b h c, (0 <= b < B)%Z → (0 <= h < nv)%Z → (0 <= c < V)%Z →
  let col := column_of nk nv q k v gate beta b h c in
  let S := λ r, state_in (b, h, r, c) in
  (∀ r, (0 <= r < K)%Z → whole.2 (b, h, r, c) = column_state K col S (T1 + T2) r ∧ second.2 (b, h, r, c) = whole.2 (b, h, r, c)) ∧
  (∀ t, (0 <= t < T1 + T2)%Z → whole.1 (b, t, h, c) = column_out K col S t) ∧
  (∀ t, (0 <= t < T1)%Z → first.1 (b, t, h, c) = whole.1 (b, t, h, c)) ∧
  (∀ t, (0 <= t < T2)%Z → second.1 (b, t, h, c) = whole.1 (b, T1 + t, h, c)%Z).
Proof.
  intros H1 H2 whole first second b h c Hb Hh Hc col S.
  destruct (gdn_func_done B (T1 + T2) q k v gate beta state_in s1 b h c Hb Hh Hc) as [Ew Ow].
  destruct (gdn_func_done B T1 q k v gate beta state_in s2 b h c Hb Hh Hc) as [Ef Of].
  destruct (gdn_func_done B T2 (later4 T1 q) (later4 T1 k) (later4 T1 v) (later3 T1 gate) (later3 T1 beta) first.2 s3
    b h c Hb Hh Hc) as [Es Os]. fold whole in Ew, Ow. fold first in Ef, Of. fold second in Es, Os.
  assert (∀ n r, (0 <= n)%Z → (0 <= r < K)%Z → column_state K col S (T1 + n) r =
    column_state K (later_column T1 col) (λ r, first.2 (b, h, r, c)) n r) as E.
  { intros n r Hn Hr. rewrite column_state_app by done. apply column_state_ext; [|done]. intros r' Hr'. by rewrite Ef. }
  split_and!.
  - intros r Hr. rewrite Ew, Es by done. split; [done|]. by rewrite E.
  - done.
  - intros t Ht. rewrite Of, Ow by lia. done.
  - intros t Ht. rewrite Os, Ow by lia. unfold column_out. apply attend_ext. intros r Hr.
    rewrite <-Z.add_assoc, E by lia. done.
Qed.

(** C6. For one token all the kernels agree: the generic recurrence, the one specialized to one token, the one that
    updates the storage of the states in place, and the one that prepares its inputs itself, give the same outputs and
    the same new states, whichever way the inputs were prepared; a storage that holds other sequences keeps them. *)
Theorem gdn_decode_agree B qkv z alpha beta_raw A_log dt_bias o state_in storage seqs hists s1 s2 out3 out4 z4 :
  (0 < nk)%Z → (nk | nv)%Z → (0 < V)%Z → slots_differ B seqs hists → prepares qkv z alpha beta_raw A_log dt_bias B 1 o →
  (∀ b h r c, (0 <= b < B)%Z → (0 <= h < nv)%Z → (0 <= r < K)%Z → (0 <= c < V)%Z →
    storage (slot seqs hists b h r c) = state_in (b, h, r, c)) →
  let generic := gdn_func nk nv K V B 1 (q_out o) (k_out o) (v_out o) (gate_out o) (beta_out o) state_in s1 in
  let decode := gdn_decode_func nk nv K V B (q_out o) (k_out o) (v_out o) (gate_out o) (beta_out o) state_in s2 in
  let inplace := gdn_decode_state_storage_func nk nv K V B (q_out o) (k_out o) (v_out o) (gate_out o) (beta_out o) seqs hists (out3, storage) in
  let packed := gdn_packed_decode_state_storage_func nk nv K V B qkv z alpha beta_raw A_log dt_bias seqs hists (out4, storage, z4) in
  (∀ b h c, (0 <= b < B)%Z → (0 <= h < nv)%Z → (0 <= c < V)%Z →
    decode.1 (b, 0%Z, h, c) = generic.1 (b, 0%Z, h, c) ∧ inplace.1 (b, 0%Z, h, c) = generic.1 (b, 0%Z, h, c) ∧
    packed.1.1 (b, 0%Z, h, c) = generic.1 (b, 0%Z, h, c) ∧
    (∀ r, (0 <= r < K)%Z → decode.2 (b, h, r, c) = generic.2 (b, h, r, c) ∧
      inplace.2 (slot seqs hists b h r c) = generic.2 (b, h, r, c) ∧ packed.1.2 (slot seqs hists b h r c) = generic.2 (b, h, r, c)) ∧
    packed.2 (b, 0%Z, (h * V + c)%Z) = z_silu_out o (b, 0%Z, (h * V + c)%Z)) ∧
  (∀ p, (∀ b h c r, (0 <= b < B)%Z → (0 <= h < nv)%Z → (0 <= c < V)%Z → (0 <= r < K)%Z → slot seqs hists b h r c ≠ p) →
    inplace.2 p = storage p ∧ packed.1.2 p = storage p).
Proof.
  intros Hk Hdiv HV Hslots Ho Hst generic decode inplace packed. split.
  - intros b h c Hb Hh Hc.
    set (col := column_of nk nv (q_out o) (k_out o) (v_out o) (gate_out o) (beta_out o) b h c).
    destruct (gdn_func_done B 1 (q_out o) (k_out o) (v_out o) (gate_out o) (beta_out o) state_in s1 b h c Hb Hh Hc) as [Eg Og].
    destruct (gdn_decode_func_done B (q_out o) (k_out o) (v_out o) (gate_out o) (beta_out o) state_in s2 b h c Hb Hh Hc) as [Ed Od].
    destruct (storage_func_done B (q_out o) (k_out o) (v_out o) (gate_out o) (beta_out o) seqs hists storage out3 Hslots b h c Hb Hh Hc)
      as [Ei Oi].
    destruct (storage_func_done B (prep_q qkv) (prep_k qkv) (prep_v qkv) (prep_gate alpha A_log dt_bias) (prep_beta beta_raw)
      seqs hists storage out4 Hslots b h c Hb Hh Hc) as [Ep Op].
    pose proof (packed_is_storage qkv z alpha beta_raw A_log dt_bias B seqs hists (out4, storage, z4)) as Epk. cbn [fst] in Epk.
    rewrite <-Epk in Ep, Op. fold packed in Ep, Op. fold inplace in Ei, Oi. fold decode in Ed, Od. fold generic in Eg, Og.
    set (raw := column_of nk nv (prep_q qkv) (prep_k qkv) (prep_v qkv) (prep_gate alpha A_log dt_bias) (prep_beta beta_raw) b h c) in *.
    fold col in Eg, Og, Ed, Od, Ei, Oi.
    assert (same_column 1 raw col) as Hsame by (by eapply prepared_column).
    assert (∀ n r, (n <= 1)%Z → (0 <= r < K)%Z → column_state K col (λ r, storage (slot seqs hists b h r c)) n r =
      column_state K col (λ r, state_in (b, h, r, c)) n r) as Estart.
    { intros n r Hn Hr. apply column_state_ext; [|done]. intros r' Hr'. by apply Hst. }
    assert (column_out K col (λ r, storage (slot seqs hists b h r c)) 0 = column_out K col (λ r, state_in (b, h, r, c)) 0) as Ostart.
    { apply attend_ext. intros r Hr. apply Estart; lia. }
    rewrite Og, Od, Oi, Op by lia. rewrite (column_out_same 1 raw col) by (done || lia). split_and!; [done..| |].
    + intros r Hr. rewrite Eg, Ed, Ei, Ep by done. rewrite (column_state_same 1 raw col) by (done || lia).
      split_and!; [done| |]; apply Estart; lia.
    + unfold packed. rewrite packed_z by (done || by apply head_dim). symmetry. apply (pr_z _ _ _ _ _ _ _ _ _ Ho); [done|lia|by apply head_dim].
  - intros p Hp. split; [by apply storage_func_other|]. unfold packed. rewrite packed_is_storage. by apply storage_func_other.
Qed.

(** The three preparations of the inputs give the same: the kernels for a prefill and for one token, and the operators
    of the compiler; each writes the normalized queries and keys, the values, the decay and update rates, and the
    activated [z] of every token. *)
Theorem gdn_prepare_agree op_sigmoid op_silu qkv z alpha beta_raw A_log dt_bias B T o1 o2 :
  (∀ x : F, op_sigmoid x = 1 / (1 + fexp (- x))) → (∀ x : F, op_silu x = x * op_sigmoid x) →
  prepares qkv z alpha beta_raw A_log dt_bias B T (unfused nk K V op_sigmoid op_silu qkv alpha beta_raw z A_log dt_bias) ∧
  prepares qkv z alpha beta_raw A_log dt_bias B T (gdn_prefill_prepare_func nk nv K V qkv z alpha beta_raw A_log dt_bias B T o1) ∧
  prepares qkv z alpha beta_raw A_log dt_bias B 1 (gdn_decode_prepare_func nk nv K V qkv z alpha beta_raw A_log dt_bias B o2).
Proof.
  intros Hsig Hsilu. split; [by apply unfused_prepares|]. split; [apply prefill_prepares|apply decode_prepares].
Qed.
End laws.

(** ** The convolution *)

Section conv_laws.
Context {F : Type} `{ScalarLaws F} (kernel_size qkv_dim : Z).
#[local] Abbreviation ks1 := (ks_minus_1 kernel_size).
#[local] Abbreviation conv := (depthwise_conv1d kernel_size).
#[local] Abbreviation update := (update_conv_state kernel_size).

(** Case analysis on the comparisons of indices. *)
Ltac z_case := repeat case_bool_decide || match goal with |- context [(?x <? ?y)%Z] => destruct (Z.ltb_spec x y) end.

Lemma conv_later s cs (qkv weight : buffer3 F) b i d : 0 ≤ s → 0 ≤ i →
  conv (update s cs qkv) (later3 s qkv) weight (b, i, d) = conv cs qkv weight (b, s + i, d).
Proof.
  intros Hs Hi. cbn. apply fsum_ext. intros kk Hkk. f_equal. z_case; try lia; f_equal; f_equal; f_equal; lia.
Qed.
Lemma update_later s1 s2 cs (qkv : buffer3 F) b t d : 0 ≤ s1 → 0 ≤ s2 → 0 ≤ t →
  update s2 (update s1 cs qkv) (later3 s1 qkv) (b, t, d) = update (s1 + s2) cs qkv (b, t, d).
Proof. intros H1 H2 Ht. cbn. z_case; try lia; f_equal; f_equal; f_equal; lia. Qed.

Section storage.
Context (B max_history : Z) (qkv : buffer3 F) (seqs hists : Z → Z) (weight : buffer3 F) (m0 : buffer4 F).
#[local] Abbreviation next := (next_history_slot max_history hists).
#[local] Abbreviation thread := (conv_thread kernel_size max_history qkv seqs hists weight).
(** The state of the convolution in the storage. *)
Definition stored : buffer3 F := λ '(b, j, d), m0 (seqs b, hists b, j, d).
Lemma conv_update_loop b d n (m : buffer4 F) :
  let m' := loop (range n) (conv_update kernel_size max_history qkv seqs hists b d) m in
  (∀ p, 0 ≤ p < n → m' (seqs b, next b, p, d) =
    if p + 1 <? ks1 then m (seqs b, hists b, p + 1, d) else qkv (b, 0, d)) ∧
  (∀ a, (∀ p, 0 ≤ p < n → (seqs b, next b, p, d) ≠ a) → m' a = m a).
Proof.
  induction n as [n Hn|n Hn [IH1 IH2]] using range_ind; cbn.
  { rewrite range_nonpos by done. split; [intros; lia|done]. }
  rewrite range_S, loop_app by done. cbn [loop foldl]. unfold conv_update at 1 3. rewrite IH2 by (intros p Hp [=]; lia). split.
  - intros p Hp. destruct (decide (p = n)) as [->|]; [apply fn_lookup_insert|].
    rewrite fn_lookup_insert_ne by congruence. apply IH1. lia.
  - intros a Ha. rewrite fn_lookup_insert_ne by (apply Ha; lia). apply IH2. intros p Hp. apply Ha. lia.
Qed.

Definition conv_ready (x : Z * Z) (s : buffer3 F * buffer4 F) : Prop :=
  let '(b, d) := x in ∀ hist j, s.2 (seqs b, hist, j, d) = m0 (seqs b, hist, j, d).
Definition conv_done (x : Z * Z) (s : buffer3 F * buffer4 F) : Prop :=
  let '(b, d) := x in
  s.1 (b, 0, d) = conv stored qkv weight (b, 0, d) ∧
  (∀ j, 0 ≤ j < ks1 → s.2 (seqs b, next b, j, d) = update 1 stored qkv (b, j, d)) ∧
  (∀ hist j, hist ≠ next b → s.2 (seqs b, hist, j, d) = m0 (seqs b, hist, j, d)).
Lemma conv_thread_done b d s : conv_ready (b, d) s → conv_done (b, d) (thread (b, d) s).
Proof.
  intros Hr. unfold conv_thread. cbn [fst snd]. destruct (conv_update_loop b d ks1 s.2) as [E1 E2]. split_and!.
  - cbn [fst]. rewrite fn_lookup_insert. unfold conv_acc. cbn. unfold fsum. apply loop_ext. intros kk acc Hkk%elem_of_range.
    f_equal. f_equal. rewrite Z.add_0_l. destruct (Z.ltb_spec kk ks1); [apply Hr|].
    do 3 f_equal. unfold ks_minus_1 in *. lia.
  - intros j Hj. cbn [snd]. rewrite E1 by done. cbn. rewrite Hr. z_case; try lia; do 3 f_equal; lia.
  - intros hist j Hh. cbn [snd]. rewrite E2; [apply Hr|]. intros p Hp [=]. congruence.
Qed.
Lemma conv_thread_other x s a : (∀ j, (seqs x.1, next x.1, j, x.2) ≠ a) → (thread x s).2 a = s.2 a.
Proof.
  destruct x as [b d]. intros Ha. unfold conv_thread. cbn [fst snd] in *.
  destruct (conv_update_loop b d ks1 s.2) as [_ E2]. apply E2. intros p Hp. apply Ha.
Qed.
Lemma conv_func_done out b d : (∀ b b', 0 ≤ b < B → 0 ≤ b' < B → seqs b = seqs b' → b = b') →
  0 ≤ b < B → 0 ≤ d < qkv_dim →
  conv_done (b, d) (causal_conv1d_decode_state_storage_func kernel_size qkv_dim B max_history qkv seqs hists weight (out, m0)).
Proof.
  intros Hs Hb Hd. apply (loop_each thread conv_ready conv_done (grid B qkv_dim)).
  - apply NoDup_bind; [apply range_NoDup| |].
    + intros i _. apply NoDup_fmap_2, range_NoDup. by intros ?? [= ->].
    + intros i i' x _ _ (j & -> & _)%list_elem_of_fmap (j' & [= ->] & _)%list_elem_of_fmap. done.
  - intros [b' d'] s' _. apply conv_thread_done.
  - intros [b1 d1] [b2 d2] s' (Hb1 & _)%elem_of_grid (Hb2 & _)%elem_of_grid Hne.
    assert (∀ hist hist' j j' : Z, (seqs b1, hist, j, d1) ≠ (seqs b2, hist', j', d2)) as Hslot.
    { intros hist hist' j j' [= E _ _ ->]. apply Hne. by rewrite (Hs b1 b2). }
    split; [intros Hr hist j; rewrite conv_thread_other by (intros; apply Hslot); apply Hr|]. intros (E1 & E2 & E3). split_and!.
    + unfold conv_thread. cbn [fst snd]. rewrite fn_lookup_insert_ne by congruence. done.
    + intros j Hj. rewrite conv_thread_other by (intros; apply Hslot). by apply E2.
    + intros hist j Hh. rewrite conv_thread_other by (intros; apply Hslot). by apply E3.
  - by intros [b' d'] _ hist j.
  - by apply elem_of_grid.
Qed.
Lemma conv_func_other out a : (∀ b j d, 0 ≤ b < B → (seqs b, next b, j, d) ≠ a) →
  (causal_conv1d_decode_state_storage_func kernel_size qkv_dim B max_history qkv seqs hists weight (out, m0)).2 a = m0 a.
Proof.
  intros Ha. apply (loop_invariant (λ s, s.2 a = m0 a)); [|done]. intros [b d] s [Hb Hd]%elem_of_grid <-.
  apply conv_thread_other. intros j. by apply Ha.
Qed.
End storage.

(** C8. The causal convolution may be cut anywhere: the outputs and the state of a sequence are those of its first part
    followed by its second part from the state the first one leaves. For one token, the kernel that works in the storage
    of the states gives the same output, and leaves the new state in the next slot of each sequence and the others as
    they were. *)
Theorem causal_conv_spec s1 s2 cs (qkv weight : buffer3 F) :
  0 ≤ s1 → 0 ≤ s2 →
  (∀ b i d, 0 ≤ i → conv (update s1 cs qkv) (later3 s1 qkv) weight (b, i, d) = conv cs qkv weight (b, s1 + i, d)) ∧
  (∀ b t d, 0 ≤ t → update s2 (update s1 cs qkv) (later3 s1 qkv) (b, t, d) = update (s1 + s2) cs qkv (b, t, d)) ∧
  (∀ B max_history seqs hists m0 out, (∀ b b', 0 ≤ b < B → 0 ≤ b' < B → seqs b = seqs b' → b = b') →
    let s := causal_conv1d_decode_state_storage_func kernel_size qkv_dim B max_history qkv seqs hists weight (out, m0) in
    let next := next_history_slot max_history hists in
    ∀ b d, 0 ≤ b < B → 0 ≤ d < qkv_dim →
    s.1 (b, 0, d) = conv (stored seqs hists m0) qkv weight (b, 0, d) ∧
    (∀ j, 0 ≤ j < ks1 → s.2 (seqs b, next b, j, d) = update 1 (stored seqs hists m0) qkv (b, j, d)) ∧
    (∀ hist j, hist ≠ next b → s.2 (seqs b, hist, j, d) = m0 (seqs b, hist, j, d))).
Proof.
  intros H1 H2. split_and!; [intros; by apply conv_later|intros; by apply update_later|].
  intros B max_history seqs hists m0 out Hs s next b d Hb Hd.
  apply (conv_func_done B max_history qkv seqs hists weight m0 out b d Hs Hb Hd).
Qed.
End conv_laws.

(** ** Examples *)

Module Example.
Import Reals.
#[local] Open Scope Z_scope.
(** Real numbers: one sequence, one key head shared by two value heads, keys of two components. *)
Definition q4 : buffer4 R := λ '(b, t, h, r), IZR (t + r).
Definition k4 : buffer4 R := λ '(b, t, h, r), IZR (t - r).
Definition v4 : buffer4 R := λ '(b, t, h, c), IZR (1 + t + h).
Definition g3 : buffer3 R := λ '(b, t, h), exp (- IZR h).
Definition b3 : buffer3 R := λ '(b, t, h), (/ 2)%R.
Definition s4 : buffer4 R := λ '(b, h, r, c), IZR r.
Definition s5 : buffer5 R := λ '(b, n, h, r, c), IZR (r + b).
Definition w3 : buffer3 R := λ '(b, t, d), IZR (b + t + d).
Definition a1 : Z → R := λ h, IZR h.

Lemma gdn_func_spec_witness :
  let whole := gdn_func 1 2 2 1 1 (1 + 2) q4 k4 v4 g3 b3 s4 (s4, s4) in
  let first := gdn_func 1 2 2 1 1 1 q4 k4 v4 g3 b3 s4 (s4, s4) in
  let second := gdn_func 1 2 2 1 1 2 (later4 1 q4) (later4 1 k4) (later4 1 v4) (later3 1 g3) (later3 1 b3) first.2 (s4, s4) in
  second.1 (0, 1, 1, 0) = whole.1 (0, 1 + 1, 1, 0).
Proof.
  intros whole first second.
  destruct (gdn_func_spec 1 2 2 1 1 1 2 q4 k4 v4 g3 b3 s4 (s4, s4) (s4, s4) (s4, s4) ltac:(done) ltac:(done) 0 1 0
    ltac:(done) ltac:(done) ltac:(done)) as (_ & _ & _ & E). by apply E.
Defined.
Lemma gdn_decode_agree_witness :
  let o := gdn_decode_prepare_func 1 2 2 1 w3 w3 w3 w3 a1 a1 1
    {| q_out := s4; k_out := s4; v_out := s4; gate_out := w3; beta_out := w3; z_silu_out := w3 |} in
  let generic := gdn_func 1 2 2 1 1 1 (q_out o) (k_out o) (v_out o) (gate_out o) (beta_out o) (λ '(b, h, r, c), IZR (r + 3)) (s4, s4) in
  let packed := gdn_packed_decode_state_storage_func 1 2 2 1 1 w3 w3 w3 w3 a1 a1 (λ _, 3) (λ _, 0) (s4, s5, w3) in
  packed.1.1 (0, 0, 1, 0) = generic.1 (0, 0, 1, 0).
Proof.
  intros o generic packed.
  destruct (gdn_decode_agree 1 2 2 1 1 w3 w3 w3 w3 a1 a1 o (λ '(b, h, r, c), IZR (r + 3)) s5 (λ _, 3) (λ _, 0) (s4, s4) (s4, s4) s4 s4 w3)
    as [E _]; [done|by exists 2|done|intros b b'; lia|apply decode_prepares|done|].
  by destruct (E 0 1 0 ltac:(done) ltac:(done) ltac:(done)) as (_ & _ & E' & _).
Defined.
Lemma gdn_prepare_agree_witness :
  let o := {| q_out := s4; k_out := s4; v_out := s4; gate_out := w3; beta_out := w3; z_silu_out := w3 |} in
  q_out (gdn_prefill_prepare_func 1 2 2 1 w3 w3 w3 w3 a1 a1 1 2 o) (0, 1, 0, 1) =
  q_out (unfused 1 2 1 (λ x, 1 / (1 + exp (- x)))%R (λ x, x * (1 / (1 + exp (- x))))%R w3 w3 w3 w3 a1 a1) (0, 1, 0, 1).
Proof.
  intros o.
  destruct (gdn_prepare_agree 1 2 2 1 (λ x, 1 / (1 + exp (- x)))%R (λ x, x * (1 / (1 + exp (- x))))%R w3 w3 w3 w3 a1 a1 1 2 o o) as (E1 & E2 & _);
    [done|done|].
  by rewrite (pr_q _ _ _ _ _ _ _ _ _ _ _ _ _ E1), (pr_q _ _ _ _ _ _ _ _ _ _ _ _ _ E2) by done.
Defined.
Lemma causal_conv_spec_witness :
  depthwise_conv1d 4 (update_conv_state 4 1 w3 w3) (later3 1 w3) w3 (0, 1, 0) = depthwise_conv1d 4 w3 w3 w3 (0, 1 + 1, 0).
Proof. destruct (causal_conv_spec 4 8 1 2 w3 w3 w3) as [E _]; [done|done|]. by apply E. Defined.

(** The kernels that only add and multiply run on integers. *)
#[local] Instance Z_scalar : Scalar Z := {|
  fzero := 0; fone := 1; fadd := Z.add; fmul := Z.mul; fsub := Z.sub; fopp := Z.opp; fdiv := Z.div; fexp := λ _, 1; fln := λ _, 0;
  fsqrt := Z.sqrt; frsqrt := λ _, 1; fgt := λ x y, y <? x; flit := λ x, Qnum x / Zpos (Qden x) |}.
Definition zero4 : buffer4 Z := λ _, 0.
Example runs :
  let '(out, state) := gdn_func 1 2 1 2 1 2 (λ '(b, t, h, r), 1) (λ '(b, t, h, r), 1) (λ '(b, t, h, c), 10 * t + h + c)
    (λ _, 2) (λ _, 1) (λ '(b, h, r, c), r + 1) (zero4, zero4) in
  (out (0, 0, 1, 1), out (0, 1, 1, 1), state (0, 1, 0, 1)) = (2, 12, 12).
Proof. vm_compute. reflexivity. Qed.
Example decode_runs :
  let '(out, state) := gdn_decode_func 1 2 2 1 1 (λ '(b, t, h, r), r + 1) (λ '(b, t, h, r), 2 - r) (λ _, 7) (λ _, 1) (λ _, 1)
    (λ '(b, h, r, c), r) (zero4, zero4) in
  (out (0, 0, 1, 0), state (0, 1, 0, 0), state (0, 1, 1, 0)) = (26, 12, 7).
Proof. vm_compute. reflexivity. Qed.
End Example.
