(* ===== verification/DeltaChunk.v ===== *)
(** The chunked prefill of gated delta networks: the Triton kernels of [python/mlc_llm/op/triton.py] and the path of
    [Qwen35GatedDeltaNet.forward] that runs them.

    A sequence is cut into chunks of 64 tokens. Inside a chunk the corrections of the delta rule are the solution of a
    triangular system, solved by inverting its matrix by blocks of 16; between chunks the state is carried. Memory is
    flat, as the kernels address it; each kernel is the list of the stores of its programs. The theorem: the six
    kernels compute what the recurrent kernel of [DeltaNet] computes, when the buffer of the inverse is zero where no
    program stores. *)

From Stdlib Require Import Lia ZArith QArith Ring.
From stdpp Require Import base functions sets gmap list list_numbers numbers.
From S2P Require Import Prelude Kernel Scalar Triton DeltaNet.
Close Scope Q_scope.
#[local] Open Scope Z_scope.

(** ** The kernels *)

Section triton.
Context {F : Type} `{Scalar F}.
#[local] Open Scope sc.

(** *** [_triton_chunk_local_cumsum_scalar] *)
Section chunk_local_cumsum.
Context (s_ptr : Z → F) (T_len H_ BT : Z).
Definition cumsum_offset (pid_b pid_h t : Z) : Z := (pid_b * T_len + t) * H_ + pid_h.
Definition cumsum_program (pid : Z * Z) : list (Z * F) :=
  let '(pid_t, pid_bh) := pid in
  let pid_b := (pid_bh / H_)%Z in
  let pid_h := (pid_bh mod H_)%Z in
  let offsets_t i := (pid_t * BT + i)%Z in
  let mask_t i := (offsets_t i <? T_len)%Z in
  let vals i := load s_ptr (cumsum_offset pid_b pid_h (offsets_t i)) (mask_t i) in
  let out i := fsum vals (i + 1) in
  store1 BT (λ i, cumsum_offset pid_b pid_h (offsets_t i)) mask_t out.
(** [chunk_local_cumsum_scalar], for [B] sequences. *)
Definition chunk_local_cumsum (B : Z) (o_ptr : Z → F) : Z → F :=
  apply_writes (grid (ceildiv T_len BT) (B * H_) ≫= cumsum_program) o_ptr.
End chunk_local_cumsum.

(** *** [_triton_chunk_scaled_dot_kkt] *)
Section chunk_scaled_dot_kkt.
Context (k_ptr beta_ptr g_ptr : Z → F) (T_len H_ Hg K BT BK : Z).
Definition kkt_program (pid : Z * Z) : list (Z * F) :=
  let '(pid_t, pid_bh) := pid in
  let pid_b := (pid_bh / H_)%Z in
  let pid_h := (pid_bh mod H_)%Z in
  let pid_hg := (pid_h / (H_ / Hg))%Z in
  let offs_t i := (pid_t * BT + i)%Z in
  let mask_t i := (offs_t i <? T_len)%Z in
  let beta_vals i := load beta_ptr ((pid_b * T_len + offs_t i) * H_ + pid_h)%Z (mask_t i) in
  let step k_block acc :=
    let offs_k j := (k_block * BK + j)%Z in
    let k_vals i j := load k_ptr (((pid_b * T_len + offs_t i) * Hg + pid_hg) * K + offs_k j)%Z (mask_t i && (offs_k j <? K)%Z) in
    let k_beta i j := k_vals i j * beta_vals i in
    λ i j, acc i j + dot BK k_beta (trans k_vals) i j in
  let acc := loop (range (ceildiv K BK)) step (λ _ _, 0) in
  let g_vals i := load g_ptr ((pid_b * T_len + offs_t i) * H_ + pid_h)%Z (mask_t i) in
  let acc i j := acc i j * fexp (g_vals i - g_vals j) in
  let mask_a i j := (offs_t j <? offs_t i)%Z && (mask_t i && mask_t j) in
  let acc i j := if mask_a i j then acc i j else 0 in
  store2 BT BT (λ i j, ((pid_b * T_len + offs_t i) * H_ + pid_h) * BT + j)%Z (λ i _, mask_t i) acc.
Definition chunk_scaled_dot_kkt (B : Z) (a_ptr : Z → F) : Z → F :=
  apply_writes (grid (ceildiv T_len BT) (B * H_) ≫= kkt_program) a_ptr.
End chunk_scaled_dot_kkt.

(** *** [_triton_solve_tril_64] *)
Section solve_tril_64.
(** [undef r c i j]: what a block pointer at row [r] and column [c] loads for its element [i], [j] when it is out of the
    tensor, which the language leaves open. *)
Context (undef : Z → Z → Z → Z → F) (a_ptr : Z → F) (T_len H_ BT : Z).
Definition base_a (pid_b pid_h : Z) : Z := (pid_b * T_len * H_ + pid_h) * BT.
Definition block_load (base r c i j : Z) : F :=
  if (r + i <? T_len)%Z && (c + j <? BT)%Z then a_ptr (base + (r + i) * (H_ * BT) + (c + j))%Z else undef r c i j.
Definition block_store (base r c : Z) (x : Z → Z → F) : list (Z * F) :=
  store2 16 16 (λ i j, base + (r + i) * (H_ * BT) + (c + j))%Z (λ i j, (r + i <? T_len)%Z && (c + j <? BT)%Z) x.
(** The diagonal block at [16 * d], without the identity: forward substitution, row by row. *)
Definition diag_start (base t0 d : Z) (i j : Z) : F := - (if (j <? i)%Z then block_load base (t0 + 16 * d) (16 * d) i j else 0).
Definition diag_step (base t0 d : Z) (i : Z) (ai : Z → Z → F) : Z → Z → F :=
  let row j := - a_ptr (base + (t0 + i) * H_ * BT + j + 16 * d)%Z in
  let row j := row j + fsum (λ m, row m * ai m j) 16 in
  λ p j, if (p =? i - 16 * d)%Z then row j else ai p j.
Definition diag_rows (t0 d : Z) : list Z := seqZ (16 * d + 2) (Z.min (16 * d + 16) (T_len - t0) - (16 * d + 2)).
Definition eye_mask (i j : Z) : F := if (i =? j)%Z then 1 else 0.
Definition diag_block (base t0 d : Z) : Z → Z → F :=
  let ai := loop (diag_rows t0 d) (diag_step base t0 d) (diag_start base t0 d) in λ i j, ai i j + eye_mask i j.
Definition solve_program (pid : Z * Z) : list (Z * F) :=
  let '(pid_t, pid_bh) := pid in
  let base := base_a (pid_bh / H_) (pid_bh mod H_) in
  let t0 := (pid_t * BT)%Z in
  let ai_11 := diag_block base t0 0 in
  let ai_22 := diag_block base t0 1 in
  let ai_33 := diag_block base t0 2 in
  let ai_44 := diag_block base t0 3 in
  let a_21 := block_load base (t0 + 16) 0 in
  let a_31 := block_load base (t0 + 32) 0 in
  let a_32 := block_load base (t0 + 32) 16 in
  let a_41 := block_load base (t0 + 48) 0 in
  let a_42 := block_load base (t0 + 48) 16 in
  let a_43 := block_load base (t0 + 48) 32 in
  let ai_21 i j := - dot 16 (dot 16 ai_22 a_21) ai_11 i j in
  let ai_32 i j := - dot 16 (dot 16 ai_33 a_32) ai_22 i j in
  let ai_43 i j := - dot 16 (dot 16 ai_44 a_43) ai_33 i j in
  let ai_31 i j := - dot 16 ai_33 (λ i j, dot 16 a_31 ai_11 i j + dot 16 a_32 ai_21 i j) i j in
  let ai_42 i j := - dot 16 ai_44 (λ i j, dot 16 a_42 ai_22 i j + dot 16 a_43 ai_32 i j) i j in
  let ai_41 i j := - dot 16 ai_44 (λ i j, dot 16 a_41 ai_11 i j + dot 16 a_42 ai_21 i j + dot 16 a_43 ai_31 i j) i j in
  block_store base t0 0 ai_11 ++ block_store base (t0 + 16) 16 ai_22 ++
  block_store base (t0 + 32) 32 ai_33 ++ block_store base (t0 + 48) 48 ai_44 ++
  block_store base (t0 + 16) 0 ai_21 ++ block_store base (t0 + 32) 0 ai_31 ++ block_store base (t0 + 32) 16 ai_32 ++
  block_store base (t0 + 48) 0 ai_41 ++ block_store base (t0 + 48) 16 ai_42 ++ block_store base (t0 + 48) 32 ai_43.
Definition solve_tril_64 (B : Z) (ai_ptr : Z → F) : Z → F :=
  apply_writes (grid (ceildiv T_len BT) (B * H_) ≫= solve_program) ai_ptr.
End solve_tril_64.

(** *** [_triton_recompute_w_u] *)
Section recompute_w_u.
Context (k_ptr v_ptr beta_ptr a_ptr g_ptr : Z → F) (T_len Hg H_ K V BT BK BV : Z).
Definition w_u_program (pid : Z * Z) : list (Z * F) :=
  let '(pid_t, pid_bh) := pid in
  let pid_b := (pid_bh / H_)%Z in
  let pid_h := (pid_bh mod H_)%Z in
  let pid_hg := (pid_h / (H_ / Hg))%Z in
  let offs_t i := (pid_t * BT + i)%Z in
  let mask_t i := (offs_t i <? T_len)%Z in
  let head i := ((pid_b * T_len + offs_t i) * H_ + pid_h)%Z in
  let beta_vals i := load beta_ptr (head i) (mask_t i) in
  let a_vals i j := load a_ptr (head i * BT + j)%Z (mask_t i) in
  let u_block v_block :=
    let offs_v c := (v_block * BV + c)%Z in
    let mask i c := mask_t i && (offs_v c <? V)%Z in
    let v_vals i c := load v_ptr (head i * V + offs_v c)%Z (mask i c) in
    let vb_vals i c := v_vals i c * beta_vals i in
    store2 BT BV (λ i c, head i * (K + V) + K + offs_v c)%Z mask (dot BT a_vals vb_vals) in
  let g_exp i := fexp (load g_ptr (head i) (mask_t i)) in
  let w_block k_block :=
    let offs_k r := (k_block * BK + r)%Z in
    let mask i r := mask_t i && (offs_k r <? K)%Z in
    let k_vals i r := load k_ptr (((pid_b * T_len + offs_t i) * Hg + pid_hg) * K + offs_k r)%Z (mask i r) in
    let kbg_vals i r := k_vals i r * (beta_vals i * g_exp i) in
    store2 BT BK (λ i r, head i * (K + V) + offs_k r)%Z mask (dot BT a_vals kbg_vals) in
  (range (ceildiv V BV) ≫= u_block) ++ (range (ceildiv K BK) ≫= w_block).
Definition recompute_w_u (B : Z) (wu_ptr : Z → F) : Z → F :=
  apply_writes (grid (ceildiv T_len BT) (B * H_) ≫= w_u_program) wu_ptr.
End recompute_w_u.

(** *** [_triton_chunk_delta_h_packed] *)
Section chunk_delta_h_packed.
Context (k_ptr w_ptr u_ptr g_ptr h0_ptr : Z → F) (T_len Hg H_ K V BT BV : Z).
Definition nt : Z := ceildiv T_len BT.
Definition packed_total : Z := nt * V * K + T_len * V + V * K.
(** The registers of a program: the two halves of its part of the state; and what it has stored. *)
Record registers := { h1 : Z → Z → F; h2 : Z → Z → F; stores : list (Z * F) }.
(** Both halves, stored at [base]. *)
Definition store_h (base : Z) (offs_v : Z → Z) (mask_v : Z → bool) (h1 h2 : Z → Z → F) : list (Z * F) :=
  store2 BV 64 (λ c r, base + offs_v c * K + r)%Z (λ c r, mask_v c && (r <? K)%Z) h1 ++
  (if (64 <? K)%Z then store2 BV 64 (λ c r, base + offs_v c * K + 64 + r)%Z (λ c r, mask_v c && (64 + r <? K)%Z) h2 else []).
Definition delta_h_chunk (pid_v pid_bh chunk_idx : Z) (s : registers) : registers :=
  let pid_b := (pid_bh / H_)%Z in
  let pid_h := (pid_bh mod H_)%Z in
  let pid_hg := (pid_h / (H_ / Hg))%Z in
  let packed_base := ((pid_b * H_ + pid_h) * packed_total)%Z in
  let offs_v c := (pid_v * BV + c)%Z in
  let mask_v c := (offs_v c <? V)%Z in
  let cur_t i := (chunk_idx * BT + i)%Z in
  let mask_t i := (cur_t i <? T_len)%Z in
  let stored_h := store_h (packed_base + chunk_idx * V * K) offs_v mask_v (h1 s) (h2 s) in
  let head i := ((pid_b * T_len + cur_t i) * H_ + pid_h)%Z in
  let k_base i := (((pid_b * T_len + cur_t i) * Hg + pid_hg) * K)%Z in
  let w1 i r := load w_ptr (head i * K + r)%Z (mask_t i && (r <? K)%Z) in
  let w2 i r := load w_ptr (head i * K + 64 + r)%Z (mask_t i && (64 + r <? K)%Z) in
  let v_corr i c := if (64 <? K)%Z then dot 64 w1 (trans (h1 s)) i c + dot 64 w2 (trans (h2 s)) i c
                    else dot 64 w1 (trans (h1 s)) i c in
  let u_vals i c := load u_ptr (head i * V + offs_v c)%Z (mask_t i && mask_v c) in
  let v_new i c := u_vals i c - v_corr i c in
  let stored_v := store2 BT BV (λ i c, packed_base + nt * V * K + cur_t i * V + offs_v c)%Z (λ i c, mask_t i && mask_v c) v_new in
  let last_idx := (Z.min ((chunk_idx + 1) * BT) T_len - 1)%Z in
  let g_last := g_ptr ((pid_b * T_len + last_idx) * H_ + pid_h)%Z in
  let g_vals i := load g_ptr (head i) (mask_t i) in
  let v_scaled i c := v_new i c * (if mask_t i then fexp (g_last - g_vals i) else 0) in
  let k1 r i := load k_ptr (k_base i + r)%Z ((r <? K)%Z && mask_t i) in
  let k2 r i := load k_ptr (k_base i + 64 + r)%Z ((64 + r <? K)%Z && mask_t i) in
  {| h1 := λ c r, h1 s c r * fexp g_last + trans (dot BT k1 v_scaled) c r;
     h2 := λ c r, h2 s c r * fexp g_last + trans (dot BT k2 v_scaled) c r;
     stores := stores s ++ stored_h ++ stored_v |}.
(** The second half is only there, and only stored, for [K > 64]. *)
Definition delta_h_start (pid_v pid_bh : Z) : registers :=
  let pid_b := (pid_bh / H_)%Z in
  let pid_h := (pid_bh mod H_)%Z in
  let offs_v c := (pid_v * BV + c)%Z in
  let h0_base c := (((pid_b * H_ + pid_h) * V + offs_v c) * K)%Z in
  {| h1 := λ c r, load h0_ptr (h0_base c + r)%Z ((offs_v c <? V)%Z && (r <? K)%Z);
     h2 := λ c r, load h0_ptr (h0_base c + 64 + r)%Z ((offs_v c <? V)%Z && (64 + r <? K)%Z);
     stores := [] |}.
Definition delta_h_program (pid : Z * Z) : list (Z * F) :=
  let '(pid_v, pid_bh) := pid in
  let s := loop (range nt) (delta_h_chunk pid_v pid_bh) (delta_h_start pid_v pid_bh) in
  let packed_base := ((pid_bh / H_ * H_ + pid_bh mod H_) * packed_total)%Z in
  stores s ++ store_h (packed_base + nt * V * K + T_len * V) (λ c, pid_v * BV + c)%Z (λ c, pid_v * BV + c <? V)%Z (h1 s) (h2 s).
Definition chunk_delta_h_packed (B : Z) (packed_ptr : Z → F) : Z → F :=
  apply_writes (grid (ceildiv V BV) (B * H_) ≫= delta_h_program) packed_ptr.
End chunk_delta_h_packed.

(** *** [_triton_chunk_fwd_o_packed] *)
Section chunk_fwd_o_packed.
Context (q_ptr k_ptr packed_ptr g_ptr : Z → F) (T_len Hg H_ K V BT BK BV : Z).
Definition fwd_o_program (pid : Z * Z * Z) : list (Z * F) :=
  let '(pid_v, pid_t, pid_bh) := pid in
  let pid_b := (pid_bh / H_)%Z in
  let pid_h := (pid_bh mod H_)%Z in
  let pid_hg := (pid_h / (H_ / Hg))%Z in
  let packed_base := ((pid_b * H_ + pid_h) * packed_total T_len K V BT)%Z in
  let offs_t i := (pid_t * BT + i)%Z in
  let mask_t i := (offs_t i <? T_len)%Z in
  let offs_v c := (pid_v * BV + c)%Z in
  let mask_v c := (offs_v c <? V)%Z in
  let step k_block (acc : (Z → Z → F) * (Z → Z → F)) :=
    let cur_k r := (k_block * BK + r)%Z in
    let mask_k r := (cur_k r <? K)%Z in
    let row i := (((pid_b * T_len + offs_t i) * Hg + pid_hg) * K)%Z in
    let q_vals i r := load q_ptr (row i + cur_k r)%Z (mask_t i && mask_k r) in
    let k_vals r i := load k_ptr (row i + cur_k r)%Z (mask_k r && mask_t i) in
    let h_vals c r := load packed_ptr (packed_base + pid_t * V * K + offs_v c * K + cur_k r)%Z (mask_v c && mask_k r) in
    (λ i c, acc.1 i c + dot BK q_vals (trans h_vals) i c, λ i j, acc.2 i j + dot BK q_vals k_vals i j) in
  let acc := loop (range (ceildiv K BK)) step (λ _ _, 0, λ _ _, 0) in
  let g_vals i := load g_ptr ((pid_b * T_len + offs_t i) * H_ + pid_h)%Z (mask_t i) in
  let out_vals i c := acc.1 i c * fexp (g_vals i) in
  let attn_vals i j := acc.2 i j * fexp (g_vals i - g_vals j) in
  let attn_vals i j := if (j <=? i)%Z && (mask_t i && mask_t j) then attn_vals i j else 0 in
  let v_vals i c := load packed_ptr (packed_base + nt T_len BT * V * K + offs_t i * V + offs_v c)%Z (mask_t i && mask_v c) in
  let out_vals i c := (out_vals i c + dot BT attn_vals v_vals i c) * frsqrt (flit (inject_Z K)) in
  store2 BT BV (λ i c, ((pid_b * T_len + offs_t i) * H_ + pid_h) * V + offs_v c)%Z (λ i c, mask_t i && mask_v c) out_vals.
Definition chunk_fwd_o_packed (B : Z) (o_ptr : Z → F) : Z → F :=
  apply_writes (grid3 (ceildiv V BV) (ceildiv T_len BT) (B * H_) ≫= fwd_o_program) o_ptr.
End chunk_fwd_o_packed.

(** *** [chunk_delta_h_final_state] *)
Section chunk_delta_h_final_state.
Context (Packed : Z * Z * Z → F) (T_len value_dim key_dim chunk_size B heads : Z).
Definition final_base : Z := ceildiv T_len chunk_size * value_dim * key_dim + T_len * value_dim.
Definition final_state_thread (bx tx : Z) : list (Z * Z * Z * Z * F) :=
  let total := (B * heads * key_dim * value_dim)%Z in
  let idx := (bx * 256 + tx)%Z in
  if (idx <? total)%Z then
    let v_idx := (idx mod value_dim)%Z in
    let tmp0 := (idx / value_dim)%Z in
    let k_idx := (tmp0 mod key_dim)%Z in
    let tmp1 := (tmp0 / key_dim)%Z in
    let h_idx := (tmp1 mod heads)%Z in
    let b_idx := (tmp1 / heads)%Z in
    [((b_idx, h_idx, k_idx, v_idx), Packed (b_idx, h_idx, final_base + v_idx * key_dim + k_idx)%Z)]
  else [].
Definition chunk_delta_h_final_state (Out : buffer4 F) : buffer4 F :=
  apply_writes (grid (ceildiv (B * heads * key_dim * value_dim) 256) 256 ≫= (λ '(bx, tx), final_state_thread bx tx)) Out.
End chunk_delta_h_final_state.

(** ** The chunked path *)

(** The data of a tensor, row by row, and back. *)
Definition data3 (d1 d2 : Z) (x : buffer3 F) : Z → F := λ a, x (a / d2 / d1, (a / d2) mod d1, a mod d2)%Z.
Definition data4 (d1 d2 d3 : Z) (x : buffer4 F) : Z → F :=
  λ a, x (a / d3 / d2 / d1, (a / d3 / d2) mod d1, (a / d3) mod d2, a mod d3)%Z.
Definition tensor3 (d1 d2 : Z) (p : Z → F) : buffer3 F := λ '(i, j, k), p ((i * d1 + j) * d2 + k)%Z.
Definition tensor4 (d1 d2 d3 : Z) (p : Z → F) : buffer4 F := λ '(i, j, k, l), p (((i * d1 + j) * d2 + k) * d3 + l)%Z.
(** What the outputs of the kernels hold before. *)
Record allocated := {
  cumsum_init : Z → F; a_init : Z → F; ai_init : Z → F; wu_init : Z → F; packed_init : Z → F; o_init : Z → F;
  final_init : buffer4 F; undef_init : Z → Z → Z → Z → F }.
Definition chunked_prefill (B T_len n_kh n_vh K V : Z) (q k v : buffer4 F) (gate beta : buffer3 F) (state_in_layer : buffer4 F)
    (mem : allocated) : buffer4 F * buffer4 F :=
  let chunk_size := 64%Z in
  let block_k := 64%Z in
  let block_v := 64%Z in
  let q_ptr := data4 T_len n_kh K q in
  let k_ptr := data4 T_len n_kh K k in
  let v_ptr := data4 T_len n_vh V v in
  let beta_ptr := data3 T_len n_vh beta in
  let g_log : buffer3 F := λ p, fln (gate p) in
  let g_cumsum := chunk_local_cumsum (data3 T_len n_vh g_log) T_len n_vh chunk_size B (cumsum_init mem) in
  let a := chunk_scaled_dot_kkt k_ptr beta_ptr g_cumsum T_len n_vh n_kh K chunk_size block_k B (a_init mem) in
  let ai := solve_tril_64 (undef_init mem) a T_len n_vh chunk_size B (ai_init mem) in
  let wu := recompute_w_u k_ptr v_ptr beta_ptr ai g_cumsum T_len n_kh n_vh K V chunk_size block_k block_v B (wu_init mem) in
  let wu := tensor4 T_len n_vh (K + V) wu in
  let w : buffer4 F := λ '(b, t, h, r), wu (b, t, h, r) in
  let u : buffer4 F := λ '(b, t, h, c), wu (b, t, h, K + c)%Z in
  let state_in_vk : buffer4 F := λ '(b, h, c, r), state_in_layer (b, h, r, c) in
  let packed := chunk_delta_h_packed k_ptr (data4 T_len n_vh K w) (data4 T_len n_vh V u) g_cumsum (data4 n_vh V K state_in_vk)
    T_len n_kh n_vh K V chunk_size block_v B (packed_init mem) in
  let out_recurrent := chunk_fwd_o_packed q_ptr k_ptr packed g_cumsum T_len n_kh n_vh K V chunk_size block_k block_v B (o_init mem) in
  let state_out_layer := chunk_delta_h_final_state (tensor3 n_vh (packed_total T_len K V chunk_size) packed) T_len V K chunk_size B n_vh
    (final_init mem) in
  (tensor4 T_len n_vh V out_recurrent, state_out_layer).
End triton.

(** ** The algebra of a chunk *)

Section algebra.
Context {F : Type} `{ScalarLaws F}.
Add Ring scalar : (scalar_ring (F := F)).
#[local] Open Scope sc.

Lemma exp_sub_add (x y z : F) : fexp (x - y) * fexp z = fexp (x + z - y).
Proof. rewrite <-exp_add. f_equal. ring. Qed.
Lemma exp_sub_self (x : F) : fexp (x - x) = 1.
Proof. rewrite <-exp_zero. f_equal. ring. Qed.

(** A triangular system has one solution. *)
Lemma triangular_unique (A : Z → Z → F) (n L : Z) (x y b : Z → F) :
  (L <= n)%Z → (∀ i m, (0 <= i < L)%Z → (0 <= m < n)%Z → (i <= m)%Z → A i m = 0) →
  (∀ i, (0 <= i < L)%Z → x i + fsum (λ m, A i m * x m) n = b i) →
  (∀ i, (0 <= i < L)%Z → y i + fsum (λ m, A i m * y m) n = b i) → ∀ i, (0 <= i < L)%Z → x i = y i.
Proof.
  intros HL HA Hx Hy i Hi. assert (0 <= i)%Z as Hi0 by lia. revert Hi. pattern i. apply Zlt_0_ind; [|done]. clear i Hi0.
  intros i IH _ Hi.
  assert (fsum (λ m, A i m * x m) n = fsum (λ m, A i m * y m) n) as E.
  { apply fsum_ext. intros m Hm. destruct (Z_lt_le_dec m i); [rewrite IH by lia; done|]. rewrite HA by lia. ring. }
  specialize (Hx i Hi). specialize (Hy i Hi). rewrite E in Hx.
  replace (x i) with (x i + fsum (λ m, A i m * y m) n - fsum (λ m, A i m * y m) n) by ring. rewrite Hx, <-Hy. ring.
Qed.

Section chunk.
Context (K : Z) (col : column (F := F)) (S0 : Z → F) (gam : Z → F) (L : Z).
(** The logarithms of the decays and their sums. *)
Hypothesis gates : ∀ t, (0 <= t < L)%Z → c_gate col t = fexp (gam t).
Definition cum (n : Z) : F := fsum gam n.
(** The correction of a token. *)
Definition correction (n : Z) : F :=
  c_beta col n * (c_v col n - fsum (λ r, column_state K col S0 n r * c_gate col n * c_k col n r) K).
Lemma column_state_step n r : (0 <= n)%Z → column_state K col S0 (n + 1) r = column_state K col S0 n r * c_gate col n + c_k col n r * correction n.
Proof. intros Hn. rewrite column_state_S by done. unfold delta_rule, correction. ring. Qed.
Lemma state_unroll n r : (0 <= n <= L)%Z →
  column_state K col S0 n r = fexp (cum n) * S0 r + fsum (λ j, fexp (cum n - cum (j + 1)) * (c_k col j r * correction j)) n.
Proof.
  induction n as [n Hn|n Hn IH] using range_ind; intros HL.
  - assert (n = 0)%Z as -> by lia. unfold cum, column_state. rewrite !fsum_nonpos, exp_zero, range_nonpos, loop_nil by done. ring.
  - rewrite column_state_step, IH, gates by lia. rewrite fsum_S by done. rewrite exp_sub_self.
    assert (cum (n + 1) = cum n + gam n) as -> by (unfold cum; by rewrite fsum_S by done).
    rewrite exp_add. set (f := λ j, fexp (cum n - cum (j + 1)) * (c_k col j r * correction j)).
    assert (fsum (λ j, fexp (cum n + gam n - cum (j + 1)) * (c_k col j r * correction j)) n = fsum f n * fexp (gam n)) as ->.
    { rewrite <-fsum_scale_r. apply fsum_ext. intros j Hj. unfold f. rewrite <-exp_sub_add. ring. }
    ring.
Qed.

(** The matrix of the system, its inverse on the rows there are, and the kernels' right-hand sides. *)
Context (n : Z) (A Ai : Z → Z → F) (v beta : Z → F) (k : Z → Z → F) (G : Z → F) (state : Z → F).
Definition key_dot (i j : Z) : F := fsum (λ r, k i r * k j r) K.
Hypothesis rows : (0 <= L <= n)%Z.
Hypothesis A_spec : ∀ i j, (0 <= i < L)%Z → (0 <= j < n)%Z →
  A i j = if (j <? i)%Z then beta i * key_dot i j * fexp (G i - G j) else 0.
Hypothesis Ai_spec : ∀ i j, (0 <= i < L)%Z → (0 <= j < n)%Z →
  Ai i j + fsum (λ m, A i m * Ai m j) n = if (i =? j)%Z then 1 else 0.
Hypothesis inputs : ∀ i, (0 <= i < L)%Z →
  c_v col i = v i ∧ c_beta col i = beta i ∧ G i = cum (i + 1) ∧ (∀ r, (0 <= r < K)%Z → c_k col i r = k i r).
Hypothesis start : ∀ r, (0 <= r < K)%Z → state r = S0 r.
Definition u_of (i : Z) : F := fsum (λ j, Ai i j * (v j * beta j)) n.
Definition w_of (i r : Z) : F := fsum (λ j, Ai i j * (k j r * (beta j * fexp (G j)))) n.
Definition v_new_of (i : Z) : F := u_of i - fsum (λ r, w_of i r * state r) K.
(** The right-hand side: what the correction would be without the earlier tokens of the chunk. *)
Definition target (j : Z) : F := v j * beta j - fsum (λ r, k j r * (beta j * fexp (G j)) * state r) K.
Lemma v_new_inverse i : v_new_of i = fsum (λ j, Ai i j * target j) n.
Proof.
  unfold v_new_of, u_of, w_of, target.
  rewrite (fsum_ext (λ r, fsum _ n * state r) (λ r, fsum (λ j, Ai i j * (k j r * (beta j * fexp (G j)) * state r)) n)).
  - rewrite fsum_swap, <-fsum_sub. apply fsum_ext. intros j _. rewrite fsum_scale. ring.
  - intros r _. rewrite <-fsum_scale_r. apply fsum_ext. intros j _. ring.
Qed.
Lemma v_new_solves i : (0 <= i < L)%Z → v_new_of i + fsum (λ m, A i m * v_new_of m) n = target i.
Proof.
  intros Hi. rewrite v_new_inverse. rewrite (fsum_ext (λ m, A i m * v_new_of m) (λ m, fsum (λ j, A i m * Ai m j * target j) n)).
  - rewrite fsum_swap, <-fsum_add, (fsum_ext _ (λ j, (if (i =? j)%Z then 1 else 0) * target j)).
    + rewrite (fsum_single _ n i); [rewrite Z.eqb_refl; ring|lia|].
      intros j Hj Hne. rewrite (proj2 (Z.eqb_neq i j)) by done. ring.
    + intros j Hj. rewrite fsum_scale_r, <-Ai_spec by done. ring.
  - intros m _. rewrite v_new_inverse, <-fsum_scale. apply fsum_ext. intros j _. ring.
Qed.
Lemma correction_solves i : (0 <= i < L)%Z → correction i + fsum (λ m, A i m * correction m) n = target i.
Proof.
  intros Hi. destruct (inputs i Hi) as (Ev & Eb & EG & Ek).
  assert (fsum (λ r, column_state K col S0 i r * c_gate col i * c_k col i r) K =
    fexp (G i) * fsum (λ r, k i r * state r) K + fsum (λ j, fexp (G i - G j) * (key_dot i j * correction j)) i) as E.
  { rewrite (fsum_ext _ (λ r, fexp (G i) * (k i r * state r) + fsum (λ j, fexp (G i - G j) * (k i r * k j r * correction j)) i)).
    - rewrite fsum_add, fsum_scale, fsum_swap. f_equal. apply fsum_ext. intros j Hj.
      unfold key_dot. rewrite fsum_scale. f_equal. apply fsum_scale_r.
    - intros r Hr. rewrite state_unroll, gates, Ek, start by lia. rewrite EG.
      assert (cum (i + 1) = cum i + gam i) as -> by (unfold cum; by rewrite fsum_S by lia). rewrite exp_add.
      rewrite (fsum_ext (λ j, fexp (cum i + gam i - G j) * _) (λ j, fexp (cum i - cum (j + 1)) * (c_k col j r * correction j) * (fexp (gam i) * k i r))).
      + rewrite fsum_scale_r. ring.
      + intros j Hj. destruct (inputs j) as (_ & _ & EGj & Ekj); [lia|]. rewrite EGj, Ekj, <-exp_sub_add by done. ring. }
  unfold correction at 1. rewrite E, Ev, Eb. unfold target.
  rewrite (fsum_ext (λ m, A i m * correction m) (λ m, if (m <? i)%Z then beta i * (fexp (G i - G m) * (key_dot i m * correction m)) else 0)).
  - rewrite fsum_below by lia. rewrite fsum_scale.
    rewrite (fsum_ext (λ r, k i r * (beta i * fexp (G i)) * state r) (λ r, beta i * fexp (G i) * (k i r * state r))) by (intros; ring).
    rewrite fsum_scale. ring.
  - intros m Hm. rewrite A_spec by lia. destruct (m <? i)%Z; ring.
Qed.
(** The kernels find the corrections of the delta rule. *)
Lemma v_new_correction i : (0 <= i < L)%Z → v_new_of i = correction i.
Proof.
  apply (triangular_unique A n L v_new_of correction target); [lia| |apply v_new_solves|apply correction_solves].
  intros j m Hj Hm Hjm. rewrite A_spec by lia. by rewrite (proj2 (Z.ltb_ge m j)).
Qed.
(** The state at the end of the chunk, and the output of a token. *)
Lemma carry_spec r : (0 <= r < K)%Z →
  state r * fexp (cum L) + fsum (λ i, k i r * (v_new_of i * (if (i <? L)%Z then fexp (cum L - G i) else 0))) n =
  column_state K col S0 L r.
Proof.
  intros Hr. rewrite state_unroll, start by lia.
  rewrite (fsum_ext _ (λ i, if (i <? L)%Z then fexp (cum L - cum (i + 1)) * (c_k col i r * correction i) else 0)).
  - rewrite fsum_below by lia. ring.
  - intros i Hi. destruct (Z.ltb_spec i L); [|ring]. destruct (inputs i) as (_ & _ & EG & Ek); [lia|].
    rewrite v_new_correction, EG, Ek by lia. ring.
Qed.
Lemma readout_spec i (q : Z → F) : (0 <= i < L)%Z →
  fsum (λ r, q r * state r) K * fexp (G i)
    + fsum (λ j, (if (j <=? i)%Z then fsum (λ r, q r * k j r) K * fexp (G i - G j) else 0) * v_new_of j) n =
  fsum (λ r, column_state K col S0 (i + 1) r * q r) K.
Proof.
  intros Hi. destruct (inputs i Hi) as (_ & _ & EG & _).
  rewrite (fsum_ext (λ r, column_state K col S0 (i + 1) r * q r)
    (λ r, fexp (G i) * (q r * state r) + fsum (λ j, fexp (G i - G j) * (q r * k j r * correction j)) (i + 1))).
  - rewrite fsum_add, fsum_scale, fsum_swap.
    rewrite (fsum_ext (λ j, (if (j <=? i)%Z then _ else _) * v_new_of j)
      (λ j, if (j <? i + 1)%Z then fexp (G i - G j) * fsum (λ r, q r * k j r) K * correction j else 0)).
    + rewrite fsum_below by lia. rewrite (fsum_ext (λ j, fsum _ K) (λ j, fexp (G i - G j) * fsum (λ r, q r * k j r) K * correction j)); [ring|].
      intros j Hj. rewrite fsum_scale, fsum_scale_r. ring.
    + intros j Hj. destruct (Z.leb_spec j i), (Z.ltb_spec j (i + 1)); try lia; [rewrite v_new_correction by lia|]; ring.
  - intros r Hr. rewrite state_unroll, <-start, <-EG by lia.
    rewrite (fsum_ext (λ j, fexp (G i - G j) * _) (λ j, fexp (G i - cum (j + 1)) * (c_k col j r * correction j) * q r)).
    + rewrite fsum_scale_r. ring.
    + intros j Hj. destruct (inputs j) as (_ & _ & EGj & Ekj); [lia|]. rewrite EGj, Ekj by done. ring.
Qed.
End chunk.
End algebra.

(** ** The inverse *)

Section inverse.
Context {F : Type} `{ScalarLaws F} (undef : Z → Z → Z → Z → F) (a_ptr : Z → F) (T_len H_ base t0 : Z).
Add Ring scalar : (scalar_ring (F := F)).
#[local] Open Scope sc.
(** The matrix of the chunk at [t0], strictly lower triangular in its rows. *)
Definition chunk_a (i j : Z) : F := a_ptr (base + (t0 + i) * (H_ * 64) + j)%Z.
Hypothesis lower : ∀ i j, (0 <= i < 64)%Z → (t0 + i < T_len)%Z → (i <= j < 64)%Z → chunk_a i j = 0.
#[local] Abbreviation bload p q := (block_load undef a_ptr T_len H_ 64 base (t0 + 16 * p) (16 * q)).
#[local] Abbreviation diag := (diag_block undef a_ptr T_len H_ 64 base t0).
#[local] Abbreviation valid p i := ((0 <= i < 16)%Z ∧ (t0 + 16 * p + i < T_len)%Z).
Definition delta_ij (i j : Z) : F := if (i =? j)%Z then 1 else 0.

Lemma bload_valid p q i j : (0 <= q < 4)%Z → valid p i → (0 <= j < 16)%Z → bload p q i j = chunk_a (16 * p + i) (16 * q + j).
Proof.
  intros Hq [Hi Hv] Hj. unfold block_load, chunk_a. rewrite (proj2 (Z.ltb_lt _ _)), (proj2 (Z.ltb_lt _ _)) by lia.
  cbn [andb]. f_equal. lia.
Qed.
(** The rows of a diagonal block are found one after the other. *)
Definition row_solved (d : Z) (X : Z → Z → F) (i : Z) : Prop := ∀ j, (0 <= j < 16)%Z →
  X i j = - chunk_a (16 * d + i) (16 * d + j) - fsum (λ m, chunk_a (16 * d + i) (16 * d + m) * X m j) 16.
Lemma diag_loop d n i : (0 <= d < 4)%Z → (n <= 14)%Z → valid d i → (i < 2 + Z.max 0 n)%Z →
  row_solved d (loop (seqZ (16 * d + 2) n) (diag_step a_ptr H_ 64 base t0 d) (diag_start undef a_ptr T_len H_ 64 base t0 d)) i.
Proof.
  intros Hd. revert i. induction n as [n Hn|n Hn IH] using range_ind; intros i Hn14 Hv Hi j Hj.
  - assert (seqZ (16 * d + 2) n = []) as -> by (unfold seqZ; by replace (Z.to_nat n) with 0%nat by lia).
    cbn [loop foldl]. unfold diag_start.
    rewrite (fsum_null _ 16).
    + destruct (Z.ltb_spec j i); [rewrite bload_valid by done; ring|]. rewrite (lower _ (16 * d + j)) by lia. ring.
    + intros m Hm. destruct (decide (m = 0)%Z) as [->|]; [|rewrite lower by lia; ring].
      rewrite (proj2 (Z.ltb_ge j 0)) by lia. ring.
  - rewrite seqZ_snoc, loop_app by done. cbn [loop foldl]. set (X := loop _ _ _) in *.
    assert (∀ m, chunk_a (16 * d + i) (16 * d + m) * diag_step a_ptr H_ 64 base t0 d (16 * d + 2 + n) X m j =
      chunk_a (16 * d + i) (16 * d + m) * X m j ∨ ¬ (0 <= m < 16)%Z) as E.
    { intros m. destruct (decide (0 <= m < 16)%Z); [left|by right]. unfold diag_step.
      destruct (Z.eqb_spec m (16 * d + 2 + n - 16 * d)) as [->|]; [|done]. rewrite lower by lia. ring. }
    rewrite (fsum_ext (λ m, _ * diag_step _ _ _ _ _ _ _ _ m j) (λ m, chunk_a (16 * d + i) (16 * d + m) * X m j))
      by (intros m Hm; destruct (E m); [done|lia]).
    unfold diag_step. replace (16 * d + 2 + n - 16 * d)%Z with (2 + n)%Z by lia.
    destruct (Z.eqb_spec i (2 + n)) as [->|Hne]; [|apply IH; lia].
    assert (∀ m, a_ptr (base + (t0 + (16 * d + 2 + n)) * H_ * 64 + m + 16 * d)%Z = chunk_a (16 * d + (2 + n)) (16 * d + m)) as Ea
      by (intros m; unfold chunk_a; f_equal; lia).
    rewrite (fsum_ext _ (λ m, - (1) * (chunk_a (16 * d + (2 + n)) (16 * d + m) * X m j))) by (intros; rewrite Ea; ring).
    rewrite fsum_scale, Ea. ring.
Qed.
Lemma diag_spec d i j : (0 <= d < 4)%Z → valid d i → (0 <= j < 16)%Z →
  diag d i j + fsum (λ m, chunk_a (16 * d + i) (16 * d + m) * diag d m j) 16 = delta_ij i j.
Proof.
  intros Hd Hv Hj. unfold diag_block, diag_rows. set (n := (Z.min _ _ - _)%Z).
  assert (row_solved d (loop (seqZ (16 * d + 2) n) (diag_step a_ptr H_ 64 base t0 d) (diag_start undef a_ptr T_len H_ 64 base t0 d)) i)
    as HX by (apply diag_loop; lia || done).
  set (X := loop _ _ _) in *. rewrite (HX j Hj).
  rewrite (fsum_ext (λ m, chunk_a _ _ * (X m j + _))
    (λ m, chunk_a (16 * d + i) (16 * d + m) * X m j + chunk_a (16 * d + i) (16 * d + m) * eye_mask m j)) by (intros; ring).
  rewrite fsum_add, (fsum_single (λ m, _ * eye_mask m j) 16 j); [|done|].
  - unfold eye_mask, delta_ij. rewrite Z.eqb_refl. ring.
  - intros m Hm Hne. unfold eye_mask. rewrite (proj2 (Z.eqb_neq m j)) by done. ring.
Qed.
(** A block row below the diagonal. *)
Lemma block_row d (X R : Z → Z → F) i j : (0 <= d < 4)%Z → valid d i →
  (∀ l, X l j = - fsum (λ m, diag d l m * R m j) 16) →
  X i j + fsum (λ m, chunk_a (16 * d + i) (16 * d + m) * X m j) 16 = - R i j.
Proof.
  intros Hd Hv HX.
  rewrite HX, (fsum_ext (λ m, chunk_a _ _ * X m j)
    (λ m, fsum (λ p, - (1) * (chunk_a (16 * d + i) (16 * d + m) * diag d m p * R p j)) 16)).
  - rewrite fsum_swap. rewrite (fsum_ext (λ p, fsum _ 16)
      (λ p, - (1) * (fsum (λ m, chunk_a (16 * d + i) (16 * d + m) * diag d m p) 16 * R p j))).
    + transitivity (- fsum (λ p, delta_ij i p * R p j) 16).
      * rewrite fsum_scale. rewrite (fsum_ext (λ p, delta_ij i p * R p j)
          (λ p, diag d i p * R p j + fsum (λ m, chunk_a (16 * d + i) (16 * d + m) * diag d m p) 16 * R p j)).
        -- rewrite fsum_add. ring.
        -- intros p Hp. rewrite <-(diag_spec d i p) by done. ring.
      * f_equal. rewrite (fsum_single _ 16 i); [unfold delta_ij; rewrite Z.eqb_refl; ring|lia|].
        intros p Hp Hne. unfold delta_ij. rewrite (proj2 (Z.eqb_neq i p)) by done. ring.
    + intros p _. rewrite fsum_scale. f_equal. apply fsum_scale_r.
  - intros m _. rewrite HX. rewrite fsum_scale. rewrite (fsum_ext (λ p, _ * diag d m p * R p j)
      (λ p, chunk_a (16 * d + i) (16 * d + m) * (diag d m p * R p j))) by (intros; ring). rewrite fsum_scale. ring.
Qed.

Lemma dot_assoc (x y w : Z → Z → F) i j : dot 16 (dot 16 x y) w i j = dot 16 x (dot 16 y w) i j.
Proof.
  unfold dot. rewrite (fsum_ext _ (λ m, fsum (λ p, x i p * y p m * w m j) 16)) by (intros; by rewrite <-fsum_scale_r).
  rewrite fsum_swap. apply fsum_ext. intros p _. rewrite <-fsum_scale. apply fsum_ext. intros m _. ring.
Qed.
Lemma fsum_1 f : fsum f 1 = f 0%Z.
Proof. change 1%Z with (0 + 1)%Z. rewrite fsum_S, fsum_nonpos by done. ring. Qed.
Lemma fsum_2 f : fsum f 2 = f 0%Z + f 1%Z.
Proof. change 2%Z with (1 + 1)%Z. by rewrite fsum_S, fsum_1. Qed.
Lemma fsum_3 f : fsum f 3 = f 0%Z + f 1%Z + f 2%Z.
Proof. change 3%Z with (2 + 1)%Z. by rewrite fsum_S, fsum_2. Qed.

(** The blocks as the program finds them. *)
Definition x21 (i j : Z) : F := - dot 16 (dot 16 (diag 1) (bload 1 0)) (diag 0) i j.
Definition x32 (i j : Z) : F := - dot 16 (dot 16 (diag 2) (bload 2 1)) (diag 1) i j.
Definition x43 (i j : Z) : F := - dot 16 (dot 16 (diag 3) (bload 3 2)) (diag 2) i j.
Definition x31 (i j : Z) : F := - dot 16 (diag 2) (λ i j, dot 16 (bload 2 0) (diag 0) i j + dot 16 (bload 2 1) x21 i j) i j.
Definition x42 (i j : Z) : F := - dot 16 (diag 3) (λ i j, dot 16 (bload 3 1) (diag 1) i j + dot 16 (bload 3 2) x32 i j) i j.
Definition x41 (i j : Z) : F :=
  - dot 16 (diag 3) (λ i j, dot 16 (bload 3 0) (diag 0) i j + dot 16 (bload 3 1) x21 i j + dot 16 (bload 3 2) x31 i j) i j.
Definition blk (p q : Z) : Z → Z → F :=
  if (p <? q)%Z then λ _ _, 0 else if (p =? q)%Z then diag p
  else match p, q with
       | 1%Z, _ => x21 | 2%Z, 0%Z => x31 | 2%Z, _ => x32
       | _, 0%Z => x41 | _, 1%Z => x42 | _, _ => x43
       end.
Lemma blk_upper p q : (p < q)%Z → blk p q = λ _ _, 0.
Proof. intros Hpq. unfold blk. by rewrite (proj2 (Z.ltb_lt p q)). Qed.
Lemma blk_diag p : blk p p = diag p.
Proof. unfold blk. by rewrite Z.ltb_irrefl, Z.eqb_refl. Qed.
(** What a block row takes from the blocks above. *)
Definition above (P Q i j p : Z) : F := fsum (λ m, chunk_a (16 * P + i) (16 * p + m) * blk p Q m j) 16.
Lemma above_load P p Q i j : (0 <= p < 4)%Z → valid P i → dot 16 (bload P p) (blk p Q) i j = above P Q i j p.
Proof. intros Hp Hv. apply fsum_ext. intros m Hm. by rewrite bload_valid. Qed.
Lemma lower_blocks P Q i j : (0 <= Q < P)%Z → (P < 4)%Z → valid P i → (0 <= j < 16)%Z →
  blk P Q i j + fsum (λ m, chunk_a (16 * P + i) (16 * P + m) * blk P Q m j) 16 = - fsum (above P Q i j) P.
Proof.
  intros HQ HP Hv Hj.
  assert ((P = 1 ∧ Q = 0) ∨ (P = 2 ∧ Q = 0) ∨ (P = 2 ∧ Q = 1) ∨ (P = 3 ∧ Q = 0) ∨ (P = 3 ∧ Q = 1) ∨ (P = 3 ∧ Q = 2))%Z as Hcases by lia.
  destruct Hcases as [[-> ->]|[[-> ->]|[[-> ->]|[[-> ->]|[[-> ->]|[-> ->]]]]]].
  - rewrite fsum_1, <-above_load by (done || lia). apply (block_row 1); [lia|done|].
    intros l. change (blk 1 0 l j) with (x21 l j). unfold x21. by rewrite dot_assoc.
  - rewrite fsum_2, <-!above_load by (done || lia). by apply (block_row 2 (blk 2 0) (λ i j, dot 16 (bload 2 0) (blk 0 0) i j + dot 16 (bload 2 1) (blk 1 0) i j)).
  - rewrite fsum_2, <-!above_load by (done || lia). apply (block_row 2 (blk 2 1) (λ i j, dot 16 (bload 2 0) (blk 0 1) i j + dot 16 (bload 2 1) (blk 1 1) i j)); [lia|done|].
    intros l. change (blk 2 1 l j) with (x32 l j). unfold x32. rewrite dot_assoc. f_equal. apply fsum_ext. intros m _. f_equal.
    rewrite (blk_upper 0 1) by lia. unfold dot at 2. rewrite (fsum_null _ 16) by (intros; ring). change (blk 1 1) with (diag 1). ring.
  - rewrite fsum_3, <-!above_load by (done || lia). by apply (block_row 3 (blk 3 0) (λ i j, dot 16 (bload 3 0) (blk 0 0) i j + dot 16 (bload 3 1) (blk 1 0) i j + dot 16 (bload 3 2) (blk 2 0) i j)).
  - rewrite fsum_3, <-!above_load by (done || lia). apply (block_row 3 (blk 3 1) (λ i j, dot 16 (bload 3 0) (blk 0 1) i j + dot 16 (bload 3 1) (blk 1 1) i j + dot 16 (bload 3 2) (blk 2 1) i j)); [lia|done|].
    intros l. change (blk 3 1 l j) with (x42 l j). unfold x42. f_equal. apply fsum_ext. intros m _. f_equal.
    rewrite (blk_upper 0 1) by lia. unfold dot at 3. rewrite (fsum_null _ 16) by (intros; ring).
    change (blk 1 1) with (diag 1). change (blk 2 1) with x32. ring.
  - rewrite fsum_3, <-!above_load by (done || lia). apply (block_row 3 (blk 3 2) (λ i j, dot 16 (bload 3 0) (blk 0 2) i j + dot 16 (bload 3 1) (blk 1 2) i j + dot 16 (bload 3 2) (blk 2 2) i j)); [lia|done|].
    intros l. change (blk 3 2 l j) with (x43 l j). unfold x43. rewrite dot_assoc. f_equal. apply fsum_ext. intros m _. f_equal.
    rewrite (blk_upper 0 2), (blk_upper 1 2) by lia. unfold dot at 2 3. rewrite !(fsum_null _ 16) by (intros; ring).
    change (blk 2 2) with (diag 2). ring.
Qed.

(** The inverse, block by block. *)
Definition full (i j : Z) : F := blk (i / 16) (j / 16) (i mod 16)%Z (j mod 16)%Z.
Lemma full_block p q i j : (0 <= i < 16)%Z → (0 <= j < 16)%Z → full (16 * p + i) (16 * q + j) = blk p q i j.
Proof.
  intros Hi Hj. unfold full. rewrite !(Z.mul_comm 16), !radix_div, !radix_mod by done. done.
Qed.
Lemma block_index i : (0 <= i < 64)%Z → ∃ p r, i = (16 * p + r)%Z ∧ (0 <= p < 4)%Z ∧ (0 <= r < 16)%Z.
Proof.
  intros Hi. exists (i / 16)%Z, (i mod 16)%Z. pose proof (Z.div_mod i 16). pose proof (Z.mod_pos_bound i 16).
  split; [lia|]. lia.
Qed.
Lemma block_sum P Q i j : (0 <= P < 4)%Z → valid P i → (0 <= j < 16)%Z →
  fsum (λ m, chunk_a (16 * P + i) m * full m (16 * Q + j)) 64 =
  fsum (above P Q i j) P + fsum (λ m, chunk_a (16 * P + i) (16 * P + m) * blk P Q m j) 16.
Proof.
  intros HP Hv Hj. change 64%Z with (4 * 16)%Z. rewrite fsum_blocks by done.
  rewrite (fsum_ext _ (above P Q i j)).
  - replace 4%Z with (P + (1 + (3 - P)))%Z by lia. rewrite fsum_app, fsum_app, fsum_1 by lia.
    rewrite (fsum_null _ (3 - P)).
    + rewrite Z.add_0_r. unfold above at 2. ring.
    + intros p Hp. apply fsum_null. intros m Hm. rewrite lower by lia. ring.
  - intros p Hp. apply fsum_ext. intros m Hm. rewrite (Z.mul_comm p), full_block by done. done.
Qed.
Lemma full_spec i j : (0 <= i < 64)%Z → (t0 + i < T_len)%Z → (0 <= j < 64)%Z →
  full i j + fsum (λ m, chunk_a i m * full m j) 64 = delta_ij i j.
Proof.
  intros (P & i' & -> & HP & Hi)%block_index Hv (Q & j' & -> & HQ & Hj)%block_index.
  assert (valid P i') as Hv' by lia. rewrite block_sum, full_block by done. unfold delta_ij.
  destruct (Z.lt_trichotomy P Q) as [Hlt|[<-|Hgt]].
  - rewrite (proj2 (Z.eqb_neq _ _)) by lia. rewrite blk_upper by done.
    rewrite !fsum_null; [ring| |].
    + intros m _. ring.
    + intros p Hp. apply fsum_null. intros m _. rewrite blk_upper by lia. ring.
  - rewrite blk_diag, (fsum_null (above P P i' j')).
    + transitivity (delta_ij i' j'); [rewrite <-(diag_spec P) by done; ring|]. unfold delta_ij.
      destruct (Z.eqb_spec i' j') as [->|]; [by rewrite Z.eqb_refl|]. by rewrite (proj2 (Z.eqb_neq _ _)) by lia.
    + intros p Hp. apply fsum_null. intros m _. rewrite blk_upper by lia. ring.
  - rewrite (proj2 (Z.eqb_neq _ _)) by lia. pose proof (lower_blocks P Q i' j' ltac:(lia) ltac:(lia) Hv' Hj) as E.
    transitivity (fsum (above P Q i' j') P + (blk P Q i' j' + fsum (λ m, chunk_a (16 * P + i') (16 * P + m) * blk P Q m j') 16)); [ring|].
    rewrite E. ring.
Qed.
End inverse.

(** ** What the launches leave in memory *)

Section places.
Context {F : Type} `{ScalarLaws F}.
Add Ring scalar : (scalar_ring (F := F)).
#[local] Open Scope sc.

Definition row_addr (T nh d : Z) (y : Z * Z * Z * Z) : Z := let '(b, t, h, c) := y in (((b * T + t) * nh + h) * d + c)%Z.
Lemma row_addr_inj T nh d b t h c b' t' h' c' :
  (0 <= t < T)%Z → (0 <= h < nh)%Z → (0 <= c < d)%Z → (0 <= t' < T)%Z → (0 <= h' < nh)%Z → (0 <= c' < d)%Z →
  row_addr T nh d (b, t, h, c) = row_addr T nh d (b', t', h', c') → (b, t, h, c) = (b', t', h', c').
Proof.
  cbn. intros Ht Hh Hc Ht' Hh' Hc' E. apply radix_inj in E as [E ->]; [|done..]. apply radix_inj in E as [E ->]; [|done..].
  apply radix_inj in E as [-> ->]; done.
Qed.
Lemma data3_at T nh (x : buffer3 F) b t h : (0 <= t < T)%Z → (0 <= h < nh)%Z → data3 T nh x ((b * T + t) * nh + h)%Z = x (b, t, h).
Proof. intros Ht Hh. unfold data3. by rewrite !radix_div, !radix_mod. Qed.
Lemma data4_at T nh d (x : buffer4 F) b t h c : (0 <= t < T)%Z → (0 <= h < nh)%Z → (0 <= c < d)%Z →
  data4 T nh d x (((b * T + t) * nh + h) * d + c)%Z = x (b, t, h, c).
Proof. intros Ht Hh Hc. unfold data4. by rewrite !radix_div, !radix_mod. Qed.
(** The programs of a grid of chunks and heads. *)
Lemma program_index B nh pbh : (0 < nh)%Z → (0 <= pbh < B * nh)%Z → (0 <= pbh / nh < B)%Z ∧ (0 <= pbh mod nh < nh)%Z.
Proof.
  intros HH Hp. split; [|by apply Z.mod_pos_bound]. split; [apply Z.div_pos; lia|apply Z.div_lt_upper_bound; lia].
Qed.
Lemma program_for B T nh BT b t h : (0 < BT)%Z → (0 <= b < B)%Z → (0 <= t < T)%Z → (0 <= h < nh)%Z →
  (t / BT, b * nh + h)%Z ∈ grid (ceildiv T BT) (B * nh).
Proof.
  intros HBT Hb Ht Hh. apply elem_of_grid. split; [|nia]. split; [apply Z.div_pos; lia|].
  apply Z.div_lt_upper_bound; [lia|]. pose proof (ceildiv_spec T BT HBT). lia.
Qed.
End places.

Section kernels.
Context {F : Type} `{ScalarLaws F} (B T nh Hg K V : Z).
Add Ring scalar : (scalar_ring (F := F)).
Hypothesis head_pos : 0 < nh.
#[local] Open Scope sc.
#[local] Abbreviation in_bth b t h := ((0 <= b < B)%Z ∧ (0 <= t < T)%Z ∧ (0 <= h < nh)%Z).
Definition gate_addr (y : Z * Z * Z) : Z := let '(b, t, h) := y in ((b * T + t) * nh + h)%Z.
Definition row_domain (d : Z) (y : Z * Z * Z * Z) : Prop := let '(b, t, h, c) := y in in_bth b t h ∧ (0 <= c < d)%Z.

Lemma cumsum_at (s m : Z → F) BT b t h : (0 < BT)%Z → in_bth b t h →
  chunk_local_cumsum s T nh BT B m ((b * T + t) * nh + h)%Z =
  fsum (λ j, s ((b * T + (t / BT * BT + j)) * nh + h)%Z) (t mod BT + 1).
Proof.
  intros HBT (Hb & Ht & Hh). unfold chunk_local_cumsum.
  apply (launch_at _ _ (λ '(b, t, h), in_bth b t h) gate_addr
    (λ '(b, t, h), fsum (λ j, s ((b * T + (t / BT * BT + j)) * nh + h)%Z) (t mod BT + 1)) m (b, t, h)); [| |done|].
  - intros [pt pbh] a x [Hpt Hpbh]%elem_of_grid (i & Hi & Hm%Z.ltb_lt & -> & ->)%elem_of_store1.
    destruct (program_index B nh pbh head_pos Hpbh) as [Hb' Hh'].
    exists (pbh / nh, pt * BT + i, pbh mod nh)%Z. split; [split_and!; try lia; nia|]. split; [done|].
    rewrite radix_div, radix_mod by done. apply fsum_ext. intros j Hj. unfold load, cumsum_offset.
    by rewrite (proj2 (Z.ltb_lt _ _)) by lia.
  - intros [[b1 t1] h1] [[b2 t2] h2] (_ & H1 & H2) (_ & H3 & H4) E. cbn in E.
    apply radix_inj in E as [E ->]; [|done..]. by apply radix_inj in E as [-> ->].
  - destruct (chunk_index t BT HBT) as (p & i & E & Hi & Ep & Ei).
    eexists (t / BT, b * nh + h)%Z, _. split; [by apply program_for|].
    apply elem_of_store1. exists i. split; [done|]. rewrite radix_div, radix_mod by done. split; [apply Z.ltb_lt; lia|].
    split; [|done]. unfold cumsum_offset, gate_addr. rewrite <-Ep, <-E. done.
Qed.

Lemma kkt_at (k beta g m : Z → F) BT BK b t h j : (0 < BT)%Z → (0 < BK)%Z → (0 <= K)%Z → in_bth b t h → (0 <= j < BT)%Z →
  chunk_scaled_dot_kkt k beta g T nh Hg K BT BK B m (((b * T + t) * nh + h) * BT + j)%Z =
  let t0 := (t / BT * BT)%Z in
  let row t r := k (((b * T + t) * Hg + h / (nh / Hg)) * K + r)%Z in
  if (t0 + j <? t)%Z then
    fsum (λ r, row t r * row (t0 + j)%Z r) K * beta ((b * T + t) * nh + h)%Z
      * fexp (g ((b * T + t) * nh + h)%Z - g ((b * T + (t0 + j)) * nh + h)%Z)
  else 0.
Proof.
  intros HBT HBK HK (Hb & Ht & Hh) Hj. unfold chunk_scaled_dot_kkt.
  apply (launch_at _ _ (row_domain BT) (row_addr T nh BT)
    (λ '(b, t, h, j), let t0 := (t / BT * BT)%Z in
      let row t r := k (((b * T + t) * Hg + h / (nh / Hg)) * K + r)%Z in
      if (t0 + j <? t)%Z then
        fsum (λ r, row t r * row (t0 + j)%Z r) K * beta ((b * T + t) * nh + h)%Z
          * fexp (g ((b * T + t) * nh + h)%Z - g ((b * T + (t0 + j)) * nh + h)%Z)
      else 0) m (b, t, h, j)); [| |done|].
  - intros [pt pbh] a x [Hpt Hpbh]%elem_of_grid (i & j' & Hi & Hj' & Hm%Z.ltb_lt & -> & ->)%elem_of_store2.
    destruct (program_index B nh pbh head_pos Hpbh) as [Hb' Hh'].
    exists (pbh / nh, pt * BT + i, pbh mod nh, j')%Z. split; [split_and!; try lia; nia|]. split; [done|].
    rewrite radix_div by done. cbv zeta. rewrite (proj2 (Z.ltb_lt (pt * BT + i) T)) by done. cbn [andb].
    destruct (Z.ltb_spec (pt * BT + j') (pt * BT + i)) as [Hlt|]; [|done].
    rewrite (proj2 (Z.ltb_lt (pt * BT + j') T)) by lia. cbn [andb]. f_equal.
    set (row i := (((pbh / nh * T + (pt * BT + i)) * Hg + pbh mod nh / (nh / Hg)) * K)%Z).
    set (vals i r := load k (row i + r)%Z ((pt * BT + i <? T)%Z && (r <? K)%Z)).
    set (bt i := load beta ((pbh / nh * T + (pt * BT + i)) * nh + pbh mod nh)%Z (pt * BT + i <? T)%Z).
    etransitivity; [apply (tile_dot K BK (λ i r, vals i r * bt i) (λ r j, vals j r)); [done..|]|].
    + intros r Hr. unfold vals. rewrite (proj2 (Z.ltb_ge r K)), andb_false_r by done. cbn [load]. ring.
    + rewrite (fsum_ext _ (λ r, k (row i + r)%Z * k (row j' + r)%Z * beta ((pbh / nh * T + (pt * BT + i)) * nh + pbh mod nh)%Z)).
      * by rewrite fsum_scale_r, fadd_0_l.
      * intros r Hr. unfold vals, bt. rewrite !(proj2 (Z.ltb_lt _ _)) by lia. cbn [andb load]. ring.
  - intros [[[b1 t1] h1] j1] [[[b2 t2] h2] j2] [(_ & H1 & H2) H3] [(_ & H4 & H5) H6]. by apply row_addr_inj.
  - destruct (chunk_index t BT HBT) as (p & i & E & Hi & Ep & Ei).
    eexists (t / BT, b * nh + h)%Z, _. split; [by apply program_for|].
    apply elem_of_store2. exists i, j. split; [done|]. split; [done|]. split; [rewrite <-Ep, <-E; apply Z.ltb_lt; lia|].
    split; [|reflexivity]. rewrite radix_div, radix_mod by done. by rewrite <-Ep, <-E.
Qed.

(** What the program of a chunk stores: the blocks on and below the diagonal. *)
Lemma elem_of_block_store base r c x a (v : F) : (0 <= c)%Z → (c + 16 <= 64)%Z →
  (a, v) ∈ block_store T nh 64 base r c x ↔
  ∃ i j, (0 <= i < 16)%Z ∧ (0 <= j < 16)%Z ∧ (r + i < T)%Z ∧ a = (base + (r + i) * (nh * 64) + (c + j))%Z ∧ v = x i j.
Proof.
  intros Hc Hc'. unfold block_store. rewrite elem_of_store2. split.
  - intros (i & j & Hi & Hj & [Hm _]%andb_true_iff & -> & ->). apply Z.ltb_lt in Hm. by exists i, j.
  - intros (i & j & Hi & Hj & Hm & -> & ->). exists i, j. split; [done|]. split; [done|]. split; [|done].
    apply andb_true_iff. rewrite !Z.ltb_lt. lia.
Qed.
Lemma elem_of_solve undef (a : Z → F) pt pbh addr v :
  let base := base_a T nh 64 (pbh / nh) (pbh mod nh) in let t0 := (pt * 64)%Z in
  (addr, v) ∈ solve_program undef a T nh 64 (pt, pbh) ↔
  ∃ p q i j, (0 <= q <= p)%Z ∧ (p < 4)%Z ∧ (0 <= i < 16)%Z ∧ (0 <= j < 16)%Z ∧ (t0 + 16 * p + i < T)%Z ∧
    addr = (base + (t0 + 16 * p + i) * (nh * 64) + (16 * q + j))%Z ∧ v = blk undef a T nh base t0 p q i j.
Proof.
  intros base t0. split.
  - unfold solve_program. fold base t0. intros Hin. repeat setoid_rewrite elem_of_app in Hin.
    assert (∀ p q r x, (0 <= q <= p)%Z → (p < 4)%Z → r = (t0 + 16 * p)%Z → x = blk undef a T nh base t0 p q →
      (addr, v) ∈ block_store T nh 64 base r (16 * q) x →
      ∃ p q i j, (0 <= q <= p)%Z ∧ (p < 4)%Z ∧ (0 <= i < 16)%Z ∧ (0 <= j < 16)%Z ∧ (t0 + 16 * p + i < T)%Z ∧
        addr = (base + (t0 + 16 * p + i) * (nh * 64) + (16 * q + j))%Z ∧ v = blk undef a T nh base t0 p q i j) as Hblk.
    { intros p q r x Hq Hp -> -> (i & j & Hi & Hj & Hm & -> & ->)%elem_of_block_store; [|lia..]. by exists p, q, i, j. }
    destruct Hin as [Hin|[Hin|[Hin|[Hin|[Hin|[Hin|[Hin|[Hin|[Hin|Hin]]]]]]]]].
    + apply (Hblk 0 0 _ _ ltac:(lia) ltac:(lia) (eq_sym (Z.add_0_r t0)) eq_refl)%Z, Hin.
    + apply (Hblk 1 1 _ _ ltac:(lia) ltac:(lia) eq_refl eq_refl)%Z, Hin.
    + apply (Hblk 2 2 _ _ ltac:(lia) ltac:(lia) eq_refl eq_refl)%Z, Hin.
    + apply (Hblk 3 3 _ _ ltac:(lia) ltac:(lia) eq_refl eq_refl)%Z, Hin.
    + apply (Hblk 1 0 _ _ ltac:(lia) ltac:(lia) eq_refl eq_refl)%Z, Hin.
    + apply (Hblk 2 0 _ _ ltac:(lia) ltac:(lia) eq_refl eq_refl)%Z, Hin.
    + apply (Hblk 2 1 _ _ ltac:(lia) ltac:(lia) eq_refl eq_refl)%Z, Hin.
    + apply (Hblk 3 0 _ _ ltac:(lia) ltac:(lia) eq_refl eq_refl)%Z, Hin.
    + apply (Hblk 3 1 _ _ ltac:(lia) ltac:(lia) eq_refl eq_refl)%Z, Hin.
    + apply (Hblk 3 2 _ _ ltac:(lia) ltac:(lia) eq_refl eq_refl)%Z, Hin.
  - intros (p & q & i & j & Hq & Hp & Hi & Hj & Hm & -> & ->). unfold solve_program. fold base t0.
    assert (∀ r x, r = (t0 + 16 * p)%Z → x = blk undef a T nh base t0 p q →
      ((base + (t0 + 16 * p + i) * (nh * 64) + (16 * q + j))%Z, blk undef a T nh base t0 p q i j) ∈ block_store T nh 64 base r (16 * q) x) as Hblk.
    { intros r x -> ->. apply elem_of_block_store; [lia..|]. by exists i, j. }
    assert ((p = 0 ∧ q = 0) ∨ (p = 1 ∧ q = 1) ∨ (p = 2 ∧ q = 2) ∨ (p = 3 ∧ q = 3) ∨ (p = 1 ∧ q = 0) ∨ (p = 2 ∧ q = 0) ∨ (p = 2 ∧ q = 1)
      ∨ (p = 3 ∧ q = 0) ∨ (p = 3 ∧ q = 1) ∨ (p = 3 ∧ q = 2))%Z as Hcases by lia.
    repeat setoid_rewrite elem_of_app.
    destruct Hcases as [[-> ->]|[[-> ->]|[[-> ->]|[[-> ->]|[[-> ->]|[[-> ->]|[[-> ->]|[[-> ->]|[[-> ->]|[-> ->]]]]]]]]]].
    + left. apply Hblk; [lia|done].
    + right; left. by apply Hblk.
    + do 2 right; left. by apply Hblk.
    + do 3 right; left. by apply Hblk.
    + do 4 right; left. by apply Hblk.
    + do 5 right; left. by apply Hblk.
    + do 6 right; left. by apply Hblk.
    + do 7 right; left. by apply Hblk.
    + do 8 right; left. by apply Hblk.
    + do 9 right. by apply Hblk.
Qed.
(** The places of the inverse that are stored, and those that are not. *)
Definition below (t j : Z) : Prop := (j / 16 <= t mod 64 / 16)%Z.
#[export] Instance below_dec t j : Decision (below t j).
Proof. unfold below. apply _. Defined.
Lemma solve_at undef (a m : Z → F) b t h j : in_bth b t h → (0 <= j < 64)%Z →
  solve_tril_64 undef a T nh 64 B m (((b * T + t) * nh + h) * 64 + j)%Z =
  if decide (below t j) then full undef a T nh (base_a T nh 64 b h) (t / 64 * 64) (t mod 64) j
  else m (((b * T + t) * nh + h) * 64 + j)%Z.
Proof.
  intros (Hb & Ht & Hh) Hj. unfold solve_tril_64.
  set (D := λ y : Z * Z * Z * Z, row_domain 64 y ∧ below y.1.1.2 y.2).
  set (val := λ y : Z * Z * Z * Z, let '(b, t, h, j) := y in full undef a T nh (base_a T nh 64 b h) (t / 64 * 64) (t mod 64) j).
  assert (∀ p x v, p ∈ grid (ceildiv T 64) (B * nh) → (x, v) ∈ solve_program undef a T nh 64 p →
    ∃ y, D y ∧ x = row_addr T nh 64 y ∧ v = val y) as Hprog.
  { intros [pt pbh] x v [Hpt Hpbh]%elem_of_grid (p & q & i & j' & Hq & Hp & Hi & Hj' & Hm & -> & ->)%elem_of_solve.
    destruct (program_index B nh pbh head_pos Hpbh) as [Hb' Hh'].
    exists (pbh / nh, pt * 64 + (16 * p + i), pbh mod nh, 16 * q + j')%Z. unfold D, val, below. cbn [fst snd row_domain row_addr].
    rewrite !radix_mod, !radix_div, (Z.mul_comm 16 p), (Z.mul_comm 16 q), !radix_div by lia.
    split; [split; [|lia]|].
    - split; [|lia]. split_and!; try lia.
    - split; [unfold base_a; lia|]. rewrite (Z.mul_comm p), (Z.mul_comm q), full_block by done. done. }
  assert (∀ y y', D y → D y' → row_addr T nh 64 y = row_addr T nh 64 y' → y = y') as Hinj.
  { intros [[[b1 t1] h1] j1] [[[b2 t2] h2] j2] [[(_ & H1 & H2) H3] _] [[(_ & H4 & H5) H6] _]. by apply row_addr_inj. }
  destruct (decide (below t j)) as [Hbelow|Hbelow].
  - apply (launch_at _ _ D (row_addr T nh 64) val m (b, t, h, j) Hprog Hinj); [done|].
    destruct (chunk_index t 64 ltac:(done)) as (pt & r & E & Hr & Ept & Er).
    destruct (chunk_index r 16 ltac:(done)) as (p & i & E' & Hi & Ep & Ei).
    destruct (chunk_index j 16 ltac:(done)) as (q & j' & E'' & Hj' & Eq & Ej).
    eexists (t / 64, b * nh + h)%Z, _. split; [by apply program_for|]. apply elem_of_solve.
    exists p, q, i, j'. rewrite radix_div, radix_mod by done. rewrite <-Ept. unfold below in Hbelow. rewrite <-Er, <-Ep, <-Eq in Hbelow.
    split; [lia|]. split; [lia|]. split; [done|]. split; [done|]. split; [lia|]. split; [|reflexivity].
    cbn. unfold base_a. lia.
  - change (((b * T + t) * nh + h) * 64 + j)%Z with (row_addr T nh 64 (b, t, h, j)).
    apply (launch_other _ _ D (row_addr T nh 64) val m _ Hprog).
    intros [[[b1 t1] h1] j1] [[(Hb1 & H1 & H2) H3] H4] E. apply row_addr_inj in E as [= -> -> -> ->]; [|done..].
    by apply Hbelow.
Qed.

(** The two matrices of right-hand sides, side by side. *)
Definition wu_val (k v beta ai g : Z → F) BT (y : Z * Z * Z * Z) : F :=
  let '(b, t, h, c) := y in
  let t0 := (t / BT * BT)%Z in
  let at_row j (p : Z → F) := load p ((b * T + (t0 + j)) * nh + h)%Z (t0 + j <? T)%Z in
  fsum (λ j, ai (((b * T + t) * nh + h) * BT + j)%Z *
    (if (c <? K)%Z then load k (((b * T + (t0 + j)) * Hg + h / (nh / Hg)) * K + c)%Z (t0 + j <? T)%Z * (at_row j beta * fexp (at_row j g))
     else load v (((b * T + (t0 + j)) * nh + h) * V + (c - K))%Z (t0 + j <? T)%Z * at_row j beta)) BT.
Lemma wu_at (k v beta ai g m : Z → F) BT BK BV b t h c : (0 < BT)%Z → (0 < BK)%Z → (0 < BV)%Z → (0 <= K)%Z → (0 <= V)%Z →
  in_bth b t h → (0 <= c < K + V)%Z →
  recompute_w_u k v beta ai g T Hg nh K V BT BK BV B m (((b * T + t) * nh + h) * (K + V) + c)%Z = wu_val k v beta ai g BT (b, t, h, c).
Proof.
  intros HBT HBK HBV HK HV (Hb & Ht & Hh) Hc. unfold recompute_w_u.
  apply (launch_at _ _ (row_domain (K + V)) (row_addr T nh (K + V)) (wu_val k v beta ai g BT) m (b, t, h, c)); [| |done|].
  - intros [pt pbh] a x [Hpt Hpbh]%elem_of_grid Hin. destruct (program_index B nh pbh head_pos Hpbh) as [Hb' Hh'].
    unfold w_u_program in Hin. apply elem_of_app in Hin as [Hin|Hin];
      apply list_elem_of_bind in Hin as (blk & (i & c' & Hi & Hc' & [Hm Hmv]%andb_true_iff & -> & ->)%elem_of_store2 & Hblk%elem_of_range);
      apply Z.ltb_lt in Hm, Hmv.
    + exists (pbh / nh, pt * BT + i, pbh mod nh, K + (blk * BV + c'))%Z. split; [split_and!; try lia; nia|]. split; [cbn; lia|].
      unfold wu_val. rewrite radix_div by done. rewrite (proj2 (Z.ltb_ge _ K)) by nia. unfold dot. apply fsum_ext. intros j Hj.
      rewrite (proj2 (Z.ltb_lt (pt * BT + i) T)), (proj2 (Z.ltb_lt _ V)) by done. rewrite andb_true_r. cbn [load].
      do 4 f_equal. lia.
    + exists (pbh / nh, pt * BT + i, pbh mod nh, blk * BK + c')%Z. split; [split_and!; try lia; nia|]. split; [done|].
      unfold wu_val. rewrite radix_div by done. rewrite (proj2 (Z.ltb_lt _ K)) by done. unfold dot. apply fsum_ext. intros j Hj.
      rewrite (proj2 (Z.ltb_lt (pt * BT + i) T)), (proj2 (Z.ltb_lt (blk * BK + c') K)) by done. by rewrite andb_true_r.
  - intros [[[b1 t1] h1] j1] [[[b2 t2] h2] j2] [(_ & H1 & H2) H3] [(_ & H4 & H5) H6]. by apply row_addr_inj.
  - destruct (chunk_index t BT HBT) as (p & i & E & Hi & Ep & Ei).
    assert (∃ x, (row_addr T nh (K + V) (b, t, h, c), x) ∈ w_u_program k v beta ai g T Hg nh K V BT BK BV (p, b * nh + h)%Z) as [x Hx].
    { unfold w_u_program. setoid_rewrite elem_of_app. setoid_rewrite list_elem_of_bind. setoid_rewrite elem_of_store2.
      rewrite radix_div, radix_mod by done. destruct (Z_lt_le_dec c K) as [HcK|HcK].
      - destruct (chunk_index c BK HBK) as (pc & c' & Ec & Hc' & Epc & _). eexists. right. exists pc. split; [|apply elem_of_range; rewrite Epc; apply block_for; lia].
        exists i, c'. split; [done|]. split; [done|]. rewrite <-E, <-Ec. split; [apply andb_true_iff; rewrite !Z.ltb_lt; lia|].
        split; [done|reflexivity].
      - destruct (chunk_index (c - K) BV HBV) as (pc & c' & Ec & Hc' & Epc & _). eexists. left. exists pc. split; [|apply elem_of_range; rewrite Epc; apply block_for; lia].
        exists i, c'. split; [done|]. split; [done|]. rewrite <-E, <-Ec. split; [apply andb_true_iff; rewrite !Z.ltb_lt; lia|].
        split; [cbn; lia|reflexivity]. }
    exists (p, b * nh + h)%Z, x. split; [|done]. rewrite Ep. by apply program_for.
Qed.

(** *** The states of the chunks *)

Section delta_h.
Context (k w u g h0 : Z → F) (BT BV : Z).
Hypothesis BT_pos : (0 < BT)%Z.
Hypothesis BV_pos : (0 < BV)%Z.
Hypothesis key_dim : (0 < K <= 128)%Z.
Hypothesis value_dim : (0 < V)%Z.
Hypothesis length_pos : (0 <= T)%Z.
(** What the kernel reads for a token of a head. *)
Definition kk (b h t r : Z) : F := load k (((b * T + t) * Hg + h / (nh / Hg)) * K + r)%Z (t <? T)%Z.
Definition ww (b h t r : Z) : F := load w (((b * T + t) * nh + h) * K + r)%Z (t <? T)%Z.
Definition uu (b h t c : Z) : F := load u (((b * T + t) * nh + h) * V + c)%Z (t <? T)%Z.
Definition gg (b h t : Z) : F := load g ((b * T + t) * nh + h)%Z (t <? T)%Z.
Definition g_end (b h n : Z) : F := g ((b * T + (Z.min ((n + 1) * BT) T - 1)) * nh + h)%Z.
Definition vn_of (b h t c : Z) (S : Z → F) : F := uu b h t c - fsum (λ r, ww b h t r * S r) K.
(** One chunk, in one column of the state, and the state before chunk [n]. *)
Definition chunk_step (b h c n : Z) (S : Z → F) (r : Z) : F :=
  S r * fexp (g_end b h n) + fsum (λ i, kk b h (n * BT + i) r *
    (vn_of b h (n * BT + i) c S * (if (n * BT + i <? T)%Z then fexp (g_end b h n - gg b h (n * BT + i)) else 0))) BT.
Definition hs (b h c n : Z) : Z → F := loop (range n) (chunk_step b h c) (λ r, h0 (((b * nh + h) * V + c) * K + r)%Z).
Definition vn (b h t c : Z) : F := vn_of b h t c (hs b h c (t / BT)).
Definition vk : Z := (V * K)%Z.
Definition chunks : Z := nt T BT.
(** What is at each place of the part of a head. *)
Definition packed_val (y : Z * Z * Z) : F :=
  let '(b, h, pos) := y in
  if (pos <? chunks * V * K)%Z then hs b h (pos mod vk / K) (pos / vk) (pos mod vk mod K)
  else let pos := (pos - chunks * V * K)%Z in
       if (pos <? T * V)%Z then vn b h (pos / V) (pos mod V)%Z
       else let pos := (pos - T * V)%Z in hs b h (pos / K) chunks (pos mod K)%Z.

(** Both halves of the registers as one. *)
Definition reg (s : registers (F := F)) (c r : Z) : F := if (r <? 64)%Z then h1 s c r else h2 s c (r - 64)%Z.
Lemma split_dot (x y : Z → F) (y1 y2 : Z → F) :
  (∀ r, (0 <= r < 64)%Z → (r < K)%Z → y1 r = y r) → (∀ r, (0 <= r < 64)%Z → (64 + r < K)%Z → y2 r = y (64 + r)%Z) →
  (if (64 <? K)%Z then fsum (λ r, (if (r <? K)%Z then x r else 0) * y1 r) 64 + fsum (λ r, (if (64 + r <? K)%Z then x (64 + r)%Z else 0) * y2 r) 64
   else fsum (λ r, (if (r <? K)%Z then x r else 0) * y1 r) 64) = fsum (λ r, x r * y r) K.
Proof.
  intros H1 H2.
  rewrite (fsum_ext (λ r, _ * y1 r) (λ r, if (r <? K)%Z then x r * y r else 0)) by
    (intros r Hr; destruct (Z.ltb_spec r K); [rewrite H1 by done; done|ring]).
  rewrite (fsum_ext (λ r, _ * y2 r) (λ r, if (64 + r <? K)%Z then x (64 + r)%Z * y (64 + r)%Z else 0)) by
    (intros r Hr; destruct (Z.ltb_spec (64 + r) K); [rewrite H2 by done; done|ring]).
  destruct (Z.ltb_spec 64 K).
  - rewrite <-(fsum_below (λ r, x r * y r) 128 K) by lia. change 128%Z with (64 + 64)%Z. by rewrite fsum_app.
  - by rewrite fsum_below by lia.
Qed.
Section program.
Context (pv pbh : Z) (Hpbh : (0 <= pbh < B * nh)%Z).
#[local] Abbreviation b := (pbh / nh)%Z.
#[local] Abbreviation h := (pbh mod nh)%Z.
#[local] Abbreviation run n := (loop (range n) (delta_h_chunk k w u g T Hg nh K V BT BV pv pbh) (delta_h_start h0 nh K V BV pv pbh)).
Lemma or_iff (P Q R S : Prop) : (P ↔ Q) → (R ↔ S) → (P ∨ R ↔ Q ∨ S).
Proof. tauto. Qed.
(** The registers hold the states. *)
Lemma chunk_v_new s n i c :
  (pv * BV + c < V)%Z → (∀ r, (0 <= r < K)%Z → reg s c r = hs b h (pv * BV + c) n r) →
  load u (((b * T + (n * BT + i)) * nh + h) * V + (pv * BV + c))%Z ((n * BT + i <? T)%Z && (pv * BV + c <? V)%Z) -
  (if (64 <? K)%Z then
     dot 64 (λ i r, load w (((b * T + (n * BT + i)) * nh + h) * K + r)%Z ((n * BT + i <? T)%Z && (r <? K)%Z)) (trans (h1 s)) i c
     + dot 64 (λ i r, load w (((b * T + (n * BT + i)) * nh + h) * K + 64 + r)%Z ((n * BT + i <? T)%Z && (64 + r <? K)%Z)) (trans (h2 s)) i c
   else dot 64 (λ i r, load w (((b * T + (n * BT + i)) * nh + h) * K + r)%Z ((n * BT + i <? T)%Z && (r <? K)%Z)) (trans (h1 s)) i c) =
  vn_of b h (n * BT + i) (pv * BV + c) (hs b h (pv * BV + c) n).
Proof.
  intros Hc Hs. unfold vn_of. f_equal.
  - unfold uu. by rewrite (proj2 (Z.ltb_lt (pv * BV + c) V)), andb_true_r.
  - rewrite <-(split_dot (ww b h (n * BT + i)) (hs b h (pv * BV + c) n) (h1 s c) (h2 s c)).
    + unfold dot, trans, ww, load. destruct (Z.ltb_spec 64 K); [f_equal|]; apply fsum_ext; intros r Hr; f_equal;
        destruct (n * BT + i <? T)%Z; cbn [andb]; rewrite ?Z.add_assoc; by destruct (_ <? K)%Z.
    + intros r Hr HrK. rewrite <-Hs by lia. unfold reg. by rewrite (proj2 (Z.ltb_lt r 64)) by lia.
    + intros r Hr HrK. rewrite <-Hs by lia. unfold reg. rewrite (proj2 (Z.ltb_ge (64 + r) 64)) by lia. f_equal. lia.
Qed.
Lemma hs_S c n : (0 <= n)%Z → hs b h c (n + 1) = chunk_step b h c n (hs b h c n).
Proof. intros Hn. unfold hs. by rewrite range_S, loop_app. Qed.
Lemma reg_run n c r : (pv * BV + c < V)%Z → (0 <= r < K)%Z → reg (run n) c r = hs b h (pv * BV + c) n r.
Proof.
  intros Hc. revert r. induction n as [n Hn|n Hn IH] using range_ind; intros r Hr.
  - unfold hs. rewrite range_nonpos, !loop_nil by done. unfold reg, delta_h_start. cbn [h1 h2].
    rewrite (proj2 (Z.ltb_lt (pv * BV + c) V)) by done. cbn [andb]. destruct (Z.ltb_spec r 64).
    + by rewrite (proj2 (Z.ltb_lt r K)) by lia.
    + rewrite (proj2 (Z.ltb_lt (64 + (r - 64)) K)) by lia. cbn [load]. f_equal. lia.
  - rewrite range_S, loop_app, hs_S by done. cbn [loop foldl]. set (s := loop _ _ _) in *.
    unfold chunk_step. rewrite <-IH by done.
    assert (∀ i, load u (((b * T + (n * BT + i)) * nh + h) * V + (pv * BV + c))%Z ((n * BT + i <? T)%Z && (pv * BV + c <? V)%Z) - _ = _) as Ev
      by (intros i; exact (chunk_v_new s n i c Hc IH)).
    unfold reg, delta_h_chunk. cbn [h1 h2]. unfold trans at 1 4. unfold dot at 1 4.
    destruct (Z.ltb_spec r 64); f_equal; apply fsum_ext; intros i Hi; rewrite Ev; f_equal.
    + unfold kk. by rewrite (proj2 (Z.ltb_lt r K)) by lia.
    + unfold kk. rewrite (proj2 (Z.ltb_lt (64 + (r - 64)) K)) by lia. cbn [andb]. f_equal. lia.
Qed.
Lemma elem_of_store_h base s a (x : F) :
  (a, x) ∈ store_h K BV base (λ c, pv * BV + c)%Z (λ c, pv * BV + c <? V)%Z (h1 s) (h2 s) ↔
  ∃ c r, (0 <= c < BV)%Z ∧ (pv * BV + c < V)%Z ∧ (0 <= r < K)%Z ∧ a = (base + (pv * BV + c) * K + r)%Z ∧ x = reg s c r.
Proof.
  unfold store_h. rewrite elem_of_app, elem_of_store2. split.
  - intros [(c & r & Hc & Hr & [Hv Hk]%andb_true_iff & -> & ->)|Hin].
    + apply Z.ltb_lt in Hv, Hk. exists c, r. unfold reg. rewrite (proj2 (Z.ltb_lt r 64)) by lia. split_and!; done || lia.
    + destruct (Z.ltb_spec 64 K) as [H64|]; [|by apply elem_of_nil in Hin].
      apply elem_of_store2 in Hin as (c & r & Hc & Hr & [Hv Hk]%andb_true_iff & -> & ->). apply Z.ltb_lt in Hv, Hk.
      exists c, (64 + r)%Z. unfold reg. rewrite (proj2 (Z.ltb_ge (64 + r) 64)) by lia. split_and!; try lia. f_equal. lia.
  - intros (c & r & Hc & Hv & Hr & -> & ->). unfold reg. destruct (Z.ltb_spec r 64).
    + left. exists c, r. split; [done|]. split; [lia|]. split; [apply andb_true_iff; rewrite !Z.ltb_lt; lia|done].
    + right. rewrite (proj2 (Z.ltb_lt 64 K)) by lia. apply elem_of_store2. exists c, (r - 64)%Z.
      split; [done|]. split; [lia|]. split; [apply andb_true_iff; rewrite !Z.ltb_lt; lia|]. split; [lia|done].
Qed.
(** The part of a head, and what a program stores in it: in some columns, the states before the chunks and at the end,
    and the corrections. *)
Definition head_base : Z := ((b * nh + h) * packed_total T K V BT)%Z.
Definition stored_state (n : Z) (a : Z) (x : F) : Prop :=
  ∃ c r, (0 <= c < BV)%Z ∧ (pv * BV + c < V)%Z ∧ (0 <= r < K)%Z ∧
    a = (head_base + n * V * K + (pv * BV + c) * K + r)%Z ∧ x = hs b h (pv * BV + c) n r.
Definition stored_correction (n : Z) (a : Z) (x : F) : Prop :=
  ∃ i c, (0 <= i < BT)%Z ∧ (n * BT + i < T)%Z ∧ (0 <= c < BV)%Z ∧ (pv * BV + c < V)%Z ∧
    a = (head_base + chunks * V * K + (n * BT + i) * V + (pv * BV + c))%Z ∧ x = vn b h (n * BT + i) (pv * BV + c).
Lemma elem_of_run n a x : (a, x) ∈ stores (run n) ↔
  ∃ m, (0 <= m < n)%Z ∧ (stored_state m a x ∨ stored_correction m a x).
Proof.
  induction n as [n Hn|n Hn IH] using range_ind.
  { rewrite range_nonpos, loop_nil by done. cbn. rewrite elem_of_nil. split; [done|]. intros (m & Hm & _). lia. }
  rewrite range_S, loop_app by done. cbn [loop foldl]. pose proof (reg_run n) as Hreg. set (s := loop _ _ _) in *.
  assert ((a, x) ∈ stores (delta_h_chunk k w u g T Hg nh K V BT BV pv pbh n s) ↔
    (a, x) ∈ stores s ∨ stored_state n a x ∨ stored_correction n a x) as ->.
  { unfold delta_h_chunk. cbn [stores]. rewrite !elem_of_app, elem_of_store_h, elem_of_store2. fold head_base.
    apply or_iff_compat_l. apply or_iff.
    - split; intros (c & r & Hc & Hv & Hr & Ha & Hx); exists c, r; split_and!; done || lia || by rewrite Hx, Hreg.
    - split.
      + intros (i & c & Hi & Hc & [Ht Hv]%andb_true_iff & -> & ->). pose proof Ht as Ht'. pose proof Hv as Hv'.
        apply Z.ltb_lt in Ht', Hv'. exists i, c. split_and!; try done; try lia.
        unfold vn. rewrite radix_div by done. apply (chunk_v_new s n i c Hv'). intros r Hr. by apply Hreg.
      + intros (i & c & Hi & Ht & Hc & Hv & -> & ->). exists i, c. split; [done|]. split; [done|].
        split; [apply andb_true_iff; by rewrite !Z.ltb_lt|]. split; [done|]. unfold vn. rewrite radix_div by done.
        symmetry. apply (chunk_v_new s n i c Hv). intros r Hr. by apply Hreg. }
  rewrite IH. split.
  - intros [(m & Hm & Hs)|Hs]; [exists m; split; [lia|done]|exists n; split; [lia|done]].
  - intros (m & Hm & Hs). destruct (decide (m = n)) as [->|]; [by right|left; exists m; split; [lia|done]].
Qed.
Lemma elem_of_delta_h a x : (a, x) ∈ delta_h_program k w u g h0 T Hg nh K V BT BV (pv, pbh) ↔
  (∃ m, (0 <= m < chunks)%Z ∧ (stored_state m a x ∨ stored_correction m a x)) ∨
  (∃ c r, (0 <= c < BV)%Z ∧ (pv * BV + c < V)%Z ∧ (0 <= r < K)%Z ∧
    a = (head_base + chunks * V * K + T * V + (pv * BV + c) * K + r)%Z ∧ x = hs b h (pv * BV + c) chunks r).
Proof.
  unfold delta_h_program. fold chunks head_base. rewrite elem_of_app, elem_of_run, elem_of_store_h. apply or_iff_compat_l.
  split; intros (c & r & Hc & Hv & Hr & Ha & Hx); exists c, r; split_and!; done || lia || by rewrite Hx, reg_run.
Qed.
End program.
#[local] Abbreviation total := (packed_total T K V BT).
Lemma chunks_nonneg : (0 <= chunks)%Z.
Proof. by apply ceildiv_nonneg. Qed.
Lemma state_place n c r : (0 <= c < V)%Z → (0 <= r < K)%Z →
  (n * V * K + c * K + r = n * vk + (c * K + r))%Z ∧ (0 <= c * K + r < vk)%Z.
Proof. unfold vk. nia. Qed.
Lemma packed_val_state b h n c r : (0 <= n < chunks)%Z → (0 <= c < V)%Z → (0 <= r < K)%Z →
  packed_val (b, h, n * V * K + c * K + r)%Z = hs b h c n r.
Proof.
  intros Hn Hc Hr. unfold packed_val. destruct (state_place n c r Hc Hr) as [E Hplace].
  rewrite (proj2 (Z.ltb_lt _ _)) by (unfold vk in *; nia). by rewrite E, radix_div, !radix_mod, radix_div by done.
Qed.
Lemma packed_val_correction b h t c : (0 <= t < T)%Z → (0 <= c < V)%Z →
  packed_val (b, h, chunks * V * K + t * V + c)%Z = vn b h t c.
Proof.
  intros Ht Hc. unfold packed_val. pose proof chunks_nonneg. rewrite (proj2 (Z.ltb_ge _ _)) by nia. cbv zeta.
  replace (chunks * V * K + t * V + c - chunks * V * K)%Z with (t * V + c)%Z by lia.
  rewrite (proj2 (Z.ltb_lt _ _)) by nia. by rewrite radix_div, radix_mod.
Qed.
Lemma packed_val_final b h c r : (0 <= c < V)%Z → (0 <= r < K)%Z →
  packed_val (b, h, chunks * V * K + T * V + c * K + r)%Z = hs b h c chunks r.
Proof.
  intros Hc Hr. unfold packed_val. pose proof chunks_nonneg. rewrite (proj2 (Z.ltb_ge _ _)) by nia. cbv zeta.
  replace (chunks * V * K + T * V + c * K + r - chunks * V * K)%Z with (T * V + (c * K + r))%Z by lia.
  rewrite (proj2 (Z.ltb_ge _ _)) by nia.
  replace (T * V + (c * K + r) - T * V)%Z with (c * K + r)%Z by lia. by rewrite radix_div, radix_mod.
Qed.
(** Every place of the part of a head is one of them. *)
Lemma packed_place pos : (0 <= pos < total)%Z →
  (∃ n c r, (0 <= n < chunks)%Z ∧ (0 <= c < V)%Z ∧ (0 <= r < K)%Z ∧ pos = (n * V * K + c * K + r)%Z) ∨
  (∃ t c, (0 <= t < T)%Z ∧ (0 <= c < V)%Z ∧ pos = (chunks * V * K + t * V + c)%Z) ∨
  (∃ c r, (0 <= c < V)%Z ∧ (0 <= r < K)%Z ∧ pos = (chunks * V * K + T * V + c * K + r)%Z).
Proof.
  unfold packed_total. fold chunks. intros Hpos. pose proof chunks_nonneg.
  assert (∀ p, ∃ c r, p = (c * K + r)%Z ∧ (0 <= r < K)%Z) as HK.
  { intros p. destruct (chunk_index p K ltac:(lia)) as (c & r & E & Hr & _). eauto. }
  destruct (Z_lt_le_dec pos (chunks * V * K)) as [Hp1|Hp1]; [left|right; destruct (Z_lt_le_dec pos (chunks * V * K + T * V)) as [Hp2|Hp2]; [left|right]].
  - assert (0 < vk)%Z as Hvk by (unfold vk; nia). destruct (chunk_index pos vk Hvk) as (n & p & -> & Hp & _).
    destruct (HK p) as (c & r & -> & Hr). exists n, c, r. unfold vk in *. split_and!; nia.
  - destruct (chunk_index (pos - chunks * V * K) V value_dim) as (t & c & E & Hc & _). exists t, c. split_and!; nia.
  - destruct (HK (pos - chunks * V * K - T * V)%Z) as (c & r & E & Hr). exists c, r. split_and!; nia.
Qed.
Lemma packed_at m b h pos : (0 <= b < B)%Z → (0 <= h < nh)%Z → (0 <= pos < total)%Z →
  chunk_delta_h_packed k w u g h0 T Hg nh K V BT BV B m ((b * nh + h) * total + pos)%Z = packed_val (b, h, pos).
Proof.
  intros Hb Hh Hpos. unfold chunk_delta_h_packed.
  set (D := λ y : Z * Z * Z, let '(b, h, pos) := y in (0 <= b < B)%Z ∧ (0 <= h < nh)%Z ∧ (0 <= pos < total)%Z).
  set (addr := λ y : Z * Z * Z, let '(b, h, pos) := y in ((b * nh + h) * total + pos)%Z).
  apply (launch_at _ _ D addr packed_val m (b, h, pos)); [| |done|].
  - intros [pv pbh] a x [Hpv Hpbh]%elem_of_grid Hin%elem_of_delta_h; [|done]. destruct (program_index B nh pbh head_pos Hpbh) as [Hb' Hh'].
    pose proof chunks_nonneg. unfold D, addr.
    destruct Hin as [(n & Hn & [(c & r & Hc & Hv & Hr & -> & ->)|(i & c & Hi & Ht & Hc & Hv & -> & ->)])|(c & r & Hc & Hv & Hr & -> & ->)].
    + exists (pbh / nh, pbh mod nh, n * V * K + (pv * BV + c) * K + r)%Z. rewrite packed_val_state by (done || nia).
      split; [|split; [unfold head_base; lia|done]]. split_and!; try lia; unfold packed_total; fold chunks; nia.
    + exists (pbh / nh, pbh mod nh, chunks * V * K + (n * BT + i) * V + (pv * BV + c))%Z.
      rewrite packed_val_correction by nia. split; [|split; [unfold head_base; lia|done]].
      split_and!; try lia; unfold packed_total; fold chunks; nia.
    + exists (pbh / nh, pbh mod nh, chunks * V * K + T * V + (pv * BV + c) * K + r)%Z. rewrite packed_val_final by (done || nia).
      split; [|split; [unfold head_base; lia|done]]. split_and!; try lia; unfold packed_total; fold chunks; nia.
  - intros [[b1 h1'] p1] [[b2 h2'] p2] (_ & H1 & H2) (_ & H3 & H4) E. cbn in E.
    apply radix_inj in E as [E ->]; [|done..]. by apply radix_inj in E as [-> ->].
  - assert (∀ c, (0 <= c < V)%Z → (c / BV, b * nh + h)%Z ∈ grid (ceildiv V BV) (B * nh)) as Hgrid.
    { intros c Hc. apply elem_of_grid. split; [by apply block_for|nia]. }
    assert (0 <= b * nh + h < B * nh)%Z as Hpbh by nia.
    destruct (packed_place pos Hpos) as [(n & c & r & Hn & Hc & Hr & ->)|[(t & c & Ht & Hc & ->)|(c & r & Hc & Hr & ->)]];
      destruct (chunk_index c BV BV_pos) as (pc & c' & Ec & Hc' & Epc & _);
      eexists (c / BV, b * nh + h)%Z, _; (split; [by apply Hgrid|]); apply elem_of_delta_h; try done; rewrite <-Epc.
    + left. exists n. split; [done|]. left. exists c', r. rewrite <-Ec.
      split; [done|]. split; [lia|]. split; [done|]. split; [|reflexivity]. unfold head_base. rewrite radix_div, radix_mod by done. cbn. lia.
    + destruct (chunk_index t BT BT_pos) as (n & i & Et & Hi & En & _).
      left. exists n. split; [rewrite En; by apply block_for|]. right. exists i, c'. rewrite <-Ec, <-Et.
      split; [done|]. split; [lia|]. split; [done|]. split; [lia|]. split; [|reflexivity].
      unfold head_base. rewrite radix_div, radix_mod by done. cbn. lia.
    + right. exists c', r. rewrite <-Ec. split; [done|]. split; [lia|]. split; [done|]. split; [|reflexivity].
      unfold head_base. rewrite radix_div, radix_mod by done. cbn. lia.
Qed.
End delta_h.

(** *** The outputs *)

Definition place_of_state BT (b h n c r : Z) : Z := ((b * nh + h) * packed_total T K V BT + n * V * K + c * K + r)%Z.
Definition place_of_correction BT (b h t c : Z) : Z := ((b * nh + h) * packed_total T K V BT + nt T BT * V * K + t * V + c)%Z.
Definition out_val (q k packed g : Z → F) BT (y : Z * Z * Z * Z) : F :=
  let '(b, t, h, c) := y in
  let t0 := (t / BT * BT)%Z in
  let q_row r := q (((b * T + t) * Hg + h / (nh / Hg)) * K + r)%Z in
  let g_t := g ((b * T + t) * nh + h)%Z in
  (fsum (λ r, q_row r * packed (place_of_state BT b h (t / BT) c r)) K * fexp g_t
   + fsum (λ j, (if (j <=? t mod BT)%Z then fsum (λ r, q_row r * kk k b h (t0 + j) r) K * fexp (g_t - gg g b h (t0 + j)) else 0)
                * load packed (place_of_correction BT b h (t0 + j) c) (t0 + j <? T)%Z) BT) * frsqrt (flit (inject_Z K)).
Lemma out_at (q k packed g m : Z → F) BT BK BV b t h c : (0 < BT)%Z → (0 < BK)%Z → (0 < BV)%Z → (0 <= K)%Z →
  in_bth b t h → (0 <= c < V)%Z →
  chunk_fwd_o_packed q k packed g T Hg nh K V BT BK BV B m (((b * T + t) * nh + h) * V + c)%Z = out_val q k packed g BT (b, t, h, c).
Proof.
  intros HBT HBK HBV HK (Hb & Ht & Hh) Hc. unfold chunk_fwd_o_packed.
  apply (launch_at _ _ (row_domain V) (row_addr T nh V) (out_val q k packed g BT) m (b, t, h, c)); [| |done|].
  - intros [[pv pt] pbh] a x (Hpv & Hpt & Hpbh)%elem_of_grid3 Hin. destruct (program_index B nh pbh head_pos Hpbh) as [Hb' Hh'].
    unfold fwd_o_program in Hin. apply elem_of_store2 in Hin as (i & c' & Hi & Hc' & [Hm Hmv]%andb_true_iff & -> & ->).
    apply Z.ltb_lt in Hm, Hmv. exists (pbh / nh, pt * BT + i, pbh mod nh, pv * BV + c')%Z.
    split; [split_and!; try lia; nia|]. split; [done|]. unfold out_val. rewrite radix_div, radix_mod by done.
    cbv zeta. set (b' := (pbh / nh)%Z) in *. set (h' := (pbh mod nh)%Z) in *. set (L := loop (range (ceildiv K BK)) _ _).
    set (row i := (((b' * T + (pt * BT + i)) * Hg + h' / (nh / Hg)) * K)%Z).
    set (q_vals i r := load q (row i + r)%Z ((pt * BT + i <? T)%Z && (r <? K)%Z)).
    set (k_vals r j := load k (row j + r)%Z ((r <? K)%Z && (pt * BT + j <? T)%Z)).
    set (h_vals c r := load packed ((b' * nh + h') * packed_total T K V BT + pt * V * K + (pv * BV + c) * K + r)%Z
      ((pv * BV + c <? V)%Z && (r <? K)%Z)).
    assert (∀ r, (K <= r)%Z → q_vals i r = 0) as Hq.
    { intros r Hr. unfold q_vals. by rewrite (proj2 (Z.ltb_ge r K)), andb_false_r. }
    assert (L.1 i c' = fsum (λ r, q_vals i r * h_vals c' r) K) as ->.
    { unfold L. etransitivity; [apply (loop_register (λ acc : (Z → Z → F) * (Z → Z → F), acc.1 i c') _
        (λ kb, dot BK (λ i r, q_vals i (kb * BK + r)%Z) (λ r c, h_vals c (kb * BK + r)%Z) i c')); reflexivity|].
      cbn [fst]. rewrite fadd_0_l. by apply (blocks_dot K BK q_vals (λ r c, h_vals c r)). }
    assert (∀ j, L.2 i j = fsum (λ r, q_vals i r * k_vals r j) K) as Hattn.
    { intros j. unfold L. etransitivity; [apply (loop_register (λ acc : (Z → Z → F) * (Z → Z → F), acc.2 i j) _
        (λ kb, dot BK (λ i r, q_vals i (kb * BK + r)%Z) (λ r j, k_vals (kb * BK + r)%Z j) i j)); reflexivity|].
      cbn [snd]. rewrite fadd_0_l. by apply (blocks_dot K BK q_vals k_vals). }
    assert (∀ r, (0 <= r < K)%Z → q_vals i r = q (row i + r)%Z) as Eq.
    { intros r Hr. unfold q_vals. by rewrite !(proj2 (Z.ltb_lt _ _)) by lia. }
    f_equal. f_equal.
    + rewrite (proj2 (Z.ltb_lt (pt * BT + i) T)) by done. cbn [load]. f_equal. apply fsum_ext. intros r Hr. rewrite Eq by done.
      unfold h_vals. rewrite !(proj2 (Z.ltb_lt _ _)) by lia. done.
    + unfold dot. apply fsum_ext. intros j Hj. rewrite (proj2 (Z.ltb_lt (pt * BT + i) T)), (proj2 (Z.ltb_lt (pv * BV + c') V)) by done.
      rewrite andb_true_r. cbn [andb]. f_equal. destruct (Z.leb_spec j i); [|done].
      rewrite (proj2 (Z.ltb_lt (pt * BT + j) T)) by lia. cbn [andb]. f_equal.
      * rewrite Hattn. apply fsum_ext. intros r Hr. rewrite Eq by done. unfold k_vals, kk.
        by rewrite !(proj2 (Z.ltb_lt _ _)) by lia.
      * unfold gg. by rewrite (proj2 (Z.ltb_lt (pt * BT + j) T)) by lia.
  - intros [[[b1 t1] h1'] j1] [[[b2 t2] h2'] j2] [(_ & H1 & H2) H3] [(_ & H4 & H5) H6]. by apply row_addr_inj.
  - destruct (chunk_index t BT HBT) as (p & i & E & Hi & Ep & Ei).
    destruct (chunk_index c BV HBV) as (pc & c' & Ec & Hc' & Epc & _).
    eexists (pc, p, b * nh + h)%Z, _. split.
    + apply elem_of_grid3. rewrite Epc, Ep. split_and!; try (by apply block_for); nia.
    + unfold fwd_o_program. apply elem_of_store2. exists i, c'. split; [done|]. split; [done|]. rewrite <-E, <-Ec.
      split; [apply andb_true_iff; rewrite !Z.ltb_lt; lia|]. split; [|reflexivity]. by rewrite radix_div, radix_mod.
Qed.

Lemma final_state_at (P : buffer3 F) BT Out b h r c : (0 < K)%Z → (0 <= b < B)%Z → (0 <= h < nh)%Z → (0 <= r < K)%Z → (0 <= c < V)%Z →
  chunk_delta_h_final_state P T V K BT B nh Out (b, h, r, c) = P (b, h, ceildiv T BT * V * K + T * V + c * K + r)%Z.
Proof.
  intros HK Hb Hh Hr Hc. unfold chunk_delta_h_final_state.
  apply (launch_at _ _ (λ y : Z * Z * Z * Z, True) id
    (λ y : Z * Z * Z * Z, let '(b, h, r, c) := y in P (b, h, ceildiv T BT * V * K + T * V + c * K + r)%Z) Out (b, h, r, c)); [|done|done|].
  - intros [bx tx] a x _ Hin. unfold final_state_thread in Hin. destruct (_ <? _)%Z; [|by apply elem_of_nil in Hin].
    apply list_elem_of_singleton in Hin as [= -> ->]. eexists (_, _, _, _). split; [done|]. split; [reflexivity|].
    done.
  - set (idx := (((b * nh + h) * K + r) * V + c)%Z). destruct (chunk_index idx 256 ltac:(done)) as (bx & tx & E & Htx & Ebx & _).
    assert (0 <= idx < B * nh * K * V)%Z as Hidx.
    { assert (0 <= b * nh + h < B * nh)%Z by nia. assert (0 <= (b * nh + h) * K + r < B * nh * K)%Z by nia. unfold idx. nia. }
    exists (bx, tx), (P (b, h, ceildiv T BT * V * K + T * V + c * K + r)%Z). split.
    + apply elem_of_grid. split; [rewrite Ebx; by apply block_for|done].
    + unfold final_state_thread, final_base. rewrite <-E. rewrite (proj2 (Z.ltb_lt _ _)) by lia.
      unfold idx. rewrite !radix_div, !radix_mod by done. by left.
Qed.
End kernels.

(** ** The chunked path computes the recurrence *)

(** The buffer of the inverse is zero where no program stores, between tokens of the sequence: no code does this. *)
Definition cleared {F : Type} `{Scalar F} (B T nv : Z) (ai : Z → F) : Prop := ∀ b t h j,
  0 ≤ b < B → 0 ≤ t < T → 0 ≤ h < nv → 0 ≤ j < 64 → t / 64 * 64 + j < T → ¬ below t j →
  ai (((b * T + t) * nv + h) * 64 + j) = 0%sc.
(** At most 16 tokens have no such place. *)
Lemma short_cleared {F : Type} `{Scalar F} B T nv (ai : Z → F) : T ≤ 16 → cleared B T nv ai.
Proof.
  intros HT b t h j _ Ht _ Hj Hlt []. unfold below.
  rewrite (Z.div_small t 64) in Hlt by lia.
  rewrite (Z.mod_small t 64), (Z.div_small t 16), (Z.div_small j 16) by lia. done.
Qed.

Section chunked.
Context {F : Type} `{ScalarLaws F} (B T nk nv K V : Z) (q k v : buffer4 F) (gate beta gam : buffer3 F) (state_in : buffer4 F)
  (mem : allocated (F := F)).
Add Ring scalar : (scalar_ring (F := F)).
#[local] Open Scope sc.
Hypothesis heads : (0 < nk)%Z ∧ (nk | nv)%Z ∧ (0 < nv)%Z.
Hypothesis key_dim : (0 < K <= 128)%Z.
Hypothesis value_dim : (0 < V)%Z.
Hypothesis length_pos : (0 <= T)%Z.
(** The decays are exponentials, as the preparation makes them. *)
Hypothesis gates : ∀ b t h, (0 <= b < B)%Z → (0 <= t < T)%Z → (0 <= h < nv)%Z → gate (b, t, h) = fexp (gam (b, t, h)).
Hypothesis inverse_cleared : cleared B T nv (ai_init mem).

(** The kernels' memory. *)
Definition k_data : Z → F := data4 T nk K k.
Definition v_data : Z → F := data4 T nv V v.
Definition beta_data : Z → F := data3 T nv beta.
Definition g_data : Z → F := chunk_local_cumsum (data3 T nv (λ p, fln (gate p))) T nv 64 B (cumsum_init mem).
Definition a_data : Z → F := chunk_scaled_dot_kkt k_data beta_data g_data T nv nk K 64 64 B (a_init mem).
Definition ai_data : Z → F := solve_tril_64 (undef_init mem) a_data T nv 64 B (ai_init mem).
Definition wu_data : Z → F := recompute_w_u k_data v_data beta_data ai_data g_data T nk nv K V 64 64 64 B (wu_init mem).
Definition w_data : Z → F := data4 T nv K (λ '(b, t, h, r), tensor4 T nv (K + V) wu_data (b, t, h, r)).
Definition u_data : Z → F := data4 T nv V (λ '(b, t, h, c), tensor4 T nv (K + V) wu_data (b, t, h, K + c)%Z).
Definition h0_data : Z → F := data4 nv V K (λ '(b, h, c, r), state_in (b, h, r, c)).
Definition packed_data : Z → F := chunk_delta_h_packed k_data w_data u_data g_data h0_data T nk nv K V 64 64 B (packed_init mem).

Section head.
Context (b h : Z) (Hb : (0 <= b < B)%Z) (Hh : (0 <= h < nv)%Z).
Let Hnv : (0 < nv)%Z := proj2 (proj2 heads).
Let Hkh : (0 <= key_head nk nv h < nk)%Z := key_head_range nk nv h (proj1 heads) (proj1 (proj2 heads)) Hh.

Lemma g_at t : (0 <= t < T)%Z → g_data ((b * T + t) * nv + h)%Z = fsum (λ j, gam (b, t / 64 * 64 + j, h)%Z) (t mod 64 + 1).
Proof.
  intros Ht. unfold g_data. rewrite cumsum_at by done. pose proof (Z.div_mod t 64). pose proof (Z.mod_pos_bound t 64).
  apply fsum_ext. intros j Hj. rewrite data3_at by lia. rewrite gates by lia. apply ln_exp.
Qed.
Lemma kk_at t r : (0 <= t)%Z → (0 <= r < K)%Z → kk T nv nk K k_data b h t r = if (t <? T)%Z then k (b, t, key_head nk nv h, r) else 0.
Proof.
  intros Ht Hr. unfold kk, load. destruct (Z.ltb_spec t T); [|done]. unfold k_data. change (h / (nv / nk))%Z with (key_head nk nv h).
  by rewrite data4_at.
Qed.

(** One chunk. *)
Section chunk.
Context (n : Z) (Hn : (0 <= n)%Z) (Hin : (n * 64 < T)%Z).
Definition rows_of : Z := Z.min 64 (T - n * 64).
#[local] Abbreviation t0 := (n * 64)%Z.
#[local] Abbreviation chunk_gam := (λ i, gam (b, t0 + i, h)%Z).
#[local] Abbreviation chunk_k := (λ i r, kk T nv nk K k_data b h (t0 + i) r).
#[local] Abbreviation chunk_g := (λ i, gg T nv g_data b h (t0 + i)).
#[local] Abbreviation chunk_beta := (λ i, load beta_data ((b * T + (t0 + i)) * nv + h)%Z (t0 + i <? T)%Z).
#[local] Abbreviation base := (base_a T nv 64 b h).
#[local] Abbreviation A := (chunk_a a_data nv base t0).
#[local] Abbreviation Ai := (full (undef_init mem) a_data T nv base t0).
Lemma chunk_div i : (0 <= i < 64)%Z → ((t0 + i) / 64 = n ∧ (t0 + i) mod 64 = i)%Z.
Proof. intros Hi. by rewrite radix_div, radix_mod. Qed.
Lemma chunk_g_at i : (0 <= i < rows_of)%Z → chunk_g i = cum chunk_gam (i + 1).
Proof.
  unfold rows_of. intros Hi. unfold gg, load. rewrite (proj2 (Z.ltb_lt _ _)) by lia. rewrite g_at by lia.
  destruct (chunk_div i) as [-> ->]; [lia|]. done.
Qed.
Lemma A_at i j : (0 <= i < rows_of)%Z → (0 <= j < 64)%Z →
  A i j = if (j <? i)%Z then chunk_beta i * key_dot K chunk_k i j * fexp (chunk_g i - chunk_g j) else 0.
Proof.
  unfold rows_of. intros Hi Hj. unfold chunk_a.
  replace (base + (t0 + i) * (nv * 64) + j)%Z with (((b * T + (t0 + i)) * nv + h) * 64 + j)%Z by (unfold base_a; lia).
  unfold a_data. rewrite kkt_at by (done || lia). cbv zeta. destruct (chunk_div i) as [-> _]; [lia|].
  destruct (Z.ltb_spec (t0 + j) (t0 + i)), (Z.ltb_spec j i); try lia; [|done].
  unfold gg, load, key_dot, kk. rewrite !(proj2 (Z.ltb_lt _ T)) by lia. cbn [load]. ring.
Qed.
Lemma A_lower i j : (0 <= i < 64)%Z → (t0 + i < T)%Z → (i <= j < 64)%Z → A i j = 0.
Proof. intros Hi Ht Hj. rewrite A_at by (unfold rows_of; lia). by rewrite (proj2 (Z.ltb_ge j i)) by lia. Qed.
Lemma Ai_at i j : (0 <= i < rows_of)%Z → (0 <= j < 64)%Z →
  Ai i j + fsum (λ m, A i m * Ai m j) 64 = if (i =? j)%Z then 1 else 0.
Proof. unfold rows_of. intros Hi Hj. apply full_spec; try lia. apply A_lower. Qed.
(** What the inverse kernel leaves. *)
Lemma ai_data_at i j : (0 <= i < rows_of)%Z → (0 <= j < 64)%Z → (t0 + j < T)%Z → ai_data (((b * T + (t0 + i)) * nv + h) * 64 + j)%Z = Ai i j.
Proof.
  unfold rows_of. intros Hi Hj Hjt. unfold ai_data. rewrite solve_at by (done || lia).
  destruct (decide _) as [Hbelow|Hbelow].
  - by destruct (chunk_div i) as [-> ->]; [lia|].
  - rewrite inverse_cleared by (done || lia || by rewrite (proj1 (chunk_div i ltac:(lia)))). unfold full. rewrite blk_upper; [done|].
    unfold below in Hbelow. destruct (chunk_div i) as [_ E]; [lia|]. rewrite E in Hbelow. lia.
Qed.

(** One column of the state. *)
Section column.
Context (c : Z) (Hc : (0 <= c < V)%Z) (S S0 : Z → F) (Hstart : ∀ r, (0 <= r < K)%Z → S r = S0 r).
#[local] Abbreviation col := (later_column t0 (column_of nk nv q k v gate beta b h c)).
#[local] Abbreviation chunk_v := (λ j, load v_data (((b * T + (t0 + j)) * nv + h) * V + (K + c - K))%Z (t0 + j <? T)%Z).
#[local] Abbreviation v_new := (v_new_of K 64 Ai chunk_v chunk_beta chunk_k chunk_g S).
Lemma vn_of_at i : (0 <= i < rows_of)%Z → vn_of T nv K V w_data u_data b h (t0 + i) c S = v_new i.
Proof.
  intros Hi. pose proof Hi as Hi'. unfold rows_of in Hi'. destruct (chunk_div i) as [Ed _]; [lia|].
  unfold vn_of, v_new_of. f_equal.
  - unfold uu, load, u_data. rewrite (proj2 (Z.ltb_lt _ T)) by lia. rewrite data4_at by lia. cbn [tensor4].
    unfold wu_data. rewrite wu_at by (done || lia). unfold wu_val. rewrite (proj2 (Z.ltb_ge (K + c) K)) by lia.
    cbv zeta. rewrite Ed. unfold u_of. apply fsum_ext. intros j Hj.
    destruct (Z.ltb_spec (t0 + j) T); [by rewrite ai_data_at|]. cbn [load]. ring.
  - apply fsum_ext. intros r Hr. f_equal. unfold ww, load, w_data. rewrite (proj2 (Z.ltb_lt _ T)) by lia. rewrite data4_at by lia.
    cbn [tensor4]. unfold wu_data. rewrite wu_at by (done || lia). unfold wu_val. rewrite (proj2 (Z.ltb_lt r K)) by lia.
    cbv zeta. rewrite Ed. unfold w_of. apply fsum_ext. intros j Hj.
    destruct (Z.ltb_spec (t0 + j) T) as [Hj'|Hj'].
    + rewrite ai_data_at by done. unfold kk, gg, beta_data. by rewrite (proj2 (Z.ltb_lt _ _) Hj').
    + unfold kk. rewrite (proj2 (Z.ltb_ge _ _) Hj'). cbn [load]. ring.
Qed.
Lemma chunk_gates t : (0 <= t < rows_of)%Z → c_gate col t = fexp (chunk_gam t).
Proof. unfold rows_of. intros Ht. cbn. apply gates; lia. Qed.
Lemma chunk_inputs i : (0 <= i < rows_of)%Z →
  c_v col i = chunk_v i ∧ c_beta col i = chunk_beta i ∧ chunk_g i = cum chunk_gam (i + 1) ∧
  (∀ r, (0 <= r < K)%Z → c_k col i r = chunk_k i r).
Proof.
  intros Hi. pose proof Hi as Hi'. unfold rows_of in Hi'. split_and!.
  - unfold load, v_data. rewrite (proj2 (Z.ltb_lt _ T)) by lia. rewrite data4_at by lia. cbn. do 2 f_equal. lia.
  - unfold load, beta_data. rewrite (proj2 (Z.ltb_lt _ T)) by lia. by rewrite data3_at by lia.
  - by apply chunk_g_at.
  - intros r Hr. rewrite kk_at by lia. by rewrite (proj2 (Z.ltb_lt _ T)) by lia.
Qed.
Lemma rows_bound : (0 <= rows_of <= 64)%Z.
Proof. unfold rows_of. lia. Qed.
(** The state after the chunk. *)
Lemma chunk_step_at r : (0 <= r < K)%Z →
  chunk_step T nv nk K V k_data w_data u_data g_data 64 b h c n S r = column_state K col S0 rows_of r.
Proof.
  intros Hr. pose proof rows_bound as HL.
  rewrite <-(carry_spec K col S0 chunk_gam rows_of chunk_gates 64 A Ai chunk_v chunk_beta chunk_k chunk_g S HL A_at Ai_at chunk_inputs Hstart r Hr).
  assert (g_end T nv g_data 64 b h n = cum chunk_gam rows_of) as Eg.
  { unfold rows_of in *. pose proof (chunk_g_at (rows_of - 1)) as E. unfold rows_of, gg, load in E.
    rewrite (proj2 (Z.ltb_lt _ T)) in E by lia. replace (Z.min 64 (T - t0) - 1 + 1)%Z with (Z.min 64 (T - t0)) in E by lia.
    rewrite <-E by lia. unfold g_end. f_equal. f_equal. f_equal. lia. }
  unfold chunk_step. rewrite Eg. f_equal. apply fsum_ext. intros i Hi. f_equal.
  destruct (Z.ltb_spec (t0 + i) T), (Z.ltb_spec i rows_of); unfold rows_of in *; try lia; [|ring].
  f_equal. apply vn_of_at. unfold rows_of. lia.
Qed.
(** The outputs of its tokens. *)
Lemma chunk_out_at i (qr : Z → F) : (0 <= i < rows_of)%Z →
  fsum (λ r, qr r * S r) K * fexp (chunk_g i)
    + fsum (λ j, (if (j <=? i)%Z then fsum (λ r, qr r * chunk_k j r) K * fexp (chunk_g i - chunk_g j) else 0)
        * (if (t0 + j <? T)%Z then vn_of T nv K V w_data u_data b h (t0 + j) c S else 0)) 64 =
  fsum (λ r, column_state K col S0 (i + 1) r * qr r) K.
Proof.
  intros Hi. pose proof rows_bound as HL.
  rewrite <-(readout_spec K col S0 chunk_gam rows_of chunk_gates 64 A Ai chunk_v chunk_beta chunk_k chunk_g S HL A_at Ai_at chunk_inputs Hstart i qr Hi).
  f_equal. apply fsum_ext. intros j Hj. destruct (Z.leb_spec j i); [|ring]. f_equal.
  rewrite (proj2 (Z.ltb_lt _ T)) by (unfold rows_of in *; lia). apply vn_of_at. lia.
Qed.
End column.
End chunk.

(** The states before the chunks. *)
Section column.
Context (c : Z) (Hc : (0 <= c < V)%Z).
#[local] Abbreviation col := (column_of nk nv q k v gate beta b h c).
#[local] Abbreviation S0 := (λ r, state_in (b, h, r, c)).
#[local] Abbreviation state n := (hs T nv nk K V k_data w_data u_data g_data h0_data 64 b h c n).
Lemma hs_at n r : (0 <= n <= ceildiv T 64)%Z → (0 <= r < K)%Z → state n r = column_state K col S0 (Z.min (n * 64) T) r.
Proof.
  revert r. induction n as [n Hn|n Hn IH] using range_ind; intros r Hle Hr.
  - assert (n = 0)%Z as -> by lia. rewrite Z.mul_0_l, Z.min_l by done. unfold hs, column_state. rewrite (range_nonpos 0), !loop_nil by done.
    unfold h0_data. by rewrite data4_at.
  - pose proof (ceildiv_spec T 64 ltac:(done)). assert (n * 64 < T)%Z as Hin by lia.
    unfold hs in *. rewrite range_S, loop_app by done. cbn [loop foldl]. set (S := loop (range n) _ _) in *.
    rewrite (chunk_step_at n Hn Hin c Hc S (column_state K col S0 (n * 64))); [| |done].
    + replace (Z.min ((n + 1) * 64) T) with (n * 64 + rows_of n)%Z by (unfold rows_of; lia).
      rewrite column_state_app by (unfold rows_of; lia). done.
    + intros r' Hr'. rewrite IH by lia. by rewrite Z.min_l by lia.
Qed.
#[local] Abbreviation part := ((b * nv + h) * packed_total T K V 64)%Z.
Lemma packed_data_at pos : (0 <= pos < packed_total T K V 64)%Z →
  packed_data (part + pos)%Z = packed_val T nv nk K V k_data w_data u_data g_data h0_data 64 (b, h, pos).
Proof. intros Hpos. by apply packed_at. Qed.
Lemma packed_state_at n r : (0 <= n < ceildiv T 64)%Z → (0 <= r < K)%Z →
  packed_data (part + n * V * K + c * K + r)%Z = column_state K col S0 (n * 64) r.
Proof.
  intros Hn Hr. pose proof (ceildiv_spec T 64 ltac:(done)).
  replace (part + n * V * K + c * K + r)%Z with (part + (n * V * K + c * K + r))%Z by lia.
  rewrite packed_data_at by (unfold packed_total, nt; nia). rewrite packed_val_state by done.
  rewrite hs_at by lia. by rewrite Z.min_l by lia.
Qed.
Lemma packed_correction_at t : (0 <= t < T)%Z →
  packed_data (part + ceildiv T 64 * V * K + t * V + c)%Z = vn_of T nv K V w_data u_data b h t c (state (t / 64)).
Proof.
  intros Ht. pose proof (ceildiv_nonneg T 64 ltac:(done) length_pos).
  replace (part + ceildiv T 64 * V * K + t * V + c)%Z with (part + (ceildiv T 64 * V * K + t * V + c))%Z by lia.
  rewrite packed_data_at by (unfold packed_total, nt; nia). by apply packed_val_correction.
Qed.
Lemma packed_final_at r : (0 <= r < K)%Z →
  packed_data (part + (ceildiv T 64 * V * K + T * V + c * K + r))%Z = column_state K col S0 T r.
Proof.
  intros Hr. pose proof (ceildiv_nonneg T 64 ltac:(done) length_pos). pose proof (ceildiv_spec T 64 ltac:(done)).
  rewrite packed_data_at by (unfold packed_total, nt; nia).
  pose proof (packed_val_final T nv nk K V k_data w_data u_data g_data h0_data 64 ltac:(done) ltac:(lia) value_dim length_pos b h c r Hc Hr) as E.
  change (chunks T 64) with (ceildiv T 64) in E. rewrite E, hs_at by lia. by rewrite Z.min_r by lia.
Qed.
End column.
End head.

(** The outputs and the final states of the two are the same. *)
Lemma chunked_is_recurrent s :
  let chunked := chunked_prefill B T nk nv K V q k v gate beta state_in mem in
  let recurrent := gdn_func nk nv K V B T q k v gate beta state_in s in
  ∀ b h c, (0 <= b < B)%Z → (0 <= h < nv)%Z → (0 <= c < V)%Z →
    (∀ t, (0 <= t < T)%Z → chunked.1 (b, t, h, c) = recurrent.1 (b, t, h, c)) ∧
    (∀ r, (0 <= r < K)%Z → chunked.2 (b, h, r, c) = recurrent.2 (b, h, r, c)).
Proof.
  intros chunked recurrent b h c Hb Hh Hc. destruct heads as (Hk & Hdiv & Hnv).
  destruct (gdn_func_done nk nv K V B T q k v gate beta state_in s b h c Hb Hh Hc) as [Es Eo].
  fold recurrent in Es, Eo. split.
  - intros t Ht. rewrite Eo by done.
    assert (chunked.1 (b, t, h, c) = out_val T nv nk K V (data4 T nk K q) k_data packed_data g_data 64 (b, t, h, c)) as ->.
    { unfold chunked, chunked_prefill. cbn [fst tensor4]. apply out_at; done || lia. }
    unfold out_val, column_out, attend. cbv zeta. rewrite rsqrt_spec. f_equal.
    destruct (chunk_index t 64 ltac:(done)) as (n & i & E & Hi & En & Ei). rewrite <-En, <-Ei. subst t.
    assert (0 <= n < ceildiv T 64)%Z as Hn by (rewrite En; by apply block_for).
    assert (0 <= i < rows_of n)%Z as Hrow by (unfold rows_of; lia).
    pose proof (key_head_range nk nv h Hk Hdiv Hh) as Hkh.
    transitivity (fsum (λ r, column_state K (later_column (n * 64) (column_of nk nv q k v gate beta b h c))
      (column_state K (column_of nk nv q k v gate beta b h c) (λ r, state_in (b, h, r, c)) (n * 64)) (i + 1) r
      * q (b, (n * 64 + i)%Z, key_head nk nv h, r)) K).
    2: { apply fsum_ext. intros r Hr. rewrite <-column_state_app by lia. by rewrite Z.add_assoc. }
    rewrite <-(chunk_out_at b h Hb Hh n ltac:(lia) ltac:(lia) c Hc
      (hs T nv nk K V k_data w_data u_data g_data h0_data 64 b h c n)) by
      (try done; intros r Hr; rewrite hs_at by (done || lia); by rewrite Z.min_l by lia).
    assert (∀ r, (0 <= r < K)%Z → data4 T nk K q (((b * T + (n * 64 + i)) * nk + h / (nv / nk)) * K + r)%Z =
      q (b, (n * 64 + i)%Z, key_head nk nv h, r)) as Eq by (intros r Hr; by apply data4_at).
    f_equal; [f_equal|].
    + apply fsum_ext. intros r Hr. rewrite Eq by done. f_equal. unfold place_of_state.
      rewrite packed_state_at by done. rewrite hs_at by (done || lia). by rewrite Z.min_l by lia.
    + unfold gg. by rewrite (proj2 (Z.ltb_lt _ T)) by lia.
    + apply fsum_ext. intros j Hj. f_equal.
      * destruct (j <=? i)%Z; [|done]. f_equal; [apply fsum_ext; intros r Hr; by rewrite Eq|].
        do 2 f_equal. unfold gg. by rewrite (proj2 (Z.ltb_lt (n * 64 + i) T)) by lia.
      * unfold load. destruct (Z.ltb_spec (n * 64 + j) T); [|done]. unfold place_of_correction, nt.
        rewrite packed_correction_at by (done || lia). by rewrite radix_div by done.
  - intros r Hr. rewrite Es by done. unfold chunked, chunked_prefill. cbn [snd]. rewrite final_state_at by (done || lia).
    cbn [tensor3]. by apply packed_final_at.
Qed.
End chunked.

(** What the buffer of the inverse held above the diagonal blocks ends up in the corrections: two runs that differ in it
    alone differ by what it held, times the values of later tokens. *)
Lemma stale_inverse {F : Type} `{ScalarLaws F} (B T nk nv K V : Z) undef (k v beta a g m m' w w' : Z → F) b t h c :
  0 < nv → 0 ≤ K → 0 ≤ V → 0 ≤ b < B → 0 ≤ t < T → 0 ≤ h < nv → 0 ≤ c < V →
  let u m w := recompute_w_u k v beta (solve_tril_64 undef a T nv 64 B m) g T nk nv K V 64 64 64 B w
    (((b * T + t) * nv + h) * (K + V) + (K + c)) in
  let t0 := t / 64 * 64 in
  let place j := ((b * T + t) * nv + h) * 64 + j in
  (u m w - u m' w' = fsum (λ j, if decide (below t j) then 0
    else (m (place j) - m' (place j)) * (load v (((b * T + (t0 + j)) * nv + h) * V + c)%Z (t0 + j <? T)%Z
           * load beta ((b * T + (t0 + j)) * nv + h)%Z (t0 + j <? T)%Z)) 64)%sc.
Proof.
  intros Hnv HK HV Hb Ht Hh Hc u t0 place. unfold u. rewrite !wu_at by (done || lia). unfold wu_val.
  rewrite (proj2 (Z.ltb_ge (K + c) K)) by lia. rewrite <-fsum_sub. apply fsum_ext. intros j Hj. rewrite !solve_at by done.
  replace (K + c - K) with c by lia. destruct (decide (below t j)); [apply fsub_diag|]. by rewrite <-fmul_sub_l.
Qed.

(** A memory whose buffer of the inverse holds zeros. *)
Definition clear {F : Type} `{Scalar F} (mem : allocated (F := F)) : allocated (F := F) := {|
  cumsum_init := cumsum_init mem; a_init := a_init mem; ai_init := λ _, 0%sc; wu_init := wu_init mem; packed_init := packed_init mem;
  o_init := o_init mem; final_init := final_init mem; undef_init := undef_init mem |}.
Section prefill.
Context {F : Type} `{ScalarLaws F}.
Add Ring scalar : (scalar_ring (F := F)).
(** C5. If the buffer given to the kernel of the inverse holds zeros above its diagonal blocks, where the kernel does not
    store, the chunked prefill, six Triton kernels and their glue, computes what the recurrent kernel computes for a
    prefill: the same outputs, and the same final states, for sequences of any length, whole chunks or not, whatever the
    language leaves undefined. No code clears the buffer; for at most 16 tokens it needs not be. Otherwise the correction
    of a token is off by what the buffer held in its row above the diagonal blocks, times the values of those later
    tokens. The decays are to be exponentials, which the preparation makes them, and keys to have at most 128 components. *)
Theorem chunked_prefill_spec B T nk nv K V (q k v : buffer4 F) (gate beta gam : buffer3 F)
    (state_in : buffer4 F) (mem : allocated (F := F)) s :
  0 < nk ∧ (nk | nv) ∧ 0 < nv → 0 < K <= 128 → 0 < V → 0 ≤ T →
  (∀ b t h, 0 ≤ b < B → 0 ≤ t < T → 0 ≤ h < nv → gate (b, t, h) = fexp (gam (b, t, h))) →
  let chunked := chunked_prefill B T nk nv K V q k v gate beta state_in mem in
  let recurrent := gdn_func nk nv K V B T q k v gate beta state_in s in
  (T ≤ 16 ∨ cleared B T nv (ai_init mem) → ∀ b h c, 0 ≤ b < B → 0 ≤ h < nv → 0 ≤ c < V →
    (∀ t, 0 ≤ t < T → chunked.1 (b, t, h, c) = recurrent.1 (b, t, h, c)) ∧
    (∀ r, 0 ≤ r < K → chunked.2 (b, h, r, c) = recurrent.2 (b, h, r, c))) ∧
  (∀ b t h c, 0 ≤ b < B → 0 ≤ t < T → 0 ≤ h < nv → 0 ≤ c < V →
    let u m := u_data B T nk nv K V k v gate beta m (((b * T + t) * nv + h) * V + c) in
    (u mem - u (clear mem) = fsum (λ j, if decide (below t j) then 0
      else ai_init mem (((b * T + t) * nv + h) * 64 + j)%Z *
        (if (t / 64 * 64 + j <? T)%Z then v (b, t / 64 * 64 + j, h, c)%Z * beta (b, t / 64 * 64 + j, h)%Z else 0)) 64)%sc).
Proof.
  intros Hheads HK HV HT Hgate chunked recurrent. split.
  - intros Hmem. apply (chunked_is_recurrent B T nk nv K V q k v gate beta gam state_in mem Hheads HK HV HT Hgate).
    destruct Hmem; [by apply short_cleared|done].
  - intros b t h c Hb Ht Hh Hc u. destruct Hheads as (_ & _ & Hnv). unfold u, u_data. rewrite !data4_at by lia. cbn [tensor4].
    etrans; [apply stale_inverse; done || lia|]. apply fsum_ext. intros j Hj. destruct (decide (below t j)); [done|].
    cbn [clear ai_init]. destruct (Z.ltb_spec (t / 64 * 64 + j) T).
    + cbn [load]. unfold v_data, beta_data. rewrite data4_at, data3_at by (pose proof (Z.div_pos t 64); lia). ring.
    + cbn [load]. ring.
Qed.
End prefill.

(** ** Examples *)

Module Example.
Import Reals.
(** A chunk and one more token; one key head shared by two value heads; real numbers. *)
Definition gam : buffer3 R := λ '(b, t, h), (- IZR (h + 1))%R.
Definition mem : allocated (F := R) := {|
  cumsum_init := λ _, 5%R; a_init := λ _, 5%R; ai_init := λ _, 0%R; wu_init := λ _, 5%R; packed_init := λ _, 5%R; o_init := λ _, 5%R;
  final_init := λ _, 5%R; undef_init := λ _ _ _ _, 7%R |}.
Lemma chunked_prefill_spec_witness :
  let chunked := chunked_prefill 1 65 1 2 2 1 DeltaNet.Example.q4 DeltaNet.Example.k4 DeltaNet.Example.v4 (λ p, exp (gam p))
    DeltaNet.Example.b3 DeltaNet.Example.s4 mem in
  let recurrent := gdn_func 1 2 2 1 1 65 DeltaNet.Example.q4 DeltaNet.Example.k4 DeltaNet.Example.v4 (λ p, exp (gam p))
    DeltaNet.Example.b3 DeltaNet.Example.s4 (λ _, 1%R, λ _, 2%R) in
  chunked.1 (0, 64, 1, 0) = recurrent.1 (0, 64, 1, 0).
Proof.
  intros chunked recurrent.
  destruct (chunked_prefill_spec 1 65 1 2 2 1 DeltaNet.Example.q4 DeltaNet.Example.k4 DeltaNet.Example.v4 (λ p, exp (gam p))
    DeltaNet.Example.b3 gam DeltaNet.Example.s4 mem (λ _, 1%R, λ _, 2%R)) as [E _]; try done; [split_and!; [done|by exists 2|done]|].
  destruct (E (or_intror (λ _ _ _ _ _ _ _ _ _ _, eq_refl)) 0 1 0) as [E' _]; try done. by apply E'.
Defined.
End Example.
