(* ===== verification/DeltaLayer.v ===== *)
(** The gated delta layer of Qwen3.5, between its projections: the states of [python/mlc_llm/nn/rnn_state.py], and
    [Qwen35GatedDeltaNet.forward] of [python/mlc_llm/model/qwen35/qwen35_model.py], which chooses by the environment
    among the kernels of [DeltaNet] and [DeltaChunk].

    The layer reads the state of each sequence from its slot and leaves the new one in the next slot, or in place. The
    theorem: whatever the environment chooses, it computes the same convolution and the same recurrence. *)

From Stdlib Require Import Lia ZArith QArith Ring.
From stdpp Require Import base functions sets gmap strings list list_numbers numbers pretty.
From S2P Require Import Prelude PyString Kernel Scalar DeltaNet DeltaChunk.
Close Scope Q_scope.
#[local] Open Scope Z_scope.

(** ** The states of a model *)

Section rnn_state.
Context {X I J A : Type} `{EqDecision I} `{EqDecision J}.
(** The storage of a state has a place for each sequence slot, history slot and element; a state tensor has one for each
    sequence of the batch and element. *)
Context (shape : list X) (place : Z → Z → X → I) (element : Z → X → J).
Context (batch_size max_history : Z) (seq_slot_ids history_slot_ids : Z → Z).
Definition copies : list (Z * X) := range batch_size ≫= λ i, pair i <$> shape.
Definition next_slot (i : Z) : Z := (history_slot_ids i + 1) mod max_history.
Definition rnn_state_get (storage : I → A) (output : J → A) : J → A :=
  apply_writes (writes copies (λ '(i, s), element i s) (λ '(i, s), storage (place (seq_slot_ids i) (history_slot_ids i) s))) output.
Definition rnn_state_set (data : J → A) (storage : I → A) : I → A :=
  apply_writes (writes copies (λ '(i, s), place (seq_slot_ids i) (next_slot i) s) (λ '(i, s), data (element i s))) storage.
End rnn_state.
(** The two states of a layer: the matrices, and the inputs of the convolution. *)
Definition place0 (seq hist : Z) (x : Z * Z * Z) : Z * Z * Z * Z * Z := let '(h, r, c) := x in (seq, hist, h, r, c).
Definition element0 (i : Z) (x : Z * Z * Z) : Z * Z * Z * Z := let '(h, r, c) := x in (i, h, r, c).
Definition place1 (seq hist : Z) (x : Z * Z) : Z * Z * Z * Z := let '(j, d) := x in (seq, hist, j, d).
Definition element1 (i : Z) (x : Z * Z) : Z * Z * Z := let '(j, d) := x in (i, j, d).

(** ** The choice of the kernels *)

Section choice.
Context (environ : gmap string string).
Definition getenv (name dflt : string) : string := default dflt (environ !! name).
Definition env_flag (name : string) : bool := bool_decide (getenv name "0" = "1").
Definition env_int (name dflt : string) : result Z :=
  match py_int (getenv name dflt) with Some z => Ok z | None => raise ValueError "invalid literal for int()" end.

(** Shapes are numbers, or symbols, which are [None]. *)
Definition is_decode_seq_len_one (seq_len : option Z) : bool := bool_decide (seq_len = Some 1).
Definition allow_direct_rnn_state_for_decode (max_batch_size : Z) (batch_size seq_len : option Z) : bool :=
  if negb (env_flag "MLC_QWEN35_DIRECT_RNN_STATE") then false
  else if negb (is_decode_seq_len_one seq_len) then false
  else match batch_size with Some b => b =? 1 | None => max_batch_size =? 1 end.
Record paths := {
  direct_state : bool; direct_conv : bool; storage_batch : Z; direct_max_history : Z;
  packed_decode : bool; fused_decode : bool; fused_prefill : bool; chunked : bool; static_one : bool }.
Definition choose (max_batch_size K : Z) (batch_size seq_len : option Z) : result paths :=
  let use_direct_state_storage := allow_direct_rnn_state_for_decode max_batch_size batch_size seq_len in
  let use_direct_conv_storage := use_direct_state_storage && env_flag "MLC_QWEN35_DIRECT_CONV_STATE" in
  direct_state_storage_batch ← env_int "MLC_QWEN35_DIRECT_RNN_STORAGE_BATCH" (pretty max_batch_size);
  direct_state_max_history ← env_int "MLC_QWEN35_DIRECT_RNN_MAX_HISTORY" "1";
  let use_packed := use_direct_state_storage && env_flag "MLC_QWEN35_PACKED_GDN_DECODE" in
  let use_fused_decode := use_direct_state_storage && negb use_packed && env_flag "MLC_QWEN35_FUSED_GDN_DECODE_PREPARE" in
  let s_is_one := bool_decide (seq_len = Some 1) in
  let use_fused_prefill := negb use_direct_state_storage && negb s_is_one && env_flag "MLC_QWEN35_FUSED_GDN_PREFILL_PREPARE" in
  chunk_size ← env_int "MLC_QWEN35_CHUNKED_GDN_CHUNK_SIZE" "64";
  Ok {| direct_state := use_direct_state_storage; direct_conv := use_direct_conv_storage;
        storage_batch := direct_state_storage_batch; direct_max_history := direct_state_max_history;
        packed_decode := use_packed; fused_decode := use_fused_decode; fused_prefill := use_fused_prefill;
        chunked := negb use_direct_state_storage && negb s_is_one && (K <=? 128) && (chunk_size =? 64)
                   && env_flag "MLC_QWEN35_CHUNKED_GDN_PREFILL";
        static_one := s_is_one |}.
End choice.

(** ** The layer *)

Section layer.
Context {F : Type} `{Scalar F} (nk nv K V conv_kernel_dim : Z) (op_sigmoid op_silu : F → F).
#[local] Abbreviation qkv_dim := (qkv_dim nk nv K V).
#[local] Abbreviation ks1 := (ks_minus_1 conv_kernel_dim).
(** The projections of the hidden states and the parameters of the layer. *)
Record projected := { i_qkv : buffer3 F; i_z : buffer3 F; i_alpha : buffer3 F; i_beta_raw : buffer3 F;
                      A_log : Z → F; dt_bias : Z → F; conv1d_weight : buffer3 F }.
(** The states of the layer, and which slots the sequences of the batch use. *)
Record rnn := { state0 : buffer5 F; state1 : buffer4 F }.
Context (max_history : Z) (seqs hists : Z → Z).
(** What the outputs of the kernels hold before. *)
Record fresh := { f_state : buffer4 F; f_conv_state : buffer3 F; f_conv : buffer3 F; f_prepared : prepared (F := F);
                  f_out : buffer4 F; f_state_out : buffer4 F; f_z : buffer3 F; f_chunks : allocated (F := F) }.
Definition get0 (B : Z) (st : buffer5 F) (out : buffer4 F) : buffer4 F :=
  rnn_state_get (grid3 nv K V) place0 element0 B seqs hists st out.
Definition set0 (B : Z) (x : buffer4 F) (st : buffer5 F) : buffer5 F :=
  rnn_state_set (grid3 nv K V) place0 element0 B max_history seqs hists x st.
Definition get1 (B : Z) (st : buffer4 F) (out : buffer3 F) : buffer3 F :=
  rnn_state_get (grid ks1 qkv_dim) place1 element1 B seqs hists st out.
Definition set1 (B : Z) (x : buffer3 F) (st : buffer4 F) : buffer4 F :=
  rnn_state_set (grid ks1 qkv_dim) place1 element1 B max_history seqs hists x st.

(** The convolution: its result, a new state to set, and the storage. *)
Definition convolution (p : paths) (B T : Z) (i : projected) (st : rnn) (f : fresh) : buffer3 F * option (buffer3 F) * buffer4 F :=
  if direct_conv p then
    let '(qkv, conv_state_storage) :=
      causal_conv1d_decode_state_storage_func conv_kernel_dim qkv_dim B 1 (i_qkv i) seqs hists (conv1d_weight i) (f_conv f, state1 st) in
    (qkv, None, conv_state_storage)
  else
    let conv_state := get1 B (state1 st) (f_conv_state f) in
    (depthwise_conv1d conv_kernel_dim conv_state (i_qkv i) (conv1d_weight i),
     Some (update_conv_state conv_kernel_dim T conv_state (i_qkv i)), state1 st).
(** The recurrence: the outputs, the activated [z], a new state to set, and the storage. *)
Definition recurrence (p : paths) (B T : Z) (i : projected) (qkv : buffer3 F) (st : rnn) (f : fresh) :
    buffer4 F * buffer3 F * option (buffer4 F) * buffer5 F :=
  if packed_decode p then
    let '(out_recurrent, state_storage, z_silu) :=
      gdn_packed_decode_state_storage_func nk nv K V B qkv (i_z i) (i_alpha i) (i_beta_raw i) (A_log i) (dt_bias i) seqs hists
        (f_out f, state0 st, f_z f) in
    (out_recurrent, z_silu, None, state_storage)
  else
    let o :=
      if fused_decode p then
        gdn_decode_prepare_func nk nv K V qkv (i_z i) (i_alpha i) (i_beta_raw i) (A_log i) (dt_bias i) B (f_prepared f)
      else if fused_prefill p then
        gdn_prefill_prepare_func nk nv K V qkv (i_z i) (i_alpha i) (i_beta_raw i) (A_log i) (dt_bias i) B T (f_prepared f)
      else unfused nk K V op_sigmoid op_silu qkv (i_alpha i) (i_beta_raw i) (i_z i) (A_log i) (dt_bias i) in
    if direct_state p then
      let '(out_recurrent, state_storage) :=
        gdn_decode_state_storage_func nk nv K V B (q_out o) (k_out o) (v_out o) (gate_out o) (beta_out o) seqs hists
          (f_out f, state0 st) in
      (out_recurrent, z_silu_out o, None, state_storage)
    else
      let state_in_layer := get0 B (state0 st) (f_state f) in
      let '(out_recurrent, state_out_layer) :=
        if chunked p then
          chunked_prefill B T nk nv K V (q_out o) (k_out o) (v_out o) (gate_out o) (beta_out o) state_in_layer (f_chunks f)
        else if static_one p then
          gdn_decode_func nk nv K V B (q_out o) (k_out o) (v_out o) (gate_out o) (beta_out o) state_in_layer (f_out f, f_state_out f)
        else
          gdn_func nk nv K V B T (q_out o) (k_out o) (v_out o) (gate_out o) (beta_out o) state_in_layer (f_out f, f_state_out f) in
      (out_recurrent, z_silu_out o, Some state_out_layer, state0 st).
(** [forward], from the projections to the gating of the output. *)
Definition forward (p : paths) (B T : Z) (i : projected) (st : rnn) (f : fresh) : buffer4 F * buffer3 F * rnn :=
  let '(qkv, new_conv_state, conv_storage) := convolution p B T i st f in
  let '(out_recurrent, z_silu, state_out_layer, state_storage) := recurrence p B T i qkv st f in
  (out_recurrent, z_silu,
   {| state0 := match state_out_layer with Some x => set0 B x state_storage | None => state_storage end;
      state1 := match new_conv_state with Some x => set1 B x conv_storage | None => conv_storage end |}).
End layer.

(** ** The states *)

Section states.
Context {X I J A : Type} `{EqDecision I} `{EqDecision J} (shape : list X) (place : Z → Z → X → I) (element : Z → X → J).
Context (B max_history : Z) (seqs hists : Z → Z).
Hypothesis place_inj : ∀ a n x a' n' x', place a n x = place a' n' x' → a = a' ∧ n = n' ∧ x = x'.
Hypothesis element_inj : ∀ i x i' x', element i x = element i' x' → i = i' ∧ x = x'.
Hypothesis seqs_inj : ∀ b b', 0 ≤ b < B → 0 ≤ b' < B → seqs b = seqs b' → b = b'.
#[local] Abbreviation next := (next_slot max_history hists).
Lemma elem_of_copies i x : (i, x) ∈ copies shape B ↔ 0 ≤ i < B ∧ x ∈ shape.
Proof.
  unfold copies. rewrite list_elem_of_bind. split.
  - intros (i' & (x' & [= -> ->] & Hx)%list_elem_of_fmap & Hi%elem_of_range). done.
  - intros [Hi Hx]. exists i. rewrite elem_of_range, list_elem_of_fmap. eauto.
Qed.
Lemma get_at (storage : I → A) output i x : 0 ≤ i < B → x ∈ shape →
  rnn_state_get shape place element B seqs hists storage output (element i x) = storage (place (seqs i) (hists i) x).
Proof.
  intros Hi Hx. apply (writes_at _ (λ '(i, s), element i s) (λ '(i, s), storage (place (seqs i) (hists i) s)) output (i, x)).
  - intros [i1 x1] [i2 x2] _ _ [-> ->]%element_inj. done.
  - by apply elem_of_copies.
Qed.
Lemma set_at (data : J → A) storage i x : 0 ≤ i < B → x ∈ shape →
  rnn_state_set shape place element B max_history seqs hists data storage (place (seqs i) (next i) x) = data (element i x).
Proof.
  intros Hi Hx. apply (writes_at _ (λ '(i, s), place (seqs i) (next i) s) (λ '(i, s), data (element i s)) storage (i, x)).
  - intros [i1 x1] [i2 x2] [Hi1 _]%elem_of_copies [Hi2 _]%elem_of_copies (E & _ & ->)%place_inj. f_equal. by apply seqs_inj.
  - by apply elem_of_copies.
Qed.
Lemma set_other (data : J → A) storage p : (∀ i x, 0 ≤ i < B → x ∈ shape → place (seqs i) (next i) x ≠ p) →
  rnn_state_set shape place element B max_history seqs hists data storage p = storage p.
Proof.
  intros Hp. apply apply_writes_other. intros v ([i x] & [Hi Hx]%elem_of_copies & -> & _)%elem_of_writes. by apply (Hp i x).
Qed.
End states.

(** ** What the layer computes *)

Section laws.
Context {F : Type} `{ScalarLaws F} (nk nv K V conv_kernel_dim : Z) (op_sigmoid op_silu : F → F).
Context (max_history : Z) (seqs hists : Z → Z) (B T : Z) (i : projected (F := F)) (st : rnn (F := F)).
#[local] Open Scope sc.
#[local] Abbreviation ks1 := (ks_minus_1 conv_kernel_dim).
#[local] Abbreviation dims := (qkv_dim nk nv K V).
#[local] Abbreviation next := (next_slot max_history hists).
(** The convolution of the tokens after the stored ones, and one column of the recurrence over what it gives, from the
    stored state. *)
Definition convolved : buffer3 F := depthwise_conv1d conv_kernel_dim (stored seqs hists (state1 st)) (i_qkv i) (conv1d_weight i).
Definition layer_column (b h c : Z) : column (F := F) :=
  column_of nk nv (prep_q K convolved) (prep_k nk K convolved) (prep_v nk K V convolved)
    (prep_gate (i_alpha i) (A_log i) (dt_bias i)) (prep_beta (i_beta_raw i)) b h c.
Definition layer_start (b h c r : Z) : F := state0 st (seqs b, hists b, h, r, c).
(** The slots that get the new states: the next ones, but the kernels that work in place leave the matrices in the slot
    they read, and the inputs of the convolution in the only slot of their storage. *)
Definition slot_of_state (p : paths) (b : Z) : Z := if direct_state p then hists b else next b.
Definition slot_of_conv (p : paths) (b : Z) : Z := if direct_conv p then 0%Z else next b.
(** The slots that the kernels in place index are in their storages. *)
Definition in_storage (p : paths) : Prop := direct_state p = true → ∀ b, (0 <= b < B)%Z →
  (0 <= seqs b < storage_batch p)%Z ∧ (0 <= hists b < direct_max_history p)%Z ∧ (direct_conv p = true → hists b = 0%Z).
(** The outputs; the new states, in their slots; and nothing else. *)
Record layer_result (p : paths) (res : buffer4 F * buffer3 F * rnn (F := F)) : Prop := {
  lr_out : ∀ b t h c, (0 <= b < B)%Z → (0 <= t < T)%Z → (0 <= h < nv)%Z → (0 <= c < V)%Z →
    res.1.1 (b, t, h, c) = column_out K (layer_column b h c) (layer_start b h c) t;
  lr_z : ∀ b t d, (0 <= b < B)%Z → (0 <= t < T)%Z → (0 <= d < nv * V)%Z → res.1.2 (b, t, d) = silu (i_z i (b, t, d));
  lr_state : ∀ b h r c, (0 <= b < B)%Z → (0 <= h < nv)%Z → (0 <= r < K)%Z → (0 <= c < V)%Z →
    state0 res.2 (seqs b, slot_of_state p b, h, r, c) = column_state K (layer_column b h c) (layer_start b h c) T r;
  lr_conv : ∀ b j d, (0 <= b < B)%Z → (0 <= j < ks1)%Z → (0 <= d < dims)%Z →
    state1 res.2 (seqs b, slot_of_conv p b, j, d) = update_conv_state conv_kernel_dim T (stored seqs hists (state1 st)) (i_qkv i) (b, j, d);
  lr_keep0 : ∀ a n h r c, (∀ b, (0 <= b < B)%Z → (seqs b, slot_of_state p b) ≠ (a, n)) →
    state0 res.2 (a, n, h, r, c) = state0 st (a, n, h, r, c);
  lr_keep1 : ∀ a n j d, (∀ b, (0 <= b < B)%Z → (seqs b, slot_of_conv p b) ≠ (a, n)) →
    state1 res.2 (a, n, j, d) = state1 st (a, n, j, d) }.

Hypothesis heads : (0 < nk)%Z ∧ (nk | nv)%Z ∧ (0 < nv)%Z.
Hypothesis sizes : (0 < K)%Z ∧ (0 < V)%Z ∧ (0 < conv_kernel_dim)%Z ∧ (0 <= T)%Z.
Hypothesis seqs_inj : ∀ b b', (0 <= b < B)%Z → (0 <= b' < B)%Z → seqs b = seqs b' → b = b'.
Hypothesis sigmoid_spec : ∀ x : F, op_sigmoid x = 1 / (1 + fexp (- x)).
Hypothesis silu_spec : ∀ x : F, op_silu x = x * op_sigmoid x.

Lemma place0_inj a n x a' n' x' : place0 a n x = place0 a' n' x' → a = a' ∧ n = n' ∧ x = x'.
Proof. destruct x as [[??]?], x' as [[??]?]. by intros [= -> -> -> -> ->]. Qed.
Lemma place1_inj a n x a' n' x' : place1 a n x = place1 a' n' x' → a = a' ∧ n = n' ∧ x = x'.
Proof. destruct x, x'. by intros [= -> -> -> ->]. Qed.
Lemma element0_inj a x a' x' : element0 a x = element0 a' x' → a = a' ∧ x = x'.
Proof. destruct x as [[??]?], x' as [[??]?]. by intros [= -> -> -> ->]. Qed.
Lemma element1_inj a x a' x' : element1 a x = element1 a' x' → a = a' ∧ x = x'.
Proof. destruct x, x'. by intros [= -> -> ->]. Qed.
Lemma get0_at x out b h r c : (0 <= b < B)%Z → (0 <= h < nv)%Z → (0 <= r < K)%Z → (0 <= c < V)%Z →
  get0 nv K V seqs hists B x out (b, h, r, c) = x (seqs b, hists b, h, r, c) :> F.
Proof.
  intros Hb Hh Hr Hc. apply (get_at (grid3 nv K V) place0 element0 B seqs hists element0_inj x out b (h, r, c)); [done|by apply elem_of_grid3].
Qed.
Lemma get1_at x out b j d : (0 <= b < B)%Z → (0 <= j < ks1)%Z → (0 <= d < dims)%Z →
  get1 nk nv K V conv_kernel_dim seqs hists B x out (b, j, d) = x (seqs b, hists b, j, d) :> F.
Proof.
  intros Hb Hj Hd. apply (get_at (grid ks1 dims) place1 element1 B seqs hists element1_inj x out b (j, d)); [done|by apply elem_of_grid].
Qed.
Lemma set0_at x storage b h r c : (0 <= b < B)%Z → (0 <= h < nv)%Z → (0 <= r < K)%Z → (0 <= c < V)%Z →
  set0 nv K V max_history seqs hists B x storage (seqs b, next b, h, r, c) = x (b, h, r, c) :> F.
Proof.
  intros Hb Hh Hr Hc. apply (set_at (grid3 nv K V) place0 element0 B max_history seqs hists place0_inj seqs_inj x storage b (h, r, c));
    [done|by apply elem_of_grid3].
Qed.
Lemma set1_at x storage b j d : (0 <= b < B)%Z → (0 <= j < ks1)%Z → (0 <= d < dims)%Z →
  set1 nk nv K V conv_kernel_dim max_history seqs hists B x storage (seqs b, next b, j, d) = x (b, j, d) :> F.
Proof.
  intros Hb Hj Hd. apply (set_at (grid ks1 dims) place1 element1 B max_history seqs hists place1_inj seqs_inj x storage b (j, d));
    [done|by apply elem_of_grid].
Qed.
Lemma set0_other x storage a n h r c : (∀ b, (0 <= b < B)%Z → (seqs b, next b) ≠ (a, n)) →
  set0 nv K V max_history seqs hists B x storage (a, n, h, r, c) = storage (a, n, h, r, c) :> F.
Proof. intros Ha. apply set_other. intros b [[h' r'] c'] Hb _ [= E1 E2 _ _ _]. apply (Ha b Hb). by f_equal. Qed.
Lemma set1_other x storage a n j d : (∀ b, (0 <= b < B)%Z → (seqs b, next b) ≠ (a, n)) →
  set1 nk nv K V conv_kernel_dim max_history seqs hists B x storage (a, n, j, d) = storage (a, n, j, d) :> F.
Proof. intros Ha. apply set_other. intros b [j' d'] Hb _ [= E1 E2 _ _]. apply (Ha b Hb). by f_equal. Qed.

Context (p : paths) (f : fresh (F := F)).
(** The paths for one token work in place. *)
Hypothesis direct_ok : direct_state p = true → T = 1%Z.
Hypothesis conv_ok : direct_conv p = true → direct_state p = true.
Hypothesis packed_ok : packed_decode p = true → direct_state p = true.
Hypothesis fused_ok : fused_decode p = true → direct_state p = true.
Hypothesis static_ok : static_one p = true → T = 1%Z.
Hypothesis chunked_ok : chunked p = true → (K <= 128)%Z ∧ cleared B T nv (ai_init (f_chunks f)).

Lemma depthwise_ext cs cs' (w : buffer3 F) b t d : (0 <= t)%Z →
  (∀ j, (0 <= j < ks1)%Z → cs (b, j, d) = cs' (b, j, d)) →
  depthwise_conv1d conv_kernel_dim cs (i_qkv i) w (b, t, d) = depthwise_conv1d conv_kernel_dim cs' (i_qkv i) w (b, t, d).
Proof.
  intros Ht E. cbn. apply fsum_ext. intros kk Hkk. f_equal. destruct (Z.ltb_spec (t + kk) ks1); [apply E; lia|done].
Qed.
Lemma convolution_spec :
  let '(qkv, new_conv_state, storage) := convolution nk nv K V conv_kernel_dim seqs hists p B T i st f in
  let final := match new_conv_state with Some x => set1 nk nv K V conv_kernel_dim max_history seqs hists B x storage | None => storage end in
  (∀ b t d, (0 <= b < B)%Z → (0 <= t < T)%Z → (0 <= d < dims)%Z → qkv (b, t, d) = convolved (b, t, d)) ∧
  (∀ b j d, (0 <= b < B)%Z → (0 <= j < ks1)%Z → (0 <= d < dims)%Z →
    final (seqs b, slot_of_conv p b, j, d) = update_conv_state conv_kernel_dim T (stored seqs hists (state1 st)) (i_qkv i) (b, j, d)) ∧
  (∀ a n j d, (∀ b, (0 <= b < B)%Z → (seqs b, slot_of_conv p b) ≠ (a, n)) → final (a, n, j, d) = state1 st (a, n, j, d)).
Proof.
  unfold convolution, slot_of_conv. destruct (direct_conv p) eqn:Edir.
  - pose proof (direct_ok (conv_ok eq_refl)) as HT. rewrite HT.
    assert (∀ b, next_history_slot 1 hists b = 0%Z) as Hnext by (intros b; apply Z.mod_1_r).
    pose proof (λ b d, conv_func_done conv_kernel_dim dims B 1 (i_qkv i) seqs hists (conv1d_weight i) (state1 st) (f_conv f) b d seqs_inj) as Hd.
    pose proof (conv_func_other conv_kernel_dim dims B 1 (i_qkv i) seqs hists (conv1d_weight i) (state1 st) (f_conv f)) as Ho.
    destruct (causal_conv1d_decode_state_storage_func _ _ _ _ _ _ _ _ _) as [qkv storage]. cbn [fst snd] in *. split_and!.
    + intros b t d Hb Ht Hdim. assert (t = 0)%Z as -> by lia. by apply Hd.
    + intros b j d Hb Hj Hdim. rewrite <-(Hnext b). by apply (Hd b d Hb Hdim).
    + intros a n j d Ha. apply Ho. intros b j' d' Hb. rewrite Hnext. intros [= E1 E2 _ _]. apply (Ha b Hb). by f_equal.
  - cbv zeta. split_and!.
    + intros b t d Hb Ht Hdim. apply depthwise_ext; [lia|]. intros j Hj. by apply get1_at.
    + intros b j d Hb Hj Hdim. rewrite set1_at by done. cbn. destruct (Z.ltb_spec (T + j) ks1); [|done].
      destruct sizes as (_ & _ & _ & HT). rewrite get1_at by lia. done.
    + intros a n j d Ha. by apply set1_other.
Qed.

(** The recurrence, on what the convolution gives. *)
Section recurrence.
Context (qkv : buffer3 F).
Hypothesis Hqkv : ∀ b t d, (0 <= b < B)%Z → (0 <= t < T)%Z → (0 <= d < dims)%Z → qkv (b, t, d) = convolved (b, t, d).
#[local] Abbreviation prep o := (prepares nk nv K V qkv (i_z i) (i_alpha i) (i_beta_raw i) (A_log i) (dt_bias i) B T o).
Lemma prepared_layer o b h c : prep o → (0 <= b < B)%Z → (0 <= h < nv)%Z → (0 <= c < V)%Z →
  same_column K T (layer_column b h c) (column_of nk nv (q_out o) (k_out o) (v_out o) (gate_out o) (beta_out o) b h c).
Proof.
  intros Ho Hb Hh Hc. destruct heads as (Hk & Hdiv & Hnv). destruct sizes as (HK & HV & _).
  eapply prepared_column; [done|done| |done..]. eapply prepares_ext; [lia..|exact Hqkv|exact Ho].
Qed.
Lemma raw_layer b h c : (0 <= b < B)%Z → (0 <= h < nv)%Z → (0 <= c < V)%Z →
  same_column K T (layer_column b h c) (column_of nk nv (prep_q K qkv) (prep_k nk K qkv) (prep_v nk K V qkv)
    (prep_gate (i_alpha i) (A_log i) (dt_bias i)) (prep_beta (i_beta_raw i)) b h c).
Proof.
  intros Hb Hh Hc. set (o := gdn_prefill_prepare_func nk nv K V qkv (i_z i) (i_alpha i) (i_beta_raw i) (A_log i) (dt_bias i) B T (f_prepared f)).
  assert (prep o) as Ho by apply prefill_prepares.
  pose proof (prepared_layer o b h c Ho Hb Hh Hc) as [A1 A2 A3 A4 A5].
  destruct heads as (Hk & Hdiv & Hnv).
  pose proof (prepared_column nk nv K V qkv (i_z i) (i_alpha i) (i_beta_raw i) (A_log i) (dt_bias i) B T o b h c Hk Hdiv Ho Hb Hh Hc) as [B1 B2 B3 B4 B5].
  split; intros; [rewrite A1, B1|rewrite A2, B2|rewrite A3, B3|rewrite A4, B4|rewrite A5, B5]; done.
Qed.
(** A kernel that leaves in each column the recurrence over a column that sees the same. *)
Lemma column_transfer col b h c S t r : same_column K T (layer_column b h c) col → (0 <= t <= T)%Z → (0 <= r < K)%Z →
  (∀ r, (0 <= r < K)%Z → S r = layer_start b h c r) →
  column_state K col S t r = column_state K (layer_column b h c) (layer_start b h c) t r.
Proof.
  intros E Ht Hr HS. rewrite (column_state_ext K _ S (layer_start b h c)) by done.
  symmetry. apply (column_state_same K T); [done|lia|done].
Qed.
Lemma out_transfer col b h c S t : same_column K T (layer_column b h c) col → (0 <= t < T)%Z →
  (∀ r, (0 <= r < K)%Z → S r = layer_start b h c r) →
  column_out K col S t = column_out K (layer_column b h c) (layer_start b h c) t.
Proof.
  intros E Ht HS. rewrite (column_out_same K T (layer_column b h c) col) by done.
  unfold column_out. apply attend_ext. intros r Hr. by apply column_state_ext.
Qed.
(** What the recurrence leaves: its new state is set, or already in its place. *)
Definition recurrence_result (r : buffer4 F * buffer3 F * option (buffer4 F) * buffer5 F) : Prop :=
  let '(out, zs, new_state, storage) := r in
  let final := match new_state with Some x => set0 nv K V max_history seqs hists B x storage | None => storage end in
  (∀ b t h c, (0 <= b < B)%Z → (0 <= t < T)%Z → (0 <= h < nv)%Z → (0 <= c < V)%Z →
    out (b, t, h, c) = column_out K (layer_column b h c) (layer_start b h c) t) ∧
  (∀ b t d, (0 <= b < B)%Z → (0 <= t < T)%Z → (0 <= d < nv * V)%Z → zs (b, t, d) = silu (i_z i (b, t, d))) ∧
  (∀ b h r c, (0 <= b < B)%Z → (0 <= h < nv)%Z → (0 <= r < K)%Z → (0 <= c < V)%Z →
    final (seqs b, slot_of_state p b, h, r, c) = column_state K (layer_column b h c) (layer_start b h c) T r) ∧
  (∀ a n h r c, (∀ b, (0 <= b < B)%Z → (seqs b, slot_of_state p b) ≠ (a, n)) → final (a, n, h, r, c) = state0 st (a, n, h, r, c)).

(** The kernels that work in place. *)
Lemma storage_result q k v gate beta zs : direct_state p = true →
  (∀ b h c, (0 <= b < B)%Z → (0 <= h < nv)%Z → (0 <= c < V)%Z →
    same_column K T (layer_column b h c) (column_of nk nv q k v gate beta b h c)) →
  (∀ b t d, (0 <= b < B)%Z → (0 <= t < T)%Z → (0 <= d < nv * V)%Z → zs (b, t, d) = silu (i_z i (b, t, d))) →
  let s := gdn_decode_state_storage_func nk nv K V B q k v gate beta seqs hists (f_out f, state0 st) in
  recurrence_result (s.1, zs, None, s.2).
Proof.
  intros Ed Hsame Hz s. pose proof (direct_ok Ed) as HT.
  assert (∀ b, slot_of_state p b = hists b) as Hslot by (intros b; unfold slot_of_state; by rewrite Ed).
  assert (slots_differ B seqs hists) as Hslots by (intros b b' Hb Hb' E _; by apply seqs_inj).
  split_and!.
  - intros b t h c Hb Ht Hh Hc. assert (t = 0)%Z as -> by lia.
    destruct (storage_func_done nk nv K V B q k v gate beta seqs hists (state0 st) (f_out f) Hslots b h c Hb Hh Hc) as [_ E].
    fold s in E. rewrite E. apply out_transfer; [by apply Hsame|done|done].
  - done.
  - intros b h r c Hb Hh Hr Hc. rewrite Hslot.
    destruct (storage_func_done nk nv K V B q k v gate beta seqs hists (state0 st) (f_out f) Hslots b h c Hb Hh Hc) as [E _].
    fold s in E. specialize (E r Hr). unfold slot in E. rewrite E, HT.
    apply column_transfer; [by apply Hsame|lia|done|done].
  - intros a n h r c Ha. apply storage_func_other. intros b h' c' r' Hb _ _ _ [= E1 E2 _ _ _].
    apply (Ha b Hb). rewrite Hslot. by f_equal.
Qed.
(** The kernels that return a new state. *)
Lemma fresh_result out new q k v gate beta zs state_in : direct_state p = false →
  (∀ b h c, (0 <= b < B)%Z → (0 <= h < nv)%Z → (0 <= c < V)%Z →
    same_column K T (layer_column b h c) (column_of nk nv q k v gate beta b h c)) →
  (∀ b h r c, (0 <= b < B)%Z → (0 <= h < nv)%Z → (0 <= r < K)%Z → (0 <= c < V)%Z → state_in (b, h, r, c) = layer_start b h c r) →
  (∀ b t d, (0 <= b < B)%Z → (0 <= t < T)%Z → (0 <= d < nv * V)%Z → zs (b, t, d) = silu (i_z i (b, t, d))) →
  (∀ b h c, (0 <= b < B)%Z → (0 <= h < nv)%Z → (0 <= c < V)%Z →
    column_done nk nv K T q k v gate beta state_in (b, h, c) (out, new)) →
  recurrence_result (out, zs, Some new, state0 st).
Proof.
  intros Ed Hsame Hin Hz Hdone. destruct sizes as (_ & _ & _ & HT). unfold recurrence_result, slot_of_state. rewrite Ed. split_and!.
  - intros b t h c Hb Ht Hh Hc. destruct (Hdone b h c Hb Hh Hc) as [_ E]. cbn [fst] in E. rewrite E by done.
    apply out_transfer; [by apply Hsame|done|]. intros r Hr. by apply Hin.
  - done.
  - intros b h r c Hb Hh Hr Hc. rewrite set0_at by done. destruct (Hdone b h c Hb Hh Hc) as [E _]. cbn [snd] in E. rewrite E by done.
    apply column_transfer; [by apply Hsame|lia|done|]. intros r' Hr'. by apply Hin.
  - intros a n h r c Ha. by apply set0_other.
Qed.
Lemma recurrence_spec : recurrence_result (recurrence nk nv K V op_sigmoid op_silu seqs hists p B T i qkv st f).
Proof.
  destruct heads as (Hk & Hdiv & Hnv). destruct sizes as (HK & HV & Hks & HT0). unfold recurrence.
  destruct (packed_decode p) eqn:Epacked.
  - pose proof (packed_ok eq_refl) as Ed. pose proof (direct_ok Ed) as HT.
    set (s := gdn_packed_decode_state_storage_func _ _ _ _ _ _ _ _ _ _ _ _ _ _).
    pose proof (packed_is_storage nk nv K V qkv (i_z i) (i_alpha i) (i_beta_raw i) (A_log i) (dt_bias i) B seqs hists (f_out f, state0 st, f_z f)) as E.
    assert (∀ b t d, (0 <= b < B)%Z → (0 <= t < T)%Z → (0 <= d < nv * V)%Z → s.2 (b, t, d) = silu (i_z i (b, t, d))) as Hz.
    { intros b t d Hb Ht Hd. assert (t = 0)%Z as -> by lia. by apply packed_z. }
    pose proof (storage_result _ _ _ _ _ s.2 Ed raw_layer Hz) as R. fold s in E. cbn [fst] in E. rewrite <-E in R.
    by destruct s as [[out storage] zs].
  - set (o := if fused_decode p then _ else _).
    assert (prep o) as Ho.
    { unfold o. destruct (fused_decode p) eqn:Ef.
      - rewrite (direct_ok (fused_ok eq_refl)). apply decode_prepares.
      - destruct (fused_prefill p); [apply prefill_prepares|by apply unfused_prepares]. }
    assert (∀ b t d, (0 <= b < B)%Z → (0 <= t < T)%Z → (0 <= d < nv * V)%Z → z_silu_out o (b, t, d) = silu (i_z i (b, t, d))) as Hz
      by (intros; by apply (pr_z _ _ _ _ _ _ _ _ _ _ _ _ _ Ho)).
    clearbody o. case_eq (direct_state p); intros Ed.
    + pose proof (storage_result (q_out o) (k_out o) (v_out o) (gate_out o) (beta_out o) (z_silu_out o) Ed (λ b h c, prepared_layer o b h c Ho) Hz) as R.
      by destruct (gdn_decode_state_storage_func _ _ _ _ _ _ _ _ _ _ _ _ _).
    + assert (∀ b h r c, (0 <= b < B)%Z → (0 <= h < nv)%Z → (0 <= r < K)%Z → (0 <= c < V)%Z →
        get0 nv K V seqs hists B (state0 st) (f_state f) (b, h, r, c) = layer_start b h c r) as Hin by (intros; by apply get0_at).
      set (state_in := get0 _ _ _ _ _ _ _ _) in *. destruct (if chunked p then _ else _) as [out new] eqn:Er.
      apply (fresh_result out new _ _ _ _ _ _ state_in Ed (λ b h c, prepared_layer o b h c Ho) Hin Hz).
      intros b h c Hb Hh Hc. destruct (chunked p) eqn:Ec; [|destruct (static_one p) eqn:Es].
      * destruct (chunked_ok eq_refl) as [HK128 Hcleared].
        set (gam := (λ '(b, t, h), - fexp (A_log i h) * softplus (i_alpha i (b, t, h) + dt_bias i h)) : buffer3 F).
        assert (∀ b t h, (0 <= b < B)%Z → (0 <= t < T)%Z → (0 <= h < nv)%Z → gate_out o (b, t, h) = fexp (gam (b, t, h))) as Hgate
          by (intros; by apply (pr_gate _ _ _ _ _ _ _ _ _ _ _ _ _ Ho)).
        destruct (chunked_is_recurrent B T nk nv K V (q_out o) (k_out o) (v_out o) (gate_out o) (beta_out o) gam state_in (f_chunks f)
          heads (conj HK HK128) HV HT0 Hgate Hcleared (f_out f, f_state_out f) b h c Hb Hh Hc) as [E1 E2].
        rewrite Er in E1, E2.
        destruct (gdn_func_done nk nv K V B T (q_out o) (k_out o) (v_out o) (gate_out o) (beta_out o) state_in (f_out f, f_state_out f) b h c Hb Hh Hc) as [E3 E4].
        split; [intros r Hr; rewrite E2 by done; by apply E3|intros t Ht; rewrite E1 by done; by apply E4].
      * rewrite <-Er, static_ok by done. by apply gdn_decode_func_done.
      * rewrite <-Er. by apply gdn_func_done.
Qed.
End recurrence.
Lemma forward_spec : layer_result p (forward nk nv K V conv_kernel_dim op_sigmoid op_silu max_history seqs hists p B T i st f).
Proof.
  unfold forward. pose proof convolution_spec as C. destruct (convolution _ _ _ _ _ _ _ _ _ _ _ _ _) as [[qkv new_conv] conv_storage].
  destruct C as (Hqkv & Hconv & Hkeep). pose proof (recurrence_spec qkv Hqkv) as R.
  destruct (recurrence _ _ _ _ _ _ _ _ _ _ _ _ _ _ _) as [[[out zs] new] storage]. destruct R as (Ho & Hz & Hs & Hk).
  by split.
Qed.
End laws.

Lemma choose_facts environ max_batch_size K batch_size seq_len p : choose environ max_batch_size K batch_size seq_len = Ok p →
  (direct_state p = true → seq_len = Some 1) ∧ (direct_conv p = true → direct_state p = true) ∧
  (packed_decode p = true → direct_state p = true) ∧ (fused_decode p = true → direct_state p = true) ∧
  (static_one p = true → seq_len = Some 1) ∧ (chunked p = true → K ≤ 128).
Proof.
  unfold choose. intros (storage_batch & _ & (history & _ & (chunk_size & _ & [= <-])%bind_Ok)%bind_Ok)%bind_Ok.
  cbn [direct_state direct_conv packed_decode fused_decode static_one chunked]. split_and!.
  - unfold allow_direct_rnn_state_for_decode, is_decode_seq_len_one. destruct (env_flag _ _); [|done].
    by case_bool_decide.
  - by intros [? _]%andb_true_iff.
  - by intros [? _]%andb_true_iff.
  - by intros [[? _]%andb_true_iff _]%andb_true_iff.
  - apply bool_decide_eq_true.
  - rewrite !andb_true_iff. intros [[[_ Hk] _] _]. by apply Z.leb_le.
Qed.

(** C4. Whatever the environment chooses, the layer computes the same thing: the causal convolution of the projected tokens
    after the stored ones, the gated delta rule over what it gives from the stored states, and the activated [z]; it
    changes no slot but those of its sequences that get the new states: the next ones, or, in the kernels that work in
    place, the slot of the matrices that they read, and slot 0 of the inputs of the convolution. It is assumed that
    sequences have slots of their own, inside the storages of the kernels that work in place, and, on the chunked path,
    that the buffer of the inverse holds zeros where its kernel does not store, or that there are at most 16 tokens: no
    code clears it. *)
Theorem gdn_layer_spec {F : Type} `{ScalarLaws F} environ max_batch_size batch_size seq_len nk nv K V conv_kernel_dim op_sigmoid op_silu
    max_history seqs hists B T i st f p :
  choose environ max_batch_size K batch_size seq_len = Ok p → (∀ s, seq_len = Some s → s = T) →
  0 < nk ∧ (nk | nv) ∧ 0 < nv → 0 < K ∧ 0 < V ∧ 0 < conv_kernel_dim ∧ 0 ≤ T →
  (∀ b b', 0 ≤ b < B → 0 ≤ b' < B → seqs b = seqs b' → b = b') →
  (∀ x : F, op_sigmoid x = 1 / (1 + fexp (- x)))%sc → (∀ x : F, op_silu x = x * op_sigmoid x)%sc →
  in_storage seqs hists B p → (chunked p = true → T ≤ 16 ∨ cleared B T nv (ai_init (f_chunks f))) →
  layer_result nk nv K V conv_kernel_dim max_history seqs hists B T i st p
    (forward nk nv K V conv_kernel_dim op_sigmoid op_silu max_history seqs hists p B T i st f).
Proof.
  intros Hp Hs Hheads Hsizes Hseqs Hsig Hsilu _ Hchunked.
  destruct (choose_facts _ _ _ _ _ _ Hp) as (Hone & Hconv & Hpacked & Hfused & Hstatic & HK).
  apply forward_spec; try done.
  - intros Hd. symmetry. by apply Hs, Hone.
  - intros Ho. symmetry. by apply Hs, Hstatic.
  - intros Hc. split; [by apply HK|]. destruct (Hchunked Hc); [by apply short_cleared|done].
Qed.

(** The paths that work in place never reach the next slot: with more history than one slot, the next step would read a
    state from before. *)
Lemma direct_keeps_next {F : Type} `{ScalarLaws F} nk nv K V op_sigmoid op_silu seqs hists p B T i qkv st f a n h r c :
  direct_state p = true → (∀ b, 0 ≤ b < B → (seqs b, hists b) ≠ (a, n)) →
  let '(_, _, new_state, storage) := recurrence (F := F) nk nv K V op_sigmoid op_silu seqs hists p B T i qkv st f in
  new_state = None ∧ storage (a, n, h, r, c) = state0 st (a, n, h, r, c).
Proof.
  intros Hd Ha. unfold recurrence.
  assert (∀ b h' c' r', 0 ≤ b < B → slot seqs hists b h' r' c' ≠ (a, n, h, r, c)) as Hslot.
  { intros b h' c' r' Hb [= E1 E2 _ _ _]. apply (Ha b Hb). by f_equal. }
  destruct (packed_decode p).
  - pose proof (packed_is_storage nk nv K V qkv (i_z i) (i_alpha i) (i_beta_raw i) (A_log i) (dt_bias i) B seqs hists (f_out f, state0 st, f_z f)) as E.
    destruct (gdn_packed_decode_state_storage_func _ _ _ _ _ _ _ _ _ _ _ _ _ _) as [[out storage] zs]. cbn [fst] in E.
    split; [done|]. change storage with (out, storage).2. rewrite E. apply storage_func_other. auto.
  - rewrite Hd. set (o := if fused_decode p then _ else _). clearbody o.
    pose proof (storage_func_other nk nv K V B (q_out o) (k_out o) (v_out o) (gate_out o) (beta_out o) seqs hists (state0 st) (f_out f) (a, n, h, r, c)) as E.
    destruct (gdn_decode_state_storage_func _ _ _ _ _ _ _ _ _ _ _ _ _) as [out storage]. split; [done|]. apply E. auto.
Qed.

(** ** Examples *)

Module Example.
Import Reals.
Definition env : gmap string string :=
  {[ "MLC_QWEN35_DIRECT_RNN_STATE" := "1"; "MLC_QWEN35_DIRECT_CONV_STATE" := "1"; "MLC_QWEN35_PACKED_GDN_DECODE" := "1";
     "MLC_QWEN35_CHUNKED_GDN_PREFILL" := "1" ]}.
Definition decode_paths : paths := {|
  direct_state := true; direct_conv := true; storage_batch := 4; direct_max_history := 1; packed_decode := true; fused_decode := false;
  fused_prefill := false; chunked := false; static_one := true |}.
Example decode_chosen : choose env 4 128 (Some 1) (Some 1) = Ok decode_paths.
Proof. vm_compute. reflexivity. Qed.
Example prefill_chosen : chunked <$> choose env 1 128 (Some 1) None = Ok true.
Proof. vm_compute. reflexivity. Qed.
Example no_int : choose {[ "MLC_QWEN35_CHUNKED_GDN_CHUNK_SIZE" := "big" ]} 1 128 None None = raise ValueError "invalid literal for int()".
Proof. vm_compute. reflexivity. Qed.

Definition inputs : projected (F := R) := {|
  i_qkv := DeltaNet.Example.w3; i_z := DeltaNet.Example.w3; i_alpha := DeltaNet.Example.w3; i_beta_raw := DeltaNet.Example.w3;
  A_log := DeltaNet.Example.a1; dt_bias := DeltaNet.Example.a1; conv1d_weight := DeltaNet.Example.w3 |}.
Definition states : rnn (F := R) := {| state0 := DeltaNet.Example.s5; state1 := DeltaNet.Example.s4 |}.
Definition memory : fresh (F := R) := {|
  f_state := DeltaNet.Example.s4; f_conv_state := DeltaNet.Example.w3; f_conv := DeltaNet.Example.w3;
  f_prepared := {| q_out := DeltaNet.Example.s4; k_out := DeltaNet.Example.s4; v_out := DeltaNet.Example.s4;
                   gate_out := DeltaNet.Example.w3; beta_out := DeltaNet.Example.w3; z_silu_out := DeltaNet.Example.w3 |};
  f_out := DeltaNet.Example.s4; f_state_out := DeltaNet.Example.s4; f_z := DeltaNet.Example.w3; f_chunks := DeltaChunk.Example.mem |}.
Definition sigmoid (x : R) : R := (1 / (1 + exp (- x)))%R.
(** One sequence, in slot 3, decodes a token. *)
Lemma gdn_layer_spec_witness :
  layer_result 1 2 2 1 4 2 (λ _, 3) (λ _, 0) 1 1 inputs states decode_paths
    (forward 1 2 2 1 4 sigmoid (λ x, x * sigmoid x)%R 2 (λ _, 3) (λ _, 0) decode_paths 1 1 inputs states memory).
Proof.
  apply (gdn_layer_spec env 4 (Some 1) (Some 1)).
  - vm_compute. reflexivity.
  - by intros s [= <-].
  - split_and!; [done|by exists 2|done].
  - done.
  - intros b b' Hb Hb' _. lia.
  - done.
  - done.
  - done.
  - done.
Defined.
End Example.
