(* ===== verification/Fp8Gemm.v ===== *)
(** Products of matrices in float8 with a scale per block, from [python/mlc_llm/op/triton.py]: a matrix by a matrix, and
    the rows of a matrix by the matrices of their experts.

    A launch numbers its programs so that programs that are close in time share tiles; the theorems say that every tile
    is computed, and that a launch gives the product of the matrices each multiplied by its scales. Scalars are exact,
    so that casts are the identity; indices are unbounded. *)

From Stdlib Require Import Lia ZArith Ring.
From stdpp Require Import base functions strings list list_numbers numbers.
From S2P Require Import Prelude Kernel Scalar Triton.
#[local] Open Scope Z_scope.

(** A tensor: its elements in row-major order. *)
Record tensor A := mkTensor { shape : list Z; dtype : string; data : Z → A }.
Arguments mkTensor {_}. Arguments shape {_}. Arguments dtype {_}. Arguments data {_}.
Definition ndim {A} (x : tensor A) : Z := Z.of_nat (length (shape x)).
(** [x.shape[i]], and [x.shape[-1]]. *)
Definition dim {A} (x : tensor A) (i : nat) : Z := shape x !!! i.
Definition last_dim {A} (x : tensor A) : Z := List.last (shape x) 0.

Section kernels.
Context {F : Type} `{Scalar F}.
#[local] Open Scope sc.

(** The pointers to the tiles of the operands, and the accumulated tile of the result. *)
Definition tiles : Type := (Z → Z → Z) * (Z → Z → Z) * (Z → Z → F).
(** One iteration over the shared dimension, whose loads are given. *)
Definition k_step (BLOCK_SIZE_K stride_ak stride_bk : Z) (load_a load_b : Z → Z → Z → Z → F) (a_scale b_scale : Z → Z → F)
    (k : Z) (s : tiles) : tiles :=
  let '(a_ptrs, b_ptrs, accumulator) := s in
  let a i r := load_a k i r (a_ptrs i r) in
  let b r j := load_b k r j (b_ptrs r j) in
  (λ i r, a_ptrs i r + BLOCK_SIZE_K * stride_ak, λ r j, b_ptrs r j + BLOCK_SIZE_K * stride_bk,
   λ i j, (accumulator i j + dot BLOCK_SIZE_K a b i j * a_scale k i * b_scale k j)%sc)%Z.

(** *** [_triton_w8a8_block_fp8_gemm] *)
Section gemm.
Context (A B As Bs : Z → F) (M N K : Z).
Context (stride_am stride_ak stride_bk stride_bn stride_cm stride_cn stride_As_m stride_As_k stride_Bs_k stride_Bs_n : Z).
Context (group_n group_k BLOCK_SIZE_M BLOCK_SIZE_N BLOCK_SIZE_K GROUP_SIZE_M : Z).
(** The row and the column of the tile of a program. *)
Definition gemm_tile (pid : Z) : Z * Z :=
  let num_pid_m := ceildiv M BLOCK_SIZE_M in
  let num_pid_n := ceildiv N BLOCK_SIZE_N in
  let num_pid_in_group := (GROUP_SIZE_M * num_pid_n)%Z in
  let group_id := (pid / num_pid_in_group)%Z in
  let first_pid_m := (group_id * GROUP_SIZE_M)%Z in
  let group_size_m := Z.min (num_pid_m - first_pid_m) GROUP_SIZE_M in
  (first_pid_m + pid mod group_size_m, (pid mod num_pid_in_group) / group_size_m)%Z.
Definition gemm_program (pid : Z) : list (Z * F) :=
  let '(pid_m, pid_n) := gemm_tile pid in
  let offs_am i := ((pid_m * BLOCK_SIZE_M + i) mod M)%Z in
  let offs_bn j := ((pid_n * BLOCK_SIZE_N + j) mod N)%Z in
  let a_ptrs i r := (offs_am i * stride_am + r * stride_ak)%Z in
  let b_ptrs r j := (r * stride_bk + offs_bn j * stride_bn)%Z in
  let As_ptrs i := (offs_am i * stride_As_m)%Z in
  let offs_bsn j := (offs_bn j / group_n)%Z in
  let Bs_ptrs j := (offs_bsn j * stride_Bs_n)%Z in
  let load_a k i r ptr := load A ptr (r <? K - k * BLOCK_SIZE_K)%Z in
  let load_b k r j ptr := load B ptr (r <? K - k * BLOCK_SIZE_K)%Z in
  let offs_ks k := (k * BLOCK_SIZE_K / group_k)%Z in
  let a_s k i := As (As_ptrs i + offs_ks k * stride_As_k)%Z in
  let b_s k j := Bs (Bs_ptrs j + offs_ks k * stride_Bs_k)%Z in
  let '(_, _, c) := loop (range (ceildiv K BLOCK_SIZE_K))
    (k_step BLOCK_SIZE_K stride_ak stride_bk load_a load_b a_s b_s) (a_ptrs, b_ptrs, λ _ _, 0) in
  let offs_cm i := (pid_m * BLOCK_SIZE_M + i)%Z in
  let offs_cn j := (pid_n * BLOCK_SIZE_N + j)%Z in
  store2 BLOCK_SIZE_M BLOCK_SIZE_N (λ i j, stride_cm * offs_cm i + stride_cn * offs_cn j)%Z
    (λ i j, (offs_cm i <? M)%Z && (offs_cn j <? N)%Z) c.
End gemm.
(** The launch: [A] is [M] by [K], [B] is [N] by [K]. *)
Definition block_fp8_matmul (A B As Bs : Z → F) (M N K block_n block_k BLOCK_SIZE_M BLOCK_SIZE_N BLOCK_SIZE_K GROUP_SIZE_M : Z)
    (C : Z → F) : Z → F :=
  let scales := ((K + block_k - 1) / block_k)%Z in
  apply_writes (range (ceildiv M BLOCK_SIZE_M * ceildiv N BLOCK_SIZE_N) ≫=
    gemm_program A B As Bs M N K K 1 1 K N 1 scales 1 1 scales block_n block_k BLOCK_SIZE_M BLOCK_SIZE_N BLOCK_SIZE_K GROUP_SIZE_M) C.

(** *** [_compute_expert_id_per_block] *)
Section expert_ids.
Context (indptr : Z → Z) (BLOCK_SIZE_M : Z).
Definition start_block_id (eid : Z) : Z := ((indptr eid + BLOCK_SIZE_M - 1) / BLOCK_SIZE_M + eid)%Z.
Definition num_blocks (eid : Z) : Z := ((indptr (eid + 1)%Z - indptr eid + BLOCK_SIZE_M - 1) / BLOCK_SIZE_M)%Z.
Definition expert_ids_thread (eid : Z) (expert_ids : Z → Z) : Z → Z :=
  let start_block_id_next_expert := ((indptr (eid + 1)%Z + BLOCK_SIZE_M - 1) / BLOCK_SIZE_M + eid + 1)%Z in
  let expert_ids := loop (range (num_blocks eid)) (λ block_id, <[(start_block_id eid + block_id)%Z := eid]>) expert_ids in
  loop (range (start_block_id_next_expert - (start_block_id eid + num_blocks eid)))
    (λ block_id, <[(start_block_id eid + num_blocks eid + block_id)%Z := (-1)%Z]>) expert_ids.
Definition compute_expert_id_per_block (num_experts : Z) (expert_ids : Z → Z) : Z → Z :=
  loop (range num_experts) expert_ids_thread expert_ids.
End expert_ids.

(** *** [_triton_w8a8_block_fp8_group_gemm] *)
Section group_gemm.
Context (a_ptr b_ptr a_scale_ptr b_scale_ptr : Z → F) (expert_ids_ptr indptr_ptr : Z → Z) (EM N K num_experts : Z).
Context (stride_am stride_ak stride_be stride_bk stride_bn stride_cm stride_cn stride_asm stride_ask stride_bse stride_bsk stride_bsn : Z).
Context (group_n group_k BLOCK_SIZE_M BLOCK_SIZE_N BLOCK_SIZE_K GROUP_SIZE_M : Z) (even_Ks : bool).
Definition group_tile (pid : Z) : Z * Z :=
  let num_pid_m := (ceildiv EM BLOCK_SIZE_M + num_experts)%Z in
  let num_pid_n := ceildiv N BLOCK_SIZE_N in
  let num_pid_in_group := (GROUP_SIZE_M * num_pid_n)%Z in
  let group_id := (pid / num_pid_in_group)%Z in
  let first_pid_m := (group_id * GROUP_SIZE_M)%Z in
  let group_size_m := Z.min (num_pid_m - first_pid_m) GROUP_SIZE_M in
  (first_pid_m + (pid mod num_pid_in_group) mod group_size_m, (pid mod num_pid_in_group) / group_size_m)%Z.
Definition group_gemm_program (pid : Z) : list (Z * F) :=
  let '(pid_m, pid_n) := group_tile pid in
  let expert_id := expert_ids_ptr pid_m in
  if (expert_id =? -1)%Z then [] else
  let token_begin := indptr_ptr expert_id in
  let token_end := indptr_ptr (expert_id + 1)%Z in
  let start_pid_m := (ceildiv token_begin BLOCK_SIZE_M + expert_id)%Z in
  let offs_token_id i := (token_begin + (pid_m - start_pid_m) * BLOCK_SIZE_M + i)%Z in
  let token_mask i := (offs_token_id i <? token_end)%Z in
  let offs_bn j := ((pid_n * BLOCK_SIZE_N + j) mod N)%Z in
  let a_ptrs i r := (offs_token_id i * stride_am + r * stride_ak)%Z in
  let b_ptrs r j := (expert_id * stride_be + (r * stride_bk + offs_bn j * stride_bn))%Z in
  let a_scale_ptrs i := (offs_token_id i * stride_asm)%Z in
  let offs_bsn j := (offs_bn j / group_n)%Z in
  let b_scale_ptrs j := (expert_id * stride_bse + offs_bsn j * stride_bsn)%Z in
  let load_a k i r ptr := load a_ptr ptr (if even_Ks then token_mask i else token_mask i && (r <? K - k * BLOCK_SIZE_K)%Z) in
  let load_b k r j ptr := load b_ptr ptr (if even_Ks then true else (r <? K - k * BLOCK_SIZE_K)%Z) in
  let offs_ks k := (k * BLOCK_SIZE_K / group_k)%Z in
  let a_scale k i := load a_scale_ptr (a_scale_ptrs i + offs_ks k * stride_ask)%Z (token_mask i) in
  let b_scale k j := b_scale_ptr (b_scale_ptrs j + offs_ks k * stride_bsk)%Z in
  let '(_, _, accumulator) := loop (range (ceildiv K BLOCK_SIZE_K))
    (k_step BLOCK_SIZE_K stride_ak stride_bk load_a load_b a_scale b_scale) (a_ptrs, b_ptrs, λ _ _, 0) in
  let offs_cn j := (pid_n * BLOCK_SIZE_N + j)%Z in
  store2 BLOCK_SIZE_M BLOCK_SIZE_N (λ i j, stride_cm * offs_token_id i + stride_cn * offs_cn j)%Z
    (λ i j, token_mask i && (offs_cn j <? N)%Z) accumulator.
End group_gemm.
(** The launch: a stack of [num_experts] matrices, [N] by [K]. *)
Definition block_fp8_group_matmul (A B As Bs : Z → F) (expert_ids indptr : Z → Z)
    (EM N K num_experts block_n block_k BLOCK_SIZE_M BLOCK_SIZE_N BLOCK_SIZE_K GROUP_SIZE_M : Z) (C : Z → F) : Z → F :=
  let scales := ((K + block_k - 1) / block_k)%Z in
  apply_writes (range ((ceildiv EM BLOCK_SIZE_M + num_experts) * ceildiv N BLOCK_SIZE_N) ≫=
    group_gemm_program A B As Bs expert_ids indptr EM N K num_experts K 1 (N * K) 1 K N 1 scales 1
      ((N + block_n - 1) / block_n * scales) 1 scales block_n block_k BLOCK_SIZE_M BLOCK_SIZE_N BLOCK_SIZE_K GROUP_SIZE_M
      (K mod BLOCK_SIZE_K =? 0)%Z) C.

(** ** The operators *)

(** The rows of a tensor seen as a matrix: [M = x.shape[0]; for i in range(1, x.ndim - 1): M *= x.shape[i]]. *)
Definition rows {A} (x : tensor A) : Z := foldl Z.mul (dim x 0) (removelast (tail (shape x))).
(** [out.reshape(...) if len(x_shape) > 2 else out]: the rows of [x], with [N] columns. *)
Definition reshape_out (x_shape : list Z) (M N : Z) (out_dtype : string) (out : Z → F) : tensor F :=
  mkTensor (if bool_decide (2 < length x_shape)%nat then removelast x_shape ++ [N] else [M; N]) out_dtype out.

(** A kernel declares the types of its buffers, and the runtime checks the tensors of a launch against them: [mismatch] is
    what it raises on a tensor of another type. *)
Definition match_buffers (mismatch : exn) (buffers : list (string * string)) : result unit :=
  if bool_decide (Forall (λ b, b.1 = b.2) buffers) then Ok tt else Err mismatch.

Definition fp8_groupwise_scaled_gemm (mismatch : exn) (x x_scale weight weight_scale : tensor F) (block_size : Z * Z) (out_dtype : string)
    (C : Z → F) : result (tensor F) :=
  _ ← py_assert (2 <=? ndim x)%Z "";
  _ ← py_assert (ndim weight =? 2)%Z "";
  _ ← py_assert (ndim x_scale =? ndim x)%Z "";
  _ ← py_assert (ndim weight_scale =? ndim weight)%Z "";
  _ ← py_assert (last_dim x =? dim weight 1)%Z "";
  _ ← py_assert (bool_decide (removelast (shape x) = removelast (shape x_scale))) "";
  _ ← py_assert ((last_dim x + block_size.2 - 1) / block_size.2 =? last_dim x_scale)%Z "";
  _ ← py_assert ((dim weight 1 + block_size.2 - 1) / block_size.2 =? dim weight_scale 1)%Z "";
  _ ← py_assert ((dim weight 0 + block_size.1 - 1) / block_size.1 =? dim weight_scale 0)%Z "";
  _ ← raise_when (bool_decide (dtype x ≠ "float8_e4m3fn" ∨ dtype weight ≠ "float8_e4m3fn")) ValueError "x and weight must be float8_e4m3fn";
  _ ← raise_when (bool_decide (dtype x_scale ≠ "float32" ∧ dtype weight_scale ≠ "float32")) ValueError
        "x_scale and weight_scale must be float32";
  _ ← raise_when (bool_decide (out_dtype ∉ ["float16"; "bfloat16"])) ValueError "out_dtype must be float16 or bfloat16";
  let M := rows x in
  let N := dim weight 0 in
  let K := last_dim x in
  _ ← match_buffers mismatch [(dtype weight, dtype x); (dtype x_scale, "float32"); (dtype weight_scale, "float32")];
  let out := block_fp8_matmul (data x) (data weight) (data x_scale) (data weight_scale) M N K block_size.1 block_size.2
    64 block_size.1 block_size.2 32 C in
  Ok (reshape_out (shape x) M N out_dtype out).

Definition fp8_groupwise_scaled_group_gemm (mismatch : exn) (x x_scale weight weight_scale : tensor F) (indptr : tensor Z) (block_size : Z * Z)
    (out_dtype : string) (expert_ids : Z → Z) (C : Z → F) : result (tensor F) :=
  _ ← py_assert (2 <=? ndim x)%Z "";
  _ ← py_assert (ndim weight =? 3)%Z "";
  _ ← py_assert (ndim x_scale =? ndim x)%Z "";
  _ ← py_assert (ndim weight_scale =? ndim weight)%Z "";
  _ ← py_assert (last_dim x =? dim weight 2)%Z "";
  _ ← py_assert ((last_dim x + block_size.2 - 1) / block_size.2 =? last_dim x_scale)%Z "";
  _ ← py_assert ((dim weight 2 + block_size.2 - 1) / block_size.2 =? dim weight_scale 2)%Z "";
  _ ← py_assert ((dim weight 1 + block_size.1 - 1) / block_size.1 =? dim weight_scale 1)%Z "";
  let num_experts := dim weight 0 in
  let M := rows x in
  let N := dim weight 1 in
  let K := last_dim x in
  _ ← py_assert (dim weight_scale 0 =? num_experts)%Z "";
  _ ← py_assert (ndim indptr =? 1)%Z "";
  _ ← py_assert (dim indptr 0 =? num_experts + 1)%Z "";
  _ ← py_assert (num_experts <=? 1024)%Z "";
  _ ← match_buffers mismatch [(dtype weight, dtype x); (dtype x_scale, "float32"); (dtype weight_scale, "float32"); (dtype indptr, "int32")];
  let expert_ids := compute_expert_id_per_block (data indptr) 64 num_experts expert_ids in
  let out := block_fp8_group_matmul (data x) (data weight) (data x_scale) (data weight_scale) expert_ids (data indptr)
    M N K num_experts block_size.1 block_size.2 64 block_size.1 block_size.2 32 C in
  Ok (reshape_out (shape x) M N out_dtype out).
End kernels.

(** ** The numbering of the programs *)

(** [shift] is zero, or the size of a group of programs, for programs that forget to reduce their number modulo it. *)
Lemma swizzle_range nm nn G pid x : 0 < G → 0 ≤ nn → 0 ≤ pid < nm * nn →
  let g := pid / (G * nn) in
  let size := Z.min (nm - g * G) G in
  0 ≤ g * G + x mod size < nm ∧ 0 ≤ (pid mod (G * nn)) / size < nn.
Proof.
  intros HG Hnn' Hpid g size. assert (0 < nn) as Hnn by (destruct (Z.eq_dec nn 0) as [->|]; lia). assert (0 < G * nn) as Hn by nia.
  pose proof (Z.div_mod pid (G * nn) ltac:(lia)) as E. pose proof (Z.mod_pos_bound pid (G * nn) Hn) as Hr.
  fold g in E. set (r := pid mod (G * nn)) in *.
  assert (0 ≤ g) as Hg by (apply Z.div_pos; lia).
  assert (g * G < nm) as Hfirst by nia.
  assert (0 < size) as Hsize by lia. pose proof (Z.mod_pos_bound x size Hsize).
  split; [lia|]. split; [apply Z.div_pos; lia|]. apply Z.div_lt_upper_bound; [done|].
  destruct (Z.min_spec (nm - g * G) G) as [[_ Es]|[_ Es]]; fold size in Es; rewrite Es; nia.
Qed.
Lemma swizzle_onto nm nn G pm pn shift : 0 < G → 0 ≤ pm < nm → 0 ≤ pn < nn →
  ∃ pid, 0 ≤ pid < nm * nn ∧
    let g := pid / (G * nn) in
    let size := Z.min (nm - g * G) G in
    g * G + (shift * g + pid mod (G * nn)) mod size = pm ∧ (pid mod (G * nn)) / size = pn.
Proof.
  intros HG Hm Hn. set (g := pm / G). set (size := Z.min (nm - g * G) G).
  pose proof (Z.div_mod pm G ltac:(lia)) as E. pose proof (Z.mod_pos_bound pm G HG). fold g in E.
  assert (0 ≤ g) as Hg by (apply Z.div_pos; lia).
  assert (0 ≤ pm - g * G < size) as Hx by lia. assert (0 < size ≤ G) as Hsize by lia.
  set (x := (pm - g * G - shift * g) mod size).
  pose proof (Z.mod_pos_bound (pm - g * G - shift * g) size ltac:(lia)) as Hxb. fold x in Hxb.
  assert (0 ≤ pn * size + x < G * nn) as Hr by nia.
  exists (g * (G * nn) + (pn * size + x)).
  assert (size ≤ nm - g * G) as Hrest by lia.
  split; [split; nia|]. cbv zeta. rewrite radix_div, radix_mod by done. fold size. split.
  - replace (shift * g + (pn * size + x)) with (shift * g + x + pn * size) by lia. rewrite Z.mod_add by lia.
    unfold x. rewrite Zplus_mod_idemp_r. replace (shift * g + (pm - g * G - shift * g)) with (pm - g * G) by lia.
    rewrite Z.mod_small by done. lia.
  - by apply radix_div.
Qed.

(** ** Products with scales *)

Section products.
Context {F : Type} `{ScalarLaws F}.
Add Ring scalar : (scalar_ring (F := F)).
#[local] Open Scope sc.

Lemma k_loop BK sa sb la lb (as_ bs_ : Z → Z → F) n (a0 b0 : Z → Z → Z) : (0 <= n)%Z →
  let s := loop (range n) (k_step BK sa sb la lb as_ bs_) (a0, b0, λ _ _, 0) in
  (∀ i r, s.1.1 i r = a0 i r + n * (BK * sa))%Z ∧ (∀ r j, s.1.2 r j = b0 r j + n * (BK * sb))%Z ∧
  (∀ i j, s.2 i j = fsum (λ k, dot BK (λ i r, la k i r (a0 i r + k * (BK * sa))%Z) (λ r j, lb k r j (b0 r j + k * (BK * sb))%Z) i j
                                * as_ k i * bs_ k j) n).
Proof.
  induction n as [n Hn|n Hn IH] using range_ind; intros Hn'; cbv zeta.
  - assert (n = 0)%Z as -> by lia. rewrite range_nonpos, loop_nil by done. cbn [fst snd]. split_and!; [intros; ring..|]. done.
  - destruct (IH Hn) as (E1 & E2 & E3). rewrite range_S, loop_app by done. cbn [loop foldl].
    destruct (loop (range n) _ _) as [[ap bp] acc]. cbn [fst snd] in *. unfold loop; cbn [foldl k_step fst snd]. split_and!.
    + intros i r. rewrite E1. ring.
    + intros r j. rewrite E2. ring.
    + intros i j. rewrite fsum_S, E3 by done. do 3 f_equal. unfold dot. apply fsum_ext. intros r _. by rewrite E1, E2.
Qed.
(** The scales of a block may be multiplied into its elements. *)
Lemma scaled_blocks K BK (x y : Z → Z → F) (a b s s' : Z → F) : (0 < BK)%Z → (0 <= K)%Z →
  (∀ kb r, (0 <= kb < ceildiv K BK)%Z → (0 <= r < BK)%Z → x kb r * y kb r = if (kb * BK + r <? K)%Z then a (kb * BK + r)%Z * b (kb * BK + r)%Z else 0) →
  fsum (λ kb, fsum (λ r, x kb r * y kb r) BK * s kb * s' kb) (ceildiv K BK) =
  fsum (λ k, a k * s (k / BK)%Z * (b k * s' (k / BK)%Z)) K.
Proof.
  intros HBK HK E. rewrite <-(fsum_masked_blocks _ K BK) by done. apply fsum_ext. intros kb Hkb.
  rewrite <-!fsum_scale_r. apply fsum_ext. intros r Hr. rewrite E by done.
  destruct (kb * BK + r <? K)%Z; [|ring]. rewrite radix_div by done. ring.
Qed.

(** A row of a matrix times its scales. *)
Definition scaled (x scale : Z → F) (K block_k row srow k : Z) : F := x (row * K + k)%Z * scale (srow * ceildiv K block_k + k / block_k)%Z.

Section gemm.
Context (A B As Bs C : Z → F) (M N K bn bk BM BN G : Z).
Hypotheses (Hbn : 0 < bn) (Hbk : 0 < bk) (HBM : 0 < BM) (HBN : 0 < BN) (HG : 0 < G) (HM : 0 ≤ M) (HN : 0 ≤ N) (HK : 0 ≤ K).
Definition gemm_val (y : Z * Z) : F :=
  let '(m, n) := y in fsum (λ k, scaled A As K bk m m k * scaled B Bs K bk n (n / bn)%Z k) K.
Definition gemm_addr (y : Z * Z) : Z := (y.1 * N + y.2)%Z.
#[local] Abbreviation scales := (ceildiv K bk).
Lemma elem_of_gemm pid a x :
  let '(pm, pn) := gemm_tile M N BM BN G pid in
  (a, x) ∈ gemm_program A B As Bs M N K K 1 1 K N 1 scales 1 1 scales bn bk BM BN bk G pid ↔
  ∃ i j, (0 <= i < BM)%Z ∧ (0 <= j < BN)%Z ∧ (pm * BM + i < M)%Z ∧ (pn * BN + j < N)%Z ∧
    a = ((pm * BM + i) * N + (pn * BN + j))%Z ∧
    x = fsum (λ k, scaled A As K bk ((pm * BM + i) mod M) ((pm * BM + i) mod M) k *
                   scaled B Bs K bk ((pn * BN + j) mod N) ((pn * BN + j) mod N / bn) k) K.
Proof.
  unfold gemm_program. destruct (gemm_tile M N BM BN G pid) as [pm pn].
  set (ar i := ((pm * BM + i) mod M)%Z). set (br j := ((pn * BN + j) mod N)%Z).
  destruct (k_loop bk 1 1 (λ k i r ptr, load A ptr (r <? K - k * bk)%Z) (λ k r j ptr, load B ptr (r <? K - k * bk)%Z)
    (λ k i, As (ar i * scales + k * bk / bk * 1)%Z) (λ k j, Bs (br j / bn * scales + k * bk / bk * 1)%Z) (ceildiv K bk)
    (λ i r, ar i * K + r * 1)%Z (λ r j, r * 1 + br j * K)%Z (ceildiv_nonneg K bk Hbk HK)) as (_ & _ & E).
  destruct (loop _ _ _) as [[ap bp] c] eqn:EL in |- *.
  assert (∀ i j, c i j = fsum (λ k, scaled A As K bk (ar i) (ar i) k * scaled B Bs K bk (br j) (br j / bn) k) K) as Ec.
  { intros i j. etransitivity; [exact (f_equal (λ s : tiles, s.2 i j) (eq_sym EL))|]. etransitivity; [apply E|]. unfold dot, scaled.
    rewrite (fsum_ext _ (λ kb, fsum (λ r, load A (ar i * K + r * 1 + kb * (bk * 1))%Z (r <? K - kb * bk)%Z
        * load B (r * 1 + br j * K + kb * (bk * 1))%Z (r <? K - kb * bk)%Z) bk
        * As (ar i * scales + kb)%Z * Bs (br j / bn * scales + kb)%Z)).
    2: { intros kb _. by rewrite !Z.div_mul, !Z.mul_1_r by lia. }
    rewrite (scaled_blocks K bk _ _ (λ k, A (ar i * K + k)%Z) (λ k, B (br j * K + k)%Z)
      (λ kb, As (ar i * scales + kb)%Z) (λ kb, Bs (br j / bn * scales + kb)%Z)); [done..|].
    intros kb r _ Hr. unfold load. destruct (Z.ltb_spec r (K - kb * bk)).
    - rewrite (proj2 (Z.ltb_lt _ _)) by lia. f_equal; f_equal; lia.
    - rewrite (proj2 (Z.ltb_ge _ _)) by lia. ring. }
  rewrite elem_of_store2. split.
  - intros (i & j & Hi & Hj & [Hm%Z.ltb_lt Hn%Z.ltb_lt]%andb_true_iff & -> & ->). exists i, j. rewrite Ec. split_and!; try lia. done.
  - intros (i & j & Hi & Hj & Hm & Hn & -> & ->). exists i, j. rewrite Ec.
    split_and!; [lia..|by rewrite andb_true_iff, !Z.ltb_lt|lia|done].
Qed.
Lemma matmul_at m n : (0 <= m < M)%Z → (0 <= n < N)%Z →
  block_fp8_matmul A B As Bs M N K bn bk BM BN bk G C (m * N + n)%Z = gemm_val (m, n).
Proof.
  intros Hm Hn. unfold block_fp8_matmul. change ((K + bk - 1) / bk)%Z with scales.
  apply (launch_at _ _ (λ '(m, n), (0 <= m < M)%Z ∧ (0 <= n < N)%Z) gemm_addr gemm_val C (m, n)); [| |done|].
  - intros pid a x Hpid%elem_of_range Hin. pose proof (elem_of_gemm pid a x) as E. unfold gemm_tile in E.
    destruct (swizzle_range _ _ G pid pid HG (ceildiv_nonneg N BN HBN HN) Hpid) as [Hpm Hpn].
    set (pm := (_ + pid mod _)%Z) in *. set (pn := (pid mod _ / _)%Z) in *. clearbody pm pn.
    destruct (proj1 E Hin) as (i & j & Hi & Hj & Hlm & Hln & Ea & Ex). rewrite Ea, Ex. clear Ea Ex E Hin. exists (pm * BM + i, pn * BN + j)%Z.
    rewrite !(Z.mod_small (pm * BM + i)), !(Z.mod_small (pn * BN + j)) by nia. split; [split; nia|]. done.
  - intros [m1 n1] [m2 n2] [_ H1] [_ H2] E. unfold gemm_addr in E. cbn [fst snd] in E.
    by apply radix_inj in E as [-> ->].
  - destruct (chunk_index m BM HBM) as (pm & i & Em & Hi & Ep & Ei). destruct (chunk_index n BN HBN) as (pn & j & En & Hj & Eq & Ej).
    destruct (swizzle_onto (ceildiv M BM) (ceildiv N BN) G pm pn (G * ceildiv N BN) HG) as (pid & Hpid & E1 & E2);
      [rewrite Ep; by apply block_for|rewrite Eq; by apply block_for|].
    eexists pid, _. split; [by apply elem_of_range|]. pose proof (elem_of_gemm pid (gemm_addr (m, n))) as E. unfold gemm_tile in E.
    assert (0 < G * ceildiv N BN)%Z as HGN by (assert (0 <= pn < ceildiv N BN)%Z by (rewrite Eq; by apply block_for); nia).
    rewrite <-Z.div_mod in E1 by lia. cbv zeta in E1, E2. rewrite E1, E2 in E.
    apply E. exists i, j. unfold gemm_addr. cbn [fst snd]. split_and!; [lia..| |reflexivity]. by rewrite Em, En.
Qed.
End gemm.

(** *** The experts of the blocks *)

Section expert_ids.
#[local] Open Scope Z_scope.
Context (indptr : Z → Z) (BM E : Z).
Hypotheses (HBM : 0 < BM) (Hzero : indptr 0 = 0) (Hmono : ∀ e, 0 ≤ e < E → indptr e ≤ indptr (e + 1)).
#[local] Abbreviation start := (start_block_id indptr BM).
#[local] Abbreviation blocks := (num_blocks indptr BM).

Lemma indptr_le e e' : 0 ≤ e → e ≤ e' → e' ≤ E → indptr e ≤ indptr e'.
Proof.
  intros He. induction e' as [e' Hle|e' Hle IH] using range_ind; intros Hee HeE.
  - assert (e = e') as -> by lia. done.
  - destruct (decide (e = e' + 1)) as [->|]; [done|]. specialize (IH ltac:(lia) ltac:(lia)). pose proof (Hmono e' ltac:(lia)). lia.
Qed.
Lemma start_next e : start (e + 1) = ceildiv (indptr (e + 1)) BM + e + 1.
Proof. unfold start_block_id, ceildiv. lia. Qed.
Lemma blocks_fit e : 0 ≤ e < E → 0 ≤ blocks e ∧ start e + blocks e ≤ start (e + 1).
Proof.
  intros He. pose proof (Hmono e He) as Hd. rewrite start_next. unfold start_block_id, num_blocks.
  change ((indptr e + BM - 1) / BM) with (ceildiv (indptr e) BM).
  change ((indptr (e + 1) - indptr e + BM - 1) / BM) with (ceildiv (indptr (e + 1) - indptr e) BM).
  pose proof (ceildiv_spec (indptr e) BM HBM). pose proof (ceildiv_spec (indptr (e + 1)) BM HBM).
  pose proof (ceildiv_spec (indptr (e + 1) - indptr e) BM HBM). nia.
Qed.
Lemma start_le e e' : 0 ≤ e → e ≤ e' → e' ≤ E → start e ≤ start e'.
Proof.
  intros He. induction e' as [e' Hle|e' Hle IH] using range_ind; intros Hee HeE.
  - assert (e = e') as -> by lia. done.
  - destruct (decide (e = e' + 1)) as [->|]; [done|]. specialize (IH ltac:(lia) ltac:(lia)).
    pose proof (blocks_fit e' ltac:(lia)). lia.
Qed.
Lemma start_zero : start 0 = 0.
Proof. unfold start_block_id. rewrite Hzero, Z.div_small by lia. done. Qed.
Lemma expert_of p : 0 ≤ p < start E → 0 ≤ E → ∃ e, 0 ≤ e < E ∧ start e ≤ p < start (e + 1).
Proof.
  intros [Hp Hlt] HE.
  assert (∀ n, n ≤ E → p < start n → 0 ≤ n → ∃ e, 0 ≤ e < E ∧ start e ≤ p < start (e + 1)) as Hn; [|by apply (Hn E)].
  induction n as [n Hn|n Hn IH] using range_ind; intros HnE Hpn Hn0.
  - assert (n = 0) as -> by lia. rewrite start_zero in Hpn. lia.
  - destruct (Z.ltb_spec p (start n)); [apply IH; lia|]. exists n. lia.
Qed.

Lemma fill_at n b (v : Z) (m : Z → Z) p :
  loop (range n) (λ i, <[b + i := v]>) m p = if decide (b ≤ p < b + n) then v else m p.
Proof.
  induction n as [n Hn|n Hn IH] using range_ind.
  - rewrite range_nonpos, loop_nil, decide_False by lia. done.
  - rewrite range_S, loop_app, loop_cons, loop_nil by done. destruct (decide (b + n = p)) as [<-|Hne].
    + rewrite fn_lookup_insert, decide_True by lia. done.
    + rewrite fn_lookup_insert_ne, IH by done. destruct (decide (b ≤ p < b + n)), (decide (b ≤ p < b + (n + 1))); done || lia.
Qed.
Lemma expert_ids_thread_at e m p : 0 ≤ e < E →
  expert_ids_thread indptr BM e m p =
  if decide (start e ≤ p < start (e + 1)) then (if p <? start e + blocks e then e else -1) else m p.
Proof.
  intros He. destruct (blocks_fit e He) as [Hb Hf]. pose proof (start_next e) as En. unfold ceildiv in En.
  unfold expert_ids_thread. rewrite <-En, !fill_at.
  destruct (Z.ltb_spec p (start e + blocks e)), (decide (start e ≤ p < start (e + 1))); repeat (destruct (decide _)); done || lia.
Qed.
(** The blocks of an expert, and the one that is left when the experts before it fill theirs. *)
Lemma expert_ids_at e m p : 0 ≤ e < E → start e ≤ p < start (e + 1) →
  compute_expert_id_per_block indptr BM E m p = if p <? start e + blocks e then e else -1.
Proof.
  intros He Hp. unfold compute_expert_id_per_block.
  assert (∀ e', 0 ≤ e' < E → ∀ m, expert_ids_thread indptr BM e' m p = (if decide (e' = e) then
    (if p <? start e + blocks e then e else -1) else m p)) as Ht.
  { intros e' He' m'. rewrite expert_ids_thread_at by done. destruct (decide (e' = e)) as [->|Hne]; [by rewrite decide_True|].
    rewrite decide_False; [done|]. intros Hp'. destruct (Z.lt_ge_cases e' e).
    - pose proof (start_le (e' + 1) e). lia.
    - pose proof (start_le (e + 1) e'). lia. }
  apply (loop_establishes (λ m : Z → Z, m p = _) (range E) _ _ e); [by apply elem_of_range| |].
  - intros m'. rewrite Ht by done. by rewrite decide_True.
  - intros e' m' He'%elem_of_range Hm. rewrite Ht by done. by destruct (decide (e' = e)).
Qed.
Lemma block_of e t : 0 ≤ e < E → indptr e ≤ t < indptr (e + 1) →
  start e ≤ start e + (t - indptr e) / BM < start e + blocks e.
Proof.
  intros He Ht. unfold num_blocks. change ((indptr (e + 1) - indptr e + BM - 1) / BM) with (ceildiv (indptr (e + 1) - indptr e) BM).
  pose proof (block_for (indptr (e + 1) - indptr e) BM (t - indptr e) HBM ltac:(lia)). lia.
Qed.
Lemma token_expert t : 0 ≤ E → 0 ≤ t < indptr E → ∃ e, 0 ≤ e < E ∧ indptr e ≤ t < indptr (e + 1).
Proof.
  intros HE [Ht0 Ht].
  assert (∀ n, n ≤ E → 0 ≤ n → t < indptr n → ∃ e, 0 ≤ e < E ∧ indptr e ≤ t < indptr (e + 1)) as Hn; [|by apply (Hn E)].
  induction n as [n Hn|n Hn IH] using range_ind; intros HnE Hn0 Htn.
  - assert (n = 0) as -> by lia. lia.
  - destruct (Z.ltb_spec t (indptr n)); [apply IH; lia|]. exists n. lia.
Qed.
Lemma expert_unique e e' t : 0 ≤ e < E → 0 ≤ e' < E → indptr e ≤ t < indptr (e + 1) → indptr e' ≤ t < indptr (e' + 1) → e = e'.
Proof.
  intros He He' Ht Ht'. destruct (Z.lt_trichotomy e e') as [Hlt|[?|Hlt]]; [|done|].
  - pose proof (indptr_le (e + 1) e'). lia.
  - pose proof (indptr_le (e' + 1) e). lia.
Qed.
End expert_ids.

Section group_gemm.
Context (A B As Bs C : Z → F) (ids indptr : Z → Z) (N K E bn bk BM BN G : Z).
Hypotheses (Hbn : 0 < bn) (Hbk : 0 < bk) (HBM : 0 < BM) (HBN : 0 < BN) (HG : 0 < G) (HN : 0 ≤ N) (HK : 0 ≤ K) (HE : 0 ≤ E).
Hypotheses (Hzero : indptr 0%Z = 0%Z) (Hmono : ∀ e, (0 <= e < E → indptr e <= indptr (e + 1))%Z).
#[local] Abbreviation scales := (ceildiv K bk).
#[local] Abbreviation start := (start_block_id indptr BM).
#[local] Abbreviation experts := (compute_expert_id_per_block indptr BM E ids).
#[local] Abbreviation program := (group_gemm_program A B As Bs experts indptr (indptr E) N K E K 1 (N * K) 1 K N 1 scales 1
  ((N + bn - 1) / bn * scales) 1 scales bn bk BM BN bk G (K mod bk =? 0))%Z.
(** What row [t], which the expert [e] has, and column [n] of the result hold. *)
Definition group_val (y : Z * Z * Z) : F :=
  let '(e, t, n) := y in
  fsum (λ k, scaled A As K bk t t k * scaled B Bs K bk (e * N + n)%Z (e * ceildiv N bn + n / bn)%Z k) K.
Definition group_addr (y : Z * Z * Z) : Z := let '(e, t, n) := y in (t * N + n)%Z.
Definition routed (y : Z * Z * Z) : Prop :=
  let '(e, t, n) := y in (0 <= e < E)%Z ∧ (indptr e <= t < indptr (e + 1)%Z)%Z ∧ (0 <= n < N)%Z.

Lemma whole_blocks kb r : (K mod bk =? 0)%Z = true → (0 <= kb < ceildiv K bk)%Z → (0 <= r < bk)%Z → (kb * bk + r < K)%Z.
Proof.
  intros Hmod%Z.eqb_eq Hkb Hr. pose proof (Z.div_mod K bk ltac:(lia)) as Hdm. rewrite Hmod in Hdm.
  pose proof (ceildiv_spec K bk Hbk). assert (kb < K / bk)%Z by nia. nia.
Qed.
Lemma elem_of_group pid a x e pm pn :
  group_tile (indptr E) N E BM BN G pid = (pm, pn) → (0 <= e < E)%Z → experts pm = e →
  (a, x) ∈ program pid ↔
  ∃ i j, (0 <= i < BM)%Z ∧ (0 <= j < BN)%Z ∧ (indptr e + (pm - start e) * BM + i < indptr (e + 1)%Z)%Z ∧ (pn * BN + j < N)%Z ∧
    let t := (indptr e + (pm - start e) * BM + i)%Z in
    a = (t * N + (pn * BN + j))%Z ∧
    x = fsum (λ k, scaled A As K bk t t k *
                   scaled B Bs K bk (e * N + (pn * BN + j) mod N) (e * ceildiv N bn + (pn * BN + j) mod N / bn) k) K.
Proof.
  intros Htile He Hid. unfold group_gemm_program. rewrite Htile, Hid. rewrite (proj2 (Z.eqb_neq e (-1))) by lia.
  change (ceildiv (indptr e) BM + e)%Z with (start e). change ((N + bn - 1) / bn)%Z with (ceildiv N bn).
  set (even := (K mod bk =? 0)%Z).
  set (tk i := (indptr e + (pm - start e) * BM + i)%Z). set (br j := ((pn * BN + j) mod N)%Z). set (mask i := (tk i <? indptr (e + 1)%Z)%Z).
  destruct (k_loop bk 1 1 (λ k i r ptr, load A ptr (if even then mask i else mask i && (r <? K - k * bk)%Z))
    (λ k r j ptr, load B ptr (if even then true else (r <? K - k * bk)%Z))
    (λ k i, load As (tk i * scales + k * bk / bk * 1)%Z (mask i))
    (λ k j, Bs (e * (ceildiv N bn * scales) + br j / bn * scales + k * bk / bk * 1)%Z) (ceildiv K bk)
    (λ i r, tk i * K + r * 1)%Z (λ r j, e * (N * K) + (r * 1 + br j * K))%Z (ceildiv_nonneg K bk Hbk HK)) as (_ & _ & Ek).
  destruct (loop _ _ _) as [[ap bp] c] eqn:EL in |- *.
  assert (∀ i j, mask i = true → c i j = fsum (λ k, scaled A As K bk (tk i) (tk i) k *
    scaled B Bs K bk (e * N + br j) (e * ceildiv N bn + br j / bn) k) K) as Ec.
  { intros i j Hm. etransitivity; [exact (f_equal (λ s : tiles, s.2 i j) (eq_sym EL))|]. etransitivity; [apply Ek|].
    unfold dot, scaled. rewrite Hm.
    rewrite (fsum_ext _ (λ kb, fsum (λ r, load A (tk i * K + r * 1 + kb * (bk * 1))%Z (if even then true else (r <? K - kb * bk)%Z)
        * load B (e * (N * K) + (r * 1 + br j * K) + kb * (bk * 1))%Z (if even then true else (r <? K - kb * bk)%Z)) bk
        * As (tk i * scales + kb)%Z * Bs ((e * ceildiv N bn + br j / bn) * scales + kb)%Z)).
    2: { intros kb _. cbn [load andb]. rewrite !Z.div_mul, !Z.mul_1_r by lia. f_equal. f_equal. ring. }
    rewrite (scaled_blocks K bk _ _ (λ k, A (tk i * K + k)%Z) (λ k, B ((e * N + br j) * K + k)%Z)
      (λ kb, As (tk i * scales + kb)%Z) (λ kb, Bs ((e * ceildiv N bn + br j / bn) * scales + kb)%Z)); [done..|].
    intros kb r Hkb Hr. unfold load. destruct even eqn:Heven.
    - pose proof (whole_blocks kb r Heven Hkb Hr). rewrite (proj2 (Z.ltb_lt _ _)) by lia. f_equal; f_equal; ring.
    - destruct (Z.ltb_spec r (K - kb * bk)).
      + rewrite (proj2 (Z.ltb_lt _ _)) by lia. f_equal; f_equal; ring.
      + rewrite (proj2 (Z.ltb_ge _ _)) by lia. ring. }
  rewrite elem_of_store2. split.
  - intros (i & j & Hi & Hj & [Hm Hn%Z.ltb_lt]%andb_true_iff & -> & ->). exists i, j. rewrite Ec by done.
    apply Z.ltb_lt in Hm. fold (tk i). split_and!; try lia. done.
  - intros (i & j & Hi & Hj & Hm%Z.ltb_lt & Hn & -> & ->). exists i, j. fold (tk i) in Hm |- *. rewrite Ec by done.
    split_and!; [lia..| |lia|done]. apply andb_true_iff. split; [done|by apply Z.ltb_lt].
Qed.
Lemma group_matmul_at e t n : routed (e, t, n) →
  block_fp8_group_matmul A B As Bs experts indptr (indptr E) N K E bn bk BM BN bk G C (t * N + n)%Z = group_val (e, t, n).
Proof.
  intros Hy. unfold block_fp8_group_matmul. change ((K + bk - 1) / bk)%Z with scales.
  assert (start E = ceildiv (indptr E) BM + E)%Z as EE by done.
  apply (launch_at _ _ routed group_addr group_val C (e, t, n)); [| |done|].
  - intros pid a x Hpid%elem_of_range Hin.
    destruct (swizzle_range _ _ G pid (pid mod (G * ceildiv N BN)) HG (ceildiv_nonneg N BN HBN HN) Hpid) as [Hpm Hpn].
    destruct (group_tile (indptr E) N E BM BN G pid) as [pm pn] eqn:Htile.
    assert (0 <= pm < start E)%Z as Hpm' by (injection Htile as <- _; rewrite EE; exact Hpm).
    assert (0 <= pn)%Z as Hpn' by (injection Htile as _ <-; apply Hpn).
    destruct (expert_of indptr BM E HBM Hzero pm Hpm' HE) as (e' & He' & Hs).
    pose proof (expert_ids_at indptr BM E HBM Hmono e' ids pm He' Hs) as Hid.
    destruct (Z.ltb_spec pm (start e' + num_blocks indptr BM e')).
    + apply (elem_of_group pid a x e' pm pn Htile He' Hid) in Hin as (i & j & Hi & Hj & Hlt & Hln & Ea & Ex).
      eexists (e', _, _). split; [|split; [exact Ea|]]; [|by rewrite Ex, Z.mod_small by nia].
      split; [done|]. split; [|split; [nia|done]]. split; [nia|done].
    + unfold group_gemm_program in Hin. rewrite Htile, Hid in Hin. cbn in Hin. by apply elem_of_nil in Hin.
  - intros [[e1 t1] n1] [[e2 t2] n2] (He1 & Ht1 & Hn1) (He2 & Ht2 & Hn2) Ea. unfold group_addr in Ea.
    apply radix_inj in Ea as [-> ->]; [|done..]. by rewrite (expert_unique indptr E Hmono e1 e2 t2).
  - destruct Hy as (He & Ht & Hn). pose proof (block_of indptr BM E HBM e t He Ht) as Hb.
    set (pm := (start e + (t - indptr e) / BM)%Z) in *. destruct (blocks_fit indptr BM E HBM Hmono e He) as [Hb0 Hfit].
    pose proof (start_le indptr BM E HBM Hmono 0 e ltac:(lia) ltac:(lia) ltac:(lia)) as Hs0. rewrite start_zero in Hs0 by done.
    pose proof (start_le indptr BM E HBM Hmono (e + 1) E ltac:(lia) ltac:(lia) ltac:(lia)) as HsE.
    destruct (chunk_index n BN HBN) as (pn & j & En & Hj & Eq & Ej).
    destruct (swizzle_onto (ceildiv (indptr E) BM + E) (ceildiv N BN) G pm pn 0 HG) as (pid & Hpid & E1 & E2);
      [lia|rewrite Eq; by apply block_for|].
    assert (group_tile (indptr E) N E BM BN G pid = (pm, pn)) as Htile.
    { unfold group_tile. cbv zeta in E1, E2. rewrite Z.mul_0_l, Z.add_0_l in E1. by rewrite E1, E2. }
    assert (experts pm = e) as Hid.
    { rewrite (expert_ids_at indptr BM E HBM Hmono e) by (done || lia). by rewrite (proj2 (Z.ltb_lt _ _)) by lia. }
    eexists pid, _. split; [by apply elem_of_range|]. apply (elem_of_group pid _ _ e pm pn Htile He Hid).
    exists ((t - indptr e) mod BM)%Z, j. pose proof (Z.mod_pos_bound (t - indptr e) BM HBM).
    pose proof (Z.div_mod (t - indptr e) BM ltac:(lia)) as Hdm.
    assert (indptr e + (pm - start e) * BM + (t - indptr e) mod BM = t)%Z as Et by (unfold pm; lia).
    rewrite Et. cbv zeta. rewrite <-En. split_and!; [lia..|done|reflexivity].
Qed.
End group_gemm.
End products.

(** ** The operators *)

Section operators.
Context {F : Type} `{ScalarLaws F}.
#[local] Open Scope sc.
Context (mismatch : exn).
Implicit Types x x_scale weight weight_scale : tensor F.

(** The tensors fit: [dims] by [K] with their scales, and [N] by [K] with theirs. *)
Record gemm_args x x_scale weight weight_scale (block_size : Z * Z) (out_dtype : string) (dims : list Z) (N K : Z) : Prop := {
  args_dims : dims ≠ [];
  args_x : shape x = dims ++ [K];
  args_x_scale : shape x_scale = dims ++ [ceildiv K block_size.2];
  args_weight : shape weight = [N; K];
  args_weight_scale : shape weight_scale = [ceildiv N block_size.1; ceildiv K block_size.2];
  args_dtype : dtype x = "float8_e4m3fn" ∧ dtype weight = "float8_e4m3fn";
  args_out : out_dtype ∈ ["float16"; "bfloat16"] }.
(** The types of the scales. *)
Definition scale_types x_scale weight_scale : Prop := dtype x_scale = "float32" ∧ dtype weight_scale = "float32".
(** A stack of [E] matrices, and the places where the rows of each expert begin and end. *)
Record group_args x x_scale weight weight_scale (indptr : tensor Z) (block_size : Z * Z) (dims : list Z) (N K E : Z) : Prop := {
  group_dims : dims ≠ [];
  group_x : shape x = dims ++ [K];
  group_x_scale : shape x_scale = dims ++ [ceildiv K block_size.2];
  group_weight : shape weight = [E; N; K];
  group_weight_scale : shape weight_scale = [E; ceildiv N block_size.1; ceildiv K block_size.2];
  group_indptr : shape indptr = [E + 1]%Z;
  group_experts : (E <= 1024)%Z }.
(** The types that its kernels declare. *)
Definition group_types x x_scale weight weight_scale (indptr : tensor Z) : Prop :=
  dtype weight = dtype x ∧ dtype x_scale = "float32" ∧ dtype weight_scale = "float32" ∧ dtype indptr = "int32".

Lemma shape_last {A} (x : tensor A) dims n : shape x = dims ++ [n] → last_dim x = n ∧ removelast (shape x) = dims.
Proof. intros E. unfold last_dim. by rewrite E, last_last, removelast_last. Qed.
Lemma shape_split {A} (x : tensor A) : (1 <= ndim x)%Z → shape x = removelast (shape x) ++ [last_dim x].
Proof. unfold ndim, last_dim. intros Hx. apply app_removelast_last. by destruct (shape x). Qed.
Lemma ndim_snoc {A} (x : tensor A) dims n : shape x = dims ++ [n] → ndim x = (Z.of_nat (length dims) + 1)%Z.
Proof. intros E. unfold ndim. rewrite E, length_app. cbn. lia. Qed.
Lemma rows_dims {A} (x : tensor A) dims n : shape x = dims ++ [n] → dims ≠ [] → rows x = foldl Z.mul 1%Z dims.
Proof.
  intros E Hd. unfold rows, dim. rewrite E. destruct dims as [|d dims]; [done|]. cbn [app tail foldl].
  rewrite removelast_last, Z.mul_1_l. done.
Qed.
Lemma reshape_dims dims N K d out :
  dims ≠ [] → let M := foldl Z.mul 1%Z dims in
  reshape_out (F := F) (dims ++ [K]) M N d out = mkTensor (dims ++ [N]) d out.
Proof.
  intros Hd M. unfold reshape_out, M. rewrite removelast_last, length_app. destruct dims as [|d0 [|d1 dims]]; [done| |].
  - cbn [length foldl]. rewrite bool_decide_eq_false_2 by (cbn; lia). by rewrite Z.mul_1_l.
  - rewrite bool_decide_eq_true_2 by (cbn; lia). done.
Qed.
Lemma shape2 {A} (x : tensor A) : ndim x = 2%Z → shape x = [dim x 0; dim x 1].
Proof. unfold ndim, dim. destruct (shape x) as [|a [|b [|c l]]]; cbn; intros; by try lia. Qed.
Lemma match_buffers_Ok buffers u : match_buffers mismatch buffers = Ok u ↔ Forall (λ b, b.1 = b.2) buffers.
Proof. destruct u. unfold match_buffers. by case_bool_decide. Qed.
(** Prove the checks of an operator one by one. *)
Ltac passes tac := repeat match goal with
  | |- context [py_assert ?b _] => replace b with true by (symmetry; tac); cbn [py_assert mbind result_bind]
  | |- context [raise_when ?b _ _] => replace b with false by (symmetry; tac); cbn [raise_when mbind result_bind]
  end.
Lemma gemm_runs x x_scale weight weight_scale bs out_dtype dims N K C :
  gemm_args x x_scale weight weight_scale bs out_dtype dims N K → dtype x_scale = "float32" ∨ dtype weight_scale = "float32" →
  fp8_groupwise_scaled_gemm mismatch x x_scale weight weight_scale bs out_dtype C =
  if bool_decide (scale_types x_scale weight_scale)
  then Ok (mkTensor (dims ++ [N]) out_dtype (block_fp8_matmul (data x) (data weight) (data x_scale) (data weight_scale)
    (foldl Z.mul 1%Z dims) N K bs.1 bs.2 64 bs.1 bs.2 32 C))
  else Err mismatch.
Proof.
  intros [Hd Ex Exs Ew Ews [Et1 Et2] Eo] Hs. unfold fp8_groupwise_scaled_gemm.
  destruct (shape_last x _ _ Ex) as [Lx Rx]. destruct (shape_last x_scale _ _ Exs) as [Lxs Rxs].
  pose proof (ndim_snoc x _ _ Ex) as Nx. pose proof (ndim_snoc x_scale _ _ Exs) as Nxs.
  assert (0 < length dims)%nat by (destruct dims; [done|cbn; lia]).
  assert (ndim weight = 2%Z ∧ ndim weight_scale = 2%Z) as [Nw Nws] by (unfold ndim; by rewrite Ew, Ews).
  rewrite Nx, Nxs, Nw, Nws, Lx, Rx, Lxs, Rxs. unfold dim. rewrite Ew, Ews. cbn [lookup_total list_lookup_total].
  passes ltac:(first [apply Z.leb_le; lia | apply Z.eqb_eq; done || lia | by apply bool_decide_eq_true | apply bool_decide_eq_false; naive_solver]).
  unfold match_buffers. rewrite (bool_decide_ext _ (scale_types x_scale weight_scale))
    by (rewrite !list.Forall_cons, list.Forall_nil; unfold scale_types; cbn; rewrite Et1, Et2; tauto).
  case_bool_decide; [|done]. cbn [mbind result_bind].
  rewrite (rows_dims x dims K) by done. rewrite Ex. by rewrite reshape_dims.
Qed.
Lemma gemm_accepts x x_scale weight weight_scale bs out_dtype C out :
  fp8_groupwise_scaled_gemm mismatch x x_scale weight weight_scale bs out_dtype C = Ok out →
  gemm_args x x_scale weight weight_scale bs out_dtype (removelast (shape x)) (dim weight 0) (last_dim x) ∧ scale_types x_scale weight_scale.
Proof.
  unfold fp8_groupwise_scaled_gemm. intros Hok. ok_inv. bool_inv.
  assert (shape x = removelast (shape x) ++ [last_dim x]) as Ex by (apply shape_split; lia).
  assert (shape x_scale = removelast (shape x_scale) ++ [last_dim x_scale]) as Exs by (apply shape_split; lia).
  assert (ndim weight = 2%Z) as Hw by done. assert (ndim weight_scale = 2%Z) as Hws by lia.
  apply shape2 in Hw, Hws. split; [split; [| |rewrite Exs| | | |]|].
  - intros E. rewrite E in Ex. pose proof (ndim_snoc x [] _ Ex). cbn in *. lia.
  - done.
  - f_equal; [done|]. unfold ceildiv. by f_equal.
  - rewrite Hw at 1. by do 2 f_equal.
  - rewrite Hws. unfold ceildiv. congruence.
  - destruct (decide (dtype x = "float8_e4m3fn")), (decide (dtype weight = "float8_e4m3fn")); naive_solver.
  - by destruct (decide (out_dtype ∈ ["float16"; "bfloat16"])).
  - match goal with E : match_buffers _ _ = _ |- _ => rename E into Hm end.
    apply match_buffers_Ok in Hm. rewrite !list.Forall_cons in Hm. destruct Hm as (_ & ? & ? & _).
    done.
Qed.
Lemma group_runs x x_scale weight weight_scale indptr bs out_dtype ids dims N K E C :
  group_args x x_scale weight weight_scale indptr bs dims N K E →
  fp8_groupwise_scaled_group_gemm mismatch x x_scale weight weight_scale indptr bs out_dtype ids C =
  if bool_decide (group_types x x_scale weight weight_scale indptr)
  then Ok (mkTensor (dims ++ [N]) out_dtype (block_fp8_group_matmul (data x) (data weight) (data x_scale) (data weight_scale)
    (compute_expert_id_per_block (data indptr) 64 E ids) (data indptr) (foldl Z.mul 1%Z dims) N K E bs.1 bs.2 64 bs.1 bs.2 32 C))
  else Err mismatch.
Proof.
  intros [Hd Ex Exs Ew Ews Ei HE]. unfold fp8_groupwise_scaled_group_gemm.
  destruct (shape_last x _ _ Ex) as [Lx Rx]. destruct (shape_last x_scale _ _ Exs) as [Lxs Rxs].
  pose proof (ndim_snoc x _ _ Ex) as Nx. pose proof (ndim_snoc x_scale _ _ Exs) as Nxs.
  assert (0 < length dims)%nat by (destruct dims; [done|cbn; lia]).
  assert (ndim weight = 3%Z ∧ ndim weight_scale = 3%Z ∧ ndim indptr = 1%Z) as (Nw & Nws & Ni) by (unfold ndim; by rewrite Ew, Ews, Ei).
  rewrite Nx, Nxs, Nw, Nws, Ni, Lx, Lxs. unfold dim. rewrite Ew, Ews, Ei. cbn [lookup_total list_lookup_total].
  unfold match_buffers.
  rewrite (bool_decide_ext _ (group_types x x_scale weight weight_scale indptr)) by (rewrite !list.Forall_cons, list.Forall_nil; unfold group_types; cbn; tauto).
  passes ltac:(first [apply Z.leb_le; lia | apply Z.eqb_eq; done || lia]).
  case_bool_decide; [|done]. cbn [mbind result_bind].
  rewrite (rows_dims x dims K) by done. rewrite Ex. by rewrite reshape_dims.
Qed.
(** C16. With blocks of positive sizes, the product in float8 takes a matrix, or a stack of them, and the transpose of another,
    exactly when their scales are one per block, the matrices are in float8, both scales in float32, and the result in one
    of its two types, and gives the product of the two matrices, each element multiplied by the scale of its block,
    whatever the sizes, however the programs are numbered. A call with one of the scales in another type passes the checks
    of the operator, and fails at the launch of the kernel. *)
Theorem fp8_gemm_spec x x_scale weight weight_scale bs out_dtype C :
  (0 < bs.1)%Z ∧ (0 < bs.2)%Z →
  (∀ dims N K, gemm_args x x_scale weight weight_scale bs out_dtype dims N K → scale_types x_scale weight_scale →
    (0 <= N)%Z ∧ (0 <= K)%Z →
    ∃ out, fp8_groupwise_scaled_gemm mismatch x x_scale weight weight_scale bs out_dtype C = Ok out ∧
      shape out = dims ++ [N] ∧ dtype out = out_dtype ∧
      ∀ m n, (0 <= m < foldl Z.mul 1 dims)%Z → (0 <= n < N)%Z →
        data out (m * N + n)%Z =
        fsum (λ k, scaled (data x) (data x_scale) K bs.2 m m k * scaled (data weight) (data weight_scale) K bs.2 n (n / bs.1)%Z k) K) ∧
  (∀ out, fp8_groupwise_scaled_gemm mismatch x x_scale weight weight_scale bs out_dtype C = Ok out →
    ∃ dims N K, gemm_args x x_scale weight weight_scale bs out_dtype dims N K ∧ scale_types x_scale weight_scale) ∧
  (∀ dims N K, gemm_args x x_scale weight weight_scale bs out_dtype dims N K →
    dtype x_scale = "float32" ∨ dtype weight_scale = "float32" → ¬ scale_types x_scale weight_scale →
    fp8_groupwise_scaled_gemm mismatch x x_scale weight weight_scale bs out_dtype C = Err mismatch).
Proof.
  intros [Hb1 Hb2]. split; [|split].
  - intros dims N K Hargs Hs [HN HK]. eexists. split; [rewrite (gemm_runs _ _ _ _ _ _ _ _ _ _ Hargs) by (left; apply Hs); by rewrite bool_decide_eq_true_2|].
    split; [done|]. split; [done|]. intros m n Hm Hn. cbn [data]. apply matmul_at; done || lia.
  - intros out Hok. eexists _, _, _. by eapply gemm_accepts.
  - intros dims N K Hargs Hone Hs. rewrite (gemm_runs _ _ _ _ _ _ _ _ _ _ Hargs) by done. by rewrite bool_decide_eq_false_2.
Qed.

(** C17. The grouped product in float8 multiplies every row by the matrix of its expert, with the scales of both, when the
    rows are cut among the experts in order and the types are those of the kernels: the plan gives each block of rows one
    expert, and no row is missed. On tensors of other types the launch fails. *)
Theorem fp8_group_gemm_spec x x_scale weight weight_scale indptr bs out_dtype ids C dims N K E :
  (0 < bs.1)%Z ∧ (0 < bs.2)%Z → (0 <= N)%Z ∧ (0 <= K)%Z ∧ (0 <= E)%Z →
  group_args x x_scale weight weight_scale indptr bs dims N K E →
  data indptr 0%Z = 0%Z → (∀ e, (0 <= e < E → data indptr e <= data indptr (e + 1))%Z) → data indptr E = foldl Z.mul 1%Z dims →
  (group_types x x_scale weight weight_scale indptr →
   ∃ out, fp8_groupwise_scaled_group_gemm mismatch x x_scale weight weight_scale indptr bs out_dtype ids C = Ok out ∧
    shape out = dims ++ [N] ∧ dtype out = out_dtype ∧
    (∀ t, (0 <= t < foldl Z.mul 1 dims)%Z → ∃ e, (0 <= e < E)%Z ∧ (data indptr e <= t < data indptr (e + 1)%Z)%Z) ∧
    ∀ e t n, (0 <= e < E)%Z → (data indptr e <= t < data indptr (e + 1)%Z)%Z → (0 <= n < N)%Z →
      data out (t * N + n)%Z =
      fsum (λ k, scaled (data x) (data x_scale) K bs.2 t t k *
                 scaled (data weight) (data weight_scale) K bs.2 (e * N + n)%Z (e * ceildiv N bs.1 + n / bs.1)%Z k) K) ∧
  (¬ group_types x x_scale weight weight_scale indptr →
   fp8_groupwise_scaled_group_gemm mismatch x x_scale weight weight_scale indptr bs out_dtype ids C = Err mismatch).
Proof.
  intros [Hb1 Hb2] (HN & HK & HE) Hargs Hzero Hmono Hend. rewrite (group_runs _ _ _ _ _ _ _ _ _ _ _ _ _ Hargs).
  split; intros Ht; [rewrite bool_decide_eq_true_2 by done|by rewrite bool_decide_eq_false_2].
  eexists. split; [done|]. split; [done|]. split; [done|].
  split; [intros t Htk; apply token_expert; done || lia|]. intros e t n He Htk Hn. cbn [data]. rewrite <-Hend. apply group_matmul_at; done || lia.
Qed.
End operators.

(** ** Examples *)

Module Example.
Import Reals.
#[local] Open Scope Z_scope.
(** What the runtime raises. *)
Definition bad : exn := Exn TypeError "Mismatched type on argument".
(** One row of two numbers, a scale for each number. *)
Definition x1 : tensor R := mkTensor [1; 2] "float8_e4m3fn" (λ a, IZR (a + 1)).
Definition s1 : tensor R := mkTensor [1; 2] "float32" (λ a, IZR (a + 3)).
Definition w1 : tensor R := mkTensor [2; 2] "float8_e4m3fn" (λ a, IZR a).
Definition ws1 : tensor R := mkTensor [1; 2] "float32" (λ a, IZR (2 * a)).
Lemma fp8_gemm_spec_witness : ∃ out, fp8_groupwise_scaled_gemm bad x1 s1 w1 ws1 (2, 1) "float16" (λ _, 7%R) = Ok out ∧
  data out 1 = fsum (λ k, scaled (data x1) (data s1) 2 1 0 0 k * scaled (data w1) (data ws1) 2 1 1 0 k)%sc 2.
Proof.
  destruct (fp8_gemm_spec bad x1 s1 w1 ws1 (2, 1) "float16" (λ _, 7%R) ltac:(done)) as [H _].
  destruct (H [1] 2 2) as (out & E & _ & _ & D); [|done|done|].
  { split; [done..|by left]. }
  exists out. split; [done|]. by apply (D 0 1).
Defined.
(** Two experts, of which the first has no row. *)
Definition w2 : tensor R := mkTensor [2; 2; 2] "float8_e4m3fn" (λ a, IZR a).
Definition ws2 : tensor R := mkTensor [2; 1; 2] "float32" (λ a, IZR (2 * a)).
Definition ptr2 : tensor Z := mkTensor [3] "int32" (λ a, a / 2).
Lemma fp8_group_gemm_spec_witness : ∃ out,
  fp8_groupwise_scaled_group_gemm bad x1 s1 w2 ws2 ptr2 (2, 1) "float16" (λ _, 5) (λ _, 7%R) = Ok out ∧
  data out 1 = fsum (λ k, scaled (data x1) (data s1) 2 1 0 0 k * scaled (data w2) (data ws2) 2 1 3 1 k)%sc 2.
Proof.
  destruct (fp8_group_gemm_spec bad x1 s1 w2 ws2 ptr2 (2, 1) "float16" (λ _, 5) (λ _, 7%R) [1] 2 2 2) as [H _];
    [done|done|by split| done| |done|].
  { intros e He. cbn. apply Z.div_le_mono; lia. }
  destruct H as (out & E & _ & _ & _ & D); [done|].
  exists out. split; [done|]. by apply (D 1 0 1).
Defined.
(** The check of the types of the scales lets one of them be anything, and the launch of the kernel fails. *)
Example half_scales_fail : fp8_groupwise_scaled_gemm bad x1 (mkTensor [1; 2] "float16" (data s1)) w1 ws1 (2, 1) "float16" (λ _, 7%R) = Err bad.
Proof. reflexivity. Qed.
Example experts_of_blocks : compute_expert_id_per_block (λ e, if e =? 0 then 0 else if e =? 1 then 70 else 80) 64 2 (λ _, 9) <$> [0; 1; 2; 3; 4] = [0; 0; -1; 1; 9].
Proof. vm_compute. reflexivity. Qed.
End Example.
